(* ===== verification/_CoqProject ===== *)
-Q . S2P
Prelude.v
Panic.v
Json.v
Payload.v
Errors.v
Grpc.v
Charset.v
Builders.v
Render.v
External.v
DecimalText.v
Encodings.v
Signing.v
Proto.v
Registry.v
Borsh.v
Payment.v
AbiMetadata.v
ParseRoute.v
Turnkey.v
GatewayAuth.v
Attestation.v
GatewayConfig.v
Gateway.v
HttpServer.v
Servers.v
SolanaCore.v
SolanaAccounts.v
SolanaIdl.v
SolanaParserCrate.v
SolanaIntermediate.v
SolanaConvert.v
SwigDecode.v
Lamports.v
SwigRender.v
PlainText.v
NearText.v
NearTokens.v
NearSigning.v
NearRender.v
NearConvert.v
Alloy.v
EthFormat.v
EthRegistry.v
SolCalls.v
EthContracts.v
EthPermit2.v
F64Text.v
EthRouter.v
EthJson.v
EthConvert.v
SolanaPrograms.v
SolanaTokens.v
SolanaIdlPresets.v
SolanaJupiter.v
SolanaSquads.v
SolanaPresets.v
TronConvert.v
CliMappings.v
SuiCore.v
SuiTransfers.v
SuiCetus.v
SuiMomentum.v
SuiSuilend.v
SuiConvert.v
