(* ===== verification/Prelude.v ===== *)
(** * VisualSign parser: a verification development

    The VisualSign parser turns an unsigned transaction into a [SignablePayload], the tree of
    labelled fields a person reads before signing, serialises it to JSON and signs the result
    with the key of the enclave it runs in. A gateway in front of the enclave takes payment for
    the service and checks what the enclave signed. This development models the
    chain-independent core, the signing path, the gateway and the servers, and the Ethereum,
    Solana, NEAR, Tron and Sui parsers. Source paths below are relative to [src/src/].

    ** The program and the files that model it

    - Shared. This file: the [result] monad, bytes and machine integers as little- and
      big-endian lists, length-prefixed frames, strings and their order, the two map
      disciplines as association lists ([btree_insert], [index_insert]), and the tactics.
      [Panic]: code that can abort, with [Panic] beside the ordinary errors. [DecimalText]:
      the standard library on number texts. [PlainText]: texts that pass the charset gate,
      with the hints that carry them through a renderer. [Borsh] and [External]: the codec
      and the cryptographic crates as interfaces.
    - Payload core, [visualsign/src/lib.rs]. [Json] models the [serde_json] value, its two
      builds of the object map (ordered by key, or by insertion) and the two functions on key
      order; [Payload] the field types, their custom and derived serialisers with the
      serialiser's check of its own output, and the determinism checks; [Charset] the text of
      a payload and the charset gate. [Errors] has the error values and their texts.
    - Around the payload. [Builders]: [field_builders.rs] and [lint.rs], with the number
      pattern as a regular expression. [Render]: [anchorage_render.rs], the walk that lists
      what the wallet cannot show. [Encodings]: [encodings.rs] and [time_fmt.rs]. [Registry]:
      [vsptrait.rs] and [registry.rs], converters with the trait defaults, the registry, the
      layered lookup. A trait object is a record of functions ([converter], [converter_any]).
    - Trust. [Signing]: [signing.rs], allow-lists, the trust policy and the domain-separated
      prehashes. [Payment]: [host_primitives/src/payment_marker.rs] and
      [parser/app/src/payment_verify.rs], the policy and the marker that proves a request was paid for.
    - The service. [Proto] and [Grpc]: the messages of [generated/] that the code uses.
      [ParseRoute]: [parser/app/src], options, the production registry, [parse], the signed
      digest and the dispatcher [process]. [Servers]: the gRPC host, the development server
      and the health services. [HttpServer]: [parser/http-server], the boot proof, handlers
      and start-up.
    - The gateway, [parser/gateway/src]. [Turnkey]: the request and response envelope.
      [GatewayAuth]: the environment readers and the bearer gate. [Attestation]: the check of
      the enclave's signature. [GatewayConfig]: the payment configuration and the prices.
      [Gateway]: the handlers, the decision of [main] and the routes behind both gates.
    - Ethereum, [chain_parsers/visualsign-ethereum]. [AbiMetadata]: the ABIs a request brings
      and which of them are used. [Alloy] and [SolCalls]: what the parser uses of alloy.
      [EthFormat]: amounts and networks. [EthRegistry]: tokens, contracts, visualizers.
      [EthContracts]: token standards and dynamic ABIs. [EthPermit2] and [EthRouter]: Permit2
      and the Universal Router, with [F64Text], doubles as decimal text. [EthJson]: the JSON
      form of a transaction. [EthConvert]: [lib.rs], from input to payload.
    - Solana, [chain_parsers/visualsign-solana]. [SolanaCore]: contexts, account resolution,
      the choice of a visualizer. [SolanaAccounts]: the roles of accounts. [SolanaIdl]: the
      IDLs a request brings, names and signatures. [SolanaParserCrate]: the decoder crate.
      [SolanaIntermediate]: the output for policy engines and simulations. [SolanaConvert]:
      from input to payload. The presets: [SwigDecode], [Lamports] and [SwigRender] for
      [swig_wallet]; [SolanaPrograms] for [system], [compute_budget],
      [associated_token_account] and [stakepool]; [SolanaTokens] for [spl_token],
      [token_2022] and [utils]; [SolanaIdlPresets] for [core/arg_rendering.rs], the presets
      that decode with a bundled IDL and [unknown_program]; [SolanaJupiter] for
      [jupiter_swap]; [SolanaSquads] for [squads_multisig]. [SolanaPresets] puts all of them
      into the list the converter uses, and proves the converter over that list.
    - NEAR, [chain_parsers/visualsign-near]. [NearText]: texts and networks. [NearTokens]: the
      token table. [NearSigning]: signed token metadata. [NearRender]: intents, envelopes and
      signature checks. [NearConvert]: transactions and the converter.
    - Tron, [chain_parsers/visualsign-tron], and unspecified chains. [TronConvert]: both wire
      forms, every contract, the texts, and the two converters.
    - Sui, [chain_parsers/visualsign-sui]. [SuiCore]: [utils], the layout macro, contexts and the
      choice of a visualizer. The presets: [SuiTransfers] for [coin_transfer] and
      [sui_native_staking], [SuiCetus], [SuiMomentum] and [SuiSuilend]. [SuiConvert]: the
      presets as [build.rs] lists them, from input to payload.
    - The command line. [CliMappings]: [parser/cli-core] on transactions and mapping files, the
      metadata that the plugins of Ethereum, Solana and NEAR build, and [embedded_abis.rs].

    State is explicit: registries are maps, a step of a loop is a function on the accumulated
    state ([extract_step], [decode_step], [token_extract_step]), a start-up decision or a
    request handler is a function from the environment and the request to the outcome.

    ** What is a parameter

    Code of other crates enters through type classes that state what is relied on, each with
    an instance that satisfies its laws: [SerdeMap] and [JsonFormat] ([serde_json]),
    [RegexEngine] ([regex]), [Sha256], [HexCodec], [P256], [Secp256k1], [Ed25519] (the
    cryptographic crates), [Borsh] (a codec reads back what it writes; with [BorshCanonical]
    nothing else reads as it), [QosHex] and [QosManifest] (the enclave framework),
    [HttpCrates], [Mime], [Tonic], [X402Crates], [PayGate], [Base64Codec] (the servers),
    [AlloyPrimitives], [AlloyAbi], [AlloyTx], [IERC20], [IERC1155], [IPermit2],
    [IUniversalRouter], [Chrono] (Ethereum), [SolanaSdk], [SolanaIdls], [SolanaParser],
    [SolanaWire], [ProgramCodecs], [TokenCodecs], [IdlDecoder], [ProgramAddresses] (Solana),
    [NearTypes], [NearCrates], [NearKeys], [NearDecoders] (NEAR), [TronProto], [Base58Check]
    (Tron), and [SuiSdk], [SuiCodec] (Sui). The instances are executable and carry the witnesses; the toy keys and hash only show that the laws can hold
    together. No law says that SHA-256 is injective: a binding theorem concludes with
    equality or an explicit collision. Functions about which nothing is assumed (base58,
    keccak, base64, JSON parsers, error texts, the environment) are plain arguments. One class
    is an interface between components of the program: [ShowsCalls], what a Solana preset
    promises the converter; every preset has an instance.

    ** What the theorems show

    - The signing path ([ParseRoute], [Charset], [Json], [Payload]). Every response
      answers a request that met the payment policy (which asks nothing when payments are
      disabled, as every binary configures today), comes from the registered converter of the
      requested chain, passed the charset gate and is signed over exactly the payload it
      carries; the signed digest binds every field; unclean payloads are refused. The gate accepts exactly the payloads whose texts are
      clean, at any depth. With the key-ordered map the signed text is the validated one;
      with the insertion-ordered map, which the lock file selects, it can differ
      ([signed_text_differs]).
    - Trust ([Payment], [Signing], [AbiMetadata], [SolanaIdl], [NearSigning]). A marker pays
      for one request; prehashes bind what they are meant to; an ABI, IDL or token description
      of a request is used only where the posture allows it, and cannot displace the
      compiled-in tokens, programs and assets.
    - Gateway and servers ([Gateway], [GatewayAuth], [GatewayConfig], [HttpServer],
      [Servers]). A payment is settled only for an attested response to that very request;
      an honest enclave's answers are forwarded; replayed responses are refused and settle
      nothing; the HTTP server and the gateway answer alike.
    - Converters ([EthConvert], [EthJson], [SolanaConvert], [SolanaPresets], [NearConvert],
      [TronConvert], [SuiConvert]). What is accepted, what every payload contains, and what equal payloads have in common:
      chain, destination, value and fees of an Ethereum transaction (not its access list); accounts, programs and
      data of a Solana one, in the build with diagnostics and in the one without, where a note
      replaces the instructions of a V0 transaction that does not decode; times, fees, parties, amounts and votes of a Tron one; the
      whole of a Sui one. The order in which a build finds the Sui presets does not matter.
    - Renderers (the other files). No input makes a decoder panic; binary decoders accept
      exactly the encodings; amounts are exact decimals of the units; commands are paired with
      their inputs; every instruction of a multisig transaction is shown, or a row
      says that it is nested too deeply; the recursion of
      presets into the list of presets ends; a Sui transfer or swap shows the inputs it names,
      and references between Sui commands are followed within a fixed budget.
    - Command line ([CliMappings]). Mapping texts are accepted exactly in their format; the last
      accepted mapping of an identifier is kept; every ABI the plugin signs is accepted by the
      posture it runs with.

    ** Fuel

    [swig_visualize] and [visualizers_at] are unfolded [MAX_CALL_DEPTH] (four) times, the
    latter once more: each nested call is one deeper and the guards stop at that depth, so
    [swig_recursion_bounded] and [preset_recursion_ends] show that the result satisfies the
    unbounded recursive equation of the code. The two loops over packed actions get one more
    step than there are bytes and move at least eight bytes a step ([action_loops_terminate]).
    The shortest decimal of a double is searched among at most 22 digits behind the point,
    enough for every double the parsers print ([show_f64_exact_at]). [resolve_object] follows at
    most 32 references, as the code does, and [resolve_object_exact] says which chains that
    covers. All other recursion is structural, or on the length of the input.

    ** What is not modelled

    The rest of the command line tools and the
    deployment tool ([parser/cli], the output of [parser/cli-core], [tools/]), metrics and code
    generation. Deserialisation of payloads, the prost wire format, sockets, start-up of the
    runtimes, log lines and the compile-time helpers of the ordering trait. JSON numbers are
    integers: the parsers build and read no others. The bundled IDLs and ABIs are named by their
    files and read by the interfaces above. *)

From stdpp Require Export sorting.
From stdpp Require Export base strings gmap pretty numbers list.
From Stdlib Require Strings.Byte Strings.Ascii.
Export (notations) Stdlib.Strings.Ascii.

(** ** Hint databases and tactics of the development *)

Create HintDb vs.
Create Rewrite HintDb vs.

(** Case analysis on the discriminee of a [match] or [if], remembering it. *)
Ltac case_split :=
  match goal with
  | |- context [match ?x with _ => _ end] => destruct x eqn:?
  | H : context [match ?x with _ => _ end] |- _ => destruct x eqn:?
  end.

(** The routine closing step: simplify, split every branch, use the hints. *)
Ltac vs_auto :=
  repeat (first [ progress simplify_eq/= | progress simplify_option_eq | case_split ]);
  eauto with vs.

(** Proves a decidable statement about closed data by evaluating its decision. *)
Ltac by_decision :=
  match goal with |- ?P => apply (bool_decide_unpack P); vm_compute; exact I end.

(** Proves a statement about one byte of text by inspecting its 256 values. *)
Ltac ascii_cases c := destruct c as [[] [] [] [] [] [] [] []]; try done; vm_compute.

(** ** Fallible computations: the [Result] type of the source *)

Inductive result (E A : Type) : Type :=
| Ok (a : A)
| Err (e : E).
Arguments Ok {E A} a.
Arguments Err {E A} e.

#[export] Instance result_ret {E} : MRet (result E) := fun A => Ok.
#[export] Instance result_bind {E} : MBind (result E) :=
  fun A B f m => match m with Ok a => f a | Err e => Err e end.
#[export] Instance result_fmap {E} : FMap (result E) :=
  fun A B f m => match m with Ok a => Ok (f a) | Err e => Err e end.
#[export] Instance result_eq_dec {E A} `{EqDecision E, EqDecision A} : EqDecision (result E A).
Proof. solve_decision. Defined.

#[export] Instance Ok_inj {E A} : Inj (=) (=) (@Ok E A).
Proof. by injection 1. Qed.

Definition map_err {E E' A} (f : E → E') (m : result E A) : result E' A :=
  match m with Ok a => Ok a | Err e => Err (f e) end.

Definition is_ok {E A} (m : result E A) : bool :=
  match m with Ok _ => true | Err _ => false end.

Definition ok_or {E A} (e : E) (o : option A) : result E A :=
  match o with Some a => Ok a | None => Err e end.

Lemma result_bind_Ok {E A B} (m : result E A) (f : A → result E B) b :
  m ≫= f = Ok b ↔ ∃ a, m = Ok a ∧ f a = Ok b.
Proof. destruct m; cbn; naive_solver. Qed.

Lemma result_bind_Err {E A B} (m : result E A) (f : A → result E B) e :
  m ≫= f = Err e ↔ m = Err e ∨ ∃ a, m = Ok a ∧ f a = Err e.
Proof. destruct m; cbn; naive_solver. Qed.

Lemma map_err_Ok {E E' A} (f : E → E') (m : result E A) a :
  map_err f m = Ok a ↔ m = Ok a.
Proof. destruct m; cbn; naive_solver. Qed.

Lemma ok_or_Ok {E A} (e : E) (o : option A) x : ok_or e o = Ok x ↔ o = Some x.
Proof. destruct o; cbn; naive_solver. Qed.

(** [collect::<Result<Vec<_>, _>>]: stops at the first error. *)
Fixpoint collect_results {E A B} (f : A → result E B) (l : list A) : result E (list B) :=
  match l with
  | [] => Ok []
  | x :: l => y ← f x; ys ← collect_results f l; Ok (y :: ys)
  end.

Lemma collect_results_ext {E T U} (f g : T → result E U) l :
  Forall (fun x => f x = g x) l → collect_results f l = collect_results g l.
Proof. induction 1 as [|x l Hx _ IH]; cbn; [done|]. by rewrite Hx, IH. Qed.

Lemma collect_results_Ok {E A B} (f : A → result E B) l ys :
  collect_results f l = Ok ys ↔ Forall2 (fun x y => f x = Ok y) l ys.
Proof.
  revert ys; induction l as [|x l IH]; intros ys; cbn.
  - split; [by intros [= <-]|by inversion 1].
  - split.
    + intros (y & Hy & (ys' & Hl & [= <-])%result_bind_Ok)%result_bind_Ok.
      constructor; [done|]. by apply IH.
    + intros (y & ys' & Hy & Hl & ->)%Forall2_cons_inv_l.
      rewrite Hy; cbn. by rewrite (proj2 (IH _) Hl).
Qed.

(** ** Bytes and little-endian integers *)

Abbreviation byte := Byte.byte.
Abbreviation bytes := (list Byte.byte).

#[export] Instance byte_eq_dec : EqDecision byte := Byte.byte_eq_dec.
#[export] Program Instance byte_countable : Countable byte :=
  inj_countable Byte.to_N Byte.of_N _.
Next Obligation. apply Byte.of_to_N. Qed.

Definition byte_to_Z (b : byte) : Z := Z.of_N (Byte.to_N b).
Definition byte_of_Z (z : Z) : byte := default Byte.x00 (Byte.of_N (Z.to_N (z `mod` 256))).

Lemma byte_to_Z_range b : (0 ≤ byte_to_Z b < 256)%Z.
Proof. unfold byte_to_Z. pose proof (Byte.to_N_bounded b). lia. Qed.

Lemma byte_to_of_Z z : byte_to_Z (byte_of_Z z) = (z `mod` 256)%Z.
Proof.
  unfold byte_to_Z, byte_of_Z.
  pose proof (Z.mod_pos_bound z 256 eq_refl) as Hz.
  destruct (Byte.of_N _) as [b|] eqn:Hb; cbn.
  - apply Byte.to_of_N in Hb. rewrite Hb. lia.
  - apply Byte.of_N_None_iff in Hb. lia.
Qed.

Lemma byte_to_Z_inj b b' : byte_to_Z b = byte_to_Z b' → b = b'.
Proof.
  unfold byte_to_Z. intros H%N2Z.inj.
  pose proof (Byte.of_to_N b). pose proof (Byte.of_to_N b'). congruence.
Qed.

Lemma byte_of_to_Z b : byte_of_Z (byte_to_Z b) = b.
Proof.
  apply byte_to_Z_inj. rewrite byte_to_of_Z. apply Z.mod_small, byte_to_Z_range.
Qed.

(** [to_le_bytes] at a width of [n] bytes, and [from_le_bytes]. *)
Fixpoint le_bytes (n : nat) (z : Z) : bytes :=
  match n with
  | O => []
  | S n => byte_of_Z z :: le_bytes n (z `div` 256)
  end.

Fixpoint le_val (bs : bytes) : Z :=
  match bs with
  | [] => 0
  | b :: bs => byte_to_Z b + 256 * le_val bs
  end%Z.

(** [to_be_bytes] at a width of [n] bytes. *)
Definition be_bytes (n : nat) (z : Z) : bytes := reverse (le_bytes n z).

Lemma length_le_bytes n z : length (le_bytes n z) = n.
Proof. revert z; induction n; intros; cbn; auto. Qed.

Lemma length_be_bytes n z : length (be_bytes n z) = n.
Proof. unfold be_bytes. by rewrite length_reverse, length_le_bytes. Qed.
#[export] Hint Rewrite length_le_bytes length_be_bytes : vs.

Lemma le_val_le_bytes n z : le_val (le_bytes n z) = (z `mod` 256 ^ Z.of_nat n)%Z.
Proof.
  revert z; induction n as [|n IH]; intros z; cbn [le_bytes le_val].
  - by rewrite Z.mod_1_r.
  - rewrite IH, byte_to_of_Z, Nat2Z.inj_succ, Z.pow_succ_r by lia.
    rewrite Z.rem_mul_r; lia.
Qed.

Lemma le_bytes_le_val bs : le_bytes (length bs) (le_val bs) = bs.
Proof.
  induction bs as [|b bs IH]; [done|]. cbn [length le_bytes le_val].
  pose proof (byte_to_Z_range b) as Hb. f_equal.
  - apply byte_to_Z_inj. rewrite byte_to_of_Z.
    rewrite Z.mul_comm, Z_mod_plus_full. by apply Z.mod_small.
  - rewrite Z.mul_comm, Z.div_add, Z.div_small by lia. done.
Qed.

Lemma le_val_range bs : (0 ≤ le_val bs < 256 ^ Z.of_nat (length bs))%Z.
Proof.
  rewrite <-(le_bytes_le_val bs) at 1 2. rewrite le_val_le_bytes.
  apply Z.mod_pos_bound. lia.
Qed.

Lemma le_bytes_inj n z z' :
  (0 ≤ z < 256 ^ Z.of_nat n)%Z → (0 ≤ z' < 256 ^ Z.of_nat n)%Z →
  le_bytes n z = le_bytes n z' → z = z'.
Proof.
  intros ?? H%(f_equal le_val). rewrite !le_val_le_bytes in H.
  by rewrite !Z.mod_small in H.
Qed.

Lemma be_bytes_inj n z z' :
  (0 ≤ z < 256 ^ Z.of_nat n)%Z → (0 ≤ z' < 256 ^ Z.of_nat n)%Z →
  be_bytes n z = be_bytes n z' → z = z'.
Proof. intros ?? H%(inj reverse). by apply le_bytes_inj in H. Qed.

(** A field behind its length written in [n] little-endian bytes, the framing that the
    signing prehash, the request hash and the Borsh encodings share. *)
Definition frame (n : nat) (field : bytes) : bytes :=
  le_bytes n (Z.of_nat (length field)) ++ field.

Definition fits (n : nat) (field : bytes) : Prop :=
  (Z.of_nat (length field) < 256 ^ Z.of_nat n)%Z.

Lemma frame_inj n a b r s :
  fits n a → fits n b → frame n a ++ r = frame n b ++ s → a = b ∧ r = s.
Proof.
  unfold frame, fits. intros Ha Hb Heq. rewrite <-!app_assoc in Heq.
  apply app_inj_1 in Heq as [Hlen Heq]; [|by autorewrite with vs].
  apply le_bytes_inj in Hlen; [|lia..].
  apply app_inj_1 in Heq; [naive_solver|lia].
Qed.

(** ** Text: UTF-8 byte strings *)

Definition as_bytes (s : string) : bytes := String.list_byte_of_string s.
Definition str_of_bytes (bs : bytes) : string := String.string_of_list_byte bs.

Lemma str_of_as_bytes s : str_of_bytes (as_bytes s) = s.
Proof. apply String.string_of_list_byte_of_string. Qed.

Lemma as_str_of_bytes bs : as_bytes (str_of_bytes bs) = bs.
Proof. apply String.list_byte_of_string_of_list_byte. Qed.

#[export] Instance as_bytes_inj : Inj (=) (=) as_bytes.
Proof.
  intros s t H%(f_equal str_of_bytes). by rewrite !str_of_as_bytes in H.
Qed.

Lemma length_as_bytes s : length (as_bytes s) = String.length s.
Proof.
  unfold as_bytes, String.list_byte_of_string. rewrite List.length_map.
  induction s; cbn; auto.
Qed.
#[export] Hint Rewrite length_as_bytes : vs.

Lemma str_cons_app c s t : String c s +:+ t = String c (s +:+ t).
Proof. done. Qed.

Lemma as_bytes_app s t : as_bytes (s +:+ t) = as_bytes s ++ as_bytes t.
Proof.
  induction s as [|c s IH]; [done|]. rewrite str_cons_app. unfold as_bytes in *. cbn. by f_equal.
Qed.

Lemma str_app_inj_l s s' t : s +:+ t = s' +:+ t → s = s'.
Proof.
  intros E. apply (inj as_bytes), (inj (.++ as_bytes t)).
  by rewrite <-!as_bytes_app, E.
Qed.

Lemma str_nil_app t : "" +:+ t = t.
Proof. done. Qed.

Lemma str_app_nil_r s : s +:+ "" = s.
Proof. induction s as [|c s IH]; [done|]. by rewrite str_cons_app, IH. Qed.

Lemma str_app_assoc s t u : s +:+ (t +:+ u) = (s +:+ t) +:+ u.
Proof. induction s as [|c s IH]; [done|]. by rewrite !str_cons_app, IH. Qed.

Lemma length_str_app s t : String.length (s +:+ t) = String.length s + String.length t.
Proof. induction s as [|c s IH]; [done|]. rewrite str_cons_app; cbn. by rewrite IH. Qed.

(** [format!] and [join]. *)
Fixpoint str_concat (l : list string) : string :=
  match l with
  | [] => ""
  | s :: l => s +:+ str_concat l
  end.

(** The line separator of multi-line texts. *)
Definition newline : string := String (Ascii.ascii_of_nat 10) "".

Fixpoint str_join (sep : string) (l : list string) : string :=
  match l with
  | [] => ""
  | [s] => s
  | s :: l => s +:+ sep +:+ str_join sep l
  end.

Lemma str_concat_app l k : str_concat (l ++ k) = str_concat l +:+ str_concat k.
Proof. induction l; cbn; [done|]. by rewrite IHl, str_app_assoc. Qed.

(** [str::split] at a character. *)
Fixpoint split_on (sep : Ascii.ascii) (s : string) : list string :=
  match s with
  | "" => [""]
  | String c s =>
      if decide (c = sep) then "" :: split_on sep s
      else match split_on sep s with
           | [] => [String c ""]
           | t :: l => String c t :: l
           end
  end.

(** [str::strip_prefix] and [str::starts_with]. *)
Fixpoint strip_prefix (p s : string) : option string :=
  match p, s with
  | "", _ => Some s
  | String a p, String b s => if decide (a = b) then strip_prefix p s else None
  | _, "" => None
  end.

Definition starts_with (p s : string) : bool := bool_decide (is_Some (strip_prefix p s)).

Lemma strip_prefix_Some p s t : strip_prefix p s = Some t ↔ s = p +:+ t.
Proof.
  revert s; induction p as [|a p IH]; intros s; cbn.
  - naive_solver.
  - destruct s as [|b s]; [done|]. case_decide; subst.
    + rewrite IH. rewrite str_cons_app. naive_solver.
    + rewrite str_cons_app. naive_solver.
Qed.

Lemma strip_prefix_app p t : strip_prefix p (p +:+ t) = Some t.
Proof. by apply strip_prefix_Some. Qed.

(** [str::contains] with a string pattern. *)
Fixpoint str_contains (p s : string) : bool :=
  starts_with p s || match s with "" => false | String _ s => str_contains p s end.

(** [s.chars().all(..)] for predicates that only accept ASCII. *)
Fixpoint str_all (P : Ascii.ascii → bool) (s : string) : bool :=
  match s with
  | "" => true
  | String c s => P c && str_all P s
  end.

(** A text without the delimiter is found before its first occurrence. *)
Lemma str_split_inj (d : Ascii.ascii) s : ∀ s' t t',
  str_all (fun c => negb (bool_decide (c = d))) s = true →
  str_all (fun c => negb (bool_decide (c = d))) s' = true →
  s +:+ String d t = s' +:+ String d t' → s = s' ∧ t = t'.
Proof.
  induction s as [|c s IH]; intros [|c' s'] t t' Hs Hs' Eq; cbn in Eq.
  - by injection Eq.
  - injection Eq as <- _. cbn in Hs'. by rewrite bool_decide_eq_true_2 in Hs'.
  - injection Eq as -> _. cbn in Hs. by rewrite bool_decide_eq_true_2 in Hs.
  - injection Eq as -> Eq. cbn in Hs, Hs'. apply andb_true_iff in Hs as [_ Hs], Hs' as [_ Hs'].
    by destruct (IH s' t t' Hs Hs' Eq) as [-> ->].
Qed.

Lemma str_all_app P s t : str_all P (s +:+ t) = str_all P s && str_all P t.
Proof.
  induction s as [|c s IH]; [done|]. rewrite str_cons_app; cbn. by rewrite IH, andb_assoc.
Qed.

Lemma str_all_impl P Q s :
  (∀ c, P c = true → Q c = true) → str_all P s = true → str_all Q s = true.
Proof.
  intros HPQ. induction s; cbn; [done|]. rewrite !andb_true_iff. naive_solver.
Qed.

Lemma str_all_concat P l :
  str_all P (str_concat l) = forallb (str_all P) l.
Proof. induction l; cbn; [done|]. by rewrite str_all_app, IHl. Qed.

(** The code of a byte of text, and the [char] classes the source tests. *)
Definition code (c : Ascii.ascii) : nat := Ascii.nat_of_ascii c.

Lemma code_inj c c' : code c = code c' → c = c'.
Proof.
  unfold code. intros H. by rewrite <-(Ascii.ascii_nat_embedding c), H, Ascii.ascii_nat_embedding.
Qed.

Definition is_ascii (c : Ascii.ascii) : bool := code c <? 128.
Definition is_ascii_graphic (c : Ascii.ascii) : bool := (33 <=? code c) && (code c <=? 126).
Definition is_ascii_whitespace (c : Ascii.ascii) : bool :=
  existsb (Nat.eqb (code c)) [9; 10; 12; 13; 32].
Definition is_ascii_digit (c : Ascii.ascii) : bool := (48 <=? code c) && (code c <=? 57).
Definition is_ascii_hexdigit (c : Ascii.ascii) : bool :=
  is_ascii_digit c || ((97 <=? code c) && (code c <=? 102))
  || ((65 <=? code c) && (code c <=? 70)).
Definition is_ascii_alphanumeric (c : Ascii.ascii) : bool :=
  is_ascii_digit c || ((65 <=? code c) && (code c <=? 90)) || ((97 <=? code c) && (code c <=? 122)).

(** ** Decimal rendering ([to_string] of the unsigned and signed integers) *)

Definition show_Z (z : Z) : string := pretty z.
Definition show_nat (n : nat) : string := pretty n.

Lemma show_Z_inj z z' : show_Z z = show_Z z' → z = z'.
Proof. apply (inj pretty). Qed.

Lemma show_nat_inj n n' : show_nat n = show_nat n' → n = n'.
Proof. apply (inj pretty). Qed.

Lemma pretty_N_char_digit x : is_ascii_digit (pretty_N_char x) = true.
Proof. destruct x as [|p]; [done|]. do 4 (destruct p as [p|p|]; try done). Qed.

Lemma pretty_N_go_digits x s :
  str_all is_ascii_digit s = true → str_all is_ascii_digit (pretty_N_go x s) = true.
Proof.
  revert s. induction (N.lt_wf_0 x) as [x _ IH]; intros s Hs.
  destruct (decide (0 < x)%N) as [Hx|Hx].
  - rewrite pretty_N_go_step by done. apply IH; [by apply N.div_lt|].
    cbn. by rewrite pretty_N_char_digit.
  - by assert (x = 0)%N as -> by lia.
Qed.

Lemma show_nonneg_digits z :
  (0 ≤ z)%Z → str_all is_ascii_digit (show_Z z) = true.
Proof.
  intros Hz. unfold show_Z. destruct z as [|p|p]; [done| |lia].
  change (str_all is_ascii_digit (pretty_N_go (N.pos p) "") = true).
  by apply pretty_N_go_digits.
Qed.

(** ** Ordered and insertion-ordered maps with string keys

    [BTreeMap<String, V>] is an association list in strictly increasing key order;
    [IndexMap] keeps the order of first insertion and replaces values in place. *)

Definition str_lt (a b : string) : Prop := String.compare a b = Lt.

#[export] Instance str_lt_trans : Transitive str_lt.
Proof.
  intros a b c Hab Hbc. unfold str_lt in *.
  assert (String.le a c) as Hac.
  { transitivity b; unfold String.le, String.leb; by rewrite ?Hab, ?Hbc. }
  unfold String.le, String.leb in Hac. destruct (String.compare a c) eqn:E; [|done|done].
  apply String.compare_eq_iff in E as ->.
  rewrite String.compare_antisym, Hbc in Hab. done.
Qed.

Lemma str_compare_refl a : String.compare a a = Eq.
Proof.
  destruct (String.compare a a) eqn:E; [done|..];
    pose proof (String.compare_antisym a a) as H; rewrite E in H; done.
Qed.

Lemma str_lt_irrefl a : ~ str_lt a a.
Proof. unfold str_lt. by rewrite str_compare_refl. Qed.

Lemma str_compare_Gt a b : String.compare a b = Gt → str_lt b a.
Proof. unfold str_lt. intros H. by rewrite String.compare_antisym, H. Qed.

Section btree.
Context {V : Type}.
Implicit Types (m l : list (string * V)) (k : string) (v : V).

Fixpoint btree_insert k v m : list (string * V) :=
  match m with
  | [] => [(k, v)]
  | (k', v') :: m' =>
      match String.compare k k' with
      | Eq => (k, v) :: m'
      | Lt => (k, v) :: m
      | Gt => (k', v') :: btree_insert k v m'
      end
  end.

Definition btree_of_list l : list (string * V) :=
  foldl (fun m kv => btree_insert kv.1 kv.2 m) [] l.

Fixpoint index_insert k v m : list (string * V) :=
  match m with
  | [] => [(k, v)]
  | (k', v') :: m' =>
      if decide (k = k') then (k, v) :: m' else (k', v') :: index_insert k v m'
  end.

Definition index_of_list l : list (string * V) :=
  foldl (fun m kv => index_insert kv.1 kv.2 m) [] l.

Fixpoint assoc k m : option V :=
  match m with
  | [] => None
  | (k', v) :: m => if decide (k = k') then Some v else assoc k m
  end.

Definition keys m : list string := m.*1.

Definition btree_sorted m : Prop := StronglySorted str_lt (keys m).

Lemma elem_of_btree_insert_keys k v m x :
  x ∈ keys (btree_insert k v m) ↔ x = k ∨ x ∈ keys m.
Proof.
  unfold keys. induction m as [|[k' v'] m IH]; csimpl; [set_solver|].
  destruct (String.compare k k') eqn:E; csimpl.
  - apply String.compare_eq_iff in E as ->. set_solver.
  - set_solver.
  - rewrite !elem_of_cons, IH. naive_solver.
Qed.

Lemma btree_insert_sorted k v m : btree_sorted m → btree_sorted (btree_insert k v m).
Proof.
  unfold btree_sorted. induction m as [|[k' v'] m IH]; cbn.
  { intros _. repeat constructor. }
  inversion_clear 1 as [|?? Hs Hall].
  destruct (String.compare k k') eqn:E; cbn.
  - apply String.compare_eq_iff in E as ->. by constructor.
  - constructor; [by constructor|]. constructor; [done|].
    eapply Forall_impl; [exact Hall|]. intros x ?. by transitivity k'.
  - constructor; [by apply IH|]. apply Forall_forall.
    intros x [-> | Hx]%elem_of_btree_insert_keys; [by apply str_compare_Gt|].
    by eapply Forall_forall in Hall.
Qed.

Lemma btree_foldl_sorted l m :
  btree_sorted m → btree_sorted (foldl (fun m kv => btree_insert kv.1 kv.2 m) m l).
Proof.
  revert m; induction l as [|[k v] l IH]; cbn; [done|].
  intros m Hm. by apply IH, btree_insert_sorted.
Qed.

Lemma btree_of_list_sorted l : btree_sorted (btree_of_list l).
Proof. apply btree_foldl_sorted. constructor. Qed.

Lemma btree_insert_perm k v m : k ∉ keys m → btree_insert k v m ≡ₚ (k, v) :: m.
Proof.
  induction m as [|[k' v'] m IH]; cbn; [done|]. intros Hk.
  destruct (String.compare k k') eqn:E; [|done|].
  - apply String.compare_eq_iff in E as ->. set_solver.
  - rewrite IH by set_solver. apply perm_swap.
Qed.

Lemma btree_foldl_perm l m :
  NoDup (keys m ++ keys l) →
  foldl (fun m kv => btree_insert kv.1 kv.2 m) m l ≡ₚ m ++ l.
Proof.
  revert m; induction l as [|[k v] l IH]; cbn; intros m Hnd.
  { by rewrite app_nil_r. }
  assert (k ∉ keys m) as Hk.
  { apply NoDup_app in Hnd as (_ & Hd & _). intros Hk. by eapply Hd; [done|left]. }
  assert (keys (btree_insert k v m) ≡ₚ k :: keys m) as Hkeys.
  { unfold keys. by rewrite btree_insert_perm. }
  rewrite IH.
  - rewrite btree_insert_perm by done. cbn. by rewrite Permutation_middle.
  - rewrite Hkeys. cbn. by rewrite Permutation_middle.
Qed.

Lemma btree_of_list_perm l : NoDup (keys l) → btree_of_list l ≡ₚ l.
Proof. intros. unfold btree_of_list. by rewrite btree_foldl_perm. Qed.

Lemma btree_sorted_NoDup m : btree_sorted m → NoDup (keys m).
Proof.
  unfold btree_sorted. generalize (keys m) as l. induction 1 as [|k l Hs IH Hall].
  - constructor.
  - constructor; [|done]. intros Hin. eapply Forall_forall in Hall; [|done].
    by apply str_lt_irrefl in Hall.
Qed.

Lemma btree_sorted_pairs m :
  btree_sorted m → StronglySorted (fun a b => str_lt a.1 b.1) m.
Proof.
  unfold btree_sorted. induction m as [|kv m IH]; cbn; [constructor|].
  inversion_clear 1 as [|?? Hs Hall]. constructor; [auto|].
  exact (proj1 (Forall_fmap _ _ _) Hall).
Qed.

(** A [BTreeMap] is determined by its entries, whatever order they arrived in. *)
Lemma btree_sorted_unique m m' :
  btree_sorted m → btree_sorted m' → m ≡ₚ m' → m = m'.
Proof.
  intros H%btree_sorted_pairs H'%btree_sorted_pairs.
  apply (StronglySorted_unique_strong (fun a b => str_lt a.1 b.1)); [|done|done].
  intros a b _ _ Hab Hba. exfalso. apply (str_lt_irrefl a.1). by transitivity b.1.
Qed.

Lemma btree_of_list_sorted_id m : btree_sorted m → btree_of_list m = m.
Proof.
  intros Hm. apply btree_sorted_unique; [apply btree_of_list_sorted|done|].
  by apply btree_of_list_perm, btree_sorted_NoDup.
Qed.

Lemma btree_of_list_perm_eq l l' :
  NoDup (keys l) → l ≡ₚ l' → btree_of_list l = btree_of_list l'.
Proof.
  intros Hnd Hp. apply btree_sorted_unique; [apply btree_of_list_sorted..|].
  rewrite !btree_of_list_perm; [done| |done]. unfold keys. by rewrite <-Hp.
Qed.

Lemma index_insert_fresh k v m : k ∉ keys m → index_insert k v m = m ++ [(k, v)].
Proof.
  induction m as [|[k' v'] m IH]; cbn; [done|]. intros Hk.
  rewrite decide_False by set_solver. rewrite IH by set_solver. done.
Qed.

Lemma index_foldl_id l m :
  NoDup (keys m ++ keys l) →
  foldl (fun m kv => index_insert kv.1 kv.2 m) m l = m ++ l.
Proof.
  revert m; induction l as [|[k v] l IH]; cbn; intros m Hnd; [by rewrite app_nil_r|].
  rewrite index_insert_fresh.
  - rewrite IH; [by rewrite <-app_assoc|]. unfold keys in *.
    by rewrite fmap_app, <-app_assoc.
  - apply NoDup_app in Hnd as (_ & Hd & _). intros Hk. by eapply Hd; [done|left].
Qed.

Lemma index_of_list_id l : NoDup (keys l) → index_of_list l = l.
Proof. intros. unfold index_of_list. by rewrite index_foldl_id. Qed.

Lemma assoc_elem_of k v m : NoDup (keys m) → assoc k m = Some v ↔ (k, v) ∈ m.
Proof.
  induction m as [|[k' v'] m IH]; cbn; [set_solver|].
  rewrite NoDup_cons, elem_of_cons. intros [Hk Hnd]. rewrite <-IH by done.
  case_decide; subst; [|naive_solver].
  split; [naive_solver|]. intros [|Hin]; [naive_solver|].
  apply IH in Hin; [|done]. destruct Hk. by apply (list_elem_of_fmap_2 fst) in Hin.
Qed.

Lemma assoc_perm k m m' : NoDup (keys m) → m ≡ₚ m' → assoc k m = assoc k m'.
Proof.
  intros Hnd Hp. apply option_eq. intros v.
  rewrite !assoc_elem_of; [by rewrite Hp| |done]. unfold keys. by rewrite <-Hp.
Qed.
End btree.

Lemma assoc_btree_insert {V} k k' (v : V) m :
  assoc k (btree_insert k' v m) = if decide (k = k') then Some v else assoc k m.
Proof.
  induction m as [|[k0 v0] m IH]; cbn; [done|].
  destruct (String.compare k' k0) eqn:Hc; cbn; [|done|].
  - apply String.compare_eq_iff in Hc as ->. by case_decide.
  - rewrite IH. apply str_compare_Gt in Hc. repeat case_decide; try done. subst.
    by apply str_lt_irrefl in Hc.
Qed.

(** Combines what two inductions say about the elements of a list. *)
Lemma Forall_mp {A} (P Q R : A → Prop) l :
  Forall P l → Forall Q l → (∀ x, P x → Q x → R x) → Forall R l.
Proof. rewrite !Forall_forall. eauto. Qed.

(** [iter().enumerate()]. *)
Definition enumerate {A} (l : list A) : list (nat * A) := imap pair l.

(** Filters that keep nothing, or everything. *)
Lemma list_filter_none {A} (P : A → Prop) `{!∀ x, Decision (P x)} (l : list A) :
  (∀ x, x ∈ l → ~ P x) → filter P l = [].
Proof.
  intros Hl. destruct (filter P l) as [|x k] eqn:E; [done|]. exfalso.
  assert (x ∈ filter P l) as [Hx Hin]%list_elem_of_filter by (rewrite E; left). by apply (Hl x).
Qed.

Lemma list_filter_all {A} (P : A → Prop) `{!∀ x, Decision (P x)} (l : list A) :
  (∀ x, x ∈ l → P x) → filter P l = l.
Proof.
  induction l as [|x l IH]; intros Hl; [done|].
  rewrite filter_cons_True by (apply Hl; left). f_equal. apply IH. intros y Hy. apply Hl. by right.
Qed.
