(* ===== verification/Panic.v ===== *)
(** * Code that can panic

    An index or slice out of range, an overflow, an [unwrap] or a library call outside its
    domain aborts the process: [Panic], beside the ordinary errors of a [result]. The
    components that can do so are modelled with these reads and proved never to reach one. *)

From S2P Require Import Prelude.

(** ** Reads that can panic *)

Inductive crash (E : Type) : Type := Fail (e : E) | Panic.
Arguments Fail {E} e.
Arguments Panic {E}.

Section reads.
Context {E : Type}.

(** [data[i]]. *)
Definition byte_at (data : bytes) (i : nat) : result (crash E) Z :=
  match data !! i with Some b => Ok (byte_to_Z b) | None => Err Panic end.

(** [uN::from_le_bytes([data[i], ...])] over [n] bytes. *)
Definition uint_at (n : nat) (data : bytes) (i : nat) : result (crash E) Z :=
  if decide (i + n ≤ length data) then Ok (le_val (take n (drop i data))) else Err Panic.

(** [data[a..b]] and [data[a..]]. *)
Definition slice (data : bytes) (a b : nat) : result (crash E) bytes :=
  if decide (a ≤ b ∧ b ≤ length data) then Ok (take (b - a) (drop a data)) else Err Panic.

Definition slice_from (data : bytes) (a : nat) : result (crash E) bytes :=
  if decide (a ≤ length data) then Ok (drop a data) else Err Panic.

Definition guard (bad : bool) (e : E) : result (crash E) () :=
  if bad then Err (Fail e) else Ok ().

(** A computation that does not panic. *)
Definition safe {A} (m : result (crash E) A) : Prop := m ≠ Err Panic.

Lemma safe_Ok {A} (a : A) : safe (Ok a).
Proof. done. Qed.

Lemma safe_Fail {A} e : safe (A:=A) (Err (Fail e)).
Proof. done. Qed.

Lemma safe_bind {A B} (m : result (crash E) A) (f : A → result (crash E) B) :
  safe m → (∀ a, m = Ok a → safe (f a)) → safe (m ≫= f).
Proof. unfold safe. destruct m as [a|e]; cbn; [eauto|congruence]. Qed.

Lemma safe_byte_at data i : i < length data → safe (byte_at data i).
Proof. intros [b Hb]%lookup_lt_is_Some. unfold byte_at. by rewrite Hb. Qed.

Lemma safe_uint_at n data i : i + n ≤ length data → safe (uint_at n data i).
Proof. intros. unfold uint_at. by rewrite decide_True. Qed.

Lemma safe_slice data a b : a ≤ b → b ≤ length data → safe (slice data a b).
Proof. intros. unfold slice. by rewrite decide_True. Qed.

Lemma safe_slice_from data a : a ≤ length data → safe (slice_from data a).
Proof. intros. unfold slice_from. by rewrite decide_True. Qed.

Lemma safe_guard bad e : safe (guard bad e).
Proof. by destruct bad. Qed.

Lemma guard_Ok bad e a : guard bad e = Ok a ↔ bad = false.
Proof. destruct bad, a; cbn; naive_solver. Qed.

Lemma slice_Ok data a b s :
  slice data a b = Ok s ↔ a ≤ b ∧ b ≤ length data ∧ s = take (b - a) (drop a data).
Proof. unfold slice. case_decide; naive_solver. Qed.

Lemma slice_length data a b s : slice data a b = Ok s → length s = b - a.
Proof. intros (? & ? & ->)%slice_Ok. rewrite length_take, length_drop. lia. Qed.

Lemma slice_from_Ok data a s : slice_from data a = Ok s ↔ a ≤ length data ∧ s = drop a data.
Proof. unfold slice_from. case_decide; naive_solver. Qed.

Lemma uint_at_range n data i z : uint_at n data i = Ok z → (0 ≤ z < 256 ^ Z.of_nat n)%Z.
Proof.
  unfold uint_at. case_decide; [|done]. intros [= <-].
  replace n with (length (take n (drop i data))) at 3; [apply le_val_range|].
  rewrite length_take, length_drop. lia.
Qed.
End reads.

(** An ordinary fallible computation inside one that can panic. *)
Definition lift {E A} (m : result E A) : result (crash E) A := map_err Fail m.

Lemma lift_Ok {E A} (m : result E A) a : lift m = Ok a ↔ m = Ok a.
Proof. apply map_err_Ok. Qed.

Lemma safe_lift {E A} (m : result E A) : safe (lift m).
Proof. by destruct m. Qed.

(** A computation that cannot panic, with its ordinary errors. *)
Definition run_safe {Er A} (m : result (crash Er) A) : safe m → result Er A :=
  match m with
  | Ok a => fun _ => Ok a
  | Err (Fail e) => fun _ => Err e
  | Err Panic => fun Hs => match Hs eq_refl with end
  end.

Lemma run_safe_Ok {E A} (m : result (crash E) A) (Hm : safe m) a :
  run_safe m Hm = Ok a ↔ m = Ok a.
Proof. destruct m as [b|[e|]]; cbn; [naive_solver..|by destruct (Hm eq_refl)]. Qed.

(** A computation that does not panic, and whose result, if any, satisfies [Q]. *)
Definition yields {E A} (Q : A → Prop) (m : result (crash E) A) : Prop :=
  match m with Ok a => Q a | Err (Fail _) => True | Err Panic => False end.

Section yields.
Context {E A : Type}.
Implicit Types (Q : A → Prop) (m : result (crash E) A).

Lemma yields_safe Q m : yields Q m → safe m.
Proof. by destruct m as [|[|]]. Qed.

Lemma yields_Ok Q m a : yields Q m → m = Ok a → Q a.
Proof. by intros Hm ->. Qed.

Lemma yields_ret Q a : Q a → yields Q (Ok a : result (crash E) A).
Proof. done. Qed.

Lemma yields_weaken Q Q' m : (∀ a, Q a → Q' a) → yields Q m → yields Q' m.
Proof. destruct m as [|[|]]; cbn; auto. Qed.

Lemma yields_bind {B} (R : B → Prop) Q m (f : A → result (crash E) B) :
  yields Q m → (∀ a, Q a → yields R (f a)) → yields R (m ≫= f).
Proof. destruct m as [a|[e|]]; cbn; auto. Qed.

Lemma yields_lift Q (m : result E A) : (∀ a, m = Ok a → Q a) → yields Q (lift m).
Proof. destruct m; cbn; auto. Qed.
End yields.

#[export] Hint Resolve safe_Ok safe_Fail safe_guard safe_lift : vs.

(** Walks through a decoder, bounding each read by the length checks before it. *)
Ltac bounds :=
  repeat match goal with
  | H : guard _ _ = Ok _ |- _ => apply guard_Ok in H
  | H : bool_decide _ = false |- _ => apply bool_decide_eq_false in H
  end; lia.

Ltac safe_step :=
  first
    [ apply safe_Ok | apply safe_Fail | apply safe_guard
    | apply safe_bind; [|intros ? ?]
    | apply safe_byte_at; bounds | apply safe_uint_at; bounds
    | apply safe_slice; bounds | apply safe_slice_from; bounds ].

Ltac safely := repeat safe_step.
