(* ===== verification/Json.v ===== *)
(** * JSON values, their canonical order and their compact text

    Models [serde_json::Value], the two builds of [serde_json::Map] (ordered by key, or
    by insertion when the [preserve_order] feature is unified into the build) and the
    compact formatter as interfaces, and on top of them the two helpers of
    [visualsign/src/lib.rs] that work on values: [verify_json_deterministic] and
    [sort_json_alphabetically]. *)

From S2P Require Import Prelude.

Unset Elimination Schemes.
Inductive json : Type :=
| JNull
| JBool (b : bool)
| JNumber (z : Z)
| JString (s : string)
| JArray (l : list json)
| JObject (m : list (string * json)).
Set Elimination Schemes.

(** Induction through the arrays and objects of a value. *)
Lemma json_ind (P : json → Prop) :
  P JNull → (∀ b, P (JBool b)) → (∀ z, P (JNumber z)) → (∀ s, P (JString s)) →
  (∀ l, Forall P l → P (JArray l)) →
  (∀ m, Forall (fun kv => P kv.2) m → P (JObject m)) →
  ∀ j, P j.
Proof.
  intros Hnull Hbool Hnum Hstr Harr Hobj.
  fix IH 1. intros [|b|z|s|l|m]; [done..| |].
  - apply Harr. induction l; constructor; [apply IH|done].
  - apply Hobj. induction m; constructor; [apply IH|done].
Qed.

(** [Value::as_u64]. *)
Definition json_as_u64 (v : json) : option Z :=
  match v with
  | JNumber z => if decide (0 ≤ z < 2 ^ 64)%Z then Some z else None
  | _ => None
  end.

(** ** The map behind [Value::Object]

    [map_from] collects entries into a [serde_json::Map].  What the parser relies on is
    the same for both builds: no entry with a fresh key is lost, and entries that arrive
    in key order stay in that order. *)
Class SerdeMap : Type := {
  map_from : list (string * json) → list (string * json);
  map_from_perm l : NoDup (keys l) → map_from l ≡ₚ l;
  map_from_sorted_id l : btree_sorted l → map_from l = l;
}.

(** The key-ordered build: every map it makes is sorted. *)
Class SortedSerdeMap (M : SerdeMap) : Prop :=
  map_from_sorted l : btree_sorted (map_from l).

Program Definition btree_map : SerdeMap := {| map_from := btree_of_list |}.
Next Obligation. apply btree_of_list_perm. Qed.
Next Obligation. apply btree_of_list_sorted_id. Qed.

#[export] Instance btree_map_sorted : SortedSerdeMap btree_map := btree_of_list_sorted.

Program Definition index_map : SerdeMap := {| map_from := index_of_list |}.
Next Obligation. intros l Hl. by rewrite index_of_list_id. Qed.
Next Obligation. intros l Hl. by apply index_of_list_id, btree_sorted_NoDup. Qed.

(** ** The compact formatter

    The escape table of [serde_json]: the short forms for the five named controls,
    [\u00XX] for the others, a backslash before the quote and the backslash, and every
    other byte as it is. *)
Definition dquote : Ascii.ascii := Ascii.ascii_of_nat 34.
Definition backslash : Ascii.ascii := Ascii.ascii_of_nat 92.
Definition esc2 (c : Ascii.ascii) : string := String backslash (String c "").

Class JsonFormat : Type := {
  fmt_esc : Ascii.ascii → string;
  fmt_value : json → string;
  fmt_esc_plain c :
    32 ≤ code c → c ≠ dquote → c ≠ backslash → fmt_esc c = String c "";
  fmt_esc_quote : fmt_esc dquote = esc2 dquote;
  fmt_esc_backslash : fmt_esc backslash = esc2 backslash;
  fmt_esc_short n c :
    (n, c) ∈ [(8, "b"); (9, "t"); (10, "n"); (12, "f"); (13, "r")]%char →
    fmt_esc (Ascii.ascii_of_nat n) = esc2 c;
  fmt_esc_control c :
    code c < 32 → code c ∉ [8; 9; 10; 12; 13] →
    ∃ h l, is_ascii_hexdigit h = true ∧ is_ascii_hexdigit l = true ∧
           fmt_esc c = esc2 "u"%char +:+ "00" +:+ String h (String l "");
  fmt_null : fmt_value JNull = "null";
  fmt_bool b : fmt_value (JBool b) = if b then "true" else "false";
  fmt_number z : fmt_value (JNumber z) = show_Z z;
  fmt_string s :
    fmt_value (JString s) =
      String dquote (str_concat (fmt_esc <$> String.list_ascii_of_string s) +:+ String dquote "");
  fmt_array l : fmt_value (JArray l) = "[" +:+ str_join "," (fmt_value <$> l) +:+ "]";
  fmt_object m :
    fmt_value (JObject m) =
      "{" +:+ str_join "," ((fun kv => fmt_value (JString kv.1) +:+ ":" +:+ fmt_value kv.2) <$> m)
          +:+ "}";
}.

(** A formatter with this behaviour. *)
Definition hex_digit (n : nat) : Ascii.ascii :=
  if n <? 10 then Ascii.ascii_of_nat (48 + n) else Ascii.ascii_of_nat (87 + n).

Lemma hex_digit_ok n : n < 16 → is_ascii_hexdigit (hex_digit n) = true.
Proof. intros. do 16 (destruct n as [|n]; [done|]). lia. Qed.

Definition compact_esc (c : Ascii.ascii) : string :=
  let n := code c in
  if n =? 34 then esc2 dquote
  else if n =? 92 then esc2 backslash
  else if n =? 8 then esc2 "b"%char
  else if n =? 9 then esc2 "t"%char
  else if n =? 10 then esc2 "n"%char
  else if n =? 12 then esc2 "f"%char
  else if n =? 13 then esc2 "r"%char
  else if n <? 32
       then esc2 "u"%char +:+ "00" +:+ String (hex_digit (n / 16)) (String (hex_digit (n mod 16)) "")
  else String c "".

Definition compact_string (s : string) : string :=
  String dquote (str_concat (compact_esc <$> String.list_ascii_of_string s) +:+ String dquote "").

Fixpoint compact_value (j : json) : string :=
  match j with
  | JNull => "null"
  | JBool b => if b then "true" else "false"
  | JNumber z => show_Z z
  | JString s => compact_string s
  | JArray l => "[" +:+ str_join "," (compact_value <$> l) +:+ "]"
  | JObject m =>
      "{" +:+ str_join "," ((fun kv => compact_string kv.1 +:+ ":" +:+ compact_value kv.2) <$> m)
          +:+ "}"
  end.

Program Definition compact_format : JsonFormat :=
  {| fmt_esc := compact_esc; fmt_value := compact_value |}.
Next Obligation.
  intros c Hc Hq Hb. unfold compact_esc.
  assert (code c ≠ 34) as H34 by (intros E; by apply Hq, code_inj).
  assert (code c ≠ 92) as H92 by (intros E; by apply Hb, code_inj).
  by repeat (case_match; rewrite ?Nat.eqb_eq, ?Nat.ltb_lt in *; [lia|]).
Qed.
Next Obligation. done. Qed.
Next Obligation. done. Qed.
Next Obligation.
  intros n c. rewrite !elem_of_cons, elem_of_nil. intros Hn.
  by repeat (destruct Hn as [[= -> ->]|Hn]; [done|]).
Qed.
Next Obligation.
  intros c Hlt Hnot. rewrite !not_elem_of_cons in Hnot. unfold compact_esc.
  exists (hex_digit (code c / 16)), (hex_digit (code c mod 16)).
  split; [apply hex_digit_ok, Nat.Div0.div_lt_upper_bound; lia|].
  split; [apply hex_digit_ok, Nat.mod_upper_bound; lia|].
  repeat (case_match; rewrite ?Nat.eqb_eq, ?Nat.ltb_ge in *; [lia || done|]). lia.
Qed.
Next Obligation. done. Qed.
Next Obligation. done. Qed.
Next Obligation. done. Qed.
Next Obligation. done. Qed.
Next Obligation. done. Qed.
Next Obligation. done. Qed.

(** ** Key order: [verify_json_deterministic] *)

(** The facts the error text of the source is formatted from. *)
Record order_error := OrderError {
  oe_path : string;
  oe_got : list string;
  oe_expected : list string;
}.

(** The loops over the entries of an object and the items of an array, stopping at the
    first error. *)
Section verify_loops.
Context (verify : json → string → result order_error ()).

Fixpoint verify_entries (path : string) (m : list (string * json)) : result order_error () :=
  match m with
  | [] => Ok ()
  | (key, nested_value) :: m =>
      let new_path := if decide (path = "") then key else path +:+ "." +:+ key in
      verify nested_value new_path ≫= fun _ => verify_entries path m
  end.

Fixpoint verify_items (path : string) (i : nat) (arr : list json) : result order_error () :=
  match arr with
  | [] => Ok ()
  | item :: arr =>
      verify item (path +:+ "[" +:+ show_nat i +:+ "]") ≫= fun _ => verify_items path (S i) arr
  end.
End verify_loops.

Fixpoint verify_json_deterministic (value : json) (path : string) : result order_error () :=
  match value with
  | JObject map =>
      let sorted_keys := merge_sort String.le (keys map) in
      if decide (keys map = sorted_keys)
      then verify_entries verify_json_deterministic path map
      else Err (OrderError (if decide (path = "") then "root" else path) (keys map) sorted_keys)
  | JArray arr => verify_items verify_json_deterministic path 0 arr
  | _ => Ok ()
  end.

(** Every object of the value, at any depth, lists its keys in ascending order. *)
Fixpoint json_sorted (j : json) : Prop :=
  match j with
  | JObject m => Sorted String.le (keys m) ∧ foldr (fun kv P => json_sorted kv.2 ∧ P) True m
  | JArray l => foldr (fun j P => json_sorted j ∧ P) True l
  | _ => True
  end.

Lemma foldr_and_Forall {A} (P : A → Prop) l : foldr (fun x Q => P x ∧ Q) True l ↔ Forall P l.
Proof. induction l; cbn; [by rewrite Forall_nil|]. by rewrite Forall_cons, IHl. Qed.

Lemma merge_sort_id l : l = merge_sort String.le l ↔ Sorted String.le l.
Proof.
  split; [intros ->; by apply Sorted_merge_sort; apply _|]. intros Hl.
  apply (Sorted_unique String.le); [done|by apply Sorted_merge_sort; apply _|].
  by rewrite merge_sort_Permutation.
Qed.

Lemma verify_entries_ok verify path m :
  verify_entries verify path m = Ok () →
  Forall (fun kv => ∃ p, verify kv.2 p = Ok ()) m.
Proof.
  induction m as [|[k v] m IH]; cbn; [constructor|].
  intros ([] & Hv & Hm)%result_bind_Ok. constructor; eauto.
Qed.

Lemma verify_items_ok verify path i l :
  verify_items verify path i l = Ok () → Forall (fun j => ∃ p, verify j p = Ok ()) l.
Proof.
  revert i; induction l as [|j l IH]; cbn; [constructor|].
  intros i ([] & Hv & Hm)%result_bind_Ok. constructor; eauto.
Qed.

Lemma verify_entries_all verify path m :
  Forall (fun kv => ∀ p, verify kv.2 p = Ok ()) m → verify_entries verify path m = Ok ().
Proof. induction 1 as [|[k v] m Hv _ IH]; cbn in *; [done|]. by rewrite Hv. Qed.

Lemma verify_items_all verify path i l :
  Forall (fun j => ∀ p, verify j p = Ok ()) l → verify_items verify path i l = Ok ().
Proof.
  intros Hl. revert i. induction Hl as [|j l Hv _ IH]; cbn; [done|].
  intros i. rewrite Hv. apply IH.
Qed.

Lemma verify_sound j path : verify_json_deterministic j path = Ok () → json_sorted j.
Proof.
  revert path. induction j as [| | | |l IH|m IH] using json_ind; intros path; try done; cbn.
  - intros Hl%verify_items_ok. apply foldr_and_Forall.
    apply (Forall_mp _ _ _ _ IH Hl). intros j H [p Hp]. eauto.
  - case_decide as Hk; [|done]. intros Hm%verify_entries_ok. split; [by apply merge_sort_id|].
    apply (foldr_and_Forall (fun kv : string * json => json_sorted kv.2)).
    apply (Forall_mp _ _ _ _ IH Hm). intros kv H [p Hp]. eauto.
Qed.

Lemma verify_complete j path : json_sorted j → verify_json_deterministic j path = Ok ().
Proof.
  revert path. induction j as [| | | |l IH|m IH] using json_ind; intros path; try done; cbn.
  - rewrite foldr_and_Forall. intros Hl. apply verify_items_all.
    apply (Forall_mp _ _ _ _ IH Hl). naive_solver.
  - rewrite (foldr_and_Forall (fun kv : string * json => json_sorted kv.2)).
    intros [Hk%merge_sort_id Hm]. rewrite decide_True by done. apply verify_entries_all.
    apply (Forall_mp _ _ _ _ IH Hm). naive_solver.
Qed.

(** ** Canonical order: [sort_json_alphabetically] *)

Section sort.
Context {M : SerdeMap}.

Fixpoint sort_json_alphabetically (value : json) : json :=
  match value with
  | JObject map =>
      JObject (map_from (btree_of_list ((fun kv => (kv.1, sort_json_alphabetically kv.2)) <$> map)))
  | JArray arr => JArray (sort_json_alphabetically <$> arr)
  | other => other
  end.

Lemma sort_object m :
  sort_json_alphabetically (JObject m) =
    JObject (btree_of_list ((fun kv => (kv.1, sort_json_alphabetically kv.2)) <$> m)).
Proof. cbn. f_equal. apply map_from_sorted_id, btree_of_list_sorted. Qed.

Lemma sorted_lt_le l : StronglySorted str_lt l → Sorted String.le l.
Proof.
  intros Hl. apply StronglySorted_Sorted. induction Hl as [|a l Hl IH Hall]; constructor; [done|].
  eapply Forall_impl; [exact Hall|]. unfold str_lt, String.le, String.leb. by intros x ->.
Qed.

Lemma Forall_btree_insert {V} (P : string * V → Prop) k v m :
  P (k, v) → Forall P m → Forall P (btree_insert k v m).
Proof.
  intros Hkv. induction 1 as [|[k' v'] m Hk' Hm IH]; cbn; [by constructor|].
  case_match; by repeat constructor.
Qed.

Lemma Forall_btree_of_list {V} (P : string * V → Prop) l :
  Forall P l → Forall P (btree_of_list l).
Proof.
  unfold btree_of_list. intros Hl.
  assert (Forall P []) as Hm by constructor. revert Hm. generalize (@nil (string * V)) as m.
  induction Hl as [|[k v] l Hkv Hl IH]; cbn; [done|].
  intros m Hm. by apply IH, Forall_btree_insert.
Qed.

Lemma sort_json_sorted j : json_sorted (sort_json_alphabetically j).
Proof.
  induction j as [| | | |l IH|m IH] using json_ind; [done..| |].
  - cbn. apply foldr_and_Forall, Forall_fmap. done.
  - rewrite sort_object. split; [apply sorted_lt_le, btree_of_list_sorted|].
    apply (foldr_and_Forall (fun kv : string * json => json_sorted kv.2)).
    apply Forall_btree_of_list, Forall_fmap. exact IH.
Qed.

Lemma map_snd_id (f : json → json) m :
  Forall (fun kv => f kv.2 = kv.2) m → (fun kv : string * json => (kv.1, f kv.2)) <$> m = m.
Proof. induction 1 as [|[k v] m Hv _ IH]; csimpl in *; [done|]. by rewrite Hv, IH. Qed.

(** The objects of a [serde_json] value never repeat a key. *)
Fixpoint json_wf (j : json) : Prop :=
  match j with
  | JObject m => NoDup (keys m) ∧ foldr (fun kv P => json_wf kv.2 ∧ P) True m
  | JArray l => foldr (fun j P => json_wf j ∧ P) True l
  | _ => True
  end.

Lemma sorted_le_lt l : NoDup l → Sorted String.le l → StronglySorted str_lt l.
Proof.
  intros Hnd Hs%Sorted_StronglySorted; [|apply _]. revert Hnd.
  induction Hs as [|a l Hl IH Hall]; [constructor|]. rewrite NoDup_cons. intros [Ha Hnd].
  constructor; [by apply IH|]. apply Forall_forall. intros x Hx.
  eapply Forall_forall in Hall; [|exact Hx]. unfold str_lt.
  unfold String.le, String.leb in Hall. destruct (String.compare a x) eqn:E; [|done|done].
  by apply String.compare_eq_iff in E as ->.
Qed.

(** A value that is already in order is left alone. *)
Lemma sort_json_id j : json_wf j → json_sorted j → sort_json_alphabetically j = j.
Proof.
  induction j as [| | | |l IH|m IH] using json_ind; [done..| |].
  - cbn. rewrite !foldr_and_Forall. intros Hw Hs. f_equal.
    rewrite <-(list_fmap_id l) at 2. apply list_fmap_ext.
    intros i x Hx%list_elem_of_lookup_2. rewrite Forall_forall in IH, Hw, Hs. eauto.
  - rewrite sort_object. cbn.
    rewrite (foldr_and_Forall (fun kv : string * json => json_wf kv.2)).
    rewrite (foldr_and_Forall (fun kv : string * json => json_sorted kv.2)).
    intros [Hnd Hw] [Hk Hs]. f_equal. rewrite map_snd_id.
    + apply btree_of_list_sorted_id. by apply sorted_le_lt.
    + rewrite Forall_forall in IH, Hw, Hs |- *. eauto.
Qed.

Lemma keys_map_snd (f : json → json) m :
  keys ((fun kv : string * json => (kv.1, f kv.2)) <$> m) = keys m.
Proof. unfold keys. rewrite <-list_fmap_compose. done. Qed.
End sort.

(** ** Values with the same content

    Two values have the same content when they sort to the same value; this forgets the
    order of object keys and nothing else. *)
Definition json_equiv (j j' : json) : Prop :=
  @sort_json_alphabetically btree_map j = @sort_json_alphabetically btree_map j'.

#[export] Instance json_equiv_equivalence : Equivalence json_equiv.
Proof. split; unfold json_equiv; [done|by intros ?? ->|by intros ??? -> ->]. Qed.

(** The two builds of the map agree on the sorted value. *)
Lemma sort_json_any_map (M M' : SerdeMap) j :
  @sort_json_alphabetically M j = @sort_json_alphabetically M' j.
Proof.
  induction j as [| | | |l IH|m IH] using json_ind; [done..| |].
  - cbn. f_equal. apply list_fmap_ext. intros i x Hx%list_elem_of_lookup_2.
    rewrite Forall_forall in IH. auto.
  - rewrite !sort_object. do 2 f_equal. apply list_fmap_ext.
    intros i [k v] Hx%list_elem_of_lookup_2. cbn. f_equal.
    rewrite Forall_forall in IH. by apply (IH (k, v)).
Qed.

(** Collecting entries with distinct keys, in either build, gives equivalent objects. *)
Lemma json_equiv_object (M M' : SerdeMap) l l' :
  NoDup (keys l) →
  Forall2 (fun a b => a.1 = b.1 ∧ json_equiv a.2 b.2) l l' →
  json_equiv (JObject (@map_from M l)) (JObject (@map_from M' l')).
Proof.
  intros Hnd Hl. unfold json_equiv. rewrite !sort_object. f_equal.
  set (g := fun kv : string * json => (kv.1, @sort_json_alphabetically btree_map kv.2)).
  assert (g <$> l = g <$> l') as Hg.
  { clear Hnd. induction Hl as [|[k v] [k' v'] l l' [Hk Hv] Hl IH]; [done|].
    rewrite !fmap_cons, IH. f_equal. unfold g; cbn in *. by rewrite Hk, Hv. }
  assert (keys l' = keys l) as Hk.
  { clear -Hl. induction Hl as [|[k v] [k' v'] l l' [Hk Hv] Hl IH]; csimpl in *; [done|].
    unfold keys in *. by rewrite Hk, IH. }
  trans (btree_of_list (g <$> l)).
  - apply btree_of_list_perm_eq; [|by rewrite map_from_perm].
    unfold g. rewrite keys_map_snd. unfold keys. by rewrite map_from_perm.
  - rewrite Hg. symmetry. apply btree_of_list_perm_eq; [|rewrite map_from_perm; [done|by rewrite Hk]].
    unfold g. rewrite keys_map_snd. unfold keys in *.
    rewrite map_from_perm; unfold keys; by rewrite Hk.
Qed.

Lemma json_equiv_array l l' : Forall2 json_equiv l l' → json_equiv (JArray l) (JArray l').
Proof.
  unfold json_equiv. intros Hl. cbn. f_equal.
  induction Hl as [|j j' l l' Hj Hl IH]; [done|]. cbn. by rewrite Hj, IH.
Qed.

(** ** The sorted value is the one rearrangement of its input that is in order *)

(** The same value up to the order of the entries of its objects. *)
Unset Elimination Schemes.
Inductive rearranged : json → json → Prop :=
| rearranged_refl j : rearranged j j
| rearranged_array l l' : Forall2 rearranged l l' → rearranged (JArray l) (JArray l')
| rearranged_object m m' m'' :
    m ≡ₚ m' → Forall2 (fun a b => a.1 = b.1 ∧ rearranged a.2 b.2) m' m'' →
    rearranged (JObject m) (JObject m'').
Set Elimination Schemes.

Section rearranged.
Context {M : SerdeMap}.
Local Abbreviation sort := sort_json_alphabetically.
Local Abbreviation sort_entry := (fun kv : string * json => (kv.1, sort kv.2)).

Lemma json_wf_object m : json_wf (JObject m) ↔ NoDup (keys m) ∧ Forall (fun kv => json_wf kv.2) m.
Proof. cbn. by rewrite (foldr_and_Forall (fun kv : string * json => json_wf kv.2)). Qed.

Lemma sort_rearranges j : json_wf j → rearranged j (sort j).
Proof.
  induction j as [| | | |l IH|m IH] using json_ind; [constructor..| |].
  - cbn. rewrite foldr_and_Forall. intros Hw. apply rearranged_array.
    apply Forall2_fmap_r, Forall_Forall2_diag. apply (Forall_mp _ _ _ _ IH Hw). auto.
  - rewrite json_wf_object, sort_object. intros [Hnd Hw].
    assert (btree_of_list (sort_entry <$> m) ≡ₚ sort_entry <$> m) as Hp.
    { apply btree_of_list_perm. by rewrite keys_map_snd. }
    destruct (Permutation_map_inv _ _ Hp) as (m' & Hm' & Hpm).
    apply (rearranged_object m m'); [done|]. change (List.map sort_entry m') with (sort_entry <$> m') in Hm'.
    rewrite Hm'. apply Forall2_fmap_r, Forall_Forall2_diag. cbn.
    rewrite <-Hpm. apply (Forall_mp _ _ _ _ IH Hw). auto.
Qed.

Lemma rearranged_sort j : ∀ k, rearranged j k → json_wf j → json_wf k ∧ sort j = sort k.
Proof.
  induction j as [| | | |l IH|m IH] using json_ind; intros k Hr Hw;
    inversion Hr as [|? l' Hl|? m' m'' Hp Hm]; subst; try done.
  - cbn in *. rewrite !foldr_and_Forall in *. clear Hr.
    induction Hl as [|a b l l' Hab Hl IHl]; [done|].
    inversion_clear IH as [|?? Ha IH']. inversion_clear Hw as [|?? Hwa Hw'].
    destruct (Ha b Hab Hwa) as [Hwb Heq], (IHl IH' Hw') as [Hwl Heql].
    injection Heql as Heql. split; [by constructor|]. cbn. by rewrite Heq, Heql.
  - rewrite !json_wf_object, !sort_object in *. destruct Hw as [Hnd Hw]. clear Hr.
    rewrite Hp in Hw, IH.
    assert (keys m'' = keys m' ∧ Forall (fun kv => json_wf kv.2) m'' ∧
      sort_entry <$> m' = sort_entry <$> m'') as (Hk & Hw'' & Heq).
    { clear Hp Hnd. unfold keys. induction Hm as [|[a v] [b w] m' m'' [Hab Hvw] Hm IHm]; [done|].
      inversion_clear IH as [|?? Ha IH']. inversion_clear Hw as [|?? Hwa Hw'].
      destruct (IHm IH' Hw') as (Hk & Hw'' & Heq). cbn in *. subst b.
      destruct (Ha w Hvw Hwa) as [Hww Hs]. split_and!; [by f_equal|by constructor|].
      by rewrite Hs, Heq. }
    split; [split; [|done]|].
    + rewrite Hk. unfold keys in *. by rewrite <-Hp.
    + f_equal. rewrite <-Heq. apply btree_of_list_perm_eq; [by rewrite keys_map_snd|by rewrite Hp].
Qed.
End rearranged.

(** ** Properties *)

(** [verify_json_deterministic] accepts exactly the values in which every object, at
    any depth, lists its keys in ascending order, whatever path it was started with. *)
Theorem verify_json_deterministic_iff j path :
  verify_json_deterministic j path = Ok () ↔ json_sorted j.
Proof. split; [apply verify_sound|apply verify_complete]. Qed.

(** [sort_json_alphabetically] returns, with either build of the map, the one
    rearrangement of a value whose objects are all in key order. *)
Theorem sort_json_canonical (M : SerdeMap) j :
  json_wf j →
  rearranged j (sort_json_alphabetically j) ∧ json_sorted (sort_json_alphabetically j) ∧
  ∀ k, rearranged j k → json_sorted k → k = sort_json_alphabetically j.
Proof.
  intros Hw. split_and!; [by apply sort_rearranges|apply sort_json_sorted|].
  intros k Hr Hs. destruct (rearranged_sort j k Hr Hw) as [Hwk ->].
  symmetry. by apply sort_json_id.
Qed.

Lemma sort_json_canonical_witness :
  let j := JObject [("b", JObject [("z", JNull); ("a", JNull)]); ("a", JArray [JString "x"])] in
  json_sorted (@sort_json_alphabetically index_map j) ∧
  @sort_json_alphabetically index_map j =
    JObject [("a", JArray [JString "x"]); ("b", JObject [("a", JNull); ("z", JNull)])].
Proof.
  intros j. assert (json_wf j) as Hw.
  { repeat split; apply (bool_decide_unpack (NoDup _)); vm_compute; exact I. }
  split; [apply (sort_json_canonical index_map j Hw)|reflexivity].
Defined.
