(* ===== verification/Payload.v ===== *)
(** * The payload data model and its serialisation

    [visualsign/src/lib.rs] (with the [diagnostics] feature): the field variants, the
    hand-written and derived [Serialize] implementations down to the [serde_json] value,
    and the run-time ordering check.  Text is a string of UTF-8 bytes; [M] is the build of
    [serde_json::Map] in use. *)

From S2P Require Import Prelude Json.

(** ** Field data *)

Record SignablePayloadFieldCommon := Common {
  common_fallback_text : string;
  common_label : string;
}.

Record SignablePayloadFieldText := FieldText { text_text : string }.
Record SignablePayloadFieldTextV2 := FieldTextV2 { text_v2_text : string }.

Record SignablePayloadFieldAddress := FieldAddress {
  address_address : string;
  address_name : string;
}.

Record SignablePayloadFieldAddressV2 := FieldAddressV2 {
  address_v2_address : string;
  address_v2_name : string;
  address_v2_memo : option string;
  address_v2_asset_label : string;
  address_v2_badge_text : option string;
}.

Record SignablePayloadFieldNumber := FieldNumber { number_number : string }.

Record SignablePayloadFieldAmount := FieldAmount {
  amount_amount : string;
  amount_abbreviation : option string;
}.

Record SignablePayloadFieldAmountV2 := FieldAmountV2 {
  amount_v2_amount : string;
  amount_v2_abbreviation : option string;
}.

Record DividerStyle := MkDividerStyle { divider_style_text : string }.

Definition DividerStyle_THIN : DividerStyle := MkDividerStyle "".

Record SignablePayloadFieldDivider := FieldDivider { divider_style : DividerStyle }.

Record SignablePayloadFieldUnknown := FieldUnknown {
  unknown_data : string;
  unknown_explanation : string;
}.

Record SignablePayloadFieldDiagnostic := FieldDiagnostic {
  diagnostic_rule : string;
  diagnostic_domain : string;
  diagnostic_level : string;
  diagnostic_message : string;
  diagnostic_instruction_index : option Z;
}.

Record SignablePayloadFieldStaticAnnotation := StaticAnnotation { static_text : string }.

Record SignablePayloadFieldDynamicAnnotation := DynamicAnnotation {
  dynamic_field_type : string;
  dynamic_id : string;
  dynamic_params : list string;
}.

Unset Elimination Schemes.
Inductive SignablePayloadField : Type :=
| Text (common : SignablePayloadFieldCommon) (text : SignablePayloadFieldText)
| TextV2 (common : SignablePayloadFieldCommon) (text_v2 : SignablePayloadFieldTextV2)
| Address (common : SignablePayloadFieldCommon) (address : SignablePayloadFieldAddress)
| AddressV2 (common : SignablePayloadFieldCommon) (address_v2 : SignablePayloadFieldAddressV2)
| Number (common : SignablePayloadFieldCommon) (number : SignablePayloadFieldNumber)
| Amount (common : SignablePayloadFieldCommon) (amount : SignablePayloadFieldAmount)
| AmountV2 (common : SignablePayloadFieldCommon) (amount_v2 : SignablePayloadFieldAmountV2)
| Divider (common : SignablePayloadFieldCommon) (divider : SignablePayloadFieldDivider)
| PreviewLayout (common : SignablePayloadFieldCommon)
    (preview_layout : SignablePayloadFieldPreviewLayout)
| ListLayout (common : SignablePayloadFieldCommon)
    (list_layout : SignablePayloadFieldListLayout)
| Unknown (common : SignablePayloadFieldCommon) (unknown : SignablePayloadFieldUnknown)
| Diagnostic (common : SignablePayloadFieldCommon) (diagnostic : SignablePayloadFieldDiagnostic)
with SignablePayloadFieldPreviewLayout : Type :=
| FieldPreviewLayout (title subtitle : option SignablePayloadFieldTextV2)
    (condensed expanded : option SignablePayloadFieldListLayout)
with SignablePayloadFieldListLayout : Type :=
| FieldListLayout (fields : list AnnotatedPayloadField)
with AnnotatedPayloadField : Type :=
| Annotated (signable_payload_field : SignablePayloadField)
    (static_annotation : option SignablePayloadFieldStaticAnnotation)
    (dynamic_annotation : option SignablePayloadFieldDynamicAnnotation).
Set Elimination Schemes.

Definition signable_payload_field (a : AnnotatedPayloadField) : SignablePayloadField :=
  match a with Annotated f _ _ => f end.
Definition list_fields (l : SignablePayloadFieldListLayout) : list AnnotatedPayloadField :=
  match l with FieldListLayout fields => fields end.
Definition preview_condensed (p : SignablePayloadFieldPreviewLayout) :=
  match p with FieldPreviewLayout _ _ condensed _ => condensed end.
Definition preview_expanded (p : SignablePayloadFieldPreviewLayout) :=
  match p with FieldPreviewLayout _ _ _ expanded => expanded end.

(** The fields held by a list, absent lists holding none. *)
Definition opt_fields (l : option SignablePayloadFieldListLayout) : list SignablePayloadField :=
  match l with Some l => signable_payload_field <$> list_fields l | None => [] end.

(** The fields directly below a field. *)
Definition children (f : SignablePayloadField) : list SignablePayloadField :=
  match f with
  | PreviewLayout _ p => opt_fields (preview_condensed p) ++ opt_fields (preview_expanded p)
  | ListLayout _ l => signable_payload_field <$> list_fields l
  | _ => []
  end.

(** Induction on a field through the layouts that contain other fields. *)
Lemma field_ind (P : SignablePayloadField → Prop) :
  (∀ f, Forall P (children f) → P f) → ∀ f, P f.
Proof.
  intros H. fix IH 1. intros f.
  assert (∀ l, Forall P (signable_payload_field <$> list_fields l)) as Hl.
  { intros [l]. cbn. induction l as [|[g s d] l IHl]; constructor; [apply IH|exact IHl]. }
  assert (∀ o, Forall P (opt_fields o)) as Ho by (intros [l|]; [apply Hl|constructor]).
  apply H. destruct f; try apply Forall_nil_2.
  - cbn. apply Forall_app_2; apply Ho.
  - apply Hl.
Qed.

Record SignablePayload := MkSignablePayload {
  payload_fields : list SignablePayloadField;
  payload_type : string;
  payload_subtitle : option string;
  payload_title : string;
  payload_version : string;
}.

(** [SignablePayload::new]: the version is an [i64], kept as its decimal text. *)
Definition SignablePayload_new (version : Z) (title : string) (subtitle : option string)
    (fields : list SignablePayloadField) (payload_type : string) : SignablePayload :=
  MkSignablePayload fields payload_type subtitle title (show_Z version).

(** ** Accessors shared by every variant *)

Definition field_common (f : SignablePayloadField) : SignablePayloadFieldCommon :=
  match f with
  | Text common _ | TextV2 common _ | Address common _ | AddressV2 common _
  | Number common _ | Amount common _ | AmountV2 common _ | Divider common _
  | PreviewLayout common _ | ListLayout common _ | Unknown common _
  | Diagnostic common _ => common
  end.

Definition fallback_text (f : SignablePayloadField) : string :=
  common_fallback_text (field_common f).

Definition label (f : SignablePayloadField) : string := common_label (field_common f).

Definition field_type (f : SignablePayloadField) : string :=
  match f with
  | Text _ _ => "text"
  | TextV2 _ _ => "text_v2"
  | Address _ _ => "address"
  | AddressV2 _ _ => "address_v2"
  | Number _ _ => "number"
  | Amount _ _ => "amount"
  | AmountV2 _ _ => "amount_v2"
  | Divider _ _ => "divider"
  | PreviewLayout _ _ => "preview_layout"
  | ListLayout _ _ => "list_layout"
  | Unknown _ _ => "unknown"
  | Diagnostic _ _ => "diagnostic"
  end.

(** ** Unicode white space, as [str::trim_start] removes it *)

Definition is_ws1 (a : Ascii.ascii) : bool :=
  ((9 <=? code a) && (code a <=? 13)) || (code a =? 32).
Definition is_ws2 (a b : Ascii.ascii) : bool :=
  (code a =? 194) && ((code b =? 133) || (code b =? 160)).
Definition is_ws3 (a b c : Ascii.ascii) : bool :=
  ((code a =? 225) && (code b =? 154) && (code c =? 128))
  || ((code a =? 226) && (code b =? 128)
      && ((128 <=? code c) && (code c <=? 138) || existsb (Nat.eqb (code c)) [168; 169; 175]))
  || ((code a =? 226) && (code b =? 129) && (code c =? 159))
  || ((code a =? 227) && (code b =? 128) && (code c =? 128)).

Fixpoint trim_start (s : string) : string :=
  match s with
  | String a s1 =>
      if is_ws1 a then trim_start s1 else
      match s1 with
      | String b s2 =>
          if is_ws2 a b then trim_start s2 else
          match s2 with
          | String c s3 => if is_ws3 a b c then trim_start s3 else s
          | "" => s
          end
      | "" => s
      end
  | "" => ""
  end.

(** ** Serialisation to a value

    [opt_entry] and [nonempty_entry] are the two [skip_serializing_if] attributes. *)

Definition opt_entry {A} (key : string) (to_value : A → json) (o : option A)
    : list (string * json) :=
  match o with Some a => [(key, to_value a)] | None => [] end.

Definition is_empty_string (s : string) : bool := bool_decide (s = "").

Definition nonempty_entry (key s : string) : list (string * json) :=
  if is_empty_string s then [] else [(key, JString s)].

Section serialize.
Context {M : SerdeMap}.

(** A struct with derived [Serialize]: its fields in declaration order. *)
Definition struct_value (entries : list (string * json)) : json := JObject (map_from entries).

Definition text_to_value (t : SignablePayloadFieldText) : json :=
  struct_value [("Text", JString (text_text t))].

Definition text_v2_to_value (t : SignablePayloadFieldTextV2) : json :=
  struct_value [("Text", JString (text_v2_text t))].

Definition address_to_value (a : SignablePayloadFieldAddress) : json :=
  struct_value [("Address", JString (address_address a)); ("Name", JString (address_name a))].

Definition address_v2_to_value (a : SignablePayloadFieldAddressV2) : json :=
  struct_value
    ([("Address", JString (address_v2_address a))]
     ++ nonempty_entry "Name" (address_v2_name a)
     ++ opt_entry "Memo" JString (address_v2_memo a)
     ++ nonempty_entry "AssetLabel" (address_v2_asset_label a)
     ++ opt_entry "BadgeText" JString (address_v2_badge_text a)).

Definition number_to_value (n : SignablePayloadFieldNumber) : json :=
  struct_value [("Number", JString (number_number n))].

Definition amount_to_value (a : SignablePayloadFieldAmount) : json :=
  struct_value
    ([("Amount", JString (amount_amount a))]
     ++ opt_entry "Abbreviation" JString (amount_abbreviation a)).

(** Hand-written: the entries go through a [BTreeMap] first. *)
Definition amount_v2_to_value (a : SignablePayloadFieldAmountV2) : json :=
  let map := btree_insert "Amount" (JString (amount_v2_amount a)) [] in
  let map :=
    match amount_v2_abbreviation a with
    | Some abbreviation => btree_insert "Abbreviation" (JString abbreviation) map
    | None => map
    end in
  JObject (map_from map).

Definition divider_to_value (d : SignablePayloadFieldDivider) : json :=
  struct_value [("Style", JString (divider_style_text (divider_style d)))].

Definition unknown_to_value (u : SignablePayloadFieldUnknown) : json :=
  struct_value
    [("Data", JString (unknown_data u)); ("Explanation", JString (unknown_explanation u))].

Definition diagnostic_to_value (d : SignablePayloadFieldDiagnostic) : json :=
  struct_value
    ([("Domain", JString (diagnostic_domain d))]
     ++ opt_entry "InstructionIndex" JNumber (diagnostic_instruction_index d)
     ++ [("Level", JString (diagnostic_level d));
         ("Message", JString (diagnostic_message d));
         ("Rule", JString (diagnostic_rule d))]).

Definition static_annotation_to_value (a : SignablePayloadFieldStaticAnnotation) : json :=
  struct_value [("Text", JString (static_text a))].

Definition dynamic_annotation_to_value (a : SignablePayloadFieldDynamicAnnotation) : json :=
  struct_value
    [("ID", JString (dynamic_id a));
     ("Params", JArray (JString <$> dynamic_params a));
     ("Type", JString (dynamic_field_type a))].

(** [serialize_field_variant!]: the entries put into the hash map, in insertion order. *)
Definition serialize_field_variant (variant_name : string) (common : SignablePayloadFieldCommon)
    (field_name : string) (field_value : json) : list (string * json) :=
  [("FallbackText", JString (common_fallback_text common));
   ("Label", JString (common_label common));
   ("Type", JString variant_name);
   (field_name, field_value)].

(** The [AmountV2] a [Number] is written as: the abbreviation is what follows the number
    in the fallback text. *)
Definition number_as_amount_v2 (common : SignablePayloadFieldCommon)
    (number : SignablePayloadFieldNumber) : SignablePayloadFieldAmountV2 :=
  let abbreviation :=
    default "" (trim_start <$> strip_prefix (number_number number) (common_fallback_text common)) in
  FieldAmountV2 (number_number number) (Some abbreviation).

Definition annotation_entries (s : option SignablePayloadFieldStaticAnnotation)
    (d : option SignablePayloadFieldDynamicAnnotation) (field_map : list (string * json))
    : list (string * json) :=
  let sorted_map := btree_of_list field_map in
  let sorted_map :=
    match s with
    | Some s => btree_insert "StaticAnnotation" (static_annotation_to_value s) sorted_map
    | None => sorted_map
    end in
  match d with
  | Some d => btree_insert "DynamicAnnotation" (dynamic_annotation_to_value d) sorted_map
  | None => sorted_map
  end.

Definition list_to_value (items : list json) : json := struct_value [("Fields", JArray items)].

(** The entries of the hash map of [serialize_to_map], before they are ordered. *)
Fixpoint field_entries (f : SignablePayloadField) : list (string * json) :=
  match f with
  | Text common text => serialize_field_variant "text" common "Text" (text_to_value text)
  | TextV2 common text_v2 =>
      serialize_field_variant "text_v2" common "TextV2" (text_v2_to_value text_v2)
  | Address common address =>
      serialize_field_variant "address" common "Address" (address_to_value address)
  | AddressV2 common address_v2 =>
      serialize_field_variant "address_v2" common "AddressV2" (address_v2_to_value address_v2)
  | Number common number =>
      serialize_field_variant "amount_v2" common "AmountV2"
        (amount_v2_to_value (number_as_amount_v2 common number))
  | Amount common amount =>
      serialize_field_variant "amount" common "Amount" (amount_to_value amount)
  | AmountV2 common amount_v2 =>
      serialize_field_variant "amount_v2" common "AmountV2" (amount_v2_to_value amount_v2)
  | Divider common divider =>
      serialize_field_variant "divider" common "Divider" (divider_to_value divider)
  | PreviewLayout common preview_layout =>
      serialize_field_variant "preview_layout" common "PreviewLayout"
        (preview_layout_to_value preview_layout)
  | ListLayout common list_layout =>
      serialize_field_variant "list_layout" common "ListLayout"
        (list_layout_to_value list_layout)
  | Unknown common unknown =>
      serialize_field_variant "unknown" common "Unknown" (unknown_to_value unknown)
  | Diagnostic common diagnostic =>
      serialize_field_variant "diagnostic" common "Diagnostic" (diagnostic_to_value diagnostic)
  end
with preview_layout_to_value (p : SignablePayloadFieldPreviewLayout) : json :=
  match p with
  | FieldPreviewLayout title subtitle condensed expanded =>
      let map :=
        btree_insert "Condensed"
          match condensed with Some l => list_layout_to_value l | None => list_to_value [] end [] in
      let map :=
        btree_insert "Expanded"
          match expanded with Some l => list_layout_to_value l | None => list_to_value [] end map in
      let map :=
        match subtitle with
        | Some t => btree_insert "Subtitle" (text_v2_to_value t) map
        | None => map
        end in
      let map :=
        match title with
        | Some t => btree_insert "Title" (text_v2_to_value t) map
        | None => map
        end in
      JObject (map_from map)
  end
with list_layout_to_value (l : SignablePayloadFieldListLayout) : json :=
  match l with FieldListLayout fields => list_to_value (annotated_to_value <$> fields) end
with annotated_to_value (a : AnnotatedPayloadField) : json :=
  match a with
  | Annotated f s d => JObject (map_from (annotation_entries s d (btree_of_list (field_entries f))))
  end.

(** [FieldSerializer::serialize_to_map]. *)
Definition serialize_to_map (f : SignablePayloadField) : list (string * json) :=
  btree_of_list (field_entries f).

Definition variant_field (f : SignablePayloadField) : string :=
  match f with
  | Text _ _ => "Text"
  | TextV2 _ _ => "TextV2"
  | Address _ _ => "Address"
  | AddressV2 _ _ => "AddressV2"
  | Number _ _ => "AmountV2"
  | Amount _ _ => "Amount"
  | AmountV2 _ _ => "AmountV2"
  | Divider _ _ => "Divider"
  | PreviewLayout _ _ => "PreviewLayout"
  | ListLayout _ _ => "ListLayout"
  | Unknown _ _ => "Unknown"
  | Diagnostic _ _ => "Diagnostic"
  end.

Definition get_expected_fields (f : SignablePayloadField) : list string :=
  merge_sort String.le (["FallbackText"; "Label"; "Type"] ++ [variant_field f]).

(** The two ways the serialiser rejects its own output. *)
Inductive ser_error : Type :=
| MissingExpectedField (field : string)
| UnexpectedField (field : string).

(** [Serialize for SignablePayloadField], with its check of the fields present. *)
Definition serialize_field (f : SignablePayloadField) : result ser_error json :=
  let sorted_map := serialize_to_map f in
  let expected_fields := get_expected_fields f in
  let actual_fields := keys sorted_map in
  match list_find (.∉ actual_fields) expected_fields with
  | Some (_, expected) => Err (MissingExpectedField expected)
  | None =>
      match list_find (.∉ expected_fields) actual_fields with
      | Some (_, actual) => Err (UnexpectedField actual)
      | None => Ok (JObject (map_from sorted_map))
      end
  end.

(** [serde_json::to_value(payload)]: derived, in declaration order. *)
Definition payload_to_value (p : SignablePayload) : result ser_error json :=
  fields ← collect_results serialize_field (payload_fields p);
  Ok (struct_value
        ([("Fields", JArray fields)]
         ++ nonempty_entry "PayloadType" (payload_type p)
         ++ opt_entry "Subtitle" JString (payload_subtitle p)
         ++ [("Title", JString (payload_title p)); ("Version", JString (payload_version p))])).

(** [new_with_verified_fields]: any field type that converts into a payload field. *)
Definition new_with_verified_fields {T} (into : T → SignablePayloadField) (version : Z)
    (title : string) (subtitle : option string) (fields : list T) (payload_type : string)
    : SignablePayload :=
  MkSignablePayload (into <$> fields) payload_type subtitle title (show_Z version).

(** The errors of [verify_deterministic_ordering], before they are made text. *)
Inductive ordering_error : Type :=
| NotAValue (e : ser_error)
| NotOrdered (e : order_error).

(** The trait's default method, on the value its implementor serialises to. *)
Definition verify_deterministic_ordering (value : result ser_error json)
    : result ordering_error () :=
  json ← map_err NotAValue value;
  map_err NotOrdered (verify_json_deterministic json "").

Definition verify_list_layout (l : SignablePayloadFieldListLayout) : result ordering_error () :=
  verify_deterministic_ordering (Ok (list_layout_to_value l)).

Definition verify_field_deterministic_ordering (field : SignablePayloadField)
    : result ordering_error () :=
  (match field with
   | PreviewLayout _ preview_layout =>
       verify_deterministic_ordering (Ok (preview_layout_to_value preview_layout)) ≫= fun _ =>
       from_option verify_list_layout (Ok ()) (preview_condensed preview_layout) ≫= fun _ =>
       from_option verify_list_layout (Ok ()) (preview_expanded preview_layout)
   | ListLayout _ list_layout => verify_list_layout list_layout
   | _ => Ok ()
   end) ≫= fun _ =>
  verify_deterministic_ordering (serialize_field field).
End serialize.

(** ** Two serialisations side by side

    What the serialisers make of one datum in two builds of the map is related by every
    relation that strings, arrays and maps of distinct keys respect. *)

Definition entry_rel (R : json → json → Prop) (a b : string * json) : Prop :=
  a.1 = b.1 ∧ R a.2 b.2.

Lemma entry_rel_keys R l l' : Forall2 (entry_rel R) l l' → keys l = keys l'.
Proof. unfold keys. induction 1 as [|?? l l' [Hk _] _ IH]; csimpl; by rewrite ?Hk, ?IH. Qed.

Lemma btree_insert_rel R k v v' m m' :
  R v v' → Forall2 (entry_rel R) m m' →
  Forall2 (entry_rel R) (btree_insert k v m) (btree_insert k v' m').
Proof.
  intros Hv. induction 1 as [|[k1 v1] [k2 v2] m m' [Hk H1] Hm IH]; cbn in *; subst.
  { by repeat constructor. }
  case_match; repeat (constructor; try done).
Qed.

Lemma btree_of_list_rel R l l' :
  Forall2 (entry_rel R) l l' → Forall2 (entry_rel R) (btree_of_list l) (btree_of_list l').
Proof.
  unfold btree_of_list. intros Hl.
  assert (Forall2 (entry_rel R) [] []) as Hm by constructor. revert Hm.
  generalize (@nil (string * json)) at 1 3 as m. generalize (@nil (string * json)) as m'.
  induction Hl as [|[k v] [k' v'] l l' [Hk Hv] Hl IH]; cbn in *; [done|]. subst.
  intros m' m Hm. by apply IH, btree_insert_rel.
Qed.

Section side_by_side.
Context (M M' : SerdeMap) (R : json → json → Prop).
Context (R_string : ∀ s, R (JString s) (JString s)).
Context (R_number : ∀ z, R (JNumber z) (JNumber z)).
Context (R_array : ∀ l l', Forall2 R l l' → R (JArray l) (JArray l')).
Context (R_object : ∀ l l',
  NoDup (keys l) → Forall2 (entry_rel R) l l' →
  R (JObject (@map_from M l)) (JObject (@map_from M' l'))).

Lemma R_btree m m' :
  btree_sorted m → Forall2 (entry_rel R) m m' →
  R (JObject (@map_from M m)) (JObject (@map_from M' m')).
Proof. intros ?%btree_sorted_NoDup. by apply R_object. Qed.

Lemma R_strings l : Forall2 R (JString <$> l) (JString <$> l).
Proof. induction l; constructor; auto. Qed.

Ltac entries :=
  cbn; repeat first [apply Forall2_nil_2 | apply Forall2_cons_2; [split; [done|]|]]; cbn [snd];
  auto using R_strings.

Lemma address_v2_rel a : R (@address_v2_to_value M a) (@address_v2_to_value M' a).
Proof.
  destruct a as [addr name memo asset badge].
  unfold address_v2_to_value, struct_value, nonempty_entry; cbn [address_v2_address
    address_v2_name address_v2_memo address_v2_asset_label address_v2_badge_text].
  apply R_object; destruct (is_empty_string name), memo, (is_empty_string asset), badge;
    first [by_decision | entries].
Qed.

Lemma diagnostic_rel d : R (@diagnostic_to_value M d) (@diagnostic_to_value M' d).
Proof.
  destruct d as [r dom lv msg [z|]]; apply R_object; first [by_decision | entries].
Qed.

Lemma amount_rel a : R (@amount_to_value M a) (@amount_to_value M' a).
Proof. destruct a as [a [ab|]]; apply R_object; first [by_decision | entries]. Qed.

Lemma amount_v2_rel a : R (@amount_v2_to_value M a) (@amount_v2_to_value M' a).
Proof. destruct a as [a [ab|]]; apply R_object; first [by_decision | entries]. Qed.

Lemma list_to_value_rel l l' :
  Forall2 R l l' → R (@list_to_value M l) (@list_to_value M' l').
Proof. intros. apply R_object; [by_decision|]. entries. Qed.

Lemma struct_rel_2 k1 k2 s1 s2 :
  k1 ≠ k2 →
  R (@struct_value M [(k1, JString s1); (k2, JString s2)])
    (@struct_value M' [(k1, JString s1); (k2, JString s2)]).
Proof.
  intros. apply R_object; [|entries]. cbn. apply NoDup_cons; split; [set_solver|].
  apply NoDup_singleton.
Qed.

Lemma struct_rel_1 k s :
  R (@struct_value M [(k, JString s)]) (@struct_value M' [(k, JString s)]).
Proof. apply R_object; [apply NoDup_singleton|entries]. Qed.

Lemma text_rel t : R (@text_to_value M t) (@text_to_value M' t).
Proof. apply struct_rel_1. Qed.

Lemma text_v2_rel t : R (@text_v2_to_value M t) (@text_v2_to_value M' t).
Proof. apply struct_rel_1. Qed.

Lemma address_rel a : R (@address_to_value M a) (@address_to_value M' a).
Proof. by apply struct_rel_2. Qed.

Lemma divider_rel d : R (@divider_to_value M d) (@divider_to_value M' d).
Proof. apply struct_rel_1. Qed.

Lemma unknown_rel u : R (@unknown_to_value M u) (@unknown_to_value M' u).
Proof. by apply struct_rel_2. Qed.

Lemma annotated_rel f s d :
  Forall2 (entry_rel R) (@field_entries M f) (@field_entries M' f) →
  R (@annotated_to_value M (Annotated f s d)) (@annotated_to_value M' (Annotated f s d)).
Proof.
  intros Hf. cbn. unfold annotation_entries. apply R_btree.
  { destruct s, d; eauto using btree_insert_sorted, btree_of_list_sorted. }
  pose proof (btree_insert_rel R) as Hins.
  pose proof (btree_of_list_rel R _ _ (btree_of_list_rel R _ _ Hf)) as Hf'.
  assert (∀ d, R (@dynamic_annotation_to_value M d) (@dynamic_annotation_to_value M' d)) as Hd
    by (intros; apply R_object; [by_decision|entries]).
  assert (∀ s, R (@static_annotation_to_value M s) (@static_annotation_to_value M' s)) as Hs
    by (intros; apply struct_rel_1).
  destruct s, d; auto.
Qed.

Lemma list_layout_rel l :
  Forall (fun f => Forall2 (entry_rel R) (@field_entries M f) (@field_entries M' f))
    (signable_payload_field <$> list_fields l) →
  R (@list_layout_to_value M l) (@list_layout_to_value M' l).
Proof.
  destruct l as [l]. cbn. intros Hl. apply list_to_value_rel.
  induction l as [|[f s d] l IH]; [constructor|].
  rewrite fmap_cons, Forall_cons in Hl. destruct Hl as [Hf Hl].
  constructor; [by apply annotated_rel|by apply IH].
Qed.

Lemma preview_layout_rel p :
  Forall (fun f => Forall2 (entry_rel R) (@field_entries M f) (@field_entries M' f))
    (opt_fields (preview_condensed p) ++ opt_fields (preview_expanded p)) →
  R (@preview_layout_to_value M p) (@preview_layout_to_value M' p).
Proof.
  destruct p as [title subtitle condensed expanded]. rewrite Forall_app. cbn. intros [Hc He].
  assert (R match condensed with Some l => @list_layout_to_value M l | None => @list_to_value M [] end
            match condensed with Some l => @list_layout_to_value M' l | None => @list_to_value M' [] end)
    as HC by (destruct condensed; [by apply list_layout_rel|by apply list_to_value_rel]).
  assert (R match expanded with Some l => @list_layout_to_value M l | None => @list_to_value M [] end
            match expanded with Some l => @list_layout_to_value M' l | None => @list_to_value M' [] end)
    as HE by (destruct expanded; [by apply list_layout_rel|by apply list_to_value_rel]).
  apply R_object; destruct title, subtitle;
    first [by_decision | entries; auto using text_v2_rel].
Qed.

Lemma field_entries_rel f : Forall2 (entry_rel R) (@field_entries M f) (@field_entries M' f).
Proof.
  induction f as [f IH] using field_ind.
  destruct f; cbn; unfold serialize_field_variant; entries;
    auto using text_rel, text_v2_rel, address_rel, divider_rel, unknown_rel, address_v2_rel,
      amount_rel, amount_v2_rel, diagnostic_rel, list_layout_rel, preview_layout_rel.
Qed.

Lemma field_value_rel f :
  R (JObject (@map_from M (@serialize_to_map M f)))
    (JObject (@map_from M' (@serialize_to_map M' f))).
Proof.
  apply R_btree; [apply btree_of_list_sorted|].
  apply btree_of_list_rel, field_entries_rel.
Qed.
End side_by_side.

(** ** The self-check of the serialiser *)

Section totality.
Context {M : SerdeMap}.

Lemma keys_field_entries f :
  keys (field_entries f) = ["FallbackText"; "Label"; "Type"; variant_field f].
Proof. by destruct f. Qed.

Lemma NoDup_field_entries f : NoDup (keys (field_entries f)).
Proof. rewrite keys_field_entries. destruct f; by_decision. Qed.

Lemma serialize_to_map_perm f : serialize_to_map f ≡ₚ field_entries f.
Proof. apply btree_of_list_perm, NoDup_field_entries. Qed.

Lemma keys_serialize_to_map f : keys (serialize_to_map f) ≡ₚ get_expected_fields f.
Proof.
  unfold get_expected_fields. rewrite merge_sort_Permutation.
  change (keys (serialize_to_map f) ≡ₚ ["FallbackText"; "Label"; "Type"; variant_field f]).
  rewrite <-keys_field_entries. unfold keys. by rewrite serialize_to_map_perm.
Qed.

(** The order in which the hash map yields its entries does not show. *)
Lemma serialize_to_map_any_order f l :
  l ≡ₚ field_entries f → btree_of_list l = serialize_to_map f.
Proof.
  intros Hl. symmetry. apply btree_of_list_perm_eq; [apply NoDup_field_entries|done].
Qed.

Lemma serialize_field_ok f : serialize_field f = Ok (JObject (serialize_to_map f)).
Proof.
  unfold serialize_field. pose proof (keys_serialize_to_map f) as Hk.
  assert (list_find (.∉ keys (serialize_to_map f)) (get_expected_fields f) = None) as ->.
  { apply list_find_None, Forall_forall. intros x Hx Hn. apply Hn. by rewrite Hk. }
  assert (list_find (.∉ get_expected_fields f) (keys (serialize_to_map f)) = None) as ->.
  { apply list_find_None, Forall_forall. intros x Hx Hn. apply Hn. by rewrite <-Hk. }
  do 2 f_equal. apply map_from_sorted_id, btree_of_list_sorted.
Qed.

Lemma serialize_field_value f :
  serialize_field f = Ok (JObject (map_from (serialize_to_map f))).
Proof.
  rewrite serialize_field_ok. do 2 f_equal. symmetry.
  apply map_from_sorted_id, btree_of_list_sorted.
Qed.

Definition payload_entries (p : SignablePayload) : list (string * json) :=
  [("Fields", JArray ((fun f => JObject (map_from (serialize_to_map f))) <$> payload_fields p))]
  ++ nonempty_entry "PayloadType" (payload_type p)
  ++ opt_entry "Subtitle" JString (payload_subtitle p)
  ++ [("Title", JString (payload_title p)); ("Version", JString (payload_version p))].

Lemma collect_serialize_fields l :
  collect_results serialize_field l =
    Ok ((fun f => JObject (map_from (serialize_to_map f))) <$> l).
Proof.
  apply collect_results_Ok, Forall2_fmap_r, Forall_Forall2_diag, Forall_true.
  apply serialize_field_value.
Qed.

(** Serialising a payload never fails. *)
Lemma payload_to_value_ok p : payload_to_value p = Ok (struct_value (payload_entries p)).
Proof. unfold payload_to_value. by rewrite collect_serialize_fields. Qed.

Lemma payload_entries_sorted p : btree_sorted (payload_entries p).
Proof.
  destruct p as [fs ty sub t v]; unfold payload_entries, nonempty_entry; cbn.
  unfold btree_sorted; destruct (is_empty_string ty), sub; cbn; repeat constructor.
Qed.

(** The declaration order of the payload is already the key order, in both builds. *)
Lemma payload_to_value_entries p : payload_to_value p = Ok (JObject (payload_entries p)).
Proof.
  rewrite payload_to_value_ok. unfold struct_value.
  by rewrite (map_from_sorted_id _ (payload_entries_sorted p)).
Qed.
End totality.

(** ** Every serialised payload is well formed, and sorted in the key-ordered build *)

Section closure.
Context (M M' : SerdeMap) (R : json → json → Prop).
Context (R_string : ∀ s, R (JString s) (JString s)).
Context (R_number : ∀ z, R (JNumber z) (JNumber z)).
Context (R_array : ∀ l l', Forall2 R l l' → R (JArray l) (JArray l')).
Context (R_object : ∀ l l',
  NoDup (keys l) → Forall2 (entry_rel R) l l' →
  R (JObject (@map_from M l)) (JObject (@map_from M' l'))).

Lemma payload_value_rel p :
  R (@struct_value M (@payload_entries M p)) (@struct_value M' (@payload_entries M' p)).
Proof.
  apply R_object; [apply btree_sorted_NoDup, payload_entries_sorted|].
  destruct p as [fs ty sub t v]; unfold payload_entries, nonempty_entry; cbn.
  constructor.
  { split; [done|]. apply R_array. induction fs; constructor; [|done].
    by apply field_value_rel. }
  destruct (is_empty_string ty), sub; cbn; repeat (constructor; [split; [done|apply R_string]|]);
    constructor.
Qed.
End closure.

Lemma payload_value_wf {M : SerdeMap} p : json_wf (struct_value (payload_entries p)).
Proof.
  apply (payload_value_rel M M (fun j _ => json_wf j)); try done.
  - cbn. intros l l' Hl. apply foldr_and_Forall. eapply Forall2_Forall_l; [exact Hl|].
    apply Forall_true. auto.
  - intros l l' Hnd Hl. cbn. split; [unfold keys; by rewrite map_from_perm|].
    apply (foldr_and_Forall (fun kv : string * json => json_wf kv.2)).
    rewrite map_from_perm by done. eapply Forall2_Forall_l; [exact Hl|].
    apply Forall_true. intros ? ? [_ ?]. done.
Qed.

Section sorted.
Context {M : SerdeMap} {HM : SortedSerdeMap M}.

Lemma json_sorted_array (l l' : list json) :
  Forall2 (fun j _ => json_sorted j) l l' → json_sorted (JArray l).
Proof.
  intros Hl. cbn. apply foldr_and_Forall. eapply Forall2_Forall_l; [exact Hl|].
  apply Forall_true. auto.
Qed.

Lemma json_sorted_object (l l' : list (string * json)) :
  NoDup (keys l) → Forall2 (entry_rel (fun j _ => json_sorted j)) l l' →
  json_sorted (JObject (map_from l)).
Proof.
  intros Hnd Hl. cbn. split; [apply sorted_lt_le, map_from_sorted|].
  apply (foldr_and_Forall (fun kv : string * json => json_sorted kv.2)).
  rewrite map_from_perm by done. eapply Forall2_Forall_l; [exact Hl|].
  apply Forall_true. intros ? ? [_ ?]. done.
Qed.

Lemma payload_value_sorted p : json_sorted (struct_value (payload_entries p)).
Proof.
  apply (payload_value_rel M M (fun j _ => json_sorted j));
    eauto using json_sorted_array, json_sorted_object; done.
Qed.

Lemma field_value_sorted f : json_sorted (JObject (map_from (serialize_to_map f))).
Proof.
  apply (field_value_rel M M (fun j _ => json_sorted j));
    eauto using json_sorted_array, json_sorted_object; done.
Qed.

Lemma list_layout_sorted l : json_sorted (list_layout_to_value l).
Proof.
  apply (list_layout_rel M M (fun j _ => json_sorted j));
    eauto using json_sorted_array, json_sorted_object; try done.
  apply Forall_true. intros. apply field_entries_rel;
    eauto using json_sorted_array, json_sorted_object; done.
Qed.

Lemma preview_layout_sorted p : json_sorted (preview_layout_to_value p).
Proof.
  apply (preview_layout_rel M M (fun j _ => json_sorted j));
    eauto using json_sorted_array, json_sorted_object; try done.
  apply Forall_true. intros. apply field_entries_rel;
    eauto using json_sorted_array, json_sorted_object; done.
Qed.

Lemma verify_ordering_sorted v :
  json_sorted v → verify_deterministic_ordering (Ok v) = Ok ().
Proof. intros. cbn. by rewrite verify_complete. Qed.

Lemma verify_list_layout_ok l : verify_list_layout l = Ok ().
Proof. apply verify_ordering_sorted, list_layout_sorted. Qed.

Lemma verify_field_ok f : verify_field_deterministic_ordering f = Ok ().
Proof.
  unfold verify_field_deterministic_ordering.
  rewrite serialize_field_value, (verify_ordering_sorted _ (field_value_sorted f)).
  destruct f as [| | | | | | | |c [t st co ex]|c l| |]; try done;
    rewrite ?(verify_ordering_sorted _ (preview_layout_sorted _)), ?verify_list_layout_ok;
    cbn [preview_condensed preview_expanded mbind result_bind]; [|done].
  destruct co, ex; simpl; rewrite ?verify_list_layout_ok; simpl; rewrite ?verify_list_layout_ok; done.
Qed.
End sorted.

(** Both builds of the map serialise a payload to the same content. *)
Lemma payload_value_equiv (M M' : SerdeMap) p :
  json_equiv (@struct_value M (@payload_entries M p)) (@struct_value M' (@payload_entries M' p)).
Proof.
  apply (payload_value_rel M M' json_equiv); try done.
  - apply json_equiv_array.
  - intros l l' Hnd Hl. by apply json_equiv_object.
Qed.

(** ** Properties *)

(** Serialising a field never trips the serialiser's own check of its fields: it always
    yields one object, in key order, whose keys are exactly the expected ones. *)
Theorem serialize_field_total (M : SerdeMap) f :
  ∃ m, serialize_field f = Ok (JObject m) ∧ btree_sorted m ∧ keys m ≡ₚ get_expected_fields f.
Proof.
  exists (serialize_to_map f). split_and!;
    [apply serialize_field_ok|apply btree_of_list_sorted|apply keys_serialize_to_map].
Qed.

(** The order in which the intermediate hash map yields the entries of a field does not
    show in the serialised field. *)
Theorem serialize_to_map_order_free (M : SerdeMap) f l :
  l ≡ₚ field_entries f → btree_of_list l = serialize_to_map f.
Proof. apply serialize_to_map_any_order. Qed.

Definition sample_amount : SignablePayloadField :=
  Amount (Common "1 SOL" "Amount") (FieldAmount "1" (Some "SOL")).

Lemma serialize_to_map_order_free_witness :
  @btree_of_list json (reverse (@field_entries btree_map sample_amount)) =
    @serialize_to_map btree_map sample_amount.
Proof.
  apply (serialize_to_map_order_free btree_map sample_amount). apply reverse_Permutation.
Defined.

(** With the key-ordered map, the determinism check, at every depth, accepts the value of
    every payload and of every field, with the layouts below the field checked on their own. *)
Theorem payload_deterministic_btree (M : SerdeMap) (HM : SortedSerdeMap M) p f :
  verify_deterministic_ordering (payload_to_value p) = Ok () ∧
  verify_field_deterministic_ordering f = Ok ().
Proof.
  split; [|apply verify_field_ok].
  rewrite payload_to_value_ok. apply verify_ordering_sorted, payload_value_sorted.
Qed.

Definition sample_payload : SignablePayload :=
  SignablePayload_new 0 "Transfer" None [sample_amount] "SolanaTx".

Lemma payload_deterministic_btree_witness :
  verify_deterministic_ordering (@payload_to_value btree_map sample_payload) = Ok () ∧
  @verify_field_deterministic_ordering btree_map sample_amount = Ok ().
Proof.
  apply (payload_deterministic_btree btree_map btree_map_sorted sample_payload sample_amount).
Defined.

(** With the insertion-ordered map, the value of a payload with an [Amount] field fails
    the determinism check, inside the field's own object. *)
Theorem payload_not_deterministic_index :
  verify_deterministic_ordering (@payload_to_value index_map sample_payload) =
    Err (NotOrdered
      (OrderError "Fields[0].Amount" ["Amount"; "Abbreviation"] ["Abbreviation"; "Amount"])).
Proof. vm_compute. reflexivity. Qed.
