(* ===== verification/Errors.v ===== *)
(** * Error values and their text ([visualsign/src/errors.rs]) *)

From S2P Require Import Prelude.

Inductive TransactionParseError : Type :=
| InvalidFormat (msg : string)
| ParseDecodeError (msg : string)
| UnsupportedVersion (msg : string)
| UnsupportedEncoding (msg : string).

Inductive VisualSignError : Type :=
| ParseError (e : TransactionParseError)
| DecodeError (msg : string)
| MissingData (msg : string)
| ConversionError (msg : string)
| MissingField (msg : string)
| InvalidNumberField (msg : string)
| EmptyField (msg : string)
| ValidationError (msg : string)
| InvariantViolation (msg : string)
| SerializationError (msg : string).

#[export] Instance TransactionParseError_eq_dec : EqDecision TransactionParseError.
Proof. solve_decision. Defined.
#[export] Instance VisualSignError_eq_dec : EqDecision VisualSignError.
Proof. solve_decision. Defined.

(** The [Display] texts. *)
Definition show_parse_error (e : TransactionParseError) : string :=
  match e with
  | InvalidFormat m => "Invalid transaction format: " +:+ m
  | ParseDecodeError m => "Decode error: " +:+ m
  | UnsupportedVersion m => "Unsupported transaction version: " +:+ m
  | UnsupportedEncoding m => "Unsupported encoding format: " +:+ m
  end.

Definition show_error (e : VisualSignError) : string :=
  match e with
  | ParseError e => "Failed to parse transaction: " +:+ show_parse_error e
  | DecodeError m => "Failed to decode instruction: " +:+ m
  | MissingData m => "Missing required data: " +:+ m
  | ConversionError m => "Conversion failed: " +:+ m
  | MissingField m => "Missing required field '" +:+ m +:+ "'"
  | InvalidNumberField m =>
      "Invalid number field: '" +:+ m +:+ "' contains non-numeric characters or is empty."
  | EmptyField _ => "Empty field provided"
  | ValidationError m => "Validation failed: " +:+ m
  | InvariantViolation m => "Invariant violation: " +:+ m
  | SerializationError m => "Serialization failed: " +:+ m
  end.
