(* ===== verification/Grpc.v ===== *)
(** * gRPC errors ([parser/app/src/errors.rs], [generated/src/generated/google.rpc.rs]) *)

From S2P Require Import Prelude.

(** [google.rpc.Code], with the numbers it has on the wire. *)
Inductive Code : Type :=
| CodeOk | CodeCancelled | CodeUnknown | CodeInvalidArgument | CodeDeadlineExceeded | CodeNotFound | CodeAlreadyExists
| CodePermissionDenied | CodeUnauthenticated | CodeResourceExhausted | CodeFailedPrecondition | CodeAborted
| CodeOutOfRange | CodeUnimplemented | CodeInternal | CodeUnavailable | CodeDataLoss.

#[export] Instance Code_eq_dec : EqDecision Code.
Proof. solve_decision. Defined.

Definition code_number (c : Code) : Z :=
  match c with
  | CodeOk => 0 | CodeCancelled => 1 | CodeUnknown => 2 | CodeInvalidArgument => 3 | CodeDeadlineExceeded => 4
  | CodeNotFound => 5 | CodeAlreadyExists => 6 | CodePermissionDenied => 7 | CodeUnauthenticated => 16
  | CodeResourceExhausted => 8 | CodeFailedPrecondition => 9 | CodeAborted => 10 | CodeOutOfRange => 11
  | CodeUnimplemented => 12 | CodeInternal => 13 | CodeUnavailable => 14 | CodeDataLoss => 15
  end.

Record GrpcError := MkGrpcError { grpc_code : Code; grpc_message : string }.

#[export] Instance GrpcError_eq_dec : EqDecision GrpcError.
Proof. solve_decision. Defined.

Definition grpc_internal (message : string) : GrpcError := MkGrpcError CodeInternal message.
