(* ===== verification/Charset.v ===== *)
(** * The text of a payload and the charset gate

    [SignablePayload::to_json], [validate_charset] and [to_validated_json] of
    [visualsign/src/lib.rs], with the characterisation of the payloads the gate accepts. *)

From S2P Require Import Prelude Json Payload Errors.

(** ** UTF-8, as [String::from_utf8] checks it *)

Definition in_range (lo hi : nat) (c : Ascii.ascii) : bool := (lo <=? code c) && (code c <=? hi).
Definition is_cont : Ascii.ascii → bool := in_range 128 191.

Definition utf8_2 (a b : Ascii.ascii) : bool := in_range 194 223 a && is_cont b.

Definition utf8_3 (a b c : Ascii.ascii) : bool :=
  is_cont c &&
  ((in_range 224 224 a && in_range 160 191 b) || (in_range 225 236 a && is_cont b)
   || (in_range 237 237 a && in_range 128 159 b) || (in_range 238 239 a && is_cont b)).

Definition utf8_4 (a b c d : Ascii.ascii) : bool :=
  is_cont c && is_cont d &&
  ((in_range 240 240 a && in_range 144 191 b) || (in_range 241 243 a && is_cont b)
   || (in_range 244 244 a && in_range 128 143 b)).

Fixpoint utf8_valid (s : string) : bool :=
  match s with
  | "" => true
  | String a s1 =>
      if is_ascii a then utf8_valid s1 else
      match s1 with
      | "" => false
      | String b s2 =>
          if utf8_2 a b then utf8_valid s2 else
          match s2 with
          | "" => false
          | String c s3 =>
              if utf8_3 a b c then utf8_valid s3 else
              match s3 with
              | "" => false
              | String d s4 => if utf8_4 a b c d then utf8_valid s4 else false
              end
          end
      end
  end.

(** ** Serialising to text *)

Inductive to_json_error : Type :=
| ToValueFailed (e : ser_error)
| NotUtf8.

(** The texts of the error types of the serialiser, which are not of this crate. *)
Class JsonErrorText : Type := show_json_error : to_json_error → string.

Section charset.
Context {M : SerdeMap} {F : JsonFormat} {D : JsonErrorText}.

Definition from_utf8 (buf : string) : result to_json_error string :=
  if utf8_valid buf then Ok buf else Err NotUtf8.

Definition to_json (p : SignablePayload) : result to_json_error string :=
  value ← map_err ToValueFailed (payload_to_value p);
  let sorted_value := sort_json_alphabetically value in
  from_utf8 (fmt_value sorted_value).

(** [pretty] stands for [serde_json::to_string_pretty] on a value. *)
Definition to_pretty_json (pretty : json → string) (p : SignablePayload)
    : result to_json_error string :=
  value ← map_err ToValueFailed (payload_to_value p);
  let sorted_value := sort_json_alphabetically value in
  Ok (pretty sorted_value).

(** [serde_json::to_string(&payload)]: the value as it was built, not sorted again. *)
Definition payload_to_string (p : SignablePayload) : result to_json_error string :=
  value ← map_err ToValueFailed (payload_to_value p);
  from_utf8 (fmt_value value).

Definition FORBIDDEN_JSON_ESCAPES : list string :=
  [esc2 "u"; esc2 "t"; esc2 "r"; esc2 "b"; esc2 "f"; esc2 "/"]%char.

(** [char::escape_default] and the [{:02X}] of a character code below 128. *)
Definition hex_upper (n : nat) : Ascii.ascii :=
  if n <? 10 then Ascii.ascii_of_nat (48 + n) else Ascii.ascii_of_nat (55 + n).

Definition escape_default (c : Ascii.ascii) : string :=
  if code c =? 9 then esc2 "t"%char
  else if code c =? 13 then esc2 "r"%char
  else if code c =? 10 then esc2 "n"%char
  else if code c =? 39 then esc2 c
  else if code c =? 34 then esc2 c
  else if code c =? 92 then esc2 c
  else if in_range 32 126 c then String c ""
  else esc2 "u"%char +:+ "{"
       +:+ (if code c <? 16 then "" else String (hex_digit (code c / 16)) "")
       +:+ String (hex_digit (code c mod 16)) "}".

Definition show_02X (n : nat) : string :=
  String (hex_upper (n / 16)) (String (hex_upper (n mod 16)) "").

Fixpoint first_unprintable (i : nat) (s : string) : option (nat * Ascii.ascii) :=
  match s with
  | "" => None
  | String ch s =>
      if negb (is_ascii_graphic ch) && negb (is_ascii_whitespace ch) then Some (i, ch)
      else first_unprintable (S i) s
  end.

Definition restricted : VisualSignError := ValidationError "Restricted Characters Detected".

Definition validate_charset (p : SignablePayload) : result VisualSignError () :=
  json_str ←
    map_err (fun e => SerializationError
                        ("Failed to serialize for validation: " +:+ show_json_error e))
      (to_json p);
  if existsb (fun escape => str_contains escape json_str) FORBIDDEN_JSON_ESCAPES
  then Err restricted
  else if negb (str_all is_ascii json_str) then Err restricted
  else match first_unprintable 0 json_str with
       | Some (i, ch) =>
           Err (ValidationError
                  ("JSON output contains non-printable character '" +:+ escape_default ch
                   +:+ "' (U+" +:+ show_02X (code ch) +:+ ") at position " +:+ show_nat i))
       | None => Ok ()
       end.

Definition to_validated_json (p : SignablePayload) : result VisualSignError string :=
  _ ← validate_charset p;
  map_err (fun e => SerializationError ("Serialization failed: " +:+ show_json_error e)) (to_json p).
End charset.

(** ** The forbidden pairs as a scan *)

Definition forbidden_after_backslash (c : Ascii.ascii) : bool :=
  bool_decide (c ∈ ["u"; "t"; "r"; "b"; "f"; "/"]%char).

Definition is_backslash (c : Ascii.ascii) : bool := bool_decide (c = backslash).

(** Whether a forbidden pair occurs, [prev] telling if a backslash came just before. *)
Fixpoint bad_pair (prev : bool) (s : string) : bool :=
  match s with
  | "" => false
  | String c s => (prev && forbidden_after_backslash c) || bad_pair (is_backslash c) s
  end.

Fixpoint ends_backslash (prev : bool) (s : string) : bool :=
  match s with
  | "" => prev
  | String c s => ends_backslash (is_backslash c) s
  end.

Lemma bad_pair_app prev s t :
  bad_pair prev (s +:+ t) = bad_pair prev s || bad_pair (ends_backslash prev s) t.
Proof.
  revert prev; induction s as [|c s IH]; intros prev; [done|].
  rewrite str_cons_app; cbn. by rewrite IH, orb_assoc.
Qed.

Lemma ends_backslash_app prev s t :
  ends_backslash prev (s +:+ t) = ends_backslash (ends_backslash prev s) t.
Proof.
  revert prev; induction s as [|c s IH]; intros prev; [done|].
  rewrite str_cons_app; cbn. apply IH.
Qed.

Lemma starts_with_esc2 c s :
  starts_with (esc2 c) s = true ↔ ∃ t, s = String backslash (String c t).
Proof.
  unfold starts_with. rewrite bool_decide_eq_true. split.
  - intros [t Ht%strip_prefix_Some]. by exists t.
  - intros [t ->]. exists t. by apply strip_prefix_Some.
Qed.

Lemma str_contains_cons p c s :
  str_contains p (String c s) = starts_with p (String c s) || str_contains p s.
Proof. done. Qed.

Lemma contains_forbidden s :
  existsb (fun escape => str_contains escape s) FORBIDDEN_JSON_ESCAPES = true ↔
  bad_pair false s = true.
Proof.
  assert (∀ a s, existsb (fun e => starts_with e (String a s)) FORBIDDEN_JSON_ESCAPES = true ↔
    is_backslash a = true ∧ ∃ c t, s = String c t ∧ forbidden_after_backslash c = true) as Hstart.
  { intros a t. unfold FORBIDDEN_JSON_ESCAPES, forbidden_after_backslash, is_backslash. cbn [existsb].
    rewrite !orb_true_iff, !starts_with_esc2. setoid_rewrite bool_decide_eq_true.
    setoid_rewrite list_elem_of_In. cbn. naive_solver. }
  induction s as [|a s IH]; [done|]. cbn [bad_pair]. rewrite orb_true_iff, andb_false_l.
  assert (bad_pair (is_backslash a) s = true ↔
    (is_backslash a = true ∧ ∃ c t, s = String c t ∧ forbidden_after_backslash c = true)
    ∨ bad_pair false s = true) as ->.
  { destruct s as [|c t]; cbn; [naive_solver|]. rewrite !orb_true_iff, andb_true_iff. naive_solver. }
  rewrite <-IH, <-Hstart, !existsb_exists. setoid_rewrite str_contains_cons.
  setoid_rewrite orb_true_iff. generalize FORBIDDEN_JSON_ESCAPES as l. clear. intros l.
  split.
  - intros (x & Hx & [H|H]); right; [left|right]; eauto.
  - intros [H|[(x & Hx & H)|(x & Hx & H)]]; [done|eauto..].
Qed.

(** ** What the gate accepts, on text *)

Definition ok_char (c : Ascii.ascii) : bool :=
  is_ascii c && (is_ascii_graphic c || is_ascii_whitespace c).

Definition text_ok (s : string) : bool := negb (bad_pair false s) && str_all ok_char s.

Lemma first_unprintable_None i s :
  first_unprintable i s = None ↔
  str_all (fun c => is_ascii_graphic c || is_ascii_whitespace c) s = true.
Proof.
  revert i; induction s as [|c s IH]; intros i; cbn; [done|].
  rewrite <-negb_orb. destruct (_ || _); cbn; [apply IH|done].
Qed.

Lemma str_all_andb P Q s :
  str_all (fun c => P c && Q c) s = str_all P s && str_all Q s.
Proof. induction s as [|c s IH]; cbn; [done|]. rewrite IH. by destruct (P c), (Q c), (str_all P s). Qed.

Lemma text_ok_app s t :
  ends_backslash false s = false → text_ok (s +:+ t) = text_ok s && text_ok t.
Proof.
  intros Hs. unfold text_ok. rewrite bad_pair_app, Hs, str_all_app.
  by destruct (bad_pair false s), (bad_pair false t), (str_all ok_char s), (str_all ok_char t).
Qed.

(** Field text the gate lets through: printable ASCII and line feeds, and no backslash
    right before a letter that would spell a forbidden escape. *)
Definition clean_char (c : Ascii.ascii) : bool := in_range 32 126 c || (code c =? 10).

Fixpoint clean_from (prev : bool) (s : string) : bool :=
  match s with
  | "" => true
  | String c s =>
      clean_char c && negb (prev && forbidden_after_backslash c) && clean_from (is_backslash c) s
  end.

Definition clean (s : string) : bool := clean_from false s.
Arguments clean : simpl never.

Section escapes.
Context {F : JsonFormat}.

Lemma plain_char c : 32 ≤ code c → c ≠ dquote → c ≠ backslash → fmt_esc c = String c "".
Proof. apply fmt_esc_plain. Qed.

Lemma esc_clean prev c :
  clean_char c = true →
  bad_pair prev (fmt_esc c) = prev && forbidden_after_backslash c ∧
  ends_backslash prev (fmt_esc c) = is_backslash c ∧
  str_all ok_char (fmt_esc c) = true.
Proof.
  intros Hc. destruct (decide (c = dquote)) as [->|Hq].
  { rewrite fmt_esc_quote. by destruct prev. }
  destruct (decide (c = backslash)) as [->|Hb].
  { rewrite fmt_esc_backslash. by destruct prev. }
  destruct (decide (code c = 10)) as [H10|H10].
  { rewrite (code_inj c (Ascii.ascii_of_nat 10) H10).
    rewrite (fmt_esc_short 10 "n"%char) by set_solver. by destruct prev. }
  unfold clean_char in Hc. rewrite (proj2 (Nat.eqb_neq _ _) H10), orb_false_r in Hc.
  unfold in_range in Hc. apply andb_true_iff in Hc as [?%Nat.leb_le Hhi%Nat.leb_le].
  rewrite plain_char by done. cbn. rewrite orb_false_r. split; [done|]. split; [done|].
  rewrite andb_true_r. unfold ok_char, is_ascii, is_ascii_graphic, is_ascii_whitespace.
  destruct (decide (code c = 32)) as [->|]; [done|].
  rewrite (proj2 (Nat.ltb_lt (code c) 128)), (proj2 (Nat.leb_le 33 (code c))),
    (proj2 (Nat.leb_le (code c) 126)); [done|lia..].
Qed.

Lemma esc_dirty prev c :
  clean_char c = false →
  bad_pair prev (fmt_esc c) = true ∨ str_all ok_char (fmt_esc c) = false.
Proof.
  intros Hc. destruct (decide (code c < 32)) as [Hlt|Hge].
  - left. destruct (decide (code c ∈ [8; 9; 10; 12; 13])) as [Hs|Hs].
    + rewrite !elem_of_cons, elem_of_nil in Hs.
      assert (code c ≠ 10) as H10.
      { intros H10. unfold clean_char in Hc. rewrite H10 in Hc. by rewrite orb_true_r in Hc. }
      assert (∃ n x, code c = n ∧ n < 32 ∧
        (n, x) ∈ [(8, "b"); (9, "t"); (12, "f"); (13, "r")]%char) as (n & x & Hn & Hn32 & Hx).
      { destruct Hs as [-> |[-> |[? |[-> |[-> |[]]]]]]; [| |done|..];
          [exists 8, "b"%char|exists 9, "t"%char|exists 12, "f"%char|exists 13, "r"%char];
          (split; [done|split; [lia|]]); rewrite !elem_of_cons; tauto. }
      assert (code (Ascii.ascii_of_nat n) = n) as Hcode.
      { unfold code. apply Ascii.nat_ascii_embedding. lia. }
      rewrite (code_inj c (Ascii.ascii_of_nat n)) by congruence.
      rewrite (fmt_esc_short n x) by (revert Hx; rewrite !elem_of_cons; tauto). cbn. rewrite orb_false_r.
      apply orb_true_iff. right. rewrite !elem_of_cons, elem_of_nil in Hx.
      by repeat (destruct Hx as [[= -> ->]|Hx]; [done|]).
    + destruct (fmt_esc_control c Hlt Hs) as (h & l & _ & _ & ->). by destruct prev.
  - right. unfold clean_char, in_range in Hc. apply orb_false_iff in Hc as [Hc H10].
    assert (126 < code c) as Hhi.
    { apply andb_false_iff in Hc as [Hc|Hc]; apply Nat.leb_gt in Hc; lia. }
    rewrite plain_char; [|lia|intros ->; by vm_compute in Hhi; lia|intros ->; by vm_compute in Hhi; lia].
    cbn. rewrite andb_true_r. unfold ok_char, is_ascii, is_ascii_graphic, is_ascii_whitespace.
    cbn [existsb].
    repeat (rewrite (proj2 (Nat.eqb_neq (code c) _)) by lia).
    rewrite (proj2 (Nat.leb_gt (code c) 126)) by lia. by rewrite !andb_false_r.
Qed.

Definition esc_text (s : string) : string :=
  str_concat (fmt_esc <$> String.list_ascii_of_string s).

Lemma esc_text_cons c s : esc_text (String c s) = fmt_esc c +:+ esc_text s.
Proof. done. Qed.

Lemma esc_text_ok prev s :
  negb (bad_pair prev (esc_text s)) && str_all ok_char (esc_text s) = clean_from prev s.
Proof.
  revert prev; induction s as [|c s IH]; intros prev; [done|].
  rewrite esc_text_cons, bad_pair_app, str_all_app. cbn [clean_from].
  destruct (clean_char c) eqn:Hc.
  - destruct (esc_clean prev c Hc) as (-> & -> & ->). rewrite <-IH.
    by destruct (prev && _), (bad_pair _ (esc_text s)).
  - destruct (esc_dirty prev c Hc) as [-> | ->]; [done|]. by rewrite andb_false_r.
Qed.
End escapes.

(** ** What the gate accepts, on values *)

Fixpoint json_clean (j : json) : bool :=
  match j with
  | JString s => clean s
  | JArray l => forallb json_clean l
  | JObject m => forallb (fun kv => clean kv.1 && json_clean kv.2) m
  | _ => true
  end.

(** A text whose verdict is [b] wherever it is placed. *)
Definition token (s : string) (b : bool) : Prop :=
  text_ok s = b ∧ ends_backslash false s = false.

Lemma token_app s t b b' : token s b → token t b' → token (s +:+ t) (b && b').
Proof.
  intros [Hs Es] [Ht Et]. split; [by rewrite text_ok_app, Hs, Ht|].
  by rewrite ends_backslash_app, Es.
Qed.

Lemma token_join l bs :
  Forall2 token l bs → token (str_join "," l) (forallb id bs).
Proof.
  induction 1 as [|s b l bs Hs Hl IH]; [done|].
  destruct Hl as [|s' b' l bs Hs' Hl]; [cbn; by rewrite andb_true_r|].
  change (token (s +:+ "," +:+ str_join "," (s' :: l)) (b && (true && forallb id (b' :: bs)))).
  by repeat apply token_app.
Qed.

Lemma token_wrap a z s b : token a true → token z true → token s b → token (a +:+ s +:+ z) b.
Proof.
  intros Ha Hz Hs. replace b with (true && (b && true)) by by rewrite andb_true_r.
  by repeat apply token_app.
Qed.

Definition number_char (c : Ascii.ascii) : bool := is_ascii_digit c || (code c =? 45).

Lemma number_char_scan c :
  number_char c = true →
  ok_char c = true ∧ is_backslash c = false ∧ forbidden_after_backslash c = false.
Proof. ascii_cases c; done. Qed.

Lemma token_number_text s : str_all number_char s = true → token s true.
Proof.
  induction s as [|c s IH]; [done|]. cbn. intros [Hc Hs]%andb_true_iff.
  destruct (number_char_scan c Hc) as (Ho & Hb & _). destruct (IH Hs) as [Ht Et].
  split; [|cbn; by rewrite Hb].
  unfold text_ok in *. cbn. rewrite Hb, Ho. done.
Qed.

Lemma show_Z_number_text z : str_all number_char (show_Z z) = true.
Proof.
  destruct (decide (0 ≤ z)%Z) as [Hz|Hz].
  - eapply str_all_impl; [|by apply show_nonneg_digits].
    intros c Hc. unfold number_char. by rewrite Hc.
  - destruct z as [|p|p]; [done|lia|].
    change (str_all number_char ("-" +:+ pretty (N.pos p)) = true).
    rewrite str_all_app. apply andb_true_iff. split; [done|].
    eapply str_all_impl; [|by apply (show_nonneg_digits (Z.pos p))].
    intros c Hc. unfold number_char. by rewrite Hc.
Qed.

Section values.
Context {F : JsonFormat}.

Lemma token_string s : token (fmt_value (JString s)) (clean s).
Proof.
  rewrite fmt_string. fold (esc_text s).
  change (token (String dquote "" +:+ esc_text s +:+ String dquote "") (clean s)). split.
  - rewrite text_ok_app by done. unfold text_ok at 2. rewrite bad_pair_app, str_all_app.
    unfold clean. rewrite <-esc_text_ok.
    assert (∀ b, bad_pair b (String dquote "") = false) as -> by by intros [].
    change (text_ok (String dquote "")) with true.
    change (str_all ok_char (String dquote "")) with true.
    by rewrite orb_false_r, andb_true_r.
  - by rewrite !ends_backslash_app.
Qed.

Lemma token_value j : token (fmt_value j) (json_clean j).
Proof.
  induction j as [|b|z|s|l IH|m IH] using json_ind.
  - by rewrite fmt_null.
  - rewrite fmt_bool. by destruct b.
  - rewrite fmt_number. apply token_number_text, show_Z_number_text.
  - apply token_string.
  - rewrite fmt_array. apply token_wrap; [done|done|].
    replace (json_clean (JArray l)) with (forallb id (json_clean <$> l)).
    + apply token_join. induction IH; constructor; auto.
    + cbn. clear. induction l; cbn; [done|]. by rewrite IHl.
  - rewrite fmt_object. apply token_wrap; [done|done|].
    replace (json_clean (JObject m))
      with (forallb id ((fun kv => clean kv.1 && json_clean kv.2) <$> m)).
    + apply token_join. induction IH as [|[k v] m Hv _ IH]; constructor; [|done]. cbn in *.
      apply token_app; [apply token_string|]. by apply (token_app ":" _ true).
    + cbn. clear. induction m; cbn; [done|]. by rewrite IHm.
Qed.
End values.

Lemma forallb_perm {A} (f : A → bool) l l' : l ≡ₚ l' → forallb f l = forallb f l'.
Proof.
  induction 1 as [| |x y l|]; cbn; [done|congruence| |congruence].
  by rewrite !andb_assoc, (andb_comm (f x)).
Qed.

(** Sorting does not change the verdict. *)
Lemma json_clean_sort {M : SerdeMap} j :
  json_wf j → json_clean (sort_json_alphabetically j) = json_clean j.
Proof.
  induction j as [| | | |l IH|m IH] using json_ind; [done..| |].
  - cbn. rewrite foldr_and_Forall. intros Hw.
    induction IH as [|j l Hj Hl IHl]; cbn; [done|]. inversion_clear Hw. by rewrite Hj, IHl.
  - rewrite sort_object. cbn. rewrite (foldr_and_Forall (fun kv : string * json => json_wf kv.2)).
    intros [Hnd Hw].
    erewrite forallb_perm; [|apply btree_of_list_perm; by rewrite keys_map_snd].
    clear Hnd. induction IH as [|[k v] m Hv Hm IHm]; cbn in *; [done|].
    inversion_clear Hw. by rewrite Hv, IHm.
Qed.

(** ** What the gate accepts, on payloads *)

Definition opt_text (o : option string) : list string := option_list o.

(** Every text a field carries, its annotations and nested fields included. *)
Fixpoint field_texts (f : SignablePayloadField) : list string :=
  [fallback_text f; label f] ++
  match f with
  | Text _ t => [text_text t]
  | TextV2 _ t => [text_v2_text t]
  | Address _ a => [address_address a; address_name a]
  | AddressV2 _ a =>
      [address_v2_address a; address_v2_name a; address_v2_asset_label a]
      ++ opt_text (address_v2_memo a) ++ opt_text (address_v2_badge_text a)
  | Number _ n => [number_number n]
  | Amount _ a => amount_amount a :: opt_text (amount_abbreviation a)
  | AmountV2 _ a => amount_v2_amount a :: opt_text (amount_v2_abbreviation a)
  | Divider _ d => [divider_style_text (divider_style d)]
  | PreviewLayout _ p => preview_texts p
  | ListLayout _ l => list_texts l
  | Unknown _ u => [unknown_data u; unknown_explanation u]
  | Diagnostic _ d =>
      [diagnostic_domain d; diagnostic_level d; diagnostic_message d; diagnostic_rule d]
  end
with preview_texts (p : SignablePayloadFieldPreviewLayout) : list string :=
  match p with
  | FieldPreviewLayout title subtitle condensed expanded =>
      match condensed with Some l => list_texts l | None => [] end
      ++ match expanded with Some l => list_texts l | None => [] end
      ++ opt_text (text_v2_text <$> subtitle) ++ opt_text (text_v2_text <$> title)
  end
with list_texts (l : SignablePayloadFieldListLayout) : list string :=
  match l with FieldListLayout fields => concat (annotated_texts <$> fields) end
with annotated_texts (a : AnnotatedPayloadField) : list string :=
  match a with
  | Annotated f s d =>
      field_texts f ++ opt_text (static_text <$> s)
      ++ match d with
         | Some d => dynamic_id d :: dynamic_params d ++ [dynamic_field_type d]
         | None => []
         end
  end.

Definition payload_texts (p : SignablePayload) : list string :=
  concat (field_texts <$> payload_fields p)
  ++ [payload_type p] ++ opt_text (payload_subtitle p) ++ [payload_title p; payload_version p].

Lemma clean_from_weaken s : clean_from true s = true → clean_from false s = true.
Proof. destruct s as [|c s]; cbn; [done|]. rewrite !andb_true_iff. naive_solver. Qed.

Lemma clean_from_app prev s t :
  clean_from prev (s +:+ t) = clean_from prev s && clean_from (ends_backslash prev s) t.
Proof.
  revert prev; induction s as [|c s IH]; intros prev; [done|].
  rewrite str_cons_app; cbn. by rewrite IH, !andb_assoc.
Qed.

Lemma clean_suffix s t : clean (s +:+ t) = true → clean t = true.
Proof.
  unfold clean. rewrite clean_from_app. intros [_ Ht]%andb_true_iff.
  destruct (ends_backslash false s); [by apply clean_from_weaken|done].
Qed.

Lemma trim_start_suffix s : ∃ t, s = t +:+ trim_start s.
Proof.
  induction (Nat.lt_wf_0_projected String.length s) as [s _ IH].
  assert (∀ a t r, (∃ u, t = u +:+ r) → ∃ u, String a t = u +:+ r) as Hcons.
  { intros a t r [u ->]. by exists (String a u). }
  assert (∀ t, ∃ u, t = u +:+ t) as Hs by (intros t; by exists "").
  destruct s as [|a s1]; [apply Hs|]. cbn. case_match; [apply Hcons, IH; cbn; lia|].
  destruct s1 as [|b s2]; [apply Hs|]. case_match; [apply Hcons, Hcons, IH; cbn; lia|].
  destruct s2 as [|c s3]; [apply Hs|]. case_match; [apply Hcons, Hcons, Hcons, IH; cbn; lia|].
  apply Hs.
Qed.

Section payload_clean.
Context {M : SerdeMap}.

Definition entry_clean (kv : string * json) : bool := clean kv.1 && json_clean kv.2.

Lemma struct_clean l :
  NoDup (keys l) → json_clean (JObject (map_from l)) = forallb entry_clean l.
Proof. intros Hl. cbn. by rewrite (forallb_perm _ _ _ (map_from_perm l Hl)). Qed.

Lemma btree_clean m :
  btree_sorted m → json_clean (JObject (map_from m)) = forallb entry_clean m.
Proof. intros ?%btree_sorted_NoDup. by apply struct_clean. Qed.

Lemma strings_clean l : forallb json_clean (JString <$> l) = forallb clean l.
Proof. induction l; cbn; [done|]. by rewrite IHl. Qed.

Lemma btree_insert_clean k v m :
  k ∉ keys m → forallb entry_clean (btree_insert k v m) = entry_clean (k, v) && forallb entry_clean m.
Proof. intros Hk. by rewrite (forallb_perm _ _ _ (btree_insert_perm k v m Hk)). Qed.

(** Evaluates the verdicts on literal texts and splits on the others. *)
Ltac bools :=
  cbn; unfold entry_clean; cbn; rewrite ?strings_clean, ?forallb_app; cbn;
  repeat match goal with
  | |- context [clean ?s] =>
      let b := eval vm_compute in (clean s) in
      lazymatch b with
      | true => change (clean s) with true
      | _ => destruct (clean s)
      end
  | |- context [forallb ?f ?l] => destruct (forallb f l)
  end; try done.

Lemma empty_text s : is_empty_string s = true → s = "".
Proof. apply bool_decide_eq_true_1. Qed.

Lemma address_v2_clean a :
  json_clean (address_v2_to_value a) =
  forallb clean ([address_v2_address a; address_v2_name a; address_v2_asset_label a]
    ++ opt_text (address_v2_memo a) ++ opt_text (address_v2_badge_text a)).
Proof.
  destruct a as [addr name memo asset badge].
  unfold address_v2_to_value, struct_value, nonempty_entry; cbn [address_v2_address
    address_v2_name address_v2_memo address_v2_asset_label address_v2_badge_text].
  rewrite struct_clean.
  - destruct (is_empty_string name) eqn:Hn, (is_empty_string asset) eqn:Ha;
      try apply empty_text in Hn as ->; try apply empty_text in Ha as ->;
      destruct memo, badge; bools.
  - destruct (is_empty_string name), memo, (is_empty_string asset), badge; by_decision.
Qed.

Lemma static_clean s : json_clean (static_annotation_to_value s) = clean (static_text s).
Proof. unfold static_annotation_to_value, struct_value. rewrite struct_clean by by_decision. bools. Qed.

Lemma dynamic_clean d :
  json_clean (dynamic_annotation_to_value d) =
  forallb clean (dynamic_id d :: dynamic_params d ++ [dynamic_field_type d]).
Proof. unfold dynamic_annotation_to_value, struct_value. rewrite struct_clean by by_decision. bools. Qed.

Lemma annotation_keys_fresh f :
  ("StaticAnnotation" ∉ keys (serialize_to_map f)) ∧
  ("DynamicAnnotation" ∉ keys (serialize_to_map f)).
Proof.
  rewrite !keys_serialize_to_map. unfold get_expected_fields. rewrite !merge_sort_Permutation.
  destruct f; split; by_decision.
Qed.

Lemma annotation_clean f s d :
  forallb entry_clean (field_entries f) = forallb clean (field_texts f) →
  json_clean (annotated_to_value (Annotated f s d)) =
  forallb clean (annotated_texts (Annotated f s d)).
Proof.
  intros Hf. cbn [annotated_to_value annotated_texts]. unfold annotation_entries.
  rewrite btree_clean
    by (destruct s, d; eauto using btree_insert_sorted, btree_of_list_sorted).
  rewrite (btree_of_list_sorted_id (btree_of_list _)) by apply btree_of_list_sorted.
  fold (serialize_to_map f). rewrite <-(forallb_perm _ _ _ (serialize_to_map_perm f)) in Hf.
  destruct (annotation_keys_fresh f) as [HS HD].
  assert (∀ v, "DynamicAnnotation" ∉ keys (btree_insert "StaticAnnotation" v (serialize_to_map f)))
    as HD' by (intros v; rewrite elem_of_btree_insert_keys; by intros [?|?]).
  rewrite !forallb_app, <-Hf. destruct s as [s|], d as [d|];
    repeat rewrite btree_insert_clean by auto;
    generalize (forallb entry_clean (serialize_to_map f)) as b; intros b;
    unfold entry_clean; cbn [fst snd]; rewrite ?static_clean, ?dynamic_clean; bools;
    by destruct b.
Qed.

Lemma list_clean l :
  Forall (fun f => forallb entry_clean (field_entries f) = forallb clean (field_texts f))
    (signable_payload_field <$> list_fields l) →
  json_clean (list_layout_to_value l) = forallb clean (list_texts l).
Proof.
  destruct l as [l]. cbn [list_fields list_layout_to_value list_texts].
  unfold list_to_value, struct_value. rewrite struct_clean by by_decision.
  cbn. unfold entry_clean at 2; cbn. rewrite andb_true_r.
  change (clean "Fields") with true. rewrite andb_true_l. intros Hl.
  induction l as [|[f s d] l IH]; [done|]. rewrite fmap_cons, Forall_cons in Hl.
  destruct Hl as [Hf Hl]. rewrite fmap_cons; cbn [forallb concat].
  rewrite fmap_cons; cbn [concat]. rewrite forallb_app, <-annotation_clean by done.
  f_equal. by apply IH.
Qed.

Definition opt_list_value (o : option SignablePayloadFieldListLayout) : json :=
  match o with Some l => list_layout_to_value l | None => list_to_value [] end.

Definition opt_list_texts (o : option SignablePayloadFieldListLayout) : list string :=
  match o with Some l => list_texts l | None => [] end.

Lemma opt_list_clean o :
  Forall (fun f => forallb entry_clean (field_entries f) = forallb clean (field_texts f))
    (opt_fields o) →
  json_clean (opt_list_value o) = forallb clean (opt_list_texts o).
Proof.
  destruct o as [l|]; [apply list_clean|]. intros _. cbn [opt_list_value].
  unfold list_to_value, struct_value. by rewrite struct_clean by by_decision.
Qed.

Lemma text_v2_clean t : json_clean (text_v2_to_value t) = clean (text_v2_text t).
Proof. unfold text_v2_to_value, struct_value. rewrite struct_clean by by_decision. bools. Qed.

Lemma preview_clean p :
  Forall (fun f => forallb entry_clean (field_entries f) = forallb clean (field_texts f))
    (opt_fields (preview_condensed p) ++ opt_fields (preview_expanded p)) →
  json_clean (preview_layout_to_value p) = forallb clean (preview_texts p).
Proof.
  destruct p as [title subtitle condensed expanded]. rewrite Forall_app.
  cbn [preview_condensed preview_expanded preview_layout_to_value preview_texts].
  intros [HC%opt_list_clean HE%opt_list_clean].
  fold (opt_list_value condensed) (opt_list_value expanded).
  fold (opt_list_texts condensed) (opt_list_texts expanded).
  rewrite struct_clean by (destruct title, subtitle; by_decision).
  rewrite !forallb_app, <-HC, <-HE. generalize (opt_list_value condensed) (opt_list_value expanded).
  intros jc je. destruct title as [t|], subtitle as [u|];
    try (generalize (text_v2_clean t); generalize (text_v2_to_value t); intros jt Ht);
    try (generalize (text_v2_clean u); generalize (text_v2_to_value u); intros ju Hu);
    rewrite !btree_insert_clean by by_decision; cbn; unfold entry_clean; cbn [fst snd];
    rewrite ?Ht, ?Hu; destruct (json_clean jc), (json_clean je); bools.
Qed.

Lemma number_abbreviation_clean c n :
  clean (common_fallback_text c) = true →
  clean (default "" (trim_start <$> strip_prefix (number_number n) (common_fallback_text c))) = true.
Proof.
  intros Hc. destruct (strip_prefix _ _) as [rest|] eqn:E; [|done]. cbn.
  apply strip_prefix_Some in E. rewrite E in Hc. apply clean_suffix in Hc.
  destruct (trim_start_suffix rest) as [t Ht]. rewrite Ht in Hc. by apply clean_suffix in Hc.
Qed.

Lemma amount_v2_clean a :
  json_clean (amount_v2_to_value a) =
  forallb clean (amount_v2_amount a :: opt_text (amount_v2_abbreviation a)).
Proof.
  destruct a as [a [ab|]]; unfold amount_v2_to_value; cbn [amount_v2_amount amount_v2_abbreviation];
    rewrite struct_clean, !btree_insert_clean by by_decision; bools.
Qed.

Lemma number_clean c n :
  clean (common_fallback_text c) && json_clean (amount_v2_to_value (number_as_amount_v2 c n)) =
  clean (common_fallback_text c) && clean (number_number n).
Proof.
  rewrite amount_v2_clean. unfold number_as_amount_v2. cbn -[strip_prefix trim_start].
  destruct (clean (common_fallback_text c)) eqn:Hc; [|done].
  rewrite number_abbreviation_clean by done. bools.
Qed.

Ltac open_entries := cbn [forallb]; unfold entry_clean; cbn [fst snd].

Lemma field_clean f :
  forallb entry_clean (field_entries f) = forallb clean (field_texts f).
Proof.
  induction f as [f IH] using field_ind.
  destruct f as [c t|c t|c a|c a|c n|c a|c a|c d|c p|c l|c u|c d];
    cbn [field_entries field_texts]; rewrite !forallb_app;
    unfold serialize_field_variant, fallback_text, label; cbn [field_common].
  - open_entries. unfold text_to_value, struct_value. rewrite struct_clean by by_decision. bools.
  - open_entries. rewrite text_v2_clean. bools.
  - open_entries. unfold address_to_value, struct_value.
    rewrite struct_clean by by_decision. bools.
  - open_entries. rewrite address_v2_clean, !forallb_app. bools.
  - pose proof (number_clean c n) as Hn. revert Hn.
    open_entries.
    generalize (json_clean (amount_v2_to_value (number_as_amount_v2 c n))) as b. intros b.
    bools; by destruct b.
  - open_entries. unfold amount_to_value, struct_value.
    destruct a as [a [ab|]]; rewrite struct_clean by by_decision; bools.
  - open_entries. rewrite amount_v2_clean.
    destruct a as [a [ab|]]; bools.
  - open_entries. unfold divider_to_value, struct_value.
    rewrite struct_clean by by_decision. bools.
  - open_entries. rewrite preview_clean by exact IH.
    generalize (forallb clean (preview_texts p)) as b; intros b. bools; by destruct b.
  - open_entries. rewrite list_clean by exact IH.
    generalize (forallb clean (list_texts l)) as b; intros b. bools; by destruct b.
  - open_entries. unfold unknown_to_value, struct_value.
    rewrite struct_clean by by_decision. bools.
  - open_entries. unfold diagnostic_to_value, struct_value.
    destruct d as [r dom lv msg [z|]]; rewrite struct_clean by by_decision; bools.
Qed.
End payload_clean.

(** ** The gate on whole payloads *)

Lemma payload_clean {M : SerdeMap} p :
  json_clean (struct_value (payload_entries p)) = forallb clean (payload_texts p).
Proof.
  unfold struct_value. rewrite struct_clean by apply btree_sorted_NoDup, payload_entries_sorted.
  assert (∀ fs, forallb json_clean ((fun f => JObject (map_from (serialize_to_map f))) <$> fs) =
    forallb clean (concat (field_texts <$> fs))) as Hfs.
  { induction fs as [|f fs IH]; [done|]. rewrite !fmap_cons. cbn [forallb concat].
    rewrite forallb_app, IH, <-field_clean.
    rewrite btree_clean by apply btree_of_list_sorted.
    by rewrite (forallb_perm _ _ _ (serialize_to_map_perm f)). }
  destruct p as [fs ty sub t v]; unfold payload_entries, payload_texts, nonempty_entry; cbn.
  rewrite !forallb_app. unfold entry_clean at 1. cbn [fst snd json_clean]. rewrite Hfs.
  change (clean "Fields") with true. rewrite andb_true_l. f_equal.
  destruct (is_empty_string ty) eqn:Hty; [apply empty_text in Hty as ->|]; destruct sub; cbn;
    unfold entry_clean; cbn; repeat match goal with
    | |- context [clean ?s] =>
        let b := eval vm_compute in (clean s) in
        lazymatch b with true => change (clean s) with true | _ => destruct (clean s) end
    end; done.
Qed.

Lemma ascii_utf8 s : str_all is_ascii s = true → utf8_valid s = true.
Proof. induction s as [|c s IH]; cbn; [done|]. intros [-> Hs]%andb_true_iff. auto. Qed.

Lemma text_ok_ascii s : text_ok s = true → str_all is_ascii s = true.
Proof.
  unfold text_ok. intros [_ Hs]%andb_true_iff. eapply str_all_impl; [|exact Hs].
  intros c. unfold ok_char. by intros [? _]%andb_true_iff.
Qed.

Section gate.
Context {M : SerdeMap} {F : JsonFormat} {D : JsonErrorText}.

Definition payload_json_text (p : SignablePayload) : string :=
  fmt_value (sort_json_alphabetically (struct_value (payload_entries p))).

Lemma to_json_eq p : to_json p = from_utf8 (payload_json_text p).
Proof. unfold to_json. by rewrite payload_to_value_ok. Qed.

Lemma payload_json_text_ok p : text_ok (payload_json_text p) = forallb clean (payload_texts p).
Proof.
  unfold payload_json_text. destruct (token_value (sort_json_alphabetically
    (struct_value (payload_entries p)))) as [-> _].
  rewrite json_clean_sort by apply payload_value_wf. apply payload_clean.
Qed.

(** The three checks of the gate, together. *)
Lemma gate_checks s :
  (existsb (fun escape => str_contains escape s) FORBIDDEN_JSON_ESCAPES = false ∧
   str_all is_ascii s = true ∧ first_unprintable 0 s = None) ↔ text_ok s = true.
Proof.
  rewrite first_unprintable_None. unfold text_ok. rewrite andb_true_iff, negb_true_iff.
  unfold ok_char. rewrite str_all_andb, andb_true_iff.
  rewrite <-!not_true_iff_false, contains_forbidden. done.
Qed.

Lemma validate_charset_text p :
  validate_charset p = Ok () ↔ text_ok (payload_json_text p) = true.
Proof.
  unfold validate_charset. rewrite to_json_eq. unfold from_utf8.
  destruct (utf8_valid (payload_json_text p)) eqn:Hu; cbn [map_err mbind result_bind].
  - rewrite <-gate_checks. destruct (existsb _ _); [naive_solver|].
    destruct (str_all is_ascii _); cbn [negb]; [|naive_solver].
    destruct (first_unprintable _ _) as [[i c]|]; naive_solver.
  - split; [done|]. intros H%text_ok_ascii%ascii_utf8. congruence.
Qed.

Lemma validate_charset_clean p :
  validate_charset p = Ok () ↔ Forall (fun s => clean s = true) (payload_texts p).
Proof.
  rewrite validate_charset_text, payload_json_text_ok.
  generalize (payload_texts p) as l. clear. induction l as [|s l IH]; cbn.
  - split; [constructor|done].
  - by rewrite andb_true_iff, Forall_cons, IH.
Qed.
End gate.

Lemma to_json_any_map (M M' : SerdeMap) {F : JsonFormat} p : @to_json M F p = @to_json M' F p.
Proof.
  rewrite !to_json_eq. unfold payload_json_text.
  rewrite (sort_json_any_map M btree_map), (sort_json_any_map M' btree_map).
  by rewrite (payload_value_equiv M M').
Qed.

(** In the key-ordered build the signed text is the validated text. *)
Lemma payload_to_string_sorted {M : SerdeMap} `{!SortedSerdeMap M} {F : JsonFormat} p :
  payload_to_string p = to_json p.
Proof.
  unfold payload_to_string, to_json. rewrite payload_to_value_ok.
  cbn [map_err mbind result_bind].
  rewrite sort_json_id; [done|apply payload_value_wf|apply payload_value_sorted].
Qed.

(** ** Properties *)

(** C25: the charset gate accepts a payload exactly when every text in it (titles, labels,
    fallbacks, values, annotations, at any depth) is printable ASCII or line feeds and never
    has a backslash right before a letter that spells a forbidden JSON escape. *)
Theorem validate_charset_iff (M : SerdeMap) (F : JsonFormat) (D : JsonErrorText) p :
  validate_charset p = Ok () ↔ Forall (fun s => clean s = true) (payload_texts p).
Proof. apply validate_charset_clean. Qed.

(** [to_validated_json] returns a text exactly when the gate accepts the payload; the
    text is that of [to_json], holds only printable ASCII and none of the forbidden escapes. *)
Theorem to_validated_json_iff (M : SerdeMap) (F : JsonFormat) (D : JsonErrorText) p t :
  to_validated_json p = Ok t ↔
  Forall (fun s => clean s = true) (payload_texts p) ∧ to_json p = Ok t ∧
  existsb (fun escape => str_contains escape t) FORBIDDEN_JSON_ESCAPES = false ∧
  str_all is_ascii t = true ∧ first_unprintable 0 t = None.
Proof.
  unfold to_validated_json. rewrite <-validate_charset_clean, result_bind_Ok. split.
  - intros ([] & Hv & Ht%map_err_Ok). split_and!; try done;
      apply validate_charset_text, gate_checks in Hv as (? & ? & ?);
      rewrite to_json_eq in Ht; unfold from_utf8 in Ht; by destruct (utf8_valid _); simplify_eq.
  - intros (Hv & Ht & _). exists (). by rewrite Ht.
Qed.

(** The validated text of a payload does not depend on which map [serde_json] was
    built with. *)
Theorem to_json_map_independent (M M' : SerdeMap) (F : JsonFormat) p :
  @to_json M F p = @to_json M' F p.
Proof. apply to_json_any_map. Qed.

(** With the key-ordered map, the text that is signed ([serde_json::to_string]) is the
    text that was validated ([to_json]). *)
Theorem signed_text_validated (M : SerdeMap) (HM : SortedSerdeMap M) (F : JsonFormat) p :
  payload_to_string p = to_json p.
Proof. by apply payload_to_string_sorted. Qed.

Lemma signed_text_validated_witness :
  @payload_to_string btree_map compact_format sample_payload =
    @to_json btree_map compact_format sample_payload.
Proof. apply (signed_text_validated btree_map btree_map_sorted compact_format). Defined.

(** With the insertion-ordered map, the signed text of a payload can differ from the
    text that was validated. *)
Theorem signed_text_differs :
  ∃ p s t, @payload_to_string index_map compact_format p = Ok s ∧
    @to_json index_map compact_format p = Ok t ∧ s ≠ t.
Proof.
  exists sample_payload. eexists _, _. split_and!; [vm_compute; reflexivity..|]. by vm_compute.
Qed.
