(* ===== verification/Builders.v ===== *)
(** * Field builders and lint configuration

    [visualsign/src/field_builders.rs] and [visualsign/src/lint.rs]: the constructors the
    chain parsers build their fields with, the validation of number texts, and the
    severity configuration of diagnostics. *)

From S2P Require Import Prelude Json Payload Errors.

(** ** Regular expressions

    The pattern of the source is a value of [re]; the engine is an interface whose law is
    membership in the language of the pattern. *)

Inductive re : Type :=
| RNone
| REps
| RChr (P : Ascii.ascii → bool)
| RCat (r1 r2 : re)
| RAlt (r1 r2 : re)
| RStar (r : re).

Definition ROpt (r : re) : re := RAlt r REps.
Definition RPlus (r : re) : re := RCat r (RStar r).

Inductive lang : re → string → Prop :=
| lang_eps : lang REps ""
| lang_chr P c : P c = true → lang (RChr P) (String c "")
| lang_cat r1 r2 s t : lang r1 s → lang r2 t → lang (RCat r1 r2) (s +:+ t)
| lang_alt_l r1 r2 s : lang r1 s → lang (RAlt r1 r2) s
| lang_alt_r r1 r2 s : lang r2 s → lang (RAlt r1 r2) s
| lang_star_nil r : lang (RStar r) ""
| lang_star_cons r s t : lang r s → lang (RStar r) t → lang (RStar r) (s +:+ t).

Class RegexEngine : Type := {
  is_full_match : re → string → bool;
  is_full_match_lang r s : is_full_match r s = true ↔ lang r s;
}.

(** A matcher by derivatives. *)
Fixpoint re_null (r : re) : bool :=
  match r with
  | RNone | RChr _ => false
  | REps | RStar _ => true
  | RCat r1 r2 => re_null r1 && re_null r2
  | RAlt r1 r2 => re_null r1 || re_null r2
  end.

Fixpoint re_deriv (c : Ascii.ascii) (r : re) : re :=
  match r with
  | RNone | REps => RNone
  | RChr P => if P c then REps else RNone
  | RCat r1 r2 =>
      if re_null r1 then RAlt (RCat (re_deriv c r1) r2) (re_deriv c r2)
      else RCat (re_deriv c r1) r2
  | RAlt r1 r2 => RAlt (re_deriv c r1) (re_deriv c r2)
  | RStar r => RCat (re_deriv c r) (RStar r)
  end.

Fixpoint re_match (r : re) (s : string) : bool :=
  match s with
  | "" => re_null r
  | String c s => re_match (re_deriv c r) s
  end.

Lemma str_app_eq_nil s t : s +:+ t = "" → s = "" ∧ t = "".
Proof. by destruct s. Qed.

Lemma re_null_lang r : re_null r = true ↔ lang r "".
Proof.
  split.
  - induction r as [| | |r1 IH1 r2 IH2|r1 IH1 r2 IH2|r IH]; cbn; try done.
    + constructor.
    + intros [H1 H2]%andb_true_iff. apply (lang_cat r1 r2 "" ""); auto.
    + intros [H|H]%orb_true_iff; [apply lang_alt_l|apply lang_alt_r]; auto.
    + constructor.
  - intros H. remember "" as s eqn:Es.
    induction H as [| |r1 r2 s t H1 IH1 H2 IH2|r1 r2 s H IH|r1 r2 s H IH| |]; cbn; try done.
    + apply str_app_eq_nil in Es as [-> ->]. by rewrite IH1, IH2.
    + by rewrite IH.
    + by rewrite IH, orb_true_r.
Qed.

Lemma lang_star_inv r c s :
  lang (RStar r) (String c s) →
  ∃ s1 s2, s = s1 +:+ s2 ∧ lang r (String c s1) ∧ lang (RStar r) s2.
Proof.
  intros H. remember (RStar r) as r' eqn:Er. remember (String c s) as cs eqn:Es.
  revert s Es. induction H as [| | | | | |r0 s1 t H1 IH1 H2 IH2]; intros; simplify_eq.
  destruct s1 as [|c' s1].
  - by apply IH2.
  - rewrite str_cons_app in Es. simplify_eq. eauto.
Qed.

Lemma re_deriv_lang c r s : lang (re_deriv c r) s ↔ lang r (String c s).
Proof.
  revert s. induction r as [| |P|r1 IH1 r2 IH2|r1 IH1 r2 IH2|r IH]; intros s; cbn.
  - split; inversion 1.
  - split; inversion 1.
  - destruct (P c) eqn:HP; split; inversion 1; subst; try congruence.
    + by constructor.
    + constructor.
  - assert (∀ s, lang (RCat (re_deriv c r1) r2) s ↔
      ∃ s1 s2, s = s1 +:+ s2 ∧ lang r1 (String c s1) ∧ lang r2 s2) as Hcat.
    { intros u. split.
      - inversion 1; subst. eexists _, _. split; [done|]. by rewrite <-IH1.
      - intros (s1 & s2 & -> & H1 & H2). constructor; [by apply IH1|done]. }
    assert (lang (RCat r1 r2) (String c s) ↔
      (∃ s1 s2, s = s1 +:+ s2 ∧ lang r1 (String c s1) ∧ lang r2 s2)
      ∨ (lang r1 "" ∧ lang r2 (String c s))) as ->.
    { split.
      - inversion 1 as [| |? ? s1 t H1 H2| | | |]; subst. destruct s1 as [|c' s1]; [by right|].
        left. match goal with E : _ +:+ _ = String _ _ |- _ =>
          rewrite str_cons_app in E; simplify_eq end. eauto.
      - intros [(s1 & s2 & -> & H1 & H2)|[H1 H2]]; [by apply (lang_cat r1 r2 (String c s1))|].
        by apply (lang_cat r1 r2 ""). }
    pose proof (re_null_lang r1) as Hn. destruct (re_null r1).
    + split.
      * inversion 1; subst; [left; by apply Hcat|right]. split; [by apply Hn|by apply IH2].
      * intros [H|[_ H]]; [apply lang_alt_l; by apply Hcat|apply lang_alt_r; by apply IH2].
    + rewrite Hcat. naive_solver.
  - split.
    + inversion 1; subst; [apply lang_alt_l; by apply IH1|apply lang_alt_r; by apply IH2].
    + inversion 1; subst; [apply lang_alt_l; by apply IH1|apply lang_alt_r; by apply IH2].
  - split.
    + inversion 1 as [| |? ? s1 t H1 H2| | | |]; subst.
      apply (lang_star_cons r (String c s1)); [by apply IH|done].
    + intros (s1 & s2 & -> & H1 & H2)%lang_star_inv. constructor; [by apply IH|done].
Qed.

Lemma re_match_lang r s : re_match r s = true ↔ lang r s.
Proof.
  revert r; induction s as [|c s IH]; intros r; cbn; [apply re_null_lang|].
  by rewrite IH, re_deriv_lang.
Qed.

Definition derivative_engine : RegexEngine :=
  {| is_full_match := re_match; is_full_match_lang := re_match_lang |}.

(** ** Number texts *)

Definition is_sign (c : Ascii.ascii) : bool := (code c =? 45) || (code c =? 43).
Definition is_dot (c : Ascii.ascii) : bool := code c =? 46.
Definition is_zero (c : Ascii.ascii) : bool := code c =? 48.

(** [^([-+]?[0-9]+(\.[0-9]+)?|[-+]?0)$] *)
Definition SIGNED_PROPER_NUMBER_RE : re :=
  let sign := ROpt (RChr is_sign) in
  let digits := RPlus (RChr is_ascii_digit) in
  RAlt (RCat sign (RCat digits (ROpt (RCat (RChr is_dot) digits)))) (RCat sign (RChr is_zero)).

Definition signed_proper (s : string) : Prop :=
  ∃ sign int frac,
    s = sign +:+ int +:+ frac ∧
    (sign = "" ∨ sign = "-" ∨ sign = "+") ∧
    (int ≠ "" ∧ str_all is_ascii_digit int = true) ∧
    (frac = "" ∨ ∃ d, frac = "." +:+ d ∧ d ≠ "" ∧ str_all is_ascii_digit d = true).

Lemma lang_star_chr P s : lang (RStar (RChr P)) s ↔ str_all P s = true.
Proof.
  split.
  - intros H. remember (RStar (RChr P)) as r eqn:Er. revert Er.
    induction H as [| | | | | |r0 s t H1 IH1 H2 IH2]; intros; simplify_eq; [done|].
    inversion H1; subst. rewrite str_cons_app. cbn. apply andb_true_iff. split; [done|].
    by apply IH2.
  - induction s as [|c s IH]; cbn; [constructor|]. intros [Hc Hs]%andb_true_iff.
    apply (lang_star_cons _ (String c "")); [by constructor|by apply IH].
Qed.

Lemma lang_plus_chr P s : lang (RPlus (RChr P)) s ↔ s ≠ "" ∧ str_all P s = true.
Proof.
  split.
  - inversion 1 as [| |? ? s1 t H1 H2| | | |]; subst. inversion H1; subst.
    apply lang_star_chr in H2. rewrite str_cons_app. cbn. split; [done|].
    by apply andb_true_iff.
  - intros [Hne Hs]. destruct s as [|c s]; [done|]. cbn in Hs.
    apply andb_true_iff in Hs as [Hc Hs].
    apply (lang_cat _ _ (String c "")); [by constructor|by apply lang_star_chr].
Qed.

Lemma lang_sign s : lang (ROpt (RChr is_sign)) s ↔ s = "" ∨ s = "-" ∨ s = "+".
Proof.
  split.
  - inversion 1 as [| | |? ? ? H1|? ? ? H1| |]; subst; inversion H1 as [|? c Hc| | | | |]; subst; [|auto].
    right. unfold is_sign in Hc. apply orb_true_iff in Hc as [Hc|Hc]; apply Nat.eqb_eq in Hc;
      [left; by rewrite (code_inj c "-"%char Hc)|right; by rewrite (code_inj c "+"%char Hc)].
  - intros [->|[->| ->]]; [apply lang_alt_r; constructor|apply lang_alt_l; by constructor..].
Qed.

Lemma lang_frac s :
  lang (ROpt (RCat (RChr is_dot) (RPlus (RChr is_ascii_digit)))) s ↔
  s = "" ∨ ∃ d, s = "." +:+ d ∧ d ≠ "" ∧ str_all is_ascii_digit d = true.
Proof.
  split.
  - inversion 1 as [| | |? ? ? H1|? ? ? H1| |]; subst; [right|left; by inversion H1].
    inversion H1 as [| |? ? s1 t H2 H3| | | |]; subst. inversion H2 as [|? c Hc| | | | |]; subst.
    apply Nat.eqb_eq in Hc. rewrite (code_inj c "."%char Hc).
    apply lang_plus_chr in H3. by exists t.
  - intros [->|(d & -> & Hd)]; [apply lang_alt_r; constructor|apply lang_alt_l].
    apply lang_cat; [by constructor|by apply lang_plus_chr].
Qed.

Lemma number_re_lang s : lang SIGNED_PROPER_NUMBER_RE s ↔ signed_proper s.
Proof.
  split.
  - inversion 1 as [| | |? ? ? H1|? ? ? H1| |]; subst.
    + inversion H1 as [| |? ? sg t Hsg H2| | | |]; subst.
      inversion H2 as [| |? ? i f Hi Hf| | | |]; subst.
      exists sg, i, f. rewrite <-lang_sign, <-lang_frac, <-lang_plus_chr. done.
    + inversion H1 as [| |? ? sg t Hsg H2| | | |]; subst. inversion H2 as [|? c Hc| | | | |]; subst.
      apply Nat.eqb_eq in Hc. rewrite (code_inj c "0"%char Hc).
      exists sg, "0", "". rewrite <-lang_sign. rewrite str_app_nil_r. repeat split; auto.
  - intros (sg & i & f & -> & Hsg & Hi & Hf). apply lang_alt_l.
    apply lang_cat; [by apply lang_sign|].
    apply lang_cat; [by apply lang_plus_chr|by apply lang_frac].
Qed.

(** ** The builders *)

Section builders.
Context {E : RegexEngine}.

Definition validate_number_string (number : string) : result VisualSignError bool :=
  if is_empty_string number then Err (EmptyField number)
  else if is_full_match SIGNED_PROPER_NUMBER_RE number then Ok true
  else Err (InvalidNumberField number).

Definition create_text_field (label text : string) : result VisualSignError AnnotatedPayloadField :=
  Ok (Annotated (TextV2 (Common text label) (FieldTextV2 text)) None None).

Definition create_number_field (label number unit : string)
    : result VisualSignError AnnotatedPayloadField :=
  _ ← validate_number_string number;
  let fallback_text := if is_empty_string unit then number else number +:+ " " +:+ unit in
  Ok (Annotated (Number (Common fallback_text label) (FieldNumber number)) None None).

Definition create_amount_field (label amount abbreviation : string)
    : result VisualSignError AnnotatedPayloadField :=
  _ ← validate_number_string amount;
  if is_empty_string abbreviation then Err (EmptyField abbreviation)
  else
    let fallback_text := amount +:+ " " +:+ abbreviation in
    Ok (Annotated (AmountV2 (Common fallback_text label)
                     (FieldAmountV2 amount (Some abbreviation))) None None).

Definition create_address_field (label address : string)
    (name memo asset_label badge_text : option string)
    : result VisualSignError AnnotatedPayloadField :=
  Ok (Annotated
        (AddressV2 (Common address label)
           (FieldAddressV2 address (default "" name) memo (default "" asset_label) badge_text))
        None None).

(** [format!("{byte:02x}")] *)
Definition hex_byte (b : byte) : string :=
  let n := Z.to_nat (byte_to_Z b) in
  String (hex_digit (n / 16)) (String (hex_digit (n mod 16)) "").

Definition default_hex_representation (data : bytes) : string :=
  str_join "" (hex_byte <$> data).

Definition create_raw_data_field (data : bytes) (optional_fallback_string : option string)
    : result VisualSignError AnnotatedPayloadField :=
  let raw_data_fallback_string :=
    default (default_hex_representation data) optional_fallback_string in
  Ok (Annotated (TextV2 (Common raw_data_fallback_string "Raw Data")
                   (FieldTextV2 raw_data_fallback_string)) None None).

Definition annotate_field (field : SignablePayloadField) : AnnotatedPayloadField :=
  Annotated field None None.

(** Builds the fields of a list in order and stops at the first that cannot be built. *)
Definition all_fields (l : list (result VisualSignError AnnotatedPayloadField))
    : result VisualSignError (list AnnotatedPayloadField) := collect_results id l.

(** Plain fields, as the parsers write them out: the text is its own fallback. *)
Definition text_v2 (label text : string) : SignablePayloadField :=
  TextV2 (Common text label) (FieldTextV2 text).

Definition address_v2 (label text : string) : SignablePayloadField :=
  AddressV2 (Common text label) (FieldAddressV2 text "" None "" None).

Definition amount_v2 (label amount : string) : SignablePayloadField :=
  AmountV2 (Common amount label) (FieldAmountV2 amount None).

Definition list_layout (fields : list SignablePayloadField) : SignablePayloadFieldListLayout :=
  FieldListLayout (annotate_field <$> fields).

Definition create_preview_layout (title subtitle : string) (fields : list AnnotatedPayloadField)
    : AnnotatedPayloadField :=
  Annotated
    (PreviewLayout (Common subtitle title)
       (FieldPreviewLayout (Some (FieldTextV2 title)) (Some (FieldTextV2 subtitle))
          None (Some (FieldListLayout fields))))
    None None.
End builders.

(** ** Lint severities *)

Inductive Severity : Type := SevOk | SevWarn | SevError | SevAllow.

#[export] Instance Severity_eq_dec : EqDecision Severity.
Proof. solve_decision. Defined.

Definition severity_as_str (s : Severity) : string :=
  match s with SevOk => "ok" | SevWarn => "warn" | SevError => "error" | SevAllow => "allow" end.

Record LintConfig := MkLintConfig {
  overrides : gmap string Severity;
  report_all_rules : bool;
}.

Definition LintConfig_default : LintConfig := MkLintConfig ∅ true.

Definition severity_for (c : LintConfig) (rule : string) (dflt : Severity) : Severity :=
  default dflt (overrides c !! rule).

Definition should_report_ok (c : LintConfig) (rule : string) : bool :=
  if negb (report_all_rules c) then false
  else match overrides c !! rule with Some SevAllow => false | _ => true end.

(** The field; the source also writes a log line for warnings and errors. *)
Definition create_diagnostic_field (rule domain : string) (level : Severity) (message : string)
    (instruction_index : option Z) : AnnotatedPayloadField :=
  let level_str := severity_as_str level in
  Annotated
    (Diagnostic (Common (level_str +:+ ": " +:+ message) rule)
       (FieldDiagnostic rule domain level_str message instruction_index))
    None None.

(** ** What the builders make *)

Section builder_facts.
Context {E : RegexEngine}.

Lemma validate_number_string_ok n : validate_number_string n = Ok true ↔ signed_proper n.
Proof.
  unfold validate_number_string, is_empty_string. case_bool_decide as Hn.
  - subst. split; [done|]. intros (sg & i & f & E1 & _ & [Hi _] & _).
    by destruct sg, i.
  - rewrite <-number_re_lang, <-is_full_match_lang. destruct (is_full_match _ _); naive_solver.
Qed.

Lemma create_number_field_ok label n u a :
  create_number_field label n u = Ok a ↔
  signed_proper n ∧
  a = annotate_field
        (Number (Common (if is_empty_string u then n else n +:+ " " +:+ u) label) (FieldNumber n)).
Proof.
  unfold create_number_field. rewrite result_bind_Ok. split.
  - intros ([] & Hv & [= <-]); [by apply validate_number_string_ok in Hv|].
    unfold validate_number_string in Hv. repeat case_match; congruence.
  - intros [Hn ->]. exists true. split; [by apply validate_number_string_ok|done].
Qed.

Lemma trim_start_space s : trim_start (" " +:+ s) = trim_start s.
Proof. done. Qed.

(** The unit a number is built with is what the wire abbreviation shows. *)
Lemma number_field_abbreviation n u lbl :
  number_as_amount_v2 (Common (if is_empty_string u then n else n +:+ " " +:+ u) lbl) (FieldNumber n) =
  FieldAmountV2 n (Some (trim_start u)).
Proof.
  unfold number_as_amount_v2; cbn [number_number common_fallback_text].
  unfold is_empty_string. case_bool_decide as Hu.
  - subst. assert (strip_prefix n n = Some "") as ->; [|done].
    apply strip_prefix_Some. by rewrite str_app_nil_r.
  - by rewrite strip_prefix_app.
Qed.
End builder_facts.

(** ** Properties *)

(** A number text is accepted exactly when it is an optional sign, digits, and an
    optional fraction of a dot and digits, for every correct regex engine. *)
Theorem number_text_grammar (E : RegexEngine) n :
  validate_number_string n = Ok true ↔ signed_proper n.
Proof. apply validate_number_string_ok. Qed.

(** Leading zeros are accepted, against the comment at the pattern. *)
Theorem leading_zeros_accepted (E : RegexEngine) : validate_number_string "007" = Ok true.
Proof.
  apply validate_number_string_ok. exists "", "007", "". split_and!; try done; by left.
Qed.

(** A number field keeps its number on the wire and shows the unit it was built with,
    without its leading white space, as the abbreviation. *)
Theorem create_number_field_wire (E : RegexEngine) lbl n u a :
  create_number_field lbl n u = Ok a →
  ∃ common number, signable_payload_field a = Number common number ∧ common_label common = lbl ∧
    number_as_amount_v2 common number = FieldAmountV2 n (Some (trim_start u)).
Proof.
  intros [_ ->]%create_number_field_ok. eexists _, _.
  split_and!; [reflexivity|done|apply number_field_abbreviation].
Qed.

Lemma create_number_field_wire_witness :
  ∃ common number, @create_number_field derivative_engine "Fee" "0.5" "SOL" =
      Ok (annotate_field (Number common number)) ∧
    number_as_amount_v2 common number = FieldAmountV2 "0.5" (Some "SOL").
Proof.
  destruct (@create_number_field derivative_engine "Fee" "0.5" "SOL") as [a|e] eqn:E;
    [|vm_compute in E; discriminate E].
  destruct (create_number_field_wire derivative_engine _ _ _ a E) as (common & number & Ha & _ & Hw).
  exists common, number. split; [|exact Hw]. vm_compute in E. injection E as <-. cbn in Ha.
  injection Ha as <- <-. reflexivity.
Defined.
