(* ===== verification/Render.v ===== *)
(** * What the wallet can render ([visualsign/src/anchorage_render.rs])

    The walk over a payload that lists every field the wallet cannot show, against the
    support matrix stated as a predicate on fields. *)

From S2P Require Import Prelude Json Payload Errors.

Inductive AnchorageUnsupportedReason : Type :=
| UnsupportedFieldType
| ListLayoutAsStandaloneField
| ContainsUnsupportedNestedFields.

Definition reason_as_str (r : AnchorageUnsupportedReason) : string :=
  match r with
  | UnsupportedFieldType => "unsupported field type"
  | ListLayoutAsStandaloneField => "list_layout used as a standalone field"
  | ContainsUnsupportedNestedFields => "contains unsupported nested fields"
  end.

Record AnchorageRenderFinding := MkFinding {
  finding_path : string;
  finding_label : string;
  finding_field_type : string;
  finding_reason : AnchorageUnsupportedReason;
}.

Definition ANCHORAGE_RENDERABLE_LEAF_TYPES : list string :=
  ["text_v2"; "address_v2"; "amount_v2"; "diagnostic"].

Section render.
Context {M : SerdeMap}.

(** The [Type] a field has on the wire: the map entry, when it is a string. *)
Definition wire_type (f : SignablePayloadField) : string :=
  match assoc "Type" (serialize_to_map f) with
  | Some (JString t) => t
  | _ => field_type f
  end.

Definition finding (path : string) (f : SignablePayloadField) (r : AnchorageUnsupportedReason)
    : AnchorageRenderFinding := MkFinding path (label f) (wire_type f) r.

(** One list of a preview: every child is walked, then the verdicts are combined. *)
Definition check_list
    (check_field : SignablePayloadField → string → list AnchorageRenderFinding →
                   bool * list AnchorageRenderFinding)
    (prefix : string) :=
  fix go (index : nat) (fields : list AnnotatedPayloadField) (descendants_ok : bool)
      (out : list AnchorageRenderFinding) : bool * list AnchorageRenderFinding :=
    match fields with
    | [] => (descendants_ok, out)
    | Annotated child _ _ :: fields =>
        let '(ok, out) := check_field child (prefix +:+ show_nat index +:+ "]") out in
        go (S index) fields (descendants_ok && ok) out
    end.

Fixpoint check_field (f : SignablePayloadField) (path : string)
    (out : list AnchorageRenderFinding) : bool * list AnchorageRenderFinding :=
  match f with
  | PreviewLayout _ (FieldPreviewLayout _ _ condensed expanded) =>
      let '(descendants_ok, out) :=
        match condensed with
        | Some (FieldListLayout l) =>
            check_list check_field (path +:+ ".Condensed.Fields[") 0 l true out
        | None => (true, out)
        end in
      let '(descendants_ok, out) :=
        match expanded with
        | Some (FieldListLayout l) =>
            check_list check_field (path +:+ ".Expanded.Fields[") 0 l descendants_ok out
        | None => (descendants_ok, out)
        end in
      if descendants_ok then (true, out)
      else (false, out ++ [finding path f ContainsUnsupportedNestedFields])
  | ListLayout _ _ => (false, out ++ [finding path f ListLayoutAsStandaloneField])
  | _ =>
      if bool_decide (wire_type f ∈ ANCHORAGE_RENDERABLE_LEAF_TYPES) then (true, out)
      else (false, out ++ [finding path f UnsupportedFieldType])
  end.

Definition anchorage_render_findings (p : SignablePayload) : list AnchorageRenderFinding :=
  foldl (fun findings '(index, f) =>
           (check_field f ("Fields[" +:+ show_nat index +:+ "]") findings).2)
    [] (enumerate (payload_fields p)).

Definition validate_anchorage_wallet_renderable (p : SignablePayload)
    : result VisualSignError () :=
  let findings := anchorage_render_findings p in
  match findings with
  | [] => Ok ()
  | _ =>
      let summary :=
        str_join "; "
          ((fun f => finding_path f +:+ " [" +:+ finding_field_type f +:+ "] ("
                     +:+ reason_as_str (finding_reason f) +:+ ")") <$> findings) in
      Err (ValidationError
             ("payload contains " +:+ show_nat (length findings)
              +:+ " field(s) the Anchorage wallet cannot render: " +:+ summary))
  end.

(** ** The support matrix *)

Definition leaf_renderable (f : SignablePayloadField) : bool :=
  match f with
  | TextV2 _ _ | AddressV2 _ _ | AmountV2 _ _ | Number _ _ | Diagnostic _ _ => true
  | _ => false
  end.

Fixpoint renderable (f : SignablePayloadField) : bool :=
  match f with
  | PreviewLayout _ (FieldPreviewLayout _ _ condensed expanded) =>
      match condensed with
      | Some (FieldListLayout l) => forallb (fun a => match a with Annotated g _ _ => renderable g end) l
      | None => true
      end &&
      match expanded with
      | Some (FieldListLayout l) => forallb (fun a => match a with Annotated g _ _ => renderable g end) l
      | None => true
      end
  | _ => leaf_renderable f
  end.

(** [occurs path f path' g]: the wallet meets field [g] at [path'] when it walks [f] from
    [path]; only previews are entered. *)
Inductive occurs : string → SignablePayloadField → string → SignablePayloadField → Prop :=
| occurs_here path f : occurs path f path f
| occurs_condensed path c t s l e i child path' g :
    list_fields l !! i = Some child →
    occurs ((path +:+ ".Condensed.Fields[") +:+ show_nat i +:+ "]") (signable_payload_field child)
      path' g →
    occurs path (PreviewLayout c (FieldPreviewLayout t s (Some l) e)) path' g
| occurs_expanded path c t s o l i child path' g :
    list_fields l !! i = Some child →
    occurs ((path +:+ ".Expanded.Fields[") +:+ show_nat i +:+ "]") (signable_payload_field child)
      path' g →
    occurs path (PreviewLayout c (FieldPreviewLayout t s o (Some l))) path' g.

Definition unsupported_reason (f : SignablePayloadField) : AnchorageUnsupportedReason :=
  match f with
  | PreviewLayout _ _ => ContainsUnsupportedNestedFields
  | ListLayout _ _ => ListLayoutAsStandaloneField
  | _ => UnsupportedFieldType
  end.

Lemma wire_type_eq f :
  wire_type f = match f with Number _ _ => "amount_v2" | _ => field_type f end.
Proof.
  unfold wire_type.
  rewrite (assoc_perm "Type" (serialize_to_map f) (field_entries f));
    [by destruct f|apply btree_sorted_NoDup, btree_of_list_sorted|apply serialize_to_map_perm].
Qed.

Lemma leaf_wire_type f :
  match f with PreviewLayout _ _ | ListLayout _ _ => false | _ => true end = true →
  bool_decide (wire_type f ∈ ANCHORAGE_RENDERABLE_LEAF_TYPES) = leaf_renderable f.
Proof. rewrite wire_type_eq. by destruct f. Qed.

(** The unrenderable fields met in the walk of [f] from [path]. *)
Definition reports (path : string) (f : SignablePayloadField) (x : AnchorageRenderFinding) : Prop :=
  ∃ path' g, occurs path f path' g ∧ renderable g = false ∧
             x = finding path' g (unsupported_reason g).

(** What one walk does: it returns the verdict and appends exactly the reports. *)
Definition walk_spec (f : SignablePayloadField) : Prop :=
  ∀ path out, ∃ new,
    check_field f path out = (renderable f, out ++ new) ∧ ∀ x, x ∈ new ↔ reports path f x.

Definition annotated_renderable (a : AnnotatedPayloadField) : bool :=
  match a with Annotated g _ _ => renderable g end.

Lemma check_list_cons check prefix index f s d l ok out :
  check_list check prefix index (Annotated f s d :: l) ok out =
  let '(b, out) := check f (prefix +:+ show_nat index +:+ "]") out in
  check_list check prefix (S index) l (ok && b) out.
Proof. done. Qed.

Lemma check_list_spec prefix l :
  Forall walk_spec (signable_payload_field <$> l) →
  ∀ index ok out, ∃ new,
    check_list check_field prefix index l ok out =
      (ok && forallb annotated_renderable l, out ++ new) ∧
    ∀ x, x ∈ new ↔ ∃ i child, l !! i = Some child ∧
      reports (prefix +:+ show_nat (index + i) +:+ "]") (signable_payload_field child) x.
Proof.
  induction l as [|[f s d] l IH]; rewrite ?fmap_cons, ?Forall_cons.
  { intros _ index ok out. exists []. cbn. rewrite andb_true_r, app_nil_r. split; [done|].
    intros x. set_solver. }
  intros [Hf Hl] index ok out.
  destruct (Hf (prefix +:+ show_nat index +:+ "]") out) as (new1 & E1 & Hn1).
  destruct (IH Hl (S index) (ok && renderable f) (out ++ new1)) as (new2 & E2 & Hn2).
  exists (new1 ++ new2). cbn [signable_payload_field] in E1, Hn1. rewrite check_list_cons, E1, E2.
  cbn [forallb annotated_renderable]. rewrite andb_assoc, app_assoc. split; [done|].
  intros x. rewrite elem_of_app, Hn1, Hn2. split.
  - intros [H|(i & child & Hi & H)].
    + exists 0, (Annotated f s d). by rewrite Nat.add_0_r.
    + exists (S i), child. by rewrite Nat.add_succ_r.
  - intros ([|i] & child & Hi & H); cbn in Hi.
    + simplify_eq. rewrite Nat.add_0_r in H. by left.
    + right. exists i, child. by rewrite Nat.add_succ_r in H.
Qed.

Lemma reports_leaf path f x :
  match f with PreviewLayout _ _ => false | _ => true end = true →
  reports path f x ↔ renderable f = false ∧ x = finding path f (unsupported_reason f).
Proof.
  intros Hf. split.
  - intros (path' & g & Ho & Hr & ->). by inversion Ho; subst.
  - intros [Hr ->]. eexists _, _. split; [constructor|done].
Qed.

Lemma walk_leaf f (r : bool) path out :
  match f with PreviewLayout _ _ => false | _ => true end = true →
  renderable f = r →
  ∃ new, (if r then (true, out) else
      (false, out ++ [finding path f (unsupported_reason f)])) = (renderable f, out ++ new) ∧
    ∀ x, x ∈ new ↔ reports path f x.
Proof.
  intros Hf Hr. setoid_rewrite (reports_leaf path f _ Hf). rewrite Hr.
  destruct r; [exists []; rewrite app_nil_r|exists [finding path f (unsupported_reason f)]];
    (split; [done|]); intros x; set_solver.
Qed.

Definition opt_list_reports (prefix : string) (o : option SignablePayloadFieldListLayout)
    (x : AnchorageRenderFinding) : Prop :=
  ∃ l i child, o = Some l ∧ list_fields l !! i = Some child ∧
    reports (prefix +:+ show_nat i +:+ "]") (signable_payload_field child) x.

Definition opt_list_renderable (o : option SignablePayloadFieldListLayout) : bool :=
  match o with Some (FieldListLayout l) => forallb annotated_renderable l | None => true end.

Lemma check_opt_list_spec prefix o :
  Forall walk_spec (opt_fields o) →
  ∀ ok out, ∃ new,
    match o with
    | Some (FieldListLayout l) => check_list check_field prefix 0 l ok out
    | None => (ok, out)
    end = (ok && opt_list_renderable o, out ++ new) ∧
    ∀ x, x ∈ new ↔ opt_list_reports prefix o x.
Proof.
  destruct o as [[l]|]; cbn.
  - intros Hl ok out. destruct (check_list_spec prefix l Hl 0 ok out) as (new & E & Hn).
    exists new. split; [exact E|]. intros x. rewrite Hn. unfold opt_list_reports. split.
    + intros (i & child & Hi & H). by exists (FieldListLayout l), i, child.
    + intros (l' & i & child & [= <-] & Hi & H). by exists i, child.
  - intros _ ok out. exists []. rewrite andb_true_r, app_nil_r. split; [done|].
    intros x. split; [set_solver|]. by intros (l & i & child & [=] & _).
Qed.

Lemma reports_preview path c t s o e x :
  reports path (PreviewLayout c (FieldPreviewLayout t s o e)) x ↔
  opt_list_reports (path +:+ ".Condensed.Fields[") o x ∨
  opt_list_reports (path +:+ ".Expanded.Fields[") e x ∨
  (opt_list_renderable o && opt_list_renderable e = false ∧
   x = finding path (PreviewLayout c (FieldPreviewLayout t s o e)) ContainsUnsupportedNestedFields).
Proof.
  split.
  - intros (path' & g & Ho & Hr & ->). inversion Ho; subst.
    + right; right. by split.
    + left. eexists _, _, _. split_and!; [done..|]. by eexists _, _.
    + right; left. eexists _, _, _. split_and!; [done..|]. by eexists _, _.
  - intros [(l & i & child & -> & Hi & path' & g & Ho & Hr & ->)
           |[(l & i & child & -> & Hi & path' & g & Ho & Hr & ->)|[Hr ->]]].
    + eexists path', g. split; [|done]. by eapply occurs_condensed.
    + eexists path', g. split; [|done]. by eapply occurs_expanded.
    + eexists _, _. split; [constructor|]. by split.
Qed.

Lemma check_field_spec f : walk_spec f.
Proof.
  induction f as [f IH] using field_ind. intros path out.
  destruct f as [c t|c t|c a|c a|c n|c a|c a|c d|c [t s o e]|c l|c u|c d];
    try (cbn [check_field]; rewrite leaf_wire_type by done;
         match goal with |- context [finding path ?f _] =>
           exact (walk_leaf f (leaf_renderable f) path out eq_refl eq_refl) end).
  - cbn [children preview_condensed preview_expanded] in IH. rewrite Forall_app in IH. destruct IH as [HC HE].
    destruct (check_opt_list_spec (path +:+ ".Condensed.Fields[") o HC true out) as (n1 & E1 & H1).
    destruct (check_opt_list_spec (path +:+ ".Expanded.Fields[") e HE
      (opt_list_renderable o) (out ++ n1)) as (n2 & E2 & H2).
    cbn [check_field]. rewrite E1. cbn [andb]. rewrite E2.
    change (renderable (PreviewLayout c (FieldPreviewLayout t s o e)))
      with (opt_list_renderable o && opt_list_renderable e).
    setoid_rewrite reports_preview.
    destruct (opt_list_renderable o && opt_list_renderable e).
    + exists (n1 ++ n2). rewrite app_assoc. split; [done|]. intros x.
      rewrite elem_of_app, H1, H2. naive_solver.
    + eexists ((n1 ++ n2) ++ [_]). rewrite !app_assoc. split; [done|]. intros x.
      rewrite !elem_of_app, H1, H2, list_elem_of_singleton. naive_solver.
  - cbn [check_field]. by apply (walk_leaf (ListLayout c l) false path out).
Qed.
End render.

Section findings.
Context {M : SerdeMap}.

Lemma findings_fold l : ∀ k out,
  ∃ new,
    foldl (fun findings '(index, f) =>
             (check_field f ("Fields[" +:+ show_nat index +:+ "]") findings).2)
      out (imap (fun i f => (k + i, f)) l) = out ++ new ∧
    (∀ x, x ∈ new ↔ ∃ i f, l !! i = Some f ∧
       reports ("Fields[" +:+ show_nat (k + i) +:+ "]") f x).
Proof.
  induction l as [|f l IH]; intros k out.
  { exists []. rewrite app_nil_r. split; [done|]. intros x. set_solver. }
  cbn [imap foldl]. destruct (check_field_spec f ("Fields[" +:+ show_nat (k + 0) +:+ "]") out)
    as (n1 & E1 & H1). rewrite E1. cbn [snd].
  destruct (IH (S k) (out ++ n1)) as (n2 & E2 & H2).
  exists (n1 ++ n2). rewrite app_assoc, <-E2. split.
  { f_equal. apply imap_ext. intros i g _. cbn. by rewrite Nat.add_succ_r. }
  intros x. rewrite elem_of_app, H1, H2. split.
  - intros [H|(i & g & Hi & H)]; [by exists 0, f|].
    exists (S i), g. by rewrite Nat.add_succ_r.
  - intros ([|i] & g & Hi & H); cbn in Hi; [simplify_eq; by left|].
    right. exists i, g. by rewrite Nat.add_succ_r in H.
Qed.

Lemma findings_spec p x :
  x ∈ anchorage_render_findings p ↔
  ∃ i f, payload_fields p !! i = Some f ∧ reports ("Fields[" +:+ show_nat i +:+ "]") f x.
Proof.
  destruct (findings_fold (payload_fields p) 0 []) as (new & E & H).
  unfold anchorage_render_findings, enumerate. cbn in E, H. rewrite <-H, <-E. done.
Qed.

(** A field below a renderable field is renderable. *)
Lemma occurs_renderable path f path' g :
  occurs path f path' g → renderable f = true → renderable g = true.
Proof.
  assert (∀ l i child, forallb annotated_renderable l = true → l !! i = Some child →
    renderable (signable_payload_field child) = true) as Hlist.
  { intros l i [h s d] Hl Hi%list_elem_of_lookup_2%list_elem_of_In.
    exact (proj1 (forallb_forall _ _) Hl _ Hi). }
  induction 1 as [|path c t s [l] e i child path' g Hi _ IH|path c t s o [l] i child path' g Hi _ IH];
    [done|..]; intros [Ho He]%andb_true_iff; by eapply IH, Hlist.
Qed.

Lemma no_reports path f : (∀ x, ~ reports path f x) ↔ renderable f = true.
Proof.
  split.
  - intros Hn. destruct (renderable f) eqn:Hr; [done|]. exfalso.
    apply (Hn (finding path f (unsupported_reason f))).
    eexists _, _. split; [constructor|done].
  - intros Hr x (path' & g & Ho & Hg & _). apply occurs_renderable in Ho; congruence.
Qed.

Lemma findings_nil p :
  anchorage_render_findings p = [] ↔ Forall (fun f => renderable f = true) (payload_fields p).
Proof.
  rewrite Forall_lookup. split.
  - intros Hnil i f Hi. apply (no_reports ("Fields[" +:+ show_nat i +:+ "]")). intros x Hx.
    assert (x ∈ anchorage_render_findings p) as Hin by (apply findings_spec; eauto).
    rewrite Hnil in Hin. set_solver.
  - intros Hall. destruct (anchorage_render_findings p) as [|x l] eqn:E; [done|]. exfalso.
    assert (x ∈ anchorage_render_findings p) as Hx by (rewrite E; left).
    apply findings_spec in Hx as (i & f & Hi & Hx).
    by eapply no_reports in Hx; [|by eapply Hall].
Qed.
End findings.

(** ** Properties *)

(** The findings are exactly the fields the wallet meets and cannot render, each with
    its path and reason; only previews are entered. *)
Theorem findings_exact (M : SerdeMap) p x :
  x ∈ anchorage_render_findings p ↔
  ∃ i f path g, payload_fields p !! i = Some f ∧
    occurs ("Fields[" +:+ show_nat i +:+ "]") f path g ∧ renderable g = false ∧
    x = finding path g (unsupported_reason g).
Proof.
  rewrite findings_spec. split.
  - intros (i & f & Hi & path & g & Ho). by exists i, f, path, g.
  - intros (i & f & path & g & Hi & Ho). exists i, f. split; [done|]. by exists path, g.
Qed.

(** A payload passes the wallet check exactly when every field of it is renderable:
    a supported leaf, or a preview all of whose nested fields are. *)
Theorem wallet_renderable_iff (M : SerdeMap) p :
  validate_anchorage_wallet_renderable p = Ok () ↔
  Forall (fun f => renderable f = true) (payload_fields p).
Proof.
  rewrite <-findings_nil. unfold validate_anchorage_wallet_renderable.
  destruct (anchorage_render_findings p); naive_solver.
Qed.
