(* ===== verification/External.v ===== *)
(** * What the parser uses of other crates

    SHA-256, the hex codec and the P-256 keys are not part of the repository: they are
    interfaces whose laws are their documented behaviour, each with a small instance that
    shows the laws can hold. *)

From S2P Require Import Prelude Json.

#[local] Unset Program Cases.

(** ** SHA-256 ([sha2], [qos_crypto]) *)

Class Sha256 : Type := {
  sha_256 : bytes → bytes;
  sha_256_length b : length (sha_256 b) = 32;
}.

(** Two inputs with one digest. *)
Definition sha_collision `{Sha256} : Prop := ∃ x y, x ≠ y ∧ sha_256 x = sha_256 y.

Program Definition truncation_hash : Sha256 :=
  {| sha_256 b := take 32 (reverse b ++ replicate 32 Byte.x00) |}.
Next Obligation.
  intros b. cbv beta. rewrite length_take, length_app, length_replicate. lia.
Qed.

(** ** Hex digits ([hex], [qos_hex]) *)

Inductive FromHexError : Type :=
| InvalidHexCharacter (c : Ascii.ascii) (index : nat)
| OddLength
| InvalidStringLength.

#[export] Instance FromHexError_eq_dec : EqDecision FromHexError.
Proof. solve_decision. Defined.

(** Lower-case hex text of a byte string. *)
Definition hex_of_byte (b : byte) : string :=
  let n := Z.to_nat (byte_to_Z b) in
  String (hex_digit (n / 16)) (String (hex_digit (n mod 16)) "").

Definition hex_of_bytes (bs : bytes) : string := str_concat (hex_of_byte <$> bs).

Definition hex_val (c : Ascii.ascii) : option Z :=
  let n := Z.of_nat (code c) in
  if is_ascii_digit c then Some (n - 48)%Z
  else if (97 <=? code c) && (code c <=? 102) then Some (n - 87)%Z
  else if (65 <=? code c) && (code c <=? 70) then Some (n - 55)%Z
  else None.

Class HexCodec : Type := {
  hex_encode : bytes → string;
  hex_decode : string → result FromHexError bytes;
  hex_encode_lower bs : hex_encode bs = hex_of_bytes bs;
  hex_decode_odd s : Nat.odd (String.length s) = true → hex_decode s = Err OddLength;
  hex_decode_digits s :
    Nat.odd (String.length s) = false → str_all is_ascii_hexdigit s = true →
    ∃ bs, hex_decode s = Ok bs ∧ String.length s = 2 * length bs;
  hex_decode_bad s :
    Nat.odd (String.length s) = false → str_all is_ascii_hexdigit s = false →
    ∃ c i, hex_decode s = Err (InvalidHexCharacter c i);
  hex_decode_encode bs : hex_decode (hex_encode bs) = Ok bs;
}.

(** A codec with this behaviour. *)
Fixpoint hex_pairs (i : nat) (s : string) : result FromHexError bytes :=
  match s with
  | "" => Ok []
  | String a "" => Err OddLength
  | String a (String b s) =>
      match hex_val a with
      | None => Err (InvalidHexCharacter a i)
      | Some x =>
          match hex_val b with
          | None => Err (InvalidHexCharacter b (S i))
          | Some y => bs ← hex_pairs (2 + i) s; Ok (byte_of_Z (16 * x + y) :: bs)
          end
      end
  end.

Definition hex_decode_ref (s : string) : result FromHexError bytes :=
  if Nat.odd (String.length s) then Err OddLength else hex_pairs 0 s.

Lemma hex_val_digit c : is_ascii_hexdigit c = bool_decide (is_Some (hex_val c)).
Proof. ascii_cases c; reflexivity. Qed.

Lemma hex_val_Some c : is_ascii_hexdigit c = true → is_Some (hex_val c).
Proof. rewrite hex_val_digit. apply bool_decide_eq_true_1. Qed.

Lemma hex_val_None c : is_ascii_hexdigit c = false → hex_val c = None.
Proof. rewrite hex_val_digit. intros H%bool_decide_eq_false. by apply eq_None_not_Some. Qed.

Lemma str_pair_ind (P : string → Prop) :
  P "" → (∀ a, P (String a "")) → (∀ a b s, P s → P (String a (String b s))) → ∀ s, P s.
Proof.
  intros H0 H1 H2. fix IH 1. intros [|a [|b s]]; [done|apply H1|apply H2, IH].
Qed.

Lemma hex_pairs_digits s : ∀ i,
  Nat.odd (String.length s) = false → str_all is_ascii_hexdigit s = true →
  ∃ bs, hex_pairs i s = Ok bs ∧ String.length s = 2 * length bs.
Proof.
  induction s as [|a|a b s IH] using str_pair_ind; intros i; [by exists []|done|].
  change (Nat.odd (String.length (String a (String b s)))) with (Nat.odd (String.length s)).
  cbn. rewrite !andb_true_iff. intros Ho (Ha & Hb & Hs).
  destruct (hex_val_Some a Ha) as [x ->], (hex_val_Some b Hb) as [y ->].
  destruct (IH (S (S i)) Ho Hs) as (bs & -> & Hl). eexists. split; [done|]. cbn. lia.
Qed.

Lemma hex_pairs_bad s : ∀ i,
  Nat.odd (String.length s) = false → str_all is_ascii_hexdigit s = false →
  ∃ c j, hex_pairs i s = Err (InvalidHexCharacter c j).
Proof.
  induction s as [|a|a b s IH] using str_pair_ind; intros i; [done|done|].
  change (Nat.odd (String.length (String a (String b s)))) with (Nat.odd (String.length s)).
  cbn. intros Ho Hbad. destruct (is_ascii_hexdigit a) eqn:Ha.
  - destruct (hex_val_Some a Ha) as [x ->]. destruct (is_ascii_hexdigit b) eqn:Hb.
    + destruct (hex_val_Some b Hb) as [y ->].
      destruct (IH (S (S i)) Ho Hbad) as (c & j & ->). by eexists _, _.
    + rewrite (hex_val_None b Hb). by eexists _, _.
  - rewrite (hex_val_None a Ha). by eexists _, _.
Qed.

Lemma hex_val_hex_digit n : n < 16 → hex_val (hex_digit n) = Some (Z.of_nat n).
Proof. intros. do 16 (destruct n as [|n]; [done|]). lia. Qed.

Lemma hex_pairs_encode bs : ∀ i, hex_pairs i (hex_of_bytes bs) = Ok bs.
Proof.
  induction bs as [|b bs IH]; intros i; [done|].
  unfold hex_of_bytes. rewrite fmap_cons. cbn [str_concat]. unfold hex_of_byte at 1.
  set (n := Z.to_nat (byte_to_Z b)). pose proof (byte_to_Z_range b) as Hb.
  rewrite !str_cons_app, str_nil_app. cbn [hex_pairs].
  rewrite !hex_val_hex_digit
    by (first [apply Nat.Div0.div_lt_upper_bound | apply Nat.mod_upper_bound]; lia).
  fold (hex_of_bytes bs). rewrite IH. cbn [mbind result_bind]. do 2 f_equal.
  trans (byte_of_Z (byte_to_Z b)); [|apply byte_of_to_Z]. f_equal.
  assert (byte_to_Z b = Z.of_nat n) as -> by (unfold n; lia).
  pose proof (Nat.div_mod_eq n 16). lia.
Qed.

Lemma length_hex_of_bytes bs : String.length (hex_of_bytes bs) = 2 * length bs.
Proof.
  unfold hex_of_bytes. induction bs as [|b bs IH]; [done|].
  rewrite fmap_cons. cbn [str_concat]. rewrite length_str_app, IH. cbn. lia.
Qed.

Program Definition hex_ref : HexCodec :=
  {| hex_encode := hex_of_bytes; hex_decode := hex_decode_ref |}.
Next Obligation. done. Qed.
Next Obligation. intros s Hs. unfold hex_decode_ref. by rewrite Hs. Qed.
Next Obligation. intros s Ho Hs. unfold hex_decode_ref. rewrite Ho. by apply hex_pairs_digits. Qed.
Next Obligation. intros s Ho Hs. unfold hex_decode_ref. rewrite Ho. by apply hex_pairs_bad. Qed.
Next Obligation.
  intros bs. unfold hex_decode_ref. rewrite length_hex_of_bytes, Nat.odd_mul.
  apply hex_pairs_encode.
Qed.

(** ** P-256 keys ([qos_p256])

    [p256_pub] is what a signing pair publishes; a signature made with a pair verifies
    under its public key, and a public key is determined by its bytes. *)
Class P256 : Type := {
  p256_pair : Type;
  p256_public : Type;
  p256_public_key : p256_pair → p256_public;
  p256_to_bytes : p256_public → bytes;
  p256_from_bytes : bytes → option p256_public;
  p256_sign : p256_pair → bytes → option bytes;
  p256_verify : p256_public → bytes → bytes → bool;
  p256_sign_verify k m sig :
    p256_sign k m = Some sig → p256_verify (p256_public_key k) m sig = true;
  p256_from_to_bytes pk : p256_from_bytes (p256_to_bytes pk) = Some pk;
}.

Program Definition toy_p256 : P256 := {|
  p256_pair := byte; p256_public := byte; p256_public_key k := k;
  p256_to_bytes k := [k]; p256_from_bytes b := head b;
  p256_sign k m := Some (k :: m); p256_verify k m sig := bool_decide (sig = k :: m) |}.
Next Obligation. intros k m sig [= <-]. by apply bool_decide_eq_true. Qed.
Next Obligation. done. Qed.

(** ** secp256k1 keys ([k256])

    The decoders return the [Display] text of their error. A DER signature and an
    uncompressed point read back, and a signature verifies under its maker's key. *)
Class Secp256k1 : Type := {
  k256_signature : Type;
  encoded_point : Type;
  verifying_key : Type;
  signing_key : Type;
  signature_from_der : bytes → result string k256_signature;
  signature_to_der : k256_signature → bytes;
  encoded_point_from_bytes : bytes → result string encoded_point;
  from_encoded_point : encoded_point → result string verifying_key;
  to_encoded_point : verifying_key → bytes;
  verify_prehash : verifying_key → bytes → k256_signature → result string ();
  signing_key_from_bytes : bytes → result string signing_key;
  verifying_key_of : signing_key → verifying_key;
  sign_prehash : signing_key → bytes → result string k256_signature;
  from_to_der s : signature_from_der (signature_to_der s) = Ok s;
  from_to_point k :
    ∃ p, encoded_point_from_bytes (to_encoded_point k) = Ok p ∧ from_encoded_point p = Ok k;
  sign_verify_prehash k h s :
    sign_prehash k h = Ok s → verify_prehash (verifying_key_of k) h s = Ok ();
}.

(** A key that is its own bytes and signs by prefixing them. *)
Program Definition toy_secp256k1 : Secp256k1 := {|
  k256_signature := bytes; encoded_point := byte; verifying_key := byte; signing_key := byte;
  signature_from_der b := Ok b; signature_to_der s := s;
  encoded_point_from_bytes b := match b with [k] => Ok k | _ => Err "bad point" end;
  from_encoded_point p := Ok p; to_encoded_point k := [k];
  verify_prehash k h s := if decide (s = k :: h) then Ok () else Err "bad signature";
  signing_key_from_bytes b := match b with k :: _ => Ok k | [] => Err "bad seed" end;
  verifying_key_of k := k; sign_prehash k h := Ok (k :: h) |}.
Next Obligation. done. Qed.
Next Obligation. intros k. by exists k. Qed.
Next Obligation. intros k h s [= <-]. by rewrite decide_True. Qed.

(** ** ed25519 keys ([ed25519-dalek])

    A verifying key is the 32 bytes it was read from, when they name a point; a signature is
    any 64 bytes. What a signing key signs verifies under its verifying key. *)
Class Ed25519 : Type := {
  ed_verifying_key : Type;
  ed_signing_key : Type;
  ed_key_from_bytes : bytes → result string ed_verifying_key;
  ed_key_to_bytes : ed_verifying_key → bytes;
  ed_verify_strict : ed_verifying_key → bytes → bytes → result string ();
  ed_signing_key_from_seed : bytes → ed_signing_key;
  ed_verifying_key_of : ed_signing_key → ed_verifying_key;
  ed_sign : ed_signing_key → bytes → bytes;
  ed_key_length k : length (ed_key_to_bytes k) = 32;
  ed_key_from_to k : ed_key_from_bytes (ed_key_to_bytes k) = Ok k;
  ed_key_to_from b k : ed_key_from_bytes b = Ok k → ed_key_to_bytes k = b;
  ed_sign_length k m : length (ed_sign k m) = 64;
  ed_sign_verify k m : ed_verify_strict (ed_verifying_key_of k) m (ed_sign k m) = Ok ();
}.

Definition toy_ed_key (k : byte) : bytes := k :: replicate 31 Byte.x00.
Definition toy_ed_sign (k : byte) (m : bytes) : bytes := take 64 (k :: m ++ replicate 64 Byte.x00).

(** A key of one byte that signs by showing itself and the message. *)
Program Definition toy_ed25519 : Ed25519 := {|
  ed_verifying_key := byte; ed_signing_key := byte;
  ed_key_from_bytes b :=
    match b with
    | k :: _ => if decide (b = toy_ed_key k) then Ok k else Err "bad key"
    | [] => Err "bad key"
    end;
  ed_key_to_bytes := toy_ed_key;
  ed_verify_strict k m s := if decide (s = toy_ed_sign k m) then Ok () else Err "bad signature";
  ed_signing_key_from_seed b := match b with k :: _ => k | [] => Byte.x00 end;
  ed_verifying_key_of k := k; ed_sign := toy_ed_sign |}.
Next Obligation. done. Qed.
Next Obligation. intros k. unfold toy_ed_key. by rewrite decide_True. Qed.
Next Obligation. intros [|k b] k'; [done|]. cbv beta iota. case_decide; [by intros [= <-]|done]. Qed.
Next Obligation.
  intros k m. cbv beta. unfold toy_ed_sign. rewrite length_take. cbn [length].
  rewrite length_app, length_replicate. lia.
Qed.
Next Obligation. intros k m. cbv beta. by rewrite decide_True. Qed.
