(* ===== verification/DecimalText.v ===== *)
(** * Numbers and letters as text

    What the components use of the standard library on text: parsing of unsigned integers,
    padding and trimming of decimal texts, the number a decimal text stands for, and upper
    case. *)

From S2P Require Import Prelude Json Payload Errors Charset External.

(** ** Parsing *)

Definition U16_MAX : Z := 2 ^ 16 - 1.
Definition U64_MAX : Z := 2 ^ 64 - 1.

(** [char::to_digit] for a radix of at most 16. *)
Definition to_digit (radix : Z) (c : Ascii.ascii) : option Z :=
  match hex_val c with
  | Some v => if decide (v < radix)%Z then Some v else None
  | None => None
  end.

(** [from_str_radix] of an unsigned type with the given greatest value, with the texts of
    its error; a leading plus sign is accepted, [parse] is the radix 10. *)
Fixpoint radix_digits (radix max acc : Z) (s : string) : result string Z :=
  match s with
  | "" => Ok acc
  | String c s =>
      match to_digit radix c with
      | Some v =>
          let m := (acc * radix)%Z in
          if decide (max < m)%Z then Err "number too large to fit in target type"
          else
            let n := (m + v)%Z in
            if decide (max < n)%Z then Err "number too large to fit in target type"
            else radix_digits radix max n s
      | None => Err "invalid digit found in string"
      end
  end.

Definition from_str_radix (radix max : Z) (s : string) : result string Z :=
  match s with
  | "" => Err "cannot parse integer from empty string"
  | String "+" "" => Err "invalid digit found in string"
  | String "+" s => radix_digits radix max 0 s
  | _ => radix_digits radix max 0 s
  end.

Definition uint_from_str (max : Z) (s : string) : result string Z := from_str_radix 10 max s.

Lemma to_digit_range radix c v : to_digit radix c = Some v → (0 ≤ v < radix)%Z.
Proof.
  unfold to_digit. destruct (hex_val c) as [w|] eqn:Hw; [|done]. case_decide; [|done].
  intros [= <-]. split; [|done]. revert Hw. unfold hex_val, is_ascii_digit.
  repeat (destruct (_ && _) eqn:Hc;
    [apply andb_true_iff in Hc as [Hc%Nat.leb_le _]; intros [= <-]; lia|clear Hc]). done.
Qed.

(** The number a text of digits spells in a radix, behind [acc]; other characters count
    as zero. *)
Fixpoint radix_value (radix acc : Z) (s : string) : Z :=
  match s with
  | "" => acc
  | String c s => radix_value radix (acc * radix + default 0 (to_digit radix c)) s
  end%Z.

Lemma radix_value_ge radix acc s : (1 ≤ radix → 0 ≤ acc → acc ≤ radix_value radix acc s)%Z.
Proof.
  intros Hr. revert acc; induction s as [|c s IH]; intros acc Ha; cbn [radix_value]; [done|].
  assert (0 ≤ default 0 (to_digit radix c))%Z.
  { destruct (to_digit radix c) as [v|] eqn:Hv; [|done]. apply to_digit_range in Hv. cbn. lia. }
  etrans; [|apply IH]; nia.
Qed.

(** Parsing accepts exactly the digit texts whose value fits, and returns the value. *)
Lemma radix_digits_Ok radix max s : ∀ acc n,
  (1 ≤ radix → 0 ≤ acc ≤ max →
   radix_digits radix max acc s = Ok n ↔
   str_all (fun c => bool_decide (is_Some (to_digit radix c))) s = true ∧
   n = radix_value radix acc s ∧ n ≤ max)%Z.
Proof.
  induction s as [|c s IH]; intros acc n Hr Ha; cbn [radix_digits str_all radix_value].
  { naive_solver lia. }
  destruct (to_digit radix c) as [v|] eqn:Hv; [|naive_solver].
  apply to_digit_range in Hv. rewrite bool_decide_true by done.
  change (default 0 (Some v))%Z with v. rewrite andb_true_l.
  set (m := (acc * radix + v)%Z). assert (acc * radix ≤ m)%Z by lia.
  assert (m ≤ radix_value radix m s)%Z by (apply radix_value_ge; nia).
  destruct (decide (max < m)%Z) as [Hm|Hm].
  - split; [|intros (_ & -> & ?); lia]. cbv zeta.
    by case_decide.
  - cbv zeta. rewrite decide_False by lia. apply IH; nia.
Qed.

Lemma from_str_radix_range radix max s n :
  (1 ≤ radix → 0 ≤ max → from_str_radix radix max s = Ok n → 0 ≤ n ≤ max)%Z.
Proof.
  intros Hr H0 Hs.
  assert (∃ t, radix_digits radix max 0 t = Ok n) as [t Ht]
    by (unfold from_str_radix in Hs; repeat case_match; try done; by eexists).
  apply radix_digits_Ok in Ht as (_ & -> & ?); [|lia..].
  split; [by apply radix_value_ge|done].
Qed.

Lemma uint_from_str_range max s n :
  (0 ≤ max)%Z → uint_from_str max s = Ok n → (0 ≤ n ≤ max)%Z.
Proof. intros. by apply (from_str_radix_range 10 max s). Qed.

(** ** Padding and trimming *)

(** [n] in decimal, with leading zeros up to [w] digits. *)
Fixpoint pad_left (w : nat) (s : string) : string :=
  match w with
  | O => s
  | S w => if decide (String.length s < S w)%nat then String "0" (pad_left w s) else s
  end.

(** [str::trim_end_matches] with one character. *)
Fixpoint strip_trailing (c : Ascii.ascii) (s : string) : string :=
  match s with
  | "" => ""
  | String a s =>
      let t := strip_trailing c s in
      if decide (a = c ∧ t = "") then "" else String a t
  end.

(** ** Upper case *)

Definition upper_ascii (c : Ascii.ascii) : Ascii.ascii :=
  if in_range 97 122 c then Ascii.ascii_of_nat (code c - 32) else c.

(** [str::to_uppercase], as far as comparing the result with an ASCII text can tell: the
    ASCII letters, and the other characters whose upper case is ASCII, which are the dotless
    i, the long s, the sharp s and the Latin ligatures. *)
Definition upper2 (a b : Ascii.ascii) : option string :=
  let eq2 x y := (code a =? x) && (code b =? y) in
  if eq2 196 177 then Some "I" else if eq2 197 191 then Some "S"
  else if eq2 195 159 then Some "SS" else None.

Definition upper3 (a b c : Ascii.ascii) : option string :=
  if (code a =? 239) && (code b =? 172) then
    ["FF"; "FI"; "FL"; "FFI"; "FFL"; "ST"; "ST"] !! (code c - 128)
  else None.

Fixpoint to_uppercase (s : string) : string :=
  match s with
  | "" => ""
  | String a s1 =>
      match s1 with
      | String b s2 =>
          match upper2 a b with
          | Some u => u +:+ to_uppercase s2
          | None =>
              match s2 with
              | String c s3 =>
                  match upper3 a b c with
                  | Some u => u +:+ to_uppercase s3
                  | None => String (upper_ascii a) (to_uppercase s1)
                  end
              | "" => String (upper_ascii a) (to_uppercase s1)
              end
          end
      | "" => String (upper_ascii a) ""
      end
  end.

(** [str::ends_with]. *)
Fixpoint ends_with (suffix s : string) : bool :=
  bool_decide (s = suffix) || match s with "" => false | String _ s => ends_with suffix s end.

(** ** The value of a decimal text *)

(** The number a digit text spells, behind [acc]. *)
Fixpoint dec_value (acc : Z) (s : string) : Z :=
  match s with
  | "" => acc
  | String c s => dec_value (10 * acc + (Z.of_nat (code c) - 48)) s
  end.

Lemma dec_value_app acc s t : dec_value acc (s +:+ t) = dec_value (dec_value acc s) t.
Proof.
  revert acc; induction s as [|c s IH]; intros acc; [done|].
  rewrite str_cons_app. cbn [dec_value]. apply IH.
Qed.

Lemma pretty_N_char_value x :
  (x < 10)%N → (Z.of_nat (code (pretty_N_char x)) - 48 = Z.of_N x)%Z.
Proof. intros Hx. destruct x as [|p]; [done|]. do 4 (destruct p as [p|p|]; try done; try lia). Qed.

Lemma pretty_N_go_value x s : dec_value 0 (pretty_N_go x s) = dec_value (Z.of_N x) s.
Proof.
  revert s. induction (N.lt_wf_0 x) as [x _ IH]; intros s.
  destruct (decide (0 < x)%N) as [Hx|Hx]; [|by assert (x = 0)%N as -> by lia].
  rewrite pretty_N_go_step, IH by (done || by apply N.div_lt). cbn [dec_value].
  rewrite pretty_N_char_value by (apply N.mod_lt; lia). f_equal.
  pose proof (N.div_mod x 10 ltac:(lia)). lia.
Qed.

Lemma pretty_N_go_length d x s :
  (x < 10 ^ N.of_nat d)%N → String.length (pretty_N_go x s) ≤ d + String.length s.
Proof.
  revert x s; induction d as [|d IH]; intros x s Hx.
  { cbn in Hx. by assert (x = 0)%N as -> by lia. }
  destruct (decide (0 < x)%N) as [Hx0|Hx0]; [|assert (x = 0)%N as -> by lia; rewrite pretty_N_go_0; lia].
  rewrite pretty_N_go_step by done. etrans; [apply IH|cbn; lia].
  apply N.Div0.div_lt_upper_bound. rewrite Nat2N.inj_succ, N.pow_succ_r' in Hx. lia.
Qed.

Lemma show_Z_go z : (0 < z)%Z → show_Z z = pretty_N_go (Z.to_N z) "".
Proof. intros Hz. unfold show_Z. destruct z; [lia|done|lia]. Qed.

Lemma dec_value_show z : (0 ≤ z)%Z → dec_value 0 (show_Z z) = z.
Proof.
  intros Hz. destruct (decide (z = 0)%Z) as [->|Hn]; [done|].
  rewrite show_Z_go, pretty_N_go_value by lia. cbn. lia.
Qed.

Lemma length_show_Z d z : (0 < z < 10 ^ Z.of_nat d)%Z → String.length (show_Z z) ≤ d.
Proof.
  intros Hz. rewrite show_Z_go by lia. etrans; [apply (pretty_N_go_length d)|cbn; lia].
  apply N2Z.inj_lt. rewrite N2Z.inj_pow, nat_N_Z, Z2N.id by lia. lia.
Qed.

Lemma pad_left_length w s : String.length s ≤ w → String.length (pad_left w s) = w.
Proof.
  induction w as [|w IH]; cbn [pad_left]; [lia|]. intros Hs.
  case_decide; [cbn; rewrite IH; lia|lia].
Qed.

Lemma pad_left_value w s : dec_value 0 (pad_left w s) = dec_value 0 s.
Proof. induction w as [|w IH]; cbn [pad_left]; [done|]. by case_decide. Qed.

Lemma pad_left_digits w s :
  str_all is_ascii_digit s = true → str_all is_ascii_digit (pad_left w s) = true.
Proof. intros Hs. induction w as [|w IH]; cbn [pad_left]; [done|]. by case_decide. Qed.

Fixpoint zeros (n : nat) : string := match n with O => "" | S n => String "0" (zeros n) end.

Lemma dec_value_zeros n acc : dec_value acc (zeros n) = (acc * 10 ^ Z.of_nat n)%Z.
Proof.
  revert acc; induction n as [|n IH]; intros acc; cbn [zeros dec_value]; [by rewrite Z.mul_1_r|].
  change (Z.of_nat (code "0") - 48)%Z with 0%Z.
  rewrite IH, Nat2Z.inj_succ, Z.pow_succ_r by lia. lia.
Qed.

Lemma strip_trailing_zeros s :
  ∃ n, s = strip_trailing "0" s +:+ zeros n ∧
    String.length s = String.length (strip_trailing "0" s) + n.
Proof.
  induction s as [|c s (n & Hs & Hl)]; [by exists 0|]. cbn [strip_trailing]. case_decide as Hc.
  - destruct Hc as [-> Ht]. exists (S n). rewrite Ht in Hs, Hl. split; [by rewrite Hs at 1|].
    cbn in *. lia.
  - exists n. rewrite str_cons_app, <-Hs. split; [done|]. cbn. lia.
Qed.

Lemma strip_trailing_all P c s :
  str_all P s = true → str_all P (strip_trailing c s) = true.
Proof.
  induction s as [|a s IH]; [done|]. cbn [str_all strip_trailing].
  intros [Ha Hs]%andb_true_iff. case_decide; [done|]. cbn [str_all]. by rewrite Ha, IH.
Qed.

(** The whole and the fractional part of a decimal text. *)
Fixpoint split_dot (s : string) : string * option string :=
  match s with
  | "" => ("", None)
  | String c s =>
      if decide (c = "."%char) then ("", Some s)
      else let '(w, f) := split_dot s in (String c w, f)
  end.

(** The number of units of [10 ^ -decimals] that a decimal text stands for. *)
Definition read_units (decimals : N) (t : string) : Z :=
  let '(w, f) := split_dot t in
  (dec_value 0 w * 10 ^ Z.of_N decimals +
   match f with
   | Some f => dec_value 0 f * 10 ^ (Z.of_N decimals - Z.of_nat (String.length f))
   | None => 0
   end)%Z.

Lemma split_dot_digits w t :
  str_all is_ascii_digit w = true →
  split_dot w = (w, None) ∧ split_dot (w +:+ "." +:+ t) = (w, Some t).
Proof.
  induction w as [|c w IH]; [done|]. cbn [str_all]. intros [Hc Hw]%andb_true_iff.
  destruct (IH Hw) as [IH1 IH2]. rewrite str_cons_app. cbn [split_dot].
  assert (c ≠ "."%char) as Hdot by (intros ->; discriminate Hc).
  rewrite !decide_False by done. by rewrite IH1, IH2.
Qed.

Lemma show_Z_nonempty z : (0 ≤ z)%Z → show_Z z ≠ "".
Proof.
  intros Hz E. pose proof (dec_value_show z Hz) as Hv. rewrite E in Hv. cbn in Hv. by subst.
Qed.

(** The decimal text of a number parses to it. *)
Lemma radix_value_dec acc s :
  str_all is_ascii_digit s = true → radix_value 10 acc s = dec_value acc s.
Proof.
  revert acc; induction s as [|c s IH]; intros acc; cbn [str_all radix_value dec_value]; [done|].
  intros [Hc Hs]%andb_true_iff. rewrite IH by done. f_equal.
  assert (default 0 (to_digit 10 c) = Z.of_nat (code c) - 48)%Z as ->; [|lia].
  unfold to_digit, hex_val. rewrite Hc. unfold is_ascii_digit in Hc.
  apply andb_true_iff in Hc as [Hl%Nat.leb_le Hu%Nat.leb_le]. rewrite decide_True by lia. done.
Qed.

Lemma digit_to_digit c : is_ascii_digit c = true → bool_decide (is_Some (to_digit 10 c)) = true.
Proof. by ascii_cases c. Qed.

Lemma uint_from_str_show max z : (0 ≤ z ≤ max)%Z → uint_from_str max (show_Z z) = Ok z.
Proof.
  intros Hz. pose proof (show_nonneg_digits z ltac:(lia)) as Hd.
  assert (radix_digits 10 max 0 (show_Z z) = Ok z) as E.
  { apply radix_digits_Ok; [lia..|]. rewrite radix_value_dec, dec_value_show by (done || lia).
    split; [|lia]. eapply str_all_impl; [apply digit_to_digit|done]. }
  pose proof (show_Z_nonempty z ltac:(lia)) as Hn. unfold uint_from_str, from_str_radix.
  destruct (show_Z z) as [|c s]; [done|]. rewrite <-E. cbn [str_all] in Hd.
  apply andb_true_iff in Hd as [Hc _]. revert Hc. by ascii_cases c.
Qed.
