(* ===== verification/Encodings.v ===== *)
(** * Input encodings ([visualsign/src/encodings.rs]) and relative times
    ([visualsign/src/time_fmt.rs]) *)

From S2P Require Import Prelude Json External.

Inductive SupportedEncodings : Type := Base64 | Hex.

#[export] Instance SupportedEncodings_eq_dec : EqDecision SupportedEncodings.
Proof. solve_decision. Defined.

Definition strip_hex_prefix (value : string) : string :=
  match strip_prefix "0x" value with
  | Some body => body
  | None => default value (strip_prefix "0X" value)
  end.

Definition split_hex_prefix (value : string) : option string :=
  match strip_prefix "0x" value with
  | Some body => Some body
  | None => strip_prefix "0X" value
  end.

Definition detect (data : string) : SupportedEncodings :=
  if str_all is_ascii_hexdigit (strip_hex_prefix data) then Hex else Base64.

Definition encoding_as_str (e : SupportedEncodings) : string :=
  match e with Base64 => "base64" | Hex => "hex" end.

(** [str::to_lowercase], as far as comparing the result with an ASCII text can tell: ASCII
    letters, and U+212A, the one other character whose lower case is an ASCII letter. *)
Definition lower_ascii (c : Ascii.ascii) : Ascii.ascii :=
  if (65 <=? code c) && (code c <=? 90) then Ascii.ascii_of_nat (code c + 32) else c.

Fixpoint to_lowercase (s : string) : string :=
  match s with
  | "" => ""
  | String a s1 =>
      match s1 with
      | String b (String c s3) =>
          if (code a =? 226) && (code b =? 132) && (code c =? 170) then String "k" (to_lowercase s3)
          else String (lower_ascii a) (to_lowercase s1)
      | _ => String (lower_ascii a) (to_lowercase s1)
      end
  end.

Fixpoint to_ascii_lowercase (s : string) : string :=
  match s with "" => "" | String c s => String (lower_ascii c) (to_ascii_lowercase s) end.

Definition eq_ignore_ascii_case (a b : string) : bool :=
  bool_decide (to_ascii_lowercase a = to_ascii_lowercase b).

Definition encoding_from_str (s : string) : result string SupportedEncodings :=
  let l := to_lowercase s in
  if decide (l = "base64") then Ok Base64
  else if decide (l = "hex") then Ok Hex
  else Err ("Unsupported encoding format: " +:+ s +:+ ". Supported formats are: base64, hex").

Inductive DecodeHexArrayError : Type :=
| HexError (e : FromHexError)
| LengthError (expected got : nat).

#[export] Instance DecodeHexArrayError_eq_dec : EqDecision DecodeHexArrayError.
Proof. solve_decision. Defined.

Section decode.
Context {H : HexCodec}.

Definition decode_hex (value : string) : result FromHexError bytes :=
  hex_decode (strip_hex_prefix value).

Definition decode_hex_array (N : nat) (value : string) : result DecodeHexArrayError bytes :=
  bs ← map_err HexError (decode_hex value);
  if decide (length bs = N) then Ok bs else Err (LengthError N (length bs)).

(** The [Display] text, over the text of the codec's error. *)
Definition show_decode_hex_array_error (show_hex : FromHexError → string)
    (e : DecodeHexArrayError) : string :=
  match e with
  | HexError e => "hex: " +:+ show_hex e
  | LengthError expected got =>
      "length: expected " +:+ show_nat expected +:+ " bytes, got " +:+ show_nat got
  end.

Lemma split_hex_prefix_Some s t :
  split_hex_prefix s = Some t ↔ s = "0x" +:+ t ∨ s = "0X" +:+ t.
Proof.
  unfold split_hex_prefix. destruct (strip_prefix "0x" s) as [u|] eqn:E.
  - apply strip_prefix_Some in E as ->. split.
    + intros [= ->]. by left.
    + intros [Heq|Heq]; [|by simplify_eq]. by apply (inj (String.append "0x")) in Heq as ->.
  - rewrite strip_prefix_Some. split; [by right|]. intros [Heq|?]; [|done].
    apply strip_prefix_Some in Heq. congruence.
Qed.

Lemma strip_hex_prefix_split s : strip_hex_prefix s = default s (split_hex_prefix s).
Proof. unfold strip_hex_prefix, split_hex_prefix. by destruct (strip_prefix "0x" s). Qed.

Lemma strip_hex_prefix_prefixed p s :
  p = "0x" ∨ p = "0X" → strip_hex_prefix (p +:+ s) = s.
Proof.
  intros Hp. rewrite strip_hex_prefix_split.
  assert (split_hex_prefix (p +:+ s) = Some s) as ->; [|done].
  apply split_hex_prefix_Some. destruct Hp as [-> | ->]; auto.
Qed.

(** Hex text carries no prefix of its own. *)
Lemma strip_hex_prefix_digits s :
  str_all is_ascii_hexdigit s = true → strip_hex_prefix s = s.
Proof.
  intros Hs. rewrite strip_hex_prefix_split.
  destruct (split_hex_prefix s) as [t|] eqn:E; [|done].
  apply split_hex_prefix_Some in E as [-> | ->]; cbn in Hs; done.
Qed.

Lemma hex_encode_inj data data' : hex_encode data = hex_encode data' → data = data'.
Proof. intros Eq. pose proof (hex_decode_encode data) as Hd. rewrite Eq, hex_decode_encode in Hd. congruence. Qed.

Lemma hex_of_bytes_digits bs : str_all is_ascii_hexdigit (hex_of_bytes bs) = true.
Proof.
  unfold hex_of_bytes. induction bs as [|b bs IH]; [done|].
  rewrite fmap_cons. cbn [str_concat]. rewrite str_all_app, IH, andb_true_r.
  pose proof (byte_to_Z_range b). unfold hex_of_byte. cbn [str_all].
  rewrite !hex_digit_ok
    by (first [apply Nat.Div0.div_lt_upper_bound | apply Nat.mod_upper_bound]; lia). done.
Qed.

Lemma decode_hex_encode p bs :
  p = "" ∨ p = "0x" ∨ p = "0X" → decode_hex (p +:+ hex_encode bs) = Ok bs.
Proof.
  intros Hp. unfold decode_hex. rewrite <-(hex_decode_encode bs). f_equal.
  destruct Hp as [-> |Hp]; [|by apply strip_hex_prefix_prefixed].
  apply strip_hex_prefix_digits. rewrite hex_encode_lower. apply hex_of_bytes_digits.
Qed.

Lemma decode_hex_Ok_digits s bs :
  decode_hex s = Ok bs →
  str_all is_ascii_hexdigit (strip_hex_prefix s) = true ∧
  String.length (strip_hex_prefix s) = 2 * length bs.
Proof.
  unfold decode_hex. generalize (strip_hex_prefix s) as t. intros t Ht.
  destruct (Nat.odd (String.length t)) eqn:Ho; [by rewrite hex_decode_odd in Ht|].
  destruct (str_all is_ascii_hexdigit t) eqn:Hd.
  - destruct (hex_decode_digits t Ho Hd) as (bs' & E & Hl). split; congruence.
  - destruct (hex_decode_bad t Ho Hd) as (c & i & E). congruence.
Qed.

Lemma decode_hex_array_Ok N s bs :
  decode_hex_array N s = Ok bs ↔ decode_hex s = Ok bs ∧ length bs = N.
Proof.
  unfold decode_hex_array. rewrite result_bind_Ok. setoid_rewrite map_err_Ok. split.
  - intros (bs' & Hs & Hb). case_decide; by simplify_eq.
  - intros [Hs Hl]. exists bs. by rewrite decide_True.
Qed.
End decode.

(** ** Relative times *)

Section time.
(** [DateTime::from_timestamp_millis] followed by [format]: [None] out of range. *)
Context (chrono_format : Z → option string).

Definition format_timestamp_ms (ms : Z) : string :=
  default "invalid timestamp" (chrono_format ms).

Definition SEC : Z := 1000.
Definition MIN : Z := 60 * SEC.
Definition HOUR : Z := 60 * MIN.
Definition DAY : Z := 24 * HOUR.
Definition MONTH : Z := 30 * DAY.

(** The count, the unit, its length and whether the text says "about". *)
Definition time_unit (abs_ms : Z) : Z * string * Z * bool :=
  if decide (abs_ms < MIN)%Z then (abs_ms `div` SEC, "second", SEC, false)%Z
  else if decide (abs_ms < HOUR)%Z then (abs_ms `div` MIN, "minute", MIN, false)%Z
  else if decide (abs_ms < DAY)%Z then (abs_ms `div` HOUR, "hour", HOUR, true)%Z
  else if decide (abs_ms < MONTH)%Z then (abs_ms `div` DAY, "day", DAY, true)%Z
  else (abs_ms `div` MONTH, "month", MONTH, true)%Z.

Definition format_relative_ms (ms now_ms : Z) : option string :=
  match chrono_format ms with
  | None => None
  | Some _ =>
      let diff_ms := (ms - now_ms)%Z in
      let abs_ms := Z.abs diff_ms in
      let future := bool_decide (0 < diff_ms)%Z in
      if decide (abs_ms < SEC)%Z then Some "just now"
      else
        let '(n, unit, _, approx) := time_unit abs_ms in
        let plural := if decide (n = 1)%Z then "" else "s" in
        let approx_word := if (approx : bool) then "about " else "" in
        Some (if future
              then "in " +:+ approx_word +:+ show_Z n +:+ " " +:+ unit +:+ plural
              else approx_word +:+ show_Z n +:+ " " +:+ unit +:+ plural +:+ " ago")
  end.

(** The count is the whole number of units in the distance, and never zero. *)
Lemma time_unit_bounds abs_ms n unit len approx :
  (SEC ≤ abs_ms)%Z → time_unit abs_ms = (n, unit, len, approx) →
  (1 ≤ n ∧ n * len ≤ abs_ms < (n + 1) * len)%Z.
Proof.
  intros Hs. unfold time_unit.
  assert (0 < SEC ∧ 0 < MIN ∧ 0 < HOUR ∧ 0 < DAY ∧ 0 < MONTH)%Z as (?&?&?&?&?) by done.
  assert (∀ l, 0 < l → l ≤ abs_ms →
    1 ≤ abs_ms `div` l ∧ abs_ms `div` l * l ≤ abs_ms < (abs_ms `div` l + 1) * l)%Z as Hdiv.
  { intros l Hl Hle. pose proof (Z.div_mod abs_ms l). pose proof (Z.mod_pos_bound abs_ms l Hl).
    pose proof (Z.div_le_lower_bound abs_ms l 1 Hl). nia. }
  repeat case_decide; intros [= <- <- <- <-]; apply Hdiv; lia.
Qed.
End time.

(** ** Properties *)

(** Bytes written as hex read back, bare or behind either prefix, and are detected as
    hex. *)
Theorem hex_round_trip (H : HexCodec) p bs :
  p ∈ [""; "0x"; "0X"] →
  decode_hex (p +:+ hex_encode bs) = Ok bs ∧ detect (p +:+ hex_encode bs) = Hex.
Proof.
  intros Hp. assert (p = "" ∨ p = "0x" ∨ p = "0X") as Hp' by set_solver.
  split; [by apply decode_hex_encode|]. unfold detect.
  assert (strip_hex_prefix (p +:+ hex_encode bs) = hex_encode bs) as ->.
  { destruct Hp' as [-> |Hp']; [|by apply strip_hex_prefix_prefixed].
    apply strip_hex_prefix_digits. rewrite hex_encode_lower. apply hex_of_bytes_digits. }
  by rewrite hex_encode_lower, hex_of_bytes_digits.
Qed.

Lemma hex_round_trip_witness :
  @decode_hex hex_ref ("0X" +:+ "00ff") = Ok [Byte.x00; Byte.xff].
Proof. apply (hex_round_trip hex_ref "0X" [Byte.x00; Byte.xff]). by_decision. Defined.

(** A fixed-size decode succeeds only on exactly [2 N] hex digits behind an optional
    prefix, and then returns [N] bytes. *)
Theorem decode_hex_array_exact (H : HexCodec) N s bs :
  decode_hex_array N s = Ok bs →
  length bs = N ∧ String.length (strip_hex_prefix s) = 2 * N ∧
  str_all is_ascii_hexdigit (strip_hex_prefix s) = true.
Proof. intros [[Hd Hl]%decode_hex_Ok_digits <-]%decode_hex_array_Ok. done. Qed.

Lemma decode_hex_array_exact_witness :
  String.length (strip_hex_prefix "0x00ff") = 2 * 2 ∧
  @decode_hex_array hex_ref 2 "0x00ff" = Ok [Byte.x00; Byte.xff].
Proof.
  assert (@decode_hex_array hex_ref 2 "0x00ff" = Ok [Byte.x00; Byte.xff]) as E by reflexivity.
  split; [apply (decode_hex_array_exact hex_ref _ _ _ E)|exact E].
Defined.

(** A relative time at least a second away names a count of at least one unit, the
    distance lies between that count and the next, and the direction is that of the
    difference. *)
Theorem format_relative_ms_bounds chrono ms now t :
  (SEC ≤ Z.abs (ms - now))%Z → chrono ms = Some t →
  ∃ n unit len approx,
    time_unit (Z.abs (ms - now)) = (n, unit, len, approx) ∧
    (1 ≤ n ∧ n * len ≤ Z.abs (ms - now) < (n + 1) * len)%Z ∧
    let words := (if (approx : bool) then "about " else "") +:+ show_Z n +:+ " " +:+ unit
                 +:+ (if decide (n = 1)%Z then "" else "s") in
    format_relative_ms chrono ms now =
      Some (if decide (now < ms)%Z then "in " +:+ words else words +:+ " ago").
Proof.
  intros Hs Hc. destruct (time_unit (Z.abs (ms - now))) as [[[n unit] len] approx] eqn:E.
  exists n, unit, len, approx. split; [done|].
  split; [by eapply time_unit_bounds|]. unfold format_relative_ms.
  rewrite Hc, decide_False, E by lia. f_equal.
  case_bool_decide; destruct (decide (now < ms)%Z); try lia; [done|].
  by rewrite <-!str_app_assoc.
Qed.

Lemma format_relative_ms_bounds_witness :
  format_relative_ms (fun _ => Some "t") 7200000 0 = Some "in about 2 hours".
Proof.
  destruct (format_relative_ms_bounds (fun _ => Some "t") 7200000 0 "t") as (n & u & l & a & E & _ & ->);
    [by vm_compute|reflexivity|]. vm_compute in E. injection E as <- <- <- <-. reflexivity.
Defined.
