(* ===== verification/Signing.v ===== *)
(** * Metadata signing ([visualsign/src/signing.rs])

    The signer allow-list, the deploy-time trust policy and the domain-separated prehash,
    with the injectivity argument its documentation makes. *)

From S2P Require Import Prelude Json External.

(** ** The allow-list: a set of canonical key bytes *)

Record SignerAllowlist := MkAllowlist { allowlist_keys : gset bytes }.

Definition SignerAllowlist_new : SignerAllowlist := MkAllowlist ∅.

Definition allowlist_insert (k : bytes) (l : SignerAllowlist) : SignerAllowlist :=
  MkAllowlist ({[k]} ∪ allowlist_keys l).

Definition allowlist_contains (l : SignerAllowlist) (k : bytes) : bool :=
  bool_decide (k ∈ allowlist_keys l).

Definition allowlist_is_empty (l : SignerAllowlist) : bool := bool_decide (size (allowlist_keys l) = 0).

Definition allowlist_len (l : SignerAllowlist) : nat := size (allowlist_keys l).

Definition allowlist_from_iter (ks : list bytes) : SignerAllowlist := MkAllowlist (list_to_set ks).

(** ** The trust policy *)

Inductive MetadataTrustPolicy : Type :=
| AcceptUnsigned
| RequireAllowlistedSigner (allow : SignerAllowlist).

Definition accepts_unsigned (p : MetadataTrustPolicy) : bool :=
  match p with AcceptUnsigned => true | RequireAllowlistedSigner _ => false end.

Definition signer_allowlist (p : MetadataTrustPolicy) : option SignerAllowlist :=
  match p with AcceptUnsigned => None | RequireAllowlistedSigner allow => Some allow end.

Definition show_policy (p : MetadataTrustPolicy) : string :=
  match p with
  | AcceptUnsigned => "accept-unsigned"
  | RequireAllowlistedSigner allow =>
      "require-signed (" +:+ show_nat (allowlist_len allow) +:+ " authorized signer(s))"
  end.

(** ** The prehash *)

Definition METADATA_SIGNING_DOMAIN_V1 : bytes := as_bytes "visualsign-metadata-v1".
Definition CHAIN_TAG_ETHEREUM : string := "ethereum".
Definition CHAIN_TAG_SOLANA : string := "solana".
Definition CHAIN_TAG_NEAR_TOKEN_METADATA : string := "near-token-metadata".
Definition CHAIN_TAG_ETHEREUM_TOKEN_METADATA : string := "ethereum-token-metadata".
Definition CHAIN_TAG_SOLANA_TOKEN_METADATA : string := "solana-token-metadata".

(** The bytes fed to the hasher: each field behind its length as a little-endian [u64]. *)
Definition prehash_preimage (chain_tag : string) (scope body : bytes) : bytes :=
  concat (frame 8 <$> [METADATA_SIGNING_DOMAIN_V1; as_bytes chain_tag; scope; body]).

Definition near_token_metadata_scope (network_id asset_id : string) : bytes :=
  concat (frame 8 <$> [as_bytes network_id; as_bytes asset_id]).

Section prehash.
Context {S : Sha256}.

Definition metadata_signing_prehash_v1 (chain_tag : string) (scope body : bytes) : bytes :=
  sha_256 (prehash_preimage chain_tag scope body).

(** The address is a [[u8; 20]], so the scope has 28 bytes. *)
Definition ethereum_scope (chain_id : Z) (address : bytes) : bytes := be_bytes 8 chain_id ++ address.

Definition ethereum_metadata_prehash (chain_id : Z) (address abi_json : bytes) : bytes :=
  metadata_signing_prehash_v1 CHAIN_TAG_ETHEREUM (ethereum_scope chain_id address) abi_json.

Definition solana_metadata_prehash (program_id idl_json : bytes) : bytes :=
  metadata_signing_prehash_v1 CHAIN_TAG_SOLANA program_id idl_json.

Definition near_token_metadata_prehash (network_id asset_id : string) (body : bytes) : bytes :=
  metadata_signing_prehash_v1 CHAIN_TAG_NEAR_TOKEN_METADATA
    (near_token_metadata_scope network_id asset_id) body.

Definition ethereum_token_metadata_prehash (network_id asset_id : string) (body : bytes) : bytes :=
  metadata_signing_prehash_v1 CHAIN_TAG_ETHEREUM_TOKEN_METADATA
    (near_token_metadata_scope network_id asset_id) body.

Definition solana_token_metadata_prehash (network_id asset_id : string) (body : bytes) : bytes :=
  metadata_signing_prehash_v1 CHAIN_TAG_SOLANA_TOKEN_METADATA
    (near_token_metadata_scope network_id asset_id) body.
End prehash.

(** A Rust slice or string is shorter than 2^64 bytes. *)
Definition is_slice (b : bytes) : Prop := fits 8 b.

Lemma prehash_preimage_inj tag tag' scope scope' body body' :
  is_slice (as_bytes tag) → is_slice (as_bytes tag') →
  is_slice scope → is_slice scope' → is_slice body → is_slice body' →
  prehash_preimage tag scope body = prehash_preimage tag' scope' body' →
  tag = tag' ∧ scope = scope' ∧ body = body'.
Proof.
  unfold is_slice. intros Ht Ht' Hs Hs' Hb Hb' Heq. unfold prehash_preimage in Heq.
  cbn [concat fmap list_fmap] in Heq.
  apply frame_inj in Heq as [_ Heq]; [|done|done].
  apply frame_inj in Heq as [Etag Heq]; [|done|done]. apply (inj as_bytes) in Etag.
  apply frame_inj in Heq as [Escope Heq]; [|done|done].
  by apply frame_inj in Heq as [Ebody _].
Qed.

Lemma near_scope_inj n n' a a' :
  is_slice (as_bytes n) → is_slice (as_bytes n') → is_slice (as_bytes a) → is_slice (as_bytes a') →
  near_token_metadata_scope n a = near_token_metadata_scope n' a' → n = n' ∧ a = a'.
Proof.
  unfold is_slice. intros Hn Hn' Ha Ha' Heq. unfold near_token_metadata_scope in Heq.
  cbn [concat fmap list_fmap] in Heq.
  apply frame_inj in Heq as [En Heq]; [|done|done]. apply (inj as_bytes) in En.
  apply frame_inj in Heq as [Ea _]; [|done|done]. by apply (inj as_bytes) in Ea.
Qed.

Lemma ethereum_scope_inj c c' a a' :
  (0 ≤ c < 2 ^ 64)%Z → (0 ≤ c' < 2 ^ 64)%Z →
  ethereum_scope c a = ethereum_scope c' a' → c = c' ∧ a = a'.
Proof.
  unfold ethereum_scope. intros Hc Hc' Heq.
  apply app_inj_1 in Heq as [Ec Ea]; [|by autorewrite with vs].
  split; [|done]. by apply be_bytes_inj in Ec.
Qed.

Lemma sha_256_inj_or {S : Sha256} x y : sha_256 x = sha_256 y → x = y ∨ sha_collision.
Proof. intros Heq. destruct (decide (x = y)); [by left|right]. by exists x, y. Qed.

Lemma prehash_inj {S : Sha256} tag tag' scope scope' body body' :
  is_slice (as_bytes tag) → is_slice (as_bytes tag') →
  is_slice scope → is_slice scope' → is_slice body → is_slice body' →
  metadata_signing_prehash_v1 tag scope body = metadata_signing_prehash_v1 tag' scope' body' →
  (tag = tag' ∧ scope = scope' ∧ body = body') ∨ sha_collision.
Proof.
  intros ?????? [Heq|Hc]%sha_256_inj_or; [left|by right]. by apply prehash_preimage_inj.
Qed.

(** ** Properties *)



(** An Ethereum ABI prehash binds the chain id, the 20-byte address and the JSON, so a
    signature made for one chain and address does not serve another. *)
Theorem ethereum_prehash_binding (S : Sha256) c c' a a' j j' :
  (0 ≤ c < 2 ^ 64)%Z → (0 ≤ c' < 2 ^ 64)%Z → length a = 20 → length a' = 20 →
  is_slice j → is_slice j' →
  ethereum_metadata_prehash c a j = ethereum_metadata_prehash c' a' j' →
  (c = c' ∧ a = a' ∧ j = j') ∨ sha_collision.
Proof.
  intros Hc Hc' Ha Ha' Hj Hj' [(_ & Hs & ->)|Hcol]%prehash_inj; try done; [left|by right|..];
    [by apply ethereum_scope_inj in Hs as [-> ->]|..];
    unfold is_slice, fits, ethereum_scope; rewrite length_app, length_be_bytes; lia.
Qed.

Lemma ethereum_prehash_binding_witness :
  let a := replicate 20 Byte.x11 in
  (1%Z = 1%Z ∧ a = a ∧ as_bytes "[]" = as_bytes "[]") ∨ @sha_collision truncation_hash.
Proof.
  apply (ethereum_prehash_binding truncation_hash); [by vm_compute..|reflexivity].
Defined.

(** Token metadata signed for one chain family never has the prehash of another, whatever
    the network, asset and body, short of a SHA-256 collision. *)
Theorem token_prehash_separation (S : Sha256) n n' a a' b b' :
  is_slice (near_token_metadata_scope n a) → is_slice (near_token_metadata_scope n' a') →
  is_slice b → is_slice b' →
  near_token_metadata_prehash n a b = ethereum_token_metadata_prehash n' a' b' ∨
  near_token_metadata_prehash n a b = solana_token_metadata_prehash n' a' b' ∨
  ethereum_token_metadata_prehash n a b = solana_token_metadata_prehash n' a' b' →
  sha_collision.
Proof.
  intros ???? [Heq|[Heq|Heq]]; apply prehash_inj in Heq as [(Ht & _)|?]; done.
Qed.

Lemma token_prehash_separation_witness : @sha_collision truncation_hash.
Proof.
  apply (token_prehash_separation truncation_hash (str_of_bytes (replicate 40 Byte.x00)) "" 
    (str_of_bytes (replicate 40 Byte.x00)) "" (replicate 40 Byte.x61) (replicate 40 Byte.x61));
    [by vm_compute..|]. left. vm_compute. reflexivity.
Defined.

(** The scope of a token binds its network and its asset: moving characters between the
    two gives another scope. *)
Theorem token_scope_binding n n' a a' :
  is_slice (as_bytes n) → is_slice (as_bytes n') → is_slice (as_bytes a) → is_slice (as_bytes a') →
  near_token_metadata_scope n a = near_token_metadata_scope n' a' → n = n' ∧ a = a'.
Proof. apply near_scope_inj. Qed.

Lemma token_scope_binding_witness : "NEAR_MAINNET" = "NEAR_MAINNET" ∧ "nep141:a" = "nep141:a".
Proof. apply token_scope_binding; [by vm_compute..|reflexivity]. Defined.
