(* ===== verification/Proto.v ===== *)
(** * Messages ([generated/src/generated/parser.rs])

    The messages the parser reads and writes. Field names carry a prefix where several
    messages share a name. A [BTreeMap] is a list of entries in increasing key order. *)

From S2P Require Import Prelude.

Record Metadata := MkMetadata { md_key : string; md_value : string }.

Record SignatureMetadata := MkSignatureMetadata {
  sm_value : string;
  sm_metadata : list Metadata;
}.

Inductive AbiType : Type := AbiUnspecified | AbiImplementation | AbiProxy.

Definition abi_type_try_from (v : Z) : option AbiType :=
  if decide (v = 0)%Z then Some AbiUnspecified
  else if decide (v = 1)%Z then Some AbiImplementation
  else if decide (v = 2)%Z then Some AbiProxy
  else None.

Record Abi := MkAbi {
  abi_value : string;
  abi_signature : option SignatureMetadata;
  abi_type : option Z;
  implementation_address : option string;
}.

Record EthereumMetadata := MkEthereumMetadata {
  eth_network_id : option string;
  abi_mappings : list (string * Abi);
}.

Record Idl := MkIdl {
  idl_value : string;
  idl_type : option Z;
  idl_version : option string;
  idl_signature : option SignatureMetadata;
  program_name : option string;
}.

Record SolanaMetadata := MkSolanaMetadata {
  sol_network_id : option string;
  sol_idl : option Idl;
  idl_mappings : list (string * Idl);
  simulated_transaction_result : option string;
}.

Record TokenMetadataEntry := MkTokenMetadataEntry {
  tm_value : string;
  tm_signature : option SignatureMetadata;
  origin_chain : option Z;
}.

Record NearMetadata := MkNearMetadata {
  near_network_id : option string;
  token_mappings : list (string * TokenMetadataEntry);
}.

Inductive MetadataOneof : Type :=
| EthereumM (m : EthereumMetadata)
| SolanaM (m : SolanaMetadata)
| NearM (m : NearMetadata).

Record ChainMetadata := MkChainMetadata { cm_metadata : option MetadataOneof }.

(** ** The chain numbers *)

Inductive ProtoChain : Type :=
| ProtoUnspecified | ProtoBitcoin | ProtoEthereum | ProtoSolana | ProtoSui | ProtoTron
| ProtoNear | ProtoCustom.

#[export] Instance ProtoChain_eq_dec : EqDecision ProtoChain.
Proof. solve_decision. Defined.

Definition proto_chain_number (c : ProtoChain) : Z :=
  match c with
  | ProtoUnspecified => 0 | ProtoBitcoin => 1 | ProtoEthereum => 2 | ProtoSolana => 3
  | ProtoSui => 4 | ProtoTron => 5 | ProtoNear => 6 | ProtoCustom => 999
  end.

Definition proto_chains : list ProtoChain :=
  [ProtoUnspecified; ProtoBitcoin; ProtoEthereum; ProtoSolana; ProtoSui; ProtoTron; ProtoNear;
   ProtoCustom].

(** [Chain::try_from(i32)]. *)
Definition proto_chain_try_from (v : Z) : option ProtoChain :=
  List.find (fun c => bool_decide (proto_chain_number c = v)) proto_chains.

Lemma proto_chain_try_from_number c : proto_chain_try_from (proto_chain_number c) = Some c.
Proof. by destruct c. Qed.

(** ** Requests and responses *)

Record ParseRequest := MkParseRequest {
  req_unsigned_payload : string;
  req_chain : Z;
  req_chain_metadata : option ChainMetadata;
  req_include_intermediate_output : bool;
  req_payment_marker : bytes;
}.

Record ParsedTransactionPayload := MkParsedTransactionPayload {
  parsed_payload : string;
  input_payload_digest : string;
  metadata_digest : string;
  signable_payload : string;
  ptp_intermediate_output : bytes;
}.

Inductive SignatureScheme : Type := SchemeUnspecified | TurnkeyP256EphemeralKey.

Definition scheme_number (s : SignatureScheme) : Z :=
  match s with SchemeUnspecified => 0 | TurnkeyP256EphemeralKey => 1 end.

Record ProtoSignature := MkProtoSignature {
  sig_scheme : Z;
  sig_public_key : string;
  sig_message : string;
  sig_signature : string;
}.

Record ParsedTransaction := MkParsedTransaction {
  pt_payload : option ParsedTransactionPayload;
  pt_signature : option ProtoSignature;
}.

Record ParseResponse := MkParseResponse { parsed_transaction : option ParsedTransaction }.

(** The messages of the enclave socket: [google.rpc.Status] without its details, which
    are always empty here. *)
Record Status := MkStatus { status_code : Z; status_message : string }.

Inductive RequestInput : Type := ParseRequestInput (r : ParseRequest) | HealthRequestInput.

Record QosParserRequest := MkQosParserRequest { qos_input : option RequestInput }.

Inductive ResponseOutput : Type :=
| ParseResponseOutput (r : ParseResponse)
| HealthResponseOutput (code : Z)
| StatusOutput (s : Status).

Record QosParserResponse := MkQosParserResponse { qos_output : option ResponseOutput }.
