(* ===== verification/Registry.v ===== *)
(** * Converters and their registry

    [visualsign/src/vsptrait.rs] and [visualsign/src/registry.rs]: the converter traits with
    their default methods, the registry from chains to converters, and the layered lookup.
    A converter is a record of its methods; the methods a chain may override are separate
    fields, filled with the trait defaults by [default_converter]. *)

From S2P Require Import Prelude Json Payload Errors Charset Encodings Proto.

Inductive Chain : Type :=
| ChainUnspecified | ChainSolana | ChainEthereum | ChainBitcoin | ChainSui | ChainAptos
| ChainPolkadot | ChainTron | ChainNear | ChainCustom (name : string).

#[export] Instance Chain_eq_dec : EqDecision Chain.
Proof. solve_decision. Defined.

Definition chain_code (c : Chain) : nat + string :=
  match c with
  | ChainUnspecified => inl 0 | ChainSolana => inl 1 | ChainEthereum => inl 2
  | ChainBitcoin => inl 3 | ChainSui => inl 4 | ChainAptos => inl 5
  | ChainPolkadot => inl 6 | ChainTron => inl 7 | ChainNear => inl 8
  | ChainCustom s => inr s
  end.

Definition chain_decode (x : nat + string) : option Chain :=
  match x with
  | inl n => [ChainUnspecified; ChainSolana; ChainEthereum; ChainBitcoin; ChainSui; ChainAptos;
              ChainPolkadot; ChainTron; ChainNear] !! n
  | inr s => Some (ChainCustom s)
  end.

Lemma chain_decode_code c : chain_decode (chain_code c) = Some c.
Proof. by destruct c. Qed.

#[export] Instance Chain_countable : Countable Chain :=
  inj_countable chain_code chain_decode chain_decode_code.

Definition chain_as_str (c : Chain) : string :=
  match c with
  | ChainUnspecified => "Unspecified"
  | ChainSolana => "Solana"
  | ChainEthereum => "Ethereum"
  | ChainBitcoin => "Bitcoin"
  | ChainSui => "Sui"
  | ChainAptos => "Aptos"
  | ChainPolkadot => "Polkadot"
  | ChainTron => "Tron"
  | ChainNear => "Near"
  | ChainCustom name => name
  end.

Definition chain_from_str (s : string) : Chain :=
  let l := to_lowercase s in
  if decide (l = "unspecified") then ChainUnspecified
  else if decide (l = "solana") then ChainSolana
  else if decide (l = "ethereum") then ChainEthereum
  else if decide (l = "bitcoin") then ChainBitcoin
  else if decide (l = "sui") then ChainSui
  else if decide (l = "aptos") then ChainAptos
  else if decide (l = "polkadot") then ChainPolkadot
  else if decide (l = "tron") then ChainTron
  else if decide (l = "near") then ChainNear
  else ChainCustom s.

(** ** Conversion options and results *)

Record DeveloperConfig := MkDeveloperConfig { allow_signed_transactions : bool }.

Record VisualSignOptions := MkOptions {
  decode_transfers : bool;
  transaction_name : option string;
  metadata : option ChainMetadata;
  developer_config : option DeveloperConfig;
  include_intermediate_output : bool;
}.

Record ConversionResult := MkConversionResult {
  payload : SignablePayload;
  intermediate_output : option bytes;
}.

Definition ConversionResult_new (p : SignablePayload) : ConversionResult :=
  MkConversionResult p None.

Definition ConversionResult_with_intermediate (p : SignablePayload) (o : bytes) : ConversionResult :=
  MkConversionResult p (Some o).

Section converters.
Context {M : SerdeMap} {F : JsonFormat} {D : JsonErrorText}.

(** The methods of a converter for transactions of type [T]. *)
Record converter (T : Type) := MkConverter {
  from_string : string → result TransactionParseError T;
  to_visual_sign_payload : T → VisualSignOptions → result VisualSignError ConversionResult;
  to_validated_visual_sign_payload : T → VisualSignOptions → result VisualSignError ConversionResult;
  to_visual_sign_payload_from_string :
    string → VisualSignOptions → result VisualSignError ConversionResult;
}.

(** Trait default: convert, then check the charset. *)
Definition default_to_validated {T}
    (convert : T → VisualSignOptions → result VisualSignError ConversionResult)
    (transaction : T) (options : VisualSignOptions) : result VisualSignError ConversionResult :=
  res ← convert transaction options;
  _ ← validate_charset (payload res);
  Ok res.

(** Trait default: parse, then convert with validation. *)
Definition default_from_string {T} (parse : string → result TransactionParseError T)
    (validated : T → VisualSignOptions → result VisualSignError ConversionResult)
    (transaction_data : string) (options : VisualSignOptions)
    : result VisualSignError ConversionResult :=
  transaction ← map_err ParseError (parse transaction_data);
  validated transaction options.

(** A converter that overrides neither default. *)
Definition default_converter {T} (parse : string → result TransactionParseError T)
    (convert : T → VisualSignOptions → result VisualSignError ConversionResult) : converter T :=
  MkConverter T parse convert (default_to_validated convert)
    (default_from_string parse (default_to_validated convert)).

(** ** The registry *)

(** [VisualSignConverterAny], the converter with its transaction type erased. *)
Record converter_any := MkConverterAny {
  convert_any : string → VisualSignOptions → result VisualSignError ConversionResult;
  supports_format : string → bool;
}.

Definition ConverterWrapper {T} (c : converter T) : converter_any :=
  MkConverterAny (to_visual_sign_payload_from_string T c) (fun s => is_ok (from_string T c s)).

Definition TransactionConverterRegistry : Type := gmap Chain converter_any.

Definition registry_new : TransactionConverterRegistry := ∅.

Definition register {T} (chain : Chain) (c : converter T) (r : TransactionConverterRegistry)
    : TransactionConverterRegistry := <[chain := ConverterWrapper c]> r.

Definition get_converter (r : TransactionConverterRegistry) (chain : Chain) : option converter_any :=
  r !! chain.

Definition convert_transaction (r : TransactionConverterRegistry) (chain : Chain)
    (transaction_data : string) (options : VisualSignOptions)
    : result VisualSignError ConversionResult :=
  match get_converter r chain with
  | Some c => convert_any c transaction_data options
  | None => Err (ConversionError ("No converter registered for chain: " +:+ chain_as_str chain))
  end.

(** The loop over the entries, in the order the hash map yields them. *)
Fixpoint try_converters (entries : list (Chain * converter_any)) (transaction_data : string)
    (options : VisualSignOptions) : result VisualSignError (Chain * ConversionResult) :=
  match entries with
  | [] => Err (ConversionError
                 "Could not detect transaction type or no compatible converter found")
  | (chain, c) :: entries =>
      if supports_format c transaction_data then
        match convert_any c transaction_data options with
        | Ok res => Ok (chain, res)
        | Err _ => try_converters entries transaction_data options
        end
      else try_converters entries transaction_data options
  end.

(** Any run of [auto_detect_and_convert]: the iteration order is not specified. *)
Definition auto_detect_and_convert (r : TransactionConverterRegistry) (transaction_data : string)
    (options : VisualSignOptions) (res : result VisualSignError (Chain * ConversionResult)) : Prop :=
  ∃ entries, entries ≡ₚ map_to_list r ∧ res = try_converters entries transaction_data options.

Definition supported_chains (r : TransactionConverterRegistry) : gset Chain := dom r.

(** ** Facts *)

Lemma default_converter_validated {T} parse convert data o res :
  to_visual_sign_payload_from_string T (default_converter parse convert) data o = Ok res →
  validate_charset (payload res) = Ok ().
Proof.
  cbn. intros (t & _ & (r & _ & ([] & Hv & [= <-])%result_bind_Ok)%result_bind_Ok)%result_bind_Ok.
  done.
Qed.

Definition detects (c : converter_any) (data : string) (o : VisualSignOptions)
    (res : ConversionResult) : Prop :=
  supports_format c data = true ∧ convert_any c data o = Ok res.

Lemma try_converters_Ok entries data o chain res :
  try_converters entries data o = Ok (chain, res) →
  ∃ c, (chain, c) ∈ entries ∧ detects c data o res.
Proof.
  induction entries as [|[ch c] entries IH]; cbn; [done|]. intros H.
  destruct (supports_format c data) eqn:Hs.
  - destruct (convert_any c data o) as [r|e] eqn:Hc.
    + simplify_eq. exists c. by repeat constructor.
    + destruct (IH H) as (c' & ? & ?). exists c'. split; [by right|done].
  - destruct (IH H) as (c' & ? & ?). exists c'. split; [by right|done].
Qed.

Lemma try_converters_Err entries data o e :
  try_converters entries data o = Err e →
  ∀ chain c res, (chain, c) ∈ entries → ~ detects c data o res.
Proof.
  induction entries as [|[ch c] entries IH]; cbn; [set_solver|]. intros H ch' c' res.
  rewrite elem_of_cons. intros [[= -> ->]|Hin] [Hs Hc].
  - by rewrite Hs, Hc in H.
  - destruct (supports_format c data); [destruct (convert_any c data o); [done|]|];
      eapply IH; try done; by split.
Qed.
End converters.


(** ** Layered lookup *)

Section layered.
Context {R : Type}.

(** The request layer, if any, over the shared layer. *)
Record LayeredRegistry := MkLayered { request : option R; global : R }.

Definition layered_new (global : R) : LayeredRegistry := MkLayered None global.

Definition with_request (global request : R) : LayeredRegistry := MkLayered (Some request) global.

Definition lookup_layered {T} (l : LayeredRegistry) (f : R → option T) : option T :=
  match request l with
  | Some r => match f r with Some x => Some x | None => f (global l) end
  | None => f (global l)
  end.

Definition lookup_result {T E} (l : LayeredRegistry) (f : R → result E T) : result E T :=
  match request l with
  | Some r => let res := f r in if is_ok res then res else f (global l)
  | None => f (global l)
  end.

Lemma lookup_result_Ok {T E} (l : LayeredRegistry) (f : R → result E T) x :
  lookup_result l f = Ok x ↔
  (∃ r, request l = Some r ∧ f r = Ok x) ∨
  ((∀ r y, request l = Some r → f r ≠ Ok y) ∧ f (global l) = Ok x).
Proof.
  unfold lookup_result. destruct (request l) as [r|].
  - destruct (f r) as [y|e] eqn:Hr; cbn; split.
    + intros [= ->]. left. by exists r.
    + intros [(r' & [= <-] & Hx)|[Hn _]]; [congruence|by destruct (Hn r y)].
    + intros Hg. right. split; [|done]. intros ? ? [= <-]. congruence.
    + intros [(r' & [= <-] & Hx)|[_ Hg]]; [congruence|done].
  - split; [by right|]. by intros [(? & ? & _)|[_ ?]].
Qed.
End layered.
Arguments LayeredRegistry : clear implicits.

(** ** Properties *)

(** A converter that keeps the trait defaults only ever returns payloads that pass the
    charset gate. *)
Theorem default_converter_gate (M : SerdeMap) (F : JsonFormat) (D : JsonErrorText) {T}
    (from : string → result TransactionParseError T)
    (convert : T → VisualSignOptions → result VisualSignError ConversionResult) data o res :
  to_visual_sign_payload_from_string T (default_converter from convert) data o = Ok res →
  Forall (fun s => clean s = true) (payload_texts (payload res)).
Proof. intros H%default_converter_validated. by apply validate_charset_clean. Qed.

Definition echo_parse (s : string) : result TransactionParseError string :=
  if decide (s = "") then Err (InvalidFormat "empty") else Ok s.

(** A converter that shows its input as the title. *)
Definition echo_convert (s : string) (_ : VisualSignOptions)
    : result VisualSignError ConversionResult :=
  Ok (ConversionResult_new (SignablePayload_new 0 s None [sample_amount] "EchoTx")).

Definition echo_options : VisualSignOptions := MkOptions true None None None false.

Lemma default_converter_gate_witness :
  Forall (fun s => clean s = true) ["1 SOL"; "Amount"; "1"; "SOL"; "EchoTx"; "abc"; "0"].
Proof.
  apply (default_converter_gate btree_map compact_format (fun _ => "error") echo_parse echo_convert
    "abc" echo_options
    (ConversionResult_new (SignablePayload_new 0 "abc" None [sample_amount] "EchoTx"))).
  vm_compute. reflexivity.
Defined.

(** Whatever order the hash map is walked in, auto-detection returns a registered chain
    whose converter supports the data and converts it, or fails when no registered converter
    does both. *)
Theorem auto_detect_spec r data o res :
  auto_detect_and_convert r data o res →
  match res with
  | Ok (chain, x) => ∃ c, r !! chain = Some c ∧ detects c data o x
  | Err _ => ∀ chain c x, r !! chain = Some c → ~ detects c data o x
  end.
Proof.
  intros (entries & Hp & ->). destruct (try_converters entries data o) as [[chain x]|e] eqn:E.
  - apply try_converters_Ok in E as (c & Hin & Hd). exists c. split; [|done].
    apply elem_of_map_to_list. by rewrite <-Hp.
  - intros chain c x Hc. apply elem_of_map_to_list in Hc. rewrite <-Hp in Hc.
    by eapply try_converters_Err.
Qed.

Lemma auto_detect_spec_witness :
  let c := @ConverterWrapper string
    (@default_converter btree_map compact_format (fun _ => "e") string echo_parse echo_convert) in
  let r : TransactionConverterRegistry := <[ChainSui := c]> ∅ in
  ∃ c', r !! ChainSui = Some c' ∧
    detects c' "abc" echo_options
      (ConversionResult_new (SignablePayload_new 0 "abc" None [sample_amount] "EchoTx")).
Proof.
  intros c r. refine (auto_detect_spec r "abc" echo_options (Ok (ChainSui, _)) _).
  exists (map_to_list r). split; [reflexivity|vm_compute; reflexivity].
Defined.

(** A converter is found for a chain exactly when one was registered for it, and the
    last registration wins; other chains are untouched. *)
Theorem register_lookup {T} (c : converter T) chain chain' r :
  get_converter (register chain c r) chain' =
    if decide (chain' = chain) then Some (ConverterWrapper c) else get_converter r chain'.
Proof.
  unfold get_converter, register, TransactionConverterRegistry. case_decide as Hc.
  - subst. by rewrite lookup_insert; case_decide.
  - by rewrite lookup_insert_ne.
Qed.

(** A layered lookup answers from the request layer when that layer has an answer, and
    from the shared layer otherwise; [lookup_result] never returns an error while the shared
    layer has an answer. *)
Theorem lookup_result_spec {R T E} (l : LayeredRegistry R) (f : R → result E T) x :
  lookup_result l f = Ok x ↔
  (∃ r, request l = Some r ∧ f r = Ok x) ∨
  ((∀ r y, request l = Some r → f r ≠ Ok y) ∧ f (global l) = Ok x).
Proof. apply lookup_result_Ok. Qed.
