(* ===== verification/Borsh.v ===== *)
(** * Borsh

    The parser derives its Borsh codecs with a macro of another crate, so a codec is an
    interface: a serialiser, a deserialiser that returns the unread input, and the law of the
    format that a value reads back. That the encoding of a value is the only input that reads
    as it is a second class: it holds of the types without maps, and a map is read in any
    order. The instances below follow the published format for the types the markers and
    payloads are made of, and show that the laws hold of it. *)

From S2P Require Import Prelude Charset.

#[local] Unset Program Cases.

(** [borsh::io::Error], known by its message. *)
Inductive io_error : Type := IoError (message : string).

Definition show_io_error (e : io_error) : string := let 'IoError m := e in m.

Class Borsh (A : Type) : Type := {
  (** What the Rust type guarantees of a value: widths, array lengths, UTF-8. *)
  borsh_wf : A → Prop;
  serialize : A → result io_error bytes;
  deserialize : bytes → result io_error (A * bytes);
  serialize_deserialize a bs rest :
    borsh_wf a → serialize a = Ok bs → deserialize (bs ++ rest) = Ok (a, rest);
}.

Class BorshCanonical (A : Type) {B : Borsh A} : Prop :=
  deserialize_serialize (a : A) buf rest :
    deserialize buf = Ok (a, rest) → borsh_wf a ∧ ∃ bs, serialize a = Ok bs ∧ buf = bs ++ rest.

(** [borsh::to_vec]. *)
Definition to_vec `{Borsh A} (a : A) : result io_error bytes := serialize a.

(** [try_from_slice]: the whole slice must be read. *)
Definition try_from_slice `{Borsh A} (buf : bytes) : result io_error A :=
  match deserialize buf with
  | Err e => Err e
  | Ok (a, []) => Ok a
  | Ok (_, _ :: _) => Err (IoError "Not all bytes read")
  end.

Lemma try_from_slice_to_vec `{Borsh A} (a : A) buf :
  borsh_wf a → to_vec a = Ok buf → try_from_slice buf = Ok a.
Proof.
  unfold try_from_slice, to_vec. intros Hwf Hs.
  pose proof (serialize_deserialize a buf [] Hwf Hs) as E.
  rewrite app_nil_r in E. by rewrite E.
Qed.

Lemma try_from_slice_Ok `{BorshCanonical A} (a : A) buf :
  try_from_slice buf = Ok a ↔ borsh_wf a ∧ to_vec a = Ok buf.
Proof.
  split; [|intros []; by apply try_from_slice_to_vec].
  unfold try_from_slice, to_vec.
  destruct (deserialize buf) as [[a' []]|] eqn:E; [|done|done]. intros [= <-].
  apply deserialize_serialize in E as (? & bs & Hs & ->). by rewrite app_nil_r.
Qed.

Lemma to_vec_inj `{Borsh A} (a b : A) bs :
  borsh_wf a → borsh_wf b → to_vec a = Ok bs → to_vec b = Ok bs → a = b.
Proof.
  intros Ha Hb Hsa Hsb.
  assert (try_from_slice bs = Ok a) as E by by apply try_from_slice_to_vec.
  assert (try_from_slice bs = Ok b) as E' by by apply try_from_slice_to_vec. congruence.
Qed.

(** ** The primitive types *)

Definition unexpected_length {A} : result io_error A := Err (IoError "Unexpected length of input").

(** The next [n] bytes. *)
Definition take_bytes (n : nat) (buf : bytes) : result io_error (bytes * bytes) :=
  if decide (n ≤ length buf) then Ok (take n buf, drop n buf) else unexpected_length.

Lemma take_bytes_app n a rest : length a = n → take_bytes n (a ++ rest) = Ok (a, rest).
Proof.
  intros <-. unfold take_bytes. rewrite decide_True by (rewrite length_app; lia).
  by rewrite take_app_length, drop_app_length.
Qed.

Lemma take_bytes_Ok n buf a rest :
  take_bytes n buf = Ok (a, rest) → length a = n ∧ buf = a ++ rest.
Proof.
  unfold take_bytes. case_decide; [|done]. intros [= <- <-].
  rewrite length_take, take_drop. split; [lia|done].
Qed.

(** An unsigned integer of [n] bytes. *)
Definition ser_uint (n : nat) (z : Z) : result io_error bytes := Ok (le_bytes n z).

Definition de_uint (n : nat) (buf : bytes) : result io_error (Z * bytes) :=
  '(bs, rest) ← take_bytes n buf; Ok (le_val bs, rest).

Definition uint_wf (n : nat) (z : Z) : Prop := (0 ≤ z < 256 ^ Z.of_nat n)%Z.

Lemma de_ser_uint n z rest : uint_wf n z → de_uint n (le_bytes n z ++ rest) = Ok (z, rest).
Proof.
  intros Hz. unfold de_uint. rewrite take_bytes_app by apply length_le_bytes. cbn.
  by rewrite le_val_le_bytes, Z.mod_small.
Qed.

Lemma de_uint_Ok n buf z rest :
  de_uint n buf = Ok (z, rest) → uint_wf n z ∧ buf = le_bytes n z ++ rest.
Proof.
  unfold de_uint. intros ([bs r] & [Hl ->]%take_bytes_Ok & [= <- <-])%result_bind_Ok.
  rewrite <-Hl at 2. rewrite le_bytes_le_val. split; [|done]. rewrite <-Hl. apply le_val_range.
Qed.

(** Fixed-width integers, arrays and strings are all lists or numbers here, so each gets a
    wrapper type to carry its instance. *)
Record uint (n : nat) := MkUint { uint_val : Z }.
Record arr (n : nat) := MkArr { arr_val : bytes }.
Arguments MkUint {n} _. Arguments uint_val {n} _. Arguments MkArr {n} _. Arguments arr_val {n} _.

#[export] Program Instance borsh_uint n : Borsh (uint n) := {|
  borsh_wf x := uint_wf n (uint_val x);
  serialize x := ser_uint n (uint_val x);
  deserialize buf := '(z, rest) ← de_uint n buf; Ok (MkUint z, rest) |}.
Next Obligation. intros n [z] bs rest Hz [= <-]. cbn. by rewrite de_ser_uint. Qed.

#[export] Instance borsh_uint_canonical n : BorshCanonical (uint n).
Proof.
  intros [z] buf rest ([z' r] & [Hz ->]%de_uint_Ok & [= <- <-])%result_bind_Ok.
  split; [done|]. by eexists.
Qed.

#[export] Program Instance borsh_arr n : Borsh (arr n) := {|
  borsh_wf x := length (arr_val x) = n;
  serialize x := Ok (arr_val x);
  deserialize buf := '(bs, rest) ← take_bytes n buf; Ok (MkArr bs, rest) |}.
Next Obligation. intros n [a] bs rest Hl [= <-]. cbn in *. by rewrite take_bytes_app. Qed.

#[export] Instance borsh_arr_canonical n : BorshCanonical (arr n).
Proof.
  intros [a] buf rest ([b r] & [Hl ->]%take_bytes_Ok & [= <- <-])%result_bind_Ok.
  split; [done|]. by eexists.
Qed.

(** [Vec<u8>]: a [u32] length and the bytes. A longer vector does not serialise. *)
Definition ser_vec (v : bytes) : result io_error bytes :=
  if decide (Z.of_nat (length v) < 2 ^ 32)%Z then Ok (frame 4 v)
  else Err (IoError "length does not fit in u32").

Definition de_vec (buf : bytes) : result io_error (bytes * bytes) :=
  '(n, rest) ← de_uint 4 buf; take_bytes (Z.to_nat n) rest.

Lemma de_ser_vec v bs rest : ser_vec v = Ok bs → de_vec (bs ++ rest) = Ok (v, rest).
Proof.
  unfold ser_vec, de_vec. case_decide; [|done]. intros [= <-]. unfold frame.
  rewrite <-app_assoc, de_ser_uint by (unfold uint_wf; cbn in *; lia). cbn.
  apply take_bytes_app. lia.
Qed.

Lemma de_vec_Ok buf v rest :
  de_vec buf = Ok (v, rest) → ∃ bs, ser_vec v = Ok bs ∧ buf = bs ++ rest.
Proof.
  unfold de_vec, ser_vec. intros ([n r] & [Hn ->]%de_uint_Ok & [Hl ->]%take_bytes_Ok)%result_bind_Ok.
  unfold uint_wf in Hn. exists (frame 4 v). rewrite decide_True by (cbn in *; lia).
  split; [done|]. unfold frame. rewrite <-app_assoc. do 2 f_equal. lia.
Qed.

#[export] Program Instance borsh_vec : Borsh bytes := {|
  borsh_wf _ := True; serialize := ser_vec; deserialize := de_vec |}.
Next Obligation. intros v bs rest _. apply de_ser_vec. Qed.

#[export] Instance borsh_vec_canonical : BorshCanonical bytes.
Proof. intros v buf rest. split; [done|]. by apply de_vec_Ok. Qed.

(** [String]: a vector whose bytes are UTF-8. *)
#[export] Program Instance borsh_string : Borsh string := {|
  borsh_wf s := utf8_valid s = true;
  serialize s := ser_vec (as_bytes s);
  deserialize buf :=
    '(v, rest) ← de_vec buf;
    if utf8_valid (str_of_bytes v) then Ok (str_of_bytes v, rest)
    else Err (IoError "invalid utf-8 sequence") |}.
Next Obligation.
  intros s bs rest Hs Hv. cbn. rewrite (de_ser_vec _ _ _ Hv). cbn. by rewrite str_of_as_bytes, Hs.
Qed.

#[export] Instance borsh_string_canonical : BorshCanonical string.
Proof.
  intros s buf rest ([v r] & Hv & H)%result_bind_Ok.
  destruct (utf8_valid (str_of_bytes v)) eqn:Hu; [|discriminate H]. injection H as <- <-.
  split; [done|]. cbn [serialize borsh_string]. rewrite as_str_of_bytes. by apply de_vec_Ok.
Qed.

(** ** Structs and enums *)

(** Two fields, one after the other. *)
#[export] Program Instance borsh_pair `{Borsh A, Borsh B} : Borsh (A * B) := {|
  borsh_wf x := borsh_wf x.1 ∧ borsh_wf x.2;
  serialize x := a ← serialize x.1; b ← serialize x.2; Ok (a ++ b);
  deserialize buf :=
    '(a, rest) ← deserialize buf; '(b, rest) ← deserialize rest; Ok ((a, b), rest) |}.
Next Obligation.
  intros A ? B ? [x y] bs rest [Hx Hy].
  intros (a & Ha & (b & Hb & [= <-])%result_bind_Ok)%result_bind_Ok. cbn in *.
  rewrite <-app_assoc, (serialize_deserialize _ _ _ Hx Ha). cbn.
  by rewrite (serialize_deserialize _ _ _ Hy Hb).
Qed.

#[export] Instance borsh_pair_canonical {A B} {HA : Borsh A} {HB : Borsh B}
    {CA : BorshCanonical A} {CB : BorshCanonical B} : BorshCanonical (A * B).
Proof.
  intros [x y] buf rest.
  intros ([a r] & Ha & ([b r'] & Hb & [= <- <- <-])%result_bind_Ok)%result_bind_Ok. cbn.
  apply deserialize_serialize in Ha as (? & u & -> & ->), Hb as (? & v & -> & ->).
  split; [done|]. exists (u ++ v). by rewrite <-app_assoc.
Qed.

(** A type whose derived codec is that of the tuple of its fields. *)
Program Definition borsh_iso {A B} (to : A → B) (back : B → A)
    (back_to : ∀ a, back (to a) = a) (to_back : ∀ b, to (back b) = b) {H : Borsh B} : Borsh A := {|
  borsh_wf a := borsh_wf (to a);
  serialize a := serialize (to a);
  deserialize buf := '(b, rest) ← deserialize buf; Ok (back b, rest) |}.
Next Obligation.
  intros A B to back Hof Hto H a bs rest Ha Hs. cbn in *.
  rewrite (serialize_deserialize _ _ _ Ha Hs). cbn. by rewrite Hof.
Qed.

#[export] Instance borsh_iso_canonical {A B} (to : A → B) (back : B → A) back_to to_back
    {H : Borsh B} {C : BorshCanonical B} : BorshCanonical A (B := borsh_iso to back back_to to_back).
Proof.
  intros a buf rest ([b r] & Hb & [= <- <-])%result_bind_Ok.
  cbn [borsh_wf serialize borsh_iso]. rewrite to_back. by apply deserialize_serialize.
Qed.

(** An enum with one variant: the variant index 0, then its fields. *)
Program Definition borsh_variant {A} (H : Borsh A) : Borsh A := {|
  borsh_wf := borsh_wf;
  serialize a := bs ← serialize a; Ok (Byte.x00 :: bs);
  deserialize buf :=
    match buf with
    | [] => unexpected_length
    | tag :: buf =>
        if decide (tag = Byte.x00) then deserialize buf
        else Err (IoError "Unexpected variant tag")
    end |}.
Next Obligation.
  intros A H a bs rest Ha (b & Hb & [= <-])%result_bind_Ok. cbn. by apply serialize_deserialize.
Qed.

#[export] Instance borsh_variant_canonical {A} (H : Borsh A) {C : BorshCanonical A} : BorshCanonical A (B := borsh_variant H).
Proof.
  intros a [|tag buf] rest; [done|]. cbn [deserialize borsh_variant]. case_decide; [subst|done].
  intros (? & bs & Hs & ->)%deserialize_serialize. split; [done|].
  exists (Byte.x00 :: bs). cbn [serialize borsh_variant]. by rewrite Hs.
Qed.

(** [bool]. *)
#[export] Program Instance borsh_bool : Borsh bool := {|
  borsh_wf _ := True;
  serialize b := Ok [if b then Byte.x01 else Byte.x00];
  deserialize buf :=
    match buf with
    | [] => unexpected_length
    | tag :: rest =>
        if decide (tag = Byte.x00) then Ok (false, rest)
        else if decide (tag = Byte.x01) then Ok (true, rest)
        else Err (IoError "Invalid bool representation")
    end |}.
Next Obligation. intros [] bs rest _ [= <-]; done. Qed.

(** [Option<T>]: a flag, then the value. *)
#[export] Program Instance borsh_option `{Borsh A} : Borsh (option A) := {|
  borsh_wf o := match o with Some a => borsh_wf a | None => True end;
  serialize o :=
    match o with
    | None => Ok [Byte.x00]
    | Some a => bs ← serialize a; Ok (Byte.x01 :: bs)
    end;
  deserialize buf :=
    match buf with
    | [] => unexpected_length
    | tag :: rest =>
        if decide (tag = Byte.x00) then Ok (None, rest)
        else if decide (tag = Byte.x01) then '(a, rest) ← deserialize rest; Ok (Some a, rest)
        else Err (IoError "Invalid Option representation")
    end |}.
Next Obligation.
  intros A ? [a|] bs rest Hwf; [|by intros [= <-]].
  intros (b & Hb & [= <-])%result_bind_Ok. cbn. by rewrite (serialize_deserialize _ _ _ Hwf Hb).
Qed.

(** [Vec<T>]: a [u32] length and the elements. *)
Section sequences.
Context `{Borsh A}.

Fixpoint ser_items (l : list A) : result io_error bytes :=
  match l with
  | [] => Ok []
  | a :: l => x ← serialize a; y ← ser_items l; Ok (x ++ y)
  end.

Fixpoint de_items (n : nat) (buf : bytes) : result io_error (list A * bytes) :=
  match n with
  | O => Ok ([], buf)
  | S n =>
      '(a, rest) ← deserialize buf;
      '(l, rest) ← de_items n rest;
      Ok (a :: l, rest)
  end.

Lemma de_ser_items l bs rest :
  Forall borsh_wf l → ser_items l = Ok bs → de_items (length l) (bs ++ rest) = Ok (l, rest).
Proof.
  intros Hl. revert bs. induction Hl as [|a l Ha _ IH]; intros bs; cbn; [by intros [= <-]|].
  intros (x & Hx & (y & Hy & [= <-])%result_bind_Ok)%result_bind_Ok.
  rewrite <-app_assoc, (serialize_deserialize _ _ _ Ha Hx). cbn. by rewrite (IH _ Hy).
Qed.
End sequences.

#[export] Program Instance borsh_list `{Borsh A} : Borsh (list A) := {|
  borsh_wf := Forall borsh_wf;
  serialize l :=
    if decide (Z.of_nat (length l) < 2 ^ 32)%Z
    then items ← ser_items l; Ok (le_bytes 4 (Z.of_nat (length l)) ++ items)
    else Err (IoError "length does not fit in u32");
  deserialize buf := '(n, rest) ← de_uint 4 buf; de_items (Z.to_nat n) rest |}.
Next Obligation.
  intros A ? l bs rest Hl. cbv beta. case_decide; [|done].
  intros (items & Hi & Heq)%result_bind_Ok.
  assert (bs = le_bytes 4 (Z.of_nat (length l)) ++ items) as -> by congruence.
  rewrite <-app_assoc, de_ser_uint by (unfold uint_wf; cbn in *; lia). cbn.
  rewrite Nat2Z.id. by apply de_ser_items.
Qed.

(** [BTreeMap<String, T>]: the entries in key order; they are read in any order. *)
Record btree (A : Type) := MkBTree { btree_entries : list (string * A) }.
Arguments MkBTree {A}. Arguments btree_entries {A}.

#[export] Program Instance borsh_btree `{Borsh A} : Borsh (btree A) := {|
  borsh_wf m := btree_sorted (btree_entries m) ∧ borsh_wf (btree_entries m);
  serialize m := serialize (btree_entries m);
  deserialize buf := '(l, rest) ← deserialize buf; Ok (MkBTree (btree_of_list l), rest) |}.
Next Obligation.
  intros A ? [m] bs rest [Hs Hwf] Hb. cbn [btree_entries] in *.
  rewrite (serialize_deserialize _ _ _ Hwf Hb). cbn. by rewrite btree_of_list_sorted_id.
Qed.

(** An enum without fields: the discriminant of a variant. *)
Section enums.
Context {A : Type} `{!EqDecision A}.
Context (discriminant : A → byte) (variants : list A).

Program Definition borsh_enum (H : ∀ a, List.find (fun b => bool_decide (discriminant b = discriminant a)) variants
                                        = Some a) : Borsh A := {|
  borsh_wf _ := True;
  serialize a := Ok [discriminant a];
  deserialize buf :=
    match buf with
    | [] => unexpected_length
    | tag :: rest =>
        match List.find (fun b => bool_decide (discriminant b = tag)) variants with
        | Some a => Ok (a, rest)
        | None => Err (IoError "Unexpected variant tag")
        end
    end |}.
Next Obligation. intros H a bs rest _ [= <-]. cbn. by rewrite H. Qed.
End enums.

(** An enum with fields: the index of the variant, then its fields. *)
Program Definition borsh_cases {A} (wf : A → Prop) (tag : A → byte)
    (ser : A → result io_error bytes) (de : byte → bytes → result io_error (A * bytes))
    (law : ∀ a bs rest, wf a → ser a = Ok bs → de (tag a) (bs ++ rest) = Ok (a, rest)) : Borsh A := {|
  borsh_wf := wf;
  serialize a := bs ← ser a; Ok (tag a :: bs);
  deserialize buf :=
    match buf with
    | [] => unexpected_length
    | t :: rest => de t rest
    end |}.
Next Obligation.
  intros A wf tag ser de law a bs rest Ha (b & Hb & [= <-])%result_bind_Ok. cbn. by apply law.
Qed.

(** [i32]: two's complement. *)
Record i32 := MkI32 { i32_val : Z }.

Definition i32_of_bits (n : Z) : Z := if decide (n < 2 ^ 31)%Z then n else (n - 2 ^ 32)%Z.

#[export] Program Instance borsh_i32 : Borsh i32 := {|
  borsh_wf x := (- 2 ^ 31 ≤ i32_val x < 2 ^ 31)%Z;
  serialize x := ser_uint 4 (i32_val x `mod` 2 ^ 32)%Z;
  deserialize buf := '(n, rest) ← de_uint 4 buf; Ok (MkI32 (i32_of_bits n), rest) |}.
Next Obligation.
  intros [z] bs rest Hz. unfold ser_uint. cbn [i32_val] in *. intros Hs.
  assert (bs = le_bytes 4 (z `mod` 2 ^ 32)%Z) as -> by congruence.
  rewrite de_ser_uint by (unfold uint_wf; pose proof (Z.mod_pos_bound z (2 ^ 32)); cbn in *; lia).
  cbn [mbind result_bind]. do 3 f_equal. unfold i32_of_bits.
  destruct (decide (0 ≤ z)%Z) as [Hp|Hn].
  - rewrite Z.mod_small by lia. rewrite decide_True by lia. done.
  - assert (z `mod` 2 ^ 32 = z + 2 ^ 32)%Z as ->.
    { rewrite <-(Z.mod_add z 1) by lia. rewrite Z.mod_small; lia. }
    rewrite decide_False by lia. lia.
Qed.
