(* ===== verification/Payment.v ===== *)
(** * Payment markers

    [host_primitives/src/payment_marker.rs], the marker a gateway signs and the hash that
    binds it to a request, and [parser/app/src/payment_verify.rs], the policy and the check
    that every parse request goes through. *)

From S2P Require Import Prelude Json Payload Grpc Charset External Encodings Signing Borsh Proto.

(** ** Text *)

(** [str::trim_end]: cut where only white space is left. *)
Fixpoint trim_end (s : string) : string :=
  match s with
  | "" => ""
  | String c rest => if decide (trim_start s = "") then "" else String c (trim_end rest)
  end.

Definition trim (s : string) : string := trim_end (trim_start s).

(** Hex text has no white space to remove. *)
Lemma trim_start_digits s : str_all is_ascii_hexdigit s = true → trim_start s = s.
Proof.
  destruct s as [|a s]; [done|]. cbn [str_all]. intros [Ha Hs]%andb_true_iff.
  cbn [trim_start].
  assert (is_ws1 a = false ∧ (∀ b, is_ws2 a b = false) ∧ ∀ b c, is_ws3 a b c = false)
    as (-> & H2 & H3).
  { unfold is_ws2, is_ws3. clear -Ha. ascii_cases a; done. }
  destruct s as [|b s]; [done|]. rewrite H2. destruct s as [|c s]; [done|]. by rewrite H3.
Qed.

Lemma trim_end_digits s : str_all is_ascii_hexdigit s = true → trim_end s = s.
Proof.
  induction s as [|a s IH]; [done|]. intros Has. cbn [trim_end].
  rewrite (trim_start_digits _ Has), decide_False by done.
  cbn [str_all] in Has. apply andb_true_iff in Has as [_ Hs]. by rewrite IH.
Qed.

Lemma trim_digits s : str_all is_ascii_hexdigit s = true → trim s = s.
Proof. intros Hs. unfold trim. by rewrite trim_start_digits, trim_end_digits. Qed.

(** ** The marker *)

Inductive PaymentDetails : Type :=
| X402Direct (txid payer pay_to amount mint : string) (x_payment_hash : bytes) (network : string).

Record VerifiedPaymentMarker := MkVpm {
  version : Z;
  vpm_request_hash : bytes;
  details : PaymentDetails;
  settled_at_ms : Z;
  gateway_pubkey_hex : string;
}.

Definition VPM_VERSION : Z := 1.

Record SignedVerifiedPaymentMarker := MkSigned {
  vpm : VerifiedPaymentMarker;
  signature : bytes;
}.

(** The derived codecs: the fields in declaration order, the enum behind its variant index. *)
Definition details_tuple (d : PaymentDetails) :=
  let 'X402Direct txid payer pay_to amount mint h network := d in
  (txid, (payer, (pay_to, (amount, (mint, (MkArr (n:=32) h, network)))))).

Definition vpm_tuple (v : VerifiedPaymentMarker) :=
  (MkUint (n:=4) (version v), (MkArr (n:=32) (vpm_request_hash v),
    (details v, (MkUint (n:=8) (settled_at_ms v), gateway_pubkey_hex v)))).

#[export] Program Instance borsh_details : Borsh PaymentDetails :=
  borsh_variant (borsh_iso details_tuple
    (fun '(txid, (payer, (pay_to, (amount, (mint, (h, network)))))) =>
       X402Direct txid payer pay_to amount mint (arr_val h) network) _ _).
Next Obligation. by intros []. Qed.
Next Obligation. by intros (?&?&?&?&?&[]&?). Qed.

#[export] Program Instance borsh_vpm : Borsh VerifiedPaymentMarker :=
  borsh_iso vpm_tuple
    (fun '(v, (h, (d, (t, g)))) => MkVpm (uint_val v) (arr_val h) d (uint_val t) g) _ _.
Next Obligation. by intros []. Qed.
Next Obligation. by intros ([]&[]&?&[]&?). Qed.

#[export] Program Instance borsh_signed : Borsh SignedVerifiedPaymentMarker :=
  borsh_iso (fun s => (vpm s, signature s)) (fun '(v, sig) => MkSigned v sig) _ _.
Next Obligation. by intros []. Qed.
Next Obligation. by intros []. Qed.

#[export] Instance borsh_details_canonical : BorshCanonical PaymentDetails := _.
#[export] Instance borsh_vpm_canonical : BorshCanonical VerifiedPaymentMarker := _.
#[export] Instance borsh_signed_canonical : BorshCanonical SignedVerifiedPaymentMarker := _.

(** The bytes [request_hash] hashes; the lengths are [as u32] casts. *)
Definition request_preimage (chain : Z) (unsigned_payload : string) (metadata : bytes)
    (include_intermediate_output : bool) : bytes :=
  le_bytes 4 chain ++ frame 4 (as_bytes unsigned_payload) ++ frame 4 metadata
  ++ [if include_intermediate_output then Byte.x01 else Byte.x00].




(** ** The policy *)

Section verify.
Context {S : Sha256} {H : HexCodec} {P : P256}.
(** The derived codecs, and the generated metadata type with its own. *)
Context {BV : Borsh VerifiedPaymentMarker} {BS : Borsh SignedVerifiedPaymentMarker}.
Context {BM : Borsh ChainMetadata}.
(** The [Debug] text of a Borsh error. *)
Context (debug_io : io_error → string).

Definition signing_digest (v : VerifiedPaymentMarker) : result io_error bytes :=
  bs ← to_vec v; Ok (sha_256 bs).

Definition request_hash (chain : Z) (unsigned_payload : string) (metadata : bytes)
    (include_intermediate_output : bool) : bytes :=
  sha_256 (request_preimage chain unsigned_payload metadata include_intermediate_output).

Definition chain_metadata_bytes (metadata : option ChainMetadata) : result io_error bytes :=
  match metadata with Some m => to_vec m | None => Ok [] end.

Inductive PaymentPolicy : Type :=
| Disabled
| Required (pinned : p256_public).

(** With the [Debug] texts of the hex and key errors. *)
Definition PaymentPolicy_from_hex (debug_hex : FromHexError → string)
    (debug_p256 : bytes → string) (hex_value : string) : result GrpcError PaymentPolicy :=
  let trimmed := trim hex_value in
  bs ← map_err
         (fun e => grpc_internal ("GATEWAY_SIGNING_PUBKEY_HEX hex decode: " +:+ debug_hex e))
         (decode_hex trimmed);
  pinned ← ok_or
             (grpc_internal ("GATEWAY_SIGNING_PUBKEY_HEX is not a valid P256 sign pubkey: "
                             +:+ debug_p256 bs))
             (p256_from_bytes bs);
  Ok (Required pinned).

Inductive PaymentVerifyError : Type :=
| Missing
| Decode (e : string)
| UnsupportedMarkerVersion (v : Z)
| RequestHashMismatch
| PinnedKeyMismatch
| BadSignature
| VerifyInternal (e : string).

Definition show_payment_error (e : PaymentVerifyError) : string :=
  match e with
  | Missing => "payment marker is required for this endpoint"
  | Decode e => "payment marker decode error: " +:+ e
  | UnsupportedMarkerVersion v => "payment marker version " +:+ show_Z v +:+ " is not supported"
  | RequestHashMismatch => "payment marker does not match this request (request_hash mismatch)"
  | PinnedKeyMismatch => "payment marker gateway_pubkey_hex does not match pinned key"
  | BadSignature => "payment marker signature verification failed"
  | VerifyInternal e => "internal error verifying payment marker: " +:+ e
  end.

Definition payment_error_code (e : PaymentVerifyError) : Code :=
  match e with
  | Decode _ | UnsupportedMarkerVersion _ => CodeInvalidArgument
  | Missing | RequestHashMismatch | PinnedKeyMismatch | BadSignature => CodeFailedPrecondition
  | VerifyInternal _ => CodeInternal
  end.

Definition payment_to_grpc (e : PaymentVerifyError) : GrpcError :=
  MkGrpcError (payment_error_code e) (show_payment_error e).

Definition MAX_PAYMENT_MARKER_BYTES : nat := 8 * 1024.

Definition verify (r : ParseRequest) (policy : PaymentPolicy) : result PaymentVerifyError () :=
  match policy with
  | Disabled => Ok ()
  | Required pinned =>
      if decide (req_payment_marker r = []) then Err Missing
      else if decide (MAX_PAYMENT_MARKER_BYTES < length (req_payment_marker r)) then
        Err (Decode ("payment marker is " +:+ show_nat (length (req_payment_marker r))
                     +:+ " bytes, exceeds " +:+ show_nat MAX_PAYMENT_MARKER_BYTES
                     +:+ " byte limit"))
      else
        signed ← map_err (fun e => Decode (show_io_error e))
                   (try_from_slice (req_payment_marker r));
        let v := vpm signed in
        if decide (version v ≠ VPM_VERSION) then Err (UnsupportedMarkerVersion (version v))
        else match details v with X402Direct _ _ _ _ _ _ _ =>
        metadata ← map_err (fun e => VerifyInternal ("chain_metadata borsh encode: " +:+ debug_io e))
                     (chain_metadata_bytes (req_chain_metadata r));
        let expected := request_hash (req_chain r) (req_unsigned_payload r) metadata
                          (req_include_intermediate_output r) in
        if decide (expected ≠ vpm_request_hash v) then Err RequestHashMismatch
        else
          claimed ← map_err (fun _ => Decode "gateway_pubkey_hex is not valid hex")
                      (decode_hex (trim (gateway_pubkey_hex v)));
          if decide (claimed ≠ p256_to_bytes pinned) then Err PinnedKeyMismatch
          else
            digest ← map_err
                       (fun e => VerifyInternal ("payment marker signing_digest: " +:+ debug_io e))
                       (signing_digest v);
            if p256_verify pinned digest (signature signed) then Ok () else Err BadSignature
        end
  end.

(** ** What the check accepts *)

(** A marker that pays for the request under the pinned key. *)
Record pays_for (r : ParseRequest) (pinned : p256_public) (s : SignedVerifiedPaymentMarker)
    : Prop := MkPaysFor {
  pf_version : version (vpm s) = VPM_VERSION;
  pf_request : ∃ m, chain_metadata_bytes (req_chain_metadata r) = Ok m ∧
    vpm_request_hash (vpm s) = request_hash (req_chain r) (req_unsigned_payload r) m
                                 (req_include_intermediate_output r);
  pf_key : decode_hex (trim (gateway_pubkey_hex (vpm s))) = Ok (p256_to_bytes pinned);
  pf_signature : ∃ d, signing_digest (vpm s) = Ok d ∧ p256_verify pinned d (signature s) = true;
}.


Lemma verify_pays r pinned s :
  0 < length (req_payment_marker r) ≤ MAX_PAYMENT_MARKER_BYTES →
  try_from_slice (req_payment_marker r) = Ok s →
  verify r (Required pinned) = Ok () ↔ pays_for r pinned s.
Proof.
  intros Hlen Hs. cbn [verify]. rewrite decide_False by (intros E; rewrite E in Hlen; cbn in Hlen; lia).
  rewrite decide_False by lia. rewrite Hs. cbn [map_err mbind result_bind].
  destruct (details (vpm s)). split.
  - case_decide as Hv; [done|].
    intros (m & Hm%map_err_Ok & Hrest)%result_bind_Ok. case_decide as Hh; [done|].
    apply result_bind_Ok in Hrest as (c & Hc%map_err_Ok & Hrest).
    case_decide as Hk; [done|]. subst c.
    apply result_bind_Ok in Hrest as (d & Hd%map_err_Ok & Hrest).
    destruct (p256_verify pinned d (signature s)) eqn:Hsig; [|done]. by split; eauto.
  - intros [-> (m & -> & ->) -> (d & -> & Hsig)]. rewrite decide_False by tauto.
    cbn [map_err mbind result_bind]. rewrite decide_False by tauto. rewrite decide_False by tauto.
    by rewrite Hsig.
Qed.

Lemma verify_Ok `{!BorshCanonical SignedVerifiedPaymentMarker} r pinned :
  verify r (Required pinned) = Ok () ↔
  0 < length (req_payment_marker r) ≤ MAX_PAYMENT_MARKER_BYTES ∧
  ∃ s, borsh_wf s ∧ to_vec s = Ok (req_payment_marker r) ∧ pays_for r pinned s.
Proof.
  split.
  - intros Hv. assert (0 < length (req_payment_marker r) ≤ MAX_PAYMENT_MARKER_BYTES) as Hlen.
    { cbn [verify] in Hv. case_decide as Hne; [done|]. case_decide; [done|].
      destruct (req_payment_marker r); [done|]. cbn [length]. cbn [length] in *. lia. }
    split; [done|]. destruct (try_from_slice (A:=SignedVerifiedPaymentMarker) (req_payment_marker r))
      as [s|e] eqn:Hs.
    + exists s. apply (verify_pays r pinned s Hlen) in Hv; [|done].
      by apply try_from_slice_Ok in Hs as [??].
    + cbn [verify] in Hv. rewrite Hs in Hv. by repeat case_decide.
  - intros [Hlen (s & Hwf & Hs & Hp)]. apply (verify_pays r pinned s Hlen); [|done].
    by apply try_from_slice_Ok.
Qed.

(** What a policy asks of a request: nothing when payments are disabled, and under a pinned
    key a marker of one to 8192 bytes that pays for the request. *)
Definition payment_met (r : ParseRequest) (policy : PaymentPolicy) : Prop :=
  match policy with
  | Disabled => True
  | Required pinned =>
      0 < length (req_payment_marker r) ≤ MAX_PAYMENT_MARKER_BYTES ∧
      ∃ s, borsh_wf s ∧ to_vec s = Ok (req_payment_marker r) ∧ pays_for r pinned s
  end.

Lemma verify_met `{!BorshCanonical SignedVerifiedPaymentMarker} r policy :
  verify r policy = Ok () ↔ payment_met r policy.
Proof. destruct policy; [done|apply verify_Ok]. Qed.
End verify.
Arguments PaymentPolicy : clear implicits.

(** ** Properties *)

(** C7: under a pinned key a request passes exactly when its marker is one to 8192 bytes that
    are the Borsh encoding of a signed marker of version 1, whose request hash is that of the
    request, whose key text decodes to the pinned key and whose signature over the marker's
    digest verifies. *)
Theorem payment_required_iff (S : Sha256) (H : HexCodec) (P : P256)
    (BM : Borsh ChainMetadata) debug_io r pinned :
  verify debug_io r (Required pinned) = Ok () ↔
  0 < length (req_payment_marker r) ≤ MAX_PAYMENT_MARKER_BYTES ∧
  ∃ s, borsh_wf s ∧ to_vec s = Ok (req_payment_marker r) ∧ pays_for r pinned s.
Proof. exact (verify_Ok debug_io r pinned). Qed.


(** A gateway that hashes the request, puts its key in the marker and signs the marker's
    digest is accepted under its own key, while the encoded marker keeps to the size limit. *)
Theorem payment_honest_gateway (S : Sha256) (H : HexCodec) (P : P256)
    (BV : Borsh VerifiedPaymentMarker) (BS : Borsh SignedVerifiedPaymentMarker)
    (BM : Borsh ChainMetadata) debug_io k r det t m d sig :
  chain_metadata_bytes (req_chain_metadata r) = Ok m →
  let v := MkVpm VPM_VERSION
             (request_hash (req_chain r) (req_unsigned_payload r) m
                (req_include_intermediate_output r))
             det t (hex_encode (p256_to_bytes (p256_public_key k))) in
  signing_digest v = Ok d → p256_sign k d = Some sig →
  borsh_wf (MkSigned v sig) → to_vec (MkSigned v sig) = Ok (req_payment_marker r) →
  0 < length (req_payment_marker r) ≤ MAX_PAYMENT_MARKER_BYTES →
  verify debug_io r (Required (p256_public_key k)) = Ok ().
Proof.
  intros Hm v Hd Hsig Hw Hv Hlen.
  apply (verify_pays debug_io r _ (MkSigned v sig) Hlen (try_from_slice_to_vec _ _ Hw Hv)).
  split; [done|by exists m| |].
  - unfold v. cbn [vpm gateway_pubkey_hex].
    rewrite trim_digits by (rewrite hex_encode_lower; apply hex_of_bytes_digits).
    apply (decode_hex_encode ""). by left.
  - exists d. split; [done|]. by eapply p256_sign_verify.
Qed.

(** A concrete gateway and request for the properties above. *)
Module sample_payment.
Definition request (marker : bytes) : ParseRequest := MkParseRequest "0xdead" 3 None false marker.

Definition vpm_of : VerifiedPaymentMarker :=
  MkVpm 1 (@request_hash truncation_hash 3 "0xdead" [] false)
    (X402Direct "tx" "payer" "payee" "1000" "mint" (replicate 32 Byte.x00) "solana:dev")
    1700000000000 "07".

Definition signed : SignedVerifiedPaymentMarker :=
  MkSigned vpm_of
    (default [] (match @signing_digest truncation_hash borsh_vpm vpm_of with
                 | Ok d => @p256_sign toy_p256 Byte.x07 d
                 | Err _ => None
                 end)).

Definition marker : bytes := match to_vec signed with Ok b => b | Err _ => [] end.

(** No metadata is sent, so its codec is not used: any will do. *)
Program Definition no_metadata : Borsh ChainMetadata := {|
  borsh_wf _ := False; serialize _ := Err (IoError ""); deserialize _ := Err (IoError "") |}.
Next Obligation. done. Qed.

Definition check (r : ParseRequest) : result PaymentVerifyError () :=
  @verify truncation_hash hex_ref toy_p256 borsh_vpm borsh_signed no_metadata
    (fun _ => "") r (@Required toy_p256 Byte.x07).
End sample_payment.


Lemma payment_honest_gateway_witness :
  sample_payment.check (sample_payment.request sample_payment.marker) = Ok ().
Proof.
  eapply (payment_honest_gateway truncation_hash hex_ref toy_p256 borsh_vpm borsh_signed
    sample_payment.no_metadata (fun _ => "") Byte.x07 (sample_payment.request sample_payment.marker)
    (details sample_payment.vpm_of) 1700000000000 []); try (vm_compute; reflexivity).
  - repeat split; by vm_compute.
  - split; by vm_compute; lia.
Defined.

(** A payment error tells the caller to pay (FailedPrecondition) only when the marker is
    absent, for another request, under another key or badly signed; a marker that does not
    decode or has another version is InvalidArgument, so the two are never confused. *)
Theorem payment_error_codes e :
  (payment_error_code e = CodeFailedPrecondition ↔
     e = Missing ∨ e = RequestHashMismatch ∨ e = PinnedKeyMismatch ∨ e = BadSignature) ∧
  (payment_error_code e = CodeInvalidArgument ↔
     (∃ m, e = Decode m) ∨ ∃ v, e = UnsupportedMarkerVersion v).
Proof. destruct e; naive_solver. Qed.
