(* ===== verification/AbiMetadata.v ===== *)
(** * Caller-supplied ABIs

    [visualsign-ethereum/src/abi_registry.rs], the registry of ABIs by name and by address,
    and [abi_metadata.rs], which fills one from the metadata of a request under the trust
    policy of the deployment. *)

From S2P Require Import Prelude Json Payload Charset External Encodings Signing Proto Payment.

(** ** The registry *)

Inductive AbiKind : Type := KindImplementation | KindProxy.

#[export] Instance AbiKind_eq_dec : EqDecision AbiKind.
Proof. solve_decision. Defined.

Record AddressMapping := MkAddressMapping {
  abi_name : string;
  abi_kind : AbiKind;
  implementation : option bytes;
}.

Section abi.
(** A parsed ABI and its parser ([alloy_json_abi]), and the address parser
    ([alloy_primitives]); a failure carries its text. *)
Context {JsonAbi : Type} (parse_abi : string → result string JsonAbi)
  (parse_address : string → result string bytes).

Record AbiRegistry := MkAbiRegistry {
  abis : gmap string JsonAbi;
  address_mappings : gmap (Z * bytes) AddressMapping;
}.

Definition AbiRegistry_new : AbiRegistry := MkAbiRegistry ∅ ∅.

Definition register_abi (name abi_json : string) (r : AbiRegistry) : result string AbiRegistry :=
  abi ← parse_abi abi_json;
  Ok (MkAbiRegistry (<[name := abi]> (abis r)) (address_mappings r)).

Definition map_address_with_type (chain_id : Z) (address : bytes) (name : string)
    (kind : AbiKind) (impl : option bytes) (r : AbiRegistry) : AbiRegistry :=
  MkAbiRegistry (abis r)
    (<[(chain_id, address) := MkAddressMapping name kind impl]> (address_mappings r)).

Definition map_address (chain_id : Z) (address : bytes) (name : string) (r : AbiRegistry)
    : AbiRegistry :=
  map_address_with_type chain_id address name KindImplementation None r.

Definition get_abi_for_address (r : AbiRegistry) (chain_id : Z) (address : bytes) : option JsonAbi :=
  mapping ← address_mappings r !! (chain_id, address);
  abis r !! abi_name mapping.

Definition get_abi_kind (r : AbiRegistry) (chain_id : Z) (address : bytes) : option AbiKind :=
  abi_kind <$> address_mappings r !! (chain_id, address).

Definition get_implementation_abi (r : AbiRegistry) (chain_id : Z) (proxy : bytes)
    : option (bytes * JsonAbi) :=
  mapping ← address_mappings r !! (chain_id, proxy);
  if decide (abi_kind mapping ≠ KindProxy) then None
  else
    impl ← implementation mapping;
    abi ← get_abi_for_address r chain_id impl;
    Some (impl, abi).

Definition get_abi (r : AbiRegistry) (name : string) : option JsonAbi := abis r !! name.

(** The keys, in order. *)
Definition list_abis (r : AbiRegistry) : list string := keys (btree_of_list (map_to_list (abis r))).

(** ** Signatures *)

Context {S : Sha256} {H : HexCodec} {K : Secp256k1}.
(** The [Display] text of a hex error. *)
Context (show_hex : FromHexError → string).

Definition MAX_ABI_JSON_BYTES : nat := 1024 * 1024.
Definition SUPPORTED_ALGORITHM : string := "secp256k1".

Inductive AbiSignatureError : Type := Validation (msg : string).

(** The local form of a signature. *)
Record AbiSignatureMetadata := MkAbiSignature {
  asm_value : string;
  algorithm : option string;
  public_key : option string;
  issuer : option string;
  timestamp : option string;
}.

Definition convert_proto_signature (proto : SignatureMetadata) : AbiSignatureMetadata :=
  let get key := md_value <$> List.find (fun m => bool_decide (md_key m = key)) (sm_metadata proto) in
  MkAbiSignature (sm_value proto) (get "algorithm") (get "public_key") (get "issuer")
    (get "timestamp").

Definition validate_abi_signature (abi_json : string) (address : bytes) (chain_id : Z)
    (sig : AbiSignatureMetadata) (allowlist : option SignerAllowlist)
    : result AbiSignatureError () :=
  alg ← ok_or (Validation "Missing algorithm") (algorithm sig);
  if decide (alg ≠ SUPPORTED_ALGORITHM) then
    Err (Validation ("Unsupported algorithm: " +:+ alg +:+ ". Only " +:+ SUPPORTED_ALGORITHM
                     +:+ " is supported."))
  else
    public_key_hex ← ok_or (Validation "Missing public_key") (public_key sig);
    let hash := ethereum_metadata_prehash chain_id address (as_bytes abi_json) in
    sig_bytes ← map_err (fun e => Validation ("Invalid signature hex: " +:+ show_hex e))
                  (decode_hex (asm_value sig));
    s ← map_err (fun e => Validation ("Invalid DER signature: " +:+ e))
          (signature_from_der sig_bytes);
    pubkey_bytes ← map_err (fun e => Validation ("Invalid public key hex: " +:+ show_hex e))
                     (decode_hex public_key_hex);
    point ← map_err (fun e => Validation ("Invalid public key point: " +:+ e))
              (encoded_point_from_bytes pubkey_bytes);
    key ← map_err (fun e => Validation ("Invalid verifying key: " +:+ e))
            (from_encoded_point point);
    _ ← map_err (fun e => Validation ("Signature verification failed: " +:+ e))
          (verify_prehash key hash s);
    match allowlist with
    | Some allow =>
        if allowlist_contains allow (to_encoded_point key) then Ok ()
        else Err (Validation "signer not in allowlist")
    | None => Ok ()
    end.

(** ** The allow-list of a deployment *)

Definition canonical_pubkey_from_hex (hex_str : string) : option bytes :=
  match decode_hex hex_str with
  | Err _ => None
  | Ok bs =>
      match encoded_point_from_bytes bs with
      | Err _ => None
      | Ok p => match from_encoded_point p with Err _ => None | Ok k => Some (to_encoded_point k) end
      end
  end.

Fixpoint allow_entries (entries : list string) (allow : SignerAllowlist)
    : result string SignerAllowlist :=
  match entries with
  | [] => Ok allow
  | entry :: entries =>
      key ← ok_or ("invalid secp256k1 public key: '" +:+ entry +:+ "'")
              (canonical_pubkey_from_hex (trim entry));
      allow_entries entries (allowlist_insert key allow)
  end.

Definition signer_allowlist_from_hex (entries : list string) : result string SignerAllowlist :=
  if decide (entries = []) then Err "no authorized ABI signer public keys were provided"
  else allow_entries entries SignerAllowlist_new.

(** ** Extraction *)

Definition identity_unverified (policy : MetadataTrustPolicy) (abi : Abi) : bool :=
  bool_decide (signer_allowlist policy = None) || bool_decide (abi_signature abi = None).

Definition resolve_abi_kind (abi : Abi) : AbiKind * option bytes :=
  match default AbiUnspecified (abi_type abi ≫= abi_type_try_from) with
  | AbiProxy =>
      (KindProxy,
       match implementation_address abi with
       | Some addr => match parse_address addr with Ok parsed => Some parsed | Err _ => None end
       | None => None
       end)
  | AbiUnspecified | AbiImplementation => (KindImplementation, None)
  end.

(** Whether the policy lets an entry through to registration. *)
Definition admitted (chain_id : Z) (policy : MetadataTrustPolicy) (parsed_address : bytes)
    (abi : Abi) : bool :=
  match abi_signature abi with
  | Some proto_sig =>
      is_ok (validate_abi_signature (abi_value abi) parsed_address chain_id
               (convert_proto_signature proto_sig) (signer_allowlist policy))
  | None => accepts_unsigned policy
  end.

(** One turn of the loop; every [continue] leaves the state as it is. *)
Definition extract_step (chain_id : Z) (policy : MetadataTrustPolicy)
    (st : AbiRegistry * nat) (entry : string * Abi) : AbiRegistry * nat :=
  let '(registry, unverified_count) := st in
  let '(address, abi) := entry in
  match parse_address address with
  | Err _ => st
  | Ok parsed_address =>
      if decide (MAX_ABI_JSON_BYTES < String.length (abi_value abi)) then st
      else if admitted chain_id policy parsed_address abi then
        let '(kind, impl) := resolve_abi_kind abi in
        match register_abi address (abi_value abi) registry with
        | Ok registry =>
            (map_address_with_type chain_id parsed_address address kind impl registry,
             if identity_unverified policy abi then Datatypes.S unverified_count
             else unverified_count)
        | Err _ => st
        end
      else st
  end.

Definition extract_with_provenance (chain_metadata : option ChainMetadata) (chain_id : Z)
    (policy : MetadataTrustPolicy) : option AbiRegistry * nat :=
  match chain_metadata with
  | None => (None, 0)
  | Some cm =>
      match cm_metadata cm with
      | Some (EthereumM ethereum) =>
          if decide (length (abi_mappings ethereum) = 0) then (None, 0)
          else
            let '(registry, unverified_count) :=
              foldl (extract_step chain_id policy) (AbiRegistry_new, 0) (abi_mappings ethereum) in
            if decide (list_abis registry = []) then (None, unverified_count)
            else (Some registry, unverified_count)
      | _ => (None, 0)
      end
  end.

Definition try_extract_from_chain_metadata (chain_metadata : option ChainMetadata) (chain_id : Z)
    (policy : MetadataTrustPolicy) : option AbiRegistry :=
  (extract_with_provenance chain_metadata chain_id policy).1.

(** ** Signing, for local tooling *)

Definition sign_abi (abi_json : string) (address : bytes) (chain_id : Z) (seed : bytes)
    : result string SignatureMetadata :=
  sk ← map_err (fun e => "invalid secp256k1 signing key seed: " +:+ e) (signing_key_from_bytes seed);
  let hash := ethereum_metadata_prehash chain_id address (as_bytes abi_json) in
  s ← map_err (fun e => "failed to sign ABI hash: " +:+ e) (sign_prehash sk hash);
  Ok (MkSignatureMetadata (hex_encode (signature_to_der s))
        [MkMetadata "algorithm" SUPPORTED_ALGORITHM;
         MkMetadata "public_key" (hex_encode (to_encoded_point (verifying_key_of sk)))]).

(** ** What the extraction registers *)

(** The address and ABI of an entry that passes every check. *)
Definition accept_entry (chain_id : Z) (policy : MetadataTrustPolicy) (entry : string * Abi)
    : option (bytes * JsonAbi) :=
  match parse_address entry.1, parse_abi (abi_value entry.2) with
  | Ok a, Ok j =>
      if decide (String.length (abi_value entry.2) ≤ MAX_ABI_JSON_BYTES)
      then if admitted chain_id policy a entry.2 then Some (a, j) else None
      else None
  | _, _ => None
  end.

Definition register_accepted (chain_id : Z) (policy : MetadataTrustPolicy) (entry : string * Abi)
    (aj : bytes * JsonAbi) (st : AbiRegistry * nat) : AbiRegistry * nat :=
  (MkAbiRegistry (<[entry.1 := aj.2]> (abis st.1))
     (<[(chain_id, aj.1) := MkAddressMapping entry.1 (resolve_abi_kind entry.2).1
                              (resolve_abi_kind entry.2).2]> (address_mappings st.1)),
   if identity_unverified policy entry.2 then Datatypes.S st.2 else st.2).

Lemma extract_step_spec chain_id policy st entry :
  extract_step chain_id policy st entry =
    match accept_entry chain_id policy entry with
    | Some aj => register_accepted chain_id policy entry aj st
    | None => st
    end.
Proof.
  destruct st as [r n], entry as [address abi].
  unfold extract_step, accept_entry, register_abi. cbn [fst snd].
  destruct (parse_address address) as [a|]; [|done].
  destruct (parse_abi (abi_value abi)) as [j|];
    repeat (case_decide; try lia); try done;
    destruct (admitted chain_id policy a abi); try done.
  all: destruct (resolve_abi_kind abi) eqn:Hk.
  - unfold register_accepted. cbn [fst snd]. by rewrite Hk.
  - done.
Qed.

Section fold.
Context (chain_id : Z) (policy : MetadataTrustPolicy).
Local Abbreviation accept := (accept_entry chain_id policy).
Local Abbreviation run l := (foldl (extract_step chain_id policy) (AbiRegistry_new, 0) l).

Lemma run_snoc l e :
  run (l ++ [e]) = match accept e with
                   | Some aj => register_accepted chain_id policy e aj (run l)
                   | None => run l
                   end.
Proof. rewrite foldl_app. apply extract_step_spec. Qed.

(** The entries that are accepted for an address, in order. *)
Definition accepted_at (a : bytes) (l : list (string * Abi)) : list (string * Abi * JsonAbi) :=
  omap (fun e => '(a', j) ← accept e; if decide (a' = a) then Some (e, j) else None) l.

Lemma run_mapping l a :
  address_mappings (run l).1 !! (chain_id, a) =
    (fun ej => MkAddressMapping ej.1.1 (resolve_abi_kind ej.1.2).1 (resolve_abi_kind ej.1.2).2)
      <$> last (accepted_at a l).
Proof.
  induction l as [|e l IH] using rev_ind; [done|].
  rewrite run_snoc. unfold accepted_at. rewrite omap_app. fold (accepted_at a l). cbn.
  destruct (accept e) as [[a' j]|] eqn:E; cbn; [|by rewrite app_nil_r].
  destruct (decide (a' = a)) as [-> |Hne]; cbn.
  - by rewrite lookup_insert, last_snoc; case_decide.
  - rewrite lookup_insert_ne by congruence. by rewrite app_nil_r.
Qed.

Lemma run_other_chain l c a : c ≠ chain_id → address_mappings (run l).1 !! (c, a) = None.
Proof.
  intros Hc. induction l as [|e l IH] using rev_ind; [done|].
  rewrite run_snoc. destruct (accept e) as [[a' j]|]; [|done]. cbn.
  rewrite lookup_insert_ne by congruence. done.
Qed.

Lemma run_abi l e a j :
  NoDup (keys l) → e ∈ l → accept e = Some (a, j) → abis (run l).1 !! e.1 = Some j.
Proof.
  intros Hnd He Ha. induction l as [|e' l IH] using rev_ind; [set_solver|].
  unfold keys in Hnd. rewrite fmap_app in Hnd. cbn in Hnd.
  apply NoDup_app in Hnd as (Hnd & Hd & _). rewrite run_snoc.
  apply elem_of_app in He as [He|<-%list_elem_of_singleton].
  - destruct (accept e') as [[a' j']|]; [|by apply IH]. cbn.
    rewrite lookup_insert_ne; [by apply IH|]. intros Heq.
    apply (Hd e.1); [by apply list_elem_of_fmap_2|]. rewrite <-Heq. by left.
  - rewrite Ha. cbn. by rewrite lookup_insert; case_decide.
Qed.

Lemma run_abis_empty l : abis (run l).1 = ∅ ↔ Forall (fun e => accept e = None) l.
Proof.
  induction l as [|e l IH] using rev_ind; [split; [constructor|done]|].
  rewrite run_snoc, Forall_app, Forall_singleton.
  destruct (accept e) as [[a j]|] eqn:E; cbn; [|by rewrite IH; split; [|intros []]].
  split; [|by intros []]. intros Hi. by apply insert_non_empty in Hi.
Qed.

Lemma run_count l :
  (run l).2 = length (filter (fun e => identity_unverified policy e.2 = true)
                        (filter (fun e => is_Some (accept e)) l)).
Proof.
  induction l as [|e l IH] using rev_ind; [done|].
  rewrite run_snoc, !filter_app, length_app.
  destruct (accept e) as [aj|] eqn:E.
  - cbn [register_accepted snd]. rewrite IH.
    rewrite (filter_cons_True _ e []) by by rewrite E. rewrite filter_nil.
    destruct (identity_unverified policy e.2) eqn:Hi.
    + rewrite (filter_cons_True _ e []) by done. cbn. lia.
    + rewrite (filter_cons_False _ e []) by by rewrite Hi. cbn. lia.
  - rewrite (filter_cons_False _ e []) by (rewrite E; by intros [? ?]). rewrite !filter_nil. cbn. lia.
Qed.

(** The ABI found for an address is that of the last entry accepted for it. *)
Lemma run_get_abi l a :
  NoDup (keys l) → get_abi_for_address (run l).1 chain_id a = snd <$> last (accepted_at a l).
Proof.
  intros Hnd. unfold get_abi_for_address. rewrite run_mapping.
  destruct (last (accepted_at a l)) as [[e j]|] eqn:E; [|done]. cbn.
  apply last_Some_elem_of in E. unfold accepted_at in E.
  apply list_elem_of_omap in E as (e' & He' & Hs).
  apply bind_Some in Hs as ([a' j'] & Ha & Hs). case_decide; simplify_eq.
  by eapply run_abi.
Qed.
End fold.

(** ** Signatures and allow-lists *)

Lemma convert_signed v pk :
  convert_proto_signature (MkSignatureMetadata v
    [MkMetadata "algorithm" SUPPORTED_ALGORITHM; MkMetadata "public_key" pk]) =
  MkAbiSignature v (Some SUPPORTED_ALGORITHM) (Some pk) None None.
Proof. reflexivity. Qed.

(** The key and the signature that the texts of a signature spell. *)
Definition spells (sig : AbiSignatureMetadata) (key : verifying_key) (s : k256_signature) : Prop :=
  (∃ bs, decode_hex (asm_value sig) = Ok bs ∧ signature_from_der bs = Ok s) ∧
  ∃ text bs point, public_key sig = Some text ∧ decode_hex text = Ok bs ∧
    encoded_point_from_bytes bs = Ok point ∧ from_encoded_point point = Ok key.

(** What a validated signature says: its key verified the bound prehash, and is listed if a
    list is enforced. *)
Lemma validate_abi_signature_Ok json a c sig allow :
  validate_abi_signature json a c sig allow = Ok () →
  ∃ key s, spells sig key s ∧
    verify_prehash key (ethereum_metadata_prehash c a (as_bytes json)) s = Ok () ∧
    ∀ l, allow = Some l → to_encoded_point key ∈ allowlist_keys l.
Proof.
  unfold validate_abi_signature. intros (alg & _ & Hv)%result_bind_Ok. case_decide; [done|].
  apply result_bind_Ok in Hv as (pk & Hpk & Hv).
  apply result_bind_Ok in Hv as (sb & Hsb%map_err_Ok & Hv).
  apply result_bind_Ok in Hv as (s & Hs%map_err_Ok & Hv).
  apply result_bind_Ok in Hv as (pb & Hpb%map_err_Ok & Hv).
  apply result_bind_Ok in Hv as (pt & Hpt%map_err_Ok & Hv).
  apply result_bind_Ok in Hv as (key & Hkey%map_err_Ok & Hv).
  apply result_bind_Ok in Hv as ([] & Hver%map_err_Ok & Hv). exists key, s. split_and!; [|done|].
  - split; [by exists sb|]. exists pk, pb, pt. split_and!; [|done..].
    destruct (public_key sig); [cbn in Hpk; congruence|done].
  - intros l ->. unfold allowlist_contains in Hv. by case_bool_decide.
Qed.

(** An entry whose own signature, over the chain, the address and the JSON, is by [key]. *)
Definition signed_entry (chain_id : Z) (a : bytes) (abi : Abi) (key : verifying_key) : Prop :=
  ∃ proto s, abi_signature abi = Some proto ∧ spells (convert_proto_signature proto) key s ∧
    verify_prehash key (ethereum_metadata_prehash chain_id a (as_bytes (abi_value abi))) s = Ok ().

Lemma admitted_required chain_id allow a abi :
  admitted chain_id (RequireAllowlistedSigner allow) a abi = true →
  ∃ key, signed_entry chain_id a abi key ∧ to_encoded_point key ∈ allowlist_keys allow.
Proof.
  unfold admitted. destruct (abi_signature abi) as [proto|] eqn:Hp; [|done].
  destruct (validate_abi_signature _ _ _ _ _) as [[]|] eqn:Hv; [|done]. intros _.
  apply validate_abi_signature_Ok in Hv as (key & s & Hsp & Hver & Hal).
  exists key. split; [by exists proto, s|by apply Hal].
Qed.

Lemma accept_entry_Some chain_id policy e a j :
  accept_entry chain_id policy e = Some (a, j) ↔
  parse_address e.1 = Ok a ∧ parse_abi (abi_value e.2) = Ok j ∧
  String.length (abi_value e.2) ≤ MAX_ABI_JSON_BYTES ∧ admitted chain_id policy a e.2 = true.
Proof.
  unfold accept_entry. destruct (parse_address e.1) as [a'|]; [|naive_solver].
  destruct (parse_abi _) as [j'|]; [|naive_solver]. case_decide; [|naive_solver].
  split.
  - destruct (admitted chain_id policy a' e.2) eqn:?; [|done]. by intros [= -> ->].
  - by intros ([= ->] & [= ->] & _ & ->).
Qed.

Lemma identity_verified chain_id allow e :
  is_Some (accept_entry chain_id (RequireAllowlistedSigner allow) e) →
  identity_unverified (RequireAllowlistedSigner allow) e.2 = false.
Proof.
  intros [[a j] (_ & _ & _ & Had)%accept_entry_Some].
  apply admitted_required in Had as (key & (proto & s & Hs & _) & _).
  unfold identity_unverified. by rewrite Hs.
Qed.

(** ** The result of an extraction *)

Definition ethereum_metadata (eth : EthereumMetadata) : option ChainMetadata :=
  Some (MkChainMetadata (Some (EthereumM eth))).

Lemma list_abis_nil r : list_abis r = [] ↔ abis r = ∅.
Proof.
  unfold list_abis, keys. split.
  - intros Hnil%fmap_nil_inv. apply map_to_list_empty_iff, Permutation_nil. rewrite <-Hnil.
    apply btree_of_list_perm, NoDup_fst_map_to_list.
  - intros ->. by rewrite map_to_list_empty.
Qed.

Lemma extract_eq eth chain_id policy :
  extract_with_provenance (ethereum_metadata eth) chain_id policy =
    let st := foldl (extract_step chain_id policy) (AbiRegistry_new, 0) (abi_mappings eth) in
    (if decide (abis st.1 = ∅) then None else Some st.1, st.2).
Proof.
  unfold extract_with_provenance, ethereum_metadata. cbn [cm_metadata].
  case_decide as Hlen; [by apply nil_length_inv in Hlen as ->|].
  destruct (foldl _ _ _) as [r n]. cbn [fst snd].
  case_decide as Hl; rewrite list_abis_nil in Hl; by case_decide.
Qed.

(** An ABI found under the require-signed posture was signed for its chain and address. *)
Lemma extract_signed_abi eth chain_id allow r n c a j :
  NoDup (keys (abi_mappings eth)) →
  extract_with_provenance (ethereum_metadata eth) chain_id (RequireAllowlistedSigner allow)
    = (Some r, n) →
  get_abi_for_address r c a = Some j →
  c = chain_id ∧
  ∃ name abi key, (name, abi) ∈ abi_mappings eth ∧ parse_address name = Ok a ∧
    parse_abi (abi_value abi) = Ok j ∧ signed_entry chain_id a abi key ∧
    to_encoded_point key ∈ allowlist_keys allow.
Proof.
  intros Hnd He Hg. rewrite extract_eq in He. cbn zeta in He. case_decide; [done|].
  injection He as <- <-. destruct (decide (c = chain_id)) as [-> |Hc].
  2: { unfold get_abi_for_address in Hg. by rewrite run_other_chain in Hg. }
  split; [done|]. rewrite run_get_abi in Hg by done.
  apply fmap_Some in Hg as ([[name abi] j'] & Hl & ->). apply last_Some_elem_of in Hl.
  apply list_elem_of_omap in Hl as (e & Hin & Hs).
  apply bind_Some in Hs as ([a' j''] & Ha & Hs). case_decide; simplify_eq.
  apply accept_entry_Some in Ha as (Hpa & Hpj & _ & Had).
  apply admitted_required in Had as (key & Hsig & Hal). by exists name, abi, key.
Qed.

(** An address is mapped exactly when an ABI is found for it. *)
Lemma extract_mapped eth chain_id policy r n a :
  NoDup (keys (abi_mappings eth)) →
  extract_with_provenance (ethereum_metadata eth) chain_id policy = (Some r, n) →
  get_abi_for_address r chain_id a = None → address_mappings r !! (chain_id, a) = None.
Proof.
  intros Hnd He. rewrite extract_eq in He. cbn zeta in He. case_decide; [done|].
  injection He as <- <-. rewrite run_get_abi, run_mapping by done.
  by destruct (last (accepted_at chain_id policy a (abi_mappings eth))).
Qed.
End abi.

Arguments AbiRegistry : clear implicits.

(** ** Properties *)

Section properties.
Context {JsonAbi : Type} (parse_abi : string → result string JsonAbi)
  (parse_address : string → result string bytes).
Context {S : Sha256} {H : HexCodec} {K : Secp256k1} (show_hex : FromHexError → string).

(** C9: under the require-signed posture, an ABI found for an address came from an entry of
  the request for that address whose signature, over the prehash that binds the chain id,
  the address and the JSON, verifies under an allow-listed key; nothing is counted as
  unverified, and no other chain gets an ABI. *)
Theorem require_signed_provenance eth chain_id allow r n c a j :
NoDup (keys (abi_mappings eth)) →
extract_with_provenance parse_abi parse_address show_hex (ethereum_metadata eth) chain_id
  (RequireAllowlistedSigner allow) = (Some r, n) →
get_abi_for_address r c a = Some j →
n = 0 ∧ c = chain_id ∧
∃ name abi key, (name, abi) ∈ abi_mappings eth ∧ parse_address name = Ok a ∧
  parse_abi (abi_value abi) = Ok j ∧ signed_entry chain_id a abi key ∧
  to_encoded_point key ∈ allowlist_keys allow.
Proof.
intros Hnd He Hg. split; [|by eapply extract_signed_abi].
rewrite extract_eq in He. cbn zeta in He. case_decide; [done|]. injection He as <- <-.
rewrite run_count. apply length_zero_iff_nil, list_filter_none.
intros e [He _]%list_elem_of_filter. apply identity_verified in He. by rewrite He.
Qed.

(** The ABI found for an address is that of the last accepted entry for it in key order,
  whatever the posture; entries are accepted one by one, so a refused entry never removes
  or changes another. *)
Theorem extraction_last_accepted eth chain_id policy r n a :
NoDup (keys (abi_mappings eth)) →
extract_with_provenance parse_abi parse_address show_hex (ethereum_metadata eth) chain_id policy
  = (Some r, n) →
get_abi_for_address r chain_id a =
  snd <$> last (accepted_at parse_abi parse_address show_hex chain_id policy a (abi_mappings eth)).
Proof.
intros Hnd He. rewrite extract_eq in He. cbn zeta in He. case_decide; [done|].
injection He as <- <-. by apply run_get_abi.
Qed.

(** No registry is returned exactly when no entry is accepted; an empty allow-list
  accepts none. *)
Theorem extraction_refusal eth chain_id policy :
((extract_with_provenance parse_abi parse_address show_hex (ethereum_metadata eth) chain_id
    policy).1 = None ↔
  Forall (fun e => accept_entry parse_abi parse_address show_hex chain_id policy e = None)
    (abi_mappings eth)) ∧
(extract_with_provenance parse_abi parse_address show_hex (ethereum_metadata eth) chain_id
   (RequireAllowlistedSigner SignerAllowlist_new)).1 = None.
Proof.
split.
- rewrite extract_eq. cbn zeta. cbn [fst]. rewrite <-run_abis_empty. by case_decide.
- rewrite extract_eq. cbn zeta. cbn [fst]. case_decide as He; [done|]. destruct He.
  apply run_abis_empty, Forall_forall. intros e _.
  destruct (accept_entry _ _ _ _ _ e) as [[a j]|] eqn:Ha; [|done].
  apply accept_entry_Some in Ha as (_ & _ & _ & Had).
  apply admitted_required in Had as (? & ? & Hin). set_solver.
Qed.

(** Under the accept-unsigned posture every accepted entry is counted as unverified,
  signed or not. *)
Theorem accept_unsigned_count eth chain_id :
(extract_with_provenance parse_abi parse_address show_hex (ethereum_metadata eth) chain_id
   AcceptUnsigned).2 =
length (filter (fun e => is_Some (accept_entry parse_abi parse_address show_hex chain_id
                                    AcceptUnsigned e)) (abi_mappings eth)).
Proof.
rewrite extract_eq. cbn zeta. cbn [snd]. rewrite run_count. f_equal. by apply list_filter_all.
Qed.

End properties.

(** A signature made by [sign_abi] validates, up to the allow-list. *)
Lemma sign_abi_valid {S : Sha256} {H : HexCodec} {K : Secp256k1} show_hex json a c seed sm :
  sign_abi json a c seed = Ok sm →
  ∃ sk, signing_key_from_bytes seed = Ok sk ∧ ∀ allow,
    validate_abi_signature show_hex json a c (convert_proto_signature sm) allow =
    match allow with
    | Some l => if allowlist_contains l (to_encoded_point (verifying_key_of sk)) then Ok ()
                else Err (Validation "signer not in allowlist")
    | None => Ok ()
    end.
Proof.
  unfold sign_abi.
  intros (sk & Hsk%map_err_Ok & (s & Hs%map_err_Ok & [= <-])%result_bind_Ok)%result_bind_Ok.
  exists sk. split; [done|]. destruct (from_to_point (verifying_key_of sk)) as (p & Hp & Hk).
  intros allow. rewrite convert_signed. unfold validate_abi_signature.
  cbn [algorithm public_key asm_value ok_or mbind result_bind]. rewrite decide_False by tauto.
  cbn [ok_or mbind result_bind].
  pose proof (decode_hex_encode "" (signature_to_der s) (or_introl eq_refl)) as Hd1.
  pose proof (decode_hex_encode "" (to_encoded_point (verifying_key_of sk)) (or_introl eq_refl)) as Hd2.
  rewrite str_nil_app in Hd1, Hd2. rewrite Hd1. cbn. rewrite from_to_der. cbn.
  rewrite Hd2. cbn. rewrite Hp. cbn. rewrite Hk. cbn. by rewrite (sign_verify_prehash _ _ _ Hs).
Qed.

(** A signature made by [sign_abi] validates for the JSON, address and chain it was made
    for, under every allow-list that holds the signer's key and only under those. *)
Theorem sign_abi_validates (S : Sha256) (H : HexCodec) (K : Secp256k1) show_hex json a c seed sm :
  sign_abi json a c seed = Ok sm →
  ∃ key, validate_abi_signature show_hex json a c (convert_proto_signature sm) None = Ok () ∧
    ∀ allow, validate_abi_signature show_hex json a c (convert_proto_signature sm) (Some allow) = Ok ()
      ↔ to_encoded_point key ∈ allowlist_keys allow.
Proof.
  intros (sk & _ & Hval)%(sign_abi_valid show_hex). exists (verifying_key_of sk).
  split; [apply (Hval None)|]. intros allow. rewrite (Hval (Some allow)). unfold allowlist_contains.
  by case_bool_decide.
Qed.

(** The deploy-time signer list accepts a non-empty list of valid keys only, and holds
    exactly the canonical forms of those keys. *)
Theorem signer_allowlist_exact (H : HexCodec) (K : Secp256k1) entries allow :
  signer_allowlist_from_hex entries = Ok allow →
  entries ≠ [] ∧
  ∀ k, k ∈ allowlist_keys allow ↔ ∃ e, e ∈ entries ∧ canonical_pubkey_from_hex (trim e) = Some k.
Proof.
  unfold signer_allowlist_from_hex. case_decide as He; [done|]. intros Ha. split; [done|].
  clear He. assert (∀ acc, allow_entries entries acc = Ok allow → ∀ k, k ∈ allowlist_keys allow ↔
    k ∈ allowlist_keys acc ∨ ∃ e, e ∈ entries ∧ canonical_pubkey_from_hex (trim e) = Some k) as Hg.
  { clear Ha. induction entries as [|e l IH]; intros acc; cbn.
    - intros [= ->] k. set_solver.
    - intros (k0 & Hk0 & Hl)%result_bind_Ok k. rewrite (IH _ Hl k).
      destruct (canonical_pubkey_from_hex (trim e)) as [k1|] eqn:Hc; [|done]. injection Hk0 as ->.
      cbn. set_solver. }
  intros k. rewrite (Hg _ Ha k). set_solver.
Qed.

(** A signed entry under toy keys, for the properties above. *)
Module sample_abi.
Definition address (s : string) : result string bytes :=
  match strip_prefix "0x" s with Some t => Ok (as_bytes t) | None => Err "no prefix" end.
Definition abi_text (s : string) : result string string := Ok s.
Definition show (_ : FromHexError) : string := "hex".
Definition signature : option SignatureMetadata :=
  match @sign_abi truncation_hash hex_ref toy_secp256k1 "[]" (as_bytes "01") 1 [Byte.x07] with
  | Ok sm => Some sm
  | Err _ => None
  end.
Definition eth : EthereumMetadata :=
  MkEthereumMetadata None [("0x01", MkAbi "[]" signature None None)].
Definition allow : SignerAllowlist := allowlist_insert [Byte.x07] SignerAllowlist_new.
Definition registry : AbiRegistry string :=
  MkAbiRegistry {["0x01" := "[]"]}
    {[(1%Z, as_bytes "01") := MkAddressMapping "0x01" KindImplementation None]}.
Definition extract (policy : MetadataTrustPolicy) : option (AbiRegistry string) * nat :=
  @extract_with_provenance string abi_text address truncation_hash hex_ref toy_secp256k1 show
    (ethereum_metadata eth) 1 policy.
Lemma extract_signed : extract (RequireAllowlistedSigner allow) = (Some registry, 0).
Proof. vm_compute. reflexivity. Qed.
End sample_abi.

Lemma require_signed_provenance_witness :
  ∃ key : @verifying_key toy_secp256k1,
    @to_encoded_point toy_secp256k1 key ∈ allowlist_keys sample_abi.allow.
Proof.
  destruct (@require_signed_provenance string sample_abi.abi_text sample_abi.address
    truncation_hash hex_ref toy_secp256k1 sample_abi.show sample_abi.eth 1 sample_abi.allow
    sample_abi.registry 0 1 (as_bytes "01") "[]") as (_ & _ & ? & ? & key & H).
  - by_decision.
  - apply sample_abi.extract_signed.
  - reflexivity.
  - exists key. apply H.
Defined.

Lemma extraction_last_accepted_witness :
  get_abi_for_address sample_abi.registry 1 (as_bytes "01") = Some "[]".
Proof.
  rewrite (@extraction_last_accepted string sample_abi.abi_text sample_abi.address
    truncation_hash hex_ref toy_secp256k1 sample_abi.show sample_abi.eth 1
    (RequireAllowlistedSigner sample_abi.allow) sample_abi.registry 0 (as_bytes "01"));
    [vm_compute; reflexivity|by_decision|apply sample_abi.extract_signed].
Defined.

Lemma sign_abi_validates_witness :
  ∃ sm, @sign_abi truncation_hash hex_ref toy_secp256k1 "[]" (as_bytes "01") 1 [Byte.x07] = Ok sm ∧
    @validate_abi_signature truncation_hash hex_ref toy_secp256k1 sample_abi.show "[]" (as_bytes "01")
      1 (convert_proto_signature sm) None = Ok ().
Proof.
  destruct (@sign_abi truncation_hash hex_ref toy_secp256k1 "[]" (as_bytes "01") 1 [Byte.x07])
    as [sm|e] eqn:E; [|vm_compute in E; discriminate E].
  exists sm. split; [reflexivity|].
  destruct (@sign_abi_validates truncation_hash hex_ref toy_secp256k1 sample_abi.show
    _ _ _ _ _ E) as (key & Hv & _). exact Hv.
Defined.

Lemma signer_allowlist_exact_witness :
  @signer_allowlist_from_hex hex_ref toy_secp256k1 [" 0x07 "] = Ok sample_abi.allow ∧
  [" 0x07 "] ≠ [].
Proof.
  assert (@signer_allowlist_from_hex hex_ref toy_secp256k1 [" 0x07 "] = Ok sample_abi.allow) as E
    by (vm_compute; reflexivity).
  split; [exact E|]. apply (@signer_allowlist_exact hex_ref toy_secp256k1 _ _ E).
Defined.
