(* ===== verification/ParseRoute.v ===== *)
(** * The parse route

    [parser/app/src]: the deploy-time configuration ([config.rs]), the production registry
    ([registry.rs], [chain_conversion.rs]), the pipeline from a request to a signed response
    ([routes/parse.rs]) and the processor behind the enclave socket ([service.rs]). *)

From S2P Require Import Prelude Json Payload Errors Charset External Encodings Signing.
From S2P Require Import Proto Registry Borsh Grpc Payment AbiMetadata.

(** ** Chains *)

Definition proto_to_registry (proto : ProtoChain) : Chain :=
  match proto with
  | ProtoSolana => ChainSolana
  | ProtoEthereum => ChainEthereum
  | ProtoSui => ChainSui
  | ProtoTron => ChainTron
  | ProtoNear => ChainNear
  | ProtoUnspecified => ChainUnspecified
  | _ => ChainCustom "custom_unknown"
  end.

(** ** Configuration *)

Section config.
Context {H : HexCodec} {K : Secp256k1} {P : P256}.

Record ParserConfig := MkParserConfig {
  abi_trust : MetadataTrustPolicy;
  payment : PaymentPolicy P;
}.

Definition config_accept_unsigned : ParserConfig := MkParserConfig AcceptUnsigned Disabled.

Definition resolve_signers (signer_pubkeys : list string) : result string MetadataTrustPolicy :=
  RequireAllowlistedSigner <$> signer_allowlist_from_hex signer_pubkeys.

Definition abi_trust_from_options (accept_unsigned : bool) (signer_pubkeys : list string)
    : result string MetadataTrustPolicy :=
  match accept_unsigned, bool_decide (length signer_pubkeys = 0) with
  | true, true => Ok AcceptUnsigned
  | false, false => resolve_signers signer_pubkeys
  | true, false =>
      Err ("--accept-unsigned-abis and --accept-signatures-from-pubkey are mutually "
           +:+ "exclusive: pick the one posture this deployment runs")
  | false, true =>
      Err ("one of --accept-unsigned-abis or --accept-signatures-from-pubkey <hex> is "
           +:+ "required: the ABI trust posture must be chosen at deploy time so a signer "
           +:+ "can verify it")
  end.
End config.

(** ** The pipeline *)

(** What can end a call: an error for the caller, or a panic. *)
Inductive fault : Type := Grpc (e : GrpcError) | Panicked.

Definition expect {A} (m : result io_error A) : result fault A := map_err (fun _ => Panicked) m.

(** The fields of the payload that its derived codec writes; the last one is skipped. *)
Definition derived_fields (p : ParsedTransactionPayload) :=
  (parsed_payload p, (input_payload_digest p, (metadata_digest p, signable_payload p))).

Definition signing_digest_bytes (p : ParsedTransactionPayload) : result fault bytes :=
  bs ← expect (to_vec (derived_fields p));
  if decide (ptp_intermediate_output p = []) then Ok bs
  else
    more ← expect (to_vec (ptp_intermediate_output p));
    Ok (bs ++ more).






Section parse.
Context {M : SerdeMap} {F : JsonFormat} {D : JsonErrorText}.
Context {S : Sha256} {H : HexCodec} {K : Secp256k1}.
(** The keys of the payment gateway and of the enclave. *)
Context {P : P256} {E : P256}.
Context {BV : Borsh VerifiedPaymentMarker} {BS : Borsh SignedVerifiedPaymentMarker}
  {BM : Borsh ChainMetadata}.
(** The [Debug] texts of foreign errors; [debug_sign] is that of a failed signature. *)
Context (debug_io : io_error → string) (debug_sign : string).

(** The converters of the chain crates, by chain; Ethereum's takes the trust policy. *)
Record chain_converters := MkChainConverters {
  EthTx : Type; SolTx : Type; SuiTx : Type; TronTx : Type; NearTx : Type; UnspecifiedTx : Type;
  eth_converter : MetadataTrustPolicy → converter EthTx;
  sol_converter : converter SolTx;
  sui_converter : converter SuiTx;
  tron_converter : converter TronTx;
  near_converter : converter NearTx;
  unspecified_converter : converter UnspecifiedTx;
}.
Context (chains : chain_converters).

Definition create_registry (config : ParserConfig (P:=P)) : TransactionConverterRegistry :=
  let registry := registry_new in
  let registry := register ChainEthereum (eth_converter chains (abi_trust config)) registry in
  let registry := register ChainSolana (sol_converter chains) registry in
  let registry := register ChainSui (sui_converter chains) registry in
  let registry := register ChainTron (tron_converter chains) registry in
  let registry := register ChainNear (near_converter chains) registry in
  register ChainUnspecified (unspecified_converter chains) registry.

Definition grpc {A} (code : Code) (message : string) : result fault A :=
  Err (Grpc (MkGrpcError code message)).

Definition charset_fault (e : VisualSignError) : fault :=
  match e with
  | ValidationError _ => Grpc (MkGrpcError CodeInvalidArgument (show_error e))
  | _ => Grpc (MkGrpcError CodeInternal (show_error e))
  end.

Definition parse_with_registry (r : ParseRequest) (ephemeral_key : p256_pair (P256:=E))
    (registry : TransactionConverterRegistry) : result fault ParseResponse :=
  let request_payload := req_unsigned_payload r in
  if decide (request_payload = "") then grpc CodeInvalidArgument "unsigned transaction is empty"
  else
    let options := MkOptions true None (req_chain_metadata r) None
                     (req_include_intermediate_output r) in
    proto_chain ← ok_or (Grpc (MkGrpcError CodeInvalidArgument "invalid chain"))
                    (proto_chain_try_from (req_chain r));
    let registry_chain := proto_to_registry proto_chain in
    conversion ← map_err (fun e => Grpc (MkGrpcError CodeInvalidArgument (show_error e)))
                   (convert_transaction registry registry_chain request_payload options);
    let p := payload conversion in
    _ ← map_err charset_fault (validate_charset p);
    parsed_payload_str ←
      map_err (fun e => Grpc (MkGrpcError CodeInternal
                                ("Failed to serialize payload: " +:+ show_json_error e)))
        (payload_to_string p);
    metadata_bytes ←
      map_err (fun e => Grpc (MkGrpcError CodeInternal
                                ("chain_metadata borsh encode: " +:+ debug_io e)))
        (chain_metadata_bytes (req_chain_metadata r));
    let out := MkParsedTransactionPayload parsed_payload_str
                 (hex_encode (sha_256 (as_bytes request_payload)))
                 (hex_encode (sha_256 metadata_bytes))
                 parsed_payload_str
                 (default [] (intermediate_output conversion)) in
    digest_bytes ← signing_digest_bytes out;
    let digest := sha_256 digest_bytes in
    sig ← ok_or (Grpc (MkGrpcError CodeInternal debug_sign)) (p256_sign ephemeral_key digest);
    let signature := MkProtoSignature (scheme_number TurnkeyP256EphemeralKey)
                       (hex_encode (p256_to_bytes (p256_public_key ephemeral_key)))
                       (hex_encode digest) (hex_encode sig) in
    Ok (MkParseResponse (Some (MkParsedTransaction (Some out) (Some signature)))).

Definition parse (r : ParseRequest) (ephemeral_key : p256_pair (P256:=E)) (config : ParserConfig (P:=P))
    : result fault ParseResponse :=
  _ ← map_err (fun e => Grpc (payment_to_grpc e)) (verify (P:=P) debug_io r (payment config));
  parse_with_registry r ephemeral_key (create_registry config).

(** ** The processor *)

Record Processor := MkProcessor {
  (** Reads the ephemeral key; a failure carries its [Debug] text. *)
  handle : () → result string (p256_pair (P256:=E));
  config : ParserConfig (P:=P);
}.

Definition status (code : Code) (message : string) : QosParserResponse :=
  MkQosParserResponse (Some (StatusOutput (MkStatus (code_number code) message))).

(** [None] when the call panics. *)
Definition process (self : Processor) (request : QosParserRequest) : option QosParserResponse :=
  match handle self () with
  | Err e => Some (status CodeInternal ("unable to get ephemeral key: " +:+ e))
  | Ok ephemeral_key =>
      match qos_input request with
      | None => Some (status CodeInvalidArgument "missing request input")
      | Some (ParseRequestInput parse_request) =>
          match parse parse_request ephemeral_key (config self) with
          | Ok response => Some (MkQosParserResponse (Some (ParseResponseOutput response)))
          | Err (Grpc e) => Some (status (grpc_code e) (grpc_message e))
          | Err Panicked => None
          end
      | Some HealthRequestInput => Some (MkQosParserResponse (Some (HealthResponseOutput 200)))
      end
  end.

(** ** What a response contains *)

Definition request_options (r : ParseRequest) : VisualSignOptions :=
  MkOptions true None (req_chain_metadata r) None (req_include_intermediate_output r).

(** How the payload of a response comes from the request and a conversion. *)
Record attests (r : ParseRequest) (registry : TransactionConverterRegistry)
    (conversion : ConversionResult) (out : ParsedTransactionPayload) : Prop := MkAttests {
  at_converted : ∃ chain,
    proto_chain_try_from (req_chain r) = Some chain ∧
    convert_transaction registry (proto_to_registry chain) (req_unsigned_payload r)
      (request_options r) = Ok conversion;
  at_charset : validate_charset (payload conversion) = Ok ();
  at_text : payload_to_string (payload conversion) = Ok (parsed_payload out);
  at_legacy : signable_payload out = parsed_payload out;
  at_input : input_payload_digest out = hex_encode (sha_256 (as_bytes (req_unsigned_payload r)));
  at_metadata : ∃ m, chain_metadata_bytes (req_chain_metadata r) = Ok m ∧
    metadata_digest out = hex_encode (sha_256 m);
  at_intermediate : ptp_intermediate_output out = default [] (intermediate_output conversion);
}.

(** The signature covers the payload it travels with. *)
Definition signed_by (k : p256_pair (P256:=E)) (out : ParsedTransactionPayload)
    (sig : ProtoSignature) : Prop :=
  ∃ bs raw, signing_digest_bytes out = Ok bs ∧
    sig = MkProtoSignature 1 (hex_encode (p256_to_bytes (p256_public_key k)))
            (hex_encode (sha_256 bs)) (hex_encode raw) ∧
    p256_verify (p256_public_key k) (sha_256 bs) raw = true.

Lemma parse_with_registry_Ok r k registry resp :
  parse_with_registry r k registry = Ok resp →
  req_unsigned_payload r ≠ "" ∧
  ∃ conversion out sig, attests r registry conversion out ∧ signed_by k out sig ∧
    resp = MkParseResponse (Some (MkParsedTransaction (Some out) (Some sig))).
Proof.
  unfold parse_with_registry. case_decide as Hne; [done|]. intros Hp. split; [done|].
  apply result_bind_Ok in Hp as (chain & Hchain & Hp).
  destruct (proto_chain_try_from (req_chain r)) as [c|] eqn:Hc; [|done]. injection Hchain as <-.
  apply result_bind_Ok in Hp as (conv & Hconv%map_err_Ok & Hp).
  apply result_bind_Ok in Hp as ([] & Hval%map_err_Ok & Hp).
  apply result_bind_Ok in Hp as (text & Htext%map_err_Ok & Hp).
  apply result_bind_Ok in Hp as (m & Hm%map_err_Ok & Hp).
  apply result_bind_Ok in Hp as (db & Hdb & Hp).
  apply result_bind_Ok in Hp as (raw & Hraw & [= <-]).
  destruct (p256_sign k (sha_256 db)) as [raw'|] eqn:Hs; [|done]. injection Hraw as <-.
  eexists conv, _, _. split_and!; [|exists db, raw'; split_and!; [done|done|]|done].
  - split; cbn; eauto.
  - by eapply p256_sign_verify.
Qed.

Lemma create_registry_lookup config chain c :
  create_registry config !! chain = Some c →
  chain ∈ [ChainEthereum; ChainSolana; ChainSui; ChainTron; ChainNear; ChainUnspecified].
Proof.
  unfold create_registry, register, registry_new, TransactionConverterRegistry. intros Hl.
  repeat (apply lookup_insert_Some in Hl as [[<- _]|[_ Hl]]; [set_solver|]). done.
Qed.

(** The errors a call reports, whatever the registry. *)
Lemma parse_with_registry_charset r k registry chain conversion text :
  req_unsigned_payload r ≠ "" →
  proto_chain_try_from (req_chain r) = Some chain →
  convert_transaction registry (proto_to_registry chain) (req_unsigned_payload r)
    (request_options r) = Ok conversion →
  to_json (payload conversion) = Ok text →
  validate_charset (payload conversion) ≠ Ok () →
  ∃ message, parse_with_registry r k registry =
    Err (Grpc (MkGrpcError CodeInvalidArgument message)).
Proof.
  intros Hne Hc Hconv Htext Hval. unfold parse_with_registry.
  rewrite decide_False by done. rewrite Hc. cbn [ok_or mbind result_bind].
  fold (request_options r). rewrite Hconv. cbn [map_err mbind result_bind].
  destruct (validate_charset (payload conversion)) as [[]|e] eqn:Hv; [done|].
  unfold validate_charset in Hv. rewrite Htext in Hv. cbn [map_err mbind result_bind] in Hv.
  assert (∃ m, e = ValidationError m) as [m ->].
  { repeat case_split; simplify_eq; by eexists. }
  cbn. by eexists.
Qed.

(** ** Panics *)

Lemma ser_vec_Err v e : ser_vec v = Err e → (2 ^ 32 ≤ Z.of_nat (length v))%Z.
Proof. unfold ser_vec. case_decide; [done|lia]. Qed.

Lemma string_to_vec_Err (s : string) e :
  serialize s = Err e → (2 ^ 32 ≤ Z.of_nat (String.length s))%Z.
Proof. intros Hs%ser_vec_Err. by rewrite length_as_bytes in Hs. Qed.

Lemma hex_digest_short b : ~ (2 ^ 32 ≤ Z.of_nat (String.length (hex_encode (sha_256 b))))%Z.
Proof. rewrite hex_encode_lower, length_hex_of_bytes, sha_256_length. lia. Qed.

(** The digest panics only on a text or an output of 4 GiB or more. *)
Lemma signing_digest_bytes_Err p f :
  signing_digest_bytes p = Err f →
  f = Panicked ∧
  (Exists (fun s => (2 ^ 32 ≤ Z.of_nat (String.length s))%Z)
     [parsed_payload p; input_payload_digest p; metadata_digest p; signable_payload p] ∨
   (2 ^ 32 ≤ Z.of_nat (length (ptp_intermediate_output p)))%Z).
Proof.
  unfold signing_digest_bytes, expect, to_vec, derived_fields. cbn [serialize borsh_pair fst snd].
  destruct (serialize (parsed_payload p)) eqn:E1; cbn [mbind result_bind map_err].
  2: { intros [= <-]. split; [done|left]. apply string_to_vec_Err in E1. by left. }
  destruct (serialize (input_payload_digest p)) eqn:E2; cbn [mbind result_bind map_err].
  2: { intros [= <-]. split; [done|left]. apply string_to_vec_Err in E2. by right; left. }
  destruct (serialize (metadata_digest p)) eqn:E3; cbn [mbind result_bind map_err].
  2: { intros [= <-]. split; [done|left]. apply string_to_vec_Err in E3. by right; right; left. }
  destruct (serialize (signable_payload p)) eqn:E4; cbn [mbind result_bind map_err].
  2: { intros [= <-]. split; [done|left]. apply string_to_vec_Err in E4.
       by right; right; right; left. }
  case_decide; [done|].
  destruct (serialize (ptp_intermediate_output p)) eqn:E5; cbn [mbind result_bind map_err]; [done|].
  intros [= <-]. split; [done|right]. by apply ser_vec_Err in E5.
Qed.
End parse.

(** ** Properties *)

Section properties.
Context {M : SerdeMap} {F : JsonFormat} {D : JsonErrorText}.
Context {S : Sha256} {H : HexCodec} {K : Secp256k1} {P : P256} {E : P256}.
Context {BV : Borsh VerifiedPaymentMarker} {BS : Borsh SignedVerifiedPaymentMarker}
  {BM : Borsh ChainMetadata}.

(** C6: the charset is enforced on the signing path whatever converter produced the payload:
  a conversion with an unclean text is refused as an invalid argument, for any registry. *)
Theorem unclean_payload_refused debug_io debug_sign r k registry chain conversion text :
req_unsigned_payload r ≠ "" →
proto_chain_try_from (req_chain r) = Some chain →
convert_transaction registry (proto_to_registry chain) (req_unsigned_payload r)
  (request_options r) = Ok conversion →
to_json (payload conversion) = Ok text →
~ Forall (fun s => clean s = true) (payload_texts (payload conversion)) →
∃ message, @parse_with_registry M F D S H E BM debug_io debug_sign r k registry =
  Err (Grpc (MkGrpcError CodeInvalidArgument message)).
Proof.
intros Hne Hc Hconv Ht Hcl. eapply parse_with_registry_charset; try done.
by rewrite validate_charset_clean.
Qed.

(** The production registry serves exactly the six enabled chains, so a request for any
  other chain number is refused as an invalid argument before anything is signed. *)
Theorem unsupported_chain_refused debug_io debug_sign chains r k cfg :
req_chain r ∉ [0; 2; 3; 4; 5; 6]%Z →
∃ message, @parse_with_registry M F D S H E BM debug_io debug_sign r k
  (@create_registry P chains cfg) = Err (Grpc (MkGrpcError CodeInvalidArgument message)).
Proof.
intros Hc. unfold parse_with_registry. case_decide; [by eexists|].
destruct (proto_chain_try_from (req_chain r)) as [c|] eqn:Hp; [|by eexists].
cbn [ok_or mbind result_bind]. unfold convert_transaction.
destruct (get_converter _ _) as [conv|] eqn:Hl; [|cbn; by eexists].
exfalso. apply create_registry_lookup in Hl.
unfold proto_chain_try_from in Hp. apply List.find_some in Hp as [_ Hn].
apply bool_decide_eq_true in Hn. rewrite <-Hn in Hc. destruct c; cbn in *; set_solver.
Qed.

(** Signing never panics while the payload text and the intermediate output are shorter
  than 4 GiB; every other failure is reported to the caller. *)
Theorem parse_never_panics debug_io debug_sign r k registry chain conversion text :
proto_chain_try_from (req_chain r) = Some chain →
convert_transaction registry (proto_to_registry chain) (req_unsigned_payload r)
  (request_options r) = Ok conversion →
payload_to_string (payload conversion) = Ok text →
(Z.of_nat (String.length text) < 2 ^ 32)%Z →
(Z.of_nat (length (default [] (intermediate_output conversion))) < 2 ^ 32)%Z →
@parse_with_registry M F D S H E BM debug_io debug_sign r k registry ≠ Err Panicked.
Proof.
intros Hc Hconv Ht Hl Hio. unfold parse_with_registry. case_decide; [done|].
rewrite Hc. cbn [ok_or mbind result_bind]. fold (request_options r).
rewrite Hconv. cbn [map_err mbind result_bind].
destruct (validate_charset _) as [[]|e]; cbn [map_err mbind result_bind]; [|by destruct e].
rewrite Ht. cbn [map_err mbind result_bind].
destruct (chain_metadata_bytes _) as [m|e]; cbn [map_err mbind result_bind]; [|done].
destruct (signing_digest_bytes _) as [db|f] eqn:Hd; cbn [map_err mbind result_bind];
  [by destruct (p256_sign _ _)|].
apply signing_digest_bytes_Err in Hd as [_ [Hs|?]]; cbn in *; [|lia].
rewrite !Exists_cons, Exists_nil in Hs.
destruct Hs as [?|[Hs|[Hs|[?|[]]]]]; try lia; by apply hex_digest_short in Hs.
Qed.
End properties.

(** C1: every response of [parse] answers a request that met the configured payment policy (under
    a pinned key a marker of at most 8192 bytes that the pinned gateway signed for this very
    request; with payments disabled nothing is asked), comes from a conversion by the registered
    converter of the requested chain whose payload passed the charset gate, carries that
    payload's text and the digests of the request's payload and metadata, and is signed by the
    enclave key over exactly the payload it carries. *)
Theorem parse_attested {M : SerdeMap} {F : JsonFormat} {D : JsonErrorText} {S : Sha256}
    {H : HexCodec} {P E : P256} {BM : Borsh ChainMetadata}
    debug_io debug_sign chains r k cfg resp :
  @parse M F D S H P E borsh_vpm borsh_signed BM debug_io debug_sign chains r k cfg = Ok resp →
  payment_met r (payment cfg) ∧ req_unsigned_payload r ≠ "" ∧
  ∃ conversion out sig,
    attests r (create_registry chains cfg) conversion out ∧ signed_by k out sig ∧
    resp = MkParseResponse (Some (MkParsedTransaction (Some out) (Some sig))).
Proof.
  unfold parse. intros ([] & Hv%map_err_Ok & Hp)%result_bind_Ok.
  split; [exact (proj1 (verify_met _ _ _) Hv)|]. by eapply parse_with_registry_Ok.
Qed.


(** The trust posture comes from exactly one of the two options: unsigned ABIs with no
    signer keys, or a list of signer keys that are all valid; both or neither is refused. *)
Theorem abi_trust_exactly_one (H : HexCodec) (K : Secp256k1) accept keys policy :
  abi_trust_from_options accept keys = Ok policy ↔
  (accept = true ∧ keys = [] ∧ policy = AcceptUnsigned) ∨
  (accept = false ∧ keys ≠ [] ∧ ∃ allow,
     signer_allowlist_from_hex keys = Ok allow ∧ policy = RequireAllowlistedSigner allow).
Proof.
  unfold abi_trust_from_options, resolve_signers.
  destruct accept, keys as [|e l]; cbn [length]; try (rewrite bool_decide_true by lia);
    try (rewrite bool_decide_false by lia).
  - naive_solver.
  - naive_solver.
  - naive_solver.
  - destruct (signer_allowlist_from_hex (e :: l)) as [allow|]; cbn [fmap result_fmap]; naive_solver.
Qed.

(** A deployment of toy keys and echoing converters, for the properties above. *)
Module sample_route.
Definition echo {T} (of_string : string → T) (show : T → string) : converter T :=
  @default_converter btree_map compact_format (fun _ => "e") T
    (fun s => of_string <$> echo_parse s) (fun t o => echo_convert (show t) o).

Definition id_string (s : string) : string := s.

Definition chains : chain_converters :=
  let c := echo id_string id_string in
  MkChainConverters string string string string string string (fun _ => c) c c c c c.

(** A converter that skips the gate and shows a right-to-left override. *)
Definition spoof_text : string := str_of_bytes [Byte.xe2; Byte.x80; Byte.xae].

Definition spoof_conversion : ConversionResult :=
  ConversionResult_new (SignablePayload_new 0 spoof_text None [] "EchoTx").

Definition spoofing : converter string :=
  MkConverter string echo_parse (fun _ _ => Ok spoof_conversion) (fun _ _ => Ok spoof_conversion)
    (fun _ _ => Ok spoof_conversion).

Definition spoof_registry : TransactionConverterRegistry := register ChainSolana spoofing registry_new.

Definition cfg : ParserConfig (P:=toy_p256) :=
  MkParserConfig AcceptUnsigned (@Required toy_p256 Byte.x07).

Definition request : ParseRequest := sample_payment.request sample_payment.marker.

Definition key : @p256_pair toy_p256 := Byte.x09.

Definition run : result fault ParseResponse :=
  @parse btree_map compact_format (fun _ => "e") truncation_hash hex_ref toy_p256 toy_p256
    borsh_vpm borsh_signed sample_payment.no_metadata (fun _ => "") "" chains request key cfg.

Definition run_with (registry : TransactionConverterRegistry) (r : ParseRequest)
    : result fault ParseResponse :=
  @parse_with_registry btree_map compact_format (fun _ => "e") truncation_hash hex_ref toy_p256
    sample_payment.no_metadata (fun _ => "") "" r key registry.

Definition conversion : ConversionResult :=
  ConversionResult_new (SignablePayload_new 0 "0xdead" None [sample_amount] "EchoTx").

Definition out (io : bytes) : ParsedTransactionPayload :=
  MkParsedTransactionPayload "{}" "aa" "bb" "{}" io.
End sample_route.

Lemma parse_attested_witness :
  ∃ resp, sample_route.run = Ok resp ∧
  @payment_met truncation_hash hex_ref toy_p256 borsh_vpm borsh_signed sample_payment.no_metadata
    sample_route.request (@Required toy_p256 Byte.x07) ∧ ∃ conversion out sig,
    @attests btree_map compact_format (fun _ => "e") truncation_hash hex_ref
      sample_payment.no_metadata sample_route.request
      (create_registry sample_route.chains sample_route.cfg) conversion out ∧
    @signed_by truncation_hash hex_ref toy_p256 sample_route.key out sig.
Proof.
  destruct sample_route.run as [resp|e] eqn:Hr; [|vm_compute in Hr; discriminate Hr].
  exists resp. split; [reflexivity|].
  destruct (parse_attested (M:=btree_map) (F:=compact_format) (D:=fun _ => "e") (S:=truncation_hash)
    (H:=hex_ref) (P:=toy_p256) (E:=toy_p256)
    (BM:=sample_payment.no_metadata) (fun _ => "") "" sample_route.chains sample_route.request sample_route.key
    sample_route.cfg resp Hr) as (Hpay & _ & conversion & out & sig & Ha & Hs & _).
  split; [exact Hpay|]. exists conversion, out, sig. split; assumption.
Defined.

Lemma unclean_payload_refused_witness :
  ∃ message, sample_route.run_with sample_route.spoof_registry sample_route.request =
    Err (Grpc (MkGrpcError CodeInvalidArgument message)).
Proof.
  destruct (@to_json btree_map compact_format (payload sample_route.spoof_conversion))
    as [text|e] eqn:Ht; [|vm_compute in Ht; discriminate Ht].
  apply (unclean_payload_refused (M:=btree_map) (F:=compact_format) (D:=fun _ => "e") (S:=truncation_hash)
    (H:=hex_ref) (E:=toy_p256)
    (BM:=sample_payment.no_metadata) (fun _ => "") "" sample_route.request sample_route.key
    sample_route.spoof_registry ProtoSolana sample_route.spoof_conversion text);
    [vm_compute; discriminate|reflexivity|reflexivity|exact Ht|].
  intros Hall. apply (bool_decide_pack _) in Hall. vm_compute in Hall. exact Hall.
Defined.

Lemma unsupported_chain_refused_witness :
  ∃ message, sample_route.run_with (create_registry sample_route.chains sample_route.cfg)
    (MkParseRequest "0xdead" 999 None false []) =
    Err (Grpc (MkGrpcError CodeInvalidArgument message)).
Proof.
  apply (unsupported_chain_refused (M:=btree_map) (F:=compact_format) (D:=fun _ => "e") (S:=truncation_hash)
    (H:=hex_ref) (P:=toy_p256) (E:=toy_p256)
    (BM:=sample_payment.no_metadata) (fun _ => "") "" sample_route.chains
    (MkParseRequest "0xdead" 999 None false []) sample_route.key sample_route.cfg). by_decision.
Defined.

Lemma parse_never_panics_witness :
  sample_route.run_with (create_registry sample_route.chains sample_route.cfg) sample_route.request
    ≠ Err Panicked.
Proof.
  destruct (@payload_to_string btree_map compact_format (payload sample_route.conversion))
    as [text|e] eqn:Ht; [|vm_compute in Ht; discriminate Ht].
  apply (parse_never_panics (M:=btree_map) (F:=compact_format) (D:=fun _ => "e") (S:=truncation_hash)
    (H:=hex_ref) (E:=toy_p256)
    (BM:=sample_payment.no_metadata) (fun _ => "") "" sample_route.request sample_route.key
    (create_registry sample_route.chains sample_route.cfg) ProtoSolana sample_route.conversion text);
    [reflexivity|vm_compute; reflexivity|exact Ht| |by vm_compute].
  vm_compute in Ht. injection Ht as <-. by vm_compute.
Defined.

