(* ===== verification/Turnkey.v ===== *)
(** * The Turnkey envelope ([host_primitives/src/turnkey.rs])

    The JSON request and response of the parse endpoints of the gateway and of the HTTP
    server, with the derived codecs of the response, and the chain and scheme names of
    [generated/src/generated/parser.rs] they use. *)

From S2P Require Import Prelude Json Payload External Proto.

(** ** Names of the wire enums *)

Definition chain_as_str_name (c : ProtoChain) : string :=
  match c with
  | ProtoUnspecified => "CHAIN_UNSPECIFIED"
  | ProtoBitcoin => "CHAIN_BITCOIN"
  | ProtoEthereum => "CHAIN_ETHEREUM"
  | ProtoSolana => "CHAIN_SOLANA"
  | ProtoSui => "CHAIN_SUI"
  | ProtoTron => "CHAIN_TRON"
  | ProtoNear => "CHAIN_NEAR"
  | ProtoCustom => "CHAIN_CUSTOM"
  end.

Definition chain_from_str_name (value : string) : option ProtoChain :=
  if decide (value = "CHAIN_UNSPECIFIED") then Some ProtoUnspecified
  else if decide (value = "CHAIN_BITCOIN") then Some ProtoBitcoin
  else if decide (value = "CHAIN_ETHEREUM") then Some ProtoEthereum
  else if decide (value = "CHAIN_SOLANA") then Some ProtoSolana
  else if decide (value = "CHAIN_SUI") then Some ProtoSui
  else if decide (value = "CHAIN_TRON") then Some ProtoTron
  else if decide (value = "CHAIN_NEAR") then Some ProtoNear
  else if decide (value = "CHAIN_CUSTOM") then Some ProtoCustom
  else None.

Definition scheme_as_str_name (s : SignatureScheme) : string :=
  match s with
  | SchemeUnspecified => "SIGNATURE_SCHEME_UNSPECIFIED"
  | TurnkeyP256EphemeralKey => "SIGNATURE_SCHEME_TURNKEY_P256_EPHEMERAL_KEY"
  end.

(** [SignatureScheme::try_from(i32)]. *)
Definition scheme_try_from (v : Z) : option SignatureScheme :=
  if decide (v = 0)%Z then Some SchemeUnspecified
  else if decide (v = 1)%Z then Some TurnkeyP256EphemeralKey
  else None.

Lemma chain_from_str_name_iff value c :
  chain_from_str_name value = Some c ↔ value = chain_as_str_name c.
Proof.
  unfold chain_from_str_name. split; [repeat case_decide; naive_solver|].
  intros ->. by destruct c.
Qed.

(** ** Requests *)

Definition EMPTY_SHA256 : string :=
  "e3b0c44298fc1c149afbf4c8996fb92427ae41e4649b934ca495991b7852b855".

Inductive ChainMetadataInput : Type :=
| InputEthereum (m : EthereumMetadata)
| InputSolana (m : SolanaMetadata)
| InputNear (m : NearMetadata).

Definition metadata_from_input (input : ChainMetadataInput) : ChainMetadata :=
  MkChainMetadata (Some (match input with
                         | InputEthereum eth => EthereumM eth
                         | InputSolana sol => SolanaM sol
                         | InputNear near => NearM near
                         end)).

Record TurnkeyRequest := MkTurnkeyRequest {
  tk_unsigned_payload : string;
  tk_chain : string;
  tk_chain_metadata : option ChainMetadataInput;
  tk_include_intermediate_output : bool;
}.

Record TurnkeyRequestWrapper := MkTurnkeyRequestWrapper { tk_request : TurnkeyRequest }.

(** ** Responses *)

Record TurnkeyBootProof := MkTurnkeyBootProof {
  aws_attestation_doc_b64 : string;
  qos_manifest_b64 : string;
  qos_manifest_envelope_b64 : string;
  ephemeral_public_key_hex : string;
  enclave_app : string;
  deployment_label : string;
}.

Record TurnkeyPayload := MkTurnkeyPayload {
  tp_signable_payload : string;
  tp_metadata_digest : string;
  tp_input_payload_digest : string;
  tp_intermediate_output : string;
}.

Record TurnkeySignature := MkTurnkeySignature {
  ts_message : string;
  ts_public_key : string;
  ts_scheme : string;
  ts_signature : string;
}.

Record TurnkeyParsedTransaction := MkTurnkeyParsedTransaction {
  tpt_payload : TurnkeyPayload;
  tpt_signature : option TurnkeySignature;
}.

Record TurnkeyResponse := MkTurnkeyResponse { tr_parsed_transaction : TurnkeyParsedTransaction }.

Record TurnkeyResponseWrapper := MkTurnkeyResponseWrapper {
  trw_boot_proof : TurnkeyBootProof;
  trw_response : TurnkeyResponse;
  trw_error : option string;
}.

Definition error_response (msg : string) (boot_proof : TurnkeyBootProof) : TurnkeyResponseWrapper :=
  MkTurnkeyResponseWrapper boot_proof
    (MkTurnkeyResponse (MkTurnkeyParsedTransaction
       (MkTurnkeyPayload "" EMPTY_SHA256 EMPTY_SHA256 "") None))
    (Some msg).

Definition success_response (boot_proof : TurnkeyBootProof) (payload : TurnkeyPayload)
    (signature : option TurnkeySignature) : TurnkeyResponseWrapper :=
  MkTurnkeyResponseWrapper boot_proof
    (MkTurnkeyResponse (MkTurnkeyParsedTransaction payload signature)) None.

(** ** The derived codecs *)

Section serialize.
Context {M : SerdeMap}.

Definition boot_proof_to_value (b : TurnkeyBootProof) : json :=
  struct_value
    [("awsAttestationDocB64", JString (aws_attestation_doc_b64 b));
     ("qosManifestB64", JString (qos_manifest_b64 b));
     ("qosManifestEnvelopeB64", JString (qos_manifest_envelope_b64 b));
     ("ephemeralPublicKeyHex", JString (ephemeral_public_key_hex b));
     ("enclaveApp", JString (enclave_app b));
     ("deploymentLabel", JString (deployment_label b))].

Definition turnkey_payload_to_value (p : TurnkeyPayload) : json :=
  struct_value
    ([("signablePayload", JString (tp_signable_payload p));
      ("metadataDigest", JString (tp_metadata_digest p));
      ("inputPayloadDigest", JString (tp_input_payload_digest p))]
     ++ nonempty_entry "intermediateOutput" (tp_intermediate_output p)).

Definition turnkey_signature_to_value (s : TurnkeySignature) : json :=
  struct_value
    [("message", JString (ts_message s));
     ("publicKey", JString (ts_public_key s));
     ("scheme", JString (ts_scheme s));
     ("signature", JString (ts_signature s))].

Definition turnkey_transaction_to_value (t : TurnkeyParsedTransaction) : json :=
  struct_value
    ([("payload", turnkey_payload_to_value (tpt_payload t))]
     ++ opt_entry "signature" turnkey_signature_to_value (tpt_signature t)).

Definition turnkey_response_to_value (r : TurnkeyResponse) : json :=
  struct_value [("parsedTransaction", turnkey_transaction_to_value (tr_parsed_transaction r))].

Definition turnkey_wrapper_to_value (w : TurnkeyResponseWrapper) : json :=
  struct_value
    ([("bootProof", boot_proof_to_value (trw_boot_proof w));
      ("response", turnkey_response_to_value (trw_response w))]
     ++ opt_entry "error" JString (trw_error w)).
End serialize.

(** Derived [Deserialize] from a value: a field is found by name, unknown names are ignored, a
    missing [Option] is [None], as is [null], and a field with [default] may be missing. [None]
    stands for an error. *)
Definition de_string (j : json) : option string :=
  match j with JString s => Some s | _ => None end.

Definition de_entries (j : json) : option (list (string * json)) :=
  match j with JObject m => Some m | _ => None end.

Definition de_field {A} (key : string) (de : json → option A) (m : list (string * json)) : option A :=
  assoc key m ≫= de.

Definition de_optional {A} (key : string) (de : json → option A) (m : list (string * json))
    : option (option A) :=
  match assoc key m with
  | None | Some JNull => Some None
  | Some j => Some <$> de j
  end.

Definition de_default (key : string) (m : list (string * json)) : option string :=
  match assoc key m with None => Some "" | Some j => de_string j end.

Definition boot_proof_of_value (j : json) : option TurnkeyBootProof :=
  m ← de_entries j;
  doc ← de_field "awsAttestationDocB64" de_string m;
  manifest ← de_field "qosManifestB64" de_string m;
  envelope ← de_field "qosManifestEnvelopeB64" de_string m;
  key ← de_field "ephemeralPublicKeyHex" de_string m;
  app ← de_field "enclaveApp" de_string m;
  label ← de_field "deploymentLabel" de_string m;
  Some (MkTurnkeyBootProof doc manifest envelope key app label).

Definition turnkey_payload_of_value (j : json) : option TurnkeyPayload :=
  m ← de_entries j;
  signable ← de_field "signablePayload" de_string m;
  metadata ← de_field "metadataDigest" de_string m;
  input ← de_field "inputPayloadDigest" de_string m;
  intermediate ← de_default "intermediateOutput" m;
  Some (MkTurnkeyPayload signable metadata input intermediate).

Definition turnkey_signature_of_value (j : json) : option TurnkeySignature :=
  m ← de_entries j;
  message ← de_field "message" de_string m;
  key ← de_field "publicKey" de_string m;
  scheme ← de_field "scheme" de_string m;
  sig ← de_field "signature" de_string m;
  Some (MkTurnkeySignature message key scheme sig).

Definition turnkey_transaction_of_value (j : json) : option TurnkeyParsedTransaction :=
  m ← de_entries j;
  payload ← de_field "payload" turnkey_payload_of_value m;
  sig ← de_optional "signature" turnkey_signature_of_value m;
  Some (MkTurnkeyParsedTransaction payload sig).

Definition turnkey_response_of_value (j : json) : option TurnkeyResponse :=
  m ← de_entries j;
  tx ← de_field "parsedTransaction" turnkey_transaction_of_value m;
  Some (MkTurnkeyResponse tx).

Definition turnkey_wrapper_of_value (j : json) : option TurnkeyResponseWrapper :=
  m ← de_entries j;
  proof ← de_field "bootProof" boot_proof_of_value m;
  response ← de_field "response" turnkey_response_of_value m;
  error ← de_optional "error" de_string m;
  Some (MkTurnkeyResponseWrapper proof response error).

(** ** Round trip *)

(** A name is found in a struct as it was written, with either build of the map. *)
Lemma assoc_struct {M : SerdeMap} k entries :
  bool_decide (NoDup (keys entries)) = true → assoc k (map_from entries) = assoc k entries.
Proof.
  intros Hn%bool_decide_eq_true. symmetry. apply assoc_perm; [done|].
  symmetry. by apply map_from_perm.
Qed.

Ltac pick :=
  repeat first [rewrite decide_True by reflexivity | rewrite decide_False by discriminate].

Ltac read_struct :=
  unfold struct_value; cbn [de_entries mbind option_bind];
  unfold de_field, de_optional, de_default;
  repeat (rewrite assoc_struct by reflexivity; cbn [assoc app]; pick;
          cbn [mbind option_bind de_string fmap option_fmap option_map]).

Section round_trip.
Context {M : SerdeMap}.

Lemma boot_proof_round_trip b : boot_proof_of_value (boot_proof_to_value b) = Some b.
Proof. unfold boot_proof_of_value, boot_proof_to_value. read_struct. by destruct b. Qed.

Lemma turnkey_signature_json_round_trip s :
  turnkey_signature_of_value (turnkey_signature_to_value s) = Some s.
Proof. unfold turnkey_signature_of_value, turnkey_signature_to_value. read_struct. by destruct s. Qed.

Lemma turnkey_payload_round_trip p :
  turnkey_payload_of_value (turnkey_payload_to_value p) = Some p.
Proof.
  destruct p as [a b c io]. unfold turnkey_payload_of_value, turnkey_payload_to_value, nonempty_entry.
  unfold is_empty_string. cbn [tp_intermediate_output]. case_bool_decide as Hio; read_struct;
    [by rewrite Hio|done].
Qed.

Lemma turnkey_transaction_round_trip t :
  turnkey_transaction_of_value (turnkey_transaction_to_value t) = Some t.
Proof.
  destruct t as [p [s|]]; unfold turnkey_transaction_of_value, turnkey_transaction_to_value, opt_entry;
    cbn [tpt_payload tpt_signature]; read_struct; rewrite turnkey_payload_round_trip;
    cbn [mbind option_bind]; read_struct; [|done].
  pose proof (turnkey_signature_json_round_trip s) as Hs.
  unfold turnkey_signature_to_value at 1. unfold struct_value at 1.
  fold (struct_value [("message", JString (ts_message s)); ("publicKey", JString (ts_public_key s));
    ("scheme", JString (ts_scheme s)); ("signature", JString (ts_signature s))]).
  fold (turnkey_signature_to_value s). by rewrite Hs.
Qed.
End round_trip.

(** A response envelope reads back from its JSON as it was, with either build of the map: a
    missing [error], [signature] or [intermediateOutput] on the wire means exactly that there
    was none. *)
Theorem envelope_round_trip (M : SerdeMap) w :
  turnkey_wrapper_of_value (turnkey_wrapper_to_value w) = Some w.
Proof.
  destruct w as [b [t] [e|]]; unfold turnkey_wrapper_of_value, turnkey_wrapper_to_value, opt_entry;
    cbn [trw_boot_proof trw_response trw_error]; read_struct; rewrite boot_proof_round_trip;
    cbn [mbind option_bind]; read_struct;
    unfold turnkey_response_of_value, turnkey_response_to_value; cbn [tr_parsed_transaction];
    read_struct; rewrite turnkey_transaction_round_trip; cbn [mbind option_bind]; by read_struct.
Qed.
