(* ===== verification/GatewayAuth.v ===== *)
(** * The gateway's bearer gate

    [parser/gateway/src/env_util.rs], the readers of environment variables and small files
    that the gateway's loaders share, and [parser/gateway/src/auth.rs], the token loaded at
    start-up and the gate in front of every route but [/health]. *)

From S2P Require Import Prelude Json Payload Charset External Encodings Payment.

(** ** Environment and files ([env_util.rs]) *)

(** What [std::env::var] finds under a name. *)
Inductive env_value : Type := VarNotPresent | VarNotUnicode | VarSet (value : string).

Definition environment : Type := string → env_value.

(** The files of the host by path; opening or reading one can fail with a message. *)
Definition files : Type := string → result string bytes.

Definition checked_env_var {E} (env : environment) (key : string) (not_unicode : string → E)
    : result E (option string) :=
  match env key with
  | VarSet v => Ok (Some v)
  | VarNotPresent => Ok None
  | VarNotUnicode => Err (not_unicode key)
  end.

Definition read_bounded_file {E} (fs : files) (path : string) (max_size : nat)
    (read_err : string → string → E) (too_large_err : string → nat → E) : result E string :=
  file ← map_err (read_err path) (fs path);
  let bounded := take (max_size + 1) file in
  let contents := str_of_bytes bounded in
  if utf8_valid contents then
    if decide (max_size < String.length contents) then Err (too_large_err path max_size)
    else Ok contents
  else Err (read_err path "stream did not contain valid UTF-8").

Lemma checked_env_var_Ok {E} env key (f : string → E) o :
  checked_env_var env key f = Ok o ↔
  env key ≠ VarNotUnicode ∧ o = match env key with VarSet v => Some v | _ => None end.
Proof. unfold checked_env_var. destruct (env key); naive_solver. Qed.

(** A file is returned whole or not at all. *)
Lemma read_bounded_file_Ok {E} fs path max_size (re : string → string → E) te s :
  read_bounded_file fs path max_size re te = Ok s ↔
  fs path = Ok (as_bytes s) ∧ String.length s ≤ max_size ∧ utf8_valid s = true.
Proof.
  unfold read_bounded_file. split.
  - intros (file & Hf%map_err_Ok & Hr)%result_bind_Ok. revert Hr. cbv zeta.
    destruct (utf8_valid _) eqn:Hu; [|done]. case_decide as Hl; [done|]. intros [= <-].
    rewrite <-(as_str_of_bytes file) in Hf. rewrite <-length_as_bytes, as_str_of_bytes in Hl.
    rewrite length_take in Hl.
    assert (take (max_size + 1) file = file) as E1 by (apply take_ge; lia).
    rewrite E1 in *. rewrite <-length_as_bytes, as_str_of_bytes.
    split_and!; [by rewrite as_str_of_bytes in Hf|lia|done].
  - intros (-> & Hl & Hu). cbn [map_err mbind result_bind].
    rewrite <-length_as_bytes in Hl. rewrite take_ge by lia.
    rewrite str_of_as_bytes, Hu. by rewrite decide_False by (rewrite <-length_as_bytes; lia).
Qed.

(** ** Header values ([http])

    A value is legal when it has no control character but the tab; it reads as text when it
    is also ASCII. [subtle]'s comparison is equality. *)

Definition header_byte (c : Ascii.ascii) : bool :=
  (32 <=? code c) && negb (code c =? 127) || (code c =? 9).

Class HttpCrates : Type := {
  header_value : Type;
  header_from_str : string → option header_value;
  header_to_str : header_value → option string;
  ct_eq : bytes → bytes → bool;
  header_from_str_legal s : is_Some (header_from_str s) ↔ str_all header_byte s = true;
  header_to_from s h :
    header_from_str s = Some h → str_all is_ascii s = true → header_to_str h = Some s;
  header_to_str_ascii h s : header_to_str h = Some s → str_all is_ascii s = true;
  ct_eq_iff a b : ct_eq a b = true ↔ a = b;
}.

#[local] Unset Program Cases.

Program Definition http_ref : HttpCrates := {|
  header_value := string;
  header_from_str s := if str_all header_byte s then Some s else None;
  header_to_str h := if str_all is_ascii h then Some h else None;
  ct_eq a b := bool_decide (a = b) |}.
Next Obligation. intros s. cbv beta. destruct (str_all header_byte s); [naive_solver|].
  split; [by intros [? ?]|done]. Qed.
Next Obligation. intros s h. cbv beta. destruct (str_all header_byte s); [|done]. by intros [= <-] ->. Qed.
Next Obligation. intros h s. cbv beta. destruct (str_all is_ascii h) eqn:E; [|done]. by intros [= <-]. Qed.
Next Obligation. intros a b. cbv beta. by rewrite bool_decide_eq_true. Qed.

(** ** The token *)

Definition MIN_TOKEN_BYTES : nat := 16.
Definition MAX_BEARER_FILE_SIZE : nat := 4096.

Inductive AuthError : Type :=
| AuthBothSet
| AuthReadFile (path message : string)
| AuthFileTooLarge (path : string) (max : nat)
| AuthEmpty (origin : string)
| AuthNotUnicode (var : string)
| AuthInvalidHeaderBytes (origin : string)
| AuthTooShort (len min : nat).

Definition show_auth_error (e : AuthError) : string :=
  match e with
  | AuthBothSet =>
      "both GATEWAY_AUTH_BEARER_TOKEN and GATEWAY_AUTH_BEARER_FILE are set; choose one"
  | AuthReadFile path message =>
      "failed to read GATEWAY_AUTH_BEARER_FILE=" +:+ path +:+ ": " +:+ message
  | AuthFileTooLarge path max =>
      "GATEWAY_AUTH_BEARER_FILE=" +:+ path +:+ " exceeds maximum size ("
      +:+ show_nat max +:+ " bytes)"
  | AuthEmpty origin => "bearer token from " +:+ origin +:+ " is empty after trim"
  | AuthNotUnicode var => var +:+ " contains invalid (non-UTF-8) bytes"
  | AuthInvalidHeaderBytes origin =>
      "bearer token from " +:+ origin +:+ " contains bytes illegal in an HTTP header value"
  | AuthTooShort len min =>
      "bearer token is " +:+ show_nat len +:+ " bytes; must be at least "
      +:+ show_nat min +:+ " bytes"
  end.

Record BearerToken := MkBearerToken { token_bytes : bytes }.

Definition byte_len (t : BearerToken) : nat := length (token_bytes t).

(** [Option::transpose] after a fallible map. *)
Definition traverse_opt {E A B} (f : A → result E B) (o : option A) : result E (option B) :=
  match o with Some a => b ← f a; Ok (Some b) | None => Ok None end.

Section auth.
Context {HC : HttpCrates}.

Definition read_bearer_file (fs : files) (path : string) : result AuthError string :=
  read_bounded_file fs path MAX_BEARER_FILE_SIZE AuthReadFile AuthFileTooLarge.

Definition trim_and_store (raw origin : string) : result AuthError (option BearerToken) :=
  let trimmed := trim raw in
  if decide (trimmed = "") then Err (AuthEmpty origin)
  else if negb (bool_decide (is_Some (header_from_str trimmed))) || negb (str_all is_ascii trimmed)
  then Err (AuthInvalidHeaderBytes origin)
  else Ok (Some (MkBearerToken (as_bytes trimmed))).

Definition from_sources (inline file_contents : option string)
    : result AuthError (option BearerToken) :=
  match inline, file_contents with
  | None, None => Ok None
  | Some _, Some _ => Err AuthBothSet
  | Some raw, None => trim_and_store raw "GATEWAY_AUTH_BEARER_TOKEN"
  | None, Some raw => trim_and_store raw "GATEWAY_AUTH_BEARER_FILE"
  end.

Definition read_env_var (env : environment) (key : string) : result AuthError (option string) :=
  checked_env_var env key AuthNotUnicode.

Definition bearer_from_env (env : environment) (fs : files)
    : result AuthError (option BearerToken) :=
  inline ← read_env_var env "GATEWAY_AUTH_BEARER_TOKEN";
  file_path ← read_env_var env "GATEWAY_AUTH_BEARER_FILE";
  if bool_decide (is_Some inline) && bool_decide (is_Some file_path) then Err AuthBothSet
  else
    file_contents ← traverse_opt (read_bearer_file fs) file_path;
    token ← from_sources inline file_contents;
    match token with
    | Some t =>
        let len := byte_len t in
        if decide (len < MIN_TOKEN_BYTES) then Err (AuthTooShort len MIN_TOKEN_BYTES)
        else Ok token
    | None => Ok token
    end.

Definition token_matches (self : BearerToken) (candidate : bytes) : bool :=
  if decide (length candidate ≠ length (token_bytes self)) then false
  else ct_eq candidate (token_bytes self).

(** ** The decision *)

Inductive AuthOutcome : Type := Allow | Deny.

(** What follows a white-space character at the head of a text. *)
Definition after_ws (s : string) : option string :=
  match s with
  | String a s1 =>
      if is_ws1 a then Some s1 else
      match s1 with
      | String b s2 =>
          if is_ws2 a b then Some s2 else
          match s2 with
          | String c s3 => if is_ws3 a b c then Some s3 else None
          | "" => None
          end
      | "" => None
      end
  | "" => None
  end.

(** [str::split_once(char::is_whitespace)]. *)
Fixpoint split_once_ws (s : string) : option (string * string) :=
  match after_ws s with
  | Some rest => Some ("", rest)
  | None =>
      match s with
      | String a s1 => '(x, r) ← split_once_ws s1; Some (String a x, r)
      | "" => None
      end
  end.

Definition split_auth_scheme (header : string) : option (string * string) :=
  '(scheme, rest) ← split_once_ws header; Some (scheme, trim_start rest).

Definition evaluate_request (path : string) (authorization_header : option string)
    (expected : BearerToken) : AuthOutcome :=
  if decide (path = "/health") then Allow
  else
    match authorization_header ≫= split_auth_scheme with
    | Some (scheme, rest) =>
        if eq_ignore_ascii_case scheme "bearer" then
          if token_matches expected (as_bytes rest) then Allow else Deny
        else Deny
    | None => Deny
    end.

(** The middleware: what runs next, or 401. *)
Definition require_bearer_token {R} (token : BearerToken) (path : string)
    (authorization : option header_value) (next : R) (unauthorized : R) : R :=
  let header := authorization ≫= header_to_str in
  match evaluate_request path header token with
  | Allow => next
  | Deny => unauthorized
  end.

(** ** Lemmas *)

Lemma ws1_ascii c : is_ws1 c = true → is_ascii c = true.
Proof. ascii_cases c; done. Qed.

Lemma ascii_not_ws23 a :
  is_ascii a = true → (∀ b, is_ws2 a b = false) ∧ ∀ b c, is_ws3 a b c = false.
Proof. unfold is_ws2, is_ws3. ascii_cases a; done. Qed.

(** On an ASCII text the three white-space lengths reduce to one. *)
Lemma after_ws_ascii a s : is_ascii a = true →
  after_ws (String a s) = if is_ws1 a then Some s else None.
Proof.
  intros [H2 H3]%ascii_not_ws23. cbn. destruct (is_ws1 a); [done|].
  destruct s as [|b s]; [done|]. rewrite H2. destruct s as [|c s]; [done|]. by rewrite H3.
Qed.

Lemma trim_start_ascii a s : is_ascii a = true →
  trim_start (String a s) = if is_ws1 a then trim_start s else String a s.
Proof.
  intros [H2 H3]%ascii_not_ws23. cbn [trim_start]. destruct (is_ws1 a); [done|].
  destruct s as [|b s]; [done|]. rewrite H2. destruct s as [|c s]; [done|]. by rewrite H3.
Qed.

Definition not_ws (c : Ascii.ascii) : bool := negb (is_ws1 c).

Lemma split_once_ws_ascii s x r :
  str_all is_ascii s = true → split_once_ws s = Some (x, r) →
  ∃ c, s = x +:+ String c r ∧ is_ws1 c = true.
Proof.
  revert x. induction s as [|a s IH]; intros x; [done|].
  cbn [str_all]. intros [Ha Hs]%andb_true_iff. cbn [split_once_ws]. rewrite after_ws_ascii by done.
  destruct (is_ws1 a) eqn:Hw; [intros [= <- <-]; by exists a|].
  destruct (split_once_ws s) as [[y q]|] eqn:Hq; [|done]. cbn. intros [= <- <-].
  destruct (IH y Hs eq_refl) as (c & -> & Hc). exists c. by rewrite str_cons_app.
Qed.

Lemma split_once_ws_app x c r :
  str_all is_ascii x = true → str_all not_ws x = true → is_ws1 c = true →
  split_once_ws (x +:+ String c r) = Some (x, r).
Proof.
  intros Hx Hn Hc. induction x as [|a x IH].
  - rewrite str_nil_app. cbn [split_once_ws]. rewrite after_ws_ascii by (by apply ws1_ascii).
    by rewrite Hc.
  - cbn [str_all] in *. apply andb_true_iff in Hx as [Ha Hx], Hn as [Hna Hn].
    rewrite str_cons_app. cbn [split_once_ws]. rewrite after_ws_ascii by done.
    unfold not_ws in Hna. apply negb_true_iff in Hna as ->. by rewrite IH.
Qed.

Lemma trim_start_gap s : str_all is_ascii s = true →
  ∃ w, s = w +:+ trim_start s ∧ str_all is_ws1 w = true.
Proof.
  induction s as [|a s IH]; [by exists ""|]. cbn [str_all]. intros [Ha Hs]%andb_true_iff.
  rewrite trim_start_ascii by done. destruct (is_ws1 a) eqn:Hw; [|by exists ""].
  destruct (IH Hs) as (w & E & Hall). exists (String a w). rewrite str_cons_app, <-E.
  split; [done|]. cbn. by rewrite Hw.
Qed.

Lemma trim_start_app_gap w s : str_all is_ws1 w = true → trim_start (w +:+ s) = trim_start s.
Proof.
  induction w as [|a w IH]; [done|]. cbn [str_all]. intros [Ha Hw]%andb_true_iff.
  rewrite str_cons_app, trim_start_ascii, Ha by (by apply ws1_ascii). auto.
Qed.

(** What [trim] leaves does not begin with white space. *)
Lemma trim_start_not_ws : ∀ s a t, trim_start s = String a t → is_ws1 a = false.
Proof.
  fix IH 1. intros [|x s1] a t; [done|]. cbn [trim_start].
  destruct (is_ws1 x) eqn:Hx; [apply IH|].
  destruct s1 as [|y s2]; [intros [= <- _]; done|].
  destruct (is_ws2 x y); [apply IH|].
  destruct s2 as [|z s3]; [intros [= <- _]; done|].
  destruct (is_ws3 x y z); [apply IH|]. by intros [= <- _].
Qed.

Lemma trim_end_head s a t : trim_end s = String a t → ∃ u, s = String a u.
Proof. destruct s as [|x s]; [done|]. cbn [trim_end]. case_decide; [done|]. intros [= <- _]. by eexists. Qed.

Lemma trim_trim_start raw : str_all is_ascii (trim raw) = true → trim_start (trim raw) = trim raw.
Proof.
  unfold trim. destruct (trim_end (trim_start raw)) as [|a t] eqn:E; [done|].
  apply trim_end_head in E as [u E]. apply trim_start_not_ws in E.
  cbn [str_all]. intros [Ha _]%andb_true_iff. by rewrite trim_start_ascii, E.
Qed.

Lemma token_matches_iff t c : token_matches t c = true ↔ c = token_bytes t.
Proof.
  unfold token_matches. case_decide as Hl; [|apply ct_eq_iff]. split; [done|]. by intros ->.
Qed.

(** ** Loaded tokens *)

(** What the loader guarantees of a token. *)
Record token_ok (t : BearerToken) (text : string) : Prop := MkTokenOk {
  tok_bytes : token_bytes t = as_bytes text;
  tok_long : MIN_TOKEN_BYTES ≤ String.length text;
  tok_ascii : str_all is_ascii text = true;
  tok_legal : str_all header_byte text = true;
  tok_trimmed : trim_start text = text;
}.

Lemma trim_and_store_Ok raw origin o :
  trim_and_store raw origin = Ok o ↔
  o = Some (MkBearerToken (as_bytes (trim raw))) ∧ trim raw ≠ "" ∧
  str_all header_byte (trim raw) = true ∧ str_all is_ascii (trim raw) = true.
Proof.
  unfold trim_and_store. cbv zeta. case_decide; [naive_solver|].
  rewrite <-header_from_str_legal. destruct (str_all is_ascii (trim raw)); cbn.
  - case_bool_decide; cbn; naive_solver.
  - rewrite orb_true_r. naive_solver.
Qed.

Lemma from_sources_Ok inline file t :
  from_sources inline file = Ok (Some t) →
  ∃ raw, (inline = Some raw ∧ file = None ∨ inline = None ∧ file = Some raw) ∧
    t = MkBearerToken (as_bytes (trim raw)) ∧
    str_all header_byte (trim raw) = true ∧ str_all is_ascii (trim raw) = true.
Proof.
  unfold from_sources.
  destruct inline as [raw|], file as [raw'|]; try done;
    intros (?%(inj Some) & _ & ? & ?)%trim_and_store_Ok; eauto 10.
Qed.

Lemma bearer_from_env_Ok env fs t :
  bearer_from_env env fs = Ok (Some t) → ∃ text, token_ok t text.
Proof.
  unfold bearer_from_env. intros (inline & _ & Hr)%result_bind_Ok.
  apply result_bind_Ok in Hr as (path & _ & Hr). case_split; [done|].
  apply result_bind_Ok in Hr as (file & _ & Hr).
  apply result_bind_Ok in Hr as (token & Hs & Hr).
  destruct token as [t'|]; [|done]. case_decide as Hlen; [done|]. injection Hr as ->.
  apply from_sources_Ok in Hs as (raw & _ & -> & Hh & Ha). exists (trim raw).
  unfold byte_len in Hlen. cbn in Hlen. rewrite length_as_bytes in Hlen.
  split; [done|unfold MIN_TOKEN_BYTES in *; lia|done|done|by apply trim_trim_start].
Qed.

Lemma not_ws_lower c : not_ws (lower_ascii c) = not_ws c.
Proof. ascii_cases c; done. Qed.
Lemma ascii_lower c : is_ascii (lower_ascii c) = is_ascii c.
Proof. ascii_cases c; done. Qed.

(** A scheme that names the bearer is made of letters. *)
Lemma bearer_letters s : to_ascii_lowercase s = "bearer" →
  str_all is_ascii s = true ∧ str_all not_ws s = true.
Proof.
  intros E. assert (str_all is_ascii (to_ascii_lowercase s) = true ∧
    str_all not_ws (to_ascii_lowercase s) = true) as H by (by rewrite E).
  clear E. induction s as [|a s IH]; [done|]. cbn [str_all to_ascii_lowercase] in *.
  rewrite not_ws_lower, ascii_lower, !andb_true_iff in H. rewrite !andb_true_iff. naive_solver.
Qed.

(** The credentials a header carries for the bearer scheme. *)
Definition bearer_header (header text : string) : Prop :=
  ∃ scheme gap, header = scheme +:+ gap +:+ text ∧ to_ascii_lowercase scheme = "bearer" ∧
    gap ≠ "" ∧ str_all is_ws1 gap = true.

Lemma evaluate_header header t text :
  token_ok t text → str_all is_ascii header = true → ∀ path, path ≠ "/health" →
  evaluate_request path (Some header) t = Allow ↔ bearer_header header text.
Proof.
  intros [Hb _ _ _ Htrim] Hh path Hp. unfold evaluate_request. rewrite decide_False by done.
  cbn [mbind option_bind]. unfold split_auth_scheme. split.
  - destruct (split_once_ws header) as [[x r]|] eqn:Hs; [|done]. cbn.
    unfold eq_ignore_ascii_case. case_bool_decide as Hc; [|done].
    destruct (token_matches t _) eqn:Hm; [|done]. intros _.
    apply token_matches_iff in Hm. rewrite Hb in Hm. apply (inj as_bytes) in Hm.
    apply split_once_ws_ascii in Hs as (c & -> & Hw); [|done].
    rewrite str_all_app in Hh. cbn in Hh. apply andb_true_iff in Hh as [_ [_ Hr]%andb_true_iff].
    destruct (trim_start_gap r Hr) as (w & E & Hall). exists x, (String c w).
    split_and!; [by rewrite str_cons_app, <-Hm, <-E|done|done|]. cbn. by rewrite Hw.
  - intros (x & gap & -> & Hx & Hg & Hgap). destruct gap as [|c gap]; [done|].
    cbn [str_all] in Hgap. apply andb_true_iff in Hgap as [Hc Hgap].
    destruct (bearer_letters x Hx) as [Hxa Hxn].
    rewrite str_cons_app, split_once_ws_app by done. cbn.
    rewrite trim_start_app_gap, Htrim by done. unfold eq_ignore_ascii_case.
    rewrite bool_decide_true by done.
    by rewrite (proj2 (token_matches_iff t (as_bytes text)) (eq_sym Hb)).
Qed.
End auth.

(** ** Properties *)

(** With a loaded token the gate admits a request exactly when it asks for [/health] or its
    authorisation header reads as the word bearer in any case, white space, and the very text
    of the token, which has at least sixteen bytes; any other request gets the 401. *)
Theorem bearer_gate_exact (HC : HttpCrates) env fs t :
  bearer_from_env env fs = Ok (Some t) →
  ∃ text, MIN_TOKEN_BYTES ≤ String.length text ∧ token_bytes t = as_bytes text ∧
    ∀ R path authorization (next deny : R), next ≠ deny →
    require_bearer_token t path authorization next deny = next ↔
    path = "/health" ∨ ∃ h header, authorization = Some h ∧ header_to_str h = Some header ∧
      bearer_header header text.
Proof.
  intros (text & Ht)%bearer_from_env_Ok. exists text.
  split_and!; [apply Ht|apply Ht|]. intros R path auth next deny Hne. unfold require_bearer_token.
  destruct (decide (path = "/health")) as [->|Hp].
  { unfold evaluate_request. rewrite decide_True by done. tauto. }
  destruct auth as [h|]; cbn [mbind option_bind].
  2: { unfold evaluate_request. rewrite decide_False by done. cbn. naive_solver. }
  destruct (header_to_str h) as [header|] eqn:Hh.
  2: { unfold evaluate_request. rewrite decide_False by done. cbn. naive_solver. }
  pose proof (evaluate_header header t text Ht (header_to_str_ascii _ _ Hh) path Hp) as Hev.
  destruct (evaluate_request path (Some header) t) eqn:Ho.
  - split; [intros _|done]. right. exists h, header. split_and!; [done|done|by apply Hev].
  - split; [by intros ->|]. intros [?|(h' & header' & [= <-] & Hh' & Hb)]; [done|].
    assert (header' = header) as -> by congruence. by apply Hev in Hb.
Qed.

(** A token that start-up accepts can be used: the header made of the word Bearer, a space and
    the token is a legal header value, and a request that carries it passes the gate on every
    route. *)
Theorem loaded_token_usable (HC : HttpCrates) env fs t :
  bearer_from_env env fs = Ok (Some t) →
  ∃ h, header_from_str ("Bearer " +:+ str_of_bytes (token_bytes t)) = Some h ∧
    ∀ R path (next deny : R), require_bearer_token t path (Some h) next deny = next.
Proof.
  intros (text & Ht)%bearer_from_env_Ok. pose proof Ht as [Hb _ Ha Hl Htrim].
  rewrite Hb, str_of_as_bytes.
  assert (str_all header_byte ("Bearer " +:+ text) = true) as Hall
    by (rewrite str_all_app, Hl; reflexivity).
  apply header_from_str_legal in Hall as [h Hh]. exists h. split; [done|].
  intros R path next deny. unfold require_bearer_token. cbn [mbind option_bind].
  assert (str_all is_ascii ("Bearer " +:+ text) = true) as Hasc
    by (rewrite str_all_app, Ha; reflexivity).
  rewrite (header_to_from _ _ Hh Hasc).
  destruct (decide (path = "/health")) as [->|Hp]; [done|].
  rewrite (proj2 (evaluate_header _ _ _ Ht Hasc path Hp)); [done|].
  exists "Bearer", " ". by rewrite str_app_assoc.
Qed.

(** Start-up with a token of eighteen characters between spaces, in the environment. *)
Module sample_auth.
Definition env : environment := fun k =>
  if decide (k = "GATEWAY_AUTH_BEARER_TOKEN") then VarSet " 0123456789abcdef+/ " else VarNotPresent.
Definition no_files : files := fun _ => Err "No such file or directory (os error 2)".
Definition token : BearerToken := MkBearerToken (as_bytes "0123456789abcdef+/").
Definition run := @bearer_from_env http_ref env no_files.
End sample_auth.

Lemma bearer_gate_exact_witness :
  ∃ text, MIN_TOKEN_BYTES ≤ String.length text ∧ token_bytes sample_auth.token = as_bytes text ∧
    (@require_bearer_token http_ref bool sample_auth.token "/visualsign/api/v1/parse"
       (Some ("bEARER   " +:+ text)) true false = true).
Proof.
  destruct (bearer_gate_exact http_ref sample_auth.env sample_auth.no_files sample_auth.token)
    as (text & Hl & Hb & Hg); [vm_compute; reflexivity|].
  exists text. split; [assumption|]. split; [assumption|].
  apply (Hg bool _ _ true false); [discriminate|]. right.
  apply (inj as_bytes) in Hb. subst text.
  eexists _, _. split; [reflexivity|]. split; [vm_compute; reflexivity|].
  exists "bEARER", "   ". split; [vm_compute; reflexivity|]. repeat split; discriminate.
Defined.

Lemma loaded_token_usable_witness :
  ∃ h, @header_from_str http_ref "Bearer 0123456789abcdef+/" = Some h ∧
    @require_bearer_token http_ref bool sample_auth.token "/visualsign/api/v2/parse" (Some h)
      true false = true.
Proof.
  destruct (loaded_token_usable http_ref sample_auth.env sample_auth.no_files sample_auth.token)
    as (h & Hh & Hr); [vm_compute; reflexivity|].
  exists h. split; [exact Hh|]. apply Hr.
Defined.

(** A name that is set but not Unicode is an error, never the unset default. *)
Lemma malformed_variable_refused (HC : HttpCrates) env fs :
  env "GATEWAY_AUTH_BEARER_TOKEN" = VarNotUnicode ∨
  env "GATEWAY_AUTH_BEARER_FILE" = VarNotUnicode →
  ∃ e, bearer_from_env env fs = Err e.
Proof.
  unfold bearer_from_env, read_env_var, checked_env_var.
  intros [-> | ->]; [by eexists|].
  destruct (env "GATEWAY_AUTH_BEARER_TOKEN"); cbn; by eexists.
Qed.
