(* ===== verification/Attestation.v ===== *)
(** * The gateway's response verifier ([parser/gateway/src/attestation.rs])

    The gateway pins one enclave key at start-up and checks that every response it forwards
    was signed by it. The signed bytes are computed again from the forwarded payload, by a
    copy of the enclave's function; the two are shown to agree. *)

From S2P Require Import Prelude Json Payload Grpc Charset External Encodings Signing.
From S2P Require Import Proto Registry Borsh Payment AbiMetadata ParseRoute GatewayAuth Turnkey.

Inductive AttestationError : Type :=
| UnsupportedScheme (name : string)
| PubkeyMismatch
| AttHex (field message : string)
| InvalidPinnedKey (message : string)
| VerifyFailed
| PubkeyFile (path message : string)
| PubkeyFileTooLarge (path : string) (max : nat)
| DigestSerialization (message : string)
| PubkeyBothSet
| PubkeyNotUnicode (var : string).

Definition show_attestation_error (e : AttestationError) : string :=
  match e with
  | UnsupportedScheme name => "unsupported signature scheme: " +:+ name
  | PubkeyMismatch =>
      "public key mismatch: response key does not match pinned TVC verifier key"
  | AttHex field message => "hex decode error in " +:+ field +:+ ": " +:+ message
  | InvalidPinnedKey m => "invalid pinned TVC public key: " +:+ m
  | VerifyFailed => "signature verification failed"
  | PubkeyFile path message => "failed to read TVC pubkey file " +:+ path +:+ ": " +:+ message
  | PubkeyFileTooLarge path max =>
      "TVC pubkey file " +:+ path +:+ " exceeds maximum size (" +:+ show_nat max +:+ " bytes)"
  | DigestSerialization m => "failed to serialize payload for digest recomputation: " +:+ m
  | PubkeyBothSet =>
      "both TVC_DEMO_PINNED_PUBKEY_HEX and TVC_DEMO_PINNED_PUBKEY_FILE are set; choose one"
  | PubkeyNotUnicode var => var +:+ " contains invalid (non-UTF-8) bytes"
  end.

Definition MAX_PUBKEY_FILE_SIZE : nat := 4096.

(** The gateway's copy of the enclave's function: an error here, a panic there. *)
Definition signing_digest_bytes (p : ParsedTransactionPayload) : result AttestationError bytes :=
  bs ← map_err (fun e => DigestSerialization (show_io_error e)) (serialize (derived_fields p));
  if decide (ptp_intermediate_output p = []) then Ok bs
  else
    more ← map_err (fun e => DigestSerialization (show_io_error e))
             (serialize (ptp_intermediate_output p));
    Ok (bs ++ more).

(** [qos_hex::decode], which drops a lower-case prefix; a failure carries its [Debug] text. *)
Class QosHex (H : HexCodec) : Type := {
  qos_hex_decode : string → result string bytes;
  qos_hex_decode_encode bs : qos_hex_decode (hex_encode bs) = Ok bs;
}.

#[local] Unset Program Cases.

Program Definition qos_hex_ref : QosHex hex_ref :=
  {| qos_hex_decode s := map_err (fun _ => "hex") (hex_decode_ref (default s (strip_prefix "0x" s))) |}.
Next Obligation.
  intros bs. cbv beta. pose proof (strip_hex_prefix_digits (hex_of_bytes bs) (hex_of_bytes_digits bs)) as E.
  cbn [hex_encode hex_ref]. unfold strip_hex_prefix in E.
  destruct (strip_prefix "0x" (hex_of_bytes bs)) as [t|] eqn:Ht; cbn [default].
  - rewrite E. apply map_err_Ok, (hex_decode_encode (HexCodec:=hex_ref)).
  - apply map_err_Ok, (hex_decode_encode (HexCodec:=hex_ref)).
Qed.

Section attestation.
Context {S : Sha256} {H : HexCodec} {Q : QosHex H} {E : P256} `{!EqDecision (p256_public (P256:=E))}.
Record AttestationVerifier := MkAttestationVerifier { pinned_public : p256_public (P256:=E) }.

Definition verify_response (self : AttestationVerifier) (sig : ProtoSignature)
    (payload : ParsedTransactionPayload) : result AttestationError bytes :=
  if decide (sig_scheme sig ≠ scheme_number TurnkeyP256EphemeralKey) then
    let scheme_name :=
      if decide (sig_scheme sig = scheme_number SchemeUnspecified)
      then "SIGNATURE_SCHEME_UNSPECIFIED"
      else "UNKNOWN(" +:+ show_Z (sig_scheme sig) +:+ ")" in
    Err (UnsupportedScheme scheme_name)
  else
    response_bytes ← map_err (AttHex "signature.public_key") (qos_hex_decode (sig_public_key sig));
    response_public ← ok_or PubkeyMismatch (p256_from_bytes response_bytes);
    if decide (response_public ≠ pinned_public self) then Err PubkeyMismatch
    else
      digest_bytes ← signing_digest_bytes payload;
      let expected_digest := sha_256 digest_bytes in
      signature_bytes ← map_err (AttHex "signature.signature") (qos_hex_decode (sig_signature sig));
      if p256_verify (pinned_public self) expected_digest signature_bytes
      then Ok expected_digest else Err VerifyFailed.

Definition pinned_hex (self : AttestationVerifier) : string :=
  hex_encode (p256_to_bytes (pinned_public self)).

(** What an accepted response is: signed by the pinned key over the payload it carries. *)
Record attested (pinned : p256_public (P256:=E)) (sig : ProtoSignature)
    (p : ParsedTransactionPayload) (digest : bytes) : Prop := MkAttested {
  att_scheme : sig_scheme sig = scheme_number TurnkeyP256EphemeralKey;
  att_key : ∃ b, qos_hex_decode (sig_public_key sig) = Ok b ∧ p256_from_bytes b = Some pinned;
  att_digest : ∃ bs, ParseRoute.signing_digest_bytes p = Ok bs ∧ digest = sha_256 bs;
  att_signature : ∃ raw, qos_hex_decode (sig_signature sig) = Ok raw ∧
    p256_verify pinned digest raw = true;
}.

Lemma signing_digest_bytes_enclave p bs :
  signing_digest_bytes p = Ok bs ↔ ParseRoute.signing_digest_bytes p = Ok bs.
Proof.
  unfold signing_digest_bytes, ParseRoute.signing_digest_bytes, expect, to_vec.
  destruct (serialize (derived_fields p)); cbn [map_err mbind result_bind]; [|by split].
  case_decide; [split; congruence|].
  destruct (serialize (ptp_intermediate_output p)); cbn [map_err mbind result_bind];
    split; congruence.
Qed.

Lemma verify_response_Ok self sig p d :
  verify_response self sig p = Ok d ↔ attested (pinned_public self) sig p d.
Proof.
  unfold verify_response. split.
  - case_decide as Hs; [done|].
    intros (b & Hb%map_err_Ok & Hr)%result_bind_Ok.
    apply result_bind_Ok in Hr as (pk & Hpk & Hr).
    destruct (p256_from_bytes b) as [pk'|] eqn:Hfb; [|done]. injection Hpk as ->.
    case_decide as Hp; [done|]. apply result_bind_Ok in Hr as (db & Hdb & Hr).
    apply result_bind_Ok in Hr as (raw & Hraw%map_err_Ok & Hr).
    destruct (p256_verify _ _ _) eqn:Hv; [|done]. injection Hr as <-.
    apply signing_digest_bytes_enclave in Hdb.
    subst. split; eauto.
  - intros [Hs (b & Hb & Hpk) (bs & Hbs & ->) (raw & Hraw & Hv)].
    rewrite decide_False by tauto. rewrite Hb. cbn [map_err mbind result_bind].
    rewrite Hpk. cbn [ok_or mbind result_bind]. rewrite decide_False by tauto.
    apply signing_digest_bytes_enclave in Hbs. rewrite Hbs. cbn [mbind result_bind].
    rewrite Hraw. cbn [map_err mbind result_bind]. by rewrite Hv.
Qed.

(** The verifier that pins the key of an enclave accepts what it signs. *)
Lemma signed_by_attested k out sig bs :
  ParseRoute.signing_digest_bytes out = Ok bs → signed_by k out sig →
  attested (p256_public_key k) sig out (sha_256 bs) ∧ sig_message sig = hex_encode (sha_256 bs).
Proof.
  intros Hbs (bs' & raw & Hbs' & -> & Hv). assert (bs' = bs) as -> by congruence.
  split; [|done]. split; cbn; [done| | |].
  - eexists. split; [apply qos_hex_decode_encode|apply p256_from_to_bytes].
  - by eexists.
  - eexists. split; [apply qos_hex_decode_encode|done].
Qed.

(** ** Loading the key *)

(** The [Debug] texts of a hex error and of a refused key. *)
Context (debug_hex : FromHexError → string) (debug_p256 : bytes → string).

Definition from_hex_with_source (hex_value source : string)
    : result AttestationError AttestationVerifier :=
  pinned_bytes ← map_err (fun e => AttHex source (debug_hex e)) (decode_hex (trim hex_value));
  pinned ← ok_or (InvalidPinnedKey (debug_p256 pinned_bytes)) (p256_from_bytes pinned_bytes);
  Ok (MkAttestationVerifier pinned).

Definition verifier_from_hex (hex_value : string) : result AttestationError AttestationVerifier :=
  from_hex_with_source hex_value "TVC_DEMO_PINNED_PUBKEY_HEX".

Definition read_pubkey_file (fs : files) (path : string) : result AttestationError string :=
  read_bounded_file fs path MAX_PUBKEY_FILE_SIZE PubkeyFile PubkeyFileTooLarge.

Definition verifier_from_lookup (fs : files) (get : string → option string)
    : result AttestationError (option AttestationVerifier) :=
  match get "TVC_DEMO_PINNED_PUBKEY_HEX", get "TVC_DEMO_PINNED_PUBKEY_FILE" with
  | Some _, Some _ => Err PubkeyBothSet
  | Some s, None => Some <$> from_hex_with_source s "TVC_DEMO_PINNED_PUBKEY_HEX"
  | None, Some path =>
      contents ← read_pubkey_file fs path;
      Some <$> from_hex_with_source (trim contents) "TVC_DEMO_PINNED_PUBKEY_FILE"
  | None, None => Ok None
  end.

Definition attestation_env_var (env : environment) (key : string)
    : result AttestationError (option string) :=
  checked_env_var env key PubkeyNotUnicode.

Definition verifier_from_env (env : environment) (fs : files)
    : result AttestationError (option AttestationVerifier) :=
  hex_value ← attestation_env_var env "TVC_DEMO_PINNED_PUBKEY_HEX";
  file_path ← attestation_env_var env "TVC_DEMO_PINNED_PUBKEY_FILE";
  verifier_from_lookup fs (fun key =>
    if decide (key = "TVC_DEMO_PINNED_PUBKEY_HEX") then hex_value
    else if decide (key = "TVC_DEMO_PINNED_PUBKEY_FILE") then file_path
    else None).

(** A key comes from exactly one of the two variables, or none is pinned. *)
Lemma verifier_from_env_None env fs :
  verifier_from_env env fs = Ok None ↔
  env "TVC_DEMO_PINNED_PUBKEY_HEX" = VarNotPresent ∧
  env "TVC_DEMO_PINNED_PUBKEY_FILE" = VarNotPresent.
Proof.
  unfold verifier_from_env, attestation_env_var, checked_env_var, verifier_from_lookup.
  destruct (env "TVC_DEMO_PINNED_PUBKEY_HEX"), (env "TVC_DEMO_PINNED_PUBKEY_FILE");
    cbn [mbind result_bind]; pick; try naive_solver.
  - destruct (read_pubkey_file fs value); cbn; [|naive_solver].
    destruct (from_hex_with_source (trim _) _); cbn; naive_solver.
  - destruct (from_hex_with_source value _); cbn; naive_solver.
Qed.
End attestation.
Arguments AttestationVerifier E : clear implicits.
