(* ===== verification/GatewayConfig.v ===== *)
(** * The gateway's payment configuration ([parser/gateway/src/x402_config.rs])

    Profiles, the loader of the environment, the facilitator URL and timeout checks, the
    price tags and the middleware built from them, and [x402_targets_real_settlement] of
    [parser/gateway/src/main.rs]. *)

From S2P Require Import Prelude Json Payload External DecimalText Encodings Payment GatewayAuth.

Inductive X402Profile : Type := Local | PayAi | Custom.

#[export] Instance X402Profile_eq_dec : EqDecision X402Profile.
Proof. solve_decision. Defined.

Inductive ConfigError : Type :=
| UnknownProfile (name : string)
| MissingVar (var : string)
| InvalidVar (var message : string)
| JsonParse (message : string).

Definition show_config_error (e : ConfigError) : string :=
  match e with
  | UnknownProfile name => "unknown X402_PROFILE: " +:+ name
  | MissingVar var => "missing required env var: " +:+ var
  | InvalidVar var message => "invalid env var " +:+ var +:+ ": " +:+ message
  | JsonParse message => "X402_PRICE_TAGS_JSON parse error: " +:+ message
  end.

Definition profile_from_str (s : string) : result ConfigError X402Profile :=
  if decide (s = "local") then Ok Local
  else if decide (s = "payai") then Ok PayAi
  else if decide (s = "custom") then Ok Custom
  else Err (UnknownProfile s).

Inductive PayToAddress : Type := Evm (s : string) | Solana (s : string).

Inductive PriceScheme : Type := Exact.

#[export] Instance PriceScheme_eq_dec : EqDecision PriceScheme.
Proof. solve_decision. Defined.

Definition scheme_from_str (s : string) : result ConfigError PriceScheme :=
  if decide (s = "exact") then Ok Exact
  else Err (InvalidVar "X402_PRICE_TAGS_JSON"
              ("unsupported scheme '" +:+ s +:+ "'; only 'exact' is supported")).

Definition SOLANA_BURN_PAYTO : string := "11111111111111111111111111111111".

(** ** The wire form of the tags *)

Record PayToWire := MkPayToWire { wire_evm : option string; wire_solana : option string }.

(** [wire_scheme] is the field when it is there. *)
Record PriceTagWire := MkPriceTagWire {
  wire_network : string;
  wire_asset : string;
  wire_price_usd : string;
  wire_pay_to : PayToWire;
  wire_scheme : option string;
}.

Definition default_scheme : string := "exact".

Definition into_pay_to (self : PayToWire) : result ConfigError PayToAddress :=
  match wire_evm self, wire_solana self with
  | Some s, None =>
      let normalized := match split_hex_prefix s with
                        | Some hex_body => "0x" +:+ hex_body
                        | None => s
                        end in
      Ok (Evm normalized)
  | None, Some s => Ok (Solana s)
  | _, _ => Err (InvalidVar "X402_PRICE_TAGS_JSON" "payTo must specify exactly one of evm or solana")
  end.

(** ** [from_str] of an unsigned integer, by its largest value *)

(** ** What other crates provide

    [url], [rust_decimal], [serde_json] and the address parsers of the x402 crates, each
    failing with the [Display] text of its error. A decimal that fits is a [u64]; the two
    prices that the code itself writes are decimals. *)
Class X402Crates : Type := {
  url : Type;
  url_parse : string → result string url;
  url_scheme : url → string;
  url_host_str : url → option string;
  url_username : url → string;
  url_password : url → option string;
  facilitator_client : Type;
  facilitator_try_new : url → result string facilitator_client;
  decimal : Type;
  decimal_from_str : string → result string decimal;
  decimal_from_u64 : Z → decimal;
  is_sign_negative : decimal → bool;
  checked_mul : decimal → decimal → option decimal;
  round : decimal → decimal;
  to_u64 : decimal → option Z;
  show_decimal : decimal → string;
  tags_from_json : string → result string (list PriceTagWire);
  checksummed_address : Type;
  checksummed_from_str : string → result string checksummed_address;
  solana_address : Type;
  solana_from_str : string → result string solana_address;
  to_u64_range d n : to_u64 d = Some n → (0 ≤ n ≤ U64_MAX)%Z;
  decimal_seeds s : s ∈ ["0.0001"; "0.001"] → ∃ d, decimal_from_str s = Ok d;
}.

Section config.
Context {X : X402Crates}.

Record PriceTagConfig := MkPriceTagConfig {
  ptc_network : string;
  ptc_asset : string;
  price_usd : decimal;
  pay_to : PayToAddress;
  ptc_scheme : PriceScheme;
}.

(** [facilitator_timeout] in seconds. *)
Record X402Config := MkX402Config {
  profile : X402Profile;
  facilitator_url : url;
  facilitator_timeout : Z;
  protocol_version : string;
  price_tags : list PriceTagConfig;
}.

(** ** Loading *)

Definition X402_ENV_KEYS : list string :=
  ["X402_PROFILE"; "X402_FACILITATOR_URL"; "X402_FACILITATOR_TIMEOUT_SECS";
   "X402_PROTOCOL_VERSION"; "X402_PRICE_TAGS_JSON"; "X402_NETWORK"; "X402_PAYTO"].

Definition is_loopback (host : option string) : bool :=
  bool_decide (host ∈ Some <$> ["127.0.0.1"; "localhost"; "::1"; "[::1]"]).

Definition validate_facilitator_url (u : url) (profile : X402Profile) : result ConfigError () :=
  let loopback_http_in_local :=
    bool_decide (profile = Local) && bool_decide (url_scheme u = "http")
    && is_loopback (url_host_str u) in
  if negb (bool_decide (url_scheme u = "https")) && negb loopback_http_in_local then
    Err (InvalidVar "X402_FACILITATOR_URL"
           ("scheme '" +:+ url_scheme u +:+ "' not allowed; use https (or http against a "
            +:+ "loopback host under X402_PROFILE=local)"))
  else if negb (bool_decide (url_username u = "")) || bool_decide (is_Some (url_password u)) then
    Err (InvalidVar "X402_FACILITATOR_URL" "must not contain userinfo (user:pass@host)")
  else Ok ().

Definition load_facilitator_url (get : string → option string) (profile : X402Profile)
    : result ConfigError url :=
  s ← match get "X402_FACILITATOR_URL", profile with
      | Some s, _ => Ok s
      | None, Local => Ok "http://127.0.0.1:8090"
      | None, PayAi => Ok "https://facilitator.payai.network"
      | None, Custom => Err (MissingVar "X402_FACILITATOR_URL")
      end;
  u ← map_err (InvalidVar "X402_FACILITATOR_URL") (url_parse s);
  _ ← validate_facilitator_url u profile;
  Ok u.

Definition validate_timeout (secs : Z) : result ConfigError () :=
  if decide (secs = 0)%Z
  then Err (InvalidVar "X402_FACILITATOR_TIMEOUT_SECS" "must be greater than 0")
  else Ok ().

Definition load_timeout (get : string → option string) : result ConfigError Z :=
  match get "X402_FACILITATOR_TIMEOUT_SECS" with
  | Some s =>
      secs ← map_err (InvalidVar "X402_FACILITATOR_TIMEOUT_SECS") (uint_from_str U64_MAX s);
      _ ← validate_timeout secs;
      Ok secs
  | None => Ok 5%Z
  end.

Definition classify_payto (s : string) : result ConfigError PayToAddress :=
  let unrecognized := Err (InvalidVar "X402_PAYTO" "not a recognizable EVM or Solana address") in
  match split_hex_prefix s with
  | Some hex_body =>
      if decide (String.length hex_body = 40) then Ok (Evm ("0x" +:+ hex_body)) else unrecognized
  | None => if decide (s = "") then unrecognized else Ok (Solana s)
  end.

Definition seed_price (price_str : string) : result ConfigError decimal :=
  map_err (InvalidVar "(internal seed price)") (decimal_from_str price_str).

(** The network, the price and the default payee of a seeded tag. *)
Definition seed_row (get : string → option string) (profile : X402Profile)
    : result ConfigError (string * string * option PayToAddress) :=
  match get "X402_NETWORK" with
  | Some network =>
      if decide (network = "base-sepolia") then Ok ("base-sepolia", "0.0001", None)
      else if decide (network = "base") then Ok ("base", "0.001", None)
      else if decide (network = "solana") then Ok ("solana", "0.001", None)
      else if decide (network = "solana-devnet") then Ok ("solana-devnet", "0.001", None)
      else Err (InvalidVar "X402_NETWORK"
                  ("unsupported network '" +:+ network +:+ "'; expected one of "
                   +:+ "base-sepolia, base, solana, solana-devnet"))
  | None =>
      match profile with
      | Local =>
          Ok ("base-sepolia", "0.0001", Some (Evm "0x000000000000000000000000000000000000dEaD"))
      | PayAi => Ok ("base", "0.001", None)
      | Custom => Err (MissingVar "X402_PRICE_TAGS_JSON")
      end
  end.

Definition seeded_tag (get : string → option string) (profile : X402Profile)
    : result ConfigError PriceTagConfig :=
  '(network, price_str, default_payto) ← seed_row get profile;
  price ← seed_price price_str;
  payto ← match get "X402_PAYTO", default_payto with
          | Some s, _ => classify_payto s
          | None, Some p => Ok p
          | None, None => Err (MissingVar "X402_PAYTO")
          end;
  Ok (MkPriceTagConfig network "USDC" price payto Exact).

Definition tag_from_wire (w : PriceTagWire) : result ConfigError PriceTagConfig :=
  if decide (wire_asset w ≠ "USDC") then
    Err (InvalidVar "X402_PRICE_TAGS_JSON"
           ("unsupported asset '" +:+ wire_asset w +:+ "'; only 'USDC' is supported"))
  else
    price ← map_err (fun e => InvalidVar "X402_PRICE_TAGS_JSON" ("priceUsd: " +:+ e))
              (decimal_from_str (wire_price_usd w));
    payto ← into_pay_to (wire_pay_to w);
    scheme ← scheme_from_str (default default_scheme (wire_scheme w));
    Ok (MkPriceTagConfig (wire_network w) (wire_asset w) price payto scheme).

Definition parse_tags_json (json : string) : result ConfigError (list PriceTagConfig) :=
  wire ← map_err JsonParse (tags_from_json json);
  collect_results tag_from_wire wire.

Definition load_price_tags (get : string → option string) (profile : X402Profile)
    : result ConfigError (list PriceTagConfig) :=
  match get "X402_PRICE_TAGS_JSON" with
  | Some json => parse_tags_json json
  | None =>
      tag ← seeded_tag get profile;
      if bool_decide (profile = Local) && bool_decide (get "X402_NETWORK" = None) then
        price ← seed_price "0.0001";
        Ok [tag; MkPriceTagConfig "solana-devnet" "USDC" price (Solana SOLANA_BURN_PAYTO) Exact]
      else Ok [tag]
  end.

Definition x402_from_lookup (get : string → option string) : result ConfigError X402Config :=
  profile ← profile_from_str (default "local" (get "X402_PROFILE"));
  facilitator_url ← load_facilitator_url get profile;
  facilitator_timeout ← load_timeout get;
  let protocol_version := default "v2" (get "X402_PROTOCOL_VERSION") in
  if decide (protocol_version ≠ "v2") then
    Err (InvalidVar "X402_PROTOCOL_VERSION"
           ("unsupported value '" +:+ protocol_version +:+ "'; only 'v2' is supported"))
  else
    price_tags ← load_price_tags get profile;
    if decide (price_tags = []) then
      Err (InvalidVar "X402_PRICE_TAGS_JSON" "must contain at least one tag")
    else Ok (MkX402Config profile facilitator_url facilitator_timeout protocol_version price_tags).

Definition x402_env_var (env : environment) (key : string) : result ConfigError (option string) :=
  checked_env_var env key (fun var => InvalidVar var "contains invalid (non-UTF-8) bytes").

(** The loop of [from_env] that fills the map of resolved variables. *)
Fixpoint resolve_vars (env : environment) (names : list string)
    (resolved : list (string * option string)) : result ConfigError (list (string * option string)) :=
  match names with
  | [] => Ok resolved
  | key :: names =>
      v ← x402_env_var env key;
      resolve_vars env names (btree_insert key v resolved)
  end.

Definition x402_from_env (env : environment) : result ConfigError X402Config :=
  resolved ← resolve_vars env X402_ENV_KEYS [];
  x402_from_lookup (fun key => assoc key resolved ≫= id).

(** ** The middleware *)

(** The four deployments of USDC that a tag can be priced in. *)
Inductive usdc : Type := UsdcBaseSepolia | UsdcBase | UsdcSolana | UsdcSolanaDevnet.

(** A price tag, by the call that makes it. *)
Inductive PriceTag : Type :=
| Eip155Tag (payee : checksummed_address) (asset : usdc) (atomic : Z)
| SolanaTag (payee : solana_address) (asset : usdc) (atomic : Z).

Record X402LayerBuilder := MkLayer {
  layer_facilitator : facilitator_client;
  layer_timeout : Z;
  layer_tags : list PriceTag;
}.

Definition parse_payto_addr {A} (from_str : string → result string A) (addr_s kind field : string)
    : result ConfigError A :=
  map_err (fun e => InvalidVar field ("invalid " +:+ kind +:+ " address '" +:+ addr_s +:+ "': " +:+ e))
    (from_str addr_s).

Definition pay_to_kind (p : PayToAddress) : string :=
  match p with Evm _ => "evm" | Solana _ => "solana" end.

(** [str]'s [Debug] text of the network is a parameter. *)
Definition build_price_tag (debug_str : string → string) (tag : PriceTagConfig)
    : result ConfigError PriceTag :=
  if decide (ptc_asset tag ≠ "USDC") then
    Err (InvalidVar "priceUsd"
           ("unsupported asset '" +:+ ptc_asset tag +:+ "'; only 'USDC' is supported"))
  else if decide (ptc_scheme tag ≠ Exact) then
    Err (InvalidVar "X402_PRICE_TAGS_JSON" "unsupported scheme; only 'exact' is supported")
  else if is_sign_negative (price_usd tag) then
    Err (InvalidVar "priceUsd"
           ("price " +:+ show_decimal (price_usd tag) +:+ " must not be negative"))
  else
    atomic ← ok_or
               (InvalidVar "priceUsd"
                  ("price " +:+ show_decimal (price_usd tag) +:+ " overflows USDC atomic units (u64)"))
               (d ← checked_mul (price_usd tag) (decimal_from_u64 1000000); to_u64 (round d));
    if decide (atomic = 0)%Z then
      Err (InvalidVar "priceUsd"
             ("price " +:+ show_decimal (price_usd tag)
              +:+ " rounds to 0 USDC atomic units; the route would be free"))
    else
      let unsupported :=
        Err (InvalidVar "X402_PRICE_TAGS_JSON"
               ("unsupported (payTo, network) combination: (" +:+ debug_str (pay_to_kind (pay_to tag))
                +:+ ", " +:+ debug_str (ptc_network tag) +:+ ")")) in
      match pay_to tag with
      | Evm addr_s =>
          if decide (ptc_network tag = "base-sepolia") then
            addr ← parse_payto_addr checksummed_from_str addr_s "EVM" "payTo.evm";
            Ok (Eip155Tag addr UsdcBaseSepolia atomic)
          else if decide (ptc_network tag = "base") then
            addr ← parse_payto_addr checksummed_from_str addr_s "EVM" "payTo.evm";
            Ok (Eip155Tag addr UsdcBase atomic)
          else unsupported
      | Solana addr_s =>
          if decide (ptc_network tag = "solana") then
            addr ← parse_payto_addr solana_from_str addr_s "Solana" "payTo.solana";
            Ok (SolanaTag addr UsdcSolana atomic)
          else if decide (ptc_network tag = "solana-devnet") then
            addr ← parse_payto_addr solana_from_str addr_s "Solana" "payTo.solana";
            Ok (SolanaTag addr UsdcSolanaDevnet atomic)
          else unsupported
      end.

Definition build_middleware (debug_str : string → string) (self : X402Config)
    : result ConfigError X402LayerBuilder :=
  if decide (protocol_version self ≠ "v2") then
    Err (InvalidVar "X402_PROTOCOL_VERSION"
           ("unsupported value '" +:+ protocol_version self +:+ "'; only 'v2' is supported"))
  else
    _ ← validate_facilitator_url (facilitator_url self) (profile self);
    _ ← validate_timeout (facilitator_timeout self);
    facilitator ← map_err (InvalidVar "X402_FACILITATOR_URL")
                    (facilitator_try_new (facilitator_url self));
    tags ← collect_results (build_price_tag debug_str) (price_tags self);
    match tags with
    | [] => Err (InvalidVar "X402_PRICE_TAGS_JSON" "must contain at least one tag")
    | first :: rest =>
        Ok (MkLayer facilitator (facilitator_timeout self)
              (foldl (fun builder tag => builder ++ [tag]) [first] rest))
    end.

(** ** [main.rs] *)

Definition x402_targets_real_settlement (cfg : X402Config) : bool :=
  let facilitator_is_loopback := is_loopback (url_host_str (facilitator_url cfg)) in
  let any_mainnet_tag :=
    existsb (fun tag => bool_decide (ptc_network tag ∈ ["base"; "solana"])) (price_tags cfg) in
  negb facilitator_is_loopback || any_mainnet_tag.
End config.

Arguments PriceTagConfig : clear implicits.
Arguments PriceTagConfig {X}.

(** ** What a loaded configuration guarantees *)

Section lemmas.
Context {X : X402Crates}.

Record facilitator_ok (u : url) (p : X402Profile) : Prop := MkFacilitatorOk {
  fac_scheme : url_scheme u = "https" ∨
    p = Local ∧ url_scheme u = "http" ∧ is_loopback (url_host_str u) = true;
  fac_username : url_username u = "";
  fac_password : url_password u = None;
}.

Lemma validate_facilitator_url_Ok u p : validate_facilitator_url u p = Ok () ↔ facilitator_ok u p.
Proof.
  unfold validate_facilitator_url. cbv zeta. split.
  - destruct (negb _ && negb _) eqn:Hs; [done|]. destruct (negb _ || _) eqn:Hu; [done|]. intros _.
    apply orb_false_iff in Hu as [Hn%negb_false_iff%bool_decide_eq_true Hp%bool_decide_eq_false].
    split; [|done|by apply eq_None_not_Some].
    apply andb_false_iff in Hs as [Hs%negb_false_iff|Hs%negb_false_iff].
    + left. by apply bool_decide_eq_true in Hs.
    + right. rewrite !andb_true_iff, !bool_decide_eq_true in Hs. naive_solver.
  - intros [Hs Hn Hp]. rewrite Hn, Hp.
    replace (negb (bool_decide (url_scheme u = "https")) && _) with false; [done|].
    symmetry. apply andb_false_iff. rewrite !negb_false_iff, !andb_true_iff, !bool_decide_eq_true.
    naive_solver.
Qed.

Lemma validate_timeout_Ok t : validate_timeout t = Ok () ↔ t ≠ 0%Z.
Proof. unfold validate_timeout. case_decide; naive_solver. Qed.

Lemma load_timeout_Ok get t : load_timeout get = Ok t → (0 < t ≤ U64_MAX)%Z.
Proof.
  unfold load_timeout. destruct (get _) as [s|]; [|intros [= <-]; unfold U64_MAX; lia].
  intros (n & Hn%map_err_Ok & Hr)%result_bind_Ok.
  apply result_bind_Ok in Hr as ([] & Hv%validate_timeout_Ok & [= <-]).
  apply uint_from_str_range in Hn; [lia|done].
Qed.

Lemma load_facilitator_url_Ok get p u : load_facilitator_url get p = Ok u → facilitator_ok u p.
Proof.
  unfold load_facilitator_url. intros (s & _ & Hr)%result_bind_Ok.
  apply result_bind_Ok in Hr as (u' & _ & Hr).
  apply result_bind_Ok in Hr as ([] & Hv%validate_facilitator_url_Ok & [= <-]). done.
Qed.

Lemma tag_from_wire_asset w tag : tag_from_wire w = Ok tag → ptc_asset tag = "USDC".
Proof.
  unfold tag_from_wire. case_decide as Ha; [done|].
  intros (price & _ & Hr)%result_bind_Ok. apply result_bind_Ok in Hr as (payto & _ & Hr).
  apply result_bind_Ok in Hr as (sch & _ & [= <-]). done.
Qed.

Lemma seeded_tag_asset get p tag : seeded_tag get p = Ok tag → ptc_asset tag = "USDC".
Proof.
  unfold seeded_tag. intros ([[net price] payto] & _ & Hr)%result_bind_Ok.
  apply result_bind_Ok in Hr as (pr & _ & Hr). by apply result_bind_Ok in Hr as (pt & _ & [= <-]).
Qed.

Lemma load_price_tags_asset get p tags :
  load_price_tags get p = Ok tags → Forall (fun t => ptc_asset t = "USDC") tags.
Proof.
  unfold load_price_tags. destruct (get _) as [json|].
  - intros (wire & _ & Hr)%result_bind_Ok. apply collect_results_Ok in Hr.
    induction Hr; constructor; [by eapply tag_from_wire_asset|done].
  - intros (tag & Ht%seeded_tag_asset & Hr)%result_bind_Ok. case_split.
    + apply result_bind_Ok in Hr as (pr & _ & [= <-]). by repeat constructor.
    + injection Hr as <-. by repeat constructor.
Qed.

(** ** Tags *)

(** The tag that a configured one becomes: a positive number of atomic units on the network
    that was named, payable to the address that was given. *)
Definition tag_charges (tag : PriceTagConfig) (t : PriceTag) : Prop :=
  ptc_asset tag = "USDC" ∧ is_sign_negative (price_usd tag) = false ∧ ∃ d n,
  checked_mul (price_usd tag) (decimal_from_u64 1000000) = Some d ∧
  to_u64 (round d) = Some n ∧ (0 < n ≤ U64_MAX)%Z ∧
  match t with
  | Eip155Tag payee asset atomic =>
      atomic = n ∧ (∃ s, pay_to tag = Evm s ∧ checksummed_from_str s = Ok payee) ∧
      (ptc_network tag, asset) ∈ [("base-sepolia", UsdcBaseSepolia); ("base", UsdcBase)]
  | SolanaTag payee asset atomic =>
      atomic = n ∧ (∃ s, pay_to tag = Solana s ∧ solana_from_str s = Ok payee) ∧
      (ptc_network tag, asset) ∈ [("solana", UsdcSolana); ("solana-devnet", UsdcSolanaDevnet)]
  end.

Lemma build_price_tag_Ok debug tag t : build_price_tag debug tag = Ok t → tag_charges tag t.
Proof.
  unfold build_price_tag, tag_charges. case_decide as Ha; [done|]. case_decide; [done|].
  destruct (is_sign_negative _) eqn:Hneg; [done|].
  intros (n & Hn & Hr)%result_bind_Ok.
  destruct (checked_mul _ _) as [d|] eqn:Hd; [|done]. cbn in Hn.
  destruct (to_u64 (round d)) as [n'|] eqn:Hu; [|done]. injection Hn as <-.
  case_decide as Hz; [done|]. pose proof (to_u64_range _ _ Hu) as Hrange.
  split_and!; [done|done|]. exists d, n'. split_and!; [done|done|lia|lia|].
  destruct (pay_to tag) as [s|s] eqn:Hp; repeat case_decide; try done;
    apply result_bind_Ok in Hr as (addr & Haddr%map_err_Ok & [= <-]);
    match goal with Hnet : ptc_network tag = _ |- _ => rewrite Hnet end;
    (split_and!; [done|by eexists|set_solver]).
Qed.

Lemma foldl_snoc {A} (l acc : list A) : foldl (fun b t => b ++ [t]) acc l = acc ++ l.
Proof.
  revert acc. induction l as [|x l IH]; intros acc; cbn; [by rewrite app_nil_r|].
  by rewrite IH, <-app_assoc.
Qed.

Lemma build_middleware_Ok debug cfg layer :
  build_middleware debug cfg = Ok layer →
  protocol_version cfg = "v2" ∧ facilitator_ok (facilitator_url cfg) (profile cfg) ∧
  facilitator_timeout cfg ≠ 0%Z ∧ layer_tags layer ≠ [] ∧
  Forall2 tag_charges (price_tags cfg) (layer_tags layer).
Proof.
  unfold build_middleware. case_decide as Hv; [done|].
  intros ([] & Hu%validate_facilitator_url_Ok & Hr)%result_bind_Ok.
  apply result_bind_Ok in Hr as ([] & Ht%validate_timeout_Ok & Hr).
  apply result_bind_Ok in Hr as (fac & _ & Hr).
  apply result_bind_Ok in Hr as (tags & Htags & Hr).
  destruct tags as [|first rest]; [done|]. injection Hr as <-. cbn [layer_tags].
  rewrite foldl_snoc. split_and!; try done.
  apply collect_results_Ok in Htags. eapply Forall2_impl; [exact Htags|].
  intros x y. apply build_price_tag_Ok.
Qed.

Definition usdc_mainnet (a : usdc) : bool :=
  match a with UsdcBase | UsdcSolana => true | UsdcBaseSepolia | UsdcSolanaDevnet => false end.

Definition tag_asset (t : PriceTag) : usdc :=
  match t with Eip155Tag _ a _ | SolanaTag _ a _ => a end.

(** A middleware that the check calls harmless charges test tokens through a facilitator on
    this host. *)
Lemma harmless_settlement debug cfg layer :
  build_middleware debug cfg = Ok layer → x402_targets_real_settlement cfg = false →
  is_loopback (url_host_str (facilitator_url cfg)) = true ∧
  Forall (fun t => usdc_mainnet (tag_asset t) = false) (layer_tags layer).
Proof.
  intros (_ & _ & _ & _ & Htags)%build_middleware_Ok. unfold x402_targets_real_settlement.
  intros [Hl%negb_false_iff Hm]%orb_false_iff. split; [done|].
  induction Htags as [|tag t tags ts Ht _ IH]; [done|]. cbn [existsb] in Hm.
  apply orb_false_iff in Hm as [Hn%bool_decide_eq_false Hm].
  constructor; [|by apply IH]. destruct Ht as (_ & _ & d & n & _ & _ & _ & Ht).
  destruct t as [payee asset atomic|payee asset atomic]; cbn [tag_asset];
    destruct Ht as (_ & _ & Hin); rewrite !elem_of_cons, elem_of_nil in Hin;
    destruct Hin as [[= E1 ->]|[[= E1 ->]|[]]]; try done;
    exfalso; apply Hn; rewrite E1; set_solver.
Qed.

(** The variables that [from_env] resolves are those of the environment. *)
Lemma resolve_vars_get env names : ∀ resolved r k,
  resolve_vars env names resolved = Ok r →
  Forall (fun n => env n ≠ VarNotUnicode) names ∧
  assoc k r = if decide (k ∈ names)
              then Some (match env k with VarSet v => Some v | _ => None end)
              else assoc k resolved.
Proof.
  induction names as [|n names IH]; intros resolved r k; cbn [resolve_vars].
  - intros [= <-]. split; [done|]. by rewrite decide_False by set_solver.
  - intros (v & [Hu ->]%checked_env_var_Ok & Hr)%result_bind_Ok.
    destruct (IH _ _ k Hr) as [Hall ->]. split; [by constructor|].
    rewrite assoc_btree_insert. repeat case_decide; set_solver.
Qed.
End lemmas.

(** ** Properties *)

Section properties.
Context {X : X402Crates}.

(** Whatever the environment, a configuration that loads talks to its facilitator over https,
    or over http to this host under the local profile only, without credentials in the URL and
    with a timeout that is not zero; it declares protocol v2 and has at least one tag, all in
    USDC. A variable that is set but not Unicode never loads as if it were unset. *)
Theorem loaded_config_valid env cfg :
  x402_from_env env = Ok cfg →
  Forall (fun n => env n ≠ VarNotUnicode) X402_ENV_KEYS ∧
  facilitator_ok (facilitator_url cfg) (profile cfg) ∧
  (0 < facilitator_timeout cfg ≤ U64_MAX)%Z ∧ protocol_version cfg = "v2" ∧
  price_tags cfg ≠ [] ∧ Forall (fun t => ptc_asset t = "USDC") (price_tags cfg).
Proof.
  unfold x402_from_env. intros (resolved & Hres & Hr)%result_bind_Ok.
  split; [by eapply (resolve_vars_get env _ _ _ "")|]. clear Hres.
  unfold x402_from_lookup in Hr. apply result_bind_Ok in Hr as (p & _ & Hr).
  apply result_bind_Ok in Hr as (u & Hu%load_facilitator_url_Ok & Hr).
  apply result_bind_Ok in Hr as (t & Ht%load_timeout_Ok & Hr).
  case_decide as Hv; [done|].
  apply result_bind_Ok in Hr as (tags & Htags%load_price_tags_asset & Hr).
  case_decide as Hne; [done|]. injection Hr as <-. done.
Qed.

(** C39: a middleware charges each configured tag, in order, a positive number of atomic USDC units
    that fits in 64 bits, the rounded product of its price and a million, on the network it
    names, payable to the address it gives; a free, negative or mismatched tag never mounts. *)
Theorem price_tags_charged debug cfg layer :
  build_middleware debug cfg = Ok layer →
  layer_tags layer ≠ [] ∧ Forall2 tag_charges (price_tags cfg) (layer_tags layer).
Proof. by intros (_ & _ & _ & ? & ?)%build_middleware_Ok. Qed.
End properties.

(** ** A concrete set of crates and the default local configuration *)

Module sample_x402.
Definition url_of (s : string) : result string (string * string) :=
  match strip_prefix "http://" s with
  | Some rest => Ok ("http", if starts_with "127.0.0.1" rest then "127.0.0.1" else rest)
  | None => match strip_prefix "https://" s with
            | Some rest => Ok ("https", rest)
            | None => Err "relative URL without a base"
            end
  end.

(** Decimals in millionths. *)
Definition dec_of (s : string) : result string Z :=
  if decide (s = "0.0001") then Ok 100%Z
  else if decide (s = "0.001") then Ok 1000%Z else Err "Invalid decimal: unknown character".

#[local] Unset Program Cases.

Program Definition crates : X402Crates := {|
  url := string * string; url_parse := url_of; url_scheme := fst; url_host_str u := Some u.2;
  url_username _ := ""; url_password _ := None;
  facilitator_client := string; facilitator_try_new u := Ok u.2;
  decimal := Z; decimal_from_str := dec_of; decimal_from_u64 n := (n * 1000000)%Z;
  is_sign_negative z := bool_decide (z < 0)%Z;
  checked_mul a b := Some (a * b `div` 1000000)%Z;
  round z := (z `div` 1000000 * 1000000)%Z;
  to_u64 z := if decide (0 ≤ z `div` 1000000 ≤ U64_MAX)%Z then Some (z `div` 1000000)%Z else None;
  show_decimal := show_Z;
  tags_from_json _ := Err "no json";
  checksummed_address := string; checksummed_from_str s := Ok s;
  solana_address := string; solana_from_str s := Ok s |}.
Next Obligation. intros d n. cbv beta. case_decide; [|done]. by intros [= <-]. Qed.
Next Obligation.
  intros s Hs. cbv beta. repeat (apply elem_of_cons in Hs as [->|Hs]; [by eexists|]).
  by apply elem_of_nil in Hs.
Qed.

Definition no_env : environment := fun _ => VarNotPresent.
Definition loaded := @x402_from_env crates no_env.

Definition local_cfg : @X402Config crates :=
  @MkX402Config crates Local ("http", "127.0.0.1") 5 "v2"
    [@MkPriceTagConfig crates "base-sepolia" "USDC" 100%Z
       (Evm "0x000000000000000000000000000000000000dEaD") Exact;
     @MkPriceTagConfig crates "solana-devnet" "USDC" 100%Z (Solana SOLANA_BURN_PAYTO) Exact].

Definition layer := @build_middleware crates id local_cfg.
End sample_x402.

Lemma loaded_config_valid_witness :
  sample_x402.loaded = Ok sample_x402.local_cfg ∧
  (0 < facilitator_timeout sample_x402.local_cfg ≤ U64_MAX)%Z.
Proof.
  assert (sample_x402.loaded = Ok sample_x402.local_cfg) as Hl by reflexivity.
  split; [exact Hl|].
  destruct (loaded_config_valid (X:=sample_x402.crates) _ _ Hl) as (_ & _ & Ht & _). exact Ht.
Defined.

(** The two tags of the default configuration cost a hundred units each. *)
Lemma price_tags_charged_witness :
  let layer := @MkLayer sample_x402.crates "127.0.0.1" 5
    [@Eip155Tag sample_x402.crates "0x000000000000000000000000000000000000dEaD" UsdcBaseSepolia 100;
     @SolanaTag sample_x402.crates SOLANA_BURN_PAYTO UsdcSolanaDevnet 100] in
  sample_x402.layer = Ok layer ∧
  Forall2 (tag_charges (X:=sample_x402.crates)) (price_tags sample_x402.local_cfg) (layer_tags layer).
Proof.
  intros layer. assert (sample_x402.layer = Ok layer) as Hl by reflexivity.
  split; [exact Hl|]. exact (proj2 (price_tags_charged id _ _ Hl)).
Defined.
