(* ===== verification/Gateway.v ===== *)
(** * The gateway ([parser/gateway/src/handlers], [parser/gateway/src/main.rs])

    The parse and health handlers, the start-up decision of [main] (which parts are mounted
    and when the process refuses to start), and the routes it serves. The gRPC channel, the
    x402 pay gate and the facilitator probe are parameters. *)

From S2P Require Import Prelude Json Payload Grpc Charset External DecimalText Encodings Signing.
From S2P Require Import Proto Registry Borsh Payment AbiMetadata ParseRoute.
From S2P Require Import GatewayAuth Turnkey Attestation GatewayConfig.

(** ** Remote calls and HTTP *)

(** How a call over the channel ends, with its time limit. *)
Inductive rpc (A : Type) : Type :=
| RpcOk (a : A)
| RpcStatus (code : Code) (message : string)
| RpcTimedOut.
Arguments RpcOk {A} _. Arguments RpcStatus {A} _ _. Arguments RpcTimedOut {A}.

Definition HTTP_OK : Z := 200.
Definition BAD_REQUEST : Z := 400.
Definition UNAUTHORIZED : Z := 401.
Definition NOT_FOUND : Z := 404.
Definition METHOD_NOT_ALLOWED : Z := 405.
Definition INTERNAL_SERVER_ERROR : Z := 500.
Definition BAD_GATEWAY : Z := 502.
Definition SERVICE_UNAVAILABLE : Z := 503.
Definition GATEWAY_TIMEOUT : Z := 504.

Definition is_success (status : Z) : bool := (200 <=? status)%Z && (status <? 300)%Z.

Inductive http_body : Type :=
| EmptyBody
| JsonBody (j : json)
| Envelope (w : TurnkeyResponseWrapper).

Record HttpResponse := MkHttpResponse { http_status : Z; http_content : http_body }.

(** ** The parse handler *)

Definition mock_boot_proof : TurnkeyBootProof :=
  MkTurnkeyBootProof
    "VFVSTktFWV9HQVRFV0FZX01PQ0tfQk9PVF9QUk9PRg=="
    "VFVSTktFWV9HQVRFV0FZX01PQ0tfUU9TX01BTklGRVNU"
    "VFVSTktFWV9HQVRFV0FZX01PQ0tfUU9TX01BTklGRVNUX0VOVkVMT1BF"
    "020000000000000000000000000000000000000000000000000000000000000001"
    "visualsign-parser" "local-mock".

(** [base64], of which only the encoder is used. *)
Class Base64Codec : Type := {
  b64_encode : bytes → string;
  b64_encode_nil : b64_encode [] = "";
  b64_encode_inj a b : b64_encode a = b64_encode b → a = b;
}.

#[local] Unset Program Cases.

(** Hex shows that an encoder can satisfy this. *)
Program Definition b64_toy : Base64Codec := {| b64_encode := hex_of_bytes |}.
Next Obligation. done. Qed.
Next Obligation.
  intros a b Hab. pose proof (hex_pairs_encode a 0) as Ha. rewrite Hab, hex_pairs_encode in Ha.
  congruence.
Qed.

Section handlers.
Context {S : Sha256} {H : HexCodec} {Q : QosHex H} {E : P256} `{!EqDecision (p256_public (P256:=E))}.
Context {BM : Borsh ChainMetadata} {B64 : Base64Codec}.

(** [AppState]: the two clients and the pinned verifier. *)
Record AppState := MkAppState {
  grpc_client : ParseRequest → rpc ParseResponse;
  health_client : string → rpc Z;
  attestation : option (AttestationVerifier E);
}.

Definition response_matches_request (payload : ParsedTransactionPayload)
    (unsigned_payload : string) (metadata_bytes : bytes) : bool :=
  let expected_input_digest := hex_encode (sha_256 (as_bytes unsigned_payload)) in
  let expected_metadata_digest := hex_encode (sha_256 metadata_bytes) in
  bool_decide (input_payload_digest payload = expected_input_digest)
  && bool_decide (metadata_digest payload = expected_metadata_digest).

(** An early return: a status and the text of the error envelope. *)
Definition early {A} (status : Z) (msg : string) : result (Z * string) A := Err (status, msg).

(** The request that is forwarded, without a payment marker. *)
Definition forwarded (r : TurnkeyRequest) (chain : ProtoChain) : ParseRequest :=
  MkParseRequest (tk_unsigned_payload r) (proto_chain_number chain)
    (metadata_from_input <$> tk_chain_metadata r) (tk_include_intermediate_output r) [].

Definition call_parser (state : AppState) (request : ParseRequest)
    : result (Z * string) ParseResponse :=
  match grpc_client state request with
  | RpcOk r => Ok r
  | RpcStatus CodeInvalidArgument message => early BAD_REQUEST message
  | RpcStatus CodeNotFound message => early NOT_FOUND message
  | RpcStatus _ _ => early INTERNAL_SERVER_ERROR "internal error"
  | RpcTimedOut => early GATEWAY_TIMEOUT "request timed out"
  end.

Definition authenticate (state : AppState) (sig : ProtoSignature)
    (payload : ParsedTransactionPayload) : result (Z * string) string :=
  match attestation state with
  | Some verifier =>
      digest ← map_err (fun e => (BAD_GATEWAY, "attestation failed: " +:+ show_attestation_error e))
                 (verify_response verifier sig payload);
      Ok (hex_encode digest)
  | None => Ok (sig_message sig)
  end.

Definition scheme_of_wire (scheme : Z) : SignatureScheme :=
  if decide (scheme = scheme_number TurnkeyP256EphemeralKey) then TurnkeyP256EphemeralKey
  else SchemeUnspecified.

Definition turnkey_payload (payload : ParsedTransactionPayload) : TurnkeyPayload :=
  MkTurnkeyPayload (parsed_payload payload) (metadata_digest payload)
    (input_payload_digest payload) (b64_encode (ptp_intermediate_output payload)).

Definition handle_request (state : AppState) (wrapper : TurnkeyRequestWrapper)
    : result (Z * string) TurnkeyResponseWrapper :=
  let r := tk_request wrapper in
  chain ← ok_or (BAD_REQUEST, "unknown chain: " +:+ tk_chain r) (chain_from_str_name (tk_chain r));
  metadata_bytes ←
    map_err (fun e => (INTERNAL_SERVER_ERROR,
                       "failed to serialize chain metadata: " +:+ show_io_error e))
      (chain_metadata_bytes (metadata_from_input <$> tk_chain_metadata r));
  response ← call_parser state (forwarded r chain);
  parsed_tx ← ok_or (INTERNAL_SERVER_ERROR, "missing parsed_transaction in response")
                (parsed_transaction response);
  payload ← ok_or (INTERNAL_SERVER_ERROR, "missing payload in response") (pt_payload parsed_tx);
  sig ← ok_or (BAD_GATEWAY, "missing signature in response") (pt_signature parsed_tx);
  if negb (response_matches_request payload (tk_unsigned_payload r) metadata_bytes)
  then early BAD_GATEWAY "response does not match request"
  else
    wire_message ← authenticate state sig payload;
    Ok (success_response mock_boot_proof (turnkey_payload payload)
          (Some (MkTurnkeySignature wire_message (sig_public_key sig)
                   (scheme_as_str_name (scheme_of_wire (sig_scheme sig))) (sig_signature sig)))).

Definition parse_handler (state : AppState) (wrapper : TurnkeyRequestWrapper) : HttpResponse :=
  match handle_request state wrapper with
  | Ok w => MkHttpResponse HTTP_OK (Envelope w)
  | Err (status, msg) => MkHttpResponse status (Envelope (error_response msg mock_boot_proof))
  end.

(** ** The health handler *)

Definition DEFAULT_SERVICE : string := "".

Definition health_handler `{SerdeMap} (state : AppState) : HttpResponse :=
  let unhealthy reason :=
    MkHttpResponse SERVICE_UNAVAILABLE
      (JsonBody (struct_value [("status", JString "unhealthy"); ("reason", JString reason)])) in
  match health_client state DEFAULT_SERVICE with
  | RpcOk status =>
      if decide (status = 1)%Z
      then MkHttpResponse HTTP_OK (JsonBody (struct_value [("status", JString "ok")]))
      else unhealthy "grpc service not serving"
  | RpcStatus _ _ => unhealthy "backend unavailable"
  | RpcTimedOut => unhealthy "health check timed out"
  end.

(** ** What a success means *)

(** A response of the parser that answers the request. *)
Record answers (r : TurnkeyRequest) (p : ParsedTransactionPayload) : Prop := MkAnswers {
  ans_input : input_payload_digest p = hex_encode (sha_256 (as_bytes (tk_unsigned_payload r)));
  ans_metadata : ∃ m,
    chain_metadata_bytes (metadata_from_input <$> tk_chain_metadata r) = Ok m ∧
    metadata_digest p = hex_encode (sha_256 m);
}.

Record forwards (state : AppState) (r : TurnkeyRequest) (w : TurnkeyResponseWrapper)
    (p : ParsedTransactionPayload) (sig : ProtoSignature) (message : string) : Prop := MkForwards {
  fwd_reply : ∃ chain, tk_chain r = chain_as_str_name chain ∧
    grpc_client state (forwarded r chain) =
      RpcOk (MkParseResponse (Some (MkParsedTransaction (Some p) (Some sig))));
  fwd_answers : answers r p;
  fwd_message : authenticate state sig p = Ok message;
  fwd_envelope : w = success_response mock_boot_proof (turnkey_payload p)
    (Some (MkTurnkeySignature message (sig_public_key sig)
             (scheme_as_str_name (scheme_of_wire (sig_scheme sig))) (sig_signature sig)));
}.

Lemma response_matches_iff p payload m :
  response_matches_request p payload m = true ↔
  input_payload_digest p = hex_encode (sha_256 (as_bytes payload)) ∧
  metadata_digest p = hex_encode (sha_256 m).
Proof. unfold response_matches_request. by rewrite andb_true_iff, !bool_decide_eq_true. Qed.

Lemma call_parser_Ok state req resp :
  call_parser state req = Ok resp ↔ grpc_client state req = RpcOk resp.
Proof.
  unfold call_parser. destruct (grpc_client state req) as [a|code message|]; [naive_solver| |done].
  by destruct code.
Qed.

Lemma handle_request_Ok state wrapper w :
  handle_request state wrapper = Ok w ↔
  ∃ p sig message, forwards state (tk_request wrapper) w p sig message.
Proof.
  unfold handle_request. cbv zeta. set (r := tk_request wrapper). split.
  - intros (chain & Hc & Hr)%result_bind_Ok.
    destruct (chain_from_str_name (tk_chain r)) as [c|] eqn:Hcn; [|done]. injection Hc as ->.
    apply chain_from_str_name_iff in Hcn.
    apply result_bind_Ok in Hr as (m & Hm%map_err_Ok & Hr).
    apply result_bind_Ok in Hr as (resp & Hresp%call_parser_Ok & Hr).
    apply result_bind_Ok in Hr as (tx & Htx & Hr).
    destruct (parsed_transaction resp) as [tx'|] eqn:E1; [|done]. injection Htx as ->.
    apply result_bind_Ok in Hr as (p & Hp & Hr).
    destruct (pt_payload tx) as [p'|] eqn:E2; [|done]. injection Hp as ->.
    apply result_bind_Ok in Hr as (sig & Hs & Hr).
    destruct (pt_signature tx) as [s'|] eqn:E3; [|done]. injection Hs as ->.
    destruct (response_matches_request _ _ _) eqn:Hmatch; cbn [negb] in Hr; [|done].
    apply response_matches_iff in Hmatch as [Hi Hmd].
    apply result_bind_Ok in Hr as (msg & Hmsg & [= <-]).
    destruct resp as [o], tx as [op os]. cbn in *. subst.
    exists p, sig, msg. split; [by eexists|split; eauto|done|done].
  - intros (p & sig & msg & [(c & Hc & Hreply) [Hi (m & Hm & Hmd)] Hmsg ->]).
    apply chain_from_str_name_iff in Hc. rewrite Hc. cbn [ok_or mbind result_bind].
    rewrite Hm. cbn [map_err mbind result_bind].
    rewrite (proj2 (call_parser_Ok _ _ _) Hreply).
    cbn [mbind result_bind parsed_transaction pt_payload pt_signature ok_or].
    rewrite (proj2 (response_matches_iff _ _ _) (conj Hi Hmd)). cbn [negb].
    by rewrite Hmsg.
Qed.

Lemma ok_or_status {A} (st status : Z) (msg m : string) (o : option A) :
  ok_or (st, msg) o = Err (status, m) → status = st.
Proof. destruct o; cbn; congruence. Qed.

Lemma call_parser_status state req status msg :
  call_parser state req = Err (status, msg) → is_success status = false.
Proof.
  unfold call_parser, early. destruct (grpc_client state req) as [?|code ?|]; [done| |].
  - destruct code; by intros [= <- _].
  - by intros [= <- _].
Qed.

Lemma authenticate_status state sig p status msg :
  authenticate state sig p = Err (status, msg) → is_success status = false.
Proof.
  unfold authenticate. destruct (attestation state) as [v|]; [|done].
  destruct (verify_response v sig p); cbn; [done|]. by intros [= <- _].
Qed.

(** Every failure of the handler has a status that is not a success. *)
Lemma handle_request_status state wrapper status msg :
  handle_request state wrapper = Err (status, msg) → is_success status = false.
Proof.
  unfold handle_request. cbv zeta.
  intros [->%ok_or_status|(c & _ & Hr)]%result_bind_Err; [done|].
  apply result_bind_Err in Hr as [Hr|(m & _ & Hr)].
  { destruct (chain_metadata_bytes _); cbn in Hr; [done|]. by injection Hr as <- _. }
  apply result_bind_Err in Hr as [Hr%call_parser_status|(resp & _ & Hr)]; [done|].
  apply result_bind_Err in Hr as [->%ok_or_status|(tx & _ & Hr)]; [done|].
  apply result_bind_Err in Hr as [->%ok_or_status|(p & _ & Hr)]; [done|].
  apply result_bind_Err in Hr as [->%ok_or_status|(sig & _ & Hr)]; [done|].
  case_split; [by injection Hr as <- _|].
  by apply result_bind_Err in Hr as [Hr%authenticate_status|(m' & _ & Hr)].
Qed.

Lemma parse_handler_success state wrapper :
  is_success (http_status (parse_handler state wrapper)) = true ↔
  ∃ w, handle_request state wrapper = Ok w ∧
    parse_handler state wrapper = MkHttpResponse HTTP_OK (Envelope w).
Proof.
  unfold parse_handler. destruct (handle_request state wrapper) as [w|[st msg]] eqn:Hh.
  - split; [by eexists|done].
  - apply handle_request_status in Hh. cbn [http_status]. rewrite Hh. naive_solver.
Qed.
End handlers.
Arguments AppState E : clear implicits.

(** ** Start-up ([main]) *)

(** The pay gate of [x402_axum], mounted around one route: it answers by itself or calls the
    inner service, and it settles a payment only when the inner service succeeded, in which
    case it passes the response on. [json_rejection] is how axum's [Json] extractor refuses a
    body, always with an error status. *)
Class PayGate (X : X402Crates) : Type := {
  json_rejection : Type;
  rejection_response : json_rejection → HttpResponse;
  rejection_failed r : is_success (http_status (rejection_response r)) = false;
  http_extras : Type;
  paygate : X402LayerBuilder → http_extras → HttpResponse → HttpResponse * bool;
  settle_on_success layer extras inner :
    (paygate layer extras inner).2 = true →
    is_success (http_status inner) = true ∧ (paygate layer extras inner).1 = inner;
}.

Inductive Method : Type := GET | POST | OtherMethod.

Section main.
Context {M : SerdeMap} {S : Sha256} {H : HexCodec} {Q : QosHex H} {E : P256}.
Context `{!EqDecision (p256_public (P256:=E))} {BM : Borsh ChainMetadata} {B64 : Base64Codec}.
Context {HC : HttpCrates} {X : X402Crates} {PG : PayGate X}.
Context (debug_hex : FromHexError → string) (debug_p256 : bytes → string).
Context (debug_str : string → string).
(** [Endpoint::from_shared], and the probe of the facilitator over the network. *)
Context (endpoint_from_shared : string → result string ()) (probe_facilitator : url → Z → bool).

(** What the process serves with. *)
Record Serving := MkServing {
  srv_port : Z;
  srv_grpc_addr : string;
  srv_attestation : option (AttestationVerifier E);
  (** The pay-gated route, with the configuration it was built from. *)
  srv_v2 : option (X402Config * X402LayerBuilder);
  srv_token : option BearerToken;
}.

Definition gateway_port (env : environment) : Z :=
  match env "GATEWAY_PORT" with
  | VarSet val => match uint_from_str U16_MAX val with Ok port => port | Err _ => 8080 end
  | _ => 8080
  end.

Definition x402_can_settle (x402_result : result ConfigError X402Config) : bool :=
  match x402_result with
  | Ok cfg => is_ok (build_middleware debug_str cfg) && x402_targets_real_settlement cfg
  | Err _ => false
  end.

Definition mount_v2 (x402_result : result ConfigError X402Config)
    : option (X402Config * X402LayerBuilder) :=
  match x402_result with
  | Ok cfg =>
      match build_middleware debug_str cfg with
      | Ok layer =>
          if probe_facilitator (facilitator_url cfg) (facilitator_timeout cfg)
          then Some (cfg, layer) else None
      | Err _ => None
      end
  | Err _ => None
  end.

(** [Err] carries the reason for which the process ends. *)
Definition main (env : environment) (fs : files) : result string Serving :=
  let port := gateway_port env in
  let grpc_addr := match env "GRPC_ADDR" with VarSet a => a | _ => "http://127.0.0.1:44020" end in
  _ ← map_err (fun e => "invalid gRPC address " +:+ grpc_addr +:+ ": " +:+ e)
        (endpoint_from_shared grpc_addr);
  profile_str ← match env "X402_PROFILE" with
                | VarSet v => Ok v
                | VarNotPresent => Ok "local"
                | VarNotUnicode => Err "FATAL: X402_PROFILE contains invalid (non-UTF-8) bytes"
                end;
  let is_local_profile := bool_decide (profile_str = "local") in
  let x402_result := x402_from_env env in
  let x402_can_settle_for_real := x402_can_settle x402_result in
  attestation ←
    match verifier_from_env debug_hex debug_p256 env fs with
    | Ok (Some v) => Ok (Some v)
    | Ok None =>
        if is_local_profile && negb x402_can_settle_for_real then Ok None
        else Err ("FATAL: TVC_DEMO_PINNED_PUBKEY_HEX (or _FILE) is required for X402_PROFILE="
                  +:+ profile_str
                  +:+ if is_local_profile
                      then " because the resolved facilitator/network can settle real payments"
                      else "")
    | Err e => Err ("FATAL: invalid TVC verifier pubkey configuration: " +:+ show_attestation_error e)
    end;
  let v2 := mount_v2 x402_result in
  token ← map_err (fun e => "FATAL: invalid gateway-auth bearer-token configuration: "
                            +:+ show_auth_error e)
            (bearer_from_env env fs);
  Ok (MkServing port grpc_addr attestation v2 token).

(** ** Requests *)

(** [hr_json] is what the [Json] extractor makes of the body. *)
Record HttpRequest := MkHttpRequest {
  hr_method : Method;
  hr_path : string;
  hr_authorization : option header_value;
  hr_extras : http_extras;
  hr_json : result json_rejection TurnkeyRequestWrapper;
}.

Definition parse_route (state : AppState E) (req : HttpRequest) : HttpResponse :=
  match hr_json req with
  | Ok wrapper => parse_handler state wrapper
  | Err rejection => rejection_response rejection
  end.

Definition plain_response (status : Z) : HttpResponse := MkHttpResponse status EmptyBody.

(** The routes; the second component tells whether a payment was settled. *)
Definition dispatch (srv : Serving) (state : AppState E) (req : HttpRequest) : HttpResponse * bool :=
  if decide (hr_path req = "/health") then
    match hr_method req with
    | GET => (health_handler state, false)
    | _ => (plain_response METHOD_NOT_ALLOWED, false)
    end
  else if decide (hr_path req = "/visualsign/api/v1/parse") then
    match hr_method req with
    | POST => (parse_route state req, false)
    | _ => (plain_response METHOD_NOT_ALLOWED, false)
    end
  else if decide (hr_path req = "/visualsign/api/v2/parse") then
    match srv_v2 srv, hr_method req with
    | Some (_, layer), POST => paygate layer (hr_extras req) (parse_route state req)
    | Some _, _ => (plain_response METHOD_NOT_ALLOWED, false)
    | None, _ => (plain_response NOT_FOUND, false)
    end
  else (plain_response NOT_FOUND, false).

Definition unauthorized : HttpResponse := plain_response UNAUTHORIZED.

Definition serve (srv : Serving) (grpc : ParseRequest → rpc ParseResponse)
    (health : string → rpc Z) (req : HttpRequest) : HttpResponse * bool :=
  let state := MkAppState grpc health (srv_attestation srv) in
  match srv_token srv with
  | Some token =>
      require_bearer_token token (hr_path req) (hr_authorization req)
        (dispatch srv state req) (unauthorized, false)
  | None => dispatch srv state req
  end.

(** ** Lemmas *)

(** A process without a pinned key has no route that can settle real money. *)
Lemma main_fail_closed env fs srv :
  main env fs = Ok srv → srv_attestation srv = None →
  ∀ cfg layer, srv_v2 srv = Some (cfg, layer) →
  is_loopback (url_host_str (facilitator_url cfg)) = true ∧
  Forall (fun t => usdc_mainnet (tag_asset t) = false) (layer_tags layer).
Proof.
  unfold main. cbv zeta. intros ([] & _ & Hr)%result_bind_Ok.
  apply result_bind_Ok in Hr as (p & _ & Hr).
  apply result_bind_Ok in Hr as (att & Hatt & Hr).
  apply result_bind_Ok in Hr as (token & _ & [= <-]). cbn [srv_attestation srv_v2].
  intros -> cfg layer Hv2. destruct (verifier_from_env _ _ _ _) as [[v|]|]; [done| |done].
  destruct (bool_decide _ && negb _) eqn:Hb; [|done].
  apply andb_true_iff in Hb as [_ Hset%negb_true_iff].
  unfold mount_v2 in Hv2. unfold x402_can_settle in Hset.
  destruct (x402_from_env env) as [cfg'|]; [|done].
  destruct (build_middleware debug_str cfg') as [layer'|] eqn:Hb; [|done].
  destruct (probe_facilitator _ _); [|done]. injection Hv2 as -> ->.
  cbn [is_ok andb] in Hset. by eapply harmless_settlement.
Qed.

Lemma require_settled token path auth d r :
  require_bearer_token token path auth d (unauthorized, false) = (r, true) → d = (r, true).
Proof. unfold require_bearer_token. by destruct (evaluate_request _ _ _). Qed.

Lemma dispatch_settled srv state req resp :
  dispatch srv state req = (resp, true) →
  hr_path req = "/visualsign/api/v2/parse" ∧ hr_method req = POST ∧
  resp = parse_route state req ∧ is_success (http_status resp) = true ∧
  ∃ cfg layer, srv_v2 srv = Some (cfg, layer).
Proof.
  unfold dispatch. case_decide; [by destruct (hr_method req)|].
  case_decide; [by destruct (hr_method req)|]. case_decide as Hp; [|done].
  destruct (srv_v2 srv) as [[cfg layer]|] eqn:Hv2; [|done].
  destruct (hr_method req) eqn:Hm; [done| |done]. intros Hpg.
  pose proof (settle_on_success layer (hr_extras req) (parse_route state req)) as Hs.
  rewrite Hpg in Hs. destruct (Hs eq_refl) as [Hok Heq]. cbn in Heq. rewrite Heq. eauto 10.
Qed.

Lemma serve_dispatched srv grpc health req resp :
  serve srv grpc health req = (resp, true) →
  dispatch srv (MkAppState grpc health (srv_attestation srv)) req = (resp, true).
Proof. unfold serve. destruct (srv_token srv); [apply require_settled|done]. Qed.


Lemma serve_settled srv grpc health req resp :
  serve srv grpc health req = (resp, true) →
  hr_path req = "/visualsign/api/v2/parse" ∧
  (∃ cfg layer, srv_v2 srv = Some (cfg, layer)) ∧
  ∃ wrapper w p sig message, hr_json req = Ok wrapper ∧
    resp = MkHttpResponse HTTP_OK (Envelope w) ∧
    forwards (MkAppState grpc health (srv_attestation srv)) (tk_request wrapper) w p sig message.
Proof.
  intros (Hp & _ & -> & Hok & Hv2)%serve_dispatched%dispatch_settled. split_and!; [done|done|].
  unfold parse_route in *. destruct (hr_json req) as [wrapper|rej].
  - apply parse_handler_success in Hok as (w & Hw & ->).
    apply handle_request_Ok in Hw as (p & sig & message & Hf). by exists wrapper, w, p, sig, message.
  - by rewrite rejection_failed in Hok.
Qed.

Lemma authenticate_pinned grpc health v sig p message :
  authenticate (MkAppState grpc health (Some v)) sig p = Ok message →
  ∃ d, message = hex_encode d ∧ attested (pinned_public v) sig p d.
Proof.
  unfold authenticate. cbn [attestation].
  intros (d & Hd%map_err_Ok & [= <-])%result_bind_Ok. exists d.
  split; [done|]. by apply verify_response_Ok.
Qed.
End main.

(** ** Properties *)

Section properties.
Context {M : SerdeMap} {S : Sha256} {H : HexCodec} {Q : QosHex H} {E : P256}.
Context `{!EqDecision (p256_public (P256:=E))} {BM : Borsh ChainMetadata} {B64 : Base64Codec}.
Context {HC : HttpCrates} {X : X402Crates} {PG : PayGate X}.

(** C3: no payment is settled for an unattested response: when a process that started up settles a
    payment, the caller gets a payload that the parser returned for this very request, and
    either the pinned enclave key signed that payload, with the digest that was checked as the
    message, or the facilitator runs on this host and every price is in test tokens. *)
Theorem settled_payment_attested debug_hex debug_p256 debug_str endpoint probe env fs
    (srv : Serving) grpc health req resp :
  main debug_hex debug_p256 debug_str endpoint probe env fs = Ok srv →
  serve srv grpc health req = (resp, true) →
  ∃ cfg layer wrapper w p sig message,
    srv_v2 srv = Some (cfg, layer) ∧ hr_json req = Ok wrapper ∧
    resp = MkHttpResponse HTTP_OK (Envelope w) ∧
    forwards (MkAppState grpc health (srv_attestation srv)) (tk_request wrapper) w p sig message ∧
    ((∃ v d, srv_attestation srv = Some v ∧ message = hex_encode d ∧
        attested (pinned_public v) sig p d) ∨
     (is_loopback (url_host_str (facilitator_url cfg)) = true ∧
      Forall (fun t => usdc_mainnet (tag_asset t) = false) (layer_tags layer))).
Proof.
  intros Hmain (_ & (cfg & layer & Hv2) & wrapper & w & p & sig & message & Hj & -> & Hf)%serve_settled.
  exists cfg, layer, wrapper, w, p, sig, message. split_and!; try done.
  destruct (srv_attestation srv) as [v|] eqn:Ha.
  - left. apply fwd_message, authenticate_pinned in Hf as (d & -> & Hd). by exists v, d.
  - right. by eapply main_fail_closed.
Qed.

End properties.

(** A reply that the pinned enclave signed for this request goes through unchanged. *)
Lemma gateway_forwards_signed {M : SerdeMap} {F : JsonFormat} {D : JsonErrorText} {S : Sha256}
    {H : HexCodec} {Q : QosHex H} {E : P256} `{!EqDecision (p256_public (P256:=E))}
    {BM : Borsh ChainMetadata} {B64 : Base64Codec} (state : AppState E) wrapper chain k registry
    conversion out sig :
  tk_chain (tk_request wrapper) = chain_as_str_name chain →
  attests (forwarded (tk_request wrapper) chain) registry conversion out → signed_by k out sig →
  grpc_client state (forwarded (tk_request wrapper) chain) =
    RpcOk (MkParseResponse (Some (MkParsedTransaction (Some out) (Some sig)))) →
  (∀ v, attestation state = Some v → pinned_public v = p256_public_key k) →
  parse_handler state wrapper =
    MkHttpResponse HTTP_OK (Envelope (success_response mock_boot_proof (turnkey_payload out)
      (Some (MkTurnkeySignature (sig_message sig) (sig_public_key sig)
               "SIGNATURE_SCHEME_TURNKEY_P256_EPHEMERAL_KEY" (sig_signature sig))))) ∧
  sig_scheme sig = 1%Z.
Proof.
  intros Hc Hat Hsig Hg Hpin.
  assert (authenticate state sig out = Ok (sig_message sig)) as Hauth.
  { unfold authenticate. destruct (attestation state) as [v|] eqn:Hv; [|done].
    pose proof Hsig as (bs & raw & Hbs & _).
    destruct (signed_by_attested _ _ _ _ Hbs Hsig) as [Ha ->]. rewrite <-(Hpin v eq_refl) in Ha.
    by rewrite (proj2 (verify_response_Ok _ _ _ _) Ha). }
  assert (handle_request state wrapper = Ok (success_response mock_boot_proof (turnkey_payload out)
    (Some (MkTurnkeySignature (sig_message sig) (sig_public_key sig)
       (scheme_as_str_name (scheme_of_wire (sig_scheme sig))) (sig_signature sig))))) as Hh.
  { apply handle_request_Ok. exists out, sig, (sig_message sig).
    split; [by exists chain|split|done|done]; [apply Hat|].
    destruct (at_metadata _ _ _ _ Hat) as (m & Hm & Hd). by exists m. }
  unfold parse_handler. rewrite Hh. by destruct Hsig as (bs & raw & _ & -> & _).
Qed.

(** C4: the gateway forwards what its enclave signs: for a request of a known chain that the
    enclave parses, a gateway that pins the enclave's key, or no key, answers 200 with the text
    of the converted payload, its digests and the enclave's signature over them. *)
Theorem honest_enclave_forwarded {M : SerdeMap} {F : JsonFormat} {D : JsonErrorText} {S : Sha256}
    {H : HexCodec} {Q : QosHex H} {P E : P256} `{!EqDecision (p256_public (P256:=E))}
    {BV : Borsh VerifiedPaymentMarker} {BS : Borsh SignedVerifiedPaymentMarker}
    {BM : Borsh ChainMetadata} {B64 : Base64Codec}
    debug_io debug_sign chains k cfg resp (state : AppState E) wrapper chain :
  tk_chain (tk_request wrapper) = chain_as_str_name chain →
  @parse M F D S H P E BV BS BM debug_io debug_sign chains
    (forwarded (tk_request wrapper) chain) k cfg = Ok resp →
  grpc_client state (forwarded (tk_request wrapper) chain) = RpcOk resp →
  (∀ v, attestation state = Some v → pinned_public v = p256_public_key k) →
  ∃ conversion out sig,
    attests (forwarded (tk_request wrapper) chain) (create_registry chains cfg) conversion out ∧
    signed_by k out sig ∧
    parse_handler state wrapper =
      MkHttpResponse HTTP_OK (Envelope (success_response mock_boot_proof (turnkey_payload out)
        (Some (MkTurnkeySignature (sig_message sig) (sig_public_key sig)
                 "SIGNATURE_SCHEME_TURNKEY_P256_EPHEMERAL_KEY" (sig_signature sig))))).
Proof.
  intros Hc Hp Hg Hpin. unfold parse in Hp. apply result_bind_Ok in Hp as ([] & _ & Hp).
  apply parse_with_registry_Ok in Hp as (_ & conversion & out & sig & Hat & Hsig & ->).
  exists conversion, out, sig. split_and!; [done|done|].
  by apply (gateway_forwards_signed state wrapper chain k (create_registry chains cfg) conversion).
Qed.

(** ** A concrete deployment: the local profile, a pinned key, and the enclave of the route *)

Module sample_gateway.
#[local] Unset Program Cases.

Program Definition gate : PayGate sample_x402.crates := {|
  json_rejection := (); rejection_response _ := MkHttpResponse 400 EmptyBody;
  http_extras := bool;
  paygate _ paid inner :=
    if paid then (inner, is_success (http_status inner)) else (MkHttpResponse 402 EmptyBody, false) |}.
Next Obligation. done. Qed.
Next Obligation. intros layer [] inner; cbv beta iota; [done|by intros]. Qed.

Definition env : environment := fun k =>
  if decide (k = "TVC_DEMO_PINNED_PUBKEY_HEX") then VarSet "0x09"
  else if decide (k = "X402_NETWORK") then VarSet "base"
  else if decide (k = "X402_PAYTO") then VarSet "0X000000000000000000000000000000000000dEaD"
  else VarNotPresent.

Definition cfg : ParserConfig (P:=toy_p256) := MkParserConfig AcceptUnsigned Disabled.

Definition enclave (r : ParseRequest) : result fault ParseResponse :=
  @parse btree_map compact_format (fun _ => "e") truncation_hash hex_ref toy_p256 toy_p256
    borsh_vpm borsh_signed sample_payment.no_metadata (fun _ => "") "" sample_route.chains r
    sample_route.key cfg.

Definition backend (r : ParseRequest) : rpc ParseResponse :=
  match enclave r with
  | Ok resp => RpcOk resp
  | Err (Grpc e) => RpcStatus (grpc_code e) (grpc_message e)
  | Err Panicked => RpcTimedOut
  end.

Definition wrapper (payload : string) : TurnkeyRequestWrapper :=
  MkTurnkeyRequestWrapper (MkTurnkeyRequest payload "CHAIN_SOLANA" None false).

Definition run_main :=
  @main hex_ref toy_p256 http_ref sample_x402.crates (fun _ => "") (fun _ => "") id (fun _ => Ok ())
    (fun _ _ => true) env sample_auth.no_files.

Definition srv : @Serving toy_p256 sample_x402.crates :=
  match run_main with
  | Ok s => s
  | Err _ => @MkServing toy_p256 sample_x402.crates 0 "" None None None
  end.

Definition req : @HttpRequest http_ref sample_x402.crates gate :=
  @MkHttpRequest http_ref sample_x402.crates gate POST "/visualsign/api/v2/parse" None true
    (Ok (wrapper "0xdead")).

Definition run_serve :=
  @serve btree_map truncation_hash hex_ref qos_hex_ref toy_p256 _ sample_payment.no_metadata b64_toy
    http_ref sample_x402.crates gate srv backend (fun _ => RpcOk 1%Z) req.


Definition state : AppState toy_p256 :=
  MkAppState backend (fun _ => RpcOk 1%Z) (Some (@MkAttestationVerifier toy_p256 Byte.x09)).
End sample_gateway.

Lemma settled_payment_attested_witness :
  ∃ resp w p sig message d,
    sample_gateway.run_serve = (resp, true) ∧ resp = MkHttpResponse HTTP_OK (Envelope w) ∧
    message = @hex_encode hex_ref d ∧
    @attested truncation_hash hex_ref qos_hex_ref toy_p256 Byte.x09 sig p d.
Proof.
  assert (sample_gateway.run_main = Ok sample_gateway.srv) as Hm by reflexivity.
  assert (sample_gateway.run_serve.2 = true) as Hs by (vm_compute; reflexivity).
  destruct sample_gateway.run_serve as [resp b] eqn:Hr. simpl in Hs. subst b.
  destruct (settled_payment_attested (M:=btree_map) (S:=truncation_hash) (H:=hex_ref)
    (Q:=qos_hex_ref) (E:=toy_p256) (BM:=sample_payment.no_metadata) (B64:=b64_toy) (HC:=http_ref)
    (X:=sample_x402.crates) (PG:=sample_gateway.gate) (fun _ => "") (fun _ => "") id (fun _ => Ok ())
    (fun _ _ => true) sample_gateway.env sample_auth.no_files sample_gateway.srv
    sample_gateway.backend (fun _ => RpcOk 1%Z) sample_gateway.req resp Hm Hr)
    as (cfg & layer & wrapper & w & p & sig & message & Hv2 & _ & Hw & _ & [(v & d & Hv & Hd & Ha)|[_ Ht]]).
  - exists resp, w, p, sig, message, d. split; [reflexivity|]. split; [exact Hw|].
    split; [exact Hd|]. injection Hv as <-. exact Ha.
  - exfalso. injection Hv2 as <- <-. apply Forall_cons in Ht as [Ht _]. discriminate Ht.
Defined.


Lemma honest_enclave_forwarded_witness :
  ∃ out sig, @signed_by truncation_hash hex_ref toy_p256 sample_route.key out sig ∧
    @parse_handler truncation_hash hex_ref qos_hex_ref toy_p256 _ sample_payment.no_metadata b64_toy
      sample_gateway.state (sample_gateway.wrapper "0xdead") =
    MkHttpResponse HTTP_OK (Envelope (success_response mock_boot_proof (@turnkey_payload b64_toy out)
      (Some (MkTurnkeySignature (sig_message sig) (sig_public_key sig)
               "SIGNATURE_SCHEME_TURNKEY_P256_EPHEMERAL_KEY" (sig_signature sig))))).
Proof.
  destruct (sample_gateway.enclave (forwarded (tk_request (sample_gateway.wrapper "0xdead")) ProtoSolana))
    as [resp|] eqn:He; [|vm_compute in He; discriminate He].
  destruct (honest_enclave_forwarded (M:=btree_map) (F:=compact_format) (D:=fun _ => "e")
    (S:=truncation_hash) (H:=hex_ref) (Q:=qos_hex_ref) (P:=toy_p256) (E:=toy_p256) (BV:=borsh_vpm)
    (BS:=borsh_signed) (BM:=sample_payment.no_metadata) (B64:=b64_toy) (fun _ => "") ""
    sample_route.chains sample_route.key sample_gateway.cfg resp sample_gateway.state
    (sample_gateway.wrapper "0xdead") ProtoSolana)
    as (_ & out & sig & _ & Hs & Hp); [reflexivity|exact He| | |].
  - cbn [grpc_client sample_gateway.state]. unfold sample_gateway.backend. rewrite He. reflexivity.
  - intros v [= <-]. reflexivity.
  - exists out, sig. split; [exact Hs|exact Hp].
Defined.
