(* ===== verification/HttpServer.v ===== *)
(** * The HTTP server of the enclave ([parser/http-server/src])

    The single binary that calls [parse] directly: the boot proof it reports
    ([boot_proof.rs]), and the handlers, fallbacks and start-up of [main.rs]. Its successful
    answers are shown to be those of the gateway in front of the same enclave. *)

From S2P Require Import Prelude Json Payload Errors Grpc Charset External DecimalText Encodings Signing.
From S2P Require Import Proto Registry Borsh Payment AbiMetadata ParseRoute.
From S2P Require Import GatewayAuth Turnkey Attestation GatewayConfig Gateway.

(** ** The boot proof *)

Definition MAX_MANIFEST_FILE_SIZE : nat := 10 * 1024 * 1024.

Inductive BootProofError : Type := ManifestError (m : string) | EncodeError (m : string).

Record StaticBootProof := MkStaticBootProof {
  sbp_ephemeral_public_key_hex : string;
  sbp_qos_manifest_b64 : string;
  sbp_qos_manifest_envelope_b64 : string;
  sbp_enclave_app : string;
  sbp_deployment_label : string;
}.

(** [BootProofSource::boot_proof]. *)
Definition boot_proof (self : StaticBootProof) : TurnkeyBootProof :=
  MkTurnkeyBootProof "" (sbp_qos_manifest_b64 self) (sbp_qos_manifest_envelope_b64 self)
    (sbp_ephemeral_public_key_hex self) (sbp_enclave_app self) (sbp_deployment_label self).

(** [qos_core]'s envelope and the manifest in it, and how the JSON of one is read. *)
Class QosManifest : Type := {
  manifest : Type;
  manifest_envelope : Type;
  envelope_manifest : manifest_envelope → manifest;
  envelope_from_json : bytes → result string manifest_envelope;
  borsh_manifest :: Borsh manifest;
  borsh_envelope :: Borsh manifest_envelope;
}.

Section boot_proof.
Context {H : HexCodec} {E : P256} {B64 : Base64Codec} {QM : QosManifest}.

Definition encode_borsh_b64 `{Borsh A} (v : A) : result BootProofError string :=
  bs ← map_err (fun e => EncodeError (show_io_error e)) (to_vec v);
  Ok (b64_encode bs).

Definition read_manifest_envelope_at (fs : files) (path : string)
    : result BootProofError manifest_envelope :=
  file ← map_err (fun e => ManifestError (path +:+ ": " +:+ e)) (fs path);
  let contents := take (MAX_MANIFEST_FILE_SIZE + 1) file in
  if decide (MAX_MANIFEST_FILE_SIZE < length contents) then
    Err (ManifestError (path +:+ " exceeds maximum size (> " +:+ show_nat MAX_MANIFEST_FILE_SIZE
                        +:+ " bytes)"))
  else map_err (fun e => ManifestError ("manifest json: " +:+ e)) (envelope_from_json contents).

Definition encode_manifest_borsh_b64 (envelope : manifest_envelope)
    : result BootProofError (string * string) :=
  m ← encode_borsh_b64 (envelope_manifest envelope);
  e ← encode_borsh_b64 envelope;
  Ok (m, e).

Definition StaticBootProof_new (ephemeral : p256_pair (P256:=E))
    (qos_manifest_b64 qos_manifest_envelope_b64 enclave_app deployment_label : string)
    : StaticBootProof :=
  MkStaticBootProof (hex_encode (p256_to_bytes (p256_public_key ephemeral)))
    qos_manifest_b64 qos_manifest_envelope_b64 enclave_app deployment_label.

Definition from_enclave_files (fs : files) (manifest_file : string)
    (ephemeral : p256_pair (P256:=E)) (enclave_app deployment_label : string)
    : result BootProofError StaticBootProof :=
  envelope ← read_manifest_envelope_at fs manifest_file;
  '(m, e) ← encode_manifest_borsh_b64 envelope;
  Ok (StaticBootProof_new ephemeral m e enclave_app deployment_label).
End boot_proof.

(** ** The handlers *)

Definition UNSUPPORTED_MEDIA_TYPE : Z := 415.
Definition PAYLOAD_TOO_LARGE : Z := 413.
Definition PIVOT_BODY_LIMIT_BYTES : nat := 64 * 1024.

(** The media types of the [mime] crate. *)
Class Mime : Type := {
  mime : Type;
  mime_parse : string → option mime;
  mime_type : mime → string;
  mime_subtype : mime → string;
  mime_suffix : mime → option string;
}.

Section server.
Context {M : SerdeMap} {F : JsonFormat} {D : JsonErrorText}.
Context {S : Sha256} {H : HexCodec} {Q : QosHex H} {K : Secp256k1} {P : P256} {E : P256}.
Context `{!EqDecision (p256_public (P256:=E))}.
Context {BV : Borsh VerifiedPaymentMarker} {BS : Borsh SignedVerifiedPaymentMarker}
  {BM : Borsh ChainMetadata} {B64 : Base64Codec} {HC : HttpCrates} {MI : Mime}.
Context (debug_io : io_error → string) (debug_sign : string) (chains : chain_converters).
(** [serde_json::from_slice] for the envelope. *)
Context (parse_envelope : bytes → option TurnkeyRequestWrapper).

Record ServerState := MkServerState {
  ss_ephemeral_key : p256_pair (P256:=E);
  ss_boot_proof : TurnkeyBootProof;
  ss_config : ParserConfig (P:=P);
}.

Definition error_status (state : ServerState) (status : Z) (msg : string) : HttpResponse :=
  MkHttpResponse status (Envelope (error_response msg (ss_boot_proof state))).

Definition bytes_rejection_response (state : ServerState) (status : Z) : HttpResponse :=
  let msg := if decide (status = PAYLOAD_TOO_LARGE) then "payload too large"
             else "invalid request body" in
  error_status state status msg.

Definition is_json_content_type (content_type : option header_value) : bool :=
  match (content_type ≫= header_to_str) ≫= mime_parse with
  | Some m =>
      bool_decide (mime_type m = "application")
      && (bool_decide (mime_subtype m = "json") || bool_decide (mime_suffix m = Some "json"))
  | None => false
  end.

Definition turnkey_signature (sig : ProtoSignature) : TurnkeySignature :=
  let scheme := default SchemeUnspecified (scheme_try_from (sig_scheme sig)) in
  MkTurnkeySignature (sig_message sig) (sig_public_key sig) (scheme_as_str_name scheme)
    (sig_signature sig).

(** [None] when [parse] panics. *)
Definition handle_parse (state : ServerState) (body : bytes) : option HttpResponse :=
  match parse_envelope body with
  | None => Some (error_status state BAD_REQUEST "invalid request body")
  | Some wrapper =>
      let r := tk_request wrapper in
      match chain_from_str_name (tk_chain r) with
      | None => Some (error_status state BAD_REQUEST "unknown chain")
      | Some chain =>
          let proto_req :=
            MkParseRequest (tk_unsigned_payload r) (proto_chain_number chain)
              (metadata_from_input <$> tk_chain_metadata r) (tk_include_intermediate_output r) [] in
          match parse debug_io debug_sign chains proto_req (ss_ephemeral_key state) (ss_config state) with
          | Err Panicked => None
          | Err (Grpc e) =>
              match grpc_code e with
              | CodeInvalidArgument => Some (error_status state BAD_REQUEST "invalid request")
              | _ => Some (error_status state INTERNAL_SERVER_ERROR "internal error")
              end
          | Ok proto_resp =>
              match parsed_transaction proto_resp with
              | None => Some (error_status state INTERNAL_SERVER_ERROR
                                "parser_app returned no parsed_transaction")
              | Some parsed_tx =>
                  match pt_payload parsed_tx with
                  | None => Some (error_status state INTERNAL_SERVER_ERROR
                                    "parser_app returned no payload")
                  | Some payload =>
                      Some (MkHttpResponse HTTP_OK (Envelope
                        (success_response (ss_boot_proof state) (turnkey_payload payload)
                           (turnkey_signature <$> pt_signature parsed_tx))))
                  end
              end
          end
      end
  end.

(** ** Routing

    [sr_body] is the body as it arrives, or [None] when it cannot be buffered; axum's default
    limit is set by [main]. *)
Record ServerRequest := MkServerRequest {
  sr_method : Method;
  sr_path : string;
  sr_content_type : option header_value;
  sr_body : option bytes;
}.

Definition buffer_body (body : option bytes) : result Z bytes :=
  match body with
  | None => Err BAD_REQUEST
  | Some b => if decide (PIVOT_BODY_LIMIT_BYTES < length b) then Err PAYLOAD_TOO_LARGE else Ok b
  end.

(** [parse_v1] and [parse_v2] have the same body. *)
Definition parse_v1 (state : ServerState) (req : ServerRequest) : option HttpResponse :=
  match buffer_body (sr_body req) with
  | Err status => Some (bytes_rejection_response state status)
  | Ok body =>
      if is_json_content_type (sr_content_type req) then handle_parse state body
      else Some (error_status state UNSUPPORTED_MEDIA_TYPE "expected content-type: application/json")
  end.

Definition parse_v2 (state : ServerState) (req : ServerRequest) : option HttpResponse :=
  match buffer_body (sr_body req) with
  | Err status => Some (bytes_rejection_response state status)
  | Ok body =>
      if is_json_content_type (sr_content_type req) then handle_parse state body
      else Some (error_status state UNSUPPORTED_MEDIA_TYPE "expected content-type: application/json")
  end.

Definition health : HttpResponse := MkHttpResponse HTTP_OK EmptyBody.
Definition not_found_fallback (state : ServerState) : HttpResponse :=
  error_status state NOT_FOUND "not found".
Definition method_not_allowed_fallback (state : ServerState) : HttpResponse :=
  error_status state METHOD_NOT_ALLOWED "method not allowed".

Definition serve_request (state : ServerState) (req : ServerRequest) : option HttpResponse :=
  if decide (sr_path req = "/health") then
    match sr_method req with
    | GET => Some health
    | _ => Some (method_not_allowed_fallback state)
    end
  else if decide (sr_path req = "/visualsign/api/v1/parse") then
    match sr_method req with
    | POST => parse_v1 state req
    | _ => Some (method_not_allowed_fallback state)
    end
  else if decide (sr_path req = "/visualsign/api/v2/parse") then
    match sr_method req with
    | POST => parse_v2 state req
    | _ => Some (method_not_allowed_fallback state)
    end
  else Some (not_found_fallback state).

(** ** Start-up, with the key and the boot proof that [qos_core] provides *)

Definition start (debug_boot : BootProofError → string) (accept_unsigned : bool)
    (signer_pubkeys : list string) (ephemeral_key : result string (p256_pair (P256:=E)))
    (boot : p256_pair (P256:=E) → result BootProofError StaticBootProof) : result string ServerState :=
  abi_trust ← map_err (fun e => "invalid ABI trust config: " +:+ e)
                (abi_trust_from_options accept_unsigned signer_pubkeys);
  let config := MkParserConfig abi_trust Disabled in
  key ← map_err (fun e => "failed to load ephemeral key: " +:+ e) ephemeral_key;
  proof ← map_err (fun e => "failed to build boot proof: " +:+ debug_boot e) (boot key);
  Ok (MkServerState key (boot_proof proof) config).

(** ** Lemmas *)

(** The errors a server can send, whatever it is asked. *)
Definition error_table : list (Z * string) :=
  [(BAD_REQUEST, "invalid request body"); (BAD_REQUEST, "unknown chain");
   (BAD_REQUEST, "invalid request"); (INTERNAL_SERVER_ERROR, "internal error");
   (PAYLOAD_TOO_LARGE, "payload too large");
   (UNSUPPORTED_MEDIA_TYPE, "expected content-type: application/json");
   (NOT_FOUND, "not found"); (METHOD_NOT_ALLOWED, "method not allowed")].

Definition listed (state : ServerState) (resp : HttpResponse) : Prop :=
  ∃ row, row ∈ error_table ∧ resp = error_status state row.1 row.2.

(** A success: what the enclave signed, under the boot proof. *)
Definition signed_success (state : ServerState) (resp : HttpResponse) : Prop :=
  ∃ out sig, signed_by (ss_ephemeral_key state) out sig ∧
    resp = MkHttpResponse HTTP_OK (Envelope
      (success_response (ss_boot_proof state) (turnkey_payload out) (Some (turnkey_signature sig)))).

Lemma parse_Ok_shape r (k : p256_pair (P256:=E)) (cfg : ParserConfig (P:=P)) resp :
  parse debug_io debug_sign chains r k cfg = Ok resp →
  ∃ conversion out sig, attests r (create_registry chains cfg) conversion out ∧ signed_by k out sig ∧
    resp = MkParseResponse (Some (MkParsedTransaction (Some out) (Some sig))).
Proof.
  unfold parse. intros ([] & _ & Hp)%result_bind_Ok. by apply parse_with_registry_Ok in Hp as [_ Hp].
Qed.

Lemma listed_row state n status msg :
  error_table !! n = Some (status, msg) → listed state (error_status state status msg).
Proof. intros Hr%list_elem_of_lookup_2. by exists (status, msg). Qed.

Ltac row n := apply (listed_row _ n); reflexivity.

Lemma handle_parse_cases state body resp :
  handle_parse state body = Some resp → listed state resp ∨ signed_success state resp.
Proof.
  unfold handle_parse. destruct (parse_envelope body) as [w|]; [|intros [= <-]; left; row 0].
  cbv zeta. destruct (chain_from_str_name _) as [c|]; [|intros [= <-]; left; row 1].
  destruct (parse _ _ _ _ _ _) as [pr|[e|]] eqn:Hp; [| |done].
  - apply parse_Ok_shape in Hp as (conv & out & sig & _ & Hs & ->). cbn. intros [= <-].
    right. by exists out, sig.
  - intros He. left.
    destruct (grpc_code e); injection He as <-; first [row 2|row 3].
Qed.

Lemma parse_v1_cases state req resp :
  parse_v1 state req = Some resp → listed state resp ∨ signed_success state resp.
Proof.
  unfold parse_v1, buffer_body, bytes_rejection_response.
  destruct (sr_body req) as [b|]; [|intros [= <-]; left; row 0].
  case_decide; [intros [= <-]; left; row 4|].
  destruct (is_json_content_type _); [apply handle_parse_cases|].
  intros [= <-]. left. row 5.
Qed.

Lemma serve_request_cases state req resp :
  serve_request state req = Some resp →
  resp = health ∨ listed state resp ∨ signed_success state resp.
Proof.
  unfold serve_request. case_decide; [destruct (sr_method req); intros [= <-]; [by left|right; left; row 7..]|].
  case_decide; [destruct (sr_method req);
    [intros [= <-]; right; left; row 7|right; by eapply parse_v1_cases|intros [= <-]; right; left; row 7]|].
  case_decide; [destruct (sr_method req);
    [intros [= <-]; right; left; row 7|right; by eapply parse_v1_cases|intros [= <-]; right; left; row 7]|].
  intros [= <-]. right; left. row 6.
Qed.

(** Without payments, the route reports nothing but these two codes. *)
Lemma parse_with_registry_codes r (k : p256_pair (P256:=E)) registry e :
  parse_with_registry debug_io debug_sign r k registry = Err (Grpc e) →
  grpc_code e = CodeInvalidArgument ∨ grpc_code e = CodeInternal.
Proof.
  unfold parse_with_registry. cbv zeta. case_decide; [intros [= <-]; by left|].
  intros [Hr|(c & _ & Hr)]%result_bind_Err.
  { destruct (proto_chain_try_from _); [done|]. injection Hr as <-. by left. }
  apply result_bind_Err in Hr as [Hr|(conv & _ & Hr)].
  { destruct (convert_transaction _ _ _ _); [done|]. injection Hr as <-. by left. }
  apply result_bind_Err in Hr as [Hr|([] & _ & Hr)].
  { destruct (validate_charset _) as [|[]]; cbn in Hr; try done; injection Hr as <-; auto. }
  apply result_bind_Err in Hr as [Hr|(text & _ & Hr)].
  { destruct (payload_to_string _); [done|]. injection Hr as <-. by right. }
  apply result_bind_Err in Hr as [Hr|(m & _ & Hr)].
  { destruct (chain_metadata_bytes _); [done|]. injection Hr as <-. by right. }
  apply result_bind_Err in Hr as [Hr|(db & _ & Hr)].
  { by apply signing_digest_bytes_Err in Hr as [? _]. }
  apply result_bind_Err in Hr as [Hr|(sg & _ & Hr)]; [|done].
  destruct (p256_sign _ _); [done|]. injection Hr as <-. by right.
Qed.

Lemma parse_disabled_codes r (k : p256_pair (P256:=E)) (cfg : ParserConfig (P:=P)) e :
  payment cfg = Disabled → parse debug_io debug_sign chains r k cfg = Err (Grpc e) →
  grpc_code e = CodeInvalidArgument ∨ grpc_code e = CodeInternal.
Proof.
  intros Hd. unfold parse. rewrite Hd. cbn [verify map_err mbind result_bind].
  apply parse_with_registry_codes.
Qed.
End server.

(** ** Properties *)

Section properties.
Context {M : SerdeMap} {F : JsonFormat} {D : JsonErrorText}.
Context {S : Sha256} {H : HexCodec} {P : P256} {E : P256}.
Context {BV : Borsh VerifiedPaymentMarker} {BS : Borsh SignedVerifiedPaymentMarker}
  {BM : Borsh ChainMetadata} {B64 : Base64Codec}.

(** Whatever is sent to the server, it answers with the bare health status, with one of eight
    fixed error texts that repeat nothing of the request, or with a payload that the enclave
    key signed; every answer but the health status carries the boot proof. *)
Theorem server_answers_closed {HC : HttpCrates} {MI : Mime} debug_io debug_sign chains
    parse_envelope (state : ServerState (P:=P) (E:=E)) req resp :
  serve_request (BV:=BV) (BS:=BS) debug_io debug_sign chains parse_envelope state req = Some resp →
  resp = health ∨ listed state resp ∨ signed_success state resp.
Proof. apply serve_request_cases. Qed.

(** C38: the server and a gateway in front of the same enclave give the same answer to the same
    envelope: the same status, and on success the same payload and signature, so that they
    differ only in their boot proofs and in the texts of their errors. *)
Theorem server_agrees_with_gateway {Q : QosHex H} `{!EqDecision (p256_public (P256:=E))}
    debug_io debug_sign chains parse_envelope
    (state : ServerState (P:=P) (E:=E)) body wrapper m (gateway : AppState E) resp :
  let enclave r := parse (BV:=BV) (BS:=BS) debug_io debug_sign chains r
                     (ss_ephemeral_key state) (ss_config state) in
  payment (ss_config state) = Disabled →
  parse_envelope body = Some wrapper →
  chain_metadata_bytes (metadata_from_input <$> tk_chain_metadata (tk_request wrapper)) = Ok m →
  (∀ r, match enclave r with
        | Ok a => grpc_client gateway r = RpcOk a
        | Err (Grpc e) => grpc_client gateway r = RpcStatus (grpc_code e) (grpc_message e)
        | Err Panicked => True
        end) →
  (∀ v, attestation gateway = Some v → pinned_public v = p256_public_key (ss_ephemeral_key state)) →
  handle_parse debug_io debug_sign chains parse_envelope state body = Some resp →
  http_status resp = http_status (parse_handler gateway wrapper) ∧
  (http_status resp = HTTP_OK → ∃ p s,
     resp = MkHttpResponse HTTP_OK (Envelope (success_response (ss_boot_proof state) p s)) ∧
     parse_handler gateway wrapper =
       MkHttpResponse HTTP_OK (Envelope (success_response mock_boot_proof p s))).
Proof.
  intros enclave Hpay Henv Hm Hgrpc Hpin. unfold handle_parse. rewrite Henv. cbv zeta.
  destruct (chain_from_str_name _) as [c|] eqn:Hc.
  2: { intros [= <-]. unfold parse_handler, handle_request. cbv zeta. rewrite Hc. by split. }
  change (MkParseRequest _ _ _ _ _) with (forwarded (tk_request wrapper) c).
  specialize (Hgrpc (forwarded (tk_request wrapper) c)). unfold enclave in Hgrpc.
  destruct (parse _ _ _ _ _ _) as [pr|[e|]] eqn:Hp; [| |done].
  - destruct (parse_Ok_shape _ _ _ _ _ _ _ Hp) as (conv & out & sig & Hat & Hs & ->). cbn. intros [= <-].
    apply chain_from_str_name_iff in Hc.
    destruct (gateway_forwards_signed gateway wrapper c (ss_ephemeral_key state)
      (create_registry chains (ss_config state)) conv out sig Hc Hat Hs Hgrpc Hpin) as [-> Hsch].
    split; [done|]. intros _. eexists _, _. split; [done|].
    unfold turnkey_signature. by rewrite Hsch.
  - intros He. pose proof (parse_disabled_codes _ _ _ _ _ _ _ Hpay Hp) as Hcode.
    unfold parse_handler, handle_request. cbv zeta. rewrite Hc. cbn [ok_or mbind result_bind].
    rewrite Hm. cbn [map_err mbind result_bind]. unfold call_parser. rewrite Hgrpc.
    destruct Hcode as [Hcode|Hcode]; rewrite Hcode in *; injection He as <-; by split.
Qed.
End properties.

(** A server of the sample enclave, asked for one transaction. *)
Module sample_server.
Definition proof : TurnkeyBootProof := MkTurnkeyBootProof "" "m" "e" "09" "visualsign-parser" "".

Definition state : @ServerState toy_p256 toy_p256 :=
  @MkServerState toy_p256 toy_p256 sample_route.key proof sample_gateway.cfg.

Definition body : bytes := as_bytes "0xdead".
Definition read (b : bytes) : option TurnkeyRequestWrapper :=
  Some (sample_gateway.wrapper (str_of_bytes b)).

Definition mimes : Mime :=
  {| mime := string; mime_parse s := Some s; mime_type _ := "application";
     mime_subtype _ := "json"; mime_suffix _ := None |}.

Definition request : @ServerRequest http_ref :=
  @MkServerRequest http_ref POST "/visualsign/api/v1/parse" (Some "application/json") (Some body).

Definition run :=
  @serve_request btree_map compact_format (fun _ => "e") truncation_hash hex_ref toy_p256 toy_p256
    borsh_vpm borsh_signed sample_payment.no_metadata b64_toy http_ref mimes (fun _ => "") ""
    sample_route.chains read state request.

Definition handled :=
  @handle_parse btree_map compact_format (fun _ => "e") truncation_hash hex_ref toy_p256 toy_p256
    borsh_vpm borsh_signed sample_payment.no_metadata b64_toy (fun _ => "") ""
    sample_route.chains read state body.
End sample_server.

Lemma server_answers_closed_witness :
  ∃ resp, sample_server.run = Some resp ∧
    (resp = health ∨ listed sample_server.state resp ∨
     @signed_success truncation_hash hex_ref toy_p256 toy_p256 b64_toy sample_server.state resp).
Proof.
  destruct sample_server.run as [resp|] eqn:Hr; [|vm_compute in Hr; discriminate Hr].
  exists resp. split; [reflexivity|].
  exact (server_answers_closed (M:=btree_map) (F:=compact_format) (D:=fun _ => "e")
    (S:=truncation_hash) (H:=hex_ref) (P:=toy_p256) (E:=toy_p256) (BV:=borsh_vpm) (BS:=borsh_signed)
    (BM:=sample_payment.no_metadata) (B64:=b64_toy) (HC:=http_ref) (MI:=sample_server.mimes)
    _ _ _ _ _ _ _ Hr).
Defined.

Lemma server_agrees_with_gateway_witness :
  ∃ resp, sample_server.handled = Some resp ∧
    http_status resp = http_status (@parse_handler truncation_hash hex_ref qos_hex_ref toy_p256 _
      sample_payment.no_metadata b64_toy sample_gateway.state (sample_gateway.wrapper "0xdead")).
Proof.
  destruct sample_server.handled as [resp|] eqn:Hr; [|vm_compute in Hr; discriminate Hr].
  exists resp. split; [reflexivity|].
  refine (proj1 (server_agrees_with_gateway (M:=btree_map) (F:=compact_format) (D:=fun _ => "e")
    (S:=truncation_hash) (H:=hex_ref) (P:=toy_p256) (E:=toy_p256) (BV:=borsh_vpm) (BS:=borsh_signed)
    (BM:=sample_payment.no_metadata) (B64:=b64_toy) (Q:=qos_hex_ref) (fun _ => "") ""
    sample_route.chains sample_server.read sample_server.state sample_server.body
    (sample_gateway.wrapper "0xdead") [] sample_gateway.state resp _ _ _ _ _ Hr));
    [reflexivity|reflexivity|reflexivity| |].
  - intros r. cbn [grpc_client sample_gateway.state]. unfold sample_gateway.backend.
    change (parse _ _ _ r _ _) with (sample_gateway.enclave r).
    destruct (sample_gateway.enclave r) as [a|[e|]]; [reflexivity|reflexivity|exact I].
  - intros v [= <-]. reflexivity.
Defined.
