(* ===== verification/Servers.v ===== *)
(** * The gRPC fronts of the parser

    [parser/app/src/host.rs], the host that puts the processor behind a gRPC service;
    [parser/grpc-server/src/main.rs], the development server that calls the route directly,
    with its command line; the posture option of [parser/app/src/cli.rs]; and the health
    services of [health_check/src/lib.rs]. Reading of sockets and metrics are left out. *)

From S2P Require Import Prelude Json Payload Errors Grpc Charset External Encodings Signing.
From S2P Require Import Proto Registry Borsh Payment AbiMetadata ParseRoute.

(** [tonic::Status], and how [tonic] reads a code number. *)
Record TonicStatus := MkTonicStatus { tonic_code : Code; tonic_message : string }.

Class Tonic : Type := {
  tonic_code_from : Z → Code;
  tonic_code_from_number c : tonic_code_from (code_number c) = c;
}.

#[local] Unset Program Cases.

(** Unknown numbers read as [Unknown]. *)
Definition all_codes : list Code :=
  [CodeOk; CodeCancelled; CodeUnknown; CodeInvalidArgument; CodeDeadlineExceeded; CodeNotFound;
   CodeAlreadyExists; CodePermissionDenied; CodeUnauthenticated; CodeResourceExhausted;
   CodeFailedPrecondition; CodeAborted; CodeOutOfRange; CodeUnimplemented; CodeInternal;
   CodeUnavailable; CodeDataLoss].

Program Definition tonic_ref : Tonic := {|
  tonic_code_from z :=
    default CodeUnknown (List.find (fun c => bool_decide (code_number c = z)) all_codes) |}.
Next Obligation. by destruct c. Qed.

Section servers.
Context {M : SerdeMap} {F : JsonFormat} {D : JsonErrorText}.
Context {S : Sha256} {H : HexCodec} {K : Secp256k1} {P : P256} {E : P256}.
Context {BV : Borsh VerifiedPaymentMarker} {BS : Borsh SignedVerifiedPaymentMarker}
  {BM : Borsh ChainMetadata} {T : Tonic}.
Context (debug_io : io_error → string) (debug_sign : string) (chains : chain_converters).
(** The [Debug] text of an enclave output. *)
Context (debug_output : ResponseOutput → string).

Definition status_internal (message : string) : TonicStatus := MkTonicStatus CodeInternal message.

(** [From<google::rpc::Status> for tonic::Status]. *)
Definition status_from_proto (s : Status) : TonicStatus :=
  MkTonicStatus (tonic_code_from (status_code s)) (status_message s).

(** ** The host; [None] when the processor panics *)

Definition host_parse (processor : Processor (P:=P) (E:=E)) (request : ParseRequest)
    : option (result TonicStatus ParseResponse) :=
  raw_output ← process debug_io debug_sign chains processor
                 (MkQosParserRequest (Some (ParseRequestInput request)));
  Some (output ← ok_or (status_internal "QosParserResponse::output was None") (qos_output raw_output);
        match output with
        | ParseResponseOutput response => Ok response
        | StatusOutput s => Err (status_from_proto s)
        | _ => Err (status_internal ("Unexpected response from enclave: " +:+ debug_output output))
        end).

Definition app_health_check (processor : Processor (P:=P) (E:=E)) : option (result TonicStatus Z) :=
  raw_output ← process debug_io debug_sign chains processor
                 (MkQosParserRequest (Some HealthRequestInput));
  Some (output ← ok_or (status_internal "QosParserResponse::output was None") (qos_output raw_output);
        match output with
        | HealthResponseOutput code => Ok code
        | StatusOutput s => Err (status_from_proto s)
        | _ => Err (status_internal ("unexpected health check response: " +:+ debug_output output))
        end).

(** ** Kubernetes health ([health_check]) *)

Inductive ServingStatus : Type := HealthUnknown | HealthServing | HealthNotServing | HealthServiceUnknown.

Definition serving_number (s : ServingStatus) : Z :=
  match s with
  | HealthUnknown => 0 | HealthServing => 1 | HealthNotServing => 2 | HealthServiceUnknown => 3
  end.

Definition LIVENESS_SERVICE : string := "liveness".
Definition READINESS_SERVICE : string := "readiness".

Definition app_status (check : result TonicStatus Z) : ServingStatus :=
  match check with
  | Ok code => if decide (code = 200)%Z then HealthServing else HealthNotServing
  | Err _ => HealthNotServing
  end.

(** [check] is asked only when the service needs it. *)
Definition k8_request (check : () → option (result TonicStatus Z)) (service : string) : option Z :=
  status ← (if decide (service = LIVENESS_SERVICE) then Some HealthServing
            else if decide (service = READINESS_SERVICE) then app_status <$> check ()
            else if decide (service = "") then app_status <$> check ()
            else Some HealthServiceUnknown);
  Some (serving_number status).

(** ** The development server *)

Definition grpc_service_parse (ephemeral_key : p256_pair (P256:=E)) (cfg : ParserConfig (P:=P))
    (request : ParseRequest) : option (result TonicStatus ParseResponse) :=
  match parse debug_io debug_sign chains request ephemeral_key cfg with
  | Ok response => Some (Ok response)
  | Err (Grpc e) =>
      Some (Err (MkTonicStatus (tonic_code_from (code_number (grpc_code e))) (grpc_message e)))
  | Err Panicked => None
  end.

Definition USAGE : string :=
  "usage: parser_grpc_server "
  +:+ "[--accept-unsigned-abis | --accept-signatures-from-pubkey <hex> ...]".

(** The loop over the arguments. *)
Fixpoint trust_args (args : list string) (accept_unsigned : bool) (signer_pubkeys : list string)
    : result string (bool * list string) :=
  match args with
  | [] => Ok (accept_unsigned, signer_pubkeys)
  | arg :: args =>
      if decide (arg = "--accept-unsigned-abis") then trust_args args true signer_pubkeys
      else if decide (arg = "--accept-signatures-from-pubkey") then
        match args with
        | [] => Err "--accept-signatures-from-pubkey needs a hex public key"
        | key :: args =>
            if starts_with "--" key then
              Err ("--accept-signatures-from-pubkey expects a hex public key, got flag '"
                   +:+ key +:+ "'")
            else trust_args args accept_unsigned (signer_pubkeys ++ [key])
        end
      else
        match strip_prefix "--accept-signatures-from-pubkey=" arg with
        | Some key => trust_args args accept_unsigned (signer_pubkeys ++ [key])
        | None => Err ("unexpected argument '" +:+ arg +:+ "'; " +:+ USAGE)
        end
  end.

Definition abi_trust_from_args (args : list string) : result string MetadataTrustPolicy :=
  '(accept_unsigned, signer_pubkeys) ← trust_args args false [];
  if negb accept_unsigned && bool_decide (signer_pubkeys = []) then Ok AcceptUnsigned
  else abi_trust_from_options accept_unsigned signer_pubkeys.

(** ** The command line of the app, by the options its parser found *)

Definition opts_abi_trust (flag : option bool) (multiple : option (list string))
    : result string MetadataTrustPolicy :=
  abi_trust_from_options (default false flag) (default [] multiple).

(** ** Lemmas *)

(** Every text of a bare flag and a key, in the order given. *)
Fixpoint key_args (signer_pubkeys : list string) : list string :=
  match signer_pubkeys with
  | [] => []
  | key :: rest => "--accept-signatures-from-pubkey" :: key :: key_args rest
  end.

Lemma trust_args_keys signer_pubkeys : ∀ u acc,
  Forall (fun key => starts_with "--" key = false) signer_pubkeys →
  trust_args (key_args signer_pubkeys) u acc = Ok (u, acc ++ signer_pubkeys).
Proof.
  induction signer_pubkeys as [|key l IH]; intros u acc Hk; cbn [key_args trust_args];
    [by rewrite app_nil_r|].
  inversion Hk as [|? ? Hkey Hl]; subst. rewrite decide_False by discriminate.
  rewrite decide_True by reflexivity. rewrite Hkey, IH by done. by rewrite <-app_assoc.
Qed.

Lemma k8_liveness check : k8_request check LIVENESS_SERVICE = Some 1%Z.
Proof. reflexivity. Qed.
End servers.

(** ** Properties *)

Section properties.
Context {M : SerdeMap} {F : JsonFormat} {D : JsonErrorText}.
Context {S : Sha256} {H : HexCodec} {P : P256} {E : P256}.
Context {BV : Borsh VerifiedPaymentMarker} {BS : Borsh SignedVerifiedPaymentMarker}
  {BM : Borsh ChainMetadata} {T : Tonic}.

(** Readiness, and the default service, report serving exactly when the key can be read; an
    unknown service is reported as such and liveness never depends on the key. *)
Theorem readiness_exact debug_io debug_sign chains debug_output (processor : Processor (P:=P) (E:=E))
    service :
  let check _ := app_health_check (BV:=BV) (BS:=BS) debug_io debug_sign chains debug_output processor in
  service ∈ ["readiness"; ""] →
  (k8_request check service = Some 1%Z ↔ ∃ key, handle processor () = Ok key) ∧
  (k8_request check service = Some 2%Z ↔ ∃ e, handle processor () = Err e).
Proof.
  intros check Hs.
  assert (k8_request check service = Some (match handle processor () with Ok _ => 1 | Err _ => 2 end)%Z)
    as ->.
  { rewrite !elem_of_cons, elem_of_nil in Hs.
    destruct Hs as [->|[->|[]]]; unfold k8_request, check, app_health_check, process;
      destruct (handle processor ()); reflexivity. }
  destruct (handle processor ()); naive_solver.
Qed.
End properties.

(** What the host answers is attested: a response means that the key was read, that the request met
    the payment policy of the processor, and that the key signed a payload that a registered
    converter made for this request. *)
Theorem host_answers_attested {M : SerdeMap} {F : JsonFormat} {D : JsonErrorText} {S : Sha256}
    {H : HexCodec} {P E : P256} {BM : Borsh ChainMetadata} {T : Tonic}
    debug_io debug_sign chains debug_output (processor : Processor (P:=P) (E:=E)) request response :
  host_parse (BV:=borsh_vpm) (BS:=borsh_signed) debug_io debug_sign chains debug_output processor
    request = Some (Ok response) →
  ∃ key conversion out sig, handle processor () = Ok key ∧
    payment_met request (payment (config processor)) ∧
    attests request (create_registry chains (config processor)) conversion out ∧
    signed_by key out sig ∧
    response = MkParseResponse (Some (MkParsedTransaction (Some out) (Some sig))).
Proof.
  unfold host_parse, process. cbn [qos_input].
  destruct (handle processor ()) as [key|e]; [|done].
  destruct (parse _ _ _ _ _ _) as [resp|[e|]] eqn:Hp; cbn; [|done..]. intros [= <-].
  unfold parse in Hp. apply result_bind_Ok in Hp as ([] & Hv%map_err_Ok & Hp).
  apply parse_with_registry_Ok in Hp as (_ & conversion & out & sig & Ha & Hs & ->).
  exists key, conversion, out, sig. split_and!; [done| |done..].
  exact (proj1 (verify_met _ _ _) Hv).
Qed.

(** The development server without options accepts unsigned ABIs; with keys it requires one. *)
Theorem dev_server_posture (H : HexCodec) (K : Secp256k1) signer_pubkeys policy :
  Forall (fun key => starts_with "--" key = false) signer_pubkeys →
  abi_trust_from_args (key_args signer_pubkeys) = Ok policy ↔
  (signer_pubkeys = [] ∧ policy = AcceptUnsigned) ∨
  (signer_pubkeys ≠ [] ∧ ∃ allow, signer_allowlist_from_hex signer_pubkeys = Ok allow ∧
     policy = RequireAllowlistedSigner allow).
Proof.
  intros Hk. unfold abi_trust_from_args. rewrite trust_args_keys by done.
  destruct signer_pubkeys as [|key l]; cbn [mbind result_bind app].
  - rewrite bool_decide_true by done. cbn. naive_solver.
  - rewrite bool_decide_false by done. cbn [negb andb]. unfold abi_trust_from_options.
    rewrite bool_decide_false by (cbn; lia). unfold resolve_signers.
    destruct (signer_allowlist_from_hex (key :: l)); cbn; naive_solver.
Qed.
