(* ===== verification/SolanaCore.v ===== *)
(** * Visualising Solana instructions ([visualsign-solana/src/core/mod.rs])

    The context a visualizer works in, the resolution of its account indices, and the choice
    of the first visualizer that can handle an instruction. *)

From S2P Require Import Prelude Json Payload Errors.

Definition MAX_CALL_DEPTH : nat := 4.

(** [usize] is 64 bits wide. *)
Definition saturating_succ (n : nat) : nat :=
  if decide (Z.of_nat n < 2 ^ 64 - 1)%Z then S n else n.

Inductive VisualizerKind : Type :=
| Dex (name : string)
| Lending (name : string)
| StakingPools (name : string)
| Payments (name : string).

#[export] Instance VisualizerKind_eq_dec : EqDecision VisualizerKind.
Proof. solve_decision. Defined.

(** ** The types of [solana_sdk] the crate works on *)

Abbreviation Pubkey := bytes.

Record AccountMeta := MkAccountMeta {
  meta_pubkey : Pubkey;
  meta_is_signer : bool;
  meta_is_writable : bool;
}.

Definition AccountMeta_new (pk : Pubkey) (is_signer : bool) : AccountMeta :=
  MkAccountMeta pk is_signer true.
Definition AccountMeta_new_readonly (pk : Pubkey) (is_signer : bool) : AccountMeta :=
  MkAccountMeta pk is_signer false.

Record Instruction := MkInstruction {
  ix_program_id : Pubkey;
  ix_accounts : list AccountMeta;
  ix_data : bytes;
}.

(** The indices are [u8]s. *)
Record CompiledInstruction := MkCompiledInstruction {
  program_id_index : nat;
  ci_accounts : list nat;
  ci_data : bytes;
}.

Record SolanaAccount := MkSolanaAccount {
  account_key : string;
  account_signer : bool;
  account_writable : bool;
}.

(** ** The context *)

Inductive ProgramRef : Type :=
| ProgramResolved (pk : Pubkey)
| ProgramUnresolved (raw_index : nat).

Inductive AccountRef : Type :=
| AccountResolved (pk : Pubkey)
| AccountUnresolved (raw_index : nat).

(** The IDL registry of the context is not read by what is modelled here. *)
Record VisualizerContext := MkContext {
  sender : SolanaAccount;
  compiled_instruction : CompiledInstruction;
  account_keys : list Pubkey;
  instruction_index : nat;
  call_depth : nat;
}.

Definition VisualizerContext_new (s : SolanaAccount) (ci : CompiledInstruction)
    (ks : list Pubkey) (index : nat) : VisualizerContext := MkContext s ci ks index 0.

Definition with_call_depth (depth : nat) (c : VisualizerContext) : VisualizerContext :=
  MkContext (sender c) (compiled_instruction c) (account_keys c) (instruction_index c) depth.

Definition program_id (c : VisualizerContext) : ProgramRef :=
  let idx := program_id_index (compiled_instruction c) in
  match account_keys c !! idx with
  | Some pk => ProgramResolved pk
  | None => ProgramUnresolved idx
  end.

Definition account (c : VisualizerContext) (position : nat) : option AccountRef :=
  idx ← ci_accounts (compiled_instruction c) !! position;
  Some (match account_keys c !! idx with
        | Some pk => AccountResolved pk
        | None => AccountUnresolved idx
        end).

Definition context_data (c : VisualizerContext) : bytes := ci_data (compiled_instruction c).
Definition num_accounts (c : VisualizerContext) : nat := length (ci_accounts (compiled_instruction c)).

Definition resolve_program_id (c : VisualizerContext) : result VisualSignError Pubkey :=
  match program_id c with
  | ProgramResolved pk => Ok pk
  | ProgramUnresolved raw_index =>
      Err (DecodeError ("unresolved program at index " +:+ show_nat raw_index))
  end.

(** The text of an unresolved index, with what precedes it. *)
Definition resolve_account (prefix : string) (c : VisualizerContext) (i : nat)
    : result VisualSignError AccountMeta :=
  match account c i with
  | Some (AccountResolved pk) => Ok (AccountMeta_new_readonly pk false)
  | Some (AccountUnresolved raw_index) =>
      Err (DecodeError (prefix +:+ "unresolved account index " +:+ show_nat raw_index
                        +:+ " at position " +:+ show_nat i))
  | None => Err (DecodeError (prefix +:+ "missing account at position " +:+ show_nat i))
  end.

Definition resolve_accounts (c : VisualizerContext) : result VisualSignError (list AccountMeta) :=
  collect_results (resolve_account "" c) (seq 0 (num_accounts c)).

Section display.
(** [Pubkey::to_string]: base58. *)
Context (show_pubkey : Pubkey → string).

Record InstructionView := MkView { view_program_id : string; view_accounts : list string }.

Definition show_program (p : ProgramRef) : string :=
  match p with
  | ProgramResolved pk => show_pubkey pk
  | ProgramUnresolved raw_index => "unresolved(" +:+ show_nat raw_index +:+ ")"
  end.

Definition from_context (c : VisualizerContext) : InstructionView :=
  MkView (show_program (program_id c))
    ((fun i => match account c i with
               | Some (AccountResolved pk) => show_pubkey pk
               | Some (AccountUnresolved raw_index) => "unresolved(" +:+ show_nat raw_index +:+ ")"
               | None => "unresolved(oob:" +:+ show_nat i +:+ ")"
               end) <$> seq 0 (num_accounts c)).

(** ** Visualizers *)

(** The programs a visualizer is configured for, with their instructions. *)
Definition SolanaIntegrationConfigData : Type := gmap string (gmap string (list string)).

Definition config_can_handle (d : SolanaIntegrationConfigData) (pid : string) : bool :=
  bool_decide (is_Some (d !! pid)).

Record InstructionVisualizer := MkVisualizer {
  visualize_tx_commands : VisualizerContext → result VisualSignError AnnotatedPayloadField;
  get_config : option SolanaIntegrationConfigData;
  kind : VisualizerKind;
  (** The provided method, which a catch-all visualizer overrides. *)
  can_handle : VisualizerContext → bool;
}.

Definition default_can_handle (cfg : option SolanaIntegrationConfigData) (c : VisualizerContext)
    : bool :=
  match cfg with
  | None => false
  | Some d =>
      match program_id c with
      | ProgramResolved pk => config_can_handle d (show_pubkey pk)
      | ProgramUnresolved _ => false
      end
  end.

Record VisualizeResult := MkVisualizeResult {
  vr_field : AnnotatedPayloadField;
  vr_kind : VisualizerKind;
}.

Fixpoint visualize_with_any (visualizers : list InstructionVisualizer) (c : VisualizerContext)
    : option (result VisualSignError VisualizeResult) :=
  match visualizers with
  | [] => None
  | v :: visualizers =>
      if can_handle v c
      then Some ((fun f => MkVisualizeResult f (kind v)) <$> visualize_tx_commands v c)
      else visualize_with_any visualizers c
  end.
End display.

(** ** Facts *)

Lemma visualize_with_any_ext l l' c :
  Forall2 (fun v w => can_handle v c = can_handle w c ∧ kind v = kind w ∧
                      visualize_tx_commands v c = visualize_tx_commands w c) l l' →
  visualize_with_any l c = visualize_with_any l' c.
Proof.
  induction 1 as [|v w l l' (Hc & Hk & Hv) _ IH]; [done|]. cbn. rewrite Hc, Hk, Hv. by rewrite IH.
Qed.

Lemma account_total c i : i < num_accounts c → is_Some (account c i).
Proof.
  unfold num_accounts, account. intros [idx Hi]%lookup_lt_is_Some. rewrite Hi. by eexists.
Qed.

(** ** Properties *)

(** The display view never loses an account: it has one entry per account index, which
    is the base58 key when the index is in range and names the raw index otherwise. *)
Theorem instruction_view_complete show_pubkey c i idx :
  ci_accounts (compiled_instruction c) !! i = Some idx →
  view_accounts (from_context show_pubkey c) !! i =
    Some (match account_keys c !! idx with
          | Some pk => show_pubkey pk
          | None => "unresolved(" +:+ show_nat idx +:+ ")"
          end) ∧
  length (view_accounts (from_context show_pubkey c)) = num_accounts c.
Proof.
  intros Hi. unfold from_context. cbn [view_accounts]. rewrite length_fmap, length_seq.
  split; [|done]. rewrite list_lookup_fmap.
  rewrite lookup_seq_lt by (unfold num_accounts; by eapply lookup_lt_Some). cbn.
  unfold account. rewrite Hi. cbn. by destruct (account_keys c !! idx).
Qed.

Definition sample_context : VisualizerContext :=
  VisualizerContext_new (MkSolanaAccount "" false false)
    (MkCompiledInstruction 0 [0; 9] []) [[Byte.x01]] 0.

Lemma instruction_view_complete_witness :
  view_accounts (from_context (fun _ => "key") sample_context) !! 1 = Some "unresolved(9)".
Proof. apply (instruction_view_complete (fun _ => "key") sample_context 1 9). reflexivity. Defined.

Lemma collect_accounts_iff prefix c metas :
  collect_results (resolve_account prefix c) (seq 0 (num_accounts c)) = Ok metas ↔
  Forall2 (fun idx m => ∃ pk, account_keys c !! idx = Some pk ∧ m = AccountMeta_new_readonly pk false)
    (ci_accounts (compiled_instruction c)) metas.
Proof.
  rewrite collect_results_Ok, !Forall2_same_length_lookup.
  rewrite length_seq. unfold num_accounts. split; intros [Hl Hf]; (split; [done|]).
  - intros i idx m Hi Hm. pose proof (lookup_lt_Some _ _ _ Hi) as Hlt.
    specialize (Hf i i m (lookup_seq_lt 0 _ i Hlt) Hm).
    unfold resolve_account, account in Hf. rewrite Hi in Hf. cbn in Hf.
    destruct (account_keys c !! idx) as [pk|]; [|done]. injection Hf as <-. by exists pk.
  - intros i j m Hj Hm. apply lookup_seq in Hj as [-> Hlt]. cbn.
    destruct (lookup_lt_is_Some_2 _ _ Hlt) as [idx Hi].
    destruct (Hf i idx m Hi Hm) as (pk & Hpk & ->).
    unfold resolve_account, account. cbn. rewrite Hi. cbn. by rewrite Hpk.
Qed.

(** Resolving the accounts of an instruction succeeds exactly when every index is in
    range, and then returns the keys in order, read-only and unsigned. *)
Theorem resolve_accounts_iff c metas :
  resolve_accounts c = Ok metas ↔
  Forall2 (fun idx m => ∃ pk, account_keys c !! idx = Some pk ∧ m = AccountMeta_new_readonly pk false)
    (ci_accounts (compiled_instruction c)) metas.
Proof. apply collect_accounts_iff. Qed.
