(* ===== verification/SolanaAccounts.v ===== *)
(** * The accounts of a Solana message

    [core/accounts/decode.rs] of [chain_parsers/visualsign-solana]: the role of each account
    by its position in the message, and the field that lists the accounts. *)

From S2P Require Import Prelude Json Payload Errors Builders External Encodings SolanaCore.

(** ** Messages *)

(** The counts are [u8]s. *)
Record MessageHeader := MkHeader {
  num_required_signatures : nat;
  num_readonly_signed_accounts : nat;
  num_readonly_unsigned_accounts : nat;
}.

Record Message := MkMessage {
  header : MessageHeader;
  message_keys : list Pubkey;
  recent_blockhash : bytes;
  instructions : list CompiledInstruction;
}.

Record MessageAddressTableLookup := MkLookup {
  lookup_key : Pubkey;
  writable_indexes : list nat;
  readonly_indexes : list nat;
}.

Record V0Message := MkV0Message {
  v0_header : MessageHeader;
  v0_keys : list Pubkey;
  v0_blockhash : bytes;
  v0_instructions : list CompiledInstruction;
  address_table_lookups : list MessageAddressTableLookup;
}.

(** ** Roles *)

Record SolanaAccountInfo := MkAccountInfo {
  ai_address : string;
  is_signer : bool;
  is_writable : bool;
  original_index : nat;
}.

(** The order of the listing. *)
Definition account_category (a : SolanaAccountInfo) : nat :=
  if is_signer a && is_writable a then 0
  else if is_signer a && negb (is_writable a) then 1
  else if negb (is_signer a) && is_writable a then 2
  else 3.

Definition account_le (a b : SolanaAccountInfo) : Prop :=
  account_category a < account_category b ∨
  (account_category a = account_category b ∧ original_index a ≤ original_index b).

#[export] Instance account_le_dec : RelDecision account_le.
Proof. intros a b. unfold account_le. apply _. Defined.

Section accounts.
(** [Pubkey::to_string]: base58. *)
Context (show_pubkey : Pubkey → string).

(** The closure of the map over the keys; subtraction saturates. *)
Definition account_info (h : MessageHeader) (total : nat) (i : nat) (key : Pubkey)
    : SolanaAccountInfo :=
  let signer := i <? num_required_signatures h in
  let writable :=
    if signer then
      let readonly_signer_start := num_required_signatures h - num_readonly_signed_accounts h in
      i <? readonly_signer_start
    else
      let non_signer_index := i - num_required_signatures h in
      let total_non_signers := total - num_required_signatures h in
      let writable_non_signers := total_non_signers - num_readonly_unsigned_accounts h in
      non_signer_index <? writable_non_signers in
  MkAccountInfo (show_pubkey key) signer writable i.

Definition sort_accounts (l : list SolanaAccountInfo) : list SolanaAccountInfo :=
  merge_sort account_le l.

Definition decode_accounts (m : Message) : list SolanaAccountInfo :=
  sort_accounts (imap (account_info (header m) (length (message_keys m))) (message_keys m)).

Definition decode_v0_accounts (m : V0Message) : list SolanaAccountInfo :=
  sort_accounts (imap (account_info (v0_header m) (length (v0_keys m))) (v0_keys m)).
End accounts.

(** ** The field *)

Definition accounts_to_payload_fields (accounts : list SolanaAccountInfo)
    : list AnnotatedPayloadField :=
  (fun a =>
     let details := [ai_address a] ++ (if is_signer a then ["Signer"] else [])
                    ++ (if is_writable a then ["Writable"] else []) in
     annotate_field (text_v2 "Account" (str_join ", " details))) <$> accounts.

Definition plural (n : nat) : string := if decide (n = 1) then "" else "s".

Definition count (P : SolanaAccountInfo → bool) (l : list SolanaAccountInfo) : nat :=
  length (filter (fun a => P a = true) l).

(** One line of the summary, when there is something to count. *)
Definition summary_field (label : string) (text : nat → string) (n : nat)
    : list AnnotatedPayloadField :=
  if decide (0 < n) then [annotate_field (text_v2 label (text n))] else [].

Definition account_summary (accounts : list SolanaAccountInfo) : list AnnotatedPayloadField :=
  summary_field "Signers" (fun n => show_nat n +:+ " Signer" +:+ plural n)
    (count is_signer accounts) ++
  summary_field "Writable" (fun n => show_nat n +:+ " Writable")
    (count (fun a => negb (is_signer a) && is_writable a) accounts) ++
  summary_field "Read Only" (fun n => show_nat n +:+ " Read Only")
    (count (fun a => negb (is_signer a) && negb (is_writable a)) accounts).

Definition account_indicator (a : SolanaAccountInfo) : string :=
  ai_address a +:+ "[" +:+ (if is_signer a then "S" else "")
  +:+ (if is_writable a then "W" else "R") +:+ "]".

Definition create_accounts_advanced_preview_layout (title : string)
    (accounts : list SolanaAccountInfo) : SignablePayloadField :=
  PreviewLayout (Common (str_join ", " (account_indicator <$> accounts)) title)
    (FieldPreviewLayout (Some (FieldTextV2 title))
       (Some (FieldTextV2 (show_nat (length accounts) +:+ " account" +:+ plural (length accounts))))
       (Some (FieldListLayout (account_summary accounts)))
       (Some (FieldListLayout (accounts_to_payload_fields accounts)))).

(** ** Facts *)

#[export] Instance account_le_total : Total account_le.
Proof. intros a b. unfold account_le. lia. Qed.

#[export] Instance account_le_trans : Transitive account_le.
Proof. intros a b c. unfold account_le. lia. Qed.

(** Sorting leaves a list alone whose entries are in order and have distinct indices. *)
Lemma sort_accounts_id l :
  StronglySorted account_le l →
  (∀ a b, a ∈ l → b ∈ l → original_index a = original_index b → a = b) →
  sort_accounts l = l.
Proof.
  intros Hs Hi. apply (StronglySorted_unique_strong account_le).
  - intros a b Ha Hb. unfold sort_accounts in Ha. rewrite merge_sort_Permutation in Ha.
    unfold account_le. intros ??. apply Hi; [done..|lia].
  - apply StronglySorted_merge_sort; apply _.
  - done.
  - apply merge_sort_Permutation.
Qed.

Section account_facts.
Context (show_pubkey : Pubkey → string).
Local Abbreviation infos h keys := (imap (account_info show_pubkey h (length keys)) keys).

Lemma account_category_mono h n i j k k' :
  i ≤ j →
  account_category (account_info show_pubkey h n i k) ≤
  account_category (account_info show_pubkey h n j k').
Proof.
  intros Hij. unfold account_category, account_info. cbn [is_signer is_writable].
  repeat match goal with |- context [?a <? ?b] => destruct (Nat.ltb_spec a b) end; cbn; lia.
Qed.

Lemma infos_sorted h n keys : ∀ k,
  StronglySorted account_le (imap (λ i, account_info show_pubkey h n (k + i)) keys).
Proof.
  induction keys as [|key keys IH]; intros k; cbn [imap]; constructor.
  - erewrite imap_ext; [apply (IH (S k))|]. intros i x _. cbn. by rewrite Nat.add_succ_r.
  - apply Forall_forall. intros b (i & x & -> & _)%elem_of_lookup_imap_1. cbn.
    pose proof (account_category_mono h n (k + 0) (k + S i) key x).
    unfold account_le. cbn [account_info original_index]. lia.
Qed.

Lemma infos_sort h keys : sort_accounts (infos h keys) = infos h keys.
Proof.
  apply sort_accounts_id; [apply (infos_sorted h (length keys) keys 0)|].
  intros a b (i & x & -> & Hx)%elem_of_lookup_imap_1 (j & y & -> & Hy)%elem_of_lookup_imap_1.
  cbn. intros ->. congruence.
Qed.
End account_facts.

(** *** The rows determine the accounts *)

Definition no_comma (s : string) : bool := str_all (fun c => negb (code c =? 44)) s.

(** A text that is empty or starts with a comma. *)
Definition comma_first (s : string) : Prop := s = "" ∨ ∃ t, s = String "," t.

Lemma comma_split_inj s : ∀ s' t t',
  no_comma s = true → no_comma s' = true → comma_first t → comma_first t' →
  s +:+ t = s' +:+ t' → s = s' ∧ t = t'.
Proof.
  induction s as [|c s IH]; intros [|c' s'] t t' Hs Hs' Ht Ht' E.
  - done.
  - destruct Ht as [->|[u ->]]; [done|]. change (String "," u = String c' (s' +:+ t')) in E.
    by injection E as <- _.
  - destruct Ht' as [->|[u ->]]; [done|]. change (String c (s +:+ t) = String "," u) in E.
    by injection E as -> _.
  - cbn in Hs, Hs'. apply andb_true_iff in Hs as [_ Hs], Hs' as [_ Hs'].
    change (String c (s +:+ t) = String c' (s' +:+ t')) in E. injection E as -> E.
    by destruct (IH s' t t') as [-> ->].
Qed.

Definition role_text (signer writable : bool) : string :=
  (if signer then ", Signer" else "") +:+ (if writable then ", Writable" else "").

Lemma row_text a :
  str_join ", " ([ai_address a] ++ (if is_signer a then ["Signer"] else [])
                 ++ (if is_writable a then ["Writable"] else [])) =
  ai_address a +:+ role_text (is_signer a) (is_writable a).
Proof. destruct (is_signer a), (is_writable a); try reflexivity. symmetry. apply str_app_nil_r. Qed.

Lemma rows_inj l : ∀ l',
  Forall (fun a => no_comma (ai_address a) = true) l →
  Forall (fun a => no_comma (ai_address a) = true) l' →
  accounts_to_payload_fields l = accounts_to_payload_fields l' →
  (fun a => (ai_address a, is_signer a, is_writable a)) <$> l =
  (fun a => (ai_address a, is_signer a, is_writable a)) <$> l'.
Proof.
  induction l as [|a l IH]; intros [|a' l'] Hl Hl' E; [done..|].
  apply Forall_cons in Hl as [Ha Hl], Hl' as [Ha' Hl'].
  unfold accounts_to_payload_fields in E. rewrite !fmap_cons in E. rewrite !row_text in E.
  injection E as _ E El. rewrite !fmap_cons. f_equal; [|by apply IH].
  apply comma_split_inj in E as [-> E]; [|done..|
    by destruct (is_signer a), (is_writable a); first [by left|right; eexists; cbn; reflexivity]|
    by destruct (is_signer a'), (is_writable a'); first [by left|right; eexists; cbn; reflexivity]].
  by destruct (is_signer a), (is_writable a), (is_signer a'), (is_writable a').
Qed.

(** ** Properties *)

(** The roles the runtime gives the accounts of a message by their position. *)
Definition runtime_signer (h : MessageHeader) (i : nat) : Prop := i < num_required_signatures h.

Definition runtime_writable (h : MessageHeader) (total i : nat) : Prop :=
  i < num_required_signatures h - num_readonly_signed_accounts h ∨
  (num_required_signatures h ≤ i ∧ i < total - num_readonly_unsigned_accounts h).

Lemma account_info_roles show_pubkey h total i key :
  let a := account_info show_pubkey h total i key in
  (is_signer a = true ↔ runtime_signer h i) ∧ (is_writable a = true ↔ runtime_writable h total i).
Proof.
  unfold account_info, runtime_signer, runtime_writable. cbn [is_signer is_writable].
  split; [by rewrite Nat.ltb_lt|].
  destruct (Nat.ltb_spec i (num_required_signatures h)); rewrite Nat.ltb_lt; lia.
Qed.

(** The listing has every key of the message once, in the order of the message, with the roles
    the runtime gives it, for both forms of a message and whatever the counts in the header:
    the sort never moves an account. *)
Theorem accounts_listed_exact show_pubkey m v :
  (∀ i key, message_keys m !! i = Some key →
     ∃ a, decode_accounts show_pubkey m !! i = Some a ∧ ai_address a = show_pubkey key ∧
       (is_signer a = true ↔ runtime_signer (header m) i) ∧
       (is_writable a = true ↔ runtime_writable (header m) (length (message_keys m)) i)) ∧
  length (decode_accounts show_pubkey m) = length (message_keys m) ∧
  (∀ i key, v0_keys v !! i = Some key →
     ∃ a, decode_v0_accounts show_pubkey v !! i = Some a ∧ ai_address a = show_pubkey key ∧
       (is_signer a = true ↔ runtime_signer (v0_header v) i) ∧
       (is_writable a = true ↔ runtime_writable (v0_header v) (length (v0_keys v)) i)) ∧
  length (decode_v0_accounts show_pubkey v) = length (v0_keys v).
Proof.
  unfold decode_accounts, decode_v0_accounts. rewrite !infos_sort, !length_imap.
  split_and!; try done; intros i key Hi; rewrite list_lookup_imap, Hi; cbn;
    (eexists; split; [done|]; split; [done|]; apply account_info_roles).
Qed.

(** The field of the accounts [keys] under the header [h]. *)
Definition accounts_field (show_pubkey : Pubkey → string) (h : MessageHeader) (keys : list Pubkey)
    : SignablePayloadField :=
  create_accounts_advanced_preview_layout "Accounts"
    (sort_accounts (imap (account_info show_pubkey h (length keys)) keys)).

(** The keys, and the role of each. *)
Definition same_accounts (h h' : MessageHeader) (keys keys' : list Pubkey) : Prop :=
  keys = keys' ∧
  ∀ i, i < length keys →
    (runtime_signer h i ↔ runtime_signer h' i) ∧
    (runtime_writable h (length keys) i ↔ runtime_writable h' (length keys') i).

Lemma accounts_field_inj show_pubkey h h' keys keys' :
  Forall (fun k => no_comma (show_pubkey k) = true) (keys ++ keys') →
  (∀ k k', k ∈ keys → k' ∈ keys' → show_pubkey k = show_pubkey k' → k = k') →
  accounts_field show_pubkey h keys = accounts_field show_pubkey h' keys' →
  same_accounts h h' keys keys'.
Proof.
  intros [Hc Hc']%Forall_app Hinj E. injection E as _ _ _ E. rewrite !infos_sort in E.
  rewrite Forall_forall in Hc, Hc'.
  apply rows_inj in E; [|apply Forall_forall; intros a (i & k & -> & Hk)%elem_of_lookup_imap_1;
    apply list_elem_of_lookup_2 in Hk; first [by apply Hc | by apply Hc']..].
  assert (∀ i, (fun k => (show_pubkey k,
      is_signer (account_info show_pubkey h (length keys) i k),
      is_writable (account_info show_pubkey h (length keys) i k))) <$> keys !! i =
    (fun k => (show_pubkey k,
      is_signer (account_info show_pubkey h' (length keys') i k),
      is_writable (account_info show_pubkey h' (length keys') i k))) <$> keys' !! i) as Hi.
  { intros i. apply (f_equal (.!! i)) in E. rewrite !list_lookup_fmap, !list_lookup_imap in E.
    by destruct (keys !! i), (keys' !! i). }
  assert (keys = keys') as Ek.
  { apply list_eq. intros i. specialize (Hi i).
    destruct (keys !! i) eqn:Hk, (keys' !! i) eqn:Hk'; try done.
    cbn in Hi. injection Hi as Hs _ _. apply list_elem_of_lookup_2 in Hk, Hk'.
    f_equal. by apply Hinj. }
  subst keys'. split; [done|]. intros i [k Hk]%lookup_lt_is_Some. specialize (Hi i). rewrite Hk in Hi.
  cbn [fmap option_fmap option_map] in Hi.
  apply (inj Some), pair_equal_spec in Hi as [Hi Hw]. apply pair_equal_spec in Hi as [_ Hs].
  rewrite <-(proj1 (account_info_roles show_pubkey h (length keys) i k)),
    <-(proj1 (account_info_roles show_pubkey h' (length keys) i k)),
    <-(proj2 (account_info_roles show_pubkey h (length keys) i k)),
    <-(proj2 (account_info_roles show_pubkey h' (length keys) i k)).
  by rewrite Hs, Hw.
Qed.

Definition sample_message : Message :=
  MkMessage (MkHeader 1 0 1) [[Byte.x01]; [Byte.x02]] [] [MkCompiledInstruction 1 [0] [Byte.x00]].
