(* ===== verification/SolanaIdl.v ===== *)
(** * Caller-supplied Solana IDLs

    [idl/mod.rs], [idl/builtin_programs.rs] and [idl/signature.rs] of
    [chain_parsers/visualsign-solana], with the extraction of IDLs from a request in
    [core/visualsign.rs] and the configurations of the presets, which fix the programs a caller
    may not describe. *)

From S2P Require Import Prelude Json Payload Errors Charset External Encodings Signing Proto Registry.
From S2P Require Import Payment SolanaCore.

#[local] Unset Program Cases.

(** ** What it uses of other crates *)

(** The base58 text of a key in [solana_sdk]: 32 bytes and their text determine each other, and
    the text is 32 or more letters and digits. *)
Class SolanaSdk : Type := {
  show_pubkey : Pubkey → string;
  pubkey_from_str : string → option Pubkey;
  pubkey_from_length s pk : pubkey_from_str s = Some pk → length pk = 32;
  pubkey_from_show pk : length pk = 32 → pubkey_from_str (show_pubkey pk) = Some pk;
  pubkey_show_from s pk : pubkey_from_str s = Some pk → show_pubkey pk = s;
  show_pubkey_long pk : length pk = 32 → 32 ≤ String.length (show_pubkey pk);
  show_pubkey_alnum pk : length pk = 32 → str_all is_ascii_alphanumeric (show_pubkey pk) = true;
}.

(** The programs [solana_parser] ships an IDL for. *)
Inductive ProgramType : Type :=
| ApePro
| CandyMachine
| Drift
| JupiterLimit
| Jupiter
| Kamino
| Lifinity
| Meteora
| Openbook
| Orca
| Raydium
| Stabble
| JupiterAggregatorV6.

#[export] Instance ProgramType_eq_dec : EqDecision ProgramType.
Proof. solve_decision. Defined.

(** [solana_parser]: a parsed IDL, its parser, and the program of an id. *)
Class SolanaIdls : Type := {
  ParsedIdl : Type;
  decode_idl_data : string → result string ParsedIdl;
  program_type_from_id : string → option ProgramType;
}.

Inductive CustomIdl {P : SolanaIdls} : Type :=
| CustomParsed (idl : ParsedIdl)
| CustomJson (json : string).

Record CustomIdlConfig {P : SolanaIdls} := MkIdlConfig {
  config_idl : CustomIdl;
  override_builtin : bool;
}.
Arguments MkIdlConfig {P}.

Definition config_from_json {P : SolanaIdls} (json : string) (override : bool) : CustomIdlConfig :=
  MkIdlConfig (CustomJson json) override.

(** ** The configurations of the presets *)

Definition star_config (id : string) : SolanaIntegrationConfigData := {[id := {["*" := ["*"]]}]}.

Definition AssociatedTokenAccountConfig : SolanaIntegrationConfigData :=
  star_config "ATokenGPvbdGVxr1b2hvZbsiqW5xWH25efTNsLJA8knL".
Definition ComputeBudgetConfig : SolanaIntegrationConfigData :=
  star_config "ComputeBudget111111111111111111111111111111".
Definition DflowAggregatorConfig : SolanaIntegrationConfigData :=
  star_config "DF1ow4tspfHX9JwWJsAb9epbkA8hmpSEAtxXy1V27QBH".
Definition DriftConfig : SolanaIntegrationConfigData :=
  star_config "dRiftyHA39MWEi3m9aunc5MzRF1JYuBsbn6VPcn33UH".
Definition ExponentFinanceConfig : SolanaIntegrationConfigData :=
  star_config "ExponentnaRg3CQbW6dqQNZKXp7gtZ9DGMp1cwC4HAS7".
Definition JupiterBorrowConfig : SolanaIntegrationConfigData :=
  star_config "jupr81YtYssSyPt8jbnGuiWon5f6x9TcDEFxYe3Bdzi".
Definition JupiterEarnConfig : SolanaIntegrationConfigData :=
  star_config "jup3YeL8QhtSx1e253b2FDvsMNC87fDrgQZivbrndc9".
Definition JupiterPerpsConfig : SolanaIntegrationConfigData :=
  star_config "PERPHjGBqRHArX4DySjwM6UJHiR3sWAatqfdBS2qQJu".
Definition JupiterSwapConfig : SolanaIntegrationConfigData :=
  star_config "JUP6LkbZbjS1jKKwapdHNy74zcZ3tLUZoi5QNyVTaV4".
Definition KaminoBorrowConfig : SolanaIntegrationConfigData :=
  star_config "KLend2g3cP87fffoy8q1mQqGKjrxjC8boSyAYavgmjD".
Definition KaminoFarmsConfig : SolanaIntegrationConfigData :=
  star_config "FarmsPZpWu9i7Kky8tPN37rs2TpmMrAZrC7S7vJa91Hr".
Definition KaminoLimitConfig : SolanaIntegrationConfigData :=
  star_config "LiMoM9rMhrdYrfzUCxQppvxCSG1FcrUK9G8uLq4A1GF".
Definition KaminoVaultConfig : SolanaIntegrationConfigData :=
  star_config "KvauGMspG5k6rtzrqqn7WNn3oZdyKqLKwK2XWQ8FLjd".
Definition MarginfiConfig : SolanaIntegrationConfigData :=
  star_config "MFv2hWf31Z9kbCa1snEPdcgp7X3GK4Y9EtyMkRxBUGA".
Definition MetadaoConditionalVaultConfig : SolanaIntegrationConfigData :=
  star_config "VLTX1ishMBbcX3rdBWGssxawAo1Q2X2qxYFYqiGodVg".
Definition MetadaoFutarchyConfig : SolanaIntegrationConfigData :=
  star_config "FUTARELBfJfQ8RDGhg1wdhddq1odMAJUePHFuBYfUxKq".
Definition MeteoraDammV2Config : SolanaIntegrationConfigData :=
  star_config "cpamdpZCGKUy5JxQXB4dcpGPiikHawvSWAd6mEn1sGG".
Definition MeteoraDlmmConfig : SolanaIntegrationConfigData :=
  star_config "LBUZKhRxPF3XUpBCjp4YzTKgLccjZhTSDM9YuVaPwxo".
Definition NeutralTradeConfig : SolanaIntegrationConfigData :=
  star_config "BUNDDh4P5XviMm1f3gCvnq2qKx6TGosAGnoUK12e7cXU".
Definition OnreAppConfig : SolanaIntegrationConfigData :=
  star_config "onreuGhHHgVzMWSkj2oQDLDtvvGvoepBPkqyaubFcwe".
Definition OrcaWhirlpoolConfig : SolanaIntegrationConfigData :=
  star_config "whirLbMiicVdio4qvUfM5KAg6Ct8VwpYzGff3uctyCc".
Definition SplTokenConfig : SolanaIntegrationConfigData :=
  star_config "TokenkegQfeZyiNwAJbNbGKPFXCWuBvf9Ss623VQ5DA".
Definition SquadsMultisigConfig : SolanaIntegrationConfigData :=
  star_config "SQDS4ep65T869zMMBKyuUq6aD6EgTu8psMjkvj52pCf".
Definition StakepoolConfig : SolanaIntegrationConfigData :=
  star_config "SPoo1Ku8WFXoNDMHPsrGSTSG1Y47rzgn41SLUNakuHy".
Definition SwigWalletConfig : SolanaIntegrationConfigData :=
  star_config "swigypWHEksbC64pWKwah1WTeh9JXwx8H1rJHLdbQMB".
Definition SystemConfig : SolanaIntegrationConfigData :=
  star_config "11111111111111111111111111111111".
Definition Token2022Config : SolanaIntegrationConfigData :=
  star_config "TokenzQdBNbLqP5VEhdkAS6EPFLC1PHnBqCXEpPxuEb".
Definition UnknownProgramConfig : SolanaIntegrationConfigData := ∅.

(** The directories under [src/presets], with the configuration of each; [src/integrations] has
    none. *)
Definition PRESETS : list (string * SolanaIntegrationConfigData) :=
  [("associated_token_account", AssociatedTokenAccountConfig);
   ("compute_budget", ComputeBudgetConfig);
   ("dflow_aggregator", DflowAggregatorConfig);
   ("drift", DriftConfig);
   ("exponent_finance", ExponentFinanceConfig);
   ("jupiter_borrow", JupiterBorrowConfig);
   ("jupiter_earn", JupiterEarnConfig);
   ("jupiter_perps", JupiterPerpsConfig);
   ("jupiter_swap", JupiterSwapConfig);
   ("kamino_borrow", KaminoBorrowConfig);
   ("kamino_farms", KaminoFarmsConfig);
   ("kamino_limit", KaminoLimitConfig);
   ("kamino_vault", KaminoVaultConfig);
   ("marginfi", MarginfiConfig);
   ("metadao_conditional_vault", MetadaoConditionalVaultConfig);
   ("metadao_futarchy", MetadaoFutarchyConfig);
   ("meteora_damm_v2", MeteoraDammV2Config);
   ("meteora_dlmm", MeteoraDlmmConfig);
   ("neutral_trade", NeutralTradeConfig);
   ("onre_app", OnreAppConfig);
   ("orca_whirlpool", OrcaWhirlpoolConfig);
   ("spl_token", SplTokenConfig);
   ("squads_multisig", SquadsMultisigConfig);
   ("stakepool", StakepoolConfig);
   ("swig_wallet", SwigWalletConfig);
   ("system", SystemConfig);
   ("token_2022", Token2022Config);
   ("unknown_program", UnknownProgramConfig)].

(** ** [builtin_programs.rs] *)

Definition NATIVE_PROGRAM_NAMES : list (string * string) :=
  [("11111111111111111111111111111111", "System Program");
   ("ATokenGPvbdGVxr1b2hvZbsiqW5xWH25efTNsLJA8knL", "Associated Token Account Program");
   ("AddressLookupTab1e1111111111111111111111111", "Address Lookup Table Program");
   ("BPFLoader1111111111111111111111111111111111", "BPF Loader");
   ("BPFLoader2111111111111111111111111111111111", "BPF Loader 2");
   ("BPFLoaderUpgradeab1e11111111111111111111111", "BPF Loader Upgradeable");
   ("ComputeBudget111111111111111111111111111111", "Compute Budget Program");
   ("Config1111111111111111111111111111111111111", "Config Program");
   ("Ed25519SigVerify111111111111111111111111111", "Ed25519 Signature Verify Program");
   ("KeccakSecp256k11111111111111111111111111111", "Secp256k1 Signature Verify Program");
   ("Memo1UhkJRfHyvLMcVucJwxXeuD728EqVDDwQDxFMNo", "Memo Program v1");
   ("MemoSq4gqABAXKb96qnH8TysNcWxMyWCqXgDLGmfcHr", "Memo Program");
   ("SPoo1Ku8WFXoNDMHPsrGSTSG1Y47rzgn41SLUNakuHy", "SPL Stake Pool Program");
   ("Secp256r1SigVerify1111111111111111111111111", "Secp256r1 Signature Verify Program");
   ("Stake11111111111111111111111111111111111111", "Stake Program");
   ("TokenkegQfeZyiNwAJbNbGKPFXCWuBvf9Ss623VQ5DA", "SPL Token Program");
   ("TokenzQdBNbLqP5VEhdkAS6EPFLC1PHnBqCXEpPxuEb", "SPL Token-2022 Program");
   ("Vote111111111111111111111111111111111111111", "Vote Program");
   ("hausS13jsjafwWwGqZTUQRmWyvyxn9EQpqMwV1PBBmk", "Metaplex Auction House Program");
   ("metaqbxxUerdq28cj1RbAWkYQm3ybzjb6a8bt518x1s", "Metaplex Token Metadata Program");
   ("namesLPneVptA9Z5rqUDD9tMTWEJwofgaYwp8cawRkX", "SPL Name Service Program")].

Definition builtin_idl_program_name (p : ProgramType) : string :=
  match p with
  | ApePro => "Ape Pro"
  | CandyMachine => "Metaplex Candy Machine"
  | Drift => "Drift Protocol V2"
  | JupiterLimit => "Jupiter Limit"
  | Jupiter => "Jupiter Swap"
  | Kamino => "Kamino"
  | Lifinity => "Lifinity Swap V2"
  | Meteora => "Meteora"
  | Openbook => "Openbook"
  | Orca => "Orca Whirlpool"
  | Raydium => "Raydium"
  | Stabble => "Stabble"
  | JupiterAggregatorV6 => "Jupiter Aggregator V6"
  end.

Definition PROGRAM_TYPES : list ProgramType :=
  [ApePro; CandyMachine; Drift; JupiterLimit; Jupiter; Kamino; Lifinity; Meteora; Openbook; Orca; Raydium; Stabble; JupiterAggregatorV6].

(** The caller's view of a program. *)
Inductive RegisteredSource : Type :=
| Native
| Preset
| ThirdParty
| CallerSupplied
| Unregistered.

Definition native_name (program_id : string) : option string :=
  snd <$> List.find (fun e => bool_decide (e.1 = program_id)) NATIVE_PROGRAM_NAMES.

Definition is_reserved_canonical_name (name : string) : bool :=
  existsb (fun e => bool_decide (e.2 = name)) NATIVE_PROGRAM_NAMES
  || existsb (fun p => bool_decide (builtin_idl_program_name p = name)) PROGRAM_TYPES.

(** Every program id in the configuration of a preset. *)
Definition preset_program_ids : gset string :=
  ⋃ ((fun p => dom p.2) <$> PRESETS).

Section builtin.
Context {P : SolanaIdls}.

Definition canonical_name (program_id : string) : option string :=
  match native_name program_id with
  | Some name => Some name
  | None => builtin_idl_program_name <$> program_type_from_id program_id
  end.

Definition is_trusted_program (program_id : string) : bool :=
  bool_decide (is_Some (canonical_name program_id))
  || bool_decide (program_id ∈ preset_program_ids).

Definition registered_source (program_id : string)
    (caller_idl_program_ids : gmap string CustomIdlConfig) : RegisteredSource :=
  if existsb (fun e => bool_decide (e.1 = program_id)) NATIVE_PROGRAM_NAMES then Native
  else if bool_decide (program_id ∈ preset_program_ids) then Preset
  else if bool_decide (is_Some (program_type_from_id program_id)) then ThirdParty
  else if bool_decide (is_Some (caller_idl_program_ids !! program_id)) then CallerSupplied
  else Unregistered.
End builtin.

(** ** The registry ([idl/mod.rs]) *)

(** [Value::get] and [Value::as_str]. *)
Definition json_get (key : string) (v : json) : option json :=
  match v with JObject m => assoc key m | _ => None end.
Definition json_as_str (v : json) : option string :=
  match v with JString s => Some s | _ => None end.

(** The first bytes of a text; the texts it is used on are ASCII. *)
Fixpoint str_take (n : nat) (s : string) : string :=
  match n, s with
  | S n, String c s => String c (str_take n s)
  | _, _ => ""
  end.

Record IdlRegistry {P : SolanaIdls} := MkIdlRegistry {
  configs : gmap string CustomIdlConfig;
  names : gmap string string;
  idl_names : gmap string string;
}.
Arguments MkIdlRegistry {P}.

Section registry.
Context {K : SolanaSdk} {P : SolanaIdls}.
(** [serde_json::from_str::<Value>]. *)
Context (parse_json : string → option json).

Definition IdlRegistry_new : IdlRegistry := MkIdlRegistry ∅ ∅ ∅.

(** [metadata.name] of an IDL. *)
Definition idl_metadata_name (v : json) : option string :=
  metadata ← json_get "metadata" v;
  name ← json_get "name" metadata;
  json_as_str name.

(** One turn of the loop. *)
Definition insert_mapping (r : IdlRegistry) (m : string * (string * string)) : IdlRegistry :=
  let '(program_id, (idl_json, program_name)) := m in
  if is_trusted_program program_id then r
  else
    MkIdlRegistry
      (<[program_id := config_from_json idl_json true]> (configs r))
      (<[program_id := program_name]> (names r))
      (match parse_json idl_json ≫= idl_metadata_name with
       | Some idl_name => <[program_id := idl_name]> (idl_names r)
       | None => idl_names r
       end).

(** The entries arrive in key order. *)
Definition from_idl_mappings (idl_mappings : gmap string (string * string))
    : result string IdlRegistry :=
  Ok (foldl insert_mapping IdlRegistry_new (btree_of_list (map_to_list idl_mappings))).

Definition get_all_configs (r : IdlRegistry) : gmap string CustomIdlConfig := configs r.

Definition has_idl (r : IdlRegistry) (program_id : Pubkey) : bool :=
  let program_id_str := show_pubkey program_id in
  if bool_decide (is_Some (configs r !! program_id_str)) then true
  else bool_decide (is_Some (program_type_from_id program_id_str)).

Definition get_program_name (r : IdlRegistry) (program_id : Pubkey) : string :=
  let program_id_str := show_pubkey program_id in
  match canonical_name program_id_str with
  | Some name => name
  | None =>
      match names r !! program_id_str with
      | Some name => name
      | None => "Program " +:+ str_take 8 program_id_str
      end
  end.

Definition get_idl_name (r : IdlRegistry) (program_id : Pubkey) : option string :=
  let program_id_str := show_pubkey program_id in
  match canonical_name program_id_str with
  | Some _ => None
  | None => idl_names r !! program_id_str
  end.

Definition get_idl (r : IdlRegistry) (program_id : string) : option ParsedIdl :=
  match configs r !! program_id with
  | Some config =>
      match config_idl config with
      | CustomParsed idl => Some idl
      | CustomJson json =>
          match decode_idl_data json with Ok idl => Some idl | Err _ => None end
      end
  | None => None
  end.

(** ** Signatures ([idl/signature.rs]) *)

Definition SUPPORTED_ALGORITHM : string := "ed25519".
Definition ED25519_PUBLIC_KEY_LEN : nat := 32.
Definition ED25519_SIGNATURE_LEN : nat := 64.

Inductive IdlSignatureError : Type := Validation (msg : string).

Definition show_idl_signature_error (e : IdlSignatureError) : string :=
  match e with Validation msg => "IDL signature validation failed: " +:+ msg end.

Record IdlSignatureMetadata := MkIdlSignature {
  is_value : string;
  is_algorithm : option string;
  is_public_key : option string;
  is_issuer : option string;
  is_timestamp : option string;
}.

Definition convert_proto_signature (proto : SignatureMetadata) : IdlSignatureMetadata :=
  let get key := md_value <$> List.find (fun m => bool_decide (md_key m = key)) (sm_metadata proto) in
  MkIdlSignature (sm_value proto) (get "algorithm") (get "public_key") (get "issuer")
    (get "timestamp").

Context {S : Sha256} {H : HexCodec} {Ed : Ed25519}.
(** The [Display] text of a hex error. *)
Context (show_hex : FromHexError → string).

Definition decode_hex_fixed (N : nat) (value what : string) : result IdlSignatureError bytes :=
  map_err (fun e => Validation ("Invalid " +:+ what +:+ " " +:+ show_decode_hex_array_error show_hex e))
    (decode_hex_array N value).

Definition validate_idl_signature (idl_json : string) (program_id : Pubkey)
    (signature : IdlSignatureMetadata) (allowlist : SignerAllowlist)
    : result IdlSignatureError () :=
  algorithm ← ok_or (Validation "Missing algorithm") (is_algorithm signature);
  if decide (algorithm ≠ SUPPORTED_ALGORITHM) then
    Err (Validation ("Unsupported algorithm: " +:+ algorithm +:+ ". Only " +:+ SUPPORTED_ALGORITHM
                     +:+ " is supported."))
  else
    public_key_hex ← ok_or (Validation "Missing public_key") (is_public_key signature);
    let hash := solana_metadata_prehash program_id (as_bytes idl_json) in
    sig_bytes ← decode_hex_fixed ED25519_SIGNATURE_LEN (is_value signature) "signature";
    pubkey_bytes ← decode_hex_fixed ED25519_PUBLIC_KEY_LEN public_key_hex "public key";
    verifying_key ← map_err (fun e => Validation ("Invalid public key: " +:+ e))
                      (ed_key_from_bytes pubkey_bytes);
    _ ← map_err (fun e => Validation ("Signature verification failed: " +:+ e))
          (ed_verify_strict verifying_key hash sig_bytes);
    if negb (allowlist_contains allowlist (ed_key_to_bytes verifying_key)) then
      Err (Validation "signer not in allowlist")
    else Ok ().

Definition canonical_pubkey_from_hex (hex_str : string) : option bytes :=
  match decode_hex_fixed ED25519_PUBLIC_KEY_LEN hex_str "public key" with
  | Err _ => None
  | Ok bs => match ed_key_from_bytes bs with Err _ => None | Ok k => Some (ed_key_to_bytes k) end
  end.

(** [env] is [std::env::var]. *)
Definition authorized_idl_signers (env : string → option string) : SignerAllowlist :=
  match env "VISUALSIGN_SOL_IDL_SIGNERS" with
  | None => SignerAllowlist_new
  | Some list =>
      foldl (fun allow entry =>
               match canonical_pubkey_from_hex entry with
               | Some bs => allowlist_insert bs allow
               | None => allow
               end)
        SignerAllowlist_new (filter (fun s => s ≠ "") (trim <$> split_on "," list))
  end.

(** ** Extraction from a request ([core/visualsign.rs]) *)

Definition MAX_IDL_JSON_BYTES : nat := 1024 * 1024.

Definition extract_name_from_idl_json (idl_json : string) : option string :=
  value ← parse_json idl_json;
  match idl_metadata_name value with
  | Some name => Some name
  | None => name ← json_get "name" value; json_as_str name
  end.

(** The name shown for a program a caller describes. *)
Definition resolved_name (program_id : string) (idl : Idl) : string :=
  match program_name idl with
  | Some name => name
  | None =>
      match extract_name_from_idl_json (idl_value idl) with
      | Some name => name
      | None => "Program " +:+ str_take (8 `min` String.length program_id) program_id
      end
  end.

(** One turn of the loop; every [continue] leaves the map as it is. *)
Definition extract_idl_step (idl_signers : SignerAllowlist) (out : gmap string (string * string))
    (m : string * Idl) : gmap string (string * string) :=
  let '(program_id, idl) := m in
  match pubkey_from_str program_id with
  | None => out
  | Some pubkey =>
      if is_trusted_program program_id then out
      else if decide (MAX_IDL_JSON_BYTES < String.length (idl_value idl)) then out
      else if (match idl_signature idl with
               | Some proto_sig =>
                   is_ok (validate_idl_signature (idl_value idl) pubkey
                            (convert_proto_signature proto_sig) idl_signers)
               | None => true
               end)
      then
        let name := resolved_name program_id idl in
        if is_reserved_canonical_name name then out
        else <[program_id := (idl_value idl, name)]> out
      else out
  end.

Definition solana_metadata (options : VisualSignOptions) : option SolanaMetadata :=
  cm ← metadata options;
  m ← cm_metadata cm;
  match m with SolanaM s => Some s | _ => None end.

Definition extract_idl_mappings_with_signers (options : VisualSignOptions)
    (idl_signers : SignerAllowlist) : gmap string (string * string) :=
  match solana_metadata options with
  | None => ∅
  | Some s => foldl (extract_idl_step idl_signers) ∅ (idl_mappings s)
  end.

Definition extract_idl_mappings (env : string → option string) (options : VisualSignOptions)
    : gmap string (string * string) :=
  extract_idl_mappings_with_signers options (authorized_idl_signers env).

Definition create_idl_registry_from_options (env : string → option string)
    (options : VisualSignOptions) : result VisualSignError IdlRegistry :=
  let mappings := extract_idl_mappings env options in
  if decide (mappings ≠ ∅) then
    map_err (fun e => ConversionError ("Failed to create IDL registry: " +:+ e))
      (from_idl_mappings mappings)
  else Ok IdlRegistry_new.
End registry.

(** ** Names *)

(** Every name with a canonical owner. *)
Definition reserved_names : list string :=
  NATIVE_PROGRAM_NAMES.*2 ++ (builtin_idl_program_name <$> PROGRAM_TYPES).

Lemma existsb_fmap {A} (f : A → string) (l : list A) name :
  existsb (fun x => bool_decide (f x = name)) l = true ↔ name ∈ f <$> l.
Proof.
  rewrite existsb_exists, list_elem_of_fmap. setoid_rewrite bool_decide_eq_true.
  split; intros (x & Hx & Hy); exists x; rewrite <-list_elem_of_In in *; auto.
Qed.

Lemma reserved_iff name : is_reserved_canonical_name name = true ↔ name ∈ reserved_names.
Proof.
  unfold is_reserved_canonical_name, reserved_names.
  by rewrite orb_true_iff, elem_of_app, !existsb_fmap.
Qed.

Lemma native_name_Some p n : native_name p = Some n → (p, n) ∈ NATIVE_PROGRAM_NAMES.
Proof.
  unfold native_name. intros (e & Hf & ->)%fmap_Some.
  apply find_some in Hf as [Hin Hp%bool_decide_eq_true_1]. apply list_elem_of_In in Hin.
  destruct e as [p' n]. cbn in Hp |- *. by subst p'.
Qed.

Lemma native_name_None p :
  native_name p = None ↔ existsb (fun e => bool_decide (e.1 = p)) NATIVE_PROGRAM_NAMES = false.
Proof.
  unfold native_name. induction NATIVE_PROGRAM_NAMES as [|e l IH]; [done|]. cbn.
  destruct (bool_decide (e.1 = p)); done.
Qed.

Lemma program_type_listed (p : ProgramType) : p ∈ PROGRAM_TYPES.
Proof. apply list_elem_of_In. destruct p; cbn; tauto. Qed.

Section names.
Context {P : SolanaIdls}.

Lemma canonical_reserved p n : canonical_name p = Some n → is_reserved_canonical_name n = true.
Proof.
  intros Hc. apply reserved_iff. unfold reserved_names. apply elem_of_app.
  unfold canonical_name in Hc. destruct (native_name p) as [n'|] eqn:Hn.
  - injection Hc as ->. left. apply native_name_Some in Hn.
    change n with (p, n).2. by apply list_elem_of_fmap_2.
  - right. apply fmap_Some in Hc as (t & _ & ->). apply list_elem_of_fmap_2, program_type_listed.
Qed.

(** No reserved name looks like the fallback name of an unknown program. *)
Lemma fallback_unreserved s : is_reserved_canonical_name ("Program " +:+ s) = false.
Proof.
  destruct (is_reserved_canonical_name _) eqn:E; [|done]. exfalso.
  apply reserved_iff in E.
  assert (Forall (fun n => strip_prefix "Program " n = None) reserved_names) as Hall.
  { apply Forall_forall. intros n Hn.
    assert (forallb (fun n => negb (starts_with "Program " n)) reserved_names = true) as Hb
      by (vm_compute; reflexivity).
    rewrite forallb_forall in Hb. apply list_elem_of_In in Hn. specialize (Hb n Hn).
    apply negb_true_iff, bool_decide_eq_false in Hb. by apply eq_None_not_Some. }
  rewrite Forall_forall in Hall. specialize (Hall _ E). by rewrite strip_prefix_app in Hall.
Qed.

Lemma trusted_canonical p : is_trusted_program p = false → canonical_name p = None.
Proof.
  unfold is_trusted_program. rewrite orb_false_iff, bool_decide_eq_false.
  intros [Hn _]. by apply eq_None_not_Some.
Qed.

(** The three sources of trust. *)
Lemma trusted_sources p :
  is_trusted_program p =
    existsb (fun e => bool_decide (e.1 = p)) NATIVE_PROGRAM_NAMES
    || bool_decide (p ∈ preset_program_ids)
    || bool_decide (is_Some (program_type_from_id p)).
Proof.
  pose proof (native_name_None p) as Hnat. unfold is_trusted_program, canonical_name.
  destruct (existsb _ _), (native_name p) as [n|]; cbn.
  - done.
  - by destruct Hnat as [Hnat _]; specialize (Hnat eq_refl).
  - by destruct Hnat as [_ Hnat]; specialize (Hnat eq_refl).
  - rewrite orb_comm. f_equal. apply bool_decide_ext, fmap_is_Some.
Qed.
End names.

(** ** What a registry holds *)

Section contents.
Context {P : SolanaIdls} (parse_json : string → option json).
Local Abbreviation add := (insert_mapping parse_json).

(** [metadata.name] of an entry. *)
Definition described (v : string * string) : option string := parse_json v.1 ≫= idl_metadata_name.

(** The entry of a program after the loop; a key occurs once. *)
Definition kept (l : list (string * (string * string))) (p : string) : option (string * string) :=
  if is_trusted_program p then None else assoc p l.

Lemma assoc_fresh {V} p (l : list (string * V)) : p ∉ keys l → assoc p l = None.
Proof.
  induction l as [|[k v] l IH]; [done|]. cbn. intros [Hk Hl]%not_elem_of_cons.
  rewrite decide_False by congruence. auto.
Qed.

Lemma insert_mappings_lookup l r p :
  NoDup (keys l) →
  let r' := foldl add r l in
  configs r' !! p = match kept l p with
                    | Some v => Some (config_from_json v.1 true)
                    | None => configs r !! p
                    end ∧
  names r' !! p = match kept l p with Some v => Some v.2 | None => names r !! p end ∧
  idl_names r' !! p = match kept l p ≫= described with
                      | Some m => Some m
                      | None => idl_names r !! p
                      end.
Proof.
  cbv zeta. revert r. induction l as [|[k [j n]] l IH]; intros r Hnd.
  { unfold kept. cbn. destruct (is_trusted_program p); done. }
  cbn [foldl]. unfold keys in Hnd. rewrite fmap_cons in Hnd.
  apply NoDup_cons in Hnd as [Hk Hnd]. cbn [fst] in Hk.
  destruct (IH (add r (k, (j, n))) Hnd) as (-> & -> & ->). clear IH.
  unfold kept, insert_mapping. cbn [assoc].
  destruct (decide (k = p)) as [-> |Hne].
  - rewrite decide_True by done. rewrite (assoc_fresh p l Hk).
    destruct (is_trusted_program p) eqn:Ht; [by split_and!|].
    cbn [configs names idl_names mbind option_bind]. rewrite !lookup_insert_eq.
    split_and!; [done..|]. unfold described. cbn [fst].
    by destruct (parse_json j ≫= idl_metadata_name); [rewrite lookup_insert_eq|].
  - rewrite decide_False by done.
    destruct (is_trusted_program k) eqn:Htk; [by split_and!|].
    cbn [configs names idl_names]. rewrite !lookup_insert_ne by done. split_and!; [done..|].
    by destruct (parse_json j ≫= idl_metadata_name); [rewrite lookup_insert_ne|].
Qed.

Lemma assoc_of_map {V} (m : gmap string V) p : assoc p (btree_of_list (map_to_list m)) = m !! p.
Proof.
  pose proof (NoDup_fst_map_to_list m) as Hnd.
  pose proof (btree_of_list_perm _ Hnd) as Hp.
  rewrite (assoc_perm _ _ _ (btree_sorted_NoDup _ (btree_of_list_sorted _)) Hp).
  apply option_eq. intros v. rewrite (assoc_elem_of _ _ _ Hnd). apply elem_of_map_to_list.
Qed.

Lemma from_idl_mappings_lookup m p :
  ∃ r, from_idl_mappings parse_json m = Ok r ∧
    let kept := if is_trusted_program p then None else m !! p in
    configs r !! p = (fun v => config_from_json v.1 true) <$> kept ∧
    names r !! p = snd <$> kept ∧
    idl_names r !! p = kept ≫= described.
Proof.
  eexists. split; [done|]. cbv zeta.
  destruct (insert_mappings_lookup (btree_of_list (map_to_list m)) IdlRegistry_new p) as (-> & -> & ->).
  { apply btree_sorted_NoDup, btree_of_list_sorted. }
  unfold kept. rewrite assoc_of_map. destruct (is_trusted_program p); [done|].
  destruct (m !! p) as [v|]; [|done]. cbn. by destruct (described v).
Qed.
End contents.

(** ** What a request adds *)

Section extraction.
Context {K : SolanaSdk} {P : SolanaIdls} (parse_json : string → option json).
Context {S : Sha256} {H : HexCodec} {Ed : Ed25519} (show_hex : FromHexError → string).

(** The keys a deployment enrols. *)
Definition enrolled (env : string → option string) (k : bytes) : Prop :=
  ∃ list entry, env "VISUALSIGN_SOL_IDL_SIGNERS" = Some list ∧
    entry ∈ trim <$> split_on "," list ∧ decode_hex_array 32 entry = Ok k.

(** A signature over this IDL of this program, by a key of the allow-list. *)
Definition vouched (allow : SignerAllowlist) (program : Pubkey) (idl_json : string)
    (sig : IdlSignatureMetadata) : Prop :=
  ∃ key_hex key sig_bytes,
    is_algorithm sig = Some "ed25519" ∧ is_public_key sig = Some key_hex ∧
    decode_hex_array 32 key_hex = Ok (ed_key_to_bytes key) ∧
    decode_hex_array 64 (is_value sig) = Ok sig_bytes ∧
    ed_verify_strict key (solana_metadata_prehash program (as_bytes idl_json)) sig_bytes = Ok () ∧
    ed_key_to_bytes key ∈ allowlist_keys allow.

Lemma validate_idl_signature_iff json pk sig allow :
  validate_idl_signature show_hex json pk sig allow = Ok () ↔ vouched allow pk json sig.
Proof.
  unfold validate_idl_signature, vouched. split.
  - intros (alg & Ha%ok_or_Ok & Hv)%result_bind_Ok. case_decide as Hd; [done|].
    subst alg.
    apply result_bind_Ok in Hv as (kh & Hk%ok_or_Ok & Hv).
    apply result_bind_Ok in Hv as (sb & Hs%map_err_Ok & Hv).
    apply result_bind_Ok in Hv as (pb & Hp%map_err_Ok & Hv).
    apply result_bind_Ok in Hv as (key & Hkey%map_err_Ok & Hv).
    apply result_bind_Ok in Hv as ([] & Hver%map_err_Ok & Hv).
    destruct (allowlist_contains _ _) eqn:Hc; [|done]. apply bool_decide_eq_true_1 in Hc.
    apply ed_key_to_from in Hkey as <-. by exists kh, key, sb.
  - intros (kh & key & sb & -> & -> & Hp & Hs & Hver & Hin). cbn [ok_or mbind result_bind].
    rewrite decide_False by (intros Hn; by apply Hn).
    unfold decode_hex_fixed, ED25519_SIGNATURE_LEN, ED25519_PUBLIC_KEY_LEN. rewrite Hs. cbn. rewrite Hp. cbn. rewrite ed_key_from_to. cbn.
    rewrite Hver. cbn. unfold allowlist_contains. by rewrite bool_decide_eq_true_2.
Qed.

Lemma canonical_pubkey_Some entry k :
  canonical_pubkey_from_hex show_hex entry = Some k ↔
  decode_hex_array 32 entry = Ok k ∧ is_ok (ed_key_from_bytes k) = true.
Proof.
  unfold canonical_pubkey_from_hex, decode_hex_fixed, ED25519_PUBLIC_KEY_LEN.
  destruct (decode_hex_array 32 entry) as [bs|e]; cbn; [|by split; [|intros []]].
  destruct (ed_key_from_bytes bs) as [key|e] eqn:E.
  - rewrite (ed_key_to_from _ _ E). split.
    + intros [= <-]. by rewrite E.
    + by intros [[= ->] _].
  - split; [done|]. intros [[= <-] Hk]. by rewrite E in Hk.
Qed.

Lemma allow_fold l allow k :
  k ∈ allowlist_keys
        (foldl (fun allow entry => match canonical_pubkey_from_hex show_hex entry with
                                   | Some bs => allowlist_insert bs allow
                                   | None => allow
                                   end) allow l) ↔
  k ∈ allowlist_keys allow ∨ ∃ entry, entry ∈ l ∧ canonical_pubkey_from_hex show_hex entry = Some k.
Proof.
  revert allow. induction l as [|e l IH]; intros allow; cbn [foldl].
  { split; [by left|]. intros [?|(? & ?%elem_of_nil & _)]; done. }
  rewrite IH. setoid_rewrite elem_of_cons.
  destruct (canonical_pubkey_from_hex show_hex e) as [bs|] eqn:E.
  - unfold allowlist_insert. cbn [allowlist_keys]. rewrite elem_of_union, elem_of_singleton.
    split; [intros [[-> |?]|(e' & ? & ?)]|intros [?|(e' & [-> |?] & He')]]; eauto 6.
    rewrite E in He'. injection He' as ->. auto.
  - split; [intros [?|(e' & ? & ?)]|intros [?|(e' & [-> |?] & He')]]; eauto; congruence.
Qed.

Lemma authorized_iff env key :
  ed_key_to_bytes key ∈ allowlist_keys (authorized_idl_signers show_hex env) ↔
  enrolled env (ed_key_to_bytes key).
Proof.
  unfold authorized_idl_signers, enrolled.
  destruct (env "VISUALSIGN_SOL_IDL_SIGNERS") as [list|].
  2: { split; [set_solver|]. by intros (? & ? & ? & _). }
  rewrite allow_fold. setoid_rewrite canonical_pubkey_Some. setoid_rewrite list_elem_of_filter.
  rewrite ed_key_from_to. split.
  - intros [?|(e & [He Hin] & Hd & _)]; [set_solver|]. by exists list, e.
  - intros (list' & e & [= <-] & Hin & Hd). right. exists e. split_and!; try done.
    intros ->. unfold decode_hex_array in Hd.
    apply result_bind_Ok in Hd as (bs & Hd%map_err_Ok & Hl). case_decide; [|done].
    apply decode_hex_Ok_digits in Hd as [_ Hd]. cbn in Hd. lia.
Qed.

(** An entry that passes every check, with the name it is shown under. *)
Definition accepted (allow : SignerAllowlist) (p : string) (idl : Idl) : Prop :=
  ∃ pk, pubkey_from_str p = Some pk ∧ is_trusted_program p = false ∧
    String.length (idl_value idl) ≤ MAX_IDL_JSON_BYTES ∧
    (∀ sig, idl_signature idl = Some sig →
            vouched allow pk (idl_value idl) (convert_proto_signature sig)) ∧
    is_reserved_canonical_name (resolved_name parse_json p idl) = false.

Local Abbreviation step := (extract_idl_step parse_json show_hex).

Lemma is_ok_unit {E} (m : result E ()) : is_ok m = true ↔ m = Ok ().
Proof. destruct m as [[]|]; split; done. Qed.

Lemma extract_idl_step_spec allow out p idl :
  (accepted allow p idl ∧
   step allow out (p, idl) = <[p := (idl_value idl, resolved_name parse_json p idl)]> out) ∨
  (~ accepted allow p idl ∧ step allow out (p, idl) = out).
Proof.
  unfold extract_idl_step, accepted.
  destruct (pubkey_from_str p) as [pk|]; [|right; split; [|done]; by intros (? & ? & _)].
  destruct (is_trusted_program p); [right; split; [|done]; by intros (? & _ & ? & _)|].
  case_decide as Hlen; [right; split; [|done]; intros (? & _ & _ & ? & _); lia|].
  destruct (match idl_signature idl with Some _ => _ | None => true end) eqn:Hsig.
  - destruct (is_reserved_canonical_name _); [right; split; [|done]; by intros (? & _ & _ & _ & _ & ?)|].
    left. split; [|done]. exists pk. split_and!; try done; [lia|]. intros sig Hs. rewrite Hs in Hsig.
    by apply is_ok_unit, validate_idl_signature_iff in Hsig.
  - right. split; [|done]. intros (? & [= <-] & _ & _ & Hv & _).
    destruct (idl_signature idl) as [sig|]; [|done].
    specialize (Hv sig eq_refl). apply validate_idl_signature_iff, is_ok_unit in Hv. congruence.
Qed.

Lemma extract_idl_fold allow l p v :
  NoDup (keys l) →
  foldl (step allow) ∅ l !! p = Some v ↔
  ∃ idl, (p, idl) ∈ l ∧ accepted allow p idl ∧ v = (idl_value idl, resolved_name parse_json p idl).
Proof.
  induction l as [|[k idl] l IH] using rev_ind; intros Hnd.
  { split; [done|]. by intros (? & ?%elem_of_nil & _). }
  unfold keys in Hnd. rewrite fmap_app in Hnd. apply NoDup_app in Hnd as (Hnd & Hd & _).
  assert (∀ i, (k, i) ∉ l) as Hfresh.
  { intros i Hi. apply (Hd k); [|by left]. change k with (k, i).1. by apply list_elem_of_fmap_2. }
  rewrite foldl_snoc. setoid_rewrite elem_of_app. setoid_rewrite list_elem_of_singleton.
  specialize (IH Hnd).
  destruct (extract_idl_step_spec allow (foldl (step allow) ∅ l) k idl) as [[Ha ->]|[Ha ->]];
    (destruct (decide (k = p)) as [<- |Hne];
       [rewrite ?lookup_insert_eq|rewrite ?lookup_insert_ne by done]); naive_solver.
Qed.

(** Without a bound on the keys: what is kept has a name of its own. *)
Lemma extract_unreserved allow options :
  map_Forall (fun p v => is_trusted_program p = false ∧ is_reserved_canonical_name v.2 = false)
    (extract_idl_mappings_with_signers parse_json show_hex options allow).
Proof.
  unfold extract_idl_mappings_with_signers.
  destruct (solana_metadata options) as [s|]; [|apply map_Forall_empty].
  induction (idl_mappings s) as [|[k idl] l IH] using rev_ind; [apply map_Forall_empty|].
  rewrite foldl_snoc.
  destruct (extract_idl_step_spec allow (foldl (step allow) ∅ l) k idl) as [[Ha ->]|[_ ->]]; [|done].
  destruct Ha as (pk & _ & Ht & _ & _ & Hr). by apply map_Forall_insert_2.
Qed.

Context (env : string → option string).
Local Abbreviation create := (create_idl_registry_from_options parse_json show_hex env).
Local Abbreviation extract := (extract_idl_mappings parse_json show_hex env).

Lemma extract_lookup options s p v :
  solana_metadata options = Some s → NoDup (keys (idl_mappings s)) →
  extract options !! p = Some v ↔
  ∃ idl, (p, idl) ∈ idl_mappings s ∧ accepted (authorized_idl_signers show_hex env) p idl ∧
         v = (idl_value idl, resolved_name parse_json p idl).
Proof.
  intros Hs Hnd. unfold extract_idl_mappings, extract_idl_mappings_with_signers. rewrite Hs.
  by apply extract_idl_fold.
Qed.

Lemma create_idl_registry_lookup options p :
  ∃ r, create options = Ok r ∧
    configs r !! p = (fun v => config_from_json v.1 true) <$> extract options !! p ∧
    names r !! p = snd <$> extract options !! p ∧
    idl_names r !! p = extract options !! p ≫= described parse_json.
Proof.
  unfold create_idl_registry_from_options. case_decide as Hne.
  - destruct (from_idl_mappings_lookup parse_json (extract options) p) as (r & -> & Hc & Hn & Hi).
    exists r. split; [done|]. revert Hc Hn Hi. cbv zeta.
    destruct (is_trusted_program p) eqn:Ht; [|done].
    destruct (extract options !! p) as [v|] eqn:Hv; [|done].
    destruct (extract_unreserved _ options p v Hv). congruence.
  - rewrite Hne, lookup_empty. eexists. split; [done|]. done.
Qed.
End extraction.

(** ** An instance: hex text, and one program with an IDL of its own *)

Program Definition hex_sdk : SolanaSdk := {|
  show_pubkey := hex_of_bytes;
  pubkey_from_str s :=
    match hex_decode_ref s with
    | Ok bs => if decide (length bs = 32 ∧ hex_of_bytes bs = s) then Some bs else None
    | Err _ => None
    end;
|}.
Next Obligation.
  intros s pk. cbv beta. destruct (hex_decode_ref s) as [bs|]; [|done].
  case_decide as Hd; [|done]. intros [= <-]. by destruct Hd.
Qed.
Next Obligation.
  intros pk Hl. cbv beta. unfold hex_decode_ref. rewrite hex_pairs_encode.
  pose proof (length_hex_of_bytes pk) as Hlen. rewrite Hlen.
  replace (Nat.odd (2 * length pk)) with false by (rewrite Nat.odd_mul; done).
  by rewrite decide_True.
Qed.
Next Obligation.
  intros s pk. cbv beta. destruct (hex_decode_ref s) as [bs|]; [|done].
  case_decide as Hd; [|done]. intros [= <-]. by destruct Hd.
Qed.
Next Obligation. intros pk Hl. cbv beta. rewrite length_hex_of_bytes. lia. Qed.
Next Obligation.
  intros pk _. cbv beta. eapply str_all_impl, hex_of_bytes_digits. intros c. by ascii_cases c.
Qed.

Definition sample_idls : SolanaIdls := {|
  ParsedIdl := string; decode_idl_data s := Ok s; program_type_from_id _ := None |}.

(** ** Properties *)

Section properties.
Context {K : SolanaSdk} {P : SolanaIdls} (parse_json : string → option json).
Context {S : Sha256} {H : HexCodec} {Ed : Ed25519} (show_hex : FromHexError → string).
Context (env : string → option string).
Local Abbreviation create := (create_idl_registry_from_options parse_json show_hex env).

(** C17: The IDLs a request adds are exactly those that pass every check. For a request with Solana
    metadata the registry is always built, and it holds an IDL and a name for a program id exactly
    when the request maps that id to this IDL, the id is a key, the program is not a trusted one,
    the IDL is within the size limit, its signature, if it has one, verifies over this program
    and this IDL under a key the deployment enrols, and the name it would be shown under is not
    reserved. *)
Theorem idl_registry_exact options s :
  solana_metadata options = Some s → NoDup (keys (idl_mappings s)) →
  ∃ r, create options = Ok r ∧ ∀ p json name,
    (configs r !! p = Some (config_from_json json true) ∧ names r !! p = Some name) ↔
    ∃ pk idl, (p, idl) ∈ idl_mappings s ∧ json = idl_value idl ∧
      name = resolved_name parse_json p idl ∧ is_reserved_canonical_name name = false ∧
      pubkey_from_str p = Some pk ∧ is_trusted_program p = false ∧
      String.length json ≤ MAX_IDL_JSON_BYTES ∧
      ∀ sig, idl_signature idl = Some sig →
        ∃ key_hex key sig_bytes,
          is_algorithm (convert_proto_signature sig) = Some "ed25519" ∧
          is_public_key (convert_proto_signature sig) = Some key_hex ∧
          decode_hex_array 32 key_hex = Ok (ed_key_to_bytes key) ∧
          decode_hex_array 64 (sm_value sig) = Ok sig_bytes ∧
          ed_verify_strict key (solana_metadata_prehash pk (as_bytes json)) sig_bytes = Ok () ∧
          enrolled env (ed_key_to_bytes key).
Proof.
  intros Hs Hnd.
  destruct (create_idl_registry_lookup parse_json show_hex env options "") as (r & Hr & _).
  exists r. split; [done|]. intros p json name.
  destruct (create_idl_registry_lookup parse_json show_hex env options p) as (r' & Hr' & Hc & Hn & _).
  rewrite Hr in Hr'. injection Hr' as <-. rewrite Hc, Hn. clear Hc Hn Hr.
  transitivity (extract_idl_mappings parse_json show_hex env options !! p = Some (json, name)).
  { destruct (extract_idl_mappings _ _ _ _ !! p) as [[j n]|]; cbn; [|naive_solver].
    split; [|by intros [= -> ->]]. unfold config_from_json. by intros [[= ->] [= ->]]. }
  rewrite (extract_lookup parse_json show_hex env options s _ _ Hs Hnd). unfold accepted, vouched.
  split.
  - intros (idl & Hin & (pk & Hpk & Ht & Hlen & Hv & Hres) & [= -> ->]). exists pk, idl.
    split_and!; try done. intros sig Hsig.
    destruct (Hv sig Hsig) as (kh & key & sb & ? & ? & ? & ? & ? & Hin').
    exists kh, key, sb. by rewrite <-(authorized_iff show_hex).
  - intros (pk & idl & Hin & -> & -> & Hres & Hpk & Ht & Hlen & Hv). exists idl.
    split_and!; try done. exists pk. split_and!; try done. intros sig Hsig.
    destruct (Hv sig Hsig) as (kh & key & sb & ? & ? & ? & ? & ? & Hin').
    exists kh, key, sb. by rewrite (authorized_iff show_hex).
Qed.

(** C18: A caller cannot dress a program up as a well-known one. Whatever IDLs a request carries,
    the name shown for a program is one of the reserved names exactly when it is the canonical
    name of that very program. *)
Theorem program_name_not_impersonated options r pk :
  create options = Ok r →
  is_reserved_canonical_name (get_program_name r pk) = true ↔
  canonical_name (show_pubkey pk) = Some (get_program_name r pk).
Proof.
  intros Hr. split; [|by apply canonical_reserved].
  unfold get_program_name. destruct (canonical_name (show_pubkey pk)) as [n|]; [done|].
  destruct (create_idl_registry_lookup parse_json show_hex env options (show_pubkey pk))
    as (r' & Hr' & _ & Hn & _).
  rewrite Hr in Hr'. injection Hr' as <-. rewrite Hn.
  destruct (extract_idl_mappings _ _ _ _ !! _) as [[j n]|] eqn:Hx; cbn.
  - destruct (extract_unreserved parse_json show_hex _ _ _ _ Hx) as [_ Hres]. cbn in Hres. congruence.
  - by rewrite fallback_unreserved.
Qed.

(** C19: A trusted program is shown as if the request had carried no IDLs: no caller IDL decodes
    its instructions, no caller name or [metadata.name] labels it, and whether it has an IDL does
    not change. *)
Theorem trusted_program_untouched options r pk :
  create options = Ok r → is_trusted_program (show_pubkey pk) = true →
  get_idl r (show_pubkey pk) = None ∧ get_idl_name r pk = None ∧
  get_program_name r pk = get_program_name IdlRegistry_new pk ∧
  has_idl r pk = has_idl IdlRegistry_new pk.
Proof.
  intros Hr Ht.
  destruct (create_idl_registry_lookup parse_json show_hex env options (show_pubkey pk))
    as (r' & Hr' & Hc & Hn & Hi).
  rewrite Hr in Hr'. injection Hr' as <-.
  assert (extract_idl_mappings parse_json show_hex env options !! show_pubkey pk = None) as Hx.
  { destruct (extract_idl_mappings _ _ _ _ !! _) as [v|] eqn:Hx; [|done].
    destruct (extract_unreserved parse_json show_hex _ _ _ _ Hx). congruence. }
  rewrite Hx in Hc, Hn, Hi. cbn in Hc, Hn, Hi.
  unfold get_idl, get_idl_name, get_program_name, has_idl. rewrite Hc, Hn, Hi. cbn.
  split_and!; try done. by destruct (canonical_name _).
Qed.

(** The source reported for a program is exact: the three built-in sources are reported for the
    trusted programs and no others, and a program counts as supplied by the caller exactly when
    the registry of the request holds an IDL for it. *)
Theorem registered_source_exact options r p :
  create options = Ok r →
  (registered_source p (get_all_configs r) ∈ [Native; Preset; ThirdParty] ↔
     is_trusted_program p = true) ∧
  (registered_source p (get_all_configs r) = CallerSupplied ↔ is_Some (configs r !! p)).
Proof.
  intros Hr.
  destruct (create_idl_registry_lookup parse_json show_hex env options p) as (r' & Hr' & Hc & _).
  rewrite Hr in Hr'. injection Hr' as <-.
  assert (is_trusted_program p = true → configs r !! p = None) as Htc.
  { intros Ht. rewrite Hc. destruct (extract_idl_mappings _ _ _ _ !! _) as [v|] eqn:Hx; [|done].
    destruct (extract_unreserved parse_json show_hex _ _ _ _ Hx). congruence. }
  assert (is_trusted_program p =
            existsb (fun e => bool_decide (e.1 = p)) NATIVE_PROGRAM_NAMES
            || bool_decide (p ∈ preset_program_ids)
            || bool_decide (is_Some (program_type_from_id p))) as Ht by apply trusted_sources.
  unfold registered_source, get_all_configs. rewrite Ht in *. clear Ht Hc.
  destruct (existsb _ _), (bool_decide (p ∈ preset_program_ids)),
    (bool_decide (is_Some (program_type_from_id p))); cbn in Htc |- *;
    try (rewrite Htc by done; split; [set_solver|split; [done|by intros []]]).
  case_bool_decide; (split; [set_solver|done]).
Qed.
End properties.

(** ** Witnesses *)

Definition sample_key : Pubkey := replicate 32 Byte.x01.
Definition sample_program : string := hex_of_bytes sample_key.
Definition sample_signature : SignatureMetadata :=
  MkSignatureMetadata
    (hex_of_bytes (toy_ed_sign Byte.x07 (@solana_metadata_prehash truncation_hash sample_key
                                            (as_bytes "{}"))))
    [MkMetadata "algorithm" "ed25519"; MkMetadata "public_key" (hex_of_bytes (toy_ed_key Byte.x07))].
Definition sample_metadata : SolanaMetadata :=
  MkSolanaMetadata None None
    [(sample_program, MkIdl "{}" None None (Some sample_signature) (Some "My Program"));
     (hex_of_bytes (replicate 32 Byte.x02), MkIdl "{}" None None None (Some "System Program"))] None.
Definition sample_options : VisualSignOptions :=
  MkOptions false None (Some (MkChainMetadata (Some (SolanaM sample_metadata)))) None false.
Definition sample_env (v : string) : option string :=
  if decide (v = "VISUALSIGN_SOL_IDL_SIGNERS") then Some (hex_of_bytes (toy_ed_key Byte.x07)) else None.

Definition sample_create : result VisualSignError (@IdlRegistry sample_idls) :=
  @create_idl_registry_from_options hex_sdk sample_idls (fun _ => None) truncation_hash hex_ref
    toy_ed25519 (fun _ => "") sample_env sample_options.

Lemma sample_created : ∃ r, sample_create = Ok r ∧
  get_program_name (K:=hex_sdk) r sample_key = "My Program".
Proof.
  assert ((match sample_create with
           | Ok r => bool_decide (get_program_name (K:=hex_sdk) r sample_key = "My Program")
           | Err _ => false
           end) = true) as Hb by (vm_compute; reflexivity).
  destruct sample_create as [r|]; [|done]. exists r. split; [done|].
  by apply bool_decide_eq_true_1 in Hb.
Qed.

Lemma idl_registry_exact_witness : is_ok sample_create = true.
Proof.
  destruct (@idl_registry_exact hex_sdk sample_idls (fun _ => None) truncation_hash hex_ref
              toy_ed25519 (fun _ => "") sample_env sample_options sample_metadata)
    as (r & Hr & _).
  - reflexivity.
  - apply NoDup_cons. split; [|apply NoDup_singleton].
    intros Heq%list_elem_of_singleton. vm_compute in Heq. discriminate.
  - unfold sample_create. by rewrite Hr.
Defined.

Lemma program_name_not_impersonated_witness :
  ∃ r, sample_create = Ok r ∧
    ~ @canonical_name sample_idls sample_program = Some (get_program_name (K:=hex_sdk) r sample_key).
Proof.
  destruct sample_created as (r & Hr & Hn). exists r. split; [done|].
  intros Hc.
  pose proof (proj2 (@program_name_not_impersonated hex_sdk sample_idls (fun _ => None)
                truncation_hash hex_ref toy_ed25519 (fun _ => "") sample_env sample_options r
                sample_key Hr) Hc) as Hb.
  rewrite Hn in Hb. vm_compute in Hb. discriminate.
Defined.

Definition zero_key : Pubkey := replicate 32 Byte.x00.

(** Texts in which the key of the System Program is written the way it is on chain. *)
Program Definition system_sdk : SolanaSdk := {|
  show_pubkey pk :=
    if decide (pk = zero_key) then "11111111111111111111111111111111" else hex_of_bytes pk;
  pubkey_from_str s :=
    if decide (s = "11111111111111111111111111111111") then Some zero_key
    else match hex_decode_ref s with
         | Ok bs => if decide (length bs = 32 ∧ hex_of_bytes bs = s ∧ bs ≠ zero_key)
                    then Some bs else None
         | Err _ => None
         end;
|}.
Next Obligation.
  intros s pk. cbv beta. case_decide; [by intros [= <-]|].
  destruct (hex_decode_ref s) as [bs|]; [|done].
  case_decide as Hd; [|done]. intros [= <-]. by destruct Hd.
Qed.
Next Obligation.
  intros pk Hl. cbv beta. destruct (decide (pk = zero_key)) as [-> |Hz]; [done|].
  rewrite decide_False.
  2: { intros Heq. apply (f_equal String.length) in Heq. rewrite length_hex_of_bytes, Hl in Heq. done. }
  unfold hex_decode_ref. rewrite hex_pairs_encode, length_hex_of_bytes.
  replace (Nat.odd (2 * length pk)) with false by (rewrite Nat.odd_mul; done).
  by rewrite decide_True.
Qed.
Next Obligation.
  intros s pk. cbv beta. destruct (decide (s = _)) as [-> |]; [by intros [= <-]|].
  destruct (hex_decode_ref s) as [bs|]; [|done].
  case_decide as Hd; [|done]. intros [= <-]. destruct Hd as (? & ? & ?). by rewrite decide_False.
Qed.
Next Obligation.
  intros pk Hl. cbv beta. case_decide; [cbn; lia|]. rewrite length_hex_of_bytes. lia.
Qed.
Next Obligation.
  intros pk _. cbv beta. case_decide; [done|].
  eapply str_all_impl, hex_of_bytes_digits. intros c. by ascii_cases c.
Qed.

Lemma trusted_program_untouched_witness :
  ∃ r, @create_idl_registry_from_options system_sdk sample_idls (fun _ => None) truncation_hash
         hex_ref toy_ed25519 (fun _ => "") sample_env
         (MkOptions false None (Some (MkChainMetadata (Some (SolanaM (MkSolanaMetadata None None
            [("11111111111111111111111111111111", MkIdl "{}" None None None (Some "Phantom"))]
            None))))) None false) = Ok r ∧
       get_program_name (K:=system_sdk) r zero_key = "System Program".
Proof.
  match goal with |- ∃ r, ?c = _ ∧ _ => destruct c as [r|] eqn:E end.
  2: { exfalso. match type of E with ?c = _ =>
         assert (is_ok c = true) as Hok by (vm_compute; reflexivity); by rewrite E in Hok end. }
  exists r. split; [done|].
  destruct (@trusted_program_untouched system_sdk sample_idls (fun _ => None) truncation_hash
              hex_ref toy_ed25519 (fun _ => "") sample_env _ r zero_key E) as (_ & _ & -> & _).
  - vm_compute. reflexivity.
  - vm_compute. reflexivity.
Defined.

Lemma registered_source_exact_witness :
  ∃ r, sample_create = Ok r ∧
    registered_source "11111111111111111111111111111111" (get_all_configs r) ∈ [Native; Preset; ThirdParty].
Proof.
  destruct sample_created as (r & Hr & _). exists r. split; [done|].
  apply (@registered_source_exact hex_sdk sample_idls (fun _ => None) truncation_hash hex_ref
           toy_ed25519 (fun _ => "") sample_env sample_options r _ Hr). vm_compute. reflexivity.
Defined.

(** A caller who gives a name of his own can still put a reserved name in [metadata.name], which
    is shown next to it. *)
Lemma metadata_name_not_screened :
  let parse (_ : string) := Some (JObject [("metadata", JObject [("name", JString "System Program")])]) in
  match @create_idl_registry_from_options hex_sdk sample_idls parse truncation_hash hex_ref
          toy_ed25519 (fun _ => "") sample_env sample_options with
  | Ok r => bool_decide (get_program_name (K:=hex_sdk) r sample_key = "My Program")
            && bool_decide (get_idl_name (K:=hex_sdk) r sample_key = Some "System Program")
  | Err _ => false
  end = true.
Proof. vm_compute. reflexivity. Qed.
