(* ===== verification/SolanaParserCrate.v ===== *)
(** * The [solana_parser] crate

    The types and functions of the decoder crate that [chain_parsers/visualsign-solana] calls: the
    data as the crate declares it, its functions as the fields of a class. *)

From S2P Require Import Prelude Json Payload Errors Charset External Encodings Registry Borsh.
From S2P Require Import SolanaCore SolanaIdl.

#[local] Unset Program Cases.

(** ** The types of [solana_parser] *)

Module parser.
Record SolTransfer := MkSolTransfer { from : string; to : string; amount : string }.

Record SplTransfer := MkSplTransfer {
  spl_from : string;
  spl_to : string;
  spl_amount : string;
  spl_owner : string;
  spl_signers : list string;
  token_mint : option string;
  decimals : option string;
  fee : option string;
}.

(** The indices are [i32]s. *)
Record SolanaSingleAddressTableLookup := MkSingleLookup {
  sl_key : string;
  sl_index : Z;
  sl_writable : bool;
}.

Record SolanaAddressTableLookup := MkTableLookup {
  tl_key : string;
  tl_writable_indexes : list Z;
  tl_readonly_indexes : list Z;
}.

Inductive IdlSource : Type := BuiltIn (t : ProgramType) | SourcePreset | Custom.

Record SolanaParsedInstructionData := MkParsedData {
  pd_instruction_name : string;
  pd_discriminator : string;
  (** A [HashMap] and a [serde_json::Map]. *)
  pd_named_accounts : gmap string string;
  pd_program_call_args : list (string * json);
  pd_idl_source : IdlSource;
  pd_idl_hash : string;
}.

Inductive IdlParseError : Type :=
| DataParseError (instruction_name error : string)
| AccountsMapError (instruction_name error : string)
| DiscriminatorNotFound (msg : string)
| IdlResolutionError (msg : string).

Record SolanaInstruction := MkSolanaInstruction {
  si_program_key : string;
  si_accounts : list SolanaAccount;
  si_instruction_data_hex : string;
  si_address_table_lookups : list SolanaSingleAddressTableLookup;
  si_parsed_instruction : option SolanaParsedInstructionData;
  si_idl_parse_error : option IdlParseError;
}.

Record SolanaMetadata := MkSolanaMetadata {
  sm_account_keys : list string;
  sm_program_keys : list string;
  sm_instructions : list SolanaInstruction;
  sm_transfers : list SolTransfer;
  sm_spl_transfers : list SplTransfer;
  sm_recent_blockhash : string;
  sm_address_table_lookups : list SolanaAddressTableLookup;
}.
End parser.

Record IdlRecord {P : SolanaIdls} := MkIdlRecord {
  rec_program_id : string;
  rec_program_name : string;
  rec_program_type : option ProgramType;
  rec_custom_idl : option ParsedIdl;
  rec_custom_idl_json : option string;
  rec_override_builtin : bool;
  rec_is_preset : bool;
}.
Arguments MkIdlRecord {P}.

(** The decoder; a failure carries its text. The parsers return the metadata of the
    transaction, if they produce any. *)
Class SolanaParser {P : SolanaIdls} : Type := {
  IdlInstruction : Type;
  idl_instructions : ParsedIdl → list IdlInstruction;
  idl_instruction_name : IdlInstruction → string;
  idl_instruction_discriminator : IdlInstruction → option bytes;
  resolve_idl_for_record : IdlRecord → string → result string (ParsedIdl * string * parser.IdlSource);
  find_instruction_by_discriminator : bytes → list IdlInstruction → result string IdlInstruction;
  parse_data_into_args : bytes → IdlInstruction → ParsedIdl → result string (list (string * json));
  create_accounts_map : list SolanaAccount → IdlInstruction → result string (gmap string string);
  compute_idl_hash : string → string;
  construct_idl_records_map : gmap string CustomIdlConfig → result string (gmap string IdlRecord);
  construct_custom_idl_records_map : result string (gmap string IdlRecord);
  parse_transaction :
    string → bool → option (gmap string (string * bool)) →
    result string (option parser.SolanaMetadata);
  parse_transaction_with_idl_records :
    string → bool → gmap string IdlRecord → result string (option parser.SolanaMetadata);
}.
