(* ===== verification/SolanaIntermediate.v ===== *)
(** * The structured decode of a Solana transaction

    [intermediate.rs] of [chain_parsers/visualsign-solana] and the preset IDLs of
    [idl/builtin_programs.rs]: the output for policy engines, with its Borsh form, and the
    decoding of a simulation's inner instructions. *)

From S2P Require Import Prelude Json Payload Errors Charset External Encodings Registry Borsh.
From S2P Require Import SolanaCore SolanaIdl SolanaParserCrate.

#[local] Unset Program Cases.

(** ** The schema *)

Definition SOLANA_INTERMEDIATE_SCHEMA_VERSION : Z := 2.

Inductive SolanaSimulationError : Type :=
| InvalidBase64
| InvalidJson
| SimulationFailed
| CallerIdlRecordsUnusable
| SimCompiledInstruction
| InvalidInstructionData.

#[export] Instance SolanaSimulationError_eq_dec : EqDecision SolanaSimulationError.
Proof. solve_decision. Defined.
#[export] Instance RegisteredSource_eq_dec : EqDecision RegisteredSource.
Proof. solve_decision. Defined.

(** The mirrors of the types of [solana_parser]. *)
Record IoAccount := MkIoAccount { io_account_key : string; io_signer : bool; io_writable : bool }.
Record SolTransfer := MkSolTransfer { st_from : string; st_to : string; st_amount : string }.
Record SplTransfer := MkSplTransfer {
  spl_from : string;
  spl_to : string;
  spl_amount : string;
  spl_owner : string;
  spl_signers : list string;
  spl_token_mint : option string;
  spl_decimals : option string;
  spl_fee : option string;
}.
Record SolanaSingleAddressTableLookup := MkSingleLookup {
  sl_address_table_key : string;
  sl_index : Z;
  sl_writable : bool;
}.
Record SolanaAddressTableLookup := MkTableLookup {
  tl_address_table_key : string;
  tl_writable_indexes : list Z;
  tl_readonly_indexes : list Z;
}.

(** [named_accounts] is a [BTreeMap]: its entries in key order. *)
Record SolanaParsedInstructionDataIo := MkParsedDataIo {
  pio_instruction_name : string;
  pio_discriminator : string;
  pio_named_accounts : list (string * string);
  pio_program_call_args_json : string;
  pio_idl_source : string;
  pio_idl_hash : string;
}.

Record SolanaRpcParsedInstructionDataIo := MkRpcParsedIo {
  rpc_program : string;
  rpc_parsed_json : string;
}.

Inductive SolanaIdlParseError : Type :=
| DataParseError (instruction_name error : string)
| AccountsMapError (instruction_name error : string)
| DiscriminatorNotFound (msg : string)
| IdlResolutionError (msg : string).

Record SolanaIntermediateInstruction := MkIntermediateInstruction {
  ii_program_key : string;
  ii_accounts : list IoAccount;
  ii_instruction_data_hex : string;
  ii_address_table_lookups : list SolanaSingleAddressTableLookup;
  ii_parsed_instruction_data : option SolanaParsedInstructionDataIo;
  ii_idl_parse_error : option SolanaIdlParseError;
  ii_registered_source : RegisteredSource;
}.

(** [index] and [stack_height] are [u32]s. *)
Record SolanaSimulatedInstruction := MkSimulatedInstruction {
  sim_index : Z;
  sim_stack_height : Z;
  sim_program_key : string;
  sim_accounts : list string;
  sim_instruction_data_hex : string;
  sim_registered_source : RegisteredSource;
  sim_parsed_instruction_data : option SolanaParsedInstructionDataIo;
  sim_solana_rpc_parsed_data : option SolanaRpcParsedInstructionDataIo;
  sim_idl_parse_error : option SolanaIdlParseError;
}.

Record SolanaIntermediateOutput := MkIntermediateOutput {
  schema_version : Z;
  io_account_keys : list string;
  io_program_keys : list string;
  io_instructions : list SolanaIntermediateInstruction;
  io_transfers : list SolTransfer;
  io_spl_transfers : list SplTransfer;
  io_recent_blockhash : string;
  io_address_table_lookups : list SolanaAddressTableLookup;
  simulated_instructions : list SolanaSimulatedInstruction;
  simulation_error : option SolanaSimulationError;
}.

(** ** Conversions *)

Definition account_from (v : SolanaAccount) : IoAccount :=
  MkIoAccount (account_key v) (account_signer v) (account_writable v).
Definition sol_transfer_from (v : parser.SolTransfer) : SolTransfer :=
  MkSolTransfer (parser.from v) (parser.to v) (parser.amount v).
Definition spl_transfer_from (v : parser.SplTransfer) : SplTransfer :=
  MkSplTransfer (parser.spl_from v) (parser.spl_to v) (parser.spl_amount v) (parser.spl_owner v)
    (parser.spl_signers v) (parser.token_mint v) (parser.decimals v) (parser.fee v).
Definition single_lookup_from (v : parser.SolanaSingleAddressTableLookup)
    : SolanaSingleAddressTableLookup :=
  MkSingleLookup (parser.sl_key v) (parser.sl_index v) (parser.sl_writable v).
Definition table_lookup_from (v : parser.SolanaAddressTableLookup) : SolanaAddressTableLookup :=
  MkTableLookup (parser.tl_key v) (parser.tl_writable_indexes v) (parser.tl_readonly_indexes v).

Definition idl_source_string (source : parser.IdlSource) : string :=
  match source with
  | parser.BuiltIn _ => "BuiltIn"
  | parser.SourcePreset => "Preset"
  | parser.Custom => "Custom"
  end.

Definition idl_parse_error_from (e : parser.IdlParseError) : SolanaIdlParseError :=
  match e with
  | parser.DataParseError name error => DataParseError name error
  | parser.AccountsMapError name error => AccountsMapError name error
  | parser.DiscriminatorNotFound msg => DiscriminatorNotFound msg
  | parser.IdlResolutionError msg => IdlResolutionError msg
  end.

(** A [HashMap] collected into a [BTreeMap]. *)
Definition btree_of_map {V} (m : gmap string V) : list (string * V) := btree_of_list (map_to_list m).

Section conversions.
Context {M : SerdeMap} {F : JsonFormat} {P : SolanaIdls}.

(** An object is re-keyed in sorted order, its values canonicalised on the way. *)
Fixpoint canonicalize_value (value : json) : json :=
  match value with
  | JObject map =>
      JObject (map_from (btree_of_list ((fun kv => (kv.1, canonicalize_value kv.2)) <$> map)))
  | JArray items => JArray (canonicalize_value <$> items)
  | _ => value
  end.

Definition canonicalize_map (map : list (string * json)) : list (string * json) :=
  map_from (btree_of_list ((fun kv => (kv.1, canonicalize_value kv.2)) <$> map)).

Definition canonical_args_json (args : list (string * json)) : string :=
  fmt_value (JObject (canonicalize_map args)).

Definition parsed_data_from (v : parser.SolanaParsedInstructionData) : SolanaParsedInstructionDataIo :=
  MkParsedDataIo (parser.pd_instruction_name v) (parser.pd_discriminator v)
    (btree_of_map (parser.pd_named_accounts v))
    (canonical_args_json (parser.pd_program_call_args v))
    (idl_source_string (parser.pd_idl_source v)) (parser.pd_idl_hash v).

Definition build_intermediate_instruction (v : parser.SolanaInstruction)
    (caller_idl_program_ids : gmap string CustomIdlConfig) : SolanaIntermediateInstruction :=
  MkIntermediateInstruction (parser.si_program_key v) (account_from <$> parser.si_accounts v)
    (parser.si_instruction_data_hex v) (single_lookup_from <$> parser.si_address_table_lookups v)
    (parsed_data_from <$> parser.si_parsed_instruction v)
    (idl_parse_error_from <$> parser.si_idl_parse_error v)
    (registered_source (parser.si_program_key v) caller_idl_program_ids).

Definition build_intermediate_output (v : parser.SolanaMetadata)
    (caller_idl_program_ids : gmap string CustomIdlConfig) : SolanaIntermediateOutput :=
  MkIntermediateOutput SOLANA_INTERMEDIATE_SCHEMA_VERSION
    (parser.sm_account_keys v) (parser.sm_program_keys v)
    ((fun i => build_intermediate_instruction i caller_idl_program_ids) <$> parser.sm_instructions v)
    (sol_transfer_from <$> parser.sm_transfers v) (spl_transfer_from <$> parser.sm_spl_transfers v)
    (parser.sm_recent_blockhash v) (table_lookup_from <$> parser.sm_address_table_lookups v)
    [] None.
End conversions.

(** ** The preset IDLs *)

(** Program ids, and the file under [src/presets] that holds the IDL. *)
Definition PRESET_IDL_ENTRIES : list (string * string) :=
  [("DF1ow4tspfHX9JwWJsAb9epbkA8hmpSEAtxXy1V27QBH", "dflow_aggregator/dflow_aggregator.json");
   ("dRiftyHA39MWEi3m9aunc5MzRF1JYuBsbn6VPcn33UH", "drift/drift.json");
   ("ExponentnaRg3CQbW6dqQNZKXp7gtZ9DGMp1cwC4HAS7", "exponent_finance/exponent_finance.json");
   ("jupr81YtYssSyPt8jbnGuiWon5f6x9TcDEFxYe3Bdzi", "jupiter_borrow/jupiter_borrow.json");
   ("jup3YeL8QhtSx1e253b2FDvsMNC87fDrgQZivbrndc9", "jupiter_earn/jupiter_earn.json");
   ("PERPHjGBqRHArX4DySjwM6UJHiR3sWAatqfdBS2qQJu", "jupiter_perps/jupiter_perps.json");
   ("JUP6LkbZbjS1jKKwapdHNy74zcZ3tLUZoi5QNyVTaV4", "jupiter_swap/jupiter_agg_v6.json");
   ("KLend2g3cP87fffoy8q1mQqGKjrxjC8boSyAYavgmjD", "kamino_borrow/kamino_borrow.json");
   ("FarmsPZpWu9i7Kky8tPN37rs2TpmMrAZrC7S7vJa91Hr", "kamino_farms/kamino_farms.json");
   ("LiMoM9rMhrdYrfzUCxQppvxCSG1FcrUK9G8uLq4A1GF", "kamino_limit/kamino_limit.json");
   ("KvauGMspG5k6rtzrqqn7WNn3oZdyKqLKwK2XWQ8FLjd", "kamino_vault/kamino_vault.json");
   ("VLTX1ishMBbcX3rdBWGssxawAo1Q2X2qxYFYqiGodVg", "metadao_conditional_vault/metadao_conditional_vault.json");
   ("FUTARELBfJfQ8RDGhg1wdhddq1odMAJUePHFuBYfUxKq", "metadao_futarchy/metadao_futarchy.json");
   ("cpamdpZCGKUy5JxQXB4dcpGPiikHawvSWAd6mEn1sGG", "meteora_damm_v2/meteora_damm_v2.json");
   ("LBUZKhRxPF3XUpBCjp4YzTKgLccjZhTSDM9YuVaPwxo", "meteora_dlmm/meteora_dlmm.json");
   ("BUNDDh4P5XviMm1f3gCvnq2qKx6TGosAGnoUK12e7cXU", "neutral_trade/neutral_trade.json");
   ("onreuGhHHgVzMWSkj2oQDLDtvvGvoepBPkqyaubFcwe", "onre_app/onre_app.json");
   ("whirLbMiicVdio4qvUfM5KAg6Ct8VwpYzGff3uctyCc", "orca_whirlpool/orca_whirlpool.json");
   ("SQDS4ep65T869zMMBKyuUq6aD6EgTu8psMjkvj52pCf", "squads_multisig/squads_multisig_program.json")].

Section presets.
Context {P : SolanaIdls}.
(** [include_str!]: the contents of the file. *)
Context (include_str : string → string).

Definition preset_idl_configs : gmap string CustomIdlConfig :=
  list_to_map ((fun e => (e.1, MkIdlConfig (CustomJson (include_str e.2)) true)) <$> PRESET_IDL_ENTRIES).

(** The record of an entry whose IDL parses. *)
Definition preset_record (program_id : string) (config : CustomIdlConfig) : option IdlRecord :=
  match config_idl config with
  | CustomParsed _ => None
  | CustomJson json =>
      match decode_idl_data json with
      | Err _ => None
      | Ok idl =>
          Some (MkIdlRecord program_id
                  ("Preset Program " +:+ str_take (8 `min` String.length program_id) program_id)
                  None (Some idl) (Some json) true true)
      end
  end.

Definition preset_idl_records : gmap string IdlRecord := map_imap preset_record preset_idl_configs.
End presets.

(** ** Records and the decode *)

(** The response of [simulateTransaction]. *)
Inductive UiInstruction : Type :=
| UiCompiled
| PartiallyDecoded (program_id : string) (accounts : list string) (data : string)
    (stack_height : option Z)
| UiParsed (program program_id : string) (parsed : json) (stack_height : option Z).

Record UiInnerInstructions := MkInner {
  (** a [u8] *)
  inner_index : Z;
  inner_instructions_of : list UiInstruction;
}.

Record RpcSimulateTransactionResult := MkSimulateResult {
  sim_err : bool;
  inner_instructions : option (list UiInnerInstructions);
}.

Section decode.
Context {M : SerdeMap} {F : JsonFormat} {K : SolanaSdk} {P : SolanaIdls} {SP : SolanaParser}.
Context {H : HexCodec} (include_str : string → string).
(** [bs58], and [serde_json] on a response. *)
Context (bs58_decode : string → option bytes)
  (response_from_slice : bytes → option RpcSimulateTransactionResult).

Definition builtin_idl_records : gmap string IdlRecord :=
  match construct_custom_idl_records_map with Ok records => records | Err _ => ∅ end.

Definition lookup_idl_record (program_id : string) (caller_records : gmap string IdlRecord)
    : option IdlRecord :=
  match caller_records !! program_id with
  | Some record => Some record
  | None =>
      match preset_idl_records include_str !! program_id with
      | Some record => Some record
      | None => builtin_idl_records !! program_id
      end
  end.

Definition caller_idl_records (configs : gmap string CustomIdlConfig)
    : option (gmap string IdlRecord) :=
  if decide (configs = ∅) then Some ∅
  else
    match construct_idl_records_map configs with
    | Err _ => None
    | Ok records => Some (filter (fun e => is_Some (configs !! e.1)) records)
    end.

(** The three layers in one map, inserted from the lowest up. *)
Definition build_idl_record_map (caller_records : gmap string IdlRecord) : gmap string IdlRecord :=
  map_fold insert (map_fold insert builtin_idl_records (preset_idl_records include_str))
    caller_records.

Definition parse_partially_decoded_instruction_idl (program_id data_base58 : string)
    (accounts : list string) (caller_records : gmap string IdlRecord)
    : option SolanaParsedInstructionDataIo * option SolanaIdlParseError :=
  match lookup_idl_record program_id caller_records with
  | None => (None, None)
  | Some idl_record =>
      match resolve_idl_for_record idl_record program_id with
      | Err e => (None, Some (IdlResolutionError e))
      | Ok (idl, idl_json, idl_source) =>
          match bs58_decode data_base58 with
          | None => (None, Some (DiscriminatorNotFound "instruction data is not valid base58"))
          | Some data =>
              match find_instruction_by_discriminator data (idl_instructions idl) with
              | Err e => (None, Some (DiscriminatorNotFound e))
              | Ok instruction =>
                  match parse_data_into_args data instruction idl with
                  | Err e => (None, Some (DataParseError (idl_instruction_name instruction) e))
                  | Ok program_call_args =>
                      match create_accounts_map ((fun k => MkSolanaAccount k false false) <$> accounts)
                              instruction with
                      | Err e => (None, Some (AccountsMapError (idl_instruction_name instruction) e))
                      | Ok named_accounts =>
                          match idl_instruction_discriminator instruction with
                          | None =>
                              (None, Some (DiscriminatorNotFound
                                             "matched instruction has no discriminator"))
                          | Some discriminator =>
                              (Some (MkParsedDataIo (idl_instruction_name instruction)
                                       (hex_encode discriminator) (btree_of_map named_accounts)
                                       (canonical_args_json program_call_args)
                                       (idl_source_string idl_source) (compute_idl_hash idl_json)),
                               None)
                          end
                      end
                  end
              end
          end
      end
  end.

(** The body of the inner loop; an error is an early return. *)
Definition decode_inner_instruction (configs : gmap string CustomIdlConfig)
    (caller_records : gmap string IdlRecord) (outer_index : Z) (i : UiInstruction)
    : result SolanaSimulationError SolanaSimulatedInstruction :=
  match i with
  | UiCompiled => Err SimCompiledInstruction
  | PartiallyDecoded program_id accounts data_base58 stack_height =>
      data ← ok_or InvalidInstructionData (bs58_decode data_base58);
      let '(parsed_instruction_data, idl_parse_error) :=
        parse_partially_decoded_instruction_idl program_id data_base58 accounts caller_records in
      Ok (MkSimulatedInstruction outer_index (default 0%Z stack_height) program_id accounts
            (hex_encode data) (registered_source program_id configs)
            parsed_instruction_data None idl_parse_error)
  | UiParsed program program_id parsed stack_height =>
      let parsed_json := fmt_value (canonicalize_value parsed) in
      Ok (MkSimulatedInstruction outer_index (default 0%Z stack_height) program_id []
            "" (registered_source program_id configs)
            None (Some (MkRpcParsedIo program parsed_json)) None)
  end.

(** An index per instruction, as the two loops visit them. *)
Definition flat_inner (l : list UiInnerInstructions) : list (Z * UiInstruction) :=
  entry ← l; (fun i => (inner_index entry, i)) <$> inner_instructions_of entry.

Definition decode_inner_instructions (l : list UiInnerInstructions) (idl_registry : IdlRegistry)
    : list SolanaSimulatedInstruction * option SolanaSimulationError :=
  let configs := get_all_configs idl_registry in
  match caller_idl_records configs with
  | None => ([], Some CallerIdlRecordsUnusable)
  | Some caller_records =>
      match collect_results
              (fun e => decode_inner_instruction configs caller_records e.1 e.2) (flat_inner l) with
      | Err e => ([], Some e)
      | Ok simulated => (simulated, None)
      end
  end.

Definition parse_and_decode_simulated_instructions (raw_json : bytes) (idl_registry : IdlRegistry)
    : list SolanaSimulatedInstruction * option SolanaSimulationError :=
  match response_from_slice raw_json with
  | None => ([], Some InvalidJson)
  | Some response =>
      if sim_err response then ([], Some SimulationFailed)
      else
        match inner_instructions response with
        | None => ([], None)
        | Some l => decode_inner_instructions l idl_registry
        end
  end.

Definition extract_solana_intermediate_output (raw_message_hex : string) (full_transaction : bool)
    (idl_registry : IdlRegistry) : result VisualSignError SolanaIntermediateOutput :=
  let configs := get_all_configs idl_registry in
  caller_records ← ok_or (ParseError (ParseDecodeError
                            "Failed to build IDL records from caller-supplied IDLs"))
                     (caller_idl_records configs);
  response ← map_err (fun e => ParseError (ParseDecodeError
                        ("Failed to parse transaction for intermediate output: " +:+ e)))
               (parse_transaction_with_idl_records raw_message_hex full_transaction
                  (build_idl_record_map caller_records));
  md ← ok_or (ParseError (ParseDecodeError "solana_parser returned no transaction_metadata")) response;
  Ok (build_intermediate_output md configs).
End decode.

(** ** The Borsh form *)

(** The derived codecs: the fields in declaration order. *)
#[export] Program Instance borsh_io_account : Borsh IoAccount :=
  borsh_iso (fun a => (io_account_key a, (io_signer a, io_writable a)))
    (fun '(k, (s, w)) => MkIoAccount k s w) _ _.
Next Obligation. by intros []. Qed.
Next Obligation. by intros (?&?&?). Qed.

#[export] Program Instance borsh_sol_transfer : Borsh SolTransfer :=
  borsh_iso (fun t => (st_from t, (st_to t, st_amount t)))
    (fun '(f, (t, a)) => MkSolTransfer f t a) _ _.
Next Obligation. by intros []. Qed.
Next Obligation. by intros (?&?&?). Qed.

#[export] Program Instance borsh_spl_transfer : Borsh SplTransfer :=
  borsh_iso
    (fun t => (spl_from t, (spl_to t, (spl_amount t, (spl_owner t, (spl_signers t,
                 (spl_token_mint t, (spl_decimals t, spl_fee t))))))))
    (fun '(f, (t, (a, (o, (s, (m, (d, e))))))) => MkSplTransfer f t a o s m d e) _ _.
Next Obligation. by intros []. Qed.
Next Obligation. by intros (?&?&?&?&?&?&?&?). Qed.

#[export] Program Instance borsh_single_lookup : Borsh SolanaSingleAddressTableLookup :=
  borsh_iso (fun l => (sl_address_table_key l, (MkI32 (sl_index l), sl_writable l)))
    (fun '(k, (i, w)) => MkSingleLookup k (i32_val i) w) _ _.
Next Obligation. by intros []. Qed.
Next Obligation. by intros (?&[]&?). Qed.

Lemma i32s_back (l : list Z) : i32_val <$> (MkI32 <$> l) = l.
Proof. rewrite <-list_fmap_compose. apply list_fmap_id. Qed.
Lemma i32s_to (l : list i32) : MkI32 <$> (i32_val <$> l) = l.
Proof. rewrite <-list_fmap_compose. induction l as [|[] l IH]; [done|]. cbn in *. by f_equal. Qed.

#[export] Program Instance borsh_table_lookup : Borsh SolanaAddressTableLookup :=
  borsh_iso (fun l => (tl_address_table_key l, (MkI32 <$> tl_writable_indexes l,
                         MkI32 <$> tl_readonly_indexes l)))
    (fun '(k, (w, r)) => MkTableLookup k (i32_val <$> w) (i32_val <$> r)) _ _.
Next Obligation. intros []. cbn. by rewrite !i32s_back. Qed.
Next Obligation. intros (?&?&?). cbn. by rewrite !i32s_to. Qed.

#[export] Program Instance borsh_parsed_data : Borsh SolanaParsedInstructionDataIo :=
  borsh_iso
    (fun d => (pio_instruction_name d, (pio_discriminator d, (MkBTree (pio_named_accounts d),
                (pio_program_call_args_json d, (pio_idl_source d, pio_idl_hash d))))))
    (fun '(n, (d, (m, (a, (s, h))))) => MkParsedDataIo n d (btree_entries m) a s h) _ _.
Next Obligation. by intros []. Qed.
Next Obligation. by intros (?&?&[]&?&?&?). Qed.

#[export] Program Instance borsh_rpc_parsed : Borsh SolanaRpcParsedInstructionDataIo :=
  borsh_iso (fun d => (rpc_program d, rpc_parsed_json d)) (fun '(p, j) => MkRpcParsedIo p j) _ _.
Next Obligation. by intros []. Qed.
Next Obligation. by intros []. Qed.

(** The fields of a variant. *)
Definition idl_error_fields (e : SolanaIdlParseError) : string * string + string :=
  match e with
  | DataParseError n x | AccountsMapError n x => inl (n, x)
  | DiscriminatorNotFound m | IdlResolutionError m => inr m
  end.

#[export] Program Instance borsh_idl_error : Borsh SolanaIdlParseError :=
  borsh_cases
    (fun e => match idl_error_fields e with inl x => borsh_wf x | inr m => borsh_wf m end)
    (fun e => match e with
              | DataParseError _ _ => Byte.x00
              | AccountsMapError _ _ => Byte.x01
              | DiscriminatorNotFound _ => Byte.x02
              | IdlResolutionError _ => Byte.x03
              end)
    (fun e => match idl_error_fields e with inl x => serialize x | inr m => serialize m end)
    (fun tag buf =>
       match tag with
       | Byte.x00 => '((n, x), rest) ← deserialize buf; Ok (DataParseError n x, rest)
       | Byte.x01 => '((n, x), rest) ← deserialize buf; Ok (AccountsMapError n x, rest)
       | Byte.x02 => '(m, rest) ← deserialize buf; Ok (DiscriminatorNotFound m, rest)
       | Byte.x03 => '(m, rest) ← deserialize buf; Ok (IdlResolutionError m, rest)
       | _ => Err (IoError "Unexpected variant tag")
       end) _.
Next Obligation.
  intros [n x|n x|m|m] bs rest Hwf Hs; cbn [idl_error_fields] in *;
    by rewrite (serialize_deserialize _ _ _ Hwf Hs).
Qed.

Definition registered_source_tag (s : RegisteredSource) : byte :=
  match s with
  | Native => Byte.x00
  | Preset => Byte.x01
  | ThirdParty => Byte.x02
  | CallerSupplied => Byte.x03
  | Unregistered => Byte.x04
  end.

#[export] Program Instance borsh_registered_source : Borsh RegisteredSource :=
  borsh_enum registered_source_tag [Native; Preset; ThirdParty; CallerSupplied; Unregistered] _.
Next Obligation. by intros []. Qed.

(** The discriminants start at 1. *)
Definition simulation_error_tag (e : SolanaSimulationError) : byte :=
  match e with
  | InvalidBase64 => Byte.x01
  | InvalidJson => Byte.x02
  | SimulationFailed => Byte.x03
  | CallerIdlRecordsUnusable => Byte.x04
  | SimCompiledInstruction => Byte.x05
  | InvalidInstructionData => Byte.x06
  end.

#[export] Program Instance borsh_simulation_error : Borsh SolanaSimulationError :=
  borsh_enum simulation_error_tag
    [InvalidBase64; InvalidJson; SimulationFailed; CallerIdlRecordsUnusable; SimCompiledInstruction;
     InvalidInstructionData] _.
Next Obligation. by intros []. Qed.

#[export] Program Instance borsh_intermediate_instruction : Borsh SolanaIntermediateInstruction :=
  borsh_iso
    (fun i => (ii_program_key i, (ii_accounts i, (ii_instruction_data_hex i,
                (ii_address_table_lookups i, (ii_parsed_instruction_data i,
                  (ii_idl_parse_error i, ii_registered_source i)))))))
    (fun '(k, (a, (d, (l, (p, (e, r)))))) => MkIntermediateInstruction k a d l p e r) _ _.
Next Obligation. by intros []. Qed.
Next Obligation. by intros (?&?&?&?&?&?&?). Qed.

#[export] Program Instance borsh_simulated_instruction : Borsh SolanaSimulatedInstruction :=
  borsh_iso
    (fun i => (MkUint (n:=4) (sim_index i), (MkUint (n:=4) (sim_stack_height i), (sim_program_key i,
                (sim_accounts i, (sim_instruction_data_hex i, (sim_registered_source i,
                  (sim_parsed_instruction_data i, (sim_solana_rpc_parsed_data i,
                    sim_idl_parse_error i)))))))))
    (fun '(i, (h, (k, (a, (d, (r, (p, (q, e)))))))) =>
       MkSimulatedInstruction (uint_val i) (uint_val h) k a d r p q e) _ _.
Next Obligation. by intros []. Qed.
Next Obligation. by intros ([]&[]&?&?&?&?&?&?&?). Qed.

#[export] Program Instance borsh_intermediate_output : Borsh SolanaIntermediateOutput :=
  borsh_iso
    (fun o => (MkUint (n:=2) (schema_version o), (io_account_keys o, (io_program_keys o,
                (io_instructions o, (io_transfers o, (io_spl_transfers o, (io_recent_blockhash o,
                  (io_address_table_lookups o, (simulated_instructions o, simulation_error o))))))))))
    (fun '(v, (ak, (pk, (i, (t, (st, (b, (l, (s, e))))))))) =>
       MkIntermediateOutput (uint_val v) ak pk i t st b l s e) _ _.
Next Obligation. by intros []. Qed.
Next Obligation. by intros ([]&?&?&?&?&?&?&?&?&?). Qed.

(** ** Facts *)

Lemma canonicalize_sort {M : SerdeMap} j : canonicalize_value j = sort_json_alphabetically j.
Proof. reflexivity. Qed.

Lemma canonical_args_sort {M : SerdeMap} {F : JsonFormat} args :
  canonical_args_json args = fmt_value (sort_json_alphabetically (JObject args)).
Proof. reflexivity. Qed.

Lemma fold_insert {V} (m b : gmap string V) : map_fold insert b m = m ∪ b.
Proof.
  induction m as [|k v m Hk Hf IH] using map_first_key_ind; [by rewrite map_fold_empty, (left_id_L ∅ (∪))|].
  rewrite map_fold_insert_first_key by done. by rewrite IH, insert_union_l.
Qed.

Section facts.
Context {M : SerdeMap} {F : JsonFormat} {K : SolanaSdk} {P : SolanaIdls} {SP : SolanaParser}.
Context {H : HexCodec} (include_str : string → string).
Context (bs58_decode : string → option bytes)
  (response_from_slice : bytes → option RpcSimulateTransactionResult).

(** The two decoders work from the same IDLs: looking a program up layer by layer, as the decoder
    of simulated instructions does, finds the record the merged map given to the static decoder
    holds for it, the caller's before a preset's before a built-in one. *)
Theorem idl_record_layers_agree program_id caller_records :
  lookup_idl_record include_str program_id caller_records =
    build_idl_record_map include_str caller_records !! program_id.
Proof.
  unfold lookup_idl_record, build_idl_record_map. rewrite !fold_insert, !lookup_union.
  destruct (caller_records !! program_id), (preset_idl_records include_str !! program_id),
    (builtin_idl_records !! program_id); reflexivity.
Qed.

(** What a simulated instruction shows of the one in the response. *)
Definition shows (configs : gmap string CustomIdlConfig) (e : Z * UiInstruction)
    (s : SolanaSimulatedInstruction) : Prop :=
  sim_index s = e.1 ∧
  match e.2 with
  | UiCompiled => False
  | PartiallyDecoded pid accounts data h =>
      sim_program_key s = pid ∧ sim_accounts s = accounts ∧
      sim_registered_source s = registered_source pid configs ∧
      sim_stack_height s = default 0%Z h ∧ sim_solana_rpc_parsed_data s = None ∧
      ∃ bs, bs58_decode data = Some bs ∧ sim_instruction_data_hex s = hex_encode bs
  | UiParsed program pid parsed h =>
      sim_program_key s = pid ∧ sim_accounts s = [] ∧ sim_instruction_data_hex s = "" ∧
      sim_registered_source s = registered_source pid configs ∧
      sim_stack_height s = default 0%Z h ∧ sim_parsed_instruction_data s = None ∧
      sim_idl_parse_error s = None ∧
      sim_solana_rpc_parsed_data s
        = Some (MkRpcParsedIo program (fmt_value (sort_json_alphabetically parsed)))
  end.

Lemma decode_inner_instruction_shows configs records e s :
  decode_inner_instruction include_str bs58_decode configs records e.1 e.2 = Ok s →
  shows configs e s.
Proof.
  destruct e as [index [|pid accounts data h|program pid parsed h]];
    cbn [decode_inner_instruction fst snd]; [done| |].
  - intros (bs & Hb%ok_or_Ok & Hs)%result_bind_Ok.
    destruct (parse_partially_decoded_instruction_idl _ _ _ _ _ _) as [p er].
    injection Hs as <-. split; [done|]. cbn. split_and!; try done. by exists bs.
  - intros [= <-]. split; [done|]. cbn. by rewrite canonicalize_sort.
Qed.

(** A response whose instructions can all be reported. *)
Definition reportable (i : UiInstruction) : Prop :=
  match i with
  | UiCompiled => False
  | PartiallyDecoded _ _ data _ => is_Some (bs58_decode data)
  | UiParsed _ _ _ _ => True
  end.

Definition readable (r : IdlRegistry) (response : RpcSimulateTransactionResult) : Prop :=
  sim_err response = false ∧
  ∀ l, inner_instructions response = Some l →
    is_Some (caller_idl_records (get_all_configs r)) ∧ Forall (fun e => reportable e.2) (flat_inner l).

Lemma decode_inner_instruction_Ok configs records e :
  is_ok (decode_inner_instruction include_str bs58_decode configs records e.1 e.2) = true ↔
  reportable e.2.
Proof.
  destruct e as [index [|pid accounts data h|program pid parsed h]];
    cbn [decode_inner_instruction reportable fst snd]; [done| |done].
  destruct (bs58_decode data) as [bs|]; cbn; [|by split; [|intros []]].
  destruct (parse_partially_decoded_instruction_idl _ _ _ _ _ _). split; [by eexists|done].
Qed.

Lemma collect_results_is_ok {E A B} (f : A → result E B) l :
  is_ok (collect_results f l) = true ↔ Forall (fun x => is_ok (f x) = true) l.
Proof.
  induction l as [|x l IH]; [split; [constructor|done]|]. cbn [collect_results]. rewrite Forall_cons.
  destruct (f x); cbn; [|by split; [|intros []]]. rewrite <-IH.
  destruct (collect_results f l); cbn; tauto.
Qed.

(** A simulation is reported whole or not at all. No error is reported exactly when the input is
    a response of a simulation that did not revert, the caller's IDLs can be used, and every inner
    instruction is of a form and encoding the node produces; then the list has one entry for every
    inner instruction of every group, in order, with its group, program, accounts, data, source
    and depth. With an error the list is empty. *)
Theorem simulation_all_or_nothing raw r l err :
  parse_and_decode_simulated_instructions include_str bs58_decode response_from_slice raw r = (l, err) →
  (err = None ↔ ∃ response, response_from_slice raw = Some response ∧ readable r response) ∧
  (err = None → ∃ response, response_from_slice raw = Some response ∧
     Forall2 (shows (get_all_configs r)) (flat_inner (default [] (inner_instructions response))) l) ∧
  (err ≠ None → l = []).
Proof.
  unfold parse_and_decode_simulated_instructions, readable.
  destruct (response_from_slice raw) as [resp|].
  2: { intros [= <- <-]. split_and!; [|done|done]. split; [done|]. by intros (? & ? & _). }
  destruct (sim_err resp) eqn:He.
  { intros [= <- <-]. split_and!; [|done|done]. split; [done|].
    intros (? & [= <-] & ? & _). congruence. }
  destruct (inner_instructions resp) as [groups|] eqn:Hi.
  2: { intros [= <- <-]. split_and!; [|intros _|done].
       - split; [intros _|done]. exists resp. rewrite Hi. by split_and!.
       - exists resp. rewrite Hi. split; [done|]. constructor. }
  unfold decode_inner_instructions.
  destruct (caller_idl_records (get_all_configs r)) as [records|] eqn:Hr; [|intros [= <- <-]].
  2: { split_and!; [|done|done]. split; [done|]. intros (? & [= <-] & _ & Hall).
       rewrite Hi in Hall. destruct (Hall _ eq_refl) as [[]]; done. }
  set (f := fun e : Z * UiInstruction => _).
  assert (is_ok (collect_results f (flat_inner groups)) = true ↔
          Forall (fun e => reportable e.2) (flat_inner groups)) as Hok.
  { rewrite collect_results_is_ok. apply Forall_iff. intros e. apply decode_inner_instruction_Ok. }
  destruct (collect_results f (flat_inner groups)) as [sims|e] eqn:Hc; intros Heq;
    apply pair_equal_spec in Heq as [<- <-]; cbn [is_ok] in Hok.
  - split_and!; [|intros _|done].
    + split; [intros _|done]. exists resp. split_and!; try done. intros l' Hl'.
      rewrite Hi in Hl'. apply (inj Some) in Hl' as <-. split; [by eexists|]. by apply Hok.
    + exists resp. split; [done|]. rewrite Hi. cbn [default]. apply collect_results_Ok in Hc.
      eapply Forall2_impl; [exact Hc|]. intros e s. apply decode_inner_instruction_shows.
  - split_and!; [|done|done]. split; [done|]. intros (? & [= <-] & _ & Hall).
    destruct (Hall _ Hi) as [_ Hf]. by apply Hok in Hf.
Qed.
End facts.

(** The canonical text of the arguments does not depend on the order their keys arrive in, nor on
    the map of the build, at any depth; so the bytes derived from it are the same everywhere. *)
Theorem canonical_args_unique (M M' : SerdeMap) (F : JsonFormat) args args' :
  json_wf (JObject args) → rearranged (JObject args) (JObject args') →
  @canonical_args_json M F args = @canonical_args_json M' F args'.
Proof.
  intros Hwf Hr. rewrite !canonical_args_sort. f_equal.
  rewrite (sort_json_any_map M' M). by apply rearranged_sort.
Qed.

Lemma canonical_args_unique_witness :
  @canonical_args_json btree_map compact_format [("b", JNumber 1); ("a", JObject [("d", JNull); ("c", JBool true)])]
  = @canonical_args_json index_map compact_format [("a", JObject [("c", JBool true); ("d", JNull)]); ("b", JNumber 1)].
Proof.
  apply (canonical_args_unique btree_map index_map compact_format).
  - cbn. repeat split; repeat constructor; set_solver.
  - eapply rearranged_object; [apply Permutation_swap|].
    repeat constructor. eapply rearranged_object; [apply Permutation_swap|]. repeat constructor.
Defined.

(** ** A witness *)

Module sample_simulation.
Definition idls : SolanaIdls := sample_idls.
Definition crate : @SolanaParser idls := {|
  IdlInstruction := string;
  idl_instructions idl := [];
  idl_instruction_name i := i;
  idl_instruction_discriminator _ := None;
  resolve_idl_for_record _ _ := Err "none";
  find_instruction_by_discriminator _ _ := Err "none";
  parse_data_into_args _ _ _ := Err "none";
  create_accounts_map _ _ := Err "none";
  compute_idl_hash s := s;
  construct_idl_records_map _ := Ok ∅;
  construct_custom_idl_records_map := Ok ∅;
  parse_transaction _ _ _ := Ok None;
  parse_transaction_with_idl_records _ _ _ := Ok None |}.
Definition response : RpcSimulateTransactionResult :=
  MkSimulateResult false (Some [MkInner 0 [PartiallyDecoded "prog" ["acc"] "z" (Some 2%Z)]]).
Definition run :=
  @parse_and_decode_simulated_instructions btree_map compact_format idls crate hex_ref (fun _ => "")
    (fun _ => Some [Byte.x0a]) (fun _ => Some response) [] (@IdlRegistry_new idls).
End sample_simulation.

Lemma simulation_all_or_nothing_witness : length sample_simulation.run.1 = 1.
Proof.
  destruct sample_simulation.run as [l err] eqn:E.
  destruct (@simulation_all_or_nothing btree_map compact_format sample_simulation.idls
    sample_simulation.crate hex_ref (fun _ => "") (fun _ => Some [Byte.x0a])
    (fun _ => Some sample_simulation.response) [] IdlRegistry_new l err E) as (Hiff & Hlist & _).
  destruct Hlist as (resp & [= <-] & Hl).
  - apply Hiff. exists sample_simulation.response. split; [done|]. split; [done|].
    intros ? [= <-]. split; [by eexists|].
    constructor; [by eexists|constructor].
  - apply Forall2_length in Hl. done.
Defined.
