(* ===== verification/SolanaConvert.v ===== *)
(** * Solana: from input to payload

    [core/instructions.rs], [core/txtypes/v0.rs] and [core/visualsign.rs] of
    [chain_parsers/visualsign-solana], with the list of visualizers [build.rs] writes: decoding of
    the input, the fields of transfers, instructions, tables and accounts, the diagnostics, the
    payload, and the converter the registry holds. *)

From S2P Require Import Prelude Json Payload Errors Charset External Encodings Builders.
From S2P Require Import Signing Proto Registry Borsh.
From S2P Require Import SolanaCore SolanaAccounts SolanaIdl SolanaParserCrate SolanaIntermediate.

#[local] Unset Program Cases.

(** ** Transactions *)

Record SolanaTransaction := MkSolanaTransaction { tx_signatures : list bytes; tx_message : Message }.

Inductive VersionedMessage : Type := MessageLegacy (m : Message) | MessageV0 (m : V0Message).

Record VersionedTransaction := MkVersionedTransaction {
  vtx_signatures : list bytes;
  vtx_message : VersionedMessage;
}.

(** [bincode] and the message serialiser of [solana_sdk]; a failure carries its text. A
    serialised transaction reads back. *)
Class SolanaWire : Type := {
  deserialize_versioned : bytes → result string VersionedTransaction;
  deserialize_legacy : bytes → result string SolanaTransaction;
  serialize_versioned : VersionedTransaction → result string bytes;
  serialize_message : Message → bytes;
  serialize_versioned_message : VersionedMessage → bytes;
  deserialize_serialize_versioned tx bs :
    serialize_versioned tx = Ok bs → deserialize_versioned bs = Ok tx;
}.

Inductive SolanaTransactionWrapper : Type :=
| WrapLegacy (tx : SolanaTransaction)
| WrapVersioned (tx : VersionedTransaction).

Definition new_legacy (tx : SolanaTransaction) : SolanaTransactionWrapper := WrapLegacy tx.
Definition new_versioned (tx : VersionedTransaction) : SolanaTransactionWrapper := WrapVersioned tx.

Definition inner_legacy (w : SolanaTransactionWrapper) : option SolanaTransaction :=
  match w with WrapLegacy tx => Some tx | WrapVersioned _ => None end.
Definition inner_versioned (w : SolanaTransactionWrapper) : option VersionedTransaction :=
  match w with WrapLegacy _ => None | WrapVersioned tx => Some tx end.

Definition transaction_type (w : SolanaTransactionWrapper) : string :=
  match w with
  | WrapLegacy _ => "Solana (Legacy)"
  | WrapVersioned tx =>
      match vtx_message tx with
      | MessageLegacy _ => "Solana (Legacy)"
      | MessageV0 _ => "Solana (V0)"
      end
  end.

Definition TRANSACTION_V1_VERSION_BYTE : byte := Byte.x81.

(** ** The visualizers [build.rs] collects *)

(** The directories in the order they are read, the catch-all moved to the end. *)
Definition collect_visualizers {A} (all : list (string * A)) : list A :=
  let unknown := filter (fun e => e.1 = "unknown_program") all in
  let specific := filter (fun e => e.1 ≠ "unknown_program") all in
  specific.*2 ++ unknown.*2.

(** ** Texts *)

Definition debug_list (l : list nat) : string := "[" +:+ str_join ", " (show_nat <$> l) +:+ "]".

Section texts.
(** [str]'s [Debug]. *)
Context (debug_str : string → string).

Definition debug_option (o : option string) : string :=
  match o with None => "None" | Some s => "Some(" +:+ debug_str s +:+ ")" end.
End texts.

(** ** Transfers *)

Definition transfer_field (i : nat) (t : parser.SolTransfer) : AnnotatedPayloadField :=
  let n := show_nat (i + 1) in
  annotate_field
    (TextV2 (Common ("Transfer " +:+ n +:+ ": From " +:+ parser.from t +:+ " To " +:+ parser.to t
                     +:+ " For " +:+ parser.amount t) ("Transfer " +:+ n))
       (FieldTextV2 ("From: " +:+ parser.from t +:+ newline +:+ "To: " +:+ parser.to t +:+ newline
                     +:+ "Amount: " +:+ parser.amount t))).

(** The label carries a prefix in the V0 form. *)
Definition spl_transfer_field (debug_str : string → string) (label : string) (i : nat)
    (t : parser.SplTransfer) : AnnotatedPayloadField :=
  let n := show_nat (i + 1) in
  annotate_field
    (TextV2 (Common ("SPL Transfer " +:+ n +:+ ": From " +:+ parser.spl_from t +:+ " To "
                     +:+ parser.spl_to t +:+ " For " +:+ parser.spl_amount t) (label +:+ n))
       (FieldTextV2 ("From: " +:+ parser.spl_from t +:+ newline +:+ "To: " +:+ parser.spl_to t
                     +:+ newline +:+ "Owner: " +:+ parser.spl_owner t +:+ newline
                     +:+ "Amount: " +:+ parser.spl_amount t +:+ newline
                     +:+ "Mint: " +:+ debug_option debug_str (parser.token_mint t) +:+ newline
                     +:+ "Decimals: " +:+ debug_option debug_str (parser.decimals t) +:+ newline
                     +:+ "Fee: " +:+ debug_option debug_str (parser.fee t)))).

(** The fields of the transfers in the metadata, if there is any. *)
Definition transfer_fields (debug_str : string → string) (spl_label : string)
    (metadata : option parser.SolanaMetadata) : list AnnotatedPayloadField :=
  match metadata with
  | None => []
  | Some md =>
      imap transfer_field (parser.sm_transfers md)
      ++ imap (spl_transfer_field debug_str spl_label) (parser.sm_spl_transfers md)
  end.

(** A field laid out and labelled as that of an instruction. *)
Definition call_label (f : SignablePayloadField) : bool :=
  match f with PreviewLayout c _ => starts_with "Instruction " (common_label c) | _ => false end.

Lemma transfer_fields_label debug_str spl_label metadata :
  Forall (fun f => call_label f = false) (signable_payload_field <$> transfer_fields debug_str spl_label metadata).
Proof.
  destruct metadata as [md|]; [|constructor]. cbn [transfer_fields]. rewrite fmap_app.
  apply Forall_app. split; apply Forall_fmap, Forall_lookup; intros i f;
    rewrite list_lookup_imap; by intros (t & _ & ->)%fmap_Some.
Qed.

(** ** Diagnostics *)

Section diagnostics.
Context (lint_config : LintConfig).

(** The scan keeps the fields so far and the two counts. *)
Definition scan_state : Type := list AnnotatedPayloadField * nat * nat.

Definition oob_accounts (nkeys : nat) (ci : CompiledInstruction) : list nat :=
  filter (fun idx => nkeys ≤ idx) (ci_accounts ci).

Definition index_u32 (i : nat) : Z := (Z.of_nat i `mod` 2 ^ 32)%Z.

Definition push_unless_allowed (severity : Severity) (f : AnnotatedPayloadField)
    (l : list AnnotatedPayloadField) : list AnnotatedPayloadField :=
  match severity with SevAllow => l | _ => l ++ [f] end.

Definition oob_program_field (severity : Severity) (nkeys i : nat) (ci : CompiledInstruction)
    : AnnotatedPayloadField :=
  create_diagnostic_field "transaction::oob_program_id" "transaction" severity
    ("instruction " +:+ show_nat i +:+ ": program_id_index " +:+ show_nat (program_id_index ci)
     +:+ " out of bounds (" +:+ show_nat nkeys +:+ " account keys)") (Some (index_u32 i)).

Definition oob_account_field (severity : Severity) (nkeys i : nat) (ci : CompiledInstruction)
    : AnnotatedPayloadField :=
  create_diagnostic_field "transaction::oob_account_index" "transaction" severity
    ("instruction " +:+ show_nat i +:+ ": account indices " +:+ debug_list (oob_accounts nkeys ci)
     +:+ " out of bounds (" +:+ show_nat nkeys +:+ " account keys)") (Some (index_u32 i)).

Definition scan_step (oob_pid_severity oob_acct_severity : Severity) (nkeys : nat)
    (st : scan_state) (e : nat * CompiledInstruction) : scan_state :=
  let '(diagnostics, oob_program_id_count, oob_account_index_count) := st in
  let '(ci_index, ci) := e in
  let '(diagnostics, oob_program_id_count) :=
    if decide (nkeys ≤ program_id_index ci) then
      (push_unless_allowed oob_pid_severity
         (oob_program_field oob_pid_severity nkeys ci_index ci) diagnostics,
       S oob_program_id_count)
    else (diagnostics, oob_program_id_count) in
  if decide (oob_accounts nkeys ci ≠ []) then
    (push_unless_allowed oob_acct_severity
       (oob_account_field oob_acct_severity nkeys ci_index ci) diagnostics,
     oob_program_id_count, S oob_account_index_count)
  else (diagnostics, oob_program_id_count, oob_account_index_count).

Definition ok_field (rule what : string) (n : nat) : AnnotatedPayloadField :=
  create_diagnostic_field rule "transaction" SevOk
    ("all " +:+ show_nat n +:+ " instructions have valid " +:+ what) None.

Definition scan_instruction_diagnostics (instructions : list CompiledInstruction)
    (account_keys : list Pubkey) : list AnnotatedPayloadField :=
  let oob_pid_severity := severity_for lint_config "transaction::oob_program_id" SevWarn in
  let oob_acct_severity := severity_for lint_config "transaction::oob_account_index" SevWarn in
  let '(diagnostics, oob_program_id_count, oob_account_index_count) :=
    foldl (scan_step oob_pid_severity oob_acct_severity (length account_keys)) ([], 0, 0)
      (enumerate instructions) in
  diagnostics
  ++ (if bool_decide (oob_program_id_count = 0)
         && should_report_ok lint_config "transaction::oob_program_id"
      then [ok_field "transaction::oob_program_id" "program_id_index" (length instructions)]
      else [])
  ++ (if bool_decide (oob_account_index_count = 0)
         && should_report_ok lint_config "transaction::oob_account_index"
      then [ok_field "transaction::oob_account_index" "account indices" (length instructions)]
      else []).
End diagnostics.

(** ** Instructions *)

Record DecodeInstructionsResult := MkDecodeResult {
  dr_fields : list AnnotatedPayloadField;
  dr_errors : list (nat * VisualSignError);
  dr_diagnostics : list AnnotatedPayloadField;
}.

Section instructions.
Context {K : SolanaSdk} {P : SolanaIdls}.
(** [available_visualizers], each reading the registry of the context it is given. *)
Context (available : IdlRegistry → list InstructionVisualizer).

(** What the visualizers make of the instruction at an index. *)
Definition visualize_instruction (idl_registry : IdlRegistry) (account_keys : list Pubkey) (i : nat)
    (ci : CompiledInstruction) : option (result VisualSignError VisualizeResult) :=
  let sender := MkSolanaAccount (default "" (show_pubkey <$> head account_keys)) false false in
  visualize_with_any (available idl_registry) (VisualizerContext_new sender ci account_keys i).

Definition no_visualizer (i : nat) : VisualSignError :=
  DecodeError ("No visualizer available for instruction at index " +:+ show_nat i).

Definition decode_step (idl_registry : IdlRegistry) (account_keys : list Pubkey)
    (st : list AnnotatedPayloadField * list (nat * VisualSignError)) (e : nat * CompiledInstruction)
    : list AnnotatedPayloadField * list (nat * VisualSignError) :=
  let '(fields, errors) := st in
  let '(i, ci) := e in
  match visualize_instruction idl_registry account_keys i ci with
  | Some (Ok viz_result) => (fields ++ [vr_field viz_result], errors)
  | Some (Err e) => (fields, errors ++ [(i, e)])
  | None => (fields, errors ++ [(i, no_visualizer i)])
  end.

(** The body the two forms of a message share; [empty] is the message for no keys. *)
Definition decode_with_diagnostics (empty : string) (account_keys : list Pubkey)
    (instructions : list CompiledInstruction) (idl_registry : IdlRegistry)
    (lint_config : LintConfig) : DecodeInstructionsResult :=
  if decide (account_keys = []) then
    let severity := severity_for lint_config "transaction::empty_account_keys" SevError in
    MkDecodeResult [] []
      (push_unless_allowed severity
         (create_diagnostic_field "transaction::empty_account_keys" "transaction" severity empty None)
         [])
  else
    let diagnostics := scan_instruction_diagnostics lint_config instructions account_keys in
    let '(fields, errors) :=
      foldl (decode_step idl_registry account_keys) ([], []) (enumerate instructions) in
    MkDecodeResult fields errors diagnostics.

(** The build without diagnostics stops at the first failure. *)
Definition decode_or_fail (empty : string) (account_keys : list Pubkey)
    (instructions : list CompiledInstruction) (idl_registry : IdlRegistry)
    : result VisualSignError (list AnnotatedPayloadField) :=
  if decide (account_keys = []) then Err (DecodeError empty)
  else
    collect_results
      (fun e => match visualize_instruction idl_registry account_keys e.1 e.2 with
                | Some (Ok viz_result) => Ok (vr_field viz_result)
                | Some (Err err) =>
                    Err (DecodeError ("instruction " +:+ show_nat e.1 +:+ ": " +:+ show_error err))
                | None => Err (no_visualizer e.1)
                end)
      (enumerate instructions).

Definition legacy_empty : string := "legacy transaction has no account keys".
Definition v0_empty : string := "v0 transaction has no account keys".

Definition decode_instructions (tx : SolanaTransaction) (r : IdlRegistry) (lint_config : LintConfig)
    : DecodeInstructionsResult :=
  decode_with_diagnostics legacy_empty (message_keys (tx_message tx)) (instructions (tx_message tx))
    r lint_config.

Definition decode_instructions_or_fail (tx : SolanaTransaction) (r : IdlRegistry)
    : result VisualSignError (list AnnotatedPayloadField) :=
  decode_or_fail legacy_empty (message_keys (tx_message tx)) (instructions (tx_message tx)) r.

Definition decode_v0_instructions (m : V0Message) (r : IdlRegistry) (lint_config : LintConfig)
    : DecodeInstructionsResult :=
  decode_with_diagnostics v0_empty (v0_keys m) (v0_instructions m) r lint_config.

Definition decode_v0_instructions_or_fail (m : V0Message) (r : IdlRegistry)
    : result VisualSignError (list AnnotatedPayloadField) :=
  decode_or_fail v0_empty (v0_keys m) (v0_instructions m) r.

(** ** Address lookup tables *)

Definition table_name (single : string) (suffix : string) (total i : nat) : string :=
  if decide (total = 1) then single else "Table " +:+ show_nat (i + 1) +:+ " " +:+ suffix.

Definition table_indexes_field (label kind : string) (indexes : list nat)
    : list AnnotatedPayloadField :=
  if decide (indexes = []) then []
  else [annotate_field
          (TextV2 (Common (show_nat (length indexes) +:+ " accounts") label)
             (FieldTextV2 (show_nat (length indexes) +:+ " " +:+ kind +:+ " accounts (indices: "
                           +:+ debug_list indexes +:+ ")")))].

Definition table_fields (total i : nat) (lookup : MessageAddressTableLookup)
    : list AnnotatedPayloadField :=
  [annotate_field (text_v2 (table_name "Table Address" "Address" total i)
                     (show_pubkey (lookup_key lookup)))]
  ++ table_indexes_field (table_name "Writable Accounts" "Writable" total i) "writable"
       (writable_indexes lookup)
  ++ table_indexes_field (table_name "Readonly Accounts" "Readonly" total i) "readonly"
       (readonly_indexes lookup).

Definition create_address_lookup_table_field (m : V0Message) : SignablePayloadField :=
  let lookups := address_table_lookups m in
  let total := length lookups in
  let fallback_text := str_join ", " ((fun l => show_pubkey (lookup_key l)) <$> lookups) in
  let expanded_fields :=
    [annotate_field (text_v2 "Total Tables" (show_nat total))]
    ++ concat (imap (table_fields total) lookups) in
  let condensed_fields :=
    [annotate_field (text_v2 "Total Tables" (show_nat total +:+ " Tables"))]
    ++ ((fun l => annotate_field (text_v2 "Table" (show_pubkey (lookup_key l)))) <$> lookups) in
  PreviewLayout (Common fallback_text "Address Lookup Tables")
    (FieldPreviewLayout (Some (FieldTextV2 "Address Lookup Tables"))
       (Some (FieldTextV2 (show_nat total +:+ " table" +:+ plural total)))
       (Some (FieldListLayout condensed_fields)) (Some (FieldListLayout expanded_fields))).
End instructions.

(** ** The converter *)

Section convert.
Context {M : SerdeMap} {F : JsonFormat} {D : JsonErrorText}.
Context {S : Sha256} {H : HexCodec} {Ed : Ed25519}.
Context {K : SolanaSdk} {P : SolanaIdls} {SP : SolanaParser} {W : SolanaWire}.
Context (available : IdlRegistry → list InstructionVisualizer).
(** [serde_json::from_str] on an IDL and on a response, [base64] with the standard alphabet,
    [bs58], the contents of the embedded files, [str]'s [Debug], the texts of hex errors. *)
Context (parse_json : string → option json)
  (response_from_slice : bytes → option RpcSimulateTransactionResult)
  (b64_decode : string → result string bytes) (bs58_decode : string → option bytes)
  (include_str debug_str : string → string) (show_hex : FromHexError → string).
(** [std::env::var], and whether the [diagnostics] feature is on. *)
Context (env : string → option string) (diagnostics : bool).

Definition decode_transfers_legacy (tx : SolanaTransaction)
    : result VisualSignError (list AnnotatedPayloadField) :=
  parsed ← map_err (fun e => ParseError (ParseDecodeError ("Failed to parse transaction: " +:+ e)))
             (parse_transaction (hex_encode (serialize_message (tx_message tx))) false None);
  Ok (transfer_fields debug_str "SPL Transfer " parsed).

Definition JUPITER_PROGRAM_ID : string := "JUP6LkbZbjS1jKKwapdHNy74zcZ3tLUZoi5QNyVTaV4".
Definition JUPITER_IDL_JSON : string := include_str "jupiter_swap/jupiter_agg_v6.json".

Definition decode_v0_transfers (tx : VersionedTransaction)
    : result VisualSignError (list AnnotatedPayloadField) :=
  transaction_bytes ←
    map_err (fun e => ParseError (ParseDecodeError ("Failed to serialize V0 transaction: " +:+ e)))
      (serialize_versioned tx);
  let custom_idls : gmap string (string * bool) := {[JUPITER_PROGRAM_ID := (JUPITER_IDL_JSON, true)]} in
  parsed ←
    map_err (fun e => ParseError (ParseDecodeError ("Failed to parse V0 transaction: " +:+ e)))
      (parse_transaction (hex_encode transaction_bytes) true (Some custom_idls));
  Ok (transfer_fields debug_str "V0 SPL Transfer " parsed).

(** ** Reading the input *)

Definition sol_from_string (data : string) : result TransactionParseError SolanaTransactionWrapper :=
  bs ← match detect data with
       | Base64 => map_err ParseDecodeError (b64_decode data)
       | Hex => map_err (fun e => ParseDecodeError (show_hex e)) (decode_hex data)
       end;
  match deserialize_versioned bs with
  | Ok versioned_tx => Ok (WrapVersioned versioned_tx)
  | Err versioned_err =>
      match deserialize_legacy bs with
      | Ok legacy_tx => Ok (WrapLegacy legacy_tx)
      | Err _ =>
          if decide (head bs = Some TRANSACTION_V1_VERSION_BYTE) then
            Err (UnsupportedVersion
                   ("Solana transaction format v1 (SIMD-0385) is not supported (leading byte 0x81 matches the v1 version marker; decode error: "
                    +:+ versioned_err +:+ ")"))
          else Err (ParseDecodeError versioned_err)
      end
  end.

(** ** The payload *)

Definition append_diagnostics (fields : list SignablePayloadField) (r : DecodeInstructionsResult)
    : list SignablePayloadField :=
  fields
  ++ ((fun e => signable_payload_field
                  (create_diagnostic_field "decode::visualizer_error" "decode" SevError
                     ("instruction " +:+ show_nat e.1 +:+ ": " +:+ show_error e.2)
                     (Some (index_u32 e.1)))) <$> dr_errors r)
  ++ (signable_payload_field <$> dr_diagnostics r).

Definition create_idl_registry (options : VisualSignOptions) : result VisualSignError IdlRegistry :=
  create_idl_registry_from_options parse_json show_hex env options.

(** The instruction fields, and what [append_diagnostics] adds after the accounts. *)
Definition convert_to_visual_sign_payload (tx : SolanaTransaction) (decode_transfers : bool)
    (title : option string) (options : VisualSignOptions) (lint_config : LintConfig)
    : result VisualSignError SignablePayload :=
  idl_registry ← create_idl_registry options;
  let fields := [text_v2 "Network" "Solana"] in
  fields ← (if decode_transfers then
              transfers ← decode_transfers_legacy tx;
              Ok (fields ++ (signable_payload_field <$> transfers))
            else Ok fields);
  let decode_result := decode_instructions available tx idl_registry lint_config in
  fields ← (if diagnostics then Ok (fields ++ (signable_payload_field <$> dr_fields decode_result))
            else
              decoded ← decode_instructions_or_fail available tx idl_registry;
              Ok (fields ++ (signable_payload_field <$> decoded)));
  let accounts := decode_accounts show_pubkey (tx_message tx) in
  let fields := fields ++ [create_accounts_advanced_preview_layout "Accounts" accounts] in
  let fields := if diagnostics then append_diagnostics fields decode_result else fields in
  Ok (SignablePayload_new 0 (default "Solana Transaction" title) None fields "SolanaTx").

Definition convert_v0_to_visual_sign_payload (tx : VersionedTransaction) (m : V0Message)
    (decode_transfers : bool) (title : option string) (options : VisualSignOptions)
    (lint_config : LintConfig) : result VisualSignError SignablePayload :=
  idl_registry ← create_idl_registry options;
  let accounts := decode_v0_accounts show_pubkey m in
  let fields := [text_v2 "Network" "Solana (V0)"] in
  let fields :=
    if decide (address_table_lookups m ≠ []) then fields ++ [create_address_lookup_table_field m]
    else fields in
  let v0_result := decode_v0_instructions available m idl_registry lint_config in
  let fields :=
    if diagnostics then fields ++ (signable_payload_field <$> dr_fields v0_result)
    else
      match decode_v0_instructions_or_fail available m idl_registry with
      | Ok v0_fields => fields ++ (signable_payload_field <$> v0_fields)
      | Err e => fields ++ [text_v2 "Instruction Decoding Note"
                              ("Instruction decoding failed: " +:+ show_error e)]
      end in
  let fields :=
    if decode_transfers then
      match decode_v0_transfers tx with
      | Ok transfers => fields ++ (signable_payload_field <$> transfers)
      | Err e => fields ++ [text_v2 "Transfer Decoding Note"
                              ("Transfer decoding failed: " +:+ show_error e)]
      end
    else fields in
  let fields := fields ++ [create_accounts_advanced_preview_layout "Accounts" accounts] in
  let fields := if diagnostics then append_diagnostics fields v0_result else fields in
  Ok (SignablePayload_new 0 (default "Solana V0 Transaction" title) None fields "SolanaTx").

Definition convert_versioned_to_visual_sign_payload (tx : VersionedTransaction)
    (decode_transfers : bool) (title : option string) (options : VisualSignOptions)
    (lint_config : LintConfig) : result VisualSignError SignablePayload :=
  match vtx_message tx with
  | MessageLegacy legacy_message =>
      convert_to_visual_sign_payload (MkSolanaTransaction (vtx_signatures tx) legacy_message)
        decode_transfers title options lint_config
  | MessageV0 v0_message =>
      convert_v0_to_visual_sign_payload tx v0_message decode_transfers title options lint_config
  end.

(** ** The intermediate output *)

Definition extract_raw_simulated_instructions (options : VisualSignOptions)
    (idl_registry : IdlRegistry)
    : option (list SolanaSimulatedInstruction * option SolanaSimulationError) :=
  solana ← solana_metadata options;
  raw_json_b64 ← simulated_transaction_result solana;
  match b64_decode raw_json_b64 with
  | Err _ => Some ([], Some InvalidBase64)
  | Ok raw_json =>
      Some (parse_and_decode_simulated_instructions include_str bs58_decode response_from_slice
              raw_json idl_registry)
  end.

Definition attach_simulation
    (raw : option (list SolanaSimulatedInstruction * option SolanaSimulationError))
    (o : SolanaIntermediateOutput) : SolanaIntermediateOutput :=
  match raw with
  | Some (sims, err) =>
      MkIntermediateOutput (schema_version o) (io_account_keys o) (io_program_keys o)
        (io_instructions o) (io_transfers o) (io_spl_transfers o) (io_recent_blockhash o)
        (io_address_table_lookups o) sims err
  | None => o
  end.

Definition build_intermediate_bytes (message_hex : string) (idl_registry : IdlRegistry)
    (raw : option (list SolanaSimulatedInstruction * option SolanaSimulationError)) : option bytes :=
  match extract_solana_intermediate_output include_str message_hex false idl_registry with
  | Ok output =>
      match to_vec (attach_simulation raw output) with
      | Ok bs => Some bs
      | Err _ => None
      end
  | Err _ => None
  end.

(** ** The converter *)

Definition message_hex (w : SolanaTransactionWrapper) : string :=
  match w with
  | WrapLegacy tx => hex_encode (serialize_message (tx_message tx))
  | WrapVersioned tx => hex_encode (serialize_versioned_message (vtx_message tx))
  end.

Definition sol_to_visual_sign_payload (w : SolanaTransactionWrapper) (options : VisualSignOptions)
    : result VisualSignError ConversionResult :=
  let lint_config := LintConfig_default in
  payload ←
    match w with
    | WrapLegacy tx =>
        convert_to_visual_sign_payload tx (decode_transfers options) (transaction_name options)
          options lint_config
    | WrapVersioned tx =>
        convert_versioned_to_visual_sign_payload tx (decode_transfers options)
          (transaction_name options) options lint_config
    end;
  if negb (include_intermediate_output options) then Ok (ConversionResult_new payload)
  else
    idl_registry ← create_idl_registry options;
    let raw := extract_raw_simulated_instructions options idl_registry in
    Ok (match build_intermediate_bytes (message_hex w) idl_registry raw with
        | Some bs => ConversionResult_with_intermediate payload bs
        | None => ConversionResult_new payload
        end).

Definition SolanaVisualSignConverter : converter SolanaTransactionWrapper :=
  default_converter sol_from_string sol_to_visual_sign_payload.

Definition transaction_to_visual_sign (tx : SolanaTransaction) (options : VisualSignOptions)
    : result VisualSignError SignablePayload :=
  payload <$> sol_to_visual_sign_payload (new_legacy tx) options.

Definition versioned_transaction_to_visual_sign (tx : VersionedTransaction)
    (options : VisualSignOptions) : result VisualSignError SignablePayload :=
  payload <$> sol_to_visual_sign_payload (new_versioned tx) options.

Definition transaction_string_to_visual_sign (transaction_data : string)
    (options : VisualSignOptions) : result VisualSignError SignablePayload :=
  payload <$> to_visual_sign_payload_from_string _ SolanaVisualSignConverter transaction_data options.
End convert.

(** ** The loops *)

Section loops.
Context {K : SolanaSdk} {P : SolanaIdls} (available : IdlRegistry → list InstructionVisualizer).

(** The field of an instruction that is shown, and the error of one that is not. *)
Definition shown_field (r : IdlRegistry) (keys : list Pubkey) (e : nat * CompiledInstruction)
    : option AnnotatedPayloadField :=
  match visualize_instruction available r keys e.1 e.2 with
  | Some (Ok v) => Some (vr_field v)
  | _ => None
  end.

Definition decode_error (r : IdlRegistry) (keys : list Pubkey) (e : nat * CompiledInstruction)
    : option (nat * VisualSignError) :=
  match visualize_instruction available r keys e.1 e.2 with
  | Some (Ok _) => None
  | Some (Err err) => Some (e.1, err)
  | None => Some (e.1, no_visualizer e.1)
  end.

Lemma decode_loop r keys l fs es :
  foldl (decode_step available r keys) (fs, es) l =
    (fs ++ omap (shown_field r keys) l, es ++ omap (decode_error r keys) l).
Proof.
  revert fs es. induction l as [|[i ci] l IH]; intros fs es; cbn [foldl]; [by rewrite !app_nil_r|].
  unfold decode_step at 2. cbn [omap list_omap].
  unfold shown_field at 1, decode_error at 1. cbn [fst snd].
  destruct (visualize_instruction available r keys i ci) as [[v|err]|];
    rewrite IH; by rewrite <-?app_assoc.
Qed.

Lemma outcomes_length r keys l :
  length (omap (shown_field r keys) l) + length (omap (decode_error r keys) l) = length l.
Proof.
  induction l as [|e l IH]; [done|]. cbn [omap list_omap]. unfold shown_field at 1, decode_error at 1.
  destruct (visualize_instruction available r keys e.1 e.2) as [[v|err]|]; cbn; lia.
Qed.

(** The build without diagnostics shows every instruction or fails, and fails only for want of
    keys or because of an instruction. *)
Lemma decode_or_fail_Ok empty keys instrs r fs :
  decode_or_fail available empty keys instrs r = Ok fs →
  keys ≠ [] ∧ Forall2 (fun e f => shown_field r keys e = Some f) (enumerate instrs) fs.
Proof.
  unfold decode_or_fail. case_decide; [done|]. intros Hfs%collect_results_Ok. split; [done|].
  eapply Forall2_impl; [exact Hfs|]. intros e f. unfold shown_field. cbn.
  destruct (visualize_instruction _ _ _ _ _) as [[v|]|]; [congruence|done|done].
Qed.

Lemma decode_or_fail_Err empty keys instrs r err :
  decode_or_fail available empty keys instrs r = Err err →
  keys = [] ∨ ∃ e, e ∈ enumerate instrs ∧ shown_field r keys e = None.
Proof.
  unfold decode_or_fail. case_decide; [by left|]. intros Herr. right. revert err Herr.
  induction (enumerate instrs) as [|e l IH]; intros err; [done|]. cbn [collect_results].
  destruct (shown_field r keys e) as [f|] eqn:He; [|by exists e; split; [left|]].
  unfold shown_field in He.
  destruct (visualize_instruction _ _ _ _ _) as [[v|]|]; try done. cbn [mbind result_bind].
  destruct (collect_results _ l) as [ys|err'] eqn:Hl; [done|]. cbn. intros [= <-].
  destruct (IH _ eq_refl) as (e' & ? & ?). exists e'. split; [by right|done].
Qed.
End loops.

(** The diagnostics of one instruction. *)
Definition scan_one (pid_severity acct_severity : Severity) (nkeys : nat)
    (e : nat * CompiledInstruction) : list AnnotatedPayloadField :=
  (if decide (nkeys ≤ program_id_index e.2)
   then push_unless_allowed pid_severity (oob_program_field pid_severity nkeys e.1 e.2) [] else [])
  ++ (if decide (oob_accounts nkeys e.2 ≠ [])
      then push_unless_allowed acct_severity (oob_account_field acct_severity nkeys e.1 e.2) [] else []).

Lemma push_unless_allowed_app s f l : push_unless_allowed s f l = l ++ push_unless_allowed s f [].
Proof. destruct s; cbn; by rewrite ?app_nil_r. Qed.

Lemma scan_loop ps sa nkeys l d a b :
  foldl (scan_step ps sa nkeys) (d, a, b) l =
    (d ++ concat (scan_one ps sa nkeys <$> l),
     a + length (filter (fun e => nkeys ≤ program_id_index e.2) l),
     b + length (filter (fun e => oob_accounts nkeys e.2 ≠ []) l)).
Proof.
  revert d a b. induction l as [|[i ci] l IH]; intros d a b; cbn [foldl].
  { cbn. by rewrite app_nil_r, !Nat.add_0_r. }
  unfold scan_step at 2. rewrite fmap_cons. cbn [concat]. rewrite !filter_cons. cbn [snd].
  unfold scan_one at 1. cbn [fst snd].
  destruct (decide (nkeys ≤ program_id_index ci)), (decide (oob_accounts nkeys ci ≠ []));
    rewrite IH; cbn [length];
    rewrite ?(push_unless_allowed_app _ _ d), ?(push_unless_allowed_app _ _ (d ++ _)),
      ?app_nil_r, ?app_nil_l, <-?app_assoc, ?Nat.add_succ_r, ?Nat.add_succ_l; done.
Qed.

(** ** Where the accounts are *)

Definition is_diagnostic (f : SignablePayloadField) : bool :=
  match f with Diagnostic _ _ => true | _ => false end.

(** The last field that is not a diagnostic. *)
Definition last_shown (l : list SignablePayloadField) : option SignablePayloadField :=
  last (filter (fun f => is_diagnostic f = false) l).

Lemma last_shown_app pre f post :
  is_diagnostic f = false → Forall (fun g => is_diagnostic g = true) post →
  last_shown (pre ++ f :: post) = Some f.
Proof.
  intros Hf Hpost. unfold last_shown. rewrite filter_app, filter_cons_True by done.
  rewrite (list_filter_none _ post); [by rewrite last_snoc|].
  intros g Hg. rewrite Forall_forall in Hpost. by rewrite (Hpost g Hg).
Qed.

Lemma diagnostic_field_is rule domain level msg i :
  is_diagnostic (signable_payload_field (create_diagnostic_field rule domain level msg i)) = true.
Proof. done. Qed.

Lemma push_unless_allowed_Forall (Q : AnnotatedPayloadField → Prop) s f l :
  Q f → Forall Q l → Forall Q (push_unless_allowed s f l).
Proof. destruct s; cbn; intros; rewrite ?Forall_app; auto. Qed.

Lemma scan_diagnostics c instrs keys :
  Forall (fun a => is_diagnostic (signable_payload_field a) = true)
    (scan_instruction_diagnostics c instrs keys).
Proof.
  unfold scan_instruction_diagnostics. rewrite scan_loop. rewrite !Forall_app. split_and!.
  - apply Forall_nil_2.
  - apply Forall_concat, Forall_fmap, Forall_true. intros [i ci]. unfold scan_one. cbn.
    apply Forall_app. split; case_decide; try constructor;
      apply push_unless_allowed_Forall; done || constructor.
  - case_match; by repeat constructor.
  - case_match; by repeat constructor.
Qed.

Lemma none_counted {A} (Q : A → Prop) `{!∀ e : nat * A, Decision (Q e.2)} (l : list A) :
  length (filter (fun e => Q e.2) (enumerate l)) = 0 ↔ Forall (fun x => ~ Q x) l.
Proof.
  rewrite length_zero_iff_nil, Forall_lookup. unfold enumerate. split.
  - intros Hnil i x Hi Hq. apply (not_elem_of_nil (i, x)). rewrite <-Hnil.
    apply list_elem_of_filter. split; [done|]. apply list_elem_of_lookup. exists i.
    by rewrite list_lookup_imap, Hi.
  - intros Hn. apply list_filter_none. intros [i x] (j & y & [= -> ->] & Hj)%elem_of_lookup_imap_1.
    by apply (Hn j).
Qed.

Lemma if_bool_decide {A} (P Q : Prop) `{!Decision P, !Decision Q} (x y : A) :
  (P ↔ Q) → (if bool_decide P then x else y) = (if decide Q then x else y).
Proof. intros HPQ. case_bool_decide; case_decide; tauto. Qed.

(** The scan reports every index that is out of range and nothing else: for every instruction, in
    order, a warning when its program index is not below the number of keys and a warning that lists
    its account indices that are not; then, for each of the two rules no instruction broke, one line
    that says so. *)
Theorem scan_exact instrs keys :
  let n := length keys in
  scan_instruction_diagnostics LintConfig_default instrs keys =
    concat (imap (fun i ci =>
      (if decide (n ≤ program_id_index ci) then [oob_program_field SevWarn n i ci] else [])
      ++ (if decide (Exists (fun idx => n ≤ idx) (ci_accounts ci))
          then [oob_account_field SevWarn n i ci] else [])) instrs)
    ++ (if decide (Forall (fun ci => program_id_index ci < n) instrs)
        then [ok_field "transaction::oob_program_id" "program_id_index" (length instrs)] else [])
    ++ (if decide (Forall (fun ci => Forall (fun idx => idx < n) (ci_accounts ci)) instrs)
        then [ok_field "transaction::oob_account_index" "account indices" (length instrs)] else []).
Proof.
  cbv zeta. unfold scan_instruction_diagnostics. rewrite scan_loop. rewrite !Nat.add_0_l, app_nil_l.
  change (severity_for LintConfig_default _ SevWarn) with SevWarn.
  change (should_report_ok LintConfig_default _) with true. rewrite !andb_true_r.
  assert (∀ ci, oob_accounts (length keys) ci ≠ [] ↔
                Exists (fun idx => length keys ≤ idx) (ci_accounts ci)) as Hoob.
  { intros ci. unfold oob_accounts. rewrite Exists_exists. split.
    - intros Hne. destruct (filter _ _) as [|x l] eqn:E; [done|]. exists x.
      assert (x ∈ filter (fun idx => length keys ≤ idx) (ci_accounts ci)) as [??]%list_elem_of_filter
        by (rewrite E; left). done.
    - intros (x & Hx & Hle) Hnil. apply (not_elem_of_nil x). rewrite <-Hnil.
      by apply list_elem_of_filter. }
  f_equal; [|f_equal].
  - unfold enumerate. rewrite fmap_imap. f_equal. apply imap_ext. intros i ci _. cbn.
    unfold scan_one. cbn [fst snd push_unless_allowed app]. f_equal.
    destruct (decide (oob_accounts _ ci ≠ [])), (decide (Exists _ _)); try done; naive_solver.
  - apply if_bool_decide. etransitivity;
      [apply (none_counted (fun ci => length keys ≤ program_id_index ci))|].
    apply Forall_iff. intros ci. lia.
  - apply if_bool_decide. etransitivity;
      [apply (none_counted (fun ci => oob_accounts (length keys) ci ≠ []))|].
    apply Forall_iff. intros ci. rewrite Hoob.
    rewrite <-Forall_Exists_neg. apply Forall_iff. intros idx. lia.
Qed.

Section accounts_last.
Context {K : SolanaSdk} {P : SolanaIdls} (available : IdlRegistry → list InstructionVisualizer).

Lemma decode_diagnostics_all empty keys instrs r c :
  Forall (fun a => is_diagnostic (signable_payload_field a) = true)
    (dr_diagnostics (decode_with_diagnostics available empty keys instrs r c)).
Proof.
  unfold decode_with_diagnostics. case_decide.
  - cbn [dr_diagnostics]. apply push_unless_allowed_Forall; [done|constructor].
  - destruct (foldl _ _ _). apply scan_diagnostics.
Qed.

Lemma append_diagnostics_all pre f dr :
  is_diagnostic f = false →
  Forall (fun a => is_diagnostic (signable_payload_field a) = true) (dr_diagnostics dr) →
  last_shown (append_diagnostics (pre ++ [f]) dr) = Some f.
Proof.
  intros Hf Hd. unfold append_diagnostics. rewrite <-(app_assoc pre [f]). cbn [app].
  apply last_shown_app; [done|]. apply Forall_app. rewrite !Forall_fmap. split; [|done].
  by apply Forall_true.
Qed.

Lemma last_shown_snoc pre f : is_diagnostic f = false → last_shown (pre ++ [f]) = Some f.
Proof. intros Hf. by apply last_shown_app. Qed.
End accounts_last.

(** ** The version of the schema *)

Lemma output_head (o : SolanaIntermediateOutput) bs :
  to_vec o = Ok bs → take 2 bs = le_bytes 2 (schema_version o).
Proof.
  unfold to_vec. cbn [serialize borsh_intermediate_output borsh_iso borsh_pair fst snd].
  intros (a & Ha & (b & _ & Hb)%result_bind_Ok)%result_bind_Ok.
  assert (a = le_bytes 2 (schema_version o)) as ->.
  { change (Ok (E:=io_error) (le_bytes 2 (schema_version o)) = Ok a) in Ha. congruence. }
  assert (bs = le_bytes 2 (schema_version o) ++ b) as -> by congruence.
  apply take_app_length'. by rewrite length_le_bytes.
Qed.

Lemma attach_version raw o : schema_version (attach_simulation raw o) = schema_version o.
Proof. by destruct raw as [[]|]. Qed.

Lemma extract_version {M : SerdeMap} {F : JsonFormat} {P : SolanaIdls} {SP : SolanaParser}
    include_str hex full r o :
  extract_solana_intermediate_output include_str hex full r = Ok o →
  schema_version o = SOLANA_INTERMEDIATE_SCHEMA_VERSION.
Proof.
  unfold extract_solana_intermediate_output.
  intros (cr & _ & (resp & _ & (md & _ & Ho)%result_bind_Ok)%result_bind_Ok)%result_bind_Ok.
  by assert (o = build_intermediate_output md (get_all_configs r)) as -> by congruence.
Qed.

(** ** Properties *)

(** The parts of a transaction, whatever its form. *)
Definition wrapper_header (w : SolanaTransactionWrapper) : MessageHeader :=
  match w with
  | WrapLegacy tx => header (tx_message tx)
  | WrapVersioned tx =>
      match vtx_message tx with MessageLegacy m => header m | MessageV0 m => v0_header m end
  end.

Definition wrapper_keys (w : SolanaTransactionWrapper) : list Pubkey :=
  match w with
  | WrapLegacy tx => message_keys (tx_message tx)
  | WrapVersioned tx =>
      match vtx_message tx with MessageLegacy m => message_keys m | MessageV0 m => v0_keys m end
  end.

Definition wrapper_instructions (w : SolanaTransactionWrapper) : list CompiledInstruction :=
  match w with
  | WrapLegacy tx => instructions (tx_message tx)
  | WrapVersioned tx =>
      match vtx_message tx with MessageLegacy m => instructions m | MessageV0 m => v0_instructions m end
  end.

Definition wrapper_network (w : SolanaTransactionWrapper) : string :=
  if decide (transaction_type w = "Solana (V0)") then "Solana (V0)" else "Solana".

Definition wrapper_empty (w : SolanaTransactionWrapper) : string :=
  if decide (transaction_type w = "Solana (V0)") then v0_empty else legacy_empty.

Section properties.
Context {M : SerdeMap} {F : JsonFormat} {D : JsonErrorText}.
Context {S : Sha256} {H : HexCodec} {Ed : Ed25519}.
Context {K : SolanaSdk} {P : SolanaIdls} {SP : SolanaParser} {W : SolanaWire}.
Context (available : IdlRegistry → list InstructionVisualizer).
Context (parse_json : string → option json)
  (response_from_slice : bytes → option RpcSimulateTransactionResult)
  (b64_decode : string → result string bytes) (bs58_decode : string → option bytes)
  (include_str debug_str : string → string) (show_hex : FromHexError → string).
Context (env : string → option string) (diagnostics : bool).

Local Abbreviation to_payload :=
  (sol_to_visual_sign_payload available parse_json response_from_slice b64_decode bs58_decode
     include_str debug_str show_hex env diagnostics).
Local Abbreviation registry_of := (create_idl_registry parse_json show_hex env).

(** The payload before the intermediate output is considered. *)
Definition wrapper_payload (w : SolanaTransactionWrapper) (options : VisualSignOptions)
    : result VisualSignError SignablePayload :=
  match w with
  | WrapLegacy tx =>
      convert_to_visual_sign_payload available parse_json debug_str show_hex env diagnostics tx
        (decode_transfers options) (transaction_name options) options LintConfig_default
  | WrapVersioned tx =>
      convert_versioned_to_visual_sign_payload available parse_json include_str debug_str show_hex
        env diagnostics tx (decode_transfers options) (transaction_name options) options
        LintConfig_default
  end.

Lemma to_payload_Ok w options res :
  to_payload w options = Ok res → wrapper_payload w options = Ok (payload res).
Proof.
  unfold sol_to_visual_sign_payload. intros (p & Hp & Hres)%result_bind_Ok.
  assert (wrapper_payload w options = Ok p) as -> by exact Hp. clear Hp.
  destruct (include_intermediate_output options); [|by injection Hres as <-].
  apply result_bind_Ok in Hres as (r & _ & Hres).
  destruct (build_intermediate_bytes _ _ _ _); by injection Hres as <-.
Qed.

(** The decode of the instructions in the build with diagnostics. *)
Definition wrapper_decode (w : SolanaTransactionWrapper) (r : IdlRegistry) : DecodeInstructionsResult :=
  decode_with_diagnostics available (wrapper_empty w) (wrapper_keys w) (wrapper_instructions w) r
    LintConfig_default.

(** What stands in place of the instructions of a V0 transaction one of which fails, in the build
    without diagnostics. *)
Definition decoding_note (e : VisualSignError) : SignablePayloadField :=
  text_v2 "Instruction Decoding Note" ("Instruction decoding failed: " +:+ show_error e).

(** The part of a payload that is about the instructions, in both builds. *)
Definition instructions_part (w : SolanaTransactionWrapper) (r : IdlRegistry)
    (shown : list SignablePayloadField) : Prop :=
  if diagnostics then shown = signable_payload_field <$> dr_fields (wrapper_decode w r)
  else match decode_or_fail available (wrapper_empty w) (wrapper_keys w) (wrapper_instructions w) r with
       | Ok fs => shown = signable_payload_field <$> fs
       | Err e => transaction_type w = "Solana (V0)" ∧ shown = [decoding_note e]
       end.

(** What a payload holds: the network first, then the accounts as the last field that is not a
    diagnostic, and between them the fields of the instructions, in order; the other fields are
    not labelled as instructions. *)
Definition shaped (w : SolanaTransactionWrapper) (options : VisualSignOptions) (p : SignablePayload)
    : Prop :=
  ∃ r before mid shown, registry_of options = Ok r ∧
    instructions_part w r shown ∧
    Forall (fun f => call_label f = false) (before ++ mid) ∧
    let fields := text_v2 "Network" (wrapper_network w) :: before ++ shown ++ mid
                  ++ [accounts_field show_pubkey (wrapper_header w) (wrapper_keys w)] in
    payload_fields p =
      if diagnostics then append_diagnostics fields (wrapper_decode w r) else fields.

Lemma legacy_shape w tx options p :
  wrapper_keys w = message_keys (tx_message tx) → wrapper_header w = header (tx_message tx) →
  wrapper_instructions w = instructions (tx_message tx) →
  transaction_type w = "Solana (Legacy)" →
  convert_to_visual_sign_payload available parse_json debug_str show_hex env diagnostics tx
    (decode_transfers options) (transaction_name options) options LintConfig_default = Ok p →
  shaped w options p.
Proof.
  intros Hk Hh Hi Ht.
  unfold shaped, instructions_part, wrapper_decode, wrapper_network, wrapper_empty.
  rewrite Hk, Hh, Hi, Ht. rewrite !decide_False by done. unfold convert_to_visual_sign_payload.
  intros (r & Hr & (fields & Htr & (fields' & Hins & Hp)%result_bind_Ok)%result_bind_Ok)%result_bind_Ok.
  assert (∃ before, fields = text_v2 "Network" "Solana" :: before ∧
    Forall (fun f => call_label f = false) before) as (before & -> & Hb).
  { destruct (decode_transfers options); [|injection Htr as <-; by exists []].
    apply result_bind_Ok in Htr as (ts & Hts & [= <-]). eexists. split; [reflexivity|].
    apply result_bind_Ok in Hts as (md & _ & Hts). apply (inj Ok) in Hts as <-.
    apply transfer_fields_label. }
  assert (∃ shown, fields' = (text_v2 "Network" "Solana" :: before) ++ shown ∧
    if diagnostics then shown = signable_payload_field <$> dr_fields
       (decode_instructions available tx r LintConfig_default)
    else ∃ fs, decode_instructions_or_fail available tx r = Ok fs ∧
         shown = signable_payload_field <$> fs) as (shown & -> & Hsh).
  { destruct diagnostics.
    - injection Hins as <-. by eexists.
    - apply result_bind_Ok in Hins as (fs & Hfs & [= <-]). eauto. }
  unfold decode_instructions, decode_instructions_or_fail in Hsh.
  exists r, before, [], shown. split_and!; [done| |by rewrite app_nil_r|].
  { destruct diagnostics; [done|]. destruct Hsh as (fs & Hfs & ->). by rewrite Hfs. }
  apply (f_equal (fun m => match m with Ok q => payload_fields q | Err _ => [] end)) in Hp.
  cbn [payload_fields SignablePayload_new] in Hp. rewrite <-Hp. cbn [app].
  by rewrite <-app_assoc.
Qed.

Lemma v0_transfers_label tx ts :
  decode_v0_transfers include_str debug_str tx = Ok ts →
  Forall (fun f => call_label f = false) (signable_payload_field <$> ts).
Proof.
  unfold decode_v0_transfers. intros (md & _ & Hts)%result_bind_Ok.
  apply result_bind_Ok in Hts as (parsed & _ & Hts).
  apply (inj Ok) in Hts as <-. apply transfer_fields_label.
Qed.

Lemma v0_shape w tx m options p :
  wrapper_keys w = v0_keys m → wrapper_header w = v0_header m →
  wrapper_instructions w = v0_instructions m → transaction_type w = "Solana (V0)" →
  convert_v0_to_visual_sign_payload available parse_json include_str debug_str show_hex env
    diagnostics tx m (decode_transfers options) (transaction_name options) options
    LintConfig_default = Ok p →
  shaped w options p.
Proof.
  intros Hk Hh Hi Ht.
  unfold shaped, instructions_part, wrapper_decode, wrapper_network, wrapper_empty.
  rewrite Hk, Hh, Hi, Ht. rewrite !decide_True by done. unfold convert_v0_to_visual_sign_payload.
  intros (r & Hr & Hp)%result_bind_Ok.
  apply (f_equal (fun m => match m with Ok q => payload_fields q | Err _ => [] end)) in Hp.
  cbn [payload_fields SignablePayload_new] in Hp. rewrite <-Hp.
  set (net := text_v2 "Network" "Solana (V0)").
  set (tables := if decide (address_table_lookups m ≠ []) then [create_address_lookup_table_field m]
                 else []).
  set (mid := if decode_transfers options then
                match decode_v0_transfers include_str debug_str tx with
                | Ok transfers => signable_payload_field <$> transfers
                | Err e => [text_v2 "Transfer Decoding Note"
                              ("Transfer decoding failed: " +:+ show_error e)]
                end
              else []).
  set (shown := if diagnostics then signable_payload_field <$> dr_fields
                  (decode_v0_instructions available m r LintConfig_default)
                else match decode_v0_instructions_or_fail available m r with
                     | Ok fs => signable_payload_field <$> fs
                     | Err e => [text_v2 "Instruction Decoding Note"
                                   ("Instruction decoding failed: " +:+ show_error e)]
                     end).
  exists r, tables, mid, shown. split_and!; [done| | |].
  { unfold shown, decode_v0_instructions, decode_v0_instructions_or_fail.
    destruct diagnostics; [done|]. by destruct (decode_or_fail _ _ _ _ _). }
  { apply Forall_app. unfold tables, mid. split; [case_decide; by repeat constructor|].
    destruct (decode_transfers options); [|constructor].
    destruct (decode_v0_transfers include_str debug_str tx) as [ts|e] eqn:Hts;
      [|by repeat constructor].
    by apply v0_transfers_label in Hts. }
  match goal with |- (if diagnostics then append_diagnostics ?l _ else _) = _ =>
    assert (l = net :: tables ++ shown ++ mid ++ [accounts_field show_pubkey (v0_header m) (v0_keys m)])
      as Hl end; [|by rewrite Hl].
  unfold tables, shown, mid. case_decide; destruct diagnostics, (decode_transfers options);
    repeat case_match; cbn [app]; by rewrite <-?app_assoc, ?app_nil_r.
Qed.

Lemma payload_shape w options p : wrapper_payload w options = Ok p → shaped w options p.
Proof.
  destruct w as [tx|tx]; cbn [wrapper_payload]; [by apply legacy_shape|].
  unfold convert_versioned_to_visual_sign_payload.
  destruct (vtx_message tx) as [m|m] eqn:Hm; [apply legacy_shape|apply v0_shape];
    unfold wrapper_keys, wrapper_header, wrapper_instructions, transaction_type; by rewrite Hm.
Qed.

(** In the build with diagnostics every instruction of a transaction is accounted for. The payload
    names the network first; then, among others, it has the field of every instruction a visualizer
    could show, in the order of the transaction; then the accounts; then an error diagnostic with
    the index and the error of every other instruction; then the findings of the scan. The two
    groups of instructions are disjoint and together are all of them. *)
Theorem solana_instructions_accounted w options res :
  diagnostics = true → wrapper_keys w ≠ [] → to_payload w options = Ok res →
  ∃ r before mid,
    registry_of options = Ok r ∧
    let keys := wrapper_keys w in
    let numbered := enumerate (wrapper_instructions w) in
    let shown := omap (shown_field available r keys) numbered in
    let failed := omap (decode_error available r keys) numbered in
    payload_fields (payload res) =
      text_v2 "Network" (wrapper_network w) :: before ++ (signable_payload_field <$> shown) ++ mid
      ++ [accounts_field show_pubkey (wrapper_header w) keys]
      ++ ((fun e => signable_payload_field
              (create_diagnostic_field "decode::visualizer_error" "decode" SevError
                 ("instruction " +:+ show_nat e.1 +:+ ": " +:+ show_error e.2)
                 (Some (index_u32 e.1)))) <$> failed)
      ++ (signable_payload_field <$>
            scan_instruction_diagnostics LintConfig_default (wrapper_instructions w) keys) ∧
    length shown + length failed = length (wrapper_instructions w).
Proof.
  intros Hd Hk Hres%to_payload_Ok.
  destruct (payload_shape w options _ Hres) as (r & before & mid & shown & Hr & Hs & _ & Hf).
  unfold instructions_part in Hs. rewrite Hd in Hs, Hf. rewrite Hs in Hf. exists r, before, mid. split; [done|]. cbv zeta. split.
  - rewrite Hf. unfold append_diagnostics, wrapper_decode, decode_with_diagnostics.
    rewrite !decide_False by done. rewrite decode_loop. cbn [dr_fields dr_errors dr_diagnostics app].
    by rewrite <-!app_assoc.
  - rewrite outcomes_length. unfold enumerate. by rewrite length_imap.
Qed.

Lemma alnum_no_comma s : str_all is_ascii_alphanumeric s = true → no_comma s = true.
Proof. apply str_all_impl. intros c. by ascii_cases c. Qed.

Lemma payload_accounts w options res :
  to_payload w options = Ok res →
  last_shown (payload_fields (payload res)) =
    Some (accounts_field show_pubkey (wrapper_header w) (wrapper_keys w)).
Proof.
  intros Hres%to_payload_Ok.
  destruct (payload_shape w options _ Hres) as (r & before & mid & shown & _ & _ & _ & ->).
  rewrite (app_assoc shown), (app_assoc before), app_comm_cons.
  destruct diagnostics; [|by apply last_shown_snoc].
  apply append_diagnostics_all; [done|]. apply decode_diagnostics_all.
Qed.

(** C40: What is signed determines the accounts. Two transactions, of whatever form, with the same
    payload have the same account keys in the same order, and every key is a signer, and writable,
    in both or in neither. *)
Theorem solana_payload_determines w w' options options' res res' :
  Forall (fun k => length k = 32) (wrapper_keys w ++ wrapper_keys w') →
  to_payload w options = Ok res → to_payload w' options' = Ok res' →
  payload_fields (payload res) = payload_fields (payload res') →
  same_accounts (wrapper_header w) (wrapper_header w') (wrapper_keys w) (wrapper_keys w').
Proof.
  intros Hlen Hres%payload_accounts Hres'%payload_accounts Heq.
  rewrite Heq, Hres' in Hres. apply (inj Some) in Hres.
  apply (accounts_field_inj show_pubkey); [| |done].
  - eapply Forall_impl; [exact Hlen|]. intros k Hk. by apply alnum_no_comma, show_pubkey_alnum.
  - intros k k' Hin Hin' Hs. rewrite Forall_forall in Hlen.
    assert (pubkey_from_str (show_pubkey k) = Some k) as E.
    { apply pubkey_from_show, Hlen, elem_of_app. by left. }
    rewrite Hs, pubkey_from_show in E by (apply Hlen, elem_of_app; by right). congruence.
Qed.

(** C20: Intermediate output is opt-in and readable. Without the option there is none; with it the
    payload is the one of the conversion without it. The bytes are the Borsh form of the decode of
    the message with the simulation of the request attached: they begin with the version of the
    schema, and read back as that value. *)
Theorem intermediate_output_sound w options res :
  to_payload w options = Ok res →
  (include_intermediate_output options = false → intermediate_output res = None) ∧
  to_payload w (MkOptions (decode_transfers options) (transaction_name options) (metadata options)
                  (developer_config options) false) = Ok (ConversionResult_new (payload res)) ∧
  ∀ bs, intermediate_output res = Some bs →
    ∃ r o, registry_of options = Ok r ∧
      extract_solana_intermediate_output include_str (message_hex w) false r = Ok o ∧
      let o := attach_simulation
                 (extract_raw_simulated_instructions response_from_slice b64_decode bs58_decode
                    include_str options r) o in
      to_vec o = Ok bs ∧ take 2 bs = [Byte.x02; Byte.x00] ∧
      (borsh_wf o → try_from_slice bs = Ok o).
Proof.
  assert (∀ a b : ConversionResult, Ok (E:=VisualSignError) a = Ok b →
            intermediate_output a = intermediate_output b) as Hio by (intros; congruence).
  intros Hres. pose proof (to_payload_Ok w options res Hres) as Hp.
  unfold sol_to_visual_sign_payload in Hres. apply result_bind_Ok in Hres as (p & Hp' & Hres).
  assert (wrapper_payload w options = Ok p) as Hp'' by exact Hp'. clear Hp'.
  assert (p = payload res) as -> by congruence. clear Hp''.
  split_and!.
  - intros Hi. rewrite Hi in Hres. by apply Hio in Hres.
  - unfold sol_to_visual_sign_payload. cbn [include_intermediate_output negb].
    change (match w with WrapLegacy _ => _ | WrapVersioned _ => _ end) with (wrapper_payload w options).
    by rewrite Hp.
  - intros bs Hbs. destruct (include_intermediate_output options); [|apply Hio in Hres; cbn in Hres; congruence].
    cbn [negb] in Hres. apply result_bind_Ok in Hres as (r & Hr & Hres).
    destruct (build_intermediate_bytes _ _ _ _) as [bs'|] eqn:Hb.
    2: { apply Hio in Hres. cbn in Hres. congruence. }
    apply Hio in Hres. cbn in Hres. assert (bs' = bs) as -> by congruence. clear Hres Hbs.
    unfold build_intermediate_bytes in Hb.
    destruct (extract_solana_intermediate_output _ _ _ _) as [o|] eqn:Ho; [|done].
    destruct (to_vec _) as [bs'|] eqn:Hv; [|done]. apply (inj Some) in Hb as ->.
    exists r, o. split; [done|]. split; [done|]. cbv zeta. split; [done|]. split.
    + rewrite (output_head _ _ Hv), attach_version. apply extract_version in Ho as ->. reflexivity.
    + intros Hwf. by apply try_from_slice_to_vec.
Qed.

Local Abbreviation parse := (sol_from_string b64_decode show_hex).

(** Reading an input is exact. The input is the hex or base64 text of some bytes, as its detected
    encoding says; the bytes are a versioned transaction or, failing that, a legacy one. An input is
    refused as an unsupported version exactly when its bytes are neither and begin with 0x81. *)
Theorem solana_input_exact data w :
  (parse data = Ok w ↔
   ∃ bs, match detect data with
         | Base64 => b64_decode data = Ok bs
         | Hex => decode_hex data = Ok bs
         end ∧
     match w with
     | WrapVersioned tx => deserialize_versioned bs = Ok tx
     | WrapLegacy tx => deserialize_legacy bs = Ok tx ∧ is_ok (deserialize_versioned bs) = false
     end) ∧
  ((∃ msg, parse data = Err (UnsupportedVersion msg)) ↔
   ∃ bs, match detect data with
         | Base64 => b64_decode data = Ok bs
         | Hex => decode_hex data = Ok bs
         end ∧
     is_ok (deserialize_versioned bs) = false ∧ is_ok (deserialize_legacy bs) = false ∧
     head bs = Some TRANSACTION_V1_VERSION_BYTE).
Proof.
  unfold sol_from_string.
  set (bytes_of := match detect data with Base64 => _ | Hex => _ end).
  assert (∀ bs, bytes_of = Ok bs ↔ match detect data with
                                   | Base64 => b64_decode data = Ok bs
                                   | Hex => decode_hex data = Ok bs
                                   end) as Hb.
  { intros bs. unfold bytes_of. destruct (detect data); apply map_err_Ok. }
  assert (∀ e, bytes_of = Err e → ∃ m, e = ParseDecodeError m) as He.
  { unfold bytes_of. intros e. destruct (detect data);
      [destruct (b64_decode data)|destruct (decode_hex data)]; cbn; intros [= <-]; by eexists. }
  setoid_rewrite <-Hb. clear Hb. destruct bytes_of as [bs|e]; cbn [mbind result_bind].
  - destruct (deserialize_versioned bs) as [tx|ve] eqn:Hv.
    { split; [split|split].
      - intros [= <-]. by exists bs.
      - intros (? & [= <-] & Hw). rewrite Hv in Hw. destruct w; [by destruct Hw|congruence].
      - by intros [].
      - intros (? & [= <-] & Hn & _). by rewrite Hv in Hn. }
    destruct (deserialize_legacy bs) as [tx|le] eqn:Hl.
    { split; [split|split].
      - intros [= <-]. exists bs. by rewrite Hv.
      - intros (? & [= <-] & Hw). rewrite Hv in Hw. destruct w; [|congruence].
        destruct Hw as [Hw _]. congruence.
      - by intros [].
      - intros (? & [= <-] & _ & Hn & _). by rewrite Hl in Hn. }
    split; [split|].
    + case_decide; done.
    + intros (? & [= <-] & Hw). rewrite Hv in Hw. destruct w; [destruct Hw|]; congruence.
    + case_decide as Hd; (split; [intros [? [=]]|]).
      * exists bs. by rewrite Hv, Hl.
      * intros _. by eexists.
      * intros (? & [= <-] & _ & _ & Hh). congruence.
  - destruct (He e eq_refl) as [m ->]. split; [split|split]; [done|by intros (? & ? & _)|by intros []|].
    by intros (? & ? & _).
Qed.

(** A transaction written out reads back: the hex text, with or without a prefix, of what
    serialising a versioned transaction gives is read as that transaction. *)
Theorem solana_input_round_trip prefix tx bs :
  prefix ∈ [""; "0x"; "0X"] →
  serialize_versioned tx = Ok bs → parse (prefix +:+ hex_encode bs) = Ok (WrapVersioned tx).
Proof.
  intros Hp Hs. unfold sol_from_string.
  destruct (hex_round_trip H prefix bs Hp) as [-> ->]. cbn.
  by rewrite (deserialize_serialize_versioned _ _ Hs).
Qed.
End properties.

(** ** The order of the visualizers does not matter *)

Lemma visualize_app l k c :
  visualize_with_any (l ++ k) c =
    match visualize_with_any l c with Some r => Some r | None => visualize_with_any k c end.
Proof. induction l as [|v l IH]; [done|]. cbn. by destruct (can_handle v c). Qed.

(** The outcome when the visualizer of [x] handles the instruction. *)
Definition run_visualizer (v : InstructionVisualizer) (c : VisualizerContext)
    : result VisualSignError VisualizeResult :=
  (fun f => MkVisualizeResult f (kind v)) <$> visualize_tx_commands v c.

Lemma visualize_unique (vis : string → InstructionVisualizer) (handles : string → bool) l c a :
  (∀ x, x ∈ l → can_handle (vis x) c = handles x) →
  (∀ x, x ∈ l → handles x = true → x = a) →
  visualize_with_any (vis <$> l) c =
    if decide (a ∈ l ∧ handles a = true) then Some (run_visualizer (vis a) c) else None.
Proof.
  intros Hc Hu. induction l as [|x l IH].
  { rewrite decide_False; [done|]. by intros [?%elem_of_nil _]. }
  cbn. rewrite Hc by left. destruct (handles x) eqn:Hx.
  - assert (x = a) as -> by (apply Hu; [left|done]). rewrite decide_True by (split; [left|done]). done.
  - rewrite IH; [|intros; apply Hc; by right|intros; apply Hu; [by right|done]].
    destruct (decide (a ∈ l ∧ _)) as [Hd|Hd], (decide (a ∈ x :: l ∧ _)) as [Hd'|Hd']; try done;
      rewrite elem_of_cons in Hd'; [naive_solver|]. destruct Hd' as [[-> |Ha] Hh]; [congruence|].
    by destruct Hd.
Qed.

Section dispatch.
Context {K : SolanaSdk}.

(** The preset configured for a program. *)
Definition preset_of_program (pid : string) : option string :=
  fst <$> List.find (fun p => config_can_handle p.2 pid) PRESETS.

Definition preset_for (c : VisualizerContext) : option string :=
  match program_id c with
  | ProgramResolved pk => preset_of_program (show_pubkey pk)
  | ProgramUnresolved _ => None
  end.

(** No program is in two configurations, and the catch-all has none. *)
Lemma presets_disjoint n cfg n' cfg' pid :
  (n, cfg) ∈ PRESETS → (n', cfg') ∈ PRESETS →
  config_can_handle cfg pid = true → config_can_handle cfg' pid = true →
  n = n' ∧ n ≠ "unknown_program".
Proof.
  assert (forallb (fun p => forallb (fun q =>
            bool_decide (p.1 = q.1 ∧ p.1 ≠ "unknown_program")
            || forallb (fun k => negb (config_can_handle q.2 k)) (map_to_list p.2).*1)
          PRESETS) PRESETS = true) as Hall by (vm_compute; reflexivity).
  intros Hp Hq Hh Hh'. rewrite forallb_forall in Hall.
  apply list_elem_of_In in Hp, Hq. specialize (Hall _ Hp). rewrite forallb_forall in Hall.
  specialize (Hall _ Hq). apply orb_true_iff in Hall as [Hd|Hd]; [by apply bool_decide_eq_true_1 in Hd|].
  exfalso. rewrite forallb_forall in Hd. cbn [fst snd] in Hd.
  apply bool_decide_eq_true_1 in Hh as [v Hv].
  specialize (Hd pid). rewrite Hh' in Hd. cbn in Hd. discriminate Hd.
  apply list_elem_of_In. change pid with (pid, v).1. apply list_elem_of_fmap_2.
  by apply elem_of_map_to_list.
Qed.

Lemma preset_names_NoDup : NoDup PRESETS.*1.
Proof. by_decision. Qed.

Lemma preset_unique n cfg cfg' : (n, cfg) ∈ PRESETS → (n, cfg') ∈ PRESETS → cfg = cfg'.
Proof.
  intros H1 H2. pose proof (proj2 (assoc_elem_of n cfg PRESETS preset_names_NoDup) H1) as E.
  rewrite (proj2 (assoc_elem_of n cfg' PRESETS preset_names_NoDup) H2) in E. congruence.
Qed.

Lemma filter_named (Q : string → Prop) `{!∀ n, Decision (Q n)}
    `{!∀ e : string * InstructionVisualizer, Decision (Q e.1)} (vis : string → InstructionVisualizer) dirs :
  (filter (fun e : string * InstructionVisualizer => Q e.1) ((fun n => (n, vis n)) <$> dirs)).*2
  = vis <$> filter Q dirs.
Proof.
  induction dirs as [|n dirs IH]; [done|]. rewrite fmap_cons, !filter_cons. cbn [fst].
  repeat case_decide; try done. by rewrite !fmap_cons, IH.
Qed.

Lemma preset_of_program_spec pid n :
  preset_of_program pid = Some n ↔ ∃ cfg, (n, cfg) ∈ PRESETS ∧ config_can_handle cfg pid = true.
Proof.
  unfold preset_of_program. split.
  - intros ([n' cfg] & Hf & ->)%fmap_Some. apply find_some in Hf as [Hin Hh].
    exists cfg. by rewrite list_elem_of_In.
  - intros (cfg & Hin & Hh). destruct (List.find _ PRESETS) as [[n' cfg']|] eqn:Hf.
    + apply find_some in Hf as [Hin' Hh']. apply list_elem_of_In in Hin'. cbn in Hh'. cbn. f_equal.
      by apply (presets_disjoint _ _ _ _ _ Hin' Hin Hh' Hh).
    + apply list_elem_of_In in Hin. apply (find_none _ _ Hf) in Hin. cbn in Hin. congruence.
Qed.

(** Which visualizer shows an instruction does not depend on the order in which the build script
    happens to read the directories. Whatever that order, an instruction of a program some preset is
    configured for goes to that preset, and every other one, including those whose program index is
    out of range, to the catch-all; none is left without a visualizer. *)
Theorem dispatch_exact (vis : string → InstructionVisualizer) dirs c :
  dirs ≡ₚ PRESETS.*1 →
  (∀ n cfg, (n, cfg) ∈ PRESETS → n ≠ "unknown_program" →
     can_handle (vis n) c = default_can_handle show_pubkey (Some cfg) c) →
  can_handle (vis "unknown_program") c = true →
  visualize_with_any (collect_visualizers ((fun n => (n, vis n)) <$> dirs)) c =
    Some (run_visualizer (vis (default "unknown_program" (preset_for c))) c).
Proof.
  intros Hdirs Hvis Hunk. unfold collect_visualizers.
  rewrite (filter_named (fun n => n ≠ "unknown_program")),
    (filter_named (fun n => n = "unknown_program")), visualize_app.
  assert (filter (fun n => n = "unknown_program") dirs = ["unknown_program"]) as ->.
  { apply Permutation_singleton_r. rewrite Hdirs. by_decision. }
  set (spec := filter _ dirs).
  assert (∀ n, n ∈ spec ↔ n ≠ "unknown_program" ∧ ∃ cfg, (n, cfg) ∈ PRESETS) as Hspec.
  { intros n. unfold spec. rewrite list_elem_of_filter, Hdirs, list_elem_of_fmap.
    split; [intros [Hn ([n' cfg] & -> & Hin)]; eauto|intros [Hn (cfg & Hin)]; split; [done|]].
    by exists (n, cfg). }
  rewrite (visualize_unique vis (fun n => bool_decide (preset_for c = Some n)) spec c
             (default "unknown_program" (preset_for c))).
  - destruct (preset_for c) as [n|] eqn:Hn.
    + rewrite decide_True; [done|]. split; [|by apply bool_decide_eq_true_2].
      apply Hspec. unfold preset_for in Hn. destruct (program_id c) as [pk|]; [|done].
      apply preset_of_program_spec in Hn as (cfg & Hin & Hh).
      split; [|by exists cfg]. by apply (presets_disjoint _ _ _ _ _ Hin Hin Hh Hh).
    + rewrite decide_False by (intros [_ Hb]; by apply bool_decide_eq_true_1 in Hb).
      cbn. by rewrite Hunk.
  - intros n [Hn [cfg Hin]]%Hspec. rewrite (Hvis n cfg Hin Hn). unfold default_can_handle, preset_for.
    destruct (program_id c) as [pk|]; [|done]. symmetry. apply eq_bool_prop_intro.
    rewrite bool_decide_spec, preset_of_program_spec. split; [|intros Hh; exists cfg; split; [done|]].
    + intros (cfg' & Hin' & Hh). apply Is_true_true.
      assert (cfg = cfg') as -> by by eapply preset_unique. done.
    + by apply Is_true_true.
  - intros n _ Hb. apply bool_decide_eq_true_1 in Hb. by rewrite Hb.
Qed.
End dispatch.

(** ** Witnesses *)

#[export] Instance CompiledInstruction_eq_dec : EqDecision CompiledInstruction.
Proof. solve_decision. Defined.
#[export] Instance MessageHeader_eq_dec : EqDecision MessageHeader.
Proof. solve_decision. Defined.
#[export] Instance Message_eq_dec : EqDecision Message.
Proof. solve_decision. Defined.

Module sample_solana.
Definition message : Message :=
  MkMessage (MkHeader 1 0 1) [replicate 32 Byte.x01; replicate 32 Byte.x02] []
    [MkCompiledInstruction 1 [0] [Byte.x00]; MkCompiledInstruction 7 [9] []].

(** A transaction is written as its signature; the message is fixed. *)
Program Definition wire : SolanaWire := {|
  deserialize_versioned bs := Ok (MkVersionedTransaction [bs] (MessageLegacy message));
  deserialize_legacy _ := Err "legacy";
  serialize_versioned tx :=
    match vtx_signatures tx, vtx_message tx with
    | [bs], MessageLegacy m => if decide (m = message) then Ok bs else Err "message"
    | _, _ => Err "signatures"
    end;
  serialize_message _ := [];
  serialize_versioned_message _ := [] |}.
Next Obligation.
  intros [sigs msg] bs. cbn. destruct sigs as [|s [|]], msg as [m|]; try done.
  case_decide as Hm; [|done]. subst m. by intros [= <-].
Qed.

Definition tx : VersionedTransaction := MkVersionedTransaction [[Byte.x0a]] (MessageLegacy message).

(** One visualizer that handles everything and refuses the program it cannot resolve. *)
Definition visualizer : InstructionVisualizer :=
  MkVisualizer
    (fun c => match program_id c with
              | ProgramResolved _ => Ok (annotate_field (text_v2 "Instruction" "shown"))
              | ProgramUnresolved _ => Err (DecodeError "unresolved")
              end) None (Payments "any") (fun _ => true).

Definition options (intermediate : bool) : VisualSignOptions := MkOptions false None None None intermediate.

Definition crate : @SolanaParser sample_idls := {|
  IdlInstruction := string;
  idl_instructions idl := [];
  idl_instruction_name i := i;
  idl_instruction_discriminator _ := None;
  resolve_idl_for_record _ _ := Err "none";
  find_instruction_by_discriminator _ _ := Err "none";
  parse_data_into_args _ _ _ := Err "none";
  create_accounts_map _ _ := Err "none";
  compute_idl_hash s := s;
  construct_idl_records_map _ := Ok ∅;
  construct_custom_idl_records_map := Ok ∅;
  parse_transaction _ _ _ := Ok None;
  parse_transaction_with_idl_records _ _ _ :=
    Ok (Some (parser.MkSolanaMetadata [] [] [] [] [] "hash" [])) |}.

Definition convert (intermediate : bool) : result VisualSignError ConversionResult :=
  @sol_to_visual_sign_payload btree_map compact_format truncation_hash hex_ref toy_ed25519 hex_sdk
    sample_idls crate wire (fun _ => [visualizer]) (fun _ => None) (fun _ => None) (fun _ => Err "")
    (fun _ => None) (fun _ => "") (fun s => s) (fun _ => "") sample_env true (WrapVersioned tx)
    (options intermediate).

Lemma converted intermediate : ∃ res, convert intermediate = Ok res.
Proof.
  assert (is_ok (convert intermediate) = true) as Hok by (destruct intermediate; vm_compute; reflexivity).
  destruct (convert intermediate) as [res|]; [by exists res|done].
Qed.

Definition intermediate_bytes : option bytes :=
  match convert true with Ok res => intermediate_output res | Err _ => None end.
End sample_solana.

Lemma solana_instructions_accounted_witness :
  ∃ res before mid, sample_solana.convert false = Ok res ∧
    ∃ rest, payload_fields (payload res) =
      text_v2 "Network" "Solana" :: before ++ [text_v2 "Instruction" "shown"] ++ mid ++ rest.
Proof.
  destruct (sample_solana.converted false) as [res Hres]. exists res.
  destruct (@solana_instructions_accounted btree_map compact_format truncation_hash hex_ref
    toy_ed25519 hex_sdk sample_idls sample_solana.crate sample_solana.wire
    (fun _ => [sample_solana.visualizer]) (fun _ => None) (fun _ => None) (fun _ => Err "")
    (fun _ => None) (fun _ => "") (fun s => s) (fun _ => "") sample_env true
    (WrapVersioned sample_solana.tx) (sample_solana.options false) res eq_refl) as (r & b & m & _ & Hf & _).
  - discriminate.
  - exact Hres.
  - exists b, m. split; [done|]. eexists. exact Hf.
Defined.

Lemma solana_payload_determines_witness :
  wrapper_keys (WrapVersioned sample_solana.tx) = wrapper_keys (WrapVersioned sample_solana.tx).
Proof.
  destruct (sample_solana.converted false) as [res Hres].
  apply (@solana_payload_determines btree_map compact_format truncation_hash hex_ref
    toy_ed25519 hex_sdk sample_idls sample_solana.crate sample_solana.wire
    (fun _ => [sample_solana.visualizer]) (fun _ => None) (fun _ => None) (fun _ => Err "")
    (fun _ => None) (fun _ => "") (fun s => s) (fun _ => "") sample_env true
    (WrapVersioned sample_solana.tx) (WrapVersioned sample_solana.tx)
    (sample_solana.options false) (sample_solana.options false) res res);
    [by repeat constructor|exact Hres|exact Hres|done].
Defined.

Lemma intermediate_output_sound_witness :
  ∃ bs, sample_solana.intermediate_bytes = Some bs ∧ take 2 bs = [Byte.x02; Byte.x00].
Proof.
  destruct (sample_solana.converted true) as [res Hres].
  destruct (@intermediate_output_sound btree_map compact_format truncation_hash hex_ref
    toy_ed25519 hex_sdk sample_idls sample_solana.crate sample_solana.wire
    (fun _ => [sample_solana.visualizer]) (fun _ => None) (fun _ => None) (fun _ => Err "")
    (fun _ => None) (fun _ => "") (fun s => s) (fun _ => "") sample_env true
    (WrapVersioned sample_solana.tx) (sample_solana.options true) res Hres) as (_ & _ & Hb).
  assert (is_Some sample_solana.intermediate_bytes) as [bs Hbs].
  { assert (bool_decide (is_Some sample_solana.intermediate_bytes) = true) as Hd
      by (vm_compute; reflexivity). by apply bool_decide_eq_true_1 in Hd. }
  exists bs. split; [done|]. unfold sample_solana.intermediate_bytes in Hbs. rewrite Hres in Hbs.
  destruct (Hb bs Hbs) as (r & o & _ & _ & _ & Ht & _). exact Ht.
Defined.

Lemma solana_input_round_trip_witness :
  @sol_from_string hex_ref sample_solana.wire (fun _ => Err "") (fun _ => "") "0x0a"
  = Ok (WrapVersioned sample_solana.tx).
Proof.
  apply (@solana_input_round_trip hex_ref sample_solana.wire (fun _ => Err "") (fun _ => "")
           "0x" sample_solana.tx [Byte.x0a]); [by_decision|].
  cbn. by rewrite decide_True.
Defined.

(** Every directory has the visualizer of its configuration, which shows its name. *)
Definition sample_vis (n : string) : InstructionVisualizer :=
  let cfg := assoc n PRESETS in
  MkVisualizer (fun _ => Ok (annotate_field (text_v2 "Shown by" n))) cfg (Payments n)
    (if decide (n = "unknown_program") then fun _ => true
     else @default_can_handle (@show_pubkey system_sdk) cfg).

Lemma dispatch_exact_witness :
  visualize_with_any (collect_visualizers ((fun n => (n, sample_vis n)) <$> reverse PRESETS.*1))
    (VisualizerContext_new (MkSolanaAccount "" false false) (MkCompiledInstruction 0 [] [])
       [zero_key] 0)
  = Some (Ok (MkVisualizeResult (annotate_field (text_v2 "Shown by" "system")) (Payments "system"))).
Proof.
  rewrite (@dispatch_exact system_sdk sample_vis (reverse PRESETS.*1)).
  - vm_compute. reflexivity.
  - apply reverse_Permutation.
  - intros n cfg Hin Hn. unfold sample_vis. cbn [can_handle]. rewrite decide_False by done.
    by rewrite (proj2 (assoc_elem_of n cfg PRESETS preset_names_NoDup) Hin).
  - reflexivity.
Defined.
