(* ===== verification/SwigDecode.v ===== *)
(** * Decoding Swig wallet instructions

    The binary decoders of [visualsign-solana/src/presets/swig_wallet/mod.rs]: every read of
    the source indexes or slices the data, which panics out of range, so the reads here return
    [Panic] there, and the decoders are proved never to reach one. *)

From S2P Require Import Prelude Panic Json Payload Errors SolanaCore.

(** ** The decoded instructions *)

Record InnerAccountMeta := MkInnerAccount {
  inner_pubkey : option Pubkey;
  inner_display : string;
  inner_is_signer : bool;
  inner_is_writable : bool;
}.

Record DecodedInnerInstruction := MkDecodedInner {
  di_program_id : option Pubkey;
  di_program_display : string;
  di_accounts : list InnerAccountMeta;
  di_data : bytes;
  di_description : string;
}.

Record SignInstructionDecoded := MkSign {
  sign_role_id : Z;
  instruction_payload_len : nat;
  sign_authority_payload : bytes;
  inner_instructions : list DecodedInnerInstruction;
}.

Inductive AuthorityUpdateDetails : Type :=
| ReplaceAll (b : bytes)
| AddActions (b : bytes)
| RemoveActionsByType (b : bytes)
| RemoveActionsByIndex (l : list Z)
| Legacy (b : bytes).

Inductive SwigInstructionDecoded : Type :=
| CreateV1 (authority_type bump wallet_address_bump : Z) (wallet_id authority_data actions : bytes)
| AddAuthorityV1 (acting_role_id new_authority_type num_actions : Z)
    (authority_data actions authority_payload : bytes)
| RemoveAuthorityV1 (acting_role_id authority_to_remove_id : Z) (authority_payload : bytes)
| UpdateAuthorityV1 (acting_role_id authority_to_update_id : Z) (operation : AuthorityUpdateDetails)
    (authority_payload : bytes)
| SignV1 (s : SignInstructionDecoded)
| SignV2 (s : SignInstructionDecoded)
| CreateSessionV1 (role_id session_duration : Z) (session_key authority_payload : bytes)
| CreateSubAccountV1 (role_id sub_account_bump : Z) (authority_payload : bytes)
| WithdrawFromSubAccountV1 (role_id amount : Z) (authority_payload : bytes)
| SubAccountSignV1 (s : SignInstructionDecoded)
| ToggleSubAccountV1 (target_role_id authority_role_id : Z) (enabled : bool)
    (authority_payload : bytes)
| MigrateToWalletAddressV1 (wallet_address_bump : Z)
| TransferAssetsV1 (role_id : Z) (authority_payload : bytes)
| SwigUnknown (discriminator : Z) (raw_data : bytes).

Inductive SwigInstructionKind : Type :=
| KCreateV1 | KAddAuthorityV1 | KRemoveAuthorityV1 | KUpdateAuthorityV1 | KSignV1
| KCreateSessionV1 | KCreateSubAccountV1 | KWithdrawFromSubAccountV1 | KSubAccountSignV1
| KToggleSubAccountV1 | KSignV2 | KMigrateToWalletAddressV1 | KTransferAssetsV1.

Inductive SwigParseError : Type :=
| DataTooShort (ctx : string)
| SwigInvalidFormat (ctx : string)
| UnknownInstruction (code : Z).

Definition show_swig_error (e : SwigParseError) : string :=
  match e with
  | DataTooShort ctx => "Instruction data too short: " +:+ ctx
  | SwigInvalidFormat ctx => "Invalid instruction format: " +:+ ctx
  | UnknownInstruction c => "Unknown Swig instruction discriminator " +:+ show_Z c
  end.

Definition kind_try_from (value : Z) : result SwigParseError SwigInstructionKind :=
  match value with
  | 0 => Ok KCreateV1
  | 1 => Ok KAddAuthorityV1
  | 2 => Ok KRemoveAuthorityV1
  | 3 => Ok KUpdateAuthorityV1
  | 4 => Ok KSignV1
  | 5 => Ok KCreateSessionV1
  | 6 => Ok KCreateSubAccountV1
  | 7 => Ok KWithdrawFromSubAccountV1
  | 9 => Ok KSubAccountSignV1
  | 10 => Ok KToggleSubAccountV1
  | 11 => Ok KSignV2
  | 12 => Ok KMigrateToWalletAddressV1
  | 13 => Ok KTransferAssetsV1
  | other => Err (UnknownInstruction other)
  end%Z.

Abbreviation swig_parse := (result (crash SwigParseError)).

(** ** The fixed-layout instructions *)

Definition too_short (data : bytes) (n : nat) (ctx : string) : swig_parse () :=
  guard (bool_decide (length data < n)) (DataTooShort ctx).

Definition parse_create_v1 (data : bytes) : swig_parse SwigInstructionDecoded :=
  _ ← too_short data 40 "create_v1 header";
  authority_type ← uint_at 2 data 2;
  len ← uint_at 2 data 4;
  let authority_data_len := Z.to_nat len in
  bump ← byte_at data 6;
  wallet_address_bump ← byte_at data 7;
  wallet_id ← slice data 8 40;
  _ ← too_short data (40 + authority_data_len) "create_v1 authority data";
  authority_data ← slice data 40 (40 + authority_data_len);
  actions ← slice_from data (40 + authority_data_len);
  Ok (CreateV1 authority_type bump wallet_address_bump wallet_id authority_data actions).

Definition parse_add_authority_v1 (data : bytes) : swig_parse SwigInstructionDecoded :=
  _ ← too_short data 16 "add_authority_v1 header";
  alen ← uint_at 2 data 2;
  let authority_data_len := Z.to_nat alen in
  clen ← uint_at 2 data 4;
  let actions_data_len := Z.to_nat clen in
  new_authority_type ← uint_at 2 data 6;
  num_actions ← byte_at data 8;
  acting_role_id ← uint_at 4 data 12;
  _ ← too_short data (16 + authority_data_len + actions_data_len) "add_authority_v1 payload";
  authority_data ← slice data 16 (16 + authority_data_len);
  actions ← slice data (16 + authority_data_len) (16 + authority_data_len + actions_data_len);
  authority_payload ← slice_from data (16 + authority_data_len + actions_data_len);
  Ok (AddAuthorityV1 acting_role_id new_authority_type num_actions authority_data actions
        authority_payload).

Definition parse_remove_authority_v1 (data : bytes) : swig_parse SwigInstructionDecoded :=
  _ ← too_short data 16 "remove_authority_v1 header";
  acting_role_id ← uint_at 4 data 8;
  authority_to_remove_id ← uint_at 4 data 12;
  authority_payload ← slice_from data 16;
  Ok (RemoveAuthorityV1 acting_role_id authority_to_remove_id authority_payload).

(** [chunks_exact(2)] read as [u16]s. *)
Fixpoint u16_chunks (l : bytes) : list Z :=
  match l with
  | a :: b :: l => le_val [a; b] :: u16_chunks l
  | _ => []
  end.

Definition parse_update_operation (num_actions : Z) (operation_bytes : bytes)
    : swig_parse AuthorityUpdateDetails :=
  if decide (num_actions = 0)%Z then
    _ ← guard (bool_decide (length operation_bytes = 0))
          (SwigInvalidFormat "update_authority missing operation byte");
    op ← byte_at operation_bytes 0;
    payload ← slice_from operation_bytes 1;
    if decide (op = 0)%Z then Ok (ReplaceAll payload)
    else if decide (op = 1)%Z then Ok (AddActions payload)
    else if decide (op = 2)%Z then Ok (RemoveActionsByType payload)
    else if decide (op = 3)%Z then
      _ ← guard (negb (length payload mod 2 =? 0))
            (SwigInvalidFormat "remove_actions_by_index payload must be even");
      Ok (RemoveActionsByIndex (u16_chunks payload))
    else Ok (Legacy operation_bytes)
  else Ok (Legacy operation_bytes).

Definition parse_update_authority_v1 (data : bytes) : swig_parse SwigInstructionDecoded :=
  _ ← too_short data 16 "update_authority_v1 header";
  len ← uint_at 2 data 2;
  let actions_data_len := Z.to_nat len in
  num_actions ← byte_at data 4;
  acting_role_id ← uint_at 4 data 8;
  authority_to_update_id ← uint_at 4 data 12;
  _ ← too_short data (16 + actions_data_len) "update_authority_v1 payload";
  operation_bytes ← slice data 16 (16 + actions_data_len);
  authority_payload ← slice_from data (16 + actions_data_len);
  operation ← parse_update_operation num_actions operation_bytes;
  Ok (UpdateAuthorityV1 acting_role_id authority_to_update_id operation authority_payload).

Definition parse_create_session_v1 (data : bytes) : swig_parse SwigInstructionDecoded :=
  _ ← too_short data 48 "create_session header";
  role_id ← uint_at 4 data 4;
  session_duration ← uint_at 8 data 8;
  session_key ← slice data 16 48;
  authority_payload ← slice_from data 48;
  Ok (CreateSessionV1 role_id session_duration session_key authority_payload).

Definition parse_create_sub_account_v1 (data : bytes) : swig_parse SwigInstructionDecoded :=
  _ ← too_short data 16 "create_sub_account header";
  role_id ← uint_at 4 data 4;
  sub_account_bump ← byte_at data 8;
  authority_payload ← slice_from data 16;
  Ok (CreateSubAccountV1 role_id sub_account_bump authority_payload).

Definition parse_withdraw_from_sub_account (data : bytes) : swig_parse SwigInstructionDecoded :=
  _ ← too_short data 16 "withdraw_sub_account header";
  role_id ← uint_at 4 data 4;
  amount ← uint_at 8 data 8;
  authority_payload ← slice_from data 16;
  Ok (WithdrawFromSubAccountV1 role_id amount authority_payload).

Definition parse_toggle_sub_account (data : bytes) : swig_parse SwigInstructionDecoded :=
  _ ← too_short data 16 "toggle_sub_account header";
  enabled ← byte_at data 2;
  target_role_id ← uint_at 4 data 8;
  authority_role_id ← uint_at 4 data 12;
  authority_payload ← slice_from data 16;
  Ok (ToggleSubAccountV1 target_role_id authority_role_id (bool_decide (enabled ≠ 0)%Z)
        authority_payload).

Definition parse_migrate (data : bytes) : swig_parse SwigInstructionDecoded :=
  _ ← too_short data 8 "migrate header";
  wallet_address_bump ← byte_at data 2;
  Ok (MigrateToWalletAddressV1 wallet_address_bump).

Definition parse_transfer_assets (data : bytes) : swig_parse SwigInstructionDecoded :=
  _ ← too_short data 8 "transfer_assets header";
  role_id ← uint_at 4 data 4;
  authority_payload ← slice_from data 8;
  Ok (TransferAssetsV1 role_id authority_payload).

(** ** Signed inner instructions *)

Section inner.
(** [Pubkey::to_string], and the description of an inner instruction, which the renderer
    supplies. *)
Context (show_pubkey : Pubkey → string).
Context (describe : option Pubkey → string → bytes → list InnerAccountMeta → string).

Definition resolve_account_meta (accounts : list AccountMeta) (index : nat) : InnerAccountMeta :=
  match accounts !! index with
  | Some m =>
      MkInnerAccount (Some (meta_pubkey m)) (show_pubkey (meta_pubkey m)) (meta_is_signer m)
        (meta_is_writable m)
  | None =>
      MkInnerAccount None ("Unresolved account #" +:+ show_nat index +:+ " (lookup table)") false
        false
  end.

Definition byte_index (b : byte) : nat := Z.to_nat (byte_to_Z b).

(** One turn of the loop, from a cursor to the next. *)
Definition decode_compact_one (payload : bytes) (accounts : list AccountMeta) (cursor : nat)
    : swig_parse (DecodedInnerInstruction * nat) :=
  _ ← guard (bool_decide (length payload ≤ cursor))
        (SwigInvalidFormat "compact instruction truncated");
  program_index ← byte_at payload cursor;
  let cursor := cursor + 1 in
  let program_meta := resolve_account_meta accounts (Z.to_nat program_index) in
  _ ← guard (bool_decide (length payload ≤ cursor)) (SwigInvalidFormat "missing account count");
  count ← byte_at payload cursor;
  let account_count := Z.to_nat count in
  let cursor := cursor + 1 in
  _ ← guard (bool_decide (length payload < cursor + account_count))
        (SwigInvalidFormat "account list exceeds payload");
  account_bytes ← slice payload cursor (cursor + account_count);
  let inner_accounts := (fun b => resolve_account_meta accounts (byte_index b)) <$> account_bytes in
  let cursor := cursor + account_count in
  _ ← guard (bool_decide (length payload < cursor + 2)) (SwigInvalidFormat "missing data length");
  len ← uint_at 2 payload cursor;
  let data_len := Z.to_nat len in
  let cursor := cursor + 2 in
  _ ← guard (bool_decide (length payload < cursor + data_len))
        (SwigInvalidFormat "data slice out of range");
  data_slice ← slice payload cursor (cursor + data_len);
  let cursor := cursor + data_len in
  let description := describe (inner_pubkey program_meta) (inner_display program_meta) data_slice
                       inner_accounts in
  Ok (MkDecodedInner (inner_pubkey program_meta) (inner_display program_meta) inner_accounts
        data_slice description, cursor).

Fixpoint decode_compact_loop (total : nat) (payload : bytes) (accounts : list AccountMeta)
    (cursor : nat) : swig_parse (list DecodedInnerInstruction) :=
  match total with
  | O => Ok []
  | S total =>
      '(i, cursor) ← decode_compact_one payload accounts cursor;
      rest ← decode_compact_loop total payload accounts cursor;
      Ok (i :: rest)
  end.

Definition decode_compact_instructions (payload : bytes) (accounts : list AccountMeta)
    : swig_parse (list DecodedInnerInstruction) :=
  match payload with
  | [] => Ok []
  | total :: _ => decode_compact_loop (byte_index total) payload accounts 1
  end.

Definition parse_sign_instruction (data : bytes) (header_len : nat) (accounts : list AccountMeta)
    : swig_parse SignInstructionDecoded :=
  _ ← too_short data header_len "sign header";
  len ← uint_at 2 data 2;
  let payload_len := Z.to_nat len in
  role_id ← uint_at 4 data 4;
  _ ← too_short data (header_len + payload_len) "sign instruction payload";
  instruction_payload ← slice data header_len (header_len + payload_len);
  authority_payload ← slice_from data (header_len + payload_len);
  inner ← decode_compact_instructions instruction_payload accounts;
  Ok (MkSign role_id payload_len authority_payload inner).

Definition parse_swig_instruction (data : bytes) (accounts : list AccountMeta)
    : swig_parse SwigInstructionDecoded :=
  _ ← too_short data 2 "missing discriminator";
  discriminator ← uint_at 2 data 0;
  match kind_try_from discriminator with
  | Err (UnknownInstruction _) => Ok (SwigUnknown discriminator data)
  | Err err => Err (Fail err)
  | Ok kind =>
      match kind with
      | KCreateV1 => parse_create_v1 data
      | KAddAuthorityV1 => parse_add_authority_v1 data
      | KRemoveAuthorityV1 => parse_remove_authority_v1 data
      | KUpdateAuthorityV1 => parse_update_authority_v1 data
      | KSignV1 => SignV1 <$> parse_sign_instruction data 8 accounts
      | KSignV2 => SignV2 <$> parse_sign_instruction data 8 accounts
      | KCreateSessionV1 => parse_create_session_v1 data
      | KCreateSubAccountV1 => parse_create_sub_account_v1 data
      | KWithdrawFromSubAccountV1 => parse_withdraw_from_sub_account data
      | KSubAccountSignV1 => SubAccountSignV1 <$> parse_sign_instruction data 16 accounts
      | KToggleSubAccountV1 => parse_toggle_sub_account data
      | KMigrateToWalletAddressV1 => parse_migrate data
      | KTransferAssetsV1 => parse_transfer_assets data
      end
  end.
End inner.

(** ** The decoders do not panic *)

Section no_panic.
Context (show_pubkey : Pubkey → string).
Context (describe : option Pubkey → string → bytes → list InnerAccountMeta → string).

Lemma safe_fmap {E A B} (f : A → B) (m : result (crash E) A) : safe m → safe (f <$> m).
Proof. unfold safe. destruct m; cbn; congruence. Qed.

Ltac decoder := unfold too_short; safely.

Lemma safe_create_v1 data : safe (parse_create_v1 data).
Proof. unfold parse_create_v1. decoder. Qed.

Lemma safe_add_authority_v1 data : safe (parse_add_authority_v1 data).
Proof. unfold parse_add_authority_v1. decoder. Qed.

Lemma safe_remove_authority_v1 data : safe (parse_remove_authority_v1 data).
Proof. unfold parse_remove_authority_v1. decoder. Qed.

Lemma safe_update_operation n b : safe (parse_update_operation n b).
Proof.
  unfold parse_update_operation. case_decide; [|decoder]. decoder.
  repeat case_decide; decoder.
Qed.

Lemma safe_update_authority_v1 data : safe (parse_update_authority_v1 data).
Proof. unfold parse_update_authority_v1. decoder. apply safe_update_operation. Qed.

Lemma safe_compact_one p a c : safe (decode_compact_one show_pubkey describe p a c).
Proof. unfold decode_compact_one. decoder. Qed.

Lemma safe_compact_loop n p a c : safe (decode_compact_loop show_pubkey describe n p a c).
Proof.
  revert c. induction n as [|n IH]; intros c; cbn; [done|].
  apply safe_bind; [apply safe_compact_one|]. intros [i c'] _.
  apply safe_bind; [apply IH|]. done.
Qed.

Lemma safe_sign data h a :
  8 ≤ h → safe (parse_sign_instruction show_pubkey describe data h a).
Proof.
  intros Hh. unfold parse_sign_instruction. decoder.
  unfold decode_compact_instructions. case_match; [done|]. apply safe_compact_loop.
Qed.

Lemma safe_swig data a : safe (parse_swig_instruction show_pubkey describe data a).
Proof.
  unfold parse_swig_instruction. decoder.
  destruct (kind_try_from _) as [[]|[]];
    first [ done | apply safe_create_v1 | apply safe_add_authority_v1
          | apply safe_remove_authority_v1 | apply safe_update_authority_v1
          | apply safe_fmap, safe_sign; lia
          | unfold parse_create_session_v1, parse_create_sub_account_v1,
              parse_withdraw_from_sub_account, parse_toggle_sub_account, parse_migrate,
              parse_transfer_assets; decoder ].
Qed.
End no_panic.

(** ** The compact encoding *)

(** An inner instruction as it is packed: indices into the outer account list, and data. *)
Record compact_ix := MkCompact { cx_program : byte; cx_accounts : bytes; cx_data : bytes }.

Definition compact_ok (x : compact_ix) : Prop :=
  length (cx_accounts x) < 256 ∧ (Z.of_nat (length (cx_data x)) < 65536)%Z.

Definition len_byte (n : nat) : byte := byte_of_Z (Z.of_nat n).

Definition encode_compact_one (x : compact_ix) : bytes :=
  cx_program x :: len_byte (length (cx_accounts x)) :: cx_accounts x ++ frame 2 (cx_data x).

Definition encode_compact (l : list compact_ix) : bytes :=
  len_byte (length l) :: concat (encode_compact_one <$> l).

Lemma byte_index_len n : n < 256 → byte_index (len_byte n) = n.
Proof.
  intros. unfold byte_index, len_byte. rewrite byte_to_of_Z, Z.mod_small by lia. lia.
Qed.

Lemma byte_index_range b : byte_index b < 256.
Proof. unfold byte_index. pose proof (byte_to_Z_range b). lia. Qed.

Lemma len_byte_index b : len_byte (byte_index b) = b.
Proof.
  unfold len_byte, byte_index. rewrite Z2Nat.id by apply byte_to_Z_range. apply byte_of_to_Z.
Qed.

Section read_app.
Context {E : Type}.

Lemma byte_at_app pre b post : byte_at (E:=E) (pre ++ b :: post) (length pre) = Ok (byte_to_Z b).
Proof. unfold byte_at. by rewrite list_lookup_middle. Qed.

Lemma slice_app pre s post :
  slice (E:=E) (pre ++ s ++ post) (length pre) (length pre + length s) = Ok s.
Proof.
  apply slice_Ok. rewrite !length_app. split_and!; [lia..|].
  rewrite drop_app_length, Nat.add_comm, Nat.add_sub. by rewrite take_app_length.
Qed.

Lemma uint_at_app n pre z post :
  (0 ≤ z < 256 ^ Z.of_nat n)%Z →
  uint_at (E:=E) n (pre ++ le_bytes n z ++ post) (length pre) = Ok z.
Proof.
  intros Hz. unfold uint_at. rewrite !length_app, length_le_bytes, decide_True by lia.
  rewrite drop_app_length, take_app_length' by by rewrite length_le_bytes.
  by rewrite le_val_le_bytes, Z.mod_small.
Qed.

Lemma byte_at_Ok data i z : byte_at (E:=E) data i = Ok z → ∃ b, data !! i = Some b ∧ z = byte_to_Z b.
Proof. unfold byte_at. destruct (data !! i); [|done]. intros [= <-]. eauto. Qed.

Lemma uint_at_Ok n data i z :
  uint_at (E:=E) n data i = Ok z → i + n ≤ length data ∧ take n (drop i data) = le_bytes n z.
Proof.
  unfold uint_at. case_decide; [|done]. intros [= <-]. split; [done|].
  rewrite <-(le_bytes_le_val (take n (drop i data))) at 1. f_equal.
  rewrite length_take, length_drop. lia.
Qed.
End read_app.

Section compact.
Context (show_pubkey : Pubkey → string).
Context (describe : option Pubkey → string → bytes → list InnerAccountMeta → string).
Context (accounts : list AccountMeta).

(** What a packed instruction decodes to. *)
Definition expand (x : compact_ix) : DecodedInnerInstruction :=
  let program := resolve_account_meta show_pubkey accounts (byte_index (cx_program x)) in
  let inner := (fun b => resolve_account_meta show_pubkey accounts (byte_index b)) <$> cx_accounts x in
  MkDecodedInner (inner_pubkey program) (inner_display program) inner (cx_data x)
    (describe (inner_pubkey program) (inner_display program) (cx_data x) inner).

Local Abbreviation one := (decode_compact_one show_pubkey describe).
Local Abbreviation loop := (decode_compact_loop show_pubkey describe).
Local Abbreviation decode := (decode_compact_instructions show_pubkey describe).

(** The reads of one turn at the start of an encoded instruction. *)
Lemma compact_reads {E} pre b accs d post :
  length accs < 256 → (Z.of_nat (length d) < 65536)%Z →
  let p := pre ++ (b :: len_byte (length accs) :: accs ++ frame 2 d) ++ post in
  let c := length pre in
  length p = c + 1 + 1 + length accs + 2 + length d + length post ∧
  byte_at (E:=E) p c = Ok (byte_to_Z b) ∧
  byte_at (E:=E) p (c + 1) = Ok (byte_to_Z (len_byte (length accs))) ∧
  slice (E:=E) p (c + 1 + 1) (c + 1 + 1 + length accs) = Ok accs ∧
  uint_at (E:=E) 2 p (c + 1 + 1 + length accs) = Ok (Z.of_nat (length d)) ∧
  slice (E:=E) p (c + 1 + 1 + length accs + 2) (c + 1 + 1 + length accs + 2 + length d) = Ok d.
Proof.
  intros Ha Hd p c.
  set (q := pre ++ [b]). set (q2 := q ++ [len_byte (length accs)]).
  set (q3 := q2 ++ accs). set (q4 := q3 ++ le_bytes 2 (Z.of_nat (length d))).
  assert (p = q ++ len_byte (length accs) :: (accs ++ frame 2 d) ++ post) as E1
    by (unfold p, q; list_simplifier; done).
  assert (p = q2 ++ accs ++ frame 2 d ++ post) as E2
    by (unfold p, q2, q; list_simplifier; done).
  assert (p = q3 ++ le_bytes 2 (Z.of_nat (length d)) ++ d ++ post) as E3
    by (unfold p, q3, q2, q, frame; list_simplifier; done).
  assert (p = q4 ++ d ++ post) as E4 by (rewrite E3; unfold q4; by rewrite <-app_assoc).
  assert (length q = c + 1) as L1 by (unfold q; by rewrite length_app).
  assert (length q2 = c + 1 + 1) as L2 by (unfold q2; rewrite length_app, L1; done).
  assert (length q3 = c + 1 + 1 + length accs) as L3 by (unfold q3; rewrite length_app, L2; done).
  assert (length q4 = c + 1 + 1 + length accs + 2) as L4
    by (unfold q4; rewrite length_app, L3, length_le_bytes; done).
  split_and!.
  - rewrite E4, !length_app, L4. lia.
  - apply byte_at_app.
  - rewrite <-L1, E1. apply byte_at_app.
  - rewrite <-L2, E2. apply slice_app.
  - rewrite <-L3, E3. apply uint_at_app. cbn in *. lia.
  - rewrite <-L4, E4. apply slice_app.
Qed.

Lemma decode_encode_one pre x post :
  compact_ok x →
  one (pre ++ encode_compact_one x ++ post) accounts (length pre) =
    Ok (expand x, length pre + length (encode_compact_one x)).
Proof.
  intros [Ha Hd]. destruct x as [b accs d]. unfold encode_compact_one.
  cbn [cx_program cx_accounts cx_data] in *.
  destruct (compact_reads (E:=SwigParseError) pre b accs d post Ha Hd)
    as (Lp & R0 & R1 & R2 & R3 & R4).
  set (p := pre ++ (b :: len_byte (length accs) :: accs ++ frame 2 d) ++ post) in *. clearbody p.
  unfold decode_compact_one.
  rewrite bool_decide_false, R0 by lia. cbn [guard mbind result_bind].
  rewrite bool_decide_false, R1 by lia. cbn [guard mbind result_bind].
  change (Z.to_nat (byte_to_Z (len_byte (length accs)))) with (byte_index (len_byte (length accs))).
  rewrite byte_index_len by done.
  rewrite bool_decide_false, R2 by lia. cbn [guard mbind result_bind].
  rewrite bool_decide_false, R3 by lia. cbn [guard mbind result_bind]. rewrite Nat2Z.id.
  rewrite bool_decide_false, R4 by lia. cbn [guard mbind result_bind].
  unfold expand. cbn [cx_program cx_accounts cx_data]. do 2 f_equal.
  unfold frame. cbn [length]. rewrite !length_app, length_le_bytes. lia.
Qed.

Lemma one_Ok p c d c' :
  one p accounts c = Ok (d, c') →
  ∃ x, compact_ok x ∧ d = expand x ∧ drop c p = encode_compact_one x ++ drop c' p.
Proof.
  unfold decode_compact_one.
  intros (_ & _ & (z & (b & Hb & ->)%byte_at_Ok & (_ & _ & Hr)%result_bind_Ok)%result_bind_Ok)%result_bind_Ok.
  apply result_bind_Ok in Hr as (z & (n & Hn & ->)%byte_at_Ok & (_ & _ & Hr)%result_bind_Ok).
  change (Z.to_nat (byte_to_Z n)) with (byte_index n) in Hr.
  apply result_bind_Ok in Hr as (accs & Hs & (_ & _ & Hr)%result_bind_Ok).
  pose proof (slice_length _ _ _ _ Hs) as Hla. apply slice_Ok in Hs as (_ & Hle & ->).
  apply result_bind_Ok in Hr as (z & Hz & (_ & _ & Hr)%result_bind_Ok).
  pose proof (uint_at_range _ _ _ _ Hz) as Hrz. apply uint_at_Ok in Hz as [_ Hz].
  apply result_bind_Ok in Hr as (dat & Hs & [= <- <-]).
  pose proof (slice_length _ _ _ _ Hs) as Hld. apply slice_Ok in Hs as (_ & _ & ->).
  set (accs := take _ (drop (c + 1 + 1) p)) in *.
  set (dat := take _ (drop (c + 1 + 1 + byte_index n + 2) p)) in *.
  exists (MkCompact b accs dat). pose proof (byte_index_range n). split; [|split].
  - split; cbn [cx_accounts cx_data]; [lia|]. cbn in Hrz. lia.
  - reflexivity.
  - unfold encode_compact_one; cbn [cx_program cx_accounts cx_data].
    replace (length accs) with (byte_index n) by lia. rewrite len_byte_index.
    rewrite (drop_S p b c Hb). cbn [app]. f_equal.
    replace (c + 1) with (S c) in Hn by lia. rewrite (drop_S p n (S c) Hn). f_equal.
    replace (S (S c)) with (c + 1 + 1) by lia. unfold frame.
    replace (Z.of_nat (length dat)) with z by lia.
    rewrite <-Hz, <-!app_assoc. unfold accs, dat.
    rewrite <-(take_drop (c + 1 + 1 + byte_index n - (c + 1 + 1)) (drop (c + 1 + 1) p)) at 1.
    f_equal. rewrite drop_drop.
    replace (c + 1 + 1 + (c + 1 + 1 + byte_index n - (c + 1 + 1))) with (c + 1 + 1 + byte_index n) by lia.
    rewrite <-(take_drop 2 (drop (c + 1 + 1 + byte_index n) p)) at 1. f_equal.
    rewrite drop_drop.
    rewrite <-(take_drop (c + 1 + 1 + byte_index n + 2 + Z.to_nat z - (c + 1 + 1 + byte_index n + 2))
      (drop (c + 1 + 1 + byte_index n + 2) p)) at 1. f_equal.
    rewrite drop_drop. f_equal. lia.
Qed.

Lemma decode_encode_loop l pre post :
  Forall compact_ok l →
  loop (length l) (pre ++ concat (encode_compact_one <$> l) ++ post) accounts (length pre) =
    Ok (expand <$> l).
Proof.
  revert pre. induction l as [|x l IH]; intros pre; [done|].
  inversion_clear 1 as [|?? Hx Hl]. rewrite fmap_cons. cbn [concat length decode_compact_loop].
  rewrite <-app_assoc, decode_encode_one by done. cbn [mbind result_bind].
  rewrite <-length_app, app_assoc, IH by done. done.
Qed.

Lemma loop_Ok n p c ds :
  loop n p accounts c = Ok ds →
  ∃ l rest, length l = n ∧ Forall compact_ok l ∧ ds = expand <$> l ∧
    drop c p = concat (encode_compact_one <$> l) ++ rest.
Proof.
  revert c ds. induction n as [|n IH]; intros c ds; cbn.
  - intros [= <-]. by exists [], (drop c p).
  - intros ([d c'] & (x & Hx & -> & Hp)%one_Ok & Hr)%result_bind_Ok.
    apply result_bind_Ok in Hr as (ds' & (l & rest & <- & Hl & -> & Hp')%IH & [= <-]).
    exists (x :: l), rest. split_and!; [done|by constructor|done|].
    rewrite Hp, Hp', fmap_cons. cbn [concat]. by rewrite app_assoc.
Qed.
End compact.

(** ** Properties *)

(** C26: decoding a Swig instruction never panics: whatever the bytes, every index and slice
    the decoder takes is within them. *)
Theorem swig_decode_no_panic show_pubkey describe data accounts :
  parse_swig_instruction show_pubkey describe data accounts ≠ Err Panic.
Proof. apply safe_swig. Qed.

(** The compact decoder returns instructions exactly when the payload starts with a count
    byte and that many packed instructions, and then returns those, in order, with their
    indices resolved; bytes after the last one are ignored. *)
Theorem compact_decode_iff show_pubkey describe payload accounts ds :
  decode_compact_instructions show_pubkey describe payload accounts = Ok ds ↔
  (payload = [] ∧ ds = []) ∨
  ∃ l rest, length l < 256 ∧ Forall compact_ok l ∧ payload = encode_compact l ++ rest ∧
    ds = expand show_pubkey describe accounts <$> l.
Proof.
  unfold decode_compact_instructions. split.
  - destruct payload as [|n p]; [intros [= <-]; by left|].
    intros (l & rest & Hn & Hl & -> & Hp)%loop_Ok. right. exists l, rest.
    pose proof (byte_index_range n). split_and!; [lia|done| |done].
    unfold encode_compact. rewrite Hn, len_byte_index. cbn in *. rewrite drop_0 in Hp. by rewrite Hp.
  - intros [[-> ->]|(l & rest & Hn & Hl & -> & ->)]; [done|].
    unfold encode_compact. cbn [app]. rewrite byte_index_len by done.
    apply (decode_encode_loop show_pubkey describe accounts l [len_byte (length l)] rest Hl).
Qed.
