(* ===== verification/Lamports.v ===== *)
(** * Lamports as SOL ([swig_wallet/mod.rs], [lamports_as_sol], [format_lamports_with_sol])

    The amount is converted to [f64], divided by the lamports per SOL and printed with nine
    digits.  A double is its mantissa and exponent, rounded to nearest, ties to even; the
    values here are far from the limits of the exponent. *)

From S2P Require Import Prelude DecimalText.

#[local] Open Scope Z_scope.

(** [x / d] rounded to the nearest integer, ties to even. *)
Definition round_div_even (x d : Z) : Z :=
  let q := x / d in
  let r := x mod d in
  if decide (2 * r < d) then q
  else if decide (d < 2 * r) then q + 1
  else if Z.even q then q else q + 1.

(** The double nearest to [a / b], as [(m, e)] for [m * 2^e]; [a] is not negative, [b] is
    positive. The exponent puts the quotient between [2^52] and [2^53]. *)
Definition f64_scale (a b e : Z) : Z * Z :=
  if decide (e < 0) then (a * 2 ^ (- e), b) else (a, b * 2 ^ e).

Definition f64_exponent (a b : Z) : Z :=
  let e := Z.log2 a - Z.log2 b - 53 in
  let '(num, den) := f64_scale a b e in
  if decide (num / den < 2 ^ 53) then e else e + 1.

Definition f64_div (a b : Z) : Z * Z :=
  if decide (a = 0) then (0, 0)
  else
    let e := f64_exponent a b in
    let '(num, den) := f64_scale a b e in
    (round_div_even num den, e).

(** [amount as f64]. *)
Definition f64_of_u64 (n : Z) : Z * Z := f64_div n 1.

Definition LAMPORTS_PER_SOL : Z := 1000000000.

Definition lamports_as_sol (amount : Z) : Z * Z :=
  let '(m, e) := f64_of_u64 amount in
  if decide (e < 0) then f64_div m (LAMPORTS_PER_SOL * 2 ^ (- e))
  else f64_div (m * 2 ^ e) LAMPORTS_PER_SOL.

(** The digits of [{:.9}]: the value times [10^9], as an integer. *)
Definition nano_digits (x : Z * Z) : Z :=
  let '(m, e) := x in
  if decide (e < 0) then round_div_even (m * 10 ^ 9) (2 ^ (- e)) else m * 10 ^ 9 * 2 ^ e.

Definition show_fixed9 (digits : Z) : string :=
  show_Z (digits / 10 ^ 9) +:+ "." +:+ pad_left 9 (show_Z (digits mod 10 ^ 9)).

(** [while ends_with('0') { pop }], then one [.]. *)
Fixpoint strip_one_trailing (c : Ascii.ascii) (s : string) : string :=
  match s with
  | "" => ""
  | String a "" => if decide (a = c) then "" else s
  | String a s => String a (strip_one_trailing c s)
  end.

Definition trim_decimal (sol : string) : string :=
  if str_contains "." sol then strip_one_trailing "." (strip_trailing "0" sol) else sol.

Definition format_lamports_with_sol (lamports : Z) : string :=
  let sol := trim_decimal (show_fixed9 (nano_digits (lamports_as_sol lamports))) in
  show_Z lamports +:+ " lamports (~" +:+ sol +:+ " SOL)".

(** ** The rounding *)

Lemma round_div_even_error x d : 0 < d → Z.abs (2 * (x - round_div_even x d * d)) ≤ d.
Proof.
  intros Hd. unfold round_div_even. pose proof (Z.div_mod x d). pose proof (Z.mod_pos_bound x d Hd).
  repeat case_decide; [nia..|]. destruct (Z.even (x / d)); nia.
Qed.

Lemma round_div_even_unique x d q : 0 < d → Z.abs (2 * (x - q * d)) < d → round_div_even x d = q.
Proof.
  intros Hd Hq. pose proof (round_div_even_error x d Hd). nia.
Qed.

(** Small integers are doubles. *)
Lemma f64_of_u64_exact n :
  0 < n < 2 ^ 53 → ∃ j, 0 ≤ j ∧ f64_of_u64 n = (n * 2 ^ j, - j).
Proof.
  intros [Hn Hlt]. unfold f64_of_u64, f64_div. rewrite decide_False by lia.
  pose proof (Z.log2_spec n Hn) as [Hlo Hhi]. pose proof (Z.log2_nonneg n).
  assert (Z.log2 n < 53) as Hl by (apply Z.log2_lt_pow2; lia).
  assert (2 ^ 53 ≤ n * 2 ^ (- (Z.log2 n - 53))) as Hbig.
  { replace (2 ^ 53) with (2 ^ Z.log2 n * 2 ^ (- (Z.log2 n - 53)))
      by (rewrite <-Z.pow_add_r by lia; f_equal; lia).
    apply Z.mul_le_mono_nonneg_r; [lia|done]. }
  assert (f64_exponent n 1 = Z.log2 n - 52) as ->.
  { unfold f64_exponent, f64_scale. change (Z.log2 1) with 0. rewrite Z.sub_0_r.
    rewrite decide_True by lia. rewrite Z.div_1_r, decide_False by lia. lia. }
  exists (52 - Z.log2 n). split; [lia|].
  assert (round_div_even (n * 2 ^ (52 - Z.log2 n)) 1 = n * 2 ^ (52 - Z.log2 n)) as Hr
    by (apply round_div_even_unique; lia).
  unfold f64_scale. case_decide.
  - replace (- (Z.log2 n - 52)) with (52 - Z.log2 n) by lia. rewrite Hr. f_equal. lia.
  - assert (Z.log2 n = 52) as E by lia. rewrite E in *.
    rewrite Z.sub_diag, !Z.pow_0_r, !Z.mul_1_r in *. by rewrite Hr.
Qed.

(** A quotient below [2^23] keeps thirty binary digits after the point. *)
Lemma f64_exponent_small a b :
  0 < a → 0 < b → a < 2 ^ 23 * b → f64_exponent a b ≤ -30.
Proof.
  intros Ha Hb Hab. unfold f64_exponent.
  pose proof (Z.log2_spec b Hb) as [Hlo _]. pose proof (Z.log2_nonneg b).
  assert (Z.log2 a - Z.log2 b ≤ 23) as Hl.
  { enough (Z.log2 a ≤ 23 + Z.log2 b) by lia.
    rewrite <-(Z.log2_mul_pow2 b 23) by lia. apply Z.log2_le_mono. lia. }
  destruct (decide (Z.log2 a - Z.log2 b = 23)) as [E|E].
  - unfold f64_scale. replace (Z.log2 a - Z.log2 b - 53) with (-30) by lia. cbn [decide].
    rewrite decide_True by lia. rewrite decide_True; [lia|].
    apply Z.div_lt_upper_bound; [done|]. change (- -30) with 30. lia.
  - destruct (f64_scale _ _ _) as [num den]. case_decide; lia.
Qed.

(** Below [2^23] SOL the nine printed digits are those of the lamports. *)
Lemma nano_digits_exact n : 0 ≤ n < 2 ^ 23 * 10 ^ 9 → nano_digits (lamports_as_sol n) = n.
Proof.
  intros Hn. destruct (decide (n = 0)) as [->|Hne]; [done|].
  destruct (f64_of_u64_exact n) as (j & Hj & E); [lia|]. unfold lamports_as_sol. rewrite E.
  assert (∃ i, 0 ≤ i ∧ (if decide (- j < 0) then f64_div (n * 2 ^ j) (LAMPORTS_PER_SOL * 2 ^ (- - j))
    else f64_div (n * 2 ^ j * 2 ^ (- j)) LAMPORTS_PER_SOL) =
    f64_div (n * 2 ^ i) (LAMPORTS_PER_SOL * 2 ^ i)) as (i & Hi & ->).
  { case_decide.
    - exists j. split; [done|]. by rewrite Z.opp_involutive.
    - exists 0. split; [done|]. assert (j = 0) as -> by lia. cbn. by rewrite !Z.mul_1_r. }
  assert (0 < 2 ^ i) as Hp by (apply Z.pow_pos_nonneg; lia).
  unfold f64_div. rewrite decide_False by lia.
  set (a := n * 2 ^ i). set (b := LAMPORTS_PER_SOL * 2 ^ i).
  assert (f64_exponent a b ≤ -30) as He.
  { apply f64_exponent_small; unfold a, b, LAMPORTS_PER_SOL; nia. }
  set (e := f64_exponent a b) in *. clearbody e.
  unfold f64_scale. rewrite decide_True by lia. unfold nano_digits. rewrite decide_True by lia.
  assert (2 ^ 30 ≤ 2 ^ (- e)) as Hk by (apply Z.pow_le_mono_r; lia).
  pose proof (round_div_even_error (a * 2 ^ (- e)) b) as Herr.
  set (m := round_div_even (a * 2 ^ (- e)) b) in *. clearbody m. unfold a, b, LAMPORTS_PER_SOL in *.
  apply round_div_even_unique; [lia|]. specialize (Herr ltac:(lia)).
  assert (Z.abs (2 * (n * 2 ^ (- e) - m * 10 ^ 9)) ≤ 10 ^ 9) as Habs.
  { replace (2 * (n * 2 ^ i * 2 ^ (- e) - m * (1000000000 * 2 ^ i)))
      with (2 * (n * 2 ^ (- e) - m * 10 ^ 9) * 2 ^ i) in Herr by ring.
    rewrite Z.abs_mul, (Z.abs_eq (2 ^ i)) in Herr by lia. nia. }
  change (2 ^ 30) with 1073741824 in Hk. change (10 ^ 9) with 1000000000 in *. lia.
Qed.

(** ** Properties *)

(** Below 2^23 SOL (8.38 million), the SOL amount shown beside the lamports is exact: the
    floating-point detour loses nothing, and the digits printed are those of the lamports. *)
Theorem lamports_shown_exactly n :
  0 ≤ n < 2 ^ 23 * 10 ^ 9 →
  format_lamports_with_sol n =
    show_Z n +:+ " lamports (~" +:+ trim_decimal (show_fixed9 n) +:+ " SOL)".
Proof. intros Hn. unfold format_lamports_with_sol. by rewrite nano_digits_exact. Qed.

Lemma lamports_shown_exactly_witness :
  format_lamports_with_sol 1500000000 = "1500000000 lamports (~1.5 SOL)".
Proof. rewrite (lamports_shown_exactly 1500000000); [vm_compute; reflexivity|lia]. Defined.
