(* ===== verification/SwigRender.v ===== *)
(** * Rendering Swig wallet instructions

    The texts and fields of [visualsign-solana/src/presets/swig_wallet/mod.rs]: the summary of
    each instruction, the authority and action decoders, the WebAuthn payload with its Huffman
    coded origin, and the visualizer, which re-enters the visualizers of the crate for inner
    instructions up to a bounded depth. *)

From S2P Require Import Prelude Panic Json Payload Errors Charset External DecimalText Builders SolanaCore.
From S2P Require Import SwigDecode Lamports.

(** ** Names *)

Definition authority_type_name (value : Z) : string :=
  match value with
  | 1 => "Ed25519"
  | 2 => "Ed25519 Session"
  | 3 => "Secp256k1"
  | 4 => "Secp256k1 Session"
  | 5 => "Secp256r1"
  | 6 => "Secp256r1 Session"
  | _ => "Unknown"
  end%Z.

Definition permission_name (value : Z) : string :=
  match value with
  | 1 => "SolLimit"
  | 2 => "SolRecurringLimit"
  | 3 => "Program"
  | 4 => "ProgramScope"
  | 5 => "TokenLimit"
  | 6 => "TokenRecurringLimit"
  | 7 => "All"
  | 8 => "ManageAuthority"
  | 9 => "SubAccount"
  | 10 => "TokenDestinationLimit"
  | 11 => "TokenRecurringDestinationLimit"
  | 12 => "SolDestinationLimit"
  | 13 => "SolRecurringDestinationLimit"
  | 14 => "StakeLimit"
  | 15 => "StakeRecurringLimit"
  | 16 => "StakeAll"
  | _ => "Unknown"
  end%Z.

Definition program_scope_type_name (value : Z) : string :=
  match value with 0 => "basic" | 1 => "fixed limit" | 2 => "recurring limit" | _ => "unknown" end%Z.

Definition numeric_type_name (value : Z) : string :=
  match value with 0 => "u8" | 1 => "u32" | 2 => "u64" | 3 => "u128" | _ => "unknown" end%Z.

Definition swig_name (d : SwigInstructionDecoded) : string :=
  match d with
  | CreateV1 _ _ _ _ _ _ => "Create Wallet"
  | AddAuthorityV1 _ _ _ _ _ _ => "Add Authority"
  | RemoveAuthorityV1 _ _ _ => "Remove Authority"
  | UpdateAuthorityV1 _ _ _ _ => "Update Authority"
  | SignV1 _ => "Sign Transaction (v1)"
  | SignV2 _ => "Sign Transaction (v2)"
  | CreateSessionV1 _ _ _ _ => "Create Session"
  | CreateSubAccountV1 _ _ _ => "Create Sub-Account"
  | WithdrawFromSubAccountV1 _ _ _ => "Withdraw From Sub-Account"
  | SubAccountSignV1 _ => "Sub-Account Sign"
  | ToggleSubAccountV1 _ _ _ _ => "Toggle Sub-Account"
  | MigrateToWalletAddressV1 _ => "Migrate Wallet"
  | TransferAssetsV1 _ _ => "Transfer Assets"
  | SwigUnknown _ _ => "Unknown"
  end.

Definition sign_summary (what : string) (s : SignInstructionDecoded) : string :=
  "Swig: " +:+ what +:+ " (" +:+ show_nat (length (inner_instructions s))
  +:+ " inner instruction(s), role #" +:+ show_Z (sign_role_id s) +:+ ")".

Definition swig_summary (d : SwigInstructionDecoded) : string :=
  match d with
  | CreateV1 authority_type _ _ _ _ _ =>
      "Swig: Create wallet (" +:+ authority_type_name authority_type +:+ ")"
  | AddAuthorityV1 acting_role_id new_authority_type _ _ _ _ =>
      "Swig: Add authority role #" +:+ show_Z acting_role_id +:+ " ("
      +:+ authority_type_name new_authority_type +:+ ")"
  | RemoveAuthorityV1 acting_role_id authority_to_remove_id _ =>
      "Swig: Remove authority #" +:+ show_Z authority_to_remove_id +:+ " (by role #"
      +:+ show_Z acting_role_id +:+ ")"
  | UpdateAuthorityV1 acting_role_id authority_to_update_id _ _ =>
      "Swig: Update authority #" +:+ show_Z authority_to_update_id +:+ " (by role #"
      +:+ show_Z acting_role_id +:+ ")"
  | SignV1 s => sign_summary "Sign v1" s
  | SignV2 s => sign_summary "Sign v2" s
  | CreateSessionV1 role_id _ _ _ => "Swig: Create session (role #" +:+ show_Z role_id +:+ ")"
  | CreateSubAccountV1 role_id _ _ => "Swig: Create sub-account (role #" +:+ show_Z role_id +:+ ")"
  | WithdrawFromSubAccountV1 role_id amount _ =>
      "Swig: Withdraw " +:+ show_Z amount +:+ " lamports from sub-account (role #"
      +:+ show_Z role_id +:+ ")"
  | SubAccountSignV1 s => sign_summary "Sub-account sign" s
  | ToggleSubAccountV1 target_role_id _ enabled _ =>
      "Swig: " +:+ (if (enabled : bool) then "enable" else "disable") +:+ " sub-account role #"
      +:+ show_Z target_role_id
  | MigrateToWalletAddressV1 _ => "Swig: Migrate wallet"
  | TransferAssetsV1 role_id _ => "Swig: Transfer assets (role #" +:+ show_Z role_id +:+ ")"
  | SwigUnknown discriminator _ => "Swig: Unknown instruction (" +:+ show_Z discriminator +:+ ")"
  end.

(** ** Actions *)

(** The field of [n] bytes at an offset; every use is behind a check of the length. *)
Definition le_field (n : nat) (data : bytes) (off : nat) : Z := le_val (take n (drop off data)).
Definition u64_of (data : bytes) (off : nat) : Z := le_field 8 data off.
Definition sub_bytes (data : bytes) (a b : nat) : bytes := take (b - a) (drop a data).

(** The [while] loop of [count_actions]; [None] when the fuel runs out. *)
Fixpoint count_loop (fuel : nat) (data : bytes) (cursor count : nat) : option nat :=
  match fuel with
  | O => None
  | S fuel =>
      if decide (cursor + 8 ≤ length data) then
        let total := 8 + Z.to_nat (le_field 2 data (cursor + 2)) in
        if decide (length data < cursor + total) then Some count
        else count_loop fuel data (cursor + total) (count + 1)
      else Some count
  end.

Definition count_actions (data : bytes) : nat := default 0 (count_loop (S (length data)) data 0 0).

Definition show_bool (b : bool) : string := if b then "true" else "false".

Definition format_byte_length (len : nat) : string := show_nat len +:+ " bytes".

Definition format_actions_summary (data : bytes) : string :=
  show_nat (length data) +:+ " bytes (~" +:+ show_nat (count_actions data) +:+ " action(s))".

Section render.
Context {H : HexCodec}.
(** [Pubkey::to_string], Keccak-256 and standard base64. *)
Context (show_pubkey : Pubkey → string) (keccak : bytes → bytes) (base64_encode : bytes → string).

Definition format_hex (data : bytes) : string := hex_encode data.

Definition describe_action (permission : Z) (data : bytes) : option string :=
  let lamports off := format_lamports_with_sol (u64_of data off) in
  let num off := show_Z (u64_of data off) in
  let key a := show_pubkey (sub_bytes data a (a + 32)) in
  let exactly (n : nat) (s : string) : option string :=
    if decide (length data ≠ n) then None else Some s in
  match permission with
  | 1 => exactly 8%nat ("SOL limit: " +:+ lamports 0%nat)
  | 2 => exactly 32%nat
           ("SOL recurring limit: " +:+ lamports 0%nat +:+ " per " +:+ num 8%nat
            +:+ " slot(s); current " +:+ lamports 24%nat +:+ " (last reset " +:+ num 16%nat +:+ ")")
  | 3 => exactly 32%nat ("Program access: " +:+ key 0%nat)
  | 4 =>
      if decide (length data < 144)%nat then None
      else Some
        ("Program scope (" +:+ program_scope_type_name (u64_of data 112) +:+ ") for program "
         +:+ key 48%nat +:+ " target " +:+ key 80%nat
         +:+ "; limit " +:+ show_Z (le_field 16 data 16)
         +:+ " (current " +:+ show_Z (le_field 16 data 0) +:+ "), window " +:+ num 32%nat
         +:+ " slot(s), last reset " +:+ num 40%nat +:+ ", numeric "
         +:+ numeric_type_name (u64_of data 120)
         +:+ ", balance field bytes " +:+ num 128%nat +:+ ".." +:+ num 136%nat)
  | 5 => exactly 40%nat ("Token limit: mint " +:+ key 0%nat +:+ " remaining " +:+ num 32%nat)
  | 6 => exactly 64%nat
           ("Token recurring limit: mint " +:+ key 0%nat +:+ " limit " +:+ num 40%nat +:+ " per "
            +:+ num 32%nat +:+ " slot(s); current " +:+ num 48%nat +:+ " (last reset "
            +:+ num 56%nat +:+ ")")
  | 7 => Some "All permissions (full access)"
  | 8 => Some "Manage authority (add/remove/update authorities)"
  | 9 =>
      let target_bytes := sub_bytes data 0 32 in
      let target := if forallb (fun b => bool_decide (b = Byte.x00)) target_bytes
                    then "Uninitialized (assigned on creation)"
                    else show_pubkey target_bytes in
      exactly 72%nat
        ("Sub-account permission: target " +:+ target +:+ ", role " +:+ show_Z (le_field 4 data 36)
         +:+ ", bump " +:+ show_Z (le_field 1 data 32) +:+ ", enabled "
         +:+ show_bool (bool_decide (le_field 1 data 33 ≠ 0)) +:+ ", swig id " +:+ key 40%nat)
  | 10 => exactly 72%nat
            ("Token destination limit: mint " +:+ key 0%nat +:+ " destination " +:+ key 32%nat
             +:+ " remaining " +:+ num 64%nat)
  | 11 => exactly 96%nat
            ("Token recurring destination limit: mint " +:+ key 0%nat +:+ " destination "
             +:+ key 32%nat +:+ " limit " +:+ num 64%nat +:+ " per " +:+ num 72%nat
             +:+ " slot(s); current " +:+ num 88%nat +:+ " (last reset " +:+ num 80%nat +:+ ")")
  | 12 => exactly 40%nat
            ("SOL destination limit: destination " +:+ key 0%nat +:+ " remaining " +:+ lamports 32%nat)
  | 13 => exactly 64%nat
            ("SOL recurring destination limit: destination " +:+ key 0%nat +:+ " limit "
             +:+ lamports 32%nat +:+ " per " +:+ num 40%nat +:+ " slot(s); current "
             +:+ lamports 56%nat +:+ " (last reset " +:+ num 48%nat +:+ ")")
  | 14 => exactly 8%nat ("Stake limit: " +:+ lamports 0%nat)
  | 15 => exactly 32%nat
            ("Stake recurring limit: " +:+ lamports 0%nat +:+ " per " +:+ num 8%nat
             +:+ " slot(s); current " +:+ lamports 24%nat +:+ " (last reset " +:+ num 16%nat +:+ ")")
  | 16 => Some "Stake all permissions (unrestricted staking)"
  | 17 => Some "Program access: all programs (unrestricted CPI)"
  | 18 => Some "Program access: curated set of well-known programs"
  | 19 => Some "All operations except authority management"
  | _ => Some ("Unknown permission " +:+ show_Z permission +:+ " (" +:+ show_nat (length data)
               +:+ " bytes)")
  end%Z.

(** The [while] loop of [decode_actions]: the outer [None] when the fuel runs out, the inner
    one when the source gives up. *)
Fixpoint decode_actions_loop (fuel : nat) (data : bytes) (cursor index : nat) (results : list string)
    : option (option (list string)) :=
  match fuel with
  | O => None
  | S fuel =>
      if decide (cursor + 8 ≤ length data) then
        let permission := le_field 2 data cursor in
        let len := Z.to_nat (le_field 2 data (cursor + 2)) in
        let boundary := Z.to_nat (le_field 4 data (cursor + 4)) in
        let data_start := cursor + 8 in
        let data_end := data_start + len in
        if decide (length data < data_end) then Some None
        else match describe_action permission (sub_bytes data data_start data_end) with
             | None => Some None
             | Some description =>
                 let results :=
                   results ++ ["Action " +:+ show_nat index +:+ ": " +:+ description] in
                 if decide (length data < boundary ∨ boundary < data_end) then Some None
                 else decode_actions_loop fuel data boundary (index + 1) results
             end
      else if decide (cursor ≠ length data) then Some None
      else Some (Some results)
  end.

Definition decode_actions (data : bytes) : option (list string) :=
  if decide (length data = 0) then Some []
  else mjoin (decode_actions_loop (S (length data)) data 0 1 []).

Definition action_detail_rows (label : string) (data : bytes) : list (string * string) :=
  match decode_actions data with
  | Some action_lines =>
      [(label, if decide (length action_lines = 0) then "(none)"
               else str_join newline action_lines)]
  | None => [(label, format_actions_summary data +:+ " (unable to decode)")]
  end
  ++ if decide (length data = 0) then [] else [(label +:+ " (hex)", format_hex data)].

Definition authority_update_rows (details : AuthorityUpdateDetails) : list (string * string) :=
  match details with
  | ReplaceAll b =>
      [("Operation Type", "Replace actions"); ("Actions Summary", format_actions_summary b)]
      ++ action_detail_rows "Updated Actions" b
  | AddActions b =>
      [("Operation Type", "Add actions"); ("Actions Summary", format_actions_summary b)]
      ++ action_detail_rows "Actions To Add" b
  | RemoveActionsByType types =>
      let names := if decide (length types = 0) then "(none)"
                   else str_join ", " ((fun b => permission_name (byte_to_Z b)) <$> types) in
      [("Operation Type", "Remove actions by type"); ("Action Types", names)]
      ++ if decide (length types = 0) then [] else [("Action Type Bytes (hex)", format_hex types)]
  | RemoveActionsByIndex indices =>
      let list := if decide (length indices = 0) then "(none)"
                  else str_join ", " (show_Z <$> indices) in
      [("Operation Type", "Remove actions by index"); ("Action Indices", list)]
      ++ if decide (length indices = 0) then []
         else [("Action Indices (hex)", format_hex (concat (le_bytes 2 <$> indices)))]
  | Legacy b =>
      [("Operation Type", "Legacy payload"); ("Actions Summary", format_actions_summary b)]
      ++ action_detail_rows "Legacy Actions" b
  end.

(** ** Authorities *)

Definition derive_eth_address_from_uncompressed (uncompressed : bytes) : option string :=
  if decide (length uncompressed ≠ 64) then None
  else Some ("0x" +:+ hex_encode (sub_bytes (keccak uncompressed) 12 32)).

Definition evm_address_row (key : bytes) : list (string * string) :=
  match derive_eth_address_from_uncompressed key with
  | Some address => [("Derived EVM Address", address)]
  | None => []
  end.

Definition decode_authority_details (authority_type : Z) (data : bytes)
    : option (list (string * string)) :=
  let exactly (n : nat) rows := if decide (length data ≠ n) then None else Some rows in
  match authority_type with
  | 1 => exactly 32%nat [("Authority Public Key", show_pubkey data)]
  | 2 => exactly 72%nat
           [("Root Authority Public Key", show_pubkey (sub_bytes data 0 32));
            ("Initial Session Key", show_pubkey (sub_bytes data 32 64));
            ("Max Session Length (slots)", show_Z (u64_of data 64))]
  | 3 =>
      if decide (length data = 33)%nat then
        Some [("Secp256k1 Public Key (compressed hex)", hex_encode data)]
      else if decide (length data = 64)%nat then
        Some (("Secp256k1 Public Key (uncompressed hex)", hex_encode data) :: evm_address_row data)
      else if decide (length data = 65)%nat then
        if decide (le_field 1 data 0 ≠ 4) then None
        else Some (("Secp256k1 Public Key (uncompressed hex)", hex_encode (drop 1 data))
                   :: evm_address_row (drop 1 data))
      else None
  | 4 => exactly 104%nat
           ([("Secp256k1 Public Key (uncompressed hex)", hex_encode (sub_bytes data 0 64))]
            ++ evm_address_row (sub_bytes data 0 64)
            ++ [("Session Key (hex)", hex_encode (sub_bytes data 64 96));
                ("Max Session Length (slots)", show_Z (u64_of data 96))])
  | 5 => exactly 33%nat [("Secp256r1 Public Key (compressed hex)", hex_encode data)]
  | 6 => exactly 80%nat
           [("Secp256r1 Public Key (compressed hex)", hex_encode (sub_bytes data 0 33));
            ("Session Key (hex)", hex_encode (sub_bytes data 40 72));
            ("Max Session Length (slots)", show_Z (u64_of data 72))]
  | _ => None
  end%Z.

(** ** Fields *)

Definition make_text_field (label value : string) : result VisualSignError AnnotatedPayloadField :=
  create_text_field label value.

Definition make_rows (rows : list (string * string))
    : result VisualSignError (list AnnotatedPayloadField) :=
  collect_results (fun '(label, value) => make_text_field label value) rows.

Definition hex_row (label : string) (data : bytes) : list (string * string) :=
  if decide (length data = 0) then [] else [(label, format_hex data)].

Definition authority_payload_row (authority_payload : bytes) : list (string * string) :=
  hex_row "Authority Payload (hex)" authority_payload.

Definition format_web_authn_field_order (order : bytes) : string :=
  let names := omap (fun b => match byte_to_Z b with
                              | 1 => Some "type"
                              | 2 => Some "challenge"
                              | 3 => Some "origin"
                              | 4 => Some "crossOrigin"
                              | _ => None
                              end%Z) order in
  if decide (length names = 0) then "None" else str_join ", " names.

Definition format_inner_accounts (accounts : list InnerAccountMeta) : string :=
  if decide (length accounts = 0) then "(none)"
  else str_join newline
         ((fun '(idx, m) =>
             let flags := (if inner_is_signer m then ["signer"] else [])
                          ++ (if inner_is_writable m then ["writable"] else []) in
             let flag_str := if decide (length flags = 0) then ""
                             else " (" +:+ str_join ", " flags +:+ ")" in
             show_nat (idx + 1) +:+ ": " +:+ inner_display m +:+ flag_str)
          <$> enumerate accounts).

(** ** The WebAuthn payload *)

Definition decode_fail {A} (msg : string) : result (crash VisualSignError) A :=
  Err (Fail (DecodeError msg)).

Definition check_len (data : bytes) (n : nat) (msg : string) : result (crash VisualSignError) () :=
  guard (bool_decide (length data < n)) (DecodeError msg).

(** The bits of a byte, most significant first. *)
Definition byte_bits (b : byte) : list bool :=
  (fun i => Z.testbit (byte_to_Z b) i) <$> [7; 6; 5; 4; 3; 2; 1; 0]%Z.

(** The nested loops over bytes and masks, which stop once the origin is complete; nodes
    are three bytes: a type, and the two children or the character. *)
Fixpoint huffman_loop (tree : bytes) (node_count decoded_len : nat) (bits : list bool)
    (current : nat) (decoded : bytes) : result (crash VisualSignError) bytes :=
  match bits with
  | [] => Ok decoded
  | bit :: bits =>
      if decide (length decoded = decoded_len) then Ok decoded
      else
        node_type ← byte_at tree (current * 3);
        _ ← guard (bool_decide (node_type = 0)%Z)
              (DecodeError "Unexpected leaf node in Huffman tree traversal");
        left_or_char ← byte_at tree (current * 3 + 1);
        right ← byte_at tree (current * 3 + 2);
        let next := Z.to_nat (if (bit : bool) then right else left_or_char) in
        _ ← guard (bool_decide (node_count ≤ next))
              (DecodeError "Huffman traversal exceeded node count");
        next_type ← byte_at tree (next * 3);
        if decide (next_type = 0)%Z then
          c ← byte_at tree (next * 3 + 1);
          huffman_loop tree node_count decoded_len bits (node_count - 1) (decoded ++ [byte_of_Z c])
        else huffman_loop tree node_count decoded_len bits next decoded
  end.

Definition decode_huffman_origin (tree_data encoded_data : bytes) (decoded_len : nat)
    : result (crash VisualSignError) string :=
  _ ← guard ((length tree_data =? 0) || negb (length tree_data mod 3 =? 0))
        (DecodeError "Invalid WebAuthn Huffman tree");
  let node_count := length tree_data / 3 in
  decoded ← huffman_loop tree_data node_count decoded_len (concat (byte_bits <$> encoded_data))
              (node_count - 1) [];
  if decide (length decoded ≠ decoded_len) then decode_fail "Decoded origin length mismatch"
  else if utf8_valid (str_of_bytes decoded) then Ok (str_of_bytes decoded)
  else decode_fail "WebAuthn origin contained invalid UTF-8".

Definition decode_webauthn_payload (payload : bytes)
    : result (crash VisualSignError) (list (string * string)) :=
  _ ← check_len payload 6 "WebAuthn payload too short";
  alen ← uint_at 2 payload 2;
  let auth_len := Z.to_nat alen in
  _ ← check_len payload (4 + auth_len + 4 + 2 + 2 + 2) "WebAuthn payload truncated";
  authenticator_data ← slice payload 4 (4 + auth_len);
  let offset := 4 + auth_len in
  field_order ← slice payload offset (offset + 4);
  let offset := offset + 4 in
  _ ← check_len payload (offset + 2) "WebAuthn payload missing origin length";
  olen ← uint_at 2 payload offset;
  let origin_len := Z.to_nat olen in
  let offset := offset + 2 in
  _ ← check_len payload (offset + 2) "WebAuthn payload missing huffman tree length";
  tlen ← uint_at 2 payload offset;
  let huffman_tree_len := Z.to_nat tlen in
  let offset := offset + 2 in
  _ ← check_len payload (offset + 2) "WebAuthn payload missing encoded length";
  elen ← uint_at 2 payload offset;
  let huffman_encoded_len := Z.to_nat elen in
  let offset := offset + 2 in
  _ ← check_len payload (offset + huffman_tree_len + huffman_encoded_len)
        "WebAuthn payload missing huffman data";
  huffman_tree ← slice payload offset (offset + huffman_tree_len);
  huffman_encoded ← slice payload (offset + huffman_tree_len)
                      (offset + huffman_tree_len + huffman_encoded_len);
  origin ← decode_huffman_origin huffman_tree huffman_encoded origin_len;
  Ok [("WebAuthn Authenticator Data (base64)", base64_encode authenticator_data);
      ("WebAuthn Field Order", format_web_authn_field_order field_order);
      ("WebAuthn Origin", origin);
      ("WebAuthn Huffman Tree Length", show_nat huffman_tree_len);
      ("WebAuthn Huffman Encoded Length", show_nat huffman_encoded_len)].

Definition decode_authority_payload (payload : bytes)
    : result (crash VisualSignError) (list (string * string)) :=
  _ ← check_len payload 13 "Authority payload too short";
  slot ← uint_at 8 payload 0;
  counter ← uint_at 4 payload 8;
  instruction_account_index ← byte_at payload 12;
  reserved ← (if decide (17 ≤ length payload) then slice payload 13 17 else Ok []);
  let rows :=
    [("Authority Slot", show_Z slot); ("Authority Counter", show_Z counter);
     ("Authority Instruction Account Index", show_Z instruction_account_index)]
    ++ if existsb (fun b => negb (bool_decide (b = Byte.x00))) reserved
       then [("Authority Reserved (hex)", hex_encode reserved)] else [] in
  if decide (length payload ≤ 17) then Ok rows
  else
    extra ← slice_from payload 17;
    if decide (length extra < 2) then Ok rows
    else
      auth_kind ← uint_at 2 extra 0;
      if decide (auth_kind = 1)%Z then
        more ← decode_webauthn_payload extra;
        Ok (rows ++ ("Authority Authentication Kind", "WebAuthn") :: more)
      else
        Ok (rows ++ [("Authority Authentication Kind", "Unknown (" +:+ show_Z auth_kind +:+ ")")]).

(** ** The fields of each instruction *)

(** The rows of one inner instruction; [idx] counts from zero. *)
Definition inner_rows (idx : nat) (inner : DecodedInnerInstruction) : list (string * string) :=
  let label what := "Inner Instruction " +:+ show_nat (idx + 1) +:+ " " +:+ what in
  let unresolved :=
    omap (fun '(i, a) => match inner_pubkey a with
                         | None => Some (show_nat (i + 1) +:+ ": " +:+ inner_display a)
                         | Some _ => None
                         end) (enumerate (di_accounts inner)) in
  [(label "Summary", di_description inner); (label "Program", di_program_display inner)]
  ++ match di_program_id inner with
     | None =>
         [(label "Program Resolution",
           "Program account supplied via address lookup table; full details require on-chain lookup")]
     | Some _ => []
     end
  ++ [(label "Accounts", format_inner_accounts (di_accounts inner))]
  ++ (if decide (length unresolved = 0) then []
      else [(label "Account Resolution",
             "Unresolved lookup-table accounts:" +:+ newline +:+ str_join newline unresolved)])
  ++ hex_row (label "Data (hex)") (di_data inner).

Definition build_sign_rows (s : SignInstructionDecoded) : list (string * string) :=
  [("Role ID", show_Z (sign_role_id s));
   ("Instruction Payload Length", format_byte_length (instruction_payload_len s));
   ("Inner Instruction Count", show_nat (length (inner_instructions s)))]
  ++ (if decide (length (sign_authority_payload s) = 0) then []
      else authority_payload_row (sign_authority_payload s)
           ++ match decode_authority_payload (sign_authority_payload s) with
              | Ok rows => rows
              | Err _ => []
              end)
  ++ concat ((fun '(idx, inner) => inner_rows idx inner) <$> enumerate (inner_instructions s)).

Definition authority_rows (authority_type : Z) (authority_data actions : bytes)
    : list (string * string) :=
  [("Authority Data Length", format_byte_length (length authority_data))]
  ++ default [] (decode_authority_details authority_type authority_data)
  ++ hex_row "Authority Data (hex)" authority_data
  ++ [("Actions Summary", format_actions_summary actions)]
  ++ action_detail_rows "Actions" actions.

Definition variant_rows (d : SwigInstructionDecoded) : list (string * string) :=
  match d with
  | CreateV1 authority_type bump wallet_address_bump wallet_id authority_data actions =>
      [("Authority Type", authority_type_name authority_type);
       ("Wallet PDA Bump", show_Z bump);
       ("Wallet Address Bump", show_Z wallet_address_bump);
       ("Wallet ID (hex)", hex_encode wallet_id)]
      ++ authority_rows authority_type authority_data actions
  | AddAuthorityV1 acting_role_id new_authority_type num_actions authority_data actions
      authority_payload =>
      [("Acting Role", show_Z acting_role_id);
       ("New Authority Type", authority_type_name new_authority_type);
       ("Declared Action Count", show_Z num_actions)]
      ++ authority_rows new_authority_type authority_data actions
      ++ authority_payload_row authority_payload
  | RemoveAuthorityV1 acting_role_id authority_to_remove_id authority_payload =>
      [("Acting Role", show_Z acting_role_id);
       ("Authority To Remove", show_Z authority_to_remove_id)]
      ++ authority_payload_row authority_payload
  | UpdateAuthorityV1 acting_role_id authority_to_update_id operation authority_payload =>
      [("Acting Role", show_Z acting_role_id);
       ("Authority To Update", show_Z authority_to_update_id)]
      ++ authority_update_rows operation ++ authority_payload_row authority_payload
  | SignV1 s | SignV2 s | SubAccountSignV1 s => build_sign_rows s
  | CreateSessionV1 role_id session_duration session_key authority_payload =>
      [("Role ID", show_Z role_id);
       ("Session Duration", show_Z session_duration +:+ " slots");
       ("Session Key (hex)", hex_encode session_key)]
      ++ authority_payload_row authority_payload
  | CreateSubAccountV1 role_id sub_account_bump authority_payload =>
      [("Role ID", show_Z role_id); ("Sub-Account Bump", show_Z sub_account_bump)]
      ++ authority_payload_row authority_payload
  | WithdrawFromSubAccountV1 role_id amount authority_payload =>
      [("Role ID", show_Z role_id); ("Amount", format_lamports_with_sol amount)]
      ++ authority_payload_row authority_payload
  | ToggleSubAccountV1 target_role_id authority_role_id enabled authority_payload =>
      [("Target Role", show_Z target_role_id); ("Authority Role", show_Z authority_role_id);
       ("Enabled", show_bool enabled)]
      ++ authority_payload_row authority_payload
  | MigrateToWalletAddressV1 wallet_address_bump =>
      [("Wallet Address Bump", show_Z wallet_address_bump)]
  | TransferAssetsV1 role_id authority_payload =>
      [("Role ID", show_Z role_id)] ++ authority_payload_row authority_payload
  | SwigUnknown discriminator raw_data =>
      [("Discriminator", show_Z discriminator); ("Raw Data (hex)", format_hex raw_data)]
  end.

Definition build_variant_fields (d : SwigInstructionDecoded)
    : result VisualSignError (list AnnotatedPayloadField) := make_rows (variant_rows d).
End render.

(** ** Inner instructions *)

Inductive SplAuthorityType : Type := MintTokens | FreezeAccount | AccountOwner | CloseAccountAuthority.

(** The instructions of [spl_token] that get a summary of their own. *)
Inductive TokenInstruction : Type :=
| TokenTransfer (amount : Z)
| TokenTransferChecked (amount decimals : Z)
| TokenMintTo (amount : Z)
| TokenMintToChecked (amount decimals : Z)
| TokenBurn (amount : Z)
| TokenBurnChecked (amount decimals : Z)
| TokenApprove (amount : Z)
| TokenApproveChecked (amount decimals : Z)
| TokenSetAuthority (t : SplAuthorityType) (new_authority : option Pubkey)
| TokenCloseAccount
| TokenSyncNative
| TokenOther.

Definition fallback_summary (common : SignablePayloadFieldCommon) : option string :=
  if is_empty_string (common_fallback_text common) then None else Some (common_fallback_text common).

Definition text_or_fallback (text : string) (common : SignablePayloadFieldCommon) : option string :=
  if is_empty_string text then fallback_summary common else Some text.

Definition summarize_visualized_field (field : AnnotatedPayloadField) : option string :=
  match signable_payload_field field with
  | PreviewLayout common (FieldPreviewLayout title _ _ _) =>
      match title with
      | Some t => text_or_fallback (text_v2_text t) common
      | None => fallback_summary common
      end
  | Text common t => text_or_fallback (text_text t) common
  | TextV2 common t => text_or_fallback (text_v2_text t) common
  | Number common n => text_or_fallback (number_number n) common
  | Amount common a => text_or_fallback (amount_amount a) common
  | AmountV2 common a => text_or_fallback (amount_v2_amount a) common
  | Address common a => text_or_fallback (address_address a) common
  | AddressV2 common a => text_or_fallback (address_v2_address a) common
  | ListLayout common _ | Divider common _ | Unknown common _ | Diagnostic common _ =>
      fallback_summary common
  end.

Section inner_instructions.
Context {H : HexCodec}.
Context (show_pubkey : Pubkey → string) (keccak : bytes → bytes) (base64_encode : bytes → string).
(** [TokenInstruction::unpack], and the amount when the data is a system transfer. *)
Context (unpack_token : bytes → option TokenInstruction) (system_transfer : bytes → option Z).
Context (spl_token_id system_program_id : Pubkey).
(** The visualizers of the crate before and after this one. *)
Context (before after : list InstructionVisualizer).

Definition lines (l : list (string * string)) : string :=
  str_join newline ((fun '(k, v) => k +:+ ": " +:+ v) <$> l).

Definition format_token_instruction_summary (ix : TokenInstruction)
    (accounts : list InnerAccountMeta) : option string :=
  let account_label idx fallback := default fallback (inner_display <$> accounts !! idx) in
  match ix with
  | TokenTransfer amount =>
      Some (lines [("From", account_label 0 "Source"); ("To", account_label 1 "Destination");
                   ("Owner", account_label 2 "Owner"); ("Amount", show_Z amount)])
  | TokenTransferChecked amount decimals =>
      Some (lines [("From", account_label 0 "Source"); ("To", account_label 2 "Destination");
                   ("Owner", account_label 3 "Owner"); ("Amount", show_Z amount);
                   ("Mint", account_label 1 "Mint"); ("Decimals", show_Z decimals)])
  | TokenMintTo amount =>
      Some (lines [("Mint", account_label 0 "Mint"); ("Destination", account_label 1 "Destination");
                   ("Authority", account_label 2 "Authority"); ("Amount", show_Z amount)])
  | TokenMintToChecked amount decimals =>
      Some (lines [("Mint", account_label 0 "Mint"); ("Destination", account_label 1 "Destination");
                   ("Authority", account_label 2 "Authority"); ("Amount", show_Z amount);
                   ("Decimals", show_Z decimals)])
  | TokenBurn amount =>
      Some (lines [("Source", account_label 0 "Source"); ("Mint", account_label 1 "Mint");
                   ("Authority", account_label 2 "Authority"); ("Amount", show_Z amount)])
  | TokenBurnChecked amount decimals =>
      Some (lines [("Source", account_label 0 "Source"); ("Mint", account_label 1 "Mint");
                   ("Authority", account_label 2 "Authority"); ("Amount", show_Z amount);
                   ("Decimals", show_Z decimals)])
  | TokenApprove amount =>
      Some (lines [("Owner", account_label 0 "Owner"); ("Delegate", account_label 1 "Delegate");
                   ("Amount", show_Z amount)])
  | TokenApproveChecked amount decimals =>
      Some ("SPL Token: approve checked for " +:+ show_Z amount +:+ " (" +:+ show_Z decimals
            +:+ " decimals)")
  | TokenSetAuthority t new_authority =>
      let authority_type := match t with
                            | AccountOwner => "AccountOwner"
                            | CloseAccountAuthority => "CloseAccount"
                            | FreezeAccount => "FreezeAccount"
                            | MintTokens => "MintTokens"
                            end in
      Some (lines [("Account", account_label 0 "Account"); ("Authority Type", authority_type);
                   ("New Authority", default "None" (show_pubkey <$> new_authority))])
  | TokenCloseAccount =>
      Some (lines [("Account", account_label 0 "Account");
                   ("Destination", account_label 1 "Destination");
                   ("Authority", account_label 2 "Authority")])
  | TokenSyncNative =>
      Some (lines [("Account", account_label 0 "Account"); ("Action", "Sync Native")])
  | TokenOther => None
  end.

Definition format_native_sol_transfer (accounts : list InnerAccountMeta) (lamports : Z) : string :=
  lines [("From", default "Source" (inner_display <$> accounts !! 0));
         ("To", default "Destination" (inner_display <$> accounts !! 1));
         ("Amount", show_Z lamports)].

Definition build_inner_instruction (pid : Pubkey) (accounts : list InnerAccountMeta) (data : bytes)
    : option Instruction :=
  metas ← mapM (fun m => pk ← inner_pubkey m;
                         Some (if inner_is_writable m then AccountMeta_new pk (inner_is_signer m)
                               else AccountMeta_new_readonly pk (inner_is_signer m))) accounts;
  Some (MkInstruction pid metas data).

(** The context an inner instruction is visualised in: its program first, then its accounts. *)
Definition inner_context (ix : Instruction) (parent_depth : nat) : VisualizerContext :=
  let keys := ix_program_id ix :: (meta_pubkey <$> ix_accounts ix) in
  let sender := MkSolanaAccount (show_pubkey (default (ix_program_id ix) (keys !! 1))) false false in
  with_call_depth (saturating_succ parent_depth)
    (VisualizerContext_new sender
       (MkCompiledInstruction 0 (seq 1 (length (ix_accounts ix))) (ix_data ix)) keys 0).

Definition visualize_inner_instruction (visualizers : list InstructionVisualizer)
    (ix : Instruction) (parent_depth : nat) : option string :=
  if decide (255 < length (ix_accounts ix)) then None
  else
    match visualize_with_any visualizers (inner_context ix parent_depth) with
    | Some (Ok r) =>
        if decide (vr_kind r = Payments "UnknownProgram" ∨ vr_kind r = Payments "SplToken")
        then None
        else summarize_visualized_field (vr_field r)
    | _ => None
    end.

Definition describe_inner_instruction (visualizers : list InstructionVisualizer)
    (parent_depth : nat) (pid : option Pubkey) (program_display : string) (data : bytes)
    (accounts : list InnerAccountMeta) : string :=
  let fallback := "Program " +:+ program_display +:+ " (" +:+ show_nat (length data) +:+ " bytes)" in
  match pid with
  | None => fallback
  | Some pid =>
      match (ix ← build_inner_instruction pid accounts data;
             visualize_inner_instruction visualizers ix parent_depth) with
      | Some summary => summary
      | None =>
          if decide (pid = spl_token_id) then
            default fallback (ix ← unpack_token data; format_token_instruction_summary ix accounts)
          else if decide (pid = system_program_id) then
            match system_transfer data with
            | Some lamports => format_native_sol_transfer accounts lamports
            | None => fallback
            end
          else fallback
      end
  end.

(** ** The visualizer *)

Definition preview (instruction_number : nat) (fallback summary : string)
    (expanded : list AnnotatedPayloadField) (condensed : list AnnotatedPayloadField)
    : AnnotatedPayloadField :=
  Annotated
    (PreviewLayout (Common fallback ("Instruction " +:+ show_nat instruction_number))
       (FieldPreviewLayout (Some (FieldTextV2 summary))
          (Some (FieldTextV2 "Swig wallet instruction"))
          (Some (FieldListLayout condensed)) (Some (FieldListLayout expanded))))
    None None.

Definition nested_too_deeply_field (instruction_number depth : nat)
    : result VisualSignError AnnotatedPayloadField :=
  let summary := "Swig: Nested too deeply (depth " +:+ show_nat depth +:+ ", limit "
                 +:+ show_nat MAX_CALL_DEPTH +:+ ")" in
  condensed ← make_rows [("Instruction", summary)];
  expanded ← make_rows [("Instruction Type", "Nested Too Deeply");
                        ("Nesting Depth", show_nat depth);
                        ("Nesting Depth Limit", show_nat MAX_CALL_DEPTH)];
  Ok (preview instruction_number summary summary expanded condensed).

(** The decoder of an instruction at a depth, over the visualizers of its inner ones. *)
Definition swig_parse_at (visualizers : list InstructionVisualizer) (depth : nat) (data : bytes)
    (accounts : list AccountMeta) : result SwigParseError SwigInstructionDecoded :=
  run_safe (parse_swig_instruction show_pubkey (describe_inner_instruction visualizers depth)
              data accounts)
    (safe_swig show_pubkey (describe_inner_instruction visualizers depth) data accounts).

(** [visualize_tx_commands] over the visualizers that inner instructions go to. *)
Definition swig_body (visualizers : list InstructionVisualizer) (c : VisualizerContext)
    : result VisualSignError AnnotatedPayloadField :=
  let instruction_number := instruction_index c + 1 in
  if decide (MAX_CALL_DEPTH ≤ call_depth c) then
    nested_too_deeply_field instruction_number (call_depth c)
  else
    accounts ← collect_results (resolve_account "swig: " c) (seq 0 (num_accounts c));
    decoded ← map_err (fun e => DecodeError (show_swig_error e))
                (swig_parse_at visualizers (call_depth c) (context_data c) accounts);
    let program_id_str := show_program show_pubkey (program_id c) in
    let summary := swig_summary decoded in
    head ← make_rows [("Program ID", program_id_str); ("Instruction Type", swig_name decoded)];
    fields ← build_variant_fields show_pubkey keccak base64_encode decoded;
    condensed ← make_rows [("Instruction", summary)];
    Ok (preview instruction_number
          ("Program ID: " +:+ program_id_str +:+ newline +:+ "Data: "
           +:+ hex_encode (context_data c))
          summary (head ++ fields) condensed).

Definition swig_config : SolanaIntegrationConfigData :=
  {["swigypWHEksbC64pWKwah1WTeh9JXwx8H1rJHLdbQMB" := {["*" := ["*"]]}]}.

Definition swig_visualizer (visualize : VisualizerContext → result VisualSignError AnnotatedPayloadField)
    : InstructionVisualizer :=
  MkVisualizer visualize (Some swig_config) (Payments "Swig Wallet")
    (default_can_handle show_pubkey (Some swig_config)).

(** The visualizer re-enters itself through the list of all visualizers. *)
Fixpoint swig_visualize (fuel : nat) (c : VisualizerContext)
    : result VisualSignError AnnotatedPayloadField :=
  match fuel with
  | O => swig_body (before ++ after) c
  | S fuel => swig_body (before ++ [swig_visualizer (swig_visualize fuel)] ++ after) c
  end.

(** The list [available_visualizers] returns, this visualizer among the others. *)
Definition SwigWalletVisualizer : InstructionVisualizer :=
  swig_visualizer (swig_visualize MAX_CALL_DEPTH).

Definition available_visualizers : list InstructionVisualizer :=
  before ++ [SwigWalletVisualizer] ++ after.
End inner_instructions.

(** ** Termination of the loops over actions *)

(** Each turn moves the cursor forward by at least eight bytes, so a fuel above the number of
    bytes left is enough. *)
Lemma count_loop_enough fuel data cursor count :
  length data - cursor < fuel → is_Some (count_loop fuel data cursor count).
Proof.
  revert cursor count. induction fuel as [|fuel IH]; intros cursor count Hf; [lia|].
  cbn [count_loop]. case_decide; [|by eexists]. case_decide; [by eexists|]. apply IH. lia.
Qed.

Lemma decode_actions_enough show_pubkey fuel data cursor index results :
  length data - cursor < fuel →
  is_Some (decode_actions_loop show_pubkey fuel data cursor index results).
Proof.
  revert cursor index results. induction fuel as [|fuel IH]; intros cursor index results Hf; [lia|].
  cbn [decode_actions_loop]. case_decide; [|case_decide; by eexists].
  case_decide; [by eexists|]. destruct (describe_action _ _ _); [|by eexists].
  case_decide; [by eexists|]. apply IH. lia.
Qed.

(** ** The authority payload does not panic *)

Section payload_safety.
Context {H : HexCodec} (base64_encode : bytes → string).

Lemma safe_huffman_loop tree n decoded_len bits current decoded :
  length tree = n * 3 → current < n →
  safe (huffman_loop tree n decoded_len bits current decoded).
Proof.
  intros Ht. revert current decoded. induction bits as [|bit bits IH]; intros current decoded Hc; [done|].
  cbn [huffman_loop]. case_decide; [done|]. safely.
  all: repeat match goal with
    | H : guard _ _ = Ok _ |- _ => apply guard_Ok, bool_decide_eq_false in H
    end.
  case_decide; [apply safe_bind; [apply safe_byte_at; lia|intros ? _]|]; apply IH; lia.
Qed.

Lemma safe_huffman_origin tree encoded n : safe (decode_huffman_origin tree encoded n).
Proof.
  unfold decode_huffman_origin. apply safe_bind; [apply safe_guard|].
  intros _ [Hne Hmod]%guard_Ok%orb_false_iff.
  apply negb_false_iff, Nat.eqb_eq in Hmod. apply Nat.eqb_neq in Hne.
  assert (length tree = length tree / 3 * 3) as Ht by (pose proof (Nat.div_mod_eq (length tree) 3); lia).
  apply safe_bind; [apply safe_huffman_loop; lia|]. intros d _.
  case_decide; [done|]. by destruct (utf8_valid _).
Qed.

Lemma safe_webauthn payload : safe (decode_webauthn_payload base64_encode payload).
Proof.
  unfold decode_webauthn_payload, check_len.
  repeat first [apply safe_huffman_origin|safe_step].
Qed.

Lemma safe_authority_payload payload : safe (decode_authority_payload base64_encode payload).
Proof.
  unfold decode_authority_payload, check_len. safely.
  { destruct (decide (17 ≤ length payload)); [apply safe_slice; lia|done]. }
  destruct (decide (length payload ≤ 17)); [done|].
  apply safe_bind; [apply safe_slice_from; lia|intros extra _].
  destruct (decide (length extra < 2)); [done|].
  apply safe_bind; [apply safe_uint_at; lia|intros k _].
  destruct (decide (k = 1%Z)); [|done]. apply safe_bind; [apply safe_webauthn|done].
Qed.
End payload_safety.

(** ** The recursion through inner instructions *)

Lemma run_safe_eq {E A} (m m' : result (crash E) A) Hm Hm' :
  m = m' → run_safe m Hm = run_safe m' Hm'.
Proof. intros <-. destruct m as [a|[e|]]; [done|done|]. by destruct (Hm eq_refl). Qed.

Section describe_ext.
Context (show_pubkey : Pubkey → string).
Context (describe describe' : option Pubkey → string → bytes → list InnerAccountMeta → string).
Context (Hext : ∀ p s d a, describe p s d a = describe' p s d a).

Lemma compact_loop_ext n p a c :
  decode_compact_loop show_pubkey describe n p a c =
  decode_compact_loop show_pubkey describe' n p a c.
Proof.
  revert c. induction n as [|n IH]; intros c; [done|]. cbn [decode_compact_loop].
  assert (decode_compact_one show_pubkey describe p a c = decode_compact_one show_pubkey describe' p a c)
    as ->.
  { unfold decode_compact_one. repeat (match goal with |- ?m ≫= _ = ?m ≫= _ =>
      destruct m as [?|?]; [cbn [mbind result_bind]|done] end). by rewrite Hext. }
  destruct (decode_compact_one show_pubkey describe' p a c) as [[i c']|]; cbn [mbind result_bind];
    [by rewrite IH|done].
Qed.

Lemma parse_swig_ext data accounts :
  parse_swig_instruction show_pubkey describe data accounts =
  parse_swig_instruction show_pubkey describe' data accounts.
Proof.
  assert (∀ h, parse_sign_instruction show_pubkey describe data h accounts =
    parse_sign_instruction show_pubkey describe' data h accounts) as Hs.
  { intros h. unfold parse_sign_instruction, decode_compact_instructions.
    repeat (match goal with |- ?m ≫= _ = ?m ≫= _ =>
      destruct m as [?|?]; [cbn [mbind result_bind]|done] end).
    case_match; [done|]. by rewrite compact_loop_ext. }
  unfold parse_swig_instruction. by rewrite !Hs.
Qed.
End describe_ext.

Section recursion.
Context {H : HexCodec}.
Context (show_pubkey : Pubkey → string) (keccak : bytes → bytes) (base64_encode : bytes → string).
Context (unpack_token : bytes → option TokenInstruction) (system_transfer : bytes → option Z).
Context (spl_token_id system_program_id : Pubkey).
Context (before after : list InstructionVisualizer).

Local Abbreviation body := (swig_body show_pubkey keccak base64_encode unpack_token system_transfer
                              spl_token_id system_program_id).
Local Abbreviation visualize := (swig_visualize show_pubkey keccak base64_encode unpack_token
                                   system_transfer spl_token_id system_program_id before after).

(** The body only uses its visualizers one level deeper, and not at all at the bound. *)
Lemma swig_body_ext vs vs' c :
  (call_depth c < MAX_CALL_DEPTH → ∀ c', call_depth c' = S (call_depth c) →
     visualize_with_any vs c' = visualize_with_any vs' c') →
  body vs c = body vs' c.
Proof.
  intros Hvs. unfold swig_body. case_decide as Hd; [done|].
  destruct (collect_results _ _) as [accounts|]; [|done]. cbn [mbind result_bind].
  assert (swig_parse_at show_pubkey unpack_token system_transfer spl_token_id system_program_id vs
      (call_depth c) (context_data c) accounts =
    swig_parse_at show_pubkey unpack_token system_transfer spl_token_id system_program_id vs'
      (call_depth c) (context_data c) accounts) as ->; [|done].
  apply run_safe_eq, parse_swig_ext. intros pid s d a. unfold describe_inner_instruction.
  destruct pid as [pid|]; [|done]. destruct (build_inner_instruction pid a d) as [ix|]; [|done].
  cbn [mbind option_bind].
  assert (visualize_inner_instruction show_pubkey vs ix (call_depth c) =
    visualize_inner_instruction show_pubkey vs' ix (call_depth c)) as ->; [|done].
  unfold visualize_inner_instruction. rewrite Hvs; [done|lia|].
  unfold inner_context, with_call_depth, saturating_succ. cbn [call_depth].
  rewrite decide_True; [done|]. unfold MAX_CALL_DEPTH in Hd. lia.
Qed.

Lemma visualizers_ext f f' c :
  f c = f' c →
  visualize_with_any (before ++ [swig_visualizer show_pubkey f] ++ after) c =
  visualize_with_any (before ++ [swig_visualizer show_pubkey f'] ++ after) c.
Proof.
  intros Hf. apply visualize_with_any_ext.
  assert (∀ l, Forall2 (fun v w => can_handle v c = can_handle w c ∧ kind v = kind w ∧
    visualize_tx_commands v c = visualize_tx_commands w c) l l) as Hl.
  { induction l; by constructor. }
  apply Forall2_app, Forall2_app; auto.
Qed.

(** Enough fuel for the levels left below a context. *)
Lemma swig_visualize_fuel c : ∀ fuel fuel',
  MAX_CALL_DEPTH - call_depth c ≤ fuel → MAX_CALL_DEPTH - call_depth c ≤ fuel' →
  visualize fuel c = visualize fuel' c.
Proof.
  remember (MAX_CALL_DEPTH - call_depth c) as n eqn:Hn. revert c Hn.
  induction n as [|n IH]; intros c Hn fuel fuel' Hf Hf'.
  - destruct fuel, fuel'; cbn [swig_visualize]; apply swig_body_ext; lia.
  - destruct fuel as [|fuel]; [lia|]. destruct fuel' as [|fuel']; [lia|].
    cbn [swig_visualize]. apply swig_body_ext. intros Hd c' Hc'. apply visualizers_ext.
    apply IH; lia.
Qed.
End recursion.

(** ** Properties *)

(** The visualizer terminates on every instruction, nested in itself however deeply: with
    four levels of unfolding it already satisfies the recursive definition of the code, in
    which inner instructions go to the list of all visualizers, itself included. *)
Theorem swig_recursion_bounded (H : HexCodec) show_pubkey keccak base64_encode unpack_token
    system_transfer spl_token_id system_program_id before after c :
  let available := available_visualizers show_pubkey keccak base64_encode unpack_token
                     system_transfer spl_token_id system_program_id before after in
  visualize_tx_commands
    (SwigWalletVisualizer show_pubkey keccak base64_encode unpack_token system_transfer
       spl_token_id system_program_id before after) c =
  swig_body show_pubkey keccak base64_encode unpack_token system_transfer spl_token_id
    system_program_id available c.
Proof.
  cbn zeta. cbn [visualize_tx_commands SwigWalletVisualizer swig_visualizer].
  rewrite (swig_visualize_fuel _ _ _ _ _ _ _ _ _ c MAX_CALL_DEPTH (S MAX_CALL_DEPTH)) by lia.
  done.
Qed.

(** At the depth limit a Swig instruction is never decoded: whatever its data and
    accounts, the field says it is nested too deeply. *)
Theorem swig_depth_limit (H : HexCodec) show_pubkey keccak base64_encode unpack_token
    system_transfer spl_token_id system_program_id vs c :
  MAX_CALL_DEPTH ≤ call_depth c →
  ∃ f, swig_body show_pubkey keccak base64_encode unpack_token system_transfer spl_token_id
         system_program_id vs c = Ok f ∧
    summarize_visualized_field f =
      Some ("Swig: Nested too deeply (depth " +:+ show_nat (call_depth c) +:+ ", limit 4)").
Proof.
  intros Hd. unfold swig_body. rewrite decide_True by done. eexists. split; [reflexivity|]. reflexivity.
Qed.

Lemma swig_depth_limit_witness :
  ∃ f, @swig_body hex_ref (fun _ => "key") (fun b => b) (fun _ => "") (fun _ => None) (fun _ => None)
         [] [] [] (with_call_depth 4 sample_context) = Ok f ∧
    summarize_visualized_field f = Some "Swig: Nested too deeply (depth 4, limit 4)".
Proof.
  apply (swig_depth_limit hex_ref (fun _ => "key") (fun b => b) (fun _ => "") (fun _ => None)
    (fun _ => None) [] [] [] (with_call_depth 4 sample_context)). by vm_compute.
Defined.

(** The loops over packed actions terminate: a fuel of one more than the number of bytes
    is never used up, for the decoder and for the counter. *)
Theorem action_loops_terminate show_pubkey data :
  is_Some (decode_actions_loop show_pubkey (S (length data)) data 0 1 []) ∧
  is_Some (count_loop (S (length data)) data 0 0).
Proof. split; [apply decode_actions_enough|apply count_loop_enough]; lia. Qed.

(** Decoding the authority payload of a signed instruction, its WebAuthn part and the
    Huffman coded origin included, never panics, whatever the bytes. *)
Theorem authority_payload_no_panic (H : HexCodec) base64_encode payload :
  decode_authority_payload base64_encode payload ≠ Err Panic.
Proof. apply safe_authority_payload. Qed.

(** Permissions 17 to 19 are described when they are granted, but are shown as Unknown
    when they are removed. *)
Theorem removed_permissions_unnamed show_pubkey p data :
  (17 ≤ p ≤ 19)%Z →
  permission_name p = "Unknown" ∧
  ∃ s, describe_action show_pubkey p data = Some s ∧ starts_with "Unknown" s = false.
Proof.
  intros Hp. assert (p = 17 ∨ p = 18 ∨ p = 19)%Z as [->|[->| ->]] by lia;
    (split; [done|]); eexists; split; reflexivity.
Qed.

Lemma removed_permissions_unnamed_witness :
  permission_name 17 = "Unknown".
Proof. apply (removed_permissions_unnamed (fun _ => "") 17 []). lia. Defined.
