(* ===== verification/PlainText.v ===== *)
(** * Texts that are safe to show

    A renderer keeps its payload acceptable by showing only texts of a fixed character set.
    [line] is printable ASCII without the backslash, [plain] also allows line feeds, and
    [shown] is what the gate of [Charset] accepts on one line. The lemmas carry these through
    concatenation, the decimal and hex texts, and the field builders, so that a renderer is
    proved clean by applying hints. *)

From S2P Require Import Prelude Json Payload Errors Charset External DecimalText Encodings Builders Lamports.

Create HintDb plain.

(** ** Character sets *)

Definition line_byte (c : Ascii.ascii) : bool := in_range 32 126 c && negb (is_backslash c).
Definition plain_byte (c : Ascii.ascii) : bool := clean_char c && negb (is_backslash c).
Definition printable (c : Ascii.ascii) : bool := in_range 32 126 c.

Definition line (s : string) : Prop := str_all line_byte s = true.
Definition plain (s : string) : Prop := str_all plain_byte s = true.
Definition shown (s : string) : Prop := clean s = true ∧ str_all printable s = true.

#[export] Instance line_dec s : Decision (line s) := _.
#[export] Instance plain_dec s : Decision (plain s) := _.
#[export] Instance shown_dec s : Decision (shown s) := _.

Lemma line_plain s : line s → plain s.
Proof. apply str_all_impl. intros c. ascii_cases c; done. Qed.

Lemma plain_clean_from s : plain s → clean_from false s = true.
Proof.
  induction s as [|c s IH]; [done|]. unfold plain. cbn [str_all clean_from].
  intros [[Hc Hb]%andb_true_iff Hs]%andb_true_iff.
  rewrite Hc, andb_false_l. cbn. destruct (is_backslash c); [done|]. by apply IH.
Qed.

Lemma plain_clean s : plain s → clean s = true.
Proof. apply plain_clean_from. Qed.

Lemma line_shown s : line s → shown s.
Proof.
  intros Hs. split; [by apply plain_clean, line_plain|].
  revert Hs. apply str_all_impl. intros c [? _]%andb_true_iff. done.
Qed.

Lemma shown_clean s : shown s → clean s = true.
Proof. by intros []. Qed.

Lemma line_app s t : line s → line t → line (s +:+ t).
Proof. unfold line. rewrite str_all_app. by intros -> ->. Qed.

Lemma plain_app s t : plain s → plain t → plain (s +:+ t).
Proof. unfold plain. rewrite str_all_app. by intros -> ->. Qed.

Lemma plain_join sep l : plain sep → Forall plain l → plain (str_join sep l).
Proof.
  intros Hsep. induction 1 as [|s l Hs Hl IH]; [done|]. destruct l as [|t l]; [done|].
  change (str_join sep (s :: t :: l)) with (s +:+ sep +:+ str_join sep (t :: l)).
  by repeat apply plain_app.
Qed.

Lemma line_concat l : Forall line l → line (str_concat l).
Proof. induction 1; [done|]. by apply line_app. Qed.

Lemma line_sub P s : (∀ c, P c = true → line_byte c = true) → str_all P s = true → line s.
Proof. apply str_all_impl. Qed.

Lemma line_digits s : str_all is_ascii_digit s = true → line s.
Proof. apply line_sub. intros c. ascii_cases c; done. Qed.

Lemma line_hexdigits s : str_all is_ascii_hexdigit s = true → line s.
Proof. apply line_sub. intros c. ascii_cases c; done. Qed.

Lemma line_show_Z z : line (show_Z z).
Proof. eapply line_sub, show_Z_number_text. intros c. ascii_cases c; done. Qed.

Lemma line_show_nat n : line (show_nat n).
Proof.
  unfold show_nat, pretty, pretty_nat. destruct n as [|n]; [done|]. cbn. apply line_digits.
  by apply pretty_N_go_digits.
Qed.

Lemma line_hex_of_bytes bs : line (hex_of_bytes bs).
Proof. apply line_hexdigits, hex_of_bytes_digits. Qed.

Lemma str_join_concat l : str_join "" l = str_concat l.
Proof.
  induction l as [|s [|t l] IH]; [done|cbn; by rewrite str_app_nil_r|].
  change (str_join "" (s :: t :: l)) with (s +:+ "" +:+ str_join "" (t :: l)).
  by rewrite IH.
Qed.

Lemma line_default_hex data : line (default_hex_representation data).
Proof.
  unfold default_hex_representation. rewrite str_join_concat. apply line_hex_of_bytes.
Qed.

Lemma default_hex_encode {H : HexCodec} data : default_hex_representation data = hex_encode data.
Proof. rewrite hex_encode_lower. unfold default_hex_representation. apply str_join_concat. Qed.

(** Closed texts are checked by evaluation. *)
Ltac closed_line :=
  lazymatch goal with
  | |- line ?s =>
      assert_fails (has_evar s);
      assert_fails (idtac; match s with context [?x] => is_var x end);
      vm_compute; reflexivity
  end.

#[export] Hint Resolve line_app line_show_Z line_show_nat line_hex_of_bytes line_default_hex : plain.
#[export] Hint Resolve plain_app line_plain line_shown : plain.
#[export] Hint Extern 1 (line _) => closed_line : plain.

(** ** Fields *)

Section fields.
Context (P : string → Prop).

(** Every text of the field, nested fields included, satisfies [P]. *)
Definition texts_ok (f : SignablePayloadField) : Prop := Forall P (field_texts f).

Lemma text_field_ok label text a :
  create_text_field label text = Ok a → P label → P text → texts_ok (signable_payload_field a).
Proof. intros [= <-] ??. unfold texts_ok. cbn. by repeat constructor. Qed.

Lemma address_field_ok label addr a :
  create_address_field label addr None None None None = Ok a →
  P "" → P label → P addr → texts_ok (signable_payload_field a).
Proof. intros [= <-] ???. unfold texts_ok. cbn. by repeat constructor. Qed.

Lemma raw_data_field_ok data o a :
  create_raw_data_field data o = Ok a →
  P "Raw Data" → P (default (default_hex_representation data) o) →
  texts_ok (signable_payload_field a).
Proof. intros [= <-] ??. unfold texts_ok. cbn. by repeat constructor. Qed.

Lemma diagnostic_field_ok rule domain level message i :
  P rule → P domain → P (severity_as_str level) → P message →
  P (severity_as_str level +:+ ": " +:+ message) →
  texts_ok (signable_payload_field (create_diagnostic_field rule domain level message i)).
Proof. intros. unfold texts_ok. cbn. by repeat constructor. Qed.

Context {E : RegexEngine}.

Lemma amount_field_ok label amount abbreviation a :
  create_amount_field label amount abbreviation = Ok a →
  P label → P amount → P abbreviation → P (amount +:+ " " +:+ abbreviation) →
  texts_ok (signable_payload_field a).
Proof.
  unfold create_amount_field. intros (b & _ & Ha)%result_bind_Ok.
  destruct (is_empty_string abbreviation); [done|]. injection Ha as <-.
  intros. unfold texts_ok. cbn. by repeat constructor.
Qed.

Lemma number_field_ok label number unit a :
  create_number_field label number unit = Ok a →
  P label → P number → P (if is_empty_string unit then number else number +:+ " " +:+ unit) →
  texts_ok (signable_payload_field a).
Proof.
  intros [_ ->]%create_number_field_ok ???. unfold texts_ok. cbn. by repeat constructor.
Qed.
End fields.

Lemma texts_ok_weaken (P Q : string → Prop) f :
  (∀ s, P s → Q s) → texts_ok P f → texts_ok Q f.
Proof. intros H Hf. eapply Forall_impl; [exact Hf|exact H]. Qed.

(** A number the builders accept is made of signs, digits and dots. *)
Lemma signed_proper_line n : signed_proper n → line n.
Proof.
  intros (sg & i & f & -> & Hsg & [_ Hi] & Hf). apply line_app.
  - by destruct Hsg as [->|[->| ->]].
  - apply line_app; [by apply line_digits|]. destruct Hf as [->|(d & -> & _ & Hd)]; [done|].
    apply line_app; [done|by apply line_digits].
Qed.
