(* ===== verification/NearText.v ===== *)
(** * NEAR: display texts and networks

    [fmt.rs] and [networks.rs] of [chain_parsers/visualsign-near]: the filter every
    caller-supplied text goes through, the fixed-point formatting of balances and gas, and
    the network an input is resolved to. *)

From S2P Require Import Prelude Panic Json Payload Errors Charset DecimalText Builders Lamports PlainText Proto.

(** ** The character filter *)

Definition ELIDED : Ascii.ascii := "?".

(** The [char]s of a UTF-8 text start at the bytes that do not continue another one. *)
Fixpoint charset_safe (text : string) : string :=
  match text with
  | "" => ""
  | String c rest =>
      if is_cont c then charset_safe rest
      else String (if (code c =? 32) || (is_ascii_graphic c && negb (is_backslash c))
                   then c else ELIDED) (charset_safe rest)
  end.

(** The number of [char]s of a text. *)
Fixpoint count_chars (s : string) : nat :=
  match s with
  | "" => 0
  | String c s => if is_cont c then count_chars s else S (count_chars s)
  end.

(** ** Fixed-point amounts *)

Section fixed.
Context {E : Type}.

(** [10u128.pow(decimals)], which panics on overflow in the checked build; where it does
    not, the unchecked build computes the same number. *)
Definition u128_pow10 (decimals : N) : result (crash E) Z :=
  let scale := (10 ^ Z.of_N decimals)%Z in
  if decide (scale < 2 ^ 128)%Z then Ok scale else Err Panic.

(** The text for a scale of [10 ^ decimals]; [{:0width$}] pads to the width. *)
Definition fixed_text (units : N) (scale : Z) (decimals : N) : string :=
  let whole := (Z.of_N units `div` scale)%Z in
  let frac := (Z.of_N units `mod` scale)%Z in
  if decide (frac = 0)%Z then show_Z whole
  else
    let frac_str := pad_left (N.to_nat decimals) (show_Z frac) in
    show_Z whole +:+ "." +:+ strip_trailing "0" frac_str.

Definition format_fixed (units decimals : N) : result (crash E) string :=
  scale ← u128_pow10 decimals;
  Ok (fixed_text units scale decimals).

Definition format_near (yocto : N) : result (crash E) string := format_fixed yocto 24.
Definition format_tgas (gas : N) : result (crash E) string := format_fixed gas 12.

Lemma u128_pow10_Ok d : (d ≤ 38)%N → u128_pow10 d = Ok (10 ^ Z.of_N d)%Z.
Proof.
  intros Hd. unfold u128_pow10. rewrite decide_True; [done|].
  apply Z.le_lt_trans with (10 ^ 38)%Z; [apply Z.pow_le_mono_r; lia|done].
Qed.

Lemma format_fixed_Ok u d :
  (d ≤ 38)%N → format_fixed u d = Ok (fixed_text u (10 ^ Z.of_N d) d).
Proof. intros Hd. unfold format_fixed. by rewrite u128_pow10_Ok. Qed.
End fixed.

(** ** Networks *)

Inductive NearNetwork : Type := Mainnet | Testnet.

#[export] Instance NearNetwork_eq_dec : EqDecision NearNetwork.
Proof. solve_decision. Defined.

Definition NearNetwork_default : NearNetwork := Mainnet.

Definition display_name (n : NearNetwork) : string :=
  match n with Mainnet => "NEAR Mainnet" | Testnet => "NEAR Testnet" end.

Definition network_id (n : NearNetwork) : string :=
  match n with Mainnet => "NEAR_MAINNET" | Testnet => "NEAR_TESTNET" end.

(** The [Debug] text. *)
Definition debug_network (n : NearNetwork) : string :=
  match n with Mainnet => "Mainnet" | Testnet => "Testnet" end.

Definition from_network_id (id : string) : option NearNetwork :=
  let u := to_uppercase id in
  if decide (u = "NEAR_MAINNET") then Some Mainnet
  else if decide (u = "NEAR_TESTNET") then Some Testnet
  else None.

Definition network_mismatch (role account_id : string) (network : NearNetwork) : option string :=
  let mismatched :=
    match network with
    | Mainnet => ends_with ".testnet" account_id
    | Testnet => ends_with ".near" account_id
    end in
  if mismatched then
    Some (role +:+ " account '" +:+ account_id +:+ "' does not match resolved network "
          +:+ debug_network network)
  else None.

Definition extract_network_from_metadata (chain_metadata : option ChainMetadata)
    : result VisualSignError (option NearNetwork) :=
  match chain_metadata with
  | None => Ok None
  | Some metadata =>
      match cm_metadata metadata with
      | Some (NearM near_metadata) =>
          match near_network_id near_metadata with
          | None => Ok None
          | Some id =>
              match from_network_id id with
              | Some n => Ok (Some n)
              | None => Err (ValidationError ("Invalid NEAR network_id: " +:+ id))
              end
          end
      | _ => Ok None
      end
  end.

(** ** Facts about the filter *)

Lemma charset_safe_line s : line (charset_safe s).
Proof.
  induction s as [|c s IH]; [done|]. cbn [charset_safe]. destruct (is_cont c); [done|].
  unfold line. cbn [str_all]. rewrite IH, andb_true_r. clear IH. ascii_cases c; reflexivity.
Qed.

Lemma charset_safe_id s : line s → charset_safe s = s.
Proof.
  induction s as [|c s IH]; [done|]. unfold line. cbn [str_all charset_safe].
  intros [Hc Hs]%andb_true_iff. rewrite (IH Hs).
  assert (is_cont c = false ∧
    ((code c =? 32) || (is_ascii_graphic c && negb (is_backslash c))) = true) as [-> ->]; [|done].
  revert Hc. ascii_cases c; done.
Qed.

Lemma charset_safe_length s : String.length (charset_safe s) = count_chars s.
Proof.
  induction s as [|c s IH]; [done|]. cbn [charset_safe count_chars].
  destruct (is_cont c); [done|]. cbn. by rewrite IH.
Qed.

#[export] Hint Resolve charset_safe_line : plain.

(** The marker is an allowed character, so the filter maps some distinct texts to one. *)
Lemma charset_safe_collision :
  charset_safe "a?b" = charset_safe ("a" +:+ String (Ascii.ascii_of_nat 10) "b").
Proof. reflexivity. Qed.

(** ** Facts about amounts *)

Lemma read_fixed_text u d : read_units d (fixed_text u (10 ^ Z.of_N d) d) = Z.of_N u.
Proof.
  unfold fixed_text, read_units.
  assert (0 < 10 ^ Z.of_N d)%Z as Hs by (apply Z.pow_pos_nonneg; lia).
  pose proof (Z.div_mod (Z.of_N u) (10 ^ Z.of_N d) ltac:(lia)) as Hdm.
  pose proof (Z.mod_pos_bound (Z.of_N u) (10 ^ Z.of_N d) Hs) as Hm.
  pose proof (Z.div_pos (Z.of_N u) (10 ^ Z.of_N d) ltac:(lia) Hs) as Hq.
  set (w := (Z.of_N u `div` 10 ^ Z.of_N d)%Z) in *.
  set (f := (Z.of_N u `mod` 10 ^ Z.of_N d)%Z) in *.
  set (frac := pad_left (N.to_nat d) (show_Z f)).
  destruct (split_dot_digits (show_Z w) (strip_trailing "0" frac)
    (show_nonneg_digits _ Hq)) as [E1 E2].
  case_decide as Hf; [rewrite E1, dec_value_show by lia; lia|].
  rewrite E2, dec_value_show by lia.
  destruct (strip_trailing_zeros frac) as (n & Hfrac & Hlen).
  assert (String.length frac = N.to_nat d) as Hl.
  { apply pad_left_length, length_show_Z. rewrite N_nat_Z. lia. }
  assert (dec_value 0 frac = f) as Hv.
  { unfold frac. rewrite pad_left_value. apply dec_value_show. lia. }
  rewrite Hfrac, dec_value_app, dec_value_zeros in Hv.
  replace (Z.of_N d - Z.of_nat (String.length (strip_trailing "0" frac)))%Z
    with (Z.of_nat n) by lia.
  lia.
Qed.

(** The text is one the number builders accept: digits, and a dot with more digits. *)
Lemma fixed_text_proper u s d : (0 < s)%Z → signed_proper (fixed_text u s d).
Proof.
  intros Hs. unfold fixed_text.
  pose proof (Z.mod_pos_bound (Z.of_N u) s Hs) as Hm.
  pose proof (Z.div_pos (Z.of_N u) s ltac:(lia) Hs) as Hq.
  assert (show_Z (Z.of_N u `div` s) ≠ "" ∧
    str_all is_ascii_digit (show_Z (Z.of_N u `div` s)) = true) as Hi
    by (split; [by apply show_Z_nonempty|by apply show_nonneg_digits]).
  case_decide as Hf.
  { exists "", (show_Z (Z.of_N u `div` s)), "". rewrite str_nil_app, str_app_nil_r.
    split; [done|]. split; [by left|]. split; [done|by left]. }
  set (frac := pad_left (N.to_nat d) (show_Z (Z.of_N u `mod` s))).
  exists "", (show_Z (Z.of_N u `div` s)), ("." +:+ strip_trailing "0" frac).
  split; [done|]. split; [by left|]. split; [done|]. right.
  exists (strip_trailing "0" frac). split; [done|]. split.
  - intros Ht. destruct (strip_trailing_zeros frac) as (n & Hfrac & _). rewrite Ht in Hfrac.
    apply (f_equal (dec_value 0)) in Hfrac. unfold frac in Hfrac.
    rewrite str_nil_app, dec_value_zeros, pad_left_value, dec_value_show in Hfrac; lia.
  - apply strip_trailing_all, pad_left_digits, show_nonneg_digits. lia.
Qed.

Lemma network_mismatch_None role a n :
  network_mismatch role a n = None ↔
  match n with Mainnet => ends_with ".testnet" a | Testnet => ends_with ".near" a end = false.
Proof. unfold network_mismatch. destruct n, (ends_with _ a); done. Qed.
