(* ===== verification/NearTokens.v ===== *)
(** * NEAR Intents: token metadata

    The registry types of [presets/intents/mod.rs] and the whole of [presets/intents/tokens.rs]
    in [chain_parsers/visualsign-near]: the compiled-in seed table, the lookup that puts the
    metadata of a request over it, and the scaling of amounts. *)

From S2P Require Import Prelude Panic Json Payload Errors Charset DecimalText Builders Lamports PlainText Registry NearText.

(** ** Metadata and where it comes from *)

Inductive TokenProvenance : Type := Seed | RecognizedSigner | UnrecognizedSigner | Unsigned.

#[export] Instance TokenProvenance_eq_dec : EqDecision TokenProvenance.
Proof. solve_decision. Defined.

Definition verified (p : TokenProvenance) : bool :=
  match p with Seed | RecognizedSigner => true | _ => false end.

Definition unverified_cause (p : TokenProvenance) : option string :=
  match p with
  | Seed | RecognizedSigner => None
  | UnrecognizedSigner => Some "unrecognized signer (signature verified, key not enrolled)"
  | Unsigned => Some "unsigned request entry"
  end.

Definition override_subject (p : TokenProvenance) : string :=
  match p with
  | UnrecognizedSigner => "unrecognized signer"
  | Unsigned => "unsigned entry"
  | Seed => "compiled-in seed"
  | RecognizedSigner => "recognized signer"
  end.

Record TokenMeta := MkTokenMeta {
  symbol : string;
  decimals : N;
  provenance : TokenProvenance;
}.

#[export] Instance TokenMeta_eq_dec : EqDecision TokenMeta.
Proof. solve_decision. Defined.

Record NearTokenRegistry := MkNearTokenRegistry { by_asset_id : gmap string TokenMeta }.

Definition NearTokenRegistry_default : NearTokenRegistry := MkNearTokenRegistry ∅.

Definition Reg : Type := LayeredRegistry NearTokenRegistry.

(** ** The seed table *)

Definition SEEDS : list (string * string * N) :=
  [("nep141:wrap.near", "wNEAR", 24%N);
   ("nep141:a0b86991c6218b36c1d19d4a2e9eb0ce3606eb48.factory.bridge.near", "USDC.e", 6%N);
   ("nep141:dac17f958d2ee523a2206206994597c13d831ec7.factory.bridge.near", "USDT.e", 6%N);
   ("nep141:eth.bridge.near", "ETH.e", 18%N);
   ("nep141:eth.omft.near", "ETH", 18%N);
   ("nep141:sol.omft.near", "SOL", 9%N);
   ("nep141:btc.omft.near", "BTC", 8%N);
   ("nep141:nbtc.bridge.near", "NBTC", 8%N);
   ("nep141:pol.omft.near", "POL", 18%N);
   ("nep141:base.omft.near", "ETH.base", 18%N);
   ("nep141:arb.omft.near", "ETH.arb", 18%N);
   ("nep141:eth-0xa0b86991c6218b36c1d19d4a2e9eb0ce3606eb48.omft.near", "USDC", 6%N);
   ("nep141:sol-5ce3bf3a31af18be40ba30f721101b4341690186.omft.near", "USDC.sol", 6%N);
   ("nep141:sol-c800a4bd850783ccb82c2b2c7e84175443606352.omft.near", "USDT.sol", 6%N);
   ("nep141:eth-0xdac17f958d2ee523a2206206994597c13d831ec7.omft.near", "USDT", 6%N)].

Definition MAX_DECIMALS : N := 38.

Definition usable (meta : TokenMeta) : option TokenMeta :=
  if decide (decimals meta ≤ MAX_DECIMALS)%N then Some meta else None.

(** [SEEDS.iter().find(..)]. *)
Definition find_seed (asset_id : string) : option (string * string * N) :=
  List.find (fun s => bool_decide (s.1.1 = asset_id)) SEEDS.

Arguments find_seed : simpl never.

Definition seed_meta (s : string * string * N) : TokenMeta := MkTokenMeta s.1.2 s.2 Seed.

(** [str::split_once] at a character. *)
Fixpoint split_once (sep : Ascii.ascii) (s : string) : option (string * string) :=
  match s with
  | "" => None
  | String c s =>
      if decide (c = sep) then Some ("", s)
      else '(a, b) ← split_once sep s; Some (String c a, b)
  end.

(** The intents verifier ([convert.rs]). *)
Definition INTENTS_RECEIVER : string := "intents.near".

Section tokens.
(** Whether a text parses as a NEP-141 [TokenId] of [defuse-core]. *)
Context (is_nep141 : string → bool).

Definition mt_underlying_nep141 (asset_id : string) : option string :=
  rest ← strip_prefix "nep245:" asset_id;
  '(contract, mt_token_id) ← split_once ":" rest;
  if decide (contract = INTENTS_RECEIVER ∧ is_nep141 mt_token_id = true) then Some mt_token_id
  else None.

(** The recursion of [seeded_decimals] and [resolve], which goes to a shorter id. *)
Fixpoint seeded_decimals_fuel (fuel : nat) (asset_id : string) : option N :=
  match fuel with
  | O => None
  | S fuel =>
      match find_seed asset_id with
      | Some s => Some s.2
      | None => mt_underlying_nep141 asset_id ≫= seeded_decimals_fuel fuel
      end
  end.

Definition seeded_decimals (asset_id : string) : option N :=
  seeded_decimals_fuel (S (String.length asset_id)) asset_id.

Definition registry_lookup (registry : Reg) (asset_id : string) : option TokenMeta :=
  lookup_layered registry (fun r => by_asset_id r !! asset_id).

Fixpoint resolve_fuel (fuel : nat) (asset_id : string) (registry : Reg) : option TokenMeta :=
  match fuel with
  | O => None
  | S fuel =>
      match registry_lookup registry asset_id with
      | Some meta => usable meta
      | None =>
          match find_seed asset_id ≫= (fun s => usable (seed_meta s)) with
          | Some meta => Some meta
          | None => id ← mt_underlying_nep141 asset_id; resolve_fuel fuel id registry
          end
      end
  end.

Definition resolve (asset_id : string) (registry : Reg) : option TokenMeta :=
  resolve_fuel (S (String.length asset_id)) asset_id registry.

Definition format_units {E} (units decimals : N) : result (crash E) string :=
  scale ← u128_pow10 decimals;
  let whole := (Z.of_N units `div` scale)%Z in
  let frac := (Z.of_N units `mod` scale)%Z in
  if decide (frac = 0)%Z then Ok (show_Z whole)
  else
    let frac_str := pad_left (N.to_nat decimals) (show_Z frac) in
    Ok (show_Z whole +:+ "." +:+ strip_trailing "0" frac_str).

(** ** The recursion is bounded by the length of the id *)

Lemma split_once_Some sep s a b : split_once sep s = Some (a, b) → s = a +:+ String sep b.
Proof.
  revert a; induction s as [|c s IH]; intros a; cbn [split_once]; [done|]. case_decide as Hc.
  { intros [= <- <-]. by subst. }
  destruct (split_once sep s) as [[a' b']|] eqn:E; cbn; [|done]. intros [= <- <-].
  by rewrite str_cons_app, (IH a').
Qed.

Lemma mt_underlying_shorter a b :
  mt_underlying_nep141 a = Some b → String.length b < String.length a.
Proof.
  unfold mt_underlying_nep141. intros (r & Hr & ([c t] & Hs & Hb)%bind_Some)%bind_Some.
  case_decide; [|done]. injection Hb as <-.
  apply strip_prefix_Some in Hr as ->. apply split_once_Some in Hs as ->.
  rewrite !length_str_app. cbn. lia.
Qed.

Lemma seeded_fuel n : ∀ m a, String.length a < n → String.length a < m →
  seeded_decimals_fuel n a = seeded_decimals_fuel m a.
Proof.
  induction n as [|n IH]; intros [|m] a Hn Hm; [lia..|]. cbn [seeded_decimals_fuel].
  destruct (find_seed a); [done|]. destruct (mt_underlying_nep141 a) as [b|] eqn:E; [|done].
  apply mt_underlying_shorter in E. cbn [mbind option_bind]. apply IH; lia.
Qed.

Lemma resolve_fuel_eq n registry : ∀ m a, String.length a < n → String.length a < m →
  resolve_fuel n a registry = resolve_fuel m a registry.
Proof.
  induction n as [|n IH]; intros [|m] a Hn Hm; [lia..|]. cbn [resolve_fuel].
  destruct (registry_lookup registry a); [done|]. destruct (find_seed a ≫= _); [done|].
  destruct (mt_underlying_nep141 a) as [b|] eqn:E; [|done].
  apply mt_underlying_shorter in E. cbn [mbind option_bind]. apply IH; lia.
Qed.

(** The equations of the code. *)
Lemma seeded_decimals_eq a :
  seeded_decimals a =
  match find_seed a with
  | Some s => Some s.2
  | None => mt_underlying_nep141 a ≫= seeded_decimals
  end.
Proof.
  unfold seeded_decimals at 1. cbn [seeded_decimals_fuel]. destruct (find_seed a); [done|].
  destruct (mt_underlying_nep141 a) as [b|] eqn:E; [|done]. cbn [mbind option_bind].
  apply mt_underlying_shorter in E. apply seeded_fuel; lia.
Qed.

Lemma resolve_eq a registry :
  resolve a registry =
  match registry_lookup registry a with
  | Some meta => usable meta
  | None =>
      match find_seed a ≫= (fun s => usable (seed_meta s)) with
      | Some meta => Some meta
      | None => id ← mt_underlying_nep141 a; resolve id registry
      end
  end.
Proof.
  unfold resolve at 1. cbn [resolve_fuel]. destruct (registry_lookup registry a); [done|].
  destruct (find_seed a ≫= _); [done|].
  destruct (mt_underlying_nep141 a) as [b|] eqn:E; [|done]. cbn [mbind option_bind].
  apply mt_underlying_shorter in E. apply resolve_fuel_eq; lia.
Qed.

(** Induction along the chain of borrowed ids. *)
Lemma asset_ind (P : string → Prop) :
  (∀ a, (∀ b, mt_underlying_nep141 a = Some b → P b) → P a) → ∀ a, P a.
Proof.
  intros H. apply (well_founded_ind (well_founded_ltof _ String.length)). intros a IH.
  apply H. intros b Hb. apply IH. by apply mt_underlying_shorter.
Qed.

(** ** What a resolution can be *)

(** Metadata that is in the seed table or in a layer of the registry. *)
Definition known_meta (registry : Reg) (meta : TokenMeta) : Prop :=
  (∃ s, s ∈ SEEDS ∧ meta = seed_meta s) ∨ (∃ a, registry_lookup registry a = Some meta).

Lemma find_seed_elem a s : find_seed a = Some s → s ∈ SEEDS ∧ s.1.1 = a.
Proof.
  unfold find_seed. intros [Hin Heq]%List.find_some. apply bool_decide_eq_true in Heq.
  by rewrite list_elem_of_In.
Qed.

Lemma usable_Some m m' : usable m = Some m' ↔ m' = m ∧ (decimals m ≤ MAX_DECIMALS)%N.
Proof. unfold usable. case_decide; naive_solver. Qed.

Lemma resolve_known a registry meta :
  resolve a registry = Some meta → known_meta registry meta ∧ (decimals meta ≤ MAX_DECIMALS)%N.
Proof.
  induction a as [a IH] using asset_ind. rewrite resolve_eq.
  destruct (registry_lookup registry a) as [m|] eqn:El.
  { intros [-> Hd]%usable_Some. split; [|done]. right. by exists a. }
  destruct (find_seed a ≫= _) as [m|] eqn:Es.
  { apply bind_Some in Es as (s & [Hs _]%find_seed_elem & [-> Hd]%usable_Some).
    intros [= <-]. split; [|done]. left. by exists s. }
  intros (b & Hb & Hm)%bind_Some. by eapply IH.
Qed.

Lemma seeds_checked :
  Forall (fun s => line s.1.2 ∧ s.1.2 ≠ "" ∧ (s.2 ≤ MAX_DECIMALS)%N) SEEDS ∧
  NoDup (fst ∘ fst <$> SEEDS) ∧ NoDup (snd ∘ fst <$> SEEDS).
Proof. by_decision. Qed.

(** The ids of a curated balance: its own, and that of the balance in the intents contract. *)
Definition asset_of (b a : string) : Prop :=
  a = b ∨ (a = "nep245:intents.near:" +:+ b ∧ is_nep141 b = true).

Lemma find_seed_of s : s ∈ SEEDS → find_seed s.1.1 = Some s.
Proof.
  intros Hs. assert (Forall (fun s => find_seed s.1.1 = Some s) SEEDS) as Hall by by_decision.
  rewrite Forall_forall in Hall. by apply Hall.
Qed.

Lemma find_seed_alias b : find_seed ("nep245:intents.near:" +:+ b) = None.
Proof.
  destruct (find_seed _) as [s|] eqn:Hs; [|done]. apply find_seed_elem in Hs as [Hin Heq].
  assert (Forall (fun s => starts_with "nep141:" s.1.1 = true) SEEDS) as Hall by by_decision.
  rewrite Forall_forall in Hall. apply Hall in Hin. rewrite Heq in Hin. discriminate Hin.
Qed.

Lemma alias_underlying b :
  is_nep141 b = true → mt_underlying_nep141 ("nep245:intents.near:" +:+ b) = Some b.
Proof.
  intros Hb. unfold mt_underlying_nep141.
  change ("nep245:intents.near:" +:+ b) with ("nep245:" +:+ ("intents.near:" +:+ b)).
  rewrite strip_prefix_app. cbn [mbind option_bind].
  change (split_once ":" ("intents.near:" +:+ b)) with (Some (INTENTS_RECEIVER, b)).
  cbn [mbind option_bind]. by rewrite decide_True.
Qed.

(** Both ids count as curated. *)
Lemma curated_decimals s a : s ∈ SEEDS → asset_of s.1.1 a → seeded_decimals a = Some s.2.
Proof.
  intros Hs%find_seed_of. assert (seeded_decimals s.1.1 = Some s.2) as Hsd
    by by rewrite seeded_decimals_eq, Hs.
  intros [-> |[-> Hb]]; [done|].
  by rewrite seeded_decimals_eq, find_seed_alias, alias_underlying.
Qed.

(** What a curated asset resolves to: what the registry has for the id, else what it has for the
    balance the id names, else the seed. *)
Lemma curated_resolve s a registry :
  s ∈ SEEDS → asset_of s.1.1 a →
  resolve a registry =
  match registry_lookup registry a with
  | Some m => usable m
  | None =>
      match registry_lookup registry s.1.1 with
      | Some m => usable m
      | None => Some (seed_meta s)
      end
  end.
Proof.
  intros Hs. assert (usable (seed_meta s) = Some (seed_meta s)) as Hu.
  { apply usable_Some. split; [done|]. destruct seeds_checked as [Hall _].
    rewrite Forall_forall in Hall. by apply (Hall s Hs). }
  apply find_seed_of in Hs.
  assert (resolve s.1.1 registry =
    match registry_lookup registry s.1.1 with Some m => usable m | None => Some (seed_meta s) end)
    as Hb by (rewrite resolve_eq, Hs; cbn [mbind option_bind]; by rewrite Hu).
  intros [-> |[-> Hn]]; [rewrite Hb; by destruct (registry_lookup registry _)|].
  rewrite resolve_eq, find_seed_alias, alias_underlying by done. cbn [mbind option_bind].
  by rewrite Hb.
Qed.

(** A curated asset has the decimals and the symbol of its seed, unless the registry names
    one of the ids it is reached through. *)
Lemma seeded_resolve a d registry :
  seeded_decimals a = Some d →
  (∀ b, seeded_decimals b = Some d → registry_lookup registry b = None) →
  ∃ s, s ∈ SEEDS ∧ s.2 = d ∧ resolve a registry = Some (seed_meta s).
Proof.
  induction a as [a IH] using asset_ind. intros Ha Hr. rewrite resolve_eq, (Hr a Ha).
  rewrite seeded_decimals_eq in Ha. destruct (find_seed a) as [s|] eqn:Es.
  - injection Ha as <-. apply find_seed_elem in Es as [Hs _]. exists s.
    split; [done|]. split; [done|]. cbn [mbind option_bind]. unfold usable.
    rewrite decide_True; [done|]. destruct seeds_checked as [Hall _].
    rewrite Forall_forall in Hall. by apply (Hall s Hs).
  - apply bind_Some in Ha as (b & Hb & Hd).
    destruct (IH b Hb Hd Hr) as (s & Hs & Hsd & Hres). exists s. split; [done|].
    split; [done|]. cbn [mbind option_bind]. by rewrite Hb.
Qed.
End tokens.

(** ** Amounts *)

Lemma format_units_Ok {E} u d :
  (d ≤ MAX_DECIMALS)%N → format_units (E:=E) u d = Ok (fixed_text u (10 ^ Z.of_N d) d).
Proof.
  intros Hd. unfold format_units. rewrite u128_pow10_Ok by done. cbn [mbind result_bind].
  unfold fixed_text. by case_decide.
Qed.

Lemma format_units_line {E} u d t : (d ≤ MAX_DECIMALS)%N → format_units (E:=E) u d = Ok t → line t.
Proof.
  intros Hd. rewrite format_units_Ok by done. intros [= <-].
  apply signed_proper_line, fixed_text_proper, Z.pow_pos_nonneg; lia.
Qed.

(** ** Properties *)

(** An amount is shown exactly: for any scale the parser uses, the decimal text of
    [format_units] reads back as the number of base units, so two amounts with one text and
    one scale are equal; the builders accept the text. *)
Theorem format_units_exact {E} u d :
  (d ≤ MAX_DECIMALS)%N →
  ∃ t, format_units (E:=E) u d = Ok t ∧ read_units d t = Z.of_N u ∧ signed_proper t.
Proof.
  intros Hd. eexists. rewrite format_units_Ok by done. split; [done|].
  split; [apply read_fixed_text|]. apply fixed_text_proper, Z.pow_pos_nonneg; lia.
Qed.

Lemma format_units_exact_witness :
  ∃ t, format_units (E:=()) 1500000 6 = Ok t ∧ read_units 6 t = 1500000%Z ∧ signed_proper t.
Proof. apply (format_units_exact (E:=()) 1500000 6). by vm_compute. Defined.
