(* ===== verification/NearSigning.v ===== *)
(** * NEAR Intents: signed token metadata

    [presets/intents/token_signature.rs] of [chain_parsers/visualsign-near]: the signing
    domains, the curator allow-list keyed by domain, the validation of a signature, and the
    extraction of the token metadata of a request under the trust policy. *)

From S2P Require Import Prelude Panic Json Payload Errors Charset External DecimalText Encodings Signing Proto Registry Payment PlainText NearText NearTokens.

Definition ED25519_ALGORITHM : string := "ed25519".
Definition SECP256K1_ALGORITHM : string := "secp256k1".
Definition ED25519_PUBLIC_KEY_LEN : nat := 32.
Definition ED25519_SIGNATURE_LEN : nat := 64.
Definition MAX_TOKEN_METADATA_VALUE_BYTES : nat := 1024.
Definition MAX_TOKEN_METADATA_ENTRIES : nat := 256.
Definition MAX_ASSET_ID_BYTES : nat := 128.
Definition ASSET_ID_PREVIEW_CHARS : nat := 32.
Definition MAX_TOKEN_DECIMALS : N := 38.
Definition MAX_TOKEN_SYMBOL_LEN : nat := 32.

Inductive TokenMetadataSignatureError : Type := Validation (msg : string).

(** The [Display] text. *)
Definition show_signature_error (e : TokenMetadataSignatureError) : string :=
  let 'Validation m := e in "token metadata signature validation failed: " +:+ m.

(** The local form of a signature. *)
Record TokenSignatureMetadata := MkTokenSignature {
  ts_value : string;
  ts_algorithm : option string;
  ts_public_key : option string;
}.

Definition convert_proto_signature (proto : SignatureMetadata) : TokenSignatureMetadata :=
  let get key := md_value <$> List.find (fun m => bool_decide (md_key m = key)) (sm_metadata proto) in
  MkTokenSignature (sm_value proto) (get "algorithm") (get "public_key").

Record TokenMetadataValue := MkTokenMetadataValue { tv_symbol : string; tv_decimals : N }.

(** ** Domains *)

(** The proto enum and its [try_from]. *)
Inductive TokenOriginChain : Type := OriginUnspecified | OriginNear | OriginEthereum | OriginSolana.

Definition origin_chain_try_from (v : Z) : option TokenOriginChain :=
  if decide (v = 0)%Z then Some OriginUnspecified
  else if decide (v = 1)%Z then Some OriginNear
  else if decide (v = 2)%Z then Some OriginEthereum
  else if decide (v = 3)%Z then Some OriginSolana
  else None.

Inductive TokenMetadataDomain : Type := DomainNear | DomainEthereum | DomainSolana.

#[export] Instance TokenMetadataDomain_eq_dec : EqDecision TokenMetadataDomain.
Proof. solve_decision. Defined.

Definition from_origin_chain (c : TokenOriginChain) : TokenMetadataDomain :=
  match c with
  | OriginUnspecified | OriginNear => DomainNear
  | OriginEthereum => DomainEthereum
  | OriginSolana => DomainSolana
  end.

Definition domain_tag (d : TokenMetadataDomain) : string :=
  match d with
  | DomainNear => CHAIN_TAG_NEAR_TOKEN_METADATA
  | DomainEthereum => CHAIN_TAG_ETHEREUM_TOKEN_METADATA
  | DomainSolana => CHAIN_TAG_SOLANA_TOKEN_METADATA
  end.

Definition domain_algorithm (d : TokenMetadataDomain) : string :=
  match d with
  | DomainNear | DomainSolana => ED25519_ALGORITHM
  | DomainEthereum => SECP256K1_ALGORITHM
  end.

Definition domain_prehash {S : Sha256} (d : TokenMetadataDomain) (network_id asset_id : string)
    (body : bytes) : bytes :=
  match d with
  | DomainNear => near_token_metadata_prehash network_id asset_id body
  | DomainEthereum => ethereum_token_metadata_prehash network_id asset_id body
  | DomainSolana => solana_token_metadata_prehash network_id asset_id body
  end.

Definition env_var (d : TokenMetadataDomain) : string :=
  match d with
  | DomainNear => "VISUALSIGN_NEAR_TOKEN_SIGNERS"
  | DomainEthereum => "VISUALSIGN_ETH_TOKEN_SIGNERS"
  | DomainSolana => "VISUALSIGN_SOL_TOKEN_SIGNERS"
  end.

Definition ALL_DOMAINS : list TokenMetadataDomain := [DomainNear; DomainEthereum; DomainSolana].

(** ** Curator keys *)

Inductive SignerIdentity : Type := Recognized | Unrecognized.

#[export] Instance SignerIdentity_eq_dec : EqDecision SignerIdentity.
Proof. solve_decision. Defined.

Definition scoped_signer_key (domain : TokenMetadataDomain) (canonical_pubkey : bytes) : bytes :=
  let tag := as_bytes (domain_tag domain) in
  foldl (fun scoped field =>
           (scoped ++ le_bytes 8 (Z.of_nat (length field))) ++ field) [] [tag; canonical_pubkey].

Definition identity_of (allowlist : SignerAllowlist) (domain : TokenMetadataDomain)
    (canonical_pubkey : bytes) : SignerIdentity :=
  if allowlist_contains allowlist (scoped_signer_key domain canonical_pubkey) then Recognized
  else Unrecognized.

(** A refused entry, and the outcome of an extraction. *)
Record RejectedTokenMetadata := MkRejected { rj_asset_id : string; rj_reason : string }.

Record TokenMetadataExtraction := MkExtraction {
  ex_registry : option NearTokenRegistry;
  ex_rejected : list RejectedTokenMetadata;
}.

(** The first [n] characters of a UTF-8 text. *)
Fixpoint take_chars (n : nat) (s : string) : string :=
  match s with
  | "" => ""
  | String c s =>
      if is_cont c then String c (take_chars n s)
      else match n with O => "" | Datatypes.S n => String c (take_chars n s) end
  end.

(** The characters a symbol may have. *)
Definition symbol_char (c : Ascii.ascii) : bool :=
  (code c =? 32) || (is_ascii_graphic c && negb (is_backslash c)).

(** The deterministic seed of the development key. *)
Definition DEV_NEAR_SIGNING_KEY_SEED : bytes := replicate 32 Byte.x51.
Definition DEV_ETHEREUM_SIGNING_KEY_SEED : bytes := replicate 32 Byte.x52.
Definition DEV_SOLANA_SIGNING_KEY_SEED : bytes := replicate 32 Byte.x53.

Section signing.
Context {S : Sha256} {H : HexCodec} {K : Secp256k1} {Ed : Ed25519}.
(** The [Display] text of a hex error. *)
Context (show_hex : FromHexError → string).

Definition decode_hex_fixed (N : nat) (value what : string)
    : result TokenMetadataSignatureError bytes :=
  map_err (fun e => Validation ("Invalid " +:+ what +:+ " " +:+ show_decode_hex_array_error show_hex e))
    (decode_hex_array N value).

Definition canonical_ed25519_pubkey_from_hex (hex_str : string) : option bytes :=
  match decode_hex_fixed ED25519_PUBLIC_KEY_LEN hex_str "public key" with
  | Err _ => None
  | Ok bs => match ed_key_from_bytes bs with Err _ => None | Ok k => Some (ed_key_to_bytes k) end
  end.

Definition canonical_secp256k1_pubkey_from_hex (hex_str : string) : option bytes :=
  match decode_hex hex_str with
  | Err _ => None
  | Ok bs =>
      match encoded_point_from_bytes bs with
      | Err _ => None
      | Ok p => match from_encoded_point p with Err _ => None | Ok k => Some (to_encoded_point k) end
      end
  end.

(** The new allow-list, and whether the key was enrolled. *)
Definition insert_token_metadata_signer (allowlist : SignerAllowlist) (domain : TokenMetadataDomain)
    (pubkey_hex : string) : SignerAllowlist * bool :=
  let canonical :=
    match domain with
    | DomainEthereum => canonical_secp256k1_pubkey_from_hex pubkey_hex
    | DomainNear | DomainSolana => canonical_ed25519_pubkey_from_hex pubkey_hex
    end in
  match canonical with
  | Some bs => (allowlist_insert (scoped_signer_key domain bs) allowlist, true)
  | None => (allowlist, false)
  end.

Section environment.
(** [std::env::var], and whether the [dev-signing] feature is on. *)
Context (env : string → option string) (dev_signing : bool).

Definition insert_env_signers (allow : SignerAllowlist) (domain : TokenMetadataDomain)
    : SignerAllowlist :=
  match env (env_var domain) with
  | None => allow
  | Some list =>
      foldl (fun allow entry => (insert_token_metadata_signer allow domain entry).1) allow
        (filter (fun s => s ≠ "") (trim <$> split_on "," list))
  end.

Definition insert_near_dev_signer (allow : SignerAllowlist) : SignerAllowlist :=
  if dev_signing then
    let dev_key := ed_key_to_bytes
      (ed_verifying_key_of (ed_signing_key_from_seed DEV_NEAR_SIGNING_KEY_SEED)) in
    allowlist_insert (scoped_signer_key DomainNear dev_key) allow
  else allow.

Definition authorized_token_metadata_signers : SignerAllowlist :=
  insert_near_dev_signer (foldl insert_env_signers SignerAllowlist_new ALL_DOMAINS).
End environment.

(** ** Validation *)

Definition validate_ed25519 (network_id asset_id value : string) (domain : TokenMetadataDomain)
    (sig : TokenSignatureMetadata) (allowlist : SignerAllowlist)
    : result TokenMetadataSignatureError SignerIdentity :=
  algorithm ← ok_or (Validation "Missing algorithm") (ts_algorithm sig);
  if decide (algorithm ≠ domain_algorithm domain) then
    Err (Validation ("Unsupported algorithm: " +:+ algorithm +:+ ". Only "
                     +:+ domain_algorithm domain +:+ " is supported for this origin chain."))
  else
    public_key_hex ← ok_or (Validation "Missing public_key") (ts_public_key sig);
    let hash := domain_prehash domain network_id asset_id (as_bytes value) in
    sig_bytes ← decode_hex_fixed ED25519_SIGNATURE_LEN (ts_value sig) "signature";
    pubkey_bytes ← decode_hex_fixed ED25519_PUBLIC_KEY_LEN public_key_hex "public key";
    key ← map_err (fun e => Validation ("Invalid public key: " +:+ e))
            (ed_key_from_bytes pubkey_bytes);
    _ ← map_err (fun e => Validation ("Signature verification failed: " +:+ e))
          (ed_verify_strict key hash sig_bytes);
    Ok (identity_of allowlist domain (ed_key_to_bytes key)).

Definition validate_secp256k1 (network_id asset_id value : string) (domain : TokenMetadataDomain)
    (sig : TokenSignatureMetadata) (allowlist : SignerAllowlist)
    : result TokenMetadataSignatureError SignerIdentity :=
  algorithm ← ok_or (Validation "Missing algorithm") (ts_algorithm sig);
  if decide (algorithm ≠ domain_algorithm domain) then
    Err (Validation ("Unsupported algorithm: " +:+ algorithm +:+ ". Only "
                     +:+ domain_algorithm domain +:+ " is supported for this origin chain."))
  else
    public_key_hex ← ok_or (Validation "Missing public_key") (ts_public_key sig);
    let hash := domain_prehash domain network_id asset_id (as_bytes value) in
    sig_bytes ← map_err (fun e => Validation ("Invalid signature hex: " +:+ show_hex e))
                  (decode_hex (ts_value sig));
    s ← map_err (fun e => Validation ("Invalid DER signature: " +:+ e))
          (signature_from_der sig_bytes);
    pubkey_bytes ← map_err (fun e => Validation ("Invalid public key hex: " +:+ show_hex e))
                     (decode_hex public_key_hex);
    point ← map_err (fun e => Validation ("Invalid public key point: " +:+ e))
              (encoded_point_from_bytes pubkey_bytes);
    key ← map_err (fun e => Validation ("Invalid verifying key: " +:+ e))
            (from_encoded_point point);
    _ ← map_err (fun e => Validation ("Signature verification failed: " +:+ e))
          (verify_prehash key hash s);
    Ok (identity_of allowlist domain (to_encoded_point key)).

Definition validate_token_metadata_signature (network_id asset_id value : string)
    (domain : TokenMetadataDomain) (sig : TokenSignatureMetadata) (allowlist : SignerAllowlist)
    : result TokenMetadataSignatureError SignerIdentity :=
  match domain with
  | DomainNear | DomainSolana => validate_ed25519 network_id asset_id value domain sig allowlist
  | DomainEthereum => validate_secp256k1 network_id asset_id value domain sig allowlist
  end.

(** ** Extraction *)

(** Whether a text is a NEP-141 token id, and [serde_json] on an entry's value. *)
Context (is_nep141 : string → bool) (parse_value : string → result string TokenMetadataValue).
Context (network : NearNetwork) (allowlist : SignerAllowlist) (trust_policy : MetadataTrustPolicy).

(** The domain an entry claims. *)
Definition entry_domain (entry : TokenMetadataEntry) : result string TokenMetadataDomain :=
  match origin_chain entry with
  | Some v =>
      match origin_chain_try_from v with
      | Some chain => Ok (from_origin_chain chain)
      | None => Err ("unrecognized origin_chain " +:+ show_Z v)
      end
  | None => Ok (from_origin_chain OriginUnspecified)
  end.

(** The checks on the parsed value. *)
Definition check_value (parsed : TokenMetadataValue) : result string () :=
  if decide (MAX_TOKEN_DECIMALS < tv_decimals parsed)%N then
    Err ("decimals " +:+ show_Z (Z.of_N (tv_decimals parsed)) +:+ " out of range")
  else if decide (tv_symbol parsed = "" ∨ MAX_TOKEN_SYMBOL_LEN < String.length (tv_symbol parsed)) then
    Err ("symbol length " +:+ show_nat (String.length (tv_symbol parsed)) +:+ " out of range")
  else if negb (str_all symbol_char (tv_symbol parsed)) then
    Err "symbol contains characters outside printable ASCII"
  else Ok ().

(** Who vouches for an entry. *)
Definition entry_provenance (asset_id : string) (entry : TokenMetadataEntry)
    (domain : TokenMetadataDomain) : result string TokenProvenance :=
  match tm_signature entry with
  | None => Ok Unsigned
  | Some proto_sig =>
      match validate_token_metadata_signature (network_id network) asset_id (tm_value entry) domain
              (convert_proto_signature proto_sig) allowlist with
      | Err e => Err (show_signature_error e)
      | Ok Recognized => Ok RecognizedSigner
      | Ok Unrecognized =>
          if negb (accepts_unsigned trust_policy)
          then Err "signer is not an authorized curator for this origin chain"
          else Ok UnrecognizedSigner
      end
  end.

(** The part of a turn of the loop whose refusals name the whole asset id. *)
Definition admit_checked (asset_id : string) (entry : TokenMetadataEntry)
    : result string TokenMeta :=
  if decide (MAX_TOKEN_METADATA_VALUE_BYTES < String.length (tm_value entry)) then
    Err ("exceeds size limit (" +:+ show_nat (String.length (tm_value entry)) +:+ " bytes > "
         +:+ show_nat MAX_TOKEN_METADATA_VALUE_BYTES +:+ ")")
  else
    domain ← entry_domain entry;
    if bool_decide (tm_signature entry = None) && negb (accepts_unsigned trust_policy) then
      Err "this deployment requires signed entries"
    else
      parsed ← map_err (fun e => "invalid value JSON: " +:+ e) (parse_value (tm_value entry));
      _ ← check_value parsed;
      prov ← entry_provenance asset_id entry domain;
      match (if verified prov then None else seeded_decimals is_nep141 asset_id) with
      | Some curated =>
          Err (override_subject prov +:+ " would override a curated seed (proposed decimals "
               +:+ show_Z (Z.of_N (tv_decimals parsed)) +:+ ", curated "
               +:+ show_Z (Z.of_N curated) +:+ ")")
      | None => Ok (MkTokenMeta (tv_symbol parsed) (tv_decimals parsed) prov)
      end.

Definition admit_entry (asset_id : string) (entry : TokenMetadataEntry)
    : result RejectedTokenMetadata TokenMeta :=
  if decide (MAX_ASSET_ID_BYTES < String.length asset_id) then
    Err (MkRejected (take_chars ASSET_ID_PREVIEW_CHARS asset_id +:+ "...")
           ("asset id exceeds size limit (" +:+ show_nat (String.length asset_id) +:+ " bytes > "
            +:+ show_nat MAX_ASSET_ID_BYTES +:+ ")"))
  else map_err (MkRejected asset_id) (admit_checked asset_id entry).

(** One turn of the loop. *)
Definition token_extract_step (st : gmap string TokenMeta * list RejectedTokenMetadata)
    (e : string * TokenMetadataEntry) : gmap string TokenMeta * list RejectedTokenMetadata :=
  match admit_entry e.1 e.2 with
  | Ok meta => (<[e.1 := meta]> st.1, st.2)
  | Err r => (st.1, st.2 ++ [r])
  end.

Definition try_extract_from_chain_metadata (chain_metadata : option ChainMetadata)
    : TokenMetadataExtraction :=
  match chain_metadata with
  | Some cm =>
      match cm_metadata cm with
      | Some (NearM near) =>
          if decide (token_mappings near = []) then MkExtraction None []
          else if decide (MAX_TOKEN_METADATA_ENTRIES < length (token_mappings near)) then
            MkExtraction None
              [MkRejected "all assets"
                 (show_nat (length (token_mappings near)) +:+ " entries exceeds the limit of "
                  +:+ show_nat MAX_TOKEN_METADATA_ENTRIES)]
          else
            let '(registry, rejected) := foldl token_extract_step (∅, []) (token_mappings near) in
            if decide (registry = ∅) then MkExtraction None rejected
            else MkExtraction (Some (MkNearTokenRegistry registry)) rejected
      | _ => MkExtraction None []
      end
  | None => MkExtraction None []
  end.
End signing.

(** The layers a request resolves amounts against ([token_registry_for] in [convert.rs]): the
    shared layer is empty. *)
Definition request_registry (x : TokenMetadataExtraction) : Reg :=
  match ex_registry x with
  | Some request => with_request NearTokenRegistry_default request
  | None => layered_new NearTokenRegistry_default
  end.

(** ** Making signatures, for the command line and tests *)

Section making.
Context {S : Sha256} {H : HexCodec} {K : Secp256k1} {Ed : Ed25519}.

Definition sign_token_metadata_ed25519 (network_id asset_id value : string) (seed : bytes)
    (prehash : string → string → bytes → bytes) : SignatureMetadata :=
  let signing_key := ed_signing_key_from_seed seed in
  let key := ed_verifying_key_of signing_key in
  let hash := prehash network_id asset_id (as_bytes value) in
  MkSignatureMetadata (hex_encode (ed_sign signing_key hash))
    [MkMetadata "algorithm" ED25519_ALGORITHM;
     MkMetadata "public_key" (hex_encode (ed_key_to_bytes key))].

Definition sign_token_metadata_secp256k1 (network_id asset_id value : string) (seed : bytes)
    : result string SignatureMetadata :=
  signing_key ← map_err (fun e => "invalid secp256k1 signing key seed: " +:+ e)
                  (signing_key_from_bytes seed);
  let hash := ethereum_token_metadata_prehash network_id asset_id (as_bytes value) in
  sig ← map_err (fun e => "failed to sign token metadata hash: " +:+ e) (sign_prehash signing_key hash);
  Ok (MkSignatureMetadata (hex_encode (signature_to_der sig))
        [MkMetadata "algorithm" SECP256K1_ALGORITHM;
         MkMetadata "public_key" (hex_encode (to_encoded_point (verifying_key_of signing_key)))]).

Definition sign_token_metadata_for_cli (dev_signing : bool) (network_id asset_id value : string)
    : result string SignatureMetadata :=
  if dev_signing then
    Ok (sign_token_metadata_ed25519 network_id asset_id value DEV_NEAR_SIGNING_KEY_SEED
          near_token_metadata_prehash)
  else
    Err "token metadata signing is unavailable: this binary was built without the dev-signing feature".
End making.

(** ** Domains and keys *)

Lemma scoped_signer_key_frames d k :
  scoped_signer_key d k = frame 8 (as_bytes (domain_tag d)) ++ frame 8 k.
Proof. unfold scoped_signer_key, frame. cbn [foldl]. by rewrite app_nil_l, <-!app_assoc. Qed.

Lemma domain_tag_inj d d' : domain_tag d = domain_tag d' → d = d'.
Proof. by destruct d, d'. Qed.

Lemma scoped_signer_key_inj d d' k k' :
  is_slice k → is_slice k' → scoped_signer_key d k = scoped_signer_key d' k' → d = d' ∧ k = k'.
Proof.
  unfold is_slice. intros Hk Hk'. rewrite !scoped_signer_key_frames.
  intros [Ht Hr]%frame_inj; [|by destruct d|by destruct d'].
  apply (inj as_bytes), domain_tag_inj in Ht as ->. split; [done|].
  rewrite <-(app_nil_r (frame 8 k)), <-(app_nil_r (frame 8 k')) in Hr.
  by apply frame_inj in Hr as [].
Qed.

Lemma identity_of_Recognized allow d k :
  identity_of allow d k = Recognized ↔ scoped_signer_key d k ∈ allowlist_keys allow.
Proof. unfold identity_of, allowlist_contains. by case_bool_decide. Qed.

Section facts.
Context {S : Sha256} {H : HexCodec} {K : Secp256k1} {Ed : Ed25519}.
Context (show_hex : FromHexError → string).

(** A signature under a key enrolled for the domain, over the prehash of the domain. *)
Inductive curator_signed (n a v : string) (d : TokenMetadataDomain) (sig : TokenSignatureMetadata)
    (allow : SignerAllowlist) : Prop :=
| signed_ed25519 key key_hex sig_bytes :
    d ≠ DomainEthereum → ts_algorithm sig = Some ED25519_ALGORITHM →
    ts_public_key sig = Some key_hex → decode_hex key_hex = Ok (ed_key_to_bytes key) →
    decode_hex (ts_value sig) = Ok sig_bytes → length sig_bytes = 64 →
    ed_verify_strict key (domain_prehash d n a (as_bytes v)) sig_bytes = Ok () →
    scoped_signer_key d (ed_key_to_bytes key) ∈ allowlist_keys allow →
    curator_signed n a v d sig allow
| signed_secp256k1 key key_hex key_bytes point sig_bytes s :
    d = DomainEthereum → ts_algorithm sig = Some SECP256K1_ALGORITHM →
    ts_public_key sig = Some key_hex → decode_hex key_hex = Ok key_bytes →
    encoded_point_from_bytes key_bytes = Ok point → from_encoded_point point = Ok key →
    decode_hex (ts_value sig) = Ok sig_bytes → signature_from_der sig_bytes = Ok s →
    verify_prehash key (domain_prehash d n a (as_bytes v)) s = Ok () →
    scoped_signer_key d (to_encoded_point key) ∈ allowlist_keys allow →
    curator_signed n a v d sig allow.

Lemma decode_hex_fixed_Ok N v w bs :
  decode_hex_fixed show_hex N v w = Ok bs ↔ decode_hex v = Ok bs ∧ length bs = N.
Proof. unfold decode_hex_fixed. by rewrite map_err_Ok, decode_hex_array_Ok. Qed.

Lemma validate_ed25519_Ok n a v d sig allow i :
  validate_ed25519 show_hex n a v d sig allow = Ok i ↔
  ∃ key key_hex sig_bytes, ts_algorithm sig = Some (domain_algorithm d) ∧
    ts_public_key sig = Some key_hex ∧ decode_hex key_hex = Ok (ed_key_to_bytes key) ∧
    decode_hex (ts_value sig) = Ok sig_bytes ∧ length sig_bytes = 64 ∧
    ed_verify_strict key (domain_prehash d n a (as_bytes v)) sig_bytes = Ok () ∧
    i = identity_of allow d (ed_key_to_bytes key).
Proof.
  unfold validate_ed25519. rewrite result_bind_Ok. setoid_rewrite ok_or_Ok. split.
  - intros (alg & Halg & Hv). case_decide as Ha; [done|].
    subst alg.
    apply result_bind_Ok in Hv as (h & Hh%ok_or_Ok & Hv).
    apply result_bind_Ok in Hv as (sb & [Hsb Hl]%decode_hex_fixed_Ok & Hv).
    apply result_bind_Ok in Hv as (kb & [Hkb Hkl]%decode_hex_fixed_Ok & Hv).
    apply result_bind_Ok in Hv as (key & Hkey%map_err_Ok & Hv).
    apply result_bind_Ok in Hv as ([] & Hver%map_err_Ok & [= <-]).
    exists key, h, sb. rewrite (ed_key_to_from kb key Hkey). by split_and!.
  - intros (key & h & sb & Halg & Hh & Hk & Hsb & Hl & Hver & ->).
    eexists. split; [exact Halg|]. rewrite decide_False by tauto. rewrite Hh. cbn [ok_or mbind result_bind].
    rewrite (proj2 (decode_hex_fixed_Ok _ _ "signature" sb)) by done. cbn [mbind result_bind].
    rewrite (proj2 (decode_hex_fixed_Ok _ _ "public key" (ed_key_to_bytes key)))
      by (split; [done|apply ed_key_length]). cbn [mbind result_bind].
    rewrite ed_key_from_to. cbn [map_err mbind result_bind]. by rewrite Hver.
Qed.

Lemma validate_secp256k1_Ok n a v d sig allow i :
  validate_secp256k1 show_hex n a v d sig allow = Ok i ↔
  ∃ key key_hex key_bytes point sig_bytes s, ts_algorithm sig = Some (domain_algorithm d) ∧
    ts_public_key sig = Some key_hex ∧ decode_hex key_hex = Ok key_bytes ∧
    encoded_point_from_bytes key_bytes = Ok point ∧ from_encoded_point point = Ok key ∧
    decode_hex (ts_value sig) = Ok sig_bytes ∧ signature_from_der sig_bytes = Ok s ∧
    verify_prehash key (domain_prehash d n a (as_bytes v)) s = Ok () ∧
    i = identity_of allow d (to_encoded_point key).
Proof.
  unfold validate_secp256k1. rewrite result_bind_Ok. setoid_rewrite ok_or_Ok. split.
  - intros (alg & Halg & Hv). case_decide as Ha; [done|].
    subst alg.
    apply result_bind_Ok in Hv as (h & Hh%ok_or_Ok & Hv).
    apply result_bind_Ok in Hv as (sb & Hsb%map_err_Ok & Hv).
    apply result_bind_Ok in Hv as (s & Hs%map_err_Ok & Hv).
    apply result_bind_Ok in Hv as (kb & Hkb%map_err_Ok & Hv).
    apply result_bind_Ok in Hv as (p & Hp%map_err_Ok & Hv).
    apply result_bind_Ok in Hv as (key & Hkey%map_err_Ok & Hv).
    apply result_bind_Ok in Hv as ([] & Hver%map_err_Ok & [= <-]).
    exists key, h, kb, p, sb, s. by split_and!.
  - intros (key & h & kb & p & sb & s & Halg & Hh & Hkb & Hp & Hk & Hsb & Hs & Hver & ->).
    eexists. split; [exact Halg|]. rewrite decide_False by tauto. rewrite Hh.
    cbn [ok_or mbind result_bind]. rewrite Hsb. cbn. rewrite Hs. cbn. rewrite Hkb. cbn.
    rewrite Hp. cbn. rewrite Hk. cbn. by rewrite Hver.
Qed.

Lemma validate_recognized n a v d sig allow :
  validate_token_metadata_signature show_hex n a v d sig allow = Ok Recognized ↔
  curator_signed n a v d sig allow.
Proof.
  split.
  - destruct d; cbn [validate_token_metadata_signature].
    2: intros (key&h&kb&p&sb&s&?&?&?&?&?&?&?&?&Hi%eq_sym%identity_of_Recognized)%validate_secp256k1_Ok;
      by eapply signed_secp256k1.
    all: intros (key&h&sb&?&?&?&?&?&?&Hi%eq_sym%identity_of_Recognized)%validate_ed25519_Ok;
      by eapply signed_ed25519.
  - destruct 1 as [key h sb Hd Ha Hh Hk Hs Hl Hv Hi|key h kb p sb s -> Ha Hh Hkb Hp Hk Hsb Hs Hv Hi];
      apply identity_of_Recognized in Hi.
    + destruct d; [|done|]; apply validate_ed25519_Ok; exists key, h, sb; by split_and!.
    + apply validate_secp256k1_Ok. exists key, h, kb, p, sb, s. by split_and!.
Qed.
End facts.


(** ** What is admitted *)

Lemma symbol_char_line s : str_all symbol_char s = true → PlainText.line s.
Proof. apply str_all_impl. intros c. ascii_cases c; done. Qed.

Lemma check_value_Ok parsed u :
  check_value parsed = Ok u ↔
  (tv_decimals parsed ≤ MAX_TOKEN_DECIMALS)%N ∧ tv_symbol parsed ≠ "" ∧
  String.length (tv_symbol parsed) ≤ MAX_TOKEN_SYMBOL_LEN ∧
  str_all symbol_char (tv_symbol parsed) = true.
Proof.
  unfold check_value. destruct u.
  destruct (decide (MAX_TOKEN_DECIMALS < tv_decimals parsed)%N); [split; [done|lia]|].
  destruct (decide (tv_symbol parsed = "" ∨ _)) as [Hs|Hs].
  { split; [done|]. intros (_ & ? & ? & _). destruct Hs; [done|lia]. }
  destruct (str_all symbol_char (tv_symbol parsed)); cbn; split; try done; [|naive_solver].
  intros _. split_and!; try done; [lia| |]; [intros E; apply Hs; by left|].
  destruct (decide (String.length (tv_symbol parsed) ≤ MAX_TOKEN_SYMBOL_LEN)); [done|].
  destruct Hs. right. lia.
Qed.

Section extraction.
Context {S : Sha256} {H : HexCodec} {K : Secp256k1} {Ed : Ed25519}.
Context (show_hex : FromHexError → string).
Context (is_nep141 : string → bool) (parse_value : string → result string TokenMetadataValue).
Context (network : NearNetwork) (allow : SignerAllowlist) (policy : MetadataTrustPolicy).

Notation admitted_as := (admit_entry show_hex is_nep141 parse_value network allow policy).
Notation extract := (try_extract_from_chain_metadata show_hex is_nep141 parse_value network allow policy).
Notation seeded := (seeded_decimals is_nep141).

(** The entry is signed by a curator of its own domain, for this network and asset. *)
Definition vouched (a : string) (e : TokenMetadataEntry) : Prop :=
  ∃ d proto, entry_domain e = Ok d ∧ tm_signature e = Some proto ∧
    curator_signed (network_id network) a (tm_value e) d (convert_proto_signature proto) allow.

Record admitted_entry (a : string) (e : TokenMetadataEntry) (m : TokenMeta) : Prop := {
  ae_id : String.length a ≤ MAX_ASSET_ID_BYTES;
  ae_value : parse_value (tm_value e) = Ok (MkTokenMetadataValue (symbol m) (decimals m));
  ae_decimals : (decimals m ≤ MAX_DECIMALS)%N;
  ae_symbol : symbol m ≠ "" ∧ PlainText.line (symbol m);
  ae_prov : match provenance m with
            | Seed => False
            | RecognizedSigner => vouched a e
            | UnrecognizedSigner | Unsigned => accepts_unsigned policy = true ∧ seeded a = None
            end;
}.

Lemma entry_provenance_Ok a e d p :
  entry_domain e = Ok d →
  entry_provenance show_hex network allow policy a e d = Ok p →
  match p with
  | Seed => False
  | RecognizedSigner => vouched a e
  | UnrecognizedSigner => accepts_unsigned policy = true
  | Unsigned => tm_signature e = None
  end.
Proof.
  unfold entry_provenance. intros Hd. destruct (tm_signature e) as [sig|] eqn:Es.
  2: by intros [= <-].
  destruct (validate_token_metadata_signature _ _ _ _ _ _ _) as [[]|err] eqn:Ev; [| |done].
  - intros [= <-]. exists d, sig. split_and!; [done..|]. by apply (validate_recognized show_hex).
  - destruct (accepts_unsigned policy); cbn; [by intros [= <-]|done].
Qed.

Lemma admit_entry_Ok a e m : admitted_as a e = Ok m → admitted_entry a e m.
Proof.
  unfold admit_entry. case_decide; [done|]. intros Hc%map_err_Ok.
  unfold admit_checked in Hc. case_decide; [done|].
  apply result_bind_Ok in Hc as (d & Hd & Hc).
  destruct (bool_decide (tm_signature e = None) && negb (accepts_unsigned policy)) eqn:Hu; [done|].
  apply result_bind_Ok in Hc as ([sym dec] & Hp%map_err_Ok & Hc).
  apply result_bind_Ok in Hc as (u & Hch & Hc).
  apply check_value_Ok in Hch as (Hdec & Hne & _ & Hsym).
  apply result_bind_Ok in Hc as (p & Hprov & Hc).
  destruct (if verified p then None else seeded a) as [?|] eqn:Hseed; [done|].
  injection Hc as <-. cbn in *. apply entry_provenance_Ok in Hprov; [|done].
  constructor; cbn; [lia|done|done|by split; [|apply symbol_char_line]|].
  destruct p; cbn in *; try done. split; [|done].
  rewrite Hprov, bool_decide_true in Hu by done. by destruct (accepts_unsigned policy).
Qed.

(** The loop registers what is admitted and reports the rest, in order. *)
Lemma extract_foldl l : ∀ reg rej,
  NoDup (keys l) → (∀ a, a ∈ keys l → reg !! a = None) →
  let st := foldl (token_extract_step show_hex is_nep141 parse_value network allow policy) (reg, rej) l in
  (∀ a m, st.1 !! a = Some m ↔ reg !! a = Some m ∨ ∃ e, (a, e) ∈ l ∧ admitted_as a e = Ok m) ∧
  st.2 = rej ++ omap (fun e => match admitted_as e.1 e.2 with Err r => Some r | Ok _ => None end) l.
Proof.
  induction l as [|[a e] l IH]; intros reg rej Hnd Hfresh; cbn [foldl].
  { cbn. rewrite app_nil_r. split; [|done]. intros. set_solver. }
  cbn [keys fmap list_fmap fst] in Hnd. apply NoDup_cons in Hnd as [Ha Hnd].
  unfold token_extract_step at 2 4. cbn [fst snd omap list_omap].
  destruct (admitted_as a e) as [m|r] eqn:Em.
  - destruct (IH (<[a := m]> reg) rej Hnd) as [IH1 IH2].
    { intros b Hb. rewrite lookup_insert_ne by (intros ->; done). apply Hfresh. by right. }
    split; [|exact IH2]. intros b m'. rewrite IH1, lookup_insert_Some.
    pose proof (Hfresh a ltac:(by left)) as Hf. setoid_rewrite elem_of_cons. split.
    + intros [[[<- <-]|[_ Hr]]|(e' & Hin & He')]; [|by left|].
      * right. exists e. split; [by left|done].
      * right. exists e'. split; [by right|done].
    + intros [Hr|(e' & [[= -> ->]|Hin] & He')].
      * left. right. split; [|done]. intros ->. congruence.
      * left. left. split; congruence.
      * right. by exists e'.
  - destruct (IH reg (rej ++ [r]) Hnd) as [IH1 IH2]; [intros b Hb; apply Hfresh; by right|].
    split; [|rewrite IH2; by rewrite <-app_assoc]. intros b m'. rewrite IH1.
    setoid_rewrite elem_of_cons. split.
    + intros [Hr|(e' & Hin & He')]; [by left|]. right. exists e'. split; [by right|done].
    + intros [Hr|(e' & [[= -> ->]|Hin] & He')]; [by left|congruence|]. right. by exists e'.
Qed.

(** The metadata of a NEAR request. *)
Definition near_metadata (near : NearMetadata) : option ChainMetadata :=
  Some (MkChainMetadata (Some (NearM near))).

(** What the request layer holds for an asset. *)
Definition extracted (x : TokenMetadataExtraction) (a : string) : option TokenMeta :=
  r ← ex_registry x; by_asset_id r !! a.

Lemma request_registry_lookup x a : registry_lookup (request_registry x) a = extracted x a.
Proof.
  unfold registry_lookup, request_registry, extracted, lookup_layered.
  destruct (ex_registry x) as [r|]; cbn; [|done]. by destruct (by_asset_id r !! a).
Qed.

Lemma extract_near near :
  btree_sorted (token_mappings near) → length (token_mappings near) ≤ MAX_TOKEN_METADATA_ENTRIES →
  let x := extract (near_metadata near) in
  (∀ a m, extracted x a = Some m ↔ ∃ e, (a, e) ∈ token_mappings near ∧ admitted_as a e = Ok m) ∧
  ex_rejected x =
    omap (fun e => match admitted_as e.1 e.2 with Err r => Some r | Ok _ => None end) (token_mappings near).
Proof.
  intros Hs Hl. cbn zeta. unfold try_extract_from_chain_metadata, near_metadata. cbn [cm_metadata].
  case_decide as He; [rewrite He; cbn; split; [set_solver|done]|].
  rewrite decide_False by lia.
  destruct (extract_foldl (token_mappings near) ∅ []) as [H1 H2]; [by apply btree_sorted_NoDup|done|].
  destruct (foldl _ _ _) as [reg rej]. cbn [fst snd] in H1, H2. subst rej.
  assert (∀ a m, reg !! a = Some m ↔ ∃ e, (a, e) ∈ token_mappings near ∧ admitted_as a e = Ok m) as Hr.
  { intros a m. rewrite H1, lookup_empty. naive_solver. }
  unfold extracted. case_decide as Hreg; cbn; (split; [|done]); [|done].
  intros a m. rewrite <-Hr, Hreg, lookup_empty. done.
Qed.

(** Whatever the metadata, an entry of the request layer was admitted from it. *)
Lemma extract_foldl_sound l : ∀ reg rej a m,
  (foldl (token_extract_step show_hex is_nep141 parse_value network allow policy) (reg, rej) l).1 !! a = Some m →
  reg !! a = Some m ∨ ∃ e, (a, e) ∈ l ∧ admitted_as a e = Ok m.
Proof.
  induction l as [|[b e] l IH]; intros reg rej a m; cbn [foldl]; [by left|].
  unfold token_extract_step at 2. cbn [fst snd]. destruct (admitted_as b e) as [m'|r] eqn:Em.
  - intros [Hr|(e' & Hin & He')]%IH; [|right; exists e'; split; [by right|done]].
    apply lookup_insert_Some in Hr as [[-> ->]|[_ Hr]]; [right|by left].
    exists e. split; [by left|done].
  - intros [Hr|(e' & Hin & He')]%IH; [by left|]. right. exists e'. split; [by right|done].
Qed.

Lemma extracted_admitted cm a m :
  extracted (extract cm) a = Some m →
  ∃ near e, cm = near_metadata near ∧ (a, e) ∈ token_mappings near ∧ admitted_as a e = Ok m.
Proof.
  destruct cm as [[[[| |near]|]]|]; try done. intros Hx. exists near.
  unfold try_extract_from_chain_metadata, extracted in Hx. cbn [cm_metadata] in Hx.
  case_decide; [done|]. case_decide; [done|].
  pose proof (extract_foldl_sound (token_mappings near) ∅ [] a m) as Hs.
  destruct (foldl _ _ _) as [reg rej]. case_decide; [done|]. cbn in Hx, Hs.
  destruct (Hs Hx) as [Hr|(e & ? & ?)]; [by rewrite lookup_empty in Hr|]. by exists e.
Qed.
End extraction.

Lemma domain_prehash_eq {S : Sha256} d n a b :
  domain_prehash d n a b =
  metadata_signing_prehash_v1 (domain_tag d) (near_token_metadata_scope n a) b.
Proof. by destruct d. Qed.

Section enrolment.
Context {S : Sha256} {H : HexCodec} {K : Secp256k1} {Ed : Ed25519}.
Context (show_hex : FromHexError → string).

(** The canonical bytes of a key for the curve of a domain. *)
Definition canonical_key (d : TokenMetadataDomain) (hex : string) : option bytes :=
  match d with
  | DomainEthereum => canonical_secp256k1_pubkey_from_hex hex
  | DomainNear | DomainSolana => canonical_ed25519_pubkey_from_hex show_hex hex
  end.

Lemma insert_signer_keys allow d hex k :
  k ∈ allowlist_keys (insert_token_metadata_signer show_hex allow d hex).1 ↔
  k ∈ allowlist_keys allow ∨ ∃ c, canonical_key d hex = Some c ∧ k = scoped_signer_key d c.
Proof.
  unfold insert_token_metadata_signer.
  change (match d with
          | DomainEthereum => canonical_secp256k1_pubkey_from_hex hex
          | DomainNear | DomainSolana => canonical_ed25519_pubkey_from_hex show_hex hex
          end) with (canonical_key d hex).
  destruct (canonical_key d hex) as [c|]; cbn; [set_solver|naive_solver].
Qed.

Lemma insert_env_keys env allow d k :
  k ∈ allowlist_keys (insert_env_signers show_hex env allow d) ↔
  k ∈ allowlist_keys allow ∨
  ∃ vars t c, env (env_var d) = Some vars ∧ t ∈ split_on "," vars ∧ trim t ≠ "" ∧
    canonical_key d (trim t) = Some c ∧ k = scoped_signer_key d c.
Proof.
  unfold insert_env_signers. destruct (env (env_var d)) as [vars|]; [|naive_solver].
  assert (∀ l acc,
    k ∈ allowlist_keys (foldl (fun allow entry =>
          (insert_token_metadata_signer show_hex allow d entry).1) acc l) ↔
    k ∈ allowlist_keys acc ∨
    ∃ e c, e ∈ l ∧ canonical_key d e = Some c ∧ k = scoped_signer_key d c) as ->.
  { induction l as [|e l IH]; intros acc; cbn [foldl]; [set_solver|].
    rewrite IH, insert_signer_keys. setoid_rewrite elem_of_cons. naive_solver. }
  apply or_iff_compat_l. split.
  - intros (e & c & [He Hin]%list_elem_of_filter & Hc & ->).
    apply list_elem_of_fmap in Hin as (t & -> & Ht). by exists vars, t, c.
  - intros (vars' & t & c & [= <-] & Ht & Hne & Hc & ->). exists (trim t), c.
    split_and!; try done. apply list_elem_of_filter. split; [done|]. by apply list_elem_of_fmap_2.
Qed.

Lemma canonical_key_slice d hex c :
  (∀ key, is_slice (to_encoded_point key)) → canonical_key d hex = Some c → is_slice c.
Proof.
  intros Hsl. unfold canonical_key, canonical_ed25519_pubkey_from_hex,
    canonical_secp256k1_pubkey_from_hex, is_slice, fits.
  destruct d; repeat case_match; intros [= <-]; try done; try apply Hsl;
    rewrite ed_key_length; done.
Qed.

(** A key is recognised for a domain exactly when the environment variable of that domain
    lists it: a curator of one origin chain vouches for no other. *)
Theorem curator_enrolment env d k :
  (∀ key, is_slice (to_encoded_point key)) → is_slice k →
  identity_of (authorized_token_metadata_signers show_hex env false) d k = Recognized ↔
  ∃ vars t, env (env_var d) = Some vars ∧ t ∈ split_on "," vars ∧ trim t ≠ "" ∧
    canonical_key d (trim t) = Some k.
Proof.
  intros Hsl Hk. rewrite identity_of_Recognized.
  unfold authorized_token_metadata_signers, insert_near_dev_signer, ALL_DOMAINS. cbn [foldl].
  rewrite !insert_env_keys. split.
  - intros Hor. assert (∃ d' vars t c, env (env_var d') = Some vars ∧ t ∈ split_on "," vars ∧
      trim t ≠ "" ∧ canonical_key d' (trim t) = Some c ∧
      scoped_signer_key d k = scoped_signer_key d' c) as (d' & vars & t & c & ? & ? & ? & Hc & Heq).
    { destruct Hor as [[[Hin|?]|?]|?]; [cbn in Hin; set_solver|eexists; eassumption..]. }
    apply scoped_signer_key_inj in Heq as [-> ->]; [|done|by eapply canonical_key_slice].
    by exists vars, t.
  - intros (vars & t & Hv & Ht & Hne & Hc). destruct d; [left; left|left|]; right;
      by exists vars, t, k.
Qed.
End enrolment.

Section properties.
Context {S : Sha256} {H : HexCodec} {K : Secp256k1} {Ed : Ed25519}.
Context (show_hex : FromHexError → string).
Context (is_nep141 : string → bool) (parse_value : string → result string TokenMetadataValue).
Context (network : NearNetwork) (allow : SignerAllowlist) (policy : MetadataTrustPolicy).

Notation admitted_as := (admit_entry show_hex is_nep141 parse_value network allow policy).
Notation extract := (try_extract_from_chain_metadata show_hex is_nep141 parse_value network allow policy).

(** The extraction loses nothing: every entry of a request is either in the request layer
    with the metadata admitted for it, or in the list of refusals that is shown to the signer,
    in the order of the request. *)
Theorem token_extraction_exact near :
  btree_sorted (token_mappings near) → length (token_mappings near) ≤ MAX_TOKEN_METADATA_ENTRIES →
  (∀ a m, extracted (extract (near_metadata near)) a = Some m ↔
     ∃ e, (a, e) ∈ token_mappings near ∧ admitted_as a e = Ok m) ∧
  ex_rejected (extract (near_metadata near)) =
    omap (fun e => match admitted_as e.1 e.2 with Err r => Some r | Ok _ => None end) (token_mappings near).
Proof. apply extract_near. Qed.

(** C34: a curated asset keeps its metadata, whatever a request supplies and whatever the posture.
    An id of the seed table, or the id of that balance in the intents contract, resolves to the
    symbol and the decimals of its own seed, or to those of an entry the request has for that id
    or for the balance it names, which a curator enrolled for the entry's origin chain signed over
    the network, that very id and the value shown. *)
Theorem curated_asset_protected cm b sym dec a :
  (b, sym, dec) ∈ SEEDS → asset_of is_nep141 b a →
  ∃ m, resolve is_nep141 a (request_registry (extract cm)) = Some m ∧
    (m = MkTokenMeta sym dec Seed ∨
     (provenance m = RecognizedSigner ∧
      ∃ near id e, cm = near_metadata near ∧ (id = a ∨ id = b) ∧ (id, e) ∈ token_mappings near ∧
        vouched network allow id e ∧
        parse_value (tm_value e) = Ok (MkTokenMetadataValue (symbol m) (decimals m)))).
Proof.
  intros Hs Ha. rewrite (curated_resolve _ (b, sym, dec)), !request_registry_lookup by done.
  cbn [fst snd].
  assert (∀ id m, (id = a ∨ id = b) → extracted (extract cm) id = Some m →
    usable m = Some m ∧ provenance m = RecognizedSigner ∧
    ∃ near e, cm = near_metadata near ∧ (id, e) ∈ token_mappings near ∧
      vouched network allow id e ∧
      parse_value (tm_value e) = Ok (MkTokenMetadataValue (symbol m) (decimals m))) as Hreq.
  { intros id m Hid (near & e & -> & Hin & Hm)%extracted_admitted.
    apply admit_entry_Ok in Hm as [_ Hv Hd _ Hp].
    assert (seeded_decimals is_nep141 id = Some dec) as Hsd.
    { destruct Hid as [-> | ->]; [|assert (asset_of is_nep141 b b) by by left];
        by apply (curated_decimals _ (b, sym, dec)). }
    split; [by apply usable_Some|]. destruct (provenance m); [done| |naive_solver..].
    split; [done|]. by exists near, e. }
  destruct (extracted (extract cm) a) as [m|] eqn:Ea.
  { destruct (Hreq a m) as (Hu & Hp & near & e & Hr); [by left|done|]. exists m.
    split; [done|]. right. split; [done|]. exists near, a, e. naive_solver. }
  destruct (extracted (extract cm) b) as [m|] eqn:Eb.
  - destruct (Hreq b m) as (Hu & Hp & near & e & Hr); [by right|done|]. exists m.
    split; [done|]. right. split; [done|]. exists near, b, e. naive_solver.
  - eexists. split; [reflexivity|]. by left.
Qed.

(** Under the require-signed posture every entry of the request layer was signed by a
    curator enrolled for its origin chain, over the exact value, asset id and network. *)
Theorem strict_posture_vouched cm a m :
  accepts_unsigned policy = false → extracted (extract cm) a = Some m →
  provenance m = RecognizedSigner ∧
  ∃ near e, cm = near_metadata near ∧ (a, e) ∈ token_mappings near ∧ vouched network allow a e ∧
    parse_value (tm_value e) = Ok (MkTokenMetadataValue (symbol m) (decimals m)).
Proof.
  intros Hp Hx. apply extracted_admitted in Hx as (near & e & -> & Hin & Hm).
  apply admit_entry_Ok in Hm as [_ Hv _ _ Hpr].
  destruct (provenance m); [done| |destruct Hpr; congruence..].
  split; [done|]. by exists near, e.
Qed.

(** Metadata is well formed wherever it comes from: what resolves to an asset has a
    non-empty printable symbol on one line, and decimals the amounts can be scaled by. *)
Theorem resolved_metadata_shown cm a m :
  resolve is_nep141 a (request_registry (extract cm)) = Some m →
  PlainText.line (symbol m) ∧ symbol m ≠ "" ∧ (decimals m ≤ MAX_DECIMALS)%N.
Proof.
  intros Hr. apply resolve_known in Hr as [[(s & Hin & ->)|(b & Hb)] Hd].
  - destruct seeds_checked as [Hall _]. rewrite Forall_forall in Hall.
    destruct (Hall s Hin) as (? & ? & ?). done.
  - rewrite request_registry_lookup in Hb.
    apply extracted_admitted in Hb as (near & e & -> & Hin & Hm).
    apply admit_entry_Ok in Hm as [_ _ _ [? ?] _]. done.
Qed.
End properties.

(** What the signing helpers sign validates in its own domain, for every allow-list, as
    recognised exactly when the signer's key is enrolled for that domain. *)
Theorem token_signature_round_trip (S : Sha256) (H : HexCodec) (K : Secp256k1) (Ed : Ed25519)
    show_hex n a v d seed sm :
  match d with
  | DomainEthereum => sign_token_metadata_secp256k1 n a v seed
  | DomainNear => Ok (sign_token_metadata_ed25519 n a v seed near_token_metadata_prehash)
  | DomainSolana => Ok (sign_token_metadata_ed25519 n a v seed solana_token_metadata_prehash)
  end = Ok sm →
  ∃ k, ∀ allow,
    validate_token_metadata_signature show_hex n a v d (convert_proto_signature sm) allow =
    Ok (if decide (scoped_signer_key d k ∈ allowlist_keys allow) then Recognized else Unrecognized).
Proof.
  assert (∀ bs, decode_hex (hex_encode bs) = Ok bs) as Hhex
    by (intros bs; apply (decode_hex_encode "" bs); by left).
  assert (∀ allow k, identity_of allow d k =
    if decide (scoped_signer_key d k ∈ allowlist_keys allow) then Recognized else Unrecognized) as Hid.
  { intros. unfold identity_of, allowlist_contains. case_bool_decide; by case_decide. }
  intros Hsign. destruct d; [|apply result_bind_Ok in Hsign as (sk & _ & Hsign);
    apply result_bind_Ok in Hsign as (s & Hs%map_err_Ok & Hsign)|]; injection Hsign as <-.
  2: { destruct (from_to_point (verifying_key_of sk)) as (p & Hp & Hk).
       exists (to_encoded_point (verifying_key_of sk)). intros allow. rewrite <-Hid.
       apply validate_secp256k1_Ok. eexists (verifying_key_of sk), _, _, p, _, s.
       split_and!; [done|done|apply Hhex|done|done|apply Hhex|apply from_to_der| |done].
       by apply sign_verify_prehash. }
  all: exists (ed_key_to_bytes (ed_verifying_key_of (ed_signing_key_from_seed seed)));
    intros allow; rewrite <-Hid; apply validate_ed25519_Ok;
    eexists (ed_verifying_key_of (ed_signing_key_from_seed seed)), _, _;
    (split_and!; [done|done|apply Hhex|apply Hhex|apply ed_sign_length|apply ed_sign_verify|done]).
Qed.

(** The prehash of a token signature binds its domain, network, asset and value: a
    signature for one of them serves no other, short of a SHA-256 collision. *)
Theorem token_prehash_binding (S : Sha256) d d' n n' a a' v v' :
  is_slice (as_bytes n) → is_slice (as_bytes n') → is_slice (as_bytes a) → is_slice (as_bytes a') →
  is_slice (near_token_metadata_scope n a) → is_slice (near_token_metadata_scope n' a') →
  is_slice (as_bytes v) → is_slice (as_bytes v') →
  domain_prehash d n a (as_bytes v) = domain_prehash d' n' a' (as_bytes v') →
  (d = d' ∧ n = n' ∧ a = a' ∧ v = v') ∨ sha_collision.
Proof.
  intros ????????. rewrite !domain_prehash_eq.
  intros [(Ht & Hs & Hv)|?]%prehash_inj; [left|by right|try done; by destruct d|by destruct d'|done..].
  apply domain_tag_inj in Ht as ->. apply near_scope_inj in Hs as [-> ->]; [|done..].
  by apply (inj as_bytes) in Hv as ->.
Qed.

(** A request with one unsigned and one signed entry under toy keys, for the properties. *)
Module sample_tokens.
Definition show (_ : FromHexError) : string := "hex".
Definition nep141 : string → bool := starts_with "nep141:".
Definition value : string := "wNEAR at 24".
Definition read_value (v : string) : result string TokenMetadataValue :=
  if decide (v = value) then Ok (MkTokenMetadataValue "wNEAR" 24) else Err "expected value".
Definition asset : string := "nep141:wrap.near".
Definition signature : SignatureMetadata :=
  @sign_token_metadata_ed25519 hex_ref toy_ed25519 "NEAR_MAINNET" asset value
    DEV_NEAR_SIGNING_KEY_SEED (@near_token_metadata_prehash truncation_hash).
Definition entry : TokenMetadataEntry := MkTokenMetadataEntry value (Some signature) None.
Definition near : NearMetadata :=
  MkNearMetadata None
    [("nep141:other.near", MkTokenMetadataEntry "bad" None None); (asset, entry)].
Definition curator_key : bytes := toy_ed_key Byte.x51.
Definition allow : SignerAllowlist := allowlist_insert (scoped_signer_key DomainNear curator_key) SignerAllowlist_new.
Definition run_extract (policy : MetadataTrustPolicy) (cm : option ChainMetadata) : TokenMetadataExtraction :=
  @try_extract_from_chain_metadata truncation_hash hex_ref toy_secp256k1 toy_ed25519 show nep141 read_value
    Mainnet allow policy cm.
Definition meta : TokenMeta := MkTokenMeta "wNEAR" 24 RecognizedSigner.
Definition env (v : string) : option string :=
  if decide (v = "VISUALSIGN_NEAR_TOKEN_SIGNERS") then Some (" 0x" +:+ hex_of_bytes curator_key +:+ " ,")
  else None.
Lemma near_sorted : btree_sorted (token_mappings near).
Proof. repeat constructor. Qed.
Lemma extracted_signed :
  extracted (run_extract (RequireAllowlistedSigner allow) (near_metadata near)) asset = Some meta.
Proof. vm_compute. reflexivity. Qed.
End sample_tokens.

Lemma token_extraction_exact_witness :
  length (ex_rejected (sample_tokens.run_extract AcceptUnsigned (near_metadata sample_tokens.near))) = 1.
Proof.
  unfold sample_tokens.run_extract.
  rewrite (proj2 (@token_extraction_exact truncation_hash hex_ref toy_secp256k1 toy_ed25519
    sample_tokens.show sample_tokens.nep141 sample_tokens.read_value Mainnet sample_tokens.allow
    AcceptUnsigned sample_tokens.near sample_tokens.near_sorted ltac:(by_decision))).
  vm_compute. reflexivity.
Defined.

Lemma curated_asset_protected_witness :
  let a := "nep245:intents.near:nep141:eth.omft.near" in
  resolve sample_tokens.nep141 a
    (request_registry (sample_tokens.run_extract AcceptUnsigned (near_metadata sample_tokens.near)))
  = Some (MkTokenMeta "ETH" 18 Seed).
Proof.
  destruct (@curated_asset_protected truncation_hash hex_ref toy_secp256k1 toy_ed25519
    sample_tokens.show sample_tokens.nep141 sample_tokens.read_value Mainnet sample_tokens.allow
    AcceptUnsigned (near_metadata sample_tokens.near) "nep141:eth.omft.near" "ETH" 18%N
    "nep245:intents.near:nep141:eth.omft.near")
    as (m & Hm & [-> |(_ & near & id & e & Hn & Hid & Hin & _)]);
    [by_decision|right; split; reflexivity|exact Hm|].
  exfalso. assert (near = sample_tokens.near) as -> by (unfold near_metadata in Hn; congruence).
  apply elem_of_cons in Hin as [Hin|Hin%list_elem_of_singleton];
    destruct Hid as [-> | ->]; discriminate Hin.
Defined.

Lemma strict_posture_vouched_witness : provenance sample_tokens.meta = RecognizedSigner.
Proof.
  apply (@strict_posture_vouched truncation_hash hex_ref toy_secp256k1 toy_ed25519
    sample_tokens.show sample_tokens.nep141 sample_tokens.read_value Mainnet sample_tokens.allow
    (RequireAllowlistedSigner sample_tokens.allow) (near_metadata sample_tokens.near)
    sample_tokens.asset sample_tokens.meta);
    [reflexivity|exact sample_tokens.extracted_signed].
Defined.

Lemma token_signature_round_trip_witness :
  ∃ k, ∀ allow,
    @validate_token_metadata_signature truncation_hash hex_ref toy_secp256k1 toy_ed25519
      sample_tokens.show "NEAR_MAINNET" sample_tokens.asset sample_tokens.value DomainNear
      (convert_proto_signature sample_tokens.signature) allow =
    Ok (if decide (scoped_signer_key DomainNear k ∈ allowlist_keys allow) then Recognized
        else Unrecognized).
Proof.
  apply (token_signature_round_trip truncation_hash hex_ref toy_secp256k1 toy_ed25519
    sample_tokens.show "NEAR_MAINNET" sample_tokens.asset sample_tokens.value DomainNear
    DEV_NEAR_SIGNING_KEY_SEED). reflexivity.
Defined.

Lemma token_prehash_binding_witness :
  (DomainNear = DomainNear ∧ "NEAR_MAINNET" = "NEAR_MAINNET" ∧
   sample_tokens.asset = sample_tokens.asset ∧ sample_tokens.value = sample_tokens.value) ∨
  @sha_collision truncation_hash.
Proof.
  apply (token_prehash_binding truncation_hash); [by vm_compute..|reflexivity].
Defined.

Lemma curator_enrolment_witness :
  identity_of (@authorized_token_metadata_signers hex_ref toy_secp256k1 toy_ed25519 sample_tokens.show
    sample_tokens.env false) DomainNear sample_tokens.curator_key = Recognized.
Proof.
  apply (@curator_enrolment hex_ref toy_secp256k1 toy_ed25519 sample_tokens.show sample_tokens.env
    DomainNear sample_tokens.curator_key); [intros key; by vm_compute|by vm_compute|].
  exists (" 0x" +:+ hex_of_bytes sample_tokens.curator_key +:+ " ,"), (" 0x" +:+ hex_of_bytes sample_tokens.curator_key +:+ " ").
  split; [reflexivity|]. split; [vm_compute; left|]. split; [vm_compute; discriminate|].
  vm_compute. reflexivity.
Defined.

Lemma resolved_metadata_shown_witness :
  PlainText.line "wNEAR" ∧ "wNEAR" ≠ "" ∧ (24 ≤ MAX_DECIMALS)%N.
Proof.
  apply (@resolved_metadata_shown truncation_hash hex_ref toy_secp256k1 toy_ed25519
    sample_tokens.show sample_tokens.nep141 sample_tokens.read_value Mainnet sample_tokens.allow
    (RequireAllowlistedSigner sample_tokens.allow) (near_metadata sample_tokens.near)
    sample_tokens.asset sample_tokens.meta).
  vm_compute. reflexivity.
Defined.
