(* ===== verification/NearRender.v ===== *)
(** * NEAR Intents: rendering

    [presets/intents/render.rs], [verify.rs], [args.rs] and the entry points of [mod.rs] in
    [chain_parsers/visualsign-near]: the fields shown for each intent, envelope and signed
    payload. The types of [defuse-core] appear as the records and variants the renderer
    reads; their parsers, texts and signature checks are the class [NearTypes]. *)

From S2P Require Import Prelude Panic Json Payload Errors Charset External DecimalText Encodings Builders PlainText Registry NearText NearTokens NearSigning.

(** ** What is used of the NEAR and defuse crates *)

(** An account id has a character set of its own, and the texts of keys and deadlines are
    printable; a token id is any text. [payload_verify] returns [None] where the native
    [ecrecover] panics, which it does only on a recovery id outside 0 to 3. *)
Class NearTypes : Type := {
  AccountId : Type;
  as_str : AccountId → string;
  as_str_line a : line (as_str a);
  PublicKey : Type;
  show_public_key : PublicKey → string;
  show_public_key_line k : line (show_public_key k);
  to_implicit_account_id : PublicKey → AccountId;
  Deadline : Type;
  to_rfc3339 : Deadline → string;
  to_rfc3339_line d : line (to_rfc3339 d);
  TokenId : Type;
  show_token_id : TokenId → string;
  StateInit : Type;
  SignedBody : Type;
}.

Section types.
Context {T : NearTypes}.

Record NotifyOnTransfer := MkNotify { notify_msg : string; notify_state_init : option StateInit }.

Record TokenDiff := MkTokenDiff {
  td_diff : list (TokenId * Z);
  td_memo : option string;
  td_referral : option AccountId;
}.

Record Transfer := MkTransfer {
  tr_receiver_id : AccountId;
  tr_tokens : list (TokenId * N);
  tr_memo : option string;
  tr_notification : option NotifyOnTransfer;
}.

Record FtWithdraw := MkFtWithdraw {
  ft_token : AccountId;
  ft_receiver_id : AccountId;
  ft_amount : N;
  ft_memo : option string;
  ft_msg : option string;
  ft_storage_deposit : option N;
}.

Record NftWithdraw := MkNftWithdraw {
  nft_token : AccountId;
  nft_receiver_id : AccountId;
  nft_token_id : string;
  nft_memo : option string;
  nft_msg : option string;
  nft_storage_deposit : option N;
}.

Record MtWithdraw := MkMtWithdraw {
  mt_token : AccountId;
  mt_receiver_id : AccountId;
  mt_token_ids : list string;
  mt_amounts : list N;
  mt_memo : option string;
  mt_msg : option string;
  mt_storage_deposit : option N;
}.

Inductive Intent : Type :=
| ITokenDiff (td : TokenDiff)
| ITransfer (t : Transfer)
| IFtWithdraw (w : FtWithdraw)
| INftWithdraw (w : NftWithdraw)
| IMtWithdraw (w : MtWithdraw)
| INativeWithdraw (receiver_id : AccountId) (amount : N)
| IAddPublicKey (public_key : PublicKey)
| IRemovePublicKey (public_key : PublicKey)
| ISetAuthByPredecessorId (enabled : bool)
| IStorageDeposit (contract_id deposit_for_account_id : AccountId) (amount : N)
| IAuthCall (contract_id : AccountId) (msg : string) (attached_deposit : N)
    (state_init : option StateInit).

Record DefusePayload := MkDefusePayload {
  signer_id : AccountId;
  verifying_contract : AccountId;
  deadline : Deadline;
  nonce : bytes;
  intents : list Intent;
}.

(** The secp256k1 standards carry a [[u8; 65]]; the rest of a signed payload is opaque. *)
Inductive MultiPayload : Type :=
| Nep413 (body : SignedBody)
| Erc191 (signature : vec byte 65) (body : SignedBody)
| Tip191 (signature : vec byte 65) (body : SignedBody)
| RawEd25519 (body : SignedBody)
| WebAuthn (body : SignedBody)
| TonConnect (body : SignedBody)
| Sep53 (body : SignedBody).
End types.

(** The checks and parsers of the crates. *)
Class NearCrates {T : NearTypes} : Type := {
  payload_verify : MultiPayload → option (option PublicKey);
  payload_verify_panics mp :
    payload_verify mp = None →
    ∃ sig body b, (mp = Erc191 sig body ∨ mp = Tip191 sig body) ∧
      vec_to_list sig !! 64 = Some b ∧ (4 ≤ byte_to_Z b)%Z;
  extract_defuse_payload : MultiPayload → result string DefusePayload;
  parse_execute_intents_args : bytes → result string (list MultiPayload);
  parse_defuse_payload : bytes → result string DefusePayload;
  has_expired : Deadline → bool;
  is_nep141 : string → bool;
}.

Abbreviation fields_m := (result (crash VisualSignError) (list SignablePayloadField)).
Abbreviation field_m := (result (crash VisualSignError) SignablePayloadField).

(** A built field, without its annotations. *)
Definition built (m : result VisualSignError AnnotatedPayloadField) : field_m :=
  a ← lift m; Ok (signable_payload_field a).

(** The loop that extends the fields with those of each element. *)
Fixpoint extend_each {A} (f : A → fields_m) (l : list A) : fields_m :=
  match l with
  | [] => Ok []
  | x :: l => a ← f x; b ← extend_each f l; Ok (a ++ b)
  end.

Definition NEAR_SYMBOL : string := "NEAR".
Definition NEAR_DECIMALS : N := 24.

Definition EMPTY_VALUE : string := "(empty)\".

Definition nonempty_filtered (text : option string) : option string :=
  match text with
  | Some t => let f := charset_safe t in if is_empty_string f then None else Some f
  | None => None
  end.

Definition present_value (text : string) : string :=
  let filtered := charset_safe text in
  if is_empty_string filtered then EMPTY_VALUE else filtered.

Section render.
(** Whether the [diagnostics] feature is on. *)
Context {T : NearTypes} {C : NearCrates} {H : HexCodec} {E : RegexEngine} (diagnostics : bool).

Definition text (label t : string) : field_m := built (create_text_field label t).
Definition amount (label a abbreviation : string) : field_m :=
  built (create_amount_field label a abbreviation).

Definition diagnostic (rule message : string) : field_m :=
  if diagnostics then
    Ok (signable_payload_field
          (create_diagnostic_field rule "near-intents" SevWarn (charset_safe message) None))
  else text "Warning" (rule +:+ ": " +:+ charset_safe message).

(** A field that fails to build is left out. *)
Definition rejected_metadata_diagnostics (rejected : list RejectedTokenMetadata)
    : list SignablePayloadField :=
  omap (fun r =>
          let message := "token metadata supplied for " +:+ rj_asset_id r
                         +:+ " was rejected and not used: " +:+ rj_reason r in
          match diagnostic "rejected-token-metadata" message with
          | Ok field => Some field
          | Err _ => None
          end) rejected.

Definition token_amount_field (label asset_id : string) (raw : N) (registry : Reg) : fields_m :=
  let resolved := resolve is_nep141 asset_id registry in
  let asset_id := charset_safe asset_id in
  match resolved with
  | Some meta =>
      units ← format_units raw (decimals meta);
      field ← amount label units (symbol meta);
      match unverified_cause (provenance meta) with
      | Some cause =>
          d ← diagnostic "unverified-token-metadata"
                ("symbol/decimals for " +:+ asset_id +:+ ": " +:+ cause);
          Ok [field; d]
      | None => Ok [field]
      end
  | None =>
      f ← text label (show_Z (Z.of_N raw) +:+ " (unresolved " +:+ asset_id +:+ ")");
      Ok [f]
  end.

Definition near_amount_field (label : string) (yocto : N) : field_m :=
  units ← format_units yocto NEAR_DECIMALS;
  amount label units NEAR_SYMBOL.

Definition standard_name (mp : MultiPayload) : string :=
  match mp with
  | Nep413 _ => "nep413"
  | Erc191 _ _ => "erc191"
  | Tip191 _ _ => "tip191"
  | RawEd25519 _ => "raw_ed25519"
  | WebAuthn _ => "webauthn"
  | TonConnect _ => "ton_connect"
  | Sep53 _ => "sep53"
  end.

Definition intent_label (intent : Intent) : string :=
  match intent with
  | ITokenDiff _ => "Token Diff"
  | ITransfer _ => "Transfer"
  | IFtWithdraw _ => "FT Withdraw"
  | INftWithdraw _ => "NFT Withdraw"
  | IMtWithdraw _ => "MT Withdraw"
  | INativeWithdraw _ _ => "Native Withdraw"
  | IAddPublicKey _ => "Add Public Key"
  | IRemovePublicKey _ => "Remove Public Key"
  | ISetAuthByPredecessorId _ => "Set Auth By Predecessor Id"
  | IStorageDeposit _ _ _ => "Storage Deposit"
  | IAuthCall _ _ _ _ => "Auth Call"
  end.

Definition title_for_intents (l : list Intent) : string :=
  match l with
  | [single] => "NEAR Intent: " +:+ intent_label single
  | _ => "NEAR Intent"
  end.

Definition intent_boundary_field (intent : Intent) (index total : nat) : field_m :=
  let label := intent_label intent in
  text "Intent"
    (if decide (1 < total) then show_nat (index + 1) +:+ " of " +:+ show_nat total +:+ ": " +:+ label
     else label).

Definition account_control_warning (intent : Intent)
    : result (crash VisualSignError) (option SignablePayloadField) :=
  let consequence :=
    match intent with
    | IAddPublicKey _ => Some "this key gains permanent authority over the account's entire intents balance, until it is explicitly removed"
    | IRemovePublicKey _ => Some "removing a key revokes its authority over the account; removing the only remaining key can lock the account out"
    | ISetAuthByPredecessorId _ => Some "this changes which callers the account authorizes, independently of its keys"
    | IAuthCall _ _ _ _ => Some "this calls the named contract with the signer's own authority, and the attached deposit is not refunded on failure"
    | _ => None
    end in
  match consequence with
  | Some c => d ← diagnostic "account-control" c; Ok (Some d)
  | None => Ok None
  end.

Definition state_init_field : field_m := text "State Init" "(not fully decoded)".

(** The field of an optional text, on presence after the filter. *)
Definition memo_field (memo : option string) : fields_m :=
  match nonempty_filtered memo with
  | Some memo => f ← text "Memo" memo; Ok [f]
  | None => Ok []
  end.

Definition render_token_diff (td : TokenDiff) (registry : Reg) : fields_m :=
  if decide (td_diff td = []) then Err (Fail (ValidationError "token_diff carries no entries"))
  else
    entries ← extend_each (fun '(token_id, delta) =>
        if decide (delta = 0)%Z then
          Err (Fail (ValidationError ("token_diff entry for " +:+ charset_safe (show_token_id token_id)
                                      +:+ " has a zero delta")))
        else
          let label := if decide (delta < 0)%Z then "Send" else "Receive" in
          token_amount_field label (show_token_id token_id) (Z.abs_N delta) registry) (td_diff td);
    memo ← memo_field (td_memo td);
    referral ← match td_referral td with
               | Some referral => f ← text "Referral" (as_str referral); Ok [f]
               | None => Ok []
               end;
    Ok (entries ++ memo ++ referral).

Definition render_transfer (t : Transfer) (registry : Reg) : fields_m :=
  to ← text "To" (as_str (tr_receiver_id t));
  tokens ← extend_each (fun '(token_id, a) =>
      token_amount_field "Amount" (show_token_id token_id) a registry) (tr_tokens t);
  memo ← memo_field (tr_memo t);
  notification ←
    match tr_notification t with
    | Some n =>
        m ← text "Message" (present_value (notify_msg n));
        match notify_state_init n with
        | Some _ => s ← state_init_field; Ok [m; s]
        | None => Ok [m]
        end
    | None => Ok []
    end;
  Ok (to :: tokens ++ memo ++ notification).

Definition push_withdraw_call_details (memo msg : option string) (storage_deposit : option N)
    : fields_m :=
  memo ← memo_field memo;
  msg ← match msg with
        | Some msg => f ← text "Message" (present_value msg); Ok [f]
        | None => Ok []
        end;
  deposit ← match storage_deposit with
            | Some d => f ← near_amount_field "Storage Deposit" d; Ok [f]
            | None => Ok []
            end;
  Ok (memo ++ msg ++ deposit).

Definition render_ft_withdraw (w : FtWithdraw) (registry : Reg) : fields_m :=
  token ← text "Token" (as_str (ft_token w));
  to ← text "To" (as_str (ft_receiver_id w));
  amounts ← token_amount_field "Amount" ("nep141:" +:+ as_str (ft_token w)) (ft_amount w) registry;
  details ← push_withdraw_call_details (ft_memo w) (ft_msg w) (ft_storage_deposit w);
  Ok (token :: to :: amounts ++ details).

Definition render_nft_withdraw (w : NftWithdraw) : fields_m :=
  token ← text "Token" (as_str (nft_token w));
  to ← text "To" (as_str (nft_receiver_id w));
  id ← text "NFT Token Id" (charset_safe (nft_token_id w));
  details ← push_withdraw_call_details (nft_memo w) (nft_msg w) (nft_storage_deposit w);
  Ok (token :: to :: id :: details).

Definition render_mt_withdraw (w : MtWithdraw) (registry : Reg) : fields_m :=
  if decide (length (mt_token_ids w) ≠ length (mt_amounts w)) then
    Err (Fail (ValidationError
                 ("mt_withdraw token_ids/amounts length mismatch: "
                  +:+ show_nat (length (mt_token_ids w)) +:+ " token_ids vs "
                  +:+ show_nat (length (mt_amounts w)) +:+ " amounts")))
  else
    token ← text "Token" (as_str (mt_token w));
    to ← text "To" (as_str (mt_receiver_id w));
    entries ← extend_each (fun '(id, a) =>
        t ← text "MT Token" (charset_safe id);
        amounts ← token_amount_field "Amount" ("nep245:" +:+ as_str (mt_token w) +:+ ":" +:+ id) a
                    registry;
        Ok (t :: amounts)) (zip (mt_token_ids w) (mt_amounts w));
    details ← push_withdraw_call_details (mt_memo w) (mt_msg w) (mt_storage_deposit w);
    Ok (token :: to :: entries ++ details).

Definition render_native_withdraw (receiver_id : AccountId) (a : N) : fields_m :=
  to ← text "To" (as_str receiver_id);
  f ← near_amount_field "Amount" a;
  Ok [to; f].

Definition render_intent_body (intent : Intent) (registry : Reg) : fields_m :=
  match intent with
  | ITokenDiff td => render_token_diff td registry
  | ITransfer t => render_transfer t registry
  | IFtWithdraw w => render_ft_withdraw w registry
  | INftWithdraw w => render_nft_withdraw w
  | IMtWithdraw w => render_mt_withdraw w registry
  | INativeWithdraw receiver_id a => render_native_withdraw receiver_id a
  | IAddPublicKey k => f ← text "Add Public Key" (show_public_key k); Ok [f]
  | IRemovePublicKey k => f ← text "Remove Public Key" (show_public_key k); Ok [f]
  | ISetAuthByPredecessorId enabled =>
      f ← text "Auth By Predecessor" (if (enabled : bool) then "enabled" else "disabled"); Ok [f]
  | IStorageDeposit contract_id account_id a =>
      c ← text "Contract" (as_str contract_id);
      d ← text "For Account" (as_str account_id);
      f ← near_amount_field "Amount" a;
      Ok [c; d; f]
  | IAuthCall contract_id msg attached_deposit state_init =>
      c ← text "Contract" (as_str contract_id);
      m ← text "Message" (charset_safe msg);
      f ← near_amount_field "Attached Deposit" attached_deposit;
      match state_init with
      | Some _ => s ← state_init_field; Ok [c; m; f; s]
      | None => Ok [c; m; f]
      end
  end.

Definition intent_consumes_token_registry (intent : Intent) : bool :=
  match intent with
  | ITokenDiff _ | ITransfer _ | IFtWithdraw _ | IMtWithdraw _ => true
  | _ => false
  end.

Definition render_intent (intent : Intent) (registry : Reg) : fields_m :=
  fields ← render_intent_body intent registry;
  warning ← account_control_warning intent;
  Ok (fields ++ option_list warning).

(** ** Signatures *)

Inductive SignatureCheck : Type :=
| SigValid (recovered_key implied_account_id : string)
| SigInvalid
| SigMalformedEncoding (reason : string).

Definition recovery_reason (signature : vec byte 65)
    : result (crash VisualSignError) (option string) :=
  recovery_id ← byte_at (vec_to_list signature) 64;
  if decide (recovery_id < 4)%Z then Ok None
  else
    let hint := if decide (recovery_id = 27 ∨ recovery_id = 28)%Z
                then " (Ethereum v=27/28 must be normalized)" else "" in
    Ok (Some ("malformed signature encoding: recovery id " +:+ show_Z recovery_id
              +:+ ", expected 0-3" +:+ hint)).

Definition invalid_secp256k1_recovery_id_reason (payload : MultiPayload)
    : result (crash VisualSignError) (option string) :=
  match payload with
  | Erc191 signature _ | Tip191 signature _ => recovery_reason signature
  | _ => Ok None
  end.

Definition verify_and_extract (payload : MultiPayload)
    : result (crash VisualSignError) (SignatureCheck * result string DefusePayload) :=
  reason ← invalid_secp256k1_recovery_id_reason payload;
  check ← match reason with
          | Some reason => Ok (SigMalformedEncoding reason)
          | None =>
              match payload_verify payload with
              | None => Err Panic
              | Some (Some key) =>
                  Ok (SigValid (show_public_key key) (as_str (to_implicit_account_id key)))
              | Some None => Ok SigInvalid
              end
          end;
  Ok (check, extract_defuse_payload payload).

(** [str::eq_ignore_ascii_case]. *)
Fixpoint eq_ignore_ascii_case (s t : string) : bool :=
  match s, t with
  | "", "" => true
  | String a s, String b t => bool_decide (lower_ascii a = lower_ascii b) && eq_ignore_ascii_case s t
  | _, _ => false
  end.

Definition looks_like_implicit_account (id : string) : bool :=
  let is_hex s := negb (is_empty_string s) && str_all is_ascii_hexdigit s in
  (bool_decide (String.length id = 64) && is_hex id)
  || match split_hex_prefix id with
     | Some rest => bool_decide (String.length rest = 40) && is_hex rest
     | None => false
     end.

Definition render_signature (standard : string) (check : SignatureCheck) (signer_id : option string)
    : fields_m :=
  std ← text "Standard" standard;
  match check with
  | SigValid recovered_key implied_account_id =>
      match (match signer_id with
             | Some id => if looks_like_implicit_account id then Some id else None
             | None => None
             end) with
      | Some id =>
          if eq_ignore_ascii_case id implied_account_id then
            f ← text "Signature" ("valid for key " +:+ recovered_key +:+ " (derives signer_id "
                                  +:+ id +:+ ")");
            Ok [std; f]
          else
            f ← text "Signature" ("valid for key " +:+ recovered_key);
            d ← diagnostic "account-binding"
                  ("the signing key does not derive signer_id " +:+ id +:+ " (it derives "
                   +:+ implied_account_id +:+ "); the account may still have authorized this key on-chain, which this parser cannot check");
            Ok [std; f; d]
      | None =>
          f ← text "Signature" ("valid for key " +:+ recovered_key
                                +:+ " (key-to-account binding not verified)");
          Ok [std; f]
      end
  | SigInvalid => d ← diagnostic "signature" "signature verification failed"; Ok [std; d]
  | SigMalformedEncoding reason => d ← diagnostic "signature" reason; Ok [std; d]
  end.

(** ** Envelopes *)

Definition render_envelope (payload : DefusePayload) : fields_m :=
  s ← text "Signer" (as_str (signer_id payload));
  v ← text "Verifying Contract" (as_str (verifying_contract payload));
  d ← text "Deadline" (to_rfc3339 (deadline payload));
  n ← text "Nonce" ("0x" +:+ hex_encode (nonce payload));
  Ok [s; v; d; n].

Definition self_transfer_warning (payload : DefusePayload) (intent : Intent)
    : result (crash VisualSignError) (option SignablePayloadField) :=
  match intent with
  | ITransfer t =>
      if decide (as_str (tr_receiver_id t) ≠ as_str (signer_id payload)) then Ok None
      else
        d ← diagnostic "self-transfer"
              "the recipient is the signer's own account; the contract rejects a transfer to self";
        Ok (Some d)
  | _ => Ok None
  end.

(** The loop over the accounts that have to agree with the network. *)
Fixpoint check_accounts (accounts : list (string * string)) (network : NearNetwork)
    : result (crash VisualSignError) () :=
  match accounts with
  | [] => Ok ()
  | (role, account_id) :: accounts =>
      match network_mismatch role account_id network with
      | Some mismatch => Err (Fail (ValidationError mismatch))
      | None => check_accounts accounts network
      end
  end.

Definition render_single (payload : DefusePayload) (registry : Reg) (network : NearNetwork)
    : fields_m :=
  _ ← check_accounts [("signer", as_str (signer_id payload));
                      ("verifying contract", as_str (verifying_contract payload))] network;
  envelope ← render_envelope payload;
  expired ← (if has_expired (deadline payload) then
               d ← diagnostic "deadline" "deadline has passed; the intents would be rejected";
               Ok [d]
             else Ok []);
  empty ← (if decide (intents payload = []) then
             d ← diagnostic "empty-intents"
                   "this envelope carries no intents; signing it moves nothing but spends the nonce";
             Ok [d]
           else Ok []);
  let total := length (intents payload) in
  rest ← extend_each (fun '(index, intent) =>
      b ← intent_boundary_field intent index total;
      fs ← render_intent intent registry;
      w ← self_transfer_warning payload intent;
      Ok (b :: fs ++ option_list w)) (enumerate (intents payload));
  Ok (envelope ++ expired ++ empty ++ rest).

Definition section (index total : nat) (mp : MultiPayload) (registry : Reg) (network : NearNetwork)
    : fields_m :=
  '(check, extracted) ← verify_and_extract mp;
  let signer := match extracted with Ok p => Some (as_str (signer_id p)) | Err _ => None end in
  h ← text "Signed Intent" (show_nat index +:+ " of " +:+ show_nat total);
  sig ← render_signature (standard_name mp) check signer;
  body ← match extracted with
         | Ok payload => render_single payload registry network
         | Err e => d ← diagnostic "extraction" ("could not extract the envelope/intents: " +:+ e);
                    Ok [d]
         end;
  Ok (h :: sig ++ body).

(** ** Entry points *)

Inductive NearIntentsError : Type :=
| InputNotJson (msg : string)
| RenderError (msg : string)
| NetworkMismatch (msg : string).

Definition show_intents_error (e : NearIntentsError) : string :=
  match e with
  | InputNotJson m => "input was not valid JSON: " +:+ m
  | RenderError m => "Failed to render intents: " +:+ m
  | NetworkMismatch m => m
  end.

Definition render_error (e : VisualSignError) : NearIntentsError :=
  match e with
  | ValidationError mismatch => NetworkMismatch mismatch
  | other => RenderError (show_error other)
  end.

(** [map_err] around a computation that can panic. *)
Definition crash_map {E1 E2 A} (f : E1 → E2) (m : result (crash E1) A) : result (crash E2) A :=
  map_err (fun c => match c with Fail e => Fail (f e) | Panic => Panic end) m.

Definition decode_args (args : bytes) : result NearIntentsError (list MultiPayload) :=
  map_err InputNotJson (parse_execute_intents_args args).

Definition try_decode_execute_intents (args : bytes) (registry : Reg) (network : NearNetwork)
    : result (crash NearIntentsError) (list SignablePayloadField) :=
  payloads ← lift (decode_args args);
  let total := length payloads in
  crash_map render_error
    (extend_each (fun '(i, mp) => section (i + 1) total mp registry network) (enumerate payloads)).

Definition single_intent_consumes_token_registry (payload_json : bytes) : bool :=
  match parse_defuse_payload payload_json with
  | Ok payload => existsb intent_consumes_token_registry (intents payload)
  | Err _ => false
  end.

Record RenderedEnvelope := MkRenderedEnvelope {
  re_title : string;
  re_fields : list SignablePayloadField;
}.

Definition try_render_single_intent (payload_json : bytes) (registry : Reg) (network : NearNetwork)
    : result (crash NearIntentsError) RenderedEnvelope :=
  payload ← lift (map_err InputNotJson (parse_defuse_payload payload_json));
  fields ← crash_map render_error (render_single payload registry network);
  Ok (MkRenderedEnvelope (title_for_intents (intents payload)) fields).
End render.

(** ** Rendering does not panic, and shows only clean one-line texts *)

(** The symbols a registry can show. *)
Definition reg_ok (registry : Reg) : Prop :=
  ∀ a m, registry_lookup registry a = Some m → line (symbol m).

Lemma resolve_shown is_nep141 registry a m :
  reg_ok registry → resolve is_nep141 a registry = Some m →
  line (symbol m) ∧ (decimals m ≤ MAX_DECIMALS)%N.
Proof.
  intros Hr [[(s & Hs & ->)|(b & Hb)] Hd]%resolve_known; (split; [|done]); [|by eapply Hr].
  destruct seeds_checked as [Hall _]. rewrite Forall_forall in Hall. by apply (Hall s Hs).
Qed.

Lemma present_value_shown s : shown (present_value s).
Proof.
  unfold present_value. destruct (is_empty_string _); [by vm_compute|].
  apply line_shown, charset_safe_line.
Qed.

Lemma nonempty_filtered_line o s : nonempty_filtered o = Some s → line s.
Proof.
  unfold nonempty_filtered. destruct o as [t|]; [|done].
  destruct (is_empty_string _); [done|]. intros [= <-]. apply charset_safe_line.
Qed.

#[export] Hint Resolve present_value_shown as_str_line show_public_key_line to_rfc3339_line : plain.

(** A field whose every text is clean and on one line, and which does not announce an
    intent; [shown_fields] is a list of these. *)
Definition body_field (f : SignablePayloadField) : Prop :=
  texts_ok shown f ∧ label f ≠ "Intent".
Definition shown_fields (fs : list SignablePayloadField) : Prop := Forall body_field fs.

(** The fields with a given label. *)
Definition labelled (l : string) (fs : list SignablePayloadField) : list SignablePayloadField :=
  filter (fun f => label f = l) fs.

Lemma labelled_app l fs gs : labelled l (fs ++ gs) = labelled l fs ++ labelled l gs.
Proof. apply filter_app. Qed.

Lemma labelled_shown fs : shown_fields fs → labelled "Intent" fs = [].
Proof.
  intros Hf. apply list_filter_none. intros f Hin.
  by destruct (proj1 (Forall_forall _ _) Hf f Hin).
Qed.

Lemma shown_nil : shown_fields [].
Proof. constructor. Qed.

Lemma shown_cons f fs : body_field f → shown_fields fs → shown_fields (f :: fs).
Proof. by constructor. Qed.

Lemma shown_app fs gs : shown_fields fs → shown_fields gs → shown_fields (fs ++ gs).
Proof. apply Forall_app_2. Qed.

Lemma shown_option o : (∀ f, o = Some f → body_field f) → shown_fields (option_list o).
Proof. destruct o as [f|]; intros Ho; [apply shown_cons; [by apply Ho|]|]; apply shown_nil. Qed.

#[export] Hint Resolve shown_nil shown_cons shown_app : plain.
#[export] Hint Extern 1 (_ ≠ "Intent") => discriminate : plain.

Lemma extend_each_yields {A} (f : A → fields_m) l :
  (∀ x, x ∈ l → yields shown_fields (f x)) → yields shown_fields (extend_each f l).
Proof.
  induction l as [|x l IH]; intros Hf; cbn [extend_each]; [apply shown_nil|].
  eapply yields_bind; [apply Hf; by left|]. intros fs Hfs.
  eapply yields_bind; [apply IH; intros y Hy; apply Hf; by right|]. intros gs Hgs.
  by apply shown_app.
Qed.

(** Walks through a renderer: binds on a field or on a list of fields, and branches. *)
Ltac rendered_by field_ok fields_ok :=
  repeat match goal with
  | |- yields _ (@mbind _ _ ?A _ _ _) =>
      lazymatch A with
      | SignablePayloadField => apply (yields_bind _ field_ok)
      | list SignablePayloadField => apply (yields_bind _ fields_ok)
      end; [|intros ? ?]
  | |- yields _ (Ok _) => apply yields_ret
  | |- yields _ (Err (Fail _)) => exact I
  | |- yields _ (match ?x with _ => _ end) => destruct x eqn:?
  end.

Ltac rendered := rendered_by body_field shown_fields.

Section shown.
Context {T : NearTypes} {C : NearCrates} {H : HexCodec} {E : RegexEngine} (diagnostics : bool).

Lemma text_shown label t : shown label → shown t → yields (texts_ok shown) (text label t).
Proof. intros. exact (text_field_ok shown label t _ eq_refl ltac:(done) ltac:(done)). Qed.

Lemma text_yields label t :
  shown label → label ≠ "Intent" → shown t → yields body_field (text label t).
Proof. intros. split; [by apply text_shown|done]. Qed.

Lemma amount_yields label a b :
  line label → label ≠ "Intent" → line a → line b → yields body_field (amount label a b).
Proof.
  intros. unfold amount, built.
  eapply (yields_bind _ (fun x => body_field (signable_payload_field x))); [|intros x Hx; exact Hx].
  apply yields_lift. intros x Hx. split; [eapply amount_field_ok; eauto 6 with plain|].
  apply result_bind_Ok in Hx as (? & _ & Hx). destruct (is_empty_string b); by simplify_eq/=.
Qed.

Lemma diagnostic_yields rule m :
  line rule → rule ≠ "Intent" → yields body_field (diagnostic diagnostics rule m).
Proof.
  intros. unfold diagnostic. destruct diagnostics.
  - split; [apply diagnostic_field_ok; eauto 6 with plain|done].
  - apply text_yields; eauto 7 with plain.
Qed.

Lemma near_amount_yields label y :
  line label → label ≠ "Intent" → yields body_field (near_amount_field label y).
Proof.
  intros. unfold near_amount_field. eapply (yields_bind _ line); [|intros; apply amount_yields; eauto with plain].
  rewrite format_units_Ok by done. apply signed_proper_line, fixed_text_proper. done.
Qed.

#[local] Hint Resolve text_yields amount_yields diagnostic_yields near_amount_yields : plain.
#[local] Opaque text amount diagnostic near_amount_field format_units.

Lemma memo_yields memo : yields shown_fields (memo_field memo).
Proof.
  unfold memo_field. destruct (nonempty_filtered memo) as [s|] eqn:Es; [|apply shown_nil].
  apply nonempty_filtered_line in Es. rendered; eauto with plain.
Qed.

#[local] Hint Resolve memo_yields : plain.
#[local] Opaque memo_field.

Lemma details_yields memo msg d : yields shown_fields (push_withdraw_call_details memo msg d).
Proof.
  unfold push_withdraw_call_details. rendered; eauto 6 with plain.
Qed.

Context (registry : Reg) (Hreg : reg_ok registry).

Lemma token_amount_yields label a raw :
  line label → label ≠ "Intent" → yields shown_fields (token_amount_field diagnostics label a raw registry).
Proof.
  intros Hl Hne. unfold token_amount_field.
  destruct (resolve is_nep141 a registry) as [m|] eqn:Er.
  - apply resolve_shown in Er as [Hs Hd]; [|done]. rewrite format_units_Ok by done.
    cbn [mbind result_bind].
    assert (line (fixed_text raw (10 ^ Z.of_N (decimals m)) (decimals m)))
      by (apply signed_proper_line, fixed_text_proper, Z.pow_pos_nonneg; lia).
    rendered; eauto with plain.
  - rendered; eauto 7 with plain.
Qed.

#[local] Hint Resolve details_yields token_amount_yields : plain.
#[local] Opaque push_withdraw_call_details token_amount_field.

Lemma intent_body_yields i : yields shown_fields (render_intent_body diagnostics i registry).
Proof.
  destruct i; cbn [render_intent_body];
    unfold render_token_diff, render_transfer, render_ft_withdraw, render_nft_withdraw,
      render_mt_withdraw, render_native_withdraw, state_init_field;
    rendered; eauto 7 with plain; try (apply extend_each_yields; intros [? ?] _; rendered);
    eauto 7 with plain; repeat case_match; eauto with plain.
Qed.

Lemma intent_label_line i : line (intent_label i).
Proof. by destruct i. Qed.

Lemma option_yields (m : field_m) :
  yields body_field m →
  yields (fun o => shown_fields (option_list o)) (d ← m; Ok (Some d)).
Proof.
  intros Hm. eapply yields_bind; [exact Hm|]. intros f Hf. cbn. eauto with plain.
Qed.

Lemma intent_yields i : yields shown_fields (render_intent diagnostics i registry).
Proof.
  unfold render_intent. eapply yields_bind; [apply intent_body_yields|]. intros fs Hfs.
  eapply (yields_bind _ (fun o => shown_fields (option_list o))); [|intros o Ho; cbn; by apply shown_app].
  unfold account_control_warning.
  destruct i; try (apply option_yields; eauto with plain); apply shown_nil.
Qed.

(** The text of the field that announces an intent. *)
Definition boundary_text (total : nat) (p : nat * Intent) : string :=
  if decide (1 < total)
  then show_nat (p.1 + 1) +:+ " of " +:+ show_nat total +:+ ": " +:+ intent_label p.2
  else intent_label p.2.

Definition announces (total : nat) (p : nat * Intent) : SignablePayloadField :=
  TextV2 (Common (boundary_text total p) "Intent") (FieldTextV2 (boundary_text total p)).

Lemma boundary_eq i j n : intent_boundary_field i j n = Ok (announces n (j, i)).
Proof. unfold intent_boundary_field, announces, boundary_text. by case_decide. Qed.

Lemma announces_shown n p : texts_ok shown (announces n p).
Proof.
  pose proof (intent_label_line p.2) as Hl. assert (shown (boundary_text n p)) as Hb.
  { unfold boundary_text. case_decide; eauto 8 with plain. }
  exact (text_field_ok shown "Intent" (boundary_text n p) _ eq_refl ltac:(done) Hb).
Qed.

Lemma check_accounts_yields l n : yields (fun _ => True) (check_accounts l n).
Proof.
  induction l as [|[r a] l IH]; cbn [check_accounts]; [done|]. by destruct (network_mismatch r a n).
Qed.

Lemma self_transfer_yields p i :
  yields (fun o => shown_fields (option_list o)) (self_transfer_warning diagnostics p i).
Proof.
  unfold self_transfer_warning. destruct i; try apply shown_nil. case_decide; [apply shown_nil|].
  apply option_yields; eauto with plain.
Qed.

(** The fields of an envelope: clean one-line texts, one announcement per intent, in order. *)
Definition envelope_fields (p : DefusePayload) (fs : list SignablePayloadField) : Prop :=
  Forall (texts_ok shown) fs ∧
  labelled "Intent" fs = announces (length (intents p)) <$> enumerate (intents p).

Lemma body_shown fs : shown_fields fs → Forall (texts_ok shown) fs.
Proof. intros Hf. eapply Forall_impl; [exact Hf|]. by intros f []. Qed.

Lemma intents_yields p n l :
  yields (fun fs => Forall (texts_ok shown) fs ∧ labelled "Intent" fs = announces n <$> l)
    (extend_each (fun '(index, intent) =>
      b ← intent_boundary_field intent index n;
      fs ← render_intent diagnostics intent registry;
      w ← self_transfer_warning diagnostics p intent;
      Ok (b :: fs ++ option_list w)) l).
Proof.
  induction l as [|[j i] l IH]; cbn [extend_each]; [by split|].
  eapply (yields_bind _ (fun fs => Forall (texts_ok shown) fs ∧ labelled "Intent" fs = [announces n (j, i)])).
  - rewrite boundary_eq. cbn [mbind result_bind].
    eapply yields_bind; [apply intent_yields|]. intros fs Hfs.
    eapply yields_bind; [apply self_transfer_yields|]. intros w Hw. apply yields_ret.
    assert (shown_fields (fs ++ option_list w)) as Hb by by apply shown_app.
    split; [constructor; [apply announces_shown|by apply body_shown]|].
    unfold labelled. rewrite filter_cons_True by done. f_equal. by apply labelled_shown.
  - intros a [Ha1 Ha2]. eapply yields_bind; [exact IH|]. intros b [Hb1 Hb2]. apply yields_ret.
    split; [by apply Forall_app_2|]. by rewrite labelled_app, Ha2, Hb2.
Qed.

Lemma single_yields p n : yields (envelope_fields p) (render_single diagnostics p registry n).
Proof.
  unfold render_single. eapply yields_bind; [apply check_accounts_yields|]. intros _ _.
  eapply (yields_bind _ shown_fields).
  { unfold render_envelope. rendered; rewrite ?hex_encode_lower; eauto 6 with plain. }
  intros env Henv. eapply (yields_bind _ shown_fields).
  { destruct (has_expired (deadline p)); rendered; eauto with plain. }
  intros ex Hex. eapply (yields_bind _ shown_fields).
  { case_decide; rendered; eauto with plain. }
  intros em Hem. cbn zeta. eapply yields_bind; [apply intents_yields|].
  intros rest [Hr1 Hr2]. assert (shown_fields (env ++ ex ++ em)) as Hb by eauto with plain.
  apply yields_ret. rewrite (app_assoc ex), (app_assoc env). split; [apply Forall_app_2; [by apply body_shown|done]|].
  by rewrite labelled_app, Hr2, (labelled_shown _ Hb).
Qed.

(** What a signature check can show. *)
Definition check_ok (c : SignatureCheck) : Prop :=
  match c with SigValid k a => line k ∧ line a | _ => True end.

Lemma recovery_reason_yields sig :
  yields (fun r => r = None → ∃ b, vec_to_list sig !! 64 = Some b ∧ (byte_to_Z b < 4)%Z)
    (recovery_reason sig).
Proof.
  unfold recovery_reason, byte_at.
  destruct (lookup_lt_is_Some_2 (vec_to_list sig) 64) as [b Hb];
    [rewrite length_vec_to_list; lia|].
  rewrite Hb. cbn [mbind result_bind]. case_decide; cbn; [|done]. intros _. by exists b.
Qed.

Lemma verify_yields mp : yields (fun r => check_ok r.1) (verify_and_extract mp).
Proof.
  unfold verify_and_extract.
  eapply (yields_bind _ (fun r => r = None → payload_verify mp ≠ None)).
  - assert (∀ sig body, mp = Erc191 sig body ∨ mp = Tip191 sig body →
      yields (fun r => r = None → payload_verify mp ≠ None) (recovery_reason sig)) as Hrec.
    { intros sig body Hmp. eapply yields_weaken; [|apply recovery_reason_yields].
      intros r Hr ->. destruct (Hr eq_refl) as (b & Hb & Hlt).
      intros (sig' & body' & b' & Hmp' & Hb' & Hge)%payload_verify_panics.
      assert (sig' = sig) as -> by naive_solver. simplify_eq. lia. }
    assert (∀ x : option string, (∀ sig body, mp ≠ Erc191 sig body ∧ mp ≠ Tip191 sig body) →
      x = None → payload_verify mp ≠ None) as Hno.
    { intros x Hn _ (sig & body & b & Hmp & _)%payload_verify_panics. naive_solver. }
    destruct mp; cbn [invalid_secp256k1_recovery_id_reason]; try (by eapply Hrec; eauto);
      apply yields_ret; apply Hno; done.
  - intros r Hr. eapply (yields_bind _ check_ok); [|intros c Hc; exact Hc].
    destruct r as [s|]; [done|]. destruct (payload_verify mp) as [[k|]|] eqn:Ev; cbn; [|done|].
    + split; [apply show_public_key_line|apply as_str_line].
    + by destruct (Hr eq_refl).
Qed.

Lemma render_signature_yields std c sid :
  line std → check_ok c → (∀ s, sid = Some s → line s) →
  yields shown_fields (render_signature diagnostics std c sid).
Proof.
  intros Hstd Hc Hs. unfold render_signature.
  eapply yields_bind; [apply text_yields; eauto with plain|]. intros f Hf.
  destruct c as [k a| |r]; [destruct Hc as [Hk Ha]|rendered; eauto with plain..].
  destruct (match sid with Some id => _ | None => _ end) as [id|] eqn:Eid.
  - assert (line id).
    { destruct sid as [s|]; [|done]. destruct (looks_like_implicit_account s); [|done].
      apply Hs. congruence. }
    destruct (eq_ignore_ascii_case id a); rendered; eauto 8 with plain.
  - rendered; eauto 7 with plain.
Qed.

Lemma section_yields i n mp net :
  yields (Forall (texts_ok shown)) (section diagnostics i n mp registry net).
Proof.
  unfold section. eapply yields_bind; [apply verify_yields|]. intros [c ex] Hc. cbn in Hc.
  eapply yields_bind; [apply text_yields; eauto 7 with plain|]. intros h Hh.
  eapply yields_bind.
  { apply render_signature_yields; [by destruct mp|done|]. intros s. destruct ex; [|done].
    intros [= <-]. apply as_str_line. }
  intros sg Hsg. eapply (yields_bind _ (Forall (texts_ok shown))).
  { destruct ex as [p|e]; [eapply yields_weaken; [|apply single_yields]; by intros fs []|].
    eapply yields_weaken; [apply body_shown|]. rendered; eauto with plain. }
  intros b Hb. cbn. constructor; [apply Hh|]. apply Forall_app_2; [by apply body_shown|done].
Qed.
End shown.

(** ** Presence of a message *)

(** The first byte of a valid UTF-8 text starts a character. *)
Lemma charset_safe_empty s : utf8_valid s = true → charset_safe s = "" → s = "".
Proof.
  destruct s as [|a s]; [done|]. cbn [charset_safe]. destruct (is_cont a) eqn:Ha; [|done].
  intros Hv. exfalso. revert Hv. cbn [utf8_valid].
  assert (is_ascii a = false ∧ (∀ b, utf8_2 a b = false) ∧ (∀ b c, utf8_3 a b c = false) ∧
    ∀ b c d, utf8_4 a b c d = false) as (-> & H2 & H3 & H4).
  { unfold is_cont, in_range in Ha. apply andb_true_iff in Ha as [Hlo%Nat.leb_le Hhi%Nat.leb_le].
    assert (∀ lo hi, 191 < lo → in_range lo hi a = false) as Hr.
    { intros lo hi Hl. unfold in_range. by rewrite (proj2 (Nat.leb_gt lo (code a))) by lia. }
    unfold utf8_2, utf8_3, utf8_4, is_ascii.
    rewrite (proj2 (Nat.ltb_ge (code a) 128)), !Hr by lia. split_and!; intros;
      rewrite ?andb_false_r; done. }
  destruct s as [|b s]; [done|]. rewrite H2. destruct s as [|c s]; [done|]. rewrite H3.
  destruct s as [|d s]; [done|]. by rewrite H4.
Qed.

Lemma present_value_empty s : utf8_valid s = true → present_value s = EMPTY_VALUE ↔ s = "".
Proof.
  intros Hu. unfold present_value, is_empty_string. case_bool_decide as He.
  - apply charset_safe_empty in He; [|done]. done.
  - split; [|by intros ->]. intros Heq. pose proof (charset_safe_line s) as Hl.
    by rewrite Heq in Hl.
Qed.

Section facts.
Context {T : NearTypes} {C : NearCrates} {H : HexCodec} {E : RegexEngine} (diagnostics : bool).

Lemma text_eq l t : text l t = Ok (TextV2 (Common t l) (FieldTextV2 t)).
Proof. done. Qed.

Lemma memo_field_Ok memo fs :
  memo_field memo = Ok fs → labelled "Message" fs = [].
Proof. unfold memo_field. destruct (nonempty_filtered memo); intros [= <-]; done. Qed.

Lemma near_amount_label l y f : near_amount_field l y = Ok f → label f = l.
Proof.
  unfold near_amount_field, amount, built. rewrite format_units_Ok by done. cbn [mbind result_bind].
  intros (a & Ha & [= <-])%result_bind_Ok. apply (proj1 (lift_Ok _ _)) in Ha.
  unfold create_amount_field in Ha. apply result_bind_Ok in Ha as (? & _ & Ha). by injection Ha as <-.
Qed.

(** The part of an envelope's rendering that consults the registry. *)
Lemma render_intent_registry i r r' :
  intent_consumes_token_registry i = false →
  render_intent diagnostics i r = render_intent diagnostics i r'.
Proof. by destruct i. Qed.

Lemma extend_each_ext {A} (f g : A → fields_m) l :
  (∀ x, x ∈ l → f x = g x) → extend_each f l = extend_each g l.
Proof.
  induction l as [|x l IH]; intros Hfg; cbn [extend_each]; [done|].
  rewrite Hfg by left. rewrite IH; [done|]. intros y Hy. apply Hfg. by right.
Qed.

Lemma enumerate_elem {A} (l : list A) j x : (j, x) ∈ enumerate l → x ∈ l.
Proof.
  unfold enumerate. intros [i Hi]%list_elem_of_lookup_1. rewrite list_lookup_imap in Hi.
  destruct (l !! i) as [y|] eqn:Ey; [|done]. cbn in Hi. simplify_eq. by eapply list_elem_of_lookup_2.
Qed.

Lemma check_accounts_Ok l n u :
  check_accounts l n = Ok u ↔ Forall (fun p => network_mismatch p.1 p.2 n = None) l.
Proof.
  induction l as [|[r a] l IH]; cbn [check_accounts].
  - destruct u. split; [constructor|done].
  - rewrite Forall_cons. cbn. destruct (network_mismatch r a n); [naive_solver|].
    rewrite IH. naive_solver.
Qed.
End facts.

(** ** Properties *)

Section properties.
Context {T : NearTypes} {C : NearCrates} {H : HexCodec} {E : RegexEngine} (diagnostics : bool).

(** An envelope announces each of its intents once, in order and under its own type, and
    nothing inside an intent can forge an announcement or break a line: every text of the
    fields is clean, printable and on one line. *)
Theorem intents_announced registry p n fs :
  reg_ok registry → render_single diagnostics p registry n = Ok fs →
  labelled "Intent" fs = announces (length (intents p)) <$> enumerate (intents p) ∧
  Forall (texts_ok shown) fs.
Proof.
  intros Hr Hf. destruct (yields_Ok _ _ _ (single_yields diagnostics registry Hr p n) Hf). done.
Qed.

(** A token amount is shown either as the exact decimal of the raw units under metadata the
    registry or the seed table has for that very asset, with a caveat naming the cause when
    nobody vouches for the metadata, or as the raw units beside the asset id. *)
Theorem token_amount_shown label a raw registry fs :
  token_amount_field diagnostics label a raw registry = Ok fs →
  match resolve is_nep141 a registry with
  | Some m =>
      ∃ t caveat,
        fs = AmountV2 (Common (t +:+ " " +:+ symbol m) label) (FieldAmountV2 t (Some (symbol m)))
             :: caveat ∧
        read_units (decimals m) t = Z.of_N raw ∧
        (verified (provenance m) = true ∧ caveat = [] ∨
         ∃ cause d, unverified_cause (provenance m) = Some cause ∧ caveat = [d] ∧
           diagnostic diagnostics "unverified-token-metadata"
             ("symbol/decimals for " +:+ charset_safe a +:+ ": " +:+ cause) = Ok d)
  | None =>
      let t := show_Z (Z.of_N raw) +:+ " (unresolved " +:+ charset_safe a +:+ ")" in
      fs = [TextV2 (Common t label) (FieldTextV2 t)]
  end.
Proof.
  unfold token_amount_field. destruct (resolve is_nep141 a registry) as [m|] eqn:Er.
  2: by intros [= <-].
  apply resolve_known in Er as [_ Hd]. rewrite format_units_Ok by done. cbn [mbind result_bind].
  unfold amount, built. set (t := fixed_text raw _ _).
  intros (f & (x & Hx & [= <-])%result_bind_Ok & Hf)%result_bind_Ok.
  apply (proj1 (lift_Ok _ _)) in Hx. apply result_bind_Ok in Hx as (? & _ & Hx). destruct (is_empty_string (symbol m)); [done|].
  injection Hx as <-. cbn [signable_payload_field] in Hf.
  destruct (unverified_cause (provenance m)) as [cause|] eqn:Ec.
  - apply result_bind_Ok in Hf as (d & Hd' & [= <-]). exists t, [d].
    split; [done|]. split; [apply read_fixed_text|]. right. by exists cause, d.
  - injection Hf as <-. exists t, []. split; [done|]. split; [apply read_fixed_text|]. left.
    by destruct (provenance m).
Qed.

(** A withdrawal that calls the receiver is told from one that does not: the message is
    shown exactly when there is one, and an empty message is shown as a marker that no
    message text can imitate. *)
Theorem withdraw_message_shown memo msg deposit fs :
  push_withdraw_call_details memo msg deposit = Ok fs →
  labelled "Message" fs =
    match msg with
    | Some m => [TextV2 (Common (present_value m) "Message") (FieldTextV2 (present_value m))]
    | None => []
    end ∧
  ∀ m, msg = Some m → utf8_valid m = true → (present_value m = EMPTY_VALUE ↔ m = "").
Proof.
  unfold push_withdraw_call_details.
  intros (ms & Hms%memo_field_Ok & (gs & Hgs & (ds & Hds & [= <-])%result_bind_Ok)%result_bind_Ok)%result_bind_Ok.
  split; [|intros m _; apply present_value_empty]. rewrite !labelled_app, Hms.
  assert (labelled "Message" ds = []) as ->.
  { destruct deposit as [d|]; [|by injection Hds as <-].
    apply result_bind_Ok in Hds as (f & Hf%near_amount_label & [= <-]).
    apply list_filter_none. intros g ->%list_elem_of_singleton. by rewrite Hf. }
  rewrite app_nil_r. destruct msg as [m|]; by injection Hgs as <-.
Qed.

(** When the gate says that an envelope consults no token metadata, its rendering is the
    same for every registry, so leaving the metadata of the request out changes nothing. *)
Theorem registry_gate_sound json r r' n :
  single_intent_consumes_token_registry json = false →
  try_render_single_intent diagnostics json r n = try_render_single_intent diagnostics json r' n.
Proof.
  unfold single_intent_consumes_token_registry, try_render_single_intent.
  destruct (parse_defuse_payload json) as [p|e]; [|done]. intros Hc. cbn [map_err lift mbind result_bind].
  assert (render_single diagnostics p r n = render_single diagnostics p r' n) as ->; [|done].
  unfold render_single. destruct (check_accounts _ _); [|done]. cbn [mbind result_bind].
  destruct (render_envelope p); [|done]. cbn [mbind result_bind].
  erewrite extend_each_ext; [done|]. intros [j i] Hi%enumerate_elem.
  rewrite (render_intent_registry diagnostics i r r'); [done|].
  destruct (intent_consumes_token_registry i) eqn:Ei; [|done].
  assert (existsb intent_consumes_token_registry (intents p) = true); [|congruence].
  apply existsb_exists. exists i. by rewrite <-list_elem_of_In.
Qed.

(** An envelope is rendered only when neither of its accounts contradicts the network. *)
Theorem envelope_network_agrees registry p n fs :
  render_single diagnostics p registry n = Ok fs →
  network_mismatch "signer" (as_str (signer_id p)) n = None ∧
  network_mismatch "verifying contract" (as_str (verifying_contract p)) n = None.
Proof.
  unfold render_single. intros (u & Hu & _)%result_bind_Ok.
  apply check_accounts_Ok in Hu. rewrite !Forall_cons in Hu. naive_solver.
Qed.

(** A malformed intent is reported as a network mismatch although both accounts agree with
    the network: the renderer raises the validation error that the entry point takes to
    identify a mismatch. *)
Theorem zero_delta_reported_as_mismatch json registry n p tok td :
  parse_defuse_payload json = Ok p → intents p = [ITokenDiff td] → td_diff td = [(tok, 0%Z)] →
  network_mismatch "signer" (as_str (signer_id p)) n = None →
  network_mismatch "verifying contract" (as_str (verifying_contract p)) n = None →
  try_render_single_intent diagnostics json registry n =
    Err (Fail (NetworkMismatch
      ("token_diff entry for " +:+ charset_safe (show_token_id tok) +:+ " has a zero delta"))).
Proof.
  intros Hp Hi Ht Hs Hv. unfold try_render_single_intent. rewrite Hp. cbn [map_err lift mbind result_bind].
  unfold render_single. rewrite (proj2 (check_accounts_Ok _ _ ())) by by repeat constructor.
  cbn [mbind result_bind render_envelope text built]. rewrite Hi.
  assert (∀ b : bool, ∃ x, (if b then d ← diagnostic diagnostics "deadline"
    "deadline has passed; the intents would be rejected"; Ok [d] else Ok []) = Ok x) as Hex.
  { intros []; [|by eexists]. unfold diagnostic. destruct diagnostics; by eexists. }
  destruct (Hex (has_expired (deadline p))) as [x Ex]. unfold render_envelope.
  rewrite !text_eq. cbn [mbind result_bind]. rewrite Ex. cbn [mbind result_bind].
  rewrite decide_False by done. cbn [mbind result_bind enumerate imap extend_each length].
  rewrite boundary_eq. cbn [mbind result_bind render_intent render_intent_body].
  unfold render_intent. cbn [render_intent_body]. unfold render_token_diff.
  rewrite Ht, decide_False by done. cbn [extend_each]. rewrite decide_True by done. done.
Qed.
End properties.

(** Concrete types and envelopes for the properties. *)
#[local] Unset Program Cases.

Module sample_intents.
Program Definition types : NearTypes := {|
  AccountId := dsig line; as_str a := `a;
  PublicKey := (); show_public_key _ := "ed25519:k";
  to_implicit_account_id _ := dexist "k.near" _;
  Deadline := bool; to_rfc3339 _ := "2100-01-01T00:00:00+00:00";
  TokenId := string; show_token_id t := t; StateInit := (); SignedBody := () |}.
Next Obligation. intros a. apply (proj2_dsig a). Qed.
Next Obligation. done. Qed.
Next Obligation. done. Qed.
Next Obligation. done. Qed.

Definition high_recovery (sig : vec byte 65) : bool :=
  match vec_to_list sig !! 64 with Some b => bool_decide (4 ≤ byte_to_Z b)%Z | None => false end.

(** Crates that read one envelope and whose signature check panics where it may. *)
Program Definition crates (p : @DefusePayload types) : @NearCrates types := {|
  payload_verify mp :=
    match mp with
    | Erc191 sig _ | Tip191 sig _ => if high_recovery sig then None else Some (Some ())
    | _ => Some (Some ())
    end;
  extract_defuse_payload _ := Ok p;
  parse_execute_intents_args _ := Ok [@RawEd25519 types ()];
  parse_defuse_payload _ := Ok p;
  has_expired d := d;
  is_nep141 := starts_with "nep141:" |}.
Next Obligation.
  intros p mp. unfold high_recovery. destruct mp as [?|sig body|sig body|?|?|?|?]; try done;
    (destruct (vec_to_list sig !! 64) as [b|] eqn:Hb; [|done]); case_bool_decide; try done;
    intros _; exists sig, body, b; auto.
Qed.

Definition mk_account (s : string) (Hs : line s) : @AccountId types := dexist s Hs.
Definition alice : @AccountId types := mk_account "alice.near" eq_refl.
Definition verifier : @AccountId types := mk_account "intents.near" eq_refl.
Definition envelope (l : list (@Intent types)) : @DefusePayload types :=
  @MkDefusePayload types alice verifier false [] l.
Definition withdraw : @Intent types :=
  IFtWithdraw (MkFtWithdraw (mk_account "wrap.near" eq_refl) alice 1500000000000000000000000 None
    (Some "") None).
Definition no_registry : Reg := layered_new NearTokenRegistry_default.
Lemma registry_ok : reg_ok no_registry.
Proof. intros a m. unfold registry_lookup, lookup_layered. cbn. by rewrite lookup_empty. Qed.
End sample_intents.

Lemma intents_announced_witness :
  ∃ fs, @render_single sample_intents.types (sample_intents.crates (sample_intents.envelope []))
      hex_ref derivative_engine false
      (sample_intents.envelope [sample_intents.withdraw]) sample_intents.no_registry Mainnet = Ok fs ∧
    length (labelled "Intent" fs) = 1.
Proof.
  destruct (@render_single sample_intents.types (sample_intents.crates (sample_intents.envelope []))
      hex_ref derivative_engine false
      (sample_intents.envelope [sample_intents.withdraw]) sample_intents.no_registry Mainnet) as [fs|e] eqn:Ef;
    [|vm_compute in Ef; discriminate Ef].
  exists fs. split; [reflexivity|].
  destruct (intents_announced false _ _ _ _ sample_intents.registry_ok Ef) as [-> _]. reflexivity.
Defined.

Lemma token_amount_shown_witness :
  ∃ fs, @token_amount_field sample_intents.types (sample_intents.crates (sample_intents.envelope []))
      derivative_engine false "Amount" "nep141:wrap.near" 1500000000000000000000000
      sample_intents.no_registry = Ok fs ∧
    ∃ t caveat, fs = AmountV2 (Common (t +:+ " " +:+ "wNEAR") "Amount") (FieldAmountV2 t (Some "wNEAR"))
                     :: caveat.
Proof.
  destruct (@token_amount_field sample_intents.types (sample_intents.crates (sample_intents.envelope []))
      derivative_engine false "Amount" "nep141:wrap.near" 1500000000000000000000000
      sample_intents.no_registry) as [fs|e] eqn:Ef; [|vm_compute in Ef; discriminate Ef].
  exists fs. split; [reflexivity|].
  pose proof (token_amount_shown false _ _ _ _ _ Ef) as Hs.
  assert (resolve (@is_nep141 _ (sample_intents.crates (sample_intents.envelope []))) "nep141:wrap.near"
    sample_intents.no_registry = Some (MkTokenMeta "wNEAR" 24 Seed)) as Er by (vm_compute; reflexivity).
  rewrite Er in Hs. destruct Hs as (t & caveat & -> & _). by exists t, caveat.
Defined.

Lemma withdraw_message_shown_witness :
  ∃ fs, @push_withdraw_call_details derivative_engine None (Some "") None = Ok fs ∧
    labelled "Message" fs = [TextV2 (Common EMPTY_VALUE "Message") (FieldTextV2 EMPTY_VALUE)].
Proof.
  destruct (@push_withdraw_call_details derivative_engine None (Some "") None) as [fs|e] eqn:Ef;
    [|vm_compute in Ef; discriminate Ef].
  exists fs. split; [reflexivity|]. exact (proj1 (withdraw_message_shown _ _ _ _ Ef)).
Defined.

Lemma registry_gate_sound_witness :
  let c := sample_intents.crates (sample_intents.envelope
             [INativeWithdraw sample_intents.alice 5]) in
  @try_render_single_intent sample_intents.types c hex_ref derivative_engine false []
    sample_intents.no_registry Mainnet =
  @try_render_single_intent sample_intents.types c hex_ref derivative_engine false []
    (with_request NearTokenRegistry_default (MkNearTokenRegistry {["a" := MkTokenMeta "A" 1 Unsigned]}))
    Mainnet.
Proof. intros c. apply (@registry_gate_sound _ c). reflexivity. Defined.

Lemma zero_delta_reported_as_mismatch_witness :
  @try_render_single_intent sample_intents.types
    (sample_intents.crates (sample_intents.envelope
       [ITokenDiff (@MkTokenDiff sample_intents.types [("nep141:wrap.near", 0%Z)] None None)]))
    hex_ref derivative_engine false [] sample_intents.no_registry Mainnet =
  Err (Fail (NetworkMismatch "token_diff entry for nep141:wrap.near has a zero delta")).
Proof.
  apply (@zero_delta_reported_as_mismatch sample_intents.types
    (sample_intents.crates (sample_intents.envelope
       [ITokenDiff (@MkTokenDiff sample_intents.types [("nep141:wrap.near", 0%Z)] None None)]))
    hex_ref derivative_engine false [] sample_intents.no_registry Mainnet _ "nep141:wrap.near" _ eq_refl eq_refl eq_refl);
    reflexivity.
Defined.
