(* ===== verification/NearConvert.v ===== *)
(** * NEAR: transactions and their conversion

    [actions.rs], [convert.rs] and [tx.rs] of [chain_parsers/visualsign-near]: the fields of
    each action of a transaction, the converter that resolves the network and the token
    registry of a request, and the reading of an input as a transaction or an envelope. *)

From S2P Require Import Prelude Panic Json Payload Errors Charset External DecimalText Encodings Builders Proto Signing Registry Payment PlainText NearText NearTokens NearSigning NearRender.

(** ** Transactions ([near-primitives]) *)

(** The text of a key is printable; contract code and identifiers, delegated transactions and
    initial states are not read. *)
Class NearKeys : Type := {
  NearKey : Type;
  show_near_key : NearKey → string;
  show_near_key_line k : line (show_near_key k);
}.

Section transactions.
Context {T : NearTypes} {NK : NearKeys}.

Record FunctionCallPermission := MkFunctionCallPermission {
  fcp_allowance : option N;
  fcp_receiver_id : string;
  fcp_method_names : list string;
}.

Record GasKeyInfo := MkGasKeyInfo { gk_balance : N; gk_num_nonces : N }.

Inductive AccessKeyPermission : Type :=
| PermFullAccess
| PermFunctionCall (fc : FunctionCallPermission)
| PermGasKeyFullAccess (info : GasKeyInfo)
| PermGasKeyFunctionCall (info : GasKeyInfo) (fc : FunctionCallPermission).

Record FunctionCallAction := MkFunctionCallAction {
  method_name : string;
  fc_args : bytes;
  fc_gas : N;
  fc_deposit : N;
}.

Inductive Action : Type :=
| ACreateAccount
| ADeployContract (code : bytes)
| AFunctionCall (fc : FunctionCallAction)
| ATransfer (deposit : N)
| AStake (stake : N) (public_key : NearKey)
| AAddKey (public_key : NearKey) (permission : AccessKeyPermission)
| ADeleteKey (public_key : NearKey)
| ADeleteAccount (beneficiary_id : AccountId)
| ADelegate (signed_delegate : bytes)
| ADeployGlobalContract (code : bytes)
| AUseGlobalContract (identifier : bytes)
| ADeterministicStateInit (deposit : N) (state_init : bytes)
| ATransferToGasKey (deposit : N) (public_key : NearKey)
| AWithdrawFromGasKey (amount : N) (public_key : NearKey).

Record Transaction := MkTransaction {
  tx_signer_id : AccountId;
  tx_receiver_id : AccountId;
  tx_actions : list Action;
}.

Record FtTransferArgs := MkFtTransferArgs {
  fta_receiver_id : AccountId;
  fta_amount : string;
  fta_memo : option string;
  fta_msg : option string;
}.

Record FtWithdrawArgs := MkFtWithdrawArgs {
  fwa_token : AccountId;
  fwa_receiver_id : AccountId;
  fwa_amount : string;
  fwa_memo : option string;
  fwa_msg : option string;
}.

Inductive NearTransaction : Type :=
| OnChain (tx : Transaction)
| IntentEnvelope (json : string).
End transactions.

(** The decoders of other crates: [serde_json] on method arguments and token values, [borsh]
    on transactions, [base64], and the environment of the process. *)
Class NearDecoders {T : NearTypes} {NK : NearKeys} : Type := {
  parse_ft_transfer_args : bytes → option FtTransferArgs;
  parse_ft_withdraw_args : bytes → option FtWithdrawArgs;
  parse_token_value : string → result string TokenMetadataValue;
  borsh_transaction : bytes → result string Transaction;
  borsh_signed_transaction : bytes → result string Transaction;
  base64_decode : string → result string bytes;
  show_hex_error : FromHexError → string;
  env_value : string → option string;
}.

Section convert.
Context {T : NearTypes} {C : NearCrates} {NK : NearKeys} {ND : NearDecoders}.
Context {S : Sha256} {H : HexCodec} {K : Secp256k1} {Ed : Ed25519} {E : RegexEngine}.
(** The [diagnostics] and [dev-signing] features. *)
Context (diagnostics dev_signing : bool).

(** ** Actions *)

Definition addr_field (label a : string) : field_m :=
  built (create_address_field label a None None None None).

Definition near_amount (label : string) (yocto : N) : field_m :=
  a ← format_near yocto; amount label a NEAR_SYMBOL.

Definition action_label (action : Action) : string :=
  match action with
  | ACreateAccount => "Create Account"
  | ADeployContract _ => "Deploy Contract"
  | AFunctionCall _ => "Function Call"
  | ATransfer _ => "Transfer"
  | AStake _ _ => "Stake"
  | AAddKey _ _ => "Add Key"
  | ADeleteKey _ => "Delete Key"
  | ADeleteAccount _ => "Delete Account"
  | ADelegate _ => "Delegate"
  | ADeployGlobalContract _ => "Deploy Global Contract"
  | AUseGlobalContract _ => "Use Global Contract"
  | ADeterministicStateInit _ _ => "Deterministic State Init"
  | ATransferToGasKey _ _ => "Transfer To Gas Key"
  | AWithdrawFromGasKey _ _ => "Withdraw From Gas Key"
  end.

Definition is_partially_decoded (action : Action) : bool :=
  match action with
  | ADeployContract _ | ADeployGlobalContract _ | AUseGlobalContract _ => true
  | _ => false
  end.

Definition partially_decoded_label (action : Action) : string :=
  action_label action +:+ " (not fully decoded)".

Definition action_boundary_field (action : Action) (total_actions : nat) : fields_m :=
  if decide (1 < total_actions) then f ← text "Action" (action_label action); Ok [f] else Ok [].

(** A text field for a note that is present and not empty. *)
Definition note_field (label : string) (note : option string) : fields_m :=
  match note with
  | Some m => if is_empty_string m then Ok [] else f ← text label (charset_safe m); Ok [f]
  | None => Ok []
  end.

Definition push_amount_and_notes (amount : string) (memo msg : option string) : fields_m :=
  a ← built (create_number_field "Amount" amount "raw token units");
  memo ← note_field "Memo" memo;
  msg ← note_field "Message" msg;
  Ok (a :: memo ++ msg).

Definition decode_known_method_args (method : string) (args : bytes)
    : result (crash VisualSignError) (option (list SignablePayloadField)) :=
  if decide (method = "ft_transfer" ∨ method = "ft_transfer_call") then
    match parse_ft_transfer_args args with
    | None => Ok None
    | Some parsed =>
        r ← addr_field "Recipient" (as_str (fta_receiver_id parsed));
        rest ← push_amount_and_notes (fta_amount parsed) (fta_memo parsed) (fta_msg parsed);
        Ok (Some (r :: rest))
    end
  else if decide (method = "ft_withdraw") then
    match parse_ft_withdraw_args args with
    | None => Ok None
    | Some parsed =>
        t ← addr_field "Token" (as_str (fwa_token parsed));
        r ← addr_field "Recipient" (as_str (fwa_receiver_id parsed));
        rest ← push_amount_and_notes (fwa_amount parsed) (fwa_memo parsed) (fwa_msg parsed);
        Ok (Some (t :: r :: rest))
    end
  else Ok None.

Definition line_break : string := String (Ascii.ascii_of_nat 10) "".

Definition push_function_call_permission_fields (permission : FunctionCallPermission) : fields_m :=
  c ← addr_field "Contract" (charset_safe (fcp_receiver_id permission));
  let methods :=
    if decide (fcp_method_names permission = []) then "Any method"
    else str_join line_break (charset_safe <$> fcp_method_names permission) in
  m ← text "Allowed Methods" methods;
  a ← match fcp_allowance permission with
      | Some allowance => near_amount "Allowance" allowance
      | None => text "Allowance" "Unlimited"
      end;
  Ok [c; m; a].

Definition push_gas_key_info_fields (info : GasKeyInfo) : fields_m :=
  b ← near_amount "Gas Key Balance" (gk_balance info);
  n ← built (create_number_field "Gas Key Nonces" (show_Z (Z.of_N (gk_num_nonces info))) "");
  Ok [b; n].

Definition push_permission_fields (permission : AccessKeyPermission) : fields_m :=
  match permission with
  | PermFullAccess => p ← text "Permission" "Full Access"; Ok [p]
  | PermFunctionCall fc =>
      p ← text "Permission" "Function Call";
      fs ← push_function_call_permission_fields fc;
      Ok (p :: fs)
  | PermGasKeyFullAccess info =>
      p ← text "Permission" "Gas Key (Full Access)";
      fs ← push_gas_key_info_fields info;
      Ok (p :: fs)
  | PermGasKeyFunctionCall info fc =>
      p ← text "Permission" "Gas Key (Function Call)";
      fs ← push_gas_key_info_fields info;
      gs ← push_function_call_permission_fields fc;
      Ok (p :: fs ++ gs)
  end.

Definition render_function_call (fc : FunctionCallAction) : fields_m :=
  m ← text "Method" (charset_safe (method_name fc));
  known ← decode_known_method_args (method_name fc) (fc_args fc);
  args ← match known with
         | Some args_fields => Ok args_fields
         | None =>
             if decide (fc_args fc = []) then Ok []
             else f ← built (create_raw_data_field (fc_args fc) None); Ok [f]
         end;
  deposit ← (if decide (0 < fc_deposit fc)%N then
               f ← near_amount "Deposit" (fc_deposit fc); Ok [f]
             else Ok []);
  tgas ← format_tgas (fc_gas fc);
  gas ← text "Gas" (tgas +:+ " Tgas");
  Ok (m :: args ++ deposit ++ [gas]).

Definition render_action (action : Action) (total_actions : nat) : fields_m :=
  let boundary := action_boundary_field action total_actions in
  match action with
  | ATransfer deposit =>
      b ← boundary; f ← near_amount "Amount" deposit; Ok (b ++ [f])
  | AFunctionCall fc => b ← boundary; fs ← render_function_call fc; Ok (b ++ fs)
  | ACreateAccount => f ← text "Action" (action_label action); Ok [f]
  | ADeleteAccount beneficiary =>
      b ← boundary; f ← addr_field "Beneficiary" (as_str beneficiary); Ok (b ++ [f])
  | AAddKey public_key permission =>
      b ← boundary;
      f ← text "Public Key" (show_near_key public_key);
      fs ← push_permission_fields permission;
      Ok (b ++ f :: fs)
  | ADeleteKey public_key =>
      b ← boundary; f ← text "Public Key" (show_near_key public_key); Ok (b ++ [f])
  | AStake stake public_key =>
      b ← boundary;
      s ← near_amount "Stake" stake;
      f ← text "Validator Public Key" (show_near_key public_key);
      Ok (b ++ [s; f])
  | ATransferToGasKey deposit public_key =>
      b ← boundary;
      s ← near_amount "Amount" deposit;
      f ← text "Gas Key Public Key" (show_near_key public_key);
      Ok (b ++ [s; f])
  | AWithdrawFromGasKey a public_key =>
      b ← boundary;
      s ← near_amount "Amount" a;
      f ← text "Gas Key Public Key" (show_near_key public_key);
      Ok (b ++ [s; f])
  | ADeterministicStateInit deposit _ =>
      b ← boundary;
      s ← near_amount "Deposit" deposit;
      f ← text "State Init" "(not fully decoded)";
      Ok (b ++ [s; f])
  | ADelegate _ =>
      Err (Fail (ValidationError
        "NEAR Delegate (meta-transaction) actions are not supported for signing display"))
  | ADeployContract _ | ADeployGlobalContract _ | AUseGlobalContract _ =>
      f ← text "Action" (partially_decoded_label action); Ok [f]
  end.

(** ** The converter *)

Record NearVisualSignConverter := MkNearConverter {
  nc_network : NearNetwork;
  nc_trust_policy : MetadataTrustPolicy;
}.

Definition converter_new : NearVisualSignConverter :=
  MkNearConverter NearNetwork_default AcceptUnsigned.
Definition with_network (network : NearNetwork) : NearVisualSignConverter :=
  MkNearConverter network (nc_trust_policy converter_new).
Definition with_trust_policy (policy : MetadataTrustPolicy) : NearVisualSignConverter :=
  MkNearConverter (nc_network converter_new) policy.
Definition with_network_and_trust_policy (network : NearNetwork) (policy : MetadataTrustPolicy)
    : NearVisualSignConverter := MkNearConverter network policy.

Record RequestTokenRegistry := MkRequestTokenRegistry {
  rt_registry : Reg;
  rt_diagnostics : list SignablePayloadField;
}.

Definition RequestTokenRegistry_empty : RequestTokenRegistry :=
  MkRequestTokenRegistry (layered_new NearTokenRegistry_default) [].

(** The arm for a posture added later has no counterpart: there are two postures. *)
Definition token_registry_for (options : VisualSignOptions) (network : NearNetwork)
    (trust_policy : MetadataTrustPolicy) : RequestTokenRegistry :=
  let allowlist :=
    match trust_policy with
    | RequireAllowlistedSigner allow => allow
    | AcceptUnsigned => authorized_token_metadata_signers show_hex_error env_value dev_signing
    end in
  let extraction :=
    try_extract_from_chain_metadata show_hex_error is_nep141 parse_token_value network allowlist
      trust_policy (metadata options) in
  MkRequestTokenRegistry (request_registry extraction)
    (rejected_metadata_diagnostics diagnostics (ex_rejected extraction)).

Definition resolve_network (options : VisualSignOptions) (fallback : NearNetwork)
    : result VisualSignError NearNetwork :=
  n ← extract_network_from_metadata (metadata options);
  Ok (default fallback n).

Definition PAYLOAD_VERSION : Z := 0.
Definition PAYLOAD_TYPE : string := "NearTx".
Definition EXECUTE_INTENTS_METHOD : string := "execute_intents".

Definition token_metadata_consumer (receiver_id : string) (action : Action)
    : option FunctionCallAction :=
  match action with
  | AFunctionCall fc =>
      if decide (receiver_id = INTENTS_RECEIVER ∧ method_name fc = EXECUTE_INTENTS_METHOD)
      then Some fc else None
  | _ => None
  end.

Definition intents_error (e : NearIntentsError) : VisualSignError :=
  match e with
  | NetworkMismatch mismatch => ValidationError mismatch
  | other => ConversionError (show_intents_error other)
  end.

Definition decode_intents (receiver_id : string) (action : Action) (registry : Reg)
    (network : NearNetwork) : fields_m :=
  match token_metadata_consumer receiver_id action with
  | None => Ok []
  | Some fc =>
      crash_map intents_error (try_decode_execute_intents diagnostics (fc_args fc) registry network)
  end.

Definition title_for (actions : list Action) : string :=
  match actions with
  | [single] =>
      if is_partially_decoded single then partially_decoded_label single else action_label single
  | _ => "NEAR Transaction"
  end.

Definition near_payload (title : string) (fields : list SignablePayloadField) : ConversionResult :=
  ConversionResult_new (SignablePayload_new PAYLOAD_VERSION title None fields PAYLOAD_TYPE).

Definition render_on_chain (c : NearVisualSignConverter) (tx : Transaction)
    (options : VisualSignOptions) : result (crash VisualSignError) ConversionResult :=
  if decide (tx_actions tx = []) then
    Err (Fail (ValidationError "NEAR transaction has no actions"))
  else
    network ← lift (resolve_network options (nc_network c));
    _ ← check_accounts [("signer", as_str (tx_signer_id tx));
                        ("receiver", as_str (tx_receiver_id tx))] network;
    net ← text "Network" (display_name network);
    from ← addr_field "From" (as_str (tx_signer_id tx));
    to ← addr_field "To" (as_str (tx_receiver_id tx));
    let tokens :=
      if existsb (fun action =>
           bool_decide (is_Some (token_metadata_consumer (as_str (tx_receiver_id tx)) action)))
           (tx_actions tx)
      then token_registry_for options network (nc_trust_policy c)
      else RequestTokenRegistry_empty in
    let total_actions := length (tx_actions tx) in
    actions ← extend_each (fun action =>
        fs ← render_action action total_actions;
        ints ← decode_intents (as_str (tx_receiver_id tx)) action (rt_registry tokens) network;
        Ok (fs ++ ints)) (tx_actions tx);
    Ok (near_payload (title_for (tx_actions tx))
          (net :: from :: to :: rt_diagnostics tokens ++ actions)).

Definition render_intent_envelope (json : string) (options : VisualSignOptions)
    (network : NearNetwork) (trust_policy : MetadataTrustPolicy)
    : result (crash VisualSignError) ConversionResult :=
  let tokens :=
    if single_intent_consumes_token_registry (as_bytes json)
    then token_registry_for options network trust_policy
    else RequestTokenRegistry_empty in
  net ← text "Network" (display_name network);
  rendered ← crash_map intents_error
               (try_render_single_intent diagnostics (as_bytes json) (rt_registry tokens) network);
  Ok (near_payload (re_title rendered) (net :: rt_diagnostics tokens ++ re_fields rendered)).

Definition near_to_payload (c : NearVisualSignConverter) (transaction : NearTransaction)
    (options : VisualSignOptions) : result (crash VisualSignError) ConversionResult :=
  match transaction with
  | OnChain tx => render_on_chain c tx options
  | IntentEnvelope json =>
      network ← lift (resolve_network options (nc_network c));
      render_intent_envelope json options network (nc_trust_policy c)
  end.

(** ** Input *)

Definition decode_input (s : string) : result TransactionParseError bytes :=
  match detect s with
  | Hex => map_err (fun e => ParseDecodeError ("hex: " +:+ show_hex_error e)) (decode_hex s)
  | Base64 => map_err (fun e => ParseDecodeError ("base64: " +:+ e)) (base64_decode s)
  end.

(** The input as an envelope, given why it is not a transaction. *)
Definition read_envelope (trimmed : string) (borsh_failure : option string)
    : result TransactionParseError NearTransaction :=
  match parse_defuse_payload (as_bytes trimmed) with
  | Ok _ => Ok (IntentEnvelope trimmed)
  | Err e =>
      let borsh_cause := default "input is not hex or base64" borsh_failure in
      Err (ParseDecodeError
             ("input is neither a NEAR borsh transaction nor a DefusePayload JSON envelope: "
              +:+ e +:+ "; near borsh decode: " +:+ borsh_cause))
  end.

Definition from_string_with_options (s : string) (developer_config : option DeveloperConfig)
    : result TransactionParseError NearTransaction :=
  let trimmed := trim s in
  match decode_input trimmed with
  | Ok bs =>
      match borsh_transaction bs with
      | Ok unsigned => Ok (OnChain unsigned)
      | Err unsigned_err =>
          let allow_signed :=
            match developer_config with Some c => allow_signed_transactions c | None => false end in
          if allow_signed then
            match borsh_signed_transaction bs with
            | Ok signed => Ok (OnChain signed)
            | Err signed_err =>
                read_envelope trimmed
                  (Some ("unsigned=" +:+ unsigned_err +:+ ", signed=" +:+ signed_err))
            end
          else read_envelope trimmed (Some unsigned_err)
      end
  | Err _ => read_envelope trimmed None
  end.

Definition transaction_type (t : NearTransaction) : string :=
  match t with OnChain _ => "NEAR" | IntentEnvelope _ => "NEAR Intent" end.
End convert.

(** ** Every payload is clean *)

Definition clean_text (s : string) : Prop := clean s = true.
Definition clean_field : SignablePayloadField → Prop := texts_ok clean_text.
Definition clean_fields (fs : list SignablePayloadField) : Prop := Forall clean_field fs.

Lemma line_clean s : line s → clean_text s.
Proof. intros Hs. by apply plain_clean, line_plain. Qed.

Lemma clean_nil : clean_fields [].
Proof. constructor. Qed.

Lemma clean_cons f fs : clean_field f → clean_fields fs → clean_fields (f :: fs).
Proof. by constructor. Qed.

Lemma clean_app fs gs : clean_fields fs → clean_fields gs → clean_fields (fs ++ gs).
Proof. apply Forall_app_2. Qed.

Lemma shown_clean_fields fs : Forall (texts_ok shown) fs → clean_fields fs.
Proof.
  intros Hf. eapply Forall_impl; [exact Hf|]. intros f. apply texts_ok_weaken, shown_clean.
Qed.

Lemma clean_extend {A} (f : A → fields_m) l :
  (∀ x, x ∈ l → yields clean_fields (f x)) → yields clean_fields (extend_each f l).
Proof.
  induction l as [|x l IH]; intros Hf; cbn [extend_each]; [apply clean_nil|].
  eapply yields_bind; [apply Hf; by left|]. intros fs Hfs.
  eapply yields_bind; [apply IH; intros y Hy; apply Hf; by right|]. intros gs Hgs.
  by apply clean_app.
Qed.

Lemma crash_map_yields {E1 E2 A} (f : E1 → E2) (Q : A → Prop) m :
  yields Q m → yields Q (crash_map f m).
Proof. by destruct m as [|[]]. Qed.

#[export] Hint Resolve line_clean clean_nil clean_cons clean_app show_near_key_line : plain.

Ltac acted := rendered_by clean_field clean_fields.

Section clean_payloads.
Context {T : NearTypes} {C : NearCrates} {NK : NearKeys} {ND : NearDecoders}.
Context {S : Sha256} {H : HexCodec} {K : Secp256k1} {Ed : Ed25519} {E : RegexEngine}.
Context (diagnostics dev_signing : bool).

Lemma text_clean label t : line label → clean_text t → yields clean_field (text label t).
Proof. intros. exact (text_field_ok clean_text label t _ eq_refl ltac:(by apply line_clean) ltac:(done)). Qed.

Lemma address_clean label a : line label → line a → yields clean_field (addr_field label a).
Proof.
  intros. exact (address_field_ok clean_text label a _ eq_refl ltac:(done)
    ltac:(by apply line_clean) ltac:(by apply line_clean)).
Qed.

Lemma built_yields (Q : SignablePayloadField → Prop) m :
  (∀ a, m = Ok a → Q (signable_payload_field a)) → yields Q (built m).
Proof. intros Hm. unfold built. destruct m as [a|e]; cbn; [by apply Hm|done]. Qed.

Lemma number_field_clean label n u : line label → line u → yields clean_field (built (create_number_field label n u)).
Proof.
  intros. apply built_yields. intros a Ha. pose proof Ha as Ha'.
  apply create_number_field_ok in Ha' as [Hn%signed_proper_line _].
  eapply number_field_ok; [exact Ha|eauto with plain..]. destruct (is_empty_string u); eauto with plain.
Qed.

Lemma near_amount_clean label y : line label → yields clean_field (near_amount label y).
Proof.
  intros. unfold near_amount, format_near. rewrite format_fixed_Ok by done. cbn [mbind result_bind].
  assert (line (fixed_text y (10 ^ Z.of_N 24) 24)) by (by apply signed_proper_line, fixed_text_proper).
  apply built_yields. intros a Ha. eapply amount_field_ok; eauto with plain.
Qed.

Lemma raw_data_clean data : yields clean_field (built (create_raw_data_field data None)).
Proof.
  apply built_yields. intros a Ha. eapply raw_data_field_ok; [exact Ha|done|].
  apply line_clean, line_default_hex.
Qed.

#[local] Hint Resolve text_clean address_clean number_field_clean near_amount_clean raw_data_clean : plain.
#[local] Opaque text addr_field near_amount built.

Lemma boundary_clean a n : yields clean_fields (action_boundary_field a n).
Proof.
  unfold action_boundary_field. acted; [|eauto with plain..].
  apply text_clean; [done|]. apply line_clean. by destruct a.
Qed.

Lemma note_clean label note : line label → yields clean_fields (note_field label note).
Proof. intros. unfold note_field. acted; eauto with plain. Qed.

Lemma methods_clean l : clean_text (str_join line_break (charset_safe <$> l)).
Proof.
  apply plain_clean, plain_join; [done|]. apply Forall_fmap, Forall_forall. intros s _.
  apply line_plain, charset_safe_line.
Qed.

#[local] Hint Resolve boundary_clean note_clean methods_clean : plain.
#[local] Opaque action_boundary_field note_field.

Lemma amount_and_notes_clean a me ms : yields clean_fields (push_amount_and_notes a me ms).
Proof. unfold push_amount_and_notes. acted; eauto with plain. Qed.

#[local] Hint Resolve amount_and_notes_clean : plain.
#[local] Opaque push_amount_and_notes.

Lemma known_args_clean m args :
  yields (fun o => ∀ fs, o = Some fs → clean_fields fs) (decode_known_method_args m args).
Proof.
  unfold decode_known_method_args. repeat (case_decide || case_match); try done;
    acted; eauto with plain; intros fs [= <-]; eauto with plain.
Qed.

Lemma call_permission_clean fc : yields clean_fields (push_function_call_permission_fields fc).
Proof.
  unfold push_function_call_permission_fields. acted; eauto with plain. case_decide; eauto with plain.
Qed.

Lemma gas_key_clean info : yields clean_fields (push_gas_key_info_fields info).
Proof. unfold push_gas_key_info_fields. acted; eauto with plain. Qed.

#[local] Hint Resolve call_permission_clean gas_key_clean : plain.
#[local] Opaque push_function_call_permission_fields push_gas_key_info_fields.

Lemma permission_clean p : yields clean_fields (push_permission_fields p).
Proof. unfold push_permission_fields. acted; eauto with plain. Qed.

Lemma function_call_clean fc : yields clean_fields (render_function_call fc).
Proof.
  unfold render_function_call. apply (yields_bind _ clean_field); [eauto with plain|]. intros m Hm.
  eapply yields_bind; [apply known_args_clean|]. intros known Hk.
  apply (yields_bind _ clean_fields).
  { destruct known as [fs|]; [by apply Hk|]. acted; eauto with plain. }
  intros args Hargs. apply (yields_bind _ clean_fields); [acted; eauto with plain|].
  intros dep Hdep. unfold format_tgas. rewrite format_fixed_Ok by done. cbn [mbind result_bind].
  assert (line (fixed_text (fc_gas fc) (10 ^ Z.of_N 12) 12))
    by (by apply signed_proper_line, fixed_text_proper).
  acted; eauto 6 with plain.
Qed.

#[local] Hint Resolve permission_clean function_call_clean : plain.
#[local] Opaque push_permission_fields render_function_call.

Lemma action_clean a n : yields clean_fields (render_action a n).
Proof.
  destruct a; cbn [render_action]; acted; eauto 6 with plain; by apply text_clean; vm_compute.
Qed.

Lemma rejected_clean rejected : clean_fields (rejected_metadata_diagnostics diagnostics rejected).
Proof.
  apply Forall_forall. intros f (r & _ & Hf)%list_elem_of_omap.
  pose proof (diagnostic_yields diagnostics "rejected-token-metadata"
    ("token metadata supplied for " +:+ rj_asset_id r +:+ " was rejected and not used: " +:+ rj_reason r)
    eq_refl ltac:(done)) as Hd.
  cbn zeta in Hf. destruct (diagnostic _ _ _) as [g|e]; [|discriminate Hf].
  injection Hf as ->. destruct Hd as [Hd _].
  revert Hd. apply texts_ok_weaken, shown_clean.
Qed.

Lemma tokens_ok o n p :
  let t := token_registry_for diagnostics dev_signing o n p in
  reg_ok (rt_registry t) ∧ clean_fields (rt_diagnostics t).
Proof.
  split; [|apply rejected_clean]. intros a m. cbn. rewrite request_registry_lookup.
  intros (near & e & _ & _ & Hm)%extracted_admitted. apply admit_entry_Ok in Hm as [_ _ _ [_ ?] _]. done.
Qed.

Lemma empty_ok : reg_ok (rt_registry RequestTokenRegistry_empty).
Proof. intros a m. cbn. by rewrite lookup_empty. Qed.

(** The registry a request uses, whether or not the gate asks for it. *)
Lemma tokens_if_ok (b : bool) o n p :
  let t := if b then token_registry_for diagnostics dev_signing o n p else RequestTokenRegistry_empty in
  reg_ok (rt_registry t) ∧ clean_fields (rt_diagnostics t).
Proof. destruct b; [apply tokens_ok|]. split; [apply empty_ok|apply clean_nil]. Qed.

Lemma intents_clean r a reg n : reg_ok reg → yields clean_fields (decode_intents diagnostics r a reg n).
Proof.
  intros Hr. unfold decode_intents. destruct (token_metadata_consumer r a) as [fc|]; [|apply clean_nil].
  apply crash_map_yields. unfold try_decode_execute_intents.
  apply (yields_bind _ (fun _ => True)); [by apply yields_lift|]. intros l _.
  apply crash_map_yields, clean_extend. intros [i mp] _.
  eapply yields_weaken; [apply shown_clean_fields|by apply section_yields].
Qed.

(** What a payload has to satisfy for the charset gate. *)
Definition clean_result (r : ConversionResult) : Prop :=
  Forall clean_text (payload_texts (payload r)).

Lemma near_payload_clean title fs :
  line title → clean_fields fs → clean_result (near_payload title fs).
Proof.
  intros Ht Hf. unfold clean_result, payload_texts. cbn. apply Forall_app_2.
  - induction Hf as [|f fs Hff _ IH]; [constructor|]. rewrite fmap_cons. by apply Forall_app_2.
  - repeat constructor; try done. by apply line_clean.
Qed.

Lemma title_line l : line (title_for l).
Proof. destruct l as [|a [|b l]]; [done| |done]. by destruct a. Qed.

Lemma on_chain_clean c tx o : yields clean_result (render_on_chain diagnostics dev_signing c tx o).
Proof.
  unfold render_on_chain. case_decide; [done|].
  apply (yields_bind _ (fun _ => True)); [by apply yields_lift|]. intros n _.
  eapply yields_bind; [apply check_accounts_yields|]. intros _ _.
  apply (yields_bind _ clean_field); [apply text_clean; [done|by destruct n]|]. intros net Hnet.
  apply (yields_bind _ clean_field); [eauto with plain|]. intros from Hfrom.
  apply (yields_bind _ clean_field); [eauto with plain|]. intros to Hto. cbn zeta.
  destruct (tokens_if_ok (existsb (fun a => bool_decide
    (is_Some (token_metadata_consumer (as_str (tx_receiver_id tx)) a))) (tx_actions tx))
    o n (nc_trust_policy c)) as [Hr Hd]. set (t := if existsb _ _ then _ else _) in *.
  apply (yields_bind _ clean_fields).
  { apply clean_extend. intros a _. apply (yields_bind _ clean_fields); [apply action_clean|].
    intros fs Hfs. apply (yields_bind _ clean_fields); [by apply intents_clean|]. intros gs Hgs.
    by apply clean_app. }
  intros acts Hacts. apply near_payload_clean; [apply title_line|]. eauto 6 with plain.
Qed.

Lemma envelope_clean json o n p :
  yields clean_result (render_intent_envelope diagnostics dev_signing json o n p).
Proof.
  unfold render_intent_envelope.
  destruct (tokens_if_ok (single_intent_consumes_token_registry (as_bytes json)) o n p) as [Hr Hd].
  cbn zeta. set (t := if single_intent_consumes_token_registry _ then _ else _) in *.
  apply (yields_bind _ clean_field); [apply text_clean; [done|by destruct n]|]. intros net Hnet.
  apply (yields_bind _ (fun r => line (re_title r) ∧ clean_fields (re_fields r))).
  - apply crash_map_yields. unfold try_render_single_intent.
    apply (yields_bind _ (fun _ => True)); [by apply yields_lift|]. intros d _.
    eapply yields_bind; [apply crash_map_yields; by apply single_yields|]. intros fs [Hfs _].
    split; [|by apply shown_clean_fields]. cbn. unfold title_for_intents.
    destruct (intents d) as [|i [|j l]]; [done| |done]. apply line_app; [done|apply intent_label_line].
  - intros r [Ht Hf]. apply near_payload_clean; [done|]. eauto with plain.
Qed.

Lemma near_clean c tx o : yields clean_result (near_to_payload diagnostics dev_signing c tx o).
Proof.
  destruct tx as [tx|json]; cbn [near_to_payload]; [apply on_chain_clean|].
  apply (yields_bind _ (fun _ => True)); [by apply yields_lift|]. intros n _. apply envelope_clean.
Qed.
End clean_payloads.

(** ** The converter as the registry sees it *)

Section near_converter.
Context {T : NearTypes} {C : NearCrates} {NK : NearKeys} {ND : NearDecoders}.
Context {S : Sha256} {H : HexCodec} {K : Secp256k1} {Ed : Ed25519} {E : RegexEngine}.
Context {M : SerdeMap} {F : JsonFormat} {D : JsonErrorText}.
Context (diagnostics dev_signing : bool).

(** The conversion, which [near_clean] shows not to panic. *)
Definition near_convert (c : NearVisualSignConverter) (tx : NearTransaction) (o : VisualSignOptions)
    : result VisualSignError ConversionResult :=
  run_safe (near_to_payload diagnostics dev_signing c tx o)
    (yields_safe _ _ (near_clean diagnostics dev_signing c tx o)).

(** It keeps the validating default, and reads its input under the developer options. *)
Definition near_converter (c : NearVisualSignConverter) : converter NearTransaction :=
  MkConverter NearTransaction (fun s => from_string_with_options s None) (near_convert c)
    (default_to_validated (near_convert c))
    (fun transaction_data options =>
       transaction ← map_err ParseError
         (from_string_with_options transaction_data (developer_config options));
       default_to_validated (near_convert c) transaction options).

Lemma extend_each_fail {A} (f : A → fields_m) l x e :
  x ∈ l → f x = Err e → ∃ e', extend_each f l = Err e'.
Proof.
  induction l as [|y l IH]; [set_solver|]. rewrite elem_of_cons. cbn [extend_each].
  intros [<-|Hin] Hx; [rewrite Hx; by eexists|].
  destruct (f y) as [fs|e0]; [|by eexists]. destruct (IH Hin Hx) as [e' ->]. by eexists.
Qed.

Lemma crash_map_Ok {E1 E2 A} (f : E1 → E2) (m : result (crash E1) A) a :
  crash_map f m = Ok a ↔ m = Ok a.
Proof. apply map_err_Ok. Qed.

(** The field that names the network. *)
Definition network_field (n : NearNetwork) : SignablePayloadField :=
  TextV2 (Common (display_name n) "Network") (FieldTextV2 (display_name n)).

(** The accounts whose names have to agree with the network. *)
Definition named_accounts (tx : NearTransaction) : list string :=
  match tx with
  | OnChain tx => [as_str (tx_signer_id tx); as_str (tx_receiver_id tx)]
  | IntentEnvelope json =>
      match parse_defuse_payload (as_bytes json) with
      | Ok p => [as_str (signer_id p); as_str (verifying_contract p)]
      | Err _ => []
      end
  end.

Definition agrees (n : NearNetwork) (account : string) : Prop :=
  match n with Mainnet => ends_with ".testnet" account | Testnet => ends_with ".near" account end = false.

(** ** Properties *)

(** C27: the NEAR path has no input it panics on and none that the charset gate refuses after it
    has been rendered: every payload it builds, from any transaction or envelope and any
    request metadata, passes the gate, so validation changes nothing. *)
Theorem near_payloads_pass_gate c tx o :
  safe (near_to_payload diagnostics dev_signing c tx o) ∧
  (∀ res, near_to_payload diagnostics dev_signing c tx o = Ok res →
     validate_charset (payload res) = Ok ()) ∧
  default_to_validated (near_convert c) tx o = near_convert c tx o.
Proof.
  pose proof (near_clean diagnostics dev_signing c tx o) as Hc.
  assert (∀ res, near_to_payload diagnostics dev_signing c tx o = Ok res →
    validate_charset (payload res) = Ok ()) as Hok.
  { intros res Hr. apply validate_charset_clean. exact (yields_Ok _ _ _ Hc Hr). }
  split; [by eapply yields_safe|]. split; [done|]. unfold default_to_validated.
  destruct (near_convert c tx o) as [res|e] eqn:Ec; [|done]. cbn [mbind result_bind].
  unfold near_convert in Ec. apply run_safe_Ok in Ec. by rewrite (Hok res Ec).
Qed.

(** A NEAR payload opens with the network it was resolved to, and none of the accounts the
    input names contradicts that network. *)
Theorem near_network_shown c tx o res :
  near_to_payload diagnostics dev_signing c tx o = Ok res →
  ∃ n, resolve_network o (nc_network c) = Ok n ∧
    head (payload_fields (payload res)) = Some (network_field n) ∧
    Forall (agrees n) (named_accounts tx).
Proof.
  destruct tx as [tx|json]; cbn [near_to_payload].
  - unfold render_on_chain. case_decide; [done|].
    intros (n & Hn & Hr)%result_bind_Ok. apply (proj1 (lift_Ok _ _)) in Hn.
    apply result_bind_Ok in Hr as (u & Hu%check_accounts_Ok & Hr).
    apply result_bind_Ok in Hr as (net & [= <-] & Hr).
    apply result_bind_Ok in Hr as (from & _ & Hr). apply result_bind_Ok in Hr as (to & _ & Hr).
    apply result_bind_Ok in Hr as (acts & _ & [= <-]). exists n. split; [done|]. split; [done|].
    rewrite !Forall_cons in Hu. destruct Hu as (H1%network_mismatch_None & H2%network_mismatch_None & _).
    by repeat constructor.
  - intros (n & Hn & Hr)%result_bind_Ok. apply (proj1 (lift_Ok _ _)) in Hn.
    unfold render_intent_envelope in Hr. apply result_bind_Ok in Hr as (net & [= <-] & Hr).
    apply result_bind_Ok in Hr as (re & Hre & [= <-]). exists n. split; [done|]. split; [done|].
    apply (proj1 (crash_map_Ok _ _ _)) in Hre. unfold try_render_single_intent in Hre.
    apply result_bind_Ok in Hre as (p & Hp & Hre). apply (proj1 (lift_Ok _ _)) in Hp.
    apply map_err_Ok in Hp. apply result_bind_Ok in Hre as (fs & Hfs & _).
    apply (proj1 (crash_map_Ok _ _ _)) in Hfs. unfold render_single in Hfs.
    apply result_bind_Ok in Hfs as (u & Hu%check_accounts_Ok & _). cbn [named_accounts]. rewrite Hp.
    rewrite !Forall_cons in Hu. destruct Hu as (H1%network_mismatch_None & H2%network_mismatch_None & _).
    by repeat constructor.
Qed.

(** An input is taken as a transaction exactly when its bytes decode as an unsigned one, or,
    only under the developer option, as a signed one that does not also decode as unsigned. *)
Theorem signed_input_needs_developer s cfg tx :
  from_string_with_options s cfg = Ok (OnChain tx) ↔
  ∃ bs, decode_input (trim s) = Ok bs ∧
    (borsh_transaction bs = Ok tx ∨
     is_ok (borsh_transaction bs) = false ∧ borsh_signed_transaction bs = Ok tx ∧
     ∃ dc, cfg = Some dc ∧ allow_signed_transactions dc = true).
Proof.
  assert (∀ t o, read_envelope t o ≠ Ok (OnChain tx)) as Hre.
  { intros t o. unfold read_envelope. by destruct (parse_defuse_payload _). }
  unfold from_string_with_options. destruct (decode_input (trim s)) as [bs|e].
  2: { split; [by intros ?%Hre|]. by intros (? & ? & _). }
  destruct (borsh_transaction bs) as [u|ue] eqn:Hu.
  - split; [intros [= ->]; exists bs; auto|]. intros (bs' & [= <-] & [Hx|(Hx & _)]); [congruence|].
    by rewrite Hu in Hx.
  - destruct cfg as [[[]]|]; cbn.
    + destruct (borsh_signed_transaction bs) as [sg|se] eqn:Hs.
      * split; [intros [= ->]; exists bs; split; [done|]; right; rewrite Hu; eauto|].
        intros (bs' & [= <-] & [?|(_ & ? & _)]); congruence.
      * split; [by intros ?%Hre|]. intros (bs' & [= <-] & [?|(_ & ? & _)]); congruence.
    + split; [by intros ?%Hre|]. intros (bs' & [= <-] & [?|(_ & _ & ? & [= <-] & ?)]); [congruence|done].
    + split; [by intros ?%Hre|]. intros (bs' & [= <-] & [?|(_ & _ & ? & ? & ?)]); congruence.
Qed.

(** A transaction that carries a delegated one is never shown, in any position. *)
Theorem delegate_refused c tx o d :
  ADelegate d ∈ tx_actions tx →
  ∃ e, near_to_payload diagnostics dev_signing c (OnChain tx) o = Err (Fail e).
Proof.
  intros Hd. pose proof (near_clean diagnostics dev_signing c (OnChain tx) o) as Hc.
  destruct (near_to_payload diagnostics dev_signing c (OnChain tx) o) as [r|[e|]] eqn:Er;
    [|by eexists|done]. exfalso. clear Hc. cbn [near_to_payload] in Er. unfold render_on_chain in Er.
  case_decide; [done|]. apply result_bind_Ok in Er as (n & _ & Er).
  do 4 (apply result_bind_Ok in Er as (? & _ & Er)). cbn zeta in Er.
  apply result_bind_Ok in Er as (acts & Ha & _).
  match type of Ha with
  | extend_each ?f ?l = _ =>
      destruct (extend_each_fail f l _ _ Hd eq_refl) as [e' He']; by rewrite He' in Ha
  end.
Qed.

(** Each bound of a function-call key is shown, and an absent one by name: no method list
    means any method, no allowance means unlimited, and an allowance is shown exactly. *)
Theorem permission_bounds_shown p fs :
  push_function_call_permission_fields p = Ok fs →
  ∃ contract methods allowance, fs = [contract; methods; allowance] ∧
    (let t := if decide (fcp_method_names p = []) then "Any method"
              else str_join line_break (charset_safe <$> fcp_method_names p) in
     methods = TextV2 (Common t "Allowed Methods") (FieldTextV2 t)) ∧
    match fcp_allowance p with
    | None => allowance = TextV2 (Common "Unlimited" "Allowance") (FieldTextV2 "Unlimited")
    | Some a => ∃ t, allowance = AmountV2 (Common (t +:+ " NEAR") "Allowance")
                                   (FieldAmountV2 t (Some "NEAR")) ∧
                     read_units 24 t = Z.of_N a
    end.
Proof.
  unfold push_function_call_permission_fields.
  intros (contract & _ & Hr)%result_bind_Ok. cbn zeta in Hr.
  apply result_bind_Ok in Hr as (m & [= <-] & Hr). apply result_bind_Ok in Hr as (a & Ha & [= <-]).
  eexists contract, _, a. split; [done|]. split; [done|].
  destruct (fcp_allowance p) as [y|]; [|by injection Ha as <-].
  unfold near_amount, format_near in Ha. rewrite format_fixed_Ok in Ha by done.
  cbn [mbind result_bind] in Ha. unfold amount, built in Ha.
  apply result_bind_Ok in Ha as (x & Hx & [= <-]). apply (proj1 (lift_Ok _ _)) in Hx.
  apply result_bind_Ok in Hx as (? & _ & Hx). injection Hx as <-.
  eexists. split; [reflexivity|]. apply read_fixed_text.
Qed.
End near_converter.

(** Concrete decoders and transactions for the properties. *)
Module sample_near.
Import sample_intents.

Program Definition near_keys : NearKeys := {| NearKey := (); show_near_key _ := "ed25519:k" |}.
Next Obligation. done. Qed.

Definition transfer : @Transaction types near_keys :=
  @MkTransaction types near_keys alice (mk_account "bob.near" eq_refl)
    [@ATransfer types near_keys 1500000000000000000000000].

(** Decoders that read any input as the sample transaction, signed where it starts so. *)
Definition decoders : @NearDecoders types near_keys :=
  @Build_NearDecoders types near_keys (fun _ => None) (fun _ => None) sample_tokens.read_value
    (fun b => match b with Byte.x00 :: _ => Ok transfer | _ => Err "not a transaction" end)
    (fun b => match b with Byte.x01 :: _ => Ok transfer | _ => Err "not signed" end)
    (fun _ => Err "not base64") sample_tokens.show (fun _ => None).

Definition convert (c : NearVisualSignConverter) (tx : @NearTransaction types near_keys)
    : result (crash VisualSignError) ConversionResult :=
  @near_to_payload types (crates (envelope [])) near_keys decoders truncation_hash hex_ref toy_secp256k1
    toy_ed25519 derivative_engine false false c tx echo_options.
End sample_near.

Lemma near_network_shown_witness :
  ∃ res, sample_near.convert converter_new (OnChain sample_near.transfer) = Ok res ∧
    head (payload_fields (payload res)) = Some (network_field Mainnet).
Proof.
  destruct (sample_near.convert converter_new (OnChain sample_near.transfer)) as [res|e] eqn:Er;
    [|vm_compute in Er; discriminate Er].
  exists res. split; [reflexivity|].
  destruct (@near_network_shown _ _ _ _ _ _ _ _ _ false false _ _ _ _ Er) as (n & Hn & Hh & _).
  injection Hn as <-. exact Hh.
Defined.

Lemma permission_bounds_shown_witness :
  ∃ fs, @push_function_call_permission_fields derivative_engine
      (MkFunctionCallPermission None "intents.near" []) = Ok fs ∧ length fs = 3.
Proof.
  destruct (@push_function_call_permission_fields derivative_engine
      (MkFunctionCallPermission None "intents.near" [])) as [fs|e] eqn:Ef;
    [|vm_compute in Ef; discriminate Ef].
  exists fs. split; [reflexivity|].
  destruct (permission_bounds_shown _ _ Ef) as (c & m & a & -> & _). reflexivity.
Defined.
