(* ===== verification/Alloy.v ===== *)
(** * What the Ethereum parser uses of alloy

    Addresses, amounts and 256-bit integers of [alloy_primitives], as an interface whose laws
    are its documented behaviour, with an instance that satisfies them. An address is its
    twenty bytes; amounts are integers. *)

From S2P Require Import Prelude Json External Encodings DecimalText.

#[local] Unset Program Cases.

Abbreviation address := bytes.

(** The text of an address: the prefix and hex digits of either case. *)
Definition hex_text (s : string) : Prop :=
  ∃ t, s = "0x" +:+ t ∧ str_all is_ascii_hexdigit t = true.

(** An amount with its decimal point, all digits kept. *)
Definition units_text (n d : Z) : string :=
  show_Z (n `div` 10 ^ d) +:+ "." +:+ pad_left (Z.to_nat d) (show_Z (n `mod` 10 ^ d)).

Class AlloyPrimitives : Type := {
  (** [Address::from_str], [Display] and [Debug]. *)
  address_from_str : string → result string address;
  display_address : address → string;
  debug_address : address → string;
  (** [utils::format_units] at a number of decimals, and the named units. *)
  format_units : Z → Z → result string string;
  unit_from_str : string → result string Z;
  (** [U256::from_str_radix] at radix 16. *)
  u256_from_hex : string → result string Z;

  address_from_hex t a :
    hex_decode_ref t = Ok a → length a = 20 → address_from_str ("0x" +:+ t) = Ok a;
  address_length s a : address_from_str s = Ok a → length a = 20;
  display_address_hex a : hex_text (display_address a);
  debug_address_hex a : hex_text (debug_address a);
  display_address_parse a : length a = 20 → address_from_str (display_address a) = Ok a;
  debug_address_parse a : length a = 20 → address_from_str (debug_address a) = Ok a;
  format_units_text n d : (0 ≤ n → 0 < d ≤ 77 → format_units n d = Ok (units_text n d))%Z;
  format_units_invalid n d : (77 < d)%Z → ∃ e, format_units n d = Err e;
  unit_eth : unit_from_str "eth" = Ok 18%Z;
  unit_gwei : unit_from_str "gwei" = Ok 9%Z;
  u256_hex_range s n : u256_from_hex s = Ok n → (0 ≤ n < 2 ^ 256)%Z;
  u256_hex_digits s :
    s ≠ "" → str_all is_ascii_hexdigit s = true → (radix_value 16 0 s < 2 ^ 256)%Z →
    u256_from_hex s = Ok (radix_value 16 0 s);
}.

(** ** An instance *)

Definition alloy_address (s : string) : result string address :=
  match strip_prefix "0x" s with
  | None => Err "missing prefix"
  | Some t =>
      match hex_decode_ref t with
      | Ok a => if decide (length a = 20) then Ok a else Err "invalid string length"
      | Err _ => Err "invalid hex"
      end
  end.

Definition alloy_show (a : address) : string := "0x" +:+ hex_of_bytes a.

Lemma alloy_show_parse a : length a = 20 → alloy_address (alloy_show a) = Ok a.
Proof.
  intros Ha. unfold alloy_address, alloy_show. rewrite strip_prefix_app.
  pose proof (hex_decode_encode (HexCodec := hex_ref) a) as E.
  change (hex_decode_ref (hex_of_bytes a) = Ok a) in E. by rewrite E, decide_True.
Qed.

Lemma alloy_show_hex a : hex_text (alloy_show a).
Proof. exists (hex_of_bytes a). split; [done|]. apply hex_of_bytes_digits. Qed.

Lemma hexdigit_to_digit c :
  is_ascii_hexdigit c = bool_decide (is_Some (to_digit 16 c)).
Proof. ascii_cases c; reflexivity. Qed.

Program Definition alloy_ref : AlloyPrimitives :=
  {| address_from_str := alloy_address;
     display_address := alloy_show;
     debug_address := alloy_show;
     format_units n d :=
       if decide (d ≤ 77)%Z then Ok (units_text n d) else Err "invalid unit";
     unit_from_str s :=
       if decide (s = "eth") then Ok 18%Z
       else if decide (s = "gwei") then Ok 9%Z else Err "unknown units";
     u256_from_hex := from_str_radix 16 (2 ^ 256 - 1) |}.
Next Obligation.
  intros t a Ht Ha. unfold alloy_address. by rewrite strip_prefix_app, Ht, decide_True.
Qed.
Next Obligation. intros s a. unfold alloy_address. by repeat case_match; intros [= <-]. Qed.
Next Obligation. apply alloy_show_hex. Qed.
Next Obligation. apply alloy_show_hex. Qed.
Next Obligation. apply alloy_show_parse. Qed.
Next Obligation. apply alloy_show_parse. Qed.
Next Obligation. intros n d ??. cbv beta. rewrite decide_True by lia. done. Qed.
Next Obligation. intros n d ?. cbv beta. rewrite decide_False by lia. by eexists. Qed.
Next Obligation. done. Qed.
Next Obligation. done. Qed.
Next Obligation. intros s n H%from_str_radix_range; lia. Qed.
Next Obligation.
  intros s Hs Hd Hr. cbv beta.
  assert (radix_digits 16 (2 ^ 256 - 1) 0 s = Ok (radix_value 16 0 s)) as E.
  { apply radix_digits_Ok; [lia..|]. split; [|lia]. revert Hd. apply str_all_impl.
    intros c. by rewrite hexdigit_to_digit. }
  destruct s as [|c s]; [done|]. rewrite <-E. unfold from_str_radix.
  cbn [str_all] in Hd. apply andb_true_iff in Hd as [Hc _]. revert Hc. by ascii_cases c.
Qed.
