(* ===== verification/EthFormat.v ===== *)
(** * Ethereum: amounts and networks

    [fmt.rs] and [networks.rs] of [chain_parsers/visualsign-ethereum]: wei as ether and gwei,
    and the table of networks with the lookups that the macro generates from it. *)

From S2P Require Import Prelude Panic Json Payload Errors Charset External DecimalText Proto Alloy.
From S2P Require Import Builders Lamports PlainText NearText.

(** ** Amounts *)

Definition trim_trailing_zeros (s : string) : string :=
  if str_contains "." s then strip_trailing "." (strip_trailing "0" s) else s.

Section amounts.
Context {A : AlloyPrimitives}.

Definition in_units (unit : string) (wei : Z) : result string string :=
  d ← unit_from_str unit;
  format_units wei d.

Definition format_ether (wei : Z) : string :=
  trim_trailing_zeros (match in_units "eth" wei with Ok s => s | Err _ => show_Z wei end).

Definition format_gwei (wei : Z) : string :=
  trim_trailing_zeros (match in_units "gwei" wei with Ok s => s | Err _ => show_Z wei end).
End amounts.

(** ** Networks *)

(** One row of the macro: module, constant, chain id, display name and fee symbol. *)
Record Network := MkNetwork {
  net_chain : string;
  net_name : string;
  net_id : Z;
  net_display : string;
  net_symbol : string;
}.

Definition NETWORKS : list Network :=
  [ MkNetwork "ethereum" "MAINNET" 1 "Ethereum Mainnet" "ETH";
    MkNetwork "ethereum" "SEPOLIA" 11155111 "Ethereum Sepolia" "ETH";
    MkNetwork "ethereum" "GOERLI" 5 "Ethereum Goerli (deprecated)" "ETH";
    MkNetwork "ethereum" "HOLESKY" 17000 "Ethereum Holesky" "ETH";
    MkNetwork "bsc" "MAINNET" 56 "BNB Smart Chain Mainnet" "BNB";
    MkNetwork "bsc" "TESTNET" 97 "BNB Smart Chain Testnet" "BNB";
    MkNetwork "polygon" "MAINNET" 137 "Polygon Mainnet" "POL";
    MkNetwork "polygon" "AMOY" 80002 "Polygon Amoy" "POL";
    MkNetwork "avalanche" "MAINNET" 43114 "Avalanche C-Chain" "AVAX";
    MkNetwork "avalanche" "FUJI" 43113 "Avalanche Fuji Testnet" "AVAX";
    MkNetwork "fantom" "MAINNET" 250 "Fantom Opera" "FTM";
    MkNetwork "gnosis" "MAINNET" 100 "Gnosis Chain" "XDAI";
    MkNetwork "celo" "MAINNET" 42220 "Celo Mainnet" "CELO";
    MkNetwork "celo" "ALFAJORES" 44787 "Celo Alfajores Testnet" "CELO";
    MkNetwork "optimism" "MAINNET" 10 "OP Mainnet" "ETH";
    MkNetwork "optimism" "SEPOLIA" 11155420 "OP Sepolia" "ETH";
    MkNetwork "arbitrum" "MAINNET" 42161 "Arbitrum One" "ETH";
    MkNetwork "arbitrum" "SEPOLIA" 421614 "Arbitrum Sepolia" "ETH";
    MkNetwork "base" "MAINNET" 8453 "Base" "ETH";
    MkNetwork "base" "SEPOLIA" 84532 "Base Sepolia" "ETH";
    MkNetwork "blast" "MAINNET" 81457 "Blast" "ETH";
    MkNetwork "mantle" "MAINNET" 5000 "Mantle" "MNT";
    MkNetwork "worldchain" "MAINNET" 480 "World Chain" "ETH";
    MkNetwork "zksync" "MAINNET" 324 "zkSync Era" "ETH";
    MkNetwork "linea" "MAINNET" 59144 "Linea" "ETH";
    MkNetwork "scroll" "MAINNET" 534352 "Scroll" "ETH";
    MkNetwork "zora" "MAINNET" 7777777 "Zora" "ETH";
    MkNetwork "unichain" "MAINNET" 130 "Unichain" "ETH" ].

(** The arms of the generated matches, in the order of the table. *)
Definition find_network (chain_id : Z) : option Network :=
  List.find (fun n => bool_decide (net_id n = chain_id)) NETWORKS.

Definition get_network_name (chain_id : option Z) : string :=
  match chain_id with
  | Some chain_id =>
      match find_network chain_id with
      | Some n => net_display n
      | None => "Unknown Network (Chain ID: " +:+ show_Z chain_id +:+ ")"
      end
  | None => "Unknown Network"
  end.

Definition get_fee_paying_asset_symbol (chain_id : Z) : option string :=
  net_symbol <$> find_network chain_id.

(** [concat!(stringify!($chain), "_", stringify!($network)).to_uppercase()] *)
Definition canonical_id (n : Network) : string :=
  to_uppercase (net_chain n +:+ "_" +:+ net_name n).

Definition chain_id_to_network_id (chain_id : Z) : option string :=
  canonical_id <$> find_network chain_id.

Definition network_id_to_chain_id (network_id : string) : option Z :=
  let input := to_uppercase network_id in
  net_id <$> List.find (fun n => bool_decide (input = canonical_id n)) NETWORKS.

Definition parse_network (input : string) : option string :=
  match uint_from_str U64_MAX input with
  | Ok chain_id => chain_id_to_network_id chain_id
  | Err _ =>
      chain_id ← network_id_to_chain_id input;
      chain_id_to_network_id chain_id
  end.

Definition extract_chain_id_from_metadata (chain_metadata : option ChainMetadata) : option Z :=
  metadata ← chain_metadata;
  inner ← cm_metadata metadata;
  match inner with
  | EthereumM eth =>
      network_id ← eth_network_id eth;
      network_id_to_chain_id network_id
  | _ => None
  end.

(** ** Facts about amounts *)

Lemma str_contains_app p s t : str_contains p (s +:+ p +:+ t) = true.
Proof.
  induction s as [|c s IH].
  - rewrite str_nil_app. assert (starts_with p (p +:+ t) = true) as E.
    { apply bool_decide_eq_true. by rewrite strip_prefix_app. }
    destruct (p +:+ t); cbn; by rewrite E.
  - rewrite str_cons_app. cbn. rewrite IH. apply orb_true_r.
Qed.

Lemma strip_trailing_app c s t :
  strip_trailing c t ≠ "" → strip_trailing c (s +:+ t) = s +:+ strip_trailing c t.
Proof.
  intros Ht. induction s as [|a s IH]; [done|]. rewrite !str_cons_app. cbn [strip_trailing].
  rewrite IH. rewrite decide_False; [done|]. intros [_ E]. by destruct s.
Qed.

Lemma strip_trailing_last c s t :
  strip_trailing c t = "" → strip_trailing c (s +:+ t) = strip_trailing c s.
Proof.
  intros Ht. induction s as [|a s IH]; [done|]. rewrite !str_cons_app. cbn [strip_trailing].
  by rewrite IH.
Qed.

(** Trimming does nothing to a text that does not contain the character. *)
Lemma strip_trailing_id c s :
  str_all (fun a => negb (bool_decide (a = c))) s = true → strip_trailing c s = s.
Proof.
  induction s as [|a s IH]; [done|]. cbn [str_all strip_trailing].
  intros [Ha Hs]%andb_true_iff. rewrite (IH Hs). apply negb_true_iff, bool_decide_eq_false in Ha.
  rewrite decide_False; naive_solver.
Qed.

Lemma digits_no_dot s :
  str_all is_ascii_digit s = true → strip_trailing "." s = s.
Proof.
  intros Hs. apply strip_trailing_id. revert Hs. apply str_all_impl. intros c. by ascii_cases c.
Qed.

Lemma dec_value_ge acc s :
  (0 ≤ acc)%Z → str_all is_ascii_digit s = true → (acc ≤ dec_value acc s)%Z.
Proof.
  revert acc; induction s as [|c s IH]; intros acc Ha; cbn [str_all dec_value]; [done|].
  intros [Hc Hs]%andb_true_iff. apply andb_true_iff in Hc as [Hc%Nat.leb_le _].
  etrans; [|apply IH; [|done]]; lia.
Qed.

(** Only zeros are trimmed away completely. *)
Lemma strip_trailing_zeros_empty s :
  str_all is_ascii_digit s = true → strip_trailing "0" s = "" ↔ dec_value 0 s = 0%Z.
Proof.
  intros Hs. split.
  - intros E. destruct (strip_trailing_zeros s) as (n & Hn & _).
    rewrite E, str_nil_app in Hn. rewrite Hn, dec_value_zeros. lia.
  - induction s as [|c s IH]; [done|]. cbn [str_all] in Hs.
    apply andb_true_iff in Hs as [Hc Hs]. cbn [dec_value strip_trailing]. intros Hv.
    assert (Z.of_nat (code c) - 48 = 0)%Z as H0.
    { apply andb_true_iff in Hc as [Hc%Nat.leb_le _].
      pose proof (dec_value_ge (10 * 0 + (Z.of_nat (code c) - 48)) s ltac:(lia) Hs). lia. }
    rewrite H0 in Hv. rewrite decide_True; [done|]. split; [|by apply IH].
    apply code_inj. change (code "0") with 48. lia.
Qed.

(** Trimming the digits of an amount gives the text the NEAR parser computes without
    trimming the whole part. *)
Lemma trim_units n d :
  (0 ≤ n → 0 < d →
   trim_trailing_zeros (units_text n d) = fixed_text (Z.to_N n) (10 ^ d) (Z.to_N d))%Z.
Proof.
  intros Hn Hd. unfold trim_trailing_zeros, units_text. rewrite str_contains_app.
  unfold fixed_text. rewrite Z2N.id by lia.
  assert (0 < 10 ^ d)%Z as Hp by (apply Z.pow_pos_nonneg; lia).
  pose proof (Z.mod_pos_bound n _ Hp) as Hm. pose proof (Z.div_pos n _ Hn Hp) as Hq.
  replace (N.to_nat (Z.to_N d)) with (Z.to_nat d) by lia.
  set (f := pad_left (Z.to_nat d) (show_Z (n `mod` 10 ^ d))).
  assert (str_all is_ascii_digit f = true) as Hf
    by (apply pad_left_digits, show_nonneg_digits; lia).
  assert (dec_value 0 f = n `mod` 10 ^ d)%Z as Hv
    by (unfold f; rewrite pad_left_value, dec_value_show by lia; done).
  rewrite str_app_assoc.
  destruct (decide (strip_trailing "0" f = "")) as [E|E].
  - rewrite strip_trailing_last by done. rewrite strip_trailing_app by done.
    rewrite strip_trailing_last by done. rewrite digits_no_dot by (apply show_nonneg_digits; lia).
    apply strip_trailing_zeros_empty in E; [|done]. by rewrite decide_True by lia.
  - rewrite strip_trailing_app by done. rewrite decide_False.
    2: { intros H0. apply E, strip_trailing_zeros_empty; [done|lia]. }
    assert (strip_trailing "." (strip_trailing "0" f) = strip_trailing "0" f) as Hdot
      by by apply digits_no_dot, strip_trailing_all.
    rewrite strip_trailing_app by (by rewrite Hdot). by rewrite Hdot, str_app_assoc.
Qed.

(** Untrimmed, the text stands for the same amount. *)
Lemma read_units_text n d :
  (0 ≤ n → 0 < d → read_units (Z.to_N d) (units_text n d) = n)%Z.
Proof.
  intros Hn Hd. assert (0 < 10 ^ d)%Z as Hp by (apply Z.pow_pos_nonneg; lia).
  pose proof (Z.mod_pos_bound n _ Hp) as Hm. pose proof (Z.div_pos n _ Hn Hp) as Hq.
  unfold read_units, units_text.
  destruct (split_dot_digits (show_Z (n `div` 10 ^ d))
    (pad_left (Z.to_nat d) (show_Z (n `mod` 10 ^ d))) (show_nonneg_digits _ Hq)) as [_ ->].
  rewrite dec_value_show, pad_left_value, dec_value_show by lia.
  assert (String.length (pad_left (Z.to_nat d) (show_Z (n `mod` 10 ^ d))) = Z.to_nat d) as ->.
  { apply pad_left_length. destruct (decide (n `mod` 10 ^ d = 0)%Z) as [->|]; [cbn; lia|].
    apply length_show_Z. rewrite Z2Nat.id by lia. lia. }
  rewrite Z2N.id, Z2Nat.id, Z.sub_diag by lia. pose proof (Z.div_mod n (10 ^ d)). lia.
Qed.

Section amount_facts.
Context {A : AlloyPrimitives}.

Lemma format_ether_text wei : (0 ≤ wei)%Z → format_ether wei = fixed_text (Z.to_N wei) (10 ^ 18) 18.
Proof.
  intros Hw. unfold format_ether, in_units. rewrite unit_eth. cbn [mbind result_bind].
  rewrite format_units_text by lia. by apply trim_units.
Qed.

Lemma format_gwei_text wei : (0 ≤ wei)%Z → format_gwei wei = fixed_text (Z.to_N wei) (10 ^ 9) 9.
Proof.
  intros Hw. unfold format_gwei, in_units. rewrite unit_gwei. cbn [mbind result_bind].
  rewrite format_units_text by lia. by apply trim_units.
Qed.

Lemma read_format_ether wei : (0 ≤ wei)%Z → read_units 18 (format_ether wei) = wei.
Proof.
  intros Hw. rewrite format_ether_text by done. rewrite (read_fixed_text _ 18). lia.
Qed.

Lemma read_format_gwei wei : (0 ≤ wei)%Z → read_units 9 (format_gwei wei) = wei.
Proof.
  intros Hw. rewrite format_gwei_text by done. rewrite (read_fixed_text _ 9). lia.
Qed.
End amount_facts.

(** ** Facts about networks *)

Lemma find_network_Some c n : find_network c = Some n → n ∈ NETWORKS ∧ net_id n = c.
Proof.
  intros H. apply List.find_some in H as [Hin Hb%bool_decide_eq_true]. split; [|done].
  by apply list_elem_of_In.
Qed.

(** The columns of the table have no duplicates, and no name looks like an unknown one. *)
Lemma networks_table :
  NoDup (net_id <$> NETWORKS) ∧ NoDup (net_display <$> NETWORKS) ∧
  NoDup (canonical_id <$> NETWORKS) ∧
  Forall (fun n => starts_with "Unknown" (net_display n) = false) NETWORKS.
Proof. by_decision. Qed.

Lemma NoDup_fmap_inj {T U} (f : T → U) (l : list T) x y :
  NoDup (f <$> l) → x ∈ l → y ∈ l → f x = f y → x = y.
Proof.
  intros Hn Hx Hy E. apply list_elem_of_lookup in Hx as [i Hi], Hy as [j Hj].
  assert (i = j) as ->; [|congruence].
  eapply NoDup_lookup; [done|..]; rewrite list_lookup_fmap; [by rewrite Hi|by rewrite Hj, E].
Qed.

Lemma find_network_id n : n ∈ NETWORKS → find_network (net_id n) = Some n.
Proof.
  intros Hn. destruct (find_network (net_id n)) as [m|] eqn:E.
  - apply find_network_Some in E as [Hm Hid]. f_equal.
    by apply (NoDup_fmap_inj net_id NETWORKS); [apply networks_table|..].
  - apply list_elem_of_In in Hn. apply (List.find_none _ _ E) in Hn.
    by apply bool_decide_eq_false in Hn.
Qed.

Lemma unknown_name_starts c t : starts_with "Unknown" ("Unknown Network (Chain ID: " +:+ show_Z c +:+ t) = true.
Proof. reflexivity. Qed.

(** Distinct chain ids have distinct names, known or not. *)
Lemma get_network_name_inj c c' :
  get_network_name (Some c) = get_network_name (Some c') → c = c'.
Proof.
  destruct networks_table as (_ & Hd & _ & Hu). rewrite Forall_forall in Hu.
  unfold get_network_name.
  destruct (find_network c) as [n|] eqn:En, (find_network c') as [n'|] eqn:En'.
  - apply find_network_Some in En as [Hn <-], En' as [Hn' <-]. intros E.
    f_equal. by apply (NoDup_fmap_inj net_display NETWORKS).
  - apply find_network_Some in En as [Hn _]. intros E. specialize (Hu n Hn).
    by rewrite E, unknown_name_starts in Hu.
  - apply find_network_Some in En' as [Hn _]. intros E. specialize (Hu n' Hn).
    by rewrite <-E, unknown_name_starts in Hu.
  - intros E%(inj (String.append _)). by apply str_app_inj_l, show_Z_inj in E.
Qed.

Lemma to_uppercase_canonical : Forall (fun n => to_uppercase (canonical_id n) = canonical_id n) NETWORKS.
Proof. by_decision. Qed.

(** The name of a network is resolved to its chain id, in any case of its letters. *)
Lemma network_id_lookup n s :
  n ∈ NETWORKS → to_uppercase s = canonical_id n → network_id_to_chain_id s = Some (net_id n).
Proof.
  intros Hn Hs. unfold network_id_to_chain_id. rewrite Hs.
  destruct (List.find _ NETWORKS) as [m|] eqn:E.
  - apply List.find_some in E as [Hm%list_elem_of_In Hb%bool_decide_eq_true]. cbn. do 2 f_equal.
    symmetry. by apply (NoDup_fmap_inj canonical_id NETWORKS); [apply networks_table|..].
  - apply list_elem_of_In in Hn. apply (List.find_none _ _ E) in Hn.
    by apply bool_decide_eq_false in Hn.
Qed.

Lemma network_id_to_chain_id_Some s c :
  network_id_to_chain_id s = Some c →
  ∃ n, n ∈ NETWORKS ∧ net_id n = c ∧ to_uppercase s = canonical_id n.
Proof.
  unfold network_id_to_chain_id. destruct (List.find _ NETWORKS) as [m|] eqn:E; [|done].
  intros [= <-]. apply List.find_some in E as [Hm%list_elem_of_In Hb%bool_decide_eq_true].
  by exists m.
Qed.

Lemma chain_id_to_network_id_Some c s :
  chain_id_to_network_id c = Some s ↔ ∃ n, n ∈ NETWORKS ∧ net_id n = c ∧ s = canonical_id n.
Proof.
  unfold chain_id_to_network_id. split.
  - destruct (find_network c) as [n|] eqn:E; [|done]. intros [= <-].
    apply find_network_Some in E as [Hn Hid]. by exists n.
  - intros (n & Hn & <- & ->). by rewrite find_network_id.
Qed.

(** ** Properties *)

(** An amount of wei is shown as ether and as gwei without losing or adding a unit: the text
    stands for exactly the amount, so two amounts with one text are equal, and it is the text
    the fixed-point formatter of the NEAR parser gives. *)
Theorem wei_shown_exactly (A : AlloyPrimitives) wei :
  (0 ≤ wei)%Z →
  read_units 18 (format_ether wei) = wei ∧ read_units 9 (format_gwei wei) = wei ∧
  format_ether wei = fixed_text (Z.to_N wei) (10 ^ 18) 18 ∧
  format_gwei wei = fixed_text (Z.to_N wei) (10 ^ 9) 9.
Proof.
  intros Hw. split; [by apply read_format_ether|]. split; [by apply read_format_gwei|].
  split; [by apply format_ether_text|by apply format_gwei_text].
Qed.

Lemma wei_shown_exactly_witness :
  let A := alloy_ref in
  format_ether 1500000000000000000 = "1.5" ∧ read_units 18 "1.5" = 1500000000000000000%Z.
Proof.
  intros A. split; [reflexivity|].
  apply (wei_shown_exactly A 1500000000000000000); done.
Defined.

(** Network names are unambiguous: the display name determines the chain id, the canonical
    identifier and the chain id determine each other, and [parse_network] accepts exactly the
    chain ids and the names of the table, returning the canonical identifier. *)
Theorem network_names_exact :
  (∀ c c', get_network_name (Some c) = get_network_name (Some c') → c = c') ∧
  (∀ c s, chain_id_to_network_id c = Some s → network_id_to_chain_id s = Some c) ∧
  (∀ s c, network_id_to_chain_id s = Some c → chain_id_to_network_id c = Some (to_uppercase s)) ∧
  (∀ s t, parse_network s = Some t → parse_network t = Some t).
Proof.
  split; [apply get_network_name_inj|].
  assert (∀ n, n ∈ NETWORKS → network_id_to_chain_id (canonical_id n) = Some (net_id n)) as Hc.
  { intros n Hn. apply network_id_lookup; [done|].
    by apply (proj1 (Forall_forall _ _) to_uppercase_canonical). }
  split; [|split].
  - intros c s (n & Hn & <- & ->)%chain_id_to_network_id_Some. by apply Hc.
  - intros s c (n & Hn & <- & Hs)%network_id_to_chain_id_Some.
    apply chain_id_to_network_id_Some. by exists n.
  - intros s t Hp.
    assert (∃ c, chain_id_to_network_id c = Some t) as [c Hct].
    { unfold parse_network in Hp. destruct (uint_from_str _ s); [by eexists|].
      apply bind_Some in Hp as (c & _ & Hc'). by exists c. }
    apply chain_id_to_network_id_Some in Hct as (n & Hn & _ & ->).
    unfold parse_network. assert (is_ok (uint_from_str U64_MAX (canonical_id n)) = false) as E.
    { clear Hp. revert n Hn. apply Forall_forall. by_decision. }
    destruct (uint_from_str U64_MAX (canonical_id n)); [done|]. rewrite Hc by done. cbn.
    apply chain_id_to_network_id_Some. by exists n.
Qed.
