(* ===== verification/EthRegistry.v ===== *)
(** * Ethereum: contracts, tokens and visualizers

    [token_metadata.rs], [registry.rs], [visualizer.rs] and [context.rs] of
    [chain_parsers/visualsign-ethereum], and the protocols that fill the registries at start:
    [protocols/mod.rs], [protocols/uniswap/mod.rs] and [protocols/uniswap/config.rs]. *)

From S2P Require Import Prelude Panic Json Payload Errors Charset External Encodings DecimalText.
From S2P Require Import Proto Registry Alloy AbiMetadata Builders Lamports PlainText NearText EthFormat.

(** ** Tokens *)

Inductive ErcStandard : Type := Erc20 | Erc721 | Erc1155.

#[export] Instance ErcStandard_eq_dec : EqDecision ErcStandard.
Proof. solve_decision. Defined.

Definition show_erc_standard (s : ErcStandard) : string :=
  match s with Erc20 => "ERC20" | Erc721 => "ERC721" | Erc1155 => "ERC1155" end.

Record TokenMetadata := MkTokenMetadata {
  tok_symbol : string;
  tok_name : string;
  erc_standard : ErcStandard;
  contract_address : string;
  decimals : Z;
}.

(** The wallet format: the network and its tokens by symbol, a [BTreeMap]. *)
Record WalletChainMetadata := MkWalletChainMetadata {
  wallet_network_id : string;
  assets : list (string * TokenMetadata);
}.

(** ** The contract registry *)

Inductive WellKnownAddress : Type := Permit2 | Weth | Usdc.

#[export] Instance WellKnownAddress_eq_dec : EqDecision WellKnownAddress.
Proof. solve_decision. Defined.

Definition well_known_as_str (w : WellKnownAddress) : string :=
  match w with Permit2 => "permit2" | Weth => "weth" | Usdc => "usdc" end.

Definition well_known_of_str (s : string) : option WellKnownAddress :=
  if decide (s = "permit2") then Some Permit2
  else if decide (s = "weth") then Some Weth
  else if decide (s = "usdc") then Some Usdc else None.

#[export] Program Instance WellKnownAddress_countable : Countable WellKnownAddress :=
  inj_countable well_known_as_str well_known_of_str _.
Next Obligation. by intros []. Qed.

Record ContractRegistry := MkContractRegistry {
  address_to_type : gmap (Z * address) string;
  type_to_addresses : gmap (Z * string) (list address);
  token_metadata : gmap (Z * address) TokenMetadata;
  well_known_addresses : gmap (WellKnownAddress * option Z) address;
}.

Definition ContractRegistry_new : ContractRegistry := MkContractRegistry ∅ ∅ ∅ ∅.

(** [rsplit("::").next()] *)
Fixpoint after_last (sep s : string) : string :=
  match s with
  | "" => ""
  | String _ t =>
      match strip_prefix sep s with
      | Some rest => if str_contains sep t then after_last sep t else rest
      | None => if str_contains sep t then after_last sep t else s
      end
  end.

(** A contract type marker is its [type_name]. *)
Definition short_type_id (type_id : string) : string := after_last "::" type_id.

Definition UniswapUniversalRouter : string :=
  "visualsign_ethereum::protocols::uniswap::config::UniswapUniversalRouter".
Definition Permit2Contract : string :=
  "visualsign_ethereum::protocols::uniswap::config::Permit2Contract".

Definition register_contract (chain_id : Z) (contract_type : string) (addresses : list address)
    (r : ContractRegistry) : ContractRegistry :=
  MkContractRegistry
    (foldl (fun m a => <[(chain_id, a) := contract_type]> m) (address_to_type r) addresses)
    (<[(chain_id, contract_type) := addresses]> (type_to_addresses r))
    (token_metadata r) (well_known_addresses r).

Definition register_contract_typed (type_id : string) (chain_id : Z) (addresses : list address)
    (r : ContractRegistry) : ContractRegistry :=
  register_contract chain_id (short_type_id type_id) addresses r.

Definition register_universal_address (w : WellKnownAddress) (a : address)
    (r : ContractRegistry) : ContractRegistry :=
  MkContractRegistry (address_to_type r) (type_to_addresses r) (token_metadata r)
    (<[(w, None) := a]> (well_known_addresses r)).

Definition register_chain_specific_address (w : WellKnownAddress) (chain_id : Z) (a : address)
    (r : ContractRegistry) : ContractRegistry :=
  MkContractRegistry (address_to_type r) (type_to_addresses r) (token_metadata r)
    (<[(w, Some chain_id) := a]> (well_known_addresses r)).

Definition get_contract_type (r : ContractRegistry) (chain_id : Z) (a : address) : option string :=
  address_to_type r !! (chain_id, a).

Definition get_token_symbol (r : ContractRegistry) (chain_id : Z) (token : address)
    : option string := tok_symbol <$> token_metadata r !! (chain_id, token).

(** The iteration order of the [BTreeMap]: by chain, then by the bytes of the address. *)
Definition key_le (k k' : Z * address) : Prop :=
  (k.1 < k'.1)%Z ∨ (k.1 = k'.1 ∧ String.le (str_of_bytes k.2) (str_of_bytes k'.2)).

#[export] Instance key_le_dec : RelDecision key_le.
Proof. intros k k'. unfold key_le. apply _. Defined.

Definition tokens_in_order (r : ContractRegistry) : list (Z * address * TokenMetadata) :=
  merge_sort (fun x y => key_le x.1 y.1) (map_to_list (token_metadata r)).

Definition get_token_erc_standard (r : ContractRegistry) (chain_id : option Z) (token : address)
    : option ErcStandard :=
  let metadata :=
    match chain_id with
    | Some c => token_metadata r !! (c, token)
    | None => snd <$> List.find (fun x => bool_decide (x.1.2 = token)) (tokens_in_order r)
    end in
  erc_standard <$> metadata.

Definition get_well_known_address (r : ContractRegistry) (w : WellKnownAddress) (chain_id : Z)
    : option address :=
  match well_known_addresses r !! (w, Some chain_id) with
  | Some a => Some a
  | None => well_known_addresses r !! (w, None)
  end.

Section registry.
Context {A : AlloyPrimitives}.

(** The registry after the call, and what the call returns. *)
Definition register_token (chain_id : Z) (metadata : TokenMetadata) (r : ContractRegistry)
    : ContractRegistry * result string () :=
  match address_from_str (contract_address metadata) with
  | Ok a =>
      (MkContractRegistry (address_to_type r) (type_to_addresses r)
         (<[(chain_id, a) := metadata]> (token_metadata r)) (well_known_addresses r), Ok ())
  | Err _ => (r, Err ("Invalid contract address: " +:+ contract_address metadata))
  end.

(** [raw_amount] is a [u128] in the one and a [U256] in the other. *)
Definition format_token_amount_u256 (r : ContractRegistry) (chain_id : Z) (token : address)
    (raw_amount : Z) : option (string * string) :=
  metadata ← token_metadata r !! (chain_id, token);
  match format_units raw_amount (decimals metadata) with
  | Ok formatted => Some (formatted, tok_symbol metadata)
  | Err _ => None
  end.

Definition format_token_amount (r : ContractRegistry) (chain_id : Z) (token : address)
    (raw_amount : Z) : option (string * string) :=
  format_token_amount_u256 r chain_id token raw_amount.

(** Registers the tokens in order, collecting the errors. *)
Fixpoint register_assets (chain_id : Z) (tokens : list TokenMetadata) (r : ContractRegistry)
    : ContractRegistry * list string :=
  match tokens with
  | [] => (r, [])
  | t :: tokens =>
      let '(r, res) := register_token chain_id t r in
      let '(r, errors) := register_assets chain_id tokens r in
      (r, match res with Err e => e :: errors | Ok _ => errors end)
  end.

Definition load_chain_metadata (chain_metadata : WalletChainMetadata) (r : ContractRegistry)
    : ContractRegistry * result string () :=
  match network_id_to_chain_id (wallet_network_id chain_metadata) with
  | None => (r, Err ("Unknown network ID: " +:+ wallet_network_id chain_metadata))
  | Some chain_id =>
      let '(r, errors) := register_assets chain_id (assets chain_metadata).*2 r in
      (r, if decide (errors = []) then Ok () else Err (str_join "; " errors))
  end.
End registry.

(** [compute_metadata_hash] *)
Definition compute_metadata_hash `{Sha256} (protobuf_bytes : bytes) : string :=
  hex_of_bytes (sha_256 protobuf_bytes).

(** ** Visualizers *)

(** The implementations of the trait [ContractVisualizer]. *)
Inductive ContractVisualizer : Type :=
| UniversalRouterContractVisualizer
| Permit2ContractVisualizer.

Definition contract_type (v : ContractVisualizer) : string :=
  match v with
  | UniversalRouterContractVisualizer => short_type_id UniswapUniversalRouter
  | Permit2ContractVisualizer => short_type_id Permit2Contract
  end.

(** The builder and the registry hold the same [BTreeMap]. *)
Definition EthereumVisualizerRegistry : Type := list (string * ContractVisualizer).

Definition builder_new : EthereumVisualizerRegistry := [].

Definition register_visualizer (v : ContractVisualizer) (b : EthereumVisualizerRegistry)
    : EthereumVisualizerRegistry * option ContractVisualizer :=
  (btree_insert (contract_type v) v b, assoc (contract_type v) b).

Definition build (b : EthereumVisualizerRegistry) : EthereumVisualizerRegistry := b.

Definition get_visualizer (r : EthereumVisualizerRegistry) (contract_type : string)
    : option ContractVisualizer := assoc contract_type r.

(** The context of a call: [registry] is the one method of the trait [RegistryBackend]. *)
Record VisualizerContext {JsonAbi : Type} := MkVisualizerContext {
  ctx_chain_id : Z;
  ctx_sender : address;
  ctx_current_contract : address;
  ctx_call_depth : nat;
  ctx_calldata : bytes;
  ctx_registry : Z → Z → string;
  ctx_visualizers : EthereumVisualizerRegistry;
  ctx_abi_registry : option (LayeredRegistry (AbiRegistry JsonAbi));
}.
Arguments VisualizerContext : clear implicits.
Arguments MkVisualizerContext {_} _ _ _ _ _ _ _ _.

Section context.
Context {JsonAbi : Type}.

Definition VisualizerContext_new (chain_id : Z) (sender current_contract : address)
    (calldata : bytes) (registry : Z → Z → string) (visualizers : EthereumVisualizerRegistry)
    (abi_registry : option (LayeredRegistry (AbiRegistry JsonAbi))) : VisualizerContext JsonAbi :=
  MkVisualizerContext chain_id sender current_contract 0 calldata registry visualizers
    abi_registry.

Definition for_nested_call (c : VisualizerContext JsonAbi) (current_contract : address)
    (calldata : bytes) : VisualizerContext JsonAbi :=
  MkVisualizerContext (ctx_chain_id c) (ctx_sender c) current_contract (S (ctx_call_depth c))
    calldata (ctx_registry c) (ctx_visualizers c) (ctx_abi_registry c).
End context.

(** ** Uniswap *)

Inductive UniswapConfigError : Type :=
| UnsupportedChain (chain_id : Z)
| InvalidAddress (addr : string).

Definition show_uniswap_config_error (e : UniswapConfigError) : string :=
  match e with
  | UnsupportedChain c => "Unsupported chain ID for Universal Router V1.2: " +:+ show_Z c
  | InvalidAddress a => "Invalid address: " +:+ a
  end.

(** The chain ids of [networks::id]. *)
Definition ethereum_MAINNET : Z := 1.
Definition ethereum_SEPOLIA : Z := 11155111.
Definition optimism_MAINNET : Z := 10.
Definition bsc_MAINNET : Z := 56.
Definition polygon_MAINNET : Z := 137.
Definition worldchain_MAINNET : Z := 480.
Definition base_MAINNET : Z := 8453.
Definition arbitrum_MAINNET : Z := 42161.
Definition celo_MAINNET : Z := 42220.
Definition avalanche_MAINNET : Z := 43114.
Definition blast_MAINNET : Z := 81457.

(** The arms of the match, in order. *)
Definition router_deployments : list (Z * list string) :=
  [ (ethereum_MAINNET,
      ["0x3fC91A3afd70395Cd496C647d5a6CC9D4B2b7FAD"; "0x66a9893cc07d91d95644aedd05d03f95e1dba8af";
       "0x4C82D1fBFe28C977cBB58D8C7FF8FCF9F70a2cCA"; "0xCb640A86855f1A828c27241bA364348de28abe66"]);
    (optimism_MAINNET,
      ["0xCb1355ff08Ab38bBCE60111F1bb2B784bE25D7e8"; "0x851116d9223fabed8e56c0e6b8ad0c31d98b3507";
       "0x8B844f885672f333Bc0042cB669255f93a4C1E6b"]);
    (bsc_MAINNET,
      ["0x4Dae2f939ACf50408e13d58534Ff8c2776d45265"; "0x1906c1d672b88cd1b9ac7593301ca990f94eae07";
       "0x8B844f885672f333Bc0042cB669255f93a4C1E6b"]);
    (polygon_MAINNET,
      ["0xec7BE89e9d109e7e3Fec59c222CF297125FEFda2"; "0x1095692a6237d83c6a72f3f5efedb9a670c49223";
       "0x8B844f885672f333Bc0042cB669255f93a4C1E6b"]);
    (worldchain_MAINNET,
      ["0x7a250d5630B4cF539739dF2C5dAcb4c659F2488D"; "0x8ac7bee993bb44dab564ea4bc9ea67bf9eb5e743";
       "0x8B844f885672f333Bc0042cB669255f93a4C1E6b"]);
    (base_MAINNET,
      ["0x3fC91A3afd70395Cd496C647d5a6CC9D4B2b7FAD"; "0x6ff5693b99212da76ad316178a184ab56d299b43";
       "0xfdf682f51fe81aa4898f0ae2163d8a55c127fbc7"]);
    (arbitrum_MAINNET,
      ["0x5E325eDA8064b456f4781070C0738d849c824258"; "0xa51afafe0263b40edaef0df8781ea9aa03e381a3";
       "0x8B844f885672f333Bc0042cB669255f93a4C1E6b"]);
    (celo_MAINNET,
      ["0x643770e279d5d0733f21d6dc03a8efbabf3255b4"; "0xcb695bc5D3Aa22cAD1E6DF07801b061a05A0233A";
       "0x8B844f885672f333Bc0042cB669255f93a4C1E6b"]);
    (avalanche_MAINNET,
      ["0x4Dae2f939ACf50408e13d58534Ff8c2776d45265"; "0x94b75331ae8d42c1b61065089b7d48fe14aa73b7";
       "0x8B844f885672f333Bc0042cB669255f93a4C1E6b"]);
    (blast_MAINNET,
      ["0x643770E279d5D0733F21d6DC03A8efbABf3255B4"; "0xeabbcb3e8e415306207ef514f660a3f820025be3";
       "0x8B844f885672f333Bc0042cB669255f93a4C1E6b"]);
    (ethereum_SEPOLIA,
      ["0x3fC91A3afd70395Cd496C647d5a6CC9D4B2b7FAD"; "0x3a9d48ab9751398bbfa63ad67599bb04e4bdf98b";
       "0x8B844f885672f333Bc0042cB669255f93a4C1E6b"; "0xB0C89059d7190EDb17eFF19829cc009cEe923916"])
  ].

Definition universal_router_address_strs (chain_id : Z)
    : result UniswapConfigError (list string) :=
  ok_or (UnsupportedChain chain_id)
    (snd <$> List.find (fun row => bool_decide (row.1 = chain_id)) router_deployments).

Definition universal_router_chains : list Z :=
  [ethereum_MAINNET; optimism_MAINNET; bsc_MAINNET; polygon_MAINNET; worldchain_MAINNET;
   base_MAINNET; arbitrum_MAINNET; celo_MAINNET; avalanche_MAINNET; blast_MAINNET;
   ethereum_SEPOLIA].

Definition weth_rows : list (Z * string) :=
  [(ethereum_MAINNET, "0xc02aaa39b223fe8d0a0e5c4f27ead9083c756cc2");
   (optimism_MAINNET, "0x4200000000000000000000000000000000000006");
   (polygon_MAINNET, "0x7ceb23fd6bc0add59e62ac25578270cff1b9f619");
   (base_MAINNET, "0x4200000000000000000000000000000000000006");
   (arbitrum_MAINNET, "0x82af49447d8a07e3bd95bd0d56f35241523fbab1")].

Definition WETH9 (a : string) : TokenMetadata := MkTokenMetadata "WETH" "WETH9" Erc20 a 18.

Definition common_tokens : list (Z * TokenMetadata) :=
  [(ethereum_MAINNET, WETH9 "0xc02aaa39b223fe8d0a0e5c4f27ead9083c756cc2");
   (optimism_MAINNET, WETH9 "0x4200000000000000000000000000000000000006");
   (polygon_MAINNET, WETH9 "0x7ceb23fd6bc0add59e62ac25578270cff1b9f619");
   (base_MAINNET, WETH9 "0x4200000000000000000000000000000000000006");
   (arbitrum_MAINNET, WETH9 "0x82af49447d8a07e3bd95bd0d56f35241523fbab1");
   (ethereum_MAINNET, MkTokenMetadata "USDC" "USD Coin" Erc20
      "0xa0b86991c6218b36c1d19d4a2e9eb0ce3606eb48" 6);
   (ethereum_MAINNET, MkTokenMetadata "USDT" "Tether USD" Erc20
      "0xdac17f958d2ee523a2206206994597c13d831ec7" 6);
   (ethereum_MAINNET, MkTokenMetadata "DAI" "Dai Stablecoin" Erc20
      "0x6b175474e89094c44da98b954eedeac495271d0f" 18);
   (ethereum_MAINNET, MkTokenMetadata "SETH" "SETH" Erc20
      "0xe71bdfe1df69284f00ee185cf0d95d0c7680c0d4" 18)].

(** Code that has no errors of its own, and can only panic. *)
Abbreviation or_panic T := (result (crash False) T).

Section uniswap.
Context {A : AlloyPrimitives}.

(** [parse().expect(..)] *)
Definition expect_ok {E T} (m : result E T) : or_panic T :=
  match m with Ok a => Ok a | Err _ => Err Panic end.

Definition parse_config_address (s : string) : result UniswapConfigError address :=
  map_err (fun _ => InvalidAddress s) (address_from_str s).

Definition universal_router_address (chain_id : Z) : result UniswapConfigError address :=
  strs ← universal_router_address_strs chain_id;
  addr_str ← ok_or (UnsupportedChain chain_id) (head strs);
  parse_config_address addr_str.

Definition universal_router_addresses (chain_id : Z) : result UniswapConfigError (list address) :=
  strs ← universal_router_address_strs chain_id;
  collect_results parse_config_address strs.

Definition permit2_address : or_panic address :=
  expect_ok (address_from_str "0x000000000022d473030f116ddee9f6b43ac78ba3").

Definition weth_address (chain_id : Z) : option address :=
  addr_str ← snd <$> List.find (fun row => bool_decide (row.1 = chain_id)) weth_rows;
  match address_from_str addr_str with Ok a => Some a | Err _ => None end.

(** A loop whose body can panic. *)
Fixpoint for_each {X} (body : X → ContractRegistry → or_panic ContractRegistry)
    (l : list X) (r : ContractRegistry) : or_panic ContractRegistry :=
  match l with
  | [] => Ok r
  | x :: l => r ← body x r; for_each body l r
  end.

Definition register_well_known_addresses (r : ContractRegistry)
    : or_panic ContractRegistry :=
  permit2 ← permit2_address;
  for_each (fun row r =>
      a ← expect_ok (address_from_str row.2);
      Ok (register_chain_specific_address Weth row.1 a r))
    weth_rows (register_universal_address Permit2 permit2 r).

(** The results of the registrations are discarded. *)
Definition register_common_tokens (r : ContractRegistry) : ContractRegistry :=
  foldl (fun r row => (register_token row.1 row.2 r).1) r common_tokens.

Definition uniswap_register (r : ContractRegistry) (b : EthereumVisualizerRegistry)
    : or_panic (ContractRegistry * EthereumVisualizerRegistry) :=
  r ← for_each (fun chain_id r =>
          addrs ← expect_ok (universal_router_addresses chain_id);
          Ok (register_contract_typed UniswapUniversalRouter chain_id addrs r))
        universal_router_chains r;
  permit2 ← permit2_address;
  let r := foldl (fun r chain_id => register_contract_typed Permit2Contract chain_id [permit2] r)
             r universal_router_chains in
  r ← register_well_known_addresses r;
  let r := register_common_tokens r in
  let b := (register_visualizer UniversalRouterContractVisualizer b).1 in
  Ok (r, (register_visualizer Permit2ContractVisualizer b).1).

Definition register_all (r : ContractRegistry) (b : EthereumVisualizerRegistry)
    : or_panic (ContractRegistry * EthereumVisualizerRegistry) := uniswap_register r b.

Definition with_default_protocols
    : or_panic (ContractRegistry * EthereumVisualizerRegistry) :=
  register_all ContractRegistry_new builder_new.
End uniswap.

(** ** Facts: the default registry *)

(** Every parser that satisfies the interface reads well-formed literals in the same way. *)
Lemma literal_address {A : AlloyPrimitives} s :
  is_ok (alloy_address s) = true → address_from_str s = alloy_address s.
Proof.
  unfold alloy_address. destruct (strip_prefix "0x" s) as [t|] eqn:Et; [|done].
  apply strip_prefix_Some in Et as ->. destruct (hex_decode_ref t) as [a|e] eqn:Ea; [|done].
  case_decide; [|done]. intros _. by apply address_from_hex.
Qed.

Lemma for_each_ext {X} (f g : X → ContractRegistry → or_panic ContractRegistry) l r :
  Forall (fun x => ∀ r, f x r = g x r) l → for_each f l r = for_each g l r.
Proof.
  intros Hl. revert r. induction Hl as [|x l Hx _ IH]; intros r; cbn; [done|].
  rewrite Hx. destruct (g x r); cbn; [apply IH|done].
Qed.

Lemma router_literals :
  Forall (fun row => Forall (fun s => is_ok (alloy_address s) = true) row.2) router_deployments.
Proof. by_decision. Qed.

Lemma weth_literals : Forall (fun row => is_ok (alloy_address row.2) = true) weth_rows.
Proof. by_decision. Qed.

Lemma token_literals :
  Forall (fun row => is_ok (alloy_address (contract_address row.2)) = true) common_tokens.
Proof. by_decision. Qed.

Lemma universal_router_addresses_ref {A : AlloyPrimitives} c :
  universal_router_addresses c = universal_router_addresses (A := alloy_ref) c.
Proof.
  unfold universal_router_addresses, universal_router_address_strs.
  destruct (List.find _ router_deployments) as [row|] eqn:E; [|done].
  apply List.find_some in E as [Hin _]. cbn [ok_or fmap option_fmap option_map mbind result_bind].
  apply collect_results_ext. pose proof router_literals as Hl.
  rewrite Forall_forall in Hl. apply list_elem_of_In, Hl in Hin.
  eapply Forall_impl; [exact Hin|]. intros s Hs. unfold parse_config_address.
  by rewrite literal_address by done.
Qed.

Lemma permit2_address_ref {A : AlloyPrimitives} :
  permit2_address = permit2_address (A := alloy_ref).
Proof. unfold permit2_address. by rewrite literal_address by (vm_compute; reflexivity). Qed.

Lemma weth_address_ref {A : AlloyPrimitives} c :
  weth_address c = weth_address (A := alloy_ref) c.
Proof.
  unfold weth_address. destruct (List.find _ weth_rows) as [row|] eqn:E; [|done].
  apply List.find_some in E as [Hin _]. cbn.
  pose proof weth_literals as Hl. rewrite Forall_forall in Hl.
  apply list_elem_of_In, Hl in Hin. by rewrite literal_address by done.
Qed.

Lemma register_well_known_ref {A : AlloyPrimitives} r :
  register_well_known_addresses r = register_well_known_addresses (A := alloy_ref) r.
Proof.
  unfold register_well_known_addresses. rewrite permit2_address_ref.
  destruct (permit2_address (A := alloy_ref)) as [p|]; [|done]. cbn [mbind result_bind].
  apply for_each_ext. eapply Forall_impl; [apply weth_literals|]. intros row Hrow r'.
  by rewrite literal_address by done.
Qed.

Lemma register_common_ref {A : AlloyPrimitives} r :
  register_common_tokens r = register_common_tokens (A := alloy_ref) r.
Proof.
  unfold register_common_tokens. revert r.
  assert (∀ l, Forall (fun row => is_ok (alloy_address (contract_address row.2)) = true) l →
    ∀ r, foldl (fun r row => (register_token row.1 row.2 r).1) r l =
         foldl (fun r row => (register_token (A := alloy_ref) row.1 row.2 r).1) r l) as Hf;
    [|apply Hf, token_literals].
  induction 1 as [|row l Hrow _ IH]; intros r; cbn [foldl]; [done|]. rewrite IH.
  unfold register_token. by rewrite literal_address by done.
Qed.

Lemma with_default_protocols_ref {A : AlloyPrimitives} :
  with_default_protocols = with_default_protocols (A := alloy_ref).
Proof.
  unfold with_default_protocols, register_all, uniswap_register.
  rewrite (for_each_ext _ (fun chain_id r =>
    addrs ← expect_ok (universal_router_addresses (A := alloy_ref) chain_id);
    Ok (register_contract_typed UniswapUniversalRouter chain_id addrs r))).
  2: { apply Forall_forall. intros c _ r. by rewrite universal_router_addresses_ref. }
  destruct (for_each _ _ _) as [r|]; [|done]. cbn [mbind result_bind].
  rewrite permit2_address_ref. destruct (permit2_address (A := alloy_ref)) as [p|]; [|done].
  cbn [mbind result_bind]. rewrite register_well_known_ref.
  destruct (register_well_known_addresses (A := alloy_ref) _) as [r'|]; [|done].
  cbn [mbind result_bind]. by rewrite register_common_ref.
Qed.

Definition registry_of
    (m : or_panic (ContractRegistry * EthereumVisualizerRegistry))
    : ContractRegistry * EthereumVisualizerRegistry :=
  match m with Ok x => x | Err _ => (ContractRegistry_new, builder_new) end.

(** The registry of a started process, as the reference parser computes it. *)
Definition default_registry : ContractRegistry * EthereumVisualizerRegistry :=
  registry_of (with_default_protocols (A := alloy_ref)).

Lemma with_default_protocols_Ok {A : AlloyPrimitives} :
  with_default_protocols = Ok default_registry.
Proof.
  rewrite with_default_protocols_ref. unfold default_registry.
  assert (is_ok (with_default_protocols (A := alloy_ref)) = true) as H
    by (vm_compute; reflexivity).
  by destruct (with_default_protocols (A := alloy_ref)).
Qed.

(** The keys of the registered tokens. *)
Definition token_keys (r : ContractRegistry) : list (Z * address) := (map_to_list (token_metadata r)).*1.

Lemma elem_of_token_keys r k : k ∈ token_keys r ↔ is_Some (token_metadata r !! k).
Proof.
  unfold token_keys. rewrite list_elem_of_fmap. split.
  - intros ([k' t] & -> & Hk%elem_of_map_to_list). by exists t.
  - intros [t Ht]. exists (k, t). split; [done|]. by apply elem_of_map_to_list.
Qed.

(** No registered token is a registered contract, on its own or another chain. *)
Definition tokens_apart (r : ContractRegistry) : bool :=
  forallb (fun k => forallb (fun k' => negb (bool_decide (k.2 = k'.2)))
                      (map_to_list (address_to_type r)).*1)
    (token_keys r).

Lemma tokens_apart_contract r c c' a :
  tokens_apart r = true → is_Some (token_metadata r !! (c, a)) → get_contract_type r c' a = None.
Proof.
  unfold tokens_apart. intros H Ht%elem_of_token_keys. unfold get_contract_type.
  destruct (address_to_type r !! (c', a)) as [ty|] eqn:E; [|done].
  rewrite forallb_forall in H. apply list_elem_of_In in Ht. specialize (H _ Ht).
  rewrite forallb_forall in H. specialize (H (c', a)). cbn in H.
  rewrite bool_decide_true in H by done. discriminate H.
  apply list_elem_of_In, list_elem_of_fmap.
  exists (c', a, ty). split; [done|]. by apply elem_of_map_to_list.
Qed.

Lemma default_tokens_apart : tokens_apart default_registry.1 = true.
Proof. vm_compute. reflexivity. Qed.

Lemma elem_of_tokens_in_order r k t : (k, t) ∈ tokens_in_order r ↔ token_metadata r !! k = Some t.
Proof. unfold tokens_in_order. by rewrite merge_sort_Permutation, elem_of_map_to_list. Qed.

(** Without a chain id, a token of any chain is recognised. *)
Lemma erc_standard_any_chain r a :
  is_Some (get_token_erc_standard r None a) ↔ ∃ c, is_Some (token_metadata r !! (c, a)).
Proof.
  unfold get_token_erc_standard. rewrite fmap_is_Some, fmap_is_Some.
  destruct (List.find _ _) as [[[c a'] t]|] eqn:E.
  - apply List.find_some in E as [Hin%list_elem_of_In Hb%bool_decide_eq_true]. cbn in Hb. subst a'.
    apply elem_of_tokens_in_order in Hin. split; [|by eexists]. intros _. by exists c, t.
  - split; [by intros []|]. intros (c & t & Ht).
    apply elem_of_tokens_in_order, list_elem_of_In in Ht.
    apply (List.find_none _ _ E) in Ht. by apply bool_decide_eq_false in Ht.
Qed.

Lemma erc_standard_on_chain r c a :
  is_Some (get_token_erc_standard r (Some c) a) ↔ is_Some (token_metadata r !! (c, a)).
Proof. unfold get_token_erc_standard. by rewrite fmap_is_Some. Qed.

(** ** Facts: registration *)

Section registration.
Context {A : AlloyPrimitives}.

(** The token that a list of registrations leaves at an address: the last one. *)
Fixpoint last_token (tokens : list TokenMetadata) (a : address) : option TokenMetadata :=
  match tokens with
  | [] => None
  | t :: tokens =>
      match last_token tokens a with
      | Some t' => Some t'
      | None => if decide (address_from_str (contract_address t) = Ok a) then Some t else None
      end
  end.

Lemma register_assets_lookup c tokens r c' a :
  token_metadata (register_assets c tokens r).1 !! (c', a) =
  match (if decide (c' = c) then last_token tokens a else None) with
  | Some t => Some t
  | None => token_metadata r !! (c', a)
  end.
Proof.
  revert r. induction tokens as [|t tokens IH]; intros r; cbn [register_assets last_token].
  { by case_decide. }
  unfold register_token.
  destruct (address_from_str (contract_address t)) as [b|e] eqn:Eb.
  - set (r1 := MkContractRegistry _ _ _ _). specialize (IH r1).
    destruct (register_assets c tokens r1) as [r2 errs]. cbn [fst] in *. rewrite IH.
    subst r1. cbn [token_metadata]. destruct (decide (c' = c)) as [->|Hc].
    + destruct (last_token tokens a); [done|]. case_decide as Ha.
      * simplify_eq. by rewrite lookup_insert_eq.
      * rewrite lookup_insert_ne by congruence. done.
    + rewrite lookup_insert_ne by congruence. done.
  - specialize (IH r). destruct (register_assets c tokens r) as [r2 errs]. cbn [fst] in *.
    rewrite IH. case_decide; [|done]. destruct (last_token tokens a); [done|].
    by rewrite decide_False by congruence.
Qed.

Lemma register_assets_errors c tokens r :
  (register_assets c tokens r).2 =
  (fun t => "Invalid contract address: " +:+ contract_address t) <$>
    filter (fun t => is_ok (address_from_str (contract_address t)) = false) tokens.
Proof.
  revert r. induction tokens as [|t tokens IH]; intros r; cbn [register_assets]; [done|].
  unfold register_token. rewrite filter_cons.
  destruct (address_from_str (contract_address t)) as [b|e] eqn:Eb; cbn [is_ok].
  - rewrite decide_False by done. rewrite <-(IH (MkContractRegistry (address_to_type r)
      (type_to_addresses r) (<[(c, b):=t]> (token_metadata r)) (well_known_addresses r))).
    by destruct (register_assets _ _ _).
  - rewrite decide_True by done. rewrite fmap_cons, <-(IH r). by destruct (register_assets _ _ _).
Qed.

End registration.

(** ** Properties *)

(** The routers of a chain, as the default registry types them. *)
Definition routers_typed (r : ContractRegistry) (b : EthereumVisualizerRegistry) (c : Z) : bool :=
  match universal_router_addresses (A := alloy_ref) c, permit2_address (A := alloy_ref) with
  | Ok addrs, Ok p =>
      forallb (fun a => bool_decide (get_contract_type r c a = Some "UniswapUniversalRouter"))
        addrs && bool_decide (get_contract_type r c p = Some "Permit2Contract")
  | _, _ => false
  end.

Lemma default_routers_typed :
  forallb (routers_typed default_registry.1 default_registry.2) universal_router_chains = true.
Proof. vm_compute. reflexivity. Qed.

(** Start-up cannot panic: whatever the address parser does beyond reading well-formed hex,
    the registry is the same. It dispatches every router and Permit2 on every supported chain
    to its own visualizer, and none of its tokens is dispatched to a protocol. *)
Theorem default_protocols_sound (A : AlloyPrimitives) :
  with_default_protocols = Ok default_registry ∧
  (∀ c addrs a, c ∈ universal_router_chains → universal_router_addresses c = Ok addrs →
     a ∈ addrs → get_contract_type default_registry.1 c a = Some "UniswapUniversalRouter") ∧
  (∀ c p, c ∈ universal_router_chains → permit2_address = Ok p →
     get_contract_type default_registry.1 c p = Some "Permit2Contract") ∧
  get_visualizer default_registry.2 "UniswapUniversalRouter"
    = Some UniversalRouterContractVisualizer ∧
  get_visualizer default_registry.2 "Permit2Contract" = Some Permit2ContractVisualizer ∧
  (∀ c c' a, is_Some (token_metadata default_registry.1 !! (c, a)) →
     get_contract_type default_registry.1 c' a = None).
Proof.
  pose proof default_routers_typed as Ht. rewrite forallb_forall in Ht.
  assert (∀ c, c ∈ universal_router_chains →
    routers_typed default_registry.1 default_registry.2 c = true) as Hr
    by (intros c Hc%list_elem_of_In; by apply Ht).
  clear Ht. unfold routers_typed in Hr.
  split; [apply with_default_protocols_Ok|]. split; [|split].
  - intros c addrs a Hc Ha Hin. specialize (Hr c Hc).
    rewrite <-universal_router_addresses_ref, Ha in Hr.
    destruct (permit2_address (A := alloy_ref)); [|done].
    apply andb_true_iff in Hr as [Hr _]. rewrite forallb_forall in Hr.
    apply list_elem_of_In, Hr, bool_decide_eq_true in Hin. done.
  - intros c p Hc Hp. specialize (Hr c Hc). rewrite permit2_address_ref in Hp. rewrite Hp in Hr.
    destruct (universal_router_addresses (A := alloy_ref) c); [|done].
    apply andb_true_iff in Hr as [_ Hr%bool_decide_eq_true]. done.
  - split; [vm_compute; reflexivity|]. split; [vm_compute; reflexivity|].
    intros c c' a. apply tokens_apart_contract, default_tokens_apart.
Qed.

(** Loading the tokens of a wallet: an unknown network changes nothing; otherwise every token
    with a valid address is registered on that network, the last one winning, nothing else
    changes, and the call fails exactly when some address is invalid, naming each of them. *)
Theorem load_chain_metadata_exact (A : AlloyPrimitives) m r :
  match network_id_to_chain_id (wallet_network_id m) with
  | None => load_chain_metadata m r = (r, Err ("Unknown network ID: " +:+ wallet_network_id m))
  | Some c =>
      (∀ c' a, token_metadata (load_chain_metadata m r).1 !! (c', a) =
         match (if decide (c' = c) then last_token (assets m).*2 a else None) with
         | Some t => Some t
         | None => token_metadata r !! (c', a)
         end) ∧
      let bad := filter (fun t => is_ok (address_from_str (contract_address t)) = false)
                   (assets m).*2 in
      (load_chain_metadata m r).2 =
        if decide (bad = []) then Ok ()
        else Err (str_join "; " ((fun t => "Invalid contract address: " +:+ contract_address t)
                                 <$> bad))
  end.
Proof.
  unfold load_chain_metadata. destruct (network_id_to_chain_id _) as [c|]; [|done].
  pose proof (register_assets_lookup c (assets m).*2 r) as Hl.
  pose proof (register_assets_errors c (assets m).*2 r) as He.
  destruct (register_assets c (assets m).*2 r) as [r' errs]. cbn [fst snd] in *.
  split; [done|]. cbv zeta. rewrite He.
  destruct (filter _ _) as [|t bad]; [done|]. by rewrite !decide_False by done.
Qed.

(** The amount of a registered token is shown in full: the text carries every decimal of
    the token and stands for exactly the raw amount, at any 256-bit width. *)
Theorem token_amount_exact (A : AlloyPrimitives) r c a n t :
  (0 ≤ n)%Z → token_metadata r !! (c, a) = Some t → (0 < decimals t ≤ 77)%Z →
  ∃ text, format_token_amount_u256 r c a n = Some (text, tok_symbol t) ∧
    read_units (Z.to_N (decimals t)) text = n.
Proof.
  intros Hn Ht Hd. unfold format_token_amount_u256. rewrite Ht. cbn.
  rewrite format_units_text by lia. exists (units_text n (decimals t)). split; [done|].
  apply read_units_text; lia.
Qed.

Definition usdc : address :=
  match alloy_address "0xa0b86991c6218b36c1d19d4a2e9eb0ce3606eb48" with Ok a => a | Err _ => [] end.

(** The text is not trimmed: the number of digits is that of the token. *)
Lemma token_amount_exact_witness :
  let A := alloy_ref in
  format_token_amount_u256 default_registry.1 1 usdc 1500000 = Some ("1.500000", "USDC") ∧
  ∃ text, format_token_amount_u256 default_registry.1 1 usdc 1500000 = Some (text, "USDC") ∧
    read_units 6 text = 1500000%Z.
Proof.
  intros A. split; [vm_compute; reflexivity|].
  refine (token_amount_exact A default_registry.1 1 usdc 1500000
    (MkTokenMetadata "USDC" "USD Coin" Erc20 "0xa0b86991c6218b36c1d19d4a2e9eb0ce3606eb48" 6)
    ltac:(lia) _ ltac:(cbn; lia)).
  vm_compute. reflexivity.
Defined.
