(* ===== verification/SolCalls.v ===== *)
(** * Solidity calls

    What the parser uses of the decoders that alloy generates from Solidity interfaces
    ([sol!]) and of its runtime ABI decoder ([alloy_json_abi], [alloy_dyn_abi]). A generated
    call has a selector and a codec that reads back what it writes; the dynamic decoder
    reads a tuple of values. Instances with a word-based encoding show that the laws hold
    together. *)

From S2P Require Import Prelude Json External Encodings Alloy.

#[local] Unset Program Cases.

(** ** Generated calls *)

(** A call with arguments [C]; the codec is only promised to read back arguments that fit
    their Solidity types, [wf]. [abi_decode] does not reject data behind the arguments. *)
Record SolCall {C : Type} (wf : C → Prop) := MkSolCall {
  SELECTOR : bytes;
  abi_decode : bytes → result string C;
  abi_encode : C → bytes;
  selector_length : length SELECTOR = 4;
  abi_decode_selector input c : abi_decode input = Ok c → take 4 input = SELECTOR;
  abi_encode_selector c : take 4 (abi_encode c) = SELECTOR;
  abi_decode_encode c : wf c → abi_decode (abi_encode c) = Ok c;
}.
Arguments SELECTOR {C wf} _.
Arguments abi_decode {C wf} _ _.
Arguments abi_encode {C wf} _ _.
Arguments selector_length {C wf} _.
Arguments abi_decode_selector {C wf} _ _ _ _.
Arguments abi_encode_selector {C wf} _ _.
Arguments abi_decode_encode {C wf} _ _ _.

(** A value without a selector. *)
Record SolValue {C : Type} (wf : C → Prop) := MkSolValue {
  value_decode : bytes → result string C;
  value_encode : C → bytes;
  value_decode_encode c : wf c → value_decode (value_encode c) = Ok c;
}.
Arguments value_decode {C wf} _ _.
Arguments value_encode {C wf} _ _.
Arguments value_decode_encode {C wf} _ _ _.

(** Values of the Solidity types. *)
Definition is_address (a : address) : Prop := length a = 20.
Definition is_uint (bits : Z) (n : Z) : Prop := (0 ≤ n < 2 ^ bits)%Z.

(** ** A word-based encoding *)

Definition word (z : Z) : bytes := be_bytes 32 z.

Definition word_value (bs : bytes) : Z := le_val (reverse bs).

Fixpoint words_of (fuel : nat) (bs : bytes) : option (list Z) :=
  match fuel with
  | O => if decide (bs = []) then Some [] else None
  | S fuel =>
      if decide (bs = []) then Some []
      else if decide (length bs < 32) then None
      else ws ← words_of fuel (drop 32 bs); Some (word_value (take 32 bs) :: ws)
  end.

Definition encode_words (ws : list Z) : bytes := mjoin (word <$> ws).

Lemma encode_words_cons w ws : encode_words (w :: ws) = word w ++ encode_words ws.
Proof. done. Qed.

Lemma length_word z : length (word z) = 32.
Proof. apply length_be_bytes. Qed.

Lemma word_value_word z : is_uint 256 z → word_value (word z) = z.
Proof.
  intros Hz. unfold word_value, word, be_bytes. rewrite reverse_involutive, le_val_le_bytes.
  apply Z.mod_small. exact Hz.
Qed.

Lemma words_of_encode ws fuel :
  length ws ≤ fuel → Forall (is_uint 256) ws → words_of fuel (encode_words ws) = Some ws.
Proof.
  revert fuel. induction ws as [|w ws IH]; intros fuel Hf Hw; [by destruct fuel|].
  destruct fuel as [|fuel]; [cbn in Hf; lia|]. apply Forall_cons in Hw as [Hw Hws].
  rewrite encode_words_cons. cbn [words_of].
  assert (length (word w ++ encode_words ws) = 32 + length (encode_words ws)) as Hl
    by (by rewrite length_app, length_word).
  rewrite decide_False by (intros E; rewrite E in Hl; cbn in Hl; lia).
  rewrite decide_False by lia. rewrite drop_app_length', take_app_length' by exact (length_word w).
  rewrite IH by (cbn in Hf; try done; lia). cbn [mbind option_bind]. by rewrite word_value_word.
Qed.

Lemma length_encode_words ws : length (encode_words ws) = 32 * length ws.
Proof.
  induction ws as [|w ws IH]; [done|].
  rewrite encode_words_cons, length_app, length_word, IH. cbn [length]. lia.
Qed.

Definition decode_words (bs : bytes) : option (list Z) := words_of (length bs) bs.

Lemma decode_encode_words ws :
  Forall (is_uint 256) ws → decode_words (encode_words ws) = Some ws.
Proof. intros. apply words_of_encode; [rewrite length_encode_words; lia|done]. Qed.

(** Arguments as words, and back. *)
Record WordCodec {C : Type} (wf : C → Prop) := MkWordCodec {
  to_words : C → list Z;
  of_words : list Z → option C;
  to_words_range c : wf c → Forall (is_uint 256) (to_words c);
  of_to_words c : wf c → of_words (to_words c) = Some c;
}.
Arguments to_words {C wf} _ _.
Arguments of_words {C wf} _ _.
Arguments to_words_range {C wf} _ _ _.
Arguments of_to_words {C wf} _ _ _.

Program Definition word_value_codec {C} {wf : C → Prop} (k : WordCodec wf) : SolValue wf :=
  {| value_decode bs :=
       match decode_words bs ≫= of_words k with Some c => Ok c | None => Err "decode" end;
     value_encode c := encode_words (to_words k c) |}.
Next Obligation.
  intros C wf k c Hc. cbv beta. rewrite decode_encode_words by by apply to_words_range.
  cbn [mbind option_bind]. by rewrite of_to_words.
Qed.

Program Definition word_call {C} {wf : C → Prop} (sel : bytes) (Hsel : length sel = 4)
    (k : WordCodec wf) : SolCall wf :=
  {| SELECTOR := sel;
     abi_decode input :=
       if decide (take 4 input = sel)
       then value_decode (word_value_codec k) (drop 4 input) else Err "selector";
     abi_encode c := sel ++ value_encode (word_value_codec k) c |}.
Next Obligation. done. Qed.
Next Obligation. intros C wf sel Hsel k input c. cbv beta. by case_decide. Qed.
Next Obligation. intros C wf sel Hsel k c. cbv beta. by rewrite take_app_length'. Qed.
Next Obligation.
  intros C wf sel Hsel k c Hc. cbv beta. rewrite take_app_length', drop_app_length' by done.
  rewrite decide_True by done. by apply value_decode_encode.
Qed.

(** An address in the low bytes of a word. *)
Definition address_word (a : address) : Z := le_val (reverse a).
Definition word_address (z : Z) : address := be_bytes 20 z.

Lemma word_address_word a : is_address a → word_address (address_word a) = a.
Proof.
  intros Ha. unfold word_address, address_word, be_bytes.
  assert (length (reverse a) = 20) as Hl by (by rewrite length_reverse).
  rewrite <-Hl, le_bytes_le_val. apply reverse_involutive.
Qed.

Lemma address_word_range a : is_address a → is_uint 256 (address_word a).
Proof.
  intros Ha. unfold is_uint, address_word. pose proof (le_val_range (reverse a)) as H.
  rewrite length_reverse, Ha in H.
  assert (256 ^ Z.of_nat 20 < 2 ^ 256)%Z by (vm_compute; reflexivity). lia.
Qed.

Lemma is_uint_weaken b n : (0 ≤ b ≤ 256)%Z → is_uint b n → is_uint 256 n.
Proof.
  unfold is_uint. intros Hb Hn. split; [lia|].
  apply Z.lt_le_trans with (2 ^ b)%Z; [lia|]. apply Z.pow_le_mono_r; lia.
Qed.

(** ** The dynamic decoder *)

Unset Elimination Schemes.
Inductive DynSolValue : Type :=
| SolAddress (a : address)
| SolUint (v : Z) (bits : Z)
| SolInt (v : Z) (bits : Z)
| SolBool (b : bool)
| SolBytes (b : bytes)
| SolFixedBytes (b : bytes) (size : Z)
| SolString (s : string)
| SolArray (values : list DynSolValue)
| SolFixedArray (values : list DynSolValue)
| SolTuple (values : list DynSolValue)
| SolFunction (f : bytes).
Set Elimination Schemes.

(** A function of an ABI and its parameters. *)
Record Param := MkParam { param_name : string; param_ty : string }.
Record Function := MkFunction { fn_name : string; fn_inputs : list Param }.

Class AlloyAbi : Type := {
  JsonAbi : Type;
  (** [functions()], [selector()] *)
  functions : JsonAbi → list Function;
  fn_selector : Function → bytes;
  (** [DynSolType::parse], and [DynSolType::Tuple(..).abi_decode(..)] *)
  DynSolType : Type;
  type_parse : string → result string DynSolType;
  tuple_decode : list DynSolType → bytes → result string DynSolValue;
  fn_selector_length f : length (fn_selector f) = 4;
  tuple_decode_shape ts bs v :
    tuple_decode ts bs = Ok v → ∃ vs, v = SolTuple vs ∧ length vs = length ts;
}.

(** An ABI of functions of words, each selected by its name. *)
Definition name_selector (f : Function) : bytes :=
  take 4 (as_bytes (fn_name f) ++ replicate 4 Byte.x00).

Program Definition abi_toy : AlloyAbi :=
  {| JsonAbi := list Function;
     functions := id;
     fn_selector := name_selector;
     DynSolType := ();
     type_parse s := if decide (s = "uint256") then Ok () else Err "unknown type";
     tuple_decode ts bs :=
       match decode_words bs with
       | Some ws =>
           if decide (length ws = length ts)
           then Ok (SolTuple ((fun w => SolUint w 256) <$> ws)) else Err "length"
       | None => Err "words"
       end |}.
Next Obligation.
  intros f. unfold name_selector. rewrite length_take, length_app, length_replicate. lia.
Qed.
Next Obligation.
  intros ts bs v. cbv beta. destruct (decode_words bs) as [ws|]; [|done]. case_decide; [|done].
  intros [= <-]. eexists. split; [done|]. by rewrite length_fmap.
Qed.
