(* ===== verification/EthContracts.v ===== *)
(** * Ethereum: token standards and dynamic ABIs

    [contracts/core] of [chain_parsers/visualsign-ethereum], the visualizers of ERC-20,
    ERC-721 and ERC-1155 calls, of calls with a caller-supplied ABI and of unknown calls, and
    [abi_decoder.rs]. The decoders of the calls are those of [SolCalls]. *)

From S2P Require Import Prelude Json Payload Errors Charset External Encodings Builders Alloy SolCalls.

(** ** Fields *)

(** A preview whose title is its label and whose subtitle is its fallback text. *)
Definition preview (label subtitle : string) (expanded : option SignablePayloadFieldListLayout)
    : SignablePayloadField :=
  PreviewLayout (Common subtitle label)
    (FieldPreviewLayout (Some (FieldTextV2 label)) (Some (FieldTextV2 subtitle)) None expanded).

(** ** The fallback *)

Definition visualize_hex `{HexCodec} (input : bytes) : SignablePayloadField :=
  let hex_data := match input with [] => "0x" | _ => "0x" +:+ hex_encode input end in
  text_v2 "Input Data" hex_data.

(** ** ERC-20 *)

Record transferCall := MkTransfer { transfer_to : address; transfer_amount : Z }.
Record transferFromCall := MkTransferFrom {
  transfer_from_from : address;
  transfer_from_to : address;
  transfer_from_amount : Z;
}.
Record approveCall := MkApprove { approve_spender : address; approve_amount : Z }.
Record balanceOfCall := MkBalanceOf { balance_of_account : address }.
Record allowanceCall := MkAllowance { allowance_owner : address; allowance_spender : address }.

Definition transfer_wf (c : transferCall) : Prop :=
  is_address (transfer_to c) ∧ is_uint 256 (transfer_amount c).
Definition transfer_from_wf (c : transferFromCall) : Prop :=
  is_address (transfer_from_from c) ∧ is_address (transfer_from_to c) ∧
  is_uint 256 (transfer_from_amount c).
Definition approve_wf (c : approveCall) : Prop :=
  is_address (approve_spender c) ∧ is_uint 256 (approve_amount c).
Definition balance_of_wf (c : balanceOfCall) : Prop := is_address (balance_of_account c).
Definition allowance_wf (c : allowanceCall) : Prop :=
  is_address (allowance_owner c) ∧ is_address (allowance_spender c).
Definition no_args_wf (_ : ()) : Prop := True.

(** The interface [IERC20]; its selectors differ. *)
Class IERC20 : Type := {
  transfer : SolCall transfer_wf;
  transferFrom : SolCall transfer_from_wf;
  approve : SolCall approve_wf;
  balanceOf : SolCall balance_of_wf;
  allowance : SolCall allowance_wf;
  name_ : SolCall no_args_wf;
  symbol : SolCall no_args_wf;
  decimals_ : SolCall no_args_wf;
  totalSupply : SolCall no_args_wf;
  erc20_selectors :
    NoDup [SELECTOR transfer; SELECTOR transferFrom; SELECTOR approve; SELECTOR balanceOf;
           SELECTOR allowance; SELECTOR name_; SELECTOR symbol; SELECTOR decimals_;
           SELECTOR totalSupply];
}.

Section erc20.
Context {A : AlloyPrimitives} {I : IERC20}.

Definition render_transfer (c : transferCall) : SignablePayloadField :=
  preview "ERC20 Transfer"
    ("Transfer " +:+ show_Z (transfer_amount c) +:+ " tokens to "
     +:+ debug_address (transfer_to c))
    (Some (list_layout [address_v2 "Recipient" (debug_address (transfer_to c));
                        amount_v2 "Amount" (show_Z (transfer_amount c))])).

Definition render_transfer_from (c : transferFromCall) : SignablePayloadField :=
  preview "ERC20 TransferFrom"
    ("Transfer " +:+ show_Z (transfer_from_amount c) +:+ " tokens from "
     +:+ debug_address (transfer_from_from c) +:+ " to " +:+ debug_address (transfer_from_to c))
    (Some (list_layout [address_v2 "Sender" (debug_address (transfer_from_from c));
                        address_v2 "Recipient" (debug_address (transfer_from_to c));
                        amount_v2 "Amount" (show_Z (transfer_from_amount c))])).

Definition render_approve (c : approveCall) : SignablePayloadField :=
  preview "ERC20 Approve"
    ("Approve " +:+ debug_address (approve_spender c) +:+ " to spend "
     +:+ show_Z (approve_amount c) +:+ " tokens")
    (Some (list_layout [address_v2 "Spender" (debug_address (approve_spender c));
                        amount_v2 "Amount" (show_Z (approve_amount c))])).

Definition render_balance_of (c : balanceOfCall) : SignablePayloadField :=
  preview "ERC20 BalanceOf" ("Query balance of " +:+ debug_address (balance_of_account c))
    (Some (list_layout [address_v2 "Account" (debug_address (balance_of_account c))])).

Definition render_allowance (c : allowanceCall) : SignablePayloadField :=
  preview "ERC20 Allowance"
    ("Query allowance for " +:+ debug_address (allowance_spender c) +:+ " by "
     +:+ debug_address (allowance_owner c))
    (Some (list_layout [address_v2 "Owner" (debug_address (allowance_owner c));
                        address_v2 "Spender" (debug_address (allowance_spender c))])).

(** One arm of the chain of selectors: the arm is taken on its selector, and a call that
    does not decode there is not tried elsewhere. *)
Definition try_call {C} {wf : C → Prop} (s : SolCall wf) (render : C → SignablePayloadField)
    (otherwise : option SignablePayloadField) (input : bytes) : option SignablePayloadField :=
  if decide (take 4 input = SELECTOR s) then
    match abi_decode s input with Ok call => Some (render call) | Err _ => None end
  else otherwise.

Definition erc20_visualize_tx_commands (input : bytes) : option SignablePayloadField :=
  if decide (length input < 4) then None
  else
    let arm {C} {wf : C → Prop} (s : SolCall wf) render rest := try_call s render rest input in
    arm transfer render_transfer
    (arm transferFrom render_transfer_from
    (arm approve render_approve
    (arm balanceOf render_balance_of
    (arm allowance render_allowance
    (arm name_ (fun _ => preview "ERC20 Name" "Query token name" None)
    (arm symbol (fun _ => preview "ERC20 Symbol" "Query token symbol" None)
    (arm decimals_ (fun _ => preview "ERC20 Decimals" "Query token decimals" None)
    (arm totalSupply (fun _ => preview "ERC20 TotalSupply" "Query total token supply" None)
      None)))))))).
End erc20.

(** ** ERC-721 *)

Definition erc721_visualize_tx_commands (input : bytes) : option SignablePayloadField :=
  if decide (length input < 4) then None else None.

(** ** ERC-1155 *)

Record safeTransferFromCall := MkSafeTransferFrom {
  stf_from : address;
  stf_to : address;
  stf_id : Z;
  stf_value : Z;
  stf_data : bytes;
}.

Record safeBatchTransferFromCall := MkSafeBatchTransferFrom {
  sbtf_from : address;
  sbtf_to : address;
  sbtf_ids : list Z;
  sbtf_values : list Z;
  sbtf_data : bytes;
}.

Definition stf_wf (c : safeTransferFromCall) : Prop :=
  is_address (stf_from c) ∧ is_address (stf_to c) ∧ is_uint 256 (stf_id c) ∧
  is_uint 256 (stf_value c).
Definition sbtf_wf (c : safeBatchTransferFromCall) : Prop :=
  is_address (sbtf_from c) ∧ is_address (sbtf_to c) ∧ Forall (is_uint 256) (sbtf_ids c) ∧
  Forall (is_uint 256) (sbtf_values c) ∧
  is_uint 256 (Z.of_nat (length (sbtf_ids c))) ∧ is_uint 256 (Z.of_nat (length (sbtf_values c))).

Class IERC1155 : Type := {
  safeTransferFrom : SolCall stf_wf;
  safeBatchTransferFrom : SolCall sbtf_wf;
  erc1155_selectors : SELECTOR safeTransferFrom ≠ SELECTOR safeBatchTransferFrom;
}.

Section erc1155.
Context {A : AlloyPrimitives} {I : IERC1155}.

Definition address_row (label : string) (a : address) : SignablePayloadField :=
  address_v2 label (debug_address a).

Definition text_row (label text : string) : SignablePayloadField := text_v2 label text.

Definition render_safe_transfer_from (c : safeTransferFromCall) : SignablePayloadField :=
  let id_str := show_Z (stf_id c) in
  let value_str := show_Z (stf_value c) in
  let details := [address_row "From" (stf_from c); address_row "To" (stf_to c);
                  text_row "Token ID" id_str; text_row "Amount" value_str] in
  preview "ERC1155 Transfer"
    ("Transfer " +:+ value_str +:+ " of token " +:+ id_str +:+ " from "
     +:+ debug_address (stf_from c) +:+ " to " +:+ debug_address (stf_to c))
    (Some (list_layout details)).

Definition batch_row (c : safeBatchTransferFromCall) (i : nat) : SignablePayloadField :=
  let or_none (o : option Z) := match o with Some z => show_Z z | None => "(none)" end in
  text_row ("Token " +:+ show_nat i)
    ("id " +:+ or_none (sbtf_ids c !! i) +:+ " -> amount " +:+ or_none (sbtf_values c !! i)).

Definition render_safe_batch_transfer_from (c : safeBatchTransferFromCall)
    : SignablePayloadField :=
  let pair_count := length (sbtf_ids c) `max` length (sbtf_values c) in
  let details := [address_row "From" (sbtf_from c); address_row "To" (sbtf_to c)]
                 ++ (batch_row c <$> seq 0 pair_count) in
  preview "ERC1155 Batch Transfer"
    ("Batch transfer " +:+ show_nat pair_count +:+ " token(s) from "
     +:+ debug_address (sbtf_from c) +:+ " to " +:+ debug_address (sbtf_to c))
    (Some (list_layout details)).

Definition erc1155_visualize_tx_commands (input : bytes) : option SignablePayloadField :=
  if decide (length input < 4) then None
  else
    try_call safeTransferFrom render_safe_transfer_from
      (try_call safeBatchTransferFrom render_safe_batch_transfer_from None input) input.
End erc1155.

(** ** Calls with an ABI *)

Section abi_decoder.
Context {H : HexCodec} {A : AlloyPrimitives} {B : AlloyAbi}.

Fixpoint format_dyn_sol_value (value : DynSolValue) : string :=
  match value with
  | SolAddress addr => debug_address addr
  | SolUint val _ => show_Z val
  | SolInt val _ => show_Z val
  | SolBool b => if b then "true" else "false"
  | SolBytes bytes => "0x" +:+ hex_encode bytes
  | SolFixedBytes bytes _ => "0x" +:+ hex_encode bytes
  | SolString s => s
  | SolArray values | SolFixedArray values =>
      match values with
      | [] => "[]"
      | _ => "[" +:+ str_join ", " (List.map format_dyn_sol_value values) +:+ "]"
      end
  | SolTuple values => "(" +:+ str_join ", " (List.map format_dyn_sol_value values) +:+ ")"
  | SolFunction func => "0x" +:+ hex_encode func
  end.

Definition find_function_by_selector (abi : JsonAbi) (selector : bytes) : option Function :=
  List.find (fun f => bool_decide (fn_selector f = selector)) (functions abi).

Definition decode_function (abi : JsonAbi) (calldata : bytes) : result string (string * string) :=
  if decide (length calldata < 4) then Err "Calldata too short for function selector"
  else
    function ← ok_or "Function selector not found in ABI"
                 (find_function_by_selector abi (take 4 calldata));
    Ok (fn_name function, hex_encode (drop 4 calldata)).

Definition param_row (i : nat) (input : Param) (value : DynSolValue) : SignablePayloadField :=
  let param_name :=
    if decide (param_name input = "") then "param" +:+ show_nat i else param_name input in
  text_v2 param_name (format_dyn_sol_value value).

(** [inputs.iter().zip(values.iter()).enumerate()] *)
Definition param_rows (inputs : list Param) (values : list DynSolValue)
    : list SignablePayloadField :=
  imap (fun i '(input, value) => param_row i input value) (zip inputs values).

Definition decode_values (function : Function) (input_data : bytes)
    : result string (list DynSolValue) :=
  param_types ← collect_results (fun input =>
      map_err (fun e => "Failed to parse type '" +:+ param_ty input +:+ "': " +:+ e)
        (type_parse (param_ty input))) (fn_inputs function);
  decoded ← map_err (fun e => "Failed to decode parameters: " +:+ e +:+ ". Data length: "
      +:+ show_nat (length input_data) +:+ ", Data: 0x" +:+ hex_encode input_data)
    (tuple_decode param_types input_data);
  match decoded with
  | SolTuple vals => Ok vals
  | _ => Err "Expected tuple from decode"
  end.

Definition fn_signature (f : Function) : string :=
  fn_name f +:+ "(" +:+ str_join "," (param_ty <$> fn_inputs f) +:+ ")".

Definition abi_visualize (abi : JsonAbi) (calldata : bytes) : result string SignablePayloadField :=
  if decide (length calldata < 4) then Err "Calldata too short"
  else
    function ← ok_or "Function not found" (find_function_by_selector abi (take 4 calldata));
    expanded_fields ←
      match fn_inputs function with
      | [] => Ok []
      | inputs =>
          values ← decode_values function (drop 4 calldata);
          Ok (param_rows inputs values)
      end;
    let signature := fn_signature function in
    Ok (PreviewLayout (Common signature (fn_name function))
          (FieldPreviewLayout (Some (FieldTextV2 (fn_name function)))
             (Some (FieldTextV2 signature)) None
             (match expanded_fields with
              | [] => None
              | _ => Some (list_layout expanded_fields)
              end))).

(** [DynamicAbiVisualizer::visualize_calldata]; the chain id and the registry are not used. *)
Definition dynamic_visualize_calldata (abi : JsonAbi) (calldata : bytes)
    : option SignablePayloadField :=
  match abi_visualize abi calldata with Ok f => Some f | Err _ => None end.

(** ** Facts: dynamic calls *)

Lemma find_function_Some abi sel f :
  find_function_by_selector abi sel = Some f → f ∈ functions abi ∧ fn_selector f = sel.
Proof.
  intros Hf. apply List.find_some in Hf as [Hin%list_elem_of_In Hb%bool_decide_eq_true]. done.
Qed.

Lemma decode_values_length f data vs :
  decode_values f data = Ok vs → length vs = length (fn_inputs f).
Proof.
  unfold decode_values. intros (ts & Hts%collect_results_Ok%Forall2_length & Hr)%result_bind_Ok.
  apply result_bind_Ok in Hr as (v & Hv%map_err_Ok & Hr).
  apply tuple_decode_shape in Hv as (vs' & -> & Hl). injection Hr as <-. congruence.
Qed.

Lemma param_rows_lookup inputs values i p v :
  inputs !! i = Some p → values !! i = Some v →
  param_rows inputs values !! i = Some (param_row i p v).
Proof.
  intros Hp Hv. unfold param_rows. rewrite list_lookup_imap, lookup_zip_with, Hp, Hv. done.
Qed.

Lemma length_param_rows inputs values :
  length values = length inputs → length (param_rows inputs values) = length inputs.
Proof. intros Hl. unfold param_rows. rewrite length_imap, length_zip_with. lia. Qed.
End abi_decoder.

(** ** Facts: calls *)

Section arms.
Context {C : Type} {wf : C → Prop} (s : SolCall wf) (render : C → SignablePayloadField).

Lemma encode_length c : ¬ length (abi_encode s c) < 4.
Proof.
  pose proof (selector_length s) as Hl. rewrite <-(abi_encode_selector s c), length_take in Hl. lia.
Qed.

Lemma try_call_encode otherwise c :
  wf c → try_call s render otherwise (abi_encode s c) = Some (render c).
Proof.
  intros Hc. unfold try_call. rewrite decide_True by apply abi_encode_selector.
  by rewrite abi_decode_encode.
Qed.

Lemma try_call_other {C'} {wf' : C' → Prop} (s' : SolCall wf') otherwise c :
  SELECTOR s' ≠ SELECTOR s → try_call s render otherwise (abi_encode s' c) = otherwise.
Proof. intros Hs. unfold try_call. rewrite decide_False; [done|]. by rewrite abi_encode_selector. Qed.

Lemma try_call_Some otherwise input f :
  try_call s render otherwise input = Some f →
  (∃ c, abi_decode s input = Ok c ∧ f = render c) ∨
  (take 4 input ≠ SELECTOR s ∧ otherwise = Some f).
Proof.
  unfold try_call. case_decide; [|by right]. destruct (abi_decode s input) as [c|]; [|done].
  intros [= <-]. left. by exists c.
Qed.
End arms.

(** Distinct addresses and distinct numbers have distinct texts. *)
Lemma debug_address_inj {A : AlloyPrimitives} a b :
  is_address a → is_address b → debug_address a = debug_address b → a = b.
Proof.
  intros Ha Hb E. pose proof (debug_address_parse a Ha) as Pa.
  pose proof (debug_address_parse b Hb) as Pb. rewrite E, Pb in Pa. by injection Pa.
Qed.

(** Walks past the arms of other calls. *)
Ltac skip_arms :=
  let N := fresh in
  pose proof erc20_selectors as N; rewrite !NoDup_cons, !not_elem_of_cons in N;
  destruct_and! N; rewrite ?try_call_other by congruence.

Section erc20_facts.
Context {A : AlloyPrimitives} {I : IERC20}.

(** The selector of a call that the visualizer decodes is its own. *)
Definition erc20_selector (input : bytes) : Prop :=
  take 4 input ∈ [SELECTOR transfer; SELECTOR transferFrom; SELECTOR approve; SELECTOR balanceOf;
                  SELECTOR allowance; SELECTOR name_; SELECTOR symbol; SELECTOR decimals_;
                  SELECTOR totalSupply].

Lemma erc20_visualize_selector input f :
  erc20_visualize_tx_commands input = Some f → erc20_selector input.
Proof.
  unfold erc20_visualize_tx_commands, erc20_selector. case_decide; [done|]. cbv zeta beta.
  intros Hf.
  repeat (apply try_call_Some in Hf as [(c & Hc%abi_decode_selector & _)|[_ Hf]];
    [rewrite Hc; set_solver|]). done.
Qed.

Lemma erc20_transfer c :
  transfer_wf c → erc20_visualize_tx_commands (abi_encode transfer c) = Some (render_transfer c).
Proof.
  intros Hc. unfold erc20_visualize_tx_commands. rewrite decide_False by apply encode_length.
  by apply try_call_encode.
Qed.

Lemma erc20_transfer_from c :
  transfer_from_wf c →
  erc20_visualize_tx_commands (abi_encode transferFrom c) = Some (render_transfer_from c).
Proof.
  intros Hc. unfold erc20_visualize_tx_commands. rewrite decide_False by apply encode_length.
  cbv zeta beta. skip_arms. by apply try_call_encode.
Qed.

Lemma erc20_approve c :
  approve_wf c → erc20_visualize_tx_commands (abi_encode approve c) = Some (render_approve c).
Proof.
  intros Hc. unfold erc20_visualize_tx_commands. rewrite decide_False by apply encode_length.
  cbv zeta beta. skip_arms. by apply try_call_encode.
Qed.

Lemma erc20_balance_of c :
  balance_of_wf c →
  erc20_visualize_tx_commands (abi_encode balanceOf c) = Some (render_balance_of c).
Proof.
  intros Hc. unfold erc20_visualize_tx_commands. rewrite decide_False by apply encode_length.
  cbv zeta beta. skip_arms. by apply try_call_encode.
Qed.

Lemma erc20_allowance c :
  allowance_wf c →
  erc20_visualize_tx_commands (abi_encode allowance c) = Some (render_allowance c).
Proof.
  intros Hc. unfold erc20_visualize_tx_commands. rewrite decide_False by apply encode_length.
  cbv zeta beta. skip_arms. by apply try_call_encode.
Qed.

(** The rows of a call determine its arguments. *)
Lemma render_transfer_inj c c' :
  transfer_wf c → transfer_wf c' → render_transfer c = render_transfer c' → c = c'.
Proof.
  intros [Ha _] [Ha' _] E. unfold render_transfer, preview in E.
  injection E as _ _ Ea _ En _. apply debug_address_inj in Ea; [|done..].
  apply show_Z_inj in En. destruct c, c'. cbn in *. by subst.
Qed.

Lemma render_transfer_from_inj c c' :
  transfer_from_wf c → transfer_from_wf c' →
  render_transfer_from c = render_transfer_from c' → c = c'.
Proof.
  intros (Hf & Ha & _) (Hf' & Ha' & _) E. unfold render_transfer_from, preview in E.
  injection E as _ _ Ef _ Ea _ En _. apply debug_address_inj in Ea, Ef; [|done..].
  apply show_Z_inj in En. destruct c, c'. cbn in *. by subst.
Qed.

Lemma render_approve_inj c c' :
  approve_wf c → approve_wf c' → render_approve c = render_approve c' → c = c'.
Proof.
  intros [Ha _] [Ha' _] E. unfold render_approve, preview in E.
  injection E as _ _ Ea _ En _. apply debug_address_inj in Ea; [|done..].
  apply show_Z_inj in En. destruct c, c'. cbn in *. by subst.
Qed.
End erc20_facts.

(** A text up to its first space is determined by the whole. *)
Definition no_space (c : Ascii.ascii) : bool := negb (bool_decide (c = " "%char)).

Lemma split_space s s' t t' :
  str_all no_space s = true → str_all no_space s' = true →
  s +:+ String " " t = s' +:+ String " " t' → s = s' ∧ t = t'.
Proof.
  revert s'; induction s as [|c s IH]; intros [|c' s'] Hs Hs'; rewrite ?str_nil_app, ?str_cons_app.
  - naive_solver.
  - intros [= <- _]. done.
  - intros [= -> _]. done.
  - cbn [str_all] in Hs, Hs'. apply andb_true_iff in Hs as [_ Hs], Hs' as [_ Hs'].
    intros [= <- E]. destruct (IH s' Hs Hs' E) as [-> ->]. done.
Qed.

Section erc1155_facts.
Context {A : AlloyPrimitives} {I : IERC1155}.

Lemma show_uint_no_space n : is_uint 256 n → str_all no_space (show_Z n) = true.
Proof.
  intros [Hn _]. eapply str_all_impl; [|by apply show_nonneg_digits].
  intros c. by ascii_cases c.
Qed.

Lemma show_uint_not_none n : is_uint 256 n → show_Z n ≠ "(none)".
Proof. intros [Hn _] E. pose proof (show_nonneg_digits n Hn) as Hd. by rewrite E in Hd. Qed.

Definition opt_show (o : option Z) : string := match o with Some z => show_Z z | None => "(none)" end.

Lemma opt_show_inj o o' :
  (∀ z, o = Some z → is_uint 256 z) → (∀ z, o' = Some z → is_uint 256 z) →
  opt_show o = opt_show o' → o = o'.
Proof.
  intros Ho Ho'. destruct o as [z|], o' as [z'|]; cbn; [|..|done].
  - by intros ->%show_Z_inj.
  - intros E. by apply show_uint_not_none in E; [|apply Ho].
  - intros E. symmetry in E. by apply show_uint_not_none in E; [|apply Ho'].
Qed.

Lemma opt_show_no_space o :
  (∀ z, o = Some z → is_uint 256 z) → str_all no_space (opt_show o) = true.
Proof. destruct o as [z|]; [|done]. intros Ho. by apply show_uint_no_space, Ho. Qed.

(** A row shows the id and the amount of its position. *)
Lemma batch_row_inj c c' i :
  sbtf_wf c → sbtf_wf c' → batch_row c i = batch_row c' i →
  sbtf_ids c !! i = sbtf_ids c' !! i ∧ sbtf_values c !! i = sbtf_values c' !! i.
Proof.
  intros (_ & _ & Hi & Hv & _) (_ & _ & Hi' & Hv' & _) E.
  assert (∀ (l : list Z) z, Forall (is_uint 256) l → l !! i = Some z → is_uint 256 z) as Hl
    by (intros l z Hl Hz; by eapply Forall_lookup_1).
  unfold batch_row, text_row, text_v2 in E. injection E as _ E.
  fold (opt_show (sbtf_ids c !! i)) (opt_show (sbtf_ids c' !! i))
    (opt_show (sbtf_values c !! i)) (opt_show (sbtf_values c' !! i)) in E.
  rewrite !str_nil_app in E.
  assert (∀ s, " -> amount " +:+ s = String " " ("-> amount " +:+ s)) as Hsp by done.
  rewrite !Hsp in E. apply split_space in E as [Ei Ev]; [|apply opt_show_no_space; eauto..].
  apply opt_show_inj in Ei; [|eauto..]. split; [done|].
  apply (inj (String.append "-> amount ")) in Ev. by apply opt_show_inj in Ev; [|eauto..].
Qed.

Definition batch_rows (c : safeBatchTransferFromCall) : list SignablePayloadField :=
  batch_row c <$> seq 0 (length (sbtf_ids c) `max` length (sbtf_values c)).

Lemma batch_rows_inj c c' :
  sbtf_wf c → sbtf_wf c' → batch_rows c = batch_rows c' →
  sbtf_ids c = sbtf_ids c' ∧ sbtf_values c = sbtf_values c'.
Proof.
  intros Hc Hc' E. unfold batch_rows in E.
  pose proof (f_equal length E) as El. rewrite !length_fmap, !length_seq in El.
  assert (∀ i, sbtf_ids c !! i = sbtf_ids c' !! i ∧ sbtf_values c !! i = sbtf_values c' !! i) as Hi.
  { intros i. destruct (decide (i < length (sbtf_ids c) `max` length (sbtf_values c))) as [Hi|Hi].
    - apply batch_row_inj; [done..|]. pose proof (f_equal (.!! i) E) as Er.
      cbn beta in Er. rewrite !list_lookup_fmap, !lookup_seq_lt in Er by lia.
      by apply (inj Some) in Er.
    - rewrite !lookup_ge_None_2 by lia. done. }
  split; apply list_eq; intros i; apply Hi.
Qed.
End erc1155_facts.

#[export] Instance annotate_field_inj : Inj (=) (=) annotate_field.
Proof. by intros f g [= ->]. Qed.

(** ** Instances for the token interfaces *)

#[local] Unset Program Cases.

(** The words of well-formed arguments are in range. *)
Ltac words_range :=
  rewrite ?Forall_cons, ?Forall_nil; split_and?; try done; by apply address_word_range.

Ltac projections :=
  cbn [transfer_to transfer_amount transfer_from_from transfer_from_to transfer_from_amount
       approve_spender approve_amount balance_of_account allowance_owner allowance_spender] in *.

Program Definition transfer_words : WordCodec transfer_wf :=
  {| to_words c := [address_word (transfer_to c); transfer_amount c];
     of_words ws := match ws with [a; n] => Some (MkTransfer (word_address a) n) | _ => None end |}.
Next Obligation. intros c [Ha Hn]. words_range. Qed.
Next Obligation. intros [a n] [Ha Hn]. projections. by rewrite word_address_word. Qed.

Program Definition transfer_from_words : WordCodec transfer_from_wf :=
  {| to_words c := [address_word (transfer_from_from c); address_word (transfer_from_to c);
                    transfer_from_amount c];
     of_words ws :=
       match ws with
       | [a; b; n] => Some (MkTransferFrom (word_address a) (word_address b) n)
       | _ => None
       end |}.
Next Obligation. intros c (Ha & Hb & Hn). words_range. Qed.
Next Obligation. intros [a b n] (Ha & Hb & Hn). projections. by rewrite !word_address_word. Qed.

Program Definition approve_words : WordCodec approve_wf :=
  {| to_words c := [address_word (approve_spender c); approve_amount c];
     of_words ws := match ws with [a; n] => Some (MkApprove (word_address a) n) | _ => None end |}.
Next Obligation. intros c [Ha Hn]. words_range. Qed.
Next Obligation. intros [a n] [Ha Hn]. projections. by rewrite word_address_word. Qed.

Program Definition balance_of_words : WordCodec balance_of_wf :=
  {| to_words c := [address_word (balance_of_account c)];
     of_words ws := match ws with [a] => Some (MkBalanceOf (word_address a)) | _ => None end |}.
Next Obligation. intros c Ha. words_range. Qed.
Next Obligation. intros [a] Ha. unfold balance_of_wf in Ha. projections. by rewrite word_address_word. Qed.

Program Definition allowance_words : WordCodec allowance_wf :=
  {| to_words c := [address_word (allowance_owner c); address_word (allowance_spender c)];
     of_words ws :=
       match ws with
       | [a; b] => Some (MkAllowance (word_address a) (word_address b))
       | _ => None
       end |}.
Next Obligation. intros c [Ha Hb]. words_range. Qed.
Next Obligation. intros [a b] [Ha Hb]. projections. by rewrite !word_address_word. Qed.

Program Definition no_words : WordCodec no_args_wf :=
  {| to_words _ := []; of_words _ := Some () |}.
Next Obligation. constructor. Qed.
Next Obligation. by intros []. Qed.

(** The published selectors of the standard. *)
Program Definition erc20_ref : IERC20 :=
  {| transfer := word_call [Byte.xa9; Byte.x05; Byte.x9c; Byte.xbb] eq_refl transfer_words;
     transferFrom := word_call [Byte.x23; Byte.xb8; Byte.x72; Byte.xdd] eq_refl transfer_from_words;
     approve := word_call [Byte.x09; Byte.x5e; Byte.xa7; Byte.xb3] eq_refl approve_words;
     balanceOf := word_call [Byte.x70; Byte.xa0; Byte.x82; Byte.x31] eq_refl balance_of_words;
     allowance := word_call [Byte.xdd; Byte.x62; Byte.xed; Byte.x3e] eq_refl allowance_words;
     name_ := word_call [Byte.x06; Byte.xfd; Byte.xde; Byte.x03] eq_refl no_words;
     symbol := word_call [Byte.x95; Byte.xd8; Byte.x9b; Byte.x41] eq_refl no_words;
     decimals_ := word_call [Byte.x31; Byte.x3c; Byte.xe5; Byte.x67] eq_refl no_words;
     totalSupply := word_call [Byte.x18; Byte.x16; Byte.x0d; Byte.xdd] eq_refl no_words |}.
Next Obligation. by_decision. Qed.

Lemma byte_words_range (bs : bytes) : Forall (is_uint 256) (byte_to_Z <$> bs).
Proof.
  apply Forall_fmap, Forall_forall. intros b _. cbn. pose proof (byte_to_Z_range b).
  apply (is_uint_weaken 8); [lia|]. exact H.
Qed.

Lemma bytes_of_words (bs : bytes) : byte_of_Z <$> (byte_to_Z <$> bs) = bs.
Proof. induction bs as [|b bs IH]; csimpl; [done|]. by rewrite byte_of_to_Z, IH. Qed.

Program Definition stf_words : WordCodec stf_wf :=
  {| to_words c := [address_word (stf_from c); address_word (stf_to c); stf_id c; stf_value c]
                   ++ (byte_to_Z <$> stf_data c);
     of_words ws :=
       match ws with
       | a :: b :: i :: v :: data =>
           Some (MkSafeTransferFrom (word_address a) (word_address b) i v (byte_of_Z <$> data))
       | _ => None
       end |}.
Next Obligation.
  intros c (Ha & Hb & Hi & Hv). apply Forall_app. split; [words_range|apply byte_words_range].
Qed.
Next Obligation.
  intros [a b i v d] (Ha & Hb & Hi & Hv). cbn [app stf_from stf_to stf_id stf_value stf_data] in *.
  by rewrite !word_address_word, bytes_of_words.
Qed.

Program Definition sbtf_words : WordCodec sbtf_wf :=
  {| to_words c :=
       [address_word (sbtf_from c); address_word (sbtf_to c); Z.of_nat (length (sbtf_ids c))]
       ++ sbtf_ids c ++ Z.of_nat (length (sbtf_values c)) :: sbtf_values c
       ++ (byte_to_Z <$> sbtf_data c);
     of_words ws :=
       match ws with
       | a :: b :: n :: rest =>
           match drop (Z.to_nat n) rest with
           | m :: rest' =>
               Some (MkSafeBatchTransferFrom (word_address a) (word_address b)
                       (take (Z.to_nat n) rest) (take (Z.to_nat m) rest')
                       (byte_of_Z <$> drop (Z.to_nat m) rest'))
           | [] => None
           end
       | _ => None
       end |}.
Next Obligation.
  intros c (Ha & Hb & Hi & Hv & Hli & Hlv). apply Forall_app. split; [words_range|].
  apply Forall_app. split; [done|]. apply Forall_cons. split; [done|].
  apply Forall_app. split; [done|apply byte_words_range].
Qed.
Next Obligation.
  intros [a b ids vs d] (Ha & Hb & _).
  cbn [app sbtf_from sbtf_to sbtf_ids sbtf_values sbtf_data] in *.
  rewrite Nat2Z.id, drop_app_length, take_app_length, Nat2Z.id, take_app_length, drop_app_length.
  by rewrite !word_address_word, bytes_of_words.
Qed.

Program Definition erc1155_ref : IERC1155 :=
  {| safeTransferFrom := word_call [Byte.xf2; Byte.x42; Byte.x43; Byte.x2a] eq_refl stf_words;
     safeBatchTransferFrom := word_call [Byte.x2e; Byte.xb2; Byte.xc2; Byte.xd6] eq_refl sbtf_words |}.
Next Obligation. done. Qed.

(** ** Properties *)

(** An ERC-20 call is shown as itself: every well-formed call is decoded by its own arm, its
    rows and its sentence carry its own arguments, and different transfers, delegated
    transfers or approvals are never shown alike. Nothing is shown for other selectors. *)
Theorem erc20_calls_shown (A : AlloyPrimitives) (I : IERC20) :
  (∀ c, transfer_wf c →
     erc20_visualize_tx_commands (abi_encode transfer c) = Some (render_transfer c)) ∧
  (∀ c, transfer_from_wf c →
     erc20_visualize_tx_commands (abi_encode transferFrom c) = Some (render_transfer_from c)) ∧
  (∀ c, approve_wf c →
     erc20_visualize_tx_commands (abi_encode approve c) = Some (render_approve c)) ∧
  (∀ c c', transfer_wf c → transfer_wf c' → render_transfer c = render_transfer c' → c = c') ∧
  (∀ c c', transfer_from_wf c → transfer_from_wf c' →
     render_transfer_from c = render_transfer_from c' → c = c') ∧
  (∀ c c', approve_wf c → approve_wf c' → render_approve c = render_approve c' → c = c') ∧
  (∀ input f, erc20_visualize_tx_commands input = Some f → erc20_selector input).
Proof.
  split_and!; [apply erc20_transfer|apply erc20_transfer_from|apply erc20_approve
    |apply render_transfer_inj|apply render_transfer_from_inj|apply render_approve_inj
    |apply erc20_visualize_selector].
Qed.

(** An ERC-1155 batch is shown completely: the rendering determines the sender, the recipient
    and every id and amount, also when the two lists have different lengths. *)
Theorem erc1155_batch_shown (A : AlloyPrimitives) (I : IERC1155) c c' :
  sbtf_wf c → sbtf_wf c' →
  erc1155_visualize_tx_commands (abi_encode safeBatchTransferFrom c)
    = Some (render_safe_batch_transfer_from c) ∧
  (render_safe_batch_transfer_from c = render_safe_batch_transfer_from c' →
   sbtf_from c = sbtf_from c' ∧ sbtf_to c = sbtf_to c' ∧ sbtf_ids c = sbtf_ids c' ∧
   sbtf_values c = sbtf_values c').
Proof.
  intros Hc Hc'. split.
  - unfold erc1155_visualize_tx_commands. rewrite decide_False by apply encode_length.
    rewrite try_call_other by (pose proof erc1155_selectors; congruence).
    by apply try_call_encode.
  - intros E. unfold render_safe_batch_transfer_from, preview, list_layout in E.
    rewrite !fmap_app in E. cbn [fmap list_fmap app] in E.
    injection E as _ _ Ef _ Et _ Er.
    apply (inj (fmap annotate_field)) in Er.
    destruct (batch_rows_inj c c' Hc Hc' Er) as [Hi Hv].
    destruct Hc as (Ha & Hb & _), Hc' as (Ha' & Hb' & _).
    split_and!; [by apply debug_address_inj..|done|done].
Qed.

Definition sample_address (b : byte) : address := replicate 20 b.

Lemma erc1155_batch_shown_witness :
  let A := alloy_ref in let I := erc1155_ref in
  let c := MkSafeBatchTransferFrom (sample_address Byte.x01) (sample_address Byte.x02)
             [7%Z; 8%Z] [1%Z] [] in
  erc1155_visualize_tx_commands (abi_encode safeBatchTransferFrom c)
    = Some (render_safe_batch_transfer_from c).
Proof.
  intros A I c.
  assert (sbtf_wf c) as Hc by (unfold sbtf_wf, is_address, is_uint; cbn; repeat constructor; lia).
  apply (erc1155_batch_shown A I c c); exact Hc.
Defined.

(** A call with an ABI is shown against the function its selector names: the field carries
    the name and the signature of that function, and one row per parameter, in order, with the
    parameter's own name and the text of its decoded value; there is no other row. When there
    is no such function, or its arguments do not decode, nothing is shown. *)
Theorem dynamic_call_shown (H : HexCodec) (A : AlloyPrimitives) (B : AlloyAbi) abi calldata field :
  dynamic_visualize_calldata abi calldata = Some field →
  ∃ fn, fn ∈ functions abi ∧ fn_selector fn = take 4 calldata ∧
    ∃ rows,
      field = PreviewLayout (Common (fn_signature fn) (fn_name fn))
                (FieldPreviewLayout (Some (FieldTextV2 (fn_name fn)))
                   (Some (FieldTextV2 (fn_signature fn))) None
                   (match rows with [] => None | _ => Some (list_layout rows) end)) ∧
      length rows = length (fn_inputs fn) ∧
      (∀ i p, fn_inputs fn !! i = Some p →
         ∃ values v, decode_values fn (drop 4 calldata) = Ok values ∧ values !! i = Some v ∧
           rows !! i = Some (param_row i p v)).
Proof.
  unfold dynamic_visualize_calldata. destruct (abi_visualize abi calldata) as [f|e] eqn:E; [|done].
  intros [= <-]. unfold abi_visualize in E. case_decide; [done|].
  apply result_bind_Ok in E as (fn & Hfn & E).
  destruct (find_function_by_selector abi (take 4 calldata)) as [fn'|] eqn:Ef; [|done].
  injection Hfn as ->. apply find_function_Some in Ef as [Hin Hsel].
  exists fn. split; [done|]. split; [done|].
  apply result_bind_Ok in E as (rows & Hrows & [= <-]). exists rows. split; [done|].
  destruct (fn_inputs fn) as [|p ps] eqn:Ep.
  { injection Hrows as <-. split; [done|]. intros i p. by rewrite lookup_nil. }
  apply result_bind_Ok in Hrows as (values & Hv & [= <-]).
  pose proof (decode_values_length _ _ _ Hv) as Hl. rewrite Ep in Hl.
  split; [by apply length_param_rows|]. intros i q Hq.
  assert (is_Some (values !! i)) as [v Hvi]
    by (apply lookup_lt_is_Some; rewrite Hl; by eapply lookup_lt_Some).
  exists values, v. split; [done|]. split; [done|]. by apply param_rows_lookup.
Qed.

Lemma dynamic_call_shown_witness :
  let H := hex_ref in let A := alloy_ref in let B := abi_toy in
  let fn := MkFunction "swap" [MkParam "amount" "uint256"; MkParam "" "uint256"] in
  let calldata := as_bytes "swap" ++ encode_words [5%Z; 6%Z] in
  ∃ field, dynamic_visualize_calldata (B := abi_toy) [fn] calldata = Some field ∧
    ∃ fn', fn' ∈ functions (AlloyAbi := abi_toy) [fn] ∧
      fn_selector (AlloyAbi := abi_toy) fn' = take 4 calldata.
Proof.
  intros H A B fn calldata.
  exists (preview "swap" "swap(uint256,uint256)"
    (Some (list_layout [text_v2 "amount" "5"; text_v2 "param1" "6"]))).
  assert (dynamic_visualize_calldata (B := abi_toy) [fn] calldata =
    Some (preview "swap" "swap(uint256,uint256)"
      (Some (list_layout [text_v2 "amount" "5"; text_v2 "param1" "6"])))) as E.
  { vm_compute. reflexivity. }
  split; [exact E|].
  destruct (dynamic_call_shown H A B [fn] calldata _ E) as (fn' & Hin & Hsel & _).
  exists fn'. split; [exact Hin|exact Hsel].
Defined.

Lemma erc20_calls_shown_witness :
  let A := alloy_ref in let I := erc20_ref in
  let c := MkTransfer (sample_address Byte.x05) 1000 in
  erc20_visualize_tx_commands (abi_encode transfer c) = Some (render_transfer c).
Proof.
  intros A I c. destruct (erc20_calls_shown A I) as [Ht _]. apply Ht.
  split; [reflexivity|]. unfold is_uint. cbn. lia.
Defined.
