(* ===== verification/EthPermit2.v ===== *)
(** * Ethereum: Permit2

    [protocols/uniswap/contracts/permit2.rs] of [chain_parsers/visualsign-ethereum]: the
    visualizer of the approval contract, with its texts for amounts and times. *)

From S2P Require Import Prelude Panic Json Payload Errors Charset External Encodings DecimalText.
From S2P Require Import Proto Registry Alloy AbiMetadata Builders Lamports PlainText NearText.
From S2P Require Import EthFormat EthRegistry SolCalls EthContracts.

(** ** The interface *)

Record PermitDetails := MkPermitDetails {
  pd_token : address;
  pd_amount : Z;
  pd_expiration : Z;
  pd_nonce : Z;
}.

Record PermitSingle := MkPermitSingle {
  ps_details : PermitDetails;
  ps_spender : address;
  ps_sig_deadline : Z;
}.

Record permit2ApproveCall := MkPermit2Approve {
  p2a_token : address;
  p2a_spender : address;
  p2a_amount : Z;
  p2a_expiration : Z;
}.

Record permitCall := MkPermit {
  permit_owner : address;
  permit_single : PermitSingle;
  permit_signature : bytes;
}.

Record permit2TransferFromCall := MkPermit2TransferFrom {
  p2t_from : address;
  p2t_to : address;
  p2t_amount : Z;
  p2t_token : address;
}.

Definition ps_wf (p : PermitSingle) : Prop :=
  is_address (pd_token (ps_details p)) ∧ is_uint 160 (pd_amount (ps_details p)) ∧
  is_uint 48 (pd_expiration (ps_details p)) ∧ is_uint 48 (pd_nonce (ps_details p)) ∧
  is_address (ps_spender p) ∧ is_uint 256 (ps_sig_deadline p).
Definition p2a_wf (c : permit2ApproveCall) : Prop :=
  is_address (p2a_token c) ∧ is_address (p2a_spender c) ∧ is_uint 160 (p2a_amount c) ∧
  is_uint 48 (p2a_expiration c).
Definition permit_wf (c : permitCall) : Prop :=
  is_address (permit_owner c) ∧ ps_wf (permit_single c).
Definition p2t_wf (c : permit2TransferFromCall) : Prop :=
  is_address (p2t_from c) ∧ is_address (p2t_to c) ∧ is_uint 160 (p2t_amount c) ∧
  is_address (p2t_token c).

(** The calls of [IPermit2], and the struct that the router passes inline. *)
Class IPermit2 : Type := {
  permit2_approve : SolCall p2a_wf;
  permit2_permit : SolCall permit_wf;
  permit2_transfer_from : SolCall p2t_wf;
  permit_single_value : SolValue ps_wf;
  permit2_selectors :
    NoDup [SELECTOR permit2_approve; SELECTOR permit2_permit; SELECTOR permit2_transfer_from];
  (** Four static words behind the selector. *)
  transfer_from_length c : length (abi_encode permit2_transfer_from c) = 132;
}.

(** [chrono]: a second of the Unix epoch in the two formats the parser uses, if the calendar
    reaches it. *)
Class Chrono : Type := {
  utc_minutes : Z → option string;
  utc_display : Z → option string;
}.

(** ** The visualizer *)

Definition U160_MAX : Z := 2 ^ 160 - 1.

Section permit2.
Context {A : AlloyPrimitives} {P : IPermit2} {T : Chrono}.

Definition format_unix_timestamp_seconds_u64 (value : Z) : string :=
  if decide (value = U64_MAX) then "never"
  else if decide (2 ^ 63 - 1 < value)%Z then "unix:" +:+ show_Z value
  else match utc_minutes value with
       | Some dt => dt
       | None => "unix:" +:+ show_Z value
       end.

(** The symbol of a token, or its address. *)
Definition token_symbol (registry : option ContractRegistry) (chain_id : Z) (token : address)
    : string :=
  default (debug_address token) (registry ≫= fun r => get_token_symbol r chain_id token).

(** The amount at the decimals of the token, or the raw number. *)
Definition token_amount (registry : option ContractRegistry) (chain_id : Z) (token : address)
    (amount : Z) : string :=
  match registry ≫= fun r => format_token_amount_u256 r chain_id token amount with
  | Some (s, _) => s
  | None => show_Z amount
  end.

(** [expiration.to_string().parse().unwrap_or(0)] *)
Definition expiration_u64 (expiration : Z) : Z :=
  match uint_from_str U64_MAX (show_Z expiration) with Ok v => v | Err _ => 0 end.

Definition decode_custom_permit_params (bs : bytes) : result string PermitSingle :=
  if decide (length bs < 192)
  then Err "bytes too short for PermitSingle (need 192 bytes minimum)"
  else map_err (fun e => "Failed to decode PermitSingle: " +:+ e)
         (value_decode permit_single_value (take 192 bs)).

Definition decode_approve (call : permit2ApproveCall) (chain_id : Z)
    (registry : option ContractRegistry) : SignablePayloadField :=
  let symbol := token_symbol registry chain_id (p2a_token call) in
  let amount_str := token_amount registry chain_id (p2a_token call) (p2a_amount call) in
  let expiration_str :=
    format_unix_timestamp_seconds_u64 (expiration_u64 (p2a_expiration call)) in
  text_v2 "Permit2 Approve"
    ("Approve " +:+ display_address (p2a_spender call) +:+ " " +:+ amount_str +:+ " " +:+ symbol
     +:+ " to spend " +:+ symbol +:+ " (expires: " +:+ expiration_str +:+ ")").

Definition sig_deadline_text (deadline : Z) : string :=
  if decide (deadline ≤ U64_MAX)%Z then format_unix_timestamp_seconds_u64 deadline
  else "unix:" +:+ show_Z deadline.

Definition decode_permit (call : permitCall) (chain_id : Z) (registry : option ContractRegistry)
    : SignablePayloadField :=
  let single := permit_single call in
  let details := ps_details single in
  let amount_str := token_amount registry chain_id (pd_token details) (pd_amount details) in
  let expiration_str :=
    format_unix_timestamp_seconds_u64 (expiration_u64 (pd_expiration details)) in
  let amount_display :=
    if decide (pd_amount details = U160_MAX) then "Unlimited Amount" else amount_str in
  let token_lowercase := to_lowercase (display_address (pd_token details)) in
  preview "Permit2 Permit"
    ("Permit " +:+ display_address (ps_spender single) +:+ " to spend " +:+ amount_display
     +:+ " of " +:+ token_lowercase)
    (Some (list_layout
       [text_v2 "Token" token_lowercase;
        text_v2 "Amount" (show_Z (pd_amount details));
        text_v2 "Spender" (to_lowercase (display_address (ps_spender single)));
        text_v2 "Expires" expiration_str;
        text_v2 "Sig Deadline" (sig_deadline_text (ps_sig_deadline single))])).

Definition decode_transfer_from (call : permit2TransferFromCall) (chain_id : Z)
    (registry : option ContractRegistry) : SignablePayloadField :=
  text_v2 "Permit2 Transfer"
    ("Transfer " +:+ token_amount registry chain_id (p2t_token call) (p2t_amount call) +:+ " "
     +:+ token_symbol registry chain_id (p2t_token call) +:+ " from "
     +:+ display_address (p2t_from call) +:+ " to " +:+ display_address (p2t_to call)).

Definition zero_address : address := replicate 20 Byte.x00.

Definition permit2_visualize_tx_commands (input : bytes) (chain_id : Z)
    (registry : option ContractRegistry) : option SignablePayloadField :=
  if decide (length input < 4) then None
  else
    match abi_decode permit2_approve input with
    | Ok call => Some (decode_approve call chain_id registry)
    | Err _ =>
        match abi_decode permit2_permit input with
        | Ok call => Some (decode_permit call chain_id registry)
        | Err _ =>
            match decode_custom_permit_params input with
            | Ok params =>
                Some (decode_permit (MkPermit zero_address params []) chain_id registry)
            | Err _ =>
                match abi_decode permit2_transfer_from input with
                | Ok call => Some (decode_transfer_from call chain_id registry)
                | Err _ => None
                end
            end
        end
    end.
End permit2.

(** ** An instance *)

#[local] Unset Program Cases.

Ltac permit_projections :=
  cbn [ps_details ps_spender ps_sig_deadline pd_token pd_amount pd_expiration pd_nonce p2a_token
       p2a_spender p2a_amount p2a_expiration permit_owner permit_single permit_signature p2t_from
       p2t_to p2t_amount p2t_token] in *.

Lemma uint_mod b n : is_uint b n → (n `mod` 2 ^ b = n)%Z.
Proof. apply Z.mod_small. Qed.

Definition ps_to_words (p : PermitSingle) : list Z :=
  [address_word (pd_token (ps_details p)); pd_amount (ps_details p);
   pd_expiration (ps_details p); pd_nonce (ps_details p); address_word (ps_spender p);
   ps_sig_deadline p].

(** The high bits of a word that is wider than its type are dropped. *)
Definition ps_of_words (ws : list Z) : option (PermitSingle * list Z) :=
  match ws with
  | t :: n :: e :: k :: s :: d :: rest =>
      Some (MkPermitSingle
              (MkPermitDetails (word_address t) (n `mod` 2 ^ 160) (e `mod` 2 ^ 48) (k `mod` 2 ^ 48))
              (word_address s) d, rest)
  | _ => None
  end.

Lemma ps_to_words_range p : ps_wf p → Forall (is_uint 256) (ps_to_words p).
Proof.
  intros (Ht & Hn & He & Hk & Hs & Hd). unfold ps_to_words. rewrite !Forall_cons.
  split_and!; try done; try (by apply address_word_range);
    [apply (is_uint_weaken 160)|apply (is_uint_weaken 48)|apply (is_uint_weaken 48)]; done || lia.
Qed.

Lemma ps_of_to_words p rest : ps_wf p → ps_of_words (ps_to_words p ++ rest) = Some (p, rest).
Proof.
  intros (Ht & Hn & He & Hk & Hs & Hd). destruct p as [[t n e k] s d]. permit_projections.
  unfold ps_to_words, ps_of_words. permit_projections. cbn [app].
  rewrite !word_address_word, !uint_mod by done. done.
Qed.

Program Definition ps_words : WordCodec ps_wf :=
  {| to_words := ps_to_words; of_words ws := fst <$> ps_of_words ws |}.
Next Obligation. apply ps_to_words_range. Qed.
Next Obligation.
  intros p Hp. cbv beta. pose proof (ps_of_to_words p [] Hp) as E. rewrite app_nil_r in E.
  by rewrite E.
Qed.

Program Definition p2a_words : WordCodec p2a_wf :=
  {| to_words c := [address_word (p2a_token c); address_word (p2a_spender c); p2a_amount c;
                    p2a_expiration c];
     of_words ws :=
       match ws with
       | [t; s; n; e] => Some (MkPermit2Approve (word_address t) (word_address s) n e)
       | _ => None
       end |}.
Next Obligation.
  intros c (Ht & Hs & Hn & He). rewrite !Forall_cons.
  split_and!; try done; try (by apply address_word_range);
    [apply (is_uint_weaken 160)|apply (is_uint_weaken 48)]; done || lia.
Qed.
Next Obligation.
  intros [t s n e] (Ht & Hs & Hn & He). permit_projections. by rewrite !word_address_word.
Qed.

Program Definition permit_words : WordCodec permit_wf :=
  {| to_words c := address_word (permit_owner c) :: ps_to_words (permit_single c)
                   ++ (byte_to_Z <$> permit_signature c);
     of_words ws :=
       match ws with
       | o :: rest =>
           '(p, sig) ← ps_of_words rest; Some (MkPermit (word_address o) p (byte_of_Z <$> sig))
       | [] => None
       end |}.
Next Obligation.
  intros c [Ho Hp]. apply Forall_cons. split; [by apply address_word_range|].
  apply Forall_app. split; [by apply ps_to_words_range|apply byte_words_range].
Qed.
Next Obligation.
  intros [o p sig] [Ho Hp]. permit_projections. rewrite ps_of_to_words by done.
  cbn [mbind option_bind]. by rewrite word_address_word, bytes_of_words.
Qed.

Program Definition p2t_words : WordCodec p2t_wf :=
  {| to_words c := [address_word (p2t_from c); address_word (p2t_to c); p2t_amount c;
                    address_word (p2t_token c)];
     of_words ws :=
       match ws with
       | f :: t :: n :: k :: _ =>
           Some (MkPermit2TransferFrom (word_address f) (word_address t) n (word_address k))
       | _ => None
       end |}.
Next Obligation.
  intros c (Hf & Ht & Hn & Hk). rewrite !Forall_cons.
  split_and!; try done; try (by apply address_word_range). apply (is_uint_weaken 160); done || lia.
Qed.
Next Obligation.
  intros [f t n k] (Hf & Ht & Hn & Hk). permit_projections. by rewrite !word_address_word.
Qed.

Program Definition permit2_ref : IPermit2 :=
  {| permit2_approve := word_call [Byte.x87; Byte.x51; Byte.x7c; Byte.x45] eq_refl p2a_words;
     permit2_permit := word_call [Byte.x2b; Byte.x67; Byte.xb5; Byte.x70] eq_refl permit_words;
     permit2_transfer_from := word_call [Byte.x36; Byte.xc7; Byte.x85; Byte.x16] eq_refl p2t_words;
     permit_single_value := word_value_codec ps_words |}.
Next Obligation. by_decision. Qed.
Next Obligation. done. Qed.

(** ** Facts *)

Section permit2_facts.
Context {A : AlloyPrimitives} {P : IPermit2} {T : Chrono}.

Lemma expiration_u64_id e : is_uint 48 e → expiration_u64 e = e.
Proof.
  intros [H0 H1]. unfold expiration_u64. rewrite uint_from_str_show; [done|].
  unfold U64_MAX. assert (2 ^ 48 ≤ 2 ^ 64 - 1)%Z by (vm_compute; discriminate). lia.
Qed.

(** A call whose selector belongs to another call is not decoded. *)
Lemma decode_other {C C'} {wf : C → Prop} {wf' : C' → Prop} (s : SolCall wf) (s' : SolCall wf') c :
  SELECTOR s' ≠ SELECTOR s → ∃ e, abi_decode s (abi_encode s' c) = Err e.
Proof.
  intros Hs. destruct (abi_decode s (abi_encode s' c)) as [x|e] eqn:E; [|by exists e].
  apply abi_decode_selector in E. by rewrite abi_encode_selector in E.
Qed.

Ltac selectors := pose proof permit2_selectors as N; rewrite !NoDup_cons, !not_elem_of_cons in N;
  destruct_and! N; congruence.

Lemma permit2_approve_shown c chain r :
  p2a_wf c → permit2_visualize_tx_commands (abi_encode permit2_approve c) chain r
             = Some (decode_approve c chain r).
Proof.
  intros Hc. unfold permit2_visualize_tx_commands. rewrite decide_False by apply encode_length.
  by rewrite abi_decode_encode.
Qed.

Lemma permit2_permit_shown c chain r :
  permit_wf c → permit2_visualize_tx_commands (abi_encode permit2_permit c) chain r
                = Some (decode_permit c chain r).
Proof.
  intros Hc. unfold permit2_visualize_tx_commands. rewrite decide_False by apply encode_length.
  destruct (decode_other permit2_approve permit2_permit c ltac:(selectors)) as [e ->].
  by rewrite abi_decode_encode.
Qed.

Lemma permit2_transfer_shown c chain r :
  p2t_wf c → permit2_visualize_tx_commands (abi_encode permit2_transfer_from c) chain r
             = Some (decode_transfer_from c chain r).
Proof.
  intros Hc. unfold permit2_visualize_tx_commands. rewrite decide_False by apply encode_length.
  destruct (decode_other permit2_approve permit2_transfer_from c ltac:(selectors)) as [e ->].
  destruct (decode_other permit2_permit permit2_transfer_from c ltac:(selectors)) as [e' ->].
  unfold decode_custom_permit_params. rewrite transfer_from_length, decide_True by lia.
  by rewrite abi_decode_encode.
Qed.

(** The amount of an unregistered token is its raw number, that of a registered one exact. *)
Lemma token_amount_unregistered chain token n :
  token_amount None chain token n = show_Z n.
Proof. done. Qed.

Lemma token_amount_registered r chain token t n :
  token_metadata r !! (chain, token) = Some t → (0 < decimals t ≤ 77 → 0 ≤ n)%Z →
  (0 < decimals t ≤ 77)%Z → read_units (Z.to_N (decimals t)) (token_amount (Some r) chain token n) = n.
Proof.
  intros Ht Hn Hd. unfold token_amount, format_token_amount_u256. cbn. rewrite Ht. cbn.
  rewrite format_units_text by (by auto || lia). apply read_units_text; [by apply Hn|lia].
Qed.
End permit2_facts.

(** ** Properties *)

(** The three Permit2 calls are shown as themselves. A permit shows its raw amount and keeps
    a deadline of any width: permits with different amounts, or different deadlines beyond 64
    bits, are not shown alike. *)
Theorem permit2_calls_shown (A : AlloyPrimitives) (P : IPermit2) (T : Chrono) chain r :
  (∀ c, p2a_wf c → permit2_visualize_tx_commands (abi_encode permit2_approve c) chain r
     = Some (decode_approve c chain r)) ∧
  (∀ c, permit_wf c → permit2_visualize_tx_commands (abi_encode permit2_permit c) chain r
     = Some (decode_permit c chain r)) ∧
  (∀ c, p2t_wf c → permit2_visualize_tx_commands (abi_encode permit2_transfer_from c) chain r
     = Some (decode_transfer_from c chain r)) ∧
  (∀ c c', decode_permit c chain r = decode_permit c' chain r →
     pd_amount (ps_details (permit_single c)) = pd_amount (ps_details (permit_single c')) ∧
     (U64_MAX < ps_sig_deadline (permit_single c) → U64_MAX < ps_sig_deadline (permit_single c') →
      ps_sig_deadline (permit_single c) = ps_sig_deadline (permit_single c'))%Z).
Proof.
  split; [intros c; apply permit2_approve_shown|].
  split; [intros c; apply permit2_permit_shown|].
  split; [intros c; apply permit2_transfer_shown|].
  intros c c' E. unfold decode_permit, preview, list_layout in E. cbn [fmap list_fmap] in E.
  injection E as _ _ _ _ Ea _ _ _ _ _ Es _. split; [by apply show_Z_inj|]. intros Hd Hd'.
  unfold sig_deadline_text in Es. rewrite !decide_False in Es by lia.
  by apply (inj (String.append "unix:")), show_Z_inj in Es.
Qed.

Definition sample_chrono : Chrono := {| utc_minutes _ := None; utc_display _ := None |}.

Definition sample_p2t : permit2TransferFromCall :=
  MkPermit2TransferFrom (sample_address Byte.x01) (sample_address Byte.x02) 77
    (sample_address Byte.x03).

Lemma sample_p2t_wf : p2t_wf sample_p2t.
Proof. unfold p2t_wf, is_address, is_uint. cbn. split_and!; done || lia. Qed.

Lemma permit2_calls_shown_witness :
  let A := alloy_ref in let P := permit2_ref in let T := sample_chrono in
  permit2_visualize_tx_commands (abi_encode permit2_transfer_from sample_p2t) 1 None
    = Some (decode_transfer_from sample_p2t 1 None).
Proof.
  intros A P T. destruct (permit2_calls_shown A P T 1 None) as (_ & _ & Ht & _).
  exact (Ht sample_p2t sample_p2t_wf).
Defined.

(** The selector-less layout of the router is tried on full calldata, before the selector of
    [transferFrom]: every call of 192 bytes or more that is neither an approval nor a permit,
    and whose first 192 bytes the struct decoder accepts, is shown as a permit. *)
Theorem permit2_inline_layout_shadows (A : AlloyPrimitives) (P : IPermit2) (T : Chrono)
    input p chain r :
  192 ≤ length input →
  take 4 input ≠ SELECTOR permit2_approve → take 4 input ≠ SELECTOR permit2_permit →
  value_decode permit_single_value (take 192 input) = Ok p →
  permit2_visualize_tx_commands input chain r
    = Some (decode_permit (MkPermit zero_address p []) chain r).
Proof.
  intros Hl Ha Hp Hv. unfold permit2_visualize_tx_commands. rewrite decide_False by lia.
  destruct (abi_decode permit2_approve input) as [c|] eqn:Ea.
  { by apply abi_decode_selector in Ea. }
  destruct (abi_decode permit2_permit input) as [c|] eqn:Ep.
  { by apply abi_decode_selector in Ep. }
  unfold decode_custom_permit_params. rewrite decide_False by lia. by rewrite Hv.
Qed.

(** A transfer with 64 more bytes behind it is shown as a permit of other values. *)
Lemma permit2_inline_layout_shadows_witness :
  let A := alloy_ref in let P := permit2_ref in let T := sample_chrono in
  let input := abi_encode permit2_transfer_from sample_p2t ++ replicate 64 Byte.x00 in
  abi_decode permit2_transfer_from input = Ok sample_p2t ∧
  ∃ p, permit2_visualize_tx_commands input 1 None
       = Some (decode_permit (MkPermit zero_address p []) 1 None).
Proof.
  intros A P T input. split; [vm_compute; reflexivity|].
  assert (is_ok (value_decode permit_single_value (take 192 input)) = true) as Hok
    by (vm_compute; reflexivity).
  destruct (value_decode permit_single_value (take 192 input)) as [p|e] eqn:E; [|discriminate Hok].
  exists p. apply (permit2_inline_layout_shadows A P T input p 1 None).
  - apply (bool_decide_unpack _). vm_compute. exact I.
  - apply (bool_decide_unpack _). vm_compute. exact I.
  - apply (bool_decide_unpack _). vm_compute. exact I.
  - exact E.
Defined.
