(* ===== verification/F64Text.v ===== *)
(** * Doubles as decimal text

    The two ways the Ethereum parser prints an [f64]: [{}], the shortest decimal text that
    reads back as the same double, and [{:.n}], rounded to [n] digits. Doubles are those of
    [Lamports]: a mantissa and an exponent, rounded to nearest, ties to even. *)

From S2P Require Import Prelude Json External Encodings DecimalText Lamports Alloy.
From S2P Require Import Panic Payload Errors Charset Proto Builders PlainText NearText EthFormat.

#[local] Open Scope Z_scope.

(** A double divided by an integer, itself a double. *)
Definition f64_over (x : Z * Z) (d : Z) : Z * Z :=
  let '(m, e) := x in
  if decide (e < 0) then f64_div m (d * 2 ^ (- e)) else f64_div (m * 2 ^ e) d.

(** [x * 10^p], rounded to an integer. *)
Definition f64_digits (p : Z) (x : Z * Z) : Z :=
  let '(m, e) := x in
  if decide (e < 0) then round_div_even (m * 10 ^ p) (2 ^ (- e)) else m * 10 ^ p * 2 ^ e.

Definition show_scaled (digits p : Z) : string :=
  if decide (p = 0) then show_Z digits else units_text digits p.

(** [{:.p}] *)
Definition show_f64_fixed (p : Z) (x : Z * Z) : string := show_scaled (f64_digits p x) p.

(** Whether the text with [p] digits behind the point reads back as the double. *)
Definition reads_back (x : Z * Z) (p : Z) : bool := bool_decide (f64_div (f64_digits p x) (10 ^ p) = x).

(** [{}] for a double that is not below [10^-4], where seventeen significant digits always read
    back and so twenty-one digits behind the point are enough, or that some text with so many
    digits behind the point denotes. *)
Definition show_f64 (x : Z * Z) : string :=
  let p := default 21 (List.find (reads_back x) (seqZ 0 22)) in
  show_scaled (f64_digits p x) p.

(** ** Facts *)

Lemma round_div_even_scale k x d :
  0 < k → 0 < d → round_div_even (x * k) (d * k) = round_div_even x d.
Proof.
  intros Hk Hd. unfold round_div_even. rewrite Z.div_mul_cancel_r, Z.mul_mod_distr_r by lia.
  repeat case_decide; try done; nia.
Qed.

(** Scaling a quotient by a power of two does not change the double. *)
Lemma f64_div_shift a b j : 0 < a → 0 < b → 0 ≤ j → f64_div (a * 2 ^ j) (b * 2 ^ j) = f64_div a b.
Proof.
  intros Ha Hb Hj. assert (0 < 2 ^ j) as Hp by (apply Z.pow_pos_nonneg; lia).
  unfold f64_div. rewrite !decide_False by nia.
  assert (∀ e, f64_scale (a * 2 ^ j) (b * 2 ^ j) e =
    ((f64_scale a b e).1 * 2 ^ j, (f64_scale a b e).2 * 2 ^ j)) as Hs.
  { intros e. unfold f64_scale. case_decide; cbn; f_equal; ring. }
  assert (∀ e, 0 < (f64_scale a b e).2) as Hden.
  { intros e. unfold f64_scale. case_decide; cbn; [done|].
    apply Z.mul_pos_pos; [done|]. apply Z.pow_pos_nonneg; lia. }
  assert (f64_exponent (a * 2 ^ j) (b * 2 ^ j) = f64_exponent a b) as ->.
  { unfold f64_exponent. rewrite !Z.log2_mul_pow2 by lia.
    replace (j + Z.log2 a - (j + Z.log2 b) - 53) with (Z.log2 a - Z.log2 b - 53) by lia.
    rewrite Hs. specialize (Hden (Z.log2 a - Z.log2 b - 53)).
    destruct (f64_scale a b _) as [num den]. cbn [fst snd] in *.
    by rewrite Z.div_mul_cancel_r by lia. }
  rewrite Hs. specialize (Hden (f64_exponent a b)).
  destruct (f64_scale a b _) as [num den]. cbn [fst snd] in *.
  by rewrite round_div_even_scale.
Qed.

(** The double of a quotient below [2^23] is within half a unit of its last digit, which is
    at least the thirtieth behind the point. *)
Lemma f64_div_near a b m e :
  0 < a → 0 < b → a < 2 ^ 23 * b → f64_div a b = (m, e) →
  e ≤ -30 ∧ Z.abs (2 * (a * 2 ^ (- e) - m * b)) ≤ b.
Proof.
  intros Ha Hb Hab E. unfold f64_div in E. rewrite decide_False in E by lia.
  pose proof (f64_exponent_small a b Ha Hb Hab) as He.
  unfold f64_scale in E. rewrite decide_True in E by lia. injection E as <- <-.
  split; [done|]. by apply round_div_even_error.
Qed.

(** Quotients with one double are close. *)
Lemma f64_div_close a b a' b' :
  0 < a → 0 < b → a < 2 ^ 23 * b → 0 < a' → 0 < b' → a' < 2 ^ 23 * b' →
  f64_div a b = f64_div a' b' → Z.abs (a * b' - a' * b) * 2 ^ 30 ≤ b * b'.
Proof.
  intros Ha Hb Hab Ha' Hb' Hab' E. destruct (f64_div a b) as [m e] eqn:Ed.
  destruct (f64_div_near a b m e Ha Hb Hab Ed) as [He H1].
  destruct (f64_div_near a' b' m e Ha' Hb' Hab' (eq_sym E)) as [_ H2].
  assert (2 ^ 30 ≤ 2 ^ (- e)) as Hk by (apply Z.pow_le_mono_r; lia).
  set (k := 2 ^ (- e)) in *. clearbody k. clear Ed E He Hab Hab'.
  assert (Z.abs (a * b' - a' * b) * k ≤ b * b') as H; [|nia].
  assert (Z.abs (2 * (a * k - m * b)) * b' ≤ b * b') as H1' by nia.
  assert (Z.abs (2 * (a' * k - m * b')) * b ≤ b * b') as H2' by nia.
  assert (2 * ((a * b' - a' * b) * k) = 2 * (a * k - m * b) * b' - 2 * (a' * k - m * b') * b)
    as Heq by ring.
  rewrite <-(Z.abs_eq b') in H1' at 1 by lia. rewrite <-(Z.abs_eq b) in H2' at 1 by lia.
  rewrite <-Z.abs_mul in H1', H2'. rewrite <-(Z.abs_eq k) by lia. rewrite <-Z.abs_mul. lia.
Qed.

Lemma read_scaled n p d :
  0 ≤ n → 0 ≤ p ≤ d → read_units (Z.to_N d) (show_scaled n p) = n * 10 ^ (d - p).
Proof.
  intros Hn Hp. unfold show_scaled. case_decide as H0.
  - subst p. unfold read_units.
    destruct (split_dot_digits (show_Z n) "" (show_nonneg_digits n Hn)) as [-> _].
    rewrite dec_value_show, Z2N.id, Z.sub_0_r by lia. lia.
  - pose proof (read_units_text n p Hn ltac:(lia)) as Hr. revert Hr.
    unfold read_units, units_text. assert (0 < 10 ^ p) as Hpp by (apply Z.pow_pos_nonneg; lia).
    pose proof (Z.mod_pos_bound n _ Hpp). pose proof (Z.div_pos n _ Hn Hpp) as Hq.
    destruct (split_dot_digits (show_Z (n / 10 ^ p))
      (pad_left (Z.to_nat p) (show_Z (n mod 10 ^ p))) (show_nonneg_digits _ Hq)) as [_ ->].
    set (f := pad_left _ _). assert (String.length f = Z.to_nat p) as ->.
    { apply pad_left_length. destruct (decide (n mod 10 ^ p = 0)) as [->|]; [cbn; lia|].
      apply length_show_Z. rewrite Z2Nat.id by lia. lia. }
    rewrite !Z2N.id, Z2Nat.id, Z.sub_diag by lia. intros Hr.
    replace (10 ^ d) with (10 ^ p * 10 ^ (d - p)) by (rewrite <-Z.pow_add_r by lia; f_equal; lia).
    nia.
Qed.

(** Dividing a small integer as a double rounds once. *)
Lemma f64_over_small n d : 0 < n < 2 ^ 53 → 0 < d → f64_over (f64_of_u64 n) d = f64_div n d.
Proof.
  intros Hn Hd. destruct (f64_of_u64_exact n Hn) as (j & Hj & ->). unfold f64_over.
  case_decide.
  - rewrite Z.opp_involutive. apply f64_div_shift; lia.
  - assert (j = 0) as -> by lia. rewrite Z.pow_0_r. change (- 0) with 0.
    by rewrite Z.pow_0_r, !Z.mul_1_r.
Qed.

(** The digits at a finer scale are exact. *)
Lemma f64_digits_exact n k p :
  0 < n → 0 ≤ k ≤ p → p ≤ 9 → n < 2 ^ 23 * 10 ^ k →
  f64_digits p (f64_div n (10 ^ k)) = n * 10 ^ (p - k).
Proof.
  intros Hn Hk Hp Hb. assert (0 < 10 ^ k) as Hk10 by (apply Z.pow_pos_nonneg; lia).
  destruct (f64_div n (10 ^ k)) as [m e] eqn:E.
  destruct (f64_div_near n (10 ^ k) m e Hn Hk10 Hb E) as [He Herr].
  unfold f64_digits. rewrite decide_True by lia.
  assert (2 ^ 30 ≤ 2 ^ (- e)) as H30 by (apply Z.pow_le_mono_r; lia).
  apply round_div_even_unique; [lia|].
  replace (10 ^ p) with (10 ^ k * 10 ^ (p - k)) by (rewrite <-Z.pow_add_r by lia; f_equal; lia).
  assert (0 < 10 ^ (p - k)) as Hpk by (apply Z.pow_pos_nonneg; lia).
  assert (10 ^ k * 10 ^ (p - k) < 2 ^ 30) as Hlt.
  { rewrite <-Z.pow_add_r by lia. replace (k + (p - k)) with p by lia.
    apply Z.le_lt_trans with (10 ^ 9); [apply Z.pow_le_mono_r; lia|done]. }
  set (s := 10 ^ (p - k)) in *. set (u := 10 ^ k) in *. set (w := 2 ^ (- e)) in *.
  replace (2 * (m * (u * s) - n * s * w)) with (- (2 * (n * w - m * u)) * s) by ring.
  rewrite Z.abs_mul, Z.abs_opp, (Z.abs_eq s) by lia. nia.
Qed.

Lemma list_find_Some_first {A} (f : A → bool) l x :
  List.find f l = Some x → x ∈ l ∧ f x = true.
Proof. intros H%List.find_some. rewrite list_elem_of_In. done. Qed.

Lemma find_app {A} (f : A → bool) l k :
  List.find f (l ++ k) = match List.find f l with Some x => Some x | None => List.find f k end.
Proof. induction l as [|a l IH]; cbn; [done|]. by destruct (f a). Qed.

Lemma find_seqZ (f : Z → bool) n p :
  0 ≤ p < n → f p = true → ∃ q, List.find f (seqZ 0 n) = Some q ∧ 0 ≤ q ≤ p ∧ f q = true.
Proof.
  intros Hp Hf. replace n with ((p + 1) + (n - (p + 1))) by lia. rewrite seqZ_app by lia.
  rewrite find_app. destruct (List.find f (seqZ 0 (p + 1))) as [q|] eqn:E.
  - exists q. split; [done|]. apply list_find_Some_first in E as [Hq Hfq].
    apply elem_of_seqZ in Hq. split; [lia|done].
  - assert (p ∈ seqZ 0 (p + 1)) as Hin by (apply elem_of_seqZ; lia).
    apply list_elem_of_In in Hin. apply (List.find_none _ _ E) in Hin. congruence.
Qed.

(** Rounded to fewer digits, the number stays in range. *)
Lemma f64_digits_range k n p :
  0 ≤ k ≤ 9 → 0 < n < 2 ^ 22 * 10 ^ k → 0 ≤ p ≤ k →
  0 ≤ f64_digits p (f64_div n (10 ^ k)) < 2 ^ 23 * 10 ^ p.
Proof.
  intros Hk Hn Hp. assert (1 ≤ 10 ^ k ≤ 10 ^ 9) as Hk10
    by (split; [apply (Z.pow_le_mono_r 10 0)|apply Z.pow_le_mono_r]; lia).
  destruct (f64_div n (10 ^ k)) as [m e] eqn:E.
  destruct (f64_div_near n (10 ^ k) m e ltac:(lia) ltac:(lia) ltac:(lia) E) as [He Herr].
  unfold f64_digits. rewrite decide_True by lia.
  assert (2 ^ 30 ≤ 2 ^ (- e)) as H30 by (apply Z.pow_le_mono_r; lia).
  assert (1 ≤ 10 ^ p) as Hp10 by (apply (Z.pow_le_mono_r 10 0); lia).
  pose proof (round_div_even_error (m * 10 ^ p) (2 ^ (- e)) ltac:(lia)) as Hr.
  set (c := round_div_even _ _) in *. clearbody c. set (w := 2 ^ (- e)) in *. clearbody w.
  set (u := 10 ^ p) in *. clearbody u. set (v := 10 ^ k) in *. clearbody v.
  change (2 ^ 30) with 1073741824 in *. change (2 ^ 22) with 4194304 in *.
  change (2 ^ 23) with 8388608 in *. change (10 ^ 9) with 1000000000 in *. clear E He Hp Hk.
  assert (0 ≤ m) as Hm0 by nia.
  assert (2 * (m * v) ≤ 2 * (n * w) + v) as Hm1 by lia.
  assert (n * w ≤ (4194304 * v - 1) * w) as Hm2 by nia.
  assert (2 * (m * v) ≤ 2 * (4194304 * v * w)) as Hm3 by nia.
  assert (m ≤ 4194304 * w) as Hm4 by nia.
  assert (2 * c * w ≤ 2 * (m * u) + w ∧ 2 * (m * u) - w ≤ 2 * c * w) as [Hc1 Hc2] by nia.
  split; [nia|]. assert (m * u ≤ 4194304 * w * u) by nia. nia.
Qed.

(** Below [2^22] the shortest text of a number with at most nine digits behind the point is
    exactly that number. *)
Lemma show_f64_exact_at k n :
  0 ≤ k ≤ 9 → 0 ≤ n < 2 ^ 22 * 10 ^ k → n < 2 ^ 53 →
  read_units (Z.to_N k) (show_f64 (f64_over (f64_of_u64 n) (10 ^ k))) = n.
Proof.
  intros Hk Hn Hn53. assert (1 ≤ 10 ^ k ≤ 10 ^ 9) as Hk10
    by (split; [apply (Z.pow_le_mono_r 10 0)|apply Z.pow_le_mono_r]; lia).
  destruct (decide (n = 0)) as [->|Hne].
  { assert (f64_over (f64_of_u64 0) (10 ^ k) = (0, 0)) as -> by reflexivity.
    change (show_f64 (0, 0)) with (show_scaled 0 0). by rewrite read_scaled by lia. }
  rewrite f64_over_small by lia.
  set (x := f64_div n (10 ^ k)).
  assert (f64_digits k x = n) as Hkx.
  { unfold x. rewrite f64_digits_exact by lia. rewrite Z.sub_diag. lia. }
  assert (reads_back x k = true) as Hr by (apply bool_decide_eq_true; by rewrite Hkx).
  destruct (find_seqZ (reads_back x) 22 k ltac:(lia) Hr) as (p & Hf & Hp & Hrp).
  unfold show_f64. rewrite Hf. change (default 21 (Some p)) with p.
  apply bool_decide_eq_true in Hrp. set (c := f64_digits p x) in *.
  assert (0 < 10 ^ p) as Hp10 by (apply Z.pow_pos_nonneg; lia).
  assert (0 < c < 2 ^ 23 * 10 ^ p) as Hc.
  { pose proof (f64_digits_range k n p Hk ltac:(lia) Hp) as Hc. fold x c in Hc.
    enough (c ≠ 0) by lia. intros H0. rewrite H0 in Hrp. unfold f64_div at 1 in Hrp.
    rewrite decide_True in Hrp by done.
    destruct (f64_div_near n (10 ^ k) 0 0 ltac:(lia) ltac:(lia) ltac:(lia) (eq_sym Hrp)). lia. }
  rewrite read_scaled by lia.
  pose proof (f64_div_close c (10 ^ p) n (10 ^ k) ltac:(lia) Hp10 ltac:(lia) ltac:(lia)
    ltac:(lia) ltac:(lia) Hrp) as H.
  replace (10 ^ k) with (10 ^ p * 10 ^ (k - p)) in *
    by (rewrite <-Z.pow_add_r by lia; f_equal; lia).
  set (u := 10 ^ p) in *. set (v := 10 ^ (k - p)) in *. clearbody u v.
  replace (c * (u * v) - n * u) with ((c * v - n) * u) in H by ring.
  rewrite Z.abs_mul, (Z.abs_eq u) in H by lia.
  change (2 ^ 30) with 1073741824 in H. change (10 ^ 9) with 1000000000 in *.
  clear -H Hk10 Hp10. nia.
Qed.

(** The shortest text of a number of ten-thousandths is exactly that number. *)
Lemma show_f64_exact n :
  0 ≤ n < 2 ^ 22 * 10 ^ 4 →
  read_units 4 (show_f64 (f64_over (f64_of_u64 n) (10 ^ 4))) = n.
Proof. intros Hn. apply (show_f64_exact_at 4); lia. Qed.
