(* ===== verification/EthRouter.v ===== *)
(** * Ethereum: the Uniswap Universal Router

    [protocols/uniswap/contracts/universal_router.rs] and [v4_pool.rs] of
    [chain_parsers/visualsign-ethereum]: the commands of an [execute] call, paired with their
    inputs by position and decoded one by one, and the visualizers of the registry. *)

From S2P Require Import Prelude Panic Json Payload Errors Charset External Encodings DecimalText.
From S2P Require Import Proto Registry Alloy AbiMetadata Builders Lamports PlainText NearText.
From S2P Require Import EthFormat EthRegistry SolCalls EthContracts EthPermit2 F64Text.

(** ** The interface *)

Record executeCall := MkExecute { commands : bytes; inputs : list bytes; deadline : Z }.
Record execute1Call := MkExecute1 { commands1 : bytes; inputs1 : list bytes }.

(** The parameters of the two V3 swaps, a tuple of five. *)
Record V3SwapParams := MkV3SwapParams {
  v3_recipient : address;
  v3_amount : Z;
  v3_limit : Z;
  v3_path : bytes;
  v3_payer_is_user : bool;
}.
Record V2SwapParams := MkV2SwapParams {
  v2_recipient : address;
  v2_amount_in : Z;
  v2_amount_out_minimum : Z;
  v2_path : list address;
  v2_payer : address;
}.
Record V2SwapOutParams := MkV2SwapOutParams {
  v2o_amount_out : Z;
  v2o_amount_in_maximum : Z;
  v2o_path : list address;
  v2o_recipient : address;
}.
Record PayPortionParams := MkPayPortion { pp_token : address; pp_recipient : address; pp_bips : Z }.
Record UnwrapWethParams := MkUnwrapWeth { uw_recipient : address; uw_amount_minimum : Z }.
Record WrapEthParams := MkWrapEth { we_recipient : address; we_amount_min : Z }.
Record SweepParams := MkSweep { sw_token : address; sw_recipient : address; sw_amount_minimum : Z }.
Record RouterTransferParams := MkRouterTransfer { rt_from : address; rt_to : address; rt_amount : Z }.

Definition execute_wf (c : executeCall) : Prop := is_uint 256 (deadline c).
Definition execute1_wf (c : execute1Call) : Prop := True.
Definition v3_wf (p : V3SwapParams) : Prop :=
  is_address (v3_recipient p) ∧ is_uint 256 (v3_amount p) ∧ is_uint 256 (v3_limit p).
Definition v2_wf (p : V2SwapParams) : Prop :=
  is_address (v2_recipient p) ∧ is_uint 256 (v2_amount_in p) ∧
  is_uint 256 (v2_amount_out_minimum p) ∧ Forall is_address (v2_path p) ∧ is_address (v2_payer p).
Definition v2o_wf (p : V2SwapOutParams) : Prop :=
  is_uint 256 (v2o_amount_out p) ∧ is_uint 256 (v2o_amount_in_maximum p) ∧
  Forall is_address (v2o_path p) ∧ is_address (v2o_recipient p).
Definition pp_wf (p : PayPortionParams) : Prop :=
  is_address (pp_token p) ∧ is_address (pp_recipient p) ∧ is_uint 256 (pp_bips p).
Definition uw_wf (p : UnwrapWethParams) : Prop :=
  is_address (uw_recipient p) ∧ is_uint 256 (uw_amount_minimum p).
Definition we_wf (p : WrapEthParams) : Prop :=
  is_address (we_recipient p) ∧ is_uint 256 (we_amount_min p).
Definition sw_wf (p : SweepParams) : Prop :=
  is_address (sw_token p) ∧ is_address (sw_recipient p) ∧ is_uint 256 (sw_amount_minimum p).
Definition rt_wf (p : RouterTransferParams) : Prop :=
  is_address (rt_from p) ∧ is_address (rt_to p) ∧ is_uint 160 (rt_amount p).

Class IUniversalRouter : Type := {
  execute_0 : SolCall execute_wf;
  execute_1 : SolCall execute1_wf;
  v3_params : SolValue v3_wf;
  v2_params : SolValue v2_wf;
  v2_out_params : SolValue v2o_wf;
  pay_portion_params : SolValue pp_wf;
  unwrap_weth_params : SolValue uw_wf;
  wrap_eth_params : SolValue we_wf;
  sweep_params : SolValue sw_wf;
  router_transfer_params : SolValue rt_wf;
  execute_selectors : SELECTOR execute_0 ≠ SELECTOR execute_1;
}.

(** ** Commands *)

Inductive Command : Type :=
| V3SwapExactIn | V3SwapExactOut | Permit2TransferFrom | Permit2PermitBatch | Sweep | Transfer
| PayPortion | V2SwapExactIn | V2SwapExactOut | Permit2Permit | WrapEth | UnwrapWeth
| Permit2TransferFromBatch | BalanceCheckErc20 | V4Swap | V3PositionManagerPermit
| V3PositionManagerCall | V4InitializePool | V4PositionManagerCall | ExecuteSubPlan.

#[export] Instance Command_eq_dec : EqDecision Command.
Proof. solve_decision. Defined.

Definition command_table : list (Z * Command) :=
  [(0, V3SwapExactIn); (1, V3SwapExactOut); (2, Permit2TransferFrom); (3, Permit2PermitBatch);
   (4, Sweep); (5, Transfer); (6, PayPortion); (8, V2SwapExactIn); (9, V2SwapExactOut);
   (10, Permit2Permit); (11, WrapEth); (12, UnwrapWeth); (13, Permit2TransferFromBatch);
   (14, BalanceCheckErc20); (16, V4Swap); (17, V3PositionManagerPermit);
   (18, V3PositionManagerCall); (19, V4InitializePool); (20, V4PositionManagerCall);
   (33, ExecuteSubPlan)]%Z.

(** [Command::try_from] *)
Definition command_of_byte (b : byte) : option Command :=
  snd <$> List.find (fun row => bool_decide (row.1 = byte_to_Z b)) command_table.

(** The [Debug] text. *)
Definition debug_command (c : Command) : string :=
  match c with
  | V3SwapExactIn => "V3SwapExactIn" | V3SwapExactOut => "V3SwapExactOut"
  | Permit2TransferFrom => "Permit2TransferFrom" | Permit2PermitBatch => "Permit2PermitBatch"
  | Sweep => "Sweep" | Transfer => "Transfer" | PayPortion => "PayPortion"
  | V2SwapExactIn => "V2SwapExactIn" | V2SwapExactOut => "V2SwapExactOut"
  | Permit2Permit => "Permit2Permit" | WrapEth => "WrapEth" | UnwrapWeth => "UnwrapWeth"
  | Permit2TransferFromBatch => "Permit2TransferFromBatch"
  | BalanceCheckErc20 => "BalanceCheckErc20" | V4Swap => "V4Swap"
  | V3PositionManagerPermit => "V3PositionManagerPermit"
  | V3PositionManagerCall => "V3PositionManagerCall" | V4InitializePool => "V4InitializePool"
  | V4PositionManagerCall => "V4PositionManagerCall" | ExecuteSubPlan => "ExecuteSubPlan"
  end.

Definition debug_commands (l : list Command) : string :=
  "[" +:+ str_join ", " (debug_command <$> l) +:+ "]".

(** The known commands with their positions; other bytes are skipped. *)
Fixpoint map_commands_from (idx : nat) (raw : bytes) : list (nat * Command) :=
  match raw with
  | [] => []
  | b :: raw =>
      match command_of_byte b with
      | Some cmd => (idx, cmd) :: map_commands_from (S idx) raw
      | None => map_commands_from (S idx) raw
      end
  end.

Definition map_commands (raw : bytes) : list (nat * Command) := map_commands_from 0 raw.

(** ** Paths *)

(** A big-endian number. *)
Definition be_val (bs : bytes) : Z := le_val (reverse bs).

(** The first and last token, the first and last fee, and the number of hops. *)
Definition decode_v3_path (path : bytes) : option (address * address * Z * Z * nat) :=
  let len := length path in
  if decide (len < 43 ∨ (len - 20) mod 23 ≠ 0) then None
  else
    let first_token := take 20 path in
    let leading_fee := be_val (take 3 (drop 20 path)) in
    let last_token_start := len - 20 in
    let last_token := drop last_token_start path in
    let trailing_fee_start := last_token_start - 3 in
    let trailing_fee := be_val (take 3 (drop trailing_fee_start path)) in
    Some (first_token, last_token, leading_fee, trailing_fee, (len - 20) / 23).

(** ** The decoders of the commands *)

Section router.
Context {H : HexCodec} {A : AlloyPrimitives} {P : IPermit2} {U : IUniversalRouter} {T : Chrono}.
Implicit Types (registry : option ContractRegistry) (chain_id : Z) (bs : bytes).

Definition failed (label : string) bs : SignablePayloadField :=
  TextV2 (Common (label +:+ ": 0x" +:+ hex_encode bs) label)
    (FieldTextV2 "Failed to decode parameters").

Definition invalid_path (label : string) (path : bytes) : SignablePayloadField :=
  TextV2 (Common (label +:+ ": Invalid path") label)
    (FieldTextV2 ("Path length: " +:+ show_nat (length path) +:+ " bytes (expected 20 + N*23)")).

Definition empty_path (label : string) : SignablePayloadField :=
  TextV2 (Common (label +:+ ": Empty path") label) (FieldTextV2 "Swap path is empty").

(** [fee as f64 / 10000.0], printed with [{}]. *)
Definition fee_pct (fee : Z) : string := show_f64 (f64_over (f64_of_u64 fee) (10 ^ 4)).

Definition via_v3 (hops : nat) (fee : Z) : string :=
  if decide (hops = 1) then " via V3 (" +:+ fee_pct fee +:+ "% fee)"
  else " via V3 (" +:+ show_nat hops +:+ " hops, first fee " +:+ fee_pct fee +:+ "%)".

Definition decode_v3_swap_exact_in bs chain_id registry : SignablePayloadField :=
  let label := "V3 Swap Exact In" in
  match value_decode v3_params bs with
  | Err _ => failed label bs
  | Ok p =>
      match decode_v3_path (v3_path p) with
      | None => invalid_path label (v3_path p)
      | Some (token_in, token_out, fee, _, hops) =>
          let token_in_symbol := token_symbol registry chain_id token_in in
          let token_out_symbol := token_symbol registry chain_id token_out in
          let amount_in_str := token_amount registry chain_id token_in (v3_amount p) in
          let amount_out_min_str := token_amount registry chain_id token_out (v3_limit p) in
          let text := "Swap " +:+ amount_in_str +:+ " " +:+ token_in_symbol +:+ " for >="
                      +:+ amount_out_min_str +:+ " " +:+ token_out_symbol +:+ via_v3 hops fee in
          preview label text
            (Some (list_layout
               [text_v2 "Input Token" token_in_symbol;
                text_v2 "Input Amount" amount_in_str;
                text_v2 "Output Token" token_out_symbol;
                text_v2 "Minimum Output" (">=" +:+ amount_out_min_str);
                text_v2 "Fee Tier" (fee_pct fee +:+ "%")]))
      end
  end.

Definition decode_v3_swap_exact_out bs chain_id registry : SignablePayloadField :=
  let label := "V3 Swap Exact Out" in
  match value_decode v3_params bs with
  | Err _ => failed label bs
  | Ok p =>
      match decode_v3_path (v3_path p) with
      | None => invalid_path label (v3_path p)
      | Some (token_out, token_in, _, fee, hops) =>
          let token_in_symbol := token_symbol registry chain_id token_in in
          let token_out_symbol := token_symbol registry chain_id token_out in
          let amount_out_str := token_amount registry chain_id token_out (v3_amount p) in
          let amount_in_max_str := token_amount registry chain_id token_in (v3_limit p) in
          let text := "Swap <=" +:+ amount_in_max_str +:+ " " +:+ token_in_symbol +:+ " for "
                      +:+ amount_out_str +:+ " " +:+ token_out_symbol +:+ via_v3 hops fee in
          preview label text
            (Some (list_layout
               [text_v2 "Input Token" token_in_symbol;
                text_v2 "Maximum Input" ("<=" +:+ amount_in_max_str);
                text_v2 "Output Token" token_out_symbol;
                text_v2 "Output Amount" amount_out_str;
                text_v2 "Fee Tier" (fee_pct fee +:+ "%")]))
      end
  end.

(** The last address of a path that starts with [a]. *)
Definition last_address (a : address) (path : list address) : address := List.last path a.

Definition decode_v2_swap_exact_in bs chain_id registry : SignablePayloadField :=
  let label := "V2 Swap Exact In" in
  match value_decode v2_params bs with
  | Err _ => failed label bs
  | Ok p =>
      match v2_path p with
      | [] => empty_path label
      | token_in :: rest =>
          let token_out := last_address token_in rest in
          let token_in_symbol := token_symbol registry chain_id token_in in
          let token_out_symbol := token_symbol registry chain_id token_out in
          let amount_in_str := token_amount registry chain_id token_in (v2_amount_in p) in
          let amount_out_min_str :=
            token_amount registry chain_id token_out (v2_amount_out_minimum p) in
          let hops := show_nat (length rest) in
          preview label
            ("Swap " +:+ amount_in_str +:+ " " +:+ token_in_symbol +:+ " for >="
             +:+ amount_out_min_str +:+ " " +:+ token_out_symbol +:+ " via V2 (" +:+ hops
             +:+ " hops)")
            (Some (list_layout
               [text_v2 "Input Token" token_in_symbol;
                text_v2 "Input Amount" amount_in_str;
                text_v2 "Output Token" token_out_symbol;
                text_v2 "Minimum Output" (">=" +:+ amount_out_min_str);
                text_v2 "Hops" hops]))
      end
  end.

Definition decode_v2_swap_exact_out bs chain_id registry : SignablePayloadField :=
  let label := "V2 Swap Exact Out" in
  match value_decode v2_out_params bs with
  | Err _ => failed label bs
  | Ok p =>
      match v2o_path p with
      | [] => empty_path label
      | token_in :: rest =>
          let token_out := last_address token_in rest in
          let token_in_symbol := token_symbol registry chain_id token_in in
          let token_out_symbol := token_symbol registry chain_id token_out in
          let amount_out_str := token_amount registry chain_id token_out (v2o_amount_out p) in
          let amount_in_max_str :=
            token_amount registry chain_id token_in (v2o_amount_in_maximum p) in
          let hops := show_nat (length rest) in
          preview label
            ("Swap <=" +:+ amount_in_max_str +:+ " " +:+ token_in_symbol +:+ " for "
             +:+ amount_out_str +:+ " " +:+ token_out_symbol +:+ " via V2 (" +:+ hops
             +:+ " hops)")
            (Some (list_layout
               [text_v2 "Input Token" token_in_symbol;
                text_v2 "Maximum Input" ("<=" +:+ amount_in_max_str);
                text_v2 "Output Token" token_out_symbol;
                text_v2 "Output Amount" amount_out_str;
                text_v2 "Hops" hops]))
      end
  end.

(** [bips_pct >= 1.0] *)
Definition f64_ge_one (x : Z * Z) : bool :=
  let '(m, e) := x in
  if decide (e < 0)%Z then bool_decide (2 ^ (- e) ≤ m)%Z else bool_decide (1 ≤ m * 2 ^ e)%Z.

Definition percentage_str (bips : Z) : string :=
  if decide (bips < 2 ^ 128)%Z then
    let bips_pct := f64_over (f64_div bips 1) 100 in
    if f64_ge_one bips_pct then show_f64_fixed 2 bips_pct +:+ "%"
    else show_f64_fixed 4 bips_pct +:+ "%"
  else show_Z bips +:+ " bips (raw)".

Definition decode_pay_portion bs chain_id registry : SignablePayloadField :=
  let label := "Pay Portion" in
  match value_decode pay_portion_params bs with
  | Err _ => failed label bs
  | Ok p =>
      let symbol := token_symbol registry chain_id (pp_token p) in
      let percentage := percentage_str (pp_bips p) in
      preview label
        ("Pay " +:+ percentage +:+ " of " +:+ symbol +:+ " to "
         +:+ display_address (pp_recipient p))
        (Some (list_layout
           [text_v2 "Token" symbol; text_v2 "Percentage" percentage;
            text_v2 "Recipient" (debug_address (pp_recipient p))]))
  end.

(** The amount at the decimals of the wrapped token of the chain. *)
Definition weth_amount registry chain_id (amount : Z) : option string :=
  weth_addr ← weth_address chain_id;
  r ← registry;
  fst <$> format_token_amount_u256 r chain_id weth_addr amount.

Definition decode_unwrap_weth bs chain_id registry : SignablePayloadField :=
  let label := "Unwrap WETH" in
  match value_decode unwrap_weth_params bs with
  | Err _ => failed label bs
  | Ok p =>
      let amount_min_str :=
        default (show_Z (uw_amount_minimum p))
          (weth_amount registry chain_id (uw_amount_minimum p)) in
      preview label
        ("Unwrap >=" +:+ amount_min_str +:+ " WETH to ETH for "
         +:+ display_address (uw_recipient p))
        (Some (list_layout
           [TextV2 (Common amount_min_str "Minimum Amount")
              (FieldTextV2 (">=" +:+ amount_min_str +:+ " WETH"));
            text_v2 "Recipient" (debug_address (uw_recipient p))]))
  end.

Definition decode_wrap_eth bs chain_id registry : SignablePayloadField :=
  let label := "Wrap ETH" in
  match value_decode wrap_eth_params bs with
  | Err _ => failed label bs
  | Ok p =>
      let amount_min_str :=
        default (format_ether (we_amount_min p)) (weth_amount registry chain_id (we_amount_min p)) in
      text_v2 label ("Wrap >=" +:+ amount_min_str +:+ " ETH to WETH")
  end.

Definition decode_sweep bs chain_id registry : SignablePayloadField :=
  let label := "Sweep" in
  match value_decode sweep_params bs with
  | Err _ => failed label bs
  | Ok p =>
      text_v2 label
        ("Sweep >=" +:+ token_amount registry chain_id (sw_token p) (sw_amount_minimum p) +:+ " "
         +:+ token_symbol registry chain_id (sw_token p) +:+ " to "
         +:+ debug_address (sw_recipient p))
  end.

Definition decode_router_transfer bs : SignablePayloadField :=
  let label := "Transfer" in
  match value_decode router_transfer_params bs with
  | Err _ => failed label bs
  | Ok p =>
      text_v2 label
        ("Transfer " +:+ show_Z (rt_amount p) +:+ " tokens from " +:+ debug_address (rt_from p)
         +:+ " to " +:+ debug_address (rt_to p))
  end.

Definition decode_permit2_transfer_from bs chain_id registry : SignablePayloadField :=
  default (failed "Permit2 Transfer From" bs) (permit2_visualize_tx_commands bs chain_id registry).

(** [chunks(32)] *)
Fixpoint chunks (fuel n : nat) (bs : bytes) : list bytes :=
  match fuel, bs with
  | S fuel, _ :: _ => take n bs :: chunks fuel n (drop n bs)
  | _, _ => []
  end.

Definition show_decode_error bs (err : string) : SignablePayloadField :=
  let slot i chunk := text_v2 ("Slot " +:+ show_nat i) ("0x" +:+ hex_encode chunk) in
  PreviewLayout (Common ("0x" +:+ hex_encode bs) "Permit2 Permit")
    (FieldPreviewLayout (Some (FieldTextV2 "Permit2 Permit (Failed to Decode)"))
       (Some (FieldTextV2 ("Error: " +:+ err +:+ ", Length: " +:+ show_nat (length bs)
                           +:+ " bytes"))) None
       (Some (list_layout (imap slot (chunks (length bs) 32 bs))))).

Definition decode_permit2_permit bs chain_id registry : SignablePayloadField :=
  default (show_decode_error bs "Failed to decode parameters")
    (permit2_visualize_tx_commands bs chain_id registry).

(** ** The visualizer *)

Definition decode_command (cmd : Command) (input : option bytes) chain_id registry
    : SignablePayloadField :=
  match input with
  | None =>
      TextV2 (Common (debug_command cmd +:+ " input: None") (debug_command cmd))
        (FieldTextV2 "Input: None")
  | Some bs =>
      match cmd with
      | V3SwapExactIn => decode_v3_swap_exact_in bs chain_id registry
      | V3SwapExactOut => decode_v3_swap_exact_out bs chain_id registry
      | V2SwapExactIn => decode_v2_swap_exact_in bs chain_id registry
      | V2SwapExactOut => decode_v2_swap_exact_out bs chain_id registry
      | PayPortion => decode_pay_portion bs chain_id registry
      | WrapEth => decode_wrap_eth bs chain_id registry
      | UnwrapWeth => decode_unwrap_weth bs chain_id registry
      | Sweep => decode_sweep bs chain_id registry
      | Transfer => decode_router_transfer bs
      | Permit2TransferFrom => decode_permit2_transfer_from bs chain_id registry
      | Permit2Permit => decode_permit2_permit bs chain_id registry
      | _ =>
          let input_hex := "0x" +:+ hex_encode bs in
          TextV2 (Common (debug_command cmd +:+ " input: " +:+ input_hex) (debug_command cmd))
            (FieldTextV2 ("Input: " +:+ input_hex))
      end
  end.

(** A text field becomes a preview; other fields keep their own label. *)
Definition wrap_command (display_idx : nat) (field : SignablePayloadField) : SignablePayloadField :=
  match field with
  | TextV2 common text =>
      PreviewLayout (Common (common_fallback_text common) ("Command " +:+ show_nat (S display_idx)))
        (FieldPreviewLayout (Some (FieldTextV2 (common_label common))) (Some text) None None)
  | _ => field
  end.

Definition command_fields (commands : bytes) (inputs : list bytes) chain_id registry
    : list SignablePayloadField :=
  imap (fun display_idx '(raw_idx, cmd) =>
          wrap_command display_idx (decode_command cmd (inputs !! raw_idx) chain_id registry))
    (map_commands commands).

Definition visualize_commands (commands : bytes) (inputs : list bytes) (deadline : option string)
    chain_id registry : option SignablePayloadField :=
  let mapped_cmds_only := (map_commands commands).*2 in
  let count := show_nat (length mapped_cmds_only) in
  let deadline_field := match deadline with Some dl => [text_v2 "Deadline" dl] | None => [] end in
  let detail_fields := command_fields commands inputs chain_id registry ++ deadline_field in
  let head := "Uniswap Universal Router Execute: " +:+ count +:+ " commands ("
              +:+ debug_commands mapped_cmds_only +:+ ")" in
  Some (PreviewLayout
    (Common (match deadline with Some dl => head +:+ ", deadline " +:+ dl | None => head end)
       "Universal Router")
    (FieldPreviewLayout (Some (FieldTextV2 "Uniswap Universal Router Execute"))
       (Some (FieldTextV2 (match deadline with
                           | Some dl => count +:+ " commands, deadline " +:+ dl
                           | None => count +:+ " commands"
                           end)))
       None (Some (list_layout detail_fields)))).

Definition router_visualize_tx_commands (input : bytes) chain_id registry
    : option SignablePayloadField :=
  if decide (length input < 4) then None
  else
    match abi_decode execute_0 input with
    | Ok call =>
        (* [try_into] to an [i64] *)
        if decide (2 ^ 63 - 1 < deadline call)%Z then None
        else
          let deadline :=
            if decide (0 < deadline call)%Z then utc_display (deadline call) else None in
          visualize_commands (commands call) (inputs call) deadline chain_id registry
    | Err _ =>
        match abi_decode execute_1 input with
        | Ok call => visualize_commands (commands1 call) (inputs1 call) None chain_id registry
        | Err _ => None
        end
    end.

(** The visualizers of the registry decode with a fresh default registry. *)
Definition visualize {JsonAbi} (v : ContractVisualizer) (context : VisualizerContext JsonAbi)
    : or_panic (result VisualSignError (option (list AnnotatedPayloadField))) :=
  '(contract_registry, _) ← with_default_protocols;
  let tx_commands :=
    match v with
    | UniversalRouterContractVisualizer => router_visualize_tx_commands
    | Permit2ContractVisualizer => permit2_visualize_tx_commands
    end in
  match tx_commands (ctx_calldata context) (ctx_chain_id context) (Some contract_registry) with
  | Some field => Ok (Ok (Some [annotate_field field]))
  | None => Ok (Ok None)
  end.
End router.

(** [V4PoolManagerVisualizer::visualize_tx_commands] decodes nothing yet. *)
Definition v4_visualize_tx_commands (input : bytes) : option SignablePayloadField :=
  if decide (length input < 4) then None else None.

(** ** Facts: commands *)

(** The number of known commands in front of a position. *)
Definition known_before (raw : bytes) (i : nat) : nat := length (omap command_of_byte (take i raw)).

Lemma map_commands_from_app idx raw raw' :
  map_commands_from idx (raw ++ raw') =
  map_commands_from idx raw ++ map_commands_from (idx + length raw) raw'.
Proof.
  revert idx; induction raw as [|b raw IH]; intros idx; cbn [map_commands_from app length];
    [by rewrite Nat.add_0_r|].
  rewrite !IH, Nat.add_succ_r. by destruct (command_of_byte b).
Qed.

Lemma length_map_commands_from idx raw :
  length (map_commands_from idx raw) = length (omap command_of_byte raw).
Proof.
  revert idx; induction raw as [|b raw IH]; intros idx; cbn [map_commands_from omap list_omap]; [done|].
  destruct (command_of_byte b); cbn [length]; by rewrite IH.
Qed.

(** A known command is listed with its own position, behind the known ones before it. *)
Lemma map_commands_known raw i b cmd :
  raw !! i = Some b → command_of_byte b = Some cmd →
  map_commands raw !! known_before raw i = Some (i, cmd).
Proof.
  intros Hi Hb. unfold map_commands, known_before.
  assert (map_commands_from 0 raw = map_commands_from 0 (take i raw ++ b :: drop (S i) raw)) as ->
    by (by rewrite take_drop_middle).
  rewrite map_commands_from_app.
  rewrite lookup_app_r by (rewrite length_map_commands_from; lia).
  rewrite length_map_commands_from, Nat.sub_diag. cbn [map_commands_from]. rewrite Hb.
  cbn [lookup list_lookup].
  rewrite length_take_le by (apply lookup_lt_Some in Hi; lia). done.
Qed.

Lemma map_commands_listed idx raw i cmd :
  (i, cmd) ∈ map_commands_from idx raw →
  ∃ b, raw !! (i - idx) = Some b ∧ idx ≤ i ∧ command_of_byte b = Some cmd.
Proof.
  revert idx; induction raw as [|b raw IH]; intros idx; cbn [map_commands_from]; [set_solver|].
  assert ((i, cmd) ∈ map_commands_from (S idx) raw →
    ∃ b0, (b :: raw) !! (i - idx) = Some b0 ∧ idx ≤ i ∧ command_of_byte b0 = Some cmd) as Hrec.
  { intros (b0 & Hb & Hle & Hc)%IH. exists b0. split; [|split; [lia|done]].
    replace (i - idx) with (S (i - S idx)) by lia. done. }
  destruct (command_of_byte b) as [c|] eqn:Hb; [|apply Hrec].
  rewrite elem_of_cons. intros [[= -> ->]|Hin]; [|by apply Hrec].
  exists b. rewrite Nat.sub_diag. done.
Qed.

(** ** Facts: paths *)

(** A path of at least one hop. *)
Fixpoint encode_hops (hops : list (Z * address)) : bytes :=
  match hops with
  | [] => []
  | (fee, token) :: hops => be_bytes 3 fee ++ token ++ encode_hops hops
  end.

Definition encode_v3_path (first : address) (hops : list (Z * address)) : bytes :=
  first ++ encode_hops hops.

Definition hop_wf (hop : Z * address) : Prop := is_uint 24 hop.1 ∧ is_address hop.2.

Lemma be_val_be_bytes n z : (0 ≤ z < 256 ^ Z.of_nat n)%Z → be_val (be_bytes n z) = z.
Proof.
  intros Hz. unfold be_val, be_bytes. rewrite reverse_involutive, le_val_le_bytes.
  by apply Z.mod_small.
Qed.

Lemma length_encode_hops hops : Forall hop_wf hops → length (encode_hops hops) = 23 * length hops.
Proof.
  induction 1 as [|[fee token] hops [_ Ht] _ IH]; [done|]. cbn [encode_hops].
  rewrite !length_app, length_be_bytes, IH, Ht. cbn [length]. lia.
Qed.

Lemma encode_hops_snoc hops fee token :
  encode_hops (hops ++ [(fee, token)]) = encode_hops hops ++ be_bytes 3 fee ++ token.
Proof.
  induction hops as [|[f t] hops IH]; cbn [encode_hops app]; [by rewrite app_nil_r|].
  by rewrite IH, <-!app_assoc.
Qed.

Lemma fee_val fee : is_uint 24 fee → be_val (be_bytes 3 fee) = fee.
Proof. intros Hf. by apply be_val_be_bytes. Qed.

Lemma decode_v3_path_encode first hops f0 t0 f1 t1 :
  is_address first → Forall hop_wf hops → head hops = Some (f0, t0) → last hops = Some (f1, t1) →
  decode_v3_path (encode_v3_path first hops) = Some (first, t1, f0, f1, length hops).
Proof.
  intros Ha Hw H0 H1. pose proof (length_encode_hops hops Hw) as Hl.
  assert (length (encode_v3_path first hops) = 20 + 23 * length hops) as Hlen
    by (unfold encode_v3_path; by rewrite length_app, Ha, Hl).
  assert (1 ≤ length hops) as Hne by (destruct hops; [done|cbn; lia]).
  unfold decode_v3_path. rewrite Hlen. replace (20 + 23 * length hops - 20) with (length hops * 23) by lia.
  rewrite Nat.Div0.mod_mul, Nat.div_mul by lia. rewrite decide_False by lia. cbv zeta.
  assert (take 20 (encode_v3_path first hops) = first) as ->
    by (unfold encode_v3_path; by rewrite take_app_length').
  assert (take 3 (drop 20 (encode_v3_path first hops)) = be_bytes 3 f0) as ->.
  { unfold encode_v3_path. rewrite drop_app_length' by done. destruct hops as [|h hops]; [done|].
    cbn in H0. injection H0 as ->. cbn [encode_hops]. by rewrite take_app_length'. }
  apply last_Some in H1 as [hops' ->]. apply Forall_app in Hw as [Hw' Hw1].
  apply Forall_cons in Hw1 as [[Hf1 Ht1] _]. cbn [fst snd] in Hf1, Ht1.
  pose proof (length_encode_hops hops' Hw') as Hl'. rewrite length_app in *. cbn [length] in *.
  assert (encode_v3_path first (hops' ++ [(f1, t1)]) =
    ((first ++ encode_hops hops') ++ be_bytes 3 f1) ++ t1) as ->
    by (unfold encode_v3_path; by rewrite encode_hops_snoc, <-!app_assoc).
  rewrite drop_app_length' by (rewrite !length_app, length_be_bytes, Hl', Ha; lia).
  rewrite <-app_assoc, drop_app_length' by (rewrite length_app, Hl', Ha; lia).
  rewrite take_app_length' by done. rewrite (fee_val f1) by done.
  rewrite fee_val; [done|]. destruct hops' as [|h hops']; cbn in H0; simplify_eq; [done|].
  apply Forall_cons in Hw' as [[Hf _] _]. done.
Qed.

(** ** An instance *)

#[local] Unset Program Cases.

(** Byte strings in a row, each behind a word that is not a byte. *)
Definition item_words (items : list bytes) : list Z :=
  mjoin ((fun bs => 257%Z :: (byte_to_Z <$> bs)) <$> items).

Lemma item_words_cons bs items :
  item_words (bs :: items) = 257%Z :: (byte_to_Z <$> bs) ++ item_words items.
Proof. done. Qed.

Fixpoint split_items (ws : list Z) : list Z * list (list Z) :=
  match ws with
  | [] => ([], [])
  | w :: ws =>
      let '(c, rest) := split_items ws in
      if decide (w = 257%Z) then ([], c :: rest) else (w :: c, rest)
  end.

Lemma split_items_bytes (bs : bytes) ws :
  split_items ((byte_to_Z <$> bs) ++ ws) =
  ((byte_to_Z <$> bs) ++ (split_items ws).1, (split_items ws).2).
Proof.
  induction bs as [|b bs IH]; [cbn; by destruct (split_items ws)|].
  rewrite fmap_cons. cbn [app split_items]. rewrite IH.
  rewrite decide_False by (pose proof (byte_to_Z_range b); lia). done.
Qed.

Lemma split_item_words items : split_items (item_words items) = ([], (fun bs : bytes => byte_to_Z <$> bs) <$> items).
Proof.
  induction items as [|bs items IH]; [done|]. rewrite item_words_cons, fmap_cons.
  cbn [split_items]. rewrite split_items_bytes, IH.
  rewrite decide_True by done. cbn [fst snd]. by rewrite app_nil_r.
Qed.

Lemma item_words_range items : Forall (is_uint 256) (item_words items).
Proof.
  induction items as [|bs items IH]; [constructor|]. rewrite item_words_cons.
  apply Forall_cons. split; [unfold is_uint; lia|]. apply Forall_app. split; [|done].
  apply byte_words_range.
Qed.

Definition items_of (ws : list Z) : bytes * list bytes :=
  let '(c, rest) := split_items ws in (byte_of_Z <$> c, (fun ws : list Z => byte_of_Z <$> ws) <$> rest).

Lemma items_of_words (bs : bytes) items :
  items_of ((byte_to_Z <$> bs) ++ item_words items) = (bs, items).
Proof.
  unfold items_of. rewrite split_items_bytes, split_item_words. cbn [fst snd].
  rewrite app_nil_r, bytes_of_words. f_equal. induction items as [|x items IH]; csimpl; [done|].
  by rewrite bytes_of_words, IH.
Qed.

Lemma bytes_items_range (bs : bytes) items :
  Forall (is_uint 256) ((byte_to_Z <$> bs) ++ item_words items).
Proof. apply Forall_app. split; [apply byte_words_range|apply item_words_range]. Qed.

Program Definition execute_words : WordCodec execute_wf :=
  {| to_words c := deadline c :: (byte_to_Z <$> commands c) ++ item_words (inputs c);
     of_words ws :=
       match ws with
       | d :: ws => let '(c, i) := items_of ws in Some (MkExecute c i d)
       | [] => None
       end |}.
Next Obligation. intros c Hd. apply Forall_cons. split; [done|apply bytes_items_range]. Qed.
Next Obligation. intros [c i d] _. cbn [commands inputs deadline]. by rewrite items_of_words. Qed.

Program Definition execute1_words : WordCodec execute1_wf :=
  {| to_words c := (byte_to_Z <$> commands1 c) ++ item_words (inputs1 c);
     of_words ws := let '(c, i) := items_of ws in Some (MkExecute1 c i) |}.
Next Obligation. intros c _. apply bytes_items_range. Qed.
Next Obligation. intros [c i] _. cbn [commands1 inputs1]. by rewrite items_of_words. Qed.

Definition bool_word (b : bool) : Z := if b then 1 else 0.

Program Definition v3_words : WordCodec v3_wf :=
  {| to_words p := address_word (v3_recipient p) :: v3_amount p :: v3_limit p ::
                   bool_word (v3_payer_is_user p) :: (byte_to_Z <$> v3_path p);
     of_words ws :=
       match ws with
       | r :: a :: l :: u :: path =>
           Some (MkV3SwapParams (word_address r) a l (byte_of_Z <$> path) (negb (u =? 0)%Z))
       | _ => None
       end |}.
Next Obligation.
  intros p (Hr & Ha & Hl). rewrite !Forall_cons.
  split_and!; [by apply address_word_range|done|done| |apply byte_words_range].
  unfold is_uint. destruct (v3_payer_is_user p); cbn; lia.
Qed.
Next Obligation.
  intros [r a l path u] (Hr & _). cbn [v3_recipient v3_amount v3_limit v3_path v3_payer_is_user].
  rewrite word_address_word, bytes_of_words by done. by destruct u.
Qed.

Lemma address_words_range path : Forall is_address path → Forall (is_uint 256) (address_word <$> path).
Proof. intros Hp. apply Forall_fmap. eapply Forall_impl; [done|]. apply address_word_range. Qed.

Lemma addresses_of_words path :
  Forall is_address path → word_address <$> (address_word <$> path) = path.
Proof. induction 1 as [|a path Ha _ IH]; csimpl; [done|]. by rewrite word_address_word, IH. Qed.

Program Definition v2_words : WordCodec v2_wf :=
  {| to_words p := address_word (v2_recipient p) :: v2_amount_in p :: v2_amount_out_minimum p ::
                   address_word (v2_payer p) :: (address_word <$> v2_path p);
     of_words ws :=
       match ws with
       | r :: a :: m :: y :: path =>
           Some (MkV2SwapParams (word_address r) a m (word_address <$> path) (word_address y))
       | _ => None
       end |}.
Next Obligation.
  intros p (Hr & Ha & Hm & Hp & Hy). rewrite !Forall_cons.
  split_and!; [by apply address_word_range|done|done|by apply address_word_range|].
  by apply address_words_range.
Qed.
Next Obligation.
  intros [r a m path y] (Hr & _ & _ & Hp & Hy).
  cbn [v2_recipient v2_amount_in v2_amount_out_minimum v2_path v2_payer] in *.
  by rewrite !word_address_word, addresses_of_words.
Qed.

Program Definition v2o_words : WordCodec v2o_wf :=
  {| to_words p := v2o_amount_out p :: v2o_amount_in_maximum p ::
                   address_word (v2o_recipient p) :: (address_word <$> v2o_path p);
     of_words ws :=
       match ws with
       | o :: m :: r :: path =>
           Some (MkV2SwapOutParams o m (word_address <$> path) (word_address r))
       | _ => None
       end |}.
Next Obligation.
  intros p (Ho & Hm & Hp & Hr). rewrite !Forall_cons.
  split_and!; [done|done|by apply address_word_range|by apply address_words_range].
Qed.
Next Obligation.
  intros [o m path r] (_ & _ & Hp & Hr).
  cbn [v2o_amount_out v2o_amount_in_maximum v2o_path v2o_recipient] in *.
  by rewrite !word_address_word, addresses_of_words.
Qed.

(** Two addresses and a number, and one address and a number. *)
Program Definition three_words {C} (wf : C → Prop) (a b : C → address) (n : C → Z)
    (mk : address → address → Z → C) (Hmk : ∀ c, mk (a c) (b c) (n c) = c)
    (Hwf : ∀ c, wf c → is_address (a c) ∧ is_address (b c) ∧ is_uint 256 (n c))
    : WordCodec wf :=
  {| to_words c := [address_word (a c); address_word (b c); n c];
     of_words ws :=
       match ws with [x; y; z] => Some (mk (word_address x) (word_address y) z) | _ => None end |}.
Next Obligation.
  intros C wf a b n mk Hmk Hwf c (Ha & Hb & Hn)%Hwf. rewrite !Forall_cons.
  split_and!; [by apply address_word_range..|done|constructor].
Qed.
Next Obligation.
  intros C wf a b n mk Hmk Hwf c (Ha & Hb & Hn)%Hwf. by rewrite !word_address_word, Hmk.
Qed.

Program Definition two_words {C} (wf : C → Prop) (a : C → address) (n : C → Z)
    (mk : address → Z → C) (Hmk : ∀ c, mk (a c) (n c) = c)
    (Hwf : ∀ c, wf c → is_address (a c) ∧ is_uint 256 (n c)) : WordCodec wf :=
  {| to_words c := [address_word (a c); n c];
     of_words ws := match ws with [x; z] => Some (mk (word_address x) z) | _ => None end |}.
Next Obligation.
  intros C wf a n mk Hmk Hwf c (Ha & Hn)%Hwf. rewrite !Forall_cons.
  split_and!; [by apply address_word_range|done|constructor].
Qed.
Next Obligation.
  intros C wf a n mk Hmk Hwf c (Ha & Hn)%Hwf. by rewrite !word_address_word, Hmk.
Qed.

Lemma rt_wf_words c : rt_wf c → is_address (rt_from c) ∧ is_address (rt_to c) ∧ is_uint 256 (rt_amount c).
Proof. intros (Hf & Ht & Ha). split_and!; [done..|]. by apply (is_uint_weaken 160). Qed.

Program Definition router_ref : IUniversalRouter :=
  {| execute_0 := word_call [Byte.x35; Byte.x93; Byte.x56; Byte.x4c] eq_refl execute_words;
     execute_1 := word_call [Byte.x24; Byte.x85; Byte.x6b; Byte.xc3] eq_refl execute1_words;
     v3_params := word_value_codec v3_words;
     v2_params := word_value_codec v2_words;
     v2_out_params := word_value_codec v2o_words;
     pay_portion_params := word_value_codec
       (three_words pp_wf pp_token pp_recipient pp_bips MkPayPortion _ (fun c Hc => Hc));
     unwrap_weth_params := word_value_codec
       (two_words uw_wf uw_recipient uw_amount_minimum MkUnwrapWeth _ (fun c Hc => Hc));
     wrap_eth_params := word_value_codec
       (two_words we_wf we_recipient we_amount_min MkWrapEth _ (fun c Hc => Hc));
     sweep_params := word_value_codec
       (three_words sw_wf sw_token sw_recipient sw_amount_minimum MkSweep _ (fun c Hc => Hc));
     router_transfer_params := word_value_codec
       (three_words rt_wf rt_from rt_to rt_amount MkRouterTransfer _ rt_wf_words) |}.
Next Obligation. by intros []. Qed.
Next Obligation. by intros []. Qed.
Next Obligation. by intros []. Qed.
Next Obligation. by intros []. Qed.
Next Obligation. by intros []. Qed.
Next Obligation. done. Qed.

(** ** Properties *)

(** C36: every known command of an [execute] call is shown with the input that the contract runs
    it with: the command at position [i] is paired with the input at position [i], whatever
    unknown bytes stand before it, and nothing is shown but known commands and the deadline. *)
Theorem router_commands_aligned (H : HexCodec) (A : AlloyPrimitives) (P : IPermit2)
    (U : IUniversalRouter) (T : Chrono) raw ins chain r :
  (∀ i b cmd, raw !! i = Some b → command_of_byte b = Some cmd →
     command_fields raw ins chain r !! known_before raw i =
       Some (wrap_command (known_before raw i) (decode_command cmd (ins !! i) chain r))) ∧
  (∀ d f, command_fields raw ins chain r !! d = Some f →
     ∃ i b cmd, raw !! i = Some b ∧ command_of_byte b = Some cmd ∧
       f = wrap_command d (decode_command cmd (ins !! i) chain r)) ∧
  length (command_fields raw ins chain r) = length (omap command_of_byte raw).
Proof.
  unfold command_fields. split; [|split].
  - intros i b cmd Hi Hb. rewrite list_lookup_imap, (map_commands_known raw i b cmd Hi Hb). done.
  - intros d f. rewrite list_lookup_imap.
    destruct (map_commands raw !! d) as [[i cmd]|] eqn:E; [|done]. intros [= <-].
    apply list_elem_of_lookup_2, map_commands_listed in E as (b & Hb & _ & Hc).
    rewrite Nat.sub_0_r in Hb. by exists i, b, cmd.
  - rewrite length_imap. apply length_map_commands_from.
Qed.

(** A command byte that the parser does not know, such as a known command with the flag
    that allows it to revert, leaves no trace: with it or without it, the call is shown in
    the same way. *)
Theorem router_unknown_command_hidden (H : HexCodec) (A : AlloyPrimitives) (P : IPermit2)
    (U : IUniversalRouter) (T : Chrono) raw ins b input dl chain r :
  length ins = length raw → command_of_byte b = None →
  visualize_commands (raw ++ [b]) (ins ++ [input]) dl chain r
    = visualize_commands raw ins dl chain r.
Proof.
  intros Hl Hb.
  assert (map_commands (raw ++ [b]) = map_commands raw) as Hm.
  { unfold map_commands. rewrite map_commands_from_app. cbn [map_commands_from]. rewrite Hb.
    apply app_nil_r. }
  unfold visualize_commands, command_fields. rewrite Hm.
  assert (imap (fun display_idx '(raw_idx, cmd) =>
      wrap_command display_idx (decode_command cmd ((ins ++ [input]) !! raw_idx) chain r))
      (map_commands raw) =
    imap (fun display_idx '(raw_idx, cmd) =>
      wrap_command display_idx (decode_command cmd (ins !! raw_idx) chain r))
      (map_commands raw)) as ->; [|done].
  apply list_eq. intros d. rewrite !list_lookup_imap.
  destruct (map_commands raw !! d) as [[i cmd]|] eqn:E; [|done]. cbn.
  apply list_elem_of_lookup_2, map_commands_listed in E as (b' & Hb' & _ & _).
  apply lookup_lt_Some in Hb'. by rewrite lookup_app_l by lia.
Qed.

(** A sweep with the revert flag behind a wrap. *)
Lemma router_unknown_command_hidden_witness :
  let H := hex_ref in let A := alloy_ref in let P := permit2_ref in let U := router_ref in
  let T := sample_chrono in
  let wrap := value_encode wrap_eth_params (MkWrapEth (sample_address Byte.x01) 5) in
  let sweep := value_encode sweep_params
    (MkSweep (sample_address Byte.x02) (sample_address Byte.x03) 0) in
  command_of_byte Byte.x84 = None ∧
  visualize_commands [Byte.x0b; Byte.x84] [wrap; sweep] None 1 None
    = visualize_commands [Byte.x0b] [wrap] None 1 None.
Proof.
  intros H A P U T wrap sweep. split; [reflexivity|].
  apply (router_unknown_command_hidden H A P U T [Byte.x0b] [wrap] Byte.x84 sweep None 1 None);
    reflexivity.
Defined.

(** A V3 path is read at both ends, for any number of hops: the tokens and fees reported are
    the first and the last of the path, and for an exact-output swap, whose path is reversed,
    the roles are exchanged. *)
Theorem v3_path_ends (first : address) hops f0 t0 f1 t1 :
  is_address first → Forall hop_wf hops → head hops = Some (f0, t0) → last hops = Some (f1, t1) →
  decode_v3_path (encode_v3_path first hops) = Some (first, t1, f0, f1, length hops).
Proof. apply decode_v3_path_encode. Qed.

Lemma v3_path_ends_witness :
  let a := sample_address Byte.x01 in let b := sample_address Byte.x02 in
  let c := sample_address Byte.x03 in
  decode_v3_path (encode_v3_path a [(3000%Z, b); (500%Z, c)]) = Some (a, c, 3000%Z, 500%Z, 2).
Proof.
  intros a b c. refine (v3_path_ends a [(3000%Z, b); (500%Z, c)] 3000 b 500 c eq_refl _ eq_refl eq_refl).
  repeat (apply Forall_cons; split; [split; [unfold is_uint; cbn; lia|reflexivity]|]). constructor.
Defined.

(** The fee of a pool is printed through a double and loses nothing: the percentage shown
    for any 24-bit fee stands for exactly that fee. *)
Theorem router_fee_exact fee : is_uint 24 fee → read_units 4 (fee_pct fee) = fee.
Proof.
  intros [H0 H1]. apply show_f64_exact. split; [done|]. etrans; [exact H1|]. done.
Qed.

Lemma router_fee_exact_witness : fee_pct 3000 = "0.3" ∧ read_units 4 (fee_pct 3000) = 3000%Z.
Proof.
  split; [vm_compute; reflexivity|]. apply router_fee_exact. unfold is_uint. lia.
Defined.

(** The recipient of a swap is not part of what is shown: two swaps that pay different
    recipients are shown alike. *)
Theorem swap_recipient_not_shown (H : HexCodec) (A : AlloyPrimitives) (P : IPermit2)
    (U : IUniversalRouter) (T : Chrono) recipient recipient' amount limit path payer chain r :
  let p := MkV3SwapParams recipient amount limit path payer in
  let p' := MkV3SwapParams recipient' amount limit path payer in
  v3_wf p → v3_wf p' → is_Some (decode_v3_path path) →
  decode_v3_swap_exact_in (value_encode v3_params p) chain r =
    decode_v3_swap_exact_in (value_encode v3_params p') chain r ∧
  decode_v3_swap_exact_out (value_encode v3_params p) chain r =
    decode_v3_swap_exact_out (value_encode v3_params p') chain r.
Proof.
  intros p p' Hp Hp' _. unfold decode_v3_swap_exact_in, decode_v3_swap_exact_out.
  by rewrite !value_decode_encode by done.
Qed.

Lemma swap_recipient_not_shown_witness :
  let H := hex_ref in let A := alloy_ref in let P := permit2_ref in let U := router_ref in
  let T := sample_chrono in
  let path := encode_v3_path (sample_address Byte.x0a) [(500%Z, sample_address Byte.x0b)] in
  let swap a := value_encode v3_params (MkV3SwapParams (sample_address a) 7 3 path true) in
  decode_v3_swap_exact_in (swap Byte.x01) 1 None = decode_v3_swap_exact_in (swap Byte.x02) 1 None.
Proof.
  intros H A P U T path swap.
  apply (swap_recipient_not_shown H A P U T (sample_address Byte.x01) (sample_address Byte.x02)
    7 3 path true 1 None).
  - split_and!; [reflexivity|unfold is_uint; cbn; lia..].
  - split_and!; [reflexivity|unfold is_uint; cbn; lia..].
  - apply (bool_decide_unpack _). vm_compute. exact I.
Defined.

(** An [execute] call whose deadline does not fit a signed 64-bit number is not decoded. *)
Theorem router_deadline_refused (H : HexCodec) (A : AlloyPrimitives) (P : IPermit2)
    (U : IUniversalRouter) (T : Chrono) c chain r :
  execute_wf c →
  router_visualize_tx_commands (abi_encode execute_0 c) chain r = None ↔ (2 ^ 63 ≤ deadline c)%Z.
Proof.
  intros Hc. unfold router_visualize_tx_commands. rewrite decide_False by apply encode_length.
  rewrite abi_decode_encode by done. case_decide; split; done || lia.
Qed.

Lemma router_deadline_refused_witness :
  let H := hex_ref in let A := alloy_ref in let P := permit2_ref in let U := router_ref in
  let T := sample_chrono in
  router_visualize_tx_commands (abi_encode execute_0 (MkExecute [] [] (2 ^ 256 - 1))) 1 None = None.
Proof.
  intros H A P U T.
  apply (router_deadline_refused H A P U T (MkExecute [] [] (2 ^ 256 - 1)) 1 None).
  - split; [|]; cbn; lia.
  - cbn. lia.
Defined.

(** The parameters of a [PERMIT2_TRANSFER_FROM] command carry no selector, and the decoder
    they are given to needs one: they are never decoded. *)
Theorem permit2_transfer_command_undecoded (H : HexCodec) (A : AlloyPrimitives) (P : IPermit2)
    (U : IUniversalRouter) (T : Chrono) bs chain r :
  length bs < 192 →
  take 4 bs ∉ [SELECTOR permit2_approve; SELECTOR permit2_permit; SELECTOR permit2_transfer_from] →
  decode_permit2_transfer_from bs chain r = failed "Permit2 Transfer From" bs.
Proof.
  rewrite !not_elem_of_cons. intros Hl (Ha & Hp & Ht & _).
  unfold decode_permit2_transfer_from, permit2_visualize_tx_commands. case_decide; [done|].
  destruct (abi_decode permit2_approve bs) eqn:Ea; [by apply abi_decode_selector in Ea|].
  destruct (abi_decode permit2_permit bs) eqn:Ep; [by apply abi_decode_selector in Ep|].
  unfold decode_custom_permit_params. rewrite decide_True by done. cbn [map_err].
  destruct (abi_decode permit2_transfer_from bs) eqn:Et; [by apply abi_decode_selector in Et|].
  done.
Qed.

Lemma permit2_transfer_command_undecoded_witness :
  let H := hex_ref in let A := alloy_ref in let P := permit2_ref in let U := router_ref in
  let T := sample_chrono in
  let bs := drop 4 (abi_encode permit2_transfer_from sample_p2t) in
  decode_permit2_transfer_from bs 1 None = failed "Permit2 Transfer From" bs.
Proof.
  intros H A P U T bs. apply (permit2_transfer_command_undecoded H A P U T bs 1 None).
  - apply (bool_decide_unpack _). vm_compute. exact I.
  - apply (bool_decide_unpack _). vm_compute. exact I.
Defined.
