(* ===== verification/EthJson.v ===== *)
(** * Ethereum: transactions and their JSON form

    The transactions of [alloy_consensus] as the parser reads them, the errors of [lib.rs],
    and [eth_json.rs] of [chain_parsers/visualsign-ethereum], the checked construction of a
    transaction from the fields of a JSON object. *)

From S2P Require Import Prelude Panic Json Payload Errors Charset External Encodings DecimalText.
From S2P Require Import Alloy SolCalls EthContracts EthPermit2 EthRouter.

(** ** Transactions *)

Inductive TxKind : Type := Create | Call (a : address).

Record TxLegacy := MkTxLegacy {
  legacy_chain_id : option Z;
  legacy_nonce : Z;
  legacy_gas_price : Z;
  legacy_gas_limit : Z;
  legacy_to : TxKind;
  legacy_value : Z;
  legacy_input : bytes;
}.

(** Addresses with the storage keys a transaction declares. *)
Definition AccessList : Type := list (address * list bytes).

Record TxEip1559 := MkTxEip1559 {
  e1559_chain_id : Z;
  e1559_nonce : Z;
  e1559_gas_limit : Z;
  e1559_max_fee_per_gas : Z;
  e1559_max_priority_fee_per_gas : Z;
  e1559_to : TxKind;
  e1559_value : Z;
  e1559_access_list : AccessList;
  e1559_input : bytes;
}.

Record TxEip2930 := MkTxEip2930 {
  e2930_chain_id : Z;
  e2930_nonce : Z;
  e2930_gas_price : Z;
  e2930_gas_limit : Z;
  e2930_to : TxKind;
  e2930_value : Z;
  e2930_access_list : AccessList;
  e2930_input : bytes;
}.

(** The shared part of the two forms of a blob transaction, and of a delegating one. *)
Record TxDynamicCall := MkTxDynamicCall {
  dyn_chain_id : Z;
  dyn_nonce : Z;
  dyn_gas_limit : Z;
  dyn_max_fee_per_gas : Z;
  dyn_max_priority_fee_per_gas : Z;
  dyn_to : address;
  dyn_value : Z;
  dyn_input : bytes;
}.

Inductive TxEip4844Variant : Type :=
| TxEip4844 (tx : TxDynamicCall)
| TxEip4844WithSidecar (tx : TxDynamicCall).

Inductive TypedTransaction : Type :=
| Legacy (tx : TxLegacy)
| Eip2930 (tx : TxEip2930)
| Eip1559 (tx : TxEip1559)
| Eip4844 (tx : TxEip4844Variant)
| Eip7702 (tx : TxDynamicCall).

(** ** Errors *)

Inductive EthereumParserError : Type :=
| UnexpectedTrailingData (msg : string)
| UnexpectedTransactionType (msg : string)
| UnsupportedTransactionType (msg : string)
| FailedToDecodeTransaction (msg : string)
| FailedToParseJsonTransaction (msg : string).

Definition show_eth_error (e : EthereumParserError) : string :=
  match e with
  | UnexpectedTrailingData m => "Unexpected trailing data: " +:+ m
  | UnexpectedTransactionType m => "Unexpected transaction type: " +:+ m
  | UnsupportedTransactionType m => "Unsupported transaction type: " +:+ m
  | FailedToDecodeTransaction m => "Failed to decode transaction: " +:+ m
  | FailedToParseJsonTransaction m => "Failed to parse JSON transaction: " +:+ m
  end.

(** ** The fields of the JSON object *)

Record EthJsonTransaction := MkEthJson {
  json_from : option string;
  json_to : option string;
  json_data : option string;
  json_value : option string;
  json_nonce : option string;
  json_gas : option string;
  json_gas_price : option string;
  json_max_fee_per_gas : option string;
  json_max_priority_fee_per_gas : option string;
  json_chain_id : option string;
}.

Definition DEFAULT_GAS_LIMIT : Z := 21000.
Definition MAX_HEX_DATA_LEN : nat := 512 * 1024.
Definition MAX_JSON_INPUT_LEN : nat := 1024 * 1024.
Definition ERROR_PREVIEW_LEN : nat := 64.
Definition U128_MAX : Z := 2 ^ 128 - 1.

Definition is_json_input (data : string) : bool := starts_with "{" (trim_start data).

(** ** Values *)

Fixpoint str_take (n : nat) (s : string) : string :=
  match n, s with
  | S n, String c s => String c (str_take n s)
  | _, _ => ""
  end.

(** [s.is_char_boundary(i)] for an index inside the text. *)
Definition is_char_boundary (s : string) (i : nat) : bool :=
  match String.get i s with Some c => negb (is_cont c) | None => true end.

Fixpoint char_boundary_before (s : string) (i : nat) : nat :=
  if is_char_boundary s i then i
  else match i with O => O | S i => char_boundary_before s i end.

Definition truncate_for_error (s : string) : string :=
  if decide (String.length s ≤ ERROR_PREVIEW_LEN) then s
  else str_take (char_boundary_before s (ERROR_PREVIEW_LEN - 3)) s +:+ "...".

Abbreviation json_m T := (result EthereumParserError T).

Definition json_err {T} (msg : string) : json_m T := Err (FailedToParseJsonTransaction msg).

Definition require_hex_prefix (s : string) : json_m string :=
  ok_or (FailedToParseJsonTransaction
           ("Hex value '" +:+ truncate_for_error s +:+ "' must start with '0x' prefix"))
    (split_hex_prefix s).

(** The macro [parse_hex_int!], over the parser of the type. *)
Definition parse_hex_int (from_hex : string → result string Z) (label s : string) : json_m Z :=
  hex ← require_hex_prefix s;
  if decide (hex = "") then
    json_err ("Empty hex " +:+ label +:+ " '" +:+ truncate_for_error s +:+ "'; use '0x0' for zero")
  else map_err (fun e => FailedToParseJsonTransaction
                  ("Invalid hex " +:+ label +:+ " '" +:+ truncate_for_error s +:+ "': " +:+ e))
         (from_hex hex).

Definition parse_hex_u64 (s : string) : json_m Z :=
  parse_hex_int (from_str_radix 16 U64_MAX) "u64" s.
Definition parse_hex_u128 (s : string) : json_m Z :=
  parse_hex_int (from_str_radix 16 U128_MAX) "u128" s.

(** [.map(..).transpose()] *)
Definition transpose {E A B} (f : A → result E B) (o : option A) : result E (option B) :=
  match o with Some a => Some <$> f a | None => Ok None end.

Definition field_context {T} (field : string) (m : json_m T) : json_m T :=
  map_err (fun e =>
    match e with
    | FailedToParseJsonTransaction msg =>
        FailedToParseJsonTransaction ("'" +:+ field +:+ "': " +:+ msg)
    | other => other
    end) m.

Section json.
Context {H : HexCodec} {A : AlloyPrimitives}.
(** The [Display] text of a hex error, and [serde_json] on the derived struct. *)
Context (show_hex : FromHexError → string).
Context (json_from_str : string → result string EthJsonTransaction).

Definition parse_hex_u256 (s : string) : json_m Z := parse_hex_int u256_from_hex "U256" s.

Definition parse_address (s : string) : json_m address :=
  map_err (fun e => FailedToParseJsonTransaction
             ("Invalid address '" +:+ truncate_for_error s +:+ "': " +:+ e))
    (address_from_str s).

Definition parse_hex_bytes (s : string) : json_m bytes :=
  hex ← require_hex_prefix s;
  if decide (hex = "") then Ok []
  else if decide (MAX_HEX_DATA_LEN < String.length hex) then
    json_err ("Hex data too large: " +:+ show_nat (String.length hex) +:+ " chars (max "
              +:+ show_nat MAX_HEX_DATA_LEN +:+ ")")
  else map_err (fun e => FailedToParseJsonTransaction
                  ("Invalid hex data '" +:+ truncate_for_error s +:+ "': " +:+ show_hex e))
         (hex_decode hex).

Definition json_gas_limit (tx : EthJsonTransaction) : json_m Z :=
  match json_gas tx with
  | Some raw =>
      parsed ← field_context "gas" (parse_hex_u64 raw);
      if decide (parsed = 0)%Z
      then json_err "'gas' must be greater than 0; omit the field to use the default (21000)"
      else Ok parsed
  | None => Ok DEFAULT_GAS_LIMIT
  end.

Definition json_chain (tx : EthJsonTransaction) : json_m Z :=
  match json_chain_id tx with
  | Some raw =>
      parsed ← field_context "chainId" (parse_hex_u64 raw);
      if decide (parsed = 0)%Z then json_err "'chainId' must be greater than 0" else Ok parsed
  | None => json_err "'chainId' is required"
  end.

Definition build_transaction (tx : EthJsonTransaction) : json_m TypedTransaction :=
  _ ← field_context "from" (transpose parse_address (json_from tx));
  if decide (json_gas_price tx ≠ None ∧ json_max_fee_per_gas tx ≠ None) then
    json_err "Cannot specify both 'gasPrice' (legacy) and 'maxFeePerGas' (EIP-1559)"
  else if decide (json_max_priority_fee_per_gas tx ≠ None ∧ json_max_fee_per_gas tx = None) then
    json_err "'maxPriorityFeePerGas' requires 'maxFeePerGas' to be set"
  else
    to ← match json_to tx with
         | Some addr => Call <$> field_context "to" (parse_address addr)
         | None => Ok Create
         end;
    value ← field_context "value" (transpose parse_hex_u256 (json_value tx));
    nonce ← field_context "nonce" (transpose parse_hex_u64 (json_nonce tx));
    gas_limit ← json_gas_limit tx;
    chain_id ← json_chain tx;
    input_data ← field_context "data" (transpose parse_hex_bytes (json_data tx));
    match json_max_fee_per_gas tx with
    | Some fee =>
        max_fee_per_gas ← field_context "maxFeePerGas" (parse_hex_u128 fee);
        priority ← field_context "maxPriorityFeePerGas"
                     (transpose parse_hex_u128 (json_max_priority_fee_per_gas tx));
        let max_priority_fee_per_gas := default 0%Z priority in
        if decide (max_fee_per_gas < max_priority_fee_per_gas)%Z then
          json_err "'maxPriorityFeePerGas' cannot exceed 'maxFeePerGas'"
        else
          Ok (Eip1559 (MkTxEip1559 chain_id (default 0%Z nonce) gas_limit max_fee_per_gas
                         max_priority_fee_per_gas to (default 0%Z value) []
                         (default [] input_data)))
    | None =>
        gas_price ← field_context "gasPrice" (transpose parse_hex_u128 (json_gas_price tx));
        Ok (Legacy (MkTxLegacy (Some chain_id) (default 0%Z nonce) (default 0%Z gas_price)
                      gas_limit to (default 0%Z value) (default [] input_data)))
    end.

Definition decode_json_transaction (data : string) : json_m TypedTransaction :=
  if decide (MAX_JSON_INPUT_LEN < String.length data) then
    json_err ("JSON input too large: " +:+ show_nat (String.length data) +:+ " bytes (max "
              +:+ show_nat MAX_JSON_INPUT_LEN +:+ ")")
  else
    input ← map_err FailedToParseJsonTransaction (json_from_str data);
    build_transaction input.
End json.

(** ** What the JSON form can express *)

Definition kind_wf (k : TxKind) : Prop :=
  match k with Create => True | Call a => is_address a end.

(** The widths of the fields and the limits of the JSON form. *)
Definition common_wf (chain_id nonce gas_limit : Z) (to : TxKind) (value : Z) (input : bytes)
    : Prop :=
  (0 < chain_id < 2 ^ 64)%Z ∧ is_uint 64 nonce ∧ (0 < gas_limit < 2 ^ 64)%Z ∧ kind_wf to ∧
  is_uint 256 value ∧ 2 * length input ≤ MAX_HEX_DATA_LEN.

Definition json_tx_wf (tx : TypedTransaction) : Prop :=
  match tx with
  | Legacy t =>
      ∃ c, legacy_chain_id t = Some c ∧ is_uint 128 (legacy_gas_price t) ∧
        common_wf c (legacy_nonce t) (legacy_gas_limit t) (legacy_to t) (legacy_value t)
          (legacy_input t)
  | Eip1559 t =>
      e1559_access_list t = [] ∧
      is_uint 128 (e1559_max_fee_per_gas t) ∧ (0 ≤ e1559_max_priority_fee_per_gas t)%Z ∧
      (e1559_max_priority_fee_per_gas t ≤ e1559_max_fee_per_gas t)%Z ∧
      common_wf (e1559_chain_id t) (e1559_nonce t) (e1559_gas_limit t) (e1559_to t)
        (e1559_value t) (e1559_input t)
  | _ => False
  end.

(** *** Integers as hex text *)

Definition hex_int (n : nat) (z : Z) : string := "0x" +:+ hex_of_bytes (be_bytes n z).

Lemma hex_of_bytes_cons b bs : hex_of_bytes (b :: bs) = hex_of_byte b +:+ hex_of_bytes bs.
Proof. done. Qed.

Lemma to_digit_hex_digit n : n < 16 → to_digit 16 (hex_digit n) = Some (Z.of_nat n).
Proof. intros. do 16 (destruct n as [|n]; [done|]). lia. Qed.

Lemma radix_value_app radix s t acc :
  radix_value radix acc (s +:+ t) = radix_value radix (radix_value radix acc s) t.
Proof. revert acc; induction s as [|c s IH]; intros acc; [done|]. cbn. apply IH. Qed.

Lemma radix_value_byte b acc :
  radix_value 16 acc (hex_of_byte b) = (acc * 256 + byte_to_Z b)%Z.
Proof.
  pose proof (byte_to_Z_range b) as Hb. unfold hex_of_byte. cbn [radix_value].
  set (n := Z.to_nat (byte_to_Z b)). assert (n < 256) by (unfold n; lia).
  rewrite !to_digit_hex_digit
    by (first [apply Nat.Div0.div_lt_upper_bound | apply Nat.mod_upper_bound]; lia).
  cbn [default]. rewrite Nat2Z.inj_div, Nat2Z.inj_mod.
  replace (byte_to_Z b) with (Z.of_nat n) by (unfold n; lia).
  change (Z.of_nat 16) with 16%Z. pose proof (Z.div_mod (Z.of_nat n) 16).
  unfold id. lia.
Qed.

Lemma be_val_snoc bs b : be_val (bs ++ [b]) = (be_val bs * 256 + byte_to_Z b)%Z.
Proof. unfold be_val. rewrite reverse_app. cbn. lia. Qed.

Lemma hex_of_bytes_snoc bs b : hex_of_bytes (bs ++ [b]) = hex_of_bytes bs +:+ hex_of_byte b.
Proof.
  induction bs as [|c bs IH]; [by destruct b|].
  rewrite <-app_comm_cons, !hex_of_bytes_cons, IH. apply str_app_assoc.
Qed.

Lemma radix_value_bytes bs : radix_value 16 0 (hex_of_bytes bs) = be_val bs.
Proof.
  induction bs as [|b bs IH] using rev_ind; [done|].
  by rewrite hex_of_bytes_snoc, radix_value_app, IH, radix_value_byte, be_val_snoc.
Qed.

Lemma hex_int_text n z :
  n ≠ 0 → (0 ≤ z < 256 ^ Z.of_nat n)%Z →
  hex_of_bytes (be_bytes n z) ≠ "" ∧
  str_all is_ascii_hexdigit (hex_of_bytes (be_bytes n z)) = true ∧
  radix_value 16 0 (hex_of_bytes (be_bytes n z)) = z.
Proof.
  intros Hn Hz. rewrite radix_value_bytes, be_val_be_bytes by done.
  split; [|split; [apply hex_of_bytes_digits|done]].
  pose proof (length_be_bytes n z) as Hl. by destruct (be_bytes n z); [cbn in Hl; lia|].
Qed.

Section json_facts.
Context {H : HexCodec} {A : AlloyPrimitives} (show_hex : FromHexError → string).

(** *** Reading what the printer writes *)

Lemma require_hex_prefix_app t : require_hex_prefix ("0x" +:+ t) = Ok t.
Proof. unfold require_hex_prefix, split_hex_prefix. by rewrite strip_prefix_app. Qed.

Lemma parse_hex_int_hex from_hex label n z :
  hex_of_bytes (be_bytes n z) ≠ "" → from_hex (hex_of_bytes (be_bytes n z)) = Ok z →
  parse_hex_int from_hex label (hex_int n z) = Ok z.
Proof.
  intros Hne Hf. unfold parse_hex_int, hex_int. rewrite require_hex_prefix_app.
  cbn [mbind result_bind]. by rewrite decide_False, Hf by done.
Qed.

Lemma from_str_radix_hex n z max :
  n ≠ 0 → (0 ≤ z < 256 ^ Z.of_nat n)%Z → (z ≤ max)%Z →
  from_str_radix 16 max (hex_of_bytes (be_bytes n z)) = Ok z.
Proof.
  intros Hn Hz Hm. destruct (hex_int_text n z Hn Hz) as (Hne & Hd & Hv).
  set (s := hex_of_bytes (be_bytes n z)) in *. destruct s as [|c s]; [done|].
  assert (radix_digits 16 max 0 (String c s) = Ok z) as <-.
  { apply radix_digits_Ok; [lia..|]. split; [|lia]. revert Hd. apply str_all_impl.
    intros a. by rewrite hexdigit_to_digit. }
  unfold from_str_radix. cbn [str_all] in Hd. apply andb_true_iff in Hd as [Hc _].
  revert Hc. by ascii_cases c.
Qed.

Lemma parse_hex_u64_int z : is_uint 64 z → parse_hex_u64 (hex_int 8 z) = Ok z.
Proof.
  intros Hz. unfold is_uint in Hz. apply parse_hex_int_hex.
  - by apply hex_int_text; [|].
  - apply from_str_radix_hex; unfold U64_MAX; lia.
Qed.

Lemma parse_hex_u128_int z : is_uint 128 z → parse_hex_u128 (hex_int 16 z) = Ok z.
Proof.
  intros Hz. unfold is_uint in Hz. apply parse_hex_int_hex.
  - by apply hex_int_text; [|].
  - apply from_str_radix_hex; unfold U128_MAX; lia.
Qed.

Lemma parse_hex_u256_int z : is_uint 256 z → parse_hex_u256 (hex_int 32 z) = Ok z.
Proof.
  intros Hz. unfold is_uint in Hz.
  destruct (hex_int_text 32 z) as (Hne & Hd & Hv); [done..|].
  apply parse_hex_int_hex; [done|]. rewrite u256_hex_digits; rewrite ?Hv; done || lia.
Qed.

Lemma hex_of_bytes_length bs : String.length (hex_of_bytes bs) = 2 * length bs.
Proof.
  induction bs as [|b bs IH]; [done|]. rewrite hex_of_bytes_cons, length_str_app, IH. cbn. lia.
Qed.

Lemma parse_hex_bytes_data bs :
  2 * length bs ≤ MAX_HEX_DATA_LEN → parse_hex_bytes show_hex ("0x" +:+ hex_encode bs) = Ok bs.
Proof.
  intros Hl. unfold parse_hex_bytes. rewrite require_hex_prefix_app. cbn [mbind result_bind].
  destruct bs as [|b bs].
  - by rewrite hex_encode_lower.
  - rewrite decide_False by by rewrite hex_encode_lower.
    rewrite decide_False by (rewrite hex_encode_lower, hex_of_bytes_length; lia).
    by rewrite hex_decode_encode.
Qed.

(** *** Ranges of what is read *)

Lemma parse_hex_int_Ok from_hex label s z :
  parse_hex_int from_hex label s = Ok z → ∃ t, from_hex t = Ok z.
Proof.
  unfold parse_hex_int. intros (t & _ & Ht)%result_bind_Ok. case_decide; [done|].
  exists t. destruct (from_hex t); [cbn in Ht; congruence|done].
Qed.

Lemma parse_hex_u64_range s z : parse_hex_u64 s = Ok z → is_uint 64 z.
Proof.
  intros (t & Ht)%parse_hex_int_Ok. apply from_str_radix_range in Ht; [|done..].
  unfold U64_MAX in Ht. unfold is_uint. lia.
Qed.

Lemma parse_hex_u128_range s z : parse_hex_u128 s = Ok z → is_uint 128 z.
Proof.
  intros (t & Ht)%parse_hex_int_Ok. apply from_str_radix_range in Ht; [|done..].
  unfold U128_MAX in Ht. unfold is_uint. lia.
Qed.

Lemma parse_hex_u256_range s z : parse_hex_u256 s = Ok z → is_uint 256 z.
Proof. intros (t & Ht)%parse_hex_int_Ok. by apply u256_hex_range in Ht. Qed.

Lemma parse_hex_bytes_length s bs :
  parse_hex_bytes show_hex s = Ok bs → 2 * length bs ≤ MAX_HEX_DATA_LEN.
Proof.
  unfold parse_hex_bytes. intros (t & _ & Ht)%result_bind_Ok.
  case_decide; [injection Ht as <-; unfold MAX_HEX_DATA_LEN; cbn [length]; lia|].
  case_decide; [done|]. destruct (hex_decode t) as [bs'|] eqn:E; [|done]. injection Ht as <-.
  destruct (Nat.odd (String.length t)) eqn:Ho; [by rewrite hex_decode_odd in E|].
  destruct (str_all is_ascii_hexdigit t) eqn:Hd.
  - destruct (hex_decode_digits t Ho Hd) as (bs & E' & Hl). rewrite E in E'. simplify_eq. lia.
  - destruct (hex_decode_bad t Ho Hd) as (c & i & E'). by rewrite E in E'.
Qed.

Lemma field_context_Ok {T} field (m : json_m T) x : field_context field m = Ok x ↔ m = Ok x.
Proof. by destruct m. Qed.

Lemma transpose_default {E X Y} (f : X → result E Y) (P : Y → Prop) o r d :
  transpose f o = Ok r → P d → (∀ x y, f x = Ok y → P y) → P (default d r).
Proof.
  destruct o as [x|]; cbn; [|by intros [= <-]]. destruct (f x) as [y|] eqn:E'; [|done].
  cbn. intros [= <-] _ Hf. cbn. eauto.
Qed.

Lemma json_gas_limit_range j g : json_gas_limit j = Ok g → (0 < g < 2 ^ 64)%Z.
Proof.
  unfold json_gas_limit. destruct (json_gas j) as [s|]; [|by intros [= <-]].
  intros (n & Hn%field_context_Ok%parse_hex_u64_range & Hg)%result_bind_Ok.
  case_decide; [done|]. injection Hg as <-. unfold is_uint in Hn. lia.
Qed.

Lemma json_chain_range j c : json_chain j = Ok c → (0 < c < 2 ^ 64)%Z.
Proof.
  unfold json_chain. destruct (json_chain_id j) as [s|]; [|done].
  intros (n & Hn%field_context_Ok%parse_hex_u64_range & Hg)%result_bind_Ok.
  case_decide; [done|]. injection Hg as <-. unfold is_uint in Hn. lia.
Qed.

Lemma json_to_wf j to :
  match json_to j with
  | Some addr => Call <$> field_context "to" (parse_address addr)
  | None => Ok Create
  end = Ok to → kind_wf to.
Proof.
  destruct (json_to j) as [a|]; [|by intros [= <-]].
  unfold parse_address. destruct (address_from_str a) as [b|] eqn:E; [|done].
  intros [= <-]. by apply address_length in E.
Qed.

(** *** The printer *)

Definition json_of_kind (k : TxKind) : option string :=
  match k with Create => None | Call a => Some (display_address a) end.

(** The JSON object of a transaction of a supported type. *)
Definition json_of (tx : TypedTransaction) : EthJsonTransaction :=
  let common nonce gas_limit to value input :=
    MkEthJson None (json_of_kind to) (Some ("0x" +:+ hex_encode input)) (Some (hex_int 32 value))
      (Some (hex_int 8 nonce)) (Some (hex_int 8 gas_limit)) in
  match tx with
  | Legacy t =>
      common (legacy_nonce t) (legacy_gas_limit t) (legacy_to t)
        (legacy_value t) (legacy_input t)
        (Some (hex_int 16 (legacy_gas_price t))) None None (hex_int 8 <$> legacy_chain_id t)
  | Eip1559 t =>
      common (e1559_nonce t) (e1559_gas_limit t) (e1559_to t)
        (e1559_value t) (e1559_input t)
        None (Some (hex_int 16 (e1559_max_fee_per_gas t)))
        (Some (hex_int 16 (e1559_max_priority_fee_per_gas t)))
        (Some (hex_int 8 (e1559_chain_id t)))
  | _ => MkEthJson None None None None None None None None None None
  end.

Lemma json_of_kind_to k :
  kind_wf k →
  match json_of_kind k with
  | Some addr => Call <$> field_context "to" (parse_address addr)
  | None => Ok Create
  end = Ok k.
Proof.
  destruct k as [|a]; [done|]. intros Ha. cbn [json_of_kind]. unfold parse_address.
  by rewrite display_address_parse.
Qed.

Lemma json_gas_limit_int j z :
  json_gas j = Some (hex_int 8 z) → (0 < z < 2 ^ 64)%Z → json_gas_limit j = Ok z.
Proof.
  intros Hj Hz. unfold json_gas_limit. rewrite Hj, parse_hex_u64_int by (unfold is_uint; lia).
  cbn. by rewrite decide_False by lia.
Qed.

Lemma json_chain_int j z :
  json_chain_id j = Some (hex_int 8 z) → (0 < z < 2 ^ 64)%Z → json_chain j = Ok z.
Proof.
  intros Hj Hz. unfold json_chain. rewrite Hj, parse_hex_u64_int by (unfold is_uint; lia).
  cbn. by rewrite decide_False by lia.
Qed.
End json_facts.

(** ** Properties *)

(** C35: the JSON form only ever yields a transaction of a supported type with every field in the
    range of its type: the chain id is there and positive, the gas limit is positive, the
    priority fee does not exceed the fee, and an object with both kinds of fee is refused. *)
Theorem json_transaction_sound (H : HexCodec) (A : AlloyPrimitives) show_hex j tx :
  build_transaction show_hex j = Ok tx →
  json_tx_wf tx ∧ ¬ (json_gas_price j ≠ None ∧ json_max_fee_per_gas j ≠ None) ∧
  (json_max_priority_fee_per_gas j ≠ None → ∃ t, tx = Eip1559 t).
Proof.
  unfold build_transaction. intros (_ & _ & Hb)%result_bind_Ok.
  case_decide as Hfees; [done|]. case_decide as Hprio; [done|].
  apply result_bind_Ok in Hb as (to & Hto%json_to_wf & Hb).
  apply result_bind_Ok in Hb as (value & Hvalue%field_context_Ok & Hb).
  apply result_bind_Ok in Hb as (nonce & Hnonce%field_context_Ok & Hb).
  apply result_bind_Ok in Hb as (gas & Hgas%json_gas_limit_range & Hb).
  apply result_bind_Ok in Hb as (chain & Hchain%json_chain_range & Hb).
  apply result_bind_Ok in Hb as (data & Hdata%field_context_Ok & Hb).
  assert (common_wf chain (default 0%Z nonce) gas to (default 0%Z value) (default [] data)).
  { split_and!; try lia; try done.
    - by eapply transpose_default; [exact Hnonce| |apply parse_hex_u64_range].
    - by eapply transpose_default; [exact Hvalue| |apply parse_hex_u256_range].
    - eapply (transpose_default _ (fun bs => 2 * length bs ≤ MAX_HEX_DATA_LEN));
        [exact Hdata|cbn [length]; lia|apply parse_hex_bytes_length]. }
  destruct (json_max_fee_per_gas j) as [fee|].
  - apply result_bind_Ok in Hb as (max & Hmax%field_context_Ok%parse_hex_u128_range & Hb).
    apply result_bind_Ok in Hb as (prio & Hp%field_context_Ok & Hb).
    assert (is_uint 128 (default 0%Z prio)) as [??]
      by by eapply transpose_default; [exact Hp| |apply parse_hex_u128_range].
    case_decide; [done|]. injection Hb as <-. split_and!; [|done|by eexists].
    cbn [json_tx_wf e1559_max_priority_fee_per_gas e1559_max_fee_per_gas].
    split_and!; done || lia.
  - apply result_bind_Ok in Hb as (price & Hp%field_context_Ok & [= <-]).
    assert (is_uint 128 (default 0%Z price))
      by by eapply transpose_default; [exact Hp| |apply parse_hex_u128_range].
    split; [by exists chain|]. naive_solver.
Qed.

(** Every transaction within those ranges has a JSON object, and reading the object back
    yields the transaction: no field is lost, renamed or rounded. *)
Theorem json_transaction_roundtrip (H : HexCodec) (A : AlloyPrimitives) show_hex tx :
  json_tx_wf tx → build_transaction show_hex (json_of tx) = Ok tx.
Proof.
  unfold build_transaction.
  destruct tx as [[c nonce price gas to value input]| |[c nonce gas max prio to value al input]| |];
    cbn [json_tx_wf]; try done.
  - intros (c' & [= ->] & Hprice & Hc & Hn & Hg & Hto & Hv & Hi).
    rewrite (json_chain_int _ c'), (json_gas_limit_int _ gas) by done.
    cbn [json_of json_from json_to json_data json_value json_nonce json_gas_price
      json_max_fee_per_gas json_max_priority_fee_per_gas transpose].
    rewrite (json_of_kind_to to Hto).
    by rewrite parse_hex_u64_int, parse_hex_u128_int, parse_hex_u256_int, parse_hex_bytes_data.
  - intros (Hal & Hmax & Hp0 & Hp & Hc & Hn & Hg & Hto & Hv & Hi). cbn in Hal, Hmax, Hp0, Hp.
    subst al. assert (is_uint 128 prio) by (unfold is_uint in *; lia).
    rewrite (json_chain_int _ c), (json_gas_limit_int _ gas) by done.
    cbn [json_of json_from json_to json_data json_value json_nonce json_gas_price
      json_max_fee_per_gas json_max_priority_fee_per_gas transpose].
    rewrite (json_of_kind_to to Hto).
    rewrite parse_hex_u64_int, !parse_hex_u128_int, parse_hex_u256_int, parse_hex_bytes_data by done.
    cbn. by rewrite !decide_False by first [naive_solver | lia].
Qed.

(** ** Witnesses *)

Definition sample_legacy : TypedTransaction :=
  Legacy (MkTxLegacy (Some 1%Z) 7 20000000000 21000 (Call (sample_address Byte.x11)) (10 ^ 18) []).

Definition sample_1559 : TypedTransaction :=
  Eip1559 (MkTxEip1559 1 7 100000 20000000000 1000000000 (Call (sample_address Byte.x11)) 0 []
             [Byte.xa9; Byte.x05; Byte.x9c; Byte.xbb]).

Lemma json_transaction_sound_witness :
  let j := json_of (H := hex_ref) (A := alloy_ref) sample_1559 in
  json_tx_wf sample_1559 ∧ ¬ (json_gas_price j ≠ None ∧ json_max_fee_per_gas j ≠ None) ∧
  (json_max_priority_fee_per_gas j ≠ None → ∃ t, sample_1559 = Eip1559 t).
Proof.
  intros j. apply (json_transaction_sound hex_ref alloy_ref (fun _ => "hex")).
  vm_compute. reflexivity.
Defined.

Lemma json_transaction_roundtrip_witness :
  build_transaction (H := hex_ref) (A := alloy_ref) (fun _ => "hex")
    (json_of (H := hex_ref) (A := alloy_ref) sample_legacy) = Ok sample_legacy.
Proof.
  apply json_transaction_roundtrip. exists 1%Z. unfold common_wf. split_and!; try done.
  apply Nat.leb_le. vm_compute. reflexivity.
Defined.
