(* ===== verification/EthConvert.v ===== *)
(** * Ethereum: from input to payload

    [lib.rs] of [chain_parsers/visualsign-ethereum]: decoding of the input, the chain id a
    transaction is shown under, the choice of a decoder for the call data, the payload, and
    the converter the registry holds. *)

From S2P Require Import Prelude Panic Json Payload Errors Charset External Encodings DecimalText Builders.
From S2P Require Import Signing Proto Registry Payment AbiMetadata.
From S2P Require Import Alloy EthFormat EthRegistry SolCalls EthContracts EthPermit2 EthRouter EthJson.

#[local] Unset Program Cases.

(** ** What it uses of [alloy_consensus] *)

Inductive TxType : Type := TxTypeLegacy | TxTypeEip2930 | TxTypeEip1559 | TxTypeEip4844 | TxTypeEip7702.

#[export] Instance TxType_eq_dec : EqDecision TxType.
Proof. solve_decision. Defined.

(** A signed transaction; the signature is not looked at. *)
Inductive TxEnvelope : Type :=
| EnvLegacy (signed : TxLegacy)
| EnvEip2930 (signed : TxEip2930)
| EnvEip1559 (signed : TxEip1559)
| EnvEip4844 (signed : TxEip4844Variant)
| EnvEip7702 (signed : TxDynamicCall).

(** The decoders take what they need off the front and return what is left. *)
Class AlloyTx : Type := {
  tx_type_of_byte : byte → result string TxType;
  show_tx_type : TxType → string;
  decode_1559 : bytes → result string (TxEip1559 * bytes);
  decode_legacy : bytes → result string (TxLegacy * bytes);
  decode_envelope : bytes → result string (TxEnvelope * bytes);
  tx_type_known b ty :
    tx_type_of_byte b = Ok ty ↔
    [TxTypeLegacy; TxTypeEip2930; TxTypeEip1559; TxTypeEip4844; TxTypeEip7702]
      !! Z.to_nat (byte_to_Z b) = Some ty;
  decode_1559_suffix bs t rest : decode_1559 bs = Ok (t, rest) → ∃ used, bs = used ++ rest;
  decode_legacy_suffix bs t rest : decode_legacy bs = Ok (t, rest) → ∃ used, bs = used ++ rest;
}.

(** ** The fields of a transaction *)

Definition tx_type (tx : TypedTransaction) : TxType :=
  match tx with
  | Legacy _ => TxTypeLegacy
  | Eip2930 _ => TxTypeEip2930
  | Eip1559 _ => TxTypeEip1559
  | Eip4844 _ => TxTypeEip4844
  | Eip7702 _ => TxTypeEip7702
  end.

(** The transaction inside either form of a blob transaction. *)
Definition blob_tx (v : TxEip4844Variant) : TxDynamicCall :=
  match v with TxEip4844 tx | TxEip4844WithSidecar tx => tx end.

Definition tx_chain_id (tx : TypedTransaction) : option Z :=
  match tx with
  | Legacy t => legacy_chain_id t
  | Eip2930 t => Some (e2930_chain_id t)
  | Eip1559 t => Some (e1559_chain_id t)
  | Eip4844 v => Some (dyn_chain_id (blob_tx v))
  | Eip7702 t => Some (dyn_chain_id t)
  end.

Definition tx_kind (tx : TypedTransaction) : TxKind :=
  match tx with
  | Legacy t => legacy_to t
  | Eip2930 t => e2930_to t
  | Eip1559 t => e1559_to t
  | Eip4844 v => Call (dyn_to (blob_tx v))
  | Eip7702 t => Call (dyn_to t)
  end.

Definition tx_to (tx : TypedTransaction) : option address :=
  match tx_kind tx with Create => None | Call a => Some a end.

Definition tx_value (tx : TypedTransaction) : Z :=
  match tx with
  | Legacy t => legacy_value t
  | Eip2930 t => e2930_value t
  | Eip1559 t => e1559_value t
  | Eip4844 v => dyn_value (blob_tx v)
  | Eip7702 t => dyn_value t
  end.

Definition tx_gas_limit (tx : TypedTransaction) : Z :=
  match tx with
  | Legacy t => legacy_gas_limit t
  | Eip2930 t => e2930_gas_limit t
  | Eip1559 t => e1559_gas_limit t
  | Eip4844 v => dyn_gas_limit (blob_tx v)
  | Eip7702 t => dyn_gas_limit t
  end.

Definition tx_nonce (tx : TypedTransaction) : Z :=
  match tx with
  | Legacy t => legacy_nonce t
  | Eip2930 t => e2930_nonce t
  | Eip1559 t => e1559_nonce t
  | Eip4844 v => dyn_nonce (blob_tx v)
  | Eip7702 t => dyn_nonce t
  end.

Definition tx_input (tx : TypedTransaction) : bytes :=
  match tx with
  | Legacy t => legacy_input t
  | Eip2930 t => e2930_input t
  | Eip1559 t => e1559_input t
  | Eip4844 v => dyn_input (blob_tx v)
  | Eip7702 t => dyn_input t
  end.

Definition extract_gas_price (tx : TypedTransaction) : Z :=
  match tx with
  | Legacy t => legacy_gas_price t
  | Eip2930 t => e2930_gas_price t
  | Eip1559 t => e1559_max_fee_per_gas t
  | Eip4844 v =>
      match v with
      | TxEip4844 inner_tx => dyn_max_fee_per_gas inner_tx
      | TxEip4844WithSidecar sidecar_tx => dyn_max_fee_per_gas sidecar_tx
      end
  | Eip7702 t => dyn_max_fee_per_gas t
  end.

Definition extract_priority_fee (tx : TypedTransaction) : option Z :=
  match tx with
  | Eip1559 t => Some (e1559_max_priority_fee_per_gas t)
  | Eip4844 v =>
      match v with
      | TxEip4844 inner_tx => Some (dyn_max_priority_fee_per_gas inner_tx)
      | TxEip4844WithSidecar sidecar_tx => Some (dyn_max_priority_fee_per_gas sidecar_tx)
      end
  | Eip7702 t => Some (dyn_max_priority_fee_per_gas t)
  | Legacy _ | Eip2930 _ => None
  end.

(** ** Decoding *)

Definition extract_unsigned_from_envelope (envelope : TxEnvelope)
    : result EthereumParserError TypedTransaction :=
  match envelope with
  | EnvLegacy signed => Ok (Legacy signed)
  | EnvEip1559 signed => Ok (Eip1559 signed)
  | EnvEip2930 _ => Err (UnsupportedTransactionType "eip-2930")
  | EnvEip4844 _ => Err (UnsupportedTransactionType "eip-4844")
  | EnvEip7702 _ => Err (UnsupportedTransactionType "eip-7702")
  end.

Section decoding.
Context {H : HexCodec} {A : AlloyPrimitives} {X : AlloyTx}.
(** The [Display] text of a hex error, [base64] with the standard alphabet, and [serde_json]
    on the struct of the JSON form. *)
Context (show_hex : FromHexError → string) (b64_decode : string → result string bytes).
Context (json_from_str : string → result string EthJsonTransaction).

(** The transaction and the bytes behind it. *)
Definition decode_unsigned_prefix (buf : bytes)
    : result EthereumParserError (TypedTransaction * bytes) :=
  match buf with
  | [] => Err (FailedToDecodeTransaction "Input too short")
  | b :: rest =>
      let flag := byte_to_Z b in
      if decide (flag = 0 ∨ (0x7f < flag ∧ flag < 0xc0))%Z then
        Err (FailedToDecodeTransaction ("Unexpected type flag " +:+ show_Z flag +:+ "."))
      else if decide (flag ≤ 0x7f)%Z then
        ty ← map_err FailedToDecodeTransaction (tx_type_of_byte b);
        match ty with
        | TxTypeEip1559 =>
            '(tx, rest) ← map_err FailedToDecodeTransaction (decode_1559 rest);
            Ok (Eip1559 tx, rest)
        | TxTypeEip2930 => Err (UnsupportedTransactionType "eip-2930")
        | TxTypeEip4844 => Err (UnsupportedTransactionType "eip-4844")
        | TxTypeEip7702 => Err (UnsupportedTransactionType "eip-7702")
        | TxTypeLegacy => Err (UnexpectedTransactionType "legacy")
        end
      else
        '(tx, rest) ← map_err FailedToDecodeTransaction (decode_legacy buf);
        Ok (Legacy tx, rest)
  end.

Definition decode_unsigned_transaction_bytes (buf : bytes)
    : result EthereumParserError TypedTransaction :=
  '(tx, rest) ← decode_unsigned_prefix buf;
  if decide (rest = []) then Ok tx else Err (UnexpectedTrailingData (hex_encode rest)).

Definition decode_transaction_bytes (buf : bytes) (allow_signed : bool)
    : result EthereumParserError TypedTransaction :=
  match decode_unsigned_transaction_bytes buf with
  | Ok tx => Ok tx
  | Err unsigned_err =>
      if allow_signed then
        match decode_envelope buf with
        | Ok (envelope, _) => extract_unsigned_from_envelope envelope
        | Err _ => Err unsigned_err
        end
      else Err unsigned_err
  end.

Definition decode_transaction (raw_transaction : string) (encodings : SupportedEncodings)
    (allow_signed : bool) : result EthereumParserError TypedTransaction :=
  bs ← match encodings with
       | Hex => map_err (fun e => FailedToDecodeTransaction ("Failed to decode hex: " +:+ show_hex e))
                  (decode_hex raw_transaction)
       | Base64 => map_err (fun e => FailedToDecodeTransaction ("Failed to decode base64: " +:+ e))
                     (b64_decode raw_transaction)
       end;
  decode_transaction_bytes bs allow_signed.

Definition from_string_with_options (data : string) (developer_config : option DeveloperConfig)
    : result TransactionParseError TypedTransaction :=
  if is_json_input data then
    map_err (fun e => InvalidFormat (show_eth_error e))
      (decode_json_transaction show_hex json_from_str data)
  else
    let format := detect data in
    let allow_signed := default false (allow_signed_transactions <$> developer_config) in
    map_err (fun e => ParseDecodeError (show_eth_error e)) (decode_transaction data format allow_signed).
End decoding.

(** ** The chain a transaction is shown under *)

Definition resolve_chain_id (tx : TypedTransaction) (options : VisualSignOptions)
    : result VisualSignError Z :=
  match tx_chain_id tx, extract_chain_id_from_metadata (metadata options) with
  | Some tx_chain_id, Some meta_chain_id =>
      if decide (tx_chain_id ≠ meta_chain_id) then
        Err (ValidationError
          ("chain_id mismatch: transaction bytes declare chain_id " +:+ show_Z tx_chain_id
           +:+ " but chain_metadata.network_id resolves to chain_id " +:+ show_Z meta_chain_id
           +:+ ". The transaction bytes are authoritative; refusing to produce a payload."))
      else Ok tx_chain_id
  | Some tx_chain_id, None => Ok tx_chain_id
  | None, Some meta_chain_id => Ok meta_chain_id
  | None, None =>
      match tx with
      | Legacy _ => Ok 1%Z
      | _ =>
          Err (DecodeError "Unable to determine chain_id: no metadata provided and transaction does not contain chain_id")
      end
  end.

(** ** Decoders of the call data *)

Section visualizing.
Context {H : HexCodec} {A : AlloyPrimitives} {B : AlloyAbi} {I : IERC20} {J : IERC1155}.
Context {P : IPermit2} {U : IUniversalRouter} {T : Chrono}.

Abbreviation Layered := (LayeredRegistry ContractRegistry).
Abbreviation Abis := (AbiRegistry JsonAbi).

Definition try_known_token_dispatch (layered_registry : Layered) (chain_id : option Z)
    (to_address : address) (input : bytes) : option (list SignablePayloadField) :=
  standard ← get_token_erc_standard (global layered_registry) chain_id to_address;
  let decoded :=
    match standard with
    | Erc20 => erc20_visualize_tx_commands input
    | Erc721 => erc721_visualize_tx_commands input
    | Erc1155 => erc1155_visualize_tx_commands input
    end in
  Some [default (visualize_hex input) decoded].

Definition implementation_field (badge : string) (implementation : address)
    : SignablePayloadField :=
  AddressV2 (Common (display_address implementation) "Implementation")
    (FieldAddressV2 (display_address implementation) "Implementation" None "" (Some badge)).

Definition implementation_address_field : address → SignablePayloadField :=
  implementation_field "Proxy implementation".

Definition unresolved_implementation_field : address → SignablePayloadField :=
  implementation_field "Proxy implementation (unresolved)".

Definition visualize_with_abi_registry (abi_reg : Abis) (chain_id : Z) (to : address)
    (input : bytes) : list SignablePayloadField :=
  let decode abi := dynamic_visualize_calldata abi input in
  let own := get_abi_for_address abi_reg chain_id to ≫= decode in
  let impl :=
    if decide (get_abi_kind abi_reg chain_id to = Some KindProxy)
    then get_implementation_abi abi_reg chain_id to else None in
  match impl with
  | Some (impl_addr, impl_abi) =>
      match decode impl_abi with
      | Some field => [implementation_address_field impl_addr; field]
      | None => [unresolved_implementation_field impl_addr; default (visualize_hex input) own]
      end
  | None => option_list own
  end.

(** *** The fields *)

Definition create_priority_fee_field (max_priority_fee_per_gas : Z) : SignablePayloadField :=
  text_v2 "Max Priority Fee Per Gas" (format_gwei max_priority_fee_per_gas +:+ " gwei").

Definition to_field (chain_id : Z) (abi_registry : option Abis) (to : address)
    : SignablePayloadField :=
  let badge_text :=
    match abi_registry with
    | Some reg =>
        if decide (get_abi_kind reg chain_id to = Some KindProxy) then Some "Proxy" else None
    | None => None
    end in
  AddressV2 (Common (display_address to) "To")
    (FieldAddressV2 (display_address to) "To" None
       (default "" (get_fee_paying_asset_symbol chain_id)) badge_text).

Definition value_field (chain_id : Z) (wei : Z) : SignablePayloadField :=
  let fee_symbol := get_fee_paying_asset_symbol chain_id in
  let value := format_ether wei in
  AmountV2
    (Common (match fee_symbol with Some s => value +:+ " " +:+ s | None => value end) "Value")
    (FieldAmountV2 value fee_symbol).

(** The fields before the call data. *)
Definition header_fields (tx : TypedTransaction) (chain_id : Z) (abi_registry : option Abis)
    : list SignablePayloadField :=
  [text_v2 "Network" (get_network_name (Some chain_id))] ++
  option_list (to_field chain_id abi_registry <$> tx_to tx) ++
  [value_field chain_id (tx_value tx);
   text_v2 "Gas Limit" (show_Z (tx_gas_limit tx));
   text_v2 "Gas Price" (format_gwei (extract_gas_price tx) +:+ " gwei")] ++
  option_list (create_priority_fee_field <$> extract_priority_fee tx) ++
  [text_v2 "Nonce" (show_Z (tx_nonce tx))].

(** The decoder of a contract with a registered visualizer. *)
Definition protocol_fields (layered_registry : Layered)
    (visualizer_registry : EthereumVisualizerRegistry) (chain_id : Z) (to : option address)
    (input : bytes) : list SignablePayloadField :=
  option_list
    (to_address ← to;
     contract_type ← lookup_layered layered_registry
                       (fun r => get_contract_type r chain_id to_address);
     _ ← get_visualizer visualizer_registry contract_type;
     let registry := Some (global layered_registry) in
     if decide (contract_type = short_type_id UniswapUniversalRouter)
     then router_visualize_tx_commands input chain_id registry
     else if decide (contract_type = short_type_id Permit2Contract)
     then permit2_visualize_tx_commands input chain_id registry
     else None).

(** [if input_fields.is_empty() { input_fields.extend(..) }] *)
Definition or_fields (fields more : list SignablePayloadField) : list SignablePayloadField :=
  match fields with [] => more | _ => fields end.

(** The fields of non-empty call data: the first decoder that yields any. *)
Definition input_fields (tx : TypedTransaction) (decode_transfers : bool) (chain_id : Z)
    (layered_registry : Layered) (visualizer_registry : EthereumVisualizerRegistry)
    (abi_registry : option Abis) : list SignablePayloadField :=
  let input := tx_input tx in
  let fields := protocol_fields layered_registry visualizer_registry chain_id (tx_to tx) input in
  let fields := or_fields fields
    (default [] (to_address ← tx_to tx;
                 try_known_token_dispatch layered_registry (tx_chain_id tx) to_address input)) in
  let fields := or_fields fields
    (match tx_to tx, abi_registry with
     | Some to_address, Some abi_reg =>
         visualize_with_abi_registry abi_reg chain_id to_address input
     | _, _ => []
     end) in
  let fields := or_fields fields
    (if decode_transfers then option_list (erc20_visualize_tx_commands input) else []) in
  or_fields fields [visualize_hex input].

Definition convert_to_visual_sign_payload (tx : TypedTransaction) (options : VisualSignOptions)
    (chain_id : Z) (layered_registry : Layered) (visualizer_registry : EthereumVisualizerRegistry)
    (abi_registry : option Abis) : result VisualSignError SignablePayload :=
  let calldata :=
    if decide (tx_input tx = []) then []
    else input_fields tx (decode_transfers options) chain_id layered_registry visualizer_registry
           abi_registry in
  Ok (SignablePayload_new 0 (default "Ethereum Transaction" (transaction_name options)) None
        (header_fields tx chain_id abi_registry ++ calldata) "EthereumTx").
End visualizing.

(** ** The converter *)

Record EthereumVisualSignConverter := MkEthConverter {
  ec_registry : ContractRegistry;
  ec_visualizer_registry : EthereumVisualizerRegistry;
  ec_abi_trust : MetadataTrustPolicy;
}.

Definition with_registry_and_policy (registry : ContractRegistry) (abi_trust : MetadataTrustPolicy)
    : EthereumVisualSignConverter :=
  MkEthConverter registry (build builder_new) abi_trust.

Definition with_registry (registry : ContractRegistry) : EthereumVisualSignConverter :=
  with_registry_and_policy registry AcceptUnsigned.

Definition create_layered_registry (c : EthereumVisualSignConverter) (_ : VisualSignOptions)
    : LayeredRegistry ContractRegistry := layered_new (ec_registry c).

Section eth_converter.
Context {H : HexCodec} {A : AlloyPrimitives} {X : AlloyTx} {B : AlloyAbi}.
Context {I : IERC20} {J : IERC1155} {P : IPermit2} {U : IUniversalRouter} {T : Chrono}.
Context {S : Sha256} {K : Secp256k1} {M : SerdeMap} {F : JsonFormat} {D : JsonErrorText}.
Context (show_hex : FromHexError → string) (b64_decode : string → result string bytes).
Context (json_from_str : string → result string EthJsonTransaction).
(** [serde_json] on an ABI. *)
Context (abi_from_json : string → result string JsonAbi).

(** The default protocols are registered without a panic: [with_default_protocols_Ok]. *)
Definition with_policy (abi_trust : MetadataTrustPolicy) : or_panic EthereumVisualSignConverter :=
  '(contract_registry, visualizer_builder) ← with_default_protocols;
  Ok (MkEthConverter contract_registry (build visualizer_builder) abi_trust).

Definition eth_new : or_panic EthereumVisualSignConverter := with_policy AcceptUnsigned.

Definition extract_metadata_abi (options : VisualSignOptions) (chain_id : Z)
    (policy : MetadataTrustPolicy) : option (AbiRegistry JsonAbi) :=
  try_extract_from_chain_metadata abi_from_json address_from_str show_hex (metadata options)
    chain_id policy.

Definition convert_transaction_inner (c : EthereumVisualSignConverter) (tx : TypedTransaction)
    (options : VisualSignOptions) : result VisualSignError SignablePayload :=
  let layered_registry := create_layered_registry c options in
  _ ← match tx_type tx with
      | TxTypeLegacy | TxTypeEip1559 => Ok ()
      | unsupported =>
          Err (DecodeError ("Unsupported transaction type: " +:+ show_tx_type unsupported))
      end;
  chain_id ← resolve_chain_id tx options;
  let metadata_abi := extract_metadata_abi options chain_id (ec_abi_trust c) in
  convert_to_visual_sign_payload tx options chain_id layered_registry (ec_visualizer_registry c)
    metadata_abi.

Definition eth_to_payload (c : EthereumVisualSignConverter) (tx : TypedTransaction)
    (options : VisualSignOptions) : result VisualSignError ConversionResult :=
  payload ← convert_transaction_inner c tx options;
  Ok (ConversionResult_new payload).

(** It reads its input under the developer options, and keeps the validating default. *)
Definition eth_converter (c : EthereumVisualSignConverter) : converter TypedTransaction :=
  MkConverter TypedTransaction
    (fun s => from_string_with_options show_hex b64_decode json_from_str s None)
    (eth_to_payload c) (default_to_validated (eth_to_payload c))
    (fun transaction_data options =>
       wrapper ← map_err ParseError
         (from_string_with_options show_hex b64_decode json_from_str transaction_data
            (developer_config options));
       default_to_validated (eth_to_payload c) wrapper options).

(** The two functions of the public interface, on a fresh default converter. *)
Definition transaction_to_visual_sign (tx : TypedTransaction) (options : VisualSignOptions)
    : or_panic (result VisualSignError SignablePayload) :=
  converter ← eth_new;
  Ok (payload <$> eth_to_payload converter tx options).

Definition transaction_string_to_visual_sign (transaction_data : string)
    (options : VisualSignOptions) : or_panic (result VisualSignError SignablePayload) :=
  converter ← eth_new;
  Ok (payload <$> to_visual_sign_payload_from_string _ (eth_converter converter) transaction_data
                    options).
End eth_converter.

(** ** Facts: decoding *)

Section decoding_facts.
Context {H : HexCodec} {A : AlloyPrimitives} {X : AlloyTx}.

(** The two forms of an unsigned transaction: a type byte and its payload, or a bare list. *)
Definition unsigned_form (buf : bytes) (tx : TypedTransaction) : Prop :=
  (∃ rest t, buf = Byte.x02 :: rest ∧ decode_1559 rest = Ok (t, []) ∧ tx = Eip1559 t) ∨
  (∃ b rest t, buf = b :: rest ∧ (0xc0 ≤ byte_to_Z b)%Z ∧ decode_legacy buf = Ok (t, []) ∧
     tx = Legacy t).

Lemma tx_type_1559 : tx_type_of_byte Byte.x02 = Ok TxTypeEip1559.
Proof. by apply tx_type_known. Qed.

Lemma tx_type_1559_inv b : tx_type_of_byte b = Ok TxTypeEip1559 → b = Byte.x02.
Proof.
  rewrite tx_type_known. intros Hb. apply byte_to_Z_inj.
  pose proof (byte_to_Z_range b). change (byte_to_Z Byte.x02) with 2%Z.
  destruct (Z.to_nat (byte_to_Z b)) as [|[|[|[|[|n]]]]] eqn:E; try done. lia.
Qed.

Lemma decode_unsigned_Ok buf tx :
  decode_unsigned_transaction_bytes buf = Ok tx ↔ unsigned_form buf tx.
Proof.
  unfold decode_unsigned_transaction_bytes, decode_unsigned_prefix, unsigned_form. split.
  - destruct buf as [|b buf]; [done|].
    intros ([tx' rest] & Hp & Hr)%result_bind_Ok. case_decide as Hn; [|done].
    injection Hr as <-. subst rest. case_decide as Hf; [done|]. case_decide as Hl.
    + left. apply result_bind_Ok in Hp as (ty & Hty & Hp).
      destruct (tx_type_of_byte b) as [ty'|] eqn:Eb; [|done]. injection Hty as <-.
      destruct ty'; try done. apply tx_type_1559_inv in Eb as ->.
      destruct (decode_1559 buf) as [[t r]|] eqn:Ed; [|done]. injection Hp as <- ->.
      by exists buf, t.
    + right. destruct (decode_legacy (b :: buf)) as [[t r]|] eqn:Ed; [|done].
      injection Hp as <- ->. exists b, buf, t. split_and!; done || lia.
  - intros [(rest & t & -> & Hd & ->)|(b & rest & t & -> & Hb & Hd & ->)].
    + change (byte_to_Z Byte.x02) with 2%Z. rewrite decide_False, decide_True by lia.
      rewrite tx_type_1559. cbn. by rewrite Hd.
    + rewrite !decide_False by lia. by rewrite Hd.
Qed.

(** With the developer option, also a signed envelope of a supported type. *)
Lemma decode_transaction_bytes_Ok buf allow_signed tx :
  decode_transaction_bytes buf allow_signed = Ok tx ↔
  unsigned_form buf tx ∨
  (allow_signed = true ∧ (∀ t, ¬ unsigned_form buf t) ∧
   ∃ rest, (∃ t, decode_envelope buf = Ok (EnvLegacy t, rest) ∧ tx = Legacy t) ∨
           (∃ t, decode_envelope buf = Ok (EnvEip1559 t, rest) ∧ tx = Eip1559 t)).
Proof.
  unfold decode_transaction_bytes.
  destruct (decode_unsigned_transaction_bytes buf) as [t|e] eqn:E.
  - apply decode_unsigned_Ok in E as Hu. split; [by intros [= <-]; left|].
    intros [Hu'|(_ & Hn & _)]; [|by destruct (Hn t)].
    apply decode_unsigned_Ok in Hu'. congruence.
  - assert (∀ t, ¬ unsigned_form buf t) as Hn
      by (intros t Ht%decode_unsigned_Ok; congruence).
    destruct allow_signed; [|split; [done|]; by intros [?%Hn|(? & _)]].
    split.
    + destruct (decode_envelope buf) as [[env rest]|]; [|done]. intros He. right.
      split_and!; [done..|]. exists rest. destruct env; try done; injection He as <-;
        [left|right]; by eexists.
    + intros [?%Hn|(_ & _ & rest & [(t & -> & ->)|(t & -> & ->)])]; done.
Qed.
End decoding_facts.

(** ** Facts: the payload *)

Lemma resolve_chain_id_Ok tx o c :
  resolve_chain_id tx o = Ok c →
  (∀ m, extract_chain_id_from_metadata (metadata o) = Some m → m = c) ∧
  match tx_chain_id tx with
  | Some own => c = own
  | None => c = default 1%Z (extract_chain_id_from_metadata (metadata o))
  end.
Proof.
  unfold resolve_chain_id.
  destruct (tx_chain_id tx) as [own|], (extract_chain_id_from_metadata (metadata o)) as [m|].
  - case_decide as Hne; [done|]. subst m. intros [= ->].
    split; [by intros ? [= <-]|done].
  - by intros [= ->].
  - intros [= ->]. split; [by intros ? [= <-]|done].
  - destruct tx; try done. by intros [= ->].
Qed.

Definition supported (tx : TypedTransaction) : Prop :=
  match tx with Legacy _ | Eip1559 _ => True | _ => False end.

(** The amounts and the destination are those of a transaction. *)
Definition shown_wf (tx : TypedTransaction) : Prop :=
  (0 ≤ tx_value tx)%Z ∧ (0 ≤ extract_gas_price tx)%Z ∧
  (∀ fee, extract_priority_fee tx = Some fee → (0 ≤ fee)%Z) ∧
  (∀ to, tx_to tx = Some to → is_address to).

(** ** What a reader takes from the rows of a payload *)

(** The label and the text of a row. *)
Definition row_text (f : SignablePayloadField) : option (string * string) :=
  match f with
  | TextV2 c t => Some (common_label c, text_v2_text t)
  | AddressV2 c a => Some (common_label c, address_v2_address a)
  | AmountV2 c a => Some (common_label c, amount_v2_amount a)
  | _ => None
  end.

(** Rows from which exactly the given values can be read: an amount in ether, fees in gwei, a
    destination only for a call and a priority fee only where there is one. *)
Record reads_as {A : AlloyPrimitives} (rows : list (string * string)) (chain : Z) (to : TxKind)
    (value gas_limit gas_price : Z) (priority_fee : option Z) (nonce : Z) : Prop := MkReadsAs {
  ra_labels : rows.*1 =
    ["Network"] ++ (match to with Call _ => ["To"] | Create => [] end)
    ++ ["Value"; "Gas Limit"; "Gas Price"]
    ++ (match priority_fee with Some _ => ["Max Priority Fee Per Gas"] | None => [] end)
    ++ ["Nonce"];
  ra_network : assoc "Network" rows = Some (get_network_name (Some chain));
  ra_to : address_from_str <$> assoc "To" rows =
            match to with Call a => Some (Ok a) | Create => None end;
  ra_value : read_units 18 <$> assoc "Value" rows = Some value;
  ra_gas_limit : assoc "Gas Limit" rows = Some (show_Z gas_limit);
  ra_gas_price : ∃ t, assoc "Gas Price" rows = Some (t +:+ " gwei") ∧ read_units 9 t = gas_price;
  ra_priority : match priority_fee with
                | Some fee => ∃ t, assoc "Max Priority Fee Per Gas" rows = Some (t +:+ " gwei") ∧
                                   read_units 9 t = fee
                | None => assoc "Max Priority Fee Per Gas" rows = None
                end;
  ra_nonce : assoc "Nonce" rows = Some (show_Z nonce);
}.

(** The fields of the two supported types that a reader finds. The access list of an EIP-1559
    transaction is not among them. *)
Definition reads_transaction {A : AlloyPrimitives} (rows : list (string * string)) (chain : Z)
    (tx : TypedTransaction) : Prop :=
  match tx with
  | Legacy t =>
      reads_as rows chain (legacy_to t) (legacy_value t) (legacy_gas_limit t) (legacy_gas_price t)
        None (legacy_nonce t)
  | Eip1559 t =>
      reads_as rows chain (e1559_to t) (e1559_value t) (e1559_gas_limit t)
        (e1559_max_fee_per_gas t) (Some (e1559_max_priority_fee_per_gas t)) (e1559_nonce t)
  | _ => False
  end.

Section payload_facts.
Context {H : HexCodec} {A : AlloyPrimitives} {B : AlloyAbi} {I : IERC20} {J : IERC1155}.
Context {P : IPermit2} {U : IUniversalRouter} {T : Chrono}.

Lemma or_fields_nil a b : or_fields a b = [] ↔ a = [] ∧ b = [].
Proof. destruct a; cbn; naive_solver. Qed.

Lemma or_fields_first a b : a ≠ [] → or_fields a b = a.
Proof. by destruct a. Qed.

Lemma input_fields_nonempty tx d c l v abi : input_fields tx d c l v abi ≠ [].
Proof. unfold input_fields. by intros [_ ?]%or_fields_nil. Qed.

Lemma display_address_inj a a' :
  is_address a → is_address a' → display_address a = display_address a' → a = a'.
Proof.
  intros Ha Ha' E. apply (f_equal address_from_str) in E.
  rewrite !display_address_parse in E by done. congruence.
Qed.

Lemma text_v2_inj l l' t t' : text_v2 l t = text_v2 l' t' → l = l' ∧ t = t'.
Proof. by intros [= -> -> _]. Qed.

Lemma to_field_inj c c' abi abi' to to' :
  is_address to → is_address to' → to_field c abi to = to_field c' abi' to' → to = to'.
Proof. intros Ha Ha' [= E _ _ _]. by apply display_address_inj. Qed.

Lemma value_field_inj c c' v v' :
  (0 ≤ v)%Z → (0 ≤ v')%Z → value_field c v = value_field c' v' → v = v'.
Proof.
  intros Hv Hv' [= _ E _]. rewrite <-(read_format_ether v), <-(read_format_ether v') by done.
  by rewrite E.
Qed.

Lemma gwei_inj v v' :
  (0 ≤ v)%Z → (0 ≤ v')%Z → format_gwei v +:+ " gwei" = format_gwei v' +:+ " gwei" → v = v'.
Proof.
  intros Hv Hv' E%str_app_inj_l.
  by rewrite <-(read_format_gwei v), <-(read_format_gwei v'), E by done.
Qed.

Lemma cons_eq_inv {Y} (x y : Y) l k : x :: l = y :: k → x = y ∧ l = k.
Proof. by intros [= -> ->]. Qed.

(** The fields from the gas price on. *)
Lemma fee_fields_inj tx tx' rest rest' :
  shown_wf tx → shown_wf tx' →
  text_v2 "Gas Price" (format_gwei (extract_gas_price tx) +:+ " gwei") ::
    option_list (create_priority_fee_field <$> extract_priority_fee tx) ++
    text_v2 "Nonce" (show_Z (tx_nonce tx)) :: rest =
  text_v2 "Gas Price" (format_gwei (extract_gas_price tx') +:+ " gwei") ::
    option_list (create_priority_fee_field <$> extract_priority_fee tx') ++
    text_v2 "Nonce" (show_Z (tx_nonce tx')) :: rest' →
  extract_gas_price tx = extract_gas_price tx' ∧
  extract_priority_fee tx = extract_priority_fee tx' ∧ tx_nonce tx = tx_nonce tx' ∧ rest = rest'.
Proof.
  intros (_ & Hg & Hp & _) (_ & Hg' & Hp' & _) [Eg E]%cons_eq_inv.
  apply text_v2_inj in Eg as [_ Eg%gwei_inj]; [|done..]. split; [done|]. clear Eg.
  destruct (extract_priority_fee tx) as [fee|], (extract_priority_fee tx') as [fee'|];
    [|discriminate E|discriminate E|].
  - apply cons_eq_inv in E as [Ef E]. apply text_v2_inj in Ef as [_ Ef%gwei_inj]; [|by auto..].
    apply cons_eq_inv in E as [En E]. apply text_v2_inj in En as [_ En%show_Z_inj].
    by rewrite Ef.
  - apply cons_eq_inv in E as [En E]. by apply text_v2_inj in En as [_ En%show_Z_inj].
Qed.

(** The fields before the call data determine what they show. *)
Lemma header_fields_inj tx tx' c c' abi abi' rest rest' :
  shown_wf tx → shown_wf tx' →
  header_fields tx c abi ++ rest = header_fields tx' c' abi' ++ rest' →
  c = c' ∧ tx_to tx = tx_to tx' ∧ tx_value tx = tx_value tx' ∧
  tx_gas_limit tx = tx_gas_limit tx' ∧ extract_gas_price tx = extract_gas_price tx' ∧
  extract_priority_fee tx = extract_priority_fee tx' ∧ tx_nonce tx = tx_nonce tx' ∧
  rest = rest'.
Proof.
  intros Hw Hw' E. unfold header_fields in E. rewrite <-!app_assoc in E.
  apply cons_eq_inv in E as [En E]. apply text_v2_inj in En as [_ En%get_network_name_inj].
  split; [done|]. cbn [app] in E.
  assert (tx_to tx = tx_to tx' ∧ ∃ k k',
    value_field c (tx_value tx) :: text_v2 "Gas Limit" (show_Z (tx_gas_limit tx)) :: k =
    value_field c' (tx_value tx') :: text_v2 "Gas Limit" (show_Z (tx_gas_limit tx')) :: k' ∧
    k = text_v2 "Gas Price" (format_gwei (extract_gas_price tx) +:+ " gwei") ::
          option_list (create_priority_fee_field <$> extract_priority_fee tx) ++
          text_v2 "Nonce" (show_Z (tx_nonce tx)) :: rest ∧
    k' = text_v2 "Gas Price" (format_gwei (extract_gas_price tx') +:+ " gwei") ::
          option_list (create_priority_fee_field <$> extract_priority_fee tx') ++
          text_v2 "Nonce" (show_Z (tx_nonce tx')) :: rest')
    as [Hto (k & k' & E' & -> & ->)].
  { destruct Hw as (_ & _ & _ & Ht), Hw' as (_ & _ & _ & Ht').
    destruct (tx_to tx) as [to|], (tx_to tx') as [to'|];
      [|discriminate E|discriminate E|split; [done|]; by eexists _, _; split; [exact E|]].
    apply cons_eq_inv in E as [Eto E]. apply to_field_inj in Eto as ->; [|by auto..].
    split; [done|]. by eexists _, _; split; [exact E|]. }
  split; [done|]. apply cons_eq_inv in E' as [Ev E'].
  apply value_field_inj in Ev; [|by destruct Hw|by destruct Hw'].
  apply cons_eq_inv in E' as [Egl E']. apply text_v2_inj in Egl as [_ Egl%show_Z_inj].
  do 2 (split; [done|]). by apply fee_fields_inj.
Qed.

(** The rows before the call data can be read back. *)
Lemma header_reads tx chain abi :
  supported tx → shown_wf tx →
  ∃ rows, row_text <$> header_fields tx chain abi = Some <$> rows ∧ reads_transaction rows chain tx.
Proof.
  intros Hs (Hv & Hg & Hp & Ht). exists (omap row_text (header_fields tx chain abi)).
  unfold header_fields.
  destruct tx as [t| |t| |]; try done; cbn [tx_value extract_gas_price extract_priority_fee] in *;
    unfold tx_to in *; cbn [tx_kind] in *.
  - destruct (legacy_to t) as [|a] eqn:Hto; (split; [reflexivity|]); cbn [reads_transaction];
      rewrite Hto;
      (split; [reflexivity|reflexivity| |exact (f_equal Some (read_format_ether _ Hv))|reflexivity
        |exists (format_gwei (legacy_gas_price t)); split; [reflexivity|by apply read_format_gwei]
        |reflexivity|reflexivity]); [reflexivity|].
    exact (f_equal Some (display_address_parse a (Ht a eq_refl))).
  - destruct (e1559_to t) as [|a] eqn:Hto; (split; [reflexivity|]); cbn [reads_transaction];
      rewrite Hto;
      (split; [reflexivity|reflexivity| |exact (f_equal Some (read_format_ether _ Hv))|reflexivity
        |exists (format_gwei (e1559_max_fee_per_gas t)); split; [reflexivity|by apply read_format_gwei]
        |exists (format_gwei (e1559_max_priority_fee_per_gas t)); split;
           [reflexivity|by apply read_format_gwei, Hp]
        |reflexivity]); [reflexivity|].
    exact (f_equal Some (display_address_parse a (Ht a eq_refl))).
Qed.
End payload_facts.

(** ** Facts: the decoder of the call data *)

Section dispatch_facts.
Context {H : HexCodec} {A : AlloyPrimitives} {B : AlloyAbi} {I : IERC20} {J : IERC1155}.
Context {P : IPermit2} {U : IUniversalRouter} {T : Chrono}.

Lemma payload_fields_of tx o chain l v abi p :
  convert_to_visual_sign_payload tx o chain l v abi = Ok p →
  payload_fields p = header_fields tx chain abi ++
    if decide (tx_input tx = []) then []
    else input_fields tx (decode_transfers o) chain l v abi.
Proof. intros E. unfold convert_to_visual_sign_payload in E. by inversion E. Qed.

(** What the built-in decoder of a token standard shows. *)
Definition token_field (standard : ErcStandard) (input : bytes) : SignablePayloadField :=
  default (visualize_hex input)
    match standard with
    | Erc20 => erc20_visualize_tx_commands input
    | Erc721 => erc721_visualize_tx_commands input
    | Erc1155 => erc1155_visualize_tx_commands input
    end.

(** A token of the default registry is no contract of a protocol, on any chain. *)
Lemma default_token_contract chain own to :
  is_Some (get_token_erc_standard default_registry.1 own to) →
  get_contract_type default_registry.1 chain to = None.
Proof.
  destruct own as [c|].
  - rewrite erc_standard_on_chain. apply tokens_apart_contract, default_tokens_apart.
  - rewrite erc_standard_any_chain. intros [c Hc].
    by eapply tokens_apart_contract; [apply default_tokens_apart|].
Qed.

Lemma known_token_fields tx d chain v abi to standard :
  tx_to tx = Some to →
  get_token_erc_standard default_registry.1 (tx_chain_id tx) to = Some standard →
  input_fields tx d chain (layered_new default_registry.1) v abi =
    [token_field standard (tx_input tx)].
Proof.
  intros Hto Hs. unfold input_fields, protocol_fields, lookup_layered. rewrite Hto.
  cbn [layered_new request global mbind option_bind].
  rewrite (default_token_contract chain (tx_chain_id tx)) by by rewrite Hs.
  cbn [mbind option_bind option_list or_fields]. unfold try_known_token_dispatch.
  cbn [layered_new global]. by rewrite Hs.
Qed.

Lemma protocol_fields_first tx d chain l v abi fields :
  protocol_fields l v chain (tx_to tx) (tx_input tx) = fields → fields ≠ [] →
  input_fields tx d chain l v abi = fields.
Proof.
  intros Hp Hne. unfold input_fields. rewrite Hp. by destruct fields.
Qed.

(** Without a mapping for the destination, the ABIs of the request change nothing. *)
Lemma abi_unmapped tx o chain l v r :
  (∀ to, tx_to tx = Some to → address_mappings r !! (chain, to) = None) →
  convert_to_visual_sign_payload tx o chain l v (Some r) =
    convert_to_visual_sign_payload tx o chain l v None.
Proof.
  intros Hn. unfold convert_to_visual_sign_payload, header_fields, input_fields, to_field.
  destruct (tx_to tx) as [to|]; [|done]. specialize (Hn to eq_refl).
  assert (get_abi_kind r chain to = None) as Hk by (unfold get_abi_kind; by rewrite Hn).
  assert (visualize_with_abi_registry r chain to (tx_input tx) = []) as ->.
  { unfold visualize_with_abi_registry, get_abi_for_address. by rewrite Hk, Hn, decide_False. }
  cbn [fmap option_fmap option_map]. by rewrite Hk, decide_False by done.
Qed.
End dispatch_facts.

(** ** Properties *)

Section properties.
Context (H : HexCodec) (A : AlloyPrimitives) (X : AlloyTx) (B : AlloyAbi).
Context (I : IERC20) (J : IERC1155) (P : IPermit2) (U : IUniversalRouter) (T : Chrono).
Context (S : Sha256) (K : Secp256k1) (M : SerdeMap) (F : JsonFormat) (D : JsonErrorText).
Context (show_hex : FromHexError → string) (b64_decode : string → result string bytes).
Context (json_from_str : string → result string EthJsonTransaction).
Context (abi_from_json : string → result string JsonAbi).

Local Abbreviation convert := (convert_transaction_inner show_hex abi_from_json).
Local Abbreviation payload_of := convert_to_visual_sign_payload.
Local Abbreviation parse := (from_string_with_options show_hex b64_decode json_from_str).

Lemma convert_Ok c tx o p :
  convert c tx o = Ok p ↔
  supported tx ∧ ∃ chain, resolve_chain_id tx o = Ok chain ∧
    payload_of tx o chain (layered_new (ec_registry c)) (ec_visualizer_registry c)
      (extract_metadata_abi show_hex abi_from_json o chain (ec_abi_trust c)) = Ok p.
Proof.
  unfold convert_transaction_inner, create_layered_registry. split.
  - intros (? & Ht & (chain & Hr & Hp)%result_bind_Ok)%result_bind_Ok.
    split; [by destruct tx|by exists chain].
  - intros (Hs & chain & Hr & Hp).
    destruct tx; try done; cbn [tx_type mbind result_bind]; rewrite Hr; exact Hp.
Qed.

(** C11: the text interface returns only payloads of a transaction the input decodes to, of a
    supported type, whose texts all pass the charset gate. The network is the one of the chain id
    in the transaction (or, where it has none, the one of the metadata, or mainnet) and no
    metadata contradicts it. The payload begins with rows from which a reader gets back, exactly,
    the network, the destination of a call, the value in ether, the gas limit, the gas price or
    maximum fee in gwei, the priority fee of an EIP-1559 transaction and the nonce; behind them
    there is at least one field for call data that is not empty and none otherwise. The access
    list is not shown. *)
Theorem eth_payload_faithful c data o res :
  to_visual_sign_payload_from_string _
    (eth_converter show_hex b64_decode json_from_str abi_from_json c) data o = Ok res →
  ∃ tx chain header calldata,
    parse data (developer_config o) = Ok tx ∧ supported tx ∧
    match tx_chain_id tx with
    | Some own => chain = own
    | None => chain = default 1%Z (extract_chain_id_from_metadata (metadata o))
    end ∧
    (∀ m, extract_chain_id_from_metadata (metadata o) = Some m → m = chain) ∧
    payload_fields (payload res) = header ++ calldata ∧
    (shown_wf tx →
     ∃ rows, row_text <$> header = Some <$> rows ∧ reads_transaction rows chain tx) ∧
    (calldata = [] ↔ tx_input tx = []) ∧
    Forall (fun s => clean s = true) (payload_texts (payload res)).
Proof.
  cbn. intros (tx & Hp & (r & Hc & ([] & Hv & [= <-])%result_bind_Ok)%result_bind_Ok)%result_bind_Ok.
  destruct (parse data (developer_config o)) as [tx'|] eqn:Ep; [|done]. injection Hp as ->.
  apply result_bind_Ok in Hc as (p & (Hs & chain & Hr & Hf%payload_fields_of)%convert_Ok & [= <-]).
  apply resolve_chain_id_Ok in Hr as [Hm Hown].
  exists tx, chain. eexists _, _. do 4 (split; [done|]). split; [exact Hf|].
  split; [by apply header_reads|]. split; [|by apply validate_charset_clean].
  case_decide as Hi; [done|]. split; [|done]. by intros ?%input_fields_nonempty.
Qed.

(** C12: what is shown determines what is signed: two transactions whose payloads have the same
    fields agree on the chain, the destination, the value, the gas limit, the fees and the
    nonce, whatever the options, the metadata and the converters that made the payloads. *)
Theorem eth_payload_determines c c' tx tx' o o' p p' :
  shown_wf tx → shown_wf tx' → convert c tx o = Ok p → convert c' tx' o' = Ok p' →
  payload_fields p = payload_fields p' →
  resolve_chain_id tx o = resolve_chain_id tx' o' ∧ tx_to tx = tx_to tx' ∧
  tx_value tx = tx_value tx' ∧ tx_gas_limit tx = tx_gas_limit tx' ∧
  extract_gas_price tx = extract_gas_price tx' ∧
  extract_priority_fee tx = extract_priority_fee tx' ∧ tx_nonce tx = tx_nonce tx' ∧
  (tx_input tx = [] ↔ tx_input tx' = []).
Proof.
  intros Hw Hw' (_ & chain & Hr & Hp%payload_fields_of)%convert_Ok
    (_ & chain' & Hr' & Hp'%payload_fields_of)%convert_Ok E. rewrite Hp, Hp' in E. clear Hp Hp'.
  apply header_fields_inj in E as (-> & Hto & Hv & Hg & Hp & Hf & Hn & Hrest); [|done..].
  split_and!; try done; [congruence|..]; revert Hrest; repeat case_decide; try done;
    intros Hr0; [symmetry in Hr0|]; by apply input_fields_nonempty in Hr0.
Qed.

(** C10: a call to a token of the compiled-in registry is shown by the built-in decoder of its
    standard, or as raw hex, and by nothing else: neither an ABI the caller supplies, signed or
    not, nor the transfer option, nor the network the metadata names has any influence. *)
Theorem known_token_locked policy c tx o p to standard :
  with_policy policy = Ok c → convert c tx o = Ok p →
  tx_to tx = Some to → tx_input tx ≠ [] →
  get_token_erc_standard default_registry.1 (tx_chain_id tx) to = Some standard →
  ∃ chain abi, payload_fields p = header_fields tx chain abi ++ [token_field standard (tx_input tx)].
Proof.
  unfold with_policy. rewrite with_default_protocols_Ok. intros Hc.
  destruct default_registry as [reg vis] eqn:Ed. cbn in Hc. injection Hc as <-.
  intros (_ & chain & _ & Hp%payload_fields_of)%convert_Ok Hto Hi Hs. exists chain. eexists.
  rewrite Hp, decide_False by done. f_equal. cbn [ec_registry].
  replace reg with default_registry.1 by by rewrite Ed.
  apply (known_token_fields _ _ _ _ _ to); [done|by rewrite Ed].
Qed.

(** C13: under the require-signed posture, the ABIs of a request have no influence on the
    payload unless one of them is for the destination and its signature, over the chain, the
    address and the JSON, verifies under an allow-listed key. *)
Theorem unsigned_abi_inert c tx o eth allow chain :
  ec_abi_trust c = RequireAllowlistedSigner allow → metadata o = ethereum_metadata eth →
  NoDup (keys (abi_mappings eth)) → supported tx → resolve_chain_id tx o = Ok chain →
  (∀ to name abi key, tx_to tx = Some to → (name, abi) ∈ abi_mappings eth →
     address_from_str name = Ok to → signed_entry chain to abi key →
     to_encoded_point key ∉ allowlist_keys allow) →
  convert c tx o = payload_of tx o chain (layered_new (ec_registry c)) (ec_visualizer_registry c) None.
Proof.
  intros Hc Ho Hnd Hs Hr Hno. transitivity (payload_of tx o chain (layered_new (ec_registry c))
    (ec_visualizer_registry c) (extract_metadata_abi show_hex abi_from_json o chain (ec_abi_trust c))).
  { apply convert_Ok. by eauto. }
  unfold extract_metadata_abi, try_extract_from_chain_metadata. rewrite Ho, Hc.
  destruct (extract_with_provenance _ _ _ _ _ _) as [[r|] n] eqn:E; [|done]. cbn [fst].
  apply abi_unmapped. intros to Hto. eapply extract_mapped; [done..|].
  destruct (get_abi_for_address r chain to) as [j|] eqn:Eg; [|done].
  eapply extract_signed_abi in Eg as (_ & name & abi & key & ? & ? & _ & ? & ?); [|done..].
  by destruct (Hno to name abi key).
Qed.

(** C14: outside the JSON form an input is accepted exactly when it is the hex or base64 text
    of an unsigned transaction of a supported type with nothing behind it, or, with the
    developer option only, of a signed envelope of a supported type. *)
Theorem eth_input_exact data config tx :
  is_json_input data = false →
  parse data config = Ok tx ↔
  ∃ buf,
    match detect data with
    | Hex => decode_hex data = Ok buf
    | Base64 => b64_decode data = Ok buf
    end ∧
    (unsigned_form buf tx ∨
     (allow_signed_transactions <$> config = Some true ∧ (∀ t, ¬ unsigned_form buf t) ∧
      ∃ rest, (∃ t, decode_envelope buf = Ok (EnvLegacy t, rest) ∧ tx = Legacy t) ∨
              (∃ t, decode_envelope buf = Ok (EnvEip1559 t, rest) ∧ tx = Eip1559 t))).
Proof.
  intros Hj. unfold from_string_with_options. rewrite Hj. rewrite map_err_Ok.
  unfold decode_transaction. rewrite result_bind_Ok.
  assert (∀ m : option bool, default false m = true ↔ m = Some true) as Hd
    by (intros [[]|]; cbn; split; congruence).
  setoid_rewrite decode_transaction_bytes_Ok. setoid_rewrite Hd.
  destruct (detect data); by setoid_rewrite map_err_Ok.
Qed.
End properties.

(** ** Witnesses *)

(** Decoders of one transaction of each form. *)
Definition alloy_tx_type (b : byte) : result string TxType :=
  match [TxTypeLegacy; TxTypeEip2930; TxTypeEip1559; TxTypeEip4844; TxTypeEip7702]
          !! Z.to_nat (byte_to_Z b) with
  | Some ty => Ok ty
  | None => Err "unknown type"
  end.

Definition usdc : address :=
  match address_from_str (AlloyPrimitives := alloy_ref)
          "0xa0b86991c6218b36c1d19d4a2e9eb0ce3606eb48" with
  | Ok a => a
  | Err _ => []
  end.

(** A call to a token contract, and a plain payment. *)
Definition toy_1559 : TxEip1559 :=
  MkTxEip1559 1 7 100000 20000000000 1000000000 (Call usdc) 0 []
    [Byte.xa9; Byte.x05; Byte.x9c; Byte.xbb].
Definition toy_legacy : TxLegacy :=
  MkTxLegacy (Some 1%Z) 7 20000000000 21000 (Call (sample_address Byte.x11)) (10 ^ 18) [].

Program Definition alloy_tx_toy : AlloyTx :=
  {| tx_type_of_byte := alloy_tx_type;
     show_tx_type _ := "type";
     decode_1559 bs :=
       match bs with Byte.x01 :: rest => Ok (toy_1559, rest) | _ => Err "rlp" end;
     decode_legacy bs :=
       match bs with Byte.xc0 :: rest => Ok (toy_legacy, rest) | _ => Err "rlp" end;
     decode_envelope bs :=
       match bs with Byte.xc2 :: rest => Ok (EnvLegacy toy_legacy, rest) | _ => Err "rlp" end |}.
Next Obligation.
  intros b ty. unfold alloy_tx_type.
  destruct (_ !! Z.to_nat (byte_to_Z b)); split; congruence.
Qed.
Next Obligation.
  intros [|b bs] t rest; [done|]. cbv beta iota.
  destruct (decide (b = Byte.x01)) as [-> |Hb]; [|by destruct b].
  intros [= _ <-]. by exists [Byte.x01].
Qed.
Next Obligation.
  intros [|b bs] t rest; [done|]. cbv beta iota.
  destruct (decide (b = Byte.xc0)) as [-> |Hb]; [|by destruct b].
  intros [= _ <-]. by exists [Byte.xc0].
Qed.

Module sample_eth.
Definition show (_ : FromHexError) : string := "hex".
Definition b64 (_ : string) : result string bytes := Err "base64".
Definition json (_ : string) : result string EthJsonTransaction := Err "json".
Definition abi (_ : string) : result string (@JsonAbi abi_toy) := Ok [].
Definition options : VisualSignOptions := MkOptions true None None None false.
Definition plain : EthereumVisualSignConverter := with_registry ContractRegistry_new.

Definition conv (c : EthereumVisualSignConverter) : converter TypedTransaction :=
  eth_converter (H := hex_ref) (A := alloy_ref) (X := alloy_tx_toy) (B := abi_toy) (I := erc20_ref)
    (J := erc1155_ref) (P := permit2_ref) (U := router_ref) (T := sample_chrono)
    (S := truncation_hash) (K := toy_secp256k1) (M := btree_map) (F := compact_format)
    (D := fun _ => "error") show b64 json abi c.

Definition convert (c : EthereumVisualSignConverter) (tx : TypedTransaction)
    : result VisualSignError SignablePayload :=
  convert_transaction_inner (H := hex_ref) (A := alloy_ref) (X := alloy_tx_toy) (B := abi_toy)
    (I := erc20_ref) (J := erc1155_ref) (P := permit2_ref) (U := router_ref) (T := sample_chrono)
    (S := truncation_hash) (K := toy_secp256k1) show abi c tx options.
End sample_eth.

Lemma eth_payload_faithful_witness :
  ∃ res header calldata rows,
    to_visual_sign_payload_from_string _ (sample_eth.conv sample_eth.plain) "0x0201"
      sample_eth.options = Ok res ∧
    payload_fields (payload res) = header ++ calldata ∧ calldata ≠ [] ∧
    row_text <$> header = Some <$> rows ∧
    reads_as (A := alloy_ref) rows 1 (Call usdc) 0 100000 20000000000
      (Some 1000000000%Z) 7 ∧
    Forall (fun s => clean s = true) (payload_texts (payload res)).
Proof.
  destruct (to_visual_sign_payload_from_string _ (sample_eth.conv sample_eth.plain) "0x0201"
    sample_eth.options) as [res|e] eqn:E.
  - destruct (eth_payload_faithful hex_ref alloy_ref alloy_tx_toy abi_toy erc20_ref erc1155_ref
      permit2_ref router_ref sample_chrono truncation_hash toy_secp256k1 btree_map compact_format
      (fun _ => "error") sample_eth.show sample_eth.b64 sample_eth.json sample_eth.abi
      sample_eth.plain "0x0201" sample_eth.options res E)
      as (tx & chain & header & calldata & Hp & _ & Hown & _ & Hf & Hrows & Hcd & Hc).
    assert (tx = Eip1559 toy_1559) as -> by (vm_compute in Hp; injection Hp as <-; reflexivity).
    simpl in Hown. subst chain. destruct Hrows as (rows & Hr & Hreads).
    { split; [done|]. split; [done|]. split; [by intros fee [= <-]|]. by intros to [= <-]. }
    exists res, header, calldata, rows. split; [reflexivity|]. split; [exact Hf|].
    split; [|split; [exact Hr|split; [exact Hreads|exact Hc]]].
    intros Hnil. apply Hcd in Hnil. discriminate Hnil.
  - assert (is_ok (to_visual_sign_payload_from_string _ (sample_eth.conv sample_eth.plain) "0x0201"
      sample_eth.options) = true) as Hok by (vm_compute; reflexivity).
    rewrite E in Hok. discriminate Hok.
Defined.

Lemma eth_payload_determines_witness :
  match sample_eth.convert sample_eth.plain (Legacy toy_legacy),
        sample_eth.convert (MkEthConverter default_registry.1 default_registry.2 AcceptUnsigned)
          (Legacy toy_legacy) with
  | Ok p, Ok p' => payload_fields p = payload_fields p' → tx_value (Legacy toy_legacy) = (10 ^ 18)%Z
  | _, _ => False
  end.
Proof.
  set (c' := MkEthConverter _ _ _).
  assert (is_ok (sample_eth.convert sample_eth.plain (Legacy toy_legacy)) = true) as H1
    by (vm_compute; reflexivity).
  assert (is_ok (sample_eth.convert c' (Legacy toy_legacy)) = true) as H2
    by (vm_compute; reflexivity).
  assert (shown_wf (Legacy toy_legacy)) as Hw.
  { split_and!; [done..|]. by intros to [= <-]. }
  destruct (sample_eth.convert sample_eth.plain (Legacy toy_legacy)) as [p|] eqn:E; [|discriminate H1].
  destruct (sample_eth.convert c' (Legacy toy_legacy)) as [p'|] eqn:E'; [|discriminate H2].
  intros Hf.
  destruct (eth_payload_determines hex_ref alloy_ref alloy_tx_toy abi_toy erc20_ref erc1155_ref
    permit2_ref router_ref sample_chrono truncation_hash toy_secp256k1 sample_eth.show sample_eth.abi
    sample_eth.plain c' (Legacy toy_legacy) (Legacy toy_legacy) sample_eth.options
    sample_eth.options p p' Hw Hw E E' Hf) as (_ & _ & Hv & _).
  exact Hv.
Defined.

Lemma known_token_locked_witness :
  let A := alloy_ref in let B := abi_toy in let I := erc20_ref in let J := erc1155_ref in
  match sample_eth.convert (MkEthConverter default_registry.1 default_registry.2 AcceptUnsigned)
          (Eip1559 toy_1559) with
  | Ok p => ∃ chain abi,
      payload_fields p = header_fields (Eip1559 toy_1559) chain abi ++
        [token_field (H := hex_ref) Erc20 (tx_input (Eip1559 toy_1559))]
  | Err _ => False
  end.
Proof.
  intros A B I J. set (c := MkEthConverter _ _ _).
  assert (is_ok (sample_eth.convert c (Eip1559 toy_1559)) = true) as H1 by (vm_compute; reflexivity).
  destruct (sample_eth.convert c (Eip1559 toy_1559)) as [p|] eqn:E; [|discriminate H1].
  apply (known_token_locked hex_ref alloy_ref alloy_tx_toy abi_toy erc20_ref erc1155_ref permit2_ref
    router_ref sample_chrono truncation_hash toy_secp256k1 sample_eth.show sample_eth.abi
    AcceptUnsigned c (Eip1559 toy_1559) sample_eth.options p usdc Erc20).
  - unfold with_policy. rewrite with_default_protocols_Ok. unfold c.
    by destruct default_registry.
  - exact E.
  - reflexivity.
  - discriminate.
  - vm_compute. reflexivity.
Defined.

(** An unsigned ABI for the token, under a policy that lists one signer. *)
Definition unsigned_eth : EthereumMetadata :=
  MkEthereumMetadata None
    [("0xa0b86991c6218b36c1d19d4a2e9eb0ce3606eb48", MkAbi "[]" None None None)].

Lemma unsigned_abi_inert_witness :
  let H := hex_ref in let A := alloy_ref in let X := alloy_tx_toy in let B := abi_toy in
  let I := erc20_ref in let J := erc1155_ref in let P := permit2_ref in let U := router_ref in
  let T := sample_chrono in let S := truncation_hash in let K := toy_secp256k1 in
  let o := MkOptions true None (ethereum_metadata unsigned_eth) None false in
  let c := with_registry_and_policy ContractRegistry_new (RequireAllowlistedSigner sample_abi.allow) in
  convert_transaction_inner sample_eth.show sample_eth.abi c (Eip1559 toy_1559) o =
    convert_to_visual_sign_payload (Eip1559 toy_1559) o 1 (layered_new ContractRegistry_new) [] None.
Proof.
  intros H A X B I J P U T S K o c.
  apply (unsigned_abi_inert H A X B I J P U T S K sample_eth.show sample_eth.abi c
    (Eip1559 toy_1559) o unsigned_eth sample_abi.allow 1).
  - reflexivity.
  - reflexivity.
  - by_decision.
  - exact Logic.I.
  - reflexivity.
  - intros to name abi key _ Hin _ (proto & s & Hs & _). cbn in Hin.
    apply list_elem_of_singleton in Hin. injection Hin as -> ->. discriminate Hs.
Defined.

Lemma eth_input_exact_witness :
  from_string_with_options (H := hex_ref) (A := alloy_ref) (X := alloy_tx_toy) sample_eth.show
    sample_eth.b64 sample_eth.json "0x0201" None = Ok (Eip1559 toy_1559).
Proof.
  apply (eth_input_exact hex_ref alloy_ref alloy_tx_toy sample_eth.show sample_eth.b64
    sample_eth.json "0x0201" None (Eip1559 toy_1559)); [reflexivity|].
  exists [Byte.x02; Byte.x01]. split; [reflexivity|]. left. left.
  by exists [Byte.x01], toy_1559.
Defined.
