(* ===== verification/SolanaPrograms.v ===== *)
(** * Solana: instructions of the native programs

    The layout the presets of [chain_parsers/visualsign-solana] share, and the presets [system],
    [compute_budget], [associated_token_account] and [stakepool]. *)

From S2P Require Import Prelude Json Payload Errors Charset External Encodings DecimalText Builders.
From S2P Require Import PlainText Lamports F64Text.
From S2P Require Import SolanaCore SolanaIdl.

#[local] Unset Program Cases.

(** ** The layout of an instruction *)

(** The rows of a list, in the order they are built. *)
Inductive row : Type :=
| TextRow (label text : string)
| NumberRow (label number unit : string)
| AmountRow (label amount abbreviation : string)
| RawRow (data : bytes) (fallback : option string)
| FieldRow (field : SignablePayloadField).

Section layout.
Context {E : RegexEngine} {H : HexCodec} {K : SolanaSdk}.

Definition build_row (r : row) : result VisualSignError AnnotatedPayloadField :=
  match r with
  | TextRow label text => create_text_field label text
  | NumberRow label number unit => create_number_field label number unit
  | AmountRow label amount abbreviation => create_amount_field label amount abbreviation
  | RawRow data fallback => create_raw_data_field data fallback
  | FieldRow field => Ok (annotate_field field)
  end.

Definition build_rows (l : list row) : result VisualSignError (list AnnotatedPayloadField) :=
  collect_results build_row l.

(** [Program ID: .., Data: ..], the fallback text of an instruction. *)
Definition raw_text (program_id_str : string) (data : bytes) : string :=
  "Program ID: " +:+ program_id_str +:+ newline +:+ "Data: " +:+ hex_encode data.

Definition instruction_label (c : VisualizerContext) : string :=
  "Instruction " +:+ show_nat (instruction_index c + 1).

Definition preview_layout_field (c : VisualizerContext) (fallback title subtitle : string)
    (condensed expanded : list AnnotatedPayloadField) : AnnotatedPayloadField :=
  annotate_field
    (PreviewLayout (Common fallback (instruction_label c))
       (FieldPreviewLayout (Some (FieldTextV2 title)) (Some (FieldTextV2 subtitle))
          (Some (FieldListLayout condensed)) (Some (FieldListLayout expanded)))).

(** The layout of nearly every preset: two lists of rows under a title. *)
Definition instruction_field (c : VisualizerContext) (program_id_str title : string)
    (condensed expanded : list row) : result VisualSignError AnnotatedPayloadField :=
  condensed ← build_rows condensed;
  expanded ← build_rows expanded;
  Ok (preview_layout_field c (raw_text program_id_str (context_data c)) title ""
        condensed expanded).

Definition show_program_id (c : VisualizerContext) : string := show_program show_pubkey (program_id c).

(** An account of the instruction, or a word for a missing one. *)
Definition show_account (c : VisualizerContext) (i : nat) : string :=
  match account c i with
  | Some (AccountResolved pk) => show_pubkey pk
  | Some (AccountUnresolved raw_index) => "unresolved(" +:+ show_nat raw_index +:+ ")"
  | None => "unknown"
  end.
End layout.

(** ** The instructions of the programs *)

Inductive SystemInstruction : Type :=
| CreateAccount (lamports space : Z) (owner : Pubkey)
| Assign (owner : Pubkey)
| Transfer (lamports : Z)
| CreateAccountWithSeed (base : Pubkey) (seed : string) (lamports space : Z) (owner : Pubkey)
| AdvanceNonceAccount
| WithdrawNonceAccount (lamports : Z)
| InitializeNonceAccount (authority : Pubkey)
| AuthorizeNonceAccount (authority : Pubkey)
| Allocate (space : Z)
| AllocateWithSeed (base : Pubkey) (seed : string) (space : Z) (owner : Pubkey)
| AssignWithSeed (base : Pubkey) (seed : string) (owner : Pubkey)
| TransferWithSeed (lamports : Z) (from_seed : string) (from_owner : Pubkey)
| UpgradeNonceAccount.

Inductive ComputeBudgetInstruction : Type :=
| UnusedBudget
| RequestHeapFrame (bytes : Z)
| SetComputeUnitLimit (units : Z)
| SetComputeUnitPrice (micro_lamports : Z)
| SetLoadedAccountsDataSizeLimit (bytes : Z).

Inductive AssociatedTokenAccountInstruction : Type := AtaCreate | AtaCreateIdempotent | AtaRecoverNested.

(** The instruction alone; its arguments are not read. *)
Inductive StakePoolInstruction : Type :=
| SpInitialize
| SpAddValidatorToPool
| SpRemoveValidatorFromPool
| SpDecreaseValidatorStake
| SpIncreaseValidatorStake
| SpSetPreferredValidator
| SpUpdateValidatorListBalance
| SpUpdateStakePoolBalance
| SpCleanupRemovedValidatorEntries
| SpDepositStake
| SpWithdrawStake
| SpSetManager
| SpSetFee
| SpSetStaker
| SpDepositSol
| SpSetFundingAuthority
| SpWithdrawSol
| SpIncreaseAdditionalValidatorStake
| SpDecreaseAdditionalValidatorStake
| SpDecreaseValidatorStakeWithReserve
| SpCreateTokenMetadata
| SpUpdateTokenMetadata
| SpDepositStakeWithSlippage
| SpWithdrawStakeWithSlippage
| SpDepositSolWithSlippage
| SpWithdrawSolWithSlippage
| SpRedelegate.

(** The decoders of [solana_program], [solana_sdk] and [spl_stake_pool], and the [Debug] text of
    a system instruction. *)
Class ProgramCodecs : Type := {
  decode_system : bytes → result string SystemInstruction;
  debug_system : SystemInstruction → string;
  decode_compute_budget : bytes → result string ComputeBudgetInstruction;
  decode_stake_pool : bytes → result string StakePoolInstruction;
}.

Section presets.
Context {E : RegexEngine} {H : HexCodec} {K : SolanaSdk} {D : ProgramCodecs}.

(** ** [presets/system] *)

Definition system_instruction_label (ix : SystemInstruction) : string :=
  match ix with
  | CreateAccount _ _ owner => "Create Account (owner: " +:+ show_pubkey owner +:+ ")"
  | Assign owner => "Assign (owner: " +:+ show_pubkey owner +:+ ")"
  | Transfer lamports => "Transfer " +:+ show_Z lamports +:+ " lamports"
  | CreateAccountWithSeed _ _ _ _ owner =>
      "Create Account With Seed (owner: " +:+ show_pubkey owner +:+ ")"
  | AdvanceNonceAccount => "Advance Nonce Account"
  | WithdrawNonceAccount lamports => "Withdraw Nonce Account (" +:+ show_Z lamports +:+ " lamports)"
  | InitializeNonceAccount _ => "Initialize Nonce Account"
  | AuthorizeNonceAccount _ => "Authorize Nonce Account"
  | Allocate space => "Allocate (space: " +:+ show_Z space +:+ ")"
  | AllocateWithSeed _ _ _ owner => "Allocate With Seed (owner: " +:+ show_pubkey owner +:+ ")"
  | AssignWithSeed base seed owner =>
      "Assign With Seed (base: " +:+ show_pubkey base +:+ ", seed: " +:+ seed +:+ ", owner: "
      +:+ show_pubkey owner +:+ ")"
  | TransferWithSeed _ _ from_owner =>
      "Transfer With Seed (from_owner: " +:+ show_pubkey from_owner +:+ ")"
  | UpgradeNonceAccount => "Upgrade Nonce Account"
  end.

(** [(lamports as f64) / 1_000_000_000.0], as [{}] prints it. *)
Definition sol_text (lamports : Z) : string :=
  show_f64 (f64_over (f64_of_u64 lamports) LAMPORTS_PER_SOL).

Definition create_system_preview_layout (ix : SystemInstruction) (c : VisualizerContext)
    : result VisualSignError AnnotatedPayloadField :=
  let program_id_str := show_program_id c in
  match ix with
  | Transfer lamports =>
      let text := "Transfer: " +:+ show_Z lamports +:+ " lamports" in
      instruction_field c program_id_str text
        [TextRow "Instruction" text]
        [TextRow "Program ID" program_id_str;
         FieldRow (AmountV2 (Common (sol_text lamports +:+ " SOL") "Transfer Amount")
                     (FieldAmountV2 (show_Z lamports) (Some "lamports")));
         TextRow "Raw Data" (hex_encode (context_data c))]
  | CreateAccount lamports space owner =>
      let new_account := show_account c 1 in
      let payer := show_account c 0 in
      instruction_field c program_id_str "Create Account"
        [TextRow "Action" "Create Account";
         TextRow "Space" (show_Z space +:+ " bytes");
         TextRow "Rent" (sol_text lamports +:+ " SOL")]
        [TextRow "Action" "Create Account";
         TextRow "New Account" new_account;
         TextRow "Payer" payer;
         NumberRow "Space (bytes)" (show_Z space) "";
         NumberRow "Rent (lamports)" (show_Z lamports) "";
         TextRow "Rent (SOL)" (sol_text lamports);
         TextRow "Owner Program" (show_pubkey owner);
         TextRow "Program" "System Program"]
  | _ =>
      let instruction_name := system_instruction_label ix in
      instruction_field c program_id_str instruction_name
        [TextRow "Action" instruction_name; TextRow "Program" "System Program"]
        [TextRow "Action" instruction_name; TextRow "Program" "System Program";
         TextRow "Instruction Data" (debug_system ix)]
  end.

Definition system_visualize (c : VisualizerContext) : result VisualSignError AnnotatedPayloadField :=
  ix ← map_err (fun e => DecodeError ("Failed to parse system instruction: " +:+ e))
         (decode_system (context_data c));
  create_system_preview_layout ix c.

(** ** [presets/compute_budget] *)

Definition format_compute_budget_instruction (ix : ComputeBudgetInstruction) : string :=
  match ix with
  | RequestHeapFrame bytes => "Request Heap Frame: " +:+ show_Z bytes +:+ " bytes"
  | SetComputeUnitLimit units => "Set Compute Unit Limit: " +:+ show_Z units +:+ " units"
  | SetComputeUnitPrice micro_lamports =>
      "Set Compute Unit Price: " +:+ show_Z micro_lamports +:+ " micro-lamports per compute unit"
  | SetLoadedAccountsDataSizeLimit bytes =>
      "Set Loaded Accounts Data Size Limit: " +:+ show_Z bytes +:+ " bytes"
  | UnusedBudget => "Unused Compute Budget Instruction"
  end.

Definition compute_budget_rows (ix : ComputeBudgetInstruction) : list row :=
  match ix with
  | RequestHeapFrame bytes => [NumberRow "Heap Frame Size" (show_Z bytes) "bytes"]
  | SetComputeUnitLimit units => [NumberRow "Compute Unit Limit" (show_Z units) "units"]
  | SetComputeUnitPrice micro_lamports =>
      [NumberRow "Price per Compute Unit" (show_Z micro_lamports) "micro-lamports"]
  | SetLoadedAccountsDataSizeLimit bytes => [NumberRow "Data Size Limit" (show_Z bytes) "bytes"]
  | UnusedBudget => []
  end.

Definition create_compute_budget_preview_layout (ix : ComputeBudgetInstruction)
    (c : VisualizerContext) : result VisualSignError AnnotatedPayloadField :=
  let program_id_str := show_program_id c in
  let instruction_text := format_compute_budget_instruction ix in
  instruction_field c program_id_str instruction_text
    [FieldRow (text_v2 "Instruction" instruction_text)]
    ([TextRow "Program ID" program_id_str] ++ compute_budget_rows ix
     ++ [RawRow (context_data c) (Some (hex_encode (context_data c)))]).

Definition compute_budget_visualize (c : VisualizerContext)
    : result VisualSignError AnnotatedPayloadField :=
  ix ← map_err (fun e => DecodeError ("Failed to parse compute budget instruction: " +:+ e))
         (decode_compute_budget (context_data c));
  create_compute_budget_preview_layout ix c.

(** ** [presets/associated_token_account] *)

Definition parse_ata_instruction (data : bytes) : result string AssociatedTokenAccountInstruction :=
  match data with
  | [] => Ok AtaCreate
  | Byte.x00 :: _ => Ok AtaCreate
  | Byte.x01 :: _ => Ok AtaCreateIdempotent
  | Byte.x02 :: _ => Ok AtaRecoverNested
  | _ => Err "Unknown ATA instruction"
  end.

Definition format_ata_instruction (ix : AssociatedTokenAccountInstruction) : string :=
  match ix with
  | AtaCreate => "Create Associated Token Account"
  | AtaCreateIdempotent => "Create Associated Token Account (Idempotent)"
  | AtaRecoverNested => "Recover Nested Associated Token Account"
  end.

Definition create_ata_preview_layout (ix : AssociatedTokenAccountInstruction) (c : VisualizerContext)
    : result VisualSignError AnnotatedPayloadField :=
  let program_id_str := show_program_id c in
  let instruction_text := format_ata_instruction ix in
  instruction_field c program_id_str instruction_text
    [FieldRow (text_v2 "Instruction" instruction_text)]
    [TextRow "Program ID" program_id_str; TextRow "Instruction" instruction_text].

Definition ata_visualize (c : VisualizerContext) : result VisualSignError AnnotatedPayloadField :=
  ix ← map_err DecodeError (parse_ata_instruction (context_data c));
  create_ata_preview_layout ix c.

(** ** [presets/stakepool] *)

Definition get_stake_pool_instruction_name (ix : StakePoolInstruction) : string :=
  match ix with
  | SpInitialize => "Initialize"
  | SpAddValidatorToPool => "Add Validator to Pool"
  | SpRemoveValidatorFromPool => "Remove Validator from Pool"
  | SpDecreaseValidatorStake => "Decrease Validator Stake"
  | SpIncreaseValidatorStake => "Increase Validator Stake"
  | SpSetPreferredValidator => "Set Preferred Validator"
  | SpUpdateValidatorListBalance => "Update Validator List Balance"
  | SpUpdateStakePoolBalance => "Update Stake Pool Balance"
  | SpCleanupRemovedValidatorEntries => "Cleanup Removed Validator Entries"
  | SpDepositStake => "Deposit Stake"
  | SpWithdrawStake => "Withdraw Stake"
  | SpSetManager => "Set Manager"
  | SpSetFee => "Set Fee"
  | SpSetStaker => "Set Staker"
  | SpDepositSol => "Deposit SOL"
  | SpSetFundingAuthority => "Set Funding Authority"
  | SpWithdrawSol => "Withdraw SOL"
  | SpIncreaseAdditionalValidatorStake => "Increase Additional Validator Stake"
  | SpDecreaseAdditionalValidatorStake => "Decrease Additional Validator Stake"
  | SpDecreaseValidatorStakeWithReserve => "Decrease Validator Stake with Reserve"
  | SpCreateTokenMetadata => "Create Token Metadata"
  | SpUpdateTokenMetadata => "Update Token Metadata"
  | SpDepositStakeWithSlippage => "Deposit Stake with Slippage"
  | SpWithdrawStakeWithSlippage => "Withdraw Stake with Slippage"
  | SpDepositSolWithSlippage => "Deposit SOL with Slippage"
  | SpWithdrawSolWithSlippage => "Withdraw SOL with Slippage"
  | SpRedelegate => "Redelegate"
  end.

Definition format_stake_pool_instruction (ix : StakePoolInstruction) : string :=
  "Stake Pool Instruction: " +:+ get_stake_pool_instruction_name ix.

Definition create_stakepool_preview_layout (ix : StakePoolInstruction) (c : VisualizerContext)
    : result VisualSignError AnnotatedPayloadField :=
  let program_id_str := show_program_id c in
  let instruction_name := format_stake_pool_instruction ix in
  instruction_field c program_id_str instruction_name
    [TextRow "Instruction" instruction_name]
    [TextRow "Stake Pool Instruction" instruction_name].

Definition parse_stake_pool_instruction (data : bytes) : result VisualSignError StakePoolInstruction :=
  map_err (fun e => DecodeError ("Failed to parse stakepool instruction: " +:+ e))
    (decode_stake_pool data).

Definition stakepool_visualize (c : VisualizerContext)
    : result VisualSignError AnnotatedPayloadField :=
  ix ← parse_stake_pool_instruction (context_data c);
  create_stakepool_preview_layout ix c.
End presets.

(** ** What an instruction field shows *)

Section shown.
Context {E : RegexEngine} {H : HexCodec} {K : SolanaSdk}.

Definition text_row (label text : string) : AnnotatedPayloadField := annotate_field (text_v2 label text).

(** A field of an instruction names its index in its label, and shows its program and its data:
    in the fallback text, or in the last two rows. *)
Definition shows_call (f : AnnotatedPayloadField) (c : VisualizerContext) : Prop :=
  ∃ fallback layout,
    f = annotate_field (PreviewLayout (Common fallback (instruction_label c)) layout) ∧
    (fallback = raw_text (show_program_id c) (context_data c) ∨
     starts_with "Program ID: " fallback = false ∧
     ∃ title subtitle condensed rows,
       layout = FieldPreviewLayout title subtitle condensed
         (Some (FieldListLayout
           (rows ++ [text_row "Program ID" (show_program_id c);
                     text_row "Raw Data" (default_hex_representation (context_data c))])))).

(** What a preset promises the converter: every field it makes for an instruction above the depth
    limit shows the call. *)
Class ShowsCalls (visualize : VisualizerContext → result VisualSignError AnnotatedPayloadField)
    : Prop :=
  shows_calls c f : call_depth c < MAX_CALL_DEPTH → visualize c = Ok f → shows_call f c.

Lemma instruction_field_shows c title condensed expanded f :
  instruction_field c (show_program_id c) title condensed expanded = Ok f → shows_call f c.
Proof.
  unfold instruction_field.
  intros (cs & _ & (es & _ & Ef)%result_bind_Ok)%result_bind_Ok.
  assert (f = preview_layout_field c (raw_text (show_program_id c) (context_data c)) title "" cs es)
    as -> by congruence.
  eexists _, _. split; [reflexivity|]. by left.
Qed.

(** Rows that are always built. *)
Definition sure_row (r : row) : bool :=
  match r with TextRow _ _ | RawRow _ _ | FieldRow _ => true | _ => false end.

Lemma build_rows_sure l : forallb sure_row l = true → ∃ fields, build_rows l = Ok fields.
Proof.
  induction l as [|r l IH]; [by exists []|]. cbn. intros [Hr (fields & Hf)%IH]%andb_true_iff.
  unfold build_rows in Hf. unfold build_rows. cbn.
  destruct r; try done; cbn; rewrite Hf; by eexists.
Qed.

Lemma instruction_field_sure c pid title condensed expanded :
  forallb sure_row condensed = true → forallb sure_row expanded = true →
  ∃ f, instruction_field c pid title condensed expanded = Ok f.
Proof.
  intros [cs Hc]%build_rows_sure [es He]%build_rows_sure. unfold instruction_field.
  rewrite Hc, He. by eexists.
Qed.

Lemma build_rows_app l l' rows :
  build_rows (l ++ l') = Ok rows →
  ∃ r r', build_rows l = Ok r ∧ build_rows l' = Ok r' ∧ rows = r ++ r'.
Proof.
  unfold build_rows. rewrite collect_results_Ok. intros Hf.
  apply Forall2_app_inv_l in Hf as (r & r' & Hr & Hr' & ->).
  exists r, r'. by rewrite !collect_results_Ok.
Qed.

Lemma build_rows_in l rows label text :
  build_rows l = Ok rows → TextRow label text ∈ l → text_row label text ∈ rows.
Proof.
  unfold build_rows. rewrite collect_results_Ok. induction 1 as [|r f l rows Hr _ IH]; [set_solver|].
  intros [<-|Hin]%elem_of_cons.
  - assert (f = text_row label text) as -> by (symmetry; by apply (inj Ok) in Hr). left.
  - right. by apply IH.
Qed.

(** *** The call is determined *)

Definition no_newline (s : string) : bool :=
  str_all (fun c => negb (bool_decide (c = Ascii.ascii_of_nat 10))) s.

Lemma split_newline_inj s s' t t' :
  no_newline s = true → no_newline s' = true →
  s +:+ newline +:+ t = s' +:+ newline +:+ t' → s = s' ∧ t = t'.
Proof. apply str_split_inj. Qed.

(** The keys of a context are keys. *)
Definition context_wf (c : VisualizerContext) : Prop := Forall (fun k => length k = 32) (account_keys c).

Lemma no_newline_app s t : no_newline (s +:+ t) = no_newline s && no_newline t.
Proof. apply str_all_app. Qed.

Lemma line_no_newline s : line s → no_newline s = true.
Proof. apply str_all_impl. intros c. by ascii_cases c. Qed.

Lemma alnum_no_newline s : str_all is_ascii_alphanumeric s = true → no_newline s = true.
Proof. apply str_all_impl. intros c. by ascii_cases c. Qed.

Lemma show_program_no_newline c : context_wf c → no_newline (show_program_id c) = true.
Proof.
  intros Hc. unfold show_program_id, program_id.
  destruct (account_keys c !! _) as [pk|] eqn:Hpk; cbn [show_program].
  - apply alnum_no_newline, show_pubkey_alnum. by apply (Forall_lookup_1 _ _ _ _ Hc Hpk).
  - by rewrite !no_newline_app, (line_no_newline (show_nat _) (line_show_nat _)).
Qed.

Lemma raw_text_inj c c' data data' :
  context_wf c → context_wf c' →
  raw_text (show_program_id c) data = raw_text (show_program_id c') data' →
  show_program_id c = show_program_id c' ∧ data = data'.
Proof.
  intros Hc Hc' Eq. unfold raw_text in Eq. apply (inj (String.append "Program ID: ")) in Eq.
  apply split_newline_inj in Eq as [-> Eq]; [|by apply show_program_no_newline..].
  split; [done|]. apply (inj (String.append "Data: ")) in Eq. by apply hex_encode_inj.
Qed.

Lemma raw_text_start p data : starts_with "Program ID: " (raw_text p data) = true.
Proof. unfold starts_with, raw_text. rewrite strip_prefix_app. by apply bool_decide_eq_true. Qed.

Lemma instruction_label_inj c c' :
  instruction_label c = instruction_label c' → instruction_index c = instruction_index c'.
Proof.
  unfold instruction_label. intros Eq%(inj (String.append "Instruction ")).
  apply show_nat_inj in Eq. lia.
Qed.

(** One field shows one call. *)
Lemma shows_call_inj f c c' :
  context_wf c → context_wf c' → shows_call f c → shows_call f c' →
  instruction_index c = instruction_index c' ∧ show_program_id c = show_program_id c' ∧
  context_data c = context_data c'.
Proof.
  intros Hc Hc' (fb & ly & -> & Hs) (fb' & ly' & Eq & Hs').
  unfold annotate_field in Eq. assert (fb = fb') as <- by congruence.
  assert (ly = ly') as <- by congruence.
  assert (instruction_label c = instruction_label c') as Elab by congruence. clear Eq.
  split; [by apply instruction_label_inj|].
  destruct Hs as [->|[Hn (t & s & cd & rows & ->)]], Hs' as [Ef|[Hn' (t' & s' & cd' & rows' & El)]].
  - by apply raw_text_inj.
  - by rewrite raw_text_start in Hn'.
  - rewrite Ef in Hn. by rewrite raw_text_start in Hn.
  - injection El as _ _ _ El. apply app_inj_2 in El as [_ El]; [|done].
    injection El as Ep _ Eh _. split; [done|].
    rewrite !default_hex_encode in Eh. by apply hex_encode_inj.
Qed.
End shown.

(** ** Properties *)

Section native.
Context {E : RegexEngine} {H : HexCodec} {K : SolanaSdk} {D : ProgramCodecs}.

#[export] Instance system_shows : ShowsCalls system_visualize.
Proof.
  intros c f _ (ix & _ & Hf)%result_bind_Ok. unfold create_system_preview_layout in Hf.
  destruct ix; by eapply instruction_field_shows.
Qed.

#[export] Instance compute_budget_shows : ShowsCalls compute_budget_visualize.
Proof. intros c f _ (ix & _ & Hf)%result_bind_Ok. by eapply instruction_field_shows. Qed.

#[export] Instance ata_shows : ShowsCalls ata_visualize.
Proof. intros c f _ (ix & _ & Hf)%result_bind_Ok. by eapply instruction_field_shows. Qed.

#[export] Instance stakepool_shows : ShowsCalls stakepool_visualize.
Proof. intros c f _ (ix & _ & Hf)%result_bind_Ok. by eapply instruction_field_shows. Qed.

(** The rows of the expanded view. *)
Definition expanded_rows (f : AnnotatedPayloadField) : list SignablePayloadField :=
  match signable_payload_field f with
  | PreviewLayout _ (FieldPreviewLayout _ _ _ (Some (FieldListLayout rows))) =>
      signable_payload_field <$> rows
  | _ => []
  end.

Lemma sol_text_exact n :
  (0 ≤ n < 2 ^ 22 * 10 ^ 9)%Z → read_units 9 (sol_text n) = n.
Proof.
  intros Hn. unfold sol_text. change LAMPORTS_PER_SOL with (10 ^ 9)%Z.
  change 9%N with (Z.to_N 9). apply show_f64_exact_at; lia.
Qed.

(** A transfer of the system program shows the exact number of lamports, and below 2^22 SOL
    (4.19 million) an amount of SOL that stands for exactly that number, although it is computed
    in floating point. *)
Theorem system_transfer_exact c lamports :
  decode_system (context_data c) = Ok (Transfer lamports) → (0 ≤ lamports < 2 ^ 22 * 10 ^ 9)%Z →
  ∃ f sol, system_visualize c = Ok f ∧ read_units 9 sol = lamports ∧
    AmountV2 (Common (sol +:+ " SOL") "Transfer Amount")
      (FieldAmountV2 (show_Z lamports) (Some "lamports")) ∈ expanded_rows f.
Proof.
  intros Hd Hn. eexists _, (sol_text lamports). unfold system_visualize. rewrite Hd.
  split; [reflexivity|]. split; [by apply sol_text_exact|]. cbn [expanded_rows]. right. left.
Qed.

(** The accounts of a transfer are in the list of all accounts only: its own field is the same
    whichever of them it moves the lamports between. *)
Lemma transfer_accounts_not_in_field c accounts lamports :
  let c' := MkContext (sender c)
              (MkCompiledInstruction (program_id_index (compiled_instruction c)) accounts
                 (context_data c)) (account_keys c) (instruction_index c) (call_depth c) in
  create_system_preview_layout (Transfer lamports) c =
  create_system_preview_layout (Transfer lamports) c'.
Proof. reflexivity. Qed.
End native.

Definition sample_codecs : ProgramCodecs := {|
  decode_system data := match data with b :: _ => Ok (Transfer (byte_to_Z b)) | [] => Err "empty" end;
  debug_system _ := "";
  decode_compute_budget _ := Err "";
  decode_stake_pool _ := Err "";
|}.

Definition sample_transfer : VisualizerContext :=
  VisualizerContext_new (MkSolanaAccount "" false false)
    (MkCompiledInstruction 0 [1; 2] [Byte.x07]) [replicate 32 Byte.x00] 0.

Lemma system_transfer_exact_witness :
  ∃ f sol, system_visualize (E:=derivative_engine) (H:=hex_ref) (K:=hex_sdk) (D:=sample_codecs)
             sample_transfer = Ok f ∧ read_units 9 sol = 7%Z ∧
    AmountV2 (Common (sol +:+ " SOL") "Transfer Amount")
      (FieldAmountV2 (show_Z 7) (Some "lamports")) ∈ expanded_rows f.
Proof.
  apply (system_transfer_exact (E:=derivative_engine) (H:=hex_ref) (K:=hex_sdk) (D:=sample_codecs)
    sample_transfer 7); [reflexivity|lia].
Defined.
