(* ===== verification/SolanaTokens.v ===== *)
(** * Solana: token programs

    [utils/mod.rs] of [chain_parsers/visualsign-solana] and the presets [spl_token] and
    [token_2022]: what they show of an instruction, and that amounts are shown exactly. *)

From S2P Require Import Prelude Json Payload Errors Charset External Encodings DecimalText Builders.
From S2P Require Import Panic PlainText NearText Lamports F64Text.
From S2P Require Import SolanaCore SolanaIdl SolanaPrograms.

#[local] Unset Program Cases.

(** ** Token amounts ([utils/mod.rs]) *)

Record TokenInfo := MkTokenInfo { ti_symbol : string; ti_name : string; ti_decimals : Z }.

Definition get_token_lookup_table : gmap string TokenInfo :=
  <["Es9vMFrzaCERmJfrF4H2FYD4KCoNkY11McCe8BenwNYB" := MkTokenInfo "USDT" "Tether USD" 6]>
  (<["EPjFWdd5AufqSSqeM2qN1xzybapC8G4wEGGkZwyTDt1v" := MkTokenInfo "USDC" "USD Coin" 6]>
  (<["11111111111111111111111111111112" := MkTokenInfo "SOL" "Solana" 9]> ∅)).

(** [10_u64.checked_pow]. *)
Definition checked_pow10 (d : Z) : option Z :=
  if decide (10 ^ d ≤ U64_MAX)%Z then Some (10 ^ d)%Z else None.

Definition format_token_amount (amount decimals : Z) : string :=
  match checked_pow10 decimals with
  | None => show_Z amount
  | Some divisor =>
      if decide (divisor = 0%Z) then show_Z amount
      else
        let whole := (amount `div` divisor)%Z in
        let fractional := (amount `mod` divisor)%Z in
        if decide (fractional = 0%Z) then show_Z whole
        else
          let fractional_str := pad_left (Z.to_nat decimals) (show_Z fractional) in
          let trimmed := strip_trailing "0" fractional_str in
          if is_empty_string trimmed then show_Z whole
          else show_Z whole +:+ "." +:+ trimmed
  end.

Definition ADDRESS_TRUNCATION_LENGTH : nat := 8.

Record SwapTokenInfo := MkSwapToken {
  st_address : string;
  st_symbol : string;
  st_name : string;
  st_decimals : Z;
  st_amount : Z;
  st_human_readable_amount : string;
}.

Fixpoint str_drop (n : nat) (s : string) : string :=
  match n, s with
  | S n, String _ s => str_drop n s
  | _, _ => s
  end.

(** The addresses are ASCII, so the slices cut at characters. *)
Definition truncated_address (address : string) : string :=
  if decide (ADDRESS_TRUNCATION_LENGTH < String.length address) then
    str_take 4 address +:+ "..." +:+ str_drop (String.length address - 4) address
  else address.

Definition get_token_info (address : string) (amount : Z) : SwapTokenInfo :=
  match get_token_lookup_table !! address with
  | Some t =>
      MkSwapToken address (ti_symbol t) (ti_name t) (ti_decimals t) amount
        (format_token_amount amount (ti_decimals t))
  | None =>
      let truncated := truncated_address address in
      MkSwapToken address truncated ("Unknown Token (" +:+ truncated +:+ ")") 0 amount
        (show_Z amount)
  end.

(** ** [presets/spl_token] *)

Module spl.
Inductive AuthorityType : Type := MintTokens | FreezeAccountAuthority | AccountOwner | CloseAccountAuthority.

Inductive TokenInstruction : Type :=
| InitializeMint (decimals : Z) (mint_authority : Pubkey) (freeze_authority : option Pubkey)
| InitializeAccount
| InitializeMultisig (m : Z)
| Transfer (amount : Z)
| Approve (amount : Z)
| Revoke
| SetAuthority (authority_type : AuthorityType) (new_authority : option Pubkey)
| MintTo (amount : Z)
| Burn (amount : Z)
| CloseAccount
| FreezeAccount
| ThawAccount
| TransferChecked (amount decimals : Z)
| ApproveChecked (amount decimals : Z)
| MintToChecked (amount decimals : Z)
| BurnChecked (amount decimals : Z)
| InitializeAccount2 (owner : Pubkey)
| SyncNative
| InitializeAccount3 (owner : Pubkey)
| InitializeMultisig2 (m : Z)
| InitializeMint2 (decimals : Z) (mint_authority : Pubkey) (freeze_authority : option Pubkey)
| GetAccountDataSize
| InitializeImmutableOwner
| AmountToUiAmount (amount : Z)
| UiAmountToAmount (ui_amount : string).
End spl.

(** The instructions of [spl_token_2022] the preset shows. *)
Inductive Token2022Sdk : Type :=
| SdkMintToChecked (amount decimals : Z)
| SdkBurnChecked (amount decimals : Z)
| SdkFreezeAccount
| SdkThawAccount
| SdkCloseAccount
| SdkOther.

(** The decoders of [spl_token] and [spl_token_2022]; amounts are [u64]s and decimals [u8]s. *)
Class TokenCodecs : Type := {
  unpack_token : bytes → result string spl.TokenInstruction;
  unpack_token_2022 : bytes → result string Token2022Sdk;
  unpack_2022_mint_range data a d :
    unpack_token_2022 data = Ok (SdkMintToChecked a d) → (0 ≤ a < 2 ^ 64 ∧ 0 ≤ d < 2 ^ 8)%Z;
  unpack_2022_burn_range data a d :
    unpack_token_2022 data = Ok (SdkBurnChecked a d) → (0 ≤ a < 2 ^ 64 ∧ 0 ≤ d < 2 ^ 8)%Z;
}.

Section spl_token.
Context {E : RegexEngine} {H : HexCodec} {K : SolanaSdk} {T : TokenCodecs}.

Definition format_authority_type (t : spl.AuthorityType) : string :=
  match t with
  | spl.MintTokens => "Mint Tokens"
  | spl.FreezeAccountAuthority => "Freeze Account"
  | spl.AccountOwner => "Account Owner"
  | spl.CloseAccountAuthority => "Close Account"
  end.

Definition format_coption_pubkey (o : option Pubkey) : string :=
  match o with Some pk => show_pubkey pk | None => "None" end.

(** [None] is the [unreachable!] arm. *)
Definition format_token_instruction (ix : spl.TokenInstruction) : option string :=
  match ix with
  | spl.InitializeMint _ _ _ => Some "Initialize Mint"
  | spl.InitializeMint2 _ _ _ => Some "Initialize Mint (v2)"
  | spl.InitializeAccount => Some "Initialize Token Account"
  | spl.InitializeAccount2 _ => Some "Initialize Token Account (v2)"
  | spl.InitializeAccount3 _ => Some "Initialize Token Account (v3)"
  | spl.InitializeMultisig _ => Some "Initialize Multisig"
  | spl.InitializeMultisig2 _ => Some "Initialize Multisig (v2)"
  | spl.Transfer _ => Some "Transfer"
  | spl.TransferChecked _ _ => Some "Transfer (Checked)"
  | spl.Approve _ => Some "Approve"
  | spl.ApproveChecked _ _ => Some "Approve (Checked)"
  | spl.Revoke => Some "Revoke"
  | spl.SetAuthority _ _ => Some "Set Authority"
  | spl.Burn _ => Some "Burn"
  | spl.BurnChecked _ _ => Some "Burn (Checked)"
  | spl.CloseAccount => Some "Close Account"
  | spl.FreezeAccount => Some "Freeze Account"
  | spl.ThawAccount => Some "Thaw Account"
  | spl.SyncNative => Some "Sync Native"
  | spl.GetAccountDataSize => Some "Get Account Data Size"
  | spl.InitializeImmutableOwner => Some "Initialize Immutable Owner"
  | spl.AmountToUiAmount _ => Some "Amount To UI Amount"
  | spl.UiAmountToAmount _ => Some "UI Amount To Amount"
  | spl.MintTo _ | spl.MintToChecked _ _ => None
  end.

(** The accounts of the instruction that are there, under their labels. *)
Definition account_rows (view : InstructionView) (roles : list (string * nat)) : list row :=
  omap (fun '(label, i) => TextRow label <$> view_accounts view !! i) roles.

(** What the arms of [create_token_preview_layout] build: the arguments, then the accounts. *)
Definition token_layout (view : InstructionView) (c : VisualizerContext) (title name : string)
    (args : list (string * string)) (roles : list (string * nat))
    : result VisualSignError AnnotatedPayloadField :=
  instruction_field c (view_program_id view) title
    [TextRow "Instruction" title]
    ([TextRow "Program ID" (view_program_id view); TextRow "Instruction" name]
     ++ ((fun '(label, text) => TextRow label text) <$> args)
     ++ account_rows view roles
     ++ [TextRow "Raw Data" (hex_encode (context_data c))]).

Definition raw_token_layout (view : InstructionView) (c : VisualizerContext) (title : string)
    : result VisualSignError AnnotatedPayloadField :=
  instruction_field c (view_program_id view) title
    [TextRow "Instruction" title; TextRow "Program" "SPL Token"]
    [TextRow "Instruction" title; TextRow "Program" "SPL Token";
     TextRow "Program ID" (view_program_id view);
     TextRow "Raw Data" (hex_encode (context_data c))].

Definition create_unparsable_preview_layout (view : InstructionView) (c : VisualizerContext)
    : result VisualSignError AnnotatedPayloadField :=
  raw_token_layout view c "SPL Token (unparsed)".

Section arms.
Context (view : InstructionView) (c : VisualizerContext).

Definition layout_mint_to (amount : Z) : result VisualSignError AnnotatedPayloadField :=
  token_layout view c ("Mint To: " +:+ show_Z amount) "Mint To"
    [("Amount", show_Z amount)]
    [("mint", 0); ("account", 1); ("mintAuthority", 2)].

Definition layout_mint_to_checked (amount : Z) (decimals : Z)
    : result VisualSignError AnnotatedPayloadField :=
  token_layout view c
    ("Mint To: " +:+ show_Z amount +:+ " (decimals: " +:+ show_Z decimals +:+ ")")
    "Mint To (Checked)"
    [("Amount", show_Z amount); ("Decimals", show_Z decimals)]
    [("mint", 0); ("account", 1); ("mintAuthority", 2)].

Definition layout_set_authority (authority_type : spl.AuthorityType) (new_authority : option Pubkey)
    : result VisualSignError AnnotatedPayloadField :=
  let authority_type_str := format_authority_type authority_type in
  token_layout view c ("Set Authority: " +:+ authority_type_str) "Set Authority"
    [("Authority Type", authority_type_str);
     ("New Authority", format_coption_pubkey new_authority)]
    [("Account", 0); ("Current Authority", 1)].

Definition layout_transfer (amount : Z) : result VisualSignError AnnotatedPayloadField :=
  token_layout view c "Transfer" "Transfer" [("Amount", show_Z amount)]
    [("Source", 0); ("Destination", 1); ("Owner", 2)].

Definition layout_transfer_checked (amount : Z) (decimals : Z)
    : result VisualSignError AnnotatedPayloadField :=
  token_layout view c "Transfer (Checked)" "Transfer (Checked)"
    [("Amount", show_Z amount); ("Decimals", show_Z decimals)]
    [("Source", 0); ("Token Mint", 1); ("Destination", 2); ("Owner", 3)].

Definition layout_burn (amount : Z) : result VisualSignError AnnotatedPayloadField :=
  token_layout view c "Burn" "Burn" [("Amount", show_Z amount)]
    [("Account", 0); ("Token Mint", 1); ("Owner", 2)].

Definition layout_burn_checked (amount : Z) (decimals : Z)
    : result VisualSignError AnnotatedPayloadField :=
  token_layout view c "Burn (Checked)" "Burn (Checked)"
    [("Amount", show_Z amount); ("Decimals", show_Z decimals)]
    [("Account", 0); ("Token Mint", 1); ("Owner", 2)].

Definition layout_approve (amount : Z) : result VisualSignError AnnotatedPayloadField :=
  token_layout view c "Approve" "Approve" [("Amount", show_Z amount)]
    [("Source", 0); ("Delegate", 1); ("Owner", 2)].

Definition layout_approve_checked (amount : Z) (decimals : Z)
    : result VisualSignError AnnotatedPayloadField :=
  token_layout view c "Approve (Checked)" "Approve (Checked)"
    [("Amount", show_Z amount); ("Decimals", show_Z decimals)]
    [("Source", 0); ("Token Mint", 1); ("Delegate", 2); ("Owner", 3)].

Definition layout_initialize_mint (decimals : Z) (mint_authority : Pubkey)
    (freeze_authority : option Pubkey)
    : result VisualSignError AnnotatedPayloadField :=
  token_layout view c "Initialize Mint" "Initialize Mint"
    [("Decimals", show_Z decimals); ("Mint Authority", show_pubkey mint_authority);
     ("Freeze Authority", format_coption_pubkey freeze_authority)]
    [("Token Mint", 0)].

Definition layout_initialize_mint2 (decimals : Z) (mint_authority : Pubkey)
    (freeze_authority : option Pubkey)
    : result VisualSignError AnnotatedPayloadField :=
  token_layout view c "Initialize Mint (v2)" "Initialize Mint (v2)"
    [("Decimals", show_Z decimals); ("Mint Authority", show_pubkey mint_authority);
     ("Freeze Authority", format_coption_pubkey freeze_authority)]
    [("Token Mint", 0)].

Definition layout_initialize_account : result VisualSignError AnnotatedPayloadField :=
  token_layout view c "Initialize Token Account" "Initialize Token Account" []
    [("Account", 0); ("Token Mint", 1); ("Owner", 2)].

Definition layout_initialize_account2 (owner : Pubkey)
    : result VisualSignError AnnotatedPayloadField :=
  token_layout view c "Initialize Token Account (v2)" "Initialize Token Account (v2)"
    [("Owner", show_pubkey owner)] [("Account", 0); ("Token Mint", 1)].

Definition layout_initialize_account3 (owner : Pubkey)
    : result VisualSignError AnnotatedPayloadField :=
  token_layout view c "Initialize Token Account (v3)" "Initialize Token Account (v3)"
    [("Owner", show_pubkey owner)] [("Account", 0); ("Token Mint", 1)].

Definition layout_freeze_account : result VisualSignError AnnotatedPayloadField :=
  token_layout view c "Freeze Account" "Freeze Account" []
    [("Account", 0); ("Token Mint", 1); ("Freeze Authority", 2)].

Definition layout_thaw_account : result VisualSignError AnnotatedPayloadField :=
  token_layout view c "Thaw Account" "Thaw Account" []
    [("Account", 0); ("Token Mint", 1); ("Freeze Authority", 2)].

Definition layout_close_account : result VisualSignError AnnotatedPayloadField :=
  token_layout view c "Close Account" "Close Account" []
    [("Account", 0); ("Destination", 1); ("Owner", 2)].

Definition layout_revoke : result VisualSignError AnnotatedPayloadField :=
  token_layout view c "Revoke" "Revoke" [] [("Source", 0); ("Owner", 1)].
End arms.

Definition create_token_preview_layout (ix : spl.TokenInstruction) (view : InstructionView)
    (c : VisualizerContext) : result (crash VisualSignError) AnnotatedPayloadField :=
  match ix with
  | spl.MintTo amount => lift (layout_mint_to view c amount)
  | spl.MintToChecked amount decimals => lift (layout_mint_to_checked view c amount decimals)
  | spl.SetAuthority authority_type new_authority =>
      lift (layout_set_authority view c authority_type new_authority)
  | spl.Transfer amount => lift (layout_transfer view c amount)
  | spl.TransferChecked amount decimals => lift (layout_transfer_checked view c amount decimals)
  | spl.Burn amount => lift (layout_burn view c amount)
  | spl.BurnChecked amount decimals => lift (layout_burn_checked view c amount decimals)
  | spl.Approve amount => lift (layout_approve view c amount)
  | spl.ApproveChecked amount decimals => lift (layout_approve_checked view c amount decimals)
  | spl.InitializeMint decimals mint_authority freeze_authority =>
      lift (layout_initialize_mint view c decimals mint_authority freeze_authority)
  | spl.InitializeMint2 decimals mint_authority freeze_authority =>
      lift (layout_initialize_mint2 view c decimals mint_authority freeze_authority)
  | spl.InitializeAccount => lift (layout_initialize_account view c)
  | spl.InitializeAccount2 owner => lift (layout_initialize_account2 view c owner)
  | spl.InitializeAccount3 owner => lift (layout_initialize_account3 view c owner)
  | spl.FreezeAccount => lift (layout_freeze_account view c)
  | spl.ThawAccount => lift (layout_thaw_account view c)
  | spl.CloseAccount => lift (layout_close_account view c)
  | spl.Revoke => lift (layout_revoke view c)
  | _ =>
      match format_token_instruction ix with
      | Some instruction_name => lift (raw_token_layout view c instruction_name)
      | None => Err Panic
      end
  end.

Lemma safe_token_preview_layout ix view c : safe (create_token_preview_layout ix view c).
Proof.
  destruct ix; try apply safe_lift;
    cbn [create_token_preview_layout format_token_instruction]; apply safe_lift.
Qed.

Definition spl_token_visualize (c : VisualizerContext)
    : result VisualSignError AnnotatedPayloadField :=
  let view := from_context show_pubkey c in
  match unpack_token (context_data c) with
  | Ok ix => run_safe (create_token_preview_layout ix view c) (safe_token_preview_layout ix view c)
  | Err _ => create_unparsable_preview_layout view c
  end.
End spl_token.

(** ** [presets/token_2022] *)

Definition PAUSABLE_EXTENSION_DISCRIMINATOR : Z := 44.
Definition PAUSABLE_PAUSE_DISCRIMINATOR : Z := 1.
Definition PAUSABLE_RESUME_DISCRIMINATOR : Z := 2.
Definition SET_AUTHORITY_DISCRIMINATOR : Z := 6.
Definition MAX_TOKEN_DECIMALS : Z := 18.

Inductive Token2022Instruction : Type :=
| T22MintToChecked (amount decimals : Z) (mint account mint_authority : string)
| T22BurnChecked (amount decimals : Z) (account mint authority : string)
| T22Pause (mint pause_authority : string)
| T22Resume (mint pause_authority : string)
| T22Freeze (account mint freeze_authority : string)
| T22Thaw (account mint freeze_authority : string)
| T22CloseAccount (account destination owner : string)
| T22SetAuthority (account : string) (authority_type : Z) (authority_type_name : string)
    (current_authority : string) (new_authority : option string).

Definition is_extension_instruction (sub : Z) (data : bytes) : bool :=
  match data with
  | b0 :: b1 :: _ =>
      (byte_to_Z b0 =? PAUSABLE_EXTENSION_DISCRIMINATOR)%Z && (byte_to_Z b1 =? sub)%Z
  | _ => false
  end.

Definition is_pause_instruction (data : bytes) : bool :=
  is_extension_instruction PAUSABLE_PAUSE_DISCRIMINATOR data.

Definition is_resume_instruction (data : bytes) : bool :=
  is_extension_instruction PAUSABLE_RESUME_DISCRIMINATOR data.

Definition is_set_authority_instruction (data : bytes) : bool :=
  match data with b0 :: _ => (byte_to_Z b0 =? SET_AUTHORITY_DISCRIMINATOR)%Z | [] => false end.

Definition authority_type_names : list string :=
  ["MintTokens"; "FreezeAccount"; "AccountOwner"; "CloseAccount"; "TransferFeeConfig";
   "WithheldWithdraw"; "CloseMint"; "InterestRate"; "PermanentDelegate";
   "ConfidentialTransferMint"; "TransferHookProgramId"; "ConfidentialTransferFeeConfig";
   "MetadataPointer"; "GroupPointer"; "GroupMemberPointer"; "ScaledUiAmount"; "Pause"].

Definition get_authority_type_name (authority_type : Z) : string :=
  default ("Unknown(" +:+ show_Z authority_type +:+ ")")
    (authority_type_names !! Z.to_nat authority_type).

Section token_2022.
Context {E : RegexEngine} {H : HexCodec} {K : SolanaSdk} {T : TokenCodecs}.

(** The optional key behind the authority type: a flag and 32 bytes. *)
Definition parse_new_authority (rest : bytes) : result string (option string) :=
  match rest with
  | [] => Ok None
  | flag :: rest =>
      if (byte_to_Z flag =? 0)%Z then Ok None
      else if (byte_to_Z flag =? 1)%Z then
        if decide (32 ≤ length rest) then Ok (Some (show_pubkey (take 32 rest)))
        else Err "Invalid setAuthority: incomplete pubkey data"
      else Err "Invalid setAuthority: invalid option flag"
  end.

Definition parse_set_authority (data : bytes) (accounts : list string)
    : result string Token2022Instruction :=
  match accounts with
  | account :: current_authority :: _ =>
      match data with
      | _ :: authority_type :: rest =>
          new_authority ← parse_new_authority rest;
          Ok (T22SetAuthority account (byte_to_Z authority_type)
                (get_authority_type_name (byte_to_Z authority_type)) current_authority
                new_authority)
      | _ => Err "Invalid setAuthority: insufficient data"
      end
  | _ => Err "Invalid setAuthority: insufficient accounts"
  end.

Definition unsupported_2022 (data : bytes) : string :=
  "Unsupported Token 2022 instruction: unknown discriminator "
  +:+ match data with [] => "empty" | b0 :: _ => "0x" +:+ hex_byte b0 end.

(** The first three accounts, after the check that there are as many. *)
Definition three_accounts (what : string) (accounts : list string)
    : result string (string * string * string) :=
  match accounts with
  | a :: b :: c :: _ => Ok (a, b, c)
  | _ => Err ("Invalid " +:+ what +:+ ": insufficient accounts")
  end.

Definition check_decimals (what : string) (decimals : Z) : result string () :=
  if decide (MAX_TOKEN_DECIMALS < decimals)%Z then
    Err ("Invalid " +:+ what +:+ ": decimals " +:+ show_Z decimals
         +:+ " exceeds maximum supported value " +:+ show_Z MAX_TOKEN_DECIMALS)
  else Ok ().

Definition parse_token_2022_instruction (data : bytes) (accounts : list string)
    : result string Token2022Instruction :=
  if is_pause_instruction data then
    match accounts with
    | mint :: pause_authority :: _ => Ok (T22Pause mint pause_authority)
    | _ => Err "Invalid pause: insufficient accounts"
    end
  else if is_resume_instruction data then
    match accounts with
    | mint :: pause_authority :: _ => Ok (T22Resume mint pause_authority)
    | _ => Err "Invalid resume: insufficient accounts"
    end
  else if is_set_authority_instruction data then parse_set_authority data accounts
  else
    match unpack_token_2022 data with
    | Ok (SdkMintToChecked amount decimals) =>
        '(mint, account, mint_authority) ← three_accounts "mintToChecked" accounts;
        _ ← check_decimals "mintToChecked" decimals;
        Ok (T22MintToChecked amount decimals mint account mint_authority)
    | Ok (SdkBurnChecked amount decimals) =>
        '(account, mint, authority) ← three_accounts "burnChecked" accounts;
        _ ← check_decimals "burnChecked" decimals;
        Ok (T22BurnChecked amount decimals account mint authority)
    | Ok SdkFreezeAccount =>
        '(account, mint, freeze_authority) ← three_accounts "freezeAccount" accounts;
        Ok (T22Freeze account mint freeze_authority)
    | Ok SdkThawAccount =>
        '(account, mint, freeze_authority) ← three_accounts "thawAccount" accounts;
        Ok (T22Thaw account mint freeze_authority)
    | Ok SdkCloseAccount =>
        '(account, destination, owner) ← three_accounts "closeAccount" accounts;
        Ok (T22CloseAccount account destination owner)
    | Ok SdkOther | Err _ => Err (unsupported_2022 data)
    end.

(** The title and the rows of each arm; every expanded list ends in the program and the data. *)
Definition token_2022_rows (parsed : Token2022Instruction) : string * list row * list row :=
  match parsed with
  | T22MintToChecked amount decimals mint account mint_authority =>
      let formatted_amount := format_token_amount amount decimals in
      ("Mint To Checked: " +:+ formatted_amount +:+ " tokens",
       [TextRow "Action" "Mint To Checked"; TextRow "Amount" formatted_amount],
       [TextRow "Instruction" "Mint To Checked"; TextRow "Amount" formatted_amount;
        NumberRow "Raw Amount" (show_Z amount) ""; NumberRow "Decimals" (show_Z decimals) "";
        TextRow "Mint" mint; TextRow "Destination Account" account;
        TextRow "Mint Authority" mint_authority])
  | T22BurnChecked amount decimals account mint authority =>
      let formatted_amount := format_token_amount amount decimals in
      ("Burn Checked: " +:+ formatted_amount +:+ " tokens",
       [TextRow "Action" "Burn Checked"; TextRow "Amount" formatted_amount],
       [TextRow "Instruction" "Burn Checked"; TextRow "Amount" formatted_amount;
        NumberRow "Raw Amount" (show_Z amount) ""; NumberRow "Decimals" (show_Z decimals) "";
        TextRow "Token Account" account; TextRow "Mint" mint; TextRow "Authority" authority])
  | T22Pause mint pause_authority =>
      ("Pause Token", [TextRow "Action" "Pause Token"],
       [TextRow "Instruction" "Pause"; TextRow "Mint" mint;
        TextRow "Pause Authority" pause_authority])
  | T22Resume mint pause_authority =>
      ("Resume Token", [TextRow "Action" "Resume Token"],
       [TextRow "Instruction" "Resume"; TextRow "Mint" mint;
        TextRow "Pause Authority" pause_authority])
  | T22SetAuthority account authority_type authority_type_name current_authority new_authority =>
      let new_authority_display := default "None (Remove Authority)" new_authority in
      ("Set Authority: " +:+ authority_type_name,
       [TextRow "Action" "Set Authority"; TextRow "Authority Type" authority_type_name],
       [TextRow "Instruction" "Set Authority"; TextRow "Account" account;
        TextRow "Authority Type" authority_type_name;
        NumberRow "Authority Type ID" (show_Z authority_type) "";
        TextRow "Current Authority" current_authority;
        TextRow "New Authority" new_authority_display])
  | T22Freeze account mint freeze_authority =>
      ("Freeze Account", [TextRow "Action" "Freeze Account"],
       [TextRow "Instruction" "Freeze"; TextRow "Token Account" account; TextRow "Mint" mint;
        TextRow "Freeze Authority" freeze_authority])
  | T22Thaw account mint freeze_authority =>
      ("Thaw Account", [TextRow "Action" "Thaw Account"],
       [TextRow "Instruction" "Thaw"; TextRow "Token Account" account; TextRow "Mint" mint;
        TextRow "Freeze Authority" freeze_authority])
  | T22CloseAccount account destination owner =>
      ("Close Account", [TextRow "Action" "Close Account"],
       [TextRow "Instruction" "Close Account"; TextRow "Token Account" account;
        TextRow "Destination" destination; TextRow "Owner" owner])
  end.

Definition create_token_2022_preview_layout (parsed : Token2022Instruction) (c : VisualizerContext)
    : result VisualSignError AnnotatedPayloadField :=
  let '(title, condensed, expanded) := token_2022_rows parsed in
  condensed ← build_rows condensed;
  expanded ← build_rows
    (expanded ++ [TextRow "Program ID" (show_program_id c); RawRow (context_data c) None]);
  Ok (preview_layout_field c
        ("Token 2022: " +:+ title +:+ newline +:+ "Program ID: " +:+ show_program_id c) title ""
        condensed expanded).

Definition token_2022_visualize (c : VisualizerContext)
    : result VisualSignError AnnotatedPayloadField :=
  accounts ← collect_results (resolve_account "token_2022: " c) (seq 0 (num_accounts c));
  parsed ← map_err DecodeError
    (parse_token_2022_instruction (context_data c)
       ((fun m => show_pubkey (meta_pubkey m)) <$> accounts));
  create_token_2022_preview_layout parsed c.
End token_2022.

(** ** Properties *)

Lemma checked_pow10_small d : (0 ≤ d ≤ 19)%Z → checked_pow10 d = Some (10 ^ d)%Z.
Proof.
  intros Hd. unfold checked_pow10. rewrite decide_True; [done|].
  transitivity (10 ^ 19)%Z; [apply Z.pow_le_mono_r; lia|by_decision].
Qed.

Lemma checked_pow10_large d : (19 < d)%Z → checked_pow10 d = None.
Proof.
  intros Hd. unfold checked_pow10. rewrite decide_False; [done|].
  assert (10 ^ 20 ≤ 10 ^ d)%Z by (apply Z.pow_le_mono_r; lia).
  assert (U64_MAX < 10 ^ 20)%Z by by_decision. lia.
Qed.

Lemma format_token_amount_fixed a d :
  (0 ≤ a → 0 ≤ d ≤ 19 → format_token_amount a d = fixed_text (Z.to_N a) (10 ^ d) (Z.to_N d))%Z.
Proof.
  intros Ha Hd. unfold format_token_amount, fixed_text. rewrite checked_pow10_small by done.
  assert (0 < 10 ^ d)%Z as Hp by (apply Z.pow_pos_nonneg; lia).
  rewrite decide_False by lia. rewrite Z2N.id, Z_N_nat by lia. case_decide as Hf; [done|].
  destruct (is_empty_string _) eqn:He; [|done].
  destruct (strip_trailing_zeros (pad_left (Z.to_nat d) (show_Z (a `mod` 10 ^ d)))) as (n & Hn & _).
  destruct (strip_trailing _ _); [|done].
  apply (f_equal (dec_value 0)) in Hn. pose proof (Z.mod_pos_bound a (10 ^ d) Hp).
  rewrite pad_left_value, str_nil_app, dec_value_zeros, dec_value_show in Hn; lia.
Qed.

(** An amount of a token with up to 19 decimals is printed exactly: the text, read back at that
    many decimals, is the amount. With more decimals, where [10 ^ decimals] leaves [u64], the
    number of base units is printed, never a scaled one and never a panic. *)
Theorem format_token_amount_exact a d :
  (0 ≤ a → 0 ≤ d →
   (d ≤ 19 → read_units (Z.to_N d) (format_token_amount a d) = a) ∧
   (19 < d → format_token_amount a d = show_Z a))%Z.
Proof.
  intros Ha Hd. split; intros Hd'.
  - rewrite format_token_amount_fixed by lia.
    pose proof (read_fixed_text (Z.to_N a) (Z.to_N d)) as Hr. rewrite !Z2N.id in Hr by lia. done.
  - unfold format_token_amount. by rewrite checked_pow10_large.
Qed.

Lemma format_token_amount_exact_witness :
  read_units 6 (format_token_amount 1500000 6) = 1500000%Z ∧ format_token_amount 7 200 = "7".
Proof.
  split; [apply (format_token_amount_exact 1500000 6); lia|].
  apply (format_token_amount_exact 7 200); lia.
Defined.

Section tokens.
Context {E : RegexEngine} {H : HexCodec} {K : SolanaSdk} {T : TokenCodecs}.

(** *** [spl_token] *)

Definition is_text_row (r : row) : bool := match r with TextRow _ _ => true | _ => false end.

Definition row_field (r : row) : AnnotatedPayloadField :=
  match r with TextRow label text => text_row label text | _ => text_row "" "" end.

Lemma build_text_rows l : forallb is_text_row l = true → build_rows l = Ok (row_field <$> l).
Proof.
  induction l as [|r l IH]; [done|]. cbn. intros [Hr Hl]%andb_true_iff.
  destruct r; try done. cbn. unfold build_rows in IH. by rewrite IH.
Qed.

Lemma text_rows_instruction c pid title condensed expanded :
  forallb is_text_row condensed = true → forallb is_text_row expanded = true →
  instruction_field c pid title condensed expanded =
  Ok (preview_layout_field c (raw_text pid (context_data c)) title ""
        (row_field <$> condensed) (row_field <$> expanded)).
Proof. intros Hc He. unfold instruction_field. by rewrite !build_text_rows. Qed.

Lemma account_rows_text view roles : forallb is_text_row (account_rows view roles) = true.
Proof.
  induction roles as [|[label i] roles IH]; [done|]. cbn.
  destruct (view_accounts view !! i); [by cbn|done].
Qed.

Lemma token_layout_Ok view c title name args roles :
  token_layout view c title name args roles =
  Ok (preview_layout_field c (raw_text (view_program_id view) (context_data c)) title ""
        (row_field <$> [TextRow "Instruction" title])
        (row_field <$>
          ([TextRow "Program ID" (view_program_id view); TextRow "Instruction" name]
           ++ ((fun '(label, text) => TextRow label text) <$> args) ++ account_rows view roles
           ++ [TextRow "Raw Data" (hex_encode (context_data c))]))).
Proof.
  unfold token_layout. apply text_rows_instruction; [done|].
  rewrite !forallb_app, account_rows_text. cbn. rewrite andb_true_r.
  induction args as [|[l t] args IH]; [done|]. cbn. by rewrite IH.
Qed.

Lemma raw_token_layout_Ok view c title : ∃ f, raw_token_layout view c title = Ok f.
Proof. eexists. by apply text_rows_instruction. Qed.

(** The layout the token program's own documentation gives the accounts of the instructions
    that move or entrust tokens: how many accounts there are before the signers. *)
Definition moved (ix : spl.TokenInstruction) : option (Z * nat) :=
  match ix with
  | spl.Transfer a | spl.Approve a | spl.MintTo a | spl.Burn a => Some (a, 3)
  | spl.TransferChecked a _ | spl.ApproveChecked a _ => Some (a, 4)
  | spl.MintToChecked a _ | spl.BurnChecked a _ => Some (a, 3)
  | _ => None
  end.

Lemma spl_token_visualize_eq c ix :
  unpack_token (context_data c) = Ok ix →
  lift (spl_token_visualize c) = create_token_preview_layout ix (from_context show_pubkey c) c.
Proof.
  intros Hu. unfold spl_token_visualize. rewrite Hu.
  generalize (safe_token_preview_layout ix (from_context show_pubkey c) c).
  intros Hs. destruct (create_token_preview_layout _ _ _) as [f|[e|]]; [done..|].
  by destruct (Hs eq_refl).
Qed.

Lemma token_preview_layout_total ix view c : ∃ f, create_token_preview_layout ix view c = Ok f.
Proof.
  destruct ix; cbn [create_token_preview_layout format_token_instruction];
    first [ eexists; apply lift_Ok; apply token_layout_Ok
          | edestruct (raw_token_layout_Ok view c) as [f Hf]; exists f; apply lift_Ok, Hf ].
Qed.

(** The [spl_token] preset makes a field of every instruction, whatever its data and accounts:
    it has no error, and the arm it marks as unreachable is not reached. *)
Theorem spl_token_total c : ∃ f, spl_token_visualize c = Ok f.
Proof.
  destruct (unpack_token (context_data c)) as [ix|e] eqn:Hu.
  - destruct (token_preview_layout_total ix (from_context show_pubkey c) c) as [f Hf].
    exists f. apply lift_Ok. by rewrite (spl_token_visualize_eq c ix).
  - unfold spl_token_visualize. rewrite Hu. apply raw_token_layout_Ok.
Qed.

Lemma account_row_in view roles label i text :
  (label, i) ∈ roles → view_accounts view !! i = Some text →
  TextRow label text ∈ account_rows view roles.
Proof. intros Hr Ht. apply list_elem_of_omap. exists (label, i). by rewrite Ht. Qed.

Lemma token_layout_row view c title name args roles f label text :
  token_layout view c title name args roles = Ok f →
  (label, text) ∈ args ∨ (∃ i, (label, i) ∈ roles ∧ view_accounts view !! i = Some text) →
  text_v2 label text ∈ expanded_rows f.
Proof.
  rewrite token_layout_Ok. intros Hf Hin.
  assert (TextRow label text ∈ ((fun '(label, text) => TextRow label text) <$> args)
            ++ account_rows view roles) as Hrow.
  { apply elem_of_app. destruct Hin as [Ha|(i & Hr & Ht)].
    - left. apply list_elem_of_fmap. by exists (label, text).
    - right. by eapply account_row_in. }
  apply (inj Ok) in Hf as <-. cbn [expanded_rows preview_layout_field annotate_field
    signable_payload_field]. rewrite <- list_fmap_compose.
  apply list_elem_of_fmap. exists (TextRow label text). split; [done|].
  set_solver.
Qed.

(** An instruction that moves or entrusts tokens shows the amount it names, and each account the
    program reads for it, the owner included, in rows of its field. *)
Theorem spl_token_moves_shown c ix amount n :
  unpack_token (context_data c) = Ok ix → moved ix = Some (amount, n) →
  ∃ f, spl_token_visualize c = Ok f ∧
    text_v2 "Amount" (show_Z amount) ∈ expanded_rows f ∧
    ∀ i text, i < n → view_accounts (from_context show_pubkey c) !! i = Some text →
      ∃ label, text_v2 label text ∈ expanded_rows f.
Proof.
  intros Hu Hm. pose proof (spl_token_visualize_eq c ix Hu) as Hv.
  set (view := from_context show_pubkey c) in *.
  assert (∃ title name args roles,
    create_token_preview_layout ix view c = lift (token_layout view c title name args roles) ∧
    ("Amount", show_Z amount) ∈ args ∧ roles.*2 = seq 0 n)
    as (title & name & args & roles & Hl & Ha & Hr).
  { destruct ix; cbn in Hm; try done; assert (amount0 = amount) as <- by congruence;
      first [assert (n = 3) as -> by congruence | assert (n = 4) as -> by congruence];
      eexists _, _, _, _; (split; [reflexivity|]); (split; [left|reflexivity]). }
  rewrite Hl in Hv. rewrite token_layout_Ok in Hv. eexists. split; [by apply lift_Ok|].
  split; [eapply token_layout_row; [apply token_layout_Ok|by left]|]. intros i text Hi Ht.
  assert (i ∈ roles.*2) as ([label i'] & -> & Hin)%list_elem_of_fmap
    by (rewrite Hr; apply elem_of_seq; lia).
  exists label. eapply token_layout_row; [apply token_layout_Ok|right; by exists i'].
Qed.

Lemma token_layout_shows c title name args roles f :
  token_layout (from_context show_pubkey c) c title name args roles = Ok f → shows_call f c.
Proof. apply instruction_field_shows. Qed.

Lemma raw_token_layout_shows c title f :
  raw_token_layout (from_context show_pubkey c) c title = Ok f → shows_call f c.
Proof. apply instruction_field_shows. Qed.

#[export] Instance spl_token_shows : ShowsCalls spl_token_visualize.
Proof.
  intros c f _ Hf. unfold spl_token_visualize in Hf.
  destruct (unpack_token _) as [ix|e]; [|by eapply raw_token_layout_shows].
  apply run_safe_Ok in Hf.
  destruct ix; cbn [create_token_preview_layout format_token_instruction] in Hf;
    rewrite lift_Ok in Hf;
    first [exact (token_layout_shows _ _ _ _ _ _ Hf) | exact (raw_token_layout_shows _ _ _ Hf)].
Qed.

(** *** [token_2022] *)

Lemma token_2022_visualize_Ok c f :
  token_2022_visualize c = Ok f →
  ∃ accounts parsed, 
    collect_results (resolve_account "token_2022: " c) (seq 0 (num_accounts c)) = Ok accounts ∧
    parse_token_2022_instruction (context_data c)
      ((fun m => show_pubkey (meta_pubkey m)) <$> accounts) = Ok parsed ∧
    create_token_2022_preview_layout parsed c = Ok f.
Proof.
  intros (accounts & Ha & (parsed & Hp%map_err_Ok & Hf)%result_bind_Ok)%result_bind_Ok.
  by exists accounts, parsed.
Qed.

#[export] Instance token_2022_shows : ShowsCalls token_2022_visualize.
Proof.
  intros c f _ (accounts & parsed & _ & _ & Hf)%token_2022_visualize_Ok.
  unfold create_token_2022_preview_layout in Hf.
  destruct (token_2022_rows parsed) as [[title condensed] expanded].
  apply result_bind_Ok in Hf as (cs & _ & (es & Hes & Hf)%result_bind_Ok).
  apply build_rows_app in Hes as (r & r' & _ & Hr' & ->).
  assert (r' = [text_row "Program ID" (show_program_id c);
                text_row "Raw Data" (default_hex_representation (context_data c))]) as ->
    by (symmetry; apply (inj (Ok (E:=VisualSignError))), Hr').
  apply (inj Ok) in Hf as <-. eexists _, _. split; [reflexivity|]. right. split; [done|].
  by eexists _, _, _, _.
Qed.

Lemma token_2022_rows_in parsed c f label text :
  create_token_2022_preview_layout parsed c = Ok f →
  TextRow label text ∈ (token_2022_rows parsed).2 → text_v2 label text ∈ expanded_rows f.
Proof.
  unfold create_token_2022_preview_layout.
  destruct (token_2022_rows parsed) as [[title condensed] expanded]. cbn [snd].
  intros (cs & _ & (es & Hes & Hf)%result_bind_Ok)%result_bind_Ok Hin.
  apply (inj Ok) in Hf as <-. cbn [expanded_rows preview_layout_field annotate_field
    signable_payload_field].
  apply list_elem_of_fmap. exists (text_row label text). split; [done|].
  eapply build_rows_in; [exact Hes|]. apply elem_of_app. by left.
Qed.

(** An instruction decoded as one that mints or burns an amount of a token. *)
Definition mints_or_burns (data : bytes) (amount decimals : Z) : Prop :=
  is_set_authority_instruction data = false ∧ is_pause_instruction data = false ∧
  is_resume_instruction data = false ∧
  (unpack_token_2022 data = Ok (SdkMintToChecked amount decimals) ∨
   unpack_token_2022 data = Ok (SdkBurnChecked amount decimals)).

Lemma parse_mint_or_burn data accounts parsed amount decimals :
  mints_or_burns data amount decimals → parse_token_2022_instruction data accounts = Ok parsed →
  (decimals ≤ MAX_TOKEN_DECIMALS)%Z ∧
  TextRow "Amount" (format_token_amount amount decimals) ∈ (token_2022_rows parsed).2 ∧
  ∀ i text, i < 3 → accounts !! i = Some text →
    ∃ label, TextRow label text ∈ (token_2022_rows parsed).2.
Proof.
  intros (Hs & Hp & Hr & Hu). unfold parse_token_2022_instruction. rewrite Hs, Hp, Hr.
  destruct Hu as [-> | ->]; unfold three_accounts, check_decimals;
    (destruct accounts as [|a [|b [|d accounts]]]; [done..|]); cbn;
    (case_decide as Hd; [done|]); intros <-%(inj Ok);
    (split; [lia|split; [right; left|]]);
    intros [|[|[|i]]] text Hi Ht; try lia; cbn in Ht;
    assert (_ = text) as <- by (apply (inj Some), Ht); eexists;
    cbn [token_2022_rows snd]; rewrite !elem_of_cons; eauto 12.
Qed.

(** A mint or burn of the Token-2022 program is shown only if every account of the instruction
    is a known key and the token has at most 18 decimals. Its field then has the amount in a text
    that reads back to it exactly, and the mint, the token account and the authority. *)
Theorem token_2022_amount_shown c f amount decimals :
  mints_or_burns (context_data c) amount decimals → token_2022_visualize c = Ok f →
  (decimals ≤ MAX_TOKEN_DECIMALS)%Z ∧
  (∀ idx, idx ∈ ci_accounts (compiled_instruction c) → is_Some (account_keys c !! idx)) ∧
  (∃ text, text_v2 "Amount" text ∈ expanded_rows f ∧ read_units (Z.to_N decimals) text = amount) ∧
  ∀ i idx pk, i < 3 → ci_accounts (compiled_instruction c) !! i = Some idx →
    account_keys c !! idx = Some pk → ∃ label, text_v2 label (show_pubkey pk) ∈ expanded_rows f.
Proof.
  intros Hm (accounts & parsed & Ha & Hp & Hf)%token_2022_visualize_Ok.
  pose proof (proj1 (collect_accounts_iff _ _ _) Ha) as Hk.
  destruct (parse_mint_or_burn _ _ _ _ _ Hm Hp) as (Hd & Hrow & Haccs).
  assert (0 ≤ amount ∧ 0 ≤ decimals)%Z as [Hra Hrd].
  { destruct Hm as (_ & _ & _ & [Hu|Hu]);
      [apply unpack_2022_mint_range in Hu|apply unpack_2022_burn_range in Hu]; lia. }
  split; [done|]. split; [|split].
  - intros idx [i Hi]%list_elem_of_lookup.
    destruct (Forall2_lookup_l _ _ _ _ _ Hk Hi) as (m & _ & pk & Hpk & _). by exists pk.
  - eexists. split; [by eapply token_2022_rows_in|]. rewrite format_token_amount_fixed.
    + pose proof (read_fixed_text (Z.to_N amount) (Z.to_N decimals)) as Hr.
      rewrite !Z2N.id in Hr by lia. done.
    + done.
    + unfold MAX_TOKEN_DECIMALS in Hd. lia.
  - intros i idx pk Hi Hidx Hpk.
    destruct (Forall2_lookup_l _ _ _ _ _ Hk Hidx) as (m & Hm' & pk' & Hpk' & ->).
    destruct (Haccs i (show_pubkey pk) Hi) as [label Hl].
    { rewrite list_lookup_fmap, Hm'. cbn. congruence. }
    exists label. by eapply token_2022_rows_in.
Qed.
End tokens.

(** Decoders for the samples: a transfer of the byte behind the tag 3, a mint of the byte behind
    the tag 14, with two decimals. *)
#[program] Definition sample_token_codecs : TokenCodecs := {|
  unpack_token data :=
    match data with [Byte.x03; a] => Ok (spl.Transfer (byte_to_Z a)) | _ => Err "invalid" end;
  unpack_token_2022 data :=
    match data with [Byte.x0e; a] => Ok (SdkMintToChecked (byte_to_Z a) 2) | _ => Err "invalid" end;
|}.
Next Obligation.
  intros [|[] [|b [|? ?]]] a d [= <- <-]. pose proof (byte_to_Z_range b). lia.
Qed.
Next Obligation. by intros [|[] [|b [|? ?]]] a d. Qed.

Definition sample_token_call (data : bytes) : VisualizerContext :=
  VisualizerContext_new (MkSolanaAccount "" false false)
    (MkCompiledInstruction 0 [1; 2; 3] data)
    [replicate 32 Byte.x00; replicate 32 Byte.x01; replicate 32 Byte.x02; replicate 32 Byte.x03] 0.

Lemma spl_token_moves_shown_witness :
  ∃ f, spl_token_visualize (E:=derivative_engine) (H:=hex_ref) (K:=hex_sdk) (T:=sample_token_codecs)
         (sample_token_call [Byte.x03; Byte.x09]) = Ok f ∧
    text_v2 "Amount" "9" ∈ expanded_rows f ∧
    ∀ i text, i < 3 →
      view_accounts (from_context (show_pubkey (SolanaSdk:=hex_sdk))
        (sample_token_call [Byte.x03; Byte.x09])) !! i = Some text →
      ∃ label, text_v2 label text ∈ expanded_rows f.
Proof.
  apply (spl_token_moves_shown (E:=derivative_engine) (H:=hex_ref) (K:=hex_sdk)
    (T:=sample_token_codecs) (sample_token_call [Byte.x03; Byte.x09]) (spl.Transfer 9) 9 3);
    reflexivity.
Defined.

Lemma token_2022_amount_shown_witness :
  ∃ f, token_2022_visualize (E:=derivative_engine) (K:=hex_sdk) (T:=sample_token_codecs)
         (sample_token_call [Byte.x0e; Byte.xfa]) = Ok f ∧
    ∃ text, text_v2 "Amount" text ∈ expanded_rows f ∧ read_units 2 text = 250%Z.
Proof.
  assert (is_ok (token_2022_visualize (E:=derivative_engine) (K:=hex_sdk)
    (T:=sample_token_codecs) (sample_token_call [Byte.x0e; Byte.xfa])) = true) as Hok
    by (vm_compute; reflexivity).
  destruct (token_2022_visualize _) as [f|] eqn:Hf; [|discriminate Hok]. exists f.
  split; [done|].
  apply (token_2022_amount_shown (E:=derivative_engine) (K:=hex_sdk)
    (T:=sample_token_codecs) (sample_token_call [Byte.x0e; Byte.xfa]) f 250 2); [|exact Hf].
  repeat split; try reflexivity. by left.
Defined.
