(* ===== verification/SolanaIdlPresets.v ===== *)
(** * Solana: presets that decode with an IDL

    [core/arg_rendering.rs] of [chain_parsers/visualsign-solana], the catch-all preset
    [unknown_program], and the presets that decode an instruction with the IDL bundled beside
    them. A bundled IDL is named by its file. *)

From S2P Require Import Prelude Json Payload Errors Charset External Encodings DecimalText Builders.
From S2P Require Import Registry PlainText.
From S2P Require Import SolanaCore SolanaIdl SolanaParserCrate SolanaPrograms.

#[local] Unset Program Cases.

(** What the presets use of [solana_parser] beyond the decoder of transactions, and the text of
    a bundled file ([include_str!]). *)
Class IdlDecoder {P : SolanaIdls} {Q : SolanaParser} : Type := {
  idl_instruction_accounts : IdlInstruction → list string;
  parse_instruction_with_idl :
    bytes → string → ParsedIdl → result string parser.SolanaParsedInstructionData;
  bundled : string → string;
}.

(** ** The text of an argument ([core/arg_rendering.rs]) *)

(** A space or a graphic ASCII character, not the double quote and not the backslash; a character
    beyond ASCII is dropped with all its bytes. *)
Definition arg_char (c : Ascii.ascii) : bool :=
  (code c =? 32)
  || ((33 <=? code c) && (code c <=? 126) && negb (code c =? 34) && negb (code c =? 92)).

Fixpoint charset_safe (text : string) : string :=
  match text with
  | "" => ""
  | String c text => if arg_char c then String c (charset_safe text) else charset_safe text
  end.

Definition json_byte (v : json) : option byte :=
  n ← json_as_u64 v;
  if decide (n ≤ 255)%Z then Byte.of_N (Z.to_N n) else None.

Section arguments.
Context {H : HexCodec} {F : JsonFormat}.

Definition bytes_as_hex (items : list json) : option string :=
  match items with
  | [] => None
  | _ => bytes ← mapM json_byte items; Some ("0x" +:+ hex_encode bytes)
  end.

Fixpoint format_arg_value (value : json) : string :=
  match value with
  | JString s => charset_safe s
  | JNumber n => show_Z n
  | JBool b => if b then "true" else "false"
  | JNull => "null"
  | JArray items =>
      match bytes_as_hex items with
      | Some hex => hex
      | None => "[" +:+ str_join "," (format_arg_value <$> items) +:+ "]"
      end
  | JObject m =>
      "{" +:+ str_join "," ((fun kv => charset_safe kv.1 +:+ ":" +:+ format_arg_value kv.2) <$> m)
          +:+ "}"
  end.

(** The [format_arg_value] most presets define for themselves. *)
Definition plain_arg_value (value : json) : string :=
  match value with
  | JString s => s
  | JNumber n => show_Z n
  | JBool b => if b then "true" else "false"
  | JNull => "null"
  | other => fmt_value other
  end.

(** Those that leave the numbers, the booleans or [null] to [to_string] print the same. *)
Lemma plain_arg_value_other value :
  plain_arg_value value = match value with JString s => s | other => fmt_value other end.
Proof. destruct value; cbn; by rewrite ?fmt_null, ?fmt_bool, ?fmt_number. Qed.
End arguments.

(** ** Names of the accounts *)

Section idl.
Context {E : RegexEngine} {H : HexCodec} {K : SolanaSdk} {F : JsonFormat}.
Context {P : SolanaIdls} {Q : SolanaParser} {R : IdlDecoder}.

(** The two tests of a discriminator: it is the first eight bytes, or a prefix. *)
Definition first_eight (data disc : bytes) : bool :=
  bool_decide (8 ≤ length data) && bool_decide (take 8 data = disc).

Definition has_prefix (data disc : bytes) : bool :=
  bool_decide (length disc ≤ length data) && bool_decide (take (length disc) data = disc).

Definition find_instruction (test : bytes → bool) (idl : ParsedIdl) : option IdlInstruction :=
  List.find (fun inst => match idl_instruction_discriminator inst with
                         | Some disc => test disc
                         | None => false
                         end) (idl_instructions idl).

(** The accounts the IDL has names for, each under the name at its position. *)
Definition paired_accounts (inst : IdlInstruction) (accounts : list string)
    : list (string * string) := zip (idl_instruction_accounts inst) accounts.

(** As a [BTreeMap]. *)
Definition build_named_accounts (test : bytes → bool) (idl : ParsedIdl) (accounts : list string)
    : list (string * string) :=
  match find_instruction test idl with
  | Some inst => btree_of_list (paired_accounts inst accounts)
  | None => []
  end.

(** As a [Vec]. *)
Definition list_named_accounts (test : bytes → bool) (idl : ParsedIdl) (accounts : list string)
    : list (string * string) :=
  match find_instruction test idl with
  | Some inst => paired_accounts inst accounts
  | None => []
  end.

(** ** Rows *)

Definition text_rows (l : list (string * string)) : list row :=
  (fun '(label, text) => TextRow label text) <$> l.

Definition arg_entries (text : json → string) (args : list (string * json))
    : list (string * string) := (fun '(key, value) => (key, text value)) <$> args.

(** [sort_by(|a, b| a.0.cmp(b.0))]. *)
Definition sort_entries {A} (l : list (string * A)) : list (string * A) :=
  merge_sort (fun x y => String.le x.1 y.1) l.

(** Decoding with a bundled IDL: the data must have [min] bytes. *)
Definition parse_bundled (min : nat) (short : string) (load : result string ParsedIdl) (id : string)
    (data : bytes) : result string (ParsedIdl * parser.SolanaParsedInstructionData) :=
  if decide (length data < min) then Err short
  else
    idl ← load;
    parsed ← parse_instruction_with_idl data id idl;
    Ok (idl, parsed).

Definition load_or (unavailable file : string) : result string ParsedIdl :=
  map_err (fun _ => unavailable) (decode_idl_data (bundled file)).

(** *** [kamino_farms], [kamino_vault], [kamino_limit] *)

Section kamino.
Context (display id file : string) (raw : bytes → option string).

Definition parse_kamino_instruction (data : bytes)
    : result VisualSignError (ParsedIdl * parser.SolanaParsedInstructionData) :=
  map_err DecodeError
    (parse_bundled 8 "instruction data shorter than 8-byte discriminator"
       (load_or ("failed to load " +:+ display +:+ " IDL") file) id data).

Definition kamino_parsed_rows (program_id : string) (parsed : parser.SolanaParsedInstructionData)
    (named_accounts : list (string * string)) (data : bytes) : list row :=
  [TextRow "Program ID" program_id;
   TextRow "Instruction" (parser.pd_instruction_name parsed);
   TextRow "Discriminator" (parser.pd_discriminator parsed)]
  ++ text_rows (sort_entries named_accounts)
  ++ text_rows (arg_entries plain_arg_value (sort_entries (parser.pd_program_call_args parsed)))
  ++ [RawRow data (raw data)].

Definition kamino_fallback_rows (program_id : string) (data : bytes) : list row :=
  [TextRow "Program ID" program_id; TextRow "Status" "IDL parsing failed - showing raw data";
   RawRow data (raw data)].

Definition kamino_visualize (c : VisualizerContext) : result VisualSignError AnnotatedPayloadField :=
  let view := from_context show_pubkey c in
  let data := context_data c in
  match parse_kamino_instruction data with
  | Ok (idl, parsed) =>
      let named_accounts := build_named_accounts (first_eight data) idl (view_accounts view) in
      instruction_field c (view_program_id view)
        (display +:+ ": " +:+ parser.pd_instruction_name parsed)
        [TextRow "Program" display; TextRow "Instruction" (parser.pd_instruction_name parsed)]
        (kamino_parsed_rows (view_program_id view) parsed named_accounts data)
  | Err _ =>
      instruction_field c (view_program_id view) (display +:+ ": Unknown Instruction")
        [TextRow "Program" display]
        (kamino_fallback_rows (view_program_id view) data)
  end.
End kamino.

Definition kamino_farms_visualize : VisualizerContext → result VisualSignError AnnotatedPayloadField :=
  kamino_visualize "Kamino Farms" "FarmsPZpWu9i7Kky8tPN37rs2TpmMrAZrC7S7vJa91Hr"
    "kamino_farms/kamino_farms.json" (fun _ => None).

Definition kamino_vault_visualize : VisualizerContext → result VisualSignError AnnotatedPayloadField :=
  kamino_visualize "Kamino Vault" "KvauGMspG5k6rtzrqqn7WNn3oZdyKqLKwK2XWQ8FLjd"
    "kamino_vault/kamino_vault.json" (fun _ => None).

Definition kamino_limit_visualize : VisualizerContext → result VisualSignError AnnotatedPayloadField :=
  kamino_visualize "Kamino Limit Orders" "LiMoM9rMhrdYrfzUCxQppvxCSG1FcrUK9G8uLq4A1GF"
    "kamino_limit/kamino_limit.json" (fun data => Some (hex_encode data)).

(** *** [jupiter_borrow], [jupiter_earn], [kamino_borrow], [exponent_finance], [jupiter_perps] *)

(** The title and the two lists of rows; the raw data is appended to the second. *)
Definition preview_rows : Type := string * list row * list row.

Section lending.
Context (display id file : string) (min : nat).

Definition parse_lending_instruction (data : bytes) (accounts : list string)
    : result string (parser.SolanaParsedInstructionData * list (string * string)) :=
  '(idl, parsed) ← parse_bundled min "Invalid instruction data length"
                     (load_or (display +:+ " IDL not available") file) id data;
  Ok (parsed, build_named_accounts (has_prefix data) idl accounts).

Definition lending_parsed_rows (parsed : parser.SolanaParsedInstructionData)
    (named_accounts : list (string * string)) (program_id : string) : preview_rows :=
  let name := parser.pd_instruction_name parsed in
  let args := text_rows (arg_entries plain_arg_value (parser.pd_program_call_args parsed)) in
  (display +:+ ": " +:+ name,
   [TextRow "Program" display; TextRow "Instruction" name] ++ args,
   [TextRow "Program ID" program_id; TextRow "Instruction" name;
    TextRow "Discriminator" (parser.pd_discriminator parsed)]
   ++ text_rows named_accounts ++ args).

Definition lending_fallback_rows (program_id : string) : preview_rows :=
  (display +:+ ": Unknown Instruction",
   [TextRow "Program" display; TextRow "Status" "Unknown instruction type"],
   [TextRow "Program ID" program_id; TextRow "Status" "Unknown instruction type"]).

Definition with_raw_data (c : VisualizerContext) (program_id : string) (rows : preview_rows)
    : result VisualSignError AnnotatedPayloadField :=
  let '(title, condensed, expanded) := rows in
  instruction_field c program_id title condensed
    (expanded ++ [RawRow (context_data c) (Some (hex_encode (context_data c)))]).

Definition lending_visualize (c : VisualizerContext) : result VisualSignError AnnotatedPayloadField :=
  let view := from_context show_pubkey c in
  with_raw_data c (view_program_id view)
    (match parse_lending_instruction (context_data c) (view_accounts view) with
     | Ok (parsed, named_accounts) =>
         lending_parsed_rows parsed named_accounts (view_program_id view)
     | Err _ => lending_fallback_rows (view_program_id view)
     end).
End lending.

Definition jupiter_borrow_visualize
    : VisualizerContext → result VisualSignError AnnotatedPayloadField :=
  lending_visualize "Jupiter Borrow" "jupr81YtYssSyPt8jbnGuiWon5f6x9TcDEFxYe3Bdzi"
    "jupiter_borrow/jupiter_borrow.json" 8.

Definition jupiter_earn_visualize : VisualizerContext → result VisualSignError AnnotatedPayloadField :=
  lending_visualize "Jupiter Earn" "jup3YeL8QhtSx1e253b2FDvsMNC87fDrgQZivbrndc9"
    "jupiter_earn/jupiter_earn.json" 8.

Definition kamino_borrow_visualize : VisualizerContext → result VisualSignError AnnotatedPayloadField :=
  lending_visualize "Kamino Borrow" "KLend2g3cP87fffoy8q1mQqGKjrxjC8boSyAYavgmjD"
    "kamino_borrow/kamino_borrow.json" 8.

Definition exponent_finance_visualize
    : VisualizerContext → result VisualSignError AnnotatedPayloadField :=
  lending_visualize "Exponent Finance" "ExponentnaRg3CQbW6dqQNZKXp7gtZ9DGMp1cwC4HAS7"
    "exponent_finance/exponent_finance.json" 1.

Definition jupiter_perps_visualize : VisualizerContext → result VisualSignError AnnotatedPayloadField :=
  lending_visualize "Jupiter Perpetuals" "PERPHjGBqRHArX4DySjwM6UJHiR3sWAatqfdBS2qQJu"
    "jupiter_perps/jupiter_perps.json" 8.

(** *** [marginfi], [dflow_aggregator] *)

Section remaining.
Context (display id file : string) (head : list row).

(** The accounts beyond the names of the IDL are kept. *)
Definition split_accounts (data : bytes) (idl : ParsedIdl) (accounts : list string)
    : list (string * string) * list string :=
  match find_instruction (has_prefix data) idl with
  | Some inst =>
      (btree_of_list (paired_accounts inst accounts),
       drop (length (idl_instruction_accounts inst)) accounts)
  | None => ([], [])
  end.

Definition remaining_rows (extra_accounts : list string) : list row :=
  imap (fun index pubkey => TextRow ("Remaining Account " +:+ show_nat (index + 1)) pubkey)
    extra_accounts.

Definition parse_remaining_instruction (data : bytes) (accounts : list string)
    : result string
        (parser.SolanaParsedInstructionData * (list (string * string) * list string)) :=
  '(idl, parsed) ← parse_bundled 8 "Invalid instruction data length"
                     (load_or (display +:+ " IDL not available") file) id data;
  Ok (parsed, split_accounts data idl accounts).

Definition remaining_parsed_rows (parsed : parser.SolanaParsedInstructionData)
    (named_accounts : list (string * string)) (extra_accounts : list string) (program_id : string)
    : preview_rows :=
  let name := parser.pd_instruction_name parsed in
  let args := text_rows (arg_entries format_arg_value (parser.pd_program_call_args parsed)) in
  (display +:+ ": " +:+ name,
   [TextRow "Program" display; TextRow "Instruction" name] ++ args,
   head
   ++ [TextRow "Program ID" program_id; TextRow "Instruction" name;
       TextRow "Discriminator" (parser.pd_discriminator parsed)]
   ++ text_rows named_accounts ++ remaining_rows extra_accounts ++ args).

Definition remaining_fallback_rows (program_id : string) : preview_rows :=
  (display +:+ ": Unknown Instruction",
   [TextRow "Program" display; TextRow "Status" "Unknown instruction type"],
   head ++ [TextRow "Program ID" program_id; TextRow "Status" "Unknown instruction type"]).

Definition remaining_visualize (c : VisualizerContext)
    : result VisualSignError AnnotatedPayloadField :=
  let view := from_context show_pubkey c in
  with_raw_data c (view_program_id view)
    (match parse_remaining_instruction (context_data c) (view_accounts view) with
     | Ok (parsed, (named_accounts, extra_accounts)) =>
         remaining_parsed_rows parsed named_accounts extra_accounts (view_program_id view)
     | Err _ => remaining_fallback_rows (view_program_id view)
     end).
End remaining.

Definition marginfi_visualize : VisualizerContext → result VisualSignError AnnotatedPayloadField :=
  remaining_visualize "Marginfi" "MFv2hWf31Z9kbCa1snEPdcgp7X3GK4Y9EtyMkRxBUGA"
    "marginfi/marginfi.json" [TextRow "Program" "Marginfi"].

Definition dflow_aggregator_visualize
    : VisualizerContext → result VisualSignError AnnotatedPayloadField :=
  remaining_visualize "DFlow Aggregator" "DF1ow4tspfHX9JwWJsAb9epbkA8hmpSEAtxXy1V27QBH"
    "dflow_aggregator/dflow_aggregator.json" [].

(** *** [drift] *)

Definition DRIFT_PROGRAM_ID : string := "dRiftyHA39MWEi3m9aunc5MzRF1JYuBsbn6VPcn33UH".

Definition meta_keys (accounts : list AccountMeta) : list string :=
  (fun m => show_pubkey (meta_pubkey m)) <$> accounts.

Definition parse_drift_instruction (data : bytes) (accounts : list AccountMeta)
    : result string (parser.SolanaParsedInstructionData * list (string * string)) :=
  '(idl, parsed) ← parse_bundled 8 "Invalid instruction data length"
                     (load_or "Drift IDL not available" "drift/drift.json") DRIFT_PROGRAM_ID data;
  Ok (parsed, build_named_accounts (has_prefix data) idl (meta_keys accounts)).

(** An account and an argument of the same name are told apart. *)
Definition drift_account_label {A} (args : list (string * A)) (name : string) : string :=
  if decide (name ∈ keys args) then "Current " +:+ name else name.

Definition drift_arg_label {A} (named_accounts : list (string * A)) (key : string) : string :=
  if decide (key ∈ keys named_accounts) then "New " +:+ key else key.

Definition drift_parsed_rows (parsed : parser.SolanaParsedInstructionData)
    (named_accounts : list (string * string)) (program_id : string) : preview_rows :=
  let name := parser.pd_instruction_name parsed in
  let args := parser.pd_program_call_args parsed in
  ("Drift: " +:+ name,
   [TextRow "Program" "Drift"; TextRow "Instruction" name]
   ++ text_rows (arg_entries plain_arg_value args),
   [TextRow "Program ID" program_id; TextRow "Instruction" name;
    TextRow "Discriminator" (parser.pd_discriminator parsed)]
   ++ ((fun '(account_name, account_address) =>
          TextRow (drift_account_label args account_name) account_address) <$> named_accounts)
   ++ ((fun '(key, value) => TextRow (drift_arg_label named_accounts key) (plain_arg_value value))
         <$> args)).

Definition drift_fallback_rows (program_id : string) : preview_rows :=
  ("Drift: Unknown Instruction",
   [TextRow "Program" "Drift"; TextRow "Status" "Unknown instruction type"],
   [TextRow "Program ID" program_id; TextRow "Status" "Unknown instruction type"]).

Definition drift_visualize (c : VisualizerContext) : result VisualSignError AnnotatedPayloadField :=
  pid ← resolve_program_id c;
  accounts ← resolve_accounts c;
  with_raw_data c (show_pubkey pid)
    (match parse_drift_instruction (context_data c) accounts with
     | Ok (parsed, named_accounts) => drift_parsed_rows parsed named_accounts (show_pubkey pid)
     | Err _ => drift_fallback_rows (show_pubkey pid)
     end).

(** ** Presets without a fallback *)

(** Their title is that of the condensed row; the raw data ends the expanded rows. *)
Definition idl_expanded_rows (head : list row) (program_id : string)
    (parsed : parser.SolanaParsedInstructionData) (named_accounts : list (string * string))
    (data : bytes) : list row :=
  head
  ++ [TextRow "Program ID" program_id; TextRow "Instruction" (parser.pd_instruction_name parsed);
      TextRow "Discriminator" (parser.pd_discriminator parsed)]
  ++ text_rows named_accounts
  ++ text_rows (arg_entries plain_arg_value (parser.pd_program_call_args parsed))
  ++ [RawRow data None].

(** The layout with a subtitle of its own. *)
Definition subtitled_field (c : VisualizerContext) (program_id_str title subtitle : string)
    (condensed expanded : list row) : result VisualSignError AnnotatedPayloadField :=
  condensed ← build_rows condensed;
  expanded ← build_rows expanded;
  Ok (preview_layout_field c (raw_text program_id_str (context_data c)) title subtitle
        condensed expanded).

(** *** [metadao_conditional_vault], [metadao_futarchy] *)

Section metadao.
Context (display id file : string).

Definition metadao_visualize (c : VisualizerContext) : result VisualSignError AnnotatedPayloadField :=
  let view := from_context show_pubkey c in
  let data := context_data c in
  if decide (length data < 8) then
    Err (DecodeError "Instruction data too short for Anchor discriminator")
  else
    idl ← map_err (fun e => DecodeError ("Failed to decode bundled IDL: " +:+ e))
            (decode_idl_data (bundled file));
    parsed ← map_err (fun e => DecodeError ("IDL parse failed: " +:+ e))
               (parse_instruction_with_idl data id idl);
    let named_accounts := build_named_accounts (first_eight data) idl (view_accounts view) in
    instruction_field c (view_program_id view)
      (display +:+ ": " +:+ parser.pd_instruction_name parsed)
      [TextRow "Instruction" (parser.pd_instruction_name parsed)]
      (idl_expanded_rows [TextRow "Program" display] (view_program_id view) parsed
         (sort_entries named_accounts) data).
End metadao.

Definition metadao_conditional_vault_visualize
    : VisualizerContext → result VisualSignError AnnotatedPayloadField :=
  metadao_visualize "MetaDAO Conditional Vault" "VLTX1ishMBbcX3rdBWGssxawAo1Q2X2qxYFYqiGodVg"
    "metadao_conditional_vault/metadao_conditional_vault.json".

Definition metadao_futarchy_visualize
    : VisualizerContext → result VisualSignError AnnotatedPayloadField :=
  metadao_visualize "MetaDAO Futarchy" "FUTARELBfJfQ8RDGhg1wdhddq1odMAJUePHFuBYfUxKq"
    "metadao_futarchy/metadao_futarchy.json".

(** *** [meteora_damm_v2] *)

Definition METEORA_DAMM_V2_PROGRAM_ID : string := "cpamdpZCGKUy5JxQXB4dcpGPiikHawvSWAd6mEn1sGG".

Definition parse_meteora_damm_v2_instruction (data : bytes) (accounts : list string)
    : result string (parser.SolanaParsedInstructionData * list (string * string)) :=
  '(idl, parsed) ← parse_bundled 8 "Instruction data too short for Anchor discriminator"
                     (decode_idl_data (bundled "meteora_damm_v2/meteora_damm_v2.json"))
                     METEORA_DAMM_V2_PROGRAM_ID data;
  Ok (parsed, build_named_accounts (first_eight data) idl accounts).

Definition meteora_damm_v2_visualize (c : VisualizerContext)
    : result VisualSignError AnnotatedPayloadField :=
  let view := from_context show_pubkey c in
  let data := context_data c in
  '(parsed, named_accounts) ← map_err DecodeError
     (parse_meteora_damm_v2_instruction data (view_accounts view));
  let instruction_title := "Meteora DAMM V2: " +:+ parser.pd_instruction_name parsed in
  instruction_field c (view_program_id view) instruction_title
    ([TextRow "Instruction" instruction_title]
     ++ text_rows (arg_entries plain_arg_value (parser.pd_program_call_args parsed)))
    (idl_expanded_rows [] (view_program_id view) parsed named_accounts data).

(** *** [meteora_dlmm] *)

Definition METEORA_DLMM_PROGRAM_ID : string := "LBUZKhRxPF3XUpBCjp4YzTKgLccjZhTSDM9YuVaPwxo".

Definition meteora_dlmm_visualize (c : VisualizerContext)
    : result VisualSignError AnnotatedPayloadField :=
  let view := from_context show_pubkey c in
  let data := context_data c in
  '(idl, parsed) ← map_err DecodeError
     (parse_bundled 8 "Instruction data shorter than 8-byte discriminator"
        (load_or "Meteora DLMM IDL not available" "meteora_dlmm/meteora_dlmm.json")
        METEORA_DLMM_PROGRAM_ID data);
  let named_accounts := list_named_accounts (first_eight data) idl (view_accounts view) in
  let instruction_text := "Meteora DLMM: " +:+ parser.pd_instruction_name parsed in
  instruction_field c (view_program_id view) instruction_text
    ([TextRow "Instruction" instruction_text]
     ++ text_rows (arg_entries plain_arg_value (parser.pd_program_call_args parsed)))
    (idl_expanded_rows [] (view_program_id view) parsed named_accounts data).

(** *** [neutral_trade] *)

Definition NEUTRAL_TRADE_PROGRAM_ID : string := "BUNDDh4P5XviMm1f3gCvnq2qKx6TGosAGnoUK12e7cXU".
Definition NEUTRAL_TRADE_DISPLAY_NAME : string := "Neutral Trade".

Definition neutral_trade_visualize (c : VisualizerContext)
    : result VisualSignError AnnotatedPayloadField :=
  let view := from_context show_pubkey c in
  let data := context_data c in
  if decide (length data < 8) then
    Err (DecodeError "Instruction data too short for Anchor discriminator")
  else
    idl ← map_err (fun e => DecodeError ("Invalid Neutral Trade IDL: " +:+ e))
            (decode_idl_data (bundled "neutral_trade/neutral_trade.json"));
    parsed ← map_err (fun e => DecodeError ("Neutral Trade IDL parse failed: " +:+ e))
               (parse_instruction_with_idl data NEUTRAL_TRADE_PROGRAM_ID idl);
    let named_accounts := build_named_accounts (first_eight data) idl (view_accounts view) in
    let instruction_title :=
      NEUTRAL_TRADE_DISPLAY_NAME +:+ ": " +:+ parser.pd_instruction_name parsed in
    subtitled_field c (view_program_id view) instruction_title NEUTRAL_TRADE_DISPLAY_NAME
      ([TextRow "Instruction" instruction_title]
       ++ text_rows (arg_entries plain_arg_value (parser.pd_program_call_args parsed)))
      (idl_expanded_rows [TextRow "Program" NEUTRAL_TRADE_DISPLAY_NAME] (view_program_id view)
         parsed named_accounts data).

(** *** [onre_app] *)

Definition ONRE_APP_PROGRAM_ID : string := "onreuGhHHgVzMWSkj2oQDLDtvvGvoepBPkqyaubFcwe".

Definition parse_onre_app_instruction (data : bytes) (accounts : list string)
    : result string (parser.SolanaParsedInstructionData * list (string * string)) :=
  '(idl, parsed) ← parse_bundled 8 "Invalid instruction data length"
                     (decode_idl_data (bundled "onre_app/onre_app.json"))
                     ONRE_APP_PROGRAM_ID data;
  Ok (parsed, list_named_accounts (first_eight data) idl accounts).

Definition onre_app_visualize (c : VisualizerContext)
    : result VisualSignError AnnotatedPayloadField :=
  let view := from_context show_pubkey c in
  let data := context_data c in
  '(parsed, named_accounts) ← map_err DecodeError
     (parse_onre_app_instruction data (view_accounts view));
  let summary := "Onre App: " +:+ parser.pd_instruction_name parsed in
  subtitled_field c (view_program_id view) summary "Onre App"
    ([TextRow "Instruction" summary]
     ++ text_rows (arg_entries plain_arg_value (parser.pd_program_call_args parsed)))
    (idl_expanded_rows [] (view_program_id view) parsed named_accounts data).

(** *** [orca_whirlpool] *)

Definition ORCA_WHIRLPOOL_PROGRAM_ID : string := "whirLbMiicVdio4qvUfM5KAg6Ct8VwpYzGff3uctyCc".

Definition parse_orca_whirlpool_instruction (data : bytes)
    : result VisualSignError parser.SolanaParsedInstructionData :=
  if decide (length data < 8) then
    Err (DecodeError "Orca Whirlpool instruction data too short (need 8-byte discriminator)")
  else
    idl ← map_err (fun e => DecodeError ("Orca Whirlpool IDL invalid: " +:+ e))
            (decode_idl_data (bundled "orca_whirlpool/orca_whirlpool.json"));
    map_err DecodeError (parse_instruction_with_idl data ORCA_WHIRLPOOL_PROGRAM_ID idl).

Definition orca_named_accounts (parsed : parser.SolanaParsedInstructionData)
    (account_keys : list string) : list (string * string) :=
  match sort_entries (map_to_list (parser.pd_named_accounts parsed)) with
  | [] => imap (fun i pubkey => ("Account " +:+ show_nat i, pubkey)) account_keys
  | named => named
  end.

Definition orca_expanded_rows (parsed : parser.SolanaParsedInstructionData)
    (named_accounts : list (string * string)) (program_id : string) (data : bytes) : list row :=
  [TextRow "Program ID" program_id;
   TextRow "Instruction Name" (parser.pd_instruction_name parsed)]
  ++ ((fun '(name, pubkey) => TextRow ("Account: " +:+ name) pubkey) <$> named_accounts)
  ++ ((fun '(name, value) => TextRow ("Arg: " +:+ name) (plain_arg_value value))
        <$> sort_entries (parser.pd_program_call_args parsed))
  ++ [RawRow data None].

Definition orca_whirlpool_visualize (c : VisualizerContext)
    : result VisualSignError AnnotatedPayloadField :=
  let view := from_context show_pubkey c in
  let data := context_data c in
  parsed ← parse_orca_whirlpool_instruction data;
  let named_accounts := orca_named_accounts parsed (view_accounts view) in
  let title_text := "Orca Whirlpool: " +:+ parser.pd_instruction_name parsed in
  instruction_field c (view_program_id view) title_text
    [TextRow "Instruction" title_text]
    (orca_expanded_rows parsed named_accounts (view_program_id view) data).

(** ** [presets/unknown_program] *)

Section unknown_program.
Context (idl_registry : IdlRegistry).

Definition resolve_account_str (c : VisualizerContext) (position : nat) : string :=
  show_account c position.

Definition try_parse_with_idl (c : VisualizerContext)
    : result string (parser.SolanaParsedInstructionData * list (string * string)) :=
  match program_id c with
  | ProgramUnresolved _ => Err "No program_id resolved"
  | ProgramResolved pk =>
      let program_id_str := show_pubkey pk in
      let instruction_data := context_data c in
      idl ← ok_or "No IDL found for program" (get_idl idl_registry program_id_str);
      parsed ← parse_instruction_with_idl instruction_data program_id_str idl;
      Ok (parsed, build_named_accounts (first_eight instruction_data) idl
                    (resolve_account_str c <$> seq 0 (num_accounts c)))
  end.

Definition try_idl_parsing (c : VisualizerContext) : result VisualSignError AnnotatedPayloadField :=
  match program_id c with
  | ProgramUnresolved _ => Err (MissingData "No program_id resolved")
  | ProgramResolved pk =>
      let program_name := get_program_name idl_registry pk in
      let program_display :=
        match get_idl_name idl_registry pk with
        | Some idl_name => program_name +:+ " (name: " +:+ idl_name +:+ ")"
        | None => program_name
        end in
      let '(condensed_rest, expanded_rest) :=
        match try_parse_with_idl c with
        | Ok (parsed, named_accounts) =>
            ([TextRow "Instruction" (parser.pd_instruction_name parsed)]
             ++ text_rows (arg_entries fmt_value (parser.pd_program_call_args parsed)),
             [TextRow "Instruction" (parser.pd_instruction_name parsed);
              TextRow "Discriminator" (parser.pd_discriminator parsed)]
             ++ text_rows named_accounts)
        | Err _ => ([], [TextRow "Status" "IDL parsing failed - showing raw data"])
        end in
      instruction_field c (show_pubkey pk) (program_name +:+ " (IDL)")
        ([TextRow "Program" program_display] ++ condensed_rest)
        ([TextRow "Program ID" (show_pubkey pk);
          TextRow "Instruction Data" (hex_encode (context_data c))] ++ expanded_rest)
  end.

Definition create_unknown_program_preview_layout (c : VisualizerContext)
    : result VisualSignError AnnotatedPayloadField :=
  let program_id_str := show_program_id c in
  instruction_field c program_id_str program_id_str
    [TextRow "Program" program_id_str]
    [TextRow "Program ID" program_id_str;
     TextRow "Instruction Data" (hex_encode (context_data c))].

Definition unknown_program_visualize (c : VisualizerContext)
    : result VisualSignError AnnotatedPayloadField :=
  let fallback := create_unknown_program_preview_layout c in
  match program_id c with
  | ProgramResolved pk =>
      if has_idl idl_registry pk then
        match try_idl_parsing c with Ok field => Ok field | Err _ => fallback end
      else fallback
  | ProgramUnresolved _ => fallback
  end.
End unknown_program.
End idl.

(** ** Properties *)

Section shown.
Context {E : RegexEngine} {H : HexCodec} {K : SolanaSdk} {F : JsonFormat}.
Context {P : SolanaIdls} {Q : SolanaParser} {R : IdlDecoder}.

Lemma subtitled_field_shows c title subtitle condensed expanded f :
  subtitled_field c (show_program_id c) title subtitle condensed expanded = Ok f → shows_call f c.
Proof.
  unfold subtitled_field. intros (cs & _ & (es & _ & Ef)%result_bind_Ok)%result_bind_Ok.
  apply (inj Ok) in Ef as <-. eexists _, _. split; [reflexivity|]. by left.
Qed.

Lemma with_raw_data_shows c rows f :
  with_raw_data c (show_program_id c) rows = Ok f → shows_call f c.
Proof. destruct rows as [[title condensed] expanded]. apply instruction_field_shows. Qed.

Lemma resolve_program_shown c pid :
  resolve_program_id c = Ok pid → show_program_id c = show_pubkey pid.
Proof.
  unfold resolve_program_id, show_program_id. destruct (program_id c); [|done]. by intros <-%(inj Ok).
Qed.

Lemma kamino_shows display id file raw : ShowsCalls (kamino_visualize display id file raw).
Proof.
  intros c f _. unfold kamino_visualize.
  destruct (parse_kamino_instruction _ _ _ _) as [[idl parsed]|]; apply instruction_field_shows.
Qed.

Lemma lending_shows display id file min : ShowsCalls (lending_visualize display id file min).
Proof. intros c f _. apply with_raw_data_shows. Qed.

Lemma remaining_shows display id file head : ShowsCalls (remaining_visualize display id file head).
Proof. intros c f _. apply with_raw_data_shows. Qed.

Lemma metadao_shows display id file : ShowsCalls (metadao_visualize display id file).
Proof.
  intros c f _. unfold metadao_visualize. case_decide; [done|].
  intros (idl & _ & (parsed & _ & Hf)%result_bind_Ok)%result_bind_Ok.
  by apply instruction_field_shows in Hf.
Qed.

#[export] Instance kamino_farms_shows : ShowsCalls kamino_farms_visualize := kamino_shows _ _ _ _.
#[export] Instance kamino_vault_shows : ShowsCalls kamino_vault_visualize := kamino_shows _ _ _ _.
#[export] Instance kamino_limit_shows : ShowsCalls kamino_limit_visualize := kamino_shows _ _ _ _.
#[export] Instance jupiter_borrow_shows : ShowsCalls jupiter_borrow_visualize := lending_shows _ _ _ _.
#[export] Instance jupiter_earn_shows : ShowsCalls jupiter_earn_visualize := lending_shows _ _ _ _.
#[export] Instance kamino_borrow_shows : ShowsCalls kamino_borrow_visualize := lending_shows _ _ _ _.
#[export] Instance exponent_finance_shows : ShowsCalls exponent_finance_visualize :=
  lending_shows _ _ _ _.
#[export] Instance jupiter_perps_shows : ShowsCalls jupiter_perps_visualize := lending_shows _ _ _ _.
#[export] Instance marginfi_shows : ShowsCalls marginfi_visualize := remaining_shows _ _ _ _.
#[export] Instance dflow_aggregator_shows : ShowsCalls dflow_aggregator_visualize :=
  remaining_shows _ _ _ _.
#[export] Instance metadao_conditional_vault_shows : ShowsCalls metadao_conditional_vault_visualize :=
  metadao_shows _ _ _.
#[export] Instance metadao_futarchy_shows : ShowsCalls metadao_futarchy_visualize :=
  metadao_shows _ _ _.

#[export] Instance drift_shows : ShowsCalls drift_visualize.
Proof.
  intros c f _ (pid & Hp & (accounts & _ & Hf)%result_bind_Ok)%result_bind_Ok.
  rewrite <- (resolve_program_shown c pid Hp) in Hf. by apply with_raw_data_shows in Hf.
Qed.

#[export] Instance meteora_damm_v2_shows : ShowsCalls meteora_damm_v2_visualize.
Proof. intros c f _ ([parsed named] & _ & Hf)%result_bind_Ok. by apply instruction_field_shows in Hf. Qed.

#[export] Instance meteora_dlmm_shows : ShowsCalls meteora_dlmm_visualize.
Proof. intros c f _ ([idl parsed] & _ & Hf)%result_bind_Ok. by apply instruction_field_shows in Hf. Qed.

#[export] Instance neutral_trade_shows : ShowsCalls neutral_trade_visualize.
Proof.
  intros c f _. unfold neutral_trade_visualize. case_decide; [done|].
  intros (idl & _ & (parsed & _ & Hf)%result_bind_Ok)%result_bind_Ok.
  by apply subtitled_field_shows in Hf.
Qed.

#[export] Instance onre_app_shows : ShowsCalls onre_app_visualize.
Proof. intros c f _ ([parsed named] & _ & Hf)%result_bind_Ok. by apply subtitled_field_shows in Hf. Qed.

#[export] Instance orca_whirlpool_shows : ShowsCalls orca_whirlpool_visualize.
Proof. intros c f _ (parsed & _ & Hf)%result_bind_Ok. by apply instruction_field_shows in Hf. Qed.

Lemma unknown_layout_shows c f : create_unknown_program_preview_layout c = Ok f → shows_call f c.
Proof. apply instruction_field_shows. Qed.

Lemma try_idl_parsing_shows r c f : try_idl_parsing r c = Ok f → shows_call f c.
Proof.
  unfold try_idl_parsing. destruct (program_id c) as [pk|] eqn:Hp; [|done].
  assert (show_pubkey pk = show_program_id c) as -> by (unfold show_program_id; by rewrite Hp).
  destruct (match try_parse_with_idl r c with Ok _ => _ | Err _ => _ end) as [cs es].
  apply instruction_field_shows.
Qed.

Lemma unknown_program_field r c f : unknown_program_visualize r c = Ok f → shows_call f c.
Proof.
  unfold unknown_program_visualize.
  destruct (program_id c); [|apply unknown_layout_shows].
  destruct (has_idl _ _); [|apply unknown_layout_shows].
  destruct (try_idl_parsing r c) eqn:Ht; [|apply unknown_layout_shows].
  intros <-%(inj Ok). by eapply try_idl_parsing_shows.
Qed.

#[export] Instance unknown_program_shows r : ShowsCalls (unknown_program_visualize r).
Proof. intros c f _. apply unknown_program_field. Qed.
End shown.

Section properties.
Context {E : RegexEngine} {H : HexCodec} {K : SolanaSdk} {F : JsonFormat}.
Context {P : SolanaIdls} {Q : SolanaParser} {R : IdlDecoder}.

(** *** The presets with a fallback never fail *)

Lemma sure_text_rows l : forallb sure_row (text_rows l) = true.
Proof. induction l as [|[label text] l IH]; [done|]. cbn. exact IH. Qed.

Lemma sure_imap l : ∀ g : nat → string,
  forallb sure_row (imap (fun i text => TextRow (g i) text) l) = true.
Proof. induction l as [|x l IH]; intros g; [done|]. cbn. apply (IH (g ∘ S)). Qed.

Lemma sure_remaining_rows l : forallb sure_row (remaining_rows l) = true.
Proof. apply (sure_imap l (fun i => "Remaining Account " +:+ show_nat (i + 1))). Qed.

Ltac sure := cbn; rewrite ?forallb_app, ?sure_text_rows, ?sure_remaining_rows; reflexivity.

Lemma with_raw_data_sure c pid rows :
  forallb sure_row rows.1.2 = true → forallb sure_row rows.2 = true →
  ∃ f, with_raw_data c pid rows = Ok f.
Proof.
  destruct rows as [[title condensed] expanded]. cbn. intros Hc He.
  apply instruction_field_sure; [done|]. rewrite forallb_app, He. reflexivity.
Qed.

Lemma kamino_total display id file raw c : ∃ f, kamino_visualize display id file raw c = Ok f.
Proof.
  unfold kamino_visualize.
  destruct (parse_kamino_instruction _ _ _ _) as [[idl parsed]|];
    apply instruction_field_sure; unfold kamino_parsed_rows; sure.
Qed.

Lemma lending_total display id file min c : ∃ f, lending_visualize display id file min c = Ok f.
Proof.
  unfold lending_visualize.
  destruct (parse_lending_instruction _ _ _ _ _ _) as [[parsed named]|]; apply with_raw_data_sure; sure.
Qed.

Lemma remaining_total display id file head c :
  forallb sure_row head = true → ∃ f, remaining_visualize display id file head c = Ok f.
Proof.
  intros Hh. unfold remaining_visualize.
  destruct (parse_remaining_instruction _ _ _ _ _) as [[parsed [named extra]]|];
    apply with_raw_data_sure; cbn; rewrite ?forallb_app, ?Hh; sure.
Qed.

Lemma unknown_program_total r c : ∃ f, unknown_program_visualize r c = Ok f.
Proof.
  unfold unknown_program_visualize.
  assert (∃ f, create_unknown_program_preview_layout c = Ok f) as Hu
    by (by apply instruction_field_sure).
  destruct (program_id c); [|done]. destruct (has_idl _ _); [|done].
  destruct (try_idl_parsing r c); [by eexists|done].
Qed.

(** The presets that fall back to the raw data. *)
Definition fallback_presets (r : IdlRegistry)
    : list (VisualizerContext → result VisualSignError AnnotatedPayloadField) :=
  [kamino_farms_visualize; kamino_vault_visualize; kamino_limit_visualize; jupiter_borrow_visualize;
   jupiter_earn_visualize; kamino_borrow_visualize; exponent_finance_visualize;
   jupiter_perps_visualize; marginfi_visualize; dflow_aggregator_visualize;
   unknown_program_visualize r].

(** C24: The catch-all preset and the ten presets that fall back to the raw data make a field of every
    instruction: whatever its data and accounts, and whether or not the bundled IDL can be read
    or decodes it, and the field shows the program and the data. *)
Theorem fallback_presets_total r c :
  call_depth c < MAX_CALL_DEPTH →
  Forall (fun visualize => ∃ f, visualize c = Ok f ∧ shows_call f c) (fallback_presets r).
Proof.
  intros Hd. assert (∀ v (Hv : ShowsCalls v), (∃ f, v c = Ok f) → ∃ f, v c = Ok f ∧ shows_call f c) as Hs.
  { intros v Hv [f Hf]. exists f. split; [done|]. by apply Hv. }
  unfold fallback_presets. rewrite !Forall_cons, Forall_nil.
  repeat split; (apply Hs; [apply _|]);
    first [apply kamino_total | apply lending_total | by apply remaining_total
          | apply unknown_program_total].
Qed.

(** *** The accounts of [marginfi] and [dflow_aggregator] *)

Lemma elem_of_remaining_rows extra i text :
  extra !! i = Some text →
  TextRow ("Remaining Account " +:+ show_nat (i + 1)) text ∈ remaining_rows extra.
Proof.
  intros Hi. apply (list_elem_of_lookup_2 _ i). unfold remaining_rows.
  by rewrite list_lookup_imap, Hi.
Qed.

Lemma paired_lookup inst accounts i name text :
  idl_instruction_accounts inst !! i = Some name → accounts !! i = Some text →
  (name, text) ∈ paired_accounts inst accounts.
Proof.
  intros Hn Ht. apply (list_elem_of_lookup_2 _ i). unfold paired_accounts.
  rewrite lookup_zip_with, Hn. cbn. by rewrite Ht.
Qed.

Lemma paired_NoDup inst accounts :
  NoDup (idl_instruction_accounts inst) → NoDup (keys (paired_accounts inst accounts)).
Proof.
  unfold keys, paired_accounts. generalize (idl_instruction_accounts inst). intros names.
  revert accounts. induction names as [|n names IH]; intros [|a accounts] Hn; [constructor..|].
  cbn. apply NoDup_cons in Hn as [Hn Hns]. constructor; [|by apply IH].
  contradict Hn. apply list_elem_of_fmap in Hn as ([n' a'] & -> & Hin).
  by apply elem_of_zip_l in Hin.
Qed.

Lemma split_accounts_shown data idl accounts inst i text :
  find_instruction (has_prefix data) idl = Some inst → NoDup (idl_instruction_accounts inst) →
  accounts !! i = Some text →
  ∃ label, TextRow label text ∈ text_rows (split_accounts data idl accounts).1
                                ++ remaining_rows (split_accounts data idl accounts).2.
Proof.
  intros Hf Hn Ht. unfold split_accounts. rewrite Hf. cbn.
  destruct (idl_instruction_accounts inst !! i) as [name|] eqn:Hi.
  - exists name. apply elem_of_app. left. apply list_elem_of_fmap. exists (name, text).
    split; [done|]. rewrite btree_of_list_perm by (by apply paired_NoDup). by eapply paired_lookup.
  - apply lookup_ge_None in Hi. eexists. apply elem_of_app. right.
    apply (elem_of_remaining_rows _ (i - length (idl_instruction_accounts inst))).
    rewrite lookup_drop. by replace (_ + _) with i by lia.
Qed.

Lemma with_raw_data_rows c pid rows f label text :
  with_raw_data c pid rows = Ok f → TextRow label text ∈ rows.2 →
  text_v2 label text ∈ expanded_rows f.
Proof.
  destruct rows as [[title condensed] expanded]. cbn [snd with_raw_data].
  intros (cs & _ & (es & Hes & Hf)%result_bind_Ok)%result_bind_Ok Hin.
  apply (inj Ok) in Hf as <-. cbn [expanded_rows preview_layout_field annotate_field
    signable_payload_field].
  apply list_elem_of_fmap. exists (text_row label text). split; [done|].
  eapply build_rows_in; [exact Hes|]. apply elem_of_app. by left.
Qed.

Lemma remaining_accounts_shown display id file head c f idl parsed inst i text :
  parse_bundled 8 "Invalid instruction data length" (load_or (display +:+ " IDL not available") file)
    id (context_data c) = Ok (idl, parsed) →
  find_instruction (has_prefix (context_data c)) idl = Some inst →
  NoDup (idl_instruction_accounts inst) →
  view_accounts (from_context show_pubkey c) !! i = Some text →
  remaining_visualize display id file head c = Ok f →
  ∃ label, text_v2 label text ∈ expanded_rows f.
Proof.
  intros Hp Hi Hn Ht Hf.
  destruct (split_accounts_shown _ _ _ _ _ _ Hi Hn Ht) as [label Hl]. exists label.
  eapply with_raw_data_rows; [exact Hf|]. unfold parse_remaining_instruction. rewrite Hp.
  cbn [result_bind mbind]. destruct (split_accounts _ _ _) as [named extra].
  cbn [fst snd] in Hl. unfold remaining_parsed_rows. cbn [snd].
  rewrite !elem_of_app in *. naive_solver.
Qed.

(** [dflow_aggregator] and [marginfi] leave no account out: when the IDL decodes the instruction
    and gives its accounts distinct names, every account of the instruction is in a row of its
    field, those beyond the names of the IDL as remaining accounts. *)
Theorem remaining_presets_accounts c :
  Forall (fun '(display, id, file, visualize) => ∀ f idl parsed inst i text,
    parse_bundled 8 "Invalid instruction data length"
      (load_or (display +:+ " IDL not available") file) id (context_data c) = Ok (idl, parsed) →
    find_instruction (has_prefix (context_data c)) idl = Some inst →
    NoDup (idl_instruction_accounts inst) →
    view_accounts (from_context show_pubkey c) !! i = Some text →
    visualize c = Ok f →
    ∃ label, text_v2 label text ∈ expanded_rows f)
  [("Marginfi", "MFv2hWf31Z9kbCa1snEPdcgp7X3GK4Y9EtyMkRxBUGA", "marginfi/marginfi.json",
    marginfi_visualize);
   ("DFlow Aggregator", "DF1ow4tspfHX9JwWJsAb9epbkA8hmpSEAtxXy1V27QBH",
    "dflow_aggregator/dflow_aggregator.json", dflow_aggregator_visualize)].
Proof.
  rewrite !Forall_cons, Forall_nil.
  split; [|split; [|done]]; intros f idl parsed inst i text; apply remaining_accounts_shown.
Qed.

(** *** Labels of [drift] *)

Definition row_label (r : row) : string :=
  match r with TextRow label _ => label | _ => "" end.

Definition no_space (s : string) : bool := str_all (fun c => negb (code c =? 32)) s.

Lemma no_space_prefix p s : no_space p = false → no_space (p +:+ s) = false.
Proof. unfold no_space. intros Hp. by rewrite str_all_app, Hp. Qed.

Lemma drift_row_labels parsed named pid :
  row_label <$> drop 3 (drift_parsed_rows parsed named pid).2 =
  (drift_account_label (parser.pd_program_call_args parsed) <$> keys named)
  ++ (drift_arg_label named <$> keys (parser.pd_program_call_args parsed)).
Proof.
  unfold drift_parsed_rows, keys. cbn [snd]. rewrite drop_app_length' by done.
  rewrite fmap_app, <- !list_fmap_compose. f_equal; apply list_fmap_ext; by intros ? [].
Qed.

Lemma label_cases {A} (l : list (string * A)) p name :
  let label := if decide (name ∈ keys l) then p +:+ name else name in
  (name ∈ keys l ∧ label = (p +:+ name)) ∨ (¬ (name ∈ keys l) ∧ label = name).
Proof. intros label. unfold label. case_decide; [by left|by right]. Qed.

Lemma label_inj {A} (l : list (string * A)) p x y :
  no_space p = false → no_space x = true → no_space y = true →
  (if decide (x ∈ keys l) then p +:+ x else x) = (if decide (y ∈ keys l) then p +:+ y else y) →
  x = y.
Proof.
  intros Hp Hx Hy.
  destruct (label_cases l p x) as [[_ ->]|[_ ->]], (label_cases l p y) as [[_ ->]|[_ ->]].
  - apply (inj (String.append p)).
  - intros <-. by rewrite no_space_prefix in Hy.
  - intros ->. by rewrite no_space_prefix in Hx.
  - done.
Qed.

(** The rows [drift] shows for the accounts and the arguments have labels that are all distinct:
    an account and an argument of one name are labelled as the current and the new one. The
    names are those of an IDL, without spaces; the accounts are a map, as are the arguments. *)
Theorem drift_labels_distinct parsed named pid :
  NoDup (keys named) → NoDup (keys (parser.pd_program_call_args parsed)) →
  Forall (fun s => no_space s = true) (keys named ++ keys (parser.pd_program_call_args parsed)) →
  NoDup (row_label <$> drop 3 (drift_parsed_rows parsed named pid).2).
Proof.
  intros Hn Ha [Hsn Hsa]%Forall_app. rewrite drift_row_labels. rewrite Forall_forall in Hsn, Hsa.
  set (args := parser.pd_program_call_args parsed) in *. apply NoDup_app. split; [|split].
  - apply NoDup_fmap_2_strong; [|done]. intros x y Hx Hy.
    apply label_inj; [done|by apply Hsn..].
  - intros l (x & -> & Hx)%list_elem_of_fmap (y & Hl & Hy)%list_elem_of_fmap.
    unfold drift_account_label, drift_arg_label in Hl.
    destruct (label_cases args "Current " x) as [[Hxa Ex]|[Hxa Ex]],
      (label_cases named "New " y) as [[Hyn Ey]|[Hyn Ey]]; rewrite Ex, Ey in Hl.
    + done.
    + apply (f_equal no_space) in Hl. rewrite no_space_prefix, (Hsa y Hy) in Hl; done.
    + apply (f_equal no_space) in Hl. rewrite (Hsn x Hx), no_space_prefix in Hl; done.
    + by subst.
  - apply NoDup_fmap_2_strong; [|done]. intros x y Hx Hy.
    apply label_inj; [done|by apply Hsa..].
Qed.

(** *** Argument texts *)

Lemma charset_safe_all s : str_all arg_char (charset_safe s) = true.
Proof. induction s as [|c s IH]; [done|]. cbn. destruct (arg_char c) eqn:Hc; [|done]. cbn. by rewrite Hc. Qed.

Lemma arg_charset_safe_id s : str_all arg_char s = true → charset_safe s = s.
Proof.
  induction s as [|c s IH]; [done|]. cbn. intros [Hc Hs]%andb_true_iff. rewrite Hc. by rewrite IH.
Qed.

Lemma show_Z_arg z : str_all arg_char (show_Z z) = true.
Proof.
  eapply str_all_impl, show_Z_number_text. intros c. by ascii_cases c.
Qed.

Lemma hex_arg bs : str_all arg_char (hex_encode bs) = true.
Proof.
  rewrite hex_encode_lower. eapply str_all_impl, hex_of_bytes_digits. intros c. by ascii_cases c.
Qed.

Lemma bytes_as_hex_arg items s : bytes_as_hex items = Some s → str_all arg_char s = true.
Proof.
  unfold bytes_as_hex. destruct items as [|v items]; [done|].
  intros (bs & _ & Hs)%bind_Some. apply (inj Some) in Hs as <-. rewrite str_all_app, hex_arg. done.
Qed.

Lemma str_join_arg l :
  Forall (fun s => str_all arg_char s = true) l → str_all arg_char (str_join "," l) = true.
Proof.
  induction 1 as [|s l Hs _ IH]; [done|]. destruct l as [|t l]; [done|].
  change (str_join "," (s :: t :: l)) with (s +:+ "," +:+ str_join "," (t :: l)).
  rewrite !str_all_app, Hs, IH. done.
Qed.

Lemma format_arg_value_arg value : str_all arg_char (format_arg_value value) = true.
Proof.
  induction value as [|[]|z|s|l IH|m IH] using json_ind; cbn [format_arg_value]; [done..| | | |].
  - apply show_Z_arg.
  - apply charset_safe_all.
  - destruct (bytes_as_hex l) as [hex|] eqn:Hh; [by eapply bytes_as_hex_arg|].
    rewrite !str_all_app, str_join_arg; [done|]. by apply Forall_fmap.
  - rewrite !str_all_app, str_join_arg; [done|]. apply Forall_fmap. eapply Forall_impl; [exact IH|].
    intros [k v] Hv. cbn [compose fst snd] in *. by rewrite !str_all_app, charset_safe_all, Hv.
Qed.

Definition json_of_byte (b : byte) : json := JNumber (byte_to_Z b).

Lemma json_byte_of b : json_byte (json_of_byte b) = Some b.
Proof. by destruct b. Qed.

Lemma bytes_as_hex_of bs :
  bs ≠ [] → bytes_as_hex (json_of_byte <$> bs) = Some ("0x" +:+ hex_encode bs).
Proof.
  intros Hb. unfold bytes_as_hex.
  assert (mapM json_byte (json_of_byte <$> bs) = Some bs) as Hm.
  { apply mapM_Some. rewrite Forall2_fmap_l. apply Forall_Forall2_diag, Forall_true, json_byte_of. }
  destruct bs as [|b bs]; [done|]. cbn [fmap list_fmap] in *. by rewrite Hm.
Qed.

(** The text of an argument is printable ASCII without quotes and backslashes, whatever strings and
    keys the decoded value holds. A string of such characters is shown as it is; an array of
    bytes as the hexadecimal text that decodes to them. *)
Theorem format_arg_value_safe :
  (∀ value, str_all arg_char (format_arg_value value) = true) ∧
  (∀ s, str_all arg_char s = true → format_arg_value (JString s) = s) ∧
  (∀ bs, bs ≠ [] → ∃ text, format_arg_value (JArray (json_of_byte <$> bs)) = "0x" +:+ text ∧
                           hex_decode text = Ok bs).
Proof.
  split; [apply format_arg_value_arg|]. split; [intros s; apply arg_charset_safe_id|].
  intros bs Hb. exists (hex_encode bs). cbn [format_arg_value]. rewrite bytes_as_hex_of by done.
  split; [done|]. apply hex_decode_encode.
Qed.
End properties.

(** ** Samples: every IDL has the one instruction [go], with the discriminator of eight zero bytes
    and the account [owner]; it decodes to one argument of the same name. *)

Definition sample_crate : @SolanaParser sample_idls := {|
  IdlInstruction := unit;
  idl_instructions _ := [tt];
  idl_instruction_name _ := "go";
  idl_instruction_discriminator _ := Some (replicate 8 Byte.x00);
  resolve_idl_for_record _ _ := Err "";
  find_instruction_by_discriminator _ _ := Err "";
  parse_data_into_args _ _ _ := Err "";
  create_accounts_map _ _ := Err "";
  compute_idl_hash s := s;
  construct_idl_records_map _ := Err "";
  construct_custom_idl_records_map := Err "";
  parse_transaction _ _ _ := Err "";
  parse_transaction_with_idl_records _ _ _ := Err "";
|}.

Definition sample_parsed : parser.SolanaParsedInstructionData :=
  parser.MkParsedData "go" "0000000000000000" ∅ [("owner", JString "me")] parser.SourcePreset "".

Definition sample_decoder : @IdlDecoder sample_idls sample_crate :=
  Build_IdlDecoder sample_idls sample_crate (fun _ => ["owner"]) (fun _ _ _ => Ok sample_parsed)
    (fun file => file).

Definition sample_idl_call : VisualizerContext :=
  VisualizerContext_new (MkSolanaAccount "" false false)
    (MkCompiledInstruction 0 [1; 2] (replicate 8 Byte.x00))
    [replicate 32 Byte.x00; replicate 32 Byte.x01; replicate 32 Byte.x02] 0.

Lemma fallback_presets_total_witness :
  Forall (fun visualize => ∃ f, visualize sample_idl_call = Ok f ∧
            shows_call (H:=hex_ref) (K:=hex_sdk) f sample_idl_call)
    (fallback_presets (E:=derivative_engine) (H:=hex_ref) (K:=hex_sdk) (F:=compact_format)
       (R:=sample_decoder) IdlRegistry_new).
Proof.
  apply (fallback_presets_total (E:=derivative_engine) (H:=hex_ref) (K:=hex_sdk)
    (F:=compact_format) (R:=sample_decoder)). cbn. unfold MAX_CALL_DEPTH. lia.
Defined.

(** Both accounts of the sample are in the field, the second one as a remaining account. *)
Lemma remaining_presets_accounts_witness :
  ∃ f, dflow_aggregator_visualize (E:=derivative_engine) (H:=hex_ref) (K:=hex_sdk)
         (R:=sample_decoder) sample_idl_call = Ok f ∧
    ∃ label, text_v2 label (hex_of_bytes (replicate 32 Byte.x02)) ∈ expanded_rows f.
Proof.
  pose proof (remaining_presets_accounts (E:=derivative_engine) (H:=hex_ref) (K:=hex_sdk)
    (R:=sample_decoder) sample_idl_call) as Ht.
  rewrite !Forall_cons in Ht. destruct Ht as (_ & Ht & _).
  destruct (remaining_total (E:=derivative_engine) (H:=hex_ref) (K:=hex_sdk) (R:=sample_decoder)
    "DFlow Aggregator" "DF1ow4tspfHX9JwWJsAb9epbkA8hmpSEAtxXy1V27QBH"
    "dflow_aggregator/dflow_aggregator.json" [] sample_idl_call eq_refl) as [f Hf].
  exists f. split; [exact Hf|].
  apply (Ht f "dflow_aggregator/dflow_aggregator.json" sample_parsed tt 1);
    [reflexivity|reflexivity|apply NoDup_singleton|reflexivity|exact Hf].
Defined.

Lemma drift_labels_distinct_witness :
  NoDup (row_label <$> drop 3
    (drift_parsed_rows (F:=compact_format) sample_parsed [("owner", "key"); ("pool", "key")] "id").2).
Proof.
  apply (drift_labels_distinct (F:=compact_format)); by_decision.
Defined.
