(* ===== verification/SolanaJupiter.v ===== *)
(** * Solana: Jupiter swaps

    The preset [jupiter_swap] of [chain_parsers/visualsign-solana]: the routes of the Jupiter
    aggregator, decoded with the bundled IDL, with the tokens and amounts of the swap. *)

From S2P Require Import Prelude Json Payload Errors Charset External Encodings DecimalText Builders.
From S2P Require Import Registry PlainText NearText.
From S2P Require Import SolanaCore SolanaIdl SolanaParserCrate SolanaConvert.
From S2P Require Import SolanaPrograms SolanaTokens SolanaIdlPresets.

#[local] Unset Program Cases.

Inductive JupiterSwapInstruction : Type :=
| JupRoute (in_token out_token : option SwapTokenInfo) (slippage_bps platform_fee_bps : Z)
| JupExactOutRoute (in_token out_token : option SwapTokenInfo) (slippage_bps platform_fee_bps : Z)
| JupSharedAccountsRoute (in_token out_token : option SwapTokenInfo)
    (slippage_bps platform_fee_bps : Z)
| JupRouteV2 (in_token out_token : option SwapTokenInfo)
    (slippage_bps platform_fee_bps positive_slippage_bps : Z)
| JupExactOutRouteV2 (in_token out_token : option SwapTokenInfo)
    (slippage_bps platform_fee_bps positive_slippage_bps : Z)
| JupSharedAccountsRouteV2 (in_token out_token : option SwapTokenInfo)
    (slippage_bps platform_fee_bps positive_slippage_bps : Z)
| JupSharedAccountsExactOutRouteV2 (in_token out_token : option SwapTokenInfo)
    (slippage_bps platform_fee_bps positive_slippage_bps : Z)
| JupUnknown (instruction_name : option string).

Definition extract_u64_arg (args : list (string * json)) (name : string) : result string Z :=
  ok_or ("Missing or invalid argument: " +:+ name) (assoc name args ≫= json_as_u64).

(** [u16::try_from] and [u8::try_from] of a [u64]. *)
Definition narrow (max : Z) (n : Z) : result string Z :=
  if decide (n ≤ max)%Z then Ok n else Err "out of range integral type conversion attempted".

Definition token_at (accounts : list string) (i : nat) (amount : Z) : option SwapTokenInfo :=
  (fun addr => get_token_info addr amount) <$> accounts !! i.

(** The arguments of the three first routes, in the order they are read. *)
Definition route_args (args : list (string * json)) (first second : string)
    : result string (Z * Z * Z * Z) :=
  a ← extract_u64_arg args first;
  b ← extract_u64_arg args second;
  slippage_bps ← extract_u64_arg args "slippage_bps" ≫= narrow (2 ^ 16 - 1);
  platform_fee_bps ← extract_u64_arg args "platform_fee_bps" ≫= narrow (2 ^ 8 - 1);
  Ok (a, b, slippage_bps, platform_fee_bps).

Definition parse_route_v2 (args : list (string * json)) (accounts : list string)
    (exact_out shared : bool) : result string JupiterSwapInstruction :=
  slippage_bps ← extract_u64_arg args "slippage_bps" ≫= narrow (2 ^ 16 - 1);
  platform_fee_bps ← extract_u64_arg args "platform_fee_bps" ≫= narrow (2 ^ 16 - 1);
  positive_slippage_bps ← extract_u64_arg args "positive_slippage_bps" ≫= narrow (2 ^ 16 - 1);
  let '(source_mint_idx, destination_mint_idx) := if shared then (6, 7) else (3, 4) in
  '(in_amount, out_amount) ←
    (if exact_out then
       quoted_in_amount ← extract_u64_arg args "quoted_in_amount";
       out_amount ← extract_u64_arg args "out_amount";
       Ok (quoted_in_amount, out_amount)
     else
       in_amount ← extract_u64_arg args "in_amount";
       quoted_out_amount ← extract_u64_arg args "quoted_out_amount";
       Ok (in_amount, quoted_out_amount));
  let in_token := token_at accounts source_mint_idx in_amount in
  let out_token := token_at accounts destination_mint_idx out_amount in
  Ok (match exact_out, shared with
      | false, false =>
          JupRouteV2 in_token out_token slippage_bps platform_fee_bps positive_slippage_bps
      | true, false =>
          JupExactOutRouteV2 in_token out_token slippage_bps platform_fee_bps positive_slippage_bps
      | false, true =>
          JupSharedAccountsRouteV2 in_token out_token slippage_bps platform_fee_bps
            positive_slippage_bps
      | true, true =>
          JupSharedAccountsExactOutRouteV2 in_token out_token slippage_bps platform_fee_bps
            positive_slippage_bps
      end).

Section jupiter.
Context {E : RegexEngine} {H : HexCodec} {K : SolanaSdk}.
Context {P : SolanaIdls} {Q : SolanaParser} {R : IdlDecoder}.

Definition parse_jupiter_instruction_with_idl (data : bytes) (accounts : list string)
    : result string JupiterSwapInstruction :=
  idl ← load_or "Jupiter IDL not available" "jupiter_swap/jupiter_agg_v6.json";
  parsed ← parse_instruction_with_idl data JUPITER_PROGRAM_ID idl;
  let args := parser.pd_program_call_args parsed in
  let name := parser.pd_instruction_name parsed in
  if decide (name = "route") then
    '(in_amount, quoted_out_amount, slippage_bps, platform_fee_bps) ←
      route_args args "in_amount" "quoted_out_amount";
    Ok (JupRoute (token_at accounts 0 in_amount) (token_at accounts 5 quoted_out_amount)
          slippage_bps platform_fee_bps)
  else if decide (name = "exact_out_route") then
    '(out_amount, quoted_in_amount, slippage_bps, platform_fee_bps) ←
      route_args args "out_amount" "quoted_in_amount";
    Ok (JupExactOutRoute (token_at accounts 0 quoted_in_amount) (token_at accounts 5 out_amount)
          slippage_bps platform_fee_bps)
  else if decide (name = "shared_accounts_route") then
    '(in_amount, quoted_out_amount, slippage_bps, platform_fee_bps) ←
      route_args args "in_amount" "quoted_out_amount";
    Ok (JupSharedAccountsRoute (token_at accounts 0 in_amount)
          (token_at accounts 5 quoted_out_amount) slippage_bps platform_fee_bps)
  else if decide (name = "route_v2") then parse_route_v2 args accounts false false
  else if decide (name = "exact_out_route_v2") then parse_route_v2 args accounts true false
  else if decide (name = "shared_accounts_route_v2") then parse_route_v2 args accounts false true
  else if decide (name = "shared_accounts_exact_out_route_v2") then
    parse_route_v2 args accounts true true
  else Ok (JupUnknown (Some name)).

Definition parse_jupiter_swap_instruction (data : bytes) (accounts : list string)
    : result string JupiterSwapInstruction :=
  if decide (length data < 8) then Err "Invalid instruction data length"
  else
    match parse_jupiter_instruction_with_idl data accounts with
    | Ok instruction => Ok instruction
    | Err _ => Ok (JupUnknown None)
    end.

Definition swap_amount_text (token : option SwapTokenInfo) : string :=
  match token with Some t => show_Z (st_amount t) | None => "Unknown" end.

Definition swap_symbol_text (token : option SwapTokenInfo) : string :=
  match token with Some t => st_symbol t | None => "Unknown" end.

Definition format_route (instruction_type : string) (in_token out_token : option SwapTokenInfo)
    (slippage_bps platform_fee_bps positive_slippage_bps : Z) : string :=
  instruction_type +:+ ": From " +:+ swap_amount_text in_token +:+ " " +:+ swap_symbol_text in_token
  +:+ " To " +:+ swap_amount_text out_token +:+ " " +:+ swap_symbol_text out_token
  +:+ " (slippage: " +:+ show_Z slippage_bps +:+ "bps"
  +:+ (if decide (0 < platform_fee_bps)%Z
       then ", platform fee: " +:+ show_Z platform_fee_bps +:+ "bps" else "")
  +:+ (if decide (0 < positive_slippage_bps)%Z
       then ", positive slippage: " +:+ show_Z positive_slippage_bps +:+ "bps" else "")
  +:+ ")".

(** The routes without a positive slippage do not show one. *)
Definition format_jupiter_swap_instruction (instruction : JupiterSwapInstruction) : string :=
  match instruction with
  | JupRoute i o s p => format_route "Jupiter Swap" i o s p 0
  | JupExactOutRoute i o s p => format_route "Jupiter Exact Out Route" i o s p 0
  | JupSharedAccountsRoute i o s p => format_route "Jupiter Shared Accounts Route" i o s p 0
  | JupRouteV2 i o s p ps => format_route "Jupiter Swap V2" i o s p ps
  | JupExactOutRouteV2 i o s p ps => format_route "Jupiter Exact Out Route V2" i o s p ps
  | JupSharedAccountsRouteV2 i o s p ps => format_route "Jupiter Shared Accounts Route V2" i o s p ps
  | JupSharedAccountsExactOutRouteV2 i o s p ps =>
      format_route "Jupiter Shared Accounts Exact Out Route V2" i o s p ps
  | JupUnknown (Some name) => "Jupiter: " +:+ name
  | JupUnknown None => "Jupiter: Unknown Instruction"
  end.

Definition token_rows (what amount_label : string) (with_address : bool)
    (token : option SwapTokenInfo) : list row :=
  match token with
  | Some t =>
      [TextRow (what +:+ " Token") (st_symbol t);
       AmountRow amount_label (show_Z (st_amount t)) (st_symbol t);
       TextRow (what +:+ " Token Name") (st_name t)]
      ++ (if with_address then [TextRow (what +:+ " Token Address") (st_address t)] else [])
  | None => []
  end.

Definition bps_row (label : string) (bps : Z) : list row :=
  if decide (0 < bps)%Z then [NumberRow label (show_Z bps) "bps"] else [].

(** The first three routes do not show the address of the input token. *)
Definition route_rows (input_address : bool) (in_token out_token : option SwapTokenInfo)
    (slippage_bps platform_fee_bps positive_slippage_bps : Z) : list row :=
  token_rows "Input" "Input Amount" input_address in_token
  ++ token_rows "Output" "Quoted Output Amount" true out_token
  ++ [NumberRow "Slippage" (show_Z slippage_bps) "bps"]
  ++ bps_row "Platform Fee" platform_fee_bps
  ++ bps_row "Positive Slippage" positive_slippage_bps.

Definition jupiter_rows (instruction : JupiterSwapInstruction) : list row :=
  match instruction with
  | JupRoute i o s p | JupExactOutRoute i o s p | JupSharedAccountsRoute i o s p =>
      route_rows false i o s p 0
  | JupRouteV2 i o s p ps | JupExactOutRouteV2 i o s p ps | JupSharedAccountsRouteV2 i o s p ps
  | JupSharedAccountsExactOutRouteV2 i o s p ps => route_rows true i o s p ps
  | JupUnknown instruction_name =>
      [TextRow "Status"
         (match instruction_name with
          | Some name => "Jupiter instruction: " +:+ name +:+ " (not explicitly handled)"
          | None => "Unknown Jupiter instruction type"
          end)]
  end.

Definition create_jupiter_swap_expanded_fields (instruction : JupiterSwapInstruction)
    (c : VisualizerContext) : result VisualSignError (list AnnotatedPayloadField) :=
  map_err (fun e => ConversionError (show_error e))
    (build_rows ([TextRow "Program ID" (show_program_id c)] ++ jupiter_rows instruction
                 ++ [RawRow (context_data c) None])).

Definition create_jupiter_preview_layout (instruction : JupiterSwapInstruction)
    (c : VisualizerContext) : result VisualSignError AnnotatedPayloadField :=
  let instruction_text := format_jupiter_swap_instruction instruction in
  condensed ← map_err (fun e => ConversionError (show_error e))
                (build_rows [TextRow "Instruction" instruction_text]);
  expanded ← create_jupiter_swap_expanded_fields instruction c;
  Ok (preview_layout_field c (raw_text (show_program_id c) (context_data c)) instruction_text ""
        condensed expanded).

Definition jupiter_swap_visualize (c : VisualizerContext)
    : result VisualSignError AnnotatedPayloadField :=
  instruction ← map_err DecodeError
    (parse_jupiter_swap_instruction (context_data c) (show_account c <$> seq 0 (num_accounts c)));
  create_jupiter_preview_layout instruction c.
End jupiter.

(** ** Properties *)

Section properties.
Context {E : RegexEngine} {H : HexCodec} {K : SolanaSdk}.
Context {P : SolanaIdls} {Q : SolanaParser} {R : IdlDecoder}.

#[export] Instance jupiter_swap_shows : ShowsCalls jupiter_swap_visualize.
Proof.
  intros c f _ (ix & _ & (cs & _ & (es & _ & Hf)%result_bind_Ok)%result_bind_Ok)%result_bind_Ok.
  apply (inj Ok) in Hf as <-. eexists _, _. split; [reflexivity|]. by left.
Qed.

(** *** Every instruction with a discriminator gets a field *)

Definition swap_token_ok (t : SwapTokenInfo) : Prop := (0 ≤ st_amount t)%Z ∧ st_symbol t ≠ "".

Definition token_ok (o : option SwapTokenInfo) : Prop :=
  match o with Some t => swap_token_ok t | None => True end.

Definition jupiter_ok (ix : JupiterSwapInstruction) : Prop :=
  match ix with
  | JupRoute i o s p | JupExactOutRoute i o s p | JupSharedAccountsRoute i o s p =>
      token_ok i ∧ token_ok o ∧ (0 ≤ s)%Z ∧ (0 ≤ p)%Z
  | JupRouteV2 i o s p _ | JupExactOutRouteV2 i o s p _ | JupSharedAccountsRouteV2 i o s p _
  | JupSharedAccountsExactOutRouteV2 i o s p _ => token_ok i ∧ token_ok o ∧ (0 ≤ s)%Z ∧ (0 ≤ p)%Z
  | JupUnknown _ => True
  end.

Lemma extract_u64_range args name n : extract_u64_arg args name = Ok n → (0 ≤ n < 2 ^ 64)%Z.
Proof.
  unfold extract_u64_arg. intros (v & _ & Hv)%ok_or_Ok%bind_Some. unfold json_as_u64 in Hv.
  destruct v; try done. case_decide; [|done]. by apply (inj Some) in Hv as <-.
Qed.

Lemma narrow_Ok max n m : narrow max n = Ok m → m = n.
Proof. unfold narrow. case_decide; [|done]. by intros <-%(inj Ok). Qed.

Lemma extract_narrow_range args name max n :
  extract_u64_arg args name ≫= narrow max = Ok n → (0 ≤ n)%Z.
Proof. intros (m & Hm%extract_u64_range & ->%narrow_Ok)%result_bind_Ok. lia. Qed.

Lemma truncated_nonempty address : address ≠ "" → truncated_address address ≠ "".
Proof.
  unfold truncated_address. case_decide; [|done]. destruct address as [|a address]; [done|].
  intros _. cbn. done.
Qed.

Lemma get_token_info_ok address amount :
  address ≠ "" → (0 ≤ amount)%Z → swap_token_ok (get_token_info address amount).
Proof.
  intros Ha Hn. unfold get_token_info.
  destruct (get_token_lookup_table !! address) as [t|] eqn:Ht; (split; [done|]); cbn [st_symbol].
  - unfold get_token_lookup_table in Ht. rewrite !lookup_insert_Some, lookup_empty in Ht.
    naive_solver.
  - by apply truncated_nonempty.
Qed.

Lemma token_at_ok accounts i amount :
  Forall (fun a => a ≠ "") accounts → (0 ≤ amount)%Z → token_ok (token_at accounts i amount).
Proof.
  intros Ha Hn. unfold token_at. destruct (accounts !! i) as [a|] eqn:Hi; [|done].
  apply get_token_info_ok; [|done]. by apply (Forall_lookup_1 _ _ _ _ Ha Hi).
Qed.

Lemma parse_route_v2_ok args accounts exact_out shared ix :
  Forall (fun a => a ≠ "") accounts → parse_route_v2 args accounts exact_out shared = Ok ix →
  jupiter_ok ix.
Proof.
  intros Ha (s & Hs%extract_narrow_range & (p & Hp%extract_narrow_range &
    (ps & _ & Hix)%result_bind_Ok)%result_bind_Ok)%result_bind_Ok.
  destruct (if shared then (6, 7) else (3, 4)) as [si di].
  apply result_bind_Ok in Hix as ([a b] & Hab & Hix).
  assert (0 ≤ a ∧ 0 ≤ b)%Z as [Hna Hnb].
  { destruct exact_out;
      apply result_bind_Ok in Hab as (a' & Ha'%extract_u64_range &
        (b' & Hb'%extract_u64_range & Eab)%result_bind_Ok); apply (inj Ok) in Eab;
      assert (a' = a ∧ b' = b) as [-> ->] by (split; congruence); lia. }
  apply (inj Ok) in Hix as <-. destruct exact_out, shared; cbn; split_and!; eauto using token_at_ok.
Qed.

Lemma route_args_range args x y a b s p :
  route_args args x y = Ok (a, b, s, p) → (0 ≤ a ∧ 0 ≤ b ∧ 0 ≤ s ∧ 0 ≤ p)%Z.
Proof.
  intros (a' & Ha%extract_u64_range & (b' & Hb%extract_u64_range & (s' & Hs%extract_narrow_range &
    (p' & Hp%extract_narrow_range & Eq)%result_bind_Ok)%result_bind_Ok)%result_bind_Ok)%result_bind_Ok.
  apply (inj Ok) in Eq. assert (a' = a ∧ b' = b ∧ s' = s ∧ p' = p) as (-> & -> & -> & ->)
    by (repeat split; congruence). lia.
Qed.

Lemma parse_jupiter_ok data accounts ix :
  Forall (fun a => a ≠ "") accounts → parse_jupiter_swap_instruction data accounts = Ok ix →
  jupiter_ok ix.
Proof.
  intros Ha. unfold parse_jupiter_swap_instruction. case_decide; [done|].
  destruct (parse_jupiter_instruction_with_idl data accounts) as [ix'|] eqn:Hp;
    intros <-%(inj Ok); [|done].
  apply result_bind_Ok in Hp as (idl & _ & (parsed & _ & Hp)%result_bind_Ok). cbv zeta in Hp.
  repeat case_decide; try (by eapply parse_route_v2_ok); try (by apply (inj Ok) in Hp as <-);
    apply result_bind_Ok in Hp as ([[[a b] s] p] & Hr%route_args_range & Hp);
    apply (inj Ok) in Hp as <-; cbn; destruct Hr as (? & ? & ? & ?); split_and!; eauto using token_at_ok.
Qed.

Lemma show_Z_proper n : (0 ≤ n)%Z → signed_proper (show_Z n).
Proof.
  intros Hn. exists "", (show_Z n), "". rewrite str_nil_app, str_app_nil_r.
  split; [done|]. split; [by left|]. split; [|by left].
  split; [by apply show_Z_nonempty|by apply show_nonneg_digits].
Qed.

(** A row that can be built. *)
Definition row_ok (r : row) : Prop := ∃ f, build_row r = Ok f.

Lemma build_rows_ok l : Forall row_ok l → ∃ fields, build_rows l = Ok fields.
Proof.
  induction 1 as [|r l [f Hf] _ [fields Hl]]; [by exists []|].
  unfold build_rows in *. cbn. rewrite Hf. cbn. rewrite Hl. by eexists.
Qed.

Lemma number_row_ok label n unit : (0 ≤ n)%Z → row_ok (NumberRow label (show_Z n) unit).
Proof.
  intros Hn. eexists. apply create_number_field_ok. split; [by apply show_Z_proper|reflexivity].
Qed.

Lemma amount_row_ok label n symbol :
  (0 ≤ n)%Z → symbol ≠ "" → row_ok (AmountRow label (show_Z n) symbol).
Proof.
  intros Hn Hs. unfold row_ok, build_row, create_amount_field.
  rewrite (proj2 (validate_number_string_ok _) (show_Z_proper n Hn)). cbn.
  destruct symbol; [done|]. by eexists.
Qed.

Lemma text_row_ok label text : row_ok (TextRow label text).
Proof. by eexists. Qed.

Lemma token_rows_ok what label with_address o :
  token_ok o → Forall row_ok (token_rows what label with_address o).
Proof.
  destruct o as [t|]; [|constructor]. intros [Ha Hs]. unfold token_rows. apply Forall_app. split.
  - repeat constructor; try apply text_row_ok. by apply amount_row_ok.
  - destruct with_address; repeat constructor. apply text_row_ok.
Qed.

Lemma bps_row_ok label bps : Forall row_ok (bps_row label bps).
Proof. unfold bps_row. case_decide; repeat constructor. apply number_row_ok. lia. Qed.

Lemma route_rows_ok b i o s p ps :
  token_ok i → token_ok o → (0 ≤ s)%Z → Forall row_ok (route_rows b i o s p ps).
Proof.
  intros Hi Ho Hs. unfold route_rows. rewrite !Forall_app.
  split_and!; eauto using token_rows_ok, bps_row_ok. repeat constructor. by apply number_row_ok.
Qed.

Lemma jupiter_rows_ok ix : jupiter_ok ix → Forall row_ok (jupiter_rows ix).
Proof.
  destruct ix; cbn [jupiter_ok jupiter_rows]; try (intros (Hi & Ho & Hs & _); by apply route_rows_ok).
  intros _. repeat constructor. apply text_row_ok.
Qed.

Lemma show_account_nonempty c i : context_wf c → show_account c i ≠ "".
Proof.
  intros Hc. unfold show_account, account. destruct (ci_accounts _ !! i) as [idx|]; [|done]. cbn.
  destruct (account_keys c !! idx) as [pk|] eqn:Hk; [|done].
  pose proof (show_pubkey_long pk (Forall_lookup_1 _ _ _ _ Hc Hk)) as Hl.
  intros He. rewrite He in Hl. cbn in Hl. lia.
Qed.

(** The [jupiter_swap] preset makes a field of every instruction that has a discriminator,
    whatever the bundled IDL decodes it to: the amounts and rates it prints are always accepted
    by the field builders. *)
Theorem jupiter_swap_total c :
  context_wf c → 8 ≤ length (context_data c) → ∃ f, jupiter_swap_visualize c = Ok f.
Proof.
  intros Hc Hd. unfold jupiter_swap_visualize.
  assert (∃ ix, parse_jupiter_swap_instruction (context_data c)
                  (show_account c <$> seq 0 (num_accounts c)) = Ok ix) as [ix Hix].
  { unfold parse_jupiter_swap_instruction. rewrite decide_False by lia.
    destruct (parse_jupiter_instruction_with_idl _ _); by eexists. }
  rewrite Hix. cbn [map_err mbind result_bind].
  assert (jupiter_ok ix) as Hok.
  { eapply parse_jupiter_ok; [|exact Hix]. apply Forall_fmap, Forall_true.
    intros i. by apply show_account_nonempty. }
  destruct (build_rows_ok ([TextRow "Program ID" (show_program_id c)] ++ jupiter_rows ix
              ++ [RawRow (context_data c) None])) as [fields Hf].
  { rewrite !Forall_app. split_and!; [|by apply jupiter_rows_ok|].
    - repeat constructor. apply text_row_ok.
    - repeat constructor. by eexists. }
  unfold create_jupiter_preview_layout, create_jupiter_swap_expanded_fields. rewrite Hf.
  by eexists.
Qed.

(** *** The tokens of the v2 routes *)

(** The v2 routes: whether the output is exact, the arguments that hold the amounts, and the
    positions the IDL gives the two mints. *)
Definition v2_routes : list (string * bool * bool * (string * string) * (nat * nat)) :=
  [("route_v2", false, false, ("in_amount", "quoted_out_amount"), (3, 4));
   ("exact_out_route_v2", true, false, ("quoted_in_amount", "out_amount"), (3, 4));
   ("shared_accounts_route_v2", false, true, ("in_amount", "quoted_out_amount"), (6, 7));
   ("shared_accounts_exact_out_route_v2", true, true, ("quoted_in_amount", "out_amount"), (6, 7))].

(** The four routes, one by one. *)
Ltac route_cases Hin :=
  unfold v2_routes in Hin; rewrite !elem_of_cons, elem_of_nil in Hin;
  let Eq := fresh "Eq" in
  destruct Hin as [Eq|[Eq|[Eq|[Eq|[]]]]];
  pose proof (f_equal (fun r => r.1.1.1.1) Eq); pose proof (f_equal (fun r => r.1.1.1.2) Eq);
  pose proof (f_equal (fun r => r.1.1.2) Eq); pose proof (f_equal (fun r => r.1.2.1) Eq);
  pose proof (f_equal (fun r => r.1.2.2) Eq); pose proof (f_equal (fun r => r.2.1) Eq);
  pose proof (f_equal (fun r => r.2.2) Eq); clear Eq; cbn [fst snd] in *; subst.

Lemma parse_jupiter_v2 data accounts idl parsed e s fields mints :
  load_or "Jupiter IDL not available" "jupiter_swap/jupiter_agg_v6.json" = Ok idl →
  parse_instruction_with_idl data JUPITER_PROGRAM_ID idl = Ok parsed →
  (parser.pd_instruction_name parsed, e, s, fields, mints) ∈ v2_routes →
  parse_jupiter_instruction_with_idl data accounts =
  parse_route_v2 (parser.pd_program_call_args parsed) accounts e s.
Proof.
  intros Hl Hp Hin. unfold parse_jupiter_instruction_with_idl. rewrite Hl.
  cbn [mbind result_bind]. rewrite Hp. cbn [mbind result_bind].
  generalize dependent (parser.pd_instruction_name parsed). intros name Hin.
  destruct fields, mints. route_cases Hin; reflexivity.
Qed.

Lemma parse_route_v2_rows args accounts e s ix x y a b src dst name :
  (name, e, s, (x, y), (src, dst)) ∈ v2_routes →
  parse_route_v2 args accounts e s = Ok ix →
  extract_u64_arg args x = Ok a → extract_u64_arg args y = Ok b →
  ∃ sl p ps, jupiter_rows ix = route_rows true (token_at accounts src a) (token_at accounts dst b) sl p ps.
Proof.
  intros Hin (sl & _ & (p & _ & (ps & _ & Hix)%result_bind_Ok)%result_bind_Ok)%result_bind_Ok Ha Hb.
  exists sl, p, ps. route_cases Hin;
    cbn [mbind result_bind] in Hix; rewrite Ha in Hix; cbn [mbind result_bind] in Hix;
    rewrite Hb in Hix; cbn [mbind result_bind] in Hix; by apply (inj Ok) in Hix as <-.
Qed.

Definition amount_v2 (label amount symbol : string) : SignablePayloadField :=
  AmountV2 (Common (amount +:+ " " +:+ symbol) label) (FieldAmountV2 amount (Some symbol)).

Lemma build_rows_amount l rows label amount symbol :
  build_rows l = Ok rows → AmountRow label amount symbol ∈ l →
  annotate_field (amount_v2 label amount symbol) ∈ rows.
Proof.
  unfold build_rows. rewrite collect_results_Ok. induction 1 as [|r f l rows Hr _ IH]; [set_solver|].
  intros [<-|Hin]%elem_of_cons; [|right; by apply IH].
  apply result_bind_Ok in Hr as (b & _ & Hr). destruct (is_empty_string symbol); [done|].
  apply (inj Ok) in Hr as <-. left.
Qed.

Lemma jupiter_field_rows c f :
  jupiter_swap_visualize c = Ok f →
  ∃ ix rows, parse_jupiter_swap_instruction (context_data c)
               (show_account c <$> seq 0 (num_accounts c)) = Ok ix ∧
    build_rows ([TextRow "Program ID" (show_program_id c)] ++ jupiter_rows ix
                ++ [RawRow (context_data c) None]) = Ok rows ∧
    expanded_rows f = signable_payload_field <$> rows.
Proof.
  intros (ix & Hix%map_err_Ok & (cs & _ & (rows & Hr%map_err_Ok & Hf)%result_bind_Ok)
    %result_bind_Ok)%result_bind_Ok.
  exists ix, rows. split; [done|]. split; [done|]. by apply (inj Ok) in Hf as <-.
Qed.

(** A v2 route shows the two mints of the swap, at the positions the IDL has them, and beside each
    the amount the instruction names for it: the input and the quoted output, or the quoted input
    and the exact output. *)
Theorem jupiter_v2_tokens_shown c f idl parsed e s x y src dst a b ix :
  let accounts := show_account c <$> seq 0 (num_accounts c) in
  let args := parser.pd_program_call_args parsed in
  load_or "Jupiter IDL not available" "jupiter_swap/jupiter_agg_v6.json" = Ok idl →
  parse_instruction_with_idl (context_data c) JUPITER_PROGRAM_ID idl = Ok parsed →
  (parser.pd_instruction_name parsed, e, s, (x, y), (src, dst)) ∈ v2_routes →
  parse_route_v2 args accounts e s = Ok ix →
  extract_u64_arg args x = Ok a → extract_u64_arg args y = Ok b →
  dst < num_accounts c → jupiter_swap_visualize c = Ok f →
  text_v2 "Input Token Address" (show_account c src) ∈ expanded_rows f ∧
  text_v2 "Output Token Address" (show_account c dst) ∈ expanded_rows f ∧
  amount_v2 "Input Amount" (show_Z a) (st_symbol (get_token_info (show_account c src) a))
    ∈ expanded_rows f ∧
  amount_v2 "Quoted Output Amount" (show_Z b) (st_symbol (get_token_info (show_account c dst) b))
    ∈ expanded_rows f.
Proof.
  intros accounts args Hl Hp Hin Hv Ha Hb Hd Hf.
  destruct (jupiter_field_rows c f Hf) as (ix' & rows & Hix & Hrows & ->).
  assert (ix' = ix) as ->.
  { unfold parse_jupiter_swap_instruction in Hix. case_decide; [done|].
    rewrite (parse_jupiter_v2 _ _ _ _ _ _ _ _ Hl Hp Hin) in Hix. fold args accounts in Hix.
    rewrite Hv in Hix. by apply (inj Ok) in Hix. }
  destruct (parse_route_v2_rows _ _ _ _ _ _ _ _ _ _ _ _ Hin Hv Ha Hb) as (sl & p & ps & Hjr).
  assert (∀ i amount, i ≤ dst → token_at accounts i amount
            = Some (get_token_info (show_account c i) amount)) as Htok.
  { intros i amount Hi. unfold token_at, accounts. rewrite list_lookup_fmap, lookup_seq_lt by lia.
    done. }
  assert (src ≤ dst) as Hsd.
  { generalize dependent (parser.pd_instruction_name parsed). clear. intros name Hin.
    route_cases Hin; lia. }
  rewrite Hjr in Hrows. unfold route_rows in Hrows. rewrite !Htok in Hrows by lia.
  assert (∀ address n, st_address (get_token_info address n) = address ∧
                       st_amount (get_token_info address n) = n) as Hst.
  { intros address n. unfold get_token_info. by destruct (_ !! address). }
  assert (∀ fld, annotate_field fld ∈ rows → fld ∈ signable_payload_field <$> rows) as Hfld.
  { intros fld Hfld. apply list_elem_of_fmap. by exists (annotate_field fld). }
  cbn [token_rows] in Hrows. rewrite !(proj1 (Hst _ _)), !(proj2 (Hst _ _)) in Hrows.
  split_and!; apply Hfld;
    first [eapply build_rows_in; [exact Hrows|] | eapply build_rows_amount; [exact Hrows|]];
    rewrite !elem_of_app, !elem_of_cons; naive_solver.
Qed.

(** The amounts are numbers of base units, whatever the decimals of the token. *)
Lemma jupiter_amount_base_units :
  let usdc := get_token_info "EPjFWdd5AufqSSqeM2qN1xzybapC8G4wEGGkZwyTDt1v" 1000000 in
  st_human_readable_amount usdc = "1" ∧
  AmountRow "Input Amount" "1000000" "USDC" ∈ token_rows "Input" "Input Amount" true (Some usdc).
Proof. split; [by vm_compute|]. right. left. Qed.
End properties.

(** ** Samples *)

Definition sample_route : parser.SolanaParsedInstructionData :=
  parser.MkParsedData "route_v2" "bb64facc31c4af14" ∅
    [("in_amount", JNumber 20); ("platform_fee_bps", JNumber 0); ("positive_slippage_bps", JNumber 0);
     ("quoted_out_amount", JNumber 15); ("slippage_bps", JNumber 50)] parser.SourcePreset "".

Definition route_decoder : @IdlDecoder sample_idls sample_crate :=
  Build_IdlDecoder sample_idls sample_crate (fun _ => []) (fun _ _ _ => Ok sample_route)
    (fun file => file).

Definition sample_route_call : VisualizerContext :=
  VisualizerContext_new (MkSolanaAccount "" false false)
    (MkCompiledInstruction 0 [1; 1; 1; 1; 2] (replicate 8 Byte.x00))
    [replicate 32 Byte.x00; replicate 32 Byte.x01; replicate 32 Byte.x02] 0.

Lemma sample_route_wf : context_wf sample_route_call.
Proof. by repeat constructor. Qed.

Lemma jupiter_swap_total_witness :
  ∃ f, jupiter_swap_visualize (E:=derivative_engine) (H:=hex_ref) (K:=hex_sdk) (R:=route_decoder)
         sample_route_call = Ok f.
Proof.
  apply (jupiter_swap_total (E:=derivative_engine) (H:=hex_ref) (K:=hex_sdk) (R:=route_decoder)).
  - apply sample_route_wf.
  - cbn. lia.
Defined.

Lemma jupiter_v2_tokens_shown_witness :
  ∃ f, jupiter_swap_visualize (E:=derivative_engine) (H:=hex_ref) (K:=hex_sdk) (R:=route_decoder)
         sample_route_call = Ok f ∧
    text_v2 "Output Token Address" (hex_of_bytes (replicate 32 Byte.x02)) ∈ expanded_rows f.
Proof.
  assert (is_ok (jupiter_swap_visualize (E:=derivative_engine) (H:=hex_ref) (K:=hex_sdk)
    (R:=route_decoder) sample_route_call) = true) as Hok by (vm_compute; reflexivity).
  destruct (jupiter_swap_visualize sample_route_call) as [f|] eqn:Hf; [|discriminate Hok].
  exists f. split; [done|].
  eapply (jupiter_v2_tokens_shown (E:=derivative_engine) (H:=hex_ref) (K:=hex_sdk)
    (R:=route_decoder) sample_route_call f "jupiter_swap/jupiter_agg_v6.json" sample_route
    false false "in_amount" "quoted_out_amount" 3 4 20 15);
    [reflexivity|reflexivity|left|reflexivity|reflexivity|reflexivity|cbn; lia|exact Hf].
Defined.
