(* ===== verification/SolanaSquads.v ===== *)
(** * Solana: Squads multisig

    The preset [squads_multisig] of [chain_parsers/visualsign-solana]. A [vaultTransactionCreate]
    carries a whole transaction message; the preset decodes it, rebuilds its instructions and
    passes them to the visualizers of the crate, itself included, one level deeper. *)

From S2P Require Import Prelude Json Payload Errors Charset External Encodings DecimalText Builders.
From S2P Require Import Registry PlainText Panic.
From S2P Require Import SolanaCore SolanaIdl SolanaParserCrate SolanaPrograms SolanaIdlPresets.
From S2P Require Import SwigDecode.

#[local] Unset Program Cases.

(** ** The wire format of the message *)

Record MultisigCompiledInstruction := MkMultisigIx {
  mi_program_id_index : nat;
  mi_account_indexes : list nat;
  mi_data : bytes;
}.

Record VaultTransactionMessage := MkVaultMessage {
  vm_num_signers : nat;
  vm_num_writable_signers : nat;
  vm_num_writable_non_signers : nat;
  vm_account_keys : list Pubkey;
  vm_instructions : list MultisigCompiledInstruction;
}.

(** The closures of [deserialize] read at a position; here they take and return the data from
    the position on. *)
Definition unexpected_end : string := "unexpected end of data".

Definition read_u8 (buf : bytes) : result string (nat * bytes) :=
  match buf with b :: rest => Ok (byte_index b, rest) | [] => Err unexpected_end end.

Definition read_bytes (len : nat) (buf : bytes) : result string (bytes * bytes) :=
  if decide (length buf < len) then Err unexpected_end else Ok (take len buf, drop len buf).

Definition read_u16_le (buf : bytes) : result string (nat * bytes) :=
  '(bs, rest) ← read_bytes 2 buf;
  Ok (Z.to_nat (le_val bs), rest).

(** A [for _ in 0..n] loop that pushes what it reads. *)
Fixpoint read_many {A} (read : bytes → result string (A * bytes)) (n : nat) (buf : bytes)
    : result string (list A * bytes) :=
  match n with
  | O => Ok ([], buf)
  | S n =>
      '(x, rest) ← read buf;
      '(xs, rest) ← read_many read n rest;
      Ok (x :: xs, rest)
  end.

(** A byte that counts what follows. *)
Definition read_counted {A} (read : bytes → result string (A * bytes)) (buf : bytes)
    : result string (list A * bytes) :=
  '(n, rest) ← read_u8 buf;
  read_many read n rest.

Definition read_indexes (buf : bytes) : result string (list nat * bytes) :=
  '(n, rest) ← read_u8 buf;
  '(bs, rest) ← read_bytes n rest;
  Ok (byte_index <$> (bs : list byte), rest).

Definition read_instruction (buf : bytes) : result string (MultisigCompiledInstruction * bytes) :=
  '(program_id_index, rest) ← read_u8 buf;
  '(account_indexes, rest) ← read_indexes rest;
  '(data_len, rest) ← read_u16_le rest;
  '(data, rest) ← read_bytes data_len rest;
  Ok (MkMultisigIx program_id_index account_indexes data, rest).

(** A table lookup: its key, and the indexes it loads as writable and as read-only. *)
Definition read_lookup (buf : bytes) : result string ((bytes * list nat * list nat) * bytes) :=
  '(account_key, rest) ← read_bytes 32 buf;
  '(writable_indexes, rest) ← read_indexes rest;
  '(readonly_indexes, rest) ← read_indexes rest;
  Ok ((account_key, writable_indexes, readonly_indexes), rest).

Definition vault_message_deserialize (data : bytes) : result string VaultTransactionMessage :=
  '(num_signers, rest) ← read_u8 data;
  '(num_writable_signers, rest) ← read_u8 rest;
  '(num_writable_non_signers, rest) ← read_u8 rest;
  '(account_keys, rest) ← read_counted (read_bytes 32) rest;
  '(instructions, rest) ← read_counted read_instruction rest;
  '(_, rest) ← read_counted read_lookup rest;
  if decide (rest = []) then
    Ok (MkVaultMessage num_signers num_writable_signers num_writable_non_signers account_keys
          instructions)
  else
    Err ("trailing bytes after VaultTransactionMessage: pos="
         +:+ show_nat (length data - length rest) +:+ ", len=" +:+ show_nat (length data)).

(** *** Its inverse *)

(** A reader of [A] against the way [A] is written. *)
Record reads {A} (read : bytes → result string (A * bytes)) (enc : A → bytes) (wf : A → Prop) : Prop := {
  reads_sound buf x rest : read buf = Ok (x, rest) → wf x ∧ buf = enc x ++ rest;
  reads_complete x rest : wf x → read (enc x ++ rest) = Ok (x, rest);
}.
Arguments reads_sound {A read enc wf}. Arguments reads_complete {A read enc wf}.

Definition enc_u8 (n : nat) : bytes := [len_byte n].
Definition enc_u16 (n : nat) : bytes := le_bytes 2 (Z.of_nat n).
Definition enc_counted {A} (enc : A → bytes) (l : list A) : bytes := enc_u8 (length l) ++ mjoin (enc <$> l).

Definition enc_instruction (i : MultisigCompiledInstruction) : bytes :=
  enc_u8 (mi_program_id_index i) ++ enc_counted enc_u8 (mi_account_indexes i)
  ++ enc_u16 (length (mi_data i)) ++ mi_data i.

Definition enc_lookup (l : bytes * list nat * list nat) : bytes :=
  l.1.1 ++ enc_counted enc_u8 l.1.2 ++ enc_counted enc_u8 l.2.

Definition enc_vault_message (m : VaultTransactionMessage) (lookups : list (bytes * list nat * list nat))
    : bytes :=
  enc_u8 (vm_num_signers m) ++ enc_u8 (vm_num_writable_signers m)
  ++ enc_u8 (vm_num_writable_non_signers m)
  ++ enc_counted id (vm_account_keys m) ++ enc_counted enc_instruction (vm_instructions m)
  ++ enc_counted enc_lookup lookups.

Definition is_u8 (n : nat) : Prop := n < 256.
Definition is_key (k : bytes) : Prop := length k = 32.
Definition counted_wf {A} (wf : A → Prop) (l : list A) : Prop := is_u8 (length l) ∧ Forall wf l.

Definition instruction_wf (i : MultisigCompiledInstruction) : Prop :=
  is_u8 (mi_program_id_index i) ∧ counted_wf is_u8 (mi_account_indexes i) ∧
  (Z.of_nat (length (mi_data i)) < 65536)%Z.

Definition lookup_wf (l : bytes * list nat * list nat) : Prop :=
  is_key l.1.1 ∧ counted_wf is_u8 l.1.2 ∧ counted_wf is_u8 l.2.

Definition vault_message_wf (m : VaultTransactionMessage) : Prop :=
  is_u8 (vm_num_signers m) ∧ is_u8 (vm_num_writable_signers m) ∧
  is_u8 (vm_num_writable_non_signers m) ∧ counted_wf is_key (vm_account_keys m) ∧
  counted_wf instruction_wf (vm_instructions m).

Lemma reads_u8 : reads read_u8 enc_u8 is_u8.
Proof.
  split.
  - intros [|b buf] x rest; [done|]. cbn. intros Eq%(inj Ok).
    assert (byte_index b = x ∧ buf = rest) as [<- <-] by (split; congruence).
    split; [apply byte_index_range|]. unfold enc_u8. by rewrite len_byte_index.
  - intros x rest Hx. cbn. by rewrite byte_index_len.
Qed.

Lemma read_bytes_Ok n buf bs rest :
  read_bytes n buf = Ok (bs, rest) ↔ length bs = n ∧ buf = bs ++ rest.
Proof.
  unfold read_bytes. split.
  - case_decide; [done|]. intros Eq%(inj Ok).
    assert (take n buf = bs ∧ drop n buf = rest) as [<- <-] by (split; congruence).
    split; [apply length_take_le; lia|by rewrite take_drop].
  - intros [<- ->]. rewrite decide_False by (rewrite length_app; lia).
    by rewrite take_app_length, drop_app_length.
Qed.

Lemma reads_key : reads (read_bytes 32) id is_key.
Proof. split; [by intros ??? []%read_bytes_Ok|]. intros x rest Hx. by apply read_bytes_Ok. Qed.

Lemma reads_many {A} (read : bytes → result string (A * bytes)) enc wf :
  reads read enc wf →
  ∀ n buf xs rest, read_many read n buf = Ok (xs, rest) ↔
    length xs = n ∧ Forall wf xs ∧ buf = mjoin (enc <$> xs) ++ rest.
Proof.
  intros Hr n. induction n as [|n IH]; intros buf xs rest; cbn [read_many].
  - split.
    + intros Eq%(inj Ok). assert ([] = xs ∧ buf = rest) as [<- <-] by (split; congruence). done.
    + intros (Hl & _ & ->). by destruct xs.
  - rewrite result_bind_Ok. split.
    + intros ([x r] & Hx & ([xs' r'] & (Hl & Hwf & Hr')%IH & Eq)%result_bind_Ok).
      apply (inj Ok) in Eq. assert (x :: xs' = xs ∧ r' = rest) as [<- <-] by (split; congruence).
      apply (reads_sound Hr) in Hx as [Hw ->]. cbn. split; [lia|]. split; [by constructor|].
      by rewrite Hr', app_assoc.
    + intros (Hl & Hwf & ->). destruct xs as [|x xs]; [done|].
      apply Forall_cons in Hwf as [Hx Hxs]. exists (x, mjoin (enc <$> xs) ++ rest).
      cbn. rewrite <- app_assoc.
      split; [by apply (reads_complete Hr)|].
      rewrite (proj2 (IH _ xs rest)); [done|]. cbn in Hl. split; [lia|done].
Qed.

Lemma reads_counted {A} (read : bytes → result string (A * bytes)) enc wf :
  reads read enc wf → reads (read_counted read) (enc_counted enc) (counted_wf wf).
Proof.
  intros Hr. split.
  - intros buf xs rest ([n r] & Hn & (Hl & Hwf & Hb)%(reads_many _ _ _ Hr))%result_bind_Ok.
    apply (reads_sound reads_u8) in Hn as [Hn ->]. subst n. split; [done|].
    unfold enc_counted. by rewrite Hb, app_assoc.
  - intros xs rest [Hn Hwf]. unfold read_counted, enc_counted. rewrite <- app_assoc.
    rewrite (reads_complete reads_u8) by done. cbn [mbind result_bind].
    by apply (reads_many _ _ _ Hr).
Qed.

Lemma join_cons {A} (x : list A) l : mjoin (x :: l) = x ++ mjoin l.
Proof. reflexivity. Qed.

Lemma enc_indexes (bs : bytes) : mjoin (enc_u8 <$> (byte_index <$> bs)) = bs.
Proof.
  induction bs as [|b bs IH]; [done|]. rewrite !fmap_cons, join_cons, IH. unfold enc_u8.
  by rewrite len_byte_index.
Qed.

Lemma indexes_of (l : list nat) : Forall is_u8 l → byte_index <$> (len_byte <$> l) = l.
Proof. induction 1 as [|n l Hn _ IH]; [done|]. rewrite !fmap_cons. by rewrite byte_index_len, IH. Qed.

Lemma enc_indexes_of (l : list nat) : mjoin (enc_u8 <$> l) = len_byte <$> l.
Proof. induction l as [|n l IH]; [done|]. by rewrite !fmap_cons, join_cons, IH. Qed.

Lemma reads_indexes : reads read_indexes (enc_counted enc_u8) (counted_wf is_u8).
Proof.
  split.
  - intros buf xs rest ([n r] & Hn & ([bs r'] & [Hl ->]%read_bytes_Ok & Eq)%result_bind_Ok)%result_bind_Ok.
    apply (inj Ok) in Eq. assert (byte_index <$> bs = xs ∧ r' = rest) as [<- <-]
      by (split; congruence).
    apply (reads_sound reads_u8) in Hn as [Hn ->]. subst n. split.
    + split; [by rewrite length_fmap|]. apply Forall_fmap, Forall_true, byte_index_range.
    + unfold enc_counted. by rewrite length_fmap, enc_indexes, app_assoc.
  - intros xs rest [Hn Hwf]. unfold read_indexes, enc_counted. rewrite <- app_assoc.
    rewrite (reads_complete reads_u8) by done. cbn [mbind result_bind]. rewrite enc_indexes_of.
    rewrite (proj2 (read_bytes_Ok (length xs) _ (len_byte <$> xs) rest)) by (by rewrite length_fmap).
    cbn [mbind result_bind]. by rewrite indexes_of.
Qed.

Lemma read_u16_Ok buf n rest :
  read_u16_le buf = Ok (n, rest) ↔ (Z.of_nat n < 65536)%Z ∧ buf = enc_u16 n ++ rest.
Proof.
  unfold read_u16_le, enc_u16. rewrite result_bind_Ok. split.
  - intros ([bs r] & [Hl ->]%read_bytes_Ok & Eq%(inj Ok)).
    assert (Z.to_nat (le_val bs) = n ∧ r = rest) as [<- <-] by (split; congruence).
    pose proof (le_val_range bs) as Hr. rewrite Hl in Hr. rewrite Z2Nat.id by lia.
    split; [change (256 ^ Z.of_nat 2)%Z with 65536%Z in Hr; lia|].
    rewrite <- Hl. by rewrite le_bytes_le_val.
  - intros [Hn ->]. eexists (_, _). rewrite read_bytes_Ok, length_le_bytes.
    split; [split; reflexivity|]. rewrite le_val_le_bytes, Z.mod_small, Nat2Z.id; [done|].
    change (256 ^ Z.of_nat 2)%Z with 65536%Z. lia.
Qed.

Lemma reads_instruction : reads read_instruction enc_instruction instruction_wf.
Proof.
  split.
  - intros buf x rest ([p r1] & [Hp ->]%(reads_sound reads_u8) & ([ixs r2] &
      [Hi ->]%(reads_sound reads_indexes) & ([n r3] & [Hn ->]%read_u16_Ok & ([d r4] &
      [Hd ->]%read_bytes_Ok & Eq)%result_bind_Ok)%result_bind_Ok)%result_bind_Ok)%result_bind_Ok.
    apply (inj Ok) in Eq. assert (MkMultisigIx p ixs d = x ∧ r4 = rest) as [<- <-]
      by (split; congruence).
    subst n. split; [done|]. unfold enc_instruction. cbn. by rewrite <- !app_assoc.
  - intros [p ixs d] rest (Hp & Hi & Hd). unfold read_instruction, enc_instruction.
    cbn [mi_program_id_index mi_account_indexes mi_data] in *. rewrite <- !app_assoc.
    rewrite (reads_complete reads_u8) by done. cbn [mbind result_bind].
    rewrite (reads_complete reads_indexes) by done. cbn [mbind result_bind].
    rewrite (proj2 (read_u16_Ok _ (length d) (d ++ rest))) by done. cbn [mbind result_bind].
    by rewrite (proj2 (read_bytes_Ok (length d) _ d rest)).
Qed.

Lemma reads_lookup : reads read_lookup enc_lookup lookup_wf.
Proof.
  split.
  - intros buf x rest ([k r1] & [Hk ->]%(reads_sound reads_key) & ([w r2] &
      [Hw ->]%(reads_sound reads_indexes) & ([ro r3] & [Hr ->]%(reads_sound reads_indexes) &
      Eq)%result_bind_Ok)%result_bind_Ok)%result_bind_Ok.
    apply (inj Ok) in Eq. assert ((k, w, ro) = x ∧ r3 = rest) as [<- <-] by (split; congruence).
    split; [done|]. unfold enc_lookup. cbn [fst snd]. by rewrite <- !app_assoc.
  - intros [[k w] ro] rest (Hk & Hw & Hr). unfold read_lookup, enc_lookup. cbn [fst snd] in *.
    rewrite <- !app_assoc. change (k ++ ?r) with (id k ++ r).
    rewrite (reads_complete reads_key k) by done. cbn [mbind result_bind].
    rewrite (reads_complete reads_indexes) by done. cbn [mbind result_bind].
    by rewrite (reads_complete reads_indexes).
Qed.

Lemma vault_message_sound data m :
  vault_message_deserialize data = Ok m →
  vault_message_wf m ∧ ∃ lookups, counted_wf lookup_wf lookups ∧ data = enc_vault_message m lookups.
Proof.
  unfold vault_message_deserialize.
  intros ([s r1] & [Hs ->]%(reads_sound reads_u8) & ([ws r2] & [Hws ->]%(reads_sound reads_u8) &
    ([wn r3] & [Hwn ->]%(reads_sound reads_u8) & ([ks r4] &
    [Hks ->]%(reads_sound (reads_counted _ _ _ reads_key)) & ([ixs r5] &
    [His ->]%(reads_sound (reads_counted _ _ _ reads_instruction)) & ([ls r6] &
    [Hls ->]%(reads_sound (reads_counted _ _ _ reads_lookup)) & Eq)%result_bind_Ok)
    %result_bind_Ok)%result_bind_Ok)%result_bind_Ok)%result_bind_Ok)%result_bind_Ok.
  case_decide as Hr; [|done]. subst r6. apply (inj Ok) in Eq as <-.
  split; [done|]. exists ls. split; [done|]. unfold enc_vault_message. cbn. by rewrite app_nil_r.
Qed.

(** C22: The messages the decoder accepts are exactly the ones written in the format, to their last
    byte: no prefix of a message, and no message with bytes behind it, is taken for one. *)
Theorem vault_message_exact data m :
  vault_message_deserialize data = Ok m ↔
  vault_message_wf m ∧ ∃ lookups, counted_wf lookup_wf lookups ∧ data = enc_vault_message m lookups.
Proof.
  split; [apply vault_message_sound|]. unfold vault_message_deserialize.
  intros [(Hs & Hws & Hwn & Hks & His) (ls & Hls & ->)]. unfold enc_vault_message.
  destruct m as [s ws wn ks ixs]. cbn [vm_num_signers vm_num_writable_signers
    vm_num_writable_non_signers vm_account_keys vm_instructions] in *.
  rewrite (reads_complete reads_u8) by done. cbn [mbind result_bind].
  rewrite (reads_complete reads_u8) by done. cbn [mbind result_bind].
  rewrite (reads_complete reads_u8) by done. cbn [mbind result_bind].
  rewrite (reads_complete (reads_counted _ _ _ reads_key)) by done. cbn [mbind result_bind].
  rewrite (reads_complete (reads_counted _ _ _ reads_instruction)) by done.
  cbn [mbind result_bind].
  rewrite <- (app_nil_r (enc_counted enc_lookup ls)).
  rewrite (reads_complete (reads_counted _ _ _ reads_lookup)) by done. done.
Qed.

(** ** The instructions of the message *)

Definition vault_account_meta (m : VaultTransactionMessage) (idx : nat) : option AccountMeta :=
  pubkey ← vm_account_keys m !! idx;
  let is_signer := bool_decide (idx < vm_num_signers m) in
  let is_writable :=
    if is_signer then bool_decide (idx < vm_num_writable_signers m)
    else bool_decide (idx - vm_num_signers m < vm_num_writable_non_signers m) in
  Some (if is_writable then AccountMeta_new pubkey is_signer
        else AccountMeta_new_readonly pubkey is_signer).

Definition reconstruct_one (m : VaultTransactionMessage) (ci : MultisigCompiledInstruction)
    : result string Instruction :=
  match vm_account_keys m !! mi_program_id_index ci with
  | None => Err "program_id index out of range (likely an ALT-resolved key)"
  | Some pid =>
      accounts ← collect_results
        (fun i => ok_or "inner-instruction account index out of range (likely an ALT-resolved key)"
                    (vault_account_meta m i)) (mi_account_indexes ci);
      Ok (MkInstruction pid accounts (mi_data ci))
  end.

Definition reconstruct_instructions (m : VaultTransactionMessage) : result string (list Instruction) :=
  let num_keys := length (vm_account_keys m) in
  if decide (vm_num_signers m < vm_num_writable_signers m) then
    Err "num_writable_signers > num_signers"
  else if decide (num_keys < vm_num_signers m) then Err "num_signers > account_keys.len()"
  else if decide (num_keys - vm_num_signers m < vm_num_writable_non_signers m) then
    Err "num_writable_non_signers > non-signer slots"
  else collect_results (reconstruct_one m) (vm_instructions m).

(** ** The preset *)

(** [Pubkey::find_program_address], without the bump. *)
Class ProgramAddresses : Type := {
  find_program_address : list bytes → Pubkey → Pubkey;
  find_program_address_key seeds program : length (find_program_address seeds program) = 32;
}.

Definition SQUADS_MULTISIG_PROGRAM_ID : string := "SQDS4ep65T869zMMBKyuUq6aD6EgTu8psMjkvj52pCf".

Section squads.
Context {E : RegexEngine} {H : HexCodec} {K : SolanaSdk} {F : JsonFormat} {A : ProgramAddresses}.
Context {P : SolanaIdls} {Q : SolanaParser} {R : IdlDecoder}.

Definition vault_pda_account (named_accounts : list (string * string)) (vault_index : nat)
    : option SolanaAccount :=
  multisig_str ← assoc "multisig" named_accounts;
  multisig ← pubkey_from_str multisig_str;
  pid ← pubkey_from_str SQUADS_MULTISIG_PROGRAM_ID;
  let vault_pda :=
    find_program_address
      [as_bytes "multisig"; multisig; as_bytes "vault"; enc_u8 vault_index] pid in
  Some (MkSolanaAccount (show_pubkey vault_pda) true false).

Definition parse_squads_instruction (data : bytes) (accounts : list AccountMeta)
    : result string (parser.SolanaParsedInstructionData * list (string * string)) :=
  '(idl, parsed) ← parse_bundled 8 "Invalid instruction data length"
                     (load_or "Squads Multisig IDL not available"
                        "squads_multisig/squads_multisig_program.json")
                     SQUADS_MULTISIG_PROGRAM_ID data;
  Ok (parsed, build_named_accounts (has_prefix data) idl (meta_keys accounts)).

(** The visualizers of the crate, and its registry. *)
Context (visualizers : list InstructionVisualizer) (idl_registry : IdlRegistry).

(** The context of an inner instruction: its program first, then its accounts. *)
Definition inner_call_context (sender : SolanaAccount) (child_depth idx : nat) (ix : Instruction)
    : VisualizerContext :=
  with_call_depth child_depth
    (VisualizerContext_new sender
       (MkCompiledInstruction 0 (seq 1 (length (ix_accounts ix))) (ix_data ix))
       (ix_program_id ix :: (meta_pubkey <$> ix_accounts ix)) idx).

Definition visualize_inner (sender : SolanaAccount) (child_depth : nat) (e : nat * Instruction)
    : result VisualSignError AnnotatedPayloadField :=
  let '(idx, ix) := e in
  if decide (255 < length (ix_accounts ix)) then
    create_text_field ("Inner Instruction " +:+ show_nat (idx + 1))
      "<unrenderable: too many accounts to index>"
  else
    let inner := inner_call_context sender child_depth idx ix in
    match visualize_with_any visualizers inner with
    | Some (Ok r) => Ok (vr_field r)
    | Some (Err _) | None => unknown_program_visualize idl_registry inner
    end.

Definition visualize_inner_instructions (inner_instructions : list Instruction)
    (c : VisualizerContext) (inner_sender_override : option SolanaAccount)
    : result VisualSignError (list AnnotatedPayloadField) :=
  if decide (MAX_CALL_DEPTH ≤ call_depth c) then
    f ← create_text_field "Inner Instructions"
          "<truncated: maximum nested-instruction visualization depth reached>";
    Ok [f]
  else
    let owned_sender :=
      default (MkSolanaAccount (account_key (sender c)) false false) inner_sender_override in
    collect_results (visualize_inner owned_sender (saturating_succ (call_depth c)))
      (imap pair inner_instructions).

(** The title, the condensed and the expanded fields. *)
Definition SquadsPreviewFields : Type :=
  string * list AnnotatedPayloadField * list AnnotatedPayloadField.

Definition inner_count_title (n : nat) : string :=
  "Squads Multisig: Vault Transaction (" +:+ show_nat n +:+ " inner instruction(s))".

(** What the arguments of [vaultTransactionCreate] hold, when all of it can be read. *)
Definition vault_transaction_args (parsed : parser.SolanaParsedInstructionData)
    : option (json * VaultTransactionMessage * nat * list Instruction) :=
  args_value ← assoc "args" (parser.pd_program_call_args parsed);
  tx_msg_hex ← json_get "transactionMessage" args_value ≫= json_as_str;
  match hex_decode tx_msg_hex with
  | Err _ => None
  | Ok tx_msg_bytes =>
      match vault_message_deserialize tx_msg_bytes with
      | Err _ => None
      | Ok vault_msg =>
          vault_index ← json_get "vaultIndex" args_value ≫= json_as_u64;
          if decide (vault_index ≤ 255)%Z then
            match reconstruct_instructions vault_msg with
            | Err _ => None
            | Ok inner => Some (args_value, vault_msg, Z.to_nat vault_index, inner)
            end
          else None
      end
  end.

Definition try_build_vault_transaction_fields (parsed : parser.SolanaParsedInstructionData)
    (named_accounts : list (string * string)) (program_id : string) (c : VisualizerContext)
    : result VisualSignError (option SquadsPreviewFields) :=
  match vault_transaction_args parsed with
  | None => Ok None
  | Some (args_value, _, vault_index, inner_instructions) =>
      let inner_sender_account := vault_pda_account named_accounts vault_index in
      inner_fields ← visualize_inner_instructions inner_instructions c inner_sender_account;
      let memo := default "None" (json_get "memo" args_value ≫= json_as_str) in
      let inner_count := length inner_instructions in
      condensed ← build_rows
        [TextRow "Program" "Squads Multisig"; TextRow "Instruction" "vaultTransactionCreate";
         TextRow "Vault Index" (show_nat vault_index);
         TextRow "Inner Instructions" (show_nat inner_count +:+ " instruction(s)")];
      expanded ← build_rows
        ([TextRow "Program ID" program_id; TextRow "Instruction" "vaultTransactionCreate";
          TextRow "Discriminator" (parser.pd_discriminator parsed);
          TextRow "Vault Index" (show_nat vault_index); TextRow "Memo" memo]
         ++ text_rows named_accounts);
      Ok (Some (inner_count_title inner_count, condensed, expanded ++ inner_fields))
  end.

Definition squads_generic_fields (parsed : parser.SolanaParsedInstructionData)
    (named_accounts : list (string * string)) (program_id : string)
    : result VisualSignError SquadsPreviewFields :=
  let name := parser.pd_instruction_name parsed in
  let args := text_rows (arg_entries plain_arg_value (parser.pd_program_call_args parsed)) in
  condensed ← build_rows
    ([TextRow "Program" "Squads Multisig"; TextRow "Instruction" name] ++ args);
  expanded ← build_rows
    ([TextRow "Program ID" program_id; TextRow "Instruction" name;
      TextRow "Discriminator" (parser.pd_discriminator parsed)]
     ++ text_rows named_accounts ++ args);
  Ok ("Squads Multisig: " +:+ name, condensed, expanded).

Definition squads_parsed_fields (parsed : parser.SolanaParsedInstructionData)
    (named_accounts : list (string * string)) (program_id : string) (c : VisualizerContext)
    : result VisualSignError SquadsPreviewFields :=
  vault ← (if decide (parser.pd_instruction_name parsed = "vaultTransactionCreate") then
             try_build_vault_transaction_fields parsed named_accounts program_id c
           else Ok None);
  match vault with
  | Some fields => Ok fields
  | None => squads_generic_fields parsed named_accounts program_id
  end.

Definition squads_fallback_fields (program_id : string)
    : result VisualSignError SquadsPreviewFields :=
  condensed ← build_rows
    [TextRow "Program" "Squads Multisig"; TextRow "Status" "Unknown instruction type"];
  expanded ← build_rows
    [TextRow "Program ID" program_id; TextRow "Status" "Unknown instruction type"];
  Ok ("Squads Multisig: Unknown Instruction", condensed, expanded).

(** [visualize_tx_commands] over the visualizers that inner instructions go to. *)
Definition squads_body (c : VisualizerContext) : result VisualSignError AnnotatedPayloadField :=
  pid ← resolve_program_id c;
  accounts ← resolve_accounts c;
  let program_id_str := show_pubkey pid in
  let data := context_data c in
  '(title, condensed, expanded) ←
    match parse_squads_instruction data accounts with
    | Ok (parsed, named_accounts) => squads_parsed_fields parsed named_accounts program_id_str c
    | Err _ => squads_fallback_fields program_id_str
    end;
  raw ← create_raw_data_field data (Some (hex_encode data));
  Ok (preview_layout_field c (raw_text program_id_str data) title "" condensed (expanded ++ [raw])).
End squads.

(** ** Properties *)

(** *** The instructions a message stands for *)

(** The header of a message fits its keys. *)
Definition header_valid (m : VaultTransactionMessage) : Prop :=
  vm_num_writable_signers m ≤ vm_num_signers m ∧
  vm_num_signers m + vm_num_writable_non_signers m ≤ length (vm_account_keys m).

(** What [solana_sdk] documents of the order of the keys: the signers first, and in each of the two
    groups the writable ones first. *)
Definition meta_at (m : VaultTransactionMessage) (idx : nat) (meta : AccountMeta) : Prop :=
  vm_account_keys m !! idx = Some (meta_pubkey meta) ∧
  (meta_is_signer meta = true ↔ idx < vm_num_signers m) ∧
  (meta_is_writable meta = true ↔
     idx < vm_num_writable_signers m ∨
     vm_num_signers m ≤ idx < vm_num_signers m + vm_num_writable_non_signers m).

Lemma vault_account_meta_eq m idx :
  header_valid m →
  vault_account_meta m idx =
  (fun pk => MkAccountMeta pk (bool_decide (idx < vm_num_signers m))
     (bool_decide (idx < vm_num_writable_signers m ∨
        vm_num_signers m ≤ idx < vm_num_signers m + vm_num_writable_non_signers m)))
    <$> vm_account_keys m !! idx.
Proof.
  intros [Hw _]. unfold vault_account_meta. destruct (vm_account_keys m !! idx) as [pk|]; [|done].
  cbn. repeat case_bool_decide; try lia; done.
Qed.

Lemma bool_iff (b : bool) (X : Prop) `{!Decision X} : (b = true ↔ X) ↔ b = bool_decide X.
Proof. case_bool_decide; destruct b; naive_solver. Qed.

Lemma vault_account_meta_at m idx meta :
  header_valid m → vault_account_meta m idx = Some meta ↔ meta_at m idx meta.
Proof.
  intros Hh. rewrite vault_account_meta_eq, fmap_Some by done. unfold meta_at.
  rewrite !bool_iff. destruct meta as [pk' sg wr]. cbn. split.
  - intros (pk & Hpk & Eq). rewrite Hpk. by injection Eq as -> -> ->.
  - intros (Hpk & -> & ->). by exists pk'.
Qed.

(** The instruction that a compiled one stands for. *)
Definition stands_for (m : VaultTransactionMessage) (ci : MultisigCompiledInstruction)
    (ix : Instruction) : Prop :=
  vm_account_keys m !! mi_program_id_index ci = Some (ix_program_id ix) ∧
  Forall2 (meta_at m) (mi_account_indexes ci) (ix_accounts ix) ∧ ix_data ix = mi_data ci.

Lemma reconstruct_one_Ok m ci ix :
  header_valid m → reconstruct_one m ci = Ok ix ↔ stands_for m ci ix.
Proof.
  intros Hh. unfold reconstruct_one, stands_for.
  assert (∀ accounts, collect_results (fun i => ok_or "inner-instruction account index out of range (likely an ALT-resolved key)"
      (vault_account_meta m i)) (mi_account_indexes ci) = Ok accounts ↔
    Forall2 (meta_at m) (mi_account_indexes ci) accounts) as Hacc.
  { intros accounts. rewrite collect_results_Ok. split; intros Hf;
      (eapply Forall2_impl; [exact Hf|]); intros i meta; by rewrite ok_or_Ok, vault_account_meta_at. }
  destruct (vm_account_keys m !! _) as [pid|]; [|split; [done|by intros [? _]]].
  rewrite result_bind_Ok. setoid_rewrite Hacc. split.
  - intros (accounts & Ha & Eq%(inj Ok)). by subst ix.
  - intros (Hp & Ha & Hd). apply (inj Some) in Hp as ->. exists (ix_accounts ix).
    split; [done|]. rewrite <- Hd. by destruct ix.
Qed.

(** The instructions are rebuilt exactly when the header fits the keys and every index is in
    range; each then has the program, the accounts and the data it was compiled from, and an
    account is a signer and writable as the order of the keys says. *)
Theorem reconstruct_exact m ixs :
  reconstruct_instructions m = Ok ixs ↔
  header_valid m ∧ Forall2 (stands_for m) (vm_instructions m) ixs.
Proof.
  unfold reconstruct_instructions.
  destruct (decide (header_valid m)) as [Hh|Hh].
  - pose proof Hh as [Hw Hk]. rewrite !decide_False by lia. rewrite collect_results_Ok.
    split; [intros Hf; split; [done|]|intros [_ Hf]]; (eapply Forall2_impl; [exact Hf|]);
      intros ci ix; by apply reconstruct_one_Ok.
  - split; [|by intros [? _]]. repeat case_decide; [done..|].
    destruct Hh. unfold header_valid. lia.
Qed.

(** *** The inner instructions are shown *)

Section shown.
Context {E : RegexEngine} {H : HexCodec} {K : SolanaSdk} {F : JsonFormat} {A : ProgramAddresses}.
Context {P : SolanaIdls} {Q : SolanaParser} {R : IdlDecoder}.

(** The body only uses its visualizers one level deeper, and not at all at the bound. *)
Lemma squads_body_ext vs vs' r c :
  (call_depth c < MAX_CALL_DEPTH → ∀ c', call_depth c' = S (call_depth c) →
     visualize_with_any vs c' = visualize_with_any vs' c') →
  squads_body vs r c = squads_body vs' r c.
Proof.
  intros Hvs. unfold squads_body.
  destruct (resolve_program_id c) as [pid|]; [|done]. cbn [mbind result_bind].
  destruct (resolve_accounts c) as [accounts|]; [|done]. cbn [mbind result_bind].
  destruct (parse_squads_instruction _ accounts) as [[parsed named]|]; [|done].
  unfold squads_parsed_fields. case_decide; [|done].
  unfold try_build_vault_transaction_fields.
  destruct (vault_transaction_args parsed) as [[[[args msg] vi] inner]|]; [|done].
  assert (visualize_inner_instructions vs r inner c (vault_pda_account named vi) =
          visualize_inner_instructions vs' r inner c (vault_pda_account named vi)) as ->; [|done].
  unfold visualize_inner_instructions. case_decide as Hd; [done|].
  apply collect_results_ext, Forall_true. intros [idx ix]. unfold visualize_inner. case_decide; [done|].
  rewrite Hvs; [done|lia|]. unfold inner_call_context, with_call_depth, saturating_succ.
  cbn [call_depth]. rewrite decide_True; [done|]. unfold MAX_CALL_DEPTH in Hd. lia.
Qed.

#[export] Instance squads_shows vs r : ShowsCalls (squads_body vs r).
Proof.
  intros c f _ (pid & Hp & (accounts & _ & ([[title cs] es] & _ & (raw & _ & Hf)%result_bind_Ok)
    %result_bind_Ok)%result_bind_Ok)%result_bind_Ok.
  apply (inj Ok) in Hf as <-. rewrite <- (resolve_program_shown c pid Hp).
  eexists _, _. split; [reflexivity|]. by left.
Qed.

Lemma with_any_member vs c res :
  visualize_with_any vs c = Some (Ok res) →
  ∃ v, v ∈ vs ∧ visualize_tx_commands v c = Ok (vr_field res).
Proof.
  induction vs as [|v vs IH]; cbn; [done|]. destruct (can_handle v c).
  - intros Eq%(inj Some). destruct (visualize_tx_commands v c) as [f|] eqn:Hf; [|done]. cbn in Eq.
    apply (inj Ok) in Eq as <-. exists v. split; [by left|done].
  - intros (v' & ? & ?)%IH. exists v'. split; [by right|done].
Qed.

Lemma with_any_shows vs c res :
  Forall (fun v => ShowsCalls (visualize_tx_commands v)) vs → call_depth c < MAX_CALL_DEPTH →
  visualize_with_any vs c = Some (Ok res) → shows_call (vr_field res) c.
Proof.
  rewrite Forall_forall. intros Hvs Hd (v & Hv & Hf)%with_any_member. by apply (Hvs v Hv).
Qed.

(** A field that a visualizer makes for a call at the depth limit. *)
Definition made_at_limit (vs : list InstructionVisualizer) (f : AnnotatedPayloadField)
    (c : VisualizerContext) : Prop :=
  call_depth c = MAX_CALL_DEPTH ∧ ∃ v, v ∈ vs ∧ visualize_tx_commands v c = Ok f.

Lemma visualize_inner_shows vs r sender depth i ix f :
  Forall (fun v => ShowsCalls (visualize_tx_commands v)) vs → depth ≤ MAX_CALL_DEPTH →
  length (ix_accounts ix) ≤ 255 → visualize_inner vs r sender depth (i, ix) = Ok f →
  shows_call f (inner_call_context sender depth i ix) ∨
  made_at_limit vs f (inner_call_context sender depth i ix).
Proof.
  intros Hvs Hd Hl. unfold visualize_inner. rewrite decide_False by lia.
  destruct (visualize_with_any vs _) as [[res|e]|] eqn:Hv;
    [|intros Hf%unknown_program_field; by left..].
  intros <-%(inj Ok). destruct (decide (depth = MAX_CALL_DEPTH)) as [->|Hne].
  - right. split; [done|]. by apply with_any_member.
  - left. eapply with_any_shows; [done| |done]. cbn. lia.
Qed.

Lemma visualize_inner_all vs r sender depth es fields :
  Forall (fun v => ShowsCalls (visualize_tx_commands v)) vs → depth ≤ MAX_CALL_DEPTH →
  Forall2 (fun e f => visualize_inner vs r sender depth e = Ok f) es fields →
  Forall (fun e => length (ix_accounts e.2) ≤ 255) es →
  Forall2 (fun e f => shows_call f (inner_call_context sender depth e.1 e.2) ∨
                      made_at_limit vs f (inner_call_context sender depth e.1 e.2)) es fields.
Proof.
  intros Hvs Hd. induction 1 as [|[i ix] f es fields Hf _ IH]; intros Hl; [constructor|].
  apply Forall_cons in Hl as [Hl Hls]. constructor; [|by apply IH].
  by eapply visualize_inner_shows.
Qed.

Lemma vault_args_sound parsed args m vi ixs :
  vault_transaction_args parsed = Some (args, m, vi, ixs) →
  vault_message_wf m ∧ header_valid m ∧ Forall2 (stands_for m) (vm_instructions m) ixs.
Proof.
  unfold vault_transaction_args. intros (av & _ & (hex & _ & Hx)%bind_Some)%bind_Some.
  destruct (hex_decode hex) as [bs|]; [|done].
  destruct (vault_message_deserialize bs) as [m'|] eqn:Hm; [|done].
  apply bind_Some in Hx as (z & _ & Hx). case_decide; [|done].
  destruct (reconstruct_instructions m') as [ixs'|] eqn:Hr; [|done]. apply (inj Some) in Hx.
  assert (m' = m ∧ ixs' = ixs) as [-> ->] by (split; congruence).
  apply vault_message_sound in Hm as [Hwf _]. by apply reconstruct_exact in Hr.
Qed.

Lemma vault_accounts_short m ixs :
  vault_message_wf m → Forall2 (stands_for m) (vm_instructions m) ixs →
  Forall (fun ix => length (ix_accounts ix) ≤ 255) ixs.
Proof.
  intros (_ & _ & _ & _ & _ & Hwf) Hs. eapply Forall2_Forall_r; [exact Hs|].
  eapply Forall_impl; [exact Hwf|]. intros ci (_ & [Hl _] & _) ix (_ & Hm & _).
  rewrite <- (Forall2_length _ _ _ Hm). unfold is_u8 in Hl. lia.
Qed.

(** What a [vaultTransactionCreate] is decoded to. *)
Definition decodes_to (c : VisualizerContext) (m : VaultTransactionMessage) (ixs : list Instruction)
    : Prop :=
  ∃ accounts parsed named args vi,
    resolve_accounts c = Ok accounts ∧
    parse_squads_instruction (context_data c) accounts = Ok (parsed, named) ∧
    parser.pd_instruction_name parsed = "vaultTransactionCreate" ∧
    vault_transaction_args parsed = Some (args, m, vi, ixs).

Lemma squads_body_vault vs r c f m ixs :
  decodes_to c m ixs → squads_body vs r c = Ok f →
  ∃ sender pre inner raw,
    visualize_inner_instructions vs r ixs c sender = Ok inner ∧
    expanded_rows f = (signable_payload_field <$> pre) ++ (signable_payload_field <$> inner) ++ [raw].
Proof.
  intros (accounts & parsed & named & args & vi & Ha & Hp & Hn & Hv) Hf.
  apply result_bind_Ok in Hf as (pid & _ & Hf). rewrite Ha in Hf. cbn [mbind result_bind] in Hf.
  cbv zeta in Hf. rewrite Hp in Hf.
  apply result_bind_Ok in Hf as ([[title cs] es] & Hes & (raw & _ & Hf)%result_bind_Ok).
  unfold squads_parsed_fields in Hes. rewrite decide_True in Hes by done.
  apply result_bind_Ok in Hes as (vault & Hvault & Hes).
  unfold try_build_vault_transaction_fields in Hvault. rewrite Hv in Hvault. cbv zeta in Hvault.
  apply result_bind_Ok in Hvault as (inner & Hi & (cs' & _ & (es' & _ & Hvault)%result_bind_Ok)
    %result_bind_Ok).
  apply (inj Ok) in Hvault as <-. apply (inj Ok) in Hes.
  assert (es' ++ inner = es) as <- by congruence. apply (inj Ok) in Hf as <-.
  exists (vault_pda_account named vi), es', inner, (signable_payload_field raw). split; [done|].
  cbn [expanded_rows preview_layout_field annotate_field signable_payload_field].
  by rewrite !fmap_app, <- app_assoc.
Qed.

(** The call of an instruction: its index, its program and its data. *)
Definition call_of_instruction (c : VisualizerContext) (i : nat) (ix : Instruction) : Prop :=
  instruction_index c = i ∧ program_id c = ProgramResolved (ix_program_id ix) ∧
  context_data c = ix_data ix.

(** A field shows an instruction. *)
Definition shows_instruction (g : AnnotatedPayloadField) (i : nat) (ix : Instruction) : Prop :=
  ∃ c, call_of_instruction c i ix ∧ shows_call g c.

(** What stands for the instructions of a message that is nested too deeply. *)
Definition truncated_row : AnnotatedPayloadField :=
  text_row "Inner Instructions" "<truncated: maximum nested-instruction visualization depth reached>".

Lemma inner_truncated vs r ixs c sender inner :
  MAX_CALL_DEPTH ≤ call_depth c →
  visualize_inner_instructions vs r ixs c sender = Ok inner → inner = [truncated_row].
Proof.
  intros Hd. unfold visualize_inner_instructions. rewrite decide_True by done.
  intros (f & Hf & <-%(inj Ok))%result_bind_Ok. f_equal. by apply (inj Ok) in Hf as <-.
Qed.

Lemma inner_shown vs r m ixs c sender inner :
  Forall (fun v => ShowsCalls (visualize_tx_commands v)) vs → call_depth c < MAX_CALL_DEPTH →
  vault_message_wf m → Forall2 (stands_for m) (vm_instructions m) ixs →
  visualize_inner_instructions vs r ixs c sender = Ok inner →
  Forall2 (fun e g =>
      shows_instruction g e.1 e.2 ∨
      (S (call_depth c) = MAX_CALL_DEPTH ∧
       ∃ c', call_of_instruction c' e.1 e.2 ∧ made_at_limit vs g c')) (imap pair ixs) inner.
Proof.
  intros Hvs Hd Hwf Hs Hi. unfold visualize_inner_instructions in Hi.
  rewrite decide_False in Hi by lia.
  assert (saturating_succ (call_depth c) = S (call_depth c)) as Hsucc.
  { unfold saturating_succ. rewrite decide_True; [done|]. unfold MAX_CALL_DEPTH in Hd. lia. }
  rewrite Hsucc in Hi. apply collect_results_Ok in Hi.
  pose proof (vault_accounts_short m ixs Hwf Hs) as Hl.
  assert (Forall (fun e => length (ix_accounts e.2) ≤ 255) (imap pair ixs)) as Hl'.
  { apply Forall_lookup. intros i [j ix] Hj. rewrite list_lookup_imap in Hj.
    apply fmap_Some in Hj as (ix' & Hix & Eq). assert (ix = ix') as -> by congruence.
    by apply (Forall_lookup_1 _ _ _ _ Hl Hix). }
  eapply Forall2_impl; [eapply visualize_inner_all; [done| |done|done]; lia|].
  intros [i ix] g [Hg|[Hlim Hg]]; [left; eexists; split; [|exact Hg]; done|].
  right. split; [exact Hlim|]. eexists. split; [|split; [exact Hlim|exact Hg]]; done.
Qed.

(** C21: a vault transaction hides no instruction without saying so. When the preset decodes the
    message of a [vaultTransactionCreate], the programs, accounts and data of its instructions are
    those the message compiles. At the depth limit its field has the single row that says the
    instructions are truncated. Above the limit its field has, in their order, one field for every
    instruction of the message, which shows the index, the program and the data of its
    instruction; only in the last level before the limit may it be instead the field that a
    visualizer makes at the limit for a call with that index, program and data. *)
Theorem vault_instructions_shown vs r c f m ixs :
  Forall (fun v => ShowsCalls (visualize_tx_commands v)) vs →
  decodes_to c m ixs → squads_body vs r c = Ok f →
  Forall2 (stands_for m) (vm_instructions m) ixs ∧
  ∃ pre inner raw,
    expanded_rows f = (signable_payload_field <$> pre) ++ (signable_payload_field <$> inner) ++ [raw] ∧
    if decide (MAX_CALL_DEPTH ≤ call_depth c) then inner = [truncated_row]
    else Forall2 (fun e g =>
           shows_instruction g e.1 e.2 ∨
           (S (call_depth c) = MAX_CALL_DEPTH ∧
            ∃ c', call_of_instruction c' e.1 e.2 ∧ made_at_limit vs g c')) (imap pair ixs) inner.
Proof.
  intros Hvs Hm Hf. pose proof Hm as (_ & parsed & _ & args & vi & _ & _ & _ & Hv).
  destruct (vault_args_sound _ _ _ _ _ Hv) as (Hwf & _ & Hs). split; [done|].
  destruct (squads_body_vault _ _ _ _ _ _ Hm Hf) as (so & pre & inner & raw & Hi & Hrows).
  exists pre, inner, raw. split; [exact Hrows|]. case_decide as Hd.
  - by eapply inner_truncated.
  - eapply inner_shown; [done|lia|done..].
Qed.
End shown.

(** ** Samples: a vault transaction with one instruction, of no accounts and one byte of data. *)

Definition sample_vault_message : VaultTransactionMessage :=
  MkVaultMessage 0 0 0 [replicate 32 Byte.x05] [MkMultisigIx 0 [] [Byte.x07]].

Definition sample_vault_args : parser.SolanaParsedInstructionData :=
  parser.MkParsedData "vaultTransactionCreate" "" ∅
    [("args", JObject [("transactionMessage",
                        JString (hex_of_bytes (enc_vault_message sample_vault_message [])));
                       ("vaultIndex", JNumber 3)])] parser.SourcePreset "".

Definition vault_decoder : @IdlDecoder sample_idls sample_crate :=
  Build_IdlDecoder sample_idls sample_crate (fun _ => []) (fun _ _ _ => Ok sample_vault_args)
    (fun file => file).

Definition sample_addresses : ProgramAddresses :=
  Build_ProgramAddresses (fun _ _ => replicate 32 Byte.x00) (fun _ _ => eq_refl).

Definition sample_vault_call : VisualizerContext :=
  VisualizerContext_new (MkSolanaAccount "" false false)
    (MkCompiledInstruction 0 [] (replicate 8 Byte.x00)) [replicate 32 Byte.x00] 0.

Lemma sample_vault_decodes :
  decodes_to (H:=hex_ref) (K:=hex_sdk) (R:=vault_decoder) sample_vault_call sample_vault_message
    [MkInstruction (replicate 32 Byte.x05) [] [Byte.x07]].
Proof.
  exists [], sample_vault_args, [].
  eexists (JObject [("transactionMessage", _); ("vaultIndex", JNumber 3)]), 3.
  split_and!; reflexivity.
Qed.

Lemma vault_instructions_shown_witness :
  ∃ f, squads_body (E:=derivative_engine) (H:=hex_ref) (K:=hex_sdk) (F:=compact_format)
         (A:=sample_addresses) (R:=vault_decoder) [] IdlRegistry_new sample_vault_call = Ok f ∧
    ∃ pre g raw,
      expanded_rows f = (signable_payload_field <$> pre) ++ [signable_payload_field g; raw] ∧
      shows_instruction (H:=hex_ref) (K:=hex_sdk) g 0
        (MkInstruction (replicate 32 Byte.x05) [] [Byte.x07]).
Proof.
  assert (is_ok (squads_body (E:=derivative_engine) (H:=hex_ref) (K:=hex_sdk) (F:=compact_format)
    (A:=sample_addresses) (R:=vault_decoder) [] IdlRegistry_new sample_vault_call) = true) as Hok
    by (vm_compute; reflexivity).
  destruct (squads_body [] IdlRegistry_new sample_vault_call) as [f|] eqn:Hf; [|discriminate Hok].
  exists f. split; [done|].
  destruct (vault_instructions_shown (E:=derivative_engine) (H:=hex_ref) (K:=hex_sdk)
    (F:=compact_format) (A:=sample_addresses) (R:=vault_decoder) [] IdlRegistry_new
    sample_vault_call f sample_vault_message _ (Forall_nil_2 _) sample_vault_decodes Hf)
    as (_ & pre & inner & raw & Hrows & Hs). simpl in Hs.
  apply Forall2_cons_inv_l in Hs as (g & gs & [Hg|[Hg _]] & Hgs & ->); [|discriminate Hg].
  apply Forall2_nil_inv_l in Hgs as ->.
  exists pre, g, raw. split; [exact Hrows|exact Hg].
Defined.
