(* ===== verification/SolanaPresets.v ===== *)
(** * Solana: all the presets together

    The list [available_visualizers] of [chain_parsers/visualsign-solana] with every preset in its
    place: two of them, [swig_wallet] and [squads_multisig], hand instructions back to the list.
    The converter over this list shows every instruction of a transaction. *)

From S2P Require Import Prelude Json Payload Errors Charset External Encodings DecimalText Builders.
From S2P Require Import Registry PlainText Panic Signing.
From S2P Require Import SolanaCore SolanaAccounts SolanaIdl SolanaParserCrate SolanaIntermediate.
From S2P Require Import SwigDecode SwigRender SolanaConvert.
From S2P Require Import SolanaPrograms SolanaTokens SolanaIdlPresets SolanaJupiter SolanaSquads.

#[local] Unset Program Cases.

(** ** The instructions [swig_wallet] summarises itself *)

Definition swig_authority (t : spl.AuthorityType) : SplAuthorityType :=
  match t with
  | spl.MintTokens => MintTokens
  | spl.FreezeAccountAuthority => FreezeAccount
  | spl.AccountOwner => AccountOwner
  | spl.CloseAccountAuthority => CloseAccountAuthority
  end.

Definition swig_token (ix : spl.TokenInstruction) : TokenInstruction :=
  match ix with
  | spl.Transfer amount => TokenTransfer amount
  | spl.TransferChecked amount decimals => TokenTransferChecked amount decimals
  | spl.MintTo amount => TokenMintTo amount
  | spl.MintToChecked amount decimals => TokenMintToChecked amount decimals
  | spl.Burn amount => TokenBurn amount
  | spl.BurnChecked amount decimals => TokenBurnChecked amount decimals
  | spl.Approve amount => TokenApprove amount
  | spl.ApproveChecked amount decimals => TokenApproveChecked amount decimals
  | spl.SetAuthority t new_authority => TokenSetAuthority (swig_authority t) new_authority
  | spl.CloseAccount => TokenCloseAccount
  | spl.SyncNative => TokenSyncNative
  | _ => TokenOther
  end.

(** ** The list *)

Section presets.
Context {E : RegexEngine} {H : HexCodec} {K : SolanaSdk} {F : JsonFormat} {A : ProgramAddresses}.
Context {D : ProgramCodecs} {T : TokenCodecs}.
Context {P : SolanaIdls} {Q : SolanaParser} {R : IdlDecoder}.
Context (keccak : bytes → bytes) (base64_encode : bytes → string).
Context (spl_token_id system_program_id : Pubkey).

Definition swig_unpack (data : bytes) : option TokenInstruction :=
  match unpack_token data with Ok ix => Some (swig_token ix) | Err _ => None end.

Definition swig_system_transfer (data : bytes) : option Z :=
  match decode_system data with Ok (Transfer lamports) => Some lamports | _ => None end.

Definition preset : Type :=
  VisualizerKind * (VisualizerContext → result VisualSignError AnnotatedPayloadField).

(** Each preset under the name of its directory; [inner] is the list that [swig_wallet] and
    [squads_multisig] hand instructions to. *)
Definition preset_table (inner : list InstructionVisualizer) (r : IdlRegistry)
    : list (string * preset) :=
  [("associated_token_account", (Payments "AssociatedTokenAccount", ata_visualize));
   ("compute_budget", (Payments "ComputeBudget", compute_budget_visualize));
   ("dflow_aggregator", (Dex "DFlow Aggregator", dflow_aggregator_visualize));
   ("drift", (Dex "Drift", drift_visualize));
   ("exponent_finance", (Dex "Exponent Finance", exponent_finance_visualize));
   ("jupiter_borrow", (Lending "Jupiter Borrow", jupiter_borrow_visualize));
   ("jupiter_earn", (Lending "Jupiter Earn", jupiter_earn_visualize));
   ("jupiter_perps", (Dex "Jupiter Perpetuals", jupiter_perps_visualize));
   ("jupiter_swap", (Dex "Jupiter", jupiter_swap_visualize));
   ("kamino_borrow", (Lending "Kamino Borrow", kamino_borrow_visualize));
   ("kamino_farms", (Lending "Kamino Farms", kamino_farms_visualize));
   ("kamino_limit", (Dex "Kamino Limit Orders", kamino_limit_visualize));
   ("kamino_vault", (Lending "Kamino Vault", kamino_vault_visualize));
   ("marginfi", (Lending "Marginfi", marginfi_visualize));
   ("metadao_conditional_vault",
    (Dex "MetaDAO Conditional Vault", metadao_conditional_vault_visualize));
   ("metadao_futarchy", (Dex "MetaDAO Futarchy", metadao_futarchy_visualize));
   ("meteora_damm_v2", (Dex "Meteora DAMM V2", meteora_damm_v2_visualize));
   ("meteora_dlmm", (Dex "Meteora DLMM", meteora_dlmm_visualize));
   ("neutral_trade", (Lending "Neutral Trade", neutral_trade_visualize));
   ("onre_app", (Dex "Onre App", onre_app_visualize));
   ("orca_whirlpool", (Dex "Orca Whirlpool", orca_whirlpool_visualize));
   ("spl_token", (Payments "SplToken", spl_token_visualize));
   ("squads_multisig", (Payments "SquadsMultisig", squads_body inner r));
   ("stakepool", (StakingPools "StakePool", stakepool_visualize));
   ("swig_wallet",
    (Payments "Swig Wallet",
     swig_body show_pubkey keccak base64_encode swig_unpack swig_system_transfer spl_token_id
       system_program_id inner));
   ("system", (Payments "System", system_visualize));
   ("token_2022", (Payments "Token2022", token_2022_visualize));
   ("unknown_program", (Payments "UnknownProgram", unknown_program_visualize r))].

(** The visualizer of a directory; the directories are those of the table. *)
Definition preset_visualizer (inner : list InstructionVisualizer) (r : IdlRegistry) (name : string)
    : InstructionVisualizer :=
  let '(k, visualize) :=
    default (Payments "UnknownProgram", unknown_program_visualize r)
      (assoc name (preset_table inner r)) in
  let config := assoc name PRESETS in
  MkVisualizer visualize config k
    (if decide (name = "unknown_program") then (fun _ => true)
     else default_can_handle show_pubkey config).

(** The directories in the order [build.rs] reads them. *)
Context (dirs : list string).

Definition crate_visualizers (inner : list InstructionVisualizer) (r : IdlRegistry)
    : list InstructionVisualizer :=
  collect_visualizers ((fun n => (n, preset_visualizer inner r n)) <$> dirs).

(** The list contains itself one level deeper; the depth of a context bounds how often. *)
Fixpoint visualizers_at (fuel : nat) (r : IdlRegistry) : list InstructionVisualizer :=
  crate_visualizers (match fuel with O => [] | S fuel => visualizers_at fuel r end) r.

Definition crate_available (r : IdlRegistry) : list InstructionVisualizer :=
  visualizers_at (S MAX_CALL_DEPTH) r.

(** *** The recursion through the list ends *)

Lemma preset_names inner r : (preset_table inner r).*1 = PRESETS.*1.
Proof. reflexivity. Qed.

Lemma visualizer_ext inner inner' r c n :
  (call_depth c < MAX_CALL_DEPTH → ∀ c', call_depth c' = S (call_depth c) →
     visualize_with_any inner c' = visualize_with_any inner' c') →
  can_handle (preset_visualizer inner r n) c = can_handle (preset_visualizer inner' r n) c ∧
  kind (preset_visualizer inner r n) = kind (preset_visualizer inner' r n) ∧
  visualize_tx_commands (preset_visualizer inner r n) c =
  visualize_tx_commands (preset_visualizer inner' r n) c.
Proof.
  intros Hi. unfold preset_visualizer.
  assert (∀ l l' : list (string * preset),
    Forall2 (fun e e' => e.1 = e'.1 ∧ e.2.1 = e'.2.1 ∧ e.2.2 c = e'.2.2 c) l l' →
    match assoc n l, assoc n l' with
    | Some p, Some p' => p.1 = p'.1 ∧ p.2 c = p'.2 c
    | None, None => True
    | _, _ => False
    end) as Hl.
  { induction 1 as [|[m p] [m' p'] l l' (Hm & Hk & Hv) _ IH]; [done|].
    cbn [fst snd] in Hm, Hk, Hv. subst m'. cbn [assoc]. by case_decide. }
  specialize (Hl (preset_table inner r) (preset_table inner' r)).
  assert (Forall2 (fun e e' : string * preset => e.1 = e'.1 ∧ e.2.1 = e'.2.1 ∧ e.2.2 c = e'.2.2 c)
    (preset_table inner r) (preset_table inner' r)) as Ht.
  { unfold preset_table. repeat constructor; cbn [fst snd]; try done.
    - by apply squads_body_ext.
    - by apply swig_body_ext. }
  specialize (Hl Ht).
  by destruct (assoc n (preset_table inner r)) as [[k v]|],
    (assoc n (preset_table inner' r)) as [[k' v']|].
Qed.

Lemma crate_visualizers_ext inner inner' r c :
  (call_depth c < MAX_CALL_DEPTH → ∀ c', call_depth c' = S (call_depth c) →
     visualize_with_any inner c' = visualize_with_any inner' c') →
  visualize_with_any (crate_visualizers inner r) c = visualize_with_any (crate_visualizers inner' r) c.
Proof.
  intros Hi. apply visualize_with_any_ext. unfold crate_visualizers, collect_visualizers.
  rewrite !(filter_named (fun n => n ≠ "unknown_program")),
    !(filter_named (fun n => n = "unknown_program")).
  apply Forall2_app; apply Forall2_fmap, Forall_Forall2_diag, Forall_true; intros n;
    by apply visualizer_ext.
Qed.

Lemma visualizers_at_fuel r c : ∀ fuel fuel',
  MAX_CALL_DEPTH - call_depth c ≤ fuel → MAX_CALL_DEPTH - call_depth c ≤ fuel' →
  visualize_with_any (visualizers_at fuel r) c = visualize_with_any (visualizers_at fuel' r) c.
Proof.
  remember (MAX_CALL_DEPTH - call_depth c) as n eqn:Hn. revert c Hn.
  induction n as [|n IH]; intros c Hn fuel fuel' Hf Hf'.
  - destruct fuel, fuel'; cbn [visualizers_at]; apply crate_visualizers_ext; lia.
  - destruct fuel as [|fuel]; [lia|]. destruct fuel' as [|fuel']; [lia|].
    cbn [visualizers_at]. apply crate_visualizers_ext. intros Hd c' Hc'. apply IH; lia.
Qed.

(** C23: The presets that hand instructions back to the list of all presets end on every instruction,
    however the two of them are nested in each other: the list unfolded as often as the depth
    limit allows satisfies the recursive definition of the code, in which it is the list that its
    own members use. *)
Theorem preset_recursion_ends r c :
  visualize_with_any (crate_available r) c =
  visualize_with_any (crate_visualizers (crate_available r) r) c.
Proof.
  change (visualize_with_any (crate_visualizers (crate_available r) r) c)
    with (visualize_with_any (visualizers_at (S (S MAX_CALL_DEPTH)) r) c).
  apply visualizers_at_fuel; lia.
Qed.

(** *** Every preset shows the call *)

Instance swig_shows vs : ShowsCalls
  (swig_body show_pubkey keccak base64_encode swig_unpack swig_system_transfer spl_token_id
     system_program_id vs).
Proof.
  intros c f Hd. unfold swig_body. rewrite decide_False by lia.
  intros (accounts & _ & (decoded & _ & (hd & _ & (fields & _ & (cs & _ & Hf)%result_bind_Ok)
    %result_bind_Ok)%result_bind_Ok)%result_bind_Ok)%result_bind_Ok.
  apply (inj Ok) in Hf as <-. eexists _, _. split; [reflexivity|]. by left.
Qed.

Lemma preset_shows inner r n : ShowsCalls (visualize_tx_commands (preset_visualizer inner r n)).
Proof.
  assert (Forall (fun e : string * preset => ShowsCalls e.2.2) (preset_table inner r)) as Ht.
  { unfold preset_table. repeat (constructor; [cbn [snd]; apply _|]). constructor. }
  unfold preset_visualizer. destruct (assoc n (preset_table inner r)) as [[k v]|] eqn:Hn; cbn.
  - apply assoc_elem_of in Hn; [|by_decision]. rewrite Forall_forall in Ht. exact (Ht _ Hn).
  - apply _.
Qed.

Lemma crate_shows inner r :
  Forall (fun v => ShowsCalls (visualize_tx_commands v)) (crate_visualizers inner r).
Proof.
  unfold crate_visualizers, collect_visualizers.
  rewrite (filter_named (fun n => n ≠ "unknown_program")),
    (filter_named (fun n => n = "unknown_program")).
  apply Forall_app. split; apply Forall_fmap, Forall_true; intros n; apply preset_shows.
Qed.
End presets.

(** ** The converter over the list *)

Section composed.
Context {M : SerdeMap} {J : JsonErrorText} {S : Sha256} {Ed : Ed25519} {W : SolanaWire}.
Context {E : RegexEngine} {H : HexCodec} {K : SolanaSdk} {F : JsonFormat} {A : ProgramAddresses}.
Context {D : ProgramCodecs} {T : TokenCodecs}.
Context {P : SolanaIdls} {Q : SolanaParser} {R : IdlDecoder}.
Context (keccak : bytes → bytes) (base64_encode : bytes → string).
Context (spl_token_id system_program_id : Pubkey) (dirs : list string).
Context (parse_json : string → option json)
  (response_from_slice : bytes → option RpcSimulateTransactionResult)
  (b64_decode : string → result string bytes) (bs58_decode : string → option bytes)
  (include_str debug_str : string → string) (show_hex : FromHexError → string).
Context (env : string → option string).

Local Abbreviation available :=
  (crate_available keccak base64_encode spl_token_id system_program_id dirs).

(** The conversion of the crate, with and without the [diagnostics] feature. *)
Definition crate_to_payload (diagnostics : bool) (w : SolanaTransactionWrapper) (options : VisualSignOptions)
    : result VisualSignError ConversionResult :=
  sol_to_visual_sign_payload available parse_json response_from_slice b64_decode bs58_decode
    include_str debug_str show_hex env diagnostics w options.

(** The context a visualizer is given for the instruction at an index. *)
Definition call_context (keys : list Pubkey) (e : nat * CompiledInstruction) : VisualizerContext :=
  VisualizerContext_new
    (MkSolanaAccount (default "" (show_pubkey <$> head keys)) false false) e.2 keys e.1.

(** A call as index, program and data; all of them, and those some visualizer can show. *)
Definition call_of (keys : list Pubkey) (e : nat * CompiledInstruction) : nat * ProgramRef * bytes :=
  (e.1, program_id (call_context keys e), ci_data e.2).

Definition all_calls (w : SolanaTransactionWrapper) : list (nat * ProgramRef * bytes) :=
  call_of (wrapper_keys w) <$> enumerate (wrapper_instructions w).

Definition visualized (r : IdlRegistry) (w : SolanaTransactionWrapper)
    : list (nat * CompiledInstruction * AnnotatedPayloadField) :=
  if decide (wrapper_keys w = []) then []
  else omap (fun e => pair e <$> shown_field available r (wrapper_keys w) e)
         (enumerate (wrapper_instructions w)).

Definition calls_shown (r : IdlRegistry) (w : SolanaTransactionWrapper)
    : list (nat * ProgramRef * bytes) :=
  (fun x => call_of (wrapper_keys w) x.1) <$> visualized r w.

Lemma shown_field_shows r keys e f :
  shown_field available r keys e = Some f → shows_call f (call_context keys e).
Proof.
  unfold shown_field, visualize_instruction.
  destruct (visualize_with_any _ _) as [[v|]|] eqn:Hv; try done. intros <-%(inj Some).
  apply (with_any_shows _ _ _ (crate_shows _ _ _ _ dirs _ r)) in Hv; [done|].
  cbn. unfold MAX_CALL_DEPTH. lia.
Qed.

Lemma shows_call_label f c : shows_call f c → call_label (signable_payload_field f) = true.
Proof.
  intros (fb & ly & -> & _). cbn. unfold starts_with, instruction_label. rewrite strip_prefix_app.
  by apply bool_decide_eq_true.
Qed.

Lemma show_program_inj c c' :
  context_wf c → context_wf c' → show_program_id c = show_program_id c' → program_id c = program_id c'.
Proof.
  assert (∀ pk i, length pk = 32 → show_pubkey pk ≠ "unresolved(" +:+ show_nat i +:+ ")") as Hne.
  { intros pk i Hpk Eq. pose proof (show_pubkey_alnum pk Hpk) as Ha. rewrite Eq in Ha.
    by vm_compute in Ha. }
  intros Hc Hc'. unfold show_program_id, program_id.
  destruct (account_keys c !! _) as [pk|] eqn:Hpk, (account_keys c' !! _) as [pk'|] eqn:Hpk';
    cbn [show_program]; intros Eq.
  - apply (Forall_lookup_1 _ _ _ _ Hc) in Hpk. apply (Forall_lookup_1 _ _ _ _ Hc') in Hpk'.
    pose proof (pubkey_from_show pk Hpk) as E1. rewrite Eq, pubkey_from_show in E1 by done. congruence.
  - by apply (Forall_lookup_1 _ _ _ _ Hc), (Hne _ (program_id_index (compiled_instruction c'))) in Hpk.
  - by apply (Forall_lookup_1 _ _ _ _ Hc'), (Hne _ (program_id_index (compiled_instruction c))) in Hpk'.
  - apply (inj (String.append "unresolved(")) in Eq. f_equal. apply show_nat_inj.
    by apply str_app_inj_l in Eq.
Qed.

(** A list of fields that shows a list of calls, in order. *)
Definition fields_show (w : SolanaTransactionWrapper) (fs : list AnnotatedPayloadField)
    (calls : list (nat * ProgramRef * bytes)) : Prop :=
  Forall2 (fun f k => ∃ e, k = call_of (wrapper_keys w) e ∧ shows_call f (call_context (wrapper_keys w) e))
    fs calls.

Lemma visualized_show r w : fields_show w (visualized r w).*2 (calls_shown r w).
Proof.
  unfold calls_shown, visualized, fields_show. case_decide; [constructor|].
  induction (enumerate (wrapper_instructions w)) as [|e l IH]; [constructor|].
  cbn [omap list_omap]. destruct (shown_field available r (wrapper_keys w) e) as [f|] eqn:Hf; [|exact IH].
  cbn. constructor; [|exact IH]. exists e. split; [done|]. by apply (shown_field_shows r).
Qed.

Lemma visualized_decode r w :
  dr_fields (wrapper_decode available w r) = (visualized r w).*2.
Proof.
  unfold wrapper_decode, decode_with_diagnostics, visualized. case_decide; [done|].
  rewrite decode_loop. cbn [dr_fields app].
  induction (enumerate (wrapper_instructions w)) as [|e l IH]; [done|]. cbn [omap list_omap].
  destruct (shown_field available r (wrapper_keys w) e); cbn; by rewrite IH.
Qed.

Lemma or_fail_show empty r w fs :
  decode_or_fail available empty (wrapper_keys w) (wrapper_instructions w) r = Ok fs →
  fields_show w fs (all_calls w).
Proof.
  intros [_ Hfs]%decode_or_fail_Ok. unfold fields_show, all_calls. rewrite Forall2_fmap_r.
  apply Forall2_flip. eapply Forall2_impl; [exact Hfs|]. intros e f Hf. exists e.
  split; [done|]. by apply (shown_field_shows r).
Qed.

Lemma fields_show_label w fs ks :
  fields_show w fs ks → Forall (fun f => call_label (signable_payload_field f) = true) fs.
Proof. induction 1 as [|f k fs ks (e & _ & Hs) _ IH]; constructor; [by eapply shows_call_label|done]. Qed.

(** The shown calls can be read off the fields. *)
Lemma fields_show_inj w w' fs fs' ks ks' :
  Forall (fun k => length k = 32) (wrapper_keys w) → Forall (fun k => length k = 32) (wrapper_keys w') →
  fields_show w fs ks → fields_show w' fs' ks' →
  signable_payload_field <$> fs = signable_payload_field <$> fs' → ks = ks'.
Proof.
  intros Hw Hw' Hs. revert fs' ks'.
  induction Hs as [|f k fs ks (e & -> & He) _ IH]; intros [|f' fs'] ks' Hs' Hf; try done.
  - by inversion Hs'.
  - inversion Hs' as [|? ? ? ks0 (e' & -> & He') Hs0]; subst. rewrite !fmap_cons in Hf.
    assert (signable_payload_field f = signable_payload_field f') as Hff by congruence.
    assert (signable_payload_field <$> fs = signable_payload_field <$> fs') as Hfs by congruence.
    f_equal; [|by apply (IH fs')].
    assert (f = f') as <-.
    { destruct He as (? & ? & -> & _), He' as (? & ? & -> & _). cbn in Hff. by rewrite Hff. }
    destruct (shows_call_inj f (call_context (wrapper_keys w) e) (call_context (wrapper_keys w') e') Hw Hw'
      He He') as (Hi & Hp & Hd).
    unfold call_of. f_equal; [f_equal|]; [done| |done]. by apply show_program_inj.
Qed.

Lemma no_call_fields (l : list SignablePayloadField) :
  Forall (fun f => call_label f = false) l → filter (fun f => call_label f = true) l = [].
Proof. induction 1 as [|f l Hc _ IH]; [done|]. by rewrite filter_cons_False, IH by congruence. Qed.

Lemma only_call_fields l :
  Forall (fun f => call_label (signable_payload_field f) = true) l →
  filter (fun f => call_label f = true) (signable_payload_field <$> l) = signable_payload_field <$> l.
Proof. induction 1 as [|f l Hc _ IH]; [done|]. by rewrite fmap_cons, filter_cons_True, IH. Qed.

(** The fields of a payload that are labelled as instructions are those of the part about them. *)
Lemma call_fields diagnostics w options res :
  crate_to_payload diagnostics w options = Ok res →
  ∃ r shown, create_idl_registry parse_json show_hex env options = Ok r ∧
    instructions_part available diagnostics w r shown ∧
    Forall (fun f => f ∈ payload_fields (payload res)) shown ∧
    head (payload_fields (payload res)) = Some (text_v2 "Network" (wrapper_network w)) ∧
    filter (fun f => call_label f = true) (payload_fields (payload res)) =
      filter (fun f => call_label f = true) shown ∧
    (diagnostics = true →
     ∃ pre, payload_fields (payload res) = append_diagnostics pre (wrapper_decode available w r)).
Proof.
  intros Hres%to_payload_Ok.
  apply payload_shape in Hres as (r & before & mid & shown & Hr & Hs & Hl & Hf).
  exists r, shown. cbv zeta in Hf. rewrite Hf. apply Forall_app in Hl as [Hb Hm].
  split_and!; [done|done| | | |].
  - apply Forall_forall. intros f Hin.
    destruct diagnostics; unfold append_diagnostics; set_solver.
  - by destruct diagnostics.
  - set (fields := text_v2 "Network" _ :: _).
    assert (filter (fun f => call_label f = true) fields = filter (fun f => call_label f = true) shown)
      as Hfields.
    { unfold fields. rewrite filter_cons_False by done. rewrite !filter_app.
      rewrite (no_call_fields before), (no_call_fields mid) by done.
      rewrite (no_call_fields [_]) by by repeat constructor. by rewrite !app_nil_r. }
    destruct diagnostics; [|done]. unfold append_diagnostics. rewrite !filter_app, Hfields.
    rewrite (no_call_fields (_ <$> dr_errors _)), (no_call_fields (_ <$> dr_diagnostics _)), !app_nil_r;
      [done| |by apply Forall_fmap, Forall_true].
    apply Forall_fmap. eapply Forall_impl; [apply decode_diagnostics_all|].
    intros a. cbn. by destruct (signable_payload_field a).
  - intros ->. by eexists.
Qed.

Lemma elem_of_enumerate {X} (l : list X) i x : (i, x) ∈ enumerate l ↔ l !! i = Some x.
Proof.
  unfold enumerate. split.
  - by intros (j & y & [= -> ->] & Hj)%elem_of_lookup_imap_1.
  - intros Hi. apply list_elem_of_lookup. exists i. by rewrite list_lookup_imap, Hi.
Qed.

Definition visualizer_error_field (i : nat) (err : VisualSignError) : SignablePayloadField :=
  signable_payload_field
    (create_diagnostic_field "decode::visualizer_error" "decode" SevError
       ("instruction " +:+ show_nat i +:+ ": " +:+ show_error err) (Some (index_u32 i))).

Definition no_keys_field (w : SolanaTransactionWrapper) : SignablePayloadField :=
  signable_payload_field
    (create_diagnostic_field "transaction::empty_account_keys" "transaction" SevError
       (wrapper_empty w) None).

(** With diagnostics, an instruction has its field or the diagnostic of its error. *)
Lemma instruction_reported pre r w e :
  wrapper_keys w ≠ [] → e ∈ enumerate (wrapper_instructions w) →
  (∃ f, f ∈ dr_fields (wrapper_decode available w r) ∧
     shows_call f (call_context (wrapper_keys w) e)) ∨
  (∃ err, decode_error available r (wrapper_keys w) e = Some (e.1, err) ∧
     visualizer_error_field e.1 err ∈ append_diagnostics pre (wrapper_decode available w r)).
Proof.
  intros Hk Hin. unfold append_diagnostics, wrapper_decode, decode_with_diagnostics.
  rewrite !decide_False by done. rewrite !decode_loop. cbn [dr_fields dr_errors dr_diagnostics app].
  destruct (shown_field available r (wrapper_keys w) e) as [f|] eqn:Hf.
  - left. exists f. split; [|by apply (shown_field_shows r)].
    apply list_elem_of_omap. by exists e.
  - right.
    assert (∃ err, decode_error available r (wrapper_keys w) e = Some (e.1, err)) as [err He].
    { unfold decode_error, shown_field in *.
      destruct (visualize_instruction _ _ _ _ _) as [[]|]; [done|by eexists..]. }
    exists err. split; [done|]. rewrite !elem_of_app. right. left. apply list_elem_of_fmap.
    exists (e.1, err). split; [done|]. apply list_elem_of_omap. by exists e.
Qed.

Lemma no_keys_reported pre r w :
  wrapper_keys w = [] →
  no_keys_field w ∈ append_diagnostics pre (wrapper_decode available w r).
Proof.
  intros Hk. unfold append_diagnostics, wrapper_decode, decode_with_diagnostics.
  rewrite !decide_True by done. cbn [dr_diagnostics dr_errors]. rewrite !elem_of_app. right. right.
  by left.
Qed.

Lemma or_fail_shown empty r w fs e :
  decode_or_fail available empty (wrapper_keys w) (wrapper_instructions w) r = Ok fs →
  e ∈ enumerate (wrapper_instructions w) →
  ∃ f, f ∈ fs ∧ shows_call f (call_context (wrapper_keys w) e).
Proof.
  intros [_ Hfs]%decode_or_fail_Ok [j Hj]%list_elem_of_lookup.
  destruct (Forall2_lookup_l _ _ _ _ _ Hfs Hj) as (f & Hf & Hsh). exists f.
  split; [by eapply list_elem_of_lookup_2|]. by apply (shown_field_shows r).
Qed.

(** C15: the converter shows every call or says that it does not. With the presets of the crate, in
    whatever order their directories are read, and in both builds, every instruction of a converted
    transaction has a field of the payload that shows its index, its program and all of its data,
    with these exceptions. With diagnostics an instruction that no preset shows has an error
    diagnostic with its index and its error, and a transaction without account keys has a
    diagnostic that says so. Without diagnostics, as in the signing application, a V0 transaction
    without keys or with an instruction that no preset shows has the decoding note, and then no
    field of an instruction at all; a legacy transaction is shown in full. *)
Theorem solana_calls_shown diagnostics w options res :
  crate_to_payload diagnostics w options = Ok res →
  ∃ r, create_idl_registry parse_json show_hex env options = Ok r ∧
  ((∀ i ix, wrapper_instructions w !! i = Some ix →
      (∃ f, signable_payload_field f ∈ payload_fields (payload res) ∧
         shows_call f (call_context (wrapper_keys w) (i, ix))) ∨
      (diagnostics = true ∧ ∃ err,
         decode_error available r (wrapper_keys w) (i, ix) = Some (i, err) ∧
         visualizer_error_field i err ∈ payload_fields (payload res))) ∨
   (diagnostics = true ∧ wrapper_keys w = [] ∧
      no_keys_field w ∈ payload_fields (payload res)) ∨
   (diagnostics = false ∧ transaction_type w = "Solana (V0)" ∧
      (wrapper_keys w = [] ∨ ∃ i ix, wrapper_instructions w !! i = Some ix ∧
         shown_field available r (wrapper_keys w) (i, ix) = None) ∧
      (∃ err, decoding_note err ∈ payload_fields (payload res)) ∧
      Forall (fun f => call_label f = false) (payload_fields (payload res)))).
Proof.
  intros (r & shown & Hr & Hs & Hin & _ & Hfilter & Hdiag)%call_fields. exists r. split; [done|].
  rewrite Forall_forall in Hin. unfold instructions_part in Hs. destruct diagnostics.
  - destruct (Hdiag eq_refl) as [pre Hpre]. subst shown.
    destruct (decide (wrapper_keys w = [])) as [Hk|Hk].
    { right. left. split_and!; [done|done|]. rewrite Hpre. by apply no_keys_reported. }
    left. intros i ix Hix%elem_of_enumerate.
    destruct (instruction_reported pre r w _ Hk Hix) as [(f & Hf & Hsh)|(err & He & Hf)].
    + left. exists f. split; [|done]. by apply Hin, list_elem_of_fmap_2.
    + right. split; [done|]. exists err. by rewrite Hpre.
  - destruct (decode_or_fail _ _ _ _ _) as [fs|err] eqn:Hd.
    + left. intros i ix Hix%elem_of_enumerate.
      destruct (or_fail_shown _ _ _ _ _ Hd Hix) as (f & Hf & Hsh). left. exists f. split; [|done].
      subst shown. by apply Hin, list_elem_of_fmap_2.
    + destruct Hs as [Ht ->]. right. right. split_and!; [done|done| | |].
      * apply decode_or_fail_Err in Hd as [?|([i ix] & He%elem_of_enumerate & Hn)]; eauto 10.
      * exists err. apply Hin. by left.
      * apply Forall_forall. intros f Hf. destruct (call_label f) eqn:Hc; [|done].
        assert (f ∈ filter (fun f => call_label f = true) (payload_fields (payload res))) as Hff
          by by apply list_elem_of_filter.
        rewrite Hfilter in Hff. by apply list_elem_of_filter in Hff as [_ ->%list_elem_of_singleton].
Qed.

Lemma wrapper_network_V0 w :
  wrapper_network w = "Solana (V0)" ↔ transaction_type w = "Solana (V0)".
Proof. unfold wrapper_network. by case_decide. Qed.

(** C16: what is signed determines the calls. Take two transactions, of whatever form, whose payloads
    of the same build have the same fields. With diagnostics the same calls are shown for both:
    the same indexes, and at each the same program and the same data. Without diagnostics all
    their calls are the same, or both are V0 transactions and what is signed holds the decoding
    note. *)
Theorem solana_calls_determined diagnostics w w' options options' res res' :
  Forall (fun k => length k = 32) (wrapper_keys w ++ wrapper_keys w') →
  crate_to_payload diagnostics w options = Ok res →
  crate_to_payload diagnostics w' options' = Ok res' →
  payload_fields (payload res) = payload_fields (payload res') →
  if diagnostics then
    ∃ r r', create_idl_registry parse_json show_hex env options = Ok r ∧
      create_idl_registry parse_json show_hex env options' = Ok r' ∧
      calls_shown r w = calls_shown r' w'
  else
    all_calls w = all_calls w' ∨
    (transaction_type w = "Solana (V0)" ∧ transaction_type w' = "Solana (V0)" ∧
     ∃ err, decoding_note err ∈ payload_fields (payload res)).
Proof.
  intros [Hw Hw']%Forall_app (r & shown & Hr & Hs & Hin & Hnet & Hf & _)%call_fields
    (r' & shown' & Hr' & Hs' & Hin' & Hnet' & Hf' & _)%call_fields Eq.
  rewrite Eq, Hf' in Hf. symmetry in Hf. clear Hf'. rewrite Forall_forall in Hin, Hin'.
  assert (wrapper_network w = wrapper_network w') as Hn.
  { rewrite Eq, Hnet' in Hnet. apply (inj Some) in Hnet. unfold text_v2 in Hnet. congruence. }
  unfold instructions_part in Hs, Hs'. destruct diagnostics.
  - exists r, r'. split_and!; [done..|]. subst shown shown'. rewrite !visualized_decode in Hf.
    pose proof (visualized_show r w) as Hv. pose proof (visualized_show r' w') as Hv'.
    rewrite !only_call_fields in Hf by (eapply fields_show_label; eassumption).
    exact (fields_show_inj w w' _ _ _ _ Hw Hw' Hv Hv' Hf).
  - destruct (decode_or_fail available (wrapper_empty w) _ _ _) as [fs|err] eqn:Hd.
    + destruct (decode_or_fail available (wrapper_empty w') _ _ _) as [fs'|err] eqn:Hd'.
      * left. subst shown shown'. apply or_fail_show in Hd, Hd'.
        rewrite !only_call_fields in Hf by (eapply fields_show_label; eassumption).
        exact (fields_show_inj w w' _ _ _ _ Hw Hw' Hd Hd' Hf).
      * right. destruct Hs' as [Ht' ->]. split_and!; [|done|].
        -- apply wrapper_network_V0. rewrite Hn. by apply wrapper_network_V0.
        -- exists err. rewrite Eq. apply Hin'. by left.
    + right. destruct Hs as [Ht ->]. split_and!; [done| |].
      * apply wrapper_network_V0. rewrite <-Hn. by apply wrapper_network_V0.
      * exists err. apply Hin. by left.
Qed.
End composed.

(** ** Samples: a transfer of the system program. *)

Definition sample_legacy : SolanaTransactionWrapper :=
  WrapLegacy (MkSolanaTransaction [] (MkMessage (MkHeader 1 0 1)
    [replicate 32 Byte.x01; zero_key] [] [MkCompiledInstruction 1 [0] [Byte.x07]])).

Definition sample_convert (diagnostics : bool) : result VisualSignError ConversionResult :=
  crate_to_payload (M:=btree_map) (S:=truncation_hash) (Ed:=toy_ed25519)
    (W:=sample_solana.wire) (E:=derivative_engine) (H:=hex_ref) (K:=system_sdk) (F:=compact_format)
    (A:=sample_addresses) (D:=sample_codecs) (T:=sample_token_codecs) (P:=sample_idls)
    (Q:=sample_crate) (R:=sample_decoder) (fun bs => bs) (fun _ => "") [] zero_key PRESETS.*1
    (fun _ => None) (fun _ => None) (fun _ => Err "") (fun _ => None) (fun _ => "") (fun s => s)
    (fun _ => "") sample_env diagnostics sample_legacy (sample_solana.options false).

Lemma sample_converted diagnostics : ∃ res, sample_convert diagnostics = Ok res.
Proof.
  assert (is_ok (sample_convert diagnostics) = true) as Hok by (destruct diagnostics; by vm_compute).
  destruct (sample_convert diagnostics) as [res|]; [by exists res|done].
Qed.

(** The build without diagnostics shows the instruction of the legacy transaction. *)
Lemma solana_calls_shown_witness :
  ∃ res f, sample_convert false = Ok res ∧
    signable_payload_field f ∈ payload_fields (payload res) ∧
    shows_call (H:=hex_ref) (K:=system_sdk) f
      (call_context (K:=system_sdk) (wrapper_keys sample_legacy)
         (0, MkCompiledInstruction 1 [0] [Byte.x07])).
Proof.
  destruct (sample_converted false) as [res Hres]. unfold sample_convert in Hres.
  destruct (solana_calls_shown (M:=btree_map) (S:=truncation_hash) (Ed:=toy_ed25519)
    (W:=sample_solana.wire) (E:=derivative_engine) (H:=hex_ref) (K:=system_sdk)
    (F:=compact_format) (A:=sample_addresses) (D:=sample_codecs) (T:=sample_token_codecs)
    (R:=sample_decoder) _ _ _ _ _ _ _ _ _ _ _ _ _ _ _ _ _ Hres)
    as (r & _ & [Hall|[[Hd _]|[_ [Ht _]]]]); [|discriminate Hd|discriminate Ht].
  destruct (Hall 0 (MkCompiledInstruction 1 [0] [Byte.x07]) eq_refl) as [(f & Hf & Hs)|[Hd _]];
    [|discriminate Hd].
  exists res, f. split; [exact Hres|]. split; [exact Hf|exact Hs].
Defined.

Lemma solana_calls_determined_witness :
  all_calls (K:=system_sdk) sample_legacy = [(0, ProgramResolved zero_key, [Byte.x07])] ∧
  all_calls (K:=system_sdk) sample_legacy = all_calls (K:=system_sdk) sample_legacy.
Proof.
  split; [reflexivity|]. destruct (sample_converted false) as [res Hres]. unfold sample_convert in Hres.
  pose proof (solana_calls_determined (M:=btree_map) (S:=truncation_hash) (Ed:=toy_ed25519)
    (W:=sample_solana.wire) (E:=derivative_engine) (H:=hex_ref) (K:=system_sdk)
    (F:=compact_format) (A:=sample_addresses) (D:=sample_codecs) (T:=sample_token_codecs)
    (R:=sample_decoder) _ _ _ _ _ _ _ _ _ _ _ _ _ false sample_legacy sample_legacy _ _ res res
    ltac:(by_decision) Hres Hres eq_refl) as [Heq|[Ht _]]; [exact Heq|discriminate Ht].
Defined.
