(* ===== verification/TronConvert.v ===== *)
(** * Tron and unspecified chains

    [chain_parsers/visualsign-tron/src/lib.rs], from input to payload, and
    [chain_parsers/visualsign-unspecified/src/lib.rs]. The messages of [anychain_tron] have the
    fields the parser reads; their protobuf decoders are the class [TronProto]. *)

From S2P Require Import Prelude Json Payload Errors Charset External DecimalText Encodings Builders.
From S2P Require Import Registry NearText.

#[local] Unset Program Cases.

(** ** Messages *)

Record Any := MkAny { type_url : string; any_value : bytes }.

(** [transaction::Raw]; a contract is its parameter. *)
Record Raw := MkRaw {
  timestamp : Z;
  expiration : Z;
  fee_limit : Z;
  ref_block_bytes : bytes;
  ref_block_hash : bytes;
  raw_contract : list (option Any);
}.

(** [EnumOrUnknown<ResourceCode>] *)
Inductive Resource : Type := BANDWIDTH | ENERGY | TRON_POWER | UnknownResource (n : Z).

Inductive TronContract : Type :=
| TransferContract (owner_address to_address : bytes) (amount : Z)
| FreezeBalanceV2Contract (owner_address : bytes) (frozen_balance : Z) (resource : Resource)
| UnfreezeBalanceV2Contract (owner_address : bytes) (unfreeze_balance : Z) (resource : Resource)
| WithdrawExpireUnfreezeContract (owner_address : bytes)
| WithdrawBalanceContract (owner_address : bytes)
| DelegateResourceContract (owner_address receiver_address : bytes) (resource : Resource)
    (balance : Z) (lock : bool) (lock_period : Z)
| UnDelegateResourceContract (owner_address receiver_address : bytes) (resource : Resource)
    (balance : Z)
| VoteWitnessContract (owner_address : bytes) (votes : list (bytes * Z))
| OtherContract (type_url : string)
| MissingParameter.

(** The decoders [parse_from_bytes]; a failure carries its text. *)
Class TronProto : Type := {
  parse_raw : bytes → result string Raw;
  (** The inner [raw_data], when it is there. *)
  parse_wrapped : bytes → result string (option Raw);
  parse_transfer : bytes → result string (bytes * bytes * Z);
  parse_freeze : bytes → result string (bytes * Z * Resource);
  parse_unfreeze : bytes → result string (bytes * Z * Resource);
  parse_withdraw_expire : bytes → result string bytes;
  parse_withdraw_balance : bytes → result string bytes;
  parse_delegate : bytes → result string (bytes * bytes * Resource * Z * bool * Z);
  parse_undelegate : bytes → result string (bytes * bytes * Resource * Z);
  parse_vote_witness : bytes → result string (bytes * list (bytes * Z));
}.

(** [bs58] with a checksum: letters and digits, that read back. *)
Class Base58Check : Type := {
  bs58_check : bytes → string;
  bs58_check_decode : string → option bytes;
  bs58_check_reads bs : bs58_check_decode (bs58_check bs) = Some bs;
  bs58_check_alnum bs : str_all is_ascii_alphanumeric (bs58_check bs) = true;
}.

(** ** Texts *)

Section texts.
Context {H : HexCodec} {B : Base58Check}.
Context (chrono_format : Z → option string).

Definition TRON_ADDRESS_LEN : nat := 21.
Definition TRON_MAINNET_PREFIX : byte := Byte.x41.

Definition address_to_base58 (address_bytes : bytes) : string :=
  if decide (length address_bytes ≠ TRON_ADDRESS_LEN ∨ head address_bytes ≠ Some TRON_MAINNET_PREFIX)
  then "<invalid Tron address: " +:+ hex_encode address_bytes +:+ ">"
  else bs58_check address_bytes.

Definition resource_label (r : Resource) : string :=
  match r with
  | BANDWIDTH => "BANDWIDTH"
  | ENERGY => "ENERGY"
  | TRON_POWER => "TRON_POWER"
  | UnknownResource n => "UNKNOWN(" +:+ show_Z n +:+ ")"
  end.

Definition sun_to_trx_string (sun : Z) : string :=
  let '(sign, magnitude) := if decide (sun < 0)%Z then ("-", Z.abs sun) else ("", sun) in
  let whole := (magnitude `div` 1000000)%Z in
  let frac := (magnitude `mod` 1000000)%Z in
  if decide (frac = 0)%Z then sign +:+ show_Z whole
  else
    let frac_str := strip_trailing "0" (pad_left 6 (show_Z frac)) in
    sign +:+ show_Z whole +:+ "." +:+ frac_str.

Definition render_time_field (ms now_ms : Z) : string :=
  let abs := format_timestamp_ms chrono_format ms in
  match format_relative_ms chrono_format ms now_ms with
  | Some rel => abs +:+ " (" +:+ show_Z ms +:+ " ms, " +:+ rel +:+ ")"
  | None => abs +:+ " (" +:+ show_Z ms +:+ " ms)"
  end.
End texts.

(** ** Contracts *)

Section contracts.
Context {E : RegexEngine} {H : HexCodec} {B : Base58Check} {T : TronProto}.

Definition contract_error (name e : string) : VisualSignError :=
  ConversionError ("decode " +:+ name +:+ ": " +:+ e).

(** The message behind a type URL. *)
Definition parse_contract (url : string) (value : bytes) : result VisualSignError TronContract :=
  if decide (url = "type.googleapis.com/protocol.TransferContract") then
    '(owner, to, amount) ← map_err (contract_error "TransferContract") (parse_transfer value);
    Ok (TransferContract owner to amount)
  else if decide (url = "type.googleapis.com/protocol.FreezeBalanceV2Contract") then
    '(owner, balance, resource) ← map_err (contract_error "FreezeBalanceV2Contract") (parse_freeze value);
    Ok (FreezeBalanceV2Contract owner balance resource)
  else if decide (url = "type.googleapis.com/protocol.UnfreezeBalanceV2Contract") then
    '(owner, balance, resource) ← map_err (contract_error "UnfreezeBalanceV2Contract") (parse_unfreeze value);
    Ok (UnfreezeBalanceV2Contract owner balance resource)
  else if decide (url = "type.googleapis.com/protocol.WithdrawExpireUnfreezeContract") then
    owner ← map_err (contract_error "WithdrawExpireUnfreezeContract") (parse_withdraw_expire value);
    Ok (WithdrawExpireUnfreezeContract owner)
  else if decide (url = "type.googleapis.com/protocol.WithdrawBalanceContract") then
    owner ← map_err (contract_error "WithdrawBalanceContract") (parse_withdraw_balance value);
    Ok (WithdrawBalanceContract owner)
  else if decide (url = "type.googleapis.com/protocol.DelegateResourceContract") then
    '(owner, receiver, resource, balance, lock, period) ←
      map_err (contract_error "DelegateResourceContract") (parse_delegate value);
    Ok (DelegateResourceContract owner receiver resource balance lock period)
  else if decide (url = "type.googleapis.com/protocol.UnDelegateResourceContract") then
    '(owner, receiver, resource, balance) ←
      map_err (contract_error "UnDelegateResourceContract") (parse_undelegate value);
    Ok (UnDelegateResourceContract owner receiver resource balance)
  else if decide (url = "type.googleapis.com/protocol.VoteWitnessContract") then
    '(owner, votes) ← map_err (contract_error "VoteWitnessContract") (parse_vote_witness value);
    Ok (VoteWitnessContract owner votes)
  else Ok (OtherContract url).

Definition address_field (label : string) (address : bytes)
    : result VisualSignError AnnotatedPayloadField :=
  create_address_field label (address_to_base58 address) None None None None.

Definition trx_field (label : string) (sun : Z) : result VisualSignError AnnotatedPayloadField :=
  create_amount_field label (sun_to_trx_string sun) "TRX".

(** [i64::saturating_add] *)
Definition saturating_add (a b : Z) : Z := Z.max (- 2 ^ 63) (Z.min (2 ^ 63 - 1) (a + b)).

Definition vote_fields (e : nat * (bytes * Z))
    : result VisualSignError (list AnnotatedPayloadField) :=
  let n := show_nat (e.1 + 1) in
  sr ← address_field ("Vote " +:+ n +:+ " (SR)") e.2.1;
  count ← create_text_field ("Vote " +:+ n +:+ " (Count)") (show_Z e.2.2);
  Ok [sr; count].

Definition votes_field (votes : list (bytes * Z)) : result VisualSignError AnnotatedPayloadField :=
  detail_fields ← collect_results vote_fields (imap pair votes);
  let total := foldl saturating_add 0%Z votes.*2 in
  let subtitle := show_Z total +:+ " votes across " +:+ show_nat (length votes) +:+ " SRs" in
  summary ← create_text_field "Summary" subtitle;
  Ok (annotate_field
        (PreviewLayout (Common ("Vote Witness: " +:+ subtitle) "Votes")
           (FieldPreviewLayout (Some (FieldTextV2 "Vote Witness")) (Some (FieldTextV2 subtitle))
              (Some (FieldListLayout [summary])) (Some (FieldListLayout (concat detail_fields)))))).

Definition contract_type_field (text : string) : result VisualSignError AnnotatedPayloadField :=
  create_text_field "Contract Type" text.

(** What the converter shows of a contract. *)
Definition contract_fields (c : TronContract) : result VisualSignError (list AnnotatedPayloadField) :=
  match c with
  | TransferContract owner to amount =>
      all_fields [contract_type_field "TransferContract (TRX Transfer)";
        address_field "From" owner; address_field "To" to; trx_field "Amount" amount]
  | FreezeBalanceV2Contract owner balance resource =>
      all_fields [contract_type_field "FreezeBalanceV2 (Stake)"; address_field "Owner" owner;
        trx_field "Frozen Balance" balance; create_text_field "Resource" (resource_label resource)]
  | UnfreezeBalanceV2Contract owner balance resource =>
      all_fields [contract_type_field "UnfreezeBalanceV2 (Unstake)"; address_field "Owner" owner;
        trx_field "Unfreeze Balance" balance; create_text_field "Resource" (resource_label resource)]
  | WithdrawExpireUnfreezeContract owner =>
      all_fields [contract_type_field "WithdrawExpireUnfreeze (Claim Unfrozen)";
        address_field "Owner" owner]
  | WithdrawBalanceContract owner =>
      all_fields [contract_type_field "WithdrawBalance (Claim Rewards)"; address_field "Owner" owner]
  | DelegateResourceContract owner receiver resource balance lock period =>
      all_fields ([contract_type_field "DelegateResource"; address_field "Owner" owner;
        address_field "Receiver" receiver; create_text_field "Resource" (resource_label resource);
        trx_field "Balance" balance; create_text_field "Lock" (if lock then "true" else "false")]
        ++ (if lock || bool_decide (period ≠ 0%Z)
            then [create_text_field "Lock Period" (show_Z period)] else []))
  | UnDelegateResourceContract owner receiver resource balance =>
      all_fields [contract_type_field "UnDelegateResource"; address_field "Owner" owner;
        address_field "Receiver" receiver; create_text_field "Resource" (resource_label resource);
        trx_field "Balance" balance]
  | VoteWitnessContract owner votes =>
      all_fields [contract_type_field "Vote Witness"; address_field "Owner" owner; votes_field votes]
  | OtherContract other => all_fields [contract_type_field (other +:+ " (not fully decoded)")]
  | MissingParameter => all_fields [contract_type_field "<missing parameter>"]
  end.

Definition decode_contract (url : string) (value : bytes)
    : result VisualSignError (list AnnotatedPayloadField) :=
  c ← parse_contract url value;
  contract_fields c.

Definition entry_fields (parameter : option Any) : result VisualSignError (list AnnotatedPayloadField) :=
  match parameter with
  | Some p => decode_contract (type_url p) (any_value p)
  | None => contract_fields MissingParameter
  end.
End contracts.

(** ** The converter *)

Section convert.
Context {M : SerdeMap} {F : JsonFormat} {J : JsonErrorText}.
Context {E : RegexEngine} {H : HexCodec} {B : Base58Check} {T : TronProto}.
Context (chrono_format : Z → option string) (show_hex : FromHexError → string)
  (b64_decode : string → result string bytes).

Definition parse_tron_bytes (bs : bytes) : result string Raw :=
  let wrapped_raw := match parse_wrapped bs with Ok w => w | Err _ => None end in
  match parse_raw bs, wrapped_raw with
  | Ok bare, Some wrapped =>
      if decide (raw_contract bare ≠ []) then Ok bare
      else if decide (raw_contract wrapped ≠ []) then Ok wrapped
      else Ok bare
  | Ok bare, None => Ok bare
  | Err _, Some wrapped => Ok wrapped
  | Err e, None => Err ("Failed to parse Tron transaction: " +:+ e)
  end.

Definition decode_transaction (raw_transaction : string) (encoding : SupportedEncodings)
    : result string Raw :=
  bs ← match encoding with
       | Hex => map_err (fun e => "Failed to decode hex: " +:+ show_hex e) (decode_hex raw_transaction)
       | Base64 => map_err (fun e => "Failed to decode base64: " +:+ e) (b64_decode raw_transaction)
       end;
  parse_tron_bytes bs.

Definition tron_from_string (data : string) : result TransactionParseError Raw :=
  map_err (fun e => ParseDecodeError ("Failed to decode transaction: " +:+ e))
    (decode_transaction data (detect data)).

Definition header_fields (raw : Raw) (now_ms : Z)
    : result VisualSignError (list AnnotatedPayloadField) :=
  all_fields
    [create_text_field "Network" "Tron";
     create_text_field "Timestamp" (render_time_field chrono_format (timestamp raw) now_ms);
     create_text_field "Expiration" (render_time_field chrono_format (expiration raw) now_ms);
     trx_field "Fee Limit" (fee_limit raw);
     create_text_field "Ref Block" (hex_encode (ref_block_bytes raw));
     create_text_field "Ref Block Hash" (hex_encode (ref_block_hash raw))].

Definition convert_to_visual_sign_payload (now_ms : Z) (raw : Raw) (options : VisualSignOptions)
    : result VisualSignError SignablePayload :=
  fields ← header_fields raw now_ms;
  contracts ← collect_results entry_fields (raw_contract raw);
  let title := default "Tron Transaction" (transaction_name options) in
  Ok (SignablePayload_new 0 title None
        (signable_payload_field <$> fields ++ concat contracts) "TronTx").

Definition tron_to_payload (now_ms : Z) (raw : Raw) (options : VisualSignOptions)
    : result VisualSignError ConversionResult :=
  payload ← convert_to_visual_sign_payload now_ms raw options;
  Ok (ConversionResult_new payload).

(** The converter at a time of the clock. *)
Definition tron_converter (now_ms : Z) : converter Raw :=
  default_converter tron_from_string (tron_to_payload now_ms).

Definition transaction_to_visual_sign (now_ms : Z) (raw : Raw) (options : VisualSignOptions)
    : result VisualSignError SignablePayload :=
  payload <$> to_visual_sign_payload _ (tron_converter now_ms) raw options.

Definition transaction_string_to_visual_sign (now_ms : Z) (data : string) (options : VisualSignOptions)
    : result VisualSignError SignablePayload :=
  payload <$> to_visual_sign_payload_from_string _ (tron_converter now_ms) data options.
End convert.

(** ** Unspecified chains *)

Section unspecified.
Context {M : SerdeMap} {F : JsonFormat} {J : JsonErrorText}.

Definition unspecified_from_string (data : string) : result TransactionParseError string := Ok data.

Definition unspecified_to_payload (raw_data : string) (options : VisualSignOptions)
    : result VisualSignError ConversionResult :=
  Ok (ConversionResult_new
        (SignablePayload_new 0 "Unspecified Transaction" None
           [text_v2 "Network" "Unspecified Chain";
            TextV2 (Common "Raw Data" "Raw Data") (FieldTextV2 raw_data)]
           "fill in parsed signable payload")).

Definition unspecified_converter : converter string :=
  default_converter unspecified_from_string unspecified_to_payload.

Definition unspecified_to_visual_sign (raw_data : string) (options : VisualSignOptions)
    : result VisualSignError SignablePayload :=
  payload <$> to_visual_sign_payload _ unspecified_converter raw_data options.

Definition unspecified_string_to_visual_sign (data : string) (options : VisualSignOptions)
    : result VisualSignError SignablePayload :=
  payload <$> to_visual_sign_payload_from_string _ unspecified_converter data options.
End unspecified.

(** ** Amounts *)

(** The units a signed decimal text stands for. *)
Definition read_signed (decimals : N) (t : string) : Z :=
  match strip_prefix "-" t with
  | Some t => - read_units decimals t
  | None => read_units decimals t
  end%Z.

Lemma sun_to_trx_fixed sun :
  sun_to_trx_string sun =
    (if decide (sun < 0)%Z then "-" else "") +:+ fixed_text (Z.to_N (Z.abs sun)) 1000000 6.
Proof.
  unfold sun_to_trx_string, fixed_text. rewrite Z2N.id by lia.
  case_decide; [|rewrite Z.abs_eq by lia]; by case_decide.
Qed.

Lemma fixed_text_head u s d :
  (0 < s)%Z → ∃ c t, fixed_text u s d = String c t ∧ is_ascii_digit c = true.
Proof.
  intros Hs. unfold fixed_text. pose proof (Z.div_pos (Z.of_N u) s ltac:(lia) Hs) as Hq.
  pose proof (show_Z_nonempty _ Hq) as Hn. pose proof (show_nonneg_digits _ Hq) as Hd.
  destruct (show_Z (Z.of_N u `div` s)) as [|c t]; [done|]. cbn in Hd.
  apply andb_true_iff in Hd as [Hc _].
  case_decide; eexists c, _; (split; [by rewrite ?str_cons_app|done]).
Qed.

Lemma negative_proper c t :
  is_ascii_digit c = true → signed_proper (String c t) → signed_proper ("-" +:+ String c t).
Proof.
  intros Hc (sg & i & f & Eq & Hsg & Hi & Hf).
  assert (sg = "") as ->.
  { destruct Hsg as [->|[->| ->]]; [done|..]; exfalso; injection Eq as -> _; discriminate Hc. }
  exists "-", i, f. split; [by rewrite Eq, str_nil_app|]. split; [by right; left|done].
Qed.

(** Amounts are shown exactly: the text is a number the field builders accept, and stands for the
    amount in millionths, whatever its sign. *)
Theorem sun_to_trx_exact sun :
  signed_proper (sun_to_trx_string sun) ∧ read_signed 6 (sun_to_trx_string sun) = sun.
Proof.
  rewrite sun_to_trx_fixed.
  pose proof (read_fixed_text (Z.to_N (Z.abs sun)) 6) as Hr. rewrite Z2N.id in Hr by lia.
  change (10 ^ Z.of_N 6)%Z with 1000000%Z in Hr.
  pose proof (fixed_text_proper (Z.to_N (Z.abs sun)) 1000000 6 ltac:(lia)) as Hp.
  destruct (fixed_text_head (Z.to_N (Z.abs sun)) 1000000 6) as (c & t & Ht & Hc); [lia|].
  rewrite Ht in *. unfold read_signed. case_decide.
  - split; [by apply negative_proper|]. rewrite strip_prefix_app, Hr. lia.
  - rewrite str_nil_app. split; [done|].
    assert (strip_prefix "-" (String c t) = None) as -> by by ascii_cases c.
    rewrite Hr. lia.
Qed.

Lemma sun_to_trx_inj a b : sun_to_trx_string a = sun_to_trx_string b → a = b.
Proof.
  intros Eq. rewrite <-(proj2 (sun_to_trx_exact a)), Eq. apply sun_to_trx_exact.
Qed.

(** ** What each field shows *)

(** A list cut into blocks that each begin with a marked element and have no other has one such
    cut. *)
Lemma blocks_inj {A} (mark : A → bool) (blocks : list (list A)) : ∀ blocks',
  Forall (fun b => ∃ x l, b = x :: l ∧ mark x = true ∧ Forall (fun y => mark y = false) l) blocks →
  Forall (fun b => ∃ x l, b = x :: l ∧ mark x = true ∧ Forall (fun y => mark y = false) l) blocks' →
  concat blocks = concat blocks' → blocks = blocks'.
Proof.
  assert (∀ (l l' r r' : list A), Forall (fun y => mark y = false) l → Forall (fun y => mark y = false) l' →
    (∀ x t, r = x :: t → mark x = true) → (∀ x t, r' = x :: t → mark x = true) →
    l ++ r = l' ++ r' → l = l' ∧ r = r') as Hcut.
  { induction l as [|x l IH]; intros [|x' l'] r r' Hl Hl' Hr Hr' Eq; cbn in Eq.
    - done.
    - apply Forall_cons in Hl' as [Hx _]. by rewrite (Hr _ _ Eq) in Hx.
    - apply Forall_cons in Hl as [Hx _]. symmetry in Eq. by rewrite (Hr' _ _ Eq) in Hx.
    - apply Forall_cons in Hl as [_ Hl], Hl' as [_ Hl']. injection Eq as -> Eq.
      by destruct (IH l' r r' Hl Hl' Hr Hr' Eq) as [-> ->]. }
  assert (∀ bs x t, Forall (fun b => ∃ x l, b = x :: l ∧ mark x = true ∧
    Forall (fun y => mark y = false) l) bs → concat bs = x :: t → mark x = true) as Hhead.
  { intros [|b bs] x t Hb Eq; [done|]. apply Forall_cons in Hb as [(y & l & -> & Hy & _) _].
    by injection Eq as <- _. }
  induction blocks as [|b blocks IH]; intros [|b' blocks'] Hb Hb' Eq; cbn in Eq.
  - done.
  - apply Forall_cons in Hb' as [(x & l & -> & _) _]. done.
  - apply Forall_cons in Hb as [(x & l & -> & _) _]. done.
  - apply Forall_cons in Hb as [(x & l & -> & _ & Hl) Hb], Hb' as [(x' & l' & -> & _ & Hl') Hb'].
    injection Eq as -> Eq.
    destruct (Hcut l l' (concat blocks) (concat blocks')) as [-> Er]; [done|done|by eauto..|done|].
    f_equal. by apply IH.
Qed.

Section shown.
Context {E : RegexEngine} {H : HexCodec} {B : Base58Check}.

Lemma address_to_base58_inj a b : address_to_base58 a = address_to_base58 b → a = b.
Proof.
  assert (∀ x t, bs58_check x ≠ "<invalid Tron address: " +:+ t) as Hne.
  { intros x t Eq. pose proof (bs58_check_alnum x) as Ha. rewrite Eq in Ha. done. }
  unfold address_to_base58. case_decide; case_decide; intros Eq.
  - apply (inj (String.append _)), str_app_inj_l in Eq. by apply hex_encode_inj.
  - by apply eq_sym, Hne in Eq.
  - by apply Hne in Eq.
  - pose proof (bs58_check_reads a) as Ea. rewrite Eq, bs58_check_reads in Ea. congruence.
Qed.

Lemma resource_label_inj r r' : resource_label r = resource_label r' → r = r'.
Proof.
  destruct r, r'; cbn [resource_label]; intros Eq; try done.
  apply (inj (String.append _)), str_app_inj_l in Eq. by apply show_Z_inj in Eq as ->.
Qed.

(** The fields as values: none of the builders fails. *)
Definition address_row (label : string) (a : bytes) : AnnotatedPayloadField :=
  annotate_field (address_v2 label (address_to_base58 a)).

Definition trx_row (label : string) (sun : Z) : AnnotatedPayloadField :=
  annotate_field (AmountV2 (Common (sun_to_trx_string sun +:+ " TRX") label)
                    (FieldAmountV2 (sun_to_trx_string sun) (Some "TRX"))).

Definition plain_row (label text : string) : AnnotatedPayloadField := annotate_field (text_v2 label text).

Definition vote_rows (e : nat * (bytes * Z)) : list AnnotatedPayloadField :=
  [address_row ("Vote " +:+ show_nat (e.1 + 1) +:+ " (SR)") e.2.1;
   plain_row ("Vote " +:+ show_nat (e.1 + 1) +:+ " (Count)") (show_Z e.2.2)].

Definition votes_row (votes : list (bytes * Z)) : AnnotatedPayloadField :=
  let subtitle := show_Z (foldl saturating_add 0%Z votes.*2) +:+ " votes across "
                  +:+ show_nat (length votes) +:+ " SRs" in
  annotate_field
    (PreviewLayout (Common ("Vote Witness: " +:+ subtitle) "Votes")
       (FieldPreviewLayout (Some (FieldTextV2 "Vote Witness")) (Some (FieldTextV2 subtitle))
          (Some (FieldListLayout [plain_row "Summary" subtitle]))
          (Some (FieldListLayout (concat (vote_rows <$> imap pair votes)))))).

(** The kind of a contract, and the rows behind it. *)
Definition contract_kind (c : TronContract) : string :=
  match c with
  | TransferContract _ _ _ => "TransferContract (TRX Transfer)"
  | FreezeBalanceV2Contract _ _ _ => "FreezeBalanceV2 (Stake)"
  | UnfreezeBalanceV2Contract _ _ _ => "UnfreezeBalanceV2 (Unstake)"
  | WithdrawExpireUnfreezeContract _ => "WithdrawExpireUnfreeze (Claim Unfrozen)"
  | WithdrawBalanceContract _ => "WithdrawBalance (Claim Rewards)"
  | DelegateResourceContract _ _ _ _ _ _ => "DelegateResource"
  | UnDelegateResourceContract _ _ _ _ => "UnDelegateResource"
  | VoteWitnessContract _ _ => "Vote Witness"
  | OtherContract other => other +:+ " (not fully decoded)"
  | MissingParameter => "<missing parameter>"
  end.

Definition contract_details (c : TronContract) : list AnnotatedPayloadField :=
  match c with
  | TransferContract owner to amount =>
      [address_row "From" owner; address_row "To" to; trx_row "Amount" amount]
  | FreezeBalanceV2Contract owner balance resource =>
      [address_row "Owner" owner; trx_row "Frozen Balance" balance;
       plain_row "Resource" (resource_label resource)]
  | UnfreezeBalanceV2Contract owner balance resource =>
      [address_row "Owner" owner; trx_row "Unfreeze Balance" balance;
       plain_row "Resource" (resource_label resource)]
  | WithdrawExpireUnfreezeContract owner | WithdrawBalanceContract owner => [address_row "Owner" owner]
  | DelegateResourceContract owner receiver resource balance lock period =>
      [address_row "Owner" owner; address_row "Receiver" receiver;
       plain_row "Resource" (resource_label resource); trx_row "Balance" balance;
       plain_row "Lock" (if lock then "true" else "false")]
      ++ (if lock || bool_decide (period ≠ 0%Z) then [plain_row "Lock Period" (show_Z period)] else [])
  | UnDelegateResourceContract owner receiver resource balance =>
      [address_row "Owner" owner; address_row "Receiver" receiver;
       plain_row "Resource" (resource_label resource); trx_row "Balance" balance]
  | VoteWitnessContract owner votes => [address_row "Owner" owner; votes_row votes]
  | OtherContract _ | MissingParameter => []
  end.

Definition contract_rows (c : TronContract) : list AnnotatedPayloadField :=
  plain_row "Contract Type" (contract_kind c) :: contract_details c.

Lemma trx_field_row label sun : trx_field label sun = Ok (trx_row label sun).
Proof.
  unfold trx_field, create_amount_field.
  by rewrite (proj2 (validate_number_string_ok _) (proj1 (sun_to_trx_exact sun))).
Qed.

Lemma votes_field_row votes : votes_field votes = Ok (votes_row votes).
Proof.
  unfold votes_field.
  assert (collect_results vote_fields (imap pair votes) = Ok (vote_rows <$> imap pair votes)) as ->.
  { apply collect_results_Ok, Forall2_fmap_r, Forall_Forall2_diag, Forall_true. done. }
  done.
Qed.

Lemma contract_fields_rows c : contract_fields c = Ok (contract_rows c).
Proof.
  destruct c; cbn [contract_fields]; unfold all_fields; rewrite ?trx_field_row, ?votes_field_row; try done.
  unfold contract_rows, contract_details. by destruct (lock || bool_decide (lock_period ≠ 0%Z)).
Qed.

(** *** The contract is determined *)

Lemma address_row_inj label label' a b : address_row label a = address_row label' b → label = label' ∧ a = b.
Proof.
  unfold address_row, annotate_field, address_v2. intros Eq. split; [congruence|].
  apply address_to_base58_inj. congruence.
Qed.

Lemma trx_row_inj label label' a b : trx_row label a = trx_row label' b → a = b.
Proof. unfold trx_row, annotate_field. intros Eq. apply sun_to_trx_inj. congruence. Qed.

Lemma plain_row_inj label label' a b : plain_row label a = plain_row label' b → a = b.
Proof. unfold plain_row, annotate_field, text_v2. congruence. Qed.

Lemma number_row_inj label label' a b : plain_row label (show_Z a) = plain_row label' (show_Z b) → a = b.
Proof. intros Eq%plain_row_inj. by apply show_Z_inj. Qed.

Lemma vote_rows_inj n votes : ∀ votes',
  concat (vote_rows <$> imap (fun i v => (n + i, v)) votes) =
  concat (vote_rows <$> imap (fun i v => (n + i, v)) votes') → votes = votes'.
Proof.
  revert n. induction votes as [|[a x] votes IH]; intros n [|[a' x'] votes'] Eq; try done.
  assert (∀ l : list (bytes * Z), imap ((fun i v => (n + i, v)) ∘ S) l = imap (fun i v => (S n + i, v)) l)
    as Hs by (intros l; apply imap_ext; intros; cbn; f_equal; lia).
  rewrite !imap_cons, !fmap_cons, !Hs in Eq. cbn [concat app vote_rows fst snd] in Eq.
  pose proof (f_equal (fun l => l !! 0) Eq) as Ea%(inj Some)%address_row_inj.
  pose proof (f_equal (fun l => l !! 1) Eq) as Ex%(inj Some)%number_row_inj.
  pose proof (f_equal (drop 2) Eq) as Er%IH. destruct Ea as [_ ->]. by subst.
Qed.

Lemma votes_row_inj votes votes' : votes_row votes = votes_row votes' → votes = votes'.
Proof.
  unfold votes_row, annotate_field. cbv zeta. intros Eq.
  apply (vote_rows_inj 0). cbn [Nat.add].
  injection Eq as _ _ _ _ Er. exact Er.
Qed.

Lemma ends_with_app u t : ends_with t (u +:+ t) = true.
Proof.
  induction u as [|c u IH]; [rewrite str_nil_app|rewrite str_cons_app].
  - unfold ends_with. destruct t; by rewrite bool_decide_eq_true_2.
  - cbn [ends_with]. rewrite IH. by apply orb_true_r.
Qed.

Lemma contract_kind_inj c c' :
  contract_kind c = contract_kind c' →
  match c, c' with
  | TransferContract _ _ _, TransferContract _ _ _
  | FreezeBalanceV2Contract _ _ _, FreezeBalanceV2Contract _ _ _
  | UnfreezeBalanceV2Contract _ _ _, UnfreezeBalanceV2Contract _ _ _
  | WithdrawExpireUnfreezeContract _, WithdrawExpireUnfreezeContract _
  | WithdrawBalanceContract _, WithdrawBalanceContract _
  | DelegateResourceContract _ _ _ _ _ _, DelegateResourceContract _ _ _ _ _ _
  | UnDelegateResourceContract _ _ _ _, UnDelegateResourceContract _ _ _ _
  | VoteWitnessContract _ _, VoteWitnessContract _ _
  | MissingParameter, MissingParameter => True
  | OtherContract u, OtherContract u' => u = u'
  | _, _ => False
  end.
Proof.
  assert (∀ u t, ends_with " (not fully decoded)" t = false → u +:+ " (not fully decoded)" ≠ t) as Hne.
  { intros u t Ht Eq. rewrite <-Eq in Ht. by rewrite ends_with_app in Ht. }
  destruct c, c'; cbn [contract_kind]; intros Eq; try done;
    try (by apply str_app_inj_l in Eq); exfalso;
    solve [revert Eq; by apply Hne|symmetry in Eq; revert Eq; by apply Hne].
Qed.

(** Equal rows show equal values. *)
Ltac row_eqs :=
  repeat match goal with
  | E : Some (address_row _ _) = Some (address_row _ _) |- _ =>
      apply (inj Some), address_row_inj, proj2 in E; subst
  | E : Some (trx_row _ _) = Some (trx_row _ _) |- _ => apply (inj Some), trx_row_inj in E; subst
  | E : Some (votes_row _) = Some (votes_row _) |- _ => apply (inj Some), votes_row_inj in E; subst
  | E : Some (plain_row _ (resource_label _)) = Some (plain_row _ (resource_label _)) |- _ =>
      apply (inj Some), plain_row_inj, resource_label_inj in E; subst
  end.

Lemma contract_rows_inj c c' : contract_rows c = contract_rows c' → c = c'.
Proof.
  unfold contract_rows. intros Eq.
  assert (contract_kind c = contract_kind c') as Hk by (unfold plain_row, annotate_field, text_v2 in Eq; congruence).
  assert (contract_details c = contract_details c') as Hd by congruence. clear Eq.
  apply contract_kind_inj in Hk. destruct c, c'; try done; cbn [contract_details app] in Hd.
  all: pose proof (f_equal (fun l => l !! 0) Hd) as E0; pose proof (f_equal (fun l => l !! 1) Hd) as E1;
    pose proof (f_equal (fun l => l !! 2) Hd) as E2; pose proof (f_equal (fun l => l !! 3) Hd) as E3;
    pose proof (f_equal (fun l => l !! 4) Hd) as E4; pose proof (f_equal (fun l => l !! 5) Hd) as E5;
    clear Hd; cbn [lookup list_lookup] in E0, E1, E2, E3, E4, E5; row_eqs; try by f_equal.
  apply (inj Some), plain_row_inj in E4. assert (lock = lock0) as -> by (by destruct lock, lock0).
  assert (lock_period = lock_period0) as ->; [|done].
  destruct lock0; cbn [orb] in E5; [by apply (inj Some), number_row_inj in E5|].
  case_bool_decide; case_bool_decide; try done; [by apply (inj Some), number_row_inj in E5|].
  destruct (decide (lock_period = 0%Z)), (decide (lock_period0 = 0%Z)); naive_solver.
Qed.

Definition marks_contract (f : AnnotatedPayloadField) : bool :=
  bool_decide (common_label (field_common (signable_payload_field f)) = "Contract Type").

Lemma contract_block c :
  ∃ x l, contract_rows c = x :: l ∧ marks_contract x = true ∧
    Forall (fun y => marks_contract y = false) l.
Proof.
  exists (plain_row "Contract Type" (contract_kind c)), (contract_details c). split_and!; [done|done|].
  destruct c; cbn [contract_details]; repeat constructor.
  destruct (lock || _); repeat constructor.
Qed.

Lemma contracts_inj cs cs' :
  concat (contract_rows <$> cs) = concat (contract_rows <$> cs') → cs = cs'.
Proof.
  intros Eq. apply (blocks_inj marks_contract) in Eq;
    [|apply Forall_fmap, Forall_true; intros c; apply contract_block..].
  revert Eq. apply list_fmap_eq_inj. intros c c'. apply contract_rows_inj.
Qed.
End shown.

(** ** The payload *)

Section payloads.
Context {M : SerdeMap} {F : JsonFormat} {J : JsonErrorText}.
Context {E : RegexEngine} {H : HexCodec} {B : Base58Check} {T : TronProto}.
Context (chrono_format : Z → option string) (show_hex : FromHexError → string)
  (b64_decode : string → result string bytes).

(** The contracts of a transaction. *)
Definition entry_contract (parameter : option Any) : result VisualSignError TronContract :=
  match parameter with
  | Some p => parse_contract (type_url p) (any_value p)
  | None => Ok MissingParameter
  end.

Definition raw_contracts (raw : Raw) : result VisualSignError (list TronContract) :=
  collect_results entry_contract (raw_contract raw).

Definition header_rows (raw : Raw) (now_ms : Z) : list AnnotatedPayloadField :=
  [plain_row "Network" "Tron";
   plain_row "Timestamp" (render_time_field chrono_format (timestamp raw) now_ms);
   plain_row "Expiration" (render_time_field chrono_format (expiration raw) now_ms);
   trx_row "Fee Limit" (fee_limit raw);
   plain_row "Ref Block" (hex_encode (ref_block_bytes raw));
   plain_row "Ref Block Hash" (hex_encode (ref_block_hash raw))].

Lemma header_fields_rows raw now : header_fields chrono_format raw now = Ok (header_rows raw now).
Proof. unfold header_fields, all_fields. by rewrite trx_field_row. Qed.

Lemma entry_fields_rows p : entry_fields p = fmap (M:=result VisualSignError) contract_rows (entry_contract p).
Proof.
  destruct p as [p|]; cbn [entry_fields entry_contract]; [|by rewrite contract_fields_rows].
  unfold decode_contract. destruct (parse_contract _ _) as [c|]; [|done]. cbn.
  by rewrite contract_fields_rows.
Qed.

Lemma collect_results_fmap {X Y Y' Er} (f : X → result Er Y) (g : Y → Y') l :
  collect_results (fun x => fmap (M:=result Er) g (f x)) l =
  fmap (M:=result Er) (fmap (M:=list) g) (collect_results f l).
Proof.
  induction l as [|x l IH]; [done|]. cbn [collect_results]. rewrite IH.
  destruct (f x); [|done]. by destruct (collect_results f l).
Qed.

(** A transaction is refused only for a contract of a supported type that does not decode, and the
    payload is its header and, in order, the rows of each of its contracts. *)
Lemma payload_exact now raw options :
  convert_to_visual_sign_payload chrono_format now raw options =
    (cs ← raw_contracts raw;
     Ok (SignablePayload_new 0 (default "Tron Transaction" (transaction_name options)) None
           (signable_payload_field <$> header_rows raw now ++ concat (contract_rows <$> cs)) "TronTx")).
Proof.
  unfold convert_to_visual_sign_payload. rewrite header_fields_rows. cbn [mbind result_bind].
  rewrite (collect_results_ext entry_fields (fun p => fmap (M:=result VisualSignError) contract_rows (entry_contract p))),
    collect_results_fmap by (apply Forall_true, entry_fields_rows).
  unfold raw_contracts. by destruct (collect_results entry_contract _).
Qed.

Definition contracts_shown (cs : list TronContract) : list SignablePayloadField :=
  signable_payload_field <$> concat (contract_rows <$> cs).

Definition unannotated (f : AnnotatedPayloadField) : Prop := f = annotate_field (signable_payload_field f).

Lemma contract_rows_unannotated c : Forall unannotated (contract_rows c).
Proof.
  constructor; [done|]. destruct c; cbn [contract_details]; repeat constructor.
  destruct (lock || _); repeat constructor.
Qed.

Lemma unannotated_inj l l' :
  Forall unannotated l → Forall unannotated l' →
  signable_payload_field <$> l = signable_payload_field <$> l' → l = l'.
Proof.
  intros Hl. revert l'. induction Hl as [|f l Hf _ IH]; intros [|f' l'] Hl' Eq; try done.
  apply Forall_cons in Hl' as [Hf' Hl']. rewrite !fmap_cons in Eq.
  f_equal; [rewrite Hf, Hf'; congruence|]. apply IH; [done|congruence].
Qed.

Lemma contracts_shown_inj cs cs' : contracts_shown cs = contracts_shown cs' → cs = cs'.
Proof.
  intros Eq. apply contracts_inj. apply unannotated_inj; [..|exact Eq];
    apply Forall_concat, Forall_fmap, Forall_true; apply contract_rows_unannotated.
Qed.

(** The text of a field. *)
Definition text_at (i : nat) (l : list SignablePayloadField) : string :=
  match l !! i with
  | Some (TextV2 _ t) => text_v2_text t
  | Some (AmountV2 _ a) => amount_v2_amount a
  | _ => ""
  end.

(** Chrono's text of a date has no parenthesis. *)
Definition plain_dates : Prop :=
  ∀ ms t, chrono_format ms = Some t → str_all (fun c => negb (bool_decide (c = "("%char))) t = true.

Lemma render_time_inj ms ms' now now' :
  plain_dates → render_time_field chrono_format ms now = render_time_field chrono_format ms' now' →
  ms = ms'.
Proof.
  intros Hp.
  assert (∀ ms, str_all (fun c => negb (bool_decide (c = "("%char))) (format_timestamp_ms chrono_format ms +:+ " ") = true) as Hd.
  { intros m. rewrite str_all_app. apply andb_true_iff. split; [|done]. unfold format_timestamp_ms.
    destruct (chrono_format m) eqn:Hm; [by eapply Hp|done]. }
  assert (∀ ms now, ∃ rest, render_time_field chrono_format ms now =
    (format_timestamp_ms chrono_format ms +:+ " ") +:+ String "(" (show_Z ms +:+ String " " rest)) as Hr.
  { intros m n. unfold render_time_field. destruct (format_relative_ms _ _ _);
      eexists; by rewrite <-!str_app_assoc. }
  destruct (Hr ms now) as [r ->], (Hr ms' now') as [r' ->]. intros Eq.
  apply str_split_inj in Eq as [_ Eq]; [|apply Hd..].
  apply str_split_inj in Eq as [Eq _]; [by apply show_Z_inj|..];
    (eapply str_all_impl; [|apply show_Z_number_text]; intros c; by ascii_cases c).
Qed.
(** C28: What is signed determines a Tron transaction. Two transactions whose payloads have the same
    fields, rendered at whatever times, have the same timestamp, expiration, fee limit and
    reference block, and the same contracts in the same order: parties, amounts, resources, locks
    and votes of every supported contract, the type URL of every other. *)
Theorem tron_payload_determines now now' raw raw' options options' p p' :
  plain_dates →
  convert_to_visual_sign_payload chrono_format now raw options = Ok p →
  convert_to_visual_sign_payload chrono_format now' raw' options' = Ok p' →
  payload_fields p = payload_fields p' →
  timestamp raw = timestamp raw' ∧ expiration raw = expiration raw' ∧ fee_limit raw = fee_limit raw' ∧
  ref_block_bytes raw = ref_block_bytes raw' ∧ ref_block_hash raw = ref_block_hash raw' ∧
  raw_contracts raw = raw_contracts raw'.
Proof.
  intros Hd. rewrite !payload_exact.
  intros (cs & Hcs & <-%(inj Ok))%result_bind_Ok (cs' & Hcs' & <-%(inj Ok))%result_bind_Ok.
  cbn [payload_fields SignablePayload_new]. rewrite !fmap_app. intros Eq.
  apply app_inj_1 in Eq as [Eh Ec]; [|done].
  assert (contracts_shown cs = contracts_shown cs') as Ec' by exact Ec. clear Ec.
  assert (cs = cs') as <- by by apply contracts_shown_inj.
  pose proof (f_equal (fun l => text_at 1 l) Eh) as E1%render_time_inj; [|done].
  pose proof (f_equal (fun l => text_at 2 l) Eh) as E2%render_time_inj; [|done].
  pose proof (f_equal (fun l => text_at 3 l) Eh) as E3%sun_to_trx_inj.
  pose proof (f_equal (fun l => text_at 4 l) Eh) as E4%hex_encode_inj.
  pose proof (f_equal (fun l => text_at 5 l) Eh) as E5%hex_encode_inj.
  by rewrite Hcs, Hcs'.
Qed.

(** Both wire forms are tried. A transaction that is accepted is one of the two readings, it has
    contracts when either reading has some, and only bytes that neither form fits are refused. *)
Theorem tron_form_choice bs :
  match parse_tron_bytes bs with
  | Ok raw =>
      (parse_raw bs = Ok raw ∨ parse_wrapped bs = Ok (Some raw)) ∧
      (raw_contract raw = [] → ∀ raw',
         parse_raw bs = Ok raw' ∨ (parse_wrapped bs = Ok (Some raw') ∧ is_ok (parse_raw bs) = true) →
         raw_contract raw' = [])
  | Err _ => is_ok (parse_raw bs) = false ∧ ∀ raw, parse_wrapped bs ≠ Ok (Some raw)
  end.
Proof.
  unfold parse_tron_bytes.
  destruct (parse_raw bs) as [bare|e], (parse_wrapped bs) as [[wrapped|]|e']; cbn; try naive_solver.
  case_decide as Hb; [by split; [left|]|]. case_decide as Hw.
  - split; [by right|]. intros Hc. by destruct (Hw Hc).
  - split; [by left|]. intros _ raw' [[= <-]|[[= <-] _]]; done.
Qed.
End payloads.

(** ** Unspecified chains show their input *)

Theorem unspecified_shows_input {M : SerdeMap} {F : JsonFormat} {J : JsonErrorText} data data' o o' p p' :
  unspecified_string_to_visual_sign data o = Ok p → unspecified_string_to_visual_sign data' o' = Ok p' →
  payload_fields p = payload_fields p' → data = data'.
Proof.
  assert (∀ data o p, unspecified_string_to_visual_sign data o = Ok p →
    ∃ c, payload_fields p !! 1 = Some (TextV2 c (FieldTextV2 data))) as Hs.
  { intros d op q. unfold unspecified_string_to_visual_sign. cbn.
    destruct (validate_charset _); [|done]. intros [= <-]. by eexists. }
  intros (c & Hc)%Hs (c' & Hc')%Hs Eq. rewrite Eq, Hc' in Hc. congruence.
Qed.

(** ** Samples *)

(** Letters for the two digits of a byte, in hexadecimal. *)
Program Definition sample_base58 : Base58Check := {|
  bs58_check := hex_of_bytes;
  bs58_check_decode s := match hex_decode (HexCodec:=hex_ref) s with Ok bs => Some bs | Err _ => None end |}.
Next Obligation.
  intros bs. rewrite <-(hex_encode_lower (HexCodec:=hex_ref)).
  by rewrite (hex_decode_encode (HexCodec:=hex_ref)).
Qed.
Next Obligation.
  intros bs. induction bs as [|b bs IH]; [done|]. destruct b; exact IH.
Qed.

(** A transaction is written as the amount of its one transfer. *)
Definition sample_proto : TronProto := {|
  parse_raw bs :=
    Ok (MkRaw 1 2 3 [] [] [Some (MkAny "type.googleapis.com/protocol.TransferContract" bs); None]);
  parse_wrapped _ := Err "wrapped";
  parse_transfer bs := Ok ([Byte.x41], [], foldl (fun a b => 256 * a + byte_to_Z b) 0 bs)%Z;
  parse_freeze _ := Err ""; parse_unfreeze _ := Err ""; parse_withdraw_expire _ := Err "";
  parse_withdraw_balance _ := Err ""; parse_delegate _ := Err ""; parse_undelegate _ := Err "";
  parse_vote_witness _ := Err "" |}.

Definition sample_raw (bs : bytes) : Raw :=
  MkRaw 1 2 3 [] [] [Some (MkAny "type.googleapis.com/protocol.TransferContract" bs); None].

Lemma tron_payload_determines_witness :
  raw_contracts (T:=sample_proto) (sample_raw [Byte.x00; Byte.x07]) =
  raw_contracts (T:=sample_proto) (sample_raw [Byte.x07]).
Proof.
  eapply (tron_payload_determines (E:=derivative_engine) (H:=hex_ref) (B:=sample_base58)
    (T:=sample_proto) (fun _ => Some "date") 5 5 (sample_raw [Byte.x00; Byte.x07])
    (sample_raw [Byte.x07]) (MkOptions false None None None false)
    (MkOptions false None None None false)); [by intros ? ? [= <-]| | |]; by rewrite ?payload_exact.
Defined.
