(* ===== verification/CliMappings.v ===== *)
(** * The command line: inputs and caller-supplied metadata

    [parser/cli-core/src/tx_input.rs] and [mapping_parser.rs], how the command line reads a
    transaction and the files a mapping names; the metadata that the plugins of Ethereum, Solana
    and NEAR ([cli_plugin.rs] of each chain) build from them; and [embedded_abis.rs]. What is
    logged is left out. *)

From S2P Require Import Prelude Panic Json Payload Errors External DecimalText Encodings Signing Proto.
From S2P Require Import Registry Borsh Payment AbiMetadata GatewayAuth.
From S2P Require Import Alloy EthFormat NearText NearTokens NearSigning.

#[local] Unset Program Cases.

(** ** Reading a transaction *)

Definition MAX_TRANSACTION_INPUT_SIZE : N := 10485760.

Fixpoint str_filter (P : Ascii.ascii → bool) (s : string) : string :=
  match s with
  | "" => ""
  | String c s => if P c then String c (str_filter P s) else str_filter P s
  end.

(** [split_ascii_whitespace] and [collect]. *)
Definition strip_ascii_whitespace (input : string) : string :=
  str_filter (fun c => negb (is_ascii_whitespace c)) input.

Fixpoint trim_start_ascii (s : string) : string :=
  match s with
  | "" => ""
  | String c s' => if is_ascii_whitespace c then trim_start_ascii s' else s
  end.

Fixpoint trim_end_ascii (s : string) : string :=
  match s with
  | "" => ""
  | String c s =>
      let t := trim_end_ascii s in
      if decide (t = "" ∧ is_ascii_whitespace c = true) then "" else String c t
  end.

Definition trim_ascii (s : string) : string := trim_end_ascii (trim_start_ascii s).

(** U+FEFF in UTF-8. *)
Definition BOM : string :=
  String (Ascii.ascii_of_nat 239) (String (Ascii.ascii_of_nat 187) (String (Ascii.ascii_of_nat 191) "")).

Definition resolve_buffer (raw : string) : string :=
  let raw := default raw (strip_prefix BOM raw) in
  if starts_with "{" (trim_start_ascii raw) then trim_ascii raw else strip_ascii_whitespace raw.

Section files.
(** Opens a file, or the standard input for [None], and reads at most so many bytes of text. *)
Context (read_text : option string → N → result string string).

Definition read_bounded (file : option string) (source : string) : result string string :=
  buf ← map_err (fun e => "Failed to read transaction from " +:+ source +:+ ": " +:+ e)
          (read_text file (MAX_TRANSACTION_INPUT_SIZE + 1));
  if decide (MAX_TRANSACTION_INPUT_SIZE < N.of_nat (String.length buf))%N then
    Err ("Transaction input from " +:+ source +:+ " exceeds maximum size ("
         +:+ show_Z (Z.of_N MAX_TRANSACTION_INPUT_SIZE) +:+ " bytes)")
  else Ok buf.

(** Whether a file can be opened, with the error text when not. *)
Context (open_file : string → result string ()).

Definition resolve_transaction_input (input : string) : result string string :=
  match strip_prefix "@" input with
  | None => Ok input
  | Some rest =>
      raw ← (if decide (rest = "") then
               Err "'@' must be followed by a path, or use '@-' to read from stdin"
             else if decide (rest = "-") then read_bounded None "<stdin>"
             else
               _ ← map_err (fun e => "Failed to open transaction file '" +:+ rest +:+ "': " +:+ e)
                     (open_file rest);
               read_bounded (Some rest) rest);
      Ok (resolve_buffer raw)
  end.

(** ** Mappings *)

Record MappingComponents := MkMapping { map_name : string; map_path : string; map_identifier : string }.

(** [str::rsplit_once] at a character. *)
Fixpoint rsplit_once (sep : Ascii.ascii) (s : string) : option (string * string) :=
  match s with
  | "" => None
  | String c s =>
      match rsplit_once sep s with
      | Some (a, b) => Some (String c a, b)
      | None => if decide (c = sep) then Some ("", s) else None
      end
  end.

Definition mapping_error (expected mapping_str : string) : string :=
  "Invalid mapping format (expected " +:+ expected +:+ "): " +:+ mapping_str.

(** The shared end of both formats. *)
Definition checked_mapping (name path identifier mapping_str : string)
    : result string MappingComponents :=
  if decide (name = "" ∨ path = "" ∨ identifier = "") then
    Err ("Mapping components cannot be empty: " +:+ mapping_str)
  else Ok (MkMapping name path identifier).

Definition parse_mapping (mapping_str : string) : result string MappingComponents :=
  '(name_and_path, identifier) ←
    ok_or (mapping_error "name:path:identifier" mapping_str) (rsplit_once ":" mapping_str);
  '(name, path) ←
    ok_or (mapping_error "name:path:identifier" mapping_str) (split_once ":" name_and_path);
  checked_mapping name path identifier mapping_str.

Definition parse_near_mapping (mapping_str : string) : result string MappingComponents :=
  match split_on "@" mapping_str with
  | [name; path; asset_id] => checked_mapping name path asset_id mapping_str
  | parts =>
      if decide (3 < length parts) then
        Err ("Invalid mapping format: found " +:+ show_nat (length parts)
             +:+ " '@'-separated components, expected 3 (Name@FilePath@AssetId). A file path containing '@' cannot be used here: "
             +:+ mapping_str)
      else Err (mapping_error "Name@FilePath@AssetId" mapping_str)
  end.

Definition MAX_JSON_FILE_SIZE : N := 10485760.

(** Whether [serde_json] reads a text as a value, with the error text when not. *)
Context (check_json : string → result string ()).

Definition load_json_file (path : string) : result string string :=
  json_content ← map_err (fun e => "Failed to read file at " +:+ path +:+ ": " +:+ e)
                   (read_text (Some path) (MAX_JSON_FILE_SIZE + 1));
  if decide (MAX_JSON_FILE_SIZE < N.of_nat (String.length json_content))%N then
    Err ("File " +:+ path +:+ " exceeds maximum size (> " +:+ show_Z (Z.of_N MAX_JSON_FILE_SIZE) +:+ " bytes)")
  else
    _ ← map_err (fun e => "Invalid JSON in file " +:+ path +:+ ": " +:+ e) (check_json json_content);
    Ok json_content.

Section load.
Context {V : Type} (parse : string → result string MappingComponents)
  (validate_identifier : string → result string ())
  (build_value : MappingComponents → string → result string V).

(** One turn of the loop; a mapping that fails anywhere leaves the state as it is. *)
Definition load_step (st : list (string * V) * nat) (mapping : string) : list (string * V) * nat :=
  let '(map, valid_count) := st in
  match parse mapping with
  | Err _ => st
  | Ok components =>
      match validate_identifier (map_identifier components) with
      | Err _ => st
      | Ok _ =>
          match load_json_file (map_path components) with
          | Err _ => st
          | Ok json =>
              match build_value components json with
              | Err _ => st
              | Ok value =>
                  let previous := assoc (map_identifier components) map in
                  (btree_insert (map_identifier components) value map,
                   match previous with Some _ => valid_count | None => S valid_count end)
              end
          end
      end
  end.

Definition load_mappings (mappings : list string) : list (string * V) * nat :=
  foldl load_step ([], 0) mappings.
End load.
End files.

(** ** Ethereum *)

Section ethereum.
Context {S : Sha256} {H : HexCodec} {K : Secp256k1} {A : AlloyPrimitives}.
Context (read_text : option string → N → result string string) (check_json : string → result string ()).
(** Whether the [dev-signing] feature is on, and [std::env::var]. *)
Context (dev_signing : bool) (env : string → option string).

Definition CLI_DEV_SIGNING_KEY_SEED : bytes := replicate 32 Byte.x42.

Definition sign_abi_for_cli (abi_json : string) (address : bytes) (chain_id : Z)
    : result string SignatureMetadata :=
  if dev_signing then sign_abi abi_json address chain_id CLI_DEV_SIGNING_KEY_SEED
  else Err "ABI signing is unavailable: this binary was built without the dev-signing feature".

Definition authorized_abi_signers : SignerAllowlist :=
  let allow :=
    if dev_signing then
      match signing_key_from_bytes CLI_DEV_SIGNING_KEY_SEED with
      | Ok sk => allowlist_insert (to_encoded_point (verifying_key_of sk)) SignerAllowlist_new
      | Err _ => SignerAllowlist_new
      end
    else SignerAllowlist_new in
  match env "VISUALSIGN_ETH_ABI_SIGNERS" with
  | None => allow
  | Some list =>
      foldl (fun allow entry => match canonical_pubkey_from_hex entry with
                                | Some bs => allowlist_insert bs allow
                                | None => allow
                                end)
        allow (filter (fun s => s ≠ "") (trim <$> split_on "," list))
  end.

(** The posture the plugin registers its converter with. *)
Definition cli_abi_policy : MetadataTrustPolicy := RequireAllowlistedSigner authorized_abi_signers.

Definition validate_eth_address (addr : string) : result string () :=
  hex ← ok_or "must start with 0x" (split_hex_prefix addr);
  if decide (String.length hex ≠ 40) then
    Err ("expected 0x + 40 hex chars, got " +:+ show_nat (String.length hex) +:+ " hex chars")
  else if str_all is_ascii_hexdigit hex then Ok ()
  else Err "contains non-hex characters".

Definition normalize_eth_address (addr : string) : string :=
  "0x" +:+ to_ascii_lowercase (strip_hex_prefix addr).

Definition build_abi (chain_id : Z) (components : MappingComponents) (json : string) : result string Abi :=
  addr ← map_err (fun e => "invalid contract address: " +:+ e)
           (address_from_str (map_identifier components));
  signature ← map_err (fun e => "failed to sign ABI: " +:+ e) (sign_abi_for_cli json addr chain_id);
  Ok (MkAbi json (Some signature) None None).

Definition build_abi_mappings_from_files (abi_json_mappings : list string) (chain_id : Z)
    : list (string * Abi) * nat :=
  let '(raw, count) :=
    load_mappings read_text check_json parse_mapping validate_eth_address (build_abi chain_id)
      abi_json_mappings in
  (btree_of_list (prod_map normalize_eth_address id <$> raw), count).

(** The entry of the proxy: the one there is, or an empty ABI signed for it. *)
Definition proxy_entry (abi_mappings : list (string * Abi)) (proxy_key : string) (chain_id : Z)
    : option Abi :=
  match assoc proxy_key abi_mappings with
  | Some abi => Some abi
  | None =>
      match address_from_str proxy_key with
      | Err _ => None
      | Ok proxy_addr =>
          match sign_abi_for_cli "[]" proxy_addr chain_id with
          | Err _ => None
          | Ok signature => Some (MkAbi "[]" (Some signature) None None)
          end
      end
  end.

(** [AbiType::Proxy as i32] *)
Definition ABI_TYPE_PROXY : Z := 2.

Definition proxy_step (chain_id : Z) (abi_mappings : list (string * Abi)) (mapping : string)
    : list (string * Abi) :=
  match split_once ":" mapping with
  | None => abi_mappings
  | Some (proxy, implementation) =>
      match validate_eth_address proxy, validate_eth_address implementation with
      | Ok _, Ok _ =>
          let proxy_key := normalize_eth_address proxy in
          let impl_key := normalize_eth_address implementation in
          match proxy_entry abi_mappings proxy_key chain_id with
          | None => abi_mappings
          | Some entry =>
              btree_insert proxy_key
                (MkAbi (abi_value entry) (abi_signature entry) (Some ABI_TYPE_PROXY) (Some impl_key))
                abi_mappings
          end
      | _, _ => abi_mappings
      end
  end.

Definition apply_proxy_mappings (abi_mappings : list (string * Abi)) (proxy_mappings : list string)
    (chain_id : Z) : list (string * Abi) :=
  foldl (proxy_step chain_id) abi_mappings proxy_mappings.

Definition network_error (network : string) : string :=
  "Invalid network '" +:+ network +:+ "'. Supported formats:" +:+ newline
  +:+ "- Chain ID (numeric): 1 (Ethereum), 137 (Polygon), 42161 (Arbitrum)" +:+ newline
  +:+ "- Canonical name: ETHEREUM_MAINNET, POLYGON_MAINNET, ARBITRUM_MAINNET" +:+ newline
  +:+ newline +:+ "Run with --help for full list of supported networks.".

Definition eth_create_chain_metadata (network : option string)
    (abi_json_mappings abi_proxy_mappings : list string)
    : result (crash string) (option ChainMetadata) :=
  network_id ←
    match network with
    | Some network => ok_or (Fail (network_error network)) (parse_network network)
    | None => ok_or Panic (parse_network "ETHEREUM_MAINNET")
    end;
  abi_mappings ←
    (if decide (abi_json_mappings = []) then Ok []
     else
       chain_id ← ok_or (Fail ("cannot sign ABI mappings for network '" +:+ network_id
                               +:+ "': unknown network ID")) (network_id_to_chain_id network_id);
       Ok (build_abi_mappings_from_files abi_json_mappings chain_id).1);
  abi_mappings ←
    (if decide (abi_proxy_mappings = []) then Ok abi_mappings
     else
       chain_id ← ok_or (Fail ("cannot sign proxy ABI mappings for network '" +:+ network_id
                               +:+ "': unknown network ID")) (network_id_to_chain_id network_id);
       Ok (apply_proxy_mappings abi_mappings abi_proxy_mappings chain_id));
  Ok (Some (MkChainMetadata (Some (EthereumM (MkEthereumMetadata (Some network_id) abi_mappings))))).
End ethereum.

(** ** Solana *)

Section solana.
Context (read_text : option string → N → result string string) (check_json : string → result string ()).
(** [bs58::decode]; a failure carries its text. *)
Context (bs58_decode : string → result string bytes).

Definition validate_program_id (id : string) : result string () :=
  bs ← map_err (fun e => "invalid base58: " +:+ e) (bs58_decode id);
  if decide (length bs ≠ 32) then
    Err ("expected 32-byte pubkey, got " +:+ show_nat (length bs) +:+ " bytes")
  else Ok ().

(** [SolanaIdlType::Anchor as i32] *)
Definition IDL_TYPE_ANCHOR : Z := 1.

Definition build_idl_mappings_from_files (idl_json_mappings : list string) : list (string * Idl) * nat :=
  load_mappings read_text check_json parse_mapping validate_program_id
    (fun components json =>
       Ok (MkIdl json (Some IDL_TYPE_ANCHOR) None None (Some (map_name components))))
    idl_json_mappings.

Definition sol_create_chain_metadata (idl_json_mappings : list string)
    (simulated_tx_result : option string) : option ChainMetadata :=
  if decide (idl_json_mappings = [] ∧ simulated_tx_result = None) then None
  else
    let idl_mappings :=
      if decide (idl_json_mappings = []) then []
      else (build_idl_mappings_from_files idl_json_mappings).1 in
    Some (MkChainMetadata (Some (SolanaM
      (MkSolanaMetadata None None idl_mappings simulated_tx_result)))).
End solana.

(** ** NEAR *)

Section near.
Context {S : Sha256} {H : HexCodec} {Ed : Ed25519}.
Context (read_text : option string → N → result string string) (check_json : string → result string ()).
Context (dev_signing : bool).

Definition build_token_mappings_from_files (mappings : list string) (signing_network : NearNetwork)
    : list (string * TokenMetadataEntry) * nat :=
  load_mappings read_text check_json parse_near_mapping (fun _ => Ok ())
    (fun components json =>
       signature ← map_err (fun e => "failed to sign token metadata: " +:+ e)
         (sign_token_metadata_for_cli dev_signing (network_id signing_network)
            (map_identifier components) json);
       Ok (MkTokenMetadataEntry json (Some signature) None))
    mappings.

Definition near_create_chain_metadata (network : option string) (mappings : list string)
    : result string (option ChainMetadata) :=
  network ←
    match network with
    | Some network =>
        match from_network_id network with
        | Some parsed => Ok (Some parsed)
        | None => Err ("Invalid network '" +:+ network +:+ "'. Supported: NEAR_MAINNET, NEAR_TESTNET")
        end
    | None => Ok None
    end;
  let network_id := network_id <$> network in
  let signing_network := default Mainnet network in
  let token_mappings :=
    if decide (mappings = []) then []
    else (build_token_mappings_from_files mappings signing_network).1 in
  if decide (network_id = None ∧ token_mappings = []) then Ok None
  else Ok (Some (MkChainMetadata (Some (NearM (MkNearMetadata network_id token_mappings))))).
End near.

(** ** ABIs embedded in an application *)

Section embedded.
Context {JsonAbi : Type} (parse_abi : string → result string JsonAbi) {A : AlloyPrimitives}.
(** [std::fs::read_to_string] *)
Context (read_file : string → result string string).

Inductive AbiEmbeddingError : Type := InvalidJson (e : string) | FileError (e : string).

Definition register_embedded_abi (registry : @AbiRegistry JsonAbi) (name abi_json : string)
    : result AbiEmbeddingError (@AbiRegistry JsonAbi) :=
  map_err InvalidJson (register_abi parse_abi name abi_json registry).

Definition map_abi_address (registry : @AbiRegistry JsonAbi) (chain_id : Z) (address : bytes)
    (abi_name : string) : @AbiRegistry JsonAbi := map_address chain_id address abi_name registry.

Definition parse_abi_address_mapping (mapping_str : string) : option (string * bytes) :=
  '(abi_name, addr_str) ← split_once ":" mapping_str;
  match address_from_str addr_str with Ok address => Some (abi_name, address) | Err _ => None end.

Definition load_abi_from_file (registry : @AbiRegistry JsonAbi) (name file_path : string)
    : result AbiEmbeddingError (@AbiRegistry JsonAbi) :=
  abi_json ← map_err (fun e => FileError (file_path +:+ ": " +:+ e)) (read_file file_path);
  register_embedded_abi registry name abi_json.

(** The error of the file or of the address. A registry that was changed before the address failed
    stays changed. *)
Definition load_and_map_abi (registry : @AbiRegistry JsonAbi) (name file_path : string)
    (chain_id : Z) (address_str : string)
    : @AbiRegistry JsonAbi * result (AbiEmbeddingError + string) () :=
  match load_abi_from_file registry name file_path with
  | Err e => (registry, Err (inl e))
  | Ok registry =>
      match address_from_str address_str with
      | Err e => (registry, Err (inr e))
      | Ok address => (map_address chain_id address name registry, Ok ())
      end
  end.
End embedded.

(** ** Mapping texts *)

Definition no_char (d : Ascii.ascii) (s : string) : bool := str_all (fun c => negb (bool_decide (c = d))) s.

Lemma no_char_cons d c s : no_char d (String c s) = true ↔ c ≠ d ∧ no_char d s = true.
Proof. unfold no_char. cbn. by rewrite andb_true_iff, negb_true_iff, bool_decide_eq_false. Qed.

Lemma split_once_exact d s : ∀ a b,
  split_once d s = Some (a, b) ↔ s = a +:+ String d b ∧ no_char d a = true.
Proof.
  induction s as [|c s IH]; intros a b; cbn [split_once].
  - split; [done|]. intros [Eq _]. by destruct a.
  - case_decide as Hc.
    + subst c. split; [by intros [= <- <-]|]. intros [Eq Ha]. destruct a as [|c' a].
      * by injection Eq as ->.
      * rewrite str_cons_app in Eq. injection Eq as <- _. by apply no_char_cons in Ha as [[] _].
    + split.
      * destruct (split_once d s) as [[a' b']|] eqn:E; [|done]. intros [= <- <-].
        destruct (proj1 (IH a' b') eq_refl) as [-> Ha]. split; [done|]. by apply no_char_cons.
      * intros [Eq Ha]. destruct a as [|c' a]; [by injection Eq as -> _|].
        rewrite str_cons_app in Eq. injection Eq as -> Eq. apply no_char_cons in Ha as [_ Ha].
        by rewrite (proj2 (IH a b) (conj Eq Ha)).
Qed.

Lemma split_once_None d s : split_once d s = None ↔ no_char d s = true.
Proof.
  induction s as [|c s IH]; cbn [split_once]; [done|]. rewrite no_char_cons. case_decide as Hc.
  - split; [done|]. by intros [[] _].
  - rewrite <-IH. destruct (split_once d s) as [[a b]|]; naive_solver.
Qed.

Lemma rsplit_once_None d s : rsplit_once d s = None ↔ no_char d s = true.
Proof.
  induction s as [|c s IH]; cbn [rsplit_once]; [done|]. rewrite no_char_cons, <-IH.
  destruct (rsplit_once d s) as [[a b]|]; [naive_solver|]. case_decide; naive_solver.
Qed.

Lemma rsplit_once_exact d s : ∀ a b,
  rsplit_once d s = Some (a, b) ↔ s = a +:+ String d b ∧ no_char d b = true.
Proof.
  induction s as [|c s IH]; intros a b; cbn [rsplit_once].
  - split; [done|]. intros [Eq _]. by destruct a.
  - destruct (rsplit_once d s) as [[a' b']|] eqn:E.
    + split.
      * intros [= <- <-]. destruct (proj1 (IH a' b') eq_refl) as [-> Hb]. by rewrite str_cons_app.
      * intros [Eq Hb]. destruct a as [|c' a].
        -- injection Eq as _ <-. apply rsplit_once_None in Hb. congruence.
        -- rewrite str_cons_app in Eq. injection Eq as -> Eq.
           assert (Some (a', b') = Some (a, b)) as Hs by (by apply IH). congruence.
    + assert (no_char d s = true) as Hs by by apply rsplit_once_None. case_decide as Hc.
      * subst c. split; [by intros [= <- <-]|]. intros [Eq Hb]. destruct a as [|c' a].
        -- by injection Eq as ->.
        -- rewrite str_cons_app in Eq. injection Eq as _ Eq.
           assert (None = Some (a, b)) as Hn by by apply IH. done.
      * split; [done|]. intros [Eq Hb]. destruct a as [|c' a]; [by injection Eq as -> _|].
        rewrite str_cons_app in Eq. injection Eq as _ Eq.
        assert (None = Some (a, b)) as Hn by by apply IH. done.
Qed.

Lemma checked_mapping_Ok name path id m c :
  checked_mapping name path id m = Ok c ↔
  c = MkMapping name path id ∧ name ≠ "" ∧ path ≠ "" ∧ id ≠ "".
Proof.
  unfold checked_mapping. case_decide; [naive_solver|]. split; [intros [= <-]; tauto|].
  by intros [-> _].
Qed.

(** A mapping is accepted exactly when it is a name, a path and an identifier joined by colons, none
    of them empty, and the name and the identifier have no colon: every colon between them belongs
    to the path. *)
Theorem parse_mapping_exact s c :
  parse_mapping s = Ok c ↔
  s = map_name c +:+ ":" +:+ map_path c +:+ ":" +:+ map_identifier c ∧
  (map_name c ≠ "" ∧ map_path c ≠ "" ∧ map_identifier c ≠ "") ∧
  no_char ":" (map_name c) = true ∧ no_char ":" (map_identifier c) = true.
Proof.
  unfold parse_mapping. split.
  - intros ([np id] & Hr & ([name path] & Hs & Hc)%result_bind_Ok)%result_bind_Ok.
    apply checked_mapping_Ok in Hc as (-> & Hne).
    destruct (rsplit_once ":" s) as [[np' id']|] eqn:Er; [|done]. injection Hr as -> ->.
    apply rsplit_once_exact in Er as [-> Hid].
    destruct (split_once ":" np) as [[n' p']|] eqn:Es; [|done]. injection Hs as -> ->.
    apply split_once_exact in Es as [-> Hn]. cbn [map_name map_path map_identifier].
    by rewrite <-!str_app_assoc.
  - destruct c as [name path id]. cbn [map_name map_path map_identifier].
    intros (-> & Hne & Hn & Hid).
    assert (rsplit_once ":" (name +:+ ":" +:+ path +:+ ":" +:+ id) = Some (name +:+ ":" +:+ path, id)) as ->.
    { apply rsplit_once_exact. by rewrite <-!str_app_assoc. }
    cbn [ok_or mbind result_bind].
    assert (split_once ":" (name +:+ ":" +:+ path) = Some (name, path)) as ->.
    { by apply split_once_exact. }
    cbn [ok_or mbind result_bind]. by apply checked_mapping_Ok.
Qed.

Lemma split_on_app d a s : no_char d a = true → split_on d (a +:+ String d s) = a :: split_on d s.
Proof.
  induction a as [|c a IH]; intros Ha; rewrite ?str_nil_app, ?str_cons_app; cbn [split_on];
    [by rewrite decide_True|].
  apply no_char_cons in Ha as [Hc Ha]. rewrite decide_False by done. by rewrite IH.
Qed.

Lemma split_on_none d s : no_char d s = true → split_on d s = [s].
Proof.
  induction s as [|c s IH]; intros Hs; [done|]. cbn [split_on]. apply no_char_cons in Hs as [Hc Hs].
  by rewrite decide_False, IH.
Qed.

Lemma split_on_cases d s :
  (no_char d s = true ∧ split_on d s = [s]) ∨
  ∃ a t, s = a +:+ String d t ∧ no_char d a = true ∧ split_on d s = a :: split_on d t.
Proof.
  destruct (split_once d s) as [[a t]|] eqn:E.
  - apply split_once_exact in E as [-> Ha]. right. exists a, t. by rewrite split_on_app.
  - apply split_once_None in E. left. by rewrite split_on_none.
Qed.

(** The mappings of NEAR have no other sign of the separator. *)
Theorem parse_near_mapping_exact s c :
  parse_near_mapping s = Ok c ↔
  s = map_name c +:+ "@" +:+ map_path c +:+ "@" +:+ map_identifier c ∧
  (map_name c ≠ "" ∧ map_path c ≠ "" ∧ map_identifier c ≠ "") ∧
  no_char "@" (map_name c) = true ∧ no_char "@" (map_path c) = true ∧
  no_char "@" (map_identifier c) = true.
Proof.
  unfold parse_near_mapping. split.
  - destruct (split_on_cases "@" s) as [[_ ->]|(n & s1 & -> & Hn & ->)]; [done|].
    destruct (split_on_cases "@" s1) as [[_ ->]|(p & s2 & -> & Hp & ->)]; [done|].
    destruct (split_on_cases "@" s2) as [[Hi ->]|(i & s3 & -> & Hi & ->)].
    + intros [-> Hne]%checked_mapping_Ok. done.
    + destruct (split_on "@" s3) eqn:E3; [|by case_decide].
      exfalso. by destruct (split_on_cases "@" s3) as [[_ E]|(? & ? & _ & _ & E)]; rewrite E in E3.
  - destruct c as [n p i]. cbn [map_name map_path map_identifier]. intros (-> & Hne & Hn & Hp & Hi).
    change ("@" +:+ p +:+ "@" +:+ i) with (String "@" (p +:+ String "@" i)).
    rewrite !split_on_app, split_on_none by done. by apply checked_mapping_Ok.
Qed.

(** ** Loading *)

Lemma btree_insert_length {V} k (v : V) m :
  btree_sorted m →
  length (btree_insert k v m) = match assoc k m with Some _ => length m | None => S (length m) end.
Proof.
  intros Hm. destruct (assoc k m) as [v'|] eqn:Ha.
  - assert (NoDup (keys m)) as Hnd by by apply btree_sorted_NoDup.
    assert (keys (btree_insert k v m) ≡ₚ keys m) as Hp.
    { apply NoDup_Permutation; [by apply btree_sorted_NoDup, btree_insert_sorted|done|].
      intros x. rewrite elem_of_btree_insert_keys. split; [|by right].
      intros [->|]; [|done]. apply assoc_elem_of in Ha; [|done]. apply list_elem_of_fmap. by exists (k, v'). }
    apply Permutation_length in Hp. unfold keys in Hp. by rewrite !length_fmap in Hp.
  - rewrite btree_insert_perm; [done|]. intros Hin. apply list_elem_of_fmap in Hin as ([k' v'] & -> & Hin).
    apply assoc_elem_of in Hin; [|by apply btree_sorted_NoDup]. cbn in Ha. congruence.
Qed.

Lemma elem_of_btree_insert {V} k (v : V) m e : e ∈ btree_insert k v m → e = (k, v) ∨ e ∈ m.
Proof.
  induction m as [|[k' v'] m IH]; cbn; [set_solver|]. destruct (String.compare k k'); set_solver.
Qed.

Lemma btree_of_list_elem {V} (l : list (string * V)) e : e ∈ btree_of_list l → e ∈ l.
Proof.
  unfold btree_of_list. induction l as [|[k v] l IH] using rev_ind; [done|]. rewrite foldl_snoc.
  intros [->|Hin]%elem_of_btree_insert; set_solver.
Qed.

Lemma assoc_in {V} k (v : V) m : assoc k m = Some v → (k, v) ∈ m.
Proof. induction m as [|[k' v'] m IH]; cbn; [done|]. case_decide; [intros [= ->]; subst; left|right; auto]. Qed.

Section load_facts.
Context (read_text : option string → N → result string string) (check_json : string → result string ()).
Context {V : Type} (parse : string → result string MappingComponents)
  (validate_identifier : string → result string ())
  (build_value : MappingComponents → string → result string V).

(** The entry of a mapping that passes every check. *)
Definition accepted (mapping : string) : option (string * V) :=
  match (components ← parse mapping;
         _ ← validate_identifier (map_identifier components);
         json ← load_json_file read_text check_json (map_path components);
         value ← build_value components json;
         Ok (map_identifier components, value)) with
  | Ok e => Some e
  | Err _ => None
  end.

Local Abbreviation load := (load_mappings read_text check_json parse validate_identifier build_value).

Lemma load_snoc ms m :
  load (ms ++ [m]) =
  match accepted m with
  | Some (k, v) =>
      (btree_insert k v (load ms).1,
       match assoc k (load ms).1 with Some _ => (load ms).2 | None => S (load ms).2 end)
  | None => load ms
  end.
Proof.
  unfold load_mappings. rewrite foldl_snoc. unfold load_step at 1, accepted.
  destruct (foldl _ _ ms) as [map n]. cbn [fst snd].
  destruct (parse m) as [c|]; [|done]. cbn [mbind result_bind].
  destruct (validate_identifier _) as [[]|]; [|done]. cbn [mbind result_bind].
  destruct (load_json_file _ _ _) as [json|]; [|done]. cbn [mbind result_bind].
  by destruct (build_value c json).
Qed.

(** The map holds, under every identifier, the value of the last mapping for it that passed every
    check, in increasing order of the identifiers, and the count is the number of its entries. *)
Theorem load_mappings_exact ms :
  let '(map, count) := load ms in
  btree_sorted map ∧ count = length map ∧
  ∀ k, assoc k map =
       last (omap (fun m => e ← accepted m; if decide (e.1 = k) then Some e.2 else None) ms).
Proof.
  assert (btree_sorted (load ms).1 ∧ (load ms).2 = length (load ms).1 ∧
    ∀ k, assoc k (load ms).1 =
       last (omap (fun m => e ← accepted m; if decide (e.1 = k) then Some e.2 else None) ms)) as Hl;
    [|by destruct (load ms)].
  induction ms as [|m ms (Hs & Hc & Hk)] using rev_ind.
  { split_and!; [constructor|done|done]. }
  rewrite load_snoc. destruct (accepted m) as [[k v]|] eqn:Hm; cbn [fst snd].
  - split_and!; [by apply btree_insert_sorted|rewrite btree_insert_length by done; by rewrite Hc|].
    intros k'. rewrite omap_app, assoc_btree_insert. cbn [omap list_omap]. rewrite Hm. cbn.
    destruct (decide (k' = k)) as [->|Hne].
    + by rewrite decide_True, last_snoc.
    + by rewrite decide_False, app_nil_r.
  - split_and!; [done..|]. intros k'. rewrite omap_app. cbn [omap list_omap]. rewrite Hm. cbn.
    by rewrite app_nil_r.
Qed.

Lemma load_elem ms k v :
  (k, v) ∈ (load ms).1 → ∃ m c json, m ∈ ms ∧ parse m = Ok c ∧ map_identifier c = k ∧
    validate_identifier k = Ok () ∧ build_value c json = Ok v.
Proof.
  induction ms as [|m ms IH] using rev_ind; [set_solver|]. rewrite load_snoc.
  intros Hin. destruct (accepted m) as [[k' v']|] eqn:Hm.
  - cbn [fst] in Hin. apply elem_of_btree_insert in Hin as [[= -> ->]|Hin].
    + unfold accepted in Hm. case_match eqn:E; [|done]. injection Hm as ->.
      apply result_bind_Ok in E as (c & Hp & ([] & Hv & (json & _ & (v0 & Hb & [= <- <-])%result_bind_Ok)
        %result_bind_Ok)%result_bind_Ok).
      exists m, c, json. split_and!; [set_solver|done..].
    + destruct (IH Hin) as (m' & c & json & ? & ?). exists m', c, json. split; [set_solver|done].
  - destruct (IH Hin) as (m' & c & json & ? & ?). exists m', c, json. split; [set_solver|done].
Qed.
End load_facts.

(** ** The ABIs of the command line are accepted *)

(** The digits of a parsed address are its bytes. *)
Class AddressDigits {A : AlloyPrimitives} : Prop :=
  address_digits s a : address_from_str s = Ok a → hex_decode_ref (strip_hex_prefix s) = Ok a.

Lemma hex_val_lower c : hex_val (lower_ascii c) = hex_val c.
Proof. by ascii_cases c. Qed.

Lemma hex_pairs_lower s : ∀ i bs, hex_pairs i s = Ok bs → hex_pairs i (to_ascii_lowercase s) = Ok bs.
Proof.
  induction s as [| |c d s IH] using str_pair_ind; intros i bs; [done|done|].
  cbn [hex_pairs to_ascii_lowercase]. rewrite !hex_val_lower.
  destruct (hex_val c) as [x|]; [|done]. destruct (hex_val d) as [y|]; [|done].
  intros (bs' & Hbs & [= <-])%result_bind_Ok. by rewrite (IH _ _ Hbs).
Qed.

Lemma length_to_ascii_lowercase s : String.length (to_ascii_lowercase s) = String.length s.
Proof. induction s; cbn; auto. Qed.

Section abi_facts.
Context {S : Sha256} {H : HexCodec} {K : Secp256k1} {A : AlloyPrimitives} {AD : AddressDigits}.
Context (read_text : option string → N → result string string) (check_json : string → result string ()).
Context (dev_signing : bool) (env : string → option string) (show_hex : FromHexError → string).

(** An entry under an address, signed for it on a chain by a key the plugin trusts. *)
Definition usable (chain_id : Z) (e : string * Abi) : Prop :=
  ∃ a, address_from_str e.1 = Ok a ∧
    admitted show_hex chain_id (cli_abi_policy dev_signing env) a e.2 = true.

Lemma dev_key_trusted sk :
  dev_signing = true → signing_key_from_bytes CLI_DEV_SIGNING_KEY_SEED = Ok sk →
  to_encoded_point (verifying_key_of sk) ∈ allowlist_keys (authorized_abi_signers dev_signing env).
Proof.
  intros -> Hsk. unfold authorized_abi_signers. rewrite Hsk.
  assert (∀ l allow, to_encoded_point (verifying_key_of sk) ∈ allowlist_keys allow →
    to_encoded_point (verifying_key_of sk) ∈ allowlist_keys
      (foldl (fun allow entry => match canonical_pubkey_from_hex entry with
                                 | Some bs => allowlist_insert bs allow
                                 | None => allow
                                 end) allow l)) as Hl.
  { induction l as [|e l IH]; intros allow Ha; [done|]. cbn. apply IH.
    destruct (canonical_pubkey_from_hex e); [|done]. cbn. set_solver. }
  destruct (env _); [apply Hl|]; cbn; set_solver.
Qed.

Lemma signed_admitted json a chain_id sm ty impl :
  sign_abi_for_cli dev_signing json a chain_id = Ok sm →
  admitted show_hex chain_id (cli_abi_policy dev_signing env) a (MkAbi json (Some sm) ty impl) = true.
Proof.
  unfold sign_abi_for_cli. destruct dev_signing eqn:Hd; [|done].
  intros (sk & Hsk & Hval)%(sign_abi_valid show_hex). unfold admitted. cbn [abi_signature abi_value].
  rewrite Hval. cbn [signer_allowlist cli_abi_policy]. unfold allowlist_contains.
  rewrite bool_decide_eq_true_2; [done|]. pose proof (dev_key_trusted sk) as Ht. rewrite Hd in Ht. by apply Ht.
Qed.

Lemma normalize_parses s a : address_from_str s = Ok a → address_from_str (normalize_eth_address s) = Ok a.
Proof.
  intros Ha. pose proof (address_digits s a Ha) as Hd. apply address_from_hex; [|by eapply address_length].
  unfold hex_decode_ref in *. rewrite length_to_ascii_lowercase.
  destruct (Nat.odd _); [done|]. by apply hex_pairs_lower.
Qed.

Lemma file_abis_usable files chain_id :
  Forall (usable chain_id) (build_abi_mappings_from_files read_text check_json dev_signing files chain_id).1.
Proof.
  unfold build_abi_mappings_from_files.
  destruct (load_mappings _ _ _ _ _ files) as [raw n] eqn:Hl. cbn [fst].
  apply Forall_forall. intros e He. apply btree_of_list_elem, list_elem_of_fmap in He as ([k abi] & -> & Hin).
  assert ((k, abi) ∈ (load_mappings read_text check_json parse_mapping validate_eth_address
    (build_abi dev_signing chain_id) files).1) as Hin' by (by rewrite Hl).
  apply load_elem in Hin' as (m & c & json & _ & _ & <- & _ & Hb). unfold build_abi in Hb.
  apply result_bind_Ok in Hb as (a & Ha%map_err_Ok & (sm & Hsm%map_err_Ok & [= <-])%result_bind_Ok).
  exists a. split; [by apply normalize_parses|]. by apply signed_admitted.
Qed.

Lemma proxy_step_usable chain_id m mapping :
  Forall (usable chain_id) m → Forall (usable chain_id) (proxy_step dev_signing chain_id m mapping).
Proof.
  intros Hm. unfold proxy_step. destruct (split_once ":" mapping) as [[proxy impl]|]; [|done].
  destruct (validate_eth_address proxy) as [[]|]; [|done].
  destruct (validate_eth_address impl) as [[]|]; [|done].
  destruct (proxy_entry _ _ _ _) as [abi|] eqn:Hp; [|done].
  apply Forall_forall. intros e [->|He]%elem_of_btree_insert; [|by eapply Forall_forall in Hm].
  unfold proxy_entry in Hp. destruct (assoc _ m) as [abi'|] eqn:Ha.
  - injection Hp as ->. apply assoc_in in Ha. rewrite Forall_forall in Hm. exact (Hm _ Ha).
  - destruct (address_from_str _) as [a|] eqn:Hpa; [|done].
    destruct (sign_abi_for_cli _ _ _ _) as [sm|] eqn:Hs; [|done]. injection Hp as <-.
    exists a. split; [done|]. by apply signed_admitted.
Qed.

(** Whatever files and proxies the command line names, it does not panic, it names a network of the
    table, and every ABI in the metadata it builds is accepted by the posture it runs its own
    converter with, for the chain of that network and the address of the entry. *)
Theorem cli_abis_accepted network files proxies :
  match eth_create_chain_metadata read_text check_json dev_signing network files proxies with
  | Ok (Some (MkChainMetadata (Some (EthereumM eth)))) =>
      ∃ id chain_id, eth_network_id eth = Some id ∧ network_id_to_chain_id id = Some chain_id ∧
        Forall (usable chain_id) (abi_mappings eth)
  | Ok _ => False
  | Err (Fail _) => ∃ n, network = Some n ∧ parse_network n = None
  | Err Panic => False
  end.
Proof.
  unfold eth_create_chain_metadata.
  assert (∀ n id, parse_network n = Some id → ∃ c, network_id_to_chain_id id = Some c) as Hn.
  { intros n id Hp. unfold parse_network in Hp. destruct (uint_from_str _ n) as [c|].
    - exists c. by apply network_names_exact.
    - apply bind_Some in Hp as (c & _ & Hc). exists c. by apply network_names_exact. }
  assert (∃ id, parse_network "ETHEREUM_MAINNET" = Some id) as [main Hmain].
  { apply is_Some_alt. by_decision. }
  set (net := match network with Some n => n | None => "ETHEREUM_MAINNET" end).
  destruct (parse_network net) as [id|] eqn:Hp.
  - assert (match network with
            | Some n => ok_or (Fail (network_error n)) (parse_network n)
            | None => ok_or Panic (parse_network "ETHEREUM_MAINNET")
            end = Ok (E:=crash string) id) as -> by (destruct network; cbn in net; subst net; by rewrite Hp).
    destruct (Hn _ _ Hp) as [c Hc]. cbn [mbind result_bind]. rewrite Hc. cbn [ok_or mbind result_bind].
    set (abis := if decide (files = []) then Ok [] else _).
    assert (∃ l, abis = Ok (E:=crash string) l ∧ Forall (usable c) l) as (l & -> & Hl).
    { unfold abis. case_decide; [by exists []|]. eexists. split; [done|]. apply file_abis_usable. }
    cbn [mbind result_bind].
    assert (Forall (usable c) (apply_proxy_mappings dev_signing l proxies c)) as Hl'.
    { unfold apply_proxy_mappings. revert l Hl. induction proxies as [|m ms IH]; intros l Hl; [done|].
      cbn. by apply IH, proxy_step_usable. }
    case_decide; cbn [mbind result_bind]; by exists id, c.
  - destruct network as [n|]; subst net; cbn in Hp; [|congruence].
    rewrite Hp. cbn. by exists n.
Qed.
End abi_facts.

#[export] Instance alloy_digits : AddressDigits (A:=alloy_ref).
Proof.
  intros s a. cbn. unfold alloy_address. destruct (strip_prefix "0x" s) as [t|] eqn:Ht; [|done].
  assert (strip_hex_prefix s = t) as -> by (unfold strip_hex_prefix; by rewrite Ht).
  destruct (hex_decode_ref t) as [b|]; [|done]. case_decide; [|done]. by intros [= ->].
Qed.

(** ** The text of a transaction *)

Lemma trim_end_all r : str_all is_ascii_whitespace r = true → trim_end_ascii r = "".
Proof.
  induction r as [|c r IH]; [done|]. cbn [str_all trim_end_ascii]. intros [Hc Hr]%andb_true_iff.
  rewrite IH by done. by rewrite decide_True.
Qed.

Lemma trim_end_app s r :
  str_all is_ascii_whitespace r = true → trim_end_ascii (s +:+ r) = trim_end_ascii s.
Proof.
  intros Hr. induction s as [|c s IH]; [by apply trim_end_all|].
  rewrite str_cons_app. cbn [trim_end_ascii]. by rewrite IH.
Qed.

Lemma trim_end_last s c :
  is_ascii_whitespace c = false → trim_end_ascii (s +:+ String c "") = s +:+ String c "".
Proof.
  intros Hc. induction s as [|d s IH]; rewrite ?str_nil_app, ?str_cons_app; cbn [trim_end_ascii].
  - rewrite decide_False; [done|]. intros [_ Hw]. congruence.
  - rewrite IH, decide_False; [done|]. intros [Hn _]. by destruct s.
Qed.

Lemma trim_start_app l s :
  str_all is_ascii_whitespace l = true → trim_start_ascii (l +:+ s) = trim_start_ascii s.
Proof.
  induction l as [|c l IH]; [done|]. cbn [str_all]. intros [Hc Hl]%andb_true_iff.
  rewrite str_cons_app. cbn [trim_start_ascii]. rewrite Hc. by apply IH.
Qed.

(** A buffer that holds a JSON object keeps every character of it: only white space around the
    object, and a byte order mark in front, come off. *)
Theorem json_buffer_kept l t r :
  str_all is_ascii_whitespace l = true → str_all is_ascii_whitespace r = true →
  let body := "{" +:+ t +:+ "}" in
  resolve_buffer (l +:+ body +:+ r) = body ∧ resolve_buffer (BOM +:+ l +:+ body +:+ r) = body.
Proof.
  intros Hl Hr body.
  assert (∀ raw, raw = l +:+ body +:+ r →
    (if starts_with "{" (trim_start_ascii raw) then trim_ascii raw else strip_ascii_whitespace raw)
    = body) as Hraw.
  { intros raw ->. unfold trim_ascii. rewrite trim_start_app by done.
    change (trim_start_ascii (body +:+ r)) with (body +:+ r).
    rewrite trim_end_app by done. unfold body. rewrite str_app_assoc. by rewrite trim_end_last. }
  unfold resolve_buffer. split.
  - assert (strip_prefix BOM (l +:+ body +:+ r) = None) as ->; [|by apply Hraw].
    destruct l as [|c l]; [done|]. cbn [str_all] in Hl. apply andb_true_iff in Hl as [Hc _].
    rewrite str_cons_app. revert Hc. by ascii_cases c.
  - rewrite strip_prefix_app. by apply Hraw.
Qed.

Lemma json_buffer_kept_witness :
  resolve_buffer (" " +:+ ("{" +:+ "a b" +:+ "}") +:+ newline) = "{a b}".
Proof. apply (json_buffer_kept " " "a b" newline); reflexivity. Defined.

(** ** Samples *)

Definition sample_files (file : option string) (n : N) : result string string :=
  match file with Some path => Ok ("[" +:+ path +:+ "]") | None => Err "stdin" end.

Definition upper_id : string := "0xAAAAAAAAAAAAAAAAAAAAAAAAAAAAAAAAAAAAAAAA".
Definition lower_id : string := "0xaaaaaaaaaaaaaaaaaaaaaaaaaaaaaaaaaaaaaaaa".

(** Two spellings of one address are two identifiers to the loader: both are counted, one entry is
    left, and it is that of the spelling that sorts last, not of the mapping that came last. *)
Lemma spellings_collapse :
  let '(map, count) :=
    build_abi_mappings_from_files (H:=hex_ref) (S:=truncation_hash) (K:=toy_secp256k1) (A:=alloy_ref)
      sample_files (fun _ => Ok ()) true ["A:first:" +:+ lower_id; "B:last:" +:+ upper_id] 1 in
  count = 2 ∧ length map = 1 ∧ (abi_value <$> assoc lower_id map) = Some "[first]".
Proof. vm_compute. done. Qed.
