(* ===== verification/SuiCore.v ===== *)
(** * Sui commands and their visualizers

    [chain_parsers/visualsign-sui/src]: the helpers of [utils] that read the arguments and types
    of a call, the layout macro of [core/chain_config.rs], and the selection of a visualizer in
    [core/mod.rs] and [core/commands.rs]. The types of the Sui crates have the parts the parser
    reads; their texts and decoders are the class [SuiSdk]. *)

From S2P Require Import Prelude Json Payload Errors External Encodings Builders.

#[local] Unset Program Cases.

(** ** Types of the Sui crates *)

Definition SuiAddress : Type := bytes.
Definition ObjectID : Type := bytes.

(** Arguments carry [u16] positions in the inputs or the commands of a transaction. *)
Inductive SuiArgument : Type :=
| GasCoin
| Input (index : nat)
| Result (command_index : nat)
| NestedResult (command_index result_index : nat).

Inductive TypeTag : Type :=
| TagBool | TagU8 | TagU16 | TagU32 | TagU64 | TagU128 | TagOther (text : string).

#[export] Instance TypeTag_eq_dec : EqDecision TypeTag.
Proof. solve_decision. Defined.

Inductive MoveTypeLayout : Type :=
| LayoutBool | LayoutU8 | LayoutU16 | LayoutU32 | LayoutU64 | LayoutU128.

Inductive MoveValue : Type :=
| MoveBool (b : bool)
| MoveU8 (n : Z) | MoveU16 (n : Z) | MoveU32 (n : Z) | MoveU64 (n : Z) | MoveU128 (n : Z)
| MoveOther.

Record SuiPureValue := MkPureValue { value_type : option TypeTag; pure_value : json }.

Inductive SuiObjectArg : Type :=
| ImmOrOwnedObject (object_id : ObjectID)
| SharedObject (object_id : ObjectID)
| Receiving (object_id : ObjectID).

Inductive SuiCallArg : Type :=
| Object (o : SuiObjectArg)
| Pure (v : SuiPureValue).

Record SuiProgrammableMoveCall := MkMoveCall {
  package : ObjectID;
  module : string;
  function : string;
  type_arguments : list string;
  arguments : list SuiArgument;
}.

Inductive SuiCommand : Type :=
| MoveCall (pwc : SuiProgrammableMoveCall)
| TransferObjects (objects : list SuiArgument) (receiver : SuiArgument)
| SplitCoins (coin : SuiArgument) (amounts : list SuiArgument)
| MergeCoins (coin : SuiArgument) (coins : list SuiArgument)
| Publish (dependencies : list ObjectID)
| Upgrade (dependencies : list ObjectID) (package : ObjectID) (ticket : SuiArgument)
| MakeMoveVec (tag : option string) (elements : list SuiArgument).

(** An address is shown as [0x] and its hexadecimal digits, and so is an object; [to_hex] leaves the
    prefix out. [to_hex_literal] leaves leading zeros out. *)
Class SuiSdk : Type := {
  show_address : bytes → string;
  to_hex : bytes → string;
  to_hex_literal : bytes → string;
  to_sui_address : SuiPureValue → result string SuiAddress;
  to_move_value : json → MoveTypeLayout → result string MoveValue;
  MIST_PER_SUI : Z;
  show_address_inj a b : show_address a = show_address b → a = b;
  to_hex_inj a b : to_hex a = to_hex b → a = b;
  to_hex_digits a : str_all is_ascii_hexdigit (to_hex a) = true;
  MIST_PER_SUI_value : MIST_PER_SUI = 1000000000%Z;
}.

(** [SuiAddress::default()]. *)
Definition ZERO_ADDRESS : SuiAddress := repeat Byte.x00 32.

(** [SuiCallArg::pure] and [SuiCallArg::object]. *)
Definition arg_pure (a : SuiCallArg) : option SuiPureValue :=
  match a with Pure v => Some v | Object _ => None end.

Definition object_arg_id (o : SuiObjectArg) : ObjectID :=
  match o with ImmOrOwnedObject id | SharedObject id | Receiving id => id end.

Definition arg_object (a : SuiCallArg) : option ObjectID :=
  match a with Object o => Some (object_arg_id o) | Pure _ => None end.

(** ** Addresses ([utils/address.rs]) *)

(** The slices count bytes; the addresses passed in are ASCII. *)
Definition truncate_address (address : string) : string :=
  if decide (String.length address ≤ 10) then address
  else String.substring 0 6 address +:+ "..."
       +:+ String.substring (String.length address - 4) 4 address.

(** ** Numbers ([utils/numeric.rs]) *)

Definition json_array_to_bytes (value : json) : result string bytes :=
  match value with
  | JArray arr =>
      collect_results (fun '(i, v) =>
        n ← ok_or ("Non-integer at index " +:+ show_nat i) (json_as_u64 v);
        if decide (n < 256)%Z then Ok (byte_of_Z n)
        else Err ("Byte out of range at index " +:+ show_nat i +:+ ": " +:+ show_Z n)) (enumerate arr)
  | _ => Err "Expected JSON array for pure bytes"
  end.

(** The trait [FromLeBytes] as a record of its methods. *)
Record FromLeBytes (T : Type) := MkFromLeBytes {
  from_le_bytes : bytes → result string T;
  from_move_value : SuiPureValue → result VisualSignError T;
}.
Arguments MkFromLeBytes {T}.
Arguments from_le_bytes {T}.
Arguments from_move_value {T}.

Section numeric.
Context {K : SuiSdk}.

Definition decode_number {T} (F : FromLeBytes T) (call_arg : SuiCallArg) : result VisualSignError T :=
  match call_arg with
  | Object _ => Err (DecodeError "Unexpected object in `decode_number`")
  | Pure value =>
      match value_type value with
      | None =>
          bs ← map_err (fun e => DecodeError ("Invalid pure value bytes: " +:+ e))
                 (json_array_to_bytes (pure_value value));
          map_err DecodeError (from_le_bytes F bs)
      | Some _ => from_move_value F value
      end
  end.

(** The shape the six [from_move_value] share. *)
Definition move_value_as {T} (tag : TypeTag) (layout : MoveTypeLayout) (name : string)
    (as_T : MoveValue → option T) (value : SuiPureValue) : result VisualSignError T :=
  tag' ← ok_or (DecodeError "Failed to get value type") (value_type value);
  if decide (tag' ≠ tag) then Err (DecodeError ("Expected " +:+ name +:+ " value type"))
  else
    mv ← map_err DecodeError (to_move_value (pure_value value) layout);
    ok_or (DecodeError ("Expected " +:+ name +:+ " value type")) (as_T mv).

Definition le_bool_bytes (bs : bytes) : result string bool :=
  match bs with
  | [] => Err "bytes array is empty in FromLeBytes"
  | b :: _ =>
      if decide (b = Byte.x00) then Ok false
      else if decide (b = Byte.x01) then Ok true
      else Err ("Invalid bool value: " +:+ show_Z (byte_to_Z b))
  end.

(** [uN::from_le_bytes] of a slice that must have [n] bytes. *)
Definition le_uint_bytes (n : nat) (name : string) (bs : bytes) : result string Z :=
  if decide (length bs = n) then Ok (le_val bs)
  else Err ("Invalid " +:+ name +:+ " value: could not convert slice to array").

Definition le_bool : FromLeBytes bool :=
  MkFromLeBytes le_bool_bytes
    (move_value_as TagBool LayoutBool "bool" (fun v => match v with MoveBool b => Some b | _ => None end)).

Definition le_u8 : FromLeBytes Z :=
  MkFromLeBytes (le_uint_bytes 1 "u8")
    (move_value_as TagU8 LayoutU8 "u8" (fun v => match v with MoveU8 n => Some n | _ => None end)).

Definition le_u16 : FromLeBytes Z :=
  MkFromLeBytes (le_uint_bytes 2 "u16")
    (move_value_as TagU16 LayoutU16 "u16" (fun v => match v with MoveU16 n => Some n | _ => None end)).

Definition le_u32 : FromLeBytes Z :=
  MkFromLeBytes (le_uint_bytes 4 "u32")
    (move_value_as TagU32 LayoutU32 "u32" (fun v => match v with MoveU32 n => Some n | _ => None end)).

Definition le_u64 : FromLeBytes Z :=
  MkFromLeBytes (le_uint_bytes 8 "u64")
    (move_value_as TagU64 LayoutU64 "u64" (fun v => match v with MoveU64 n => Some n | _ => None end)).

Definition le_u128 : FromLeBytes Z :=
  MkFromLeBytes (le_uint_bytes 16 "u128")
    (move_value_as TagU128 LayoutU128 "u128" (fun v => match v with MoveU128 n => Some n | _ => None end)).
End numeric.

(** ** Arguments ([utils/tx_args.rs]) *)

Definition parse_numeric_argument (arg : SuiArgument) : result VisualSignError nat :=
  match arg with
  | Input index => Ok index
  | Result _ =>
      Err (DecodeError ("Cannot dereference `SuiArgument::Result(N)` as an input index: "
                        +:+ "it references the output of a prior command, not the inputs vector"))
  | _ => Err (DecodeError "Parsing numeric argument from Sui argument (expected `Input`)")
  end.

Definition parse_result_command_index (arg : SuiArgument) : result VisualSignError nat :=
  match arg with
  | Result command_index => Ok command_index
  | _ => Err (DecodeError "Expected `SuiArgument::Result(N)` for command-index lookup")
  end.

Definition get_index (sui_args : list SuiArgument) (index : option nat) : result VisualSignError nat :=
  arg ← match index with
        | Some i => ok_or (MissingData "Index out of bounds") (sui_args !! i)
        | None => ok_or (MissingData "No arguments provided") (head sui_args)
        end;
  parse_numeric_argument arg.

Definition get_nested_result_value (sui_args : list SuiArgument) (arg_index nested_index : nat)
    : result VisualSignError nat :=
  arg ← ok_or (MissingData "Index out of bounds for nested result") (sui_args !! arg_index);
  match arg with
  | NestedResult first second =>
      ok_or (MissingData "Nested index out of bounds") ([first; second] !! nested_index)
  | _ => Err (DecodeError "Expected `NestedResult`")
  end.

Definition get_tx_type_arg {T} (from_str : string → option T) (type_args : list string) (index : nat)
    : result VisualSignError T :=
  ok_or (MissingData "Index out of bounds for transaction type argument")
    (type_args !! index ≫= from_str).

Definition get_object_value (sui_args : list SuiArgument) (sui_inputs : list SuiCallArg)
    (arg_index : nat) : result VisualSignError ObjectID :=
  i ← get_index sui_args (Some arg_index);
  input ← ok_or (MissingData "Command not found") (sui_inputs !! i);
  ok_or (MissingData "Object not found") (arg_object input).

(** ** Coins and packages ([utils/coin.rs], [utils/package.rs]) *)

(** [str::split_once] at a text. *)
Fixpoint split_at_str (sep s : string) : option (string * string) :=
  match strip_prefix sep s with
  | Some rest => Some ("", rest)
  | None =>
      match s with
      | "" => None
      | String c s => '(a, b) ← split_at_str sep s; Some (String c a, b)
      end
  end.

(** The three parts that [splitn] cuts at two colons, when all are there. *)
Definition split_path (s : string) : option (string * string * string) :=
  '(a, rest) ← split_at_str "::" s;
  '(b, c) ← split_at_str "::" rest;
  Some (a, b, c).

Record SuiCoin := MkSuiCoin { coin_address : string; coin_name : string; coin_symbol : string }.

Definition SuiCoin_default : SuiCoin := MkSuiCoin "0x0" "Unknown" "Unknown".

(** [s.trim().is_empty()] is the same as nothing being left behind [trim_start]. *)
Definition SuiCoin_from_str (s : string) : option SuiCoin :=
  if decide (trim_start s = "") then Some SuiCoin_default
  else
    match split_path s with
    | Some (address, name, symbol) => Some (MkSuiCoin address name symbol)
    | None => Some (MkSuiCoin "" "" "")
    end.

Definition base_unit_symbol (c : SuiCoin) : string :=
  if bool_decide (coin_address c = "0x2") && eq_ignore_ascii_case (coin_name c) "sui"
     && eq_ignore_ascii_case (coin_symbol c) "SUI"
  then "MIST" else coin_symbol c.

Definition show_coin (c : SuiCoin) : string :=
  coin_address c +:+ "::" +:+ coin_name c +:+ "::" +:+ coin_symbol c.

Inductive CoinObject : Type := Sui | UnknownObject (id : string).

#[export] Instance CoinObject_eq_dec : EqDecision CoinObject.
Proof. solve_decision. Defined.

Definition show_coin_object (c : CoinObject) : string :=
  match c with Sui => "Sui" | UnknownObject s => "Object ID: " +:+ s end.

Definition get_label (c : CoinObject) : string :=
  match c with Sui => "MIST" | UnknownObject _ => "Unknown" end.

Record SuiPackage := MkSuiPackage {
  package_address : string; package_module : string; package_resource : string }.

Definition SuiPackage_default : SuiPackage := MkSuiPackage "0x0" "Unknown" "Unknown".

Definition SuiPackage_from_str (s : string) : option SuiPackage :=
  if decide (trim_start s = "") then Some SuiPackage_default
  else
    match split_path s with
    | Some (address, module, resource) => Some (MkSuiPackage address module resource)
    | None => Some (MkSuiPackage "" "" "")
    end.

Definition show_package (p : SuiPackage) : string :=
  package_address p +:+ "::" +:+ package_module p +:+ "::" +:+ package_resource p.

(** ** Layouts ([core/chain_config.rs]) *)

(** [TryFrom<&str>] of a generated enumeration, over its names. *)
Definition try_from {T} (what : string) (names : list (string * T)) (value : string)
    : result VisualSignError T :=
  ok_or (DecodeError ("Unsupported " +:+ what +:+ " name: " +:+ value)) (assoc value names).

(** A generated getter: the parameter at a position, as a type. *)
Definition getter {T} (F : FromLeBytes T) (param : string) (idx : nat)
    (inputs : list SuiCallArg) (args : list SuiArgument) : result VisualSignError T :=
  i ← get_index args (Some idx);
  arg ← ok_or (MissingData (param +:+ " not found")) (inputs !! i);
  decode_number F arg.

Record SuiIntegrationConfigData := MkConfigData {
  packages : gmap string (gmap string (list string)) }.

(** [Config::new], from the packages, modules and functions declared. *)
Definition config_new (decl : list (string * list (string * list string))) : SuiIntegrationConfigData :=
  MkConfigData
    (foldl (fun packages p =>
       <[p.1 := foldl (fun modules m => <[m.1 := m.2]> modules) ∅ p.2]> packages) ∅ decl).

Definition config_can_handle (data : SuiIntegrationConfigData) (package module function : string) : bool :=
  match packages data !! package ≫= (.!! module) with
  | Some functions => existsb (String.eqb function) functions
  | None => false
  end.

(** ** Visualizers ([core/mod.rs]) *)

Inductive VisualizerKind : Type :=
| Dex (name : string) | Lending (name : string) | StakingPools (name : string) | Payments (name : string).

Record VisualizerContext := MkContext {
  sender : SuiAddress;
  command_index : nat;
  commands : list SuiCommand;
  inputs : list SuiCallArg;
}.

(** The trait [CommandVisualizer], its default method filled in by [default_can_handle]. *)
Record CommandVisualizer := MkVisualizer {
  visualize_tx_commands : VisualizerContext → result VisualSignError (list AnnotatedPayloadField);
  kind : VisualizerKind;
  can_handle : VisualizerContext → bool;
}.

Definition default_can_handle {K : SuiSdk} (get_config : option SuiIntegrationConfigData)
    (context : VisualizerContext) : bool :=
  match get_config with
  | None => false
  | Some config =>
      match commands context !! command_index context with
      | Some (MoveCall pwc) =>
          config_can_handle config (to_hex_literal (package pwc)) (module pwc) (function pwc)
      | _ => false
      end
  end.

(** What a visualizer does with one of the functions it declares. *)
Definition call_handler : Type :=
  VisualizerContext → SuiProgrammableMoveCall → result VisualSignError (list AnnotatedPayloadField).

(** A visualizer of the calls a configuration declares: the handler of the call at hand. *)
Definition call_visualizer {K : SuiSdk} (config : SuiIntegrationConfigData) (kind : VisualizerKind)
    (missing : string)
    (handler : SuiProgrammableMoveCall → result VisualSignError call_handler)
    : CommandVisualizer :=
  MkVisualizer
    (fun context =>
       match commands context !! command_index context with
       | Some (MoveCall pwc) => handle ← handler pwc; handle context pwc
       | _ => Err (MissingData missing)
       end)
    kind (default_can_handle (Some config)).

Record VisualizeResult := MkVisualizeResult {
  result_field : list AnnotatedPayloadField; result_kind : VisualizerKind }.

Fixpoint visualize_with_any (visualizers : list CommandVisualizer) (context : VisualizerContext)
    : option (result VisualSignError VisualizeResult) :=
  match visualizers with
  | [] => None
  | v :: visualizers =>
      if can_handle v context
      then Some (field ← visualize_tx_commands v context; Ok (MkVisualizeResult field (kind v)))
      else visualize_with_any visualizers context
  end.

(** ** The walk over the commands ([core/commands.rs]) *)

Record SuiGasData := MkGasData { gas_owner : SuiAddress; gas_price : Z; gas_budget : Z }.

Inductive SuiTransactionBlockKind : Type :=
| ProgrammableTransaction (inputs : list SuiCallArg) (commands : list SuiCommand)
| ChangeEpoch | Genesis | ConsensusCommitPrologue | AuthenticatorStateUpdate
| RandomnessStateUpdate | EndOfEpochTransaction | ConsensusCommitPrologueV2
| ConsensusCommitPrologueV3 | ConsensusCommitPrologueV4 | ProgrammableSystemTransaction.

Record SuiTransactionBlockData := MkBlockData {
  transaction : SuiTransactionBlockKind;
  block_sender : SuiAddress;
  gas_data : SuiGasData;
}.

(** What the visualizers make of every command of a block. *)
Definition visualize_commands (visualizers : list CommandVisualizer)
    (block_data : SuiTransactionBlockData) : result VisualSignError (list AnnotatedPayloadField) :=
  match transaction block_data with
  | ProgrammableTransaction tx_inputs tx_commands =>
      results ← collect_results id
        (omap (fun '(command_index, _) =>
           visualize_with_any visualizers
             (MkContext (block_sender block_data) command_index tx_commands tx_inputs))
           (enumerate tx_commands));
      Ok (concat (result_field <$> results))
  | _ => Ok []
  end.

(** ** Fields of a command *)

Section fields.
Context {K : SuiSdk} {E : RegexEngine}.

(** The one preview a handler returns, its title also the fallback text. *)
Definition command_preview (label title subtitle : string)
    (condensed expanded : list AnnotatedPayloadField) : AnnotatedPayloadField :=
  annotate_field
    (PreviewLayout (Common title label)
       (FieldPreviewLayout (Some (FieldTextV2 title)) (Some (FieldTextV2 subtitle))
          (Some (FieldListLayout condensed)) (Some (FieldListLayout expanded)))).

Definition address_field (label : string) (address : bytes) : result VisualSignError AnnotatedPayloadField :=
  create_address_field label (show_address address) None None None None.

(** The object at a position of the arguments of a call. *)
Definition object_field (label : string) (context : VisualizerContext) (pwc : SuiProgrammableMoveCall)
    (arg_index : nat) : result VisualSignError AnnotatedPayloadField :=
  id ← get_object_value (arguments pwc) (inputs context) arg_index;
  address_field label id.

Definition user_field (context : VisualizerContext) : result VisualSignError AnnotatedPayloadField :=
  address_field "User Address" (sender context).

Definition from_sender (context : VisualizerContext) : string :=
  "From " +:+ truncate_address (show_address (sender context)).

(** [get_tx_type_arg(...).unwrap_or_default()] at the two types that are read so. *)
Definition coin_arg (pwc : SuiProgrammableMoveCall) (index : nat) : SuiCoin :=
  match get_tx_type_arg SuiCoin_from_str (type_arguments pwc) index with
  | Ok coin => coin
  | Err _ => SuiCoin_default
  end.

Definition package_arg (pwc : SuiProgrammableMoveCall) (index : nat) : SuiPackage :=
  match get_tx_type_arg SuiPackage_from_str (type_arguments pwc) index with
  | Ok package => package
  | Err _ => SuiPackage_default
  end.
End fields.

(** ** Numbers are read exactly *)

(** A list of bytes, as JSON. *)
Definition bytes_json (bs : bytes) : json := JArray ((fun b => JNumber (byte_to_Z b)) <$> bs).

Lemma json_array_to_bytes_json bs : json_array_to_bytes (bytes_json bs) = Ok bs.
Proof.
  unfold json_array_to_bytes, bytes_json, enumerate. apply collect_results_Ok.
  rewrite imap_fmap. apply Forall2_same_length_lookup_2; [by rewrite length_imap|].
  intros i [j v] b (b' & Hb' & [= -> ->])%list_lookup_imap_Some Hb.
  cbn [compose json_as_u64]. pose proof (byte_to_Z_range b') as Hr.
  rewrite decide_True by lia. cbn [ok_or mbind result_bind].
  rewrite decide_True, byte_of_to_Z by lia. congruence.
Qed.

Section exact_numbers.
Context {K : SuiSdk}.

(** An untyped input is read as an unsigned integer exactly when it has the width of the type, and
    is then the little-endian value of its bytes. *)
Lemma decode_uint_exact n name mv bs z :
  decode_number (MkFromLeBytes (le_uint_bytes n name) mv) (Pure (MkPureValue None (bytes_json bs))) = Ok z ↔
  length bs = n ∧ z = le_val bs.
Proof.
  cbn [decode_number value_type pure_value]. rewrite json_array_to_bytes_json.
  cbn [map_err mbind result_bind from_le_bytes]. unfold le_uint_bytes.
  case_decide; cbn [map_err]; naive_solver.
Qed.

(** Integers of the width round-trip. *)
Theorem decode_u64_roundtrip z :
  (0 ≤ z < 2 ^ 64)%Z → decode_number le_u64 (Pure (MkPureValue None (bytes_json (le_bytes 8 z)))) = Ok z.
Proof.
  intros Hz. apply decode_uint_exact. rewrite length_le_bytes. split; [done|].
  rewrite le_val_le_bytes, Z.mod_small; [done|]. exact Hz.
Qed.

(** A typed input is never read as another type. *)
Lemma decode_tagged_type {T} tag layout name (as_T : MoveValue → option T) le tag' v x :
  decode_number (MkFromLeBytes le (move_value_as tag layout name as_T)) (Pure (MkPureValue (Some tag') v)) = Ok x →
  tag' = tag.
Proof. cbn. by case_decide. Qed.

(** A boolean is read from the first of its bytes, whatever follows. *)
Lemma decode_bool_prefix b bs :
  decode_number le_bool (Pure (MkPureValue None (bytes_json ((if b : bool then Byte.x01 else Byte.x00) :: bs)))) = Ok b.
Proof. cbn [decode_number value_type pure_value]. rewrite json_array_to_bytes_json. by destruct b. Qed.
End exact_numbers.

(** ** An input is never read through the result of a command *)

Lemma get_index_Ok args i n : get_index args (Some i) = Ok n ↔ args !! i = Some (Input n).
Proof.
  cbn. destruct (args !! i) as [[]|]; cbn; naive_solver.
Qed.

(** The argument of a call at a position is an input of the transaction, of that value. *)
Definition param_is {T} (F : FromLeBytes T) (context : VisualizerContext)
    (pwc : SuiProgrammableMoveCall) (idx : nat) (x : T) : Prop :=
  ∃ n a, arguments pwc !! idx = Some (Input n) ∧ inputs context !! n = Some a ∧ decode_number F a = Ok x.

Lemma getter_Ok {T} (F : FromLeBytes T) param idx context pwc x :
  getter F param idx (inputs context) (arguments pwc) = Ok x ↔ param_is F context pwc idx x.
Proof.
  unfold getter, param_is. split.
  - intros (n & Hn%get_index_Ok & (a & Ha%ok_or_Ok & Hx)%result_bind_Ok)%result_bind_Ok. by exists n, a.
  - intros (n & a & Hn%get_index_Ok & Ha & Hx). rewrite Hn. cbn. by rewrite Ha.
Qed.

Lemma get_object_value_Ok args inputs idx id :
  get_object_value args inputs idx = Ok id ↔
  ∃ n o, args !! idx = Some (Input n) ∧ inputs !! n = Some (Object o) ∧ object_arg_id o = id.
Proof.
  unfold get_object_value. split.
  - intros (n & Hn%get_index_Ok & (a & Ha%ok_or_Ok & Ho%ok_or_Ok)%result_bind_Ok)%result_bind_Ok.
    destruct a as [o|]; [|done]. injection Ho as <-. eauto.
  - intros (n & o & Hn%get_index_Ok & Ha & <-). rewrite Hn. cbn. by rewrite Ha.
Qed.

(** ** One visualizer per call *)

Lemma visualize_with_any_filter vs context :
  visualize_with_any vs context =
  (fun v => field ← visualize_tx_commands v context; Ok (MkVisualizeResult field (kind v)))
    <$> head (filter (fun v => can_handle v context = true) vs).
Proof.
  induction vs as [|v vs IH]; [done|]. cbn [visualize_with_any]. rewrite filter_cons.
  destruct (can_handle v context); [by rewrite decide_True|by rewrite decide_False].
Qed.

(** Among visualizers of which at most one handles a command, the order does not matter. *)
Lemma visualize_with_any_perm vs vs' context :
  length (filter (fun v => can_handle v context = true) vs) ≤ 1 → vs ≡ₚ vs' →
  visualize_with_any vs context = visualize_with_any vs' context.
Proof.
  intros Hl Hp. rewrite !visualize_with_any_filter. do 2 f_equal.
  assert (filter (fun v => can_handle v context = true) vs ≡ₚ
          filter (fun v => can_handle v context = true) vs') as Hf by by rewrite Hp.
  destruct (filter _ vs) as [|v [|]]; [|..].
  - by apply Permutation_nil_l in Hf.
  - by apply Permutation_singleton_l in Hf.
  - cbn in Hl. lia.
Qed.

Lemma visualize_commands_ext vs vs' block :
  (∀ context, visualize_with_any vs context = visualize_with_any vs' context) →
  visualize_commands vs block = visualize_commands vs' block.
Proof.
  intros Heq. unfold visualize_commands. destruct (transaction block); try done.
  do 2 f_equal. apply list_omap_ext, Forall_Forall2_diag, Forall_true.
  intros [i c]. apply Heq.
Qed.

Lemma foldl_insert_lookup {A} (l : list (string * A)) (m : gmap string A) k x :
  NoDup l.*1 → (∀ k, k ∈ l.*1 → m !! k = None) →
  foldl (fun m p => <[p.1 := p.2]> m) m l !! k = Some x ↔ (k, x) ∈ l ∨ m !! k = Some x.
Proof.
  revert m. induction l as [|[k' y] l IH]; intros m; cbn [foldl fst snd fmap list_fmap].
  { intros _ _. split; [by right|]. by intros [?%elem_of_nil|]. }
  intros [Hk Hl]%NoDup_cons Hm. rewrite IH, lookup_insert_Some, elem_of_cons; [|done|].
  - assert (m !! k' = None) as Hn by (apply Hm; left). naive_solver.
  - intros k0 Hk0. rewrite lookup_insert_ne by (intros ->; done). apply Hm. by right.
Qed.

(** A call is claimed by a configuration of one package exactly when it is a call of the package whose
    module and function are declared together. *)
Lemma config_new_exact id modules p m f :
  NoDup modules.*1 →
  config_can_handle (config_new [(id, modules)]) p m f = true ↔
  p = id ∧ ∃ fs, (m, fs) ∈ modules ∧ f ∈ fs.
Proof.
  intros Hnd. unfold config_can_handle. cbn [config_new packages foldl fst snd].
  destruct (decide (p = id)) as [->|Hne].
  - rewrite lookup_insert, decide_True by done. cbn [mbind option_bind].
    assert (∀ fs, foldl (fun m p => <[p.1 := p.2]> m) (∅ : gmap string (list string)) modules !! m = Some fs ↔ (m, fs) ∈ modules) as Hl.
    { intros fs. rewrite foldl_insert_lookup, lookup_empty by done. naive_solver. }
    destruct (foldl _ _ _ !! m) as [fs|] eqn:Hm.
    + rewrite existsb_exists. setoid_rewrite <-list_elem_of_In. setoid_rewrite String.eqb_eq.
      setoid_rewrite <-Hl. naive_solver.
    + setoid_rewrite <-Hl. naive_solver.
  - rewrite lookup_insert_ne, lookup_empty by done. cbn. naive_solver.
Qed.

(** ** Rows *)

(** The rows of the expanded list of a preview. *)
Definition expanded_of (f : AnnotatedPayloadField) : list AnnotatedPayloadField :=
  match signable_payload_field f with
  | PreviewLayout _ (FieldPreviewLayout _ _ _ (Some (FieldListLayout rows))) => rows
  | _ => []
  end.

Definition text_row (label text : string) : AnnotatedPayloadField := annotate_field (text_v2 label text).

Definition amount_row (label : string) (z : Z) (unit : string) : AnnotatedPayloadField :=
  annotate_field (AmountV2 (Common (show_Z z +:+ " " +:+ unit) label) (FieldAmountV2 (show_Z z) (Some unit))).

Lemma create_amount_field_row {E : RegexEngine} label z unit f :
  create_amount_field label (show_Z z) unit = Ok f → f = amount_row label z unit.
Proof.
  unfold create_amount_field. intros (b & _ & Hf)%result_bind_Ok.
  destruct (is_empty_string unit); [done|]. by injection Hf as <-.
Qed.

Definition address_row {K : SuiSdk} (label : string) (a : bytes) : AnnotatedPayloadField :=
  annotate_field (address_v2 label (show_address a)).

Lemma object_field_row {K : SuiSdk} label context pwc i f :
  object_field label context pwc i = Ok f →
  ∃ id, get_object_value (arguments pwc) (inputs context) i = Ok id ∧ f = address_row label id.
Proof. unfold object_field. intros (id & Hid & [= <-])%result_bind_Ok. by exists id. Qed.

(** ** A concrete Sui crate *)

Lemma hex_of_bytes_inj a b : hex_of_bytes a = hex_of_bytes b → a = b.
Proof. pose proof (hex_encode_inj (H:=hex_ref) a b) as Hi. by rewrite !hex_encode_lower in Hi. Qed.

Fixpoint drop_zeros (s : string) : string :=
  match s with String "0" (String _ _ as s) => drop_zeros s | _ => s end.

Program Definition sample_sdk : SuiSdk := {|
  show_address a := "0x" +:+ hex_of_bytes a;
  to_hex := hex_of_bytes;
  to_hex_literal a := "0x" +:+ drop_zeros (hex_of_bytes a);
  to_sui_address v := json_array_to_bytes (pure_value v);
  to_move_value v layout :=
    match v, layout with
    | JBool b, LayoutBool => Ok (MoveBool b)
    | JNumber n, LayoutU64 => Ok (MoveU64 n)
    | _, _ => Err "value"
    end;
  MIST_PER_SUI := 1000000000 |}.
Next Obligation. intros a b Eq. apply hex_of_bytes_inj. by apply (inj (String.append _)) in Eq. Qed.
Next Obligation. exact hex_of_bytes_inj. Qed.
Next Obligation. exact hex_of_bytes_digits. Qed.
Next Obligation. done. Qed.

Definition u64_input (z : Z) : SuiCallArg := Pure (MkPureValue None (bytes_json (le_bytes 8 z))).
