(* ===== verification/SuiTransfers.v ===== *)
(** * Sui transfers and native staking

    [presets/coin_transfer] and [presets/sui_native_staking] of the Sui parser. *)

From S2P Require Import Prelude Json Payload Errors External Encodings Builders SuiCore.

#[local] Unset Program Cases.

(** ** Transfers ([presets/coin_transfer/mod.rs]) *)

Section transfers.
Context {K : SuiSdk} {E : RegexEngine}.

Definition resolve_receiver (inputs : list SuiCallArg) (receiver_argument : SuiArgument)
    : result VisualSignError SuiAddress :=
  i ← parse_numeric_argument receiver_argument;
  receiver_input ← ok_or (MissingData "Receiver input not found") (inputs !! i);
  pure ← ok_or (MissingData "Receiver input not found") (arg_pure receiver_input);
  map_err ConversionError (to_sui_address pure).

Definition MAX_RESOLVE_OBJECT_DEPTH : nat := 32.

Definition chain_too_deep : VisualSignError :=
  ValidationError ("Sui coin reference chain exceeded max depth of "
                   +:+ show_nat MAX_RESOLVE_OBJECT_DEPTH +:+ " hops (possible cycle)").

(** The loop of [resolve_object], by recursion on [hops_remaining]. *)
Fixpoint resolve_object_loop (commands : list SuiCommand) (inputs : list SuiCallArg)
    (hops_remaining : nat) (current : SuiArgument) : result VisualSignError CoinObject :=
  match current with
  | GasCoin => Ok Sui
  | Input index =>
      input ← ok_or (MissingData "Input not found") (inputs !! index);
      match input with
      | Object o => Ok (UnknownObject (to_hex (object_arg_id o)))
      | Pure _ =>
          Err (ParseError (UnsupportedVersion "Parsing Sui native transfer input expected `Object`"))
      end
  | Result command_index | NestedResult command_index _ =>
      match hops_remaining with
      | 0 => Err chain_too_deep
      | S hops_remaining =>
          command ← ok_or (MissingData "Result command not found") (commands !! command_index);
          match command with
          | SplitCoins coin_type _ | MergeCoins coin_type _ =>
              resolve_object_loop commands inputs hops_remaining coin_type
          | MoveCall _ => Ok (UnknownObject "Unknown")
          | _ => Err (ParseError (UnsupportedVersion
                   "Parsing Sui native transfer expected `SplitCoins` or `MergeCoins`"))
          end
      end
  end.

Definition resolve_object (commands : list SuiCommand) (inputs : list SuiCallArg)
    (object_argument : SuiArgument) : result VisualSignError CoinObject :=
  resolve_object_loop commands inputs MAX_RESOLVE_OBJECT_DEPTH object_argument.

(** The amount of a [SplitCoins] with a single amount, which transfers and stakes share. *)
Definition split_amount (inputs : list SuiCallArg) (command : SuiCommand)
    : result VisualSignError (option Z) :=
  match command with
  | SplitCoins _ [input_coin_arg] =>
      i ← parse_numeric_argument input_coin_arg;
      amount_arg ← ok_or (MissingData "Amount argument not found") (inputs !! i);
      amount ← decode_number le_u64 amount_arg;
      Ok (Some amount)
  | _ => Ok None
  end.

Definition resolve_amount (commands : list SuiCommand) (inputs : list SuiCallArg)
    (object_argument : SuiArgument) : result VisualSignError (option Z) :=
  match object_argument with
  | Result _ =>
      i ← parse_result_command_index object_argument;
      command ← ok_or (MissingData "Command not found") (commands !! i);
      split_amount inputs command
  | _ => Ok None
  end.

Definition visualize_transfer_command (context : VisualizerContext) (receiver : SuiAddress)
    (object_sent_to_receiver : CoinObject) (object_argument : SuiArgument)
    : result VisualSignError AnnotatedPayloadField :=
  amount ← resolve_amount (commands context) (inputs context) object_argument;
  '(amount_str, title_text, amount_field) ←
    match amount with
    | Some amount =>
        let title_text :=
          match object_sent_to_receiver with
          | Sui => "Transfer: " +:+ show_Z amount +:+ " MIST ("
                   +:+ show_Z (amount `div` MIST_PER_SUI) +:+ " SUI)"
          | UnknownObject id => "Transfer: " +:+ show_Z amount +:+ " " +:+ id
          end in
        amount_field ← create_amount_field "Amount" (show_Z amount) (get_label object_sent_to_receiver);
        Ok (show_Z amount +:+ " MIST", title_text, amount_field)
    | None =>
        amount_field ← create_text_field "Amount" "N/A MIST";
        Ok ("N/A MIST", "Transfer Command", amount_field)
    end;
  let from := truncate_address (show_address (sender context)) in
  let to := truncate_address (show_address receiver) in
  let subtitle_text := "From " +:+ from +:+ " to " +:+ to in
  condensed ← all_fields
    [create_text_field "Summary" ("Transfer " +:+ amount_str +:+ " from " +:+ from +:+ " to " +:+ to)];
  expanded ← all_fields
    [create_text_field "Asset Object ID" (show_coin_object object_sent_to_receiver);
     address_field "From" (sender context);
     address_field "To" receiver;
     Ok amount_field];
  Ok (command_preview "Transfer Command" title_text subtitle_text condensed expanded).

(** Both walks are over the same objects, so the [expect] on the second always finds its object. *)
Definition visualize_transfer (context : VisualizerContext)
    : result VisualSignError (list AnnotatedPayloadField) :=
  match commands context !! command_index context with
  | Some (TransferObjects objects_to_send receiver_argument) =>
      receiver ← resolve_receiver (inputs context) receiver_argument;
      objects_sent_to_receiver ←
        collect_results (resolve_object (commands context) (inputs context)) objects_to_send;
      collect_results (fun '(object, object_argument) =>
        visualize_transfer_command context receiver object object_argument)
        (zip objects_sent_to_receiver objects_to_send)
  | _ => Err (MissingData "Expected `TransferObjects` for coin transfer parsing")
  end.

Definition transfer_can_handle (context : VisualizerContext) : bool :=
  match commands context !! command_index context with
  | Some (TransferObjects _ _) => true
  | _ => false
  end.

Definition CoinTransferVisualizer : CommandVisualizer :=
  MkVisualizer visualize_transfer (Payments "Native Transfer") transfer_can_handle.
End transfers.

(** ** Native staking ([presets/sui_native_staking]) *)

Inductive SuiSystemFunctions : Type := AddStake | WithdrawStake.

Definition sui_system_functions : list (string * SuiSystemFunctions) :=
  [("request_add_stake", AddStake); ("request_withdraw_stake", WithdrawStake)].

Definition NATIVE_STAKING_CONFIG : SuiIntegrationConfigData :=
  config_new [("0x3", [("sui_system", sui_system_functions.*1)])].

Section staking.
Context {K : SuiSdk} {E : RegexEngine}.

(** [args.len() - 1] wraps around on no arguments, where [get] finds nothing (a build with overflow
    checks panics there). *)
Definition get_stake_receiver (inputs : list SuiCallArg) (args : list SuiArgument)
    : result VisualSignError SuiAddress :=
  i ← match args with
      | [] => Err (MissingData "Index out of bounds")
      | _ => get_index args (Some (length args - 1))
      end;
  receiver_input ← ok_or (MissingData "Command not found") (inputs !! i);
  pure ← ok_or (MissingData "Receiver input not found") (arg_pure receiver_input);
  map_err ConversionError (to_sui_address pure).

Definition get_stake_amount (commands : list SuiCommand) (inputs : list SuiCallArg)
    (args : list SuiArgument) : result VisualSignError (option Z) :=
  stake_arg ← ok_or (MissingData "Stake argument missing") (args !! 1);
  i ← parse_result_command_index stake_arg;
  command ← ok_or (MissingData "Command not found") (commands !! i);
  split_amount inputs command.

Definition handle_add_stake : call_handler := fun context pwc =>
  let amount :=
    match get_stake_amount (commands context) (inputs context) (arguments pwc) with
    | Ok amount => amount
    | Err _ => None
    end in
  let receiver :=
    match get_stake_receiver (inputs context) (arguments pwc) with
    | Ok receiver => receiver
    | Err _ => ZERO_ADDRESS
    end in
  '(title_text, amount_field) ←
    match amount with
    | Some amount =>
        amount_field ← create_amount_field "Amount" (show_Z amount) "MIST";
        Ok ("Stake: " +:+ show_Z amount +:+ " MIST", amount_field)
    | None =>
        amount_field ← create_text_field "Amount" "N/A MIST";
        Ok ("Stake Command", amount_field)
    end;
  let subtitle_text :=
    "From " +:+ truncate_address (show_address (sender context))
    +:+ " to validator " +:+ truncate_address (show_address receiver) in
  expanded ← all_fields
    [address_field "From" (sender context); address_field "Validator" receiver; Ok amount_field];
  Ok [command_preview "Stake Command" title_text subtitle_text [amount_field] expanded].

Definition handle_withdraw_stake : call_handler := fun context pwc =>
  condensed ← all_fields [address_field "From" (sender context)];
  expanded ← all_fields [address_field "From" (sender context)];
  Ok [command_preview "Withdraw Command" "Withdraw Stake" (from_sender context) condensed expanded].

Definition staking_handler (pwc : SuiProgrammableMoveCall) : result VisualSignError call_handler :=
  f ← try_from "function" sui_system_functions (function pwc);
  Ok match f with
     | AddStake => handle_add_stake
     | WithdrawStake => handle_withdraw_stake
     end.
End staking.

Definition SuiNativeStakingVisualizer {K : SuiSdk} {E : RegexEngine} : CommandVisualizer :=
  call_visualizer NATIVE_STAKING_CONFIG (StakingPools "Sui Native Staking")
    "Expected a `MoveCall` for staking parsing" staking_handler.

(** ** Coin references *)

(** The command an argument is a result of. *)
Definition result_of (a : SuiArgument) : option nat :=
  match a with
  | Result c | NestedResult c _ => Some c
  | GasCoin | Input _ => None
  end.

(** The coin that a command takes from or adds to. *)
Definition coin_of (c : SuiCommand) : option SuiArgument :=
  match c with
  | SplitCoins coin _ | MergeCoins coin _ => Some coin
  | _ => None
  end.

Section references.
Context {K : SuiSdk}.
Context (commands : list SuiCommand) (inputs : list SuiCallArg).

(** [leads n a b]: from argument [a], [n] references to coin commands lead to [b]. *)
Inductive leads : nat → SuiArgument → SuiArgument → Prop :=
| leads_here a : leads 0 a a
| leads_coin a c command coin n b :
    result_of a = Some c → commands !! c = Some command → coin_of command = Some coin →
    leads n coin b → leads (S n) a b.

(** [ends n b x]: after [n] references, [b] names the asset [x] within the budget. *)
Inductive ends (n : nat) : SuiArgument → CoinObject → Prop :=
| ends_gas : ends n GasCoin Sui
| ends_object i o : inputs !! i = Some (Object o) → ends n (Input i) (UnknownObject (to_hex (object_arg_id o)))
| ends_call b c pwc :
    result_of b = Some c → commands !! c = Some (MoveCall pwc) → n < 32 →
    ends n b (UnknownObject "Unknown").

Lemma loop_result h a c :
  result_of a = Some c →
  resolve_object_loop commands inputs h a =
    match h with
    | 0 => Err chain_too_deep
    | S h =>
        command ← ok_or (MissingData "Result command not found") (commands !! c);
        match coin_of command with
        | Some coin => resolve_object_loop commands inputs h coin
        | None =>
            match command with
            | MoveCall _ => Ok (UnknownObject "Unknown")
            | _ => Err (ParseError (UnsupportedVersion
                     "Parsing Sui native transfer expected `SplitCoins` or `MergeCoins`"))
            end
        end
    end.
Proof.
  intros Ha. destruct a as [| |c'|c' k]; cbn in Ha; try done; injection Ha as ->; destruct h as [|h];
    try done; cbn [resolve_object_loop]; destruct (commands !! c) as [[]|]; done.
Qed.

Lemma loop_leaf h n a x :
  result_of a = None → resolve_object_loop commands inputs h a = Ok x ↔ ends n a x.
Proof.
  destruct a as [|i| |]; intros Ha; try done; (split; [|intros He; inversion He as [|i' o Hi|]; subst; try done]).
  - destruct h; intros [= <-]; constructor.
  - by destruct h.
  - destruct h; cbn; (destruct (inputs !! i) as [[o|]|] eqn:Hi; [|done..]); intros [= <-]; by constructor.
  - destruct h; cbn; by rewrite Hi.
Qed.

Lemma loop_leaf_deep h a :
  result_of a = None → resolve_object_loop commands inputs h a ≠ Err chain_too_deep.
Proof. destruct a as [|i| |]; destruct h; cbn; try done; by destruct (inputs !! i) as [[]|]. Qed.

Lemma leads_leaf n a b : result_of a = None → leads n a b → n = 0 ∧ b = a.
Proof. intros Ha Hl. by inversion Hl; simplify_eq. Qed.

(** The loop within its budget: it names an asset exactly when that many references reach it. *)
Lemma resolve_loop_Ok h : ∀ a x,
  h ≤ 32 →
  resolve_object_loop commands inputs h a = Ok x ↔
  ∃ n b, n ≤ h ∧ leads n a b ∧ ends (32 - h + n) b x.
Proof.
  induction h as [|h IH]; intros a x Hh; (destruct (result_of a) as [c|] eqn:Ha;
    [rewrite (loop_result _ _ c) by done|]).
  2, 4: split; [intros Hx; exists 0, a; split_and!; [lia|constructor|by eapply loop_leaf]
               |intros (n & b & Hn & [-> ->]%leads_leaf & He); [by eapply loop_leaf|done]].
  - split; [done|]. intros (n & b & Hn & Hl & He). assert (n = 0) as -> by lia. inversion Hl; subst.
    inversion He; subst; [done..|lia].
  - split.
    + intros (command & Hc%ok_or_Ok & Hx)%result_bind_Ok. destruct (coin_of command) as [coin|] eqn:Hk.
      * apply IH in Hx as (n & b & Hn & Hl & He); [|lia]. exists (S n), b. split_and!; [lia|by econstructor|].
        by replace (32 - S h + S n) with (32 - h + n) by lia.
      * exists 0, a. split_and!; [lia|constructor|]. destruct command; try done. injection Hx as <-.
        econstructor; [done..|lia].
    + intros (n & b & Hn & Hl & He). destruct Hl as [a|a c' command coin n b Ha' Hc Hk Hl].
      * destruct He as [| |b c' pwc Hb Hc _]; [done..|]. assert (c' = c) as -> by congruence. by rewrite Hc.
      * assert (c' = c) as -> by congruence. rewrite Hc. cbn. rewrite Hk. apply IH; [lia|].
        exists n, b. split_and!; [lia|done|].
        by replace (32 - h + n) with (32 - S h + S n) by lia.
Qed.

Lemma loop_too_deep h : ∀ a,
  resolve_object_loop commands inputs h a = Err chain_too_deep ↔ ∃ b, leads h a b ∧ is_Some (result_of b).
Proof.
  induction h as [|h IH]; intros a; (destruct (result_of a) as [c|] eqn:Ha;
    [rewrite (loop_result _ _ c) by done|]).
  2, 4: split; [by intros ?%loop_leaf_deep
               |intros (b & [_ ->]%leads_leaf & Hb); [by rewrite Ha in Hb; destruct Hb|done]].
  - split; [|done]. intros _. exists a. split; [constructor|]. by rewrite Ha.
  - split.
    + destruct (commands !! c) as [command|] eqn:Hc; [|done]. cbn.
      destruct (coin_of command) as [coin|] eqn:Hk; [|by destruct command].
      intros (b & Hl & Hb)%IH. exists b. split; [by econstructor|done].
    + intros (b & Hl & Hb). inversion Hl as [|? c' command coin ? ? Ha' Hc Hk Hl']; subst.
      assert (c' = c) as -> by congruence. rewrite Hc. cbn. rewrite Hk. apply IH. eauto.
Qed.

Lemma cycle_never_ends a m k : ∀ b p,
  leads (S m) a a → leads (S p) b a → ∃ b', leads k b b' ∧ is_Some (result_of b').
Proof.
  induction k as [|k IH]; intros b p Ha Hb; inversion Hb as [|? c command coin ? ? Hr Hc Hk Hl]; subst.
  - exists b. split; [constructor|by rewrite Hr].
  - destruct (IH coin (match p with 0 => m | S p => p end)) as (b' & Hl' & Hr'); [done| |].
    + destruct p; [by inversion Hl; subst|done].
    + exists b'. split; [by econstructor|done].
Qed.
End references.

(** C30: The asset behind a transferred object is found within a fixed budget. [resolve_object] names an
    asset exactly when at most 32 references through coin commands reach the gas coin, an object
    of the inputs or the result of a call, and reports a chain too deep exactly when 32 references
    leave one more to follow; every cycle of references is reported so. *)
Theorem resolve_object_exact {K : SuiSdk} commands inputs a :
  (∀ x, resolve_object commands inputs a = Ok x ↔
     ∃ n b, n ≤ 32 ∧ leads commands n a b ∧ ends commands inputs n b x) ∧
  (resolve_object commands inputs a = Err chain_too_deep ↔
     ∃ b, leads commands 32 a b ∧ is_Some (result_of b)) ∧
  (∀ m, leads commands (S m) a a → resolve_object commands inputs a = Err chain_too_deep).
Proof.
  unfold resolve_object, MAX_RESOLVE_OBJECT_DEPTH. split_and!.
  - intros x. rewrite resolve_loop_Ok by lia. done.
  - apply loop_too_deep.
  - intros m Hm. apply loop_too_deep. by eapply cycle_never_ends.
Qed.



(** ** What a transfer shows *)

Section shown.
Context {K : SuiSdk} {E : RegexEngine}.

Definition transfer_rows (from to : SuiAddress) (x : CoinObject) (amount : option Z)
    : list AnnotatedPayloadField :=
  [text_row "Asset Object ID" (show_coin_object x); address_row "From" from; address_row "To" to;
   match amount with
   | Some z => amount_row "Amount" z (get_label x)
   | None => text_row "Amount" "N/A MIST"
   end].

(** The amount of an object is known when it is the result of splitting off a single coin, whose
    amount is an input of the transaction. *)
Inductive sent_amount (commands : list SuiCommand) (inputs : list SuiCallArg)
    : SuiArgument → option Z → Prop :=
| sent_split c coin i a z :
    commands !! c = Some (SplitCoins coin [Input i]) → inputs !! i = Some a →
    decode_number le_u64 a = Ok z → sent_amount commands inputs (Result c) (Some z)
| sent_unknown object :
    (∀ c coin amount, object = Result c → commands !! c ≠ Some (SplitCoins coin [amount])) →
    sent_amount commands inputs object None.

Lemma resolve_amount_Ok commands inputs object amount :
  resolve_amount commands inputs object = Ok amount → sent_amount commands inputs object amount.
Proof.
  destruct object as [| |c|]; cbn [resolve_amount];
    try (intros [= <-]; constructor; intros ? ? ? [=]).
  cbn [parse_result_command_index mbind result_bind].
  intros (command & Hc%ok_or_Ok & Ha)%result_bind_Ok.
  destruct command as [| |coin [|arg [|]]| | | |]; cbn [split_amount] in Ha;
    try (injection Ha as <-; constructor; intros c' coin' arg' [= <-]; congruence).
  apply result_bind_Ok in Ha as (i & Hi & (a & Ha%ok_or_Ok & (z & Hz & [= <-])%result_bind_Ok)%result_bind_Ok).
  destruct arg as [|i'| |]; try done. injection Hi as ->. by econstructor.
Qed.

(** A field shows the transfer of an object: its asset and amount, and both parties in full. *)
Definition shows_transfer (context : VisualizerContext) (receiver : SuiAddress) (object : SuiArgument)
    (f : AnnotatedPayloadField) : Prop :=
  ∃ x amount,
    resolve_object (commands context) (inputs context) object = Ok x ∧
    sent_amount (commands context) (inputs context) object amount ∧
    expanded_of f = transfer_rows (sender context) receiver x amount.

Lemma transfer_command_shows context receiver x object f :
  resolve_object (commands context) (inputs context) object = Ok x →
  visualize_transfer_command context receiver x object = Ok f → shows_transfer context receiver object f.
Proof.
  intros Hx. unfold visualize_transfer_command.
  intros (amount & Ha & ([[s t] r] & Hr & Hf)%result_bind_Ok)%result_bind_Ok.
  exists x, amount. split_and!; [done|by apply resolve_amount_Ok|].
  assert (r = match amount with
              | Some z => amount_row "Amount" z (get_label x)
              | None => text_row "Amount" "N/A MIST"
              end) as ->.
  { destruct amount as [z|].
    - apply result_bind_Ok in Hr as (r' & Hr'%create_amount_field_row & Hr). congruence.
    - unfold text_row, annotate_field, text_v2. cbn in Hr. congruence. }
  by injection Hf as <-.
Qed.

Lemma transfer_rows_inj from to x amount from' to' x' amount' :
  transfer_rows from to x amount = transfer_rows from' to' x' amount' →
  from = from' ∧ to = to' ∧ x = x' ∧ amount = amount'.
Proof.
  unfold transfer_rows, text_row, address_row, amount_row, annotate_field, text_v2, address_v2. intros Eq.
  split_and!; [apply show_address_inj; congruence..| |].
  - assert (show_coin_object x = show_coin_object x') as Ex by congruence. destruct x, x'; cbn in Ex; try done.
    by apply (inj (String.append _)) in Ex as ->.
  - destruct amount as [z|], amount' as [z'|]; try done. f_equal. apply show_Z_inj. congruence.
Qed.

Lemma sent_amount_unique commands inputs object amount amount' :
  sent_amount commands inputs object amount → sent_amount commands inputs object amount' → amount = amount'.
Proof.
  intros [c coin i a z Hc Hi Hz|o Ho]; inversion 1; subst; try done; [congruence|by edestruct H0|by edestruct Ho].
Qed.

(** C29: A transfer that is shown is the one that is sent. The visualizer of transfers returns one
    field per object, in order: the asset its references lead to, its amount only when it is the
    single coin split off for an amount that is itself an input, and the full addresses of the
    sender and of the receiver, which is an input too. No result of a command stands in for an
    input. *)
Theorem transfers_shown context fields :
  visualize_transfer context = Ok fields →
  ∃ objects r p receiver,
    commands context !! command_index context = Some (TransferObjects objects (Input r)) ∧
    inputs context !! r = Some (Pure p) ∧ to_sui_address p = Ok receiver ∧
    Forall2 (shows_transfer context receiver) objects fields.
Proof.
  unfold visualize_transfer.
  destruct (commands context !! command_index context) as [[|objects receiver_argument| | | | |]|] eqn:Hc; try done.
  intros (receiver & Hr & (xs & Hxs & Hf)%result_bind_Ok)%result_bind_Ok.
  unfold resolve_receiver in Hr.
  apply result_bind_Ok in Hr as (r & Hr & (a & Ha%ok_or_Ok & (p & Hp%ok_or_Ok & Hs)%result_bind_Ok)%result_bind_Ok).
  destruct receiver_argument as [|r'| |]; try done. injection Hr as ->.
  destruct a as [|p']; [done|]. injection Hp as ->. apply map_err_Ok in Hs.
  exists objects, r, p, receiver. split_and!; [done..|].
  apply collect_results_Ok in Hxs, Hf. clear Hc. revert fields Hf.
  induction Hxs as [|o x objects xs Hx _ IH]; intros fields Hf; inversion Hf; subst; constructor; [|by apply IH].
  by eapply transfer_command_shows.
Qed.

(** And what is shown determines what is sent. *)
Theorem transfer_determined context context' receiver receiver' object object' f :
  shows_transfer context receiver object f → shows_transfer context' receiver' object' f →
  sender context = sender context' ∧ receiver = receiver' ∧
  resolve_object (commands context) (inputs context) object =
    resolve_object (commands context') (inputs context') object' ∧
  (∀ amount, sent_amount (commands context) (inputs context) object amount ↔
             sent_amount (commands context') (inputs context') object' amount).
Proof.
  intros (x & amount & Hx & Ha & Hf) (x' & amount' & Hx' & Ha' & Hf').
  rewrite Hf in Hf'. apply transfer_rows_inj in Hf' as (Hs & Hr & <- & <-).
  split_and!; [done..|congruence|]. intros z. split; intros Hz.
  - by rewrite (sent_amount_unique _ _ _ _ _ Hz Ha).
  - by rewrite (sent_amount_unique _ _ _ _ _ Hz Ha').
Qed.

(** The title states whole SUI: the part of an amount below one SUI is dropped. *)
Theorem transfer_title_drops_fraction context receiver object f z :
  (0 ≤ z < 1000000000)%Z →
  resolve_amount (commands context) (inputs context) object = Ok (Some z) →
  visualize_transfer_command context receiver Sui object = Ok f →
  fallback_text (signable_payload_field f) = "Transfer: " +:+ show_Z z +:+ " MIST (0 SUI)".
Proof.
  intros Hz Ha. unfold visualize_transfer_command. rewrite Ha. cbn [mbind result_bind].
  intros ([[s t] r] & (r' & _ & [= _ <- _])%result_bind_Ok & [= <-])%result_bind_Ok.
  cbn. by rewrite MIST_PER_SUI_value, Z.div_small by lia.
Qed.

(** The summary calls every amount MIST, whatever the asset. *)
Theorem transfer_summary_unit context receiver id object f z :
  resolve_amount (commands context) (inputs context) object = Ok (Some z) →
  visualize_transfer_command context receiver (UnknownObject id) object = Ok f →
  ∃ layout text,
    signable_payload_field f = PreviewLayout (Common ("Transfer: " +:+ show_Z z +:+ " " +:+ id) "Transfer Command") layout ∧
    preview_condensed layout = Some (FieldListLayout [text_row "Summary" text]) ∧
    starts_with ("Transfer " +:+ show_Z z +:+ " MIST from ") text = true.
Proof.
  intros Ha. unfold visualize_transfer_command. rewrite Ha. cbn [mbind result_bind].
  intros ([[s t] r] & (r' & _ & [= <- <- _])%result_bind_Ok & [= <-])%result_bind_Ok.
  eexists _, _. split_and!; [reflexivity..|]. unfold starts_with. apply bool_decide_eq_true_2.
  eexists. apply strip_prefix_Some. rewrite <-!str_app_assoc. reflexivity.
Qed.

(** A stake whose validator is not an input is shown with the zero address as its validator. *)
Theorem stake_validator_defaulted context pwc fields :
  (∀ i, last (arguments pwc) ≠ Some (Input i)) →
  handle_add_stake context pwc = Ok fields →
  ∃ f amount, fields = [f] ∧
    expanded_of f = [address_row "From" (sender context); address_row "Validator" ZERO_ADDRESS; amount].
Proof.
  intros Hl.
  assert (is_ok (get_stake_receiver (inputs context) (arguments pwc)) = false) as Hr.
  { unfold get_stake_receiver. rewrite last_lookup in Hl. destruct (arguments pwc) as [|a args]; [done|].
    destruct (get_index _ _) as [i|] eqn:Hi; [|done]. apply get_index_Ok in Hi.
    exfalso. apply (Hl i). rewrite <-Hi. f_equal. cbn. lia. }
  unfold handle_add_stake. destruct (get_stake_receiver _ _); [done|]. cbv zeta.
  intros ([t r] & _ & [= <-])%result_bind_Ok. eexists _, _. split; [done|]. reflexivity.
Qed.
End shown.

(** ** A sample: a coin split off the gas coin and sent *)

Definition sample_inputs : list SuiCallArg :=
  [u64_input 500000000; Pure (MkPureValue None (bytes_json [Byte.x0a; Byte.x0b]))].

Definition sample_commands : list SuiCommand :=
  [SplitCoins GasCoin [Input 0]; TransferObjects [Result 0] (Input 1)].

Definition sample_context : VisualizerContext :=
  MkContext [Byte.x01] 1 sample_commands sample_inputs.

Lemma transfers_shown_witness :
  ∃ fields, visualize_transfer (K:=sample_sdk) (E:=derivative_engine) sample_context = Ok fields ∧
  ∃ objects r p receiver,
    commands sample_context !! command_index sample_context = Some (TransferObjects objects (Input r)) ∧
    inputs sample_context !! r = Some (Pure p) ∧ to_sui_address (SuiSdk:=sample_sdk) p = Ok receiver ∧
    Forall2 (shows_transfer (K:=sample_sdk) sample_context receiver) objects fields.
Proof.
  assert (∃ fields, visualize_transfer (K:=sample_sdk) (E:=derivative_engine) sample_context = Ok fields)
    as [fields Hf] by (eexists; vm_compute; reflexivity).
  exists fields. split; [exact Hf|].
  exact (transfers_shown (K:=sample_sdk) (E:=derivative_engine) sample_context fields Hf).
Defined.
