(* ===== verification/SuiCetus.v ===== *)
(** * The Cetus exchange on Sui

    [presets/cetus] of the Sui parser: the layout of its calls ([config.rs]) and a handler per
    call ([mod.rs]). *)

From S2P Require Import Prelude Json Payload Errors External Encodings Builders SuiCore.

#[local] Unset Program Cases.

(** ** Layout ([config.rs]) *)

Inductive CetusModules : Type := PoolScript | PoolScriptV2 | PoolScriptV3 | Router | Utils.

Definition cetus_modules : list (string * CetusModules) :=
  [("pool_script", PoolScript); ("pool_script_v2", PoolScriptV2); ("pool_script_v3", PoolScriptV3);
   ("router", Router); ("utils", Utils)].

Inductive PoolScriptFunctions : Type :=
| PoolScript_SwapA2B | PoolScript_SwapB2A | PoolScript_SwapA2BWithPartner
| PoolScript_SwapB2AWithPartner | PoolScript_ClosePosition | PoolScript_RemoveLiquidity
| PoolScript_OpenPositionWithLiquidityWithAll.

Definition pool_script_functions : list (string * PoolScriptFunctions) :=
  [("swap_a2b", PoolScript_SwapA2B);
   ("swap_b2a", PoolScript_SwapB2A);
   ("swap_a2b_with_partner", PoolScript_SwapA2BWithPartner);
   ("swap_b2a_with_partner", PoolScript_SwapB2AWithPartner);
   ("close_position", PoolScript_ClosePosition);
   ("remove_liquidity", PoolScript_RemoveLiquidity);
   ("open_position_with_liquidity_with_all", PoolScript_OpenPositionWithLiquidityWithAll)].

Inductive PoolScriptV2Functions : Type :=
| PoolScriptV2_SwapA2B | PoolScriptV2_SwapB2A | PoolScriptV2_SwapA2BWithPartner
| PoolScriptV2_SwapB2AWithPartner | PoolScriptV2_AddLiquidityByFixCoin
| PoolScriptV2_OpenPositionWithLiquidityByFixCoin | PoolScriptV2_CollectFee | PoolScriptV2_CollectReward.

Definition pool_script_v2_functions : list (string * PoolScriptV2Functions) :=
  [("swap_a2b", PoolScriptV2_SwapA2B);
   ("swap_b2a", PoolScriptV2_SwapB2A);
   ("swap_a2b_with_partner", PoolScriptV2_SwapA2BWithPartner);
   ("swap_b2a_with_partner", PoolScriptV2_SwapB2AWithPartner);
   ("add_liquidity_by_fix_coin", PoolScriptV2_AddLiquidityByFixCoin);
   ("open_position_with_liquidity_by_fix_coin",
    PoolScriptV2_OpenPositionWithLiquidityByFixCoin);
   ("collect_fee", PoolScriptV2_CollectFee);
   ("collect_reward", PoolScriptV2_CollectReward)].

Inductive PoolScriptV3Functions : Type := PoolScriptV3_CollectFee | PoolScriptV3_CollectReward.

Definition pool_script_v3_functions : list (string * PoolScriptV3Functions) :=
  [("collect_fee", PoolScriptV3_CollectFee);
   ("collect_reward", PoolScriptV3_CollectReward)].

Inductive RouterFunctions : Type := Router_Swap | Router_CheckCoinThreshold.

Definition router_functions : list (string * RouterFunctions) :=
  [("swap", Router_Swap); ("check_coin_threshold", Router_CheckCoinThreshold)].

Inductive UtilsFunctions : Type := Utils_TransferCoinToSender.

Definition utils_functions : list (string * UtilsFunctions) :=
  [("transfer_coin_to_sender", Utils_TransferCoinToSender)].

Definition CETUS_CONFIG : SuiIntegrationConfigData :=
  config_new
    [("0xb2db7142fa83210a7d78d9c12ac49c043b3cbbd482224fea6e3da00aa5a5ae2d",
      [("pool_script", pool_script_functions.*1);
       ("pool_script_v2", pool_script_v2_functions.*1);
       ("pool_script_v3", pool_script_v3_functions.*1);
       ("router", router_functions.*1);
       ("utils", utils_functions.*1)])].

(** The positions of the parameters that the swaps share. *)
Record SwapIndexes := MkSwapIndexes {
  ByAmountIn : nat; Amount : nat; AmountLimit : nat; SqrtPriceLimit : nat }.

Definition PoolScriptSwapA2BIndexes : SwapIndexes := MkSwapIndexes 3 4 5 6.
Definition PoolScriptSwapB2AIndexes : SwapIndexes := MkSwapIndexes 3 4 5 6.
Definition PoolScriptSwapA2BWithPartnerIndexes : SwapIndexes := MkSwapIndexes 4 5 6 7.
Definition PoolScriptSwapB2AWithPartnerIndexes : SwapIndexes := MkSwapIndexes 4 5 6 7.
Definition SwapA2BIndexes : SwapIndexes := MkSwapIndexes 4 5 6 7.
Definition SwapB2AIndexes : SwapIndexes := MkSwapIndexes 4 5 6 7.
Definition SwapA2BWithPartnerIndexes : SwapIndexes := MkSwapIndexes 5 6 7 8.
Definition SwapB2AWithPartnerIndexes : SwapIndexes := MkSwapIndexes 5 6 7 8.

(** And those of the two calls that open a position. *)
Record OpenPositionIndexes := MkOpenPositionIndexes {
  TickLowerIdx : nat; TickUpperIdx : nat; AmountA : nat; AmountB : nat; IsFixA : nat }.

Definition PoolScriptOpenPositionWithLiquidityWithAllIndexes : OpenPositionIndexes :=
  MkOpenPositionIndexes 2 3 6 7 8.
Definition OpenPositionWithLiquidityByFixCoinIndexes : OpenPositionIndexes :=
  MkOpenPositionIndexes 2 3 6 7 8.

(** ** Handlers ([mod.rs]) *)

Section cetus.
Context {K : SuiSdk} {E : RegexEngine}.

Definition determine_input_output_coins (is_a2b : bool) (pwc : SuiProgrammableMoveCall)
    : SuiCoin * SuiCoin :=
  if is_a2b then (coin_arg pwc 0, coin_arg pwc 1) else (coin_arg pwc 1, coin_arg pwc 0).

Definition determine_primary_limit_labels (input_coin output_coin : SuiCoin) (by_amount_in : bool)
    : string * string * string * string :=
  if by_amount_in
  then ("Amount In", base_unit_symbol input_coin, "Min Out", base_unit_symbol output_coin)
  else ("Amount Out", base_unit_symbol output_coin, "Max In", base_unit_symbol input_coin).

Definition price_limit_text (sqrt_price_limit : Z) : string :=
  if decide (sqrt_price_limit = 0%Z) then "None" else show_Z sqrt_price_limit.

Definition swap_title (amount : Z) (input_coin output_coin : SuiCoin) : string :=
  "CetusAMM Swap: " +:+ show_Z amount +:+ " From " +:+ base_unit_symbol input_coin
  +:+ " To " +:+ base_unit_symbol output_coin.

Definition render_swap_fields (context : VisualizerContext) (by_amount_in : bool)
    (amount amount_limit : Z) (is_a2b : bool) (sqrt_price_limit : Z) (pwc : SuiProgrammableMoveCall)
    : result VisualSignError (list AnnotatedPayloadField) :=
  let '(input_coin, output_coin) := determine_input_output_coins is_a2b pwc in
  let '(primary_label, primary_symbol, limit_label, limit_symbol) :=
    determine_primary_limit_labels input_coin output_coin by_amount_in in
  expanded ← all_fields
    [object_field "Pool Address" context pwc 1;
     user_field context;
     create_amount_field primary_label (show_Z amount) primary_symbol;
     create_text_field "Input Coin" (show_coin input_coin);
     create_amount_field limit_label (show_Z amount_limit) limit_symbol;
     create_text_field "Output Coin" (show_coin output_coin);
     create_text_field "Sqrt Price Limit" (price_limit_text sqrt_price_limit)];
  condensed ← all_fields
    [create_text_field "Summary"
       ("Swap " +:+ base_unit_symbol input_coin +:+ " to " +:+ base_unit_symbol output_coin
        +:+ " (" +:+ limit_label +:+ ": " +:+ show_Z amount_limit +:+ " "
        +:+ base_unit_symbol (if by_amount_in then output_coin else input_coin) +:+ ")")];
  Ok [command_preview "CetusAMM Swap Command" (swap_title amount input_coin output_coin)
        (from_sender context) condensed expanded].

(** The four swap handlers read the parameters of their call, then render. *)
Definition swap_with (indexes : SwapIndexes) (is_a2b : bool) : call_handler := fun context pwc =>
  by_amount_in ← getter le_bool "by_amount_in" (ByAmountIn indexes) (inputs context) (arguments pwc);
  amount ← getter le_u64 "amount" (Amount indexes) (inputs context) (arguments pwc);
  amount_limit ← getter le_u64 "amount_limit" (AmountLimit indexes) (inputs context) (arguments pwc);
  sqrt_price_limit ← getter le_u128 "sqrt_price_limit" (SqrtPriceLimit indexes) (inputs context)
                       (arguments pwc);
  render_swap_fields context by_amount_in amount amount_limit is_a2b sqrt_price_limit pwc.

Definition handle_swap_v2 (is_a2b : bool) : call_handler :=
  swap_with (if is_a2b then SwapA2BIndexes else SwapB2AIndexes) is_a2b.

Definition handle_swap_v2_with_partner (is_a2b : bool) : call_handler :=
  swap_with (if is_a2b then SwapA2BWithPartnerIndexes else SwapB2AWithPartnerIndexes) is_a2b.

Definition handle_swap_pool_script (is_a2b : bool) : call_handler :=
  swap_with (if is_a2b then PoolScriptSwapA2BIndexes else PoolScriptSwapB2AIndexes) is_a2b.

Definition handle_swap_pool_script_with_partner (is_a2b : bool) : call_handler :=
  swap_with (if is_a2b then PoolScriptSwapA2BWithPartnerIndexes
             else PoolScriptSwapB2AWithPartnerIndexes) is_a2b.

Definition handle_router_swap : call_handler := fun context pwc =>
  is_a2b ← getter le_bool "is_a2b" 4 (inputs context) (arguments pwc);
  by_amount_in ← getter le_bool "by_amount_in" 5 (inputs context) (arguments pwc);
  amount ← getter le_u64 "amount" 6 (inputs context) (arguments pwc);
  let amount_limit := 0%Z in
  sqrt_price_limit ← getter le_u128 "sqrt_price_limit" 7 (inputs context) (arguments pwc);
  use_all_coin ← getter le_bool "use_all_coin" 8 (inputs context) (arguments pwc);
  let '(input_coin, output_coin) := determine_input_output_coins is_a2b pwc in
  let '(primary_label, primary_symbol, limit_label, limit_symbol) :=
    determine_primary_limit_labels input_coin output_coin by_amount_in in
  expanded ← all_fields
    [user_field context;
     create_amount_field primary_label (show_Z amount) primary_symbol;
     create_text_field "Input Coin" (show_coin input_coin);
     create_amount_field limit_label (show_Z amount_limit) limit_symbol;
     create_text_field "Output Coin" (show_coin output_coin);
     create_text_field "Sqrt Price Limit" (price_limit_text sqrt_price_limit);
     create_text_field "Use All Coin" (if use_all_coin : bool then "true" else "false")];
  let price_hint := if decide (sqrt_price_limit = 0%Z) then "none" else "set" in
  condensed ← all_fields
    [create_text_field "Summary"
       ("Swap " +:+ base_unit_symbol input_coin +:+ " to " +:+ base_unit_symbol output_coin
        +:+ " (" +:+ limit_label +:+ ": " +:+ show_Z amount_limit +:+ " "
        +:+ base_unit_symbol (if by_amount_in : bool then output_coin else input_coin)
        +:+ ", Price Limit: " +:+ price_hint +:+ ")")];
  Ok [command_preview "CetusAMM Swap Command" (swap_title amount input_coin output_coin)
        (from_sender context) condensed expanded].

Definition handle_check_coin_threshold : call_handler := fun context pwc =>
  let coin := coin_arg pwc 0 in
  threshold ← getter le_u64 "threshold" 1 (inputs context) (arguments pwc);
  expanded ← all_fields
    [user_field context;
     create_text_field "Coin" (show_coin coin);
     create_amount_field "Threshold" (show_Z threshold) (base_unit_symbol coin)];
  condensed ← all_fields
    [create_text_field "Summary"
       ("Check " +:+ base_unit_symbol coin +:+ " balance threshold " +:+ show_Z threshold)];
  Ok [command_preview "Cetus Router Check Coin Threshold"
        ("Cetus Router: Check Coin Threshold " +:+ show_Z threshold +:+ " " +:+ base_unit_symbol coin)
        (from_sender context) condensed expanded].

Definition handle_collect_reward : call_handler := fun context pwc =>
  let coin_a := coin_arg pwc 0 in
  let coin_b := coin_arg pwc 1 in
  let reward_coin := coin_arg pwc 2 in
  expanded ← all_fields
    [object_field "Pool Address" context pwc 1;
     user_field context;
     create_text_field "Pool Coin A" (show_coin coin_a);
     create_text_field "Pool Coin B" (show_coin coin_b);
     create_text_field "Reward Coin" (show_coin reward_coin)];
  condensed ← all_fields
    [create_text_field "Summary"
       ("Collect rewards (" +:+ base_unit_symbol reward_coin +:+ ") from pool "
        +:+ base_unit_symbol coin_a +:+ "/" +:+ base_unit_symbol coin_b)];
  Ok [command_preview "CetusAMM Collect Reward Command"
        ("CetusAMM Collect Reward (" +:+ base_unit_symbol reward_coin +:+ ")")
        (from_sender context) condensed expanded].

Definition handle_collect_fee : call_handler := fun context pwc =>
  let coin_a := coin_arg pwc 0 in
  let coin_b := coin_arg pwc 1 in
  expanded ← all_fields
    [object_field "Pool Address" context pwc 1;
     user_field context;
     create_text_field "Pool Coin A" (show_coin coin_a);
     create_text_field "Pool Coin B" (show_coin coin_b)];
  condensed ← all_fields
    [create_text_field "Summary"
       ("Collect fee from pool " +:+ base_unit_symbol coin_a +:+ "/" +:+ base_unit_symbol coin_b)];
  Ok [command_preview "CetusAMM Collect Fee Command" "CetusAMM Collect Fee"
        (from_sender context) condensed expanded].

Definition render_close_position (context : VisualizerContext) (pwc : SuiProgrammableMoveCall)
    (coin_a coin_b : SuiCoin) (min_a min_b : Z) : result VisualSignError (list AnnotatedPayloadField) :=
  expanded ← all_fields
    [object_field "Pool Address" context pwc 1;
     user_field context;
     create_text_field "Pool Coin A" (show_coin coin_a);
     create_text_field "Pool Coin B" (show_coin coin_b);
     create_amount_field "Min Out A" (show_Z min_a) (base_unit_symbol coin_a);
     create_amount_field "Min Out B" (show_Z min_b) (base_unit_symbol coin_b)];
  condensed ← all_fields
    [create_text_field "Summary"
       ("Close position and withdraw at least " +:+ show_Z min_a +:+ " " +:+ base_unit_symbol coin_a
        +:+ " and " +:+ show_Z min_b +:+ " " +:+ base_unit_symbol coin_b)];
  Ok [command_preview "CetusAMM Close Position Command" "CetusAMM Close Position"
        (from_sender context) condensed expanded].

Definition handle_close_position_pool_script : call_handler := fun context pwc =>
  min_a ← getter le_u64 "min_amount_a" 3 (inputs context) (arguments pwc);
  min_b ← getter le_u64 "min_amount_b" 4 (inputs context) (arguments pwc);
  render_close_position context pwc (coin_arg pwc 0) (coin_arg pwc 1) min_a min_b.

Definition render_remove_liquidity (context : VisualizerContext) (pwc : SuiProgrammableMoveCall)
    (coin_a coin_b : SuiCoin) (liquidity min_a min_b : Z)
    : result VisualSignError (list AnnotatedPayloadField) :=
  expanded ← all_fields
    [object_field "Pool Address" context pwc 1;
     user_field context;
     create_text_field "Pool Coin A" (show_coin coin_a);
     create_text_field "Pool Coin B" (show_coin coin_b);
     create_amount_field "Liquidity" (show_Z liquidity) "RAW";
     create_amount_field "Min Out A" (show_Z min_a) (base_unit_symbol coin_a);
     create_amount_field "Min Out B" (show_Z min_b) (base_unit_symbol coin_b)];
  condensed ← all_fields
    [create_text_field "Summary"
       ("Remove liquidity " +:+ show_Z liquidity +:+ " from " +:+ base_unit_symbol coin_a +:+ "/"
        +:+ base_unit_symbol coin_b +:+ " (min " +:+ show_Z min_a +:+ " " +:+ base_unit_symbol coin_a
        +:+ ", " +:+ show_Z min_b +:+ " " +:+ base_unit_symbol coin_b +:+ ")")];
  Ok [command_preview "CetusAMM Remove Liquidity Command" "CetusAMM Remove Liquidity"
        (from_sender context) condensed expanded].

Definition handle_remove_liquidity_pool_script : call_handler := fun context pwc =>
  liquidity ← getter le_u128 "liquidity" 3 (inputs context) (arguments pwc);
  min_a ← getter le_u64 "min_amount_a" 4 (inputs context) (arguments pwc);
  min_b ← getter le_u64 "min_amount_b" 5 (inputs context) (arguments pwc);
  render_remove_liquidity context pwc (coin_arg pwc 0) (coin_arg pwc 1) liquidity min_a min_b.

Definition handle_add_liquidity_by_fix_coin_v2 : call_handler := fun context pwc =>
  let coin_a := coin_arg pwc 0 in
  let coin_b := coin_arg pwc 1 in
  amount_a ← getter le_u64 "amount_a" 5 (inputs context) (arguments pwc);
  amount_b ← getter le_u64 "amount_b" 6 (inputs context) (arguments pwc);
  is_fix_a ← getter le_bool "is_fix_a" 7 (inputs context) (arguments pwc);
  let fix_coin := if is_fix_a : bool then coin_a else coin_b in
  expanded ← all_fields
    [object_field "Pool Address" context pwc 1;
     user_field context;
     create_text_field "Pool Coin A" (show_coin coin_a);
     create_text_field "Pool Coin B" (show_coin coin_b);
     create_text_field "Fix Coin" (show_coin fix_coin);
     create_amount_field "Amount A" (show_Z amount_a) (base_unit_symbol coin_a);
     create_amount_field "Amount B" (show_Z amount_b) (base_unit_symbol coin_b)];
  condensed ← all_fields
    [create_text_field "Summary"
       ("Add liquidity with " +:+ base_unit_symbol fix_coin +:+ " fixed (A: " +:+ show_Z amount_a
        +:+ " " +:+ base_unit_symbol coin_a +:+ ", B: " +:+ show_Z amount_b +:+ " "
        +:+ base_unit_symbol coin_b +:+ ")")];
  Ok [command_preview "CetusAMM Add Liquidity (Fix Coin) Command" "CetusAMM Add Liquidity (Fix Coin)"
        (from_sender context) condensed expanded].

Definition render_open_position_with_liquidity (context : VisualizerContext)
    (pwc : SuiProgrammableMoveCall) (coin_a coin_b : SuiCoin) (amount_a amount_b : Z)
    (is_fix_a : bool) (tick_lower_idx tick_upper_idx : Z)
    : result VisualSignError (list AnnotatedPayloadField) :=
  let fix_coin := if is_fix_a then coin_a else coin_b in
  expanded ← all_fields
    [object_field "Pool Address" context pwc 1;
     user_field context;
     create_text_field "Pool Coin A" (show_coin coin_a);
     create_text_field "Pool Coin B" (show_coin coin_b);
     create_text_field "Fix Coin" (show_coin fix_coin);
     create_amount_field "Amount A" (show_Z amount_a) (base_unit_symbol coin_a);
     create_amount_field "Amount B" (show_Z amount_b) (base_unit_symbol coin_b);
     create_text_field "Tick Lower Index" (show_Z tick_lower_idx);
     create_text_field "Tick Upper Index" (show_Z tick_upper_idx)];
  condensed ← all_fields
    [create_text_field "Summary"
       ("Open position with " +:+ base_unit_symbol fix_coin +:+ " fixed (A: " +:+ show_Z amount_a
        +:+ " " +:+ base_unit_symbol coin_a +:+ ", B: " +:+ show_Z amount_b +:+ " "
        +:+ base_unit_symbol coin_b +:+ ")")];
  Ok [command_preview "CetusAMM Open Position With Liquidity Command"
        "CetusAMM Open Position With Liquidity" (from_sender context) condensed expanded].

(** Both calls that open a position read the same parameters at the same positions. *)
Definition open_position_with (indexes : OpenPositionIndexes) : call_handler := fun context pwc =>
  amount_a ← getter le_u64 "amount_a" (AmountA indexes) (inputs context) (arguments pwc);
  amount_b ← getter le_u64 "amount_b" (AmountB indexes) (inputs context) (arguments pwc);
  is_fix_a ← getter le_bool "is_fix_a" (IsFixA indexes) (inputs context) (arguments pwc);
  tick_lower_idx ← getter le_u32 "tick_lower_idx" (TickLowerIdx indexes) (inputs context) (arguments pwc);
  tick_upper_idx ← getter le_u32 "tick_upper_idx" (TickUpperIdx indexes) (inputs context) (arguments pwc);
  render_open_position_with_liquidity context pwc (coin_arg pwc 0) (coin_arg pwc 1)
    amount_a amount_b is_fix_a tick_lower_idx tick_upper_idx.

Definition handle_open_position_with_liquidity_by_fix_coin_v2 : call_handler :=
  open_position_with OpenPositionWithLiquidityByFixCoinIndexes.

Definition handle_open_position_with_liquidity_with_all_pool_script : call_handler :=
  open_position_with PoolScriptOpenPositionWithLiquidityWithAllIndexes.

Definition handle_transfer_coin_to_sender : call_handler := fun context pwc =>
  let coin := coin_arg pwc 0 in
  expanded ← all_fields [user_field context; create_text_field "Coin" (show_coin coin)];
  condensed ← all_fields
    [create_text_field "Summary" ("Transfer " +:+ base_unit_symbol coin +:+ " to sender")];
  Ok [command_preview "Cetus Utils Transfer Coin To Sender"
        ("Cetus Utils: Transfer " +:+ base_unit_symbol coin +:+ " to Sender")
        ("To " +:+ truncate_address (show_address (sender context))) condensed expanded].

Definition pool_script_handler (f : PoolScriptFunctions) : call_handler :=
  match f with
  | PoolScript_SwapA2B => handle_swap_pool_script true
  | PoolScript_SwapB2A => handle_swap_pool_script false
  | PoolScript_SwapA2BWithPartner => handle_swap_pool_script_with_partner true
  | PoolScript_SwapB2AWithPartner => handle_swap_pool_script_with_partner false
  | PoolScript_ClosePosition => handle_close_position_pool_script
  | PoolScript_RemoveLiquidity => handle_remove_liquidity_pool_script
  | PoolScript_OpenPositionWithLiquidityWithAll =>
      handle_open_position_with_liquidity_with_all_pool_script
  end.

Definition pool_script_v2_handler (f : PoolScriptV2Functions) : call_handler :=
  match f with
  | PoolScriptV2_SwapB2A => handle_swap_v2 false
  | PoolScriptV2_SwapA2B => handle_swap_v2 true
  | PoolScriptV2_SwapA2BWithPartner => handle_swap_v2_with_partner true
  | PoolScriptV2_SwapB2AWithPartner => handle_swap_v2_with_partner false
  | PoolScriptV2_CollectReward => handle_collect_reward
  | PoolScriptV2_CollectFee => handle_collect_fee
  | PoolScriptV2_OpenPositionWithLiquidityByFixCoin =>
      handle_open_position_with_liquidity_by_fix_coin_v2
  | PoolScriptV2_AddLiquidityByFixCoin => handle_add_liquidity_by_fix_coin_v2
  end.

Definition cetus_handler (pwc : SuiProgrammableMoveCall) : result VisualSignError call_handler :=
  m ← try_from "module" cetus_modules (module pwc);
  match m with
  | PoolScript => pool_script_handler <$> try_from "function" pool_script_functions (function pwc)
  | PoolScriptV2 => pool_script_v2_handler <$> try_from "function" pool_script_v2_functions (function pwc)
  | Router =>
      f ← try_from "function" router_functions (function pwc);
      Ok match f with
         | Router_Swap => handle_router_swap
         | Router_CheckCoinThreshold => handle_check_coin_threshold
         end
  | Utils =>
      f ← try_from "function" utils_functions (function pwc);
      Ok match f with Utils_TransferCoinToSender => handle_transfer_coin_to_sender end
  | PoolScriptV3 =>
      f ← try_from "function" pool_script_v3_functions (function pwc);
      Ok match f with
         | PoolScriptV3_CollectFee => handle_collect_fee
         | PoolScriptV3_CollectReward => handle_collect_reward
         end
  end.

Definition CetusVisualizer : CommandVisualizer :=
  call_visualizer CETUS_CONFIG (Dex "Cetus") "Expected a `MoveCall` for Cetus parsing" cetus_handler.
End cetus.

(** ** What a swap shows *)

Section shown.
Context {K : SuiSdk} {E : RegexEngine}.

(** The swap calls: the position of the first of their four parameters, and whether coin A is
    given for coin B. *)
Definition swap_calls : list (string * string * nat * bool) :=
  [("pool_script", "swap_a2b", 3, true); ("pool_script", "swap_b2a", 3, false);
   ("pool_script", "swap_a2b_with_partner", 4, true); ("pool_script", "swap_b2a_with_partner", 4, false);
   ("pool_script_v2", "swap_a2b", 4, true); ("pool_script_v2", "swap_b2a", 4, false);
   ("pool_script_v2", "swap_a2b_with_partner", 5, true);
   ("pool_script_v2", "swap_b2a_with_partner", 5, false)].

(** The rows of a swap of [input] for [output]: an exact input bounded by what comes out, or an
    exact output bounded by what goes in, each in the unit of its coin. *)
Definition swap_rows (pool user : bytes) (by_amount_in : bool) (amount limit price : Z)
    (input output : SuiCoin) : list AnnotatedPayloadField :=
  [address_row "Pool Address" pool;
   address_row "User Address" user;
   (if by_amount_in then amount_row "Amount In" amount (base_unit_symbol input)
    else amount_row "Amount Out" amount (base_unit_symbol output));
   text_row "Input Coin" (show_coin input);
   (if by_amount_in then amount_row "Min Out" limit (base_unit_symbol output)
    else amount_row "Max In" limit (base_unit_symbol input));
   text_row "Output Coin" (show_coin output);
   text_row "Sqrt Price Limit" (if decide (price = 0%Z) then "None" else show_Z price)].

Lemma render_swap_rows context b amount limit d price pwc fields :
  render_swap_fields context b amount limit d price pwc = Ok fields →
  ∃ pool f, get_object_value (arguments pwc) (inputs context) 1 = Ok pool ∧ fields = [f] ∧
    expanded_of f = swap_rows pool (sender context) b amount limit price
                      (coin_arg pwc (if d then 0 else 1)) (coin_arg pwc (if d then 1 else 0)).
Proof.
  unfold render_swap_fields, determine_input_output_coins, determine_primary_limit_labels.
  destruct d, b; cbv iota beta zeta;
    intros (rows & Hrows & [= <-])%result_bind_Ok; unfold all_fields in Hrows;
    apply collect_results_Ok in Hrows; decompose_Forall_hyps; cbv [id] in *;
    match goal with H : object_field _ _ _ _ = Ok _ |- _ => apply object_field_row in H as (pool & Hp & ->) end;
    repeat match goal with H : create_amount_field _ _ _ = Ok _ |- _ => apply create_amount_field_row in H as -> end;
    exists pool; eexists; (split_and!; [done|done|]); unfold swap_rows, price_limit_text in *;
    repeat match goal with H : _ = Ok _ |- _ => injection H as <- end; done.
Qed.

(** C33: A Cetus swap is shown as it is called. For each of the eight swap calls, what is shown is the
    pool of the second argument, the sender, and the four parameters at the positions of that
    call, each an input of the transaction: the amount as an input or an output and its limit, in
    the units of the coins given and taken, which the direction of the call picks from its type
    arguments, and the price limit. *)
Theorem cetus_swap_shown context pwc k (d : bool) fields :
  commands context !! command_index context = Some (MoveCall pwc) →
  (module pwc, function pwc, k, d) ∈ swap_calls →
  visualize_tx_commands CetusVisualizer context = Ok fields →
  ∃ pool b amount limit price f,
    get_object_value (arguments pwc) (inputs context) 1 = Ok pool ∧
    param_is le_bool context pwc k b ∧ param_is le_u64 context pwc (k + 1) amount ∧
    param_is le_u64 context pwc (k + 2) limit ∧ param_is le_u128 context pwc (k + 3) price ∧
    fields = [f] ∧
    expanded_of f = swap_rows pool (sender context) b amount limit price
                      (coin_arg pwc (if d then 0 else 1)) (coin_arg pwc (if d then 1 else 0)).
Proof.
  intros Hc Hin. cbn [visualize_tx_commands CetusVisualizer call_visualizer]. rewrite Hc.
  assert (∃ ix, cetus_handler pwc = Ok (swap_with ix d) ∧ ByAmountIn ix = k ∧ Amount ix = k + 1 ∧
    AmountLimit ix = k + 2 ∧ SqrtPriceLimit ix = k + 3) as (ix & -> & <- & <- & <- & <-).
  { unfold cetus_handler. destruct pwc as [pkg m f ts args]. cbn [module function] in *. clear Hc.
    unfold swap_calls in Hin. repeat (apply elem_of_cons in Hin as [Eq|Hin]; [simplify_eq/=; eexists; split; [reflexivity|done]|]).
    by apply elem_of_nil in Hin. }
  cbn [mbind result_bind]. intros (b & Hb%getter_Ok & (amount & Ha%getter_Ok & (limit & Hl%getter_Ok &
    (price & Hp%getter_Ok & Hr)%result_bind_Ok)%result_bind_Ok)%result_bind_Ok)%result_bind_Ok.
  apply render_swap_rows in Hr as (pool & f & Hpool & -> & Hf). by exists pool, b, amount, limit, price, f.
Qed.
End shown.

(** ** A sample swap *)

Definition sample_swap : SuiProgrammableMoveCall :=
  MkMoveCall [] "pool_script_v2" "swap_b2a" ["0x2::sui::SUI"; "0xa::usdc::USDC"]
    [Input 0; Input 0; Input 0; Input 0; Input 1; Input 2; Input 2; Input 3].

Definition sample_swap_context : VisualizerContext :=
  MkContext [Byte.x01] 0 [MoveCall sample_swap]
    [Object (SharedObject [Byte.x0c]); Pure (MkPureValue None (bytes_json [Byte.x01])); u64_input 7;
     Pure (MkPureValue None (bytes_json (le_bytes 16 0)))].

Lemma cetus_swap_shown_witness :
  ∃ fields, visualize_tx_commands (CetusVisualizer (K:=sample_sdk) (E:=derivative_engine)) sample_swap_context = Ok fields ∧
  ∃ pool b amount limit price f,
    get_object_value (arguments sample_swap) (inputs sample_swap_context) 1 = Ok pool ∧
    param_is (le_bool (K:=sample_sdk)) sample_swap_context sample_swap 4 b ∧
    param_is (le_u64 (K:=sample_sdk)) sample_swap_context sample_swap (4 + 1) amount ∧
    param_is (le_u64 (K:=sample_sdk)) sample_swap_context sample_swap (4 + 2) limit ∧
    param_is (le_u128 (K:=sample_sdk)) sample_swap_context sample_swap (4 + 3) price ∧ fields = [f] ∧
    expanded_of f = swap_rows (K:=sample_sdk) pool (sender sample_swap_context) b amount limit price
                      (coin_arg sample_swap 1) (coin_arg sample_swap 0).
Proof.
  assert (∃ fields, visualize_tx_commands (CetusVisualizer (K:=sample_sdk) (E:=derivative_engine))
    sample_swap_context = Ok fields) as [fields Hf] by (eexists; vm_compute; reflexivity).
  exists fields. split; [exact Hf|].
  apply (cetus_swap_shown (K:=sample_sdk) (E:=derivative_engine) sample_swap_context sample_swap 4 false fields);
    [reflexivity| |exact Hf].
  do 5 apply list_elem_of_further. apply list_elem_of_here.
Defined.
