(* ===== verification/SuiMomentum.v ===== *)
(** * The Momentum exchange on Sui

    [presets/momentum] of the Sui parser: the layout of its calls ([config.rs]) and a handler per
    call ([mod.rs]). *)

From S2P Require Import Prelude Json Payload Errors External Encodings Builders SuiCore.

#[local] Unset Program Cases.

(** ** Layout ([config.rs]) *)

Inductive MomentumModules : Type := Collect | Liquidity | Trade.

Definition momentum_modules : list (string * MomentumModules) :=
  [("collect", Collect); ("liquidity", Liquidity); ("trade", Trade)].

Inductive CollectFunctions : Type := Fee | Reward.

Definition collect_functions : list (string * CollectFunctions) := [("fee", Fee); ("reward", Reward)].

Inductive LiquidityFunctions : Type := RemoveLiquidity | ClosePosition | AddLiquidity | OpenPosition.

Definition liquidity_functions : list (string * LiquidityFunctions) :=
  [("remove_liquidity", RemoveLiquidity); ("close_position", ClosePosition);
   ("add_liquidity", AddLiquidity); ("open_position", OpenPosition)].

Inductive TradeFunctions : Type := FlashSwap | RepayFlashSwap | SwapReceiptDebts.

Definition trade_functions : list (string * TradeFunctions) :=
  [("flash_swap", FlashSwap); ("repay_flash_swap", RepayFlashSwap);
   ("swap_receipt_debts", SwapReceiptDebts)].

Definition MOMENTUM_CONFIG : SuiIntegrationConfigData :=
  config_new
    [("0xcf60a40f45d46fc1e828871a647c1e25a0915dec860d2662eb10fdb382c3c1d1",
      [("collect", collect_functions.*1);
       ("liquidity", liquidity_functions.*1);
       ("trade", trade_functions.*1)])].

(** ** Handlers ([mod.rs]) *)

Section momentum.
Context {K : SuiSdk} {E : RegexEngine}.

Definition pair_of (coin_1 coin_2 : SuiCoin) : string := coin_symbol coin_1 +:+ "/" +:+ coin_symbol coin_2.

Definition handle_remove_liquidity : call_handler := fun context pwc =>
  let coin_1 := coin_arg pwc 0 in
  let coin_2 := coin_arg pwc 1 in
  liquidity ← getter le_u128 "liquidity" 2 (inputs context) (arguments pwc);
  min_amount_x ← getter le_u64 "min_amount_x" 3 (inputs context) (arguments pwc);
  min_amount_y ← getter le_u64 "min_amount_y" 4 (inputs context) (arguments pwc);
  expanded ← all_fields
    [object_field "Pool Address" context pwc 0;
     object_field "Position" context pwc 1;
     user_field context;
     create_text_field "Pool Coin A" (show_coin coin_1);
     create_text_field "Pool Coin B" (show_coin coin_2);
     create_text_field "Liquidity" (show_Z liquidity);
     create_amount_field "Min Amount X" (show_Z min_amount_x) (base_unit_symbol coin_1);
     create_amount_field "Min Amount Y" (show_Z min_amount_y) (base_unit_symbol coin_2)];
  condensed ← all_fields
    [create_text_field "Summary"
       ("Remove liquidity from pair " +:+ pair_of coin_1 coin_2 +:+ " to "
        +:+ show_address (sender context))];
  Ok [command_preview "Momentum Remove Liquidity Command"
        ("Momentum Remove Liquidity from pair " +:+ pair_of coin_1 coin_2)
        (from_sender context) condensed expanded].

Definition handle_close_position : call_handler := fun context pwc =>
  expanded ← all_fields [object_field "Position" context pwc 0; user_field context];
  condensed ← all_fields
    [create_text_field "Summary" ("Close position for " +:+ show_address (sender context))];
  Ok [command_preview "Momentum Close Position Command" "Momentum Close Position"
        (from_sender context) condensed expanded].

Definition handle_add_liquidity : call_handler := fun context pwc =>
  let coin_1 := coin_arg pwc 0 in
  let coin_2 := coin_arg pwc 1 in
  min_amount_x ← getter le_u64 "min_amount_x" 4 (inputs context) (arguments pwc);
  min_amount_y ← getter le_u64 "min_amount_y" 5 (inputs context) (arguments pwc);
  expanded ← all_fields
    [object_field "Pool Address" context pwc 0;
     user_field context;
     create_text_field "Pool Coin A" (show_coin coin_1);
     create_text_field "Pool Coin B" (show_coin coin_2);
     create_amount_field "Min Amount X" (show_Z min_amount_x) (base_unit_symbol coin_1);
     create_amount_field "Min Amount Y" (show_Z min_amount_y) (base_unit_symbol coin_2)];
  condensed ← all_fields
    [create_text_field "Summary"
       ("Add liquidity to pair " +:+ pair_of coin_1 coin_2 +:+ " by " +:+ show_address (sender context))];
  Ok [command_preview "Momentum Add Liquidity Command"
        ("Momentum Add Liquidity to pair " +:+ pair_of coin_1 coin_2)
        (from_sender context) condensed expanded].

Definition handle_open_position : call_handler := fun context pwc =>
  let coin_1 := coin_arg pwc 0 in
  let coin_2 := coin_arg pwc 1 in
  expanded ← all_fields
    [object_field "Pool Address" context pwc 0;
     user_field context;
     create_text_field "Pool Coin A" (show_coin coin_1);
     create_text_field "Pool Coin B" (show_coin coin_2)];
  condensed ← all_fields
    [create_text_field "Summary" ("Open position in pool " +:+ pair_of coin_1 coin_2)];
  Ok [command_preview "Momentum Open Position Command" "Momentum Open Position"
        (from_sender context) condensed expanded].

Definition handle_collect_fee : call_handler := fun context pwc =>
  let coin_1 := coin_arg pwc 0 in
  let coin_2 := coin_arg pwc 1 in
  expanded ← all_fields
    [object_field "Pool Address" context pwc 0;
     object_field "Position" context pwc 1;
     user_field context;
     create_text_field "Pool Coin A" (show_coin coin_1);
     create_text_field "Pool Coin B" (show_coin coin_2)];
  condensed ← all_fields
    [create_text_field "Summary" ("Collect fee from pool " +:+ pair_of coin_1 coin_2)];
  Ok [command_preview "Momentum Collect Fee Command" "Momentum Collect Fee"
        (from_sender context) condensed expanded].

Definition handle_collect_reward : call_handler := fun context pwc =>
  let coin_1 := coin_arg pwc 0 in
  let coin_2 := coin_arg pwc 1 in
  let reward_coin := coin_arg pwc 2 in
  expanded ← all_fields
    [object_field "Pool Address" context pwc 0;
     object_field "Position" context pwc 1;
     user_field context;
     create_text_field "Pool Coin A" (show_coin coin_1);
     create_text_field "Pool Coin B" (show_coin coin_2);
     create_text_field "Reward Coin" (show_coin reward_coin)];
  condensed ← all_fields
    [create_text_field "Summary"
       ("Collect rewards (" +:+ coin_symbol reward_coin +:+ ") from pool " +:+ pair_of coin_1 coin_2)];
  Ok [command_preview "Momentum Collect Reward Command"
        ("Momentum Collect Reward (" +:+ coin_symbol reward_coin +:+ ")")
        (from_sender context) condensed expanded].

Definition handle_trade_flash_swap : call_handler := fun context pwc =>
  let coin_1 := coin_arg pwc 0 in
  let coin_2 := coin_arg pwc 1 in
  list_layout_fields ← all_fields
    [object_field "Pool Address" context pwc 0;
     user_field context;
     create_text_field "Pool Coin A" (show_coin coin_1);
     create_text_field "Pool Coin B" (show_coin coin_2)];
  sqrt_price_limit ← getter le_u128 "sqrt_price_limit" 4 (inputs context) (arguments pwc);
  let price_limit_text := if decide (sqrt_price_limit = 0%Z) then "None" else show_Z sqrt_price_limit in
  price_limit ← create_text_field "Sqrt Price Limit" price_limit_text;
  condensed ← all_fields
    [create_text_field "Summary" ("Flash swap in pool " +:+ pair_of coin_1 coin_2)];
  Ok [command_preview "Momentum Flash Swap Command" "Momentum Flash Swap"
        (from_sender context) condensed (list_layout_fields ++ [price_limit])].

Definition handle_trade_repay_flash_swap : call_handler := fun context pwc =>
  let coin_1 := coin_arg pwc 0 in
  let coin_2 := coin_arg pwc 1 in
  expanded ← all_fields
    [object_field "Pool Address" context pwc 0;
     user_field context;
     create_text_field "Pool Coin A" (show_coin coin_1);
     create_text_field "Pool Coin B" (show_coin coin_2)];
  condensed ← all_fields
    [create_text_field "Summary" ("Repay flash swap in pool " +:+ pair_of coin_1 coin_2)];
  Ok [command_preview "Momentum Repay Flash Swap Command" "Momentum Repay Flash Swap"
        (from_sender context) condensed expanded].

Definition handle_trade_swap_receipt_debts : call_handler := fun context _ =>
  expanded ← all_fields [user_field context];
  condensed ← all_fields [create_text_field "Summary" "Compute swap receipt debts"];
  Ok [command_preview "Momentum Swap Receipt Debts Command" "Momentum Swap Receipt Debts"
        (from_sender context) condensed expanded].

Definition momentum_handler (pwc : SuiProgrammableMoveCall) : result VisualSignError call_handler :=
  m ← try_from "module" momentum_modules (module pwc);
  match m with
  | Liquidity =>
      f ← try_from "function" liquidity_functions (function pwc);
      Ok match f with
         | RemoveLiquidity => handle_remove_liquidity
         | ClosePosition => handle_close_position
         | AddLiquidity => handle_add_liquidity
         | OpenPosition => handle_open_position
         end
  | Collect =>
      f ← try_from "function" collect_functions (function pwc);
      Ok match f with Fee => handle_collect_fee | Reward => handle_collect_reward end
  | Trade =>
      f ← try_from "function" trade_functions (function pwc);
      Ok match f with
         | FlashSwap => handle_trade_flash_swap
         | RepayFlashSwap => handle_trade_repay_flash_swap
         | SwapReceiptDebts => handle_trade_swap_receipt_debts
         end
  end.

Definition MomentumVisualizer : CommandVisualizer :=
  call_visualizer MOMENTUM_CONFIG (Dex "Momentum") "Expected a `MoveCall` for Momentum parsing"
    momentum_handler.
End momentum.

(** ** What a flash swap leaves out *)

(** The field of a flash swap is made from its pool, its type arguments and its price limit. The
    direction, the kind and the amount of the swap (arguments 1 to 3) do not appear. *)
Theorem flash_swap_amount_hidden {K : SuiSdk} {E : RegexEngine} context context' pwc pwc' :
  sender context = sender context' → type_arguments pwc = type_arguments pwc' →
  get_object_value (arguments pwc) (inputs context) 0 =
    get_object_value (arguments pwc') (inputs context') 0 →
  getter le_u128 "sqrt_price_limit" 4 (inputs context) (arguments pwc) =
    getter le_u128 "sqrt_price_limit" 4 (inputs context') (arguments pwc') →
  handle_trade_flash_swap context pwc = handle_trade_flash_swap context' pwc'.
Proof.
  intros Hs Ht Hp Hl.
  unfold handle_trade_flash_swap, object_field, user_field, from_sender, coin_arg.
  by rewrite Hs, Ht, Hp, Hl.
Qed.
