(* ===== verification/SuiSuilend.v ===== *)
(** * The Suilend lending market on Sui

    [presets/suilend] of the Sui parser: the layout of its calls ([config.rs]) and a handler per
    call ([mod.rs]). *)

From S2P Require Import Prelude Json Payload Errors External Encodings Builders SuiCore.

#[local] Unset Program Cases.

(** ** Layout ([config.rs]) *)

Inductive LendingMarketFunctions : Type :=
| BorrowRequest | ClaimRewards | ClaimRewardsAndDeposit | CreateObligation
| DepositCTokensIntoObligation | DepositLiquidityAndMintCTokens | FulfillLiquidityRequest
| RebalanceStaker | RedeemCTokensAndWithdrawLiquidityRequest | RefreshReservePrice | Repay
| UnstakeSuiFromStaker | WithdrawCTokens.

Definition lending_market_functions : list (string * LendingMarketFunctions) :=
  [("borrow_request", BorrowRequest);
   ("claim_rewards", ClaimRewards);
   ("claim_rewards_and_deposit", ClaimRewardsAndDeposit);
   ("create_obligation", CreateObligation);
   ("deposit_ctokens_into_obligation", DepositCTokensIntoObligation);
   ("deposit_liquidity_and_mint_ctokens", DepositLiquidityAndMintCTokens);
   ("fulfill_liquidity_request", FulfillLiquidityRequest);
   ("rebalance_staker", RebalanceStaker);
   ("redeem_ctokens_and_withdraw_liquidity_request", RedeemCTokensAndWithdrawLiquidityRequest);
   ("refresh_reserve_price", RefreshReservePrice);
   ("repay", Repay);
   ("unstake_sui_from_staker", UnstakeSuiFromStaker);
   ("withdraw_ctokens", WithdrawCTokens)].

Definition SUILEND_CONFIG : SuiIntegrationConfigData :=
  config_new
    [("0xdf6df8a1e16c58b66d5c432cc6a5a8981c9982f111723ec0894d152be57b3e7e",
      [("lending_market", lending_market_functions.*1)])].

(** ** Handlers ([mod.rs]) *)

Section suilend.
Context {K : SuiSdk} {E : RegexEngine}.

Definition get_repay_amount (commands : list SuiCommand) (inputs : list SuiCallArg)
    (transfer_args : list SuiArgument) : result VisualSignError (option Z) :=
  i ← get_nested_result_value transfer_args 4 0;
  command_with_input_amount ← ok_or (MissingData "Command not found") (commands !! i);
  match command_with_input_amount with
  | SplitCoins _ args_with_input_index =>
      j ← get_index args_with_input_index (Some 0);
      amount_arg ← ok_or (MissingData "Amount argument not found") (inputs !! j);
      amount ← decode_number le_u64 amount_arg;
      Ok (Some amount)
  | _ => Ok None
  end.

(** The reserve that most calls name at the second of their arguments. *)
Definition reserve_array_index (context : VisualizerContext) (pwc : SuiProgrammableMoveCall)
    : result VisualSignError Z :=
  getter le_u64 "reserve_array_index" 1 (inputs context) (arguments pwc).

Definition sui_reserve_array_index (context : VisualizerContext) (pwc : SuiProgrammableMoveCall)
    : result VisualSignError Z :=
  getter le_u64 "sui_reserve_array_index" 1 (inputs context) (arguments pwc).

Definition market_field (context : VisualizerContext) (pwc : SuiProgrammableMoveCall)
    : result VisualSignError AnnotatedPayloadField :=
  object_field "Lending Market" context pwc 0.

Definition pool_field (pwc : SuiProgrammableMoveCall) : result VisualSignError AnnotatedPayloadField :=
  create_text_field "Pool Address" (show_package (package_arg pwc 0)).

Definition handle_borrow_request : call_handler := fun context pwc =>
  let coin := coin_arg pwc 1 in
  let package := package_arg pwc 0 in
  reserve_index ← reserve_array_index context pwc;
  amount ← getter le_u64 "amount" 4 (inputs context) (arguments pwc);
  condensed ← all_fields
    [create_text_field "Summary"
       ("Borrow " +:+ show_Z amount +:+ " " +:+ coin_symbol coin +:+ " from reserve #"
        +:+ show_Z reserve_index +:+ " via " +:+ show_package package)];
  expanded ← all_fields
    [market_field context pwc;
     user_field context;
     market_field context pwc;
     pool_field pwc;
     create_text_field "Borrowed Coin" (show_coin coin);
     create_text_field "Borrowed Reserve Index" (show_Z reserve_index);
     create_amount_field "Borrowed Amount" (show_Z amount) (coin_symbol coin)];
  Ok [command_preview "Suilend Borrow Request"
        ("Suilend: Borrow Request " +:+ show_Z amount +:+ " " +:+ coin_symbol coin)
        (from_sender context) condensed expanded].

Definition reward_side (is_deposit : bool) : string := if is_deposit then "Deposit" else "Borrow".

Definition handle_claim_rewards : call_handler := fun context pwc =>
  let reward_coin := coin_arg pwc 1 in
  let package := package_arg pwc 0 in
  reserve_id ← getter le_u64 "reserve_id" 3 (inputs context) (arguments pwc);
  reward_index ← getter le_u64 "reward_index" 4 (inputs context) (arguments pwc);
  is_deposit ← getter le_bool "is_deposit_reward" 5 (inputs context) (arguments pwc);
  condensed ← all_fields
    [create_text_field "Summary"
       ("Claim " +:+ reward_side is_deposit +:+ " rewards from reserve #" +:+ show_Z reserve_id
        +:+ " (reward #" +:+ show_Z reward_index +:+ ") via " +:+ show_package package)];
  expanded ← all_fields
    [market_field context pwc;
     user_field context;
     market_field context pwc;
     pool_field pwc;
     create_text_field "Reward Coin" (show_coin reward_coin);
     create_text_field "Claim Rewards Reserve Index" (show_Z reserve_id);
     create_text_field "Claim Reward Index" (show_Z reward_index);
     create_text_field "Claim Reward Side" (reward_side is_deposit)];
  Ok [command_preview "Suilend Claim Rewards"
        ("Suilend: Claim Rewards (" +:+ reward_side is_deposit +:+ ") " +:+ coin_symbol reward_coin)
        (from_sender context) condensed expanded].

Definition handle_claim_rewards_and_deposit : call_handler := fun context pwc =>
  let coin := coin_arg pwc 1 in
  let package := package_arg pwc 0 in
  reward_reserve_id ← getter le_u64 "reward_reserve_id" 3 (inputs context) (arguments pwc);
  reward_index ← getter le_u64 "reward_index" 4 (inputs context) (arguments pwc);
  is_deposit ← getter le_bool "is_deposit_reward" 5 (inputs context) (arguments pwc);
  deposit_reserve_id ← getter le_u64 "deposit_reserve_id" 6 (inputs context) (arguments pwc);
  condensed ← all_fields
    [create_text_field "Summary"
       ("Claim " +:+ reward_side is_deposit +:+ " rewards from reserve #" +:+ show_Z reward_reserve_id
        +:+ " (reward #" +:+ show_Z reward_index +:+ ") and deposit to reserve #"
        +:+ show_Z deposit_reserve_id +:+ " via " +:+ show_package package)];
  expanded ← all_fields
    [market_field context pwc;
     user_field context;
     market_field context pwc;
     pool_field pwc;
     create_text_field "Claim and Deposit Coin" (show_coin coin);
     create_text_field "Reward Side" (reward_side is_deposit);
     create_text_field "Reward Reserve Index" (show_Z reward_reserve_id);
     create_text_field "Reward Index" (show_Z reward_index);
     create_text_field "Deposit Reserve Index" (show_Z deposit_reserve_id)];
  Ok [command_preview "Suilend Claim Rewards and Deposit Command"
        ("Suilend: Claim Rewards and Deposit (" +:+ coin_symbol coin +:+ ")")
        (from_sender context) condensed expanded].

Definition handle_create_obligation : call_handler := fun context pwc =>
  condensed ← all_fields
    [create_text_field "Summary" ("Create new obligation via " +:+ show_package (package_arg pwc 0))];
  expanded ← all_fields
    [market_field context pwc; user_field context; market_field context pwc; pool_field pwc];
  Ok [command_preview "Suilend Create Obligation" "Suilend: Create Obligation"
        (from_sender context) condensed expanded].

Definition handle_deposit_ctokens_into_obligation : call_handler := fun context pwc =>
  let coin := coin_arg pwc 1 in
  let package := package_arg pwc 0 in
  reserve_index ← reserve_array_index context pwc;
  condensed ← all_fields
    [create_text_field "Summary"
       ("Deposit cTokens of " +:+ coin_symbol coin +:+ " into obligation from reserve #"
        +:+ show_Z reserve_index +:+ " via " +:+ show_package package)];
  expanded ← all_fields
    [market_field context pwc;
     user_field context;
     market_field context pwc;
     pool_field pwc;
     create_text_field "CToken (underlying)" (show_coin coin);
     create_text_field "Deposit cTokens Reserve Index" (show_Z reserve_index)];
  Ok [command_preview "Suilend Deposit cTokens"
        ("Suilend: Deposit cTokens (" +:+ coin_symbol coin +:+ ")")
        (from_sender context) condensed expanded].

Definition handle_deposit_liquidity_and_mint_ctokens : call_handler := fun context pwc =>
  let coin := coin_arg pwc 1 in
  let package := package_arg pwc 0 in
  reserve_index ← reserve_array_index context pwc;
  condensed ← all_fields
    [create_text_field "Summary"
       ("Deposit liquidity of " +:+ coin_symbol coin +:+ " into reserve #"
        +:+ show_Z reserve_index +:+ " via " +:+ show_package package)];
  expanded ← all_fields
    [market_field context pwc;
     user_field context;
     market_field context pwc;
     pool_field pwc;
     create_text_field "Deposit Liquidity and Mint cTokens Coin" (show_coin coin);
     create_text_field "Deposit Liquidity and Mint cTokens Reserve Index" (show_Z reserve_index)];
  Ok [command_preview "Suilend Deposit Liquidity"
        ("Suilend: Deposit Liquidity and Mint cTokens (" +:+ coin_symbol coin +:+ ")")
        (from_sender context) condensed expanded].

Definition handle_fulfill_liquidity_request : call_handler := fun context pwc =>
  let coin := coin_arg pwc 1 in
  reserve_index ← reserve_array_index context pwc;
  condensed ← all_fields
    [create_text_field "Summary"
       ("Fulfill liquidity request for reserve #" +:+ show_Z reserve_index +:+ " via "
        +:+ show_package (package_arg pwc 0))];
  expanded ← all_fields
    [market_field context pwc;
     user_field context;
     market_field context pwc;
     pool_field pwc;
     create_text_field "Fulfill Liquidity Coin" (show_coin coin);
     create_text_field "Fulfill Liquidity Reserve Index" (show_Z reserve_index)];
  Ok [command_preview "Suilend Fulfill Liquidity"
        ("Suilend: Fulfill Liquidity Request (" +:+ coin_symbol coin +:+ ")")
        (from_sender context) condensed expanded].

Definition handle_rebalance_staker : call_handler := fun context pwc =>
  sui_reserve_index ← sui_reserve_array_index context pwc;
  condensed ← all_fields
    [create_text_field "Summary"
       ("Rebalance SUI staker for reserve #" +:+ show_Z sui_reserve_index +:+ " via "
        +:+ show_package (package_arg pwc 0))];
  expanded ← all_fields
    [user_field context;
     market_field context pwc;
     pool_field pwc;
     create_text_field "Rebalance Staker SUI Reserve Index" (show_Z sui_reserve_index)];
  Ok [command_preview "Suilend Rebalance Staker" "Suilend: Rebalance Staker"
        (from_sender context) condensed expanded].

Definition handle_redeem_ctokens_and_withdraw_liquidity_request : call_handler := fun context pwc =>
  let coin := coin_arg pwc 1 in
  let package := package_arg pwc 0 in
  reserve_index ← reserve_array_index context pwc;
  condensed ← all_fields
    [create_text_field "Summary"
       ("Redeem cTokens of " +:+ coin_symbol coin +:+ " and withdraw liquidity from reserve #"
        +:+ show_Z reserve_index +:+ " via " +:+ show_package package)];
  expanded ← all_fields
    [user_field context;
     market_field context pwc;
     pool_field pwc;
     create_text_field "Redeem cTokens and Withdraw Liquidity Coin" (show_coin coin);
     create_text_field "Redeem cTokens and Withdraw Liquidity Reserve Index" (show_Z reserve_index)];
  Ok [command_preview "Suilend Redeem cTokens"
        ("Suilend: Redeem cTokens and Withdraw Liquidity (" +:+ coin_symbol coin +:+ ")")
        (from_sender context) condensed expanded].

Definition handle_refresh_reserve_price : call_handler := fun context pwc =>
  reserve_index ← reserve_array_index context pwc;
  condensed ← all_fields
    [create_text_field "Summary"
       ("Refresh price for reserve #" +:+ show_Z reserve_index +:+ " via "
        +:+ show_package (package_arg pwc 0))];
  expanded ← all_fields
    [user_field context;
     market_field context pwc;
     pool_field pwc;
     create_text_field "Refresh Price Reserve Index" (show_Z reserve_index)];
  Ok [command_preview "Suilend Refresh Reserve Price" "Suilend: Refresh Reserve Price"
        (from_sender context) condensed expanded].

(** The reserve is read with the getter of [refresh_reserve_price], at the same position. *)
Definition handle_repay : call_handler := fun context pwc =>
  let coin := coin_arg pwc 1 in
  let package := package_arg pwc 0 in
  reserve_index ← reserve_array_index context pwc;
  let amount :=
    match get_repay_amount (commands context) (inputs context) (arguments pwc) with
    | Ok amount => amount
    | Err _ => None
    end in
  '(title_text, amount_str, amount_field) ←
    match amount with
    | Some amount =>
        amount_field ← create_amount_field "Repay Amount" (show_Z amount) (coin_symbol coin);
        Ok ("Suilend: Repay " +:+ show_Z amount +:+ " " +:+ coin_symbol coin, show_Z amount, amount_field)
    | None =>
        amount_field ← create_text_field "Repay Amount" "N/A";
        Ok ("Suilend: Repay " +:+ "N/A" +:+ " " +:+ coin_symbol coin, "N/A", amount_field)
    end;
  let summary :=
    "Repay " +:+ amount_str +:+ " " +:+ coin_symbol coin +:+ " via " +:+ show_package package
    +:+ " (reserve #" +:+ show_Z reserve_index +:+ ")" in
  condensed ← all_fields [create_text_field "Summary" summary];
  expanded ← all_fields
    [user_field context;
     market_field context pwc;
     pool_field pwc;
     create_text_field "Repay Coin" (show_coin coin);
     Ok amount_field;
     create_text_field "Repay Reserve Index" (show_Z reserve_index)];
  Ok [command_preview "Suilend Repay Command" title_text (from_sender context) condensed expanded].

Definition handle_unstake_sui_from_staker : call_handler := fun context pwc =>
  sui_reserve_index ← sui_reserve_array_index context pwc;
  condensed ← all_fields
    [create_text_field "Summary"
       ("Unstake SUI from staker (reserve #" +:+ show_Z sui_reserve_index +:+ ") via "
        +:+ show_package (package_arg pwc 0))];
  expanded ← all_fields
    [user_field context;
     market_field context pwc;
     pool_field pwc;
     create_text_field "Unstake SUI from Staker Reserve Index" (show_Z sui_reserve_index)];
  Ok [command_preview "Suilend Unstake SUI" "Suilend: Unstake SUI from Staker"
        (from_sender context) condensed expanded].

Definition handle_withdraw_ctokens : call_handler := fun context pwc =>
  let coin := coin_arg pwc 1 in
  let package := package_arg pwc 0 in
  reserve_index ← reserve_array_index context pwc;
  amount ← getter le_u64 "amount" 4 (inputs context) (arguments pwc);
  condensed ← all_fields
    [create_text_field "Summary"
       ("Withdraw " +:+ show_Z amount +:+ " cTokens (" +:+ coin_symbol coin +:+ ") from reserve #"
        +:+ show_Z reserve_index +:+ " via " +:+ show_package package)];
  expanded ← all_fields
    [user_field context;
     market_field context pwc;
     pool_field pwc;
     create_text_field "Withdraw cTokens Coin" (show_coin coin);
     create_amount_field "Withdraw cTokens Amount" (show_Z amount) (coin_symbol coin);
     create_text_field "Withdraw cTokens Reserve Index" (show_Z reserve_index)];
  Ok [command_preview "Suilend Withdraw cTokens"
        ("Suilend: Withdraw cTokens (" +:+ coin_symbol coin +:+ ")")
        (from_sender context) condensed expanded].

Definition suilend_handler (pwc : SuiProgrammableMoveCall) : result VisualSignError call_handler :=
  f ← try_from "function" lending_market_functions (function pwc);
  Ok match f with
     | BorrowRequest => handle_borrow_request
     | ClaimRewards => handle_claim_rewards
     | Repay => handle_repay
     | ClaimRewardsAndDeposit => handle_claim_rewards_and_deposit
     | CreateObligation => handle_create_obligation
     | DepositCTokensIntoObligation => handle_deposit_ctokens_into_obligation
     | DepositLiquidityAndMintCTokens => handle_deposit_liquidity_and_mint_ctokens
     | FulfillLiquidityRequest => handle_fulfill_liquidity_request
     | RebalanceStaker => handle_rebalance_staker
     | RedeemCTokensAndWithdrawLiquidityRequest => handle_redeem_ctokens_and_withdraw_liquidity_request
     | RefreshReservePrice => handle_refresh_reserve_price
     | UnstakeSuiFromStaker => handle_unstake_sui_from_staker
     | WithdrawCTokens => handle_withdraw_ctokens
     end.

Definition SuilendVisualizer : CommandVisualizer :=
  call_visualizer SUILEND_CONFIG (Lending "Suilend") "Expected a `MoveCall` for Suilend parsing"
    suilend_handler.
End suilend.

(** ** Amounts of the market *)

(** The amount of a repayment is read off the first coin of the split it refers to, whichever of
    the coins of that split is repaid. *)
Theorem repay_amount_first_split {K : SuiSdk} commands inputs args c k coin i rest a z :
  args !! 4 = Some (NestedResult c k) → commands !! c = Some (SplitCoins coin (Input i :: rest)) →
  inputs !! i = Some a → decode_number le_u64 a = Ok z →
  get_repay_amount commands inputs args = Ok (Some z).
Proof.
  intros Ha Hc Hi Hz. unfold get_repay_amount, get_nested_result_value. rewrite Ha. cbn.
  rewrite Hc. cbn. rewrite Hi. cbn. by rewrite Hz.
Qed.

(** A borrowed amount of SUI is the input in its base unit, and is labelled SUI: the other presets
    label the same number MIST. *)
Theorem borrow_amount_unit {K : SuiSdk} {E : RegexEngine} context pwc market fields :
  type_arguments pwc = [market; "0x2::sui::SUI"] →
  handle_borrow_request context pwc = Ok fields →
  ∃ amount f, param_is le_u64 context pwc 4 amount ∧ fields = [f] ∧
    last (expanded_of f) = Some (amount_row "Borrowed Amount" amount "SUI") ∧
    base_unit_symbol (coin_arg pwc 1) = "MIST".
Proof.
  intros Ht. unfold handle_borrow_request.
  assert (coin_arg pwc 1 = MkSuiCoin "0x2" "sui" "SUI") as -> by (unfold coin_arg; by rewrite Ht).
  intros (reserve & _ & (amount & Ha%getter_Ok & (cs & _ & (rows & Hrows & [= <-])%result_bind_Ok)%result_bind_Ok)%result_bind_Ok)%result_bind_Ok.
  unfold all_fields in Hrows. apply collect_results_Ok in Hrows. decompose_Forall_hyps.
  exists amount. eexists. split_and!; [done|done| |done]. cbv [id] in *.
  repeat match goal with H : create_amount_field _ _ _ = Ok _ |- _ => apply create_amount_field_row in H as -> end.
  done.
Qed.
