(* ===== verification/SuiConvert.v ===== *)
(** * The Sui converter

    The presets that [build.rs] collects, [core/commands.rs], [core/transaction] and
    [core/visualsign.rs] of the Sui parser: from the input to the payload. Transactions, their BCS
    codec and their reading as block data are the class [SuiCodec]. *)

From S2P Require Import Prelude Json Payload Errors Charset External Encodings Builders Registry PlainText.
From S2P Require Import SuiCore SuiTransfers SuiCetus SuiMomentum SuiSuilend.

#[local] Unset Program Cases.

(** ** Transactions *)

(** [TransactionData] with BCS, which reads back what it writes; [SenderSignedData] is read for its
    transaction; [try_from_with_module_cache] asks a resolver for modules. *)
Class SuiCodec : Type := {
  TransactionData : Type;
  ModuleId : Type;
  bcs_sender_signed : bytes → option TransactionData;
  bcs_transaction_data : bytes → option TransactionData;
  bcs_to_bytes : TransactionData → option bytes;
  try_from_with_module_cache :
    TransactionData → (ModuleId → result string (option bytes)) → result string SuiTransactionBlockData;
  bcs_reads t bs : bcs_to_bytes t = Some bs → bcs_transaction_data bs = Some t;
}.

(** ** The presets ([build.rs]) *)

(** Every folder of [presets] but [coin_transfer]; the order is that of the file system. *)
Definition preset_visualizers {K : SuiSdk} {E : RegexEngine} : list CommandVisualizer :=
  [CetusVisualizer; MomentumVisualizer; SuiNativeStakingVisualizer; SuilendVisualizer].

(** ** Commands ([core/commands.rs]) *)

Definition decode_commands (available_visualizers : list CommandVisualizer)
    (block_data : SuiTransactionBlockData) : result VisualSignError (list AnnotatedPayloadField) :=
  visualize_commands available_visualizers block_data.

Definition decode_transfers {K : SuiSdk} {E : RegexEngine} (block_data : SuiTransactionBlockData)
    : result VisualSignError (list AnnotatedPayloadField) :=
  visualize_commands [CoinTransferVisualizer] block_data.

(** ** Transactions ([core/transaction]) *)

Definition determine_transaction_type_string (tx_data : SuiTransactionBlockData) : string :=
  match transaction tx_data with
  | ProgrammableTransaction _ _ => "Programmable Transaction"
  | ChangeEpoch => "Change Epoch"
  | Genesis => "Genesis"
  | ConsensusCommitPrologue => "Consensus Commit"
  | AuthenticatorStateUpdate => "Authenticator State Update"
  | RandomnessStateUpdate => "Randomness State Update"
  | EndOfEpochTransaction => "End of Epoch Transaction"
  | ConsensusCommitPrologueV2 => "Consensus Commit Prologue V2"
  | ConsensusCommitPrologueV3 => "Consensus Commit Prologue V3"
  | ConsensusCommitPrologueV4 => "Consensus Commit Prologue V4"
  | ProgrammableSystemTransaction => "Programmable System Transaction"
  end.

Section convert.
Context {M : SerdeMap} {F : JsonFormat} {J : JsonErrorText}.
Context {K : SuiSdk} {E : RegexEngine} {H : HexCodec} {C : SuiCodec}.
Context (show_hex : FromHexError → string) (b64_decode : string → result string bytes).
Context (available_visualizers : list CommandVisualizer).

Definition decode_transaction (raw_transaction : string) (encodings : SupportedEncodings)
    : result TransactionParseError TransactionData :=
  if is_empty_string raw_transaction then Err (ParseDecodeError "Transaction is empty")
  else
    bs ← match encodings with
         | Base64 => map_err ParseDecodeError (b64_decode raw_transaction)
         | Hex => map_err (fun e => ParseDecodeError (show_hex e)) (decode_hex raw_transaction)
         end;
    match bcs_sender_signed bs with
    | Some t => Ok t
    | None =>
        ok_or (ParseDecodeError ("Unable to decode transaction data as either "
                                 +:+ "`SenderSignedData` or `TransactionData`"))
          (bcs_transaction_data bs)
    end.

Definition sui_from_string (data : string) : result TransactionParseError TransactionData :=
  map_err (fun e => ParseDecodeError (show_parse_error e)) (decode_transaction data (detect data)).

Definition get_tx_network : result VisualSignError AnnotatedPayloadField :=
  create_text_field "Network" "Sui Network".

Definition create_tx_type_fields (block_data : SuiTransactionBlockData)
    : result VisualSignError AnnotatedPayloadField :=
  create_text_field "Transaction Type" (determine_transaction_type_string block_data).

Definition create_tx_gas_fields (block_data : SuiTransactionBlockData)
    : result VisualSignError (list AnnotatedPayloadField) :=
  all_fields
    [address_field "Gas Owner" (gas_owner (gas_data block_data));
     create_amount_field "Gas Budget" (show_Z (gas_budget (gas_data block_data))) "MIST";
     create_amount_field "Gas Price" (show_Z (gas_price (gas_data block_data))) "MIST"].

Definition create_tx_data_fields (tx_data : TransactionData)
    : result VisualSignError (list AnnotatedPayloadField) :=
  match bcs_to_bytes tx_data with
  | Some encoded => all_fields [create_raw_data_field encoded None]
  | None => Ok []
  end.

Definition get_tx_details (tx_data : TransactionData) (block_data : SuiTransactionBlockData)
    : result VisualSignError AnnotatedPayloadField :=
  type_field ← create_tx_type_fields block_data;
  gas_fields ← create_tx_gas_fields block_data;
  data_fields ← create_tx_data_fields tx_data;
  condensed ← all_fields
    [create_tx_type_fields block_data;
     create_amount_field "Gas Budget" (show_Z (gas_budget (gas_data block_data))) "MIST"];
  Ok (command_preview "Transaction Details" "Transaction Details"
        ("Gas: " +:+ show_Z (gas_budget (gas_data block_data)) +:+ " MIST")
        condensed (type_field :: gas_fields ++ data_fields)).

(** [SuiModuleResolver]: no modules. *)
Definition get_module (_ : ModuleId) : result string (option bytes) := Ok None.

Definition convert_to_visual_sign_payload (tx : TransactionData) (with_transfers : bool)
    (title : option string) : result VisualSignError SignablePayload :=
  block_data ← map_err (fun e => ParseError (ParseDecodeError e))
                 (try_from_with_module_cache tx get_module);
  network ← get_tx_network;
  transfers ← (if with_transfers then decode_transfers block_data else Ok []);
  calls ← decode_commands available_visualizers block_data;
  details ← get_tx_details tx block_data;
  Ok (SignablePayload_new 0 (default (determine_transaction_type_string block_data) title) None
        (signable_payload_field <$> network :: transfers ++ calls ++ [details]) "Sui").

Definition sui_to_payload (tx : TransactionData) (options : VisualSignOptions)
    : result VisualSignError ConversionResult :=
  payload ← convert_to_visual_sign_payload tx (Registry.decode_transfers options)
              (transaction_name options);
  Ok (ConversionResult_new payload).

Definition sui_converter : converter TransactionData :=
  default_converter sui_from_string sui_to_payload.

Definition transaction_to_visual_sign (tx : TransactionData) (options : VisualSignOptions)
    : result VisualSignError SignablePayload :=
  payload <$> to_visual_sign_payload _ sui_converter tx options.

Definition transaction_string_to_visual_sign (data : string) (options : VisualSignOptions)
    : result VisualSignError SignablePayload :=
  payload <$> to_visual_sign_payload_from_string _ sui_converter data options.
End convert.

(** ** Presets *)

Section presets.
Context {K : SuiSdk} {E : RegexEngine}.

(** The handler of each preset, behind its configuration. *)
Lemma call_visualizer_package id modules kind missing handler context :
  NoDup modules.*1 →
  can_handle (call_visualizer (config_new [(id, modules)]) kind missing handler) context = true ↔
  ∃ pwc, commands context !! command_index context = Some (MoveCall pwc) ∧
    to_hex_literal (package pwc) = id ∧ ∃ fs, (module pwc, fs) ∈ modules ∧ function pwc ∈ fs.
Proof.
  intros Hnd. cbn [can_handle call_visualizer default_can_handle].
  destruct (commands context !! command_index context) as [[pwc| | | | | |]|]; [|naive_solver..].
  rewrite config_new_exact by done. naive_solver.
Qed.

(** At most one preset handles a command: their packages differ. *)
Lemma presets_exclusive context :
  length (filter (fun v => can_handle v context = true) preset_visualizers) ≤ 1.
Proof.
  unfold preset_visualizers. rewrite !filter_cons, filter_nil.
  repeat case_decide; cbn [length]; try lia; exfalso;
    repeat match goal with
    | H : can_handle _ context = true |- _ => apply call_visualizer_package in H as (? & ? & ? & _); [|by_decision]
    end; congruence.
Qed.

Lemma decode_commands_perm vs block :
  preset_visualizers ≡ₚ vs → decode_commands vs block = decode_commands preset_visualizers block.
Proof.
  intros Hp. symmetry. apply visualize_commands_ext. intros context.
  apply visualize_with_any_perm; [apply presets_exclusive|done].
Qed.

(** What a preset claims it handles: the call has a handler, and the preset returns its result. *)
Definition dispatches (v : CommandVisualizer)
    (handler : SuiProgrammableMoveCall → result VisualSignError call_handler) : Prop :=
  ∀ context, can_handle v context = true →
    ∃ pwc h, commands context !! command_index context = Some (MoveCall pwc) ∧ handler pwc = Ok h ∧
      visualize_tx_commands v context = h context pwc.

Lemma call_visualizer_dispatches id modules kind missing handler :
  NoDup modules.*1 →
  (∀ pwc fs, (module pwc, fs) ∈ modules → function pwc ∈ fs → is_ok (handler pwc) = true) →
  dispatches (call_visualizer (config_new [(id, modules)]) kind missing handler) handler.
Proof.
  intros Hnd Hall context (pwc & Hc & _ & fs & Hm & Hf)%call_visualizer_package; [|done].
  specialize (Hall pwc fs Hm Hf). destruct (handler pwc) as [h|] eqn:Hh; [|done].
  exists pwc, h. split_and!; [done..|]. cbn. by rewrite Hc, Hh.
Qed.

Ltac declared :=
  apply call_visualizer_dispatches; [by_decision|]; intros [pkg m f ts args] fs Hm Hf; cbn [module function] in *;
  repeat (apply elem_of_cons in Hm as [[= -> ->]|Hm];
          [repeat (apply elem_of_cons in Hf as [->|Hf]; [reflexivity|]); by apply elem_of_nil in Hf|]);
  by apply elem_of_nil in Hm.

(** Every call that a preset declares has a handler. *)
Theorem declared_calls_handled :
  dispatches CetusVisualizer cetus_handler ∧ dispatches MomentumVisualizer momentum_handler ∧
  dispatches SuiNativeStakingVisualizer staking_handler ∧ dispatches SuilendVisualizer suilend_handler.
Proof. split_and!; declared. Qed.
End presets.

(** ** Payloads *)

Section payloads.
Context {M : SerdeMap} {F : JsonFormat} {J : JsonErrorText}.
Context {K : SuiSdk} {E : RegexEngine} {H : HexCodec} {C : SuiCodec}.
Context (show_hex : FromHexError → string) (b64_decode : string → result string bytes).

Lemma convert_perm vs tx with_transfers title :
  preset_visualizers ≡ₚ vs →
  convert_to_visual_sign_payload vs tx with_transfers title =
  convert_to_visual_sign_payload preset_visualizers tx with_transfers title.
Proof.
  intros Hp. unfold convert_to_visual_sign_payload.
  destruct (map_err _ _) as [block|]; [|done]. cbn [mbind result_bind].
  by rewrite (decode_commands_perm vs).
Qed.

(** C31: The order in which the build finds the Sui presets does not matter. Whatever order the file
    system lists their folders in, every input gives the same payload or the same error, because
    no two presets handle the same call. *)
Theorem sui_presets_order_free vs data options :
  preset_visualizers ≡ₚ vs →
  transaction_string_to_visual_sign show_hex b64_decode vs data options =
  transaction_string_to_visual_sign show_hex b64_decode preset_visualizers data options.
Proof.
  intros Hp. unfold transaction_string_to_visual_sign.
  cbn [to_visual_sign_payload_from_string sui_converter default_converter].
  unfold default_from_string, default_to_validated, sui_to_payload.
  destruct (map_err _ _) as [t|]; [|done]. cbn [mbind result_bind]. by rewrite (convert_perm vs).
Qed.

(** The rows of the details, with the transaction itself as the last when BCS can write it. *)
Definition details_rows (block : SuiTransactionBlockData) (encoded : option bytes)
    : list AnnotatedPayloadField :=
  [text_row "Transaction Type" (determine_transaction_type_string block);
   address_row "Gas Owner" (gas_owner (gas_data block));
   amount_row "Gas Budget" (gas_budget (gas_data block)) "MIST";
   amount_row "Gas Price" (gas_price (gas_data block)) "MIST"]
  ++ match encoded with Some bs => [text_row "Raw Data" (hex_encode bs)] | None => [] end.

Lemma details_rows_shown tx block f :
  get_tx_details tx block = Ok f → expanded_of f = details_rows block (bcs_to_bytes tx).
Proof.
  unfold get_tx_details, create_tx_gas_fields, all_fields.
  intros (t & [= <-] & (gas & Hgas%collect_results_Ok & (data & Hdata & (cs & _ & Hf)%result_bind_Ok)%result_bind_Ok)%result_bind_Ok)%result_bind_Ok.
  assert (data = match bcs_to_bytes tx with Some bs => [text_row "Raw Data" (hex_encode bs)] | None => [] end) as ->.
  { unfold create_tx_data_fields in Hdata. destruct (bcs_to_bytes tx) as [bs|]; [|by injection Hdata as <-].
    rewrite <-default_hex_encode. by injection Hdata as <-. }
  decompose_Forall_hyps. cbv [id] in *.
  repeat match goal with H : create_amount_field _ _ _ = Ok _ |- _ => apply create_amount_field_row in H as -> end.
  unfold address_field, create_address_field in *. simplify_eq. reflexivity.
Qed.

Lemma details_rows_inj block block' e e' :
  details_rows block e = details_rows block' e' → gas_data block = gas_data block' ∧ e = e'.
Proof.
  intros Eq. apply app_inj_1 in Eq as [Eg Ed]; [|done]. split.
  - unfold text_row, address_row, amount_row, annotate_field, text_v2, address_v2 in Eg.
    destruct block as [? ? [o p b]], block' as [? ? [o' p' b']]. cbn [gas_data gas_owner gas_budget gas_price] in *.
    f_equal; [apply show_address_inj|apply show_Z_inj..]; congruence.
  - destruct e as [bs|], e' as [bs'|]; try done. f_equal. apply hex_encode_inj.
    unfold text_row, annotate_field, text_v2 in Ed. congruence.
Qed.

(** The last field of a payload. *)
Lemma convert_last vs tx w title p :
  convert_to_visual_sign_payload vs tx w title = Ok p →
  ∃ block f, try_from_with_module_cache tx get_module = Ok block ∧ get_tx_details tx block = Ok f ∧
    last (payload_fields p) = Some (signable_payload_field f).
Proof.
  unfold convert_to_visual_sign_payload.
  intros (block & Hb%map_err_Ok & (n & _ & (ts & _ & (cs & _ & (f & Hf & Hp)%result_bind_Ok)%result_bind_Ok)%result_bind_Ok)%result_bind_Ok)%result_bind_Ok.
  exists block, f. split_and!; [done..|].
  assert (payload_fields p = signable_payload_field <$> (n :: ts ++ cs) ++ [f]) as ->.
  { rewrite <-app_comm_cons, <-app_assoc. by injection Hp as <-. }
  rewrite fmap_app. apply last_snoc.
Qed.

(** C32: What is signed determines a Sui transaction. Two transactions whose payloads have the same
    fields, whatever the options and the presets, have the same gas owner, price and budget and
    the same encoding, and are the same transaction when there is one: the commands that no preset
    shows included. *)
Theorem sui_payload_determines vs vs' tx tx' w w' title title' p p' :
  convert_to_visual_sign_payload vs tx w title = Ok p →
  convert_to_visual_sign_payload vs' tx' w' title' = Ok p' →
  payload_fields p = payload_fields p' →
  gas_data <$> try_from_with_module_cache tx get_module =
    gas_data <$> try_from_with_module_cache tx' get_module ∧
  bcs_to_bytes tx = bcs_to_bytes tx' ∧ (is_Some (bcs_to_bytes tx) → tx = tx').
Proof.
  intros (block & f & Hb & Hf%details_rows_shown & Hl)%convert_last
    (block' & f' & Hb' & Hf'%details_rows_shown & Hl')%convert_last Eq.
  assert (expanded_of f = expanded_of f') as Ef.
  { unfold expanded_of. rewrite Eq, Hl' in Hl. by injection Hl as ->. }
  rewrite Hf, Hf' in Ef. apply details_rows_inj in Ef as [Eg Ee].
  split_and!; [rewrite Hb, Hb'; cbn; by rewrite Eg|done|].
  intros [bs Hbs]. pose proof (bcs_reads _ _ Hbs) as Hr. rewrite Ee in Hbs.
  apply bcs_reads in Hbs. congruence.
Qed.

(** A command that no preset handles leaves no field behind. *)
Lemma unhandled_commands_hidden vs block inputs commands :
  transaction block = ProgrammableTransaction inputs commands →
  (∀ v i, v ∈ vs → can_handle v (MkContext (block_sender block) i commands inputs) = false) →
  visualize_commands vs block = Ok [].
Proof.
  intros Ht Hn. unfold visualize_commands. rewrite Ht.
  assert (∀ (l : list (nat * SuiCommand)), omap (fun '(i, _) => visualize_with_any vs
    (MkContext (block_sender block) i commands inputs)) l = []) as ->; [|done].
  induction l as [|[i c] l IH]; [done|]. cbn.
  assert (visualize_with_any vs (MkContext (block_sender block) i commands inputs) = None) as ->; [|exact IH].
  rewrite visualize_with_any_filter, list_filter_none; [done|].
  intros v Hv. by rewrite Hn.
Qed.
End payloads.

(** ** Samples *)

(** Transactions are their own encoding, and all hold the sample transfer. *)
Program Definition sample_codec : SuiCodec := {|
  TransactionData := bytes;
  ModuleId := ();
  bcs_sender_signed _ := None;
  bcs_transaction_data := Some;
  bcs_to_bytes := Some;
  try_from_with_module_cache bs _ :=
    Ok (MkBlockData (ProgrammableTransaction sample_inputs sample_commands) [Byte.x01]
          (MkGasData [Byte.x01] 3 5)) |}.
Next Obligation. congruence. Qed.

Definition sample_options : VisualSignOptions := MkOptions true None None None false.

Lemma sui_presets_order_free_witness :
  transaction_string_to_visual_sign (M:=btree_map) (F:=compact_format) (J:=fun _ => "e") (K:=sample_sdk)
    (E:=derivative_engine) (H:=hex_ref) (C:=sample_codec) (fun _ => "hex") (fun s => Ok (as_bytes s))
    (reverse (preset_visualizers (K:=sample_sdk) (E:=derivative_engine))) "0x01" sample_options =
  transaction_string_to_visual_sign (M:=btree_map) (F:=compact_format) (J:=fun _ => "e") (K:=sample_sdk)
    (E:=derivative_engine) (H:=hex_ref) (C:=sample_codec) (fun _ => "hex") (fun s => Ok (as_bytes s))
    (preset_visualizers (K:=sample_sdk) (E:=derivative_engine)) "0x01" sample_options.
Proof.
  apply (sui_presets_order_free (M:=btree_map) (F:=compact_format) (J:=fun _ => "e") (K:=sample_sdk)
    (E:=derivative_engine) (H:=hex_ref) (C:=sample_codec)). symmetry. apply reverse_Permutation.
Defined.

Lemma sui_payload_determines_witness :
  ∃ p p',
    convert_to_visual_sign_payload (K:=sample_sdk) (E:=derivative_engine) (C:=sample_codec)
      (preset_visualizers (K:=sample_sdk) (E:=derivative_engine)) [Byte.x07] true None = Ok p ∧
    convert_to_visual_sign_payload (K:=sample_sdk) (E:=derivative_engine) (C:=sample_codec)
      [] [Byte.x07] true (Some "title") = Ok p' ∧
    bcs_to_bytes (SuiCodec:=sample_codec) [Byte.x07] = bcs_to_bytes (SuiCodec:=sample_codec) [Byte.x07].
Proof.
  assert (∃ p p',
    convert_to_visual_sign_payload (K:=sample_sdk) (E:=derivative_engine) (C:=sample_codec)
      (preset_visualizers (K:=sample_sdk) (E:=derivative_engine)) [Byte.x07] true None = Ok p ∧
    convert_to_visual_sign_payload (K:=sample_sdk) (E:=derivative_engine) (C:=sample_codec)
      [] [Byte.x07] true (Some "title") = Ok p' ∧ payload_fields p = payload_fields p')
    as (p & p' & Hp & Hp' & Eq) by (eexists _, _; split_and!; vm_compute; reflexivity).
  exists p, p'. split_and!; [exact Hp|exact Hp'|].
  exact (proj1 (proj2 (sui_payload_determines (K:=sample_sdk) (E:=derivative_engine) (H:=hex_ref)
    (C:=sample_codec) _ _ _ _ _ _ _ _ p p' Hp Hp' Eq))).
Defined.
